(* ===== verification/_CoqProject ===== *)
-Q . S2P
Prelude.v
CString.v
Locks.v
DevHlp.v
Gdt.v
Memory.v
Heap.v
MemLock.v
Irq.v
DevTable.v
DaemonQueue.v
DosApi.v
DaemonCmd.v
DaemonTurn.v
DosCalls.v
ResMgr.v
Param.v
Ioctl.v
Mmap.v
Segments.v
FileIO.v
Script.v
WaitOn.v
ScrIO.v
LxafsDate.v
LxafsName.v
VSprintf.v
TextParse.v
EaStore.v
LxafsLinks.v
LxafsInode.v
LxafsFile.v
LxafsDir.v
LxafsVfs.v
LxafsAccount.v
Total.v
PageAlloc.v
Thread.v
Process.v
ProcessTable.v
Timer.v
TimerWheel.v
RbTree.v
RbTreeSpec.v
RbTreeErase.v
