(* ===== verification/Prelude.v ===== *)
(** * LXAPI32.SYS: a verification development

    LXAPI32.SYS is an OS/2 device driver that offers a Linux 2.6 kernel API to
    other drivers and to programs.  This library models the parts that are the
    project's own: the C files of src/Dev32 and src/Daemon; from src/os2, the
    string library, segments, waiting, the file access of the kernel, start
    scripts, the console, the tables of tasks, the starting of threads, pages, the
    kernel's timers and the file system LXAFS; from src/Linux/lib, the contended semaphore, memory mapped
    into processes, formatted text in both directions, the command line parsers
    and the red-black trees.

    ** The program and how its parts interact

    Programs and drivers reach the driver through two devices, LXAPI$ and
    LXUTL$.  The strategy entry keeps the list of open files and hands ioctls
    to a dispatcher.  The driver's memory comes from the device helper
    DevHlp_VMAlloc; each object is recorded in a list under a spin lock, and
    kmalloc and kfree are that list's operations.  The OS/2 file API can not
    be called from a driver.  A wrapper (LX_DOSOPEN, LX_DOSREAD, ...) puts a
    command with a data structure into a queue; a daemon process fetches it
    with one ioctl, runs the command's handler, and sends the structure and
    the code back with another; the wrapper, which blocks meanwhile, unpacks
    the answer.  The files of os2/os2 are the clients of all this: the kernel
    reads and writes files through the wrappers, and a start script goes
    through that file access.  LXAFS shows OS/2 files and directories as a
    Linux file system: files and directories are read with the wrappers; mode,
    owner, group and the list of links of a file are kept in its extended
    attributes, and a link is a file of its own that names its master.

    ** Files

    - [Prelude]: machine integers, lists, little-endian fields, monads and the
      tactics and hints of the library.
    - [CString]: os2/lib/ol_string.c; every function of the file.
    - [Locks]: Dev32/lxszopt.c (atomics, big kernel lock, semaphores, spin and
      rw locks) and _down and _down_interruptible of
      Linux/lib/ll_semaphore.c, as step relations with interleaved threads.
    - [DevHlp]: interface to the device helpers (class [DevVM], laws
      [DevVMLaws]) and a small world [sim] that satisfies the laws.
    - [Gdt]: LX_allocGDTSelector and LX_freeGDTSelector of Dev32/lxmemory.c.
    - [Memory]: the rest of Dev32/lxmemory.c and the aligned allocation of
      Dev32/lxstack.asm.  State [lxm]: memobjs, memlist_lock, flags, the
      operating system's world.
    - [Heap]: kmalloc and kfree as a class with laws.  [Memory] implements it;
      [MemLock], [DevTable], [DaemonQueue], [DaemonCmd] and [DosCalls] are its
      clients and are proved against the class.
    - [MemLock]: Dev32/lxmemlock.c.
    - [Irq]: Dev32/lxdispatch.c.
    - [DevTable]: Dev32/lxstrategy.c and its dispatch table.
    - [DaemonQueue]: the command queue, Dev32/lxdaemon.c from its top to
      LX_dmn_get_result, and the step system [rpc_step] of callers and daemon.
    - [DosApi]: the OS/2 API the daemon calls, as a class; [disk] is a small
      instance.
    - [DaemonCmd]: Daemon/lxapid.c, lxapid_cmd.c, lxerrmap.c: handlers,
      command table, command loop, log files, main.
    - [DosCalls]: the wrappers LX_DOS... of Dev32/lxdaemon.c, composed with
      the daemon's handlers.
    - [ResMgr]: Dev32/lxrm.c and the adjunct chain of Dev32/lxrmcall.asm.
    - [Param]: Dev32/lxparam.c.
    - [Ioctl]: Dev32/lxioctl.c, lxuioctl.c, lxustrat.c.
    - [DaemonTurn]: the two ioctls of the daemon around one command, composed
      from [DaemonQueue] and [DaemonCmd].
    - [Mmap]: Linux/lib/ll_mmap.c over [Heap] and the paging of [DevHlp].
    - [Segments]: Dev32/lxsegments.c over [Memory], [Gdt] and [MemLock].
    - [FileIO]: os2/os2/oo_fileio.c; the wrappers and the security helpers are
      one interface [SioDev].
    - [Script]: os2/os2/oo_script.c.
    - [WaitOn]: Dev32/lxwaiton.c, blocking and timers.
    - [ScrIO]: os2/os2/oo_scrio.c; the screen is a list of cells.
    - [LxafsDate], [LxafsName]: the dates and paths of oofl_misc.c, and
      oofl_name.c and oofl_dentry.c, of os2/os2/fs/lxafs.
    - [VSprintf]: Linux/lib/ll_vsprintf.c, its output side and the numbers.
    - [TextParse]: vsscanf of the same file, ll_cmdline.c, ll_parser.c.
    - [EaStore]: the laws of the attribute calls as LXAFS needs them, and a disk
      with attributes that satisfies them.
    - [LxafsLinks]: lists of links (oofl_misc.c) and their attributes
      (oofl_io.c).  [LxafsInode]: reading and writing of inodes (oofl_io.c,
      oofl_inode.c).  [LxafsFile]: oofl_file.c.  [LxafsDir]: the open, reading
      and release of directories in oofl_dir.c.
    - [LxafsVfs]: the operations on directory entries of oofl_dir.c, inodes and
      super block of oofl_inode.c, and what they call in Linux/fs; the state
      [mount] is one mounted file system over the driver.
    - [LxafsAccount]: memory and locks over these operations; renaming.
    - [Process]: os2/os2/oo_process.c: the tasks of the OS/2 threads inside the
      driver, the stacks of programs, the task that runs.  The scheduler of
      Linux is the class [Sched].  [ProcessTable] holds its theorems, with the
      program logic of [Total].
    - [Thread]: os2/os2/oo_thread.c and the stub of a new thread
      (Dev32/lxthreads.asm); callers, service thread and stubs interleave.
    - [PageAlloc]: the pages of os2/mm/om_page_alloc.c over [Heap].
    - [Timer], [TimerWheel]: the timers of os2/kernel/ok_timer.c.
    - [RbTree]: Linux/lib/ll_rbtree.c.  [RbTreeSpec]: trees in memory, the rules,
      insertion; [RbTreeErase]: removal, walking, replacing.

    ** How state and effects are modelled

    An address is a [Z]; NULL is 0.  A w-bit integer is a [Z] with its
    wrap-around written out ([u8] ... [s32] below).  Each component's globals
    are a record, and its functions are state-passing functions, in a small
    state and error monad where calls are chained.  What C leaves undefined
    (an access outside the mapped memory, an overrun field) and a spin lock
    taken twice are error results, never default values.  A critical section
    is one atomic step; what runs outside it interleaves.  Code outside src/ is
    a type class: operations, and where a theorem needs documented behaviour,
    a class of laws with an instance on a small concrete system.

    ** What the theorems show

    - Memory: allocation and release refine a finite map of objects and leak no
      node on any path; the list returns to what it was; address translation
      round-trips; initialisation moves the objects.  Three theorems record
      how LX__pa deadlocks, LX__va leaks, and LX_wait_for_stable_memstat
      always succeeds.
    - Command queue: in every reachable state a caller receives the answer to
      its own command; no command is lost or duplicated between the queue, the
      daemon and the finished list; closing the daemon flushes as specified.
    - Calls: each wrapper with its handler runs exactly the intended API call
      and gives back its result and data; what happens without a daemon and
      with names that do not fit.
    - Locks: mutual exclusion, the number of semaphore holders, nesting of the
      big kernel lock.  Interrupts: a line is registered when its count is
      positive.
    - Ioctls leave no segment locked, whatever the function; parameters are the
      blank-separated words of the line; adjunct chains are unpacked to the
      list they were packed from; pinned memory ranges nest.
    - Text: vsnprintf is the specified text cut to the buffer; what sprintf
      prints, sscanf and simple_strtoul read back; options and lists of the
      command line.
    - Segments and mappings: attaching and locking undo each other and leak
      nothing; mappings of a process are disjoint and its own.
    - Console: what is put appears at the cursor and nowhere else; scrolling;
      a start script runs its lines in order.
    - LXAFS: dates, names and paths round-trip; the order of names; the links,
      the owner and the mode of a file are read back as they were written,
      whatever was stored before; what is written to a file is read back;
      readdir lists every entry once, however it is called.  Any sequence of
      directory operations accounts for its blocks and locks, with two named
      exceptions ([may_leak]); which names a rename changes.
    - Tasks: however threads enter and leave, those inside have a task of their
      own, linked both ways, and the memory returns; interrupts run as the task
      they interrupt; what has ended is freed once.
    - Threads: in every interleaving each thread runs what its own request asked
      for, callers get their own thread's id, and the queue is worked off;
      what happens when a thread can not be created.
    - Pages: allocation, freeing in parts, references and translation refine a
      map of blocks with counts.
    - Timers: running them ends whatever their functions do; each runs once, at
      exactly its tick, or is pending still.
    - Red-black trees: insertion and removal keep the order of the nodes and the
      rules of the colors; walking visits the nodes in that order.
    - Strings: each function against a definition on lists, with the bytes
      outside its destination unchanged.

    The findings of the manifest are the places where the code turned out to do
    something else than it means to; the theorems there state what it does.

    ** Fuel and bounds

    Loops bounded by a count recurse on the count.  Loops of [CString] that run
    to a NUL take fuel, and their theorems ask for more than the length of the
    string, which is the number of turns.  The list walks of [Memory] and
    [DaemonQueue] recurse on the list.  [rpc_run] takes a schedule, so its
    fuel is the length of that.  The command loop of [DaemonCmd] takes the
    number of commands, its directory walks the number of entries and levels
    the system answers with.  The wait of main for the driver never ends
    without the driver, which is a lemma.  The sort of [LxafsDir] takes fuel;
    (n + 1) * (n + 2) turns are enough for n entries, and readdir recurses on
    the entries left.  The walk over the stacks of programs in [Process] starts
    again after each it frees; (n + 1) * (n + 1) turns are enough for n.  A path
    in a tree of [RbTree] has at most as many nodes as there are.  [Timer] runs
    as many ticks as are due, and of each list its length.  [thr_run] takes a
    schedule; the rounds until the queue is empty are bounded by its length.

    ** What is not modelled, and what follows

    Left out because they hold no state of their own or are hardware-near: the
    assembler thunks and stack switching, lxinit.c (a fixed sequence of calls),
    eah.c (helpers of another project: class [EahApi]), and the rest of the Linux
    2.6.11 sources under Linux/ and os2/kernel, mm, fs, arch, drivers.  Statistics
    output is left out of [Memory].  Of LXAFS, the mounting, the stops for
    operations it does not have, and pages of files are left out; the lookup of
    a path by the VFS is a parameter of [LxafsVfs].  Of ok_timer.c, the keeping
    of the time of day and the system calls are left out.  Of om_page_alloc.c,
    the statistics are left out.  What can follow: the radix trees, bitmaps and
    id allocators of Linux/lib, the file locks of Linux/fs/lf_locks.c. *)

From stdpp Require Export base tactics list gmap numbers option relations.
From Stdlib Require Export ZArith Lia.

#[global] Open Scope Z_scope.

(** Lengths and counts are natural numbers, addresses and sizes integers. *)
Coercion Z.of_nat : nat >-> Z.

Ltac Zify.zify_post_hook ::= Z.to_euclidean_division_equations.

(** ** Machine integers

    A C object of [w] bits is a [Z]; every store into it goes through the
    wrap-around of its width.  [uN] is the unsigned reading, [sN] the two's
    complement one. *)

Definition u8 (z : Z) : Z := z mod 256.
Definition u16 (z : Z) : Z := z mod 65536.
Definition u32 (z : Z) : Z := z mod 4294967296.
Definition s8 (z : Z) : Z := (z + 128) mod 256 - 128.
Definition s16 (z : Z) : Z := (z + 32768) mod 65536 - 32768.
Definition s32 (z : Z) : Z := (z + 2147483648) mod 4294967296 - 2147483648.

Arguments u8 z : simpl never.
Arguments u16 z : simpl never.
Arguments u32 z : simpl never.
Arguments s8 z : simpl never.
Arguments s16 z : simpl never.
Arguments s32 z : simpl never.

Definition byte_range (z : Z) : Prop := 0 <= z < 256.

Ltac unfold_ints := unfold u8, u16, u32, s8, s16, s32, byte_range in *.

(** Linear arithmetic with the machine-integer operators unfolded. *)
Ltac mlia := unfold_ints; lia.

Lemma u8_range z : 0 <= u8 z < 256. Proof. mlia. Qed.
Lemma u16_range z : 0 <= u16 z < 65536. Proof. mlia. Qed.
Lemma u32_range z : 0 <= u32 z < 4294967296. Proof. mlia. Qed.
Lemma s8_range z : -128 <= s8 z < 128. Proof. mlia. Qed.
Lemma s32_range z : -2147483648 <= s32 z < 2147483648. Proof. mlia. Qed.
Lemma u8_small z : 0 <= z < 256 -> u8 z = z. Proof. mlia. Qed.
Lemma u16_small z : 0 <= z < 65536 -> u16 z = z. Proof. mlia. Qed.
Lemma u32_small z : 0 <= z < 4294967296 -> u32 z = z. Proof. mlia. Qed.
Lemma s8_small z : -128 <= z < 128 -> s8 z = z. Proof. mlia. Qed.
Lemma s16_small z : -32768 <= z < 32768 -> s16 z = z. Proof. mlia. Qed.
Lemma s32_small z : -2147483648 <= z < 2147483648 -> s32 z = z. Proof. mlia. Qed.

(** The two halves of a mask. *)
Lemma land_lnot_ones a k : 0 <= k -> Z.land a (Z.lnot (Z.ones k)) = a - a mod 2 ^ k.
Proof.
  intros Hk. rewrite <- Z.ldiff_land, Z.ldiff_ones_r by done.
  rewrite Z.shiftl_mul_pow2, Z.shiftr_div_pow2 by done.
  pose proof (Z.pow_pos_nonneg 2 k eq_refl Hk). pose proof (Z.div_mod a (2 ^ k)). lia.
Qed.

Lemma land_4095 a : Z.land a 4095 = a mod 4096.
Proof. exact (Z.land_ones a 12 ltac:(done)). Qed.
Lemma land_lnot_4095 a : Z.land a (Z.lnot 4095) = a - a mod 4096.
Proof. exact (land_lnot_ones a 12 ltac:(done)). Qed.

(** ** Error numbers (Linux, as the driver returns them) *)

Definition ENOENT : Z := 2.
Definition EINTR : Z := 4.
Definition EIO : Z := 5.
Definition ENXIO : Z := 6.
Definition EBADF : Z := 9.
Definition ENOMEM : Z := 12.
Definition EACCES : Z := 13.
Definition EINVAL : Z := 22.
Definition EMFILE : Z := 24.
Definition ENOSYS : Z := 38.

(** ** Faults and the state-and-fault monad

    A C function that touches the driver's state is a computation in
    [M S A := S -> res (A * S)].  A fault is what the machine does where C
    leaves the behaviour open or where the kernel hangs: a null dereference,
    a spin lock taken twice by its holder, an uninitialised read, an access
    outside an object.  [OutOfFuel] is the model's own: a loop bound was too
    small.  A fault is never recovered from. *)

Inductive fault :=
  | NullDeref
  | Deadlock
  | UseAfterFree
  | UninitRead
  | BadAccess
  | BugOn
  | OutOfFuel.

#[export] Instance fault_eq_dec : EqDecision fault.
Proof. solve_decision. Defined.

Inductive res (A : Type) :=
  | Ok (a : A)
  | Err (e : fault).
Arguments Ok {A} a.
Arguments Err {A} e.

Definition M (S A : Type) : Type := S -> res (A * S).

#[export] Instance res_ret : MRet res := fun A a => Ok a.
#[export] Instance res_bind : MBind res := fun A B f r =>
  match r with Ok a => f a | Err e => Err e end.
#[export] Instance M_ret S : MRet (M S) := fun A a s => Ok (a, s).
#[export] Instance M_bind S : MBind (M S) := fun A B f m s =>
  match m s with Ok (a, s') => f a s' | Err e => Err e end.

Definition get {S} : M S S := fun s => Ok (s, s).
Definition gets {S A} (f : S -> A) : M S A := fun s => Ok (f s, s).
Definition put {S} (s : S) : M S unit := fun _ => Ok (tt, s).
Definition modify {S} (f : S -> S) : M S unit := fun s => Ok (tt, f s).
Definition throw {S A} (e : fault) : M S A := fun _ => Err e.

(** [m] run [n] times in sequence. *)
Fixpoint repeatM {S} (n : nat) (m : M S unit) : M S unit :=
  match n with
  | O => mret tt
  | S n => m ≫= fun _ => repeatM n m
  end.

(** Run a computation for its final state or its value. *)
Definition exec {S A} (m : M S A) (s : S) : option S :=
  match m s with Ok (_, s') => Some s' | Err _ => None end.
Definition eval {S A} (m : M S A) (s : S) : option A :=
  match m s with Ok (a, _) => Some a | Err _ => None end.

Lemma M_bind_Ok {S A B} (m : M S A) (f : A -> M S B) s r :
  (m ≫= f) s = Ok r <-> exists a s', m s = Ok (a, s') /\ f a s' = Ok r.
Proof.
  unfold mbind, M_bind. destruct (m s) as [[a s']|e]; split.
  - eauto.
  - intros (a' & s'' & [= <- <-] & H). exact H.
  - discriminate.
  - intros (a' & s'' & H & _). discriminate.
Qed.

Lemma M_bind_unfold {S A B} (m : M S A) (f : A -> M S B) s :
  (m ≫= f) s = match m s with Ok (a, s') => f a s' | Err e => Err e end.
Proof. reflexivity. Qed.

Lemma M_bind_val {S A B} (m : M S A) (f : A -> M S B) s a s' :
  m s = Ok (a, s') -> (m ≫= f) s = f a s'.
Proof. intros E. by rewrite M_bind_unfold, E. Qed.

(** Run the monad forward at a known state, as far as the tests allow. *)
Ltac mstep :=
  repeat first
    [ rewrite M_bind_unfold
    | progress unfold get, gets, put, modify, throw, exec, eval, mret, M_ret, res_ret
    | progress cbn beta match zeta ].

(** Run the first computation of a bind with the equation [E] for it. *)
Tactic Notation "mrun" uconstr(E) := first [rewrite M_bind_unfold, E | rewrite E]; cbn.

(** The same for [option]: reduce the binds, nothing else. *)
Ltac ostep := cbn [mbind option_bind].

(** Split the bind chains of a hypothesis [m s = Ok r]. *)
Ltac minv :=
  repeat match goal with
  | H : (_ ≫= _) _ = Ok _ |- _ =>
      apply M_bind_Ok in H; destruct H as (? & ? & ? & H)
  | H : mret _ _ = Ok _ |- _ => unfold mret, M_ret in H
  | H : get _ = Ok _ |- _ => unfold get in H
  | H : gets _ _ = Ok _ |- _ => unfold gets in H
  | H : modify _ _ = Ok _ |- _ => unfold modify in H
  | H : put _ _ = Ok _ |- _ => unfold put in H
  | H : throw _ _ = Ok _ |- _ => discriminate H
  | H : Ok _ = Ok _ |- _ => injection H as ?; subst
  | H : (_, _) = (_, _) |- _ => injection H as ?; subst
  end.

(** [m] leaves the part [R] of the state as it is whenever it returns.  The
    tactic [keeps] walks a computation and looks at every leaf; components add
    their leaves to the hints. *)
Definition keeps {S T A} (R : S -> T) (m : M S A) : Prop :=
  forall s a s', m s = Ok (a, s') -> R s' = R s.

Section Keeps.
Context {S T : Type} (R : S -> T).

Lemma keeps_ret {A} (a : A) : keeps R (mret a).
Proof. by intros s b s' [= _ <-]. Qed.
Lemma keeps_throw {A} e : keeps R (throw e : M S A).
Proof. done. Qed.
Lemma keeps_get : keeps R get.
Proof. by intros s b s' [= _ <-]. Qed.
Lemma keeps_gets {A} (f : S -> A) : keeps R (gets f).
Proof. by intros s b s' [= _ <-]. Qed.
Lemma keeps_modify (f : S -> S) : (forall s, R (f s) = R s) -> keeps R (modify f).
Proof. intros Hf s b s' [= _ <-]. by rewrite Hf. Qed.
Lemma keeps_bind {A B} (m : M S A) (k : A -> M S B) :
  keeps R m -> (forall a, keeps R (k a)) -> keeps R (m ≫= k).
Proof.
  intros Hm Hk s b s'. intros (a & s1 & E1 & E2)%M_bind_Ok. rewrite (Hk _ _ _ _ E2). by apply (Hm _ _ _ E1).
Qed.
End Keeps.

Create HintDb keeps.
#[export] Hint Resolve keeps_ret keeps_throw keeps_get keeps_gets : keeps.
#[export] Hint Extern 1 (keeps _ (modify _)) => apply keeps_modify; reflexivity : keeps.
Ltac keeps_step := first [solve [auto 1 with keeps] | apply keeps_bind; [|intros ?] |
  match goal with |- keeps _ (match ?x with _ => _ end) => destruct x end].
Ltac keeps := repeat keeps_step.

(** ** C lists walked from the head

    [list_for_each] with an early return is [find_first]; removing the node it
    stopped at is [remove_first]. *)

Section FindFirst.
Context {A : Type} (P : A -> bool).

Fixpoint find_first (l : list A) : option A :=
  match l with
  | [] => None
  | x :: l => if P x then Some x else find_first l
  end.

Fixpoint remove_first (l : list A) : list A :=
  match l with
  | [] => []
  | x :: l => if P x then l else x :: remove_first l
  end.

Fixpoint update_first (f : A -> A) (l : list A) : list A :=
  match l with
  | [] => []
  | x :: l => if P x then f x :: l else x :: update_first f l
  end.

Lemma find_first_Some l x :
  find_first l = Some x <->
  exists l1 l2, l = l1 ++ x :: l2 /\ P x = true /\ Forall (fun y => P y = false) l1.
Proof.
  induction l as [|y l IH]; cbn.
  - split; [done|]. intros (l1 & l2 & H & _). by destruct l1.
  - destruct (P y) eqn:E.
    + split.
      * intros [= ->]. exists [], l. auto.
      * intros ([|z l1] & l2 & H & Hx & Hl); simplify_eq/=; [done|].
        apply Forall_cons in Hl as [? _]. congruence.
    + rewrite IH. split.
      * intros (l1 & l2 & -> & Hx & Hl). exists (y :: l1), l2. auto.
      * intros ([|z l1] & l2 & H & Hx & Hl); simplify_eq/=.
        { congruence. }
        apply Forall_cons in Hl as [_ ?]. eauto 6.
Qed.

Lemma find_first_None l :
  find_first l = None <-> Forall (fun y => P y = false) l.
Proof.
  induction l as [|y l IH]; cbn; [by split|].
  destruct (P y) eqn:E; rewrite Forall_cons.
  - split; [done|]. intros [? _]. congruence.
  - rewrite IH. tauto.
Qed.

Lemma find_first_elem l x : find_first l = Some x -> x ∈ l /\ P x = true.
Proof.
  rewrite find_first_Some. intros (l1 & l2 & -> & Hx & _). split; [set_solver|done].
Qed.

Lemma find_first_app l1 l2 :
  Forall (fun y => P y = false) l1 -> find_first (l1 ++ l2) = find_first l2.
Proof. induction 1 as [|y l1 E _ IH]; cbn; [done|]. by rewrite E. Qed.

Lemma remove_first_app l1 x l2 :
  Forall (fun y => P y = false) l1 -> P x = true ->
  remove_first (l1 ++ x :: l2) = l1 ++ l2.
Proof.
  induction 1 as [|y l1 E _ IH]; cbn; intros Hx; [by rewrite Hx|].
  rewrite E. by rewrite IH.
Qed.

Lemma remove_first_None l : find_first l = None -> remove_first l = l.
Proof.
  rewrite find_first_None. induction 1 as [|y l E _ IH]; cbn; [done|].
  by rewrite E, IH.
Qed.

Lemma remove_first_perm l x :
  find_first l = Some x -> l ≡ₚ x :: remove_first l.
Proof.
  rewrite find_first_Some. intros (l1 & l2 & -> & Hx & Hl).
  rewrite remove_first_app by done. by rewrite <- Permutation_middle.
Qed.

Lemma update_first_app f l1 x l2 :
  Forall (fun y => P y = false) l1 -> P x = true ->
  update_first f (l1 ++ x :: l2) = l1 ++ f x :: l2.
Proof.
  induction 1 as [|y l1 E _ IH]; cbn; intros Hx; [by rewrite Hx|].
  rewrite E. by rewrite IH.
Qed.

Lemma length_update_first f l : length (update_first f l) = length l.
Proof. induction l as [|y l IH]; cbn; [done|]. destruct (P y); cbn; lia. Qed.
End FindFirst.

(** ** Counting the elements that satisfy a test *)

Section Count.
Context {A : Type}.
Implicit Types (f g : A -> bool) (l : list A).

Fixpoint count (f : A -> bool) (l : list A) : Z :=
  match l with
  | [] => 0
  | x :: l => Z.b2z (f x) + count f l
  end.

Lemma count_nonneg f l : 0 <= count f l.
Proof. induction l as [|x l IH]; cbn; [done|]. destruct (f x); cbn; lia. Qed.

Lemma count_le_length f l : count f l <= length l.
Proof. induction l as [|x l IH]; cbn; [done|]. destruct (f x); cbn; lia. Qed.

Lemma count_insert f l i x y :
  l !! i = Some y -> count f (<[i := x]> l) = count f l - Z.b2z (f y) + Z.b2z (f x).
Proof.
  revert i. induction l as [|z l IH]; intros [|i] Hi; cbn in *; simplify_eq; [lia|].
  rewrite IH by done. lia.
Qed.

Lemma count_replicate f n x : count f (replicate n x) = n * Z.b2z (f x).
Proof. induction n as [|n IH]; cbn; [done|]. rewrite IH. lia. Qed.

Lemma count_lookup f l i x : l !! i = Some x -> f x = true -> 0 < count f l.
Proof.
  revert i. induction l as [|y l IH]; intros [|i] Hi Hf; cbn in *; simplify_eq.
  - rewrite Hf. pose proof (count_nonneg f l). cbn. lia.
  - specialize (IH i Hi Hf). destruct (f y); cbn; lia.
Qed.

Lemma count_at f l i x : l !! i = Some x -> Z.b2z (f x) <= count f l.
Proof.
  intros Hi. destruct (f x) eqn:E; cbn.
  - pose proof (count_lookup f l i x Hi E). lia.
  - apply count_nonneg.
Qed.

Lemma count_mono f g l :
  (forall x, f x = true -> g x = true) -> count f l <= count g l.
Proof.
  intros H. induction l as [|x l IH]; cbn; [done|].
  specialize (H x). destruct (f x), (g x); cbn; lia.
Qed.

Lemma count_split f g l :
  (forall x, f x = true -> g x = true -> False) ->
  count (fun x => f x || g x) l = count f l + count g l.
Proof.
  intros H. induction l as [|x l IH]; cbn; [done|]. rewrite IH.
  specialize (H x). destruct (f x), (g x); cbn; try lia; exfalso; auto.
Qed.

(** Two disjoint classes together are no larger than the list. *)
Lemma count_disjoint f g l :
  (forall x, f x = true -> g x = true -> False) -> count f l + count g l <= length l.
Proof.
  intros H. induction l as [|x l IH]; cbn; [done|].
  specialize (H x). destruct (f x), (g x); cbn; try lia; exfalso; auto.
Qed.
End Count.

(** Rewrite every counter of a thread list after thread [i] moved from the
    state of hypothesis [H : l !! i = Some y]. *)
Ltac count_step H := repeat rewrite (count_insert _ _ _ _ _ H) in *.

(** ** Little-endian words in byte lists *)

Definition dword_at (o : nat) (l : list Z) : Z :=
  nth o l 0 + 256 * nth (o + 1) l 0 + 65536 * nth (o + 2) l 0 + 16777216 * nth (o + 3) l 0.
Definition word_at (o : nat) (l : list Z) : Z := nth o l 0 + 256 * nth (o + 1) l 0.
Definition le16 (n : Z) : list Z := [n mod 256; n / 256 mod 256].
Definition le32 (n : Z) : list Z := le16 (n mod 65536) ++ le16 (n / 65536).

Lemma dword_le32 n l : 0 <= n < 4294967296 -> dword_at 0 (le32 n ++ l) = n.
Proof. intros Hn. unfold dword_at, le32, le16. cbn. lia. Qed.

(** ** Bytes written into a buffer; outside it is refused *)

Definition overwrite (o : nat) (bs buf : list Z) : option (list Z) :=
  if (o + length bs <=? length buf)%nat
  then Some (take o buf ++ bs ++ drop (o + length bs) buf) else None.

Lemma overwrite_length o bs buf buf' :
  overwrite o bs buf = Some buf' -> length buf' = length buf.
Proof.
  unfold overwrite. destruct (Nat.leb_spec (o + length bs) (length buf)); [|done]. intros [= <-].
  rewrite !length_app, length_take, length_drop. lia.
Qed.

Lemma overwrite_all bs buf : length bs = length buf -> overwrite 0 bs buf = Some bs.
Proof.
  intros Hl. unfold overwrite. cbn [Nat.add]. rewrite Hl, Nat.leb_refl. cbn [take app].
  by rewrite drop_all, app_nil_r.
Qed.

Lemma overwrite_nth o bs buf buf' i :
  overwrite o bs buf = Some buf' ->
  buf' !! i = if decide (o <= i < o + length bs)%nat then bs !! (i - o)%nat else buf !! i.
Proof.
  unfold overwrite. destruct (Nat.leb_spec (o + length bs) (length buf)); [|done]. intros [= <-].
  assert (Ht : length (take o buf) = o) by (rewrite length_take; lia).
  case_decide as Hi.
  - rewrite lookup_app_r by lia. rewrite Ht. by rewrite lookup_app_l by lia.
  - destruct (decide (i < o)%nat).
    + rewrite lookup_app_l by lia. by rewrite lookup_take_lt by lia.
    + rewrite lookup_app_r by lia. rewrite Ht, lookup_app_r by lia. rewrite lookup_drop. f_equal. lia.
Qed.

(** ** Hints shared by the components *)

Create HintDb lxapi.
Create Rewrite HintDb lxapi.
#[export] Hint Resolve u8_range u16_range u32_range s8_range s32_range : lxapi.
#[export] Hint Rewrite @length_app @length_cons @length_insert @length_replicate
  @length_update_first : lxapi.

(** Case analysis on the boolean tests of the C code in the goal. *)
Ltac cases_if :=
  repeat match goal with
  | |- context [if ?b then _ else _] => destruct b eqn:?
  end.
