(* ===== verification/CString.v ===== *)
(** * The driver's string library (os2/lib/ol_string.c)

    Memory is a finite map from addresses to bytes; an access outside it is
    [None].  Pointers are addresses, [NULL] is 0.  Loops bounded by a count
    recurse on it; loops that run to a NUL take fuel, and the theorems give
    the fuel that is enough (the length of the string plus one).  A [char] is
    signed on this compiler ([s8]). *)

From S2P Require Import Prelude.

(** ** Memory *)

Abbreviation mem := (gmap Z Z).

Definition ld (m : mem) (p : Z) : option Z := m !! p.

Definition st (m : mem) (p v : Z) : option mem :=
  match m !! p with
  | Some _ => Some (<[p := u8 v]> m)
  | None => None
  end.

(** ** Character classes (Linux/lib/ll_ctype.c, Include/Linux/ctype.h)

    Only the upper-case bit of the table is used by the string library. *)

Definition isupper (c : Z) : bool :=
  (65 <=? c) && (c <=? 90) || (192 <=? c) && (c <=? 222) && negb (c =? 215).

Definition tolower (c : Z) : Z := if isupper c then u8 (c - (65 - 97)) else c.

(** ** Comparison *)

Fixpoint strnicmp_loop (len : nat) (m : mem) (s1 s2 : Z) : option (Z * Z) :=
  match len with
  | O => Some (0, 0)
  | S len' =>
      c1 ← ld m s1;
      c2 ← ld m s2;
      if c1 =? 0 then Some (c1, c2)
      else if c2 =? 0 then Some (c1, c2)
      else if c1 =? c2 then
        match len' with O => Some (c1, c2) | _ => strnicmp_loop len' m (s1 + 1) (s2 + 1) end
      else
        if tolower c1 =? tolower c2 then
          match len' with
          | O => Some (tolower c1, tolower c2)
          | _ => strnicmp_loop len' m (s1 + 1) (s2 + 1)
          end
        else Some (tolower c1, tolower c2)
  end.

Definition strnicmp (m : mem) (s1 s2 : Z) (len : nat) : option Z :=
  '(c1, c2) ← strnicmp_loop len m s1 s2; Some (c1 - c2).

(** [__res] is a [signed char]: the difference of the two characters is
    truncated to eight bits before it is tested and returned. *)
Fixpoint strcmp (fuel : nat) (m : mem) (cs ct : Z) : option Z :=
  match fuel with
  | O => None
  | S fuel =>
      a ← ld m cs;
      b ← ld m ct;
      let __res := s8 (s8 a - s8 b) in
      if negb (__res =? 0) || (a =? 0) then Some __res
      else strcmp fuel m (cs + 1) (ct + 1)
  end.

Fixpoint strncmp (count : nat) (m : mem) (cs ct : Z) : option Z :=
  match count with
  | O => Some 0
  | S count =>
      a ← ld m cs;
      b ← ld m ct;
      let __res := s8 (s8 a - s8 b) in
      if negb (__res =? 0) || (a =? 0) then Some __res
      else strncmp count m (cs + 1) (ct + 1)
  end.

Fixpoint memcmp (m : mem) (cs ct : Z) (count : nat) : option Z :=
  match count with
  | O => Some 0
  | S count =>
      a ← ld m cs;
      b ← ld m ct;
      if negb (a - b =? 0) then Some (a - b) else memcmp m (cs + 1) (ct + 1) count
  end.

(** ** Length and search *)

Fixpoint strlen_loop (fuel : nat) (m : mem) (sc : Z) : option Z :=
  match fuel with
  | O => None
  | S fuel => c ← ld m sc; if c =? 0 then Some sc else strlen_loop fuel m (sc + 1)
  end.

Definition strlen (fuel : nat) (m : mem) (s : Z) : option Z :=
  sc ← strlen_loop fuel m s; Some (sc - s).

Fixpoint strnlen_loop (count : nat) (m : mem) (sc : Z) : option Z :=
  match count with
  | O => Some sc
  | S count => c ← ld m sc; if c =? 0 then Some sc else strnlen_loop count m (sc + 1)
  end.

Definition strnlen (m : mem) (s : Z) (count : nat) : option Z :=
  sc ← strnlen_loop count m s; Some (sc - s).

(** The test order of the loops: [strchr] compares with [c] first, so a search
    for NUL finds the terminator. *)
Fixpoint strchr (fuel : nat) (m : mem) (s c : Z) : option Z :=
  match fuel with
  | O => None
  | S fuel =>
      a ← ld m s;
      if a =? u8 c then Some s
      else if a =? 0 then Some 0
      else strchr fuel m (s + 1) c
  end.

Fixpoint strrchr_loop (fuel : nat) (m : mem) (s p c : Z) : option Z :=
  match fuel with
  | O => None
  | S fuel =>
      a ← ld m p;
      if a =? u8 c then Some p
      else if s <=? p - 1 then strrchr_loop fuel m s (p - 1) c
      else Some 0
  end.

Definition strrchr (fuel : nat) (m : mem) (s c : Z) : option Z :=
  n ← strlen fuel m s; strrchr_loop fuel m s (s + n) c.

Fixpoint strnchr (count : nat) (m : mem) (s c : Z) : option Z :=
  match count with
  | O => Some 0
  | S count =>
      a ← ld m s;
      if a =? 0 then Some 0
      else if a =? u8 c then Some s
      else strnchr count m (s + 1) c
  end.

(** [memscan] compares the unsigned byte with the [int] itself, [memchr] with
    the [int] truncated to a byte. *)
Fixpoint memscan (m : mem) (addr c : Z) (size : nat) : option Z :=
  match size with
  | O => Some addr
  | S size => a ← ld m addr; if a =? c then Some addr else memscan m (addr + 1) c size
  end.

Fixpoint memchr (m : mem) (s c : Z) (n : nat) : option Z :=
  match n with
  | O => Some 0
  | S n => a ← ld m s; if u8 c =? a then Some s else memchr m (s + 1) c n
  end.

(** The inner loop of [strspn], [strcspn] and [strpbrk]: where it stops. *)
Fixpoint set_scan (fuel : nat) (m : mem) (a ch : Z) : option Z :=
  match fuel with
  | O => None
  | S fuel =>
      x ← ld m a;
      if x =? 0 then Some a
      else if ch =? x then Some a
      else set_scan fuel m (a + 1) ch
  end.

Fixpoint strspn_loop (fuel : nat) (m : mem) (p accept count : Z) : option Z :=
  match fuel with
  | O => None
  | S fuel =>
      c ← ld m p;
      if c =? 0 then Some count
      else
        a ← set_scan fuel m accept c;
        x ← ld m a;
        if x =? 0 then Some count else strspn_loop fuel m (p + 1) accept (count + 1)
  end.

Definition strspn (fuel : nat) (m : mem) (s accept : Z) : option Z :=
  strspn_loop fuel m s accept 0.

Fixpoint strcspn_loop (fuel : nat) (m : mem) (p reject count : Z) : option Z :=
  match fuel with
  | O => None
  | S fuel =>
      c ← ld m p;
      if c =? 0 then Some count
      else
        r ← set_scan fuel m reject c;
        x ← ld m r;
        if x =? 0 then strcspn_loop fuel m (p + 1) reject (count + 1) else Some count
  end.

Definition strcspn (fuel : nat) (m : mem) (s reject : Z) : option Z :=
  strcspn_loop fuel m s reject 0.

Fixpoint strpbrk (fuel : nat) (m : mem) (cs ct : Z) : option Z :=
  match fuel with
  | O => None
  | S fuel =>
      c ← ld m cs;
      if c =? 0 then Some 0
      else
        r ← set_scan fuel m ct c;
        x ← ld m r;
        if x =? 0 then strpbrk fuel m (cs + 1) ct else Some cs
  end.

Fixpoint strstr_loop (l1 : nat) (m : mem) (s1 s2 : Z) (l2 : nat) : option Z :=
  if (l2 <=? l1)%nat then
    r ← memcmp m s1 s2 l2;
    if r =? 0 then Some s1
    else
      match l1 with
      | O => Some 0
      | S l1 => strstr_loop l1 m (s1 + 1) s2 l2
      end
  else Some 0.

Definition strstr (fuel : nat) (m : mem) (s1 s2 : Z) : option Z :=
  l2 ← strlen fuel m s2;
  if l2 =? 0 then Some s1
  else
    l1 ← strlen fuel m s1;
    strstr_loop (Z.to_nat l1) m s1 s2 (Z.to_nat l2).

(** [strsep(&s, ct)] returns the token and the new value of [s]; it
    overwrites the separator with NUL. *)
Definition strsep (fuel : nat) (m : mem) (s ct : Z) : option (mem * Z * Z) :=
  let sbegin := s in
  if sbegin =? 0 then Some (m, s, 0)
  else
    end_ ← strpbrk fuel m sbegin ct;
    if end_ =? 0 then Some (m, 0, sbegin)
    else m ← st m end_ 0; Some (m, end_ + 1, sbegin).

(** ** Copying *)

Fixpoint strcpy_loop (fuel : nat) (m : mem) (dest src : Z) : option mem :=
  match fuel with
  | O => None
  | S fuel =>
      c ← ld m src;
      m ← st m dest c;
      if c =? 0 then Some m else strcpy_loop fuel m (dest + 1) (src + 1)
  end.

Definition strcpy (fuel : nat) (m : mem) (dest src : Z) : option (mem * Z) :=
  m ← strcpy_loop fuel m dest src; Some (m, dest).

Fixpoint strncpy_loop (count : nat) (m : mem) (tmp src : Z) : option mem :=
  match count with
  | O => Some m
  | S count =>
      c ← ld m src;
      m ← st m tmp c;
      strncpy_loop count m (tmp + 1) (if c =? 0 then src else src + 1)
  end.

Definition strncpy (m : mem) (dest src : Z) (count : nat) : option (mem * Z) :=
  m ← strncpy_loop count m dest src; Some (m, dest).

Fixpoint memcpy_loop (count : nat) (m : mem) (tmp s : Z) : option mem :=
  match count with
  | O => Some m
  | S count => c ← ld m s; m ← st m tmp c; memcpy_loop count m (tmp + 1) (s + 1)
  end.

Definition memcpy (m : mem) (dest src : Z) (count : nat) : option (mem * Z) :=
  m ← memcpy_loop count m dest src; Some (m, dest).

Definition bcopy (m : mem) (srcp destp : Z) (count : nat) : option mem :=
  memcpy_loop count m destp srcp.

Fixpoint memmove_down (count : nat) (m : mem) (tmp s : Z) : option mem :=
  match count with
  | O => Some m
  | S count => c ← ld m (s - 1); m ← st m (tmp - 1) c; memmove_down count m (tmp - 1) (s - 1)
  end.

Definition memmove (m : mem) (dest src : Z) (count : nat) : option (mem * Z) :=
  m ← (if dest <=? src then memcpy_loop count m dest src
       else memmove_down count m (dest + Z.of_nat count) (src + Z.of_nat count));
  Some (m, dest).

Fixpoint memset_loop (count : nat) (m : mem) (xs c : Z) : option mem :=
  match count with
  | O => Some m
  | S count => m ← st m xs c; memset_loop count m (xs + 1) c
  end.

Definition memset (m : mem) (s c : Z) (count : nat) : option (mem * Z) :=
  m ← memset_loop count m s c; Some (m, s).

Definition strlcpy (fuel : nat) (m : mem) (dest src : Z) (size : Z) : option (mem * Z) :=
  ret ← strlen fuel m src;
  if size =? 0 then Some (m, ret)
  else
    let len := if size <=? ret then size - 1 else ret in
    '(m, _) ← memcpy m dest src (Z.to_nat len);
    m ← st m (dest + len) 0;
    Some (m, ret).

Definition strcat (fuel : nat) (m : mem) (dest src : Z) : option (mem * Z) :=
  e ← strlen_loop fuel m dest;
  m ← strcpy_loop fuel m e src;
  Some (m, dest).

Fixpoint strncat_loop (count : nat) (m : mem) (dest src : Z) : option mem :=
  match count with
  | O => Some m
  | S count' =>
      c ← ld m src;
      m ← st m dest c;
      if c =? 0 then Some m
      else
        match count' with
        | O => st m (dest + 1) 0
        | _ => strncat_loop count' m (dest + 1) (src + 1)
        end
  end.

Definition strncat (fuel : nat) (m : mem) (dest src : Z) (count : nat) : option (mem * Z) :=
  match count with
  | O => Some (m, dest)
  | _ => e ← strlen_loop fuel m dest; m ← strncat_loop count m e src; Some (m, dest)
  end.

(** [BUG_ON (dsize >= count)] stops the machine: no result. *)
Definition strlcat (fuel : nat) (m : mem) (dest src : Z) (count : Z) : option (mem * Z) :=
  dsize ← strlen fuel m dest;
  len ← strlen fuel m src;
  let res := dsize + len in
  if count <=? dsize then None
  else
    let count := count - dsize in
    let len := if count <=? len then count - 1 else len in
    '(m, _) ← memcpy m (dest + dsize) src (Z.to_nat len);
    m ← st m (dest + dsize + len) 0;
    Some (m, res).

(** ** Reading and writing byte sequences *)

Fixpoint bytes_at (m : mem) (p : Z) (l : list Z) : Prop :=
  match l with
  | [] => True
  | b :: l => m !! p = Some b /\ bytes_at m (p + 1) l
  end.

(** A NUL-terminated string [l] at [p]: no NUL inside, bytes in range. *)
Definition cstr (m : mem) (p : Z) (l : list Z) : Prop :=
  bytes_at m p (l ++ [0]) /\ Forall (fun b => 0 < b < 256) l.

Definition writable (m : mem) (p n : Z) : Prop :=
  forall q, p <= q < p + n -> is_Some (m !! q).

(** The memory after the bytes [l] are stored from [p] on. *)
Fixpoint write (m : mem) (p : Z) (l : list Z) : mem :=
  match l with
  | [] => m
  | b :: l => write (<[p := b]> m) (p + 1) l
  end.

Lemma bytes_at_app m p l1 l2 :
  bytes_at m p (l1 ++ l2) <-> bytes_at m p l1 /\ bytes_at m (p + length l1) l2.
Proof.
  revert p. induction l1 as [|b l1 IH]; intros p; cbn.
  - rewrite Z.add_0_r. tauto.
  - rewrite IH. replace (p + S (length l1)) with (p + 1 + length l1) by lia. tauto.
Qed.

Lemma bytes_at_frame m m' p l :
  (forall q, p <= q < p + length l -> m' !! q = m !! q) ->
  bytes_at m p l -> bytes_at m' p l.
Proof.
  revert p. induction l as [|b l IH]; intros p; cbn; [done|].
  intros Hf [Hb Hl]. split.
  - rewrite Hf by lia. done.
  - apply IH; [|done]. intros q Hq. apply Hf. lia.
Qed.

Lemma bytes_at_lookup m p l i :
  bytes_at m p l -> (i < length l)%nat -> m !! (p + i) = l !! i.
Proof.
  revert p i. induction l as [|b l IH]; intros p i; cbn; [lia|].
  intros [Hb Hl] Hi. destruct i as [|i]; cbn.
  - by rewrite Z.add_0_r.
  - replace (p + S i) with (p + 1 + i) by lia. apply IH; [done|lia].
Qed.

Lemma lookup_write_out m p l q :
  q < p \/ p + length l <= q -> write m p l !! q = m !! q.
Proof.
  revert m p. induction l as [|b l IH]; intros m p Hq; cbn in *; [done|].
  rewrite IH by lia. apply lookup_insert_ne. lia.
Qed.

Lemma bytes_at_write m p l : bytes_at (write m p l) p l.
Proof.
  revert m p. induction l as [|b l IH]; intros m p; cbn; [done|]. split; [|done].
  rewrite lookup_write_out by lia. apply lookup_insert_eq.
Qed.

Lemma write_app m p l1 l2 :
  write m p (l1 ++ l2) = write (write m p l1) (p + length l1) l2.
Proof.
  revert m p. induction l1 as [|b l1 IH]; intros m p; cbn.
  - by rewrite Z.add_0_r.
  - rewrite IH. f_equal. lia.
Qed.

Lemma write_insert_after m p l q x :
  p + length l <= q -> write (<[q := x]> m) p l = <[q := x]> (write m p l).
Proof.
  revert m p. induction l as [|b l IH]; intros m p Hq; cbn in *; [done|].
  rewrite <- IH by lia. f_equal. apply insert_insert_ne. lia.
Qed.

Lemma is_Some_insert (m : mem) p b q :
  is_Some (m !! q) -> is_Some ((<[p := b]> m : mem) !! q).
Proof. intros H. rewrite lookup_insert. case_decide; eauto. Qed.

Lemma writable_insert m p n q b : writable m p n -> writable (<[q := b]> m) p n.
Proof. intros H r Hr. by apply is_Some_insert, H. Qed.

Lemma writable_sub m p n q k :
  writable m p n -> p <= q -> q + k <= p + n -> writable m q k.
Proof. intros H ? ? r Hr. apply H. lia. Qed.

Lemma bytes_writable m p l : bytes_at m p l -> writable m p (length l).
Proof.
  intros H q Hq. replace q with (p + Z.to_nat (q - p)) by lia.
  erewrite bytes_at_lookup; [|done|lia]. apply lookup_lt_is_Some. lia.
Qed.

Lemma st_ok m p n v :
  writable m p n -> 0 < n -> 0 <= v < 256 -> st m p v = Some (<[p := v]> m).
Proof.
  intros Hw Hn Hv. unfold st. destruct (Hw p) as [x ->]; [lia|]. by rewrite u8_small.
Qed.

Lemma cstr_cons m p b l :
  cstr m p (b :: l) <-> m !! p = Some b /\ 0 < b < 256 /\ cstr m (p + 1) l.
Proof. unfold cstr. cbn. rewrite Forall_cons. tauto. Qed.

Lemma cstr_nil m p : cstr m p [] <-> m !! p = Some 0.
Proof. unfold cstr. cbn. split; [tauto|auto]. Qed.

Lemma cstr_frame m m' p l :
  (forall q, p <= q <= p + length l -> m' !! q = m !! q) -> cstr m p l -> cstr m' p l.
Proof.
  intros Hf [Hb Hl]. split; [|done]. eapply bytes_at_frame; [|done].
  intros q Hq. apply Hf. rewrite length_app in Hq. cbn in Hq. lia.
Qed.

Lemma cstr_bytes_range m p l : cstr m p l -> Forall byte_range (l ++ [0]).
Proof.
  intros [_ Hl]. apply Forall_app. split; [|by repeat constructor].
  eapply Forall_impl; [done|]. unfold byte_range. cbn. lia.
Qed.

(** ** Lengths *)

Lemma strlen_loop_spec fuel m p l :
  cstr m p l -> (length l < fuel)%nat -> strlen_loop fuel m p = Some (p + length l).
Proof.
  revert fuel p. induction l as [|b l IH]; intros [|fuel] p Hs Hf; cbn in Hf; try lia; cbn.
  - apply cstr_nil in Hs. unfold ld. rewrite Hs. cbn. f_equal. lia.
  - apply cstr_cons in Hs as (Hb & Hr & Hs). unfold ld. rewrite Hb. cbn.
    destruct (Z.eqb_spec b 0) as [->|_]; [lia|]. rewrite IH by (done || lia). f_equal. lia.
Qed.

Lemma strlen_spec fuel m p l :
  cstr m p l -> (length l < fuel)%nat -> strlen fuel m p = Some (Z.of_nat (length l)).
Proof.
  intros Hs Hf. unfold strlen. rewrite (strlen_loop_spec _ _ _ l) by done.
  cbn. f_equal. lia.
Qed.

(** ** Block copies *)

Lemma memcpy_loop_spec m d s l :
  bytes_at m s l -> Forall byte_range l -> writable m d (length l) ->
  d <= s \/ s + length l <= d ->
  memcpy_loop (length l) m d s = Some (write m d l).
Proof.
  revert m d s. induction l as [|b l IH]; intros m d s Hb Hr Hw Hd; cbn in *; [done|].
  destruct Hb as [Hb Hl]. apply Forall_cons in Hr as [Hbr Hr].
  unfold ld. rewrite Hb. cbn. erewrite st_ok by (done || lia). cbn. apply IH; [|done| |lia].
  - eapply bytes_at_frame; [|done]. intros q Hq. apply lookup_insert_ne. lia.
  - apply writable_insert. eapply writable_sub; [done|lia|lia].
Qed.

Lemma memmove_down_spec m d s l :
  bytes_at m s l -> Forall byte_range l -> writable m d (length l) -> s <= d ->
  memmove_down (length l) m (d + length l) (s + length l) = Some (write m d l).
Proof.
  revert m. induction l as [|x l IH] using rev_ind; intros m Hb Hr Hw Hd; cbn; [done|].
  apply bytes_at_app in Hb as [Hl [Hx _]]. apply Forall_app in Hr as [Hr Hx'].
  apply Forall_cons in Hx' as [Hxr _].
  rewrite length_app in *. cbn in *. rewrite Nat.add_1_r in *. cbn.
  replace (s + S (length l) - 1) with (s + length l) by lia.
  replace (d + S (length l) - 1) with (d + length l) by lia.
  unfold ld. rewrite Hx. cbn.
  rewrite (st_ok _ _ 1) by (done || lia || (eapply writable_sub; [done|lia|lia])). cbn.
  rewrite IH; [|eapply bytes_at_frame; [|done]|done|apply writable_insert; eapply writable_sub; [done|lia|lia]|done].
  - by rewrite write_insert_after, write_app by lia.
  - intros q Hq. apply lookup_insert_ne. lia.
Qed.

(** [memmove] stores exactly the bytes that were at the source, for every
    placement of the two areas, overlapping or not, and touches nothing
    else. *)
Theorem memmove_spec m d s l :
  bytes_at m s l -> Forall byte_range l -> writable m d (length l) ->
  exists m', memmove m d s (length l) = Some (m', d) /\
    bytes_at m' d l /\
    (forall q, q < d \/ d + length l <= q -> m' !! q = m !! q).
Proof.
  intros Hb Hr Hw. exists (write m d l). repeat split.
  - unfold memmove. destruct (Z.leb_spec d s).
    + rewrite memcpy_loop_spec by (done || lia). done.
    + rewrite memmove_down_spec by (done || lia). done.
  - apply bytes_at_write.
  - intros q Hq. by apply lookup_write_out.
Qed.

Lemma strcpy_loop_spec fuel m d s l :
  cstr m s l -> writable m d (length l + 1) -> d <= s \/ s + length l < d ->
  (length l < fuel)%nat ->
  strcpy_loop fuel m d s = Some (write m d (l ++ [0])).
Proof.
  revert fuel m d s. induction l as [|b l IH]; intros [|fuel] m d s Hs Hw Hd Hf;
    cbn in Hf; try lia; cbn.
  - apply cstr_nil in Hs. unfold ld. rewrite Hs. cbn.
    rewrite (st_ok _ _ 1) by (done || lia). done.
  - apply cstr_cons in Hs as (Hb & Hr & Hs). unfold ld. rewrite Hb. cbn.
    rewrite (st_ok _ _ 1) by (lia || (eapply writable_sub; [done|lia|lia])). cbn.
    destruct (Z.eqb_spec b 0) as [->|_]; [lia|]. apply IH; [| |cbn in *; lia|lia].
    + eapply cstr_frame; [|done]. intros q Hq. apply lookup_insert_ne. cbn in *. lia.
    + apply writable_insert. eapply writable_sub; [done|lia|cbn; lia].
Qed.

Lemma cstr_write m p l :
  Forall (fun b => 0 < b < 256) l -> cstr (write m p (l ++ [0])) p l.
Proof. intros Hl. split; [apply bytes_at_write|done]. Qed.

(** [strcat] leaves at [dest] the string that was there followed by the
    source string, NUL included, when the result fits and the source does not
    overlap it; bytes outside the result are untouched. *)
Theorem strcat_spec fuel m d s l1 l2 :
  cstr m d l1 -> cstr m s l2 ->
  writable m d (length l1 + length l2 + 1) ->
  s + length l2 < d \/ d + length l1 + length l2 < s ->
  (length l1 < fuel)%nat -> (length l2 < fuel)%nat ->
  exists m', strcat fuel m d s = Some (m', d) /\ cstr m' d (l1 ++ l2) /\
    (forall q, q < d \/ d + length l1 + length l2 < q -> m' !! q = m !! q).
Proof.
  intros Hd Hs Hw Hdis Hf1 Hf2.
  exists (write m (d + length l1) (l2 ++ [0])). repeat split.
  - unfold strcat. rewrite (strlen_loop_spec _ _ _ l1) by done. cbn.
    rewrite (strcpy_loop_spec _ _ _ _ l2); [done|done| |lia|done].
    eapply writable_sub; [done|lia|lia].
  - rewrite <- app_assoc. apply bytes_at_app. split; [|apply bytes_at_write].
    destruct Hd as [Hd _]. apply bytes_at_app in Hd as [Hd _].
    eapply bytes_at_frame; [|done]. intros q Hq. apply lookup_write_out. lia.
  - apply Forall_app. split; [apply Hd|apply Hs].
  - intros q Hq. apply lookup_write_out. rewrite length_app. cbn. lia.
Qed.

(** [strlcpy] always returns the source length and, when the buffer size
    is not zero, leaves in the buffer the longest prefix of the source that
    fits with its NUL; it never stores outside the buffer. *)
Theorem strlcpy_spec fuel m d s l size :
  cstr m s l -> 0 <= size -> writable m d size ->
  s + length l < d \/ d + size <= s -> (length l < fuel)%nat ->
  exists m', strlcpy fuel m d s size = Some (m', Z.of_nat (length l)) /\
    (0 < size -> cstr m' d (take (Z.to_nat (size - 1)) l)) /\
    (forall q, q < d \/ d + size <= q -> m' !! q = m !! q).
Proof.
  intros Hs Hsz Hw Hdis Hf. unfold strlcpy. rewrite (strlen_spec _ _ _ l) by done. cbn.
  destruct (Z.eqb_spec size 0) as [->|Hnz].
  { exists m. repeat split; intros; try lia; done. }
  set (n := if size <=? length l then size - 1 else Z.of_nat (length l)).
  set (t := take (Z.to_nat (size - 1)) l).
  assert (Hn : n = Z.of_nat (length t)).
  { unfold n, t. rewrite length_take. destruct (Z.leb_spec size (length l)); lia. }
  assert (Hnlt : n < size) by (unfold n; destruct (Z.leb_spec size (length l)); lia).
  assert (Hnl : n <= length l) by (unfold n; destruct (Z.leb_spec size (length l)); lia).
  destruct Hs as [Hsb Hsr].
  assert (Htb : bytes_at m s t).
  { apply bytes_at_app in Hsb as [Hsb _]. rewrite <- (take_drop (Z.to_nat (size - 1)) l) in Hsb.
    by apply bytes_at_app in Hsb as [Hsb _]. }
  assert (Htr : Forall (fun b => 0 < b < 256) t) by (by apply Forall_take).
  rewrite Hn. unfold memcpy. rewrite Nat2Z.id, memcpy_loop_spec; cycle 1.
  - done.
  - eapply Forall_impl; [done|]. unfold byte_range. cbn. lia.
  - eapply writable_sub; [done|lia|lia].
  - lia.
  - cbn. erewrite (st_ok _ _ 1); [|intros q Hq|lia|lia].
    2:{ rewrite lookup_write_out by lia. apply Hw. lia. }
    cbn. eexists. split; [done|]. split.
    + intros _. pose proof (cstr_write m d t Htr) as H. by rewrite write_app in H.
    + intros q Hq. rewrite lookup_insert_ne by lia. apply lookup_write_out. lia.
Qed.

(** ** Comparison *)

(** The dictionary order on byte strings. *)
Fixpoint lex (l1 l2 : list Z) : comparison :=
  match l1, l2 with
  | [], [] => Eq
  | [], _ => Lt
  | _, [] => Gt
  | a :: l1, b :: l2 => match a ?= b with Eq => lex l1 l2 | c => c end
  end.

Definition sign (z : Z) : comparison := z ?= 0.

Lemma s8_diff_zero a b :
  0 <= a < 256 -> 0 <= b < 256 -> s8 (s8 a - s8 b) = 0 <-> a = b.
Proof. intros. mlia. Qed.

Lemma s8_diff_sign a b :
  0 <= a < 128 -> 0 <= b < 128 -> s8 (s8 a - s8 b) = a - b.
Proof. intros. mlia. Qed.

(** [strcmp] returns 0 exactly on equal strings, for all byte values, and
    for 7-bit strings the sign of its result is the dictionary order. *)
Theorem strcmp_spec fuel m p q l1 l2 :
  cstr m p l1 -> cstr m q l2 -> (length l1 < fuel)%nat ->
  exists r, strcmp fuel m p q = Some r /\ (r = 0 <-> l1 = l2) /\
    (Forall (fun b => b < 128) l1 -> Forall (fun b => b < 128) l2 ->
     sign r = lex l1 l2).
Proof.
  revert fuel p q l2. induction l1 as [|a l1 IH]; intros [|fuel] p q l2 H1 H2 Hf;
    cbn in Hf; try lia; cbn.
  - apply cstr_nil in H1. unfold ld. rewrite H1. cbn.
    destruct l2 as [|b l2].
    + apply cstr_nil in H2. rewrite H2. cbn. exists 0. done.
    + apply cstr_cons in H2 as (Hb & Hr & _). rewrite Hb. cbn.
      rewrite orb_true_r. eexists. split; [done|]. split.
      * split; [|done]. intros E. exfalso. clear -E Hr. mlia.
      * intros _ [Hlt _]%Forall_cons. unfold sign. apply Z.compare_lt_iff.
        clear -Hlt Hr. mlia.
  - apply cstr_cons in H1 as (Ha & Hr & H1). unfold ld. rewrite Ha. cbn.
    destruct l2 as [|b l2].
    + apply cstr_nil in H2. rewrite H2. cbn.
      destruct (Z.eqb_spec (s8 (s8 a - s8 0)) 0) as [E|E].
      { exfalso. clear -E Hr. mlia. }
      cbn. eexists. split; [done|]. split; [split; [done|discriminate]|].
      intros [Hlt _]%Forall_cons _. unfold sign. apply Z.compare_gt_iff.
      clear -Hlt Hr. mlia.
    + apply cstr_cons in H2 as (Hb & Hr' & H2). rewrite Hb. cbn.
      destruct (Z.eqb_spec (s8 (s8 a - s8 b)) 0) as [E|E].
      * rewrite s8_diff_zero in E by lia. subst b.
        destruct (Z.eqb_spec a 0) as [->|_]; [lia|]. cbn.
        destruct (IH fuel (p + 1) (q + 1) l2) as (r & -> & Hz & Hs); [done|done|lia|].
        exists r. split; [done|]. split; [rewrite Hz; split; congruence|].
        intros [_ ?]%Forall_cons [_ ?]%Forall_cons. rewrite Z.compare_refl. by apply Hs.
      * cbn. eexists. split; [done|]. split.
        { split; [done|]. intros [= <- <-]. by rewrite s8_diff_zero in E by lia. }
        intros [Hlt _]%Forall_cons [Hlt' _]%Forall_cons. rewrite s8_diff_sign in * by lia.
        unfold sign. destruct (Z.compare_spec a b) as [->|Hab|Hab]; [lia| |].
        -- apply Z.compare_lt_iff. lia.
        -- apply Z.compare_gt_iff. lia.
Qed.

Lemma strcmp_spec_witness :
  exists r, strcmp 3 (write ∅ 10 [97; 98; 0; 97; 99; 0]) 10 13 = Some r /\
    (r = 0 <-> [97; 98] = [97; 99]) /\
    (Forall (fun b => b < 128) [97; 98] -> Forall (fun b => b < 128) [97; 99] ->
     sign r = lex [97; 98] [97; 99]).
Proof.
  apply (strcmp_spec 3 (write ∅ 10 [97; 98; 0; 97; 99; 0]) 10 13 [97; 98] [97; 99]);
    [split; [cbn; done|repeat constructor; lia]..|cbn; lia].
Defined.

(** Above 7 bits the truncation can turn the order around. *)
Example strcmp_truncated :
  strcmp 2 (write ∅ 10 [1; 0; 200; 0]) 10 12 = Some 57 /\ lex [1] [200] = Lt.
Proof. split; reflexivity. Qed.

Lemma memcmp_spec m p q l1 l2 :
  bytes_at m p l1 -> bytes_at m q l2 -> length l1 = length l2 ->
  exists r, memcmp m p q (length l1) = Some r /\ (r = 0 <-> l1 = l2).
Proof.
  revert p q l2. induction l1 as [|a l1 IH]; intros p q [|b l2] H1 H2 Hl;
    cbn in *; try done; [by exists 0|].
  destruct H1 as [Ha H1], H2 as [Hb H2]. unfold ld. rewrite Ha, Hb. cbn.
  destruct (Z.eqb_spec (a - b) 0) as [E|E]; cbn.
  - assert (a = b) as <- by lia. destruct (IH (p + 1) (q + 1) l2) as (r & -> & Hr);
      [done|done|lia|]. exists r. split; [done|]. rewrite Hr. split; congruence.
  - eexists. split; [done|]. split; [done|]. intros [= -> _]. lia.
Qed.

(** ** Substring search *)

Definition occurs_at (l1 l2 : list Z) (i : nat) : Prop :=
  take (length l2) (drop i l1) = l2.

Lemma strstr_loop_spec m p q l1 l2 :
  bytes_at m p l1 -> bytes_at m q l2 -> (0 < length l2)%nat ->
  exists r, strstr_loop (length l1) m p q (length l2) = Some r /\
    ((exists i, r = p + Z.of_nat i /\ occurs_at l1 l2 i /\ forall j, (j < i)%nat -> ~ occurs_at l1 l2 j)
     \/ (r = 0 /\ forall j, ~ occurs_at l1 l2 j)).
Proof.
  intros H1 H2 Hl. revert p H1. induction l1 as [|a l1 IH]; intros p H1.
  - cbn [length strstr_loop]. destruct (Nat.leb_spec (length l2) 0); [lia|].
    eexists. split; [done|]. right. split; [done|]. intros j Hj. unfold occurs_at in Hj.
    rewrite drop_nil, take_nil in Hj. subst l2. cbn in *. lia.
  - cbn [length strstr_loop].
    destruct (Nat.leb_spec (length l2) (S (length l1))) as [Hle|Hgt].
    + set (t := take (length l2) (a :: l1)).
      assert (Ht : length t = length l2) by (unfold t; rewrite length_take; cbn; lia).
      assert (Htb : bytes_at m p t).
      { rewrite <- (take_drop (length l2) (a :: l1)) in H1. by apply bytes_at_app in H1 as [H1 _]. }
      destruct (memcmp_spec m p q t l2) as (r & Hm & Hr); [done|done|done|].
      rewrite Ht in Hm. rewrite Hm. cbn. destruct (Z.eqb_spec r 0) as [E|E].
      * eexists. split; [done|]. left. exists 0%nat. repeat split; [lia| |lia].
        unfold occurs_at. rewrite drop_0. by apply Hr.
      * destruct (IH (p + 1)) as (r' & -> & Hr'); [apply H1|]. exists r'. split; [done|].
        destruct Hr' as [(i & -> & Hi & Hmin)|(-> & Hno)].
        -- left. exists (S i). repeat split; [lia|done|]. intros [|j] Hj.
           ++ unfold occurs_at. rewrite drop_0. intros Hc. by apply E, Hr.
           ++ apply (Hmin j). lia.
        -- right. split; [done|]. intros [|j].
           ++ unfold occurs_at. rewrite drop_0. intros Hc. by apply E, Hr.
           ++ apply (Hno j).
    + eexists. split; [done|]. right. split; [done|]. intros j Hj. unfold occurs_at in Hj.
      apply (f_equal length) in Hj. rewrite length_take, length_drop in Hj. cbn in Hj. lia.
Qed.

(** [strstr] returns the address of the first occurrence of the second
    string in the first one, and [NULL] only when there is none. *)
Theorem strstr_spec fuel m p q l1 l2 :
  cstr m p l1 -> cstr m q l2 -> (length l1 < fuel)%nat -> (length l2 < fuel)%nat ->
  exists r, strstr fuel m p q = Some r /\
    ((exists i, r = p + Z.of_nat i /\ occurs_at l1 l2 i /\ forall j, (j < i)%nat -> ~ occurs_at l1 l2 j)
     \/ (r = 0 /\ forall j, ~ occurs_at l1 l2 j)).
Proof.
  intros H1 H2 Hf1 Hf2. unfold strstr. rewrite (strlen_spec _ _ q l2) by done. ostep.
  destruct (Z.eqb_spec (length l2) 0) as [E|E].
  - exists p. split; [done|]. left. exists 0%nat. destruct l2; [|cbn in E; lia].
    repeat split; [lia|lia].
  - rewrite (strlen_spec _ _ _ l1) by done. ostep. rewrite !Nat2Z.id.
    apply strstr_loop_spec; [| |lia].
    + destruct H1 as [H1 _]. by apply bytes_at_app in H1 as [H1 _].
    + destruct H2 as [H2 _]. by apply bytes_at_app in H2 as [H2 _].
Qed.

(** ** Tokens *)

Lemma set_scan_spec fuel m ct seps c :
  cstr m ct seps -> 0 < c -> (length seps < fuel)%nat ->
  exists r, set_scan fuel m ct c = Some r /\
    ((c ∈ seps) /\ m !! r = Some c \/ (c ∉ seps) /\ m !! r = Some 0).
Proof.
  revert fuel ct. induction seps as [|x seps IH]; intros [|fuel] ct Hs Hc Hf;
    cbn in Hf; try lia; cbn.
  - apply cstr_nil in Hs. unfold ld. rewrite Hs. cbn. eexists. split; [done|].
    right. split; [set_solver|done].
  - apply cstr_cons in Hs as (Hx & Hr & Hs). unfold ld. rewrite Hx. cbn.
    destruct (Z.eqb_spec x 0) as [->|_]; [lia|].
    destruct (Z.eqb_spec c x) as [->|Hne].
    + eexists. split; [done|]. left. split; [set_solver|done].
    + destruct (IH fuel (ct + 1)) as (r & -> & Hor); [done|done|lia|]. exists r. split; [done|].
      destruct Hor as [[? ?]|[? ?]]; [left|right]; split; auto; set_solver.
Qed.


(** The characters before the first separator. *)
Fixpoint token (seps l : list Z) : list Z :=
  match l with
  | [] => []
  | c :: l => if decide (c ∈ seps) then [] else c :: token seps l
  end.

Lemma strpbrk_spec fuel m p ct l seps :
  cstr m p l -> cstr m ct seps -> (length l + length seps < fuel)%nat ->
  exists r, strpbrk fuel m p ct = Some r /\
    ((token seps l = l /\ r = 0) \/
     (exists c rest, l = token seps l ++ c :: rest /\ r = p + length (token seps l))).
Proof.
  intros Hl Hct. revert fuel p Hl. induction l as [|c l IH]; intros [|fuel] p Hl Hf;
    cbn in Hf; try lia; cbn.
  - apply cstr_nil in Hl. unfold ld. rewrite Hl. cbn. eexists. split; [done|]. by left.
  - apply cstr_cons in Hl as (Hc & Hr & Hl). unfold ld. rewrite Hc. cbn.
    destruct (Z.eqb_spec c 0) as [->|_]; [lia|].
    destruct (set_scan_spec fuel m ct seps c) as (r & -> & Hor); [done|lia|lia|]. cbn.
    destruct Hor as [[Hin Hm]|[Hin Hm]]; rewrite Hm; cbn.
    + rewrite decide_True by done.
      destruct (Z.eqb_spec c 0) as [->|_]; [lia|]. eexists. split; [done|].
      right. exists c, l. split; [done|]. cbn. lia.
    + rewrite decide_False by done.
      destruct (IH fuel (p + 1)) as (r' & -> & Hor); [done|lia|].
      exists r'. split; [done|]. destruct Hor as [(E & ->)|(x & rest & E & ->)].
      * left. by rewrite E.
      * right. exists x, rest. split; [by rewrite E at 1|]. cbn. lia.
Qed.

(** [strsep] returns the token before the first separator as a string of
    its own, moves the cursor behind the separator, where the rest of the
    input still stands, or sets it to [NULL] when there is no separator. *)
Theorem strsep_spec fuel m s ct l seps :
  s <> 0 -> 0 < s -> cstr m s l -> cstr m ct seps ->
  (length l + length seps < fuel)%nat ->
  (strsep fuel m s ct = Some (m, 0, s) /\ token seps l = l) \/
  (exists m' c rest,
     strsep fuel m s ct = Some (m', s + length (token seps l) + 1, s) /\
     l = token seps l ++ c :: rest /\
     cstr m' s (token seps l) /\ cstr m' (s + length (token seps l) + 1) rest).
Proof.
  intros Hs0 Hs Hl Hct Hf. unfold strsep. destruct (Z.eqb_spec s 0) as [|_]; [lia|].
  destruct (strpbrk_spec fuel m s ct l seps) as (r & -> & Hor); [done..|]. cbn.
  destruct Hor as [(E & ->)|(c & rest & E & ->)]; [by left|]. right.
  set (t := token seps l) in *. destruct (Z.eqb_spec (s + length t) 0); [lia|].
  destruct Hl as [Hb Hr]. rewrite E in Hb, Hr. rewrite <- app_assoc in Hb.
  apply bytes_at_app in Hb as [Ht [Hc Hrest]]. apply Forall_app in Hr as [Htr Hr].
  apply Forall_cons in Hr as [_ Hr].
  exists (<[s + length t := 0]> m), c, rest. unfold st. rewrite Hc. cbn.
  split; [done|]. split; [done|]. split; split; [|done| |done].
  - apply bytes_at_app. split; [|cbn; by rewrite lookup_insert_eq].
    eapply bytes_at_frame; [|done]. intros q Hq. apply lookup_insert_ne. lia.
  - eapply bytes_at_frame; [|done]. intros q Hq. apply lookup_insert_ne. lia.
Qed.

(** ** Fixed-size fields *)

(** What [strncpy] leaves in a field of [n] characters. *)
Definition strncpy_field (n : nat) (l : list Z) : list Z :=
  take n l ++ replicate (n - length l) 0.

Lemma length_strncpy_field n l : length (strncpy_field n l) = n.
Proof. unfold strncpy_field. rewrite length_app, length_take, length_replicate. lia. Qed.

Lemma strncpy_loop_spec (n : nat) m d s l :
  cstr m s l -> writable m d n -> s + length l < d \/ d + n <= s ->
  strncpy_loop n m d s = Some (write m d (strncpy_field n l)).
Proof.
  revert m d s l. induction n as [|n IH]; intros m d s l Hs Hw Hd; cbn; [done|].
  destruct l as [|b l].
  - apply cstr_nil in Hs as H0. unfold ld. rewrite H0. cbn.
    rewrite (st_ok _ _ 1) by (lia || (eapply writable_sub; [done|lia|lia])). cbn.
    rewrite (IH _ _ _ []); [|idtac..|cbn in *; lia].
    + unfold strncpy_field. rewrite !take_nil. cbn. by rewrite Nat.sub_0_r.
    + eapply cstr_frame; [|done]. intros q Hq. apply lookup_insert_ne. cbn in *. lia.
    + apply writable_insert. eapply writable_sub; [done|lia|lia].
  - apply cstr_cons in Hs as (Hb & Hr & Hs). unfold ld. rewrite Hb. cbn.
    rewrite (st_ok _ _ 1) by (lia || (eapply writable_sub; [done|lia|lia])). cbn.
    destruct (Z.eqb_spec b 0) as [->|_]; [lia|].
    rewrite (IH _ _ _ l); [done|idtac..|cbn in *; lia].
    + eapply cstr_frame; [|done]. intros q Hq. apply lookup_insert_ne. cbn in *. lia.
    + apply writable_insert. eapply writable_sub; [done|lia|lia].
Qed.

(** [strncpy] fills exactly the field: the source truncated to the field,
    padded with NULs, and nothing outside it; the field is a terminated string
    exactly when the source is shorter than the field. *)
Theorem strncpy_spec (n : nat) m d s l :
  cstr m s l -> writable m d n -> s + length l < d \/ d + n <= s ->
  exists m', strncpy m d s n = Some (m', d) /\
    bytes_at m' d (take n l ++ replicate (n - length l) 0) /\
    ((length l < n)%nat -> cstr m' d l) /\
    (forall q, q < d \/ d + n <= q -> m' !! q = m !! q).
Proof.
  intros Hs Hw Hd. exists (write m d (strncpy_field n l)). unfold strncpy.
  rewrite (strncpy_loop_spec _ _ _ _ l) by done. cbn. split; [done|].
  split; [apply bytes_at_write|]. split.
  - intros Hlt. split; [|apply Hs].
    pose proof (bytes_at_write m d (strncpy_field n l)) as H. unfold strncpy_field at 2 in H.
    rewrite take_ge in H by lia. replace (n - length l)%nat with (S (n - length l - 1)) in H by lia.
    cbn [replicate] in H. change (0 :: ?x) with ([0] ++ x) in H. rewrite app_assoc in H.
    by apply bytes_at_app in H as [H _].
  - intros q Hq. apply lookup_write_out. rewrite length_strncpy_field. lia.
Qed.

(** ** Witnesses: a memory with the strings "ab" at 10, "," at 13, "ab,c" at
    15 and free space from 20 to 29. *)

Definition mem0 : mem :=
  write ∅ 10 [97; 98; 0; 44; 0; 97; 98; 44; 99; 0; 1; 1; 1; 1; 1; 1; 1; 1; 1; 1].

Ltac concrete_cstr :=
  split; [repeat (split; [vm_compute; reflexivity|]); exact I | repeat constructor; lia].
Ltac concrete_bytes := repeat (split; [vm_compute; reflexivity|]); exact I.

Lemma mem0_writable p n : 10 <= p -> p + n <= 30 -> writable mem0 p n.
Proof.
  intros Hp Hn. eapply writable_sub; [|exact Hp|].
  - apply (bytes_writable mem0 10
      [97; 98; 0; 44; 0; 97; 98; 44; 99; 0; 1; 1; 1; 1; 1; 1; 1; 1; 1; 1]). concrete_bytes.
  - cbn. lia.
Qed.

Lemma memmove_spec_witness :
  exists m', memmove mem0 16 15 4 = Some (m', 16) /\ bytes_at m' 16 [97; 98; 44; 99] /\
    (forall q, q < 16 \/ 16 + 4 <= q -> m' !! q = mem0 !! q).
Proof.
  apply (memmove_spec mem0 16 15 [97; 98; 44; 99]).
  - concrete_bytes.
  - repeat constructor; lia.
  - apply mem0_writable; cbn; lia.
Defined.

Lemma strncpy_spec_witness :
  exists m', strncpy mem0 20 10 4 = Some (m', 20) /\
    bytes_at m' 20 (take 4 [97; 98] ++ replicate (4 - 2) 0) /\
    ((2 < 4)%nat -> cstr m' 20 [97; 98]) /\
    (forall q, q < 20 \/ 20 + 4 <= q -> m' !! q = mem0 !! q).
Proof.
  apply (strncpy_spec 4 mem0 20 10 [97; 98]).
  - concrete_cstr.
  - apply mem0_writable; lia.
  - cbn. lia.
Defined.

Lemma strcat_spec_witness :
  exists m', strcat 9 mem0 15 10 = Some (m', 15) /\
    cstr m' 15 ([97; 98; 44; 99] ++ [97; 98]) /\
    (forall q, q < 15 \/ 15 + 4 + 2 < q -> m' !! q = mem0 !! q).
Proof.
  destruct (strcat_spec 9 mem0 15 10 [97; 98; 44; 99] [97; 98]) as (m' & H).
  - concrete_cstr.
  - concrete_cstr.
  - apply mem0_writable; cbn; lia.
  - cbn. lia.
  - cbn. lia.
  - cbn. lia.
  - by exists m'.
Defined.

Lemma strlcpy_spec_witness :
  exists m', strlcpy 9 mem0 20 15 3 = Some (m', 4) /\
    (0 < 3 -> cstr m' 20 (take (Z.to_nat (3 - 1)) [97; 98; 44; 99])) /\
    (forall q, q < 20 \/ 20 + 3 <= q -> m' !! q = mem0 !! q).
Proof.
  apply (strlcpy_spec 9 mem0 20 15 [97; 98; 44; 99] 3).
  - concrete_cstr.
  - lia.
  - apply mem0_writable; lia.
  - cbn. lia.
  - cbn. lia.
Defined.

Lemma strstr_spec_witness :
  exists r, strstr 9 mem0 15 13 = Some r /\
    ((exists i, r = 15 + Z.of_nat i /\ occurs_at [97; 98; 44; 99] [44] i /\
        forall j, (j < i)%nat -> ~ occurs_at [97; 98; 44; 99] [44] j)
     \/ (r = 0 /\ forall j, ~ occurs_at [97; 98; 44; 99] [44] j)).
Proof.
  apply (strstr_spec 9 mem0 15 13 [97; 98; 44; 99] [44]).
  - concrete_cstr.
  - concrete_cstr.
  - cbn. lia.
  - cbn. lia.
Defined.

Lemma strsep_spec_witness :
  (strsep 9 mem0 15 13 = Some (mem0, 0, 15) /\ token [44] [97; 98; 44; 99] = [97; 98; 44; 99]) \/
  (exists m' c rest,
     strsep 9 mem0 15 13 = Some (m', 15 + length (token [44] [97; 98; 44; 99]) + 1, 15) /\
     [97; 98; 44; 99] = token [44] [97; 98; 44; 99] ++ c :: rest /\
     cstr m' 15 (token [44] [97; 98; 44; 99]) /\
     cstr m' (15 + length (token [44] [97; 98; 44; 99]) + 1) rest).
Proof.
  apply (strsep_spec 9 mem0 15 13 [97; 98; 44; 99] [44]).
  - lia.
  - lia.
  - concrete_cstr.
  - concrete_cstr.
  - cbn. lia.
Defined.
