(* ===== verification/Locks.v ===== *)
(** * Atomics, semaphores and spin locks (Dev32/lxszopt.c)

    The out-of-line versions of the i386 primitives and, for the contended
    paths, the C routines of Linux/lib/ll_semaphore.c.  Each [lock]-prefixed
    instruction is one atomic function on the 32-bit counter (or on the low
    byte of a spin lock); the locking algorithms are step relations in which
    the threads interleave between these instructions. *)

From S2P Require Import Prelude.

(** ** Current thread *)

(** [current_thread_info]: the stack pointer rounded down to the stack size. *)
Definition current_thread_info (THREAD_SIZE esp : Z) : Z :=
  Z.land esp (Z.lnot (THREAD_SIZE - 1)).

(** [get_current] reads the [task] field of the thread info. *)
Definition get_current (task : Z -> Z) (THREAD_SIZE esp : Z) : Z :=
  task (current_thread_info THREAD_SIZE esp).

(** ** Atomic counters: the new counter and, where there is one, the result *)

Definition atomic_add (i v : Z) : Z := s32 (v + i).
Definition atomic_sub (i v : Z) : Z := s32 (v - i).
Definition atomic_sub_and_test (i v : Z) : Z * bool :=
  let v := s32 (v - i) in (v, v =? 0).
Definition atomic_inc (v : Z) : Z := s32 (v + 1).
Definition atomic_dec (v : Z) : Z := s32 (v - 1).
Definition atomic_dec_and_test (v : Z) : Z * bool :=
  let v := s32 (v - 1) in (v, v =? 0).
Definition atomic_inc_and_test (v : Z) : Z * bool :=
  let v := s32 (v + 1) in (v, v =? 0).
Definition atomic_add_negative (i v : Z) : Z * bool :=
  let v := s32 (v + i) in (v, v <? 0).

(** ** The big kernel lock *)

Record bkl := mk_bkl { kernel_flag : bool; lock_depth : Z }.

Definition get_kernel_lock : M bkl unit := fun s =>
  if kernel_flag s then Err Deadlock else Ok (tt, mk_bkl true (lock_depth s)).
Definition put_kernel_lock : M bkl unit := fun s =>
  Ok (tt, mk_bkl false (lock_depth s)).
Definition set_lock_depth (d : Z) : M bkl unit :=
  modify (fun s => mk_bkl (kernel_flag s) d).

Definition release_kernel_lock : M bkl unit :=
  d ← gets lock_depth;
  if 0 <=? d then put_kernel_lock else mret tt.

Definition reacquire_kernel_lock : M bkl unit :=
  d ← gets lock_depth;
  if 0 <=? d then get_kernel_lock else mret tt.

Definition lock_kernel : M bkl unit :=
  d ← gets lock_depth;
  let depth := s32 (d + 1) in
  (if depth =? 0 then get_kernel_lock else mret tt) ≫= fun _ =>
  set_lock_depth depth.

Definition unlock_kernel : M bkl unit :=
  d ← gets lock_depth;
  if d <? 0 then throw BugOn
  else
    set_lock_depth (s32 (d - 1)) ≫= fun _ =>
    d' ← gets lock_depth;
    if d' <? 0 then put_kernel_lock else mret tt.

(** ** Semaphores *)

Record semaphore := mk_sem { sem_count : Z; sleepers : Z }.

(** The out-of-line routine an operation falls through to. *)
Inductive slow_path :=
  | down_failed
  | down_failed_interruptible
  | down_failed_trylock
  | up_wakeup.

(** [decl; jns]: taken or into the slow path. *)
Definition dec_or (f : slow_path) (sem : semaphore) : semaphore * option slow_path :=
  let c := s32 (sem_count sem - 1) in
  (mk_sem c (sleepers sem), if 0 <=? c then None else Some f).

Definition down (sem : semaphore) : semaphore * option slow_path :=
  dec_or down_failed sem.
Definition down_interruptible (sem : semaphore) : semaphore * option slow_path :=
  dec_or down_failed_interruptible sem.
Definition down_trylock (sem : semaphore) : semaphore * option slow_path :=
  dec_or down_failed_trylock sem.

(** [incl; jg]: wake somebody up unless the true sum is positive. *)
Definition up (sem : semaphore) : semaphore * option slow_path :=
  (mk_sem (s32 (sem_count sem + 1)) (sleepers sem),
   if 0 <? sem_count sem + 1 then None else Some up_wakeup).

(** One turn of the [for (;;)] of [_down], under the wait-queue lock:
    [true] when the semaphore was obtained. *)
Definition _down_attempt (sem : semaphore) : semaphore * bool :=
  let '(c, neg) := atomic_add_negative (sleepers sem - 1) (sem_count sem) in
  if negb neg then (mk_sem c 0, true) else (mk_sem c 1, false).

Definition _down_enter (sem : semaphore) : semaphore * bool :=
  _down_attempt (mk_sem (sem_count sem) (sleepers sem + 1)).

(** The same turn of [_down_interruptible]: [Some r] leaves the loop. *)
Definition _down_interruptible_attempt (signal_pending : bool) (sem : semaphore)
    : semaphore * option Z :=
  if signal_pending then
    (mk_sem (atomic_add (sleepers sem) (sem_count sem)) 0, Some (- EINTR))
  else
    let '(sem, got) := _down_attempt sem in (sem, if got then Some 0 else None).

Definition _down_interruptible_enter (signal_pending : bool) (sem : semaphore)
    : semaphore * option Z :=
  _down_interruptible_attempt signal_pending (mk_sem (sem_count sem) (sleepers sem + 1)).

(** The slow path of [down_trylock]: undo the decrement; the [bool] says that
    a sleeper is woken.  It always returns 1. *)
Definition _down_trylock (sem : semaphore) : semaphore * bool * Z :=
  let s := sleepers sem + 1 in
  let '(c, neg) := atomic_add_negative s (sem_count sem) in
  (mk_sem c 0, negb neg, 1).

(** Threads that use one semaphore.  A sleeping thread may run its turn of
    the loop at any time: the order of wake-ups plays no part. *)
Inductive sem_pc :=
  | SemIdle
  | SemEntry (f : slow_path)     (* decremented, not yet in the slow path *)
  | SemSleep (interruptible : bool)
  | SemHeld.

Definition sem_sys : Type := list sem_pc * semaphore.

Definition after_fast (r : semaphore * option slow_path) : semaphore * sem_pc :=
  (r.1, match r.2 with None => SemHeld | Some f => SemEntry f end).

Definition after_loop (intr : bool) (r : semaphore * bool) : semaphore * sem_pc :=
  (r.1, if r.2 then SemHeld else SemSleep intr).

Definition after_intr (r : semaphore * option Z) : semaphore * sem_pc :=
  (r.1, match r.2 with
        | None => SemSleep true
        | Some r => if r =? 0 then SemHeld else SemIdle
        end).

(** What one thread can do next. *)
Inductive sem_move : sem_pc -> semaphore -> semaphore * sem_pc -> Prop :=
  | move_down s : sem_move SemIdle s (after_fast (down s))
  | move_down_interruptible s : sem_move SemIdle s (after_fast (down_interruptible s))
  | move_down_trylock s : sem_move SemIdle s (after_fast (down_trylock s))
  | move_slow s : sem_move (SemEntry down_failed) s (after_loop false (_down_enter s))
  | move_slow_intr s sig : sem_move (SemEntry down_failed_interruptible) s
      (after_intr (_down_interruptible_enter sig s))
  | move_slow_try s : sem_move (SemEntry down_failed_trylock) s
      ((_down_trylock s).1.1, SemIdle)
  | move_retry s : sem_move (SemSleep false) s (after_loop false (_down_attempt s))
  | move_retry_intr s sig : sem_move (SemSleep true) s
      (after_intr (_down_interruptible_attempt sig s))
  | move_up s : sem_move SemHeld s ((up s).1, SemIdle).

Inductive sem_step : sem_sys -> sem_sys -> Prop :=
  | sem_step_intro l s i pc s' pc' :
      l !! i = Some pc -> sem_move pc s (s', pc') ->
      sem_step (l, s) (<[i := pc']> l, s').

(** ** Spin locks: the low byte of the lock word, signed *)

Inductive spin_pc :=
  | SpinIdle
  | SpinDec      (* about to execute [decb] *)
  | SpinWait     (* in the [rep; nop; cmpb] loop *)
  | SpinHeld.

Definition _raw_spin_unlock (lock : Z) : Z := 1.

Definition _raw_spin_trylock (lock : Z) : Z * bool := (0, 0 <? s8 lock).

(** The instructions of [spin_lock_string]. *)
Definition _raw_spin_lock (pc : spin_pc) (lock : Z) : Z * spin_pc :=
  match pc with
  | SpinDec => let l := s8 (lock - 1) in (l, if 0 <=? l then SpinHeld else SpinWait)
  | SpinWait => (lock, if lock <=? 0 then SpinWait else SpinDec)
  | _ => (lock, pc)
  end.

Definition spin_sys : Type := list spin_pc * Z.

Inductive spin_move : spin_pc -> Z -> Z * spin_pc -> Prop :=
  | spin_call lock : spin_move SpinIdle lock (lock, SpinDec)
  | spin_try lock : spin_move SpinIdle lock
      ((_raw_spin_trylock lock).1,
       if (_raw_spin_trylock lock).2 then SpinHeld else SpinIdle)
  | spin_dec lock : spin_move SpinDec lock (_raw_spin_lock SpinDec lock)
  | spin_wait lock : spin_move SpinWait lock (_raw_spin_lock SpinWait lock)
  | spin_unlock lock : spin_move SpinHeld lock (_raw_spin_unlock lock, SpinIdle).

Inductive spin_step : spin_sys -> spin_sys -> Prop :=
  | spin_step_intro l lock i pc lock' pc' :
      l !! i = Some pc -> spin_move pc lock (lock', pc') ->
      spin_step (l, lock) (<[i := pc']> l, lock').

(** ** Read-write locks *)

Definition RW_LOCK_BIAS : Z := 16777216.

Inductive rw_pc :=
  | RwIdle
  | RdSub | RdUndo | RdWait | RdHeld
  | WrSub | WrUndo | WrWait | WrHeld
  | WrTryUndo.

(** [subl $1; jns] and, in [__read_lock_failed], [incl], the wait loop
    [cmpl $1; js] and [decl; js]. *)
Definition _raw_read_lock (pc : rw_pc) (lock : Z) : Z * rw_pc :=
  match pc with
  | RdSub => let l := s32 (lock - 1) in (l, if 0 <=? l then RdHeld else RdUndo)
  | RdUndo => (s32 (lock + 1), RdWait)
  | RdWait => (lock, if s32 (lock - 1) <? 0 then RdWait else RdSub)
  | _ => (lock, pc)
  end.

(** [subl $BIAS; jz] and, in [__write_lock_failed], [addl], the wait loop
    [cmpl $BIAS; jne] and [subl; jnz]. *)
Definition _raw_write_lock (pc : rw_pc) (lock : Z) : Z * rw_pc :=
  match pc with
  | WrSub => let l := s32 (lock - RW_LOCK_BIAS) in (l, if l =? 0 then WrHeld else WrUndo)
  | WrUndo => (s32 (lock + RW_LOCK_BIAS), WrWait)
  | WrWait => (lock, if lock =? RW_LOCK_BIAS then WrSub else WrWait)
  | _ => (lock, pc)
  end.

(** [_raw_write_trylock]: the subtraction, then the addition that undoes it. *)
Definition _raw_write_trylock (pc : rw_pc) (lock : Z) : Z * rw_pc :=
  match pc with
  | RwIdle =>
      let '(l, got) := atomic_sub_and_test RW_LOCK_BIAS lock in
      (l, if got then WrHeld else WrTryUndo)
  | WrTryUndo => (atomic_add RW_LOCK_BIAS lock, RwIdle)
  | _ => (lock, pc)
  end.

Definition _raw_read_unlock (lock : Z) : Z := s32 (lock + 1).
Definition _raw_write_unlock (lock : Z) : Z := s32 (lock + RW_LOCK_BIAS).

Inductive rw_move : rw_pc -> Z -> Z * rw_pc -> Prop :=
  | rw_read_call v : rw_move RwIdle v (v, RdSub)
  | rw_write_call v : rw_move RwIdle v (v, WrSub)
  | rw_try v : rw_move RwIdle v (_raw_write_trylock RwIdle v)
  | rw_try_undo v : rw_move WrTryUndo v (_raw_write_trylock WrTryUndo v)
  | rw_read pc v : pc = RdSub \/ pc = RdUndo \/ pc = RdWait -> rw_move pc v (_raw_read_lock pc v)
  | rw_write pc v : pc = WrSub \/ pc = WrUndo \/ pc = WrWait -> rw_move pc v (_raw_write_lock pc v)
  | rw_read_unlock v : rw_move RdHeld v (_raw_read_unlock v, RwIdle)
  | rw_write_unlock v : rw_move WrHeld v (_raw_write_unlock v, RwIdle).

Inductive rw_step : list rw_pc * Z -> list rw_pc * Z -> Prop :=
  | rw_step_intro l v i pc v' pc' :
      l !! i = Some pc -> rw_move pc v (v', pc') ->
      rw_step (l, v) (<[i := pc']> l, v').

(** ** Semaphores: the number of holders *)

Definition sem_held (pc : sem_pc) : bool := match pc with SemHeld => true | _ => false end.
Definition sem_entry (pc : sem_pc) : bool := match pc with SemEntry _ => true | _ => false end.

(** The counter is the initial value less the holders, less the threads on
    their way into a slow path, less one when somebody sleeps. *)
Record sem_inv (N : Z) (n : nat) (y : sem_sys) : Prop := {
  sem_inv_len : length y.1 = n;
  sem_inv_count :
    sem_count y.2 = N - count sem_held y.1 - count sem_entry y.1 - sleepers y.2;
  sem_inv_sleepers : sleepers y.2 = 0 \/ sleepers y.2 = 1;
  sem_inv_held : count sem_held y.1 <= N
}.

Lemma sem_inv_init N n : 0 <= N -> sem_inv N n (replicate n SemIdle, mk_sem N 0).
Proof.
  intros HN. split; cbn; rewrite ?length_replicate, ?count_replicate; cbn; lia.
Qed.

(** The facts the arithmetic of a step needs. *)
Lemma sem_inv_bounds N (n : nat) l s :
  sem_inv N n (l, s) ->
  0 <= count sem_held l /\ 0 <= count sem_entry l /\
  count sem_held l + count sem_entry l <= n.
Proof.
  intros [Hl _ _ _]. cbn in Hl. subst n. split; [apply count_nonneg|].
  split; [apply count_nonneg|]. apply count_disjoint. by intros [].
Qed.

Lemma sem_inv_step N (n : nat) y y' :
  0 <= N -> N + n < 2147483647 -> sem_inv N n y -> sem_step y y' -> sem_inv N n y'.
Proof.
  intros HN Hn Hinv Hstep. destruct Hstep as [l s i pc s' pc' Hi Hm].
  pose proof (sem_inv_bounds _ _ _ _ Hinv) as (Hh & He & Hle).
  destruct Hinv as [Hl Hc Hs Hheld]; cbn in Hl, Hc, Hs, Hheld. destruct s as [c sl]; cbn in Hc, Hs.
  assert (Hi' := count_insert sem_held l i pc' pc Hi).
  assert (Hj' := count_insert sem_entry l i pc' pc Hi).
  assert (Hsub : Z.b2z (sem_entry pc) <= count sem_entry l).
  { by eapply count_at. }
  inversion Hm; subst; clear Hm;
    unfold after_fast, after_loop, after_intr, down, down_interruptible, down_trylock, dec_or, up,
      _down_enter, _down_interruptible_enter, _down_interruptible_attempt, _down_attempt,
      _down_trylock, atomic_add_negative, atomic_add in *; cbn in *;
    repeat match goal with
    | H : (_, _) = (_, _) |- _ => injection H as ? ?; subst
    | H : context [s32 ?z] |- _ => rewrite (s32_small z) in H by lia
    | |- context [s32 ?z] => rewrite (s32_small z) by lia
    | H : context [if ?b then _ else _] |- _ => destruct b eqn:?; cbn in *
    | |- context [if ?b then _ else _] => destruct b eqn:?; cbn in *
    end;
    try discriminate;
    (split; cbn; [by rewrite length_insert| | |]; lia).
Qed.

(** C38: however [down], [down_interruptible], [down_trylock] and [up] of any
    number of threads interleave, contended paths, signals and spurious
    wake-ups included, a semaphore initialised to [N] never has more than [N]
    holders. *)
Theorem semaphore_holders N (n : nat) l s :
  0 <= N -> N + Z.of_nat n < 2147483647 ->
  rtc sem_step (replicate n SemIdle, mk_sem N 0) (l, s) ->
  count sem_held l <= N.
Proof.
  intros HN Hn Hr. cut (sem_inv N n (l, s)); [by intros []|].
  remember (replicate n SemIdle, mk_sem N 0) as y eqn:Ey. remember (l, s) as y'.
  assert (Hy : sem_inv N n y) by (subst; by apply sem_inv_init). clear Ey Heqy'.
  induction Hr; [done|]. apply IHHr. by eapply sem_inv_step.
Qed.

Lemma semaphore_holders_witness :
  rtc sem_step (replicate 2 SemIdle, mk_sem 1 0) ([SemHeld; SemEntry down_failed], mk_sem (-1) 0) /\
  count sem_held [SemHeld; SemEntry down_failed] <= 1.
Proof.
  assert (H : rtc sem_step (replicate 2 SemIdle, mk_sem 1 0)
                ([SemHeld; SemEntry down_failed], mk_sem (-1) 0)).
  { eapply rtc_l; [exact (sem_step_intro [SemIdle; SemIdle] (mk_sem 1 0) 0 SemIdle
      (mk_sem 0 0) SemHeld eq_refl (move_down (mk_sem 1 0)))|].
    eapply rtc_l; [exact (sem_step_intro [SemHeld; SemIdle] (mk_sem 0 0) 1 SemIdle
      (mk_sem (-1) 0) (SemEntry down_failed) eq_refl (move_down (mk_sem 0 0)))|].
    apply rtc_refl. }
  split; [exact H|].
  apply (semaphore_holders 1 2 [SemHeld; SemEntry down_failed] (mk_sem (-1) 0));
    [lia|cbn; lia|exact H].
Defined.

(** ** Spin locks: mutual exclusion *)

Definition spin_held (pc : spin_pc) : bool := match pc with SpinHeld => true | _ => false end.
Definition spin_waiting (pc : spin_pc) : bool := match pc with SpinWait => true | _ => false end.
Definition spin_trying (pc : spin_pc) : bool := match pc with SpinDec => true | _ => false end.

(** Free: the byte is 1 and nobody is inside.  Taken: one thread is inside and
    the byte is at most 0, each waiting thread having decremented it at most
    once since the last unlock. *)
Record spin_inv (n : nat) (y : spin_sys) : Prop := {
  spin_inv_len : length y.1 = n;
  spin_inv_state :
    (y.2 = 1 /\ count spin_held y.1 = 0) \/
    (count spin_held y.1 = 1 /\ - count spin_waiting y.1 <= y.2 <= 0)
}.

Lemma spin_inv_step n y y' :
  (n <= 128)%nat -> spin_inv n y -> spin_step y y' -> spin_inv n y'.
Proof.
  intros Hn [Hl Hs] Hstep. destruct Hstep as [l lock i pc lock' pc' Hi Hm].
  cbn in Hl, Hs.
  assert (Hh := count_insert spin_held l i pc' pc Hi).
  assert (Hw := count_insert spin_waiting l i pc' pc Hi).
  pose proof (count_at spin_held l i pc Hi). pose proof (count_nonneg spin_waiting l).
  assert (Hsum : count spin_held l + count (fun pc => spin_waiting pc || spin_trying pc) l <= length l)
    by (apply count_disjoint; by intros []).
  assert (Hwt : count spin_waiting l + Z.b2z (spin_trying pc) <=
                count (fun pc => spin_waiting pc || spin_trying pc) l).
  { rewrite count_split by (by intros []). pose proof (count_at spin_trying l i pc Hi). lia. }
  inversion Hm; subst; clear Hm; unfold _raw_spin_lock, _raw_spin_trylock, _raw_spin_unlock in *;
    cbn in *;
    repeat match goal with
    | H : (_, _) = (_, _) |- _ => injection H as ? ?; subst
    | H : context [s8 ?z] |- _ => rewrite (s8_small z) in H by lia
    | |- context [s8 ?z] => rewrite (s8_small z) by lia
    | H : context [if ?b then _ else _] |- _ => destruct b eqn:?; cbn in *
    | |- context [if ?b then _ else _] => destruct b eqn:?; cbn in *
    end;
    try discriminate;
    (split; cbn; [by rewrite length_insert|]; lia).
Qed.

(** C40: with at most 128 processors the byte of a spin lock never wraps and no
    two of them are in the critical section at once, whatever the interleaving
    of [_raw_spin_lock], [_raw_spin_trylock] and [_raw_spin_unlock]. *)
Theorem spin_mutual_exclusion n l lock :
  (n <= 128)%nat ->
  rtc spin_step (replicate n SpinIdle, 1) (l, lock) -> count spin_held l <= 1.
Proof.
  intros Hn Hr. cut (spin_inv n (l, lock)); [intros [_ ?]; cbn in *; lia|].
  remember (replicate n SpinIdle, 1) as y eqn:Ey. remember (l, lock) as y'.
  assert (Hy : spin_inv n y).
  { subst. split; cbn; [apply length_replicate|]. rewrite count_replicate. cbn. lia. }
  clear Ey Heqy'. induction Hr; [done|]. apply IHHr. by eapply spin_inv_step.
Qed.

Lemma spin_mutual_exclusion_witness :
  rtc spin_step (replicate 2 SpinIdle, 1) ([SpinHeld; SpinWait], -1) /\
  count spin_held [SpinHeld; SpinWait] <= 1.
Proof.
  assert (H : rtc spin_step (replicate 2 SpinIdle, 1) ([SpinHeld; SpinWait], -1)).
  { eapply rtc_l; [exact (spin_step_intro [SpinIdle; SpinIdle] 1 0 SpinIdle 1 SpinDec
      eq_refl (spin_call 1))|].
    eapply rtc_l; [exact (spin_step_intro [SpinDec; SpinIdle] 1 0 SpinDec 0 SpinHeld
      eq_refl (spin_dec 1))|].
    eapply rtc_l; [exact (spin_step_intro [SpinHeld; SpinIdle] 0 1 SpinIdle 0 SpinDec
      eq_refl (spin_call 0))|].
    eapply rtc_l; [exact (spin_step_intro [SpinHeld; SpinDec] 0 1 SpinDec (-1) SpinWait
      eq_refl (spin_dec 0))|].
    apply rtc_refl. }
  split; [exact H|].
  apply (spin_mutual_exclusion 2 [SpinHeld; SpinWait] (-1)); [lia|exact H].
Defined.

(** ** Read-write locks: readers or one writer *)

(** A thread that still owes the counter 1, or the bias. *)
Definition rw_minus1 (pc : rw_pc) : bool :=
  match pc with RdUndo | RdHeld => true | _ => false end.
Definition rw_minus_bias (pc : rw_pc) : bool :=
  match pc with WrUndo | WrHeld | WrTryUndo => true | _ => false end.
Definition rd_held (pc : rw_pc) : bool := match pc with RdHeld => true | _ => false end.
Definition wr_held (pc : rw_pc) : bool := match pc with WrHeld => true | _ => false end.

Record rw_inv (n : nat) (y : list rw_pc * Z) : Prop := {
  rw_inv_len : length y.1 = n;
  rw_inv_count :
    y.2 = RW_LOCK_BIAS * (1 - count rw_minus_bias y.1) - count rw_minus1 y.1;
  rw_inv_excl :
    count wr_held y.1 = 0 \/ count wr_held y.1 = 1 /\ count rd_held y.1 = 0
}.

Lemma rw_inv_step n y y' :
  (n <= 126)%nat -> rw_inv n y -> rw_step y y' -> rw_inv n y'.
Proof.
  intros Hn [Hl Hc He] Hstep. destruct Hstep as [l v i pc v' pc' Hi Hm].
  cbn in Hl, Hc, He. unfold RW_LOCK_BIAS in *.
  assert (H1 := count_insert rw_minus1 l i pc' pc Hi).
  assert (H2 := count_insert rw_minus_bias l i pc' pc Hi).
  assert (H3 := count_insert rd_held l i pc' pc Hi).
  assert (H4 := count_insert wr_held l i pc' pc Hi).
  pose proof (count_at rw_minus1 l i pc Hi). pose proof (count_at rw_minus_bias l i pc Hi).
  pose proof (count_at rd_held l i pc Hi). pose proof (count_at wr_held l i pc Hi).
  assert (count rd_held l <= count rw_minus1 l) by (apply count_mono; by intros []).
  assert (count wr_held l <= count rw_minus_bias l) by (apply count_mono; by intros []).
  assert (count rw_minus1 l + count rw_minus_bias l <= length l)
    by (apply count_disjoint; by intros []).
  inversion Hm; subst; clear Hm;
    repeat match goal with H : _ \/ _ \/ _ |- _ => destruct H as [->|[->| ->]] end;
    unfold _raw_read_lock, _raw_write_lock, _raw_write_trylock, _raw_read_unlock,
      _raw_write_unlock, atomic_sub_and_test, atomic_add, RW_LOCK_BIAS in *;
    cbn [Z.b2z rw_minus1 rw_minus_bias rd_held wr_held fst snd] in *;
    repeat match goal with
    | H : (_, _) = (_, _) |- _ => injection H as ? ?; subst
    | H : context [s32 ?z] |- _ => rewrite (s32_small z) in H by lia
    | |- context [s32 ?z] => rewrite (s32_small z) by lia
    | H : context [if ?b then _ else _] |- _ => destruct b eqn:?; cbn in *
    end;
    try discriminate;
    (split; cbn [fst snd]; unfold RW_LOCK_BIAS; [by rewrite length_insert| |];
     cbn [Z.b2z rw_minus1 rw_minus_bias rd_held wr_held] in *; lia).
Qed.

(** With at most 126 processors a read-write lock never lets a writer in
    beside a reader or another writer, whatever the interleaving of the
    single instructions of [_raw_read_lock], [_raw_write_lock],
    [_raw_write_trylock] (which subtracts and adds back in two steps) and the
    unlocks. *)
Theorem rwlock_exclusion n l v :
  (n <= 126)%nat ->
  rtc rw_step (replicate n RwIdle, RW_LOCK_BIAS) (l, v) ->
  count wr_held l = 0 \/ count wr_held l = 1 /\ count rd_held l = 0.
Proof.
  intros Hn Hr. cut (rw_inv n (l, v)); [by intros []|].
  remember (replicate n RwIdle, RW_LOCK_BIAS) as y eqn:Ey. remember (l, v) as y'.
  assert (Hy : rw_inv n y).
  { subst. split; cbn; [apply length_replicate| |]; rewrite !count_replicate; cbn; lia. }
  clear Ey Heqy'. induction Hr; [done|]. apply IHHr. by eapply rw_inv_step.
Qed.

Lemma rwlock_exclusion_witness :
  rtc rw_step (replicate 2 RwIdle, RW_LOCK_BIAS) ([WrHeld; WrTryUndo], - RW_LOCK_BIAS) /\
  (count wr_held [WrHeld; WrTryUndo] = 0 \/
   count wr_held [WrHeld; WrTryUndo] = 1 /\ count rd_held [WrHeld; WrTryUndo] = 0).
Proof.
  assert (H : rtc rw_step (replicate 2 RwIdle, RW_LOCK_BIAS) ([WrHeld; WrTryUndo], - RW_LOCK_BIAS)).
  { eapply rtc_l; [exact (rw_step_intro [RwIdle; RwIdle] RW_LOCK_BIAS 0 RwIdle 0 WrHeld
      eq_refl (rw_try RW_LOCK_BIAS))|].
    eapply rtc_l; [exact (rw_step_intro [WrHeld; RwIdle] 0 1 RwIdle (- RW_LOCK_BIAS) WrTryUndo
      eq_refl (rw_try 0))|].
    apply rtc_refl. }
  split; [exact H|].
  apply (rwlock_exclusion 2 [WrHeld; WrTryUndo] (- RW_LOCK_BIAS)); [lia|exact H].
Defined.

(** ** The big kernel lock: nesting *)

(** The task holds the lock exactly when its depth is not negative. *)
Definition bkl_ok (s : bkl) : Prop :=
  -1 <= lock_depth s /\ kernel_flag s = (0 <=? lock_depth s).

Lemma lock_kernel_ok s :
  bkl_ok s -> lock_depth s < 2147483647 ->
  lock_kernel s = Ok (tt, mk_bkl true (lock_depth s + 1)) /\
  bkl_ok (mk_bkl true (lock_depth s + 1)).
Proof.
  destruct s as [f d]. unfold bkl_ok. cbn. intros [Hd ->] Hlt. split.
  - unfold lock_kernel, get_kernel_lock, set_lock_depth. mstep. cbn.
    rewrite s32_small by lia. destruct (Z.eqb_spec (d + 1) 0), (Z.leb_spec 0 d); cbn; try lia; done.
  - destruct (Z.leb_spec 0 (d + 1)); split; try lia; done.
Qed.

Lemma unlock_kernel_ok s :
  bkl_ok s -> 0 <= lock_depth s < 2147483647 ->
  unlock_kernel s = Ok (tt, mk_bkl (0 <=? lock_depth s - 1) (lock_depth s - 1)) /\
  bkl_ok (mk_bkl (0 <=? lock_depth s - 1) (lock_depth s - 1)).
Proof.
  destruct s as [f d]. unfold bkl_ok. cbn. intros [_ ->] Hlt. split; [|split; [lia|done]].
  unfold unlock_kernel, put_kernel_lock, set_lock_depth. mstep. cbn.
  destruct (Z.ltb_spec d 0); [lia|]. rewrite s32_small by lia. mstep. cbn.
  destruct (Z.ltb_spec (d - 1) 0), (Z.leb_spec 0 (d - 1)), (Z.leb_spec 0 d); mstep; try lia; done.
Qed.

Lemma lock_kernel_repeat n s :
  bkl_ok s -> lock_depth s + Z.of_nat n < 2147483648 -> (0 < n)%nat ->
  repeatM n lock_kernel s = Ok (tt, mk_bkl true (lock_depth s + n)) /\
  bkl_ok (mk_bkl true (lock_depth s + n)).
Proof.
  revert s. induction n as [|n IH]; intros s Hs Hd Hn; [lia|].
  destruct (lock_kernel_ok s) as [E Hok]; [done|lia|]. cbn [repeatM]. mstep. rewrite E.
  destruct n as [|n].
  - cbn. done.
  - destruct (IH _ Hok) as [-> Hok']; [cbn; lia|lia|]. cbn [lock_depth] in *.
    replace (lock_depth s + S (S n)) with (lock_depth s + 1 + S n) by lia. done.
Qed.

Lemma unlock_kernel_repeat n s :
  bkl_ok s -> -1 <= lock_depth s - Z.of_nat n -> lock_depth s < 2147483647 ->
  repeatM n unlock_kernel s =
    Ok (tt, mk_bkl (0 <=? lock_depth s - n) (lock_depth s - n)).
Proof.
  revert s. induction n as [|n IH]; intros s Hs Hd Hlt.
  - cbn. destruct Hs as [_ Hf]. destruct s as [f d]; cbn in *. rewrite Hf.
    by rewrite Z.sub_0_r.
  - destruct (unlock_kernel_ok s) as [E Hok]; [done|lia|]. cbn [repeatM]. mstep. rewrite E.
    rewrite IH by (cbn; done || lia). cbn [lock_depth].
    by replace (lock_depth s - 1 - n) with (lock_depth s - S n) by lia.
Qed.

(** Nested [lock_kernel] calls never deadlock on the caller's own lock;
    the lock is held until the matching number of [unlock_kernel] calls, which
    restores the state; and a task that is scheduled away inside
    ([release_kernel_lock], [reacquire_kernel_lock]) drops the lock whatever
    the depth and gets the same state back. *)
Theorem bkl_nesting n s :
  bkl_ok s -> lock_depth s + Z.of_nat n < 2147483647 -> (0 < n)%nat ->
  exists s', repeatM n lock_kernel s = Ok (tt, s') /\ kernel_flag s' = true /\
    repeatM n unlock_kernel s' = Ok (tt, s) /\
    exists s'', release_kernel_lock s' = Ok (tt, s'') /\ kernel_flag s'' = false /\
      reacquire_kernel_lock s'' = Ok (tt, s').
Proof.
  intros Hs Hd Hn. destruct (lock_kernel_repeat n s) as [E Hok]; [done|lia|done|].
  exists (mk_bkl true (lock_depth s + n)). split; [done|]. split; [done|]. split.
  - rewrite unlock_kernel_repeat; cbn [lock_depth]; [|done|destruct Hs; lia|lia].
    destruct Hs as [Hd' Hf]. destruct s as [f d]; cbn in *. rewrite Hf.
    by replace (d + n - n) with d by lia.
  - exists (mk_bkl false (lock_depth s + n)). destruct Hok as [Hd' Hf]. cbn in Hd', Hf.
    unfold release_kernel_lock, reacquire_kernel_lock, get_kernel_lock, put_kernel_lock.
    mstep. cbn [lock_depth]. rewrite <- Hf. done.
Qed.

Lemma bkl_nesting_witness :
  exists s', repeatM 3 lock_kernel (mk_bkl false (-1)) = Ok (tt, s') /\ kernel_flag s' = true /\
    repeatM 3 unlock_kernel s' = Ok (tt, mk_bkl false (-1)) /\
    exists s'', release_kernel_lock s' = Ok (tt, s'') /\ kernel_flag s'' = false /\
      reacquire_kernel_lock s'' = Ok (tt, s').
Proof.
  apply (bkl_nesting 3 (mk_bkl false (-1))).
  - split; [cbn; lia|reflexivity].
  - cbn. lia.
  - lia.
Defined.
