(* ===== verification/DevHlp.v ===== *)
(** * The OS/2 device helpers the driver relies on

    The device helpers (DevHlp_VMAlloc and its relatives) belong to the
    operating system.  They are an interface: operations on an abstract world
    [W] and, in a second class, the documented behaviour that the theorems of
    the memory components use.  [sim] is a small world that has all of it. *)

From S2P Require Import Prelude.

Definition VMDHA_16M : Z := 1.
Definition VMDHA_FIXED : Z := 2.
Definition VMDHA_CONTIG : Z := 8.
Definition VMDHA_PHYS : Z := 16.
Definition VMDHA_PROCESS : Z := 32.
Definition VMDHA_USEHIGHMEM : Z := 2048.
Definition VMDHA_USEHMA : Z := 8192.

(** [DevVMAlloc flags size phys] gives the linear address or fails;
    [DevLinToPageList lin size] the physical address of every entry of the
    page list it writes. *)
Class DevVM (W : Type) := {
  DevVMAlloc : Z -> Z -> Z -> W -> W * option Z;
  DevVMFree : Z -> W -> W;
  DevLinToPageList : Z -> Z -> W -> option (list Z);
  (** the allocated blocks: linear address and size *)
  live : W -> gmap Z Z
}.

(** The bytes [a .. a + sz) meet no block of [m]. *)
Definition disjoint_from (a sz : Z) (m : gmap Z Z) : Prop :=
  map_Forall (fun b n => a + sz <= b \/ b + n <= a) m.

#[export] Instance disjoint_from_dec a sz m : Decision (disjoint_from a sz m).
Proof. apply map_Forall_dec. intros b n. apply _. Defined.

(** A new block is not null, ends below the last 64 KB of the address space
    and meets no allocated one; a block of a page or more starts on a page. *)
Class DevVMLaws (W : Type) `{DevVM W} := {
  DevVMAlloc_fresh f sz ph w w' a :
    0 < sz -> DevVMAlloc f sz ph w = (w', Some a) ->
    0 < a /\ a + sz <= 4294901760 /\ live w !! a = None /\
    disjoint_from a sz (live w) /\ live w' = <[a := sz]> (live w);
  DevVMAlloc_page f sz ph w w' a :
    DevVMAlloc f sz ph w = (w', Some a) -> 4096 <= sz -> a mod 4096 = 0;
  DevVMAlloc_fail f sz ph w w' :
    DevVMAlloc f sz ph w = (w', None) -> live w' = live w;
  DevVMFree_live a w : live (DevVMFree a w) = delete a (live w)
}.

(** A world that hands out page-aligned addresses from [next] on, at most
    [left] of them, and maps every linear address below 3.5 GB to itself. *)
Record sim := mk_sim { next : Z; left : nat; blocks : gmap Z Z }.

Definition sim_alloc (sz : Z) (w : sim) : sim * option Z :=
  match left w with
  | O => (w, None)
  | S n =>
      if bool_decide (next w mod 4096 = 0 /\ 0 < next w /\ next w + sz <= 4294901760 /\
                      blocks w !! next w = None /\ disjoint_from (next w) sz (blocks w))
      then (mk_sim (next w + (sz + 4095) / 4096 * 4096) n (<[next w := sz]> (blocks w)),
            Some (next w))
      else (w, None)
  end.

#[export] Instance sim_DevVM : DevVM sim := {
  DevVMAlloc := fun _ sz _ w => sim_alloc sz w;
  DevVMFree := fun a w => mk_sim (next w) (left w) (delete a (blocks w));
  DevLinToPageList := fun lin _ _ => if lin <? 3758096384 then Some [lin] else None;
  live := blocks
}.

#[export] Instance sim_DevVMLaws : DevVMLaws sim.
Proof.
  split; cbn; unfold sim_alloc.
  - intros _ sz _ w w' a _. destruct (left w); [done|]. case_bool_decide as Hb; [|done].
    intros [= <- <-]. cbn. tauto.
  - intros _ sz _ w w' a. destruct (left w); [done|]. case_bool_decide as Hb; [|done].
    intros [= <- <-] _. tauto.
  - intros _ sz _ w w'. destruct (left w); [by intros [= <-]|]. case_bool_decide as Hb; [done|].
    by intros [= <-].
  - done.
Qed.

(** ** Selector tables *)

Definition MAX_GDTSELECTORS : nat := 64.
