(* ===== verification/Gdt.v ===== *)
(** * GDT selectors (Dev32/lxmemory.c, [LX_allocGDTSelector])

    The driver owns 64 GDT selectors, allocated at start-up.  [selectorsUsed]
    marks the ones handed out; the table itself is reached through a linear
    pointer that is computed at the first use. *)

From S2P Require Import Prelude DevHlp.

Record gdt := mk_gdt {
  selectorsUsed : list Z;          (* unsigned long [MAX_GDTSELECTORS] *)
  GDTSelectors : option (list Z)   (* NULL until the first use *)
}.

Section Gdt.
(** What [DevVirtToLin] gives for [GDTSelectors_PTR]; [None]: it failed. *)
Context (GDTSelectors_PTR : option (list Z)).

Definition LX_get_gdt_selectors (g : gdt) : gdt :=
  match GDTSelectors g with
  | None => mk_gdt (selectorsUsed g) GDTSelectors_PTR
  | Some _ => g
  end.

(** Index of the first entry that satisfies the test, the loop's [i]. *)
Fixpoint first_index (P : Z -> bool) (l : list Z) (i : nat) : option nat :=
  match l with
  | [] => None
  | x :: l => if P x then Some i else first_index P l (S i)
  end.

Definition LX_allocGDTSelector : M gdt Z :=
  modify LX_get_gdt_selectors ≫= fun _ =>
  g ← get;
  match first_index (fun u => u =? 0) (selectorsUsed g) 0 with
  | None => mret 0
  | Some i =>
      put (mk_gdt (<[i := 1]> (selectorsUsed g)) (GDTSelectors g)) ≫= fun _ =>
      match GDTSelectors g with
      | None => throw NullDeref
      | Some t => match t !! i with Some s => mret s | None => throw BadAccess end
      end
  end.

Definition LX_freeGDTSelector (selector : Z) : M gdt bool :=
  modify LX_get_gdt_selectors ≫= fun _ =>
  g ← get;
  match GDTSelectors g with
  | None => throw NullDeref
  | Some t =>
      match first_index (fun s => s =? selector) t 0 with
      | Some i =>
          put (mk_gdt (<[i := 0]> (selectorsUsed g)) (GDTSelectors g)) ≫= fun _ => mret true
      | None => mret false
      end
  end.
End Gdt.

(** ** Facts about the table *)

Lemma first_index_Some P l k i :
  first_index P l k = Some i <->
  exists x, (k <= i)%nat /\ l !! (i - k)%nat = Some x /\ P x = true /\
    forall j y, (j < i - k)%nat -> l !! j = Some y -> P y = false.
Proof.
  revert k. induction l as [|a l IH]; intros k; cbn.
  - split; [done|]. intros (x & _ & H & _). by rewrite lookup_nil in H.
  - destruct (P a) eqn:E.
    + split.
      * intros [= <-]. exists a. rewrite Nat.sub_diag. repeat split; [lia|done|lia].
      * intros (x & Hk & Hx & Hp & Hmin). destruct (i - k)%nat as [|n] eqn:En.
        { f_equal. lia. }
        specialize (Hmin 0%nat a ltac:(lia) eq_refl). congruence.
    + rewrite IH. split; intros (x & Hk & Hx & Hp & Hmin); exists x.
      * assert (Hs : (i - k)%nat = S (i - S k)) by lia. rewrite Hs. cbn.
        repeat split; [lia|done|done|]. intros [|j] y Hj Hy; cbn in Hy; [congruence|].
        eapply Hmin; [|done]. lia.
      * destruct (i - k)%nat as [|n] eqn:En; cbn in Hx; [congruence|].
        replace (i - S k)%nat with n by lia. repeat split; [lia|done|done|].
        intros j y Hj Hy. apply (Hmin (S j) y); [lia|done].
Qed.

Lemma first_index_None P l k : first_index P l k = None <-> Forall (fun x => P x = false) l.
Proof.
  revert k. induction l as [|a l IH]; intros k; cbn; [by split|].
  destruct (P a) eqn:E; rewrite Forall_cons; [|rewrite IH; tauto].
  split; [done|]. intros [? _]. congruence.
Qed.

(** A usable state: the table has one distinct, non-zero selector per slot. *)
Record gdt_ok (t : list Z) (g : gdt) : Prop := {
  gdt_ok_used : length (selectorsUsed g) = length t;
  gdt_ok_ptr : GDTSelectors g = None \/ GDTSelectors g = Some t;
  gdt_ok_distinct : NoDup t;
  gdt_ok_nonzero : Forall (fun s => s <> 0) t
}.

(** The selectors that are handed out. *)
Definition in_use (t : list Z) (g : gdt) (s : Z) : Prop :=
  exists i u, t !! i = Some s /\ selectorsUsed g !! i = Some u /\ u <> 0.

Lemma get_gdt_ok t g :
  gdt_ok t g -> gdt_ok t (LX_get_gdt_selectors (Some t) g) /\
  GDTSelectors (LX_get_gdt_selectors (Some t) g) = Some t /\
  selectorsUsed (LX_get_gdt_selectors (Some t) g) = selectorsUsed g.
Proof.
  intros [H1 H2 H3 H4]. unfold LX_get_gdt_selectors.
  destruct (GDTSelectors g) as [t'|] eqn:E; cbn.
  - destruct H2 as [?|[= ->]]; [done|]. rewrite E. repeat split; auto.
  - repeat split; auto.
Qed.

Lemma in_use_insert t g i u x s :
  NoDup t -> length (selectorsUsed g) = length t -> t !! i = Some x -> GDTSelectors g = Some t ->
  in_use t (mk_gdt (<[i := u]> (selectorsUsed g)) (Some t)) s <->
  (if decide (s = x) then u <> 0 else in_use t g s).
Proof.
  intros Hnd Hlen Hx _. assert (Hi : (i < length (selectorsUsed g))%nat)
    by (rewrite Hlen; by eapply lookup_lt_Some).
  unfold in_use; cbn. case_decide as Hs.
  - subst s. split.
    + intros (j & v & Hj & Hv & Hnz). assert (j = i) as -> by (by eapply NoDup_lookup).
      rewrite list_lookup_insert_eq in Hv by done. congruence.
    + intros Hu. exists i, u. by rewrite list_lookup_insert_eq.
  - split; intros (j & v & Hj & Hv & Hnz); exists j, v; repeat split; try done.
    + rewrite list_lookup_insert_ne in Hv; [done|]. intros ->. congruence.
    + rewrite list_lookup_insert_ne; [done|]. intros ->. congruence.
Qed.

(** A selector handed out was free; 0 means that none is. *)
Lemma alloc_selector t g :
  gdt_ok t g ->
  exists s g', LX_allocGDTSelector (Some t) g = Ok (s, g') /\ gdt_ok t g' /\
    ((s = 0 /\ (forall x, in_use t g' x <-> in_use t g x) /\ forall x, x ∈ t -> in_use t g x) \/
     (s ∈ t /\ s <> 0 /\ ~ in_use t g s /\ forall x, in_use t g' x <-> x = s \/ in_use t g x)).
Proof.
  intros Hok. destruct (get_gdt_ok t g Hok) as ([H1 H2 H3 H4] & Hp & Hu).
  set (g1 := LX_get_gdt_selectors (Some t) g) in *.
  assert (Huse : forall x, in_use t g1 x <-> in_use t g x) by (intros x; unfold in_use; by rewrite Hu).
  unfold LX_allocGDTSelector. mstep. fold g1.
  destruct (first_index _ (selectorsUsed g1) 0) as [i|] eqn:Ei.
  - apply first_index_Some in Ei as (u & _ & Hi & Hu0 & _). rewrite Nat.sub_0_r in Hi.
    destruct (lookup_lt_is_Some_2 t i) as [s Hs].
    { rewrite <- H1. by eapply lookup_lt_Some. }
    mstep. rewrite Hp, Hs. mstep. eexists _, _. split; [done|]. split.
    { split; cbn; auto. by rewrite length_insert. }
    right. split; [apply list_elem_of_lookup; eauto|].
    split; [rewrite Forall_forall in H4; apply H4, list_elem_of_lookup; eauto|]. split.
    + intros (j & v & Hj & Hv & Hnz). assert (j = i) as -> by (by eapply NoDup_lookup).
      rewrite <- Hu in Hv. rewrite Hi in Hv. injection Hv as <-. lia.
    + intros x. rewrite (in_use_insert t g1 i 1 s x) by done. rewrite <- Huse.
      case_decide; naive_solver lia.
  - mstep. eexists _, _. split; [done|]. split; [by split|]. left. split; [done|].
    split; [done|]. intros x (i & Hi)%list_elem_of_lookup.
    destruct (lookup_lt_is_Some_2 (selectorsUsed g1) i) as [u Hu'].
    { rewrite H1. by eapply lookup_lt_Some. }
    apply Huse. exists i, u. repeat split; [done|done|].
    apply first_index_None in Ei. rewrite Forall_forall in Ei.
    specialize (Ei u ltac:(apply list_elem_of_lookup; eauto)). cbn in Ei. lia.
Qed.

Lemma free_selector t g s :
  gdt_ok t g -> s ∈ t ->
  exists g', LX_freeGDTSelector (Some t) s g = Ok (true, g') /\ gdt_ok t g' /\
    forall x, in_use t g' x <-> x <> s /\ in_use t g x.
Proof.
  intros Hok Hin. revert Hin. destruct (get_gdt_ok t g Hok) as ([H1 H2 H3 H4] & Hp & Hu).
  set (g1 := LX_get_gdt_selectors (Some t) g) in *.
  assert (Huse : forall x, in_use t g1 x <-> in_use t g x) by (intros x; unfold in_use; by rewrite Hu).
  intros (k & Hk)%list_elem_of_lookup. unfold LX_freeGDTSelector. mstep. fold g1. rewrite Hp.
  destruct (first_index _ t 0) as [i|] eqn:Ei.
  - apply first_index_Some in Ei as (x & _ & Hi & Hx & _). rewrite Nat.sub_0_r in Hi.
    assert (x = s) as -> by lia. mstep. eexists. split; [done|]. split.
    { split; cbn; auto. by rewrite length_insert. }
    intros x. rewrite (in_use_insert t g1 i 0 s x) by done. rewrite <- Huse.
    case_decide; naive_solver.
  - exfalso. apply first_index_None in Ei. rewrite Forall_forall in Ei.
    specialize (Ei s ltac:(apply list_elem_of_lookup; eauto)). cbn in Ei. lia.
Qed.

Lemma free_other_selector t g s :
  gdt_ok t g -> s ∉ t ->
  exists g', LX_freeGDTSelector (Some t) s g = Ok (false, g') /\
    forall x, in_use t g' x <-> in_use t g x.
Proof.
  intros Hok Hs. destruct (get_gdt_ok t g Hok) as ([H1 H2 H3 H4] & Hp & Hu).
  set (g1 := LX_get_gdt_selectors (Some t) g) in *.
  assert (Huse : forall x, in_use t g1 x <-> in_use t g x) by (intros x; unfold in_use; by rewrite Hu).
  unfold LX_freeGDTSelector. mstep. fold g1. rewrite Hp.
  destruct (first_index _ t 0) as [i|] eqn:Ei; mstep; [|eauto].
  apply first_index_Some in Ei as (x & _ & Hi & Hx & _). exfalso. apply Hs.
  assert (x = s) as -> by lia. apply list_elem_of_lookup. eauto.
Qed.

(** A selector handed out was not in use and is in use from then on, every
    other selector keeps its state, and 0 is returned, with nothing changed,
    exactly when all selectors are in use; freeing a selector of the table
    releases that one and only that one. *)
Theorem gdt_alloc_free t g :
  gdt_ok t g ->
  (exists s g', LX_allocGDTSelector (Some t) g = Ok (s, g') /\ gdt_ok t g' /\
     ((s = 0 /\ (forall x, in_use t g' x <-> in_use t g x) /\ forall x, x ∈ t -> in_use t g x) \/
      (s ∈ t /\ s <> 0 /\ ~ in_use t g s /\ forall x, in_use t g' x <-> x = s \/ in_use t g x))) /\
  (forall s, s ∈ t -> exists g', LX_freeGDTSelector (Some t) s g = Ok (true, g') /\ gdt_ok t g' /\
     forall x, in_use t g' x <-> x <> s /\ in_use t g x) /\
  (forall s, s ∉ t -> exists g', LX_freeGDTSelector (Some t) s g = Ok (false, g') /\
     forall x, in_use t g' x <-> in_use t g x).
Proof.
  intros Hok. split; [by apply alloc_selector|].
  split; intros s Hs; [by apply free_selector|by apply free_other_selector].
Qed.

Lemma gdt_alloc_free_witness :
  (exists s g', LX_allocGDTSelector (Some [8; 16]) (mk_gdt [1; 0] None) = Ok (s, g') /\
     gdt_ok [8; 16] g' /\
     ((s = 0 /\ (forall x, in_use [8; 16] g' x <-> in_use [8; 16] (mk_gdt [1; 0] None) x) /\
       forall x, x ∈ [8; 16] -> in_use [8; 16] (mk_gdt [1; 0] None) x) \/
      (s ∈ [8; 16] /\ s <> 0 /\ ~ in_use [8; 16] (mk_gdt [1; 0] None) s /\
       forall x, in_use [8; 16] g' x <-> x = s \/ in_use [8; 16] (mk_gdt [1; 0] None) x))) /\
  exists g', LX_freeGDTSelector (Some [8; 16]) 8 (mk_gdt [1; 0] None) = Ok (true, g').
Proof.
  assert (Hok : gdt_ok [8; 16] (mk_gdt [1; 0] None)).
  { split; [reflexivity|by left| |repeat constructor; lia].
    apply NoDup_cons; split; [set_solver|apply NoDup_singleton]. }
  destruct (gdt_alloc_free [8; 16] (mk_gdt [1; 0] None) Hok) as (H1 & H2 & _).
  split; [exact H1|]. destruct (H2 8) as (g' & H & _); [apply list_elem_of_here|].
  by exists g'.
Defined.
