(* ===== verification/Memory.v ===== *)
(** * The memory manager (Dev32/lxmemory.c, Dev32/lxstack.asm)

    Every allocation of the driver is recorded in the list [memobjs]; the node
    of the list is itself a block of the operating system.  The state holds
    the list (address of the node and its contents), the lock that protects
    it, the flag words and the operating system's world.  The lock is a spin
    lock: taking it twice hangs ([Deadlock]). *)

From S2P Require Import Prelude DevHlp.

Definition LXMT_UNKNOWN : Z := 0.
Definition LXMT_NORMAL_MALLOC : Z := 1.
Definition LXMT_PHYS_TO_VIRT : Z := 2.
Definition LXMT_VIRT_TO_PHYS : Z := 3.

Definition PAGE_SIZE : Z := 4096.
Definition ALLOC_ALIGNED_ALIGN : Z := 8192.

Definition GFP_DMA : Z := 1.
Definition GFP_REPEAT : Z := 1024.
Definition GFP_NOFAIL : Z := 2048.

Record memobj := mk_memobj {
  virtAddr : Z; physAddr : Z; unalignedAddr : Z;
  size : Z; realsize : Z;
  memflags : Z; type : Z; tid : Z; pid : Z
}.

Definition sizeof_memobj : Z := 36.

Record lxm (W : Type) := mk_lxm {
  memlist_lock : bool;
  memobjs : list (Z * memobj);
  default_malloc_flags : Z;
  memobj_malloc_flags : Z;
  max_alloc_aligned_retry : nat;
  world : W
}.
Arguments mk_lxm {W}. Arguments memlist_lock {W}. Arguments memobjs {W}.
Arguments default_malloc_flags {W}. Arguments memobj_malloc_flags {W}.
Arguments max_alloc_aligned_retry {W}. Arguments world {W}.

Definition set_lock {W} (b : bool) (s : lxm W) : lxm W :=
  mk_lxm b (memobjs s) (default_malloc_flags s) (memobj_malloc_flags s)
    (max_alloc_aligned_retry s) (world s).
Definition set_objs {W} (l : list (Z * memobj)) (s : lxm W) : lxm W :=
  mk_lxm (memlist_lock s) l (default_malloc_flags s) (memobj_malloc_flags s)
    (max_alloc_aligned_retry s) (world s).
Definition set_world {W} (w : W) (s : lxm W) : lxm W :=
  mk_lxm (memlist_lock s) (memobjs s) (default_malloc_flags s) (memobj_malloc_flags s)
    (max_alloc_aligned_retry s) w.

Definition set_phys (pa : Z) (o : memobj) : memobj :=
  mk_memobj (virtAddr o) pa (unalignedAddr o) (size o) (realsize o) (memflags o)
    (type o) (tid o) (pid o).

Section Memory.
(** The thread and process that calls, and what a node of the list holds
    before it is written: the operating system does not clear blocks. *)
Context {W : Type} `{DevVM W}.
Context (current_tid current_pid : Z) (garbage : memobj).

Definition VMAlloc (flags sz phys : Z) : M (lxm W) (option Z) := fun s =>
  let '(w, r) := DevVMAlloc flags sz phys (world s) in Ok (r, set_world w s).
Definition VMFree (a : Z) : M (lxm W) unit :=
  modify (fun s => set_world (DevVMFree a (world s)) s).

Definition spin_lock : M (lxm W) unit := fun s =>
  if memlist_lock s then Err Deadlock else Ok (tt, set_lock true s).
Definition spin_unlock : M (lxm W) unit := modify (set_lock false).

Definition list_add (n : Z) (o : memobj) : M (lxm W) unit :=
  modify (fun s => set_objs ((n, o) :: memobjs s) s).

(** [get_option] parses the number out of the kernel parameter. *)
Definition lx_set_alloc_aligned_retry (a : Z) : M (lxm W) Z :=
  (if (10 <=? a) && (a <=? 800) then
     modify (fun s => mk_lxm (memlist_lock s) (memobjs s) (default_malloc_flags s)
                        (memobj_malloc_flags s) (Z.to_nat a) (world s))
   else mret tt) ≫= fun _ => mret 1.

(** ** Aligned blocks (lxstack.asm) *)

Definition LXA_VMAllocHelper (flags sz : Z) : M (lxm W) (option Z) :=
  d ← gets default_malloc_flags;
  if (Z.land d VMDHA_USEHIGHMEM =? 0) || negb (Z.land flags VMDHA_16M =? 0)
  then VMAlloc flags sz 4294967295
  else
    r ← VMAlloc (Z.lor flags VMDHA_USEHIGHMEM) sz 4294967295;
    match r with
    | Some a => mret (Some a)
    | None => VMAlloc flags sz 4294967295
    end.

(** The search for an aligned block; [temps] are the pushed addresses. *)
Fixpoint aligned_loop (esi : nat) (flags sz : Z) (temps : list Z) : M (lxm W) (Z * list Z) :=
  match esi with
  | O => mret (0, temps)
  | S esi =>
      r ← LXA_VMAllocHelper flags sz;
      match r with
      | None => mret (0, temps)
      | Some a =>
          if Z.land a (Z.lnot (ALLOC_ALIGNED_ALIGN - 1)) =? a then mret (a, temps)
          else
            VMFree a ≫= fun _ =>
            t ← LXA_VMAllocHelper flags 4096;
            match t with
            | None => mret (0, temps)
            | Some t => aligned_loop esi flags sz (t :: temps)
            end
      end
  end.

Fixpoint free_temps (temps : list Z) : M (lxm W) unit :=
  match temps with
  | [] => mret tt
  | t :: temps => VMFree t ≫= fun _ => free_temps temps
  end.

Definition or_zero (r : option Z) : Z := match r with Some a => a | None => 0 end.

(** Result: [eax] and [ecx], the block and its real size. *)
Definition LXA_VMAllocAlignedNoStackThunk (flags sz : Z) : M (lxm W) (Z * Z) :=
  if sz <? 4096 then
    r ← LXA_VMAllocHelper flags sz; mret (or_zero r, sz)
  else
    n ← gets max_alloc_aligned_retry;
    r ← aligned_loop n flags sz [];
    free_temps r.2 ≫= fun _ =>
    if r.1 =? 0 then
      let ecx := u32 (sz + ALLOC_ALIGNED_ALIGN / 2) in
      r ← LXA_VMAllocHelper flags ecx; mret (or_zero r, ecx)
    else mret (r.1, sz).

Definition LXA_AlignMemory (a : Z) : Z :=
  if a =? Z.land a (Z.lnot (ALLOC_ALIGNED_ALIGN - 1)) then a
  else Z.land (u32 (a + (ALLOC_ALIGNED_ALIGN - 1))) (Z.lnot (ALLOC_ALIGNED_ALIGN - 1)).

(** [None], or aligned address, real size and start of the block. *)
Definition LXA_VMAllocAligned (flags sz : Z) : M (lxm W) (option (Z * Z * Z)) :=
  r ← LXA_VMAllocAlignedNoStackThunk flags sz;
  let '(eax, ecx) := r in
  if eax =? 0 then mret None
  else mret (Some (if ecx <? 4096 then eax else LXA_AlignMemory eax, ecx, eax)).

(** ** The list of objects *)

Definition LX_alloc_memobj : M (lxm W) (option (Z * memobj)) :=
  let fresh a := (a, mk_memobj (virtAddr garbage) (physAddr garbage) (unalignedAddr garbage)
      (size garbage) (realsize garbage) (memflags garbage) LXMT_UNKNOWN
      (u16 current_tid) (u16 current_pid)) in
  f ← gets memobj_malloc_flags;
  r ← VMAlloc (Z.lor f VMDHA_USEHIGHMEM) sizeof_memobj 4294967295;
  match r with
  | Some a => mret (Some (fresh a))
  | None =>
      r ← VMAlloc f sizeof_memobj 4294967295;
      mret (fresh <$> r)
  end.

Definition addr_matches (addr : Z) (bPhysAddr : bool) (x : Z * memobj) : bool :=
  if bPhysAddr then physAddr x.2 =? addr else virtAddr x.2 =? addr.

Definition LX_find_memobj (addr : Z) (bPhysAddr : bool) (l : list (Z * memobj)) :
    option (Z * memobj) :=
  find_first (addr_matches addr bPhysAddr) l.

(** The node that was found is unlinked or stored back. *)
Definition list_del (addr : Z) (s : lxm W) : lxm W :=
  set_objs (remove_first (addr_matches addr false) (memobjs s)) s.

Definition __LX_free (ptr : Z) : M (lxm W) unit :=
  spin_lock ≫= fun _ =>
  l ← gets memobjs;
  pm ← match LX_find_memobj ptr false l with
       | Some (n, o) =>
           if (type o =? LXMT_NORMAL_MALLOC) || (type o =? LXMT_PHYS_TO_VIRT)
           then modify (list_del ptr) ≫= fun _ => mret (Some (n, o))
           else mret None
       | None => mret None
       end;
  spin_unlock ≫= fun _ =>
  match pm with
  | Some (n, o) => VMFree (unalignedAddr o) ≫= fun _ => VMFree n
  | None => VMFree ptr
  end.

Definition __LX_malloc (sz flags : Z) : M (lxm W) Z :=
  r ← LX_alloc_memobj;
  match r with
  | None => mret 0
  | Some (n, o) =>
      a ← LXA_VMAllocAligned (u16 flags) sz;
      match a with
      | None => VMFree n ≫= fun _ => mret 0
      | Some (virt, real, unaligned) =>
          spin_lock ≫= fun _ =>
          list_add n (mk_memobj virt 0 unaligned sz real (u16 flags)
                        LXMT_NORMAL_MALLOC (tid o) (pid o)) ≫= fun _ =>
          spin_unlock ≫= fun _ =>
          mret virt
      end
  end.

(** [while(!p)]: the allocation is retried for ever. *)
Fixpoint malloc_nofail (fuel : nat) (sz flags : Z) : M (lxm W) Z :=
  match fuel with
  | O => throw OutOfFuel
  | S fuel =>
      p ← __LX_malloc sz flags;
      if p =? 0 then malloc_nofail fuel sz flags else mret p
  end.

Definition __LX_malloc_gfp (fuel : nat) (sz gfp_mask : Z) : M (lxm W) Z :=
  d ← gets default_malloc_flags;
  let mflags :=
    if negb (Z.land gfp_mask GFP_DMA =? 0)
    then Z.lor d (Z.lor (Z.lor VMDHA_16M VMDHA_CONTIG) VMDHA_FIXED)
    else Z.lor d VMDHA_USEHMA in
  p ← __LX_malloc sz mflags;
  if p =? 0 then
    if negb (Z.land gfp_mask GFP_REPEAT =? 0) then __LX_malloc sz mflags
    else if negb (Z.land gfp_mask GFP_NOFAIL =? 0) then malloc_nofail fuel sz mflags
    else mret p
  else mret p.

(** ** Address translation *)

(** [DevLinToPageList] into an array of five entries: it writes all of
    them, and the first is read on success. *)
Definition first_page (lin sz : Z) : M (lxm W) (option Z) := fun s =>
  match DevLinToPageList lin sz (world s) with
  | None => Ok (None, s)
  | Some l =>
      if (5 <? length l)%nat then Err BadAccess
      else match l with [] => Err UninitRead | p :: _ => Ok (Some p, s) end
  end.

Definition LX__pa (address : Z) : M (lxm W) Z :=
  spin_lock ≫= fun _ =>
  l ← gets memobjs;
  pa ← match LX_find_memobj address false l with
       | Some (n, o) =>
           if physAddr o =? 0 then
             r ← first_page (virtAddr o) (size o);
             match r with
             | Some p =>
                 modify (fun s => set_objs
                   (update_first (addr_matches address false)
                      (fun x => (x.1, set_phys p x.2)) (memobjs s)) s) ≫= fun _ => mret p
             | None => mret (physAddr o)
             end
           else mret (physAddr o)
       | None =>
           r ← LX_alloc_memobj;
           match r with
           | None => mret 0
           | Some (n, o) =>
               r ← first_page address PAGE_SIZE;
               match r with
               | Some p =>
                   list_add n (mk_memobj address p address PAGE_SIZE (realsize o) 0
                                 LXMT_VIRT_TO_PHYS (tid o) (pid o)) ≫= fun _ => mret p
               | None => __LX_free n ≫= fun _ => mret 0
               end
           end
       end;
  spin_unlock ≫= fun _ => mret pa.

Definition LX__va (address : Z) : M (lxm W) Z :=
  spin_lock ≫= fun _ =>
  l ← gets memobjs;
  va ← match LX_find_memobj address true l with
       | Some (n, o) => mret (virtAddr o)
       | None =>
           r ← LX_alloc_memobj;
           match r with
           | None => mret 0
           | Some (n, o) =>
               v ← VMAlloc (Z.lor VMDHA_PHYS VMDHA_PROCESS) 4096 address;
               v ← match v with
                   | Some v => mret (Some v)
                   | None => VMAlloc (Z.lor (Z.lor VMDHA_PHYS VMDHA_PROCESS) VMDHA_16M)
                               4096 address
                   end;
               match v with
               | None => VMFree n ≫= fun _ => mret 0
               | Some v =>
                   list_add n (mk_memobj v address address 4096 (realsize o) 0
                                 LXMT_PHYS_TO_VIRT (tid o) (pid o)) ≫= fun _ => mret v
               end
           end
       end;
  spin_unlock ≫= fun _ => mret va.

(** ** Statistics *)

Record lx_memstat := mk_memstat {
  total_obj : Z; total_sz : Z; total_obj_sz : Z; total_sz_wasted : Z
}.

Definition memstat_add (st : lx_memstat) (x : Z * memobj) : lx_memstat :=
  let st := mk_memstat (u32 (total_obj st + 1)) (u32 (total_sz st + sizeof_memobj))
              (u32 (total_obj_sz st + sizeof_memobj)) (total_sz_wasted st) in
  if type x.2 =? LXMT_NORMAL_MALLOC then
    mk_memstat (total_obj st) (u32 (total_sz st + realsize x.2)) (total_obj_sz st)
      (if negb (size x.2 =? realsize x.2) then u32 (total_sz_wasted st + realsize x.2)
       else total_sz_wasted st)
  else st.

Definition LX_get_memstat : M (lxm W) lx_memstat :=
  spin_lock ≫= fun _ =>
  l ← gets memobjs;
  spin_unlock ≫= fun _ =>
  mret (fold_left memstat_add l (mk_memstat 0 0 0 0)).

(** ** Leaving the initialisation phase *)

Fixpoint copy_objs (l nl : list (Z * memobj)) : M (lxm W) (list (Z * memobj)) :=
  match l with
  | [] => mret nl
  | (n, o) :: l =>
      r ← LX_alloc_memobj;
      match r with
      | None => throw NullDeref
      | Some (n', _) =>
          modify (set_objs l) ≫= fun _ =>
          VMFree n ≫= fun _ =>
          copy_objs l ((n', o) :: nl)
      end
  end.

(** [LX_ReInit_Stacks] works on the stack pool only and is not part of it. *)
Definition LX_InitComplete_Memory : M (lxm W) unit :=
  modify (fun s => mk_lxm (memlist_lock s) (memobjs s)
    (Z.land (default_malloc_flags s) (Z.lnot VMDHA_USEHIGHMEM))
    (Z.land (memobj_malloc_flags s) (Z.lnot VMDHA_USEHIGHMEM))
    (max_alloc_aligned_retry s) (world s)) ≫= fun _ =>
  spin_lock ≫= fun _ =>
  l ← gets memobjs;
  nl ← copy_objs l [];
  modify (fun s => set_objs (nl ++ memobjs s) s) ≫= fun _ =>
  spin_unlock.
End Memory.

(** [LX_wait_for_stable_memstat]: [sample i] is the total the [i]-th call of
    [LX_get_memstat] reports while other threads allocate and free.  The loop
    counts [i] up and returns the two totals compared at the end. *)
Section Stable.
Context (sample : nat -> Z).

Definition LX_WFSM_PRINTDRVSIZES : Z := 32.

Fixpoint stable_loop (n i : nat) (c total last : Z) : Z * Z :=
  match n with
  | O => (total, last)
  | S n =>
      let last := sample i in
      let c := if last =? total then c + 1 else 0 in
      if 5 <? c then (total, last) else stable_loop n (S i) c last last
  end.

Definition LX_wait_for_stable_memstat (flags : Z) : Z :=
  if negb (Z.land flags LX_WFSM_PRINTDRVSIZES =? 0) && (flags =? LX_WFSM_PRINTDRVSIZES)
  then 0
  else
    let '(total, last) := stable_loop 30 1 0 (sample 0%nat) (sample 0%nat) in
    if last =? total then 1 else 0.
End Stable.

(** [LX_alloc_objects]: consecutive objects in one allocation; the result is
    the list stored through the variable arguments. *)
Fixpoint carve (num_objects : nat) (p obj_size : Z) : list Z :=
  match num_objects with
  | O => []
  | S n => p :: carve n (u32 (p + obj_size)) obj_size
  end.

Definition LX_alloc_objects {S} (kmalloc : Z -> Z -> M S Z) (num_objects : nat)
    (obj_size gfp_mask : Z) : M S (Z * list Z) :=
  p ← kmalloc (u32 (num_objects * obj_size)) gfp_mask;
  if p =? 0 then mret (- ENOMEM, []) else mret (0, carve num_objects p obj_size).

(** ** Blocks *)

Lemma land_align a : Z.land a (Z.lnot (ALLOC_ALIGNED_ALIGN - 1)) = a - a mod 8192.
Proof. exact (land_lnot_ones a 13 ltac:(done)). Qed.

Definition live_of {W} `{DevVM W} (s : lxm W) : gmap Z Z := live (world s).

(** [a] is a new block of [sz] bytes in [m], and [m'] the blocks with it. *)
Record new_block (a sz : Z) (m m' : gmap Z Z) : Prop := {
  nb_pos : 0 < a;
  nb_end : a + sz <= 4294901760;
  nb_fresh : m !! a = None;
  nb_disjoint : disjoint_from a sz m;
  nb_live : m' = <[a := sz]> m;
  nb_page : 4096 <= sz -> a mod 4096 = 0
}.

Lemma new_block_weaken a sz m1 m2 m2' :
  m1 ⊆ m2 -> new_block a sz m2 m2' -> new_block a sz m1 (<[a := sz]> m1).
Proof.
  intros Hs [H1 H2 H3 H4 _ H6]. split; auto.
  - by eapply lookup_weaken_None.
  - intros b n Hb. eapply H4, lookup_weaken; eauto.
Qed.

(** Allocated blocks do not overlap. *)
Definition live_sep (m : gmap Z Z) : Prop :=
  forall a n b k, m !! a = Some n -> m !! b = Some k -> a <> b -> a + n <= b \/ b + k <= a.

Lemma live_sep_new a sz m m' : live_sep m -> new_block a sz m m' -> live_sep m'.
Proof.
  intros Hs [_ _ Hf Hd -> _] b n c k Hb Hc Hne.
  apply lookup_insert_Some in Hb as [[<- <-]|[? Hb]];
    apply lookup_insert_Some in Hc as [[<- <-]|[? Hc]]; try done.
  - specialize (Hd c k Hc). cbn in Hd. lia.
  - specialize (Hd b n Hb). cbn in Hd. lia.
  - eauto.
Qed.

Lemma live_sep_delete a m : live_sep m -> live_sep (delete a m).
Proof.
  intros Hs b n c k [_ Hb]%lookup_delete_Some [_ Hc]%lookup_delete_Some Hne. eauto.
Qed.

(** The part of the state the operating system's calls leave alone. *)
Record frame {W} (s s' : lxm W) : Prop := {
  fr_lock : memlist_lock s' = memlist_lock s;
  fr_objs : memobjs s' = memobjs s;
  fr_flags : default_malloc_flags s' = default_malloc_flags s;
  fr_oflags : memobj_malloc_flags s' = memobj_malloc_flags s;
  fr_retry : max_alloc_aligned_retry s' = max_alloc_aligned_retry s
}.

Lemma frame_refl {W} (s : lxm W) : frame s s. Proof. done. Qed.
Lemma frame_trans {W} (s1 s2 s3 : lxm W) : frame s1 s2 -> frame s2 s3 -> frame s1 s3.
Proof. intros [] []. split; congruence. Qed.
#[export] Hint Resolve frame_refl frame_trans : lxapi.

Section Blocks.
Context {W : Type} `{DevVMLaws W}.
Implicit Types (s : lxm W).

(** What an allocation of [sz] bytes leaves. *)
Definition alloc_post (sz : Z) (s : lxm W) (r : option Z) (s' : lxm W) : Prop :=
  frame s s' /\
  match r with
  | Some a => new_block a sz (live_of s) (live_of s')
  | None => live_of s' = live_of s
  end.

Lemma VMAlloc_spec f sz ph s :
  0 < sz -> exists r s', VMAlloc f sz ph s = Ok (r, s') /\ alloc_post sz s r s'.
Proof.
  intros Hsz. unfold VMAlloc, alloc_post, live_of.
  destruct (DevVMAlloc f sz ph (world s)) as [w [a|]] eqn:E; eexists _, _; (split; [done|]);
    (split; [done|]); cbn.
  - destruct (DevVMAlloc_fresh _ _ _ _ _ _ Hsz E) as (?&?&?&?&?).
    split; auto. eauto using DevVMAlloc_page.
  - eauto using DevVMAlloc_fail.
Qed.

Lemma VMFree_spec a s :
  exists s', VMFree a s = Ok (tt, s') /\ frame s s' /\ live_of s' = delete a (live_of s).
Proof. eexists. split; [done|]. split; [done|]. unfold live_of. cbn. apply DevVMFree_live. Qed.

Lemma alloc_post_None sz s s1 r s2 :
  alloc_post sz s None s1 -> alloc_post sz s1 r s2 -> alloc_post sz s r s2.
Proof.
  intros [F1 E1] [F2 E2]. split; [eauto with lxapi|]. rewrite E1 in E2. exact E2.
Qed.

Lemma helper_spec f sz s :
  0 < sz -> exists r s', LXA_VMAllocHelper f sz s = Ok (r, s') /\ alloc_post sz s r s'.
Proof.
  intros Hsz. unfold LXA_VMAllocHelper. mstep. destruct (_ || _); [by apply VMAlloc_spec|].
  destruct (VMAlloc_spec (Z.lor f VMDHA_USEHIGHMEM) sz 4294967295 s Hsz) as (r & s1 & E1 & H1).
  mrun E1. destruct r as [a|]; [eexists _, _; split; [done|exact H1]|].
  destruct (VMAlloc_spec f sz 4294967295 s1 Hsz) as (r & s2 & -> & H2).
  eexists _, _. split; [done|]. eauto using alloc_post_None.
Qed.

(** The blocks of [m] and the temporary pages. *)
Fixpoint with_temps (temps : list Z) (m : gmap Z Z) : gmap Z Z :=
  match temps with
  | [] => m
  | t :: temps => <[t := 4096]> (with_temps temps m)
  end.

Fixpoint temps_fresh (temps : list Z) (m : gmap Z Z) : Prop :=
  match temps with
  | [] => True
  | t :: temps => with_temps temps m !! t = None /\ temps_fresh temps m
  end.

Lemma with_temps_sub temps m : temps_fresh temps m -> m ⊆ with_temps temps m.
Proof.
  induction temps as [|t temps IH]; cbn; [done|]. intros [Ht Hf].
  etrans; [by apply IH|]. by apply insert_subseteq.
Qed.

Lemma free_temps_spec temps s m (x : option (Z * Z)) :
  temps_fresh temps m ->
  (forall a n, x = Some (a, n) -> with_temps temps m !! a = None) ->
  live_of s = match x with Some (a, n) => <[a := n]> (with_temps temps m) | None => with_temps temps m end ->
  exists s', free_temps temps s = Ok (tt, s') /\ frame s s' /\
    live_of s' = match x with Some (a, n) => <[a := n]> m | None => m end.
Proof.
  revert s. induction temps as [|t temps IH]; intros s Hf Hx Hl; cbn in *; [eauto with lxapi|].
  destruct Hf as [Ht Hf].
  destruct (VMFree_spec t s) as (s1 & E1 & F1 & L1). mrun E1.
  destruct (IH s1) as (s2 & E2 & F2 & L2); [done| | |].
  - intros a n E. specialize (Hx a n E). by apply lookup_insert_None in Hx as [? _].
  - rewrite L1, Hl. destruct x as [[a n]|]; [|by rewrite delete_insert_id].
    specialize (Hx a n eq_refl). apply lookup_insert_None in Hx as [_ Hne].
    rewrite delete_insert_ne by done. by rewrite delete_insert_id.
  - exists s2. eauto with lxapi.
Qed.

(** The search keeps the temporary pages apart and finds an aligned block. *)
Lemma aligned_loop_spec n f sz temps s m :
  0 < sz -> temps_fresh temps m -> live_of s = with_temps temps m ->
  exists a temps' s', aligned_loop n f sz temps s = Ok ((a, temps'), s') /\ frame s s' /\
    temps_fresh temps' m /\
    (a = 0 /\ live_of s' = with_temps temps' m \/
     a mod 8192 = 0 /\ new_block a sz (with_temps temps' m) (live_of s')).
Proof.
  intros Hsz. revert temps s. induction n as [|n IH]; intros temps s Hf Hl; cbn.
  { eexists _, _, _. split; [done|]. auto with lxapi. }
  destruct (helper_spec f sz s Hsz) as (r & s1 & E1 & F1 & L1).
  mrun E1. rewrite Hl in L1. destruct r as [a|].
  2: { eexists _, _, _. split; [done|]. auto with lxapi. }
  rewrite land_align. destruct (a - a mod 8192 =? a) eqn:Ea.
  { eexists _, _, _. split; [done|]. split; [done|]. split; [done|]. right. split; [lia|done]. }
  destruct (VMFree_spec a s1) as (s2 & E2 & F2 & L2). mrun E2.
  destruct L1 as [? ? Hfr ? L1 ?]. rewrite L1, delete_insert_id in L2 by done.
  destruct (helper_spec f 4096 s2 ltac:(lia)) as (r & s3 & E3 & F3 & L3).
  mrun E3. rewrite L2 in L3. destruct r as [t|].
  2: { eexists _, _, _. split; [done|]. split; [eauto with lxapi|]. auto. }
  destruct L3 as [? ? Hft ? L3 ?].
  destruct (IH (t :: temps) s3) as (a' & temps' & s4 & E4 & F4 & H4); [done|exact L3|].
  exists a', temps', s4. split; [done|]. split; [eauto with lxapi|done].
Qed.

(** A block for an object of [sz] bytes: where the object starts in it. *)
Record placed (sz virt real un : Z) : Prop := {
  pl_lo : un <= virt;
  pl_hi : virt + sz <= un + real;
  pl_align : 4096 <= sz -> virt mod 8192 = 0
}.

Lemma thunk_spec f sz s :
  0 < sz < 4294963200 ->
  exists a real s', LXA_VMAllocAlignedNoStackThunk f sz s = Ok ((a, real), s') /\ frame s s' /\
    (a = 0 /\ live_of s' = live_of s \/
     new_block a real (live_of s) (live_of s') /\
     (real = sz /\ (4096 <= sz -> a mod 8192 = 0) \/ 4096 <= sz /\ real = sz + 4096)).
Proof.
  intros Hsz. unfold LXA_VMAllocAlignedNoStackThunk. destruct (sz <? 4096) eqn:Es.
  { destruct (helper_spec f sz s ltac:(lia)) as ([a|] & s1 & E1 & F1 & L1); mrun E1;
      eexists _, _, _; (split; [done|]); (split; [done|]); [right|by left].
    split; [done|]. left. split; [done|lia]. }
  mstep. destruct (aligned_loop_spec (max_alloc_aligned_retry s) f sz [] s (live_of s))
    as (a & temps & s1 & E1 & F1 & Hf & Ha); [lia|done|done|]. mrun E1.
  destruct (free_temps_spec temps s1 (live_of s) (if a =? 0 then None else Some (a, sz)))
    as (s2 & E2 & F2 & L2); [done| | |].
  { intros b n. destruct (a =? 0) eqn:Ea; [done|]. intros [= <- <-].
    destruct Ha as [[? _]|[_ []]]; [lia|done]. }
  { destruct (a =? 0) eqn:Ea; destruct Ha as [[? ?]|[_ []]]; auto; lia. }
  mrun E2. destruct (a =? 0) eqn:Ea.
  - assert (Hu : u32 (sz + 8192 / 2) = sz + 4096) by (change (8192 / 2) with 4096; mlia).
    unfold ALLOC_ALIGNED_ALIGN. rewrite Hu.
    destruct (helper_spec f (sz + 4096) s2 ltac:(lia)) as (r & s3 & E3 & F3 & L3).
    mrun E3. eexists _, _, _. split; [done|]. split; [eauto with lxapi|]. rewrite L2 in L3.
    destruct r as [b|]; cbn; [right|by left]. split; [done|]. right. lia.
  - destruct Ha as [[? _]|[Hal Hn]]; [lia|]. eexists _, _, _. split; [done|].
    split; [eauto with lxapi|]. right. split; [|auto]. rewrite L2.
    eapply new_block_weaken; [by apply with_temps_sub|done].
Qed.

Lemma VMAllocAligned_spec f sz s :
  0 < sz < 4294963200 ->
  exists r s', LXA_VMAllocAligned f sz s = Ok (r, s') /\ frame s s' /\
    match r with
    | None => live_of s' = live_of s
    | Some (virt, real, un) =>
        new_block un real (live_of s) (live_of s') /\ placed sz virt real un /\ sz <= real
    end.
Proof.
  intros Hsz. unfold LXA_VMAllocAligned.
  destruct (thunk_spec f sz s Hsz) as (a & real & s1 & E1 & F1 & Ha).
  rewrite M_bind_unfold, E1. destruct (a =? 0) eqn:Ea.
  { eexists _, _. split; [done|]. split; [done|]. destruct Ha as [[_ ?]|[[] _]]; [done|lia]. }
  destruct Ha as [[? _]|[Hn Hr]]; [lia|]. eexists _, _. split; [done|]. split; [done|].
  split; [done|]. pose proof Hn as [? ? _ _ _ Hp].
  assert ((real <? 4096) = (sz <? 4096)) as -> by lia. destruct (sz <? 4096) eqn:Es.
  - split; [split; lia|lia].
  - unfold LXA_AlignMemory. rewrite !land_align. unfold ALLOC_ALIGNED_ALIGN.
    specialize (Hp ltac:(lia)). destruct (a =? a - a mod 8192) eqn:E8.
    { split; [split; lia|lia]. }
    destruct Hr as [[-> Hr]|[_ ->]]; [lia|].
    assert (u32 (a + (8192 - 1)) = a + 8191) as -> by mlia.
    split; [split; lia|lia].
Qed.
End Blocks.

(** ** Well-formed object lists *)

Definition owned (x : Z * memobj) : bool :=
  (type x.2 =? LXMT_NORMAL_MALLOC) || (type x.2 =? LXMT_PHYS_TO_VIRT).

(** The blocks of the operating system an entry stands for. *)
Definition blocks_of (x : Z * memobj) : list (Z * Z) :=
  (x.1, sizeof_memobj) ::
  (if type x.2 =? LXMT_NORMAL_MALLOC then [(unalignedAddr x.2, realsize x.2)]
   else if type x.2 =? LXMT_PHYS_TO_VIRT then [(virtAddr x.2, 4096)]
   else []).

Fixpoint all_blocks (l : list (Z * memobj)) : list (Z * Z) :=
  match l with [] => [] | x :: l => blocks_of x ++ all_blocks l end.

Lemma all_blocks_app l1 l2 : all_blocks (l1 ++ l2) = all_blocks l1 ++ all_blocks l2.
Proof. induction l1 as [|x l1 IH]; cbn; [done|]. by rewrite IH, app_assoc. Qed.

(** No entry hides an owned one from [LX_find_memobj]. *)
Fixpoint front (l : list (Z * memobj)) : Prop :=
  match l with
  | [] => True
  | x :: l => (forall y, y ∈ l -> owned y = true -> virtAddr y.2 <> virtAddr x.2) /\ front l
  end.

Lemma front_remove l1 x l2 : front (l1 ++ x :: l2) -> front (l1 ++ l2).
Proof.
  induction l1 as [|y l1 IH]; cbn; [tauto|]. intros [Hy Hf]. split; [|auto].
  intros z Hz. apply Hy. set_solver.
Qed.

(** An owned entry is the one that is found. *)
Lemma front_found l1 x l2 :
  front (l1 ++ x :: l2) -> owned x = true ->
  Forall (fun y => addr_matches (virtAddr x.2) false y = false) l1.
Proof.
  induction l1 as [|y l1 IH]; cbn; intros Hf Ho; constructor.
  - destruct Hf as [Hy _]. specialize (Hy x ltac:(set_solver) Ho).
    unfold addr_matches. lia.
  - apply IH; tauto.
Qed.

Lemma find_front l1 x l2 :
  front (l1 ++ x :: l2) -> owned x = true ->
  LX_find_memobj (virtAddr x.2) false (l1 ++ x :: l2) = Some x /\
  remove_first (addr_matches (virtAddr x.2) false) (l1 ++ x :: l2) = l1 ++ l2.
Proof.
  intros Hf Ho. pose proof (front_found l1 x l2 Hf Ho) as Hl.
  assert (Hx : addr_matches (virtAddr x.2) false x = true) by (unfold addr_matches; lia).
  split.
  - unfold LX_find_memobj. rewrite find_first_app by done. cbn [find_first]. by rewrite Hx.
  - by apply remove_first_app.
Qed.

(** The object of a malloc entry lies in its block. *)
Definition obj_placed (x : Z * memobj) : Prop :=
  type x.2 = LXMT_NORMAL_MALLOC ->
  0 < size x.2 /\ placed (size x.2) (virtAddr x.2) (realsize x.2) (unalignedAddr x.2).

Record objs_wf (l : list (Z * memobj)) (m : gmap Z Z) : Prop := {
  ow_distinct : NoDup (all_blocks l).*1;
  ow_live : Forall (fun b => m !! b.1 = Some b.2) (all_blocks l);
  ow_front : front l;
  ow_placed : Forall obj_placed l
}.

Record mem_wf {W} `{DevVM W} (s : lxm W) : Prop := {
  wf_unlocked : memlist_lock s = false;
  wf_sep : live_sep (live_of s);
  wf_objs : objs_wf (memobjs s) (live_of s)
}.

(** The abstract heap: the objects handed out by malloc and their sizes. *)
Definition heap_entry (x : Z * memobj) : option (Z * Z) :=
  if type x.2 =? LXMT_NORMAL_MALLOC then Some (virtAddr x.2, size x.2) else None.

Definition heap {W} (s : lxm W) : list (Z * Z) := omap heap_entry (memobjs s).

(** An owned object lies in one live block. *)
Lemma owned_block l m x :
  objs_wf l m -> x ∈ l -> owned x = true ->
  exists b k, m !! b = Some k /\ b <= virtAddr x.2 /\ virtAddr x.2 < b + k /\
    (type x.2 = LXMT_NORMAL_MALLOC -> virtAddr x.2 + size x.2 <= b + k).
Proof.
  intros [_ Hl _ Hp] (l1 & l2 & ->)%list_elem_of_split Ho.
  rewrite all_blocks_app in Hl. cbn in Hl. apply Forall_app in Hl as [_ Hl].
  apply Forall_app in Hp as [_ [Hp _]%Forall_cons]. unfold blocks_of in Hl.
  cbn [app] in Hl. apply Forall_cons in Hl as [_ Hl].
  apply Forall_app in Hl as [Hl _]. unfold owned in Ho.
  destruct (type x.2 =? LXMT_NORMAL_MALLOC) eqn:En.
  - apply Forall_cons in Hl as [Hl _]. destruct (Hp ltac:(lia)) as [? [? ? _]].
    eexists _, _. split; [exact Hl|]. cbn. lia.
  - cbn in Ho. rewrite Ho in Hl. apply Forall_cons in Hl as [Hl _].
    eexists _, _. split; [exact Hl|]. cbn. lia.
Qed.

Lemma blocks_lookup l m a :
  objs_wf l m -> m !! a = None -> a ∉ (all_blocks l).*1.
Proof.
  intros [_ Hl _ _] Ha (b & -> & Hb)%list_elem_of_fmap.
  rewrite Forall_forall in Hl. specialize (Hl b Hb). congruence.
Qed.

(** A larger set of blocks is as good. *)
Lemma objs_wf_mono l m m' : m ⊆ m' -> objs_wf l m -> objs_wf l m'.
Proof.
  intros Hs [H1 H2 H3 H4]. split; auto. eapply Forall_impl; [exact H2|].
  intros b Hb. exact (lookup_weaken _ _ _ _ Hb Hs).
Qed.

Lemma objs_wf_cons x l m m' :
  objs_wf l m -> m ⊆ m' -> Forall (fun b => m' !! b.1 = Some b.2) (blocks_of x) ->
  NoDup (blocks_of x).*1 -> Forall (fun b => m !! b.1 = None) (blocks_of x) ->
  (forall y, y ∈ l -> owned y = true -> virtAddr y.2 <> virtAddr x.2) -> obj_placed x ->
  objs_wf (x :: l) m'.
Proof.
  intros Hw Hs Hl Hnd Hfr Hne Hp. pose proof (objs_wf_mono l m m' Hs Hw) as [H1 H2 H3 H4].
  split; cbn [all_blocks]; auto.
  - rewrite fmap_app. apply NoDup_app. split; [done|]. split; [|done].
    intros a (b & -> & Hb)%list_elem_of_fmap. apply (blocks_lookup l m); [done|].
    rewrite Forall_forall in Hfr. auto.
  - by apply Forall_app.
  - cbn. auto.
Qed.

(** Entries are unlinked with their blocks. *)
Lemma objs_wf_remove l1 x l2 m :
  objs_wf (l1 ++ x :: l2) m ->
  objs_wf (l1 ++ l2) (foldr (fun b m => delete b.1 m) m (blocks_of x)).
Proof.
  intros [H1 H2 H3 H4]. rewrite all_blocks_app in *. cbn [all_blocks] in *.
  assert (Hp : all_blocks l1 ++ blocks_of x ++ all_blocks l2 ≡ₚ
               blocks_of x ++ (all_blocks l1 ++ all_blocks l2)) by solve_Permutation.
  rewrite Hp in H1, H2. rewrite fmap_app in H1. apply NoDup_app in H1 as (_ & Hd & H1).
  apply Forall_app in H2 as [_ H2].
  split; rewrite ?all_blocks_app; auto.
  - rewrite Forall_forall in *. intros b Hb.
    assert (Hb' : b.1 ∉ (blocks_of x).*1)
      by (intros Hx; apply (Hd b.1 Hx), list_elem_of_fmap; eauto).
    revert Hb'. specialize (H2 b Hb). clear -H2. induction (blocks_of x) as [|c bs IH]; cbn; [done|].
    intros Hn. rewrite lookup_delete_ne by set_solver. apply IH. set_solver.
  - by eapply front_remove.
  - apply Forall_app in H4 as [? [? ?]%Forall_cons]. by apply Forall_app.
Qed.

(** ** malloc and free *)

Section MallocFree.
Context {W : Type} `{DevVMLaws W}.
Context (current_tid current_pid : Z) (garbage : memobj).
Abbreviation malloc := (__LX_malloc current_tid current_pid garbage).
Abbreviation alloc_memobj := (LX_alloc_memobj current_tid current_pid garbage).
Implicit Types (s : lxm W).

Lemma alloc_memobj_spec s :
  exists r s', alloc_memobj s = Ok (r, s') /\ frame s s' /\
    match r with
    | Some (n, o) => new_block n sizeof_memobj (live_of s) (live_of s')
    | None => live_of s' = live_of s
    end.
Proof.
  unfold LX_alloc_memobj. rewrite M_bind_unfold. cbn.
  destruct (VMAlloc_spec (Z.lor (memobj_malloc_flags s) VMDHA_USEHIGHMEM) sizeof_memobj
    4294967295 s eq_refl) as (r & s1 & E1 & H1). mrun E1.
  destruct r as [a|]; [eexists _, _; split; [done|exact H1]|].
  destruct (VMAlloc_spec (memobj_malloc_flags s) sizeof_memobj 4294967295 s1 eq_refl)
    as (r & s2 & E2 & H2). mrun E2. eexists _, _. split; [done|].
  pose proof (alloc_post_None _ _ _ _ _ H1 H2) as H3. by destruct r.
Qed.

(** What a successful malloc adds to the list and to the live blocks. *)
Record malloced (sz p : Z) (s s' : lxm W) (n : Z) (o : memobj) : Prop := {
  ma_lock : memlist_lock s' = false;
  ma_objs : memobjs s' = (n, o) :: memobjs s;
  ma_type : type o = LXMT_NORMAL_MALLOC;
  ma_size : size o = sz;
  ma_virt : virtAddr o = p;
  ma_phys : physAddr o = 0;
  ma_placed : placed sz p (realsize o) (unalignedAddr o);
  ma_real : sz <= realsize o;
  ma_node : new_block n sizeof_memobj (live_of s) (<[n := sizeof_memobj]> (live_of s));
  ma_block : new_block (unalignedAddr o) (realsize o)
               (<[n := sizeof_memobj]> (live_of s)) (live_of s')
}.

Lemma malloc_spec sz flags s :
  memlist_lock s = false -> 0 < sz < 4294963200 ->
  exists p s', malloc sz flags s = Ok (p, s') /\
    (p = 0 /\ frame s s' /\ live_of s' = live_of s \/
     0 < p /\ exists n o, malloced sz p s s' n o).
Proof.
  intros Hlk Hsz. unfold __LX_malloc.
  destruct (alloc_memobj_spec s) as (r & s1 & E1 & F1 & L1). mrun E1.
  destruct r as [[n o]|]; [|eexists _, _; split; [done|by left]].
  destruct (VMAllocAligned_spec (u16 flags) sz s1 Hsz) as (r & s2 & E2 & F2 & L2). mrun E2.
  destruct r as [[[virt real] un]|].
  - assert (Hl2 : memlist_lock s2 = false) by (rewrite (fr_lock _ _ F2), (fr_lock _ _ F1); done).
    rewrite M_bind_unfold. unfold spin_lock at 1. rewrite Hl2. cbn.
    eexists _, _. split; [done|]. right. destruct L2 as (Hn & Hp & Hr).
    split; [pose proof (nb_pos _ _ _ _ Hn); destruct Hp; lia|].
    pose proof (nb_live _ _ _ _ L1) as El. rewrite El in Hn, L1.
    match goal with |- context [(n, ?x)] => exists n, x end.
    split; cbn; [done| |done..|exact Hn].
    by rewrite (fr_objs _ _ F2), (fr_objs _ _ F1).
  - destruct (VMFree_spec n s2) as (s3 & E3 & F3 & L3). mrun E3.
    eexists _, _. split; [done|]. left. split; [done|]. split; [eauto with lxapi|].
    destruct L1 as [_ _ Hf _ L1 _]. rewrite L3, L2, L1. by apply delete_insert_id.
Qed.

Lemma malloced_fresh sz p s s' n o y :
  mem_wf s -> 0 < sz -> malloced sz p s s' n o -> y ∈ memobjs s -> owned y = true ->
  virtAddr y.2 <> p /\
  (type y.2 = LXMT_NORMAL_MALLOC ->
   p + sz <= virtAddr y.2 \/ virtAddr y.2 + size y.2 <= p).
Proof.
  intros [_ _ Hw] Hsz Hm Hy Ho. destruct (owned_block _ _ y Hw Hy Ho) as (b & k & Hb & ? & ? & Hn).
  destruct Hm as [_ _ _ _ _ _ [? ? _] _ Hnode [_ _ _ Hd _ _]].
  destruct (Hd b k) as [?|?]; cbn in *; [|split; [lia|intros Ht; specialize (Hn Ht); lia]..].
  rewrite lookup_insert_ne; [done|]. intros ->.
  pose proof (nb_fresh _ _ _ _ Hnode). congruence.
Qed.

Lemma malloced_wf sz p s s' n o :
  mem_wf s -> 0 < sz -> malloced sz p s s' n o -> mem_wf s'.
Proof.
  intros Hs Hsz Hm. pose proof (malloced_fresh sz p s s' n o) as Hfr. destruct Hs as [Hl Hse Hw].
  pose proof Hm as [? Ho Ht Hs Hv Hph Hp Hr Hn Hb].
  pose proof (nb_fresh _ _ _ _ Hn) as Hn0. pose proof (nb_fresh _ _ _ _ Hb) as Hb0.
  apply lookup_insert_None in Hb0 as [Hb0 Hne].
  split; [done|eapply live_sep_new; [eapply live_sep_new; [exact Hse|exact Hn]|exact Hb]|].
  rewrite Ho. apply (objs_wf_cons (n, o) _ (live_of s)); unfold blocks_of; cbn; try done.
  - rewrite (nb_live _ _ _ _ Hb). etrans; apply insert_subseteq; [done|].
    by apply (nb_fresh _ _ _ _ Hb).
  - rewrite Ht; cbn. rewrite (nb_live _ _ _ _ Hb). repeat constructor; cbn.
    + rewrite lookup_insert_ne by done. by rewrite lookup_insert_eq.
    + by rewrite lookup_insert_eq.
  - rewrite Ht; cbn. repeat constructor; set_solver.
  - rewrite Ht; cbn. by repeat constructor.
  - intros y Hy Hoy. rewrite Hv. apply Hfr; done.
  - intros _. cbn. rewrite Hs, Hv. done.
Qed.

(** ** Free *)

(** What freeing the owned entry [x] does; the block freed for a malloc
    entry is the one it got. *)
Lemma free_spec s l1 x l2 :
  mem_wf s -> memobjs s = l1 ++ x :: l2 -> owned x = true ->
  exists s', __LX_free (virtAddr x.2) s = Ok (tt, s') /\ memlist_lock s' = false /\
    memobjs s' = l1 ++ l2 /\ live_of s' = delete x.1 (delete (unalignedAddr x.2) (live_of s)).
Proof.
  intros [Hl _ Hw] Ho Hx. destruct x as [n o]. unfold __LX_free.
  rewrite Ho in Hw. destruct (find_front l1 (n, o) l2 (ow_front _ _ Hw) Hx) as [Hf Hr].
  mstep. unfold spin_lock. rewrite Hl. mstep.
  change (memobjs (set_lock true s)) with (memobjs s). rewrite Ho. cbn in Hf. cbn. rewrite Hf.
  unfold owned in Hx. cbn in Hx. rewrite Hx. mstep.
  eexists. split; [done|]. split; [done|]. split.
  - cbn. rewrite Ho. exact Hr.
  - unfold live_of. cbn. by rewrite !DevVMFree_live.
Qed.

Lemma free_wf s l1 x l2 s' :
  mem_wf s -> memobjs s = l1 ++ x :: l2 -> type x.2 = LXMT_NORMAL_MALLOC ->
  __LX_free (virtAddr x.2) s = Ok (tt, s') -> mem_wf s'.
Proof.
  intros Hs Ho Ht Hf. assert (Hx : owned x = true) by (unfold owned; rewrite Ht; done).
  destruct (free_spec s l1 x l2 Hs Ho Hx) as (s1 & Hf1 & Hl & Ho1 & L1).
  rewrite Hf in Hf1. injection Hf1 as <-. destruct Hs as [_ Hse Hw].
  split; [done|rewrite L1; auto using live_sep_delete|].
  rewrite Ho1, L1. rewrite Ho in Hw. apply objs_wf_remove in Hw.
  unfold blocks_of in Hw. rewrite Ht in Hw. exact Hw.
Qed.
End MallocFree.

Section MemoryTheorems.
Context {W : Type} `{DevVMLaws W}.
Context (current_tid current_pid : Z) (garbage : memobj).
Abbreviation malloc := (__LX_malloc current_tid current_pid garbage).
Abbreviation pa := (LX__pa current_tid current_pid garbage).
Abbreviation va := (LX__va current_tid current_pid garbage).
Implicit Types (s : lxm W).

Lemma malloc_heap_spec sz flags s :
  mem_wf s -> 0 < sz < 4294963200 ->
  exists p s', malloc sz flags s = Ok (p, s') /\ mem_wf s' /\
    (p = 0 /\ heap s' = heap s /\ live_of s' = live_of s \/
     0 < p /\ p + sz <= 4294901760 /\ (4096 <= sz -> p mod 8192 = 0) /\
     heap s' = (p, sz) :: heap s /\
     forall q k, (q, k) ∈ heap s -> p + sz <= q \/ q + k <= p).
Proof.
  intros Hs Hsz.
  destruct (malloc_spec current_tid current_pid garbage sz flags s (wf_unlocked _ Hs) Hsz)
    as (p & s' & E & [(-> & F & L)|(Hp & n & o & Hm)]); exists p, s' || exists 0, s';
    (split; [done|]).
  - split; [|left; unfold heap; by rewrite (fr_objs _ _ F)].
    destruct Hs as [H1 H2 H3]. split; [by rewrite (fr_lock _ _ F)|by rewrite L|].
    by rewrite L, (fr_objs _ _ F).
  - split; [apply (malloced_wf sz p s s' n o); [done|lia|done]|]. right. split; [done|].
    pose proof (malloced_fresh sz p s s' n o) as Hfr.
    pose proof Hm as [Hm1 Hm2 Ht Hz Hv Hph [Hlo Hhi Hal] Hr Hnn [? Hend _ _ _ _]].
    split; [lia|]. split; [done|]. split.
    + unfold heap. rewrite Hm2. cbn. unfold heap_entry at 1. cbn. rewrite Ht, Hv, Hz. done.
    + intros q k (y & Hy & Hq)%list_elem_of_omap. unfold heap_entry in Hq.
      destruct (type y.2 =? LXMT_NORMAL_MALLOC) eqn:Ey; [|done]. injection Hq as <- <-.
      apply Hfr; try done; [lia|unfold owned; by rewrite Ey|lia].
Qed.

(** C1: malloc refines the abstract heap.  It returns 0 and changes neither
    the heap nor the allocated blocks, or it returns an object that lies
    below 4 GB, starts on an 8 KB boundary when it is a page or larger, and
    overlaps none of the objects handed out before; the heap gains exactly
    that object and the list stays well formed. *)
Theorem malloc_refines sz flags s :
  mem_wf s -> 0 < sz < 4294963200 ->
  exists p s', malloc sz flags s = Ok (p, s') /\ mem_wf s' /\
    (p = 0 /\ heap s' = heap s /\ live_of s' = live_of s \/
     0 < p /\ p + sz <= 4294901760 /\ (4096 <= sz -> p mod 8192 = 0) /\
     heap s' = (p, sz) :: heap s /\
     forall q k, (q, k) ∈ heap s -> p + sz <= q \/ q + k <= p).
Proof. apply malloc_heap_spec. Qed.

Lemma free_heap_spec s l1 n o l2 :
  mem_wf s -> memobjs s = l1 ++ (n, o) :: l2 -> type o = LXMT_NORMAL_MALLOC ->
  exists s', __LX_free (virtAddr o) s = Ok (tt, s') /\ mem_wf s' /\
    heap s = omap heap_entry l1 ++ (virtAddr o, size o) :: omap heap_entry l2 /\
    heap s' = omap heap_entry l1 ++ omap heap_entry l2 /\
    live_of s' = delete n (delete (unalignedAddr o) (live_of s)).
Proof.
  intros Hs Ho Ht.
  destruct (free_spec s l1 (n, o) l2 Hs Ho) as (s' & E & _ & Ho' & L).
  { unfold owned. cbn. by rewrite Ht. }
  exists s'. split; [done|]. split; [by eapply (free_wf s l1 (n, o) l2)|].
  unfold heap. rewrite Ho, Ho', !omap_app. split; [|by split].
  f_equal. cbn. unfold heap_entry at 1. cbn. by rewrite Ht.
Qed.

(** C2: free refines the abstract heap.  Freeing an object of the heap
    removes that object and no other, returns its block and its list node
    to the operating system and keeps the list well formed. *)
Theorem free_refines s l1 n o l2 :
  mem_wf s -> memobjs s = l1 ++ (n, o) :: l2 -> type o = LXMT_NORMAL_MALLOC ->
  exists s', __LX_free (virtAddr o) s = Ok (tt, s') /\ mem_wf s' /\
    heap s = omap heap_entry l1 ++ (virtAddr o, size o) :: omap heap_entry l2 /\
    heap s' = omap heap_entry l1 ++ omap heap_entry l2 /\
    live_of s' = delete n (delete (unalignedAddr o) (live_of s)).
Proof. apply free_heap_spec. Qed.

(** C3: a malloc that succeeds followed by the free of its result restores
    the list of objects and the allocated blocks exactly: nothing leaks. *)
Theorem malloc_free_roundtrip sz flags s p s1 :
  mem_wf s -> 0 < sz < 4294963200 -> malloc sz flags s = Ok (p, s1) -> p <> 0 ->
  exists s2, __LX_free p s1 = Ok (tt, s2) /\ memobjs s2 = memobjs s /\
    live_of s2 = live_of s /\ memlist_lock s2 = false.
Proof.
  intros Hs Hsz E Hp.
  destruct (malloc_spec current_tid current_pid garbage sz flags s (wf_unlocked _ Hs) Hsz)
    as (p' & s1' & E' & Hm). rewrite E in E'. injection E' as <- <-.
  destruct Hm as [[? _]|(_ & n & o & Hm)]; [done|].
  assert (Hs1 : mem_wf s1) by (apply (malloced_wf sz p s s1 n o); [done|lia|done]).
  destruct Hm as [_ Ho Ht _ Hv _ _ _ Hn Hb].
  destruct (free_spec s1 [] (n, o) (memobjs s) Hs1 Ho) as (s2 & E2 & Hl2 & Ho2 & L2).
  { unfold owned. cbn. by rewrite Ht. }
  cbn in E2. rewrite Hv in E2. exists s2. split; [done|]. split; [done|]. split; [|done].
  rewrite L2, (nb_live _ _ _ _ Hb). cbn. rewrite delete_insert_id by apply (nb_fresh _ _ _ _ Hb).
  apply delete_insert_id, (nb_fresh _ _ _ _ Hn).
Qed.

(** With [__GFP_NOFAIL] and not [__GFP_REPEAT] the allocation returns
    only with memory; the number of attempts is the only bound. *)
Lemma malloc_nofail_nonzero fuel sz gfp_mask s p s' :
  Z.land gfp_mask GFP_NOFAIL <> 0 -> Z.land gfp_mask GFP_REPEAT = 0 ->
  __LX_malloc_gfp current_tid current_pid garbage fuel sz gfp_mask s = Ok (p, s') -> p <> 0.
Proof.
  intros Hn Hr. unfold __LX_malloc_gfp. mstep. rewrite Hr. cbn.
  destruct (Z.land gfp_mask GFP_NOFAIL =? 0) eqn:En; [lia|]. cbn.
  destruct (malloc _ _ s) as [[q s1]|]; [|done]. destruct (q =? 0) eqn:Eq.
  - revert s1. induction fuel as [|fuel IH]; cbn; intros s1; [done|]. rewrite M_bind_unfold.
    destruct (malloc _ _ s1) as [[r s2]|]; [|done]. destruct (r =? 0) eqn:Er; [apply IH|].
    intros [= <- <-]. lia.
  - intros [= <- <-]. lia.
Qed.
End MemoryTheorems.

(** ** Address translation *)

Lemma set_lock_twice {W} (s : lxm W) : memlist_lock s = false -> set_lock false (set_lock true s) = s.
Proof. destruct s; cbn. by intros ->. Qed.

Lemma set_world_eta {W} (s : lxm W) : set_world (world s) s = s.
Proof. by destruct s. Qed.

Section Translation.
Context {W : Type} `{DevVMLaws W}.
Context (current_tid current_pid : Z) (garbage : memobj).
Abbreviation pa := (LX__pa current_tid current_pid garbage).
Abbreviation va := (LX__va current_tid current_pid garbage).
Abbreviation alloc_memobj := (LX_alloc_memobj current_tid current_pid garbage).
Implicit Types (s : lxm W).

(** An object whose physical address is known is answered from the list. *)
Lemma pa_known a s n o p :
  memlist_lock s = false -> LX_find_memobj a false (memobjs s) = Some (n, o) ->
  physAddr o = p -> p <> 0 -> pa a s = Ok (p, s).
Proof.
  intros Hl Hf <- Hp. unfold LX__pa. mstep. unfold spin_lock. rewrite Hl. mstep.
  change (memobjs (set_lock true s)) with (memobjs s). rewrite Hf.
  destruct (physAddr o =? 0) eqn:E; [lia|]. unfold spin_unlock. mstep.
  by rewrite set_lock_twice.
Qed.

Lemma find_update a p l n o :
  LX_find_memobj a false l = Some (n, o) ->
  LX_find_memobj a false
    (update_first (addr_matches a false) (fun x => (x.1, set_phys p x.2)) l)
  = Some (n, set_phys p o).
Proof.
  intros (l1 & l2 & -> & Hx & Hl)%find_first_Some. rewrite update_first_app by done.
  unfold LX_find_memobj. rewrite find_first_app by done. cbn.
  unfold addr_matches in *; cbn in *. by rewrite Hx.
Qed.

Lemma pa_remembers a s p s1 :
  memlist_lock s = false -> pa a s = Ok (p, s1) -> p <> 0 ->
  memlist_lock s1 = false /\ exists n o,
    LX_find_memobj a false (memobjs s1) = Some (n, o) /\ physAddr o = p.
Proof.
  intros Hl E Hp. revert E. unfold LX__pa. mstep.
  unfold spin_lock. rewrite Hl. mstep. change (memobjs (set_lock true s)) with (memobjs s).
  destruct (LX_find_memobj a false (memobjs s)) as [[n o]|] eqn:Ef.
  - destruct (physAddr o =? 0) eqn:Eo.
    + mstep. unfold first_page. destruct (DevLinToPageList _ _ _) as [[|q l]|].
      * done.
      * destruct (5 <? _)%nat; [done|]. mstep. intros [= <- <-]. split; [done|].
        exists n, (set_phys q o). split; [by apply find_update|done].
      * mstep. intros [= <- <-]. lia.
    + mstep. intros [= <- <-]. rewrite set_lock_twice by done. eauto.
  - mstep. destruct (alloc_memobj (set_lock true s)) as [[[[n o]|] s2]|] eqn:Ea; [| |done].
    + mstep. unfold first_page. destruct (DevLinToPageList _ _ _) as [[|q l]|].
      * done.
      * destruct (5 <? _)%nat; [done|]. mstep. intros [= <- <-]. split; [done|].
        eexists n, _. unfold LX_find_memobj, addr_matches; cbn. by rewrite Z.eqb_refl.
      * mstep. destruct (__LX_free n s2) as [[? ?]|]; [|done]. intros [= <- <-]. done.
    + mstep. intros [= <- <-]. done.
Qed.

(** A physical address that was returned once is remembered: the next
    query for the same address gives the same answer and changes nothing,
    whatever the operating system would say by then. *)
Theorem pa_cached a s p s1 :
  memlist_lock s = false -> pa a s = Ok (p, s1) -> p <> 0 ->
  memlist_lock s1 = false /\ forall w, pa a (set_world w s1) = Ok (p, set_world w s1).
Proof.
  intros Hl E Hp. destruct (pa_remembers a s p s1 Hl E Hp) as (Hl1 & n & o & Hf & Ho).
  split; [done|]. intros w. by eapply pa_known.
Qed.

(** Mapping a new physical address. *)
Lemma va_new a s v s1 :
  memlist_lock s = false -> LX_find_memobj a true (memobjs s) = None ->
  va a s = Ok (v, s1) -> v <> 0 ->
  exists n o, memobjs s1 = (n, o) :: memobjs s /\ memlist_lock s1 = false /\
    type o = LXMT_PHYS_TO_VIRT /\ virtAddr o = v /\ physAddr o = a /\ unalignedAddr o = a /\
    new_block n sizeof_memobj (live_of s) (<[n := sizeof_memobj]> (live_of s)) /\
    new_block v 4096 (<[n := sizeof_memobj]> (live_of s)) (live_of s1).
Proof.
  intros Hl Hf E Hv. revert E. unfold LX__va. mstep. unfold spin_lock. rewrite Hl. mstep.
  change (memobjs (set_lock true s)) with (memobjs s). rewrite Hf. mstep.
  destruct (alloc_memobj_spec current_tid current_pid garbage (set_lock true s))
    as (r & s2 & E2 & F2 & L2). rewrite E2. destruct r as [[n o]|]; mstep.
  2: { by intros [= <- <-]. }
  pose proof (nb_live _ _ _ _ L2) as El.
  change (live_of (set_lock true s)) with (live_of s) in El, L2.
  assert (Hr : exists r s3, (v0 ← VMAlloc (Z.lor VMDHA_PHYS VMDHA_PROCESS) 4096 a;
      match v0 with Some v0 => mret (Some v0) | None =>
        VMAlloc (Z.lor (Z.lor VMDHA_PHYS VMDHA_PROCESS) VMDHA_16M) 4096 a end) s2 = Ok (r, s3)
      /\ alloc_post 4096 s2 r s3).
  { destruct (VMAlloc_spec (Z.lor VMDHA_PHYS VMDHA_PROCESS) 4096 a s2 eq_refl)
      as (r & s3 & E3 & P3). mrun E3. destruct r as [b|]; [eauto|].
    destruct (VMAlloc_spec (Z.lor (Z.lor VMDHA_PHYS VMDHA_PROCESS) VMDHA_16M) 4096 a s3 eq_refl)
      as (r & s4 & E4 & P4). rewrite E4. eauto using alloc_post_None. }
  destruct Hr as (r & s3 & E3 & F3 & L3). revert E3. mstep.
  destruct (VMAlloc (Z.lor VMDHA_PHYS VMDHA_PROCESS) 4096 a s2) as [[r0 s2']|]; [|done].
  destruct r0 as [b|]; mstep; intros E3; rewrite ?E3; [injection E3 as <- <-|destruct r as [b|]];
    mstep; intros [= <- <-]; [| |done];
    eexists n, _; cbn; rewrite (fr_objs _ _ F3), (fr_objs _ _ F2), ?El in *;
    repeat (split; [done|]); exact L3.
Qed.

(** The two translations agree on a fresh mapping: the virtual address
    obtained for a physical one translates back to it. *)
Theorem va_pa_roundtrip a s v s1 :
  memlist_lock s = false -> LX_find_memobj a true (memobjs s) = None -> a <> 0 ->
  va a s = Ok (v, s1) -> v <> 0 -> pa v s1 = Ok (a, s1).
Proof.
  intros Hl Hf Ha E Hv. destruct (va_new a s v s1 Hl Hf E Hv) as (n & o & Ho & Hl1 & _ & Hvo & Hpo & _).
  apply (pa_known v s1 n o); [done| |done|done].
  rewrite Ho. unfold LX_find_memobj, addr_matches. cbn. by rewrite Hvo, Z.eqb_refl.
Qed.

(** Freeing a mapping made by [LX__va] forgets it but hands the physical
    address to the operating system as if it were a linear one: the mapping
    itself stays allocated. *)
Theorem va_free_leaks a s v s1 :
  memlist_lock s = false -> LX_find_memobj a true (memobjs s) = None ->
  va a s = Ok (v, s1) -> v <> 0 -> a <> v ->
  exists s2, __LX_free v s1 = Ok (tt, s2) /\ memobjs s2 = memobjs s /\
    live_of s2 = delete a (<[v := 4096]> (live_of s)) /\ live_of s2 !! v = Some 4096.
Proof.
  intros Hl Hf E Hv Ha.
  destruct (va_new a s v s1 Hl Hf E Hv) as (n & o & Ho & Hl1 & Ht & Hvo & Hpo & Hu & Hn & Hb).
  unfold __LX_free. mstep. unfold spin_lock. rewrite Hl1. mstep.
  change (memobjs (set_lock true s1)) with (memobjs s1). rewrite Ho.
  assert (Hx : (virtAddr o =? v) = true) by lia.
  unfold LX_find_memobj. cbn. rewrite Hx, Ht. mstep.
  eexists. split; [done|]. pose proof (nb_fresh _ _ _ _ Hb) as [Hn0 Hne]%lookup_insert_None.
  assert (HL : delete n (delete a (live_of s1)) = delete a (<[v := 4096]> (live_of s))).
  { rewrite (nb_live _ _ _ _ Hb), delete_delete. f_equal.
    rewrite delete_insert_ne by congruence. f_equal. apply delete_insert_id, (nb_fresh _ _ _ _ Hn). }
  split; [cbn; by rewrite Ho; cbn; rewrite Hx|].
  unfold live_of in *. cbn. rewrite !DevVMFree_live, Hu, HL. split; [done|].
  by rewrite lookup_delete_ne, lookup_insert_eq.
Qed.

(** An unknown address the operating system cannot translate hangs the
    driver: the failure path frees the new node while it still holds the
    spin lock that the free takes (unless there was no memory for the node). *)
Theorem pa_untranslatable_deadlocks a s :
  memlist_lock s = false -> LX_find_memobj a false (memobjs s) = None ->
  (forall w, DevLinToPageList a 4096 w = None) ->
  pa a s = Err Deadlock \/ exists s1, pa a s = Ok (0, s1).
Proof.
  intros Hl Hf Hd.
  destruct (alloc_memobj_spec current_tid current_pid garbage (set_lock true s))
    as (r & s2 & E2 & F2 & _).
  destruct r as [[n o]|]; [left|right; eexists]; unfold LX__pa; mstep; unfold spin_lock;
    rewrite Hl; mstep; change (memobjs (set_lock true s)) with (memobjs s); rewrite Hf;
    mstep; rewrite E2; mstep; [|done].
  unfold first_page, PAGE_SIZE. rewrite Hd. mstep. unfold __LX_free. mstep. unfold spin_lock.
  rewrite (fr_lock _ _ F2). done.
Qed.
End Translation.

(** ** Leaving the initialisation phase *)

Lemma all_blocks_perm l1 l2 : l1 ≡ₚ l2 -> all_blocks l1 ≡ₚ all_blocks l2.
Proof.
  induction 1; cbn [all_blocks]; [done|by apply Permutation_app_head|solve_Permutation|by etrans].
Qed.

(** The addresses of the entries; when no two are equal nothing is hidden. *)
Definition virts (l : list (Z * memobj)) : list Z := (fun x => virtAddr x.2) <$> l.

Lemma front_distinct l : NoDup (virts l) -> front l.
Proof.
  induction l as [|x l IH]; cbn; [done|]. intros [Hx Hl]%NoDup_cons. split; [|auto].
  intros y Hy _ E. apply Hx. apply list_elem_of_fmap. eauto.
Qed.

Lemma virts_perm l1 l2 : l1 ≡ₚ l2 -> virts l1 ≡ₚ virts l2.
Proof. unfold virts. intros Hp. by rewrite Hp. Qed.

Lemma objs_wf_perm l1 l2 m : l1 ≡ₚ l2 -> NoDup (virts l1) -> objs_wf l1 m -> objs_wf l2 m.
Proof.
  intros Hp Hv [H1 H2 _ H4]. pose proof (all_blocks_perm l1 l2 Hp) as Hb. split.
  - by rewrite <- Hb.
  - by rewrite <- Hb.
  - apply front_distinct. by rewrite <- (virts_perm l1 l2 Hp).
  - by rewrite <- Hp.
Qed.

(** An entry moves to a new node. *)
Lemma objs_wf_renode n n' o l m m' :
  objs_wf ((n, o) :: l) m -> new_block n' sizeof_memobj m m' ->
  objs_wf ((n', o) :: l) (delete n m').
Proof.
  intros [H1 H2 H3 H4] [_ _ Hf _ -> _]. cbn in H1. apply NoDup_cons in H1 as [Hn H1].
  cbn [all_blocks blocks_of app] in H2. pose proof H2 as Hall. apply Forall_cons in H2 as [_ H2].
  assert (Hn' : forall b, b ∈ all_blocks ((n, o) :: l) -> b.1 <> n').
  { intros b Hb E. rewrite Forall_forall in Hall. specialize (Hall b Hb). cbn in Hall. congruence. }
  assert (Hne : n <> n') by (apply (Hn' (n, sizeof_memobj)); cbn; set_solver).
  split; [| |exact H3|apply Forall_cons in H4 as [??]; by apply Forall_cons]; cbn.
  - apply NoDup_cons. split; [|done]. intros (b & Hb & Hin)%list_elem_of_fmap.
    apply (Hn' b); [|done]. cbn. by right.
  - apply Forall_cons. split.
    + cbn. rewrite lookup_delete_ne by done. by rewrite lookup_insert_eq.
    + rewrite Forall_forall in *. intros b Hb. rewrite lookup_delete_ne, lookup_insert_ne.
      * auto.
      * intros E. apply (Hn' b); [cbn; by right|done].
      * intros E. apply Hn, list_elem_of_fmap. eauto.
Qed.

Section InitComplete.
Context {W : Type} `{DevVMLaws W}.
Context (current_tid current_pid : Z) (garbage : memobj).
Implicit Types (s : lxm W).

Lemma copy_objs_spec l nl s :
  memobjs s = l -> NoDup (virts (nl ++ l)) -> live_sep (live_of s) ->
  objs_wf (nl ++ l) (live_of s) ->
  copy_objs current_tid current_pid garbage l nl s = Err NullDeref \/
  exists nl' s', copy_objs current_tid current_pid garbage l nl s = Ok (nl', s') /\
    nl'.*2 = reverse l.*2 ++ nl.*2 /\ memobjs s' = [] /\ memlist_lock s' = memlist_lock s /\
    default_malloc_flags s' = default_malloc_flags s /\
    memobj_malloc_flags s' = memobj_malloc_flags s /\
    live_sep (live_of s') /\ objs_wf nl' (live_of s').
Proof.
  revert nl s. induction l as [|[n o] l IH]; intros nl s Ho Hv Hse Hw.
  { right. exists nl, s. rewrite app_nil_r in Hw. split; [done|]. auto 10. }
  cbn [copy_objs].
  destruct (alloc_memobj_spec current_tid current_pid garbage s) as (r & s1 & E1 & F1 & L1).
  mrun E1. destruct r as [[n' o']|]; [|by left]. mstep.
  destruct (VMFree_spec n (set_objs l s1)) as (s2 & E2 & F2 & L2). rewrite E2.
  change (live_of (set_objs l s1)) with (live_of s1) in L2.
  assert (Hp : nl ++ (n, o) :: l ≡ₚ (n, o) :: nl ++ l) by solve_Permutation.
  destruct (IH ((n', o) :: nl) s2) as [E3|(nl' & s3 & E3 & Hnl & Ho3 & Hl3 & Hd3 & Hm3 & Hs3 & Hw3)].
  - by rewrite (fr_objs _ _ F2).
  - rewrite (virts_perm _ _ Hp) in Hv. exact Hv.
  - rewrite L2. apply live_sep_delete. by eapply live_sep_new.
  - rewrite L2. apply (objs_wf_renode _ _ _ _ (live_of s)); [|done].
    by apply (objs_wf_perm (nl ++ (n, o) :: l)).
  - left. by rewrite E3.
  - right. exists nl', s3. rewrite E3. split; [done|].
    rewrite Hl3, Hd3, Hm3, (fr_lock _ _ F2), (fr_flags _ _ F2), (fr_oflags _ _ F2).
    change (rev_append l.*2 [o]) with (reverse (o :: l.*2)).
    rewrite reverse_cons, <- app_assoc. destruct F1. auto 10.
Qed.

(** Leaving the initialisation phase moves every object to a node
    outside high memory and loses none: the list afterwards is the reverse
    of the old one, with the same contents, and it is well formed when no two
    entries share a virtual address; high memory is not asked for again.
    Only a failure to allocate a node stops it, by a null dereference. *)
Theorem init_complete_moves s :
  mem_wf s -> NoDup (virts (memobjs s)) ->
  LX_InitComplete_Memory current_tid current_pid garbage s = Err NullDeref \/
  exists s', LX_InitComplete_Memory current_tid current_pid garbage s = Ok (tt, s') /\
    (memobjs s').*2 = reverse (memobjs s).*2 /\ mem_wf s' /\
    Z.land (default_malloc_flags s') VMDHA_USEHIGHMEM = 0 /\
    Z.land (memobj_malloc_flags s') VMDHA_USEHIGHMEM = 0.
Proof.
  intros [Hl Hse Hw] Hv. unfold LX_InitComplete_Memory. mstep. unfold spin_lock. cbn [memlist_lock].
  rewrite Hl. mstep.
  match goal with |- context [set_lock true ?x] => set (s0 := set_lock true x) end.
  destruct (copy_objs_spec (memobjs s) [] s0 eq_refl Hv Hse Hw)
    as [E|(nl & s1 & E & Hnl & Ho1 & Hl1 & Hd1 & Hm1 & Hs1 & Hw1)].
  { left. change (memobjs s0) with (memobjs s). by rewrite E. }
  right. change (memobjs s0) with (memobjs s). rewrite E. eexists. split; [done|]. cbn.
  rewrite Ho1, app_nil_r. split; [by rewrite Hnl, app_nil_r|]. split.
  - split; [done|exact Hs1|exact Hw1].
  - rewrite Hd1, Hm1. cbn. by rewrite <- !Z.land_assoc, !Z.land_0_r.
Qed.
End InitComplete.

(** ** Statistics *)

(** The sum of a field over the malloc entries that pass a test. *)
Fixpoint sum_malloc (f : memobj -> bool) (l : list (Z * memobj)) : Z :=
  match l with
  | [] => 0
  | x :: l => (if (type x.2 =? LXMT_NORMAL_MALLOC) && f x.2 then realsize x.2 else 0) + sum_malloc f l
  end.

Lemma memstat_fold l a b c d :
  fold_left memstat_add l (mk_memstat (u32 a) (u32 b) (u32 c) (u32 d)) =
  mk_memstat (u32 (a + length l))
    (u32 (b + sizeof_memobj * length l + sum_malloc (fun _ => true) l))
    (u32 (c + sizeof_memobj * length l))
    (u32 (d + sum_malloc (fun o => negb (size o =? realsize o)) l)).
Proof.
  revert a b c d. induction l as [|x l IH]; intros a b c d; cbn [fold_left sum_malloc length].
  { f_equal; f_equal; cbn; lia. }
  assert (Hx : memstat_add (mk_memstat (u32 a) (u32 b) (u32 c) (u32 d)) x =
    mk_memstat (u32 (a + 1))
      (u32 (b + sizeof_memobj + if type x.2 =? LXMT_NORMAL_MALLOC then realsize x.2 else 0))
      (u32 (c + sizeof_memobj))
      (u32 (d + if (type x.2 =? LXMT_NORMAL_MALLOC) && negb (size x.2 =? realsize x.2)
                then realsize x.2 else 0))).
  { unfold memstat_add, sizeof_memobj. cbn. destruct (type x.2 =? _); cbn;
      [destruct (negb _)|]; f_equal; mlia. }
  rewrite Hx, IH. rewrite andb_true_r. unfold sizeof_memobj.
  f_equal; f_equal; destruct (type x.2 =? _); cbn; try destruct (negb _); lia.
Qed.

(** The statistics: one node per object, the real sizes of the malloc
    objects, and as wasted the whole real size of every object that did not
    get exactly what it asked for, all modulo 2^32. *)
Theorem memstat_totals {W} `{DevVM W} (s : lxm W) :
  memlist_lock s = false ->
  LX_get_memstat s = Ok (mk_memstat (u32 (length (memobjs s)))
    (u32 (sizeof_memobj * length (memobjs s) + sum_malloc (fun _ => true) (memobjs s)))
    (u32 (sizeof_memobj * length (memobjs s)))
    (u32 (sum_malloc (fun o => negb (size o =? realsize o)) (memobjs s))), s).
Proof.
  intros Hl. unfold LX_get_memstat. mstep. unfold spin_lock. rewrite Hl. mstep.
  unfold spin_unlock. mstep. rewrite set_lock_twice by done.
  change (mk_memstat 0 0 0 0) with (mk_memstat (u32 0) (u32 0) (u32 0) (u32 0)).
  rewrite memstat_fold. done.
Qed.

(** Waiting for stable statistics reports success whatever the samples
    are: the totals it compares at the end are always the same one. *)
Theorem wait_for_stable_always sample flags :
  LX_wait_for_stable_memstat sample flags = if flags =? LX_WFSM_PRINTDRVSIZES then 0 else 1.
Proof.
  assert (Hloop : forall n i c total last, last = total ->
    (stable_loop sample n i c total last).1 = (stable_loop sample n i c total last).2).
  { induction n as [|n IH]; intros i c total last E; cbn; [done|].
    destruct (5 <? _) eqn:E5; [|by apply IH]. cbn. destruct (sample i =? total) eqn:Et; lia. }
  unfold LX_wait_for_stable_memstat. destruct (flags =? LX_WFSM_PRINTDRVSIZES) eqn:Ef.
  - assert (flags = 32) as -> by (unfold LX_WFSM_PRINTDRVSIZES in Ef; lia). done.
  - rewrite andb_false_r. specialize (Hloop 30%nat 1%nat 0 (sample 0%nat) (sample 0%nat) eq_refl).
    destruct (stable_loop _ _ _ _ _ _) as [t l]. cbn in Hloop. subst. by rewrite Z.eqb_refl.
Qed.

(** ** Concrete runs *)

Definition no_memobj : memobj := mk_memobj 0 0 0 0 0 0 0 0 0.

(** A page-aligned world with [n] blocks left, in the initialisation phase. *)
Definition lxm0 (n : nat) : lxm sim := mk_lxm false [] 2048 2048 10 (mk_sim 4096 n ∅).

Lemma lxm0_wf n : mem_wf (lxm0 n).
Proof.
  split; [done| |split; cbn; constructor].
  intros a k b j Ha. unfold live_of in Ha. cbn in Ha. by rewrite lookup_empty in Ha.
Qed.

(** The state after a run that succeeds. *)
Definition after {A} (m : M (lxm sim) A) (s : lxm sim) : lxm sim :=
  match m s with Ok (_, s') => s' | Err _ => s end.

Abbreviation malloc0 := (__LX_malloc 1 2 no_memobj).
Abbreviation pa0 := (LX__pa 1 2 no_memobj).
Abbreviation va0 := (LX__va 1 2 no_memobj).

(** One object of 100 bytes. *)
Definition lxm1 : lxm sim := after (malloc0 100 2) (lxm0 9).

Lemma lxm1_wf : mem_wf lxm1.
Proof.
  assert (E : malloc0 100 2 (lxm0 9) = Ok (8192, lxm1)) by reflexivity.
  destruct (malloc_spec 1 2 no_memobj 100 2 (lxm0 9) eq_refl) as (p & s' & E' & [[-> _]|(_ & n & o & Hm)]);
    [lia|congruence|]. rewrite E in E'. injection E' as <- <-.
  apply (malloced_wf 100 8192 (lxm0 9) lxm1 n o); [apply lxm0_wf|lia|done].
Qed.

Lemma malloc_refines_witness :
  mem_wf lxm1 /\ exists p s', malloc0 5000 2 lxm1 = Ok (p, s') /\ mem_wf s'.
Proof.
  split; [apply lxm1_wf|].
  destruct (malloc_refines 1 2 no_memobj 5000 2 lxm1 lxm1_wf) as (p & s' & E & Hw & _);
    [lia|]. exists p, s'. split; [exact E|exact Hw].
Defined.

Example malloc_heap : heap (after (malloc0 5000 2) lxm1) = [(16384, 5000); (8192, 100)].
Proof. vm_compute. reflexivity. Qed.

Lemma free_refines_witness :
  exists s', __LX_free 8192 lxm1 = Ok (tt, s') /\ mem_wf s' /\ heap lxm1 = [(8192, 100)].
Proof.
  destruct (free_refines lxm1 [] 4096 (mk_memobj 8192 0 8192 100 100 2 1 1 2) [] lxm1_wf
    ltac:(reflexivity) ltac:(reflexivity)) as (s' & E & Hw & Hh & _).
  exists s'. split; [exact E|]. split; [exact Hw|exact Hh].
Defined.

Lemma malloc_free_roundtrip_witness :
  exists s2, __LX_free 16384 (after (malloc0 5000 2) lxm1) = Ok (tt, s2) /\ memobjs s2 = memobjs lxm1.
Proof.
  destruct (malloc_free_roundtrip 1 2 no_memobj 5000 2 lxm1 16384 (after (malloc0 5000 2) lxm1) lxm1_wf)
    as (s2 & E & Ho & _); [lia|vm_compute; reflexivity|lia|]. exists s2. split; [exact E|exact Ho].
Defined.

Lemma pa_cached_witness : pa0 8192 (after (pa0 8192) lxm1) = Ok (8192, after (pa0 8192) lxm1).
Proof.
  destruct (pa_cached 1 2 no_memobj 8192 lxm1 8192 (after (pa0 8192) lxm1)) as [_ H];
    [reflexivity|vm_compute; reflexivity|lia|].
  rewrite <- (set_world_eta (after (pa0 8192) lxm1)). apply H.
Defined.

Lemma va_pa_roundtrip_witness :
  pa0 16384 (after (va0 753664) lxm1) = Ok (753664, after (va0 753664) lxm1).
Proof.
  apply (va_pa_roundtrip 1 2 no_memobj 753664 lxm1 16384);
    [reflexivity|reflexivity|lia|vm_compute; reflexivity|lia].
Defined.

Lemma va_free_leaks_witness :
  exists s2, __LX_free 16384 (after (va0 753664) lxm1) = Ok (tt, s2) /\
    live_of s2 !! 16384 = Some 4096.
Proof.
  destruct (va_free_leaks 1 2 no_memobj 753664 lxm1 16384 (after (va0 753664) lxm1))
    as (s2 & E & _ & _ & L); [reflexivity|reflexivity|vm_compute; reflexivity|lia|lia|].
  exists s2. split; [exact E|exact L].
Defined.

Lemma pa_untranslatable_deadlocks_witness :
  pa0 4026531840 lxm1 = Err Deadlock \/ exists s1, pa0 4026531840 lxm1 = Ok (0, s1).
Proof.
  apply (pa_untranslatable_deadlocks 1 2 no_memobj 4026531840 lxm1);
    [reflexivity|reflexivity|intros w; reflexivity].
Defined.

Example pa_deadlock : pa0 4026531840 lxm1 = Err Deadlock.
Proof. vm_compute. reflexivity. Qed.

Lemma init_complete_moves_witness :
  LX_InitComplete_Memory 1 2 no_memobj lxm1 = Err NullDeref \/
  exists s', LX_InitComplete_Memory 1 2 no_memobj lxm1 = Ok (tt, s') /\ mem_wf s'.
Proof.
  destruct (init_complete_moves 1 2 no_memobj lxm1 lxm1_wf) as [E|(s' & E & _ & Hw & _)].
  - apply NoDup_singleton.
  - by left.
  - right. exists s'. split; [exact E|exact Hw].
Defined.

Lemma memstat_totals_witness :
  LX_get_memstat lxm1 = Ok (mk_memstat 1 136 36 0, lxm1).
Proof. exact (memstat_totals lxm1 eq_refl). Defined.

(** The size is increased by 4 KB without a check: a request within 4 KB of
    4 GB comes back as a small block. *)
Example malloc_wraps :
  eval (malloc0 4294965248 2) (lxm0 9) = Some 8192 /\
  live_of (after (malloc0 4294965248 2) (lxm0 9)) = {[ 8192 := 2048; 4096 := 36 ]}.
Proof. split; vm_compute; reflexivity. Qed.
