(* ===== verification/Heap.v ===== *)
(** * The heap as the other components see it

    [kmalloc] and [kfree] are an interface: a client is proved against the
    laws of [HeapLaws].  The memory manager implements it ([lxm_Heap]); [arena]
    is a small heap for concrete runs. *)

From S2P Require Import Prelude DevHlp Memory.

Class Heap (H : Type) := {
  kmalloc : Z -> H -> H * Z;
  kfree : Z -> H -> H;
  (** the objects handed out: address and size *)
  used : H -> gmap Z Z;
  heap_ok : H -> Prop
}.

Class HeapLaws (H : Type) `{Heap H} := {
  kmalloc_laws sz h h' p :
    heap_ok h -> 0 < sz < 2147483648 -> kmalloc sz h = (h', p) ->
    heap_ok h' /\
    (p = 0 /\ used h' = used h \/
     0 < p /\ used h !! p = None /\ disjoint_from p sz (used h) /\ used h' = <[p := sz]> (used h));
  kfree_laws p h :
    heap_ok h -> is_Some (used h !! p) ->
    heap_ok (kfree p h) /\ used (kfree p h) = delete p (used h)
}.

(** An allocation that is undone leaves the same objects. *)
Lemma kfree_kmalloc {H} `{HeapLaws H} sz h h' p :
  heap_ok h -> 0 < sz < 2147483648 -> kmalloc sz h = (h', p) -> p <> 0 ->
  heap_ok (kfree p h') /\ used (kfree p h') = used h.
Proof.
  intros Ho Hs E Hp. destruct (kmalloc_laws sz h h' p Ho Hs E) as [Ho' [[? _]|(_ & Hf & _ & Hu)]]; [done|].
  destruct (kfree_laws p h' Ho') as [? ->]; rewrite Hu.
  - rewrite lookup_insert_eq. eauto.
  - by rewrite delete_insert_id.
Qed.

(** A heap that is good for [n] more allocations, whatever is freed meanwhile. *)
Class HeapRoom (H : Type) `{Heap H} := {
  rooms : nat -> H -> Prop;
  rooms_kmalloc n sz h h' p :
    rooms (S n) h -> 0 < sz < 2147483648 -> kmalloc sz h = (h', p) -> p <> 0 /\ rooms n h';
  rooms_kfree n p h : rooms n h -> rooms n (kfree p h);
  rooms_le m n h : (m <= n)%nat -> rooms n h -> rooms m h
}.

(** Objects end below the top of the address space; large ones start on a page. *)
Class HeapPages (H : Type) `{Heap H} := {
  kmalloc_below sz h h' p :
    heap_ok h -> 0 < sz < 2147483648 -> kmalloc sz h = (h', p) -> p + sz <= 4294901760;
  kmalloc_page sz h h' p :
    heap_ok h -> 4096 <= sz < 2147483648 -> kmalloc sz h = (h', p) -> p mod 4096 = 0
}.

(** ** The memory manager is a heap *)

Section Lxm.
Context {W : Type} `{DevVMLaws W}.

#[export] Instance lxm_Heap : Heap (lxm W) := {
  kmalloc := fun sz s =>
    match __LX_malloc 0 0 no_memobj sz (default_malloc_flags s) s with
    | Ok (p, s') => (s', p)
    | Err _ => (s, 0)
    end;
  kfree := fun p s => match __LX_free p s with Ok (_, s') => s' | Err _ => s end;
  used := fun s => list_to_map (heap s);
  heap_ok := fun s => mem_wf s
}.

Lemma heap_fresh (s : lxm W) p sz :
  mem_wf s -> 0 < sz -> (forall q k, (q, k) ∈ heap s -> p + sz <= q \/ q + k <= p) ->
  p ∉ (heap s).*1.
Proof.
  intros [_ _ Hw] Hsz Hf ([q k] & -> & Hin)%list_elem_of_fmap. cbn in *.
  pose proof (Hf q k Hin) as Hq. apply list_elem_of_omap in Hin as (y & Hy & He).
  pose proof (ow_placed _ _ Hw) as Hp. rewrite Forall_forall in Hp. specialize (Hp y Hy).
  unfold heap_entry in He. destruct (type y.2 =? LXMT_NORMAL_MALLOC) eqn:Et; [|done].
  injection He as <- <-. destruct (Hp ltac:(lia)) as [? _]. lia.
Qed.

Lemma heap_distinct l : front l -> NoDup (omap heap_entry l).*1.
Proof.
  induction l as [|x l IH]; cbn; [constructor|]. intros [Hx Hl].
  destruct (heap_entry x) as [[p k]|] eqn:E; [|auto]. cbn. apply NoDup_cons. split; [|auto].
  intros ([q j] & Hq & (y & Hy & He)%list_elem_of_omap)%list_elem_of_fmap. cbn in Hq. subst q.
  unfold heap_entry in E, He.
  destruct (type x.2 =? LXMT_NORMAL_MALLOC) eqn:Ex; [|done]. injection E as <- <-.
  destruct (type y.2 =? LXMT_NORMAL_MALLOC) eqn:Ey; [|done]. injection He as Hv _.
  apply (Hx y Hy); [|done]. unfold owned. by rewrite Ey.
Qed.

#[export] Instance lxm_HeapLaws : HeapLaws (lxm W).
Proof.
  split; cbn.
  - intros sz s s' p Hw Hsz E.
    destruct (malloc_heap_spec 0 0 no_memobj sz (default_malloc_flags s) s Hw ltac:(lia))
      as (q & s1 & E1 & Hw1 & Hr). rewrite E1 in E. injection E as <- <-. split; [done|].
    destruct Hr as [(-> & -> & _)|(? & _ & _ & -> & Hf)]; [by left|right].
    split; [done|]. pose proof (heap_fresh s q sz Hw ltac:(lia) Hf) as Hq. split.
    { by apply not_elem_of_list_to_map_1. }
    split; [|done]. intros a n Ha. apply elem_of_list_to_map_2 in Ha. by apply Hf.
  - intros p s Hw [k Hp]. apply elem_of_list_to_map_2 in Hp. pose proof Hp as Hin.
    unfold heap in Hin. apply list_elem_of_omap in Hin as ([n o] & Hy & He).
    unfold heap_entry in He. cbn in He. destruct (type o =? LXMT_NORMAL_MALLOC) eqn:Et; [|done].
    injection He as <- <-. apply list_elem_of_split in Hy as (l1 & l2 & Ho).
    destruct (free_heap_spec s l1 n o l2 Hw Ho ltac:(lia)) as (s' & -> & Hw' & Hh & Hh' & _).
    split; [done|]. pose proof (heap_distinct _ (ow_front _ _ (wf_objs _ Hw))) as Hnd.
    fold (heap s) in Hnd. rewrite Hh in Hnd |- *. rewrite Hh'. clear Hh Hh'.
    assert (Hp' : omap heap_entry l1 ++ (virtAddr o, size o) :: omap heap_entry l2 ≡ₚ
                  (virtAddr o, size o) :: omap heap_entry l1 ++ omap heap_entry l2)
      by solve_Permutation.
    rewrite (list_to_map_proper _ _ Hnd Hp'). rewrite Hp' in Hnd. cbn in Hnd.
    apply NoDup_cons in Hnd as [Hnd _]. cbn. rewrite delete_insert_id; [done|].
    by apply not_elem_of_list_to_map_1.
Qed.

#[export] Instance lxm_HeapPages : HeapPages (lxm W).
Proof.
  assert (forall sz s s' p, heap_ok s -> 0 < sz < 2147483648 -> kmalloc sz s = (s', p) ->
    p = 0 \/ p + sz <= 4294901760 /\ (4096 <= sz -> p mod 8192 = 0)) as Hm.
  { cbn. intros sz s s' p Hw Hsz E.
    destruct (malloc_heap_spec 0 0 no_memobj sz (default_malloc_flags s) s Hw ltac:(lia))
      as (q & s1 & E1 & _ & Hr). rewrite E1 in E. injection E as <- <-. tauto. }
  split; intros sz s s' p Hw Hsz E; destruct (Hm sz s s' p Hw ltac:(lia) E) as [->|[? Ha]]; lia.
Qed.
End Lxm.

(** ** Calls of the memory manager that always return *)

Section Total.
Context {W : Type} `{DevVMLaws W} (tid pid : Z) (garbage : memobj).

(** The operating system translates [v]. *)
Definition translatable (v : Z) : Prop := forall (w : W) (n : Z),
  exists (p : Z) (l : list Z), DevLinToPageList v n w = Some (p :: l) /\ (length l < 5)%nat.

Lemma pa_total v (m : lxm W) :
  translatable v -> memlist_lock m = false ->
  exists p m', LX__pa tid pid garbage v m = Ok (p, m') /\ memlist_lock m' = false.
Proof.
  intros Ht Hl. unfold LX__pa, spin_lock, spin_unlock, first_page. mstep. rewrite Hl. mstep.
  cbn [memobjs set_lock].
  destruct (LX_find_memobj v false (memobjs m)) as [[n o]|] eqn:Ef; mstep.
  - destruct (physAddr o =? 0); mstep; [|eexists _, _; split; [done|done]].
    assert (virtAddr o = v) as ->.
    { apply find_first_Some in Ef as (l1 & l2 & _ & Hm & _). unfold addr_matches in Hm. cbn in Hm. lia. }
    cbn [world set_lock]. destruct (Ht (world m) (size o)) as (p & l & -> & Hlen).
    destruct (Nat.ltb_spec 5 (length (p :: l))); [cbn in *; lia|]. mstep. eexists _, _. by split.
  - destruct (alloc_memobj_spec tid pid garbage (set_lock true m)) as (r & s2 & E2 & F2 & _).
    rewrite E2. destruct r as [[n o]|]; mstep; [|eexists _, _; by split].
    destruct (Ht (world s2) PAGE_SIZE) as (p & l & -> & Hlen).
    destruct (Nat.ltb_spec 5 (length (p :: l))); [cbn in *; lia|]. mstep. unfold list_add. mstep.
    eexists _, _. by split.
Qed.

Lemma kmalloc_total sz (m : lxm W) :
  0 < sz < 4294963200 -> memlist_lock m = false ->
  exists p m', __LX_malloc_gfp tid pid garbage 0 sz 208 m = Ok (p, m') /\
    memlist_lock m' = false.
Proof.
  intros Hsz Hl. unfold __LX_malloc_gfp. mstep.
  change (negb (Z.land 208 GFP_DMA =? 0)) with false.
  change (negb (Z.land 208 GFP_REPEAT =? 0)) with false.
  change (negb (Z.land 208 GFP_NOFAIL =? 0)) with false. mstep.
  destruct (malloc_spec tid pid garbage sz (Z.lor (default_malloc_flags m) VMDHA_USEHMA) m Hl Hsz) as (p & m' & E & Hm).
  rewrite E. exists p, m'. destruct (p =? 0); (split; [done|]).
  all: destruct Hm as [(_ & F & _)|(_ & n & o & F)]; [by rewrite (fr_lock _ _ F)|by destruct F].
Qed.

Lemma lx_malloc_total sz flags (m : lxm W) :
  0 < sz < 4294963200 -> memlist_lock m = false ->
  exists p m', __LX_malloc tid pid garbage sz flags m = Ok (p, m') /\ memlist_lock m' = false.
Proof.
  intros Hsz Hl. destruct (malloc_spec tid pid garbage sz flags m Hl Hsz) as (p & m' & E & Hm).
  exists p, m'. split; [done|].
  destruct Hm as [(_ & F & _)|(_ & n & o & F)]; [by rewrite (fr_lock _ _ F)|by destruct F].
Qed.

Lemma lx_free_total p (m : lxm W) :
  memlist_lock m = false ->
  exists m', __LX_free p m = Ok (tt, m') /\ memlist_lock m' = false.
Proof.
  intros Hl. unfold __LX_free, spin_lock, spin_unlock, VMFree. mstep. rewrite Hl. mstep.
  destruct (LX_find_memobj _ _ _) as [[n o]|]; [|eexists; by split].
  destruct (_ || _); eexists; by split.
Qed.
End Total.

(** ** A bounded arena *)

(** [brk] is the next address, [room] the number of allocations left. *)
Record arena := mk_arena { brk : Z; room : nat; objs : gmap Z Z }.

#[export] Instance arena_Heap : Heap arena := {
  kmalloc := fun sz h =>
    match room h with
    | O => (h, 0)
    | S n =>
        if bool_decide (0 < brk h /\ objs h !! brk h = None /\ disjoint_from (brk h) sz (objs h))
        then (mk_arena (brk h + sz) n (<[brk h := sz]> (objs h)), brk h)
        else (h, 0)
    end;
  kfree := fun p h => mk_arena (brk h) (room h) (delete p (objs h));
  used := objs;
  heap_ok := fun _ => True
}.

#[export] Instance arena_HeapLaws : HeapLaws arena.
Proof.
  split; cbn; [|done]. intros sz h h' p _ _. destruct (room h).
  - intros [= <- <-]. auto.
  - case_bool_decide as Hb; intros [= <- <-]; [|auto]. cbn. naive_solver.
Qed.

(** Everything lies below the next address. *)
#[export] Program Instance arena_HeapRoom : HeapRoom arena := {
  rooms := fun n h => (n <= room h)%nat /\ 0 < brk h /\
    map_Forall (fun q k => 0 < k /\ q + k <= brk h) (objs h)
}.
Next Obligation.
  cbn. intros n sz h h' p (Hn & Hb & Hq) Hs. destruct (room h) as [|k]; [lia|].
  rewrite bool_decide_true; [|split_and!].
  - intros [= <- <-]. cbn. split; [lia|]. split_and!; [lia|lia|].
    apply map_Forall_insert_2; [lia|]. intros q j Hj. destruct (Hq q j Hj). lia.
  - lia.
  - destruct (objs h !! brk h) as [j|] eqn:E; [|done]. destruct (Hq _ _ E). lia.
  - intros q j Hj. destruct (Hq q j Hj). lia.
Qed.
Next Obligation.
  cbn. intros n p h (Hn & Hb & Hq). split_and!; [done|done|]. by apply map_Forall_delete.
Qed.
Next Obligation. cbn. intros m n h Hm (Hn & Hb & Hq). split_and!; [lia|done|done]. Qed.

Definition arena0 (n : nat) : arena := mk_arena 4096 n ∅.
