(* ===== verification/MemLock.v ===== *)
(** * Locked memory ranges (Dev32/lxmemlock.c)

    [LX_lock_mem] pins a range with one lock of the operating system for every
    60 KB and counts how often a start address was locked. *)

From S2P Require Import Prelude DevHlp Memory Heap.

Definition MAX_LOCK_SIZE : Z := 61440.

(** [DevVMLock flags addr size handle]: the handle is an address of 12 bytes. *)
Class DevLock (L : Type) := {
  DevVMLock : Z -> Z -> Z -> Z -> L -> L * Z;
  DevVMUnLock : Z -> L -> L;
  (** the locks held: handle to start and size *)
  held : L -> gmap Z (Z * Z)
}.

Class DevLockLaws (L : Type) `{DevLock L} := {
  DevVMLock_ok f a sz h w w' :
    DevVMLock f a sz h w = (w', 0) -> held w' = <[h := (a, sz)]> (held w);
  DevVMLock_fail f a sz h w w' rc :
    DevVMLock f a sz h w = (w', rc) -> rc <> 0 -> held w' = held w;
  DevVMUnLock_held h w : held (DevVMUnLock h w) = delete h (held w)
}.

Record lxlockstruct := mk_lockstruct {
  ls_addr : Z; ls_size : Z; ls_flags : Z; use_count : Z; num_locks : Z; ls_lock : Z
}.

Definition sizeof_lxlockstruct : Z := 32.

Record mlock (H L : Type) := mk_mlock {
  lx_lock_lock : bool;
  lxlock_list : list (Z * lxlockstruct);
  lheap : H;
  lworld : L
}.
Arguments mk_mlock {H L}. Arguments lx_lock_lock {H L}. Arguments lxlock_list {H L}.
Arguments lheap {H L}. Arguments lworld {H L}.

Section MemLock.
Context {H L : Type} `{Heap H, DevLock L}.

Definition lk_spin_lock : M (mlock H L) unit := fun s =>
  if lx_lock_lock s then Err Deadlock
  else Ok (tt, mk_mlock true (lxlock_list s) (lheap s) (lworld s)).
Definition lk_spin_unlock : M (mlock H L) unit :=
  modify (fun s => mk_mlock false (lxlock_list s) (lheap s) (lworld s)).
Definition lk_kmalloc (sz : Z) : M (mlock H L) Z := fun s =>
  let '(h, p) := kmalloc sz (lheap s) in
  Ok (p, mk_mlock (lx_lock_lock s) (lxlock_list s) h (lworld s)).
Definition lk_kfree (p : Z) : M (mlock H L) unit :=
  modify (fun s => mk_mlock (lx_lock_lock s) (lxlock_list s) (kfree p (lheap s)) (lworld s)).
Definition lk_set_list (l : list (Z * lxlockstruct)) : M (mlock H L) unit :=
  modify (fun s => mk_mlock (lx_lock_lock s) l (lheap s) (lworld s)).
Definition lk_world {A} (f : L -> res (A * L)) : M (mlock H L) A := fun s =>
  match f (lworld s) with
  | Ok (a, w) => Ok (a, mk_mlock (lx_lock_lock s) (lxlock_list s) (lheap s) w)
  | Err e => Err e
  end.

(** [while(size && !rc)]: the return code and [numLocks].  A null handle
    array is written through. *)
Fixpoint lock_loop (fuel : nat) (flags a size pLock numLocks : Z) : M L (Z * Z) :=
  match fuel with
  | O => throw OutOfFuel
  | S fuel =>
      if size =? 0 then mret (0, numLocks)
      else if pLock =? 0 then throw NullDeref
      else
        let sz := if MAX_LOCK_SIZE <=? size then MAX_LOCK_SIZE else size in
        fun w =>
          match DevVMLock flags a sz pLock w with
          | (w, rc) =>
              if rc =? 0
              then lock_loop fuel flags (u32 (a + sz)) (size - sz) (pLock + 12) (numLocks + 1) w
              else Ok ((rc, numLocks), w)
          end
  end.

(** The range in whole pages: the start and the size. *)
Definition page_range (addr size : Z) : Z * Z :=
  let a := if Z.land addr 4095 =? 0 then addr else Z.land addr (Z.lnot 4095) in
  let size := if Z.land addr 4095 =? 0 then size else u32 (size + (addr - a)) in
  let size := if Z.land size 4095 =? 0 then size else u32 (size + PAGE_SIZE) in
  (a, Z.land size (Z.lnot 4095)).

Definition _LX_lock_mem (addr size flags lock : Z) : M L (Z * Z) :=
  let '(a, size) := page_range addr size in
  lock_loop (Z.to_nat (size / PAGE_SIZE + 1)) flags a size lock 0.

Fixpoint unlock_loop (numLocks : nat) (pLock : Z) (w : L) : L :=
  match numLocks with
  | O => w
  | S n => unlock_loop n (pLock + 12) (DevVMUnLock pLock w)
  end.

Definition _LX_unlock_mem (lock numLocks : Z) : M L unit :=
  modify (unlock_loop (Z.to_nat numLocks) lock).

Definition at_addr (addr : Z) (x : Z * lxlockstruct) : bool := addr =? ls_addr x.2.

Definition LX_get_lockstruct (addr : Z) (l : list (Z * lxlockstruct)) :
    option (Z * lxlockstruct) := find_first (at_addr addr) l.

Definition set_count (f : Z -> Z) (x : Z * lxlockstruct) : Z * lxlockstruct :=
  (x.1, mk_lockstruct (ls_addr x.2) (ls_size x.2) (ls_flags x.2) (f (use_count x.2))
          (num_locks x.2) (ls_lock x.2)).

Definition LX_lock_mem (addr size flags : Z) : M (mlock H L) Z :=
  lk_spin_lock ≫= fun _ =>
  l ← gets lxlock_list;
  match LX_get_lockstruct addr l with
  | Some _ =>
      lk_set_list (update_first (at_addr addr) (set_count (fun c => s32 (c + 1))) l) ≫= fun _ =>
      lk_spin_unlock ≫= fun _ => mret 0
  | None =>
      lk_spin_unlock ≫= fun _ =>
      lock ← lk_kmalloc (u32 ((size / MAX_LOCK_SIZE + 4) * 12));
      p ← lk_kmalloc sizeof_lxlockstruct;
      if (lock =? 0) && (p =? 0) then mret (- ENOMEM)
      else if p =? 0 then throw NullDeref
      else
        lk_spin_lock ≫= fun _ =>
        r ← lk_world (_LX_lock_mem addr size flags lock);
        let o := mk_lockstruct addr size flags 1 r.2 lock in
        if r.1 =? 0 then
          l ← gets lxlock_list;
          lk_set_list ((p, o) :: l) ≫= fun _ =>
          lk_spin_unlock ≫= fun _ => mret 0
        else
          lk_world (_LX_unlock_mem lock r.2) ≫= fun _ =>
          lk_kfree lock ≫= fun _ => lk_kfree p ≫= fun _ =>
          lk_spin_unlock ≫= fun _ => mret (- ENOMEM)
  end.

Definition LX_unlock_mem (addr : Z) : M (mlock H L) Z :=
  lk_spin_lock ≫= fun _ =>
  l ← gets lxlock_list;
  rc ← match LX_get_lockstruct addr l with
       | None => mret (- ENOENT)
       | Some (p, o) =>
           let c := s32 (use_count o - 1) in
           if c =? 0 then
             lk_world (_LX_unlock_mem (ls_lock o) (num_locks o)) ≫= fun _ =>
             lk_set_list (remove_first (at_addr addr) l) ≫= fun _ =>
             lk_kfree (ls_lock o) ≫= fun _ => lk_kfree p ≫= fun _ => mret 0
           else
             lk_set_list (update_first (at_addr addr) (set_count (fun _ => c)) l) ≫= fun _ =>
             mret c
       end;
  lk_spin_unlock ≫= fun _ => mret rc.
End MemLock.

(** ** The ranges that are locked *)

(** Consecutive page-aligned pieces from [a] to [b]. *)
Inductive tiles : Z -> list (Z * Z) -> Z -> Prop :=
  | tiles_nil a : tiles a [] a
  | tiles_cons a sz l b :
      0 < sz <= MAX_LOCK_SIZE -> sz mod 4096 = 0 -> tiles (a + sz) l b ->
      tiles a ((a, sz) :: l) b.

Fixpoint add_locks (h : Z) (l : list (Z * Z)) (m : gmap Z (Z * Z)) : gmap Z (Z * Z) :=
  match l with
  | [] => m
  | x :: l => add_locks (h + 12) l (<[h := x]> m)
  end.

Lemma add_locks_lookup_lt h l m k : k < h -> add_locks h l m !! k = m !! k.
Proof.
  revert h m. induction l as [|x l IH]; intros h m Hk; cbn; [done|].
  rewrite IH by lia. by rewrite lookup_insert_ne by lia.
Qed.

Lemma add_locks_delete h l m k : k < h -> delete k (add_locks h l m) = add_locks h l (delete k m).
Proof.
  revert h m. induction l as [|x l IH]; intros h m Hk; cbn; [done|].
  rewrite IH by lia. by rewrite delete_insert_ne by lia.
Qed.

(** No handle of an array of [n] handles at [h] is in use. *)
Definition free_handles (h n : Z) (m : gmap Z (Z * Z)) : Prop :=
  forall k, h <= k < h + 12 * n -> m !! k = None.

Section MemLockFacts.
Context {H L : Type} `{HeapLaws H, DevLockLaws L}.
Implicit Types (w : L) (s : mlock H L).

Lemma unlock_loop_held l h w m :
  held w = add_locks h l m -> free_handles h (length l) m ->
  held (unlock_loop (length l) h w) = m.
Proof.
  revert h w m. induction l as [|x l IH]; intros h w m Hw Hf; cbn in *; [done|].
  apply (IH (h + 12) _ m).
  - rewrite DevVMUnLock_held, Hw, add_locks_delete, delete_insert_id; [done| |lia].
    apply Hf. lia.
  - intros k Hk. apply Hf. lia.
Qed.

(** The loop locks consecutive pieces from [a] on; it reaches the end exactly
    when it returns 0. *)
Lemma lock_loop_spec (fuel : nat) flags a size h n w :
  0 <= a -> 0 <= size -> size mod 4096 = 0 -> a + size < 4294967296 ->
  size / 4096 < fuel -> 0 < h ->
  exists rc l e w', lock_loop fuel flags a size h n w = Ok ((rc, n + length l), w') /\
    tiles a l e /\ held w' = add_locks h l (held w) /\ (rc = 0 -> e = a + size) /\
    length l <= (size + MAX_LOCK_SIZE - 1) / MAX_LOCK_SIZE.
Proof.
  unfold MAX_LOCK_SIZE. revert a size h n w.
  induction fuel as [|fuel IH]; intros a size h n w Ha Hs Hm He Hf Hh; [lia|].
  cbn [lock_loop]. destruct (size =? 0) eqn:E0.
  { exists 0, [], a, w. cbn [length]. rewrite Z.add_0_r. split; [done|].
    split; [constructor|]. split; [done|]. lia. }
  destruct (h =? 0) eqn:Eh; [lia|]. unfold MAX_LOCK_SIZE.
  set (sz := if 61440 <=? size then 61440 else size).
  assert (Hsz : 0 < sz <= 61440 /\ sz <= size /\ sz mod 4096 = 0 /\
            (sz = size \/ sz = 61440)).
  { unfold sz. destruct (61440 <=? size) eqn:E; lia. }
  destruct (DevVMLock flags a sz h w) as [w1 rc] eqn:El. destruct (rc =? 0) eqn:Erc.
  - assert (rc = 0) as -> by lia. rewrite u32_small by lia.
    destruct (IH (a + sz) (size - sz) (h + 12) (n + 1) w1)
      as (rc & l & e & w2 & E & Ht & Hw & Hrc & Hl); [lia..|].
    exists rc, ((a, sz) :: l), e, w2. rewrite E. cbn [length].
    split; [f_equal; f_equal; f_equal; lia|]. split; [constructor; [unfold MAX_LOCK_SIZE; lia|lia|done]|].
    split; [cbn; by rewrite Hw, (DevVMLock_ok _ _ _ _ _ _ El)|]. split; lia.
  - exists rc, [], a, w1. cbn [length]. rewrite Z.add_0_r. split; [done|].
    split; [constructor|]. split; [eapply DevVMLock_fail; [exact El|lia]|]. split; [lia|].
    apply Z.div_pos; lia.
Qed.

Definition page_down (a : Z) : Z := a - a mod 4096.
Definition page_up (a : Z) : Z := page_down (a + 4095).

Lemma page_range_spec addr size :
  0 <= addr -> 0 < size -> addr + size + 8192 < 4294967296 ->
  page_range addr size = (page_down addr, page_up (addr + size) - page_down addr).
Proof.
  intros Ha Hs He. unfold page_range. cbv zeta. rewrite !land_4095, !land_lnot_4095.
  set (a := if addr mod 4096 =? 0 then addr else addr - addr mod 4096).
  set (s1 := if addr mod 4096 =? 0 then size else u32 (size + (addr - a))).
  assert (Ea : a = page_down addr) by (unfold a, page_down; destruct (addr mod 4096 =? 0) eqn:?; lia).
  assert (E1 : s1 = addr + size - a).
  { unfold s1, a. destruct (addr mod 4096 =? 0) eqn:?; mlia. }
  clearbody s1. subst s1. clearbody a. subst a. f_equal. unfold page_up, page_down, PAGE_SIZE.
  destruct ((addr + size - (addr - addr mod 4096)) mod 4096 =? 0) eqn:?; [lia|].
  rewrite u32_small by lia. lia.
Qed.

Lemma lock_mem_spec addr size flags h w :
  0 <= addr -> 0 < size -> addr + size + 8192 < 4294967296 -> 0 < h ->
  exists rc l e w', _LX_lock_mem addr size flags h w = Ok ((rc, Z.of_nat (length l)), w') /\
    tiles (page_down addr) l e /\ held w' = add_locks h l (held w) /\
    (rc = 0 -> e = page_up (addr + size)) /\ 12 * length l <= u32 ((size / MAX_LOCK_SIZE + 4) * 12).
Proof.
  intros Ha Hs He Hh. unfold _LX_lock_mem. rewrite page_range_spec by done.
  destruct (lock_loop_spec (Z.to_nat ((page_up (addr + size) - page_down addr) / PAGE_SIZE + 1))
    flags (page_down addr) (page_up (addr + size) - page_down addr) h 0 w)
    as (rc & l & e & w' & E & Ht & Hw & Hrc & Hl);
    [unfold page_up, page_down, PAGE_SIZE; lia..|].
  exists rc, l, e, w'. split; [exact E|]. split; [done|]. split; [done|]. split; [lia|].
  unfold MAX_LOCK_SIZE, page_up, page_down in *. rewrite u32_small; lia.
Qed.

Lemma lock_null addr size flags w :
  0 <= addr -> 0 < size -> addr + size + 8192 < 4294967296 ->
  _LX_lock_mem addr size flags 0 w = Err NullDeref.
Proof.
  intros Ha Hs He. unfold _LX_lock_mem. rewrite page_range_spec by done.
  destruct (Z.to_nat _) eqn:E; [unfold page_up, page_down, PAGE_SIZE in E; lia|].
  cbn [lock_loop]. destruct (_ =? 0) eqn:C; [unfold page_up, page_down in C; lia|done].
Qed.
End MemLockFacts.

Section MemLockTheorems.
Context {H L : Type} `{HeapLaws H, DevLockLaws L}.
Implicit Types (s : mlock H L).

Definition held_of s : gmap Z (Z * Z) := held (lworld s).
Definition used_of s : gmap Z Z := used (lheap s).

(** Every handle lies in an object of the heap. *)
Record mlock_ok s : Prop := {
  mo_unlocked : lx_lock_lock s = false;
  mo_heap : heap_ok (lheap s);
  mo_handles k : is_Some (held_of s !! k) ->
    exists b n, used_of s !! b = Some n /\ b <= k < b + n
}.

(** What the first lock of a range does. *)
Record first_locked (addr size : Z) (s s' : mlock H L) (p : Z) (o : lxlockstruct)
    (l : list (Z * Z)) : Prop := {
  fl_unlocked : lx_lock_lock s' = false;
  fl_heap : heap_ok (lheap s');
  fl_list : lxlock_list s' = (p, o) :: lxlock_list s;
  fl_addr : ls_addr o = addr;
  fl_count : use_count o = 1;
  fl_tiles : tiles (page_down addr) l (page_up (addr + size));
  fl_num : num_locks o = length l;
  fl_held : held_of s' = add_locks (ls_lock o) l (held_of s);
  fl_free : free_handles (ls_lock o) (length l) (held_of s);
  fl_used : used_of s' = <[p := sizeof_lxlockstruct]>
              (<[ls_lock o := u32 ((size / MAX_LOCK_SIZE + 4) * 12)]> (used_of s));
  fl_fresh : used_of s !! ls_lock o = None /\ used_of s !! p = None /\ p <> ls_lock o
}.

Lemma lock_mem_new addr size flags s :
  mlock_ok s -> LX_get_lockstruct addr (lxlock_list s) = None ->
  0 <= addr -> 0 < size -> addr + size + 8192 < 4294967296 ->
  LX_lock_mem addr size flags s = Err NullDeref \/
  exists rc s', LX_lock_mem addr size flags s = Ok (rc, s') /\
    (rc = - ENOMEM /\ lxlock_list s' = lxlock_list s /\ held_of s' = held_of s /\
       used_of s' = used_of s \/
     rc = 0 /\ exists p o l, first_locked addr size s s' p o l).
Proof.
  intros [Hl Hh Hin] Hf Ha Hs He. unfold LX_lock_mem. mstep. unfold lk_spin_lock. rewrite Hl.
  mstep. cbn [lxlock_list]. rewrite Hf. unfold lk_spin_unlock, lk_kmalloc. mstep. cbn [lheap].
  set (n := u32 ((size / MAX_LOCK_SIZE + 4) * 12)).
  assert (Hn : 0 < n < 2147483648).
  { unfold n, MAX_LOCK_SIZE. rewrite u32_small; lia. }
  destruct (kmalloc n (lheap s)) as [h1 lk] eqn:E1.
  destruct (kmalloc_laws n (lheap s) h1 lk Hh Hn E1) as [Hh1 K1]. mstep. cbn [lheap lworld lx_lock_lock].
  destruct (kmalloc sizeof_lxlockstruct h1) as [h2 p] eqn:E2.
  destruct (kmalloc_laws sizeof_lxlockstruct h1 h2 p Hh1 ltac:(done) E2) as [Hh2 K2]. mstep.
  destruct (p =? 0) eqn:Ep.
  { rewrite andb_true_r. destruct (lk =? 0) eqn:El; [|by left]. right. eexists _, _.
    split; [done|]. left. split; [done|]. split; [done|]. split; [done|]. cbn. unfold used_of; cbn.
    destruct K1 as [[_ K1]|[? _]]; [|lia]. destruct K2 as [[_ K2]|[? _]]; [congruence|lia]. }
  rewrite andb_false_r. unfold lk_world. mstep. cbn [lheap lworld lx_lock_lock lxlock_list].
  destruct K2 as [[? _]|(Hp & Hpf & _ & Hu2)]; [lia|].
  destruct K1 as [[-> _]|(Hlk & Hlkf & Hld & Hu1)].
  { left. mstep. cbn [lworld]. by rewrite lock_null. }
  mstep. cbn [lheap lworld lx_lock_lock lxlock_list].
  destruct (lock_mem_spec addr size flags lk (lworld s) Ha Hs He Hlk)
    as (rc & l & e & w & E & Ht & Hw & Hrc & Hb). rewrite E. mstep. fold n in Hb.
  assert (Hfree : free_handles lk (length l) (held (lworld s))).
  { intros k Hk. destruct (held (lworld s) !! k) eqn:Ek; [|done]. exfalso.
    destruct (Hin k) as (b & j & Hb1 & Hb2); [unfold held_of; by rewrite Ek|].
    specialize (Hld b j Hb1). cbn in Hld. lia. }
  rewrite Hu1 in Hpf. apply lookup_insert_None in Hpf as [Hpf Hne].
  right. cbn [fst snd]. destruct (rc =? 0) eqn:Erc; mstep; eexists _, _; (split; [done|]).
  - right. split; [done|]. eexists p, _, l. split; cbn; try done.
    + replace (page_up (addr + size)) with e by (apply Hrc; lia). done.
    + unfold used_of; cbn. by rewrite Hu2, Hu1.
  - left. split; [done|]. split; [done|]. unfold held_of, used_of. cbn. split.
    + rewrite Nat2Z.id. by apply (unlock_loop_held l lk w).
    + destruct (kfree_laws lk h2 Hh2) as [Hh3 Hu3].
      { rewrite Hu2, Hu1, lookup_insert_ne, lookup_insert_eq by done. eauto. }
      destruct (kfree_laws p (kfree lk h2) Hh3) as [_ ->].
      { rewrite Hu3, Hu2, lookup_delete_ne, lookup_insert_eq by done. eauto. }
      rewrite Hu3, Hu2, Hu1, (delete_insert_ne _ lk p) by done.
      rewrite (delete_insert_id _ lk) by done. by rewrite delete_insert_id.
Qed.


(** The state after the first lock, with the count of its entry at [c]. *)
Definition counted (c : Z) (p : Z) (o : lxlockstruct) (l : list (Z * lxlockstruct)) s : mlock H L :=
  mk_mlock false (set_count (fun _ => c) (p, o) :: l) (lheap s) (lworld s).

Lemma lock_again c p o l s size flags :
  0 < c < 2147483647 ->
  LX_lock_mem (ls_addr o) size flags (counted c p o l s) = Ok (0, counted (c + 1) p o l s).
Proof.
  intros Hc. unfold LX_lock_mem, counted. mstep. unfold lk_spin_lock. cbn [lx_lock_lock]. mstep.
  cbn [lxlock_list]. unfold LX_get_lockstruct, at_addr. cbn. rewrite Z.eqb_refl. mstep.
  unfold set_count. cbn. by rewrite s32_small by lia.
Qed.

Lemma unlock_again c p o l s :
  0 < c < 2147483647 ->
  LX_unlock_mem (ls_addr o) (counted (c + 1) p o l s) = Ok (c, counted c p o l s).
Proof.
  intros Hc. unfold LX_unlock_mem, counted. mstep. unfold lk_spin_lock. cbn [lx_lock_lock]. mstep.
  cbn [lxlock_list]. unfold LX_get_lockstruct, at_addr. cbn. rewrite Z.eqb_refl. cbn.
  replace (c + 1 - 1) with c by lia. rewrite s32_small by lia.
  destruct (c =? 0) eqn:E; [lia|]. done.
Qed.

Lemma lock_repeat (n : nat) c p o l s size flags :
  0 < c -> c + n < 2147483648 ->
  repeatM n (LX_lock_mem (ls_addr o) size flags ≫= fun _ => mret tt) (counted c p o l s)
  = Ok (tt, counted (c + n) p o l s).
Proof.
  revert c. induction n as [|n IH]; intros c Hc Hn; cbn; [by rewrite Z.add_0_r|].
  rewrite M_bind_unfold, M_bind_unfold, lock_again by lia. mstep. rewrite IH by lia.
  by replace (c + 1 + n) with (c + S n) by lia.
Qed.

Lemma unlock_repeat (n : nat) c p o l s :
  0 < c -> c + n < 2147483648 ->
  repeatM n (LX_unlock_mem (ls_addr o) ≫= fun _ => mret tt) (counted (c + n) p o l s)
  = Ok (tt, counted c p o l s).
Proof.
  revert c. induction n as [|n IH]; intros c Hc Hn; cbn; [by rewrite Z.add_0_r|].
  rewrite M_bind_unfold, M_bind_unfold. replace (c + S n) with (c + n + 1) by lia.
  rewrite unlock_again by lia. mstep. apply IH; lia.
Qed.

(** Locks of one start address nest: [n] further locks and [n] unlocks
    after the first lock change nothing but the count on the way, and the
    last unlock releases every handle, unlinks the entry and frees both
    objects, so that locks, list and heap are those before the first lock. *)
Theorem lock_unlock_nested addr size flags s s1 size' flags' (n : nat) :
  mlock_ok s -> LX_get_lockstruct addr (lxlock_list s) = None ->
  0 <= addr -> 0 < size -> addr + size + 8192 < 4294967296 ->
  LX_lock_mem addr size flags s = Ok (0, s1) -> n < 2147483647 ->
  exists s2 s3,
    repeatM n (LX_lock_mem addr size' flags' ≫= fun _ => mret tt) s1 = Ok (tt, s2) /\
    repeatM n (LX_unlock_mem addr ≫= fun _ => mret tt) s2 = Ok (tt, s1) /\
    LX_unlock_mem addr s1 = Ok (0, s3) /\
    lxlock_list s3 = lxlock_list s /\ held_of s3 = held_of s /\ used_of s3 = used_of s.
Proof.
  intros Hok Hf Ha Hs He E Hn.
  destruct (lock_mem_new addr size flags s Hok Hf Ha Hs He) as [E'|(rc & s' & E' & Hr)]; [congruence|].
  rewrite E in E'. injection E' as <- <-. destruct Hr as [[? _]|(_ & p & o & l & Hfl)]; [done|].
  destruct Hfl as [Hl1 Hh1 Ho1 Had Hc _ Hnum Hheld Hfree Hus (Hf1 & Hf2 & Hne)].
  assert (Hs1 : s1 = counted 1 p o (lxlock_list s) s1).
  { destruct s1 as [lk1 ll1 h1 w1], o. cbn in *. unfold counted, set_count. cbn. congruence. }
  subst addr. exists (counted (1 + n) p o (lxlock_list s) s1).
  pose proof (lock_repeat n 1 p o (lxlock_list s) s1 size' flags' ltac:(lia) ltac:(lia)) as R1.
  pose proof (unlock_repeat n 1 p o (lxlock_list s) s1 ltac:(lia) ltac:(lia)) as R2.
  rewrite <- Hs1 in R1, R2. rewrite R1, R2. clear R1 R2 Hs1. unfold LX_unlock_mem. mstep.
  unfold lk_spin_lock. rewrite Hl1. mstep. cbn [lxlock_list]. rewrite Ho1.
  unfold LX_get_lockstruct, at_addr. cbn. rewrite Z.eqb_refl, Hc. cbn.
  eexists. split; [done|]. split; [done|]. split; [done|]. unfold held_of, used_of. cbn.
  split; [done|]. split.
  - rewrite Hnum, Nat2Z.id. by apply (unlock_loop_held l).
  - unfold used_of in Hus. destruct (kfree_laws (ls_lock o) (lheap s1) Hh1) as [Hh3 Hu3].
    { rewrite Hus, lookup_insert_ne, lookup_insert_eq by done. eauto. }
    destruct (kfree_laws p (kfree (ls_lock o) (lheap s1)) Hh3) as [_ ->].
    { rewrite Hu3, Hus, lookup_delete_ne, lookup_insert_eq by done. eauto. }
    rewrite Hu3, Hus, (delete_insert_ne _ (ls_lock o) p) by done.
    rewrite (delete_insert_id _ (ls_lock o)) by done. by rewrite delete_insert_id.
Qed.
End MemLockTheorems.

(** ** Concrete runs *)

#[export] Instance map_DevLock : DevLock (gmap Z (Z * Z)) := {
  DevVMLock := fun _ a sz h w => (<[h := (a, sz)]> w, 0);
  DevVMUnLock := fun h w => delete h w;
  held := fun w => w
}.

#[export] Instance map_DevLockLaws : DevLockLaws (gmap Z (Z * Z)).
Proof. split; cbn; [by intros ? ? ? ? ? ? [= <-]|by intros ? ? ? ? ? ? ? [= <- <-]|done]. Qed.

Definition mlock0 : mlock arena (gmap Z (Z * Z)) := mk_mlock false [] (arena0 9) ∅.

Lemma mlock0_ok : mlock_ok mlock0.
Proof.
  split; [done|done|]. intros k [x Hx]. unfold held_of in Hx. cbn in Hx. by rewrite lookup_empty in Hx.
Qed.

Definition lock_run : res (Z * mlock arena (gmap Z (Z * Z))) := LX_lock_mem 5000 70000 0 mlock0.

Example lock_pieces :
  (fun r => held_of (snd r)) <$> (match lock_run with Ok r => Some r | Err _ => None end) =
  Some {[ 4096 := (4096, 61440); 4108 := (65536, 12288) ]}.
Proof. vm_compute. reflexivity. Qed.


Definition mlock1 : mlock arena (gmap Z (Z * Z)) :=
  match lock_run with Ok (_, s) => s | Err _ => mlock0 end.

Lemma lock_unlock_nested_witness :
  exists s3, LX_unlock_mem 5000 mlock1 = Ok (0, s3) /\ lxlock_list s3 = [].
Proof.
  destruct (lock_unlock_nested 5000 70000 0 mlock0 mlock1 1 0 3 mlock0_ok eq_refl)
    as (s2 & s3 & _ & _ & E & Hl & _); [lia|lia|lia|vm_compute; reflexivity|lia|].
  exists s3. split; [exact E|exact Hl].
Defined.
