(* ===== verification/Irq.v ===== *)
(** * Hardware interrupts (Dev32/lxdispatch.c)

    One use count and one "handled" mark for each of the sixteen interrupt
    lines.  Line 0 is the timer. *)

From S2P Require Import Prelude.

Record lx_irq_state := mk_irq_state { use_count : Z; handled : Z }.

(** The driver's table and what the operating system has registered: the lines
    with a handler, whether the timer runs, and the ends of interrupt sent. *)
Record irqs := mk_irqs {
  irq_states : list lx_irq_state;
  installed : gset Z;
  timer_set : bool;
  eois : list Z
}.

Section Irq.
(** Return codes of [DevIRQSet irq flags] and [DevSetTimer]. *)
Context (DevIRQSet_rc : Z -> Z -> Z) (DevSetTimer_rc : Z).

Definition irq_state (irq : Z) (s : irqs) : lx_irq_state :=
  default (mk_irq_state 0 0) (irq_states s !! Z.to_nat irq).
Definition set_state (irq : Z) (x : lx_irq_state) (s : irqs) : irqs :=
  mk_irqs (<[Z.to_nat irq := x]> (irq_states s)) (installed s) (timer_set s) (eois s).
Definition set_use_count (irq c : Z) (s : irqs) : irqs :=
  set_state irq (mk_irq_state c (handled (irq_state irq s))) s.

Definition LX_EoiIrq (irq : Z) : M irqs unit :=
  modify (fun s => mk_irqs (irq_states s) (installed s) (timer_set s) (eois s ++ [irq])).

Definition LX_timer_started (s : irqs) : Z := use_count (irq_state 0 s).

Definition LX_set_irq_handled (irq : Z) : M irqs unit :=
  if (0 <=? irq) && (irq <=? 15) then
    modify (fun s => set_state irq (mk_irq_state (use_count (irq_state irq s)) 1) s) ≫= fun _ =>
    if irq =? 0 then mret tt else LX_EoiIrq irq
  else mret tt.

Definition LX_irq_handled (irq : Z) (s : irqs) : Z :=
  if (0 <? irq) && (irq <=? 15) then handled (irq_state irq s) else 0.

(** [DevSetTimer] and [DevIRQSet] register on success. *)
Definition register (irq flags : Z) : M irqs Z := fun s =>
  if irq =? 0 then
    Ok (DevSetTimer_rc,
        if DevSetTimer_rc =? 0 then mk_irqs (irq_states s) (installed s) true (eois s) else s)
  else
    Ok (DevIRQSet_rc irq flags,
        if DevIRQSet_rc irq flags =? 0
        then mk_irqs (irq_states s) ({[irq]} ∪ installed s) (timer_set s) (eois s) else s).

Definition LX_RequestIrq (irq flags : Z) : M irqs Z :=
  if (0 <=? irq) && (irq <=? 15) then
    c ← gets (fun s => use_count (irq_state irq s));
    rc ← (if c =? 0 then register irq flags else mret 0);
    (if rc =? 0
     then modify (fun s => set_use_count irq (s32 (use_count (irq_state irq s) + 1)) s)
     else mret tt) ≫= fun _ =>
    mret rc
  else mret (-1).

Definition LX_FreeIrq (irq : Z) : M irqs unit :=
  if (0 <? irq) && (irq <=? 15) then
    modify (fun s => set_use_count irq (s32 (use_count (irq_state irq s) - 1)) s) ≫= fun _ =>
    c ← gets (fun s => use_count (irq_state irq s));
    if c =? 0
    then modify (fun s => mk_irqs (irq_states s) (installed s ∖ {[irq]}) (timer_set s) (eois s))
    else mret tt
  else if irq =? 0 then modify (set_use_count 0 1)
  else mret tt.
End Irq.

Definition irqs0 : irqs := mk_irqs (replicate 16 (mk_irq_state 0 0)) ∅ false [].

(** A handler is registered exactly for the lines in use. *)
Record irqs_ok (s : irqs) : Prop := {
  io_len : length (irq_states s) = 16%nat;
  io_count irq : 0 <= irq <= 15 -> 0 <= use_count (irq_state irq s) < 2147483647;
  io_installed irq : 0 < irq <= 15 -> (irq ∈ installed s <-> 0 < use_count (irq_state irq s));
  io_timer : timer_set s = false -> use_count (irq_state 0 s) = 0
}.

Lemma irqs0_ok : irqs_ok irqs0.
Proof.
  assert (H : forall irq, use_count (irq_state irq irqs0) = 0).
  { intros irq. unfold irq_state. cbn [irqs0 irq_states].
    destruct (replicate 16 (mk_irq_state 0 0) !! Z.to_nat irq) eqn:E; [|done].
    apply lookup_replicate in E as [-> _]. done. }
  split; [done| | |auto]; intros irq; rewrite H; [lia|]. cbn. split; [set_solver|lia].
Qed.

Lemma irq_state_set irq irq' x s :
  length (irq_states s) = 16%nat -> 0 <= irq <= 15 -> 0 <= irq' <= 15 ->
  irq_state irq' (set_state irq x s) = if irq' =? irq then x else irq_state irq' s.
Proof.
  intros Hl Hi Hi'. unfold irq_state, set_state. cbn. destruct (irq' =? irq) eqn:E.
  - replace irq' with irq by lia. rewrite list_lookup_insert_eq by lia. done.
  - rewrite list_lookup_insert_ne by lia. done.
Qed.

Lemma irq_state_count irq irq' c s :
  length (irq_states s) = 16%nat -> 0 <= irq <= 15 -> 0 <= irq' <= 15 ->
  irq_state irq' (set_use_count irq c s) =
  if irq' =? irq then mk_irq_state c (handled (irq_state irq s)) else irq_state irq' s.
Proof. intros Hl Hi Hi'. unfold set_use_count. by rewrite irq_state_set. Qed.

Section IrqTheorems.
Context (DevIRQSet_rc : Z -> Z -> Z) (DevSetTimer_rc : Z).
Abbreviation request := (LX_RequestIrq DevIRQSet_rc DevSetTimer_rc).

(** A request registers the handler exactly when it is the first for its
    line, counts the use when that succeeds and changes nothing otherwise;
    a matched free takes the use back and unregisters the handler with the
    last one.  Handlers stay registered exactly for the lines in use, and
    the other lines are untouched. *)
Theorem irq_use_counted irq flags s :
  irqs_ok s -> 0 < irq <= 15 -> use_count (irq_state irq s) < 2147483646 ->
  (exists rc s', request irq flags s = Ok (rc, s') /\ irqs_ok s' /\
     (forall j, 0 <= j <= 15 -> irq_state j s' =
        if (j =? irq) && (rc =? 0)
        then mk_irq_state (use_count (irq_state irq s) + 1) (handled (irq_state irq s))
        else irq_state j s) /\
     rc = (if use_count (irq_state irq s) =? 0 then DevIRQSet_rc irq flags else 0)) /\
  (0 < use_count (irq_state irq s) ->
   exists s', LX_FreeIrq irq s = Ok (tt, s') /\ irqs_ok s' /\
     forall j, 0 <= j <= 15 -> irq_state j s' =
       if j =? irq
       then mk_irq_state (use_count (irq_state irq s) - 1) (handled (irq_state irq s))
       else irq_state j s).
Proof.
  intros [Hl Hc Hi Ht] Hr Hm. pose proof (Hc irq ltac:(lia)) as Hc1.
  assert (Hset : forall c l, 0 <= c < 2147483647 -> (irq ∈ l <-> 0 < c) ->
    (forall j, j <> irq -> (j ∈ l <-> j ∈ installed s)) ->
    irqs_ok (set_use_count irq c (mk_irqs (irq_states s) l (timer_set s) (eois s)))).
  { intros c l Hcr Hl1 Hl2. split.
    - cbn. by rewrite length_insert.
    - intros j Hj. rewrite irq_state_count by (cbn; lia).
      destruct (j =? irq) eqn:E; [done|]. exact (Hc j Hj).
    - intros j Hj. rewrite irq_state_count by (cbn; lia).
      destruct (j =? irq) eqn:E; cbn; [by replace j with irq by lia|].
      rewrite Hl2 by lia. exact (Hi j Hj).
    - cbn. intros T. rewrite irq_state_count by (cbn; lia).
      destruct (0 =? irq) eqn:E; [lia|]. exact (Ht T). }
  split.
  - unfold LX_RequestIrq. destruct ((0 <=? irq) && (irq <=? 15)) eqn:Er; [|lia]. mstep.
    destruct (use_count (irq_state irq s) =? 0) eqn:E0.
    + unfold register. destruct (irq =? 0) eqn:Ei; [lia|]. cbn beta iota.
      destruct (DevIRQSet_rc irq flags =? 0) eqn:Erc; mstep; eexists _, _; (split; [done|]).
      * cbn [irq_states]. rewrite s32_small by (unfold irq_state in *; cbn in *; lia). split.
        { apply (Hset _ ({[irq]} ∪ installed s)); [unfold irq_state in *; cbn; lia| |set_solver].
          unfold irq_state in *; cbn. split; [lia|set_solver]. }
        split; [|done]. intros j Hj. rewrite irq_state_count by (cbn; lia).
        rewrite Erc, andb_true_r. done.
      * split; [done|]. split; [|done]. intros j _. by rewrite Erc, andb_false_r.
    + mstep. change (0 =? 0) with true. mstep. rewrite s32_small by lia. eexists _, _. split; [done|]. split.
      { pose proof (Hset (use_count (irq_state irq s) + 1) (installed s) ltac:(lia)) as Hs.
        destruct s as [a b c d]. apply Hs; [|done]. rewrite (Hi irq) by lia. cbn in *. lia. }
      split; [|done]. intros j Hj. rewrite irq_state_count by (cbn; lia).
      by rewrite andb_true_r.
  - intros Hpos. unfold LX_FreeIrq. destruct ((0 <? irq) && (irq <=? 15)) eqn:Er; [|lia]. mstep.
    rewrite s32_small by lia. rewrite irq_state_count by lia.
    rewrite Z.eqb_refl. cbn [use_count].
    destruct (use_count (irq_state irq s) - 1 =? 0) eqn:E0; mstep; eexists; (split; [done|]); split.
    + pose proof (Hset (use_count (irq_state irq s) - 1) (installed s ∖ {[irq]}) ltac:(lia)) as Hs.
      destruct s as [a b c d]. apply Hs; [|set_solver]. split; [set_solver|lia].
    + intros j Hj.
      transitivity (irq_state j (set_use_count irq (use_count (irq_state irq s) - 1) s)); [done|].
      by rewrite irq_state_count by lia.
    + pose proof (Hset (use_count (irq_state irq s) - 1) (installed s) ltac:(lia)) as Hs.
      destruct s as [a b c d]. apply Hs; [|done]. rewrite (Hi irq) by lia. cbn in *. lia.
    + intros j Hj. by rewrite irq_state_count by lia.
Qed.
End IrqTheorems.

Lemma irq_use_counted_witness :
  exists rc s', LX_RequestIrq (fun _ _ => 0) 0 5 1 irqs0 = Ok (rc, s') /\ irqs_ok s'.
Proof.
  destruct (irq_use_counted (fun _ _ => 0) 0 5 1 irqs0 irqs0_ok) as [(rc & s' & E & Ho & _) _];
    [lia|vm_compute; reflexivity|]. exists rc, s'. split; [exact E|exact Ho].
Defined.

(** An unmatched free makes the count negative: the next request succeeds
    without registering a handler. *)
Example free_unused_irq :
  (installed <$> exec (LX_FreeIrq 5 ≫= fun _ => LX_RequestIrq (fun _ _ => 0) 0 5 1) irqs0) = Some ∅ /\
  eval (LX_FreeIrq 5 ≫= fun _ => LX_RequestIrq (fun _ _ => 0) 0 5 1) irqs0 = Some 0.
Proof. split; vm_compute; reflexivity. Qed.
