(* ===== verification/DevTable.v ===== *)
(** * Strategy requests and open files (Dev32/lxstrategy.c)

    The driver keeps a list of the open files of its device and dispatches the
    kernel's request packets over a table of 32 commands.  Calls into other
    parts of the system are recorded in the order they are made. *)

From S2P Require Import Prelude CString Memory Heap.

Record lxapi_device := mk_device { dev_name : Z; fileId : Z }.

Definition sizeof_LXAPI_DEVICE : Z := 12.

Inductive call :=
  | v4lx_close_file_related_devices (fileId : Z)
  | daemon_closed
  | InitComplete_Memory
  | InitComplete_Daemon
  | sync_filesystems
  | wake_up_shutdown_wq
  | DisableIrqs
  | enter_current
  | leave_current
  | StratInit
  | StratIOCtl.

Record driver (H : Type) := mk_driver {
  devices : list (Z * lxapi_device);   (* lxapi_root_device, by node *)
  numOS2Opens : Z;
  current_fileId : Z;
  current_devName : Z;
  current_autofree_flags : Z;
  shutdown_level : Z;
  exit_kernel : Z;
  dheap : H;
  calls : list call
}.
Arguments mk_driver {H}. Arguments devices {H}. Arguments numOS2Opens {H}.
Arguments current_fileId {H}. Arguments current_devName {H}. Arguments current_autofree_flags {H}.
Arguments shutdown_level {H}. Arguments exit_kernel {H}. Arguments dheap {H}. Arguments calls {H}.

Definition RPDONE : Z := 256.
Definition RPERR : Z := 32768.
Definition RPERR_COMMAND : Z := 32771.
Definition LXAUTOFREE_ON_THIS_CLOSE_DEVICE : Z := 1.
Definition LXSYSSTATE_SYSTEM_RUNNING : Z := 4096.

(** The fields of a request packet that are read; [Command] is an unsigned byte. *)
Record LX_RP := mk_rp { Command : Z; FileID : Z; Function : Z }.

Definition has_id (id : Z) (x : Z * lxapi_device) : bool := fileId x.2 =? id.

Section Lookup.
(** The names are strings in memory; [fuel] bounds their length. *)
Context (m : mem) (fuel : nat).

Definition LX_get_lxapidevice_from_fileId (id : Z) (l : list (Z * lxapi_device)) :
    option (Z * lxapi_device) := find_first (has_id id) l.

(** The first other device with the same name; the outer [None] is an
    access outside memory. *)
Fixpoint find_other (p name : Z) (l : list (Z * lxapi_device)) :
    option (option (Z * lxapi_device)) :=
  match l with
  | [] => Some None
  | x :: l =>
      if x.1 =? p then find_other p name l
      else
        c ← strcmp fuel m (dev_name x.2) name;
        if c =? 0 then Some (Some x) else find_other p name l
  end.

Definition LX_get_other_lxapidevice_from_fileId (id : Z) (l : list (Z * lxapi_device)) :
    option (option (Z * lxapi_device)) :=
  match LX_get_lxapidevice_from_fileId id l with
  | Some x => find_other x.1 (dev_name x.2) l
  | None => Some None
  end.
End Lookup.

Section DevTable.
Context {H : Type} `{Heap H}.
(** The device's name, the daemon's process and the caller's, the start-up
    state, and the results of the handlers modelled elsewhere. *)
Context (devFileName lx_daemon_pid lx_current_pid lx_sysstate : Z) (lx_startup_ok : bool).
Context (init_rc ioctl_rc : LX_RP -> Z).

Definition record_call (c : call) : M (driver H) unit :=
  modify (fun s => mk_driver (devices s) (numOS2Opens s) (current_fileId s) (current_devName s)
    (current_autofree_flags s) (shutdown_level s) (exit_kernel s) (dheap s) (calls s ++ [c])).
Definition set_current (id name : Z) : M (driver H) unit :=
  modify (fun s => mk_driver (devices s) (numOS2Opens s) id name
    LXAUTOFREE_ON_THIS_CLOSE_DEVICE (shutdown_level s) (exit_kernel s) (dheap s) (calls s)).
Definition set_current_fileId (id : Z) : M (driver H) unit :=
  modify (fun s => mk_driver (devices s) (numOS2Opens s) id (current_devName s)
    (current_autofree_flags s) (shutdown_level s) (exit_kernel s) (dheap s) (calls s)).
Definition set_devices (l : list (Z * lxapi_device)) (h : H) : M (driver H) unit :=
  modify (fun s => mk_driver l (numOS2Opens s) (current_fileId s) (current_devName s)
    (current_autofree_flags s) (shutdown_level s) (exit_kernel s) h (calls s)).
Definition add_opens (d : Z) : M (driver H) unit :=
  modify (fun s => mk_driver (devices s) (u32 (numOS2Opens s + d)) (current_fileId s)
    (current_devName s) (current_autofree_flags s) (shutdown_level s) (exit_kernel s)
    (dheap s) (calls s)).
Definition set_shutdown (level : Z) : M (driver H) unit :=
  modify (fun s => mk_driver (devices s) (numOS2Opens s) (current_fileId s) (current_devName s)
    (current_autofree_flags s) level (exit_kernel s) (dheap s) (calls s)).
Definition set_exit_kernel : M (driver H) unit :=
  modify (fun s => mk_driver (devices s) (numOS2Opens s) (current_fileId s) (current_devName s)
    (current_autofree_flags s) (shutdown_level s) 1 (dheap s) (calls s)).

Definition LX_set_current_dev_fileId (id : Z) : M (driver H) unit :=
  l ← gets devices;
  match (if id =? 0 then None else LX_get_lxapidevice_from_fileId id l) with
  | Some p => set_current id (dev_name p.2)
  | None => set_current id 0
  end.

(** The allocation is not checked. *)
Definition LX_open_device_called (id devName : Z) : M (driver H) Z :=
  s ← get;
  let '(h, p) := kmalloc sizeof_LXAPI_DEVICE (dheap s) in
  if p =? 0 then throw NullDeref
  else
    set_devices ((p, mk_device devName id) :: devices s) h ≫= fun _ =>
    set_current_fileId 0 ≫= fun _ => mret 0.

Definition LX_close_device_called (id : Z) : M (driver H) Z :=
  LX_set_current_dev_fileId id ≫= fun _ =>
  record_call (v4lx_close_file_related_devices id) ≫= fun _ =>
  s ← get;
  match find_first (has_id id) (devices s) with
  | Some (p, _) => set_devices (remove_first (has_id id) (devices s)) (kfree p (dheap s))
  | None => mret tt
  end ≫= fun _ =>
  set_current_fileId 0 ≫= fun _ => mret 0.

Definition LX_StratOpen (rp : LX_RP) : M (driver H) Z :=
  LX_open_device_called (FileID rp) devFileName ≫= fun _ =>
  add_opens 1 ≫= fun _ => mret RPDONE.

Definition LX_StratClose (rp : LX_RP) : M (driver H) Z :=
  add_opens (-1) ≫= fun _ =>
  (if lx_daemon_pid =? lx_current_pid then record_call daemon_closed else mret tt) ≫= fun _ =>
  LX_close_device_called (FileID rp) ≫= fun _ => mret RPDONE.

Definition LX_StratWrite (rp : LX_RP) : M (driver H) Z := mret (Z.lor RPDONE RPERR).

Definition LX_StratInitComplete (rp : LX_RP) : M (driver H) Z :=
  (if lx_startup_ok && negb (Z.land lx_sysstate LXSYSSTATE_SYSTEM_RUNNING =? 0) then
     record_call InitComplete_Memory ≫= fun _ => record_call InitComplete_Daemon
   else mret tt) ≫= fun _ => mret RPDONE.

Definition LX_StratError (rp : LX_RP) : M (driver H) Z := mret (Z.lor RPERR_COMMAND RPDONE).

Definition LX_StratDeinstall (rp : LX_RP) : M (driver H) Z :=
  set_exit_kernel ≫= fun _ => mret RPDONE.

Definition LX_StratShutdown (rp : LX_RP) : M (driver H) Z :=
  (if Function rp =? 0 then
     set_shutdown 1 ≫= fun _ =>
     record_call sync_filesystems ≫= fun _ =>
     set_exit_kernel ≫= fun _ =>
     if lx_startup_ok then record_call wake_up_shutdown_wq else mret tt
   else
     set_shutdown 2 ≫= fun _ =>
     if lx_startup_ok
     then record_call wake_up_shutdown_wq ≫= fun _ => record_call DisableIrqs
     else mret tt) ≫= fun _ => mret RPDONE.

Definition LX_StratInit (rp : LX_RP) : M (driver H) Z :=
  record_call StratInit ≫= fun _ => mret (init_rc rp).
Definition LX_StratIOCtl (rp : LX_RP) : M (driver H) Z :=
  record_call StratIOCtl ≫= fun _ => mret (ioctl_rc rp).

Definition lx_StratDispatch : list (LX_RP -> M (driver H) Z) :=
  [ LX_StratInit; LX_StratError; LX_StratError; LX_StratError;
    LX_StratError; LX_StratError; LX_StratError; LX_StratError;
    LX_StratWrite; LX_StratError; LX_StratError; LX_StratError;
    LX_StratError; LX_StratOpen; LX_StratClose; LX_StratError;
    LX_StratIOCtl; LX_StratError; LX_StratError; LX_StratError;
    LX_StratDeinstall; LX_StratError; LX_StratError; LX_StratError;
    LX_StratError; LX_StratError; LX_StratError; LX_StratError;
    LX_StratShutdown; LX_StratError; LX_StratError; LX_StratInitComplete ].

Definition LX_Strategy (rp : LX_RP) : M (driver H) Z :=
  match lx_StratDispatch !! Z.to_nat (Command rp) with
  | Some f =>
      record_call enter_current ≫= fun _ =>
      rc ← f rp;
      record_call leave_current ≫= fun _ => mret rc
  | None => mret (Z.lor RPERR_COMMAND RPDONE)
  end.
End DevTable.

(** ** Open files *)

Section DevTableTheorems.
Context {H : Type} `{HeapLaws H}.
Context (devFileName lx_daemon_pid lx_current_pid lx_sysstate : Z) (lx_startup_ok : bool).
Context (init_rc ioctl_rc : LX_RP -> Z).
Abbreviation strategy := (LX_Strategy devFileName lx_daemon_pid lx_current_pid lx_sysstate
  lx_startup_ok init_rc ioctl_rc).
Implicit Types (s : driver H).

(** The ids of the open files, the latest first. *)
Definition open_ids s : list Z := (fun x => fileId x.2) <$> devices s.

Record driver_ok s : Prop := {
  do_heap : heap_ok (dheap s);
  do_nodes : NoDup (devices s).*1;
  do_live : Forall (fun x => used (dheap s) !! x.1 = Some sizeof_LXAPI_DEVICE) (devices s);
  do_opens : numOS2Opens s = u32 (length (devices s))
}.

Lemma remove_first_ids id (l : list (Z * lxapi_device)) :
  (fun x => fileId x.2) <$> remove_first (has_id id) l =
  remove_first (fun i => i =? id) ((fun x => fileId x.2) <$> l).
Proof.
  induction l as [|x l IH]; cbn; [done|]. unfold has_id at 1.
  destruct (fileId x.2 =? id); cbn; [done|]. by rewrite <- IH.
Qed.

Lemma find_id_Some id (l : list (Z * lxapi_device)) :
  id ∈ (fun x => fileId x.2) <$> l -> exists x, find_first (has_id id) l = Some x.
Proof.
  intros (x & Hx & Hin)%list_elem_of_fmap.
  destruct (find_first (has_id id) l) as [y|] eqn:E; [eauto|].
  rewrite find_first_None, Forall_forall in E. specialize (E x Hin). unfold has_id in E. lia.
Qed.

Lemma strategy_run f rp s :
  lx_StratDispatch devFileName lx_daemon_pid lx_current_pid lx_sysstate lx_startup_ok
    init_rc ioctl_rc !! Z.to_nat (Command rp) = Some f ->
  strategy rp s = (record_call enter_current ≫= fun _ =>
      rc ← f rp; record_call leave_current ≫= fun _ => mret rc) s.
Proof. intros E. unfold LX_Strategy. by rewrite E. Qed.

Lemma close_called_spec id p d s :
  find_first (has_id id) (devices s) = Some (p, d) ->
  exists name, LX_close_device_called id s = Ok (0,
    mk_driver (remove_first (has_id id) (devices s)) (numOS2Opens s) 0 name
      LXAUTOFREE_ON_THIS_CLOSE_DEVICE (shutdown_level s) (exit_kernel s) (kfree p (dheap s))
      (calls s ++ [v4lx_close_file_related_devices id])).
Proof.
  intros Hf. unfold LX_close_device_called, LX_set_current_dev_fileId. mstep.
  unfold LX_get_lxapidevice_from_fileId. rewrite Hf.
  destruct (id =? 0); eexists; unfold set_current, record_call, set_devices, set_current_fileId;
    mstep; cbn [devices dheap]; rewrite Hf; mstep; done.
Qed.

Lemma remove_device id s p d :
  driver_ok s -> find_first (has_id id) (devices s) = Some (p, d) ->
  heap_ok (kfree p (dheap s)) /\ NoDup (remove_first (has_id id) (devices s)).*1 /\
  Forall (fun x => used (kfree p (dheap s)) !! x.1 = Some sizeof_LXAPI_DEVICE)
    (remove_first (has_id id) (devices s)) /\
  Z.of_nat (length (remove_first (has_id id) (devices s))) = length (devices s) - 1.
Proof.
  intros [Hh Hn Hl _] Hf. pose proof (remove_first_perm _ _ _ Hf) as Hp.
  rewrite Hp in Hn, Hl. cbn in Hn. apply NoDup_cons in Hn as [Hn Hnd].
  apply Forall_cons in Hl as [Hx Hl]. cbn in Hx.
  destruct (kfree_laws p (dheap s) Hh ltac:(eauto)) as [? Hu]. split; [done|]. split; [done|].
  split; [|apply Permutation_length in Hp; cbn in Hp; lia].
  rewrite Forall_forall in *. intros y Hy. rewrite Hu, lookup_delete_ne; [auto|].
  intros ->. apply Hn, list_elem_of_fmap. eauto.
Qed.

(** An open request adds its file id in front of the open files (or
    dereferences null when the heap is exhausted); a close request for an
    open id removes the latest file with that id and frees its node.  The
    number of opens stays the length of the list, and the daemon's close
    handler runs exactly when the daemon's process closes. *)
Theorem open_close_files id fn s :
  driver_ok s ->
  (strategy (mk_rp 13 id fn) s = Err NullDeref \/
   exists s', strategy (mk_rp 13 id fn) s = Ok (RPDONE, s') /\ driver_ok s' /\
     open_ids s' = id :: open_ids s /\ current_fileId s' = 0 /\
     calls s' = calls s ++ [enter_current; leave_current]) /\
  (id ∈ open_ids s ->
   exists s', strategy (mk_rp 14 id fn) s = Ok (RPDONE, s') /\ driver_ok s' /\
     open_ids s' = remove_first (fun i => i =? id) (open_ids s) /\ current_fileId s' = 0 /\
     calls s' = calls s ++ [enter_current] ++
       (if lx_daemon_pid =? lx_current_pid then [daemon_closed] else []) ++
       [v4lx_close_file_related_devices id; leave_current]).
Proof.
  intros Hok. pose proof Hok as [Hh Hn Hl Ho]. split.
  - rewrite (strategy_run (LX_StratOpen devFileName)) by done.
    unfold LX_StratOpen, LX_open_device_called, record_call, set_devices, set_current_fileId,
      add_opens. mstep. cbn [dheap FileID].
    destruct (kmalloc sizeof_LXAPI_DEVICE (dheap s)) as [h p] eqn:E.
    destruct (kmalloc_laws sizeof_LXAPI_DEVICE (dheap s) h p Hh ltac:(done) E) as [Hh' Hp].
    destruct (p =? 0) eqn:Ep; [by left|]. destruct Hp as [[? _]|(_ & Hf & _ & Hu)]; [lia|].
    mstep. right. eexists. split; [done|]. split; [|split; [done|split; [done|]]].
    + split; cbn; [done| | |rewrite Ho; cbn [length]; mlia].
      * apply NoDup_cons. split; [|done]. intros (x & -> & Hx)%list_elem_of_fmap.
        rewrite Forall_forall in Hl. specialize (Hl x Hx). congruence.
      * rewrite Hu. apply Forall_cons. split; [by rewrite lookup_insert_eq|].
        eapply Forall_impl; [exact Hl|]. intros x Hx. cbn. rewrite lookup_insert_ne; [done|congruence].
    + cbn. by rewrite <- app_assoc.
  - intros Hid. destruct (find_id_Some id _ Hid) as [[p d] Hf].
    rewrite (strategy_run (LX_StratClose lx_daemon_pid lx_current_pid)) by done.
    destruct (remove_device id s p d Hok Hf) as (Hr1 & Hr2 & Hr3 & Hr4).
    unfold LX_StratClose, record_call, add_opens. mstep. cbn [FileID calls].
    destruct (lx_daemon_pid =? lx_current_pid); mstep;
    match goal with |- context [LX_close_device_called id ?x] =>
      destruct (close_called_spec id p d x Hf) as [name E]; rewrite E end; mstep;
      (eexists; split; [done|]; split; [|split; [apply remove_first_ids|split; [done|]]]);
      try (cbn; by rewrite <- !app_assoc); (split; cbn; try done; rewrite Ho, Hr4; mlia).
Qed.

(** The request packets.  A command without a handler, and one above 31,
    is refused as unknown and changes nothing; the first shutdown packet
    flushes the file systems before it asks the kernel to exit, the second
    one disables interrupts last, and the end of the initialisation runs the
    memory handler before the daemon's one. *)
Theorem strategy_dispatch cmd id fn s :
  0 <= cmd < 256 ->
  (cmd ∉ [0; 8; 13; 14; 16; 20; 28; 31] ->
   exists s', strategy (mk_rp cmd id fn) s = Ok (Z.lor RPERR_COMMAND RPDONE, s') /\
     s' = mk_driver (devices s) (numOS2Opens s) (current_fileId s) (current_devName s)
       (current_autofree_flags s) (shutdown_level s) (exit_kernel s) (dheap s)
       (calls s ++ if cmd <? 32 then [enter_current; leave_current] else [])) /\
  (cmd = 28 -> exists s', strategy (mk_rp cmd id fn) s = Ok (RPDONE, s') /\
     devices s' = devices s /\
     if fn =? 0
     then shutdown_level s' = 1 /\ exit_kernel s' = 1 /\ calls s' = calls s ++
       [enter_current; sync_filesystems] ++
       (if lx_startup_ok then [wake_up_shutdown_wq] else []) ++ [leave_current]
     else shutdown_level s' = 2 /\ exit_kernel s' = exit_kernel s /\ calls s' = calls s ++
       [enter_current] ++
       (if lx_startup_ok then [wake_up_shutdown_wq; DisableIrqs] else []) ++ [leave_current]) /\
  (cmd = 31 -> exists s', strategy (mk_rp cmd id fn) s = Ok (RPDONE, s') /\ calls s' = calls s ++
     [enter_current] ++
     (if lx_startup_ok && negb (Z.land lx_sysstate LXSYSSTATE_SYSTEM_RUNNING =? 0)
      then [InitComplete_Memory; InitComplete_Daemon] else []) ++ [leave_current]).
Proof.
  intros Hc. split; [|split].
  - intros Hn. rewrite !not_elem_of_cons in Hn.
    destruct (cmd <? 32) eqn:E32.
    + rewrite (strategy_run LX_StratError).
      * unfold record_call, LX_StratError. mstep. eexists. split; [done|]. cbn.
        by rewrite <- app_assoc.
      * assert (Hcase : forall n : nat, cmd = n -> (n < 32)%nat ->
          lx_StratDispatch devFileName lx_daemon_pid lx_current_pid lx_sysstate lx_startup_ok
            init_rc ioctl_rc !! n = Some LX_StratError).
        { intros n -> Hn32. do 32 (destruct n as [|n]; [cbn in *; first [done|lia]|]). lia. }
        apply Hcase; cbn; lia.
    + unfold LX_Strategy. rewrite lookup_ge_None_2 by (cbn; lia). mstep.
      eexists. split; [done|]. destruct s. cbn. by rewrite app_nil_r.
  - intros ->. rewrite (strategy_run (LX_StratShutdown lx_startup_ok)) by done.
    unfold LX_StratShutdown, record_call, set_shutdown, set_exit_kernel. mstep. cbn [Function].
    destruct (fn =? 0), lx_startup_ok; mstep; eexists; (split; [done|]); cbn;
      rewrite <- ?app_assoc; auto.
  - intros ->. rewrite (strategy_run (LX_StratInitComplete lx_sysstate lx_startup_ok)) by done.
    unfold LX_StratInitComplete, record_call. mstep.
    destruct (lx_startup_ok && _); mstep; eexists; (split; [done|]); cbn; by rewrite <- ?app_assoc.
Qed.
End DevTableTheorems.

(** ** Concrete runs *)

Definition driver0 : driver arena := mk_driver [] 0 0 0 0 0 0 (arena0 3) [].

Lemma driver0_ok : driver_ok driver0.
Proof. split; [done|constructor|constructor|reflexivity]. Qed.

Lemma open_close_files_witness :
  driver_ok driver0 /\
  (LX_Strategy 7 1 2 0 true (fun _ => 0) (fun _ => 0) (mk_rp 13 5 0) driver0 = Err NullDeref \/
   exists s', LX_Strategy 7 1 2 0 true (fun _ => 0) (fun _ => 0) (mk_rp 13 5 0) driver0
     = Ok (RPDONE, s') /\ open_ids s' = [5]).
Proof.
  split; [exact driver0_ok|].
  destruct (open_close_files 7 1 2 0 true (fun _ => 0) (fun _ => 0) 5 0 driver0 driver0_ok)
    as [[E|(s' & E & _ & Ho & _)] _]; [by left|right].
  exists s'. split; [exact E|exact Ho].
Defined.

Lemma strategy_dispatch_witness :
  exists s', LX_Strategy 7 1 2 0 true (fun _ => 0) (fun _ => 0) (mk_rp 28 0 0) driver0
    = Ok (RPDONE, s') /\ devices s' = [].
Proof.
  destruct (strategy_dispatch 7 1 2 0 true (fun _ => 0) (fun _ => 0) 28 0 0 driver0)
    as (_ & Hs & _); [lia|]. destruct (Hs eq_refl) as (s' & E & Hd & _).
  exists s'. split; [exact E|exact Hd].
Defined.
