(* ===== verification/DaemonQueue.v ===== *)
(** * The command queue of the user-mode daemon (Dev32/lxdaemon.c)

    The driver cannot call the OS/2 API itself.  It queues commands for a
    daemon process, which fetches them with one ioctl, runs them and returns
    the results with another; a caller that wants the result waits for an
    entry with its handle in the list of finished commands.  Every critical
    section of [lx_cmd_lock] is one atomic operation here, and the ioctls and
    the callers interleave between them.  Data packets live in [blocks], by
    the address that serves as the blocking id. *)

From S2P Require Import Prelude DevHlp Memory Heap.

Definition LX_DAEMON_STATE_RUNNING : Z := 2.
Definition LX_DAEMON_STATE_GOING : Z := 3.
Definition LXIOCFN_DMN_CMDGET : Z := 1.
Definition LXIOCFN_DMN_CMDSETRESULTS : Z := 2.
Definition LX_DMN_CMD_SHUTDOWN : Z := 10001.
Definition LX_DMN_CMD_INC_DATAPACKETLEN : Z := 10002.
Definition RPDONE : Z := 256.
Definition RPERR_COMMAND : Z := 32771.

Record packet := mk_packet {
  p_rc : Z; cbMaxDataLen : Z;                              (* the daemon's side *)
  p_cmd : Z; hcmd : Z; cmdBlockID : Z; cbCmdDataLen : Z    (* the driver's side *)
}.

(** An entry: its node, the packet and, without a block, the data after it. *)
Record entry := mk_entry { e_node : Z; parmPacket : packet; inline : list Z }.

Definition LXDMN_PARMPACKETLENGTH : Z := 56.

Definition set_rc (rc : Z) (p : packet) : packet :=
  mk_packet rc (cbMaxDataLen p) (p_cmd p) (hcmd p) (cmdBlockID p) (cbCmdDataLen p).

(** What [LX_WaitOn] and [LX_RunOn] are called with. *)
Inductive wait_id :=
  | wait_waiting_list
  | wait_daemon_state
  | wait_daemon_pid
  | wait_block (id : Z).

Record dmn (H : Type) := mk_dmn {
  daemon_state : Z;
  daemon_pid : Z;
  cmdhandle : Z;
  waiting : list entry;
  finished : list entry;          (* lx_done_command_list *)
  blocks : gmap Z (list Z);
  qheap : H;
  runon : list wait_id            (* wake-ups, in order *)
}.
Arguments mk_dmn {H}. Arguments daemon_state {H}. Arguments daemon_pid {H}.
Arguments cmdhandle {H}. Arguments waiting {H}. Arguments finished {H}.
Arguments blocks {H}. Arguments qheap {H}. Arguments runon {H}.

Inductive get_result :=
  | GetRefused
  | GetBlocked                                   (* the daemon sleeps *)
  | GetTooSmall (pa : packet)
  | GetCommand (pa : packet) (dp : list Z).

Inductive add_result :=
  | AddNotRunning
  | AddNoMem
  | Added (pParm : packet).

Section DaemonQueue.
Context {H : Type} `{Heap H}.
(** The error code comes from the operating system's headers. *)
Context (ERROR_NO_CHILDREN : Z).

Definition set_lists (w f : list entry) : M (dmn H) unit :=
  modify (fun q => mk_dmn (daemon_state q) (daemon_pid q) (cmdhandle q) w f (blocks q)
    (qheap q) (runon q)).
Definition LX_RunOn (id : wait_id) : M (dmn H) unit :=
  modify (fun q => mk_dmn (daemon_state q) (daemon_pid q) (cmdhandle q) (waiting q) (finished q)
    (blocks q) (qheap q) (runon q ++ [id])).
Definition set_state (st pid : Z) : M (dmn H) unit :=
  modify (fun q => mk_dmn st pid (cmdhandle q) (waiting q) (finished q) (blocks q)
    (qheap q) (runon q)).
Definition set_handle (h : Z) : M (dmn H) unit :=
  modify (fun q => mk_dmn (daemon_state q) (daemon_pid q) h (waiting q) (finished q) (blocks q)
    (qheap q) (runon q)).
Definition q_kmalloc (sz : Z) : M (dmn H) Z := fun q =>
  let '(h, p) := kmalloc sz (qheap q) in
  Ok (p, mk_dmn (daemon_state q) (daemon_pid q) (cmdhandle q) (waiting q) (finished q) (blocks q)
    h (runon q)).
Definition q_kfree (p : Z) : M (dmn H) unit :=
  modify (fun q => mk_dmn (daemon_state q) (daemon_pid q) (cmdhandle q) (waiting q) (finished q)
    (blocks q) (kfree p (qheap q)) (runon q)).

(** [memcpy] from and to a data block; outside it is a fault. *)
Definition load_block (id len : Z) : M (dmn H) (list Z) :=
  if len =? 0 then mret [] else
  q ← get;
  match blocks q !! id with
  | Some d => if Z.of_nat (length d) <? len then throw BadAccess else mret (take (Z.to_nat len) d)
  | None => throw BadAccess
  end.
Definition store_block (id len : Z) (src : list Z) : M (dmn H) unit :=
  if len =? 0 then mret tt else
  q ← get;
  match blocks q !! id with
  | Some d =>
      if (Z.of_nat (length d) <? len) || (Z.of_nat (length src) <? len) then throw BadAccess
      else put (mk_dmn (daemon_state q) (daemon_pid q) (cmdhandle q) (waiting q) (finished q)
             (<[id := take (Z.to_nat len) src ++ drop (Z.to_nat len) d]> (blocks q))
             (qheap q) (runon q))
  | None => throw BadAccess
  end.

(** ** Called from the daemon's ioctls *)

Definition LX_dmn_add_done_command (pParm : packet) (pData : list Z) : M (dmn H) Z :=
  let sz := LXDMN_PARMPACKETLENGTH + (if cmdBlockID pParm =? 0 then cbCmdDataLen pParm else 0) in
  n ← q_kmalloc (u32 sz);
  if n =? 0 then mret (- ENOMEM)
  else
    (if cmdBlockID pParm =? 0 then mret tt
     else store_block (cmdBlockID pParm) (cbCmdDataLen pParm) pData) ≫= fun _ =>
    q ← get;
    set_lists (waiting q) (finished q ++ [mk_entry n pParm []]) ≫= fun _ =>
    LX_RunOn (wait_block (cmdBlockID pParm)) ≫= fun _ => mret 0.

(** [None]: the list is empty and the daemon waits. *)
Definition LX_get_next_command : M (dmn H) (option entry) :=
  q ← get;
  match waiting q with
  | [] => mret None
  | pe :: w => set_lists w (finished q) ≫= fun _ => mret (Some pe)
  end.

Definition LX_ioctl_dmn_get (current_pid : Z) (pa : packet) : M (dmn H) get_result :=
  q ← get;
  (if daemon_pid q =? 0 then
     set_state (if daemon_state q <? LX_DAEMON_STATE_RUNNING then LX_DAEMON_STATE_RUNNING
                else daemon_state q) current_pid ≫= fun _ =>
     LX_RunOn wait_daemon_state
   else mret tt) ≫= fun _ =>
  r ← LX_get_next_command;
  match r with
  | None => mret GetBlocked
  | Some pe =>
      let p := parmPacket pe in
      if cbMaxDataLen pa <? cbCmdDataLen p then
        q ← get;
        set_lists (pe :: waiting q) (finished q) ≫= fun _ =>
        mret (GetTooSmall (mk_packet (p_rc pa) (cbMaxDataLen pa) LX_DMN_CMD_INC_DATAPACKETLEN
                0 0 (cbCmdDataLen pa)))
      else
        let p := mk_packet (p_rc pa) (cbMaxDataLen pa) (p_cmd p) (hcmd p) (cmdBlockID p)
                   (cbCmdDataLen p) in
        dp ← (if cmdBlockID p =? 0 then
                if Z.of_nat (length (inline pe)) <? cbCmdDataLen p then throw BadAccess
                else mret (take (Z.to_nat (cbCmdDataLen p)) (inline pe))
              else load_block (cmdBlockID p) (cbCmdDataLen p));
        q_kfree (e_node pe) ≫= fun _ => mret (GetCommand p dp)
  end.

(** The packets are [None] when they could not be verified. *)
Definition LX_ioctl_dmn (current_pid fn : Z) (pa : option packet) (dp : option (list Z)) :
    M (dmn H) (Z * get_result) :=
  if fn =? LXIOCFN_DMN_CMDGET then
    match pa, dp with
    | Some pa, Some _ => r ← LX_ioctl_dmn_get current_pid pa; mret (RPDONE, r)
    | _, _ => mret (Z.lor RPERR_COMMAND RPDONE, GetRefused)
    end
  else if fn =? LXIOCFN_DMN_CMDSETRESULTS then
    match pa, dp with
    | Some pa, Some dp =>
        (if cmdBlockID pa =? 0 then mret tt
         else LX_dmn_add_done_command pa dp ≫= fun _ => mret tt) ≫= fun _ =>
        mret (RPDONE, GetRefused)
    | _, _ => mret (RPDONE, GetRefused)
    end
  else mret (Z.lor RPERR_COMMAND RPDONE, GetRefused).

(** ** Called from within the driver *)

Definition has_handle (h : Z) (e : entry) : bool := hcmd (parmPacket e) =? h.

(** One turn of [LX_dmn_get_result]; [None]: not finished, wait again. *)
Definition LX_dmn_get_result (pParm : packet) : M (dmn H) (option packet) :=
  q ← get;
  match find_first (has_handle (hcmd pParm)) (finished q) with
  | None => mret None
  | Some pe =>
      set_lists (waiting q) (remove_first (has_handle (hcmd pParm)) (finished q)) ≫= fun _ =>
      q_kfree (e_node pe) ≫= fun _ => mret (Some (parmPacket pe))
  end.

Definition next_handle (h : Z) : Z := if u32 (h + 1) =? 0 then 1 else u32 (h + 1).

(** Up to the wait for the result.  With [AddNotRunning] and [AddNoMem] the
    caller's packet is not written. *)
Definition LX_dmn_add_command (ulCmd waitflag : Z) (cbMax pData cbDataLen : Z) :
    M (dmn H) add_result :=
  pid ← gets daemon_pid;
  if pid =? 0 then mret AddNotRunning
  else
    n ← q_kmalloc (u32 (LXDMN_PARMPACKETLENGTH + if waitflag =? 0 then cbDataLen else 0));
    if n =? 0 then mret AddNoMem
    else
      d ← (if waitflag =? 0 then load_block pData cbDataLen else mret []);
      h ← gets (fun q => next_handle (cmdhandle q));
      set_handle h ≫= fun _ =>
      let p := mk_packet 0 cbMax ulCmd h (if waitflag =? 0 then 0 else pData) cbDataLen in
      q ← get;
      set_lists (waiting q ++ [mk_entry n p d]) (finished q) ≫= fun _ =>
      LX_RunOn wait_waiting_list ≫= fun _ => mret (Added p).

Fixpoint flush_waiting (w f : list entry) : M (dmn H) (list entry) :=
  match w with
  | [] => mret f
  | pe :: w =>
      if cmdBlockID (parmPacket pe) =? 0
      then q_kfree (e_node pe) ≫= fun _ => flush_waiting w f
      else flush_waiting w (f ++ [pe])
  end.

Fixpoint run_all (l : list entry) : M (dmn H) unit :=
  match l with
  | [] => mret tt
  | pe :: l => LX_RunOn (wait_block (cmdBlockID (parmPacket pe))) ≫= fun _ => run_all l
  end.

Definition no_children (e : entry) : entry :=
  mk_entry (e_node e) (set_rc ERROR_NO_CHILDREN (parmPacket e)) (inline e).

Definition LX_daemon_closed : M (dmn H) Z :=
  set_state LX_DAEMON_STATE_GOING 0 ≫= fun _ =>
  LX_RunOn wait_daemon_pid ≫= fun _ =>
  q ← get;
  f ← flush_waiting (waiting q) (finished q);
  set_lists [] (no_children <$> f) ≫= fun _ =>
  run_all f ≫= fun _ => mret 0.

(** [gone i]: the daemon has closed by the [i]-th look at [lx_daemon_pid]. *)
Fixpoint await_exit (gone : nat -> bool) (c : nat) : bool :=
  match c with
  | O => gone O
  | S c => gone (S c) || await_exit gone c
  end.

Definition LX_daemon_shutdown (gone : nat -> bool) : M (dmn H) Z :=
  LX_dmn_add_command LX_DMN_CMD_SHUTDOWN 1 0 0 0 ≫= fun _ =>
  pid ← gets daemon_pid;
  if (pid =? 0) || await_exit gone 20 then mret 0 else LX_daemon_closed.

(** [state i] is [lx_daemon_state] at the [i]-th look. *)
Fixpoint await_running (state : nat -> Z) (c i : nat) : Z :=
  match c with
  | O => state i
  | S c => if state i <? LX_DAEMON_STATE_RUNNING then await_running state c (S i) else state i
  end.

Definition LX_wait_for_daemon (state : nat -> Z) : Z :=
  let st := if state 0%nat <? LX_DAEMON_STATE_RUNNING then await_running state 100 0 else state 0%nat in
  if st =? LX_DAEMON_STATE_RUNNING then 0 else - ENOENT.
End DaemonQueue.

(** ** Callers, daemon and queue together *)

(** A call in progress: the block it waits on, the command and its data. *)
Record request := mk_request { r_block : Z; r_cmd : Z; r_data : list Z }.

Record rpc (H : Type) := mk_rpc {
  queue : dmn H;
  busy : option (packet * list Z);      (* the command the daemon works on *)
  max_len : Z;                          (* the size of its data buffer *)
  requests : gmap Z request;            (* by handle *)
  returned : list (request * Z * list Z)   (* with code and data *)
}.
Arguments mk_rpc {H}. Arguments queue {H}. Arguments busy {H}. Arguments max_len {H}.
Arguments requests {H}. Arguments returned {H}.

Section Rpc.
Context {H : Type} `{Heap H}.
Context (ERROR_NO_CHILDREN : Z).
(** The daemon's work on a command; it answers in the packet's buffer. *)
Context (execute : Z -> list Z -> Z * list Z).
(** Whether the daemon may die and results may be lost for want of memory. *)
Context (lossy : bool).

Definition with_block (b : Z) (d : list Z) (q : dmn H) : dmn H :=
  mk_dmn (daemon_state q) (daemon_pid q) (cmdhandle q) (waiting q) (finished q)
    (<[b := d]> (blocks q)) (qheap q) (runon q).
Definition without_block (b : Z) (q : dmn H) : dmn H :=
  mk_dmn (daemon_state q) (daemon_pid q) (cmdhandle q) (waiting q) (finished q)
    (delete b (blocks q)) (qheap q) (runon q).

Inductive rpc_step : rpc H -> rpc H -> Prop :=
  | step_call q w n rs rt b cmd d q' p :
      b <> 0 -> blocks q !! b = None -> Z.of_nat (length d) < 4294967296 ->
      LX_dmn_add_command cmd 1 0 b (length d) (with_block b d q) = Ok (Added p, q') ->
      rpc_step (mk_rpc q w n rs rt)
        (mk_rpc q' w n (<[hcmd p := mk_request b cmd d]> rs) rt)
  | step_post q w n rs rt b cmd d q' p :
      blocks q !! b = None -> Z.of_nat (length d) < 4294967296 ->
      LX_dmn_add_command cmd 0 0 b (length d) (with_block b d q) = Ok (Added p, q') ->
      rpc_step (mk_rpc q w n rs rt) (mk_rpc (without_block b q') w n rs rt)
  | step_get q n rs rt pid q' rc pa dp :
      LX_ioctl_dmn pid LXIOCFN_DMN_CMDGET (Some (mk_packet 0 n 0 0 0 0)) (Some []) q
        = Ok ((rc, GetCommand pa dp), q') ->
      rpc_step (mk_rpc q None n rs rt) (mk_rpc q' (Some (pa, dp)) n rs rt)
  | step_grow q n rs rt pid q' rc pa :
      LX_ioctl_dmn pid LXIOCFN_DMN_CMDGET (Some (mk_packet 0 n 0 0 0 0)) (Some []) q
        = Ok ((rc, GetTooSmall pa), q') ->
      rpc_step (mk_rpc q None n rs rt) (mk_rpc q' None (n + 4096) rs rt)
  | step_set q pa dp n rs rt pid q' rc r :
      LX_ioctl_dmn pid LXIOCFN_DMN_CMDSETRESULTS
        (Some (set_rc (execute (p_cmd pa) dp).1 pa)) (Some (execute (p_cmd pa) dp).2) q
        = Ok ((rc, r), q') ->
      lossy = true \/ cmdBlockID pa = 0 \/ length (finished q') <> length (finished q) ->
      rpc_step (mk_rpc q (Some (pa, dp)) n rs rt) (mk_rpc q' None n rs rt)
  | step_collect q w n rs rt h r p q' d :
      rs !! h = Some r ->
      LX_dmn_get_result (mk_packet 0 0 (r_cmd r) h (r_block r) (length (r_data r))) q
        = Ok (Some p, q') ->
      blocks q' !! r_block r = Some d ->
      rpc_step (mk_rpc q w n rs rt)
        (mk_rpc (without_block (r_block r) q') w n (delete h rs) ((r, p_rc p, d) :: rt))
  | step_close q w n rs rt q' rc :
      lossy = true -> LX_daemon_closed ERROR_NO_CHILDREN q = Ok (rc, q') ->
      rpc_step (mk_rpc q w n rs rt) (mk_rpc q' None n rs rt).
End Rpc.

Definition handles (l : list entry) : list Z := (fun e => hcmd (parmPacket e)) <$> l.

Definition busy_handle (w : option (packet * list Z)) : list Z :=
  match w with Some (p, _) => [hcmd p] | None => [] end.

Definition all_handles {H} (s : rpc H) : list Z :=
  handles (waiting (queue s)) ++ busy_handle (busy s) ++ handles (finished (queue s)).

(** The answer to a request is the daemon's, or the report of its death. *)
Definition answers (ERROR_NO_CHILDREN : Z) (execute : Z -> list Z -> Z * list Z) (lossy : bool)
    (r : request) (rc : Z) (d : list Z) : Prop :=
  (rc, d) = execute (r_cmd r) (r_data r) \/ lossy = true /\ rc = ERROR_NO_CHILDREN.

(** ** What the operations leave *)

Section Ops.
Context {H : Type} `{Heap H}.
Implicit Types (q : dmn H).

Lemma add_command_inv cmd wf cm b len q p q' :
  LX_dmn_add_command cmd wf cm b len q = Ok (Added p, q') ->
  hcmd p = next_handle (cmdhandle q) /\ cmdhandle q' = hcmd p /\ p_cmd p = cmd /\
  cmdBlockID p = (if wf =? 0 then 0 else b) /\ cbCmdDataLen p = len /\
  (exists n d, waiting q' = waiting q ++ [mk_entry n p d]) /\
  finished q' = finished q /\ blocks q' = blocks q.
Proof.
  unfold LX_dmn_add_command, q_kmalloc, load_block, set_handle, set_lists, LX_RunOn. mstep.
  destruct (daemon_pid q =? 0); [done|]. mstep.
  destruct (kmalloc _ (qheap q)) as [h n]. destruct (n =? 0); [done|]. mstep.
  destruct (wf =? 0); mstep; [|intros [= <- <-]; cbn; eauto 12].
  destruct (len =? 0); mstep; [intros [= <- <-]; cbn; eauto 12|]. cbn [blocks].
  destruct (blocks q !! b) as [d|]; [|done].
  destruct (_ <? _); [done|]. mstep. intros [= <- <-]. cbn. eauto 12.
Qed.

Lemma get_command_inv pid n q rc pa dp q' :
  LX_ioctl_dmn pid LXIOCFN_DMN_CMDGET (Some (mk_packet 0 n 0 0 0 0)) (Some []) q
    = Ok ((rc, GetCommand pa dp), q') ->
  exists pe, waiting q = pe :: waiting q' /\ finished q' = finished q /\ blocks q' = blocks q /\
    cmdhandle q' = cmdhandle q /\ hcmd pa = hcmd (parmPacket pe) /\
    p_cmd pa = p_cmd (parmPacket pe) /\ cmdBlockID pa = cmdBlockID (parmPacket pe) /\
    cbCmdDataLen pa = cbCmdDataLen (parmPacket pe) /\
    (cmdBlockID pa <> 0 -> forall d, blocks q !! cmdBlockID pa = Some d ->
       cbCmdDataLen pa = length d -> dp = d).
Proof.
  unfold LX_ioctl_dmn. change (LXIOCFN_DMN_CMDGET =? LXIOCFN_DMN_CMDGET) with true. cbn iota.
  unfold LX_ioctl_dmn_get, LX_get_next_command, set_state, LX_RunOn, set_lists, q_kfree. mstep.
  match goal with |- context [if daemon_pid q =? 0 then ?a else ?b] =>
    set (m := if daemon_pid q =? 0 then a else b) end.
  assert (Hm : exists q0, m q = Ok (tt, q0) /\ waiting q0 = waiting q /\ finished q0 = finished q /\
    blocks q0 = blocks q /\ cmdhandle q0 = cmdhandle q).
  { unfold m. destruct (daemon_pid q =? 0); eexists; (split; [reflexivity|]); done. }
  destruct Hm as (q0 & Em & Hw & Hf & Hb & Hh). clearbody m. rewrite Em. mstep.
  destruct (waiting q0) as [|pe w] eqn:Ew; mstep; [done|].
  destruct (_ <? _); mstep; [done|]. cbn [cmdBlockID cbCmdDataLen].
  destruct (cmdBlockID (parmPacket pe) =? 0) eqn:Eb.
  - destruct (_ <? _); [done|]. mstep. intros [= <- <- <- <-]. exists pe. cbn.
    repeat (split; [congruence|]). intros ?. lia.
  - unfold load_block. destruct (cbCmdDataLen (parmPacket pe) =? 0) eqn:El; mstep.
    + intros [= <- <- <- <-]. exists pe. cbn. repeat (split; [congruence|]).
      intros _ d _ Hd. destruct d; cbn in *; [done|lia].
    + cbn [blocks]. rewrite Hb. destruct (blocks q !! _) as [d|] eqn:Ed; [|done].
      destruct (_ <? _); [done|]. mstep. intros [= <- <- <- <-]. exists pe. cbn.
      repeat (split; [congruence|]). intros _ d' Hd' Hl. rewrite Ed in Hd'. injection Hd' as <-.
      rewrite Hl, Nat2Z.id. by apply take_ge.
Qed.

Lemma get_small_inv pid n q rc pa q' :
  LX_ioctl_dmn pid LXIOCFN_DMN_CMDGET (Some (mk_packet 0 n 0 0 0 0)) (Some []) q
    = Ok ((rc, GetTooSmall pa), q') ->
  waiting q' = waiting q /\ finished q' = finished q /\ blocks q' = blocks q /\
  cmdhandle q' = cmdhandle q.
Proof.
  unfold LX_ioctl_dmn. change (LXIOCFN_DMN_CMDGET =? LXIOCFN_DMN_CMDGET) with true. cbn iota.
  unfold LX_ioctl_dmn_get, LX_get_next_command, set_state, LX_RunOn, set_lists, q_kfree. mstep.
  match goal with |- context [if daemon_pid q =? 0 then ?a else ?b] =>
    set (m := if daemon_pid q =? 0 then a else b) end.
  assert (Hm : exists q0, m q = Ok (tt, q0) /\ waiting q0 = waiting q /\ finished q0 = finished q /\
    blocks q0 = blocks q /\ cmdhandle q0 = cmdhandle q).
  { unfold m. destruct (daemon_pid q =? 0); eexists; (split; [reflexivity|]); done. }
  destruct Hm as (q0 & Em & Hw & Hf & Hb & Hh). clearbody m. rewrite Em. mstep.
  destruct (waiting q0) as [|pe w] eqn:Ew; mstep; [done|].
  destruct (_ <? _); mstep; [intros [= <- <- <-]; cbn; by rewrite <- Hw|].
  cbn [cmdBlockID cbCmdDataLen]. destruct (cmdBlockID (parmPacket pe) =? 0).
  - destruct (_ <? _); done.
  - unfold load_block. destruct (_ =? 0); mstep; [done|].
    destruct (blocks _ !! _); [|done]. destruct (_ <? _); done.
Qed.

Lemma set_results_inv pid pa dp q rc r q' :
  LX_ioctl_dmn pid LXIOCFN_DMN_CMDSETRESULTS (Some pa) (Some dp) q = Ok ((rc, r), q') ->
  waiting q' = waiting q /\ cmdhandle q' = cmdhandle q /\
  (finished q' = finished q /\ blocks q' = blocks q \/
   cmdBlockID pa <> 0 /\ (exists n, finished q' = finished q ++ [mk_entry n pa []]) /\
   forall d, blocks q !! cmdBlockID pa = Some d -> length dp = length d ->
     cbCmdDataLen pa = length d -> blocks q' = <[cmdBlockID pa := dp]> (blocks q)).
Proof.
  unfold LX_ioctl_dmn. change (LXIOCFN_DMN_CMDSETRESULTS =? LXIOCFN_DMN_CMDGET) with false.
  change (LXIOCFN_DMN_CMDSETRESULTS =? LXIOCFN_DMN_CMDSETRESULTS) with true. cbn iota. mstep.
  destruct (cmdBlockID pa =? 0) eqn:Eb; mstep; [intros [= <- <- <-]; auto|].
  unfold LX_dmn_add_done_command, q_kmalloc, set_lists, LX_RunOn. mstep.
  destruct (kmalloc _ (qheap q)) as [h n]. destruct (n =? 0); mstep; [intros [= <- <- <-]; cbn; auto|].
  rewrite Eb. unfold store_block. destruct (cbCmdDataLen pa =? 0) eqn:El; mstep.
  - intros [= <- <- <-]. cbn. split; [done|]. split; [done|]. right. split; [lia|]. split; [eauto|].
    intros d Hd Hl Hn. rewrite insert_id; [done|]. destruct d, dp; cbn in *; try done; lia.
  - cbn [blocks]. destruct (blocks q !! _) as [d|] eqn:Ed; [|done].
    destruct (_ || _); [done|]. mstep. intros [= <- <- <-]. cbn. split; [done|]. split; [done|].
    right. split; [lia|]. split; [eauto|]. intros d' [= <-] Hl Hn. f_equal.
    rewrite take_ge, drop_ge, app_nil_r by lia. done.
Qed.

Lemma get_result_inv pp q p q' :
  LX_dmn_get_result pp q = Ok (Some p, q') ->
  exists e l1 l2, finished q = l1 ++ e :: l2 /\ finished q' = l1 ++ l2 /\ hcmd (parmPacket e) = hcmd pp /\
    p = parmPacket e /\ waiting q' = waiting q /\ blocks q' = blocks q /\ cmdhandle q' = cmdhandle q.
Proof.
  unfold LX_dmn_get_result, set_lists, q_kfree. mstep.
  destruct (find_first _ (finished q)) as [e|] eqn:E; mstep; [|done].
  apply find_first_Some in E as (l1 & l2 & E & He & Hl). intros [= <- <-]. exists e, l1, l2. cbn.
  rewrite E, remove_first_app by done. unfold has_handle in He. split; [done|]. split; [done|].
  split; [lia|done].
Qed.

Lemma flush_inv w f q :
  exists q', flush_waiting w f q =
      Ok (f ++ filter (fun e => cmdBlockID (parmPacket e) <> 0) w, q') /\
    waiting q' = waiting q /\ finished q' = finished q /\ blocks q' = blocks q /\
    cmdhandle q' = cmdhandle q.
Proof.
  revert f q. induction w as [|e w IH]; intros f q; cbn [flush_waiting].
  { exists q. by rewrite app_nil_r. }
  rewrite filter_cons. destruct (cmdBlockID (parmPacket e) =? 0) eqn:E; case_decide; try lia.
  - unfold q_kfree. mstep. match goal with |- context [flush_waiting w f ?x] =>
      destruct (IH f x) as (q' & -> & ?) end. eauto.
  - destruct (IH (f ++ [e]) q) as (q' & -> & ?). exists q'. by rewrite <- app_assoc.
Qed.

Lemma run_all_inv l q :
  exists q', run_all l q = Ok (tt, q') /\ waiting q' = waiting q /\ finished q' = finished q /\
    blocks q' = blocks q /\ cmdhandle q' = cmdhandle q.
Proof.
  revert q. induction l as [|e l IH]; intros q; cbn [run_all]; [by exists q|].
  unfold LX_RunOn. mstep. match goal with |- context [run_all l ?x] =>
    destruct (IH x) as (q' & -> & ?) end. eauto.
Qed.

Lemma flush_inv_more w f q :
  exists q', flush_waiting w f q =
      Ok (f ++ filter (fun e => cmdBlockID (parmPacket e) <> 0) w, q') /\
    daemon_pid q' = daemon_pid q /\ daemon_state q' = daemon_state q /\ runon q' = runon q.
Proof.
  revert f q. induction w as [|e w IH]; intros f q; cbn [flush_waiting].
  { exists q. by rewrite app_nil_r. }
  rewrite filter_cons. destruct (cmdBlockID (parmPacket e) =? 0) eqn:E; case_decide; try lia.
  - unfold q_kfree. mstep. match goal with |- context [flush_waiting w f ?x] =>
      destruct (IH f x) as (q' & -> & ?) end. eauto.
  - destruct (IH (f ++ [e]) q) as (q' & -> & ?). exists q'. by rewrite <- app_assoc.
Qed.

Lemma run_all_inv_more l q :
  exists q', run_all l q = Ok (tt, q') /\ daemon_pid q' = daemon_pid q /\
    daemon_state q' = daemon_state q /\
    runon q' = runon q ++ ((fun e => wait_block (cmdBlockID (parmPacket e))) <$> l) /\
    waiting q' = waiting q /\ finished q' = finished q.
Proof.
  revert q. induction l as [|e l IH]; intros q; cbn [run_all].
  { exists q. by rewrite app_nil_r. }
  unfold LX_RunOn. mstep. match goal with |- context [run_all l ?x] =>
    destruct (IH x) as (q' & -> & ? & ? & Hr & ?) end. eexists. split; [done|]. split; [done|].
  split; [done|]. rewrite Hr. cbn. by rewrite <- app_assoc.
Qed.

Lemma closed_inv code q :
  exists q', LX_daemon_closed code q = Ok (0, q') /\ waiting q' = [] /\
    finished q' = no_children code <$>
      (finished q ++ filter (fun e => cmdBlockID (parmPacket e) <> 0) (waiting q)) /\
    blocks q' = blocks q /\ cmdhandle q' = cmdhandle q.
Proof.
  unfold LX_daemon_closed, set_state, LX_RunOn, set_lists. mstep. cbn [waiting finished].
  match goal with |- context [flush_waiting _ _ ?x] =>
    destruct (flush_inv (waiting q) (finished q) x) as (q1 & E1 & _ & _ & Hb1 & Hh1) end.
  rewrite E1. mstep. match goal with |- context [run_all ?l ?x] =>
    destruct (run_all_inv l x) as (q2 & E2 & Hw2 & Hf2 & Hb2 & Hh2) end.
  rewrite E2. mstep. exists q2. split; [done|]. cbn in *. split; [done|]. split; [done|].
  split; congruence.
Qed.
End Ops.

Section RpcInv.
Context {H : Type} `{Heap H}.
Context (ERROR_NO_CHILDREN : Z) (execute : Z -> list Z -> Z * list Z) (lossy : bool).
Context (execute_len : forall c d, length (execute c d).2 = length d).
Abbreviation answer := (answers ERROR_NO_CHILDREN execute lossy).

(** A packet not yet executed carries the request with its handle, or nobody
    waits for it; [bs] are the data blocks. *)
Definition queued (bs : gmap Z (list Z)) (rs : gmap Z request) (p : packet) : Prop :=
  (cmdBlockID p = 0 -> rs !! hcmd p = None) /\
  (cmdBlockID p <> 0 -> exists r, rs !! hcmd p = Some r /\ r_block r = cmdBlockID p /\
    r_cmd r = p_cmd p /\ cbCmdDataLen p = length (r_data r) /\
    bs !! cmdBlockID p = Some (r_data r)).

Definition completed (bs : gmap Z (list Z)) (rs : gmap Z request) (p : packet) : Prop :=
  exists r d, rs !! hcmd p = Some r /\ r_block r = cmdBlockID p /\ cmdBlockID p <> 0 /\
    bs !! cmdBlockID p = Some d /\ answer r (p_rc p) d.

Record rpc_inv (k : Z) (s : rpc H) : Prop := {
  ri_handle : 0 <= cmdhandle (queue s) <= k;
  ri_distinct : NoDup (all_handles s);
  ri_range : Forall (fun h => 0 < h <= cmdhandle (queue s)) (all_handles s);
  ri_requests h r : requests s !! h = Some r ->
    0 < h <= cmdhandle (queue s) /\ r_block r <> 0 /\ is_Some (blocks (queue s) !! r_block r);
  ri_blocks h1 h2 r1 r2 : requests s !! h1 = Some r1 -> requests s !! h2 = Some r2 ->
    r_block r1 = r_block r2 -> h1 = h2;
  ri_waiting : Forall (fun e => queued (blocks (queue s)) (requests s) (parmPacket e))
    (waiting (queue s));
  ri_busy p d : busy s = Some (p, d) ->
    queued (blocks (queue s)) (requests s) p /\
    (cmdBlockID p <> 0 -> blocks (queue s) !! cmdBlockID p = Some d);
  ri_finished : Forall (fun e => completed (blocks (queue s)) (requests s) (parmPacket e))
    (finished (queue s));
  ri_returned : Forall (fun x => answer x.1.1 x.1.2 x.2) (returned s);
  ri_pending : lossy = false -> forall h r, requests s !! h = Some r -> h ∈ all_handles s
}.

(** Packets keep their requests while others come and go. *)
Lemma queued_mono bs bs' rs rs' p :
  bs ⊆ bs' -> rs ⊆ rs' -> (rs !! hcmd p = None -> rs' !! hcmd p = None) ->
  queued bs rs p -> queued bs' rs' p.
Proof.
  intros Hb Hr Hf [Hz Hq]. split; [auto|]. intros Hn. destruct (Hq Hn) as (r & H1 & H2 & H3 & H4 & H5). exists r.
  repeat split; try done; by eapply lookup_weaken.
Qed.

Lemma completed_mono bs bs' rs rs' p :
  bs ⊆ bs' -> rs ⊆ rs' -> completed bs rs p -> completed bs' rs' p.
Proof.
  intros Hb Hr (r & d & H1 & H2 & H3 & H4 & H5). exists r, d.
  repeat split; try done; by eapply lookup_weaken.
Qed.

(** The block of handle [h] changes or goes, the other packets stay. *)
Lemma queued_other bs bs' (rs rs' : gmap Z request) p h r0 :
  rs !! h = Some r0 ->
  (forall h1 r1, rs !! h1 = Some r1 -> r_block r1 = r_block r0 -> h1 = h) ->
  (forall b, b <> r_block r0 -> bs' !! b = bs !! b) -> (forall j, j <> h -> rs' !! j = rs !! j) ->
  hcmd p <> h -> queued bs rs p -> queued bs' rs' p.
Proof.
  intros Hh Hinj Hb Hr Hne [Hz Hq]. split; [rewrite Hr by done; auto|].
  intros Hn. destruct (Hq Hn) as (r & H1 & H2 & H3 & H4 & H5). exists r.
  rewrite Hr, Hb by (try done; intros E; apply Hne, (Hinj _ r); congruence). auto.
Qed.

Lemma completed_other bs bs' (rs rs' : gmap Z request) p h r0 :
  rs !! h = Some r0 ->
  (forall h1 r1, rs !! h1 = Some r1 -> r_block r1 = r_block r0 -> h1 = h) ->
  (forall b, b <> r_block r0 -> bs' !! b = bs !! b) -> (forall j, j <> h -> rs' !! j = rs !! j) ->
  hcmd p <> h -> completed bs rs p -> completed bs' rs' p.
Proof.
  intros Hh Hinj Hb Hr Hne (r & d & H1 & H2 & H3 & H4 & H5). exists r, d.
  rewrite Hr, Hb by (try done; intros E; apply Hne, (Hinj _ r); congruence). auto.
Qed.

Lemma next_handle_small k : 0 <= k < 4294967295 -> next_handle k = k + 1.
Proof. intros Hk. unfold next_handle. rewrite u32_small by lia. destruct (_ =? 0) eqn:E; lia. Qed.

Lemma handles_app l1 l2 : handles (l1 ++ l2) = handles l1 ++ handles l2.
Proof. apply fmap_app. Qed.

Abbreviation inv := rpc_inv.
Abbreviation step := (rpc_step ERROR_NO_CHILDREN execute lossy).

(** A new handle is added to the ones in the system. *)
Lemma fresh_handle (l : list Z) c :
  NoDup l -> Forall (fun h => 0 < h <= c) l -> 0 <= c -> NoDup (c + 1 :: l) /\
  Forall (fun h => 0 < h <= c + 1) (c + 1 :: l).
Proof.
  intros Hn Hf Hc. split.
  - apply NoDup_cons. split; [|done]. intros Hin. rewrite Forall_forall in Hf.
    specialize (Hf _ Hin). cbn in Hf. lia.
  - apply Forall_cons. split; [lia|]. eapply Forall_impl; [exact Hf|]. cbn. lia.
Qed.

(** A command enters the queue: [p] with the handle, the block and the
    request that goes with it. *)
Lemma inv_enqueue (k : Z) (q : dmn H) w n rs rt (q' : dmn H) p bs' rs' e d :
  inv k (mk_rpc q w n rs rt) -> k < 4294967294 ->
  cmdhandle q' = cmdhandle q + 1 -> hcmd p = cmdhandle q + 1 ->
  waiting q' = waiting q ++ [mk_entry e p d] -> finished q' = finished q -> blocks q' = bs' ->
  blocks q ⊆ bs' -> rs ⊆ rs' -> queued bs' rs' p ->
  (forall h r, rs' !! h = Some r -> rs !! h = Some r \/
     h = cmdhandle q + 1 /\ r_block r <> 0 /\ blocks q !! r_block r = None /\ is_Some (bs' !! r_block r)) ->
  inv (k + 1) (mk_rpc q' w n rs' rt).
Proof.
  intros [H1 H2 H3 H4 H5 H6 H7 H8 H9 H10] Hk Hc Hp Hw Hf Hb Hbs Hrs Hq Hnew.
  cbn in *. unfold all_handles in *. cbn in *.
  assert (Hperm : handles (waiting q') ++ busy_handle w ++ handles (finished q') ≡ₚ
    cmdhandle q + 1 :: handles (waiting q) ++ busy_handle w ++ handles (finished q)).
  { rewrite Hw, Hf, handles_app. cbn. rewrite Hp. solve_Permutation. }
  destruct (fresh_handle _ _ H2 H3 ltac:(lia)) as [Hn2 Hn3].
  assert (Hkeep : forall h, h ∈ handles (waiting q) ++ busy_handle w ++ handles (finished q) ->
    rs !! h = None -> rs' !! h = None).
  { intros h Hin Hno. destruct (rs' !! h) as [r|] eqn:E; [|done]. exfalso.
    rewrite Forall_forall in H3. specialize (H3 h Hin). cbn in H3.
    destruct (Hnew h r E) as [?|(-> & _)]; [congruence|lia]. }
  split; unfold all_handles; cbn [queue busy requests returned].
  - rewrite Hc. lia.
  - by rewrite Hperm.
  - rewrite Hperm, Hc. exact Hn3.
  - intros h r Hr. rewrite Hc, Hb. destruct (Hnew h r Hr) as [Ho|(-> & Hb0 & _ & Hs)].
    + destruct (H4 h r Ho) as (? & ? & [x Hx]). split; [lia|]. split; [done|].
      exists x. by eapply lookup_weaken.
    + split; [lia|]. auto.
  - intros h1 h2 r1 r2 Hr1 Hr2 He.
    destruct (Hnew h1 r1 Hr1) as [Ho1|(-> & _ & Hb1 & _)], (Hnew h2 r2 Hr2) as [Ho2|(-> & _ & Hb2 & _)];
      [by eapply H5| | |done];
      [destruct (H4 _ _ Ho1) as (_ & _ & [x Hx])|destruct (H4 _ _ Ho2) as (_ & _ & [x Hx])]; congruence.
  - rewrite Hw, Hb. apply Forall_app. split; [|by apply Forall_singleton].
    rewrite Forall_forall in *. intros x Hx. apply (queued_mono (blocks q) _ rs); auto.
    apply Hkeep, elem_of_app. left. apply list_elem_of_fmap. eauto.
  - intros p0 d0 E. rewrite Hb. destruct (H7 p0 d0 E) as [Hq0 Hd0].
    split.
    { apply (queued_mono (blocks q) _ rs); auto. apply Hkeep. rewrite E. set_solver. }
    intros Hn. by eapply lookup_weaken; [apply Hd0|].
  - rewrite Hf, Hb. eapply Forall_impl; [exact H8|]. intros x. by apply completed_mono.
  - done.
  - intros Hl h r Hr. rewrite Hperm. destruct (Hnew h r Hr) as [Ho|(-> & _)].
    + apply list_elem_of_further. by eapply H10.
    + apply list_elem_of_here.
Qed.

Lemma inv_get k q n rs rt pid q' rc pa dp :
  inv k (mk_rpc q None n rs rt) ->
  LX_ioctl_dmn pid LXIOCFN_DMN_CMDGET (Some (mk_packet 0 n 0 0 0 0)) (Some []) q
    = Ok ((rc, GetCommand pa dp), q') ->
  inv (k + 1) (mk_rpc q' (Some (pa, dp)) n rs rt).
Proof.
  intros [H1 H2 H3 H4 H5 H6 H7 H8 H9 H10] E.
  destruct (get_command_inv _ _ _ _ _ _ _ E) as (pe & Hw & Hf & Hb & Hh & Hp1 & Hp2 & Hp3 & Hp4 & Hd).
  cbn in *. unfold all_handles in *. cbn in *. rewrite Hw in *. cbn in H2, H3.
  apply Forall_cons in H6 as [Hq H6].
  assert (Hq' : queued (blocks q) rs pa) by (unfold queued in *; by rewrite Hp1, Hp2, Hp3, Hp4).
  assert (Hperm : handles (waiting q') ++ busy_handle (Some (pa, dp)) ++ handles (finished q') ≡ₚ
    hcmd (parmPacket pe) :: handles (waiting q') ++ handles (finished q)).
  { rewrite Hf. cbn. rewrite Hp1. solve_Permutation. }
  split; unfold all_handles; cbn [queue busy requests returned]; rewrite ?Hf, ?Hb, ?Hh; auto.
  - lia.
  - rewrite Hf in Hperm. by rewrite Hperm.
  - rewrite Hf in Hperm. by rewrite Hperm.
  - intros p d [= <- <-]. split; [done|]. intros Hn.
    destruct (proj2 Hq' Hn) as (r & _ & _ & _ & Hl & Hbl). by rewrite (Hd Hn _ Hbl Hl).
  - intros Hl h r Hr. rewrite Hf in Hperm. rewrite Hperm. exact (H10 Hl h r Hr).
Qed.

Lemma inv_same k q w n n' rs rt q' :
  inv k (mk_rpc q w n rs rt) -> waiting q' = waiting q -> finished q' = finished q ->
  blocks q' = blocks q -> cmdhandle q' = cmdhandle q -> inv (k + 1) (mk_rpc q' w n' rs rt).
Proof.
  intros [H1 H2 H3 H4 H5 H6 H7 H8 H9 H10] Hw Hf Hb Hh. cbn in *. unfold all_handles in *. cbn in *.
  split; unfold all_handles; cbn [queue busy requests returned]; rewrite ?Hw, ?Hf, ?Hb, ?Hh; auto. lia.
Qed.

(** Where the handle of a packet stands apart from the others. *)
Lemma distinct_ne (l1 l2 : list entry) h e :
  NoDup (handles l1 ++ [h] ++ handles l2) -> e ∈ l1 ++ l2 -> hcmd (parmPacket e) <> h.
Proof.
  intros Hn He E. apply NoDup_app in Hn as (_ & Hd & Hn). cbn in Hn. apply NoDup_cons in Hn as [Hn _].
  apply elem_of_app in He as [He|He].
  - apply (Hd h); [|set_solver]. apply list_elem_of_fmap. eauto.
  - apply Hn, list_elem_of_fmap. eauto.
Qed.

Lemma inv_set k q pa dp n rs rt pid q' rc r :
  inv k (mk_rpc q (Some (pa, dp)) n rs rt) ->
  LX_ioctl_dmn pid LXIOCFN_DMN_CMDSETRESULTS
    (Some (set_rc (execute (p_cmd pa) dp).1 pa)) (Some (execute (p_cmd pa) dp).2) q
    = Ok ((rc, r), q') ->
  lossy = true \/ cmdBlockID pa = 0 \/ length (finished q') <> length (finished q) ->
  inv (k + 1) (mk_rpc q' None n rs rt).
Proof.
  intros [H1 H2 H3 H4 H5 H6 H7 H8 H9 H10] E Hloss.
  destruct (set_results_inv _ _ _ _ _ _ _ E) as (Hw & Hh & Hcase). cbn [cmdBlockID set_rc cbCmdDataLen] in Hcase.
  cbn in *. unfold all_handles in *. cbn in *. destruct (H7 _ _ eq_refl) as [Hq Hd].
  assert (Hperm0 : handles (waiting q) ++ hcmd pa :: handles (finished q) ≡ₚ
    hcmd pa :: handles (waiting q) ++ handles (finished q)) by solve_Permutation.
  destruct Hcase as [[Hf Hb]|(Hn & [e Hf] & Hb)].
  - pose proof H2 as H2'. rewrite Hperm0 in H2'. apply NoDup_cons in H2' as [_ H2'].
    rewrite Hperm0 in H3. apply Forall_cons in H3 as [_ H3].
    split; unfold all_handles; cbn [queue busy requests returned busy_handle app];
      rewrite ?Hw, ?Hf, ?Hb, ?Hh; auto; [lia|done|].
    intros Hl h r0 Hr0. destruct Hloss as [?|[Hz|Hlen]]; [congruence| |congruence].
    pose proof (H10 Hl h r0 Hr0) as Hin. rewrite Hperm0 in Hin.
    apply elem_of_cons in Hin as [->|Hin]; [|done]. rewrite (proj1 Hq Hz) in Hr0. done.
  - destruct (proj2 Hq Hn) as (r0 & Hr0 & Hb0 & Hc0 & Hl0 & Hd0).
    specialize (Hd Hn). assert (dp = r_data r0) as -> by congruence.
    specialize (Hb _ Hd0 ltac:(by rewrite execute_len) Hl0).
    assert (Hinj : forall h1 r1, rs !! h1 = Some r1 -> r_block r1 = r_block r0 -> h1 = hcmd pa)
      by (intros; by eapply H5).
    assert (Hbs : forall b, b <> r_block r0 -> blocks q' !! b = blocks q !! b).
    { intros b Hne. rewrite Hb, lookup_insert_ne; [done|congruence]. }
    assert (Hperm : handles (waiting q) ++ handles (finished q') ≡ₚ
      handles (waiting q) ++ hcmd pa :: handles (finished q)).
    { rewrite Hf, handles_app. cbn. solve_Permutation. }
    split; unfold all_handles; cbn [queue busy requests returned busy_handle app];
      rewrite ?Hw, ?Hh; auto; [lia|by rewrite Hperm|by rewrite Hperm| | |done| |].
    + intros h r1 Hr1. destruct (H4 h r1 Hr1) as (? & ? & ?). split; [done|]. split; [done|].
      rewrite Hb. apply lookup_insert_is_Some'. auto.
    + rewrite Forall_forall in *. intros x Hx.
      apply (queued_other (blocks q) _ rs _ _ (hcmd pa) r0); auto.
      apply (distinct_ne (waiting q) (finished q)); [exact H2|set_solver].
    + rewrite Hf. apply Forall_app. split.
      * rewrite Forall_forall in *. intros x Hx.
        apply (completed_other (blocks q) _ rs _ _ (hcmd pa) r0); auto.
        apply (distinct_ne (waiting q) (finished q)); [exact H2|set_solver].
      * apply Forall_singleton. exists r0, (execute (p_cmd pa) (r_data r0)).2. cbn.
        split; [done|]. split; [done|]. split; [done|]. split; [by rewrite Hb, lookup_insert_eq|].
        left. rewrite Hc0. by destruct (execute _ _).
    + intros Hl h r1 Hr1. rewrite Hperm. exact (H10 Hl h r1 Hr1).
Qed.

Lemma inv_collect k q w n rs rt h r p q' d :
  inv k (mk_rpc q w n rs rt) -> rs !! h = Some r ->
  LX_dmn_get_result (mk_packet 0 0 (r_cmd r) h (r_block r) (length (r_data r))) q
    = Ok (Some p, q') ->
  blocks q' !! r_block r = Some d ->
  inv (k + 1) (mk_rpc (without_block (r_block r) q') w n (delete h rs) ((r, p_rc p, d) :: rt)).
Proof.
  intros [H1 H2 H3 H4 H5 H6 H7 H8 H9 H10] Hr E Hd.
  destruct (get_result_inv _ _ _ _ E) as (e & l1 & l2 & Hf & Hf' & He & -> & Hw & Hb & Hh).
  cbn in *. unfold all_handles in *. cbn in *. rewrite Hb in Hd.
  assert (Hperm : handles (waiting q) ++ busy_handle w ++ handles (finished q) ≡ₚ
    h :: handles (waiting q) ++ busy_handle w ++ handles (finished q')).
  { rewrite Hf, Hf', !handles_app. cbn. rewrite He. solve_Permutation. }
  rewrite Hperm in H2, H3. apply NoDup_cons in H2 as [Hout H2]. apply Forall_cons in H3 as [_ H3].
  assert (Hinj : forall h1 r1, rs !! h1 = Some r1 -> r_block r1 = r_block r -> h1 = h)
    by (intros; by eapply H5).
  assert (Hbs : forall b, b <> r_block r -> delete (r_block r) (blocks q) !! b = blocks q !! b)
    by (intros; by rewrite lookup_delete_ne).
  assert (Hrs : forall j, j <> h -> delete h rs !! j = rs !! j) by (intros; by rewrite lookup_delete_ne).
  assert (Hne : forall x, x ∈ handles (waiting q) ++ busy_handle w ++ handles (finished q') -> x <> h)
    by (intros x Hx ->; done).
  split; unfold all_handles, without_block; cbn [queue busy requests returned waiting finished
    blocks cmdhandle]; rewrite ?Hw, ?Hb, ?Hh; auto.
  - lia.
  - intros j r1 [Hj Hr1]%lookup_delete_Some. destruct (H4 j r1 Hr1) as (? & ? & ?).
    split; [done|]. split; [done|]. rewrite Hbs; [done|]. intros Eb. apply Hj. symmetry. eauto.
  - intros h1 h2 r1 r2 [_ Hr1]%lookup_delete_Some [_ Hr2]%lookup_delete_Some. eauto.
  - rewrite Forall_forall in *. intros x Hx.
    apply (queued_other (blocks q) _ rs _ _ h r); auto. apply Hne.
    apply elem_of_app. left. apply list_elem_of_fmap. eauto.
  - intros p0 d0 E0. destruct (H7 p0 d0 E0) as [Hq0 Hd0].
    assert (Hp0 : hcmd p0 <> h) by (apply Hne; rewrite E0; set_solver).
    split; [by apply (queued_other (blocks q) _ rs _ _ h r)|]. intros Hn.
    rewrite Hbs; [auto|]. destruct (proj2 Hq0 Hn) as (r1 & Hr1 & Hb1 & _). intros Eb.
    apply Hp0. apply (Hinj _ r1); congruence.
  - rewrite Hf in H8. apply Forall_app in H8 as [H8 H8']. apply Forall_cons in H8' as [_ H8'].
    assert (H8'' : Forall (fun e => completed (blocks q) rs (parmPacket e)) (finished q')).
    { rewrite Hf'. by apply Forall_app. }
    rewrite Forall_forall in *. intros x Hx.
    apply (completed_other (blocks q) _ rs _ _ h r); auto. apply Hne.
    apply elem_of_app. right. apply elem_of_app. right. apply list_elem_of_fmap. eauto.
  - apply Forall_cons. split; [|done]. cbn. rewrite Hf in H8.
    apply Forall_app in H8 as [_ H8]. apply Forall_cons in H8 as [(r1 & d1 & Hr1 & Hb1 & _ & Hd1 & Ha) _].
    rewrite He, Hr in Hr1. injection Hr1 as <-. rewrite <- Hb1, Hd in Hd1. by injection Hd1 as <-.
  - intros Hl j r1 [Hj Hr1]%lookup_delete_Some. pose proof (H10 Hl j r1 Hr1) as Hin.
    rewrite Hperm in Hin. apply elem_of_cons in Hin as [->|Hin]; [done|exact Hin].
Qed.

Lemma completed_closed bs rs e :
  lossy = true ->
  queued bs rs (parmPacket e) -> cmdBlockID (parmPacket e) <> 0 ->
  completed bs rs (parmPacket (no_children ERROR_NO_CHILDREN e)).
Proof.
  intros Hl Hq Hn. destruct (proj2 Hq Hn) as (r & H1 & H2 & _ & _ & H5). exists r, (r_data r).
  cbn. split; [done|]. split; [done|]. split; [done|]. split; [done|]. by right.
Qed.

Lemma handles_no_children l : handles (no_children ERROR_NO_CHILDREN <$> l) = handles l.
Proof. unfold handles. rewrite <- list_fmap_compose. by apply list_fmap_ext. Qed.

Lemma inv_close k q w n rs rt q' rc :
  inv k (mk_rpc q w n rs rt) -> lossy = true ->
  LX_daemon_closed ERROR_NO_CHILDREN q = Ok (rc, q') -> inv (k + 1) (mk_rpc q' None n rs rt).
Proof.
  intros [H1 H2 H3 H4 H5 H6 H7 H8 H9 H10] Hlossy E.
  destruct (closed_inv ERROR_NO_CHILDREN q) as (q1 & E1 & Hw & Hf & Hb & Hh).
  rewrite E in E1. injection E1 as _ <-. cbn in *. unfold all_handles in *. cbn in *.
  set (wf := filter (fun e => cmdBlockID (parmPacket e) <> 0) (waiting q)) in *.
  assert (Hsub : handles wf ⊆+ handles (waiting q)).
  { apply fmap_submseteq. unfold wf. apply sublist_submseteq, sublist_filter. }
  assert (Hall : handles (finished q') ⊆+ handles (waiting q) ++ busy_handle w ++ handles (finished q)).
  { rewrite Hf, handles_no_children, handles_app, (Permutation_app_comm (handles (finished q))).
    apply submseteq_app; [done|]. apply submseteq_inserts_l. done. }
  destruct (submseteq_Permutation _ _ Hall) as [k' Hk'].
  split; unfold all_handles; cbn [queue busy requests returned busy_handle app];
    rewrite ?Hw, ?Hb, ?Hh; auto.
  - lia.
  - cbn. rewrite Hk' in H2. by apply NoDup_app in H2 as [? _].
  - cbn. rewrite Hk' in H3. by apply Forall_app in H3 as [? _].
  - done.
  - rewrite Hf. rewrite Forall_fmap. apply Forall_app. split; rewrite Forall_forall in *.
    + intros e He. destruct (H8 e He) as (r & d & ? & ? & ? & ? & _). exists r, d. cbn.
      repeat (split; [done|]). by right.
    + intros e He. unfold wf in He. apply list_elem_of_filter in He as [Hn He].
      apply completed_closed; auto.
  - intros ?. congruence.
Qed.

Lemma inv_step k s s' : inv k s -> k < 4294967294 -> step s s' -> inv (k + 1) s'.
Proof.
  intros Hi Hk Hs. destruct Hs as [q w n rs rt b cmd d q' p Hb0 Hfb Hld E|q w n rs rt b cmd d q' p Hfb Hld E|
    q n rs rt pid q' rc pa dp E|q n rs rt pid q' rc pa E|q pa dp n rs rt pid q' rc r E Hl|
    q w n rs rt h r p q' d Hr E Hd|q w n rs rt q' rc Hl E].
  - destruct (add_command_inv _ _ _ _ _ _ _ _ E) as (Hh & Hc & Hcm & Hbl & Hlen & (e & d' & Hw) & Hf & Hb).
    cbn in *. pose proof (ri_handle _ _ Hi) as Hhd. cbn in Hhd. rewrite next_handle_small in Hh by lia.
    assert (Hno : rs !! hcmd p = None).
    { destruct (rs !! hcmd p) as [r|] eqn:Er; [|done].
      destruct (ri_requests _ _ Hi _ _ Er) as [? _]. cbn in *. lia. }
    eapply (inv_enqueue k q w n rs rt q' p _ _ e d'); eauto; cbn; try congruence.
    + by apply insert_subseteq.
    + by apply insert_subseteq.
    + split; [congruence|]. intros _. exists (mk_request b cmd d).
      rewrite lookup_insert_eq. cbn. rewrite Hbl, lookup_insert_eq. auto.
    + intros h r [[<- <-]|[_ ?]]%lookup_insert_Some; [|by left]. right. cbn.
      rewrite lookup_insert_eq. split; [done|]. split; [done|]. split; [done|]. eauto.
  - destruct (add_command_inv _ _ _ _ _ _ _ _ E) as (Hh & Hc & Hcm & Hbl & Hlen & (e & d' & Hw) & Hf & Hb).
    cbn in *. pose proof (ri_handle _ _ Hi) as Hhd. cbn in Hhd. rewrite next_handle_small in Hh by lia.
    assert (Hbq : delete b (blocks q') = blocks q) by (rewrite Hb; by rewrite delete_insert_id).
    eapply (inv_enqueue k q w n rs rt (without_block b q') p _ rs e d'); eauto; cbn; try congruence.
    + split; [|congruence]. intros _. destruct (rs !! hcmd p) as [r|] eqn:Er; [|done].
      destruct (ri_requests _ _ Hi _ _ Er) as [? _]. cbn in *. lia.
  - by eapply inv_get.
  - destruct (get_small_inv _ _ _ _ _ _ E) as (? & ? & ? & ?). by eapply inv_same.
  - by eapply inv_set.
  - by eapply inv_collect.
  - by eapply inv_close.
Qed.

(** No commands, no requests; no handle has been given out. *)
Definition rpc_init (s : rpc H) : Prop :=
  cmdhandle (queue s) = 0 /\ waiting (queue s) = [] /\ finished (queue s) = [] /\
  busy s = None /\ requests s = ∅ /\ returned s = [].

Lemma init_inv s : rpc_init s -> inv 0 s.
Proof.
  destruct s as [q w n rs rt]. intros (Hc & Hw & Hf & Hb & Hr & Ht). cbn in *. subst.
  split; unfold all_handles; cbn; rewrite ?Hc, ?Hw, ?Hf; cbn; try done; constructor.
Qed.

Lemma steps_inv m s s' :
  nsteps step m s s' -> forall k, 0 <= k -> k + m <= 4294967294 -> inv k s -> inv (k + m) s'.
Proof.
  induction 1 as [s|m s1 s2 s3 Hs _ IH]; intros k Hk Hb Hi; [by rewrite Z.add_0_r|].
  replace (k + S m) with (k + 1 + m) by lia. apply IH; [lia..|]. apply (inv_step k s1); [done|lia|done].
Qed.
End RpcInv.

(** C4: in every interleaving of callers and daemon, with the handle counter
    not yet wrapped, each call that returned got the result of its own command
    on its own data, never another caller's; only when the daemon died may it
    be [ERROR_NO_CHILDREN] instead. *)
Theorem daemon_answers_its_caller {H} `{Heap H} code execute lossy m (s0 s : rpc H) :
  (forall c d, length (execute c d).2 = length d) -> rpc_init s0 ->
  nsteps (rpc_step code execute lossy) m s0 s -> Z.of_nat m <= 4294967294 ->
  Forall (fun '(r, rc, d) => answers code execute lossy r rc d) (returned s).
Proof.
  intros Hlen Hi Hs Hm.
  pose proof (steps_inv code execute lossy Hlen m s0 s Hs 0 ltac:(lia) ltac:(lia)
    (init_inv code execute lossy s0 Hi)) as Hinv.
  eapply Forall_impl; [exact (ri_returned _ _ _ _ _ Hinv)|]. by intros [[r rc] d].
Qed.

(** C5: while the daemon lives and its results can be stored, no request is
    lost: the command of every caller that still waits is in the queue, with
    the daemon, or finished, and all these commands are distinct. *)
Theorem daemon_loses_nothing {H} `{Heap H} code execute m (s0 s : rpc H) :
  (forall c d, length (execute c d).2 = length d) -> rpc_init s0 ->
  nsteps (rpc_step code execute false) m s0 s -> Z.of_nat m <= 4294967294 ->
  NoDup (all_handles s) /\ forall h r, requests s !! h = Some r -> h ∈ all_handles s.
Proof.
  intros Hlen Hi Hs Hm.
  pose proof (steps_inv code execute false Hlen m s0 s Hs 0 ltac:(lia) ltac:(lia)
    (init_inv code execute false s0 Hi)) as Hinv.
  split; [exact (ri_distinct _ _ _ _ _ Hinv)|]. exact (ri_pending _ _ _ _ _ Hinv eq_refl).
Qed.


(** ** Evaluated runs *)

Inductive event :=
  | e_call (b cmd : Z) (d : list Z)
  | e_post (b cmd : Z) (d : list Z)
  | e_fetch (pid : Z)
  | e_reply (pid : Z)
  | e_collect (h : Z)
  | e_close.

Section Run.
Context {H : Type} `{Heap H}.
Context (code : Z) (execute : Z -> list Z -> Z * list Z) (lossy : bool).

Definition fresh_block (b : Z) (d : list Z) (q : dmn H) : bool :=
  bool_decide (blocks q !! b = None) && (Z.of_nat (length d) <? 4294967296).

Definition rpc_exec (ev : event) (s : rpc H) : option (rpc H) :=
  let '(mk_rpc q w n rs rt) := s in
  match ev, w with
  | e_call b cmd d, _ =>
      if (b =? 0) || negb (fresh_block b d q) then None
      else match LX_dmn_add_command cmd 1 0 b (length d) (with_block b d q) with
           | Ok (Added p, q') => Some (mk_rpc q' w n (<[hcmd p := mk_request b cmd d]> rs) rt)
           | _ => None
           end
  | e_post b cmd d, _ =>
      if negb (fresh_block b d q) then None
      else match LX_dmn_add_command cmd 0 0 b (length d) (with_block b d q) with
           | Ok (Added p, q') => Some (mk_rpc (without_block b q') w n rs rt)
           | _ => None
           end
  | e_fetch pid, None =>
      match LX_ioctl_dmn pid LXIOCFN_DMN_CMDGET (Some (mk_packet 0 n 0 0 0 0)) (Some []) q with
      | Ok ((_, GetCommand pa dp), q') => Some (mk_rpc q' (Some (pa, dp)) n rs rt)
      | Ok ((_, GetTooSmall _), q') => Some (mk_rpc q' None (n + 4096) rs rt)
      | _ => None
      end
  | e_reply pid, Some (pa, dp) =>
      match LX_ioctl_dmn pid LXIOCFN_DMN_CMDSETRESULTS
              (Some (set_rc (execute (p_cmd pa) dp).1 pa)) (Some (execute (p_cmd pa) dp).2) q with
      | Ok (_, q') =>
          if lossy || (cmdBlockID pa =? 0) || negb (length (finished q') =? length (finished q))%nat
          then Some (mk_rpc q' None n rs rt) else None
      | _ => None
      end
  | e_collect h, _ =>
      match rs !! h with
      | Some r =>
          match LX_dmn_get_result (mk_packet 0 0 (r_cmd r) h (r_block r) (length (r_data r))) q with
          | Ok (Some p, q') =>
              match blocks q' !! r_block r with
              | Some d => Some (mk_rpc (without_block (r_block r) q') w n (delete h rs)
                                  ((r, p_rc p, d) :: rt))
              | None => None
              end
          | _ => None
          end
      | None => None
      end
  | e_close, _ =>
      if lossy then
        match LX_daemon_closed code q with
        | Ok (_, q') => Some (mk_rpc q' None n rs rt)
        | _ => None
        end
      else None
  | _, _ => None
  end.

Lemma rpc_exec_step ev s s' :
  rpc_exec ev s = Some s' -> rpc_step code execute lossy s s'.
Proof.
  destruct s as [q w n rs rt], ev as [b cmd d|b cmd d|pid|pid|h|]; unfold rpc_exec.
  - unfold fresh_block. destruct (b =? 0) eqn:Eb; [done|]. case_bool_decide; [|done].
    destruct (_ <? _) eqn:El; [|done]. cbn.
    destruct (LX_dmn_add_command _ _ _ _ _ _) as [[[]]|] eqn:E; try done.
    intros [= <-]. eapply step_call; eauto; lia.
  - unfold fresh_block. case_bool_decide; [|done]. destruct (_ <? _) eqn:El; [|done]. cbn.
    destruct (LX_dmn_add_command _ _ _ _ _ _) as [[[]]|] eqn:E; try done.
    intros [= <-]. eapply step_post; eauto; lia.
  - destruct w as [[]|]; [done|].
    destruct (LX_ioctl_dmn _ _ _ _ _) as [[[? []]]|] eqn:E; try done; intros [= <-].
    + by eapply step_grow.
    + by eapply step_get.
  - destruct w as [[pa dp]|]; [|done].
    destruct (LX_ioctl_dmn _ _ _ _ _) as [[[? ?]]|] eqn:E; try done.
    destruct (_ || _) eqn:El; [|done]. intros [= <-]. eapply step_set; [exact E|].
    destruct lossy; [by left|]. destruct (cmdBlockID pa =? 0) eqn:Ez; [right; left; lia|].
    right; right. cbn in El. destruct (_ =? _)%nat eqn:En; [done|]. by apply Nat.eqb_neq.
  - destruct (rs !! h) as [r|] eqn:Er; [|done]. cbn.
    destruct (LX_dmn_get_result _ _) as [[[p|] q']|] eqn:E; try done.
    destruct (blocks q' !! r_block r) as [d|] eqn:Ed; [|done]. cbn. intros [= <-].
    by eapply step_collect.
  - destruct lossy eqn:El; [|done]. destruct (LX_daemon_closed _ _) as [[? q']|] eqn:E; [|done].
    intros [= <-]. by eapply step_close.
Qed.

Fixpoint rpc_run (evs : list event) (s : rpc H) : option (rpc H) :=
  match evs with
  | [] => Some s
  | ev :: evs => match rpc_exec ev s with Some s' => rpc_run evs s' | None => None end
  end.

Lemma rpc_run_steps evs s s' :
  rpc_run evs s = Some s' -> nsteps (rpc_step code execute lossy) (length evs) s s'.
Proof.
  revert s. induction evs as [|ev evs IH]; intros s; cbn.
  - intros [= <-]. constructor.
  - destruct (rpc_exec ev s) as [s1|] eqn:E; [|done]. intros Hr.
    econstructor; [by eapply rpc_exec_step|auto].
Qed.
End Run.

Definition idle : rpc arena :=
  mk_rpc (mk_dmn LX_DAEMON_STATE_RUNNING 5 0 [] [] ∅ (arena0 20) []) None 64 ∅ [].
(** A daemon that turns the data around and returns the command number. *)
Definition reverser (c : Z) (d : list Z) : Z * list Z := (c, rev d).

Definition two_callers : list event :=
  [e_call 8 70 [1; 2; 3]; e_call 16 71 [4; 5]; e_fetch 5; e_post 24 72 [9]; e_reply 5;
   e_fetch 5; e_reply 5; e_collect 2; e_collect 1; e_fetch 5].

Definition run_result (lossy : bool) (evs : list event) : list (request * Z * list Z) * list Z :=
  match rpc_run 191 reverser lossy evs idle with
  | Some s => (returned s, all_handles s)
  | None => ([], [])
  end.

Example two_callers_answered :
  run_result false two_callers =
    ([(mk_request 8 70 [1; 2; 3], 70, [3; 2; 1]); (mk_request 16 71 [4; 5], 71, [5; 4])], [3]).
Proof. vm_compute. reflexivity. Qed.

(** The daemon dies with the first caller's command: the second caller gets
    [ERROR_NO_CHILDREN], the first one's command is nowhere and it waits for
    ever, although it is still registered. *)
Example command_lost_with_daemon :
  match rpc_run 191 reverser true
          [e_call 8 70 [1]; e_call 16 71 [4]; e_fetch 5; e_close; e_collect 2] idle with
  | Some s => returned s = [(mk_request 16 71 [4], 191, [4])] /\ all_handles s = [] /\
      requests s !! 1 = Some (mk_request 8 70 [1])
  | None => False
  end.
Proof. vm_compute. split; [|split]; reflexivity. Qed.

(** A finished command's own code is overwritten. *)
Example finished_code_overwritten :
  (run_result true [e_call 8 70 [1; 2]; e_fetch 5; e_reply 5; e_close; e_collect 1]).1 =
    [(mk_request 8 70 [1; 2], 191, [2; 1])].
Proof. vm_compute. reflexivity. Qed.

Definition two_callers_end : rpc arena :=
  default idle (rpc_run 191 reverser false two_callers idle).

Lemma two_callers_run :
  nsteps (rpc_step 191 reverser false) 10 idle two_callers_end.
Proof. apply (rpc_run_steps 191 reverser false two_callers). vm_compute. reflexivity. Qed.

Lemma reverser_len c d : length (reverser c d).2 = length d.
Proof. apply length_rev. Qed.

Lemma daemon_answers_its_caller_witness :
  length (returned two_callers_end) = 2%nat /\
  Forall (fun '(r, rc, d) => answers 191 reverser false r rc d) (returned two_callers_end).
Proof.
  split; [vm_compute; reflexivity|].
  apply (daemon_answers_its_caller 191 reverser false 10 idle two_callers_end).
  - exact reverser_len.
  - repeat split.
  - exact two_callers_run.
  - lia.
Defined.

Lemma daemon_loses_nothing_witness :
  NoDup (all_handles two_callers_end) /\
  forall h r, requests two_callers_end !! h = Some r -> h ∈ all_handles two_callers_end.
Proof.
  apply (daemon_loses_nothing 191 reverser 10 idle two_callers_end).
  - exact reverser_len.
  - repeat split.
  - exact two_callers_run.
  - lia.
Defined.
