(* ===== verification/DosApi.v ===== *)
(** * The OS/2 API the daemon calls

    [DosApi] is the interface of the operating system: what the daemon passes
    to a call and what the call may write.  A buffer a call may fill is passed
    with its old contents.  Names are NUL-free byte lists.  [disk] is a small
    system for concrete runs. *)

From S2P Require Import Prelude.

Class DosApi (W : Type) := {
  DosDelete : list Z -> W -> Z * W;
  DosDeleteDir : list Z -> W -> Z * W;
  DosCreateDir : list Z -> W -> Z * W;
  DosMove : list Z -> list Z -> W -> Z * W;
  DosCopy : list Z -> list Z -> Z -> W -> Z * W;
  (** name, handle and action, size, attribute, open flags, open mode *)
  DosOpen : list Z -> Z * Z -> Z -> Z -> Z -> Z -> W -> Z * (Z * Z) * W;
  DosClose : Z -> W -> Z * W;
  (** handle, buffer, length, actual length *)
  DosRead : Z -> list Z -> Z -> Z -> W -> Z * (list Z * Z) * W;
  DosWrite : Z -> list Z -> Z -> W -> Z * Z * W;
  DosSetFilePtr : Z -> Z -> Z -> Z -> W -> Z * Z * W;
  DosSetFileSize : Z -> Z -> W -> Z * W;
  DosQueryFileInfo : Z -> Z -> list Z -> Z -> W -> Z * list Z * W;
  DosSetFileInfo : Z -> Z -> list Z -> Z -> W -> Z * W;
  DosQueryPathInfo : list Z -> Z -> list Z -> Z -> W -> Z * list Z * W;
  DosSetPathInfo : list Z -> Z -> list Z -> Z -> Z -> W -> Z * W;
  (** specification, handle, attributes, buffer, its length, count, level *)
  DosFindFirst : list Z -> Z -> Z -> list Z -> Z -> Z -> Z -> W -> Z * (Z * list Z * Z) * W;
  DosFindNext : Z -> list Z -> Z -> Z -> W -> Z * (list Z * Z) * W;
  DosFindClose : Z -> W -> Z * W;
  DosQueryCurrentDisk : Z * Z -> W -> Z * (Z * Z) * W;
  (** reference type, the bytes that hold the name or the handle, entry,
      buffer, its length, count, level *)
  DosEnumAttribute : Z -> list Z -> Z -> list Z -> Z -> Z -> Z -> W -> Z * (list Z * Z) * W;
  DosScanEnv : list Z -> W -> Z * list Z * W;
  DosBeep : Z -> Z -> W -> Z * W;
  DosQuerySysInfo : Z -> Z -> list Z -> Z -> W -> Z * list Z * W;
  (** failing name buffer, its length, flags, argument block, environment
      block, result codes, program *)
  DosExecPgm : list Z -> Z -> Z -> option (list Z) -> option (list Z) -> Z * Z -> list Z ->
    W -> Z * (list Z * (Z * Z)) * W;
  DosAllocMem : Z -> W -> Z * Z * W;
  DosFreeMem : Z -> W -> Z * W
}.

(** ** A disk for concrete runs *)

(** Files by name, open handles with their position, memory for the daemon. *)
Record disk := mk_disk {
  files : gmap (list Z) (list Z);
  handles_open : gmap Z (list Z * nat);
  next_hf : Z;
  blocks_free : nat
}.

Definition ERROR_FILE_NOT_FOUND : Z := 2.
Definition ERROR_INVALID_HANDLE : Z := 6.
Definition ERROR_NOT_ENOUGH_MEMORY : Z := 8.
Definition ERROR_NO_MORE_FILES : Z := 18.
Definition ERROR_INVALID_PARAMETER : Z := 87.
Definition DCPY_EXISTING : Z := 1.

Definition set_files (f : gmap (list Z) (list Z)) (d : disk) : disk :=
  mk_disk f (handles_open d) (next_hf d) (blocks_free d).
Definition set_handles (h : gmap Z (list Z * nat)) (d : disk) : disk :=
  mk_disk (files d) h (next_hf d) (blocks_free d).

Definition disk_seek (h ib method : Z) (actual : Z) (d : disk) : Z * Z * disk :=
  match handles_open d !! h with
  | Some (n, pos) =>
      let base := if method =? 0 then 0 else if method =? 1 then Z.of_nat pos
                  else Z.of_nat (length (default [] (files d !! n))) in
      (0, base + ib, set_handles (<[h := (n, Z.to_nat (base + ib))]> (handles_open d)) d)
  | None => (ERROR_INVALID_HANDLE, actual, d)
  end.

(** [e] written to the start of the buffer [b], as far as it fits. *)
Definition fill_buffer (e b : list Z) : list Z := take (length b) (e ++ drop (length e) b).

Lemma fill_buffer_length e b : length (fill_buffer e b) = length b.
Proof. unfold fill_buffer. rewrite length_take, length_app, length_drop. lia. Qed.

(** The entries of the only directory: attribute and name; a name with a
    slash at its end is a subdirectory. *)
Definition dir_entries (d : disk) : list (list Z) :=
  (fun x : list Z * list Z => (if decide (last x.1 = Some 47) then 16 else 0) :: x.1) <$> map_to_list (files d).

(** Bytes [pos..] of a file replaced. *)
Definition splice (pos : nat) (data l : list Z) : list Z :=
  take pos l ++ data ++ drop (pos + length data) l.

#[export] Instance disk_DosApi : DosApi disk := {
  DosDelete := fun n d =>
    if decide (is_Some (files d !! n)) then (0, set_files (delete n (files d)) d)
    else (ERROR_FILE_NOT_FOUND, d);
  DosDeleteDir := fun _ d => (ERROR_FILE_NOT_FOUND, d);
  DosCreateDir := fun _ d => (ERROR_INVALID_PARAMETER, d);
  DosMove := fun a b d =>
    match files d !! a with
    | Some x => (0, set_files (<[b := x]> (delete a (files d))) d)
    | None => (ERROR_FILE_NOT_FOUND, d)
    end;
  DosCopy := fun a b _ d =>
    match files d !! a with
    | Some x => (0, set_files (<[b := x]> (files d)) d)
    | None => (ERROR_FILE_NOT_FOUND, d)
    end;
  DosOpen := fun n _ _ _ _ _ d =>
    (0, (next_hf d, 1),
     mk_disk (<[n := default [] (files d !! n)]> (files d))
       (<[next_hf d := (n, O)]> (handles_open d)) (next_hf d + 1) (blocks_free d));
  DosClose := fun h d =>
    if decide (is_Some (handles_open d !! h)) then (0, set_handles (delete h (handles_open d)) d)
    else (ERROR_INVALID_HANDLE, d);
  DosRead := fun h buf cb actual d =>
    match handles_open d !! h with
    | Some (n, pos) =>
        let got := take (Z.to_nat cb) (drop pos (default [] (files d !! n))) in
        (0, (got ++ drop (length got) buf, Z.of_nat (length got)),
         set_handles (<[h := (n, (pos + length got)%nat)]> (handles_open d)) d)
    | None => (ERROR_INVALID_HANDLE, (buf, actual), d)
    end;
  DosWrite := fun h data actual d =>
    match handles_open d !! h with
    | Some (n, pos) =>
        (0, Z.of_nat (length data),
         mk_disk (<[n := splice pos data (default [] (files d !! n))]> (files d))
           (<[h := (n, (pos + length data)%nat)]> (handles_open d)) (next_hf d) (blocks_free d))
    | None => (ERROR_INVALID_HANDLE, actual, d)
    end;
  DosSetFilePtr := disk_seek;
  DosSetFileSize := fun h cb d =>
    match handles_open d !! h with
    | Some (n, _) =>
        let l := default [] (files d !! n) in
        (0, set_files (<[n := take (Z.to_nat cb) (l ++ replicate (Z.to_nat cb) 0)]> (files d)) d)
    | None => (ERROR_INVALID_HANDLE, d)
    end;
  DosQueryFileInfo := fun _ _ b _ d => (ERROR_INVALID_PARAMETER, b, d);
  DosSetFileInfo := fun _ _ _ _ d => (ERROR_INVALID_PARAMETER, d);
  DosQueryPathInfo := fun n _ b cb d =>
    match files d !! n with
    | Some l => (0, if 0 <? cb then Z.of_nat (length l) :: drop 1 b else b, d)
    | None => (ERROR_FILE_NOT_FOUND, b, d)
    end;
  DosSetPathInfo := fun _ _ _ _ _ d => (ERROR_INVALID_PARAMETER, d);
  DosFindFirst := fun _ h _ b _ c _ d =>
    match dir_entries d with
    | e :: _ => (0, (next_hf d, fill_buffer e b, 1),
                 mk_disk (files d) (<[next_hf d := ([], 1%nat)]> (handles_open d)) (next_hf d + 1)
                   (blocks_free d))
    | [] => (ERROR_NO_MORE_FILES, (h, b, c), d)
    end;
  DosFindNext := fun h b _ c d =>
    match handles_open d !! h with
    | Some (_, pos) =>
        match dir_entries d !! pos with
        | Some e => (0, (fill_buffer e b, 1), set_handles (<[h := ([], S pos)]> (handles_open d)) d)
        | None => (ERROR_NO_MORE_FILES, (b, c), d)
        end
    | None => (ERROR_INVALID_HANDLE, (b, c), d)
    end;
  DosFindClose := fun h d => (0, set_handles (delete h (handles_open d)) d);
  DosQueryCurrentDisk := fun _ d => (0, (3, 4), d);
  DosEnumAttribute := fun _ _ _ b _ c _ d => (ERROR_INVALID_PARAMETER, (b, c), d);
  DosScanEnv := fun _ d => (ERROR_INVALID_PARAMETER, [], d);
  DosBeep := fun _ _ d => (0, d);
  DosQuerySysInfo := fun _ _ b _ d => (ERROR_INVALID_PARAMETER, b, d);
  DosExecPgm := fun b _ _ _ _ r _ d => (ERROR_FILE_NOT_FOUND, (b, r), d);
  DosAllocMem := fun _ d =>
    match blocks_free d with
    | O => (ERROR_NOT_ENOUGH_MEMORY, 0, d)
    | S n => (0, 65536 * Z.of_nat (S n), mk_disk (files d) (handles_open d) (next_hf d) n)
    end;
  DosFreeMem := fun _ d =>
    (0, mk_disk (files d) (handles_open d) (next_hf d) (S (blocks_free d)))
}.

Definition disk0 : disk := mk_disk ∅ ∅ 1 4.
