(* ===== verification/DaemonCmd.v ===== *)
(** * The daemon process (Daemon/lxapid.c, lxapid_cmd.c, lxerrmap.c)

    The daemon fetches a command and its data structure from the driver, runs
    the handler of the command table and returns structure and code.  The
    structures of lxdaemon.h are the constructors of [payload]; a fixed
    character array is a list of its bytes, read up to its first NUL.  The
    extended attribute functions of the XWorkplace helpers and the layouts of
    the toolkit's structures are the interface [EahApi]. *)

From S2P Require Import Prelude CString DevHlp Memory Heap DaemonQueue DosApi.

Class EahApi (W : Type) := {
  (** file, name, buffer, its length: the value and its length *)
  eahReadStringEA : list Z -> list Z -> list Z -> Z -> W -> Z * (list Z * Z) * W;
  eahWriteStringEA : Z -> list Z -> list Z -> W -> Z * W;
  eaPathDeleteOne : list Z -> list Z -> W -> Z * W;
  fb_attrFile : list Z -> Z;
  fb_achName : list Z -> list Z;
  fs4_attrFile : list Z -> Z;
  fs4_cbList : list Z -> Z;
  (** sizes and codes of the toolkit's headers *)
  FILEFINDBUF3_len : nat;
  FILESTATUS4_len : nat;
  FILESTATUS3_len : nat;
  FINDUNION_len : nat;        (* of the find structure's union *)
  FIL_STANDARD : Z;
  FIL_QUERYEASIZE : Z;
  find_all : Z;               (* the attribute mask of the searches *)
  FILE_DIRECTORY : Z;
  HDIR_CREATE : Z;
  FILE_NORMAL : Z;
  FILE_END : Z;
  open_action : Z;            (* open if existing, fail if new *)
  log_action : Z;             (* open if existing, create if new *)
  open_mode : Z;
  ERROR_BUFFER_OVERFLOW : Z
}.

Definition LX_MAXPATH : nat := 260.

(** ** Names in structures *)

(** The C string in a character array; running off its end is a fault. *)
Fixpoint array_str (l : list Z) : res (list Z) :=
  match l with
  | [] => Err BadAccess
  | c :: l => if c =? 0 then Ok [] else match array_str l with Ok s => Ok (c :: s) | Err e => Err e end
  end.

Definition cstring (l : list Z) : Prop := Forall (fun c => c <> 0) l.

(** A string of the C library's argument passing is terminated. *)
Definition get_str {S} (l : list Z) : M S (list Z) := fun s =>
  match array_str l with Ok x => Ok (x, s) | Err e => Err e end.

(** [strcpy] of [s] into an array of [n] bytes, cleared before. *)
Definition array_of {S} (n : nat) (s : list Z) : M S (list Z) :=
  if (length s <? n)%nat then mret (strncpy_field n s) else throw BadAccess.

Lemma array_str_app s l : cstring s -> array_str (s ++ 0 :: l) = Ok s.
Proof.
  induction 1 as [|c s Hc _ IH]; [done|]. cbn. destruct (c =? 0) eqn:E; [lia|]. by rewrite IH.
Qed.

Lemma array_str_long s : cstring s -> array_str s = Err BadAccess.
Proof. induction 1 as [|c s Hc _ IH]; [done|]. cbn. destruct (c =? 0) eqn:E; [lia|]. by rewrite IH. Qed.

(** [strncpy] into a field and back. *)
Lemma array_str_field n s :
  cstring s -> (length s < n)%nat -> array_str (strncpy_field n s) = Ok s.
Proof.
  intros Hs Hn. unfold strncpy_field. rewrite take_ge by lia.
  destruct (n - length s)%nat as [|k] eqn:E; [lia|]. cbn. by apply array_str_app.
Qed.

Lemma array_str_field_long n s :
  cstring s -> (n <= length s)%nat -> array_str (strncpy_field n s) = Err BadAccess.
Proof.
  intros Hs Hn. unfold strncpy_field. replace (n - length s)%nat with O by lia.
  cbn. rewrite app_nil_r. apply array_str_long. by apply Forall_take.
Qed.

(** ** Numbers in names *)

Fixpoint digits (fuel : nat) (n : Z) : list Z :=
  match fuel with
  | O => []
  | S fuel => if n <? 10 then [48 + n] else digits fuel (n / 10) ++ [48 + n mod 10]
  end.

Definition itoa10 (d : Z) : list Z := if d <? 0 then 45 :: digits 11 (- d) else digits 11 d.

Fixpoint atoi_digits (acc : Z) (l : list Z) : Z :=
  match l with
  | c :: l => if (48 <=? c) && (c <=? 57) then atoi_digits (s32 (acc * 10 + (c - 48))) l else acc
  | [] => acc
  end.

Fixpoint atoi (l : list Z) : Z :=
  match l with
  | 32 :: l => atoi l
  | 45 :: l => s32 (- atoi_digits 0 l)
  | 43 :: l => atoi_digits 0 l
  | l => atoi_digits 0 l
  end.

Fixpoint simple_d_sprintf_loop (tmp fmt : list Z) : list Z :=
  match fmt with
  | [] => []
  | 37 :: (100 :: fmt) => tmp ++ simple_d_sprintf_loop tmp fmt
  | c :: fmt => c :: simple_d_sprintf_loop tmp fmt
  end.
Definition simple_d_sprintf (fmt : list Z) (d : Z) : list Z := simple_d_sprintf_loop (itoa10 d) fmt.

(** "LX_LC", "LX_LB_%d", "LX_LT", "LX_MODE", "LX_UID", "LX_GID" *)
Definition LXEAN_LINKBYCOUNT : list Z := [76; 88; 95; 76; 67].
Definition LXEAN_LINKEDBY : list Z := [76; 88; 95; 76; 66; 95; 37; 100].
Definition LXEAN_LINKEDTO : list Z := [76; 88; 95; 76; 84].
Definition LXEAN_MODE : list Z := [76; 88; 95; 77; 79; 68; 69].
Definition LXEAN_UID : list Z := [76; 88; 95; 85; 73; 68].
Definition LXEAN_GID : list Z := [76; 88; 95; 71; 73; 68].

(** ** The data structures of the commands *)

Record getfileinfo := mk_getfileinfo {
  gf_fileName : list Z; gf_linkName : list Z; gf_fs4 : list Z;
  num_subdirs : Z; num_files : Z; lc_count : Z; link_broken : Z;
  gf_mode : Z; gf_uid : Z; gf_gid : Z; gf_flags : Z
}.

Inductive payload :=
  | P_ONENAME (name : list Z)
  | P_TWONAME (name1 name2 : list Z)
  | P_HANDLE (h : Z)
  | P_DOSBEEP (frequency duration : Z)
  | P_TEXT (data : list Z)
  | P_CREATEDIR (dirName : list Z)
  | P_OPEN (fileName : list Z) (hFile ulAction cbFile ulAttribute fsOpenFlags fsOpenMode : Z)
  | P_FIND (hDir cbBuf cFileNames flAttribute : Z) (fileSpec : list Z) (ulInfoLevel : Z)
      (findbuf : list Z)
  | P_DISK (diskNum driveMap : Z)
  | P_SETFILEPTR (hFile ib method ibActual : Z)
  | P_READWRITE (hFile cbReadWrite cbActual : Z) (data : list Z)
  | P_SYSINFO (iStart iLast cbBuf : Z) (data : list Z)
  | P_EXECPGM (objname : list Z) (cbObjname execFlag : Z) (result : Z * Z) (name : list Z)
      (arg env : option (list Z))
  | P_FILESIZE (hFile cbSize : Z)
  | P_FILEINFO (hFile ulInfoLevel : Z) (filestatus : list Z) (cbInfoBuf : Z)
  | P_PATHINFO (pathName : list Z) (ulInfoLevel cbInfoBuf flOptions : Z) (info : list Z)
  | P_ENUM (ulRefType : Z) (vFile : list Z) (ulEntry cbBuf ulCount ulInfoLevel : Z) (data : list Z)
  | P_COPY (sourceFile targetFile : list Z) (option : Z)
  | P_EASTRING (fileName : list Z) (eaValLen : Z) (eaName eaVal : list Z)
  | P_GETFILEINFO (pf : getfileinfo)
  | P_NONE.

(** ** The process *)

Record lxapid (W : Type) := mk_lxapid {
  os : W;
  dataLen : Z;
  pData : Z;
  param : packet;
  logfilename : list Z
}.
Arguments mk_lxapid {W}. Arguments os {W}. Arguments dataLen {W}. Arguments pData {W}.
Arguments param {W}. Arguments logfilename {W}.

Definition set_max (n : Z) (p : packet) : packet :=
  mk_packet (p_rc p) n (p_cmd p) (hcmd p) (cmdBlockID p) (cbCmdDataLen p).

Section Daemon.
Context {W : Type} `{DosApi W} `{EahApi W}.
Abbreviation D := (M (lxapid W)).
(** A bound on the directory entries and levels of one command. *)
Context (walk : nat).

Definition call {A} (f : W -> A * W) : D A := fun s =>
  let '(a, w) := f (os s) in
  Ok (a, mk_lxapid w (dataLen s) (pData s) (param s) (logfilename s)).
Definition set_param (f : packet -> packet) : D unit :=
  modify (fun s => mk_lxapid (os s) (dataLen s) (pData s) (f (param s)) (logfilename s)).
Definition param_rc (rc : Z) : D unit := set_param (set_rc rc).
Definition set_buffer (p len : Z) : D unit :=
  modify (fun s => mk_lxapid (os s) len p (param s) (logfilename s)).
Definition set_logname (l : list Z) : D unit :=
  modify (fun s => mk_lxapid (os s) (dataLen s) (pData s) (param s) l).

(** ** The log and the data buffer *)

(** [text] is the memory the argument points to. *)
Definition writeLog (text : list Z) : D Z :=
  s ← get;
  (match logfilename s with
   | [] => mret tt
   | name =>
       r ← call (DosOpen name (0, 0) 0 FILE_NORMAL log_action open_mode);
       param_rc r.1 ≫= fun _ =>
       if r.1 =? 0 then
         r1 ← call (DosSetFilePtr r.2.1 0 FILE_END 0);
         param_rc r1.1 ≫= fun _ =>
         (if r1.1 =? 0 then
            let n := cbCmdDataLen (param s) in
            let n := if 1 <? n then n - 1 else n in
            if Z.of_nat (length text) <? n then throw BadAccess
            else r2 ← call (DosWrite r.2.1 (take (Z.to_nat n) text) r1.2); param_rc r2.1
          else mret tt) ≫= fun _ =>
         r3 ← call (DosClose r.2.1); mret tt
       else mret tt
   end) ≫= fun _ =>
  gets (fun s => p_rc (param s)).

Definition increaseDataPacketLength : D Z :=
  s ← get;
  set_buffer (pData s) (u32 (dataLen s + 4096)) ≫= fun _ =>
  set_param (set_max (u32 (dataLen s + 4096))) ≫= fun _ =>
  r ← call (DosAllocMem (u32 (dataLen s + 4096)));
  param_rc r.1 ≫= fun _ =>
  (if r.1 =? 0 then
     set_buffer r.2 (u32 (dataLen s + 4096)) ≫= fun _ =>
     if pData s =? 0 then mret tt else r2 ← call (DosFreeMem (pData s)); mret tt
   else set_buffer (pData s) (u32 (u32 (dataLen s + 4096) - 4096))) ≫= fun _ =>
  mret r.1.

(** The last character of a name replaced. *)
Definition with_last (c : Z) (l : list Z) : list Z := removelast l ++ [c].

Fixpoint rotate (i : nat) (logfile : list Z) : D unit :=
  match i with
  | O => mret tt
  | S j =>
      r ← call (DosCopy (with_last (48 + Z.of_nat j) logfile)
                        (with_last (48 + Z.of_nat i) logfile) DCPY_EXISTING);
      rotate j logfile
  end.

Definition setLogFile (logfile : list Z) : D Z :=
  if (300 <=? length logfile)%nat || (length logfile =? 0)%nat then throw BadAccess else
  rotate 9 logfile ≫= fun _ =>
  r ← call (DosCopy logfile (with_last 48 logfile) DCPY_EXISTING);
  r ← call (DosDelete logfile);
  if (LX_MAXPATH <=? length logfile)%nat then throw BadAccess
  else set_logname logfile ≫= fun _ => mret 0.

Definition CMD_IncreaseDataPacketLength (p : payload) : D payload :=
  increaseDataPacketLength ≫= fun _ => mret p.
Definition CMD_SetLogFile (p : payload) : D payload :=
  match p with
  | P_TEXT l => n ← get_str l; setLogFile n ≫= fun _ => mret p
  | _ => throw BadAccess
  end.
Definition CMD_WriteLog (p : payload) : D payload :=
  match p with
  | P_TEXT l => writeLog l ≫= fun _ => mret p
  | _ => throw BadAccess
  end.

(** ** Commands that are one call of the system

    A structure the command does not expect is a fault. *)

Definition CMD_DosCreateDir (p : payload) : D payload :=
  match p with
  | P_CREATEDIR d => n ← get_str d; rc ← call (DosCreateDir n); param_rc rc ≫= fun _ => mret p
  | _ => throw BadAccess
  end.
Definition CMD_DosMove (p : payload) : D payload :=
  match p with
  | P_TWONAME a b =>
      n1 ← get_str a; n2 ← get_str b; rc ← call (DosMove n1 n2); param_rc rc ≫= fun _ => mret p
  | _ => throw BadAccess
  end.
Definition CMD_DosOpen (p : payload) : D payload :=
  match p with
  | P_OPEN f h act cb attr fl mode =>
      n ← get_str f;
      r ← call (DosOpen n (h, act) cb attr fl mode);
      param_rc r.1 ≫= fun _ => mret (P_OPEN f r.2.1 r.2.2 cb attr fl mode)
  | _ => throw BadAccess
  end.
Definition CMD_DosQueryCurrentDisk (p : payload) : D payload :=
  match p with
  | P_DISK a b =>
      r ← call (DosQueryCurrentDisk (a, b)); param_rc r.1 ≫= fun _ => mret (P_DISK r.2.1 r.2.2)
  | _ => throw BadAccess
  end.
Definition CMD_DosFindFirst (p : payload) : D payload :=
  match p with
  | P_FIND h cb c attr spec level buf =>
      n ← get_str spec;
      r ← call (DosFindFirst n h attr buf cb c level);
      param_rc r.1 ≫= fun _ => mret (P_FIND r.2.1.1 cb r.2.2 attr spec level r.2.1.2)
  | _ => throw BadAccess
  end.
Definition CMD_DosFindNext (p : payload) : D payload :=
  match p with
  | P_FIND h cb c attr spec level buf =>
      r ← call (DosFindNext h buf cb c);
      param_rc r.1 ≫= fun _ => mret (P_FIND h cb r.2.2 attr spec level r.2.1)
  | _ => throw BadAccess
  end.
Definition CMD_DosRead (p : payload) : D payload :=
  match p with
  | P_READWRITE h cb act data =>
      r ← call (DosRead h data cb act);
      param_rc r.1 ≫= fun _ => mret (P_READWRITE h cb r.2.2 r.2.1)
  | _ => throw BadAccess
  end.
Definition CMD_DosWrite (p : payload) : D payload :=
  match p with
  | P_READWRITE h cb act data =>
      if Z.of_nat (length data) <? cb then throw BadAccess else
      r ← call (DosWrite h (take (Z.to_nat cb) data) act);
      param_rc r.1 ≫= fun _ => mret (P_READWRITE h cb r.2 data)
  | _ => throw BadAccess
  end.
(** The value is copied back over the name, into the buffer of its length. *)
Definition CMD_DosScanEnv (p : payload) : D payload :=
  match p with
  | P_TEXT l =>
      n ← get_str l;
      r ← call (DosScanEnv n);
      param_rc r.1 ≫= fun _ =>
      if r.1 =? 0 then
        if (length r.2 <? length l)%nat
        then mret (P_TEXT (r.2 ++ 0 :: drop (S (length r.2)) l)) else throw BadAccess
      else mret p
  | _ => throw BadAccess
  end.
(** The buffer starts at the structure itself. *)
Definition CMD_DosQuerySysInfo (p : payload) : D payload :=
  match p with
  | P_SYSINFO a b cb data =>
      r ← call (DosQuerySysInfo a b data cb);
      param_rc r.1 ≫= fun _ => mret (P_SYSINFO a b cb r.2)
  | _ => throw BadAccess
  end.
Definition CMD_DosSetFileSize (p : payload) : D payload :=
  match p with
  | P_FILESIZE h cb => rc ← call (DosSetFileSize h cb); param_rc rc ≫= fun _ => mret p
  | _ => throw BadAccess
  end.
Definition CMD_DosQueryFileInfo (p : payload) : D payload :=
  match p with
  | P_FILEINFO h level b cb =>
      r ← call (DosQueryFileInfo h level b cb);
      param_rc r.1 ≫= fun _ => mret (P_FILEINFO h level r.2 cb)
  | _ => throw BadAccess
  end.
Definition CMD_DosSetFileInfo (p : payload) : D payload :=
  match p with
  | P_FILEINFO h level b cb =>
      rc ← call (DosSetFileInfo h level b cb); param_rc rc ≫= fun _ => mret p
  | _ => throw BadAccess
  end.
Definition CMD_DosQueryPathInfo (p : payload) : D payload :=
  match p with
  | P_PATHINFO f level cb fl b =>
      n ← get_str f;
      r ← call (DosQueryPathInfo n level b cb);
      param_rc r.1 ≫= fun _ => mret (P_PATHINFO f level cb fl r.2)
  | _ => throw BadAccess
  end.
Definition CMD_DosSetPathInfo (p : payload) : D payload :=
  match p with
  | P_PATHINFO f level cb fl b =>
      n ← get_str f;
      rc ← call (DosSetPathInfo n level b cb fl); param_rc rc ≫= fun _ => mret p
  | _ => throw BadAccess
  end.
Definition CMD_DosEnumAttribute (p : payload) : D payload :=
  match p with
  | P_ENUM ty f e cb c level b =>
      r ← call (DosEnumAttribute ty f e b cb c level);
      param_rc r.1 ≫= fun _ => mret (P_ENUM ty f e cb r.2.2 level r.2.1)
  | _ => throw BadAccess
  end.
Definition CMD_DosDelete (p : payload) : D payload :=
  match p with
  | P_ONENAME f => n ← get_str f; rc ← call (DosDelete n); param_rc rc ≫= fun _ => mret p
  | _ => throw BadAccess
  end.
Definition CMD_DosDeleteDir (p : payload) : D payload :=
  match p with
  | P_ONENAME f => n ← get_str f; rc ← call (DosDeleteDir n); param_rc rc ≫= fun _ => mret p
  | _ => throw BadAccess
  end.
Definition CMD_DosCopy (p : payload) : D payload :=
  match p with
  | P_COPY a b o =>
      n1 ← get_str a; n2 ← get_str b; rc ← call (DosCopy n1 n2 o); param_rc rc ≫= fun _ => mret p
  | _ => throw BadAccess
  end.
Definition CMD_DosBeep (p : payload) : D payload :=
  match p with
  | P_DOSBEEP f d => rc ← call (DosBeep f d); param_rc rc ≫= fun _ => mret p
  | _ => throw BadAccess
  end.
Definition CMD_DosClose (p : payload) : D payload :=
  match p with
  | P_HANDLE h => rc ← call (DosClose h); param_rc rc ≫= fun _ => mret p
  | _ => throw BadAccess
  end.
Definition CMD_DosSetFilePtr (p : payload) : D payload :=
  match p with
  | P_SETFILEPTR h ib m act =>
      r ← call (DosSetFilePtr h ib m act);
      param_rc r.1 ≫= fun _ => mret (P_SETFILEPTR h ib m r.2)
  | _ => throw BadAccess
  end.
Definition CMD_DosFindClose (p : payload) : D payload :=
  match p with
  | P_HANDLE h => rc ← call (DosFindClose h); param_rc rc ≫= fun _ => mret p
  | _ => throw BadAccess
  end.
Definition CMD_DosExecPgm (p : payload) : D payload :=
  match p with
  | P_EXECPGM obj cb fl res name arg env =>
      n ← get_str name;
      r ← call (DosExecPgm obj cb fl arg env res n);
      param_rc r.1 ≫= fun _ => mret (P_EXECPGM r.2.1 cb fl r.2.2 name arg env)
  | _ => throw BadAccess
  end.

(** ** Extended attributes *)

Definition eahWriteStringEA_F (fName eaname eaval : list Z) : D Z :=
  r ← call (DosOpen fName (0, 0) 0 FILE_NORMAL open_action open_mode);
  if (r.1 =? 0) && negb (r.2.1 =? 0) then
    rc ← call (eahWriteStringEA r.2.1 eaname eaval);
    _ ← call (DosClose r.2.1); mret rc
  else mret r.1.

Definition CMD_EAReadString (p : payload) : D payload :=
  match p with
  | P_EASTRING f len ea val =>
      n1 ← get_str f; n2 ← get_str ea;
      r ← call (eahReadStringEA n1 n2 val len);
      param_rc r.1 ≫= fun _ => mret (P_EASTRING f r.2.2 ea r.2.1)
  | _ => throw BadAccess
  end.
Definition CMD_EAWriteString (p : payload) : D payload :=
  match p with
  | P_EASTRING f len ea val =>
      n1 ← get_str f;
      r ← call (DosOpen n1 (0, 0) 0 FILE_NORMAL open_action open_mode);
      param_rc r.1 ≫= fun _ =>
      if (r.1 =? 0) && negb (r.2.1 =? 0) then
        n2 ← get_str ea; v ← get_str val;
        rc ← call (eahWriteStringEA r.2.1 n2 v);
        param_rc rc ≫= fun _ => _ ← call (DosClose r.2.1); mret p
      else mret p
  | _ => throw BadAccess
  end.
Definition CMD_EADelete (p : payload) : D payload :=
  match p with
  | P_TWONAME a b =>
      n1 ← get_str a; n2 ← get_str b;
      rc ← call (eaPathDeleteOne n1 n2); param_rc rc ≫= fun _ => mret p
  | _ => throw BadAccess
  end.

(** A string attribute of at most [LX_MAXPATH] bytes into a local buffer;
    [None]: it could not be read. *)
Definition read_ea (f ea : list Z) : D (option (list Z)) :=
  r ← call (eahReadStringEA f ea (replicate LX_MAXPATH 0) LX_MAXPATH);
  if r.1 =? 0 then v ← get_str r.2.1; mret (Some v) else mret None.

(** A link target below the old directory moves to the new one. *)
Definition relink (newname ea v newdir olddir : list Z) : D unit :=
  if bool_decide (take (length olddir) v = olddir) then
    let v' := newdir ++ drop (length olddir) v in
    if (LX_MAXPATH <=? length v')%nat then throw BadAccess
    else _ ← eahWriteStringEA_F newname ea v'; mret tt
  else mret tt.

Fixpoint relink_by (i : nat) (newname newdir olddir : list Z) : D unit :=
  match i with
  | O => mret tt
  | S j =>
      let ea := simple_d_sprintf LXEAN_LINKEDBY (Z.of_nat i) in
      v ← read_ea newname ea;
      (match v with Some v => relink newname ea v newdir olddir | None => mret tt end) ≫= fun _ =>
      relink_by j newname newdir olddir
  end.

(** A negative count runs into signed overflow. *)
Definition lxafs_correct_linkinfo (newname oldname newdir olddir : list Z) : D Z :=
  c ← read_ea newname LXEAN_LINKBYCOUNT;
  (match c with
   | Some v => if atoi v <? 0 then throw BadAccess
               else relink_by (Z.to_nat (atoi v)) newname newdir olddir
   | None => mret tt
   end) ≫= fun _ =>
  t ← read_ea newname LXEAN_LINKEDTO;
  (match t with
   | Some v => relink newname LXEAN_LINKEDTO v newdir olddir
   | None => mret tt
   end) ≫= fun _ => mret 0.

Definition join (dir name : list Z) : D (list Z) :=
  let p := dir ++ 47 :: name in
  if (LX_MAXPATH <=? length p)%nat then throw BadAccess else mret p.

Definition is_dir (attr : Z) : bool := negb (Z.land attr FILE_DIRECTORY =? 0).

(** The entries of one directory; [sub] is the recursive call. *)
Fixpoint fix_entries (sub : list Z -> list Z -> D Z) (n : nat) (h : Z) (fb : list Z) (c : Z)
    (newname oldname : list Z) : D unit :=
  if c =? 0 then mret tt else
  match n with
  | O => throw OutOfFuel
  | S n =>
      let name := fb_achName fb in
      (if bool_decide (name = [46; 46]) || bool_decide (name = [46]) then mret tt
       else
         newold ← join oldname name;
         newnew ← join newname name;
         (if is_dir (fb_attrFile fb) then _ ← sub newnew newold; mret tt else mret tt) ≫= fun _ =>
         _ ← lxafs_correct_linkinfo newnew newold newname oldname; mret tt) ≫= fun _ =>
      r ← call (DosFindNext h fb FILEFINDBUF3_len c);
      if negb (r.1 =? 0) || (r.2.2 =? 0) then mret tt
      else fix_entries sub n h r.2.1 r.2.2 newname oldname
  end.

Fixpoint lxafs_linkinfo_correction (levels : nat) (newname oldname : list Z) : D Z :=
  match levels with
  | O => throw OutOfFuel
  | S l =>
      if (257 <=? length newname)%nat then throw BadAccess else
      r ← call (DosFindFirst (newname ++ [47; 42]) HDIR_CREATE find_all
                  (replicate FILEFINDBUF3_len 0) FILEFINDBUF3_len 1 FIL_STANDARD);
      (if r.1 =? 0
       then fix_entries (lxafs_linkinfo_correction l) walk r.2.1.1 r.2.1.2 r.2.2 newname oldname
       else mret tt) ≫= fun _ =>
      (if negb (r.2.1.1 =? 0) && negb (r.2.1.1 =? HDIR_CREATE)
       then _ ← call (DosFindClose r.2.1.1); mret tt else mret tt) ≫= fun _ => mret 0
  end.

Definition CMD_LXAFS_Rename (p : payload) : D payload :=
  match p with
  | P_TWONAME a b =>
      oldname ← get_str a; newname ← get_str b;
      rc ← call (DosMove oldname newname);
      param_rc rc ≫= fun _ =>
      if negb (rc =? 0) then mret p else
      r ← call (DosQueryPathInfo newname FIL_QUERYEASIZE (replicate FILESTATUS4_len 0) FILESTATUS4_len);
      param_rc r.1 ≫= fun _ =>
      if (r.1 =? 0) && is_dir (fs4_attrFile r.2) then
        rc ← lxafs_linkinfo_correction walk newname oldname;
        param_rc rc ≫= fun _ => mret p
      else mret p
  | _ => throw BadAccess
  end.

(** Subdirectories and files of a directory, "." and ".." included. *)
Fixpoint count_entries (n : nat) (h rc : Z) (fb : list Z) (c subdirs files : Z) : D (Z * Z) :=
  if negb ((rc =? 0) && (0 <? c)) then mret (subdirs, files) else
  match n with
  | O => throw OutOfFuel
  | S n =>
      let cnt := if is_dir (fb_attrFile fb) then (s32 (subdirs + 1), files)
                 else (subdirs, s32 (files + 1)) in
      r ← call (DosFindNext h fb FILEFINDBUF3_len c);
      count_entries n h r.1 r.2.1 r.2.2 cnt.1 cnt.2
  end.

Definition count_dir (fileName : list Z) : D (Z * Z) :=
  if (LX_MAXPATH <=? length fileName + 2)%nat then throw BadAccess else
  r ← call (DosFindFirst (fileName ++ [47; 42]) HDIR_CREATE find_all
              (replicate FILEFINDBUF3_len 0) FILEFINDBUF3_len 1 FIL_STANDARD);
  n ← count_entries walk r.2.1.1 r.1 r.2.1.2 r.2.2 0 0;
  _ ← call (DosFindClose r.2.1.1); mret n.

(** Link name, link count and whether the link is broken. *)
Definition link_info (fileName : list Z) : D (list Z * Z * Z) :=
  let none := replicate LX_MAXPATH 0 in
  r ← call (eahReadStringEA fileName LXEAN_LINKEDTO none LX_MAXPATH);
  r1 ← call (eahReadStringEA fileName LXEAN_LINKBYCOUNT (48 :: replicate (LX_MAXPATH - 1) 0) LX_MAXPATH);
  v ← get_str r1.2.1;
  target ← get_str r.2.1;
  if bool_decide (fileName = target) then mret (none, atoi v, 0)
  else
    q ← call (DosQueryPathInfo target FIL_QUERYEASIZE (replicate FILESTATUS4_len 0) FILESTATUS4_len);
    if q.1 =? 0 then mret (r.2.1, atoi v, 0) else mret (none, atoi v, 1).

Definition read_number (fileName ea : list Z) (flag : Z) : D (Z * Z) :=
  v ← read_ea fileName ea;
  match v with Some v => mret (atoi v, flag) | None => mret (0, 0) end.

Definition CMD_GetFileInfo (p : payload) : D payload :=
  match p with
  | P_GETFILEINFO pf =>
      let none := replicate LX_MAXPATH 0 in
      f ← get_str (gf_fileName pf);
      r ← call (DosQueryPathInfo f FIL_QUERYEASIZE (gf_fs4 pf) FILESTATUS4_len);
      if r.1 =? 0 then
        n ← (if is_dir (fs4_attrFile r.2) then count_dir f else mret (0, 0));
        l ← (if 4 <? fs4_cbList r.2 then link_info f else mret (none, 0, 0));
        mode ← read_number f LXEAN_MODE 1;
        uid ← read_number f LXEAN_UID 2;
        gid ← read_number f LXEAN_GID 4;
        param_rc 0 ≫= fun _ =>
        mret (P_GETFILEINFO (mk_getfileinfo (gf_fileName pf) l.1.1 r.2 n.1 n.2 l.1.2 l.2
          mode.1 uid.1 gid.1 (mode.2 + uid.2 + gid.2)))
      else
        param_rc r.1 ≫= fun _ =>
        mret (P_GETFILEINFO (mk_getfileinfo (gf_fileName pf) none r.2 0 0 0 0 0 0 0 0))
  | _ => throw BadAccess
  end.

(** ** The command table and the loop *)

Definition lx_cmds : list (Z * (payload -> D payload)) := [
  (60, CMD_DosDelete); (67, CMD_DosMove); (80, CMD_DosDeleteDir); (83, CMD_DosSetFileInfo);
  (104, CMD_DosSetPathInfo); (144, CMD_DosExecPgm); (201, CMD_DosCopy);
  (204, CMD_DosEnumAttribute); (223, CMD_DosQueryPathInfo); (227, CMD_DosScanEnv);
  (256, CMD_DosSetFilePtr); (257, CMD_DosClose); (263, CMD_DosFindClose); (264, CMD_DosFindFirst);
  (265, CMD_DosFindNext); (270, CMD_DosCreateDir); (272, CMD_DosSetFileSize); (273, CMD_DosOpen);
  (275, CMD_DosQueryCurrentDisk); (279, CMD_DosQueryFileInfo); (281, CMD_DosRead);
  (282, CMD_DosWrite); (286, CMD_DosBeep);
  (10009, CMD_EAReadString); (10010, CMD_EAWriteString); (10008, CMD_EADelete);
  (10011, CMD_GetFileInfo); (10012, CMD_LXAFS_Rename);
  (10006, CMD_DosQuerySysInfo); (10002, CMD_IncreaseDataPacketLength); (10005, CMD_WriteLog);
  (10004, CMD_SetLogFile)].

(** "Unknown command\n" *)
Definition unknown_command : list Z :=
  [85; 110; 107; 110; 111; 119; 110; 32; 99; 111; 109; 109; 97; 110; 100; 10; 0].

Fixpoint run_command (cmds : list (Z * (payload -> D payload))) (cmd : Z) (p : payload) : D payload :=
  match cmds with
  | [] => _ ← writeLog unknown_command; param_rc 1 ≫= fun _ => mret p
  | (c, fn) :: cmds => if cmd =? c then fn p else run_command cmds cmd p
  end.

Definition executeNewCommand (p : payload) : D payload :=
  cmd ← gets (fun s => p_cmd (param s)); run_command lx_cmds cmd p.

Definition LX_DMN_CMD_RESTART : Z := 10007.

(** The ioctls to the driver: get a command with its data; set results. *)
Context (CMDGET : packet -> W -> Z * (packet * payload) * W).
Context (CMDSETRESULTS : packet -> payload -> W -> Z * W).

Definition set_results (p : payload) : D unit :=
  pa ← gets param; _ ← call (CMDSETRESULTS pa p); mret tt.

(** [0==rc] holds at every test: the code of [CMDGET] is overwritten and the
    one of [CMDSETRESULTS] cleared. *)
Fixpoint commandLoop_turns (n : nat) : D (Z * payload) :=
  set_param (fun p => mk_packet 0 (cbMaxDataLen p) 0 (hcmd p) (cmdBlockID p) (cbCmdDataLen p)) ≫= fun _ =>
  pa ← gets param;
  r ← call (CMDGET pa);
  set_param (fun _ => r.2.1) ≫= fun _ =>
  if p_cmd r.2.1 =? LX_DMN_CMD_RESTART then mret (0, r.2.2)
  else
    p ← executeNewCommand r.2.2;
    set_results p ≫= fun _ =>
    cmd ← gets (fun s => p_cmd (param s));
    if cmd =? LX_DMN_CMD_SHUTDOWN then mret (0, p)
    else match n with O => throw OutOfFuel | S n => commandLoop_turns n end.

Definition commandLoop (n : nat) : D Z :=
  r ← commandLoop_turns n;
  param_rc 0 ≫= fun _ => set_results r.2 ≫= fun _ => mret r.1.

(** "LXAPID$"; the counter of the loop is never decremented. *)
Definition lxapid_name : list Z := [76; 88; 65; 80; 73; 68; 36].

Fixpoint open_driver (tries : nat) : D (Z * Z) :=
  match tries with
  | O => throw OutOfFuel
  | S t =>
      r ← call (DosOpen lxapid_name (0, 0) 0 0 1 64);
      if r.2.1 =? 0 then open_driver t else mret (r.1, r.2.1)
  end.

Definition main (tries n : nat) : D Z :=
  rc ← increaseDataPacketLength;
  if negb (rc =? 0) then mret 1
  else
    r ← open_driver tries;
    if r.1 =? 0 then rc ← commandLoop n; _ ← call (DosClose r.2); mret rc
    else _ ← call (DosBeep 880 500); _ ← call (DosBeep 440 500); mret r.1.
End Daemon.

(** ** Error codes for Linux callers (lxerrmap.c) *)

Definition errormap : list (Z * Z) := [
  (0, 0); (1, - EINTR); (2, - ENOENT); (3, - ENOENT); (4, - EMFILE); (5, - EACCES); (6, - EBADF);
  (8, - ENOMEM); (12, - EACCES); (13, - EINVAL); (15, - EIO); (16, - ENOENT)].

Fixpoint lxmap_loop (map : list (Z * Z)) (err : Z) : Z :=
  match map with
  | [] => s32 (- err)
  | (e, r) :: map => if e =? err then r else lxmap_loop map err
  end.
Definition lxmap_dosapi_error (err : Z) : Z := lxmap_loop errormap err.

(** ** Properties *)

Section DaemonProps.
Context {W : Type} `{DosApi W} `{EahApi W}.

(** The data buffer grows by 4096 bytes: the new one is used, the old one
    freed.  Without memory the old buffer stays in use, but the size announced
    to the driver has grown all the same. *)
Theorem increase_buffer (s : lxapid W) rc p w :
  0 <= dataLen s < 4294963200 -> DosAllocMem (dataLen s + 4096) (os s) = (rc, p, w) ->
  exists s', increaseDataPacketLength s = Ok (rc, s') /\
    cbMaxDataLen (param s') = dataLen s + 4096 /\ p_rc (param s') = rc /\
    if rc =? 0
    then dataLen s' = dataLen s + 4096 /\ pData s' = p /\
         os s' = if pData s =? 0 then w else (DosFreeMem (pData s) w).2
    else dataLen s' = dataLen s /\ pData s' = pData s /\ os s' = w.
Proof.
  intros Hl E. unfold increaseDataPacketLength, call, set_buffer, set_param, param_rc, set_param.
  mstep. cbn [os]. rewrite u32_small by lia. rewrite E. mstep. cbn [fst snd].
  destruct (rc =? 0) eqn:Erc; mstep.
  - destruct (pData s =? 0) eqn:Ep; mstep.
    + eexists. split; [reflexivity|]. cbn. auto.
    + cbn [os]. destruct (DosFreeMem (pData s) w) as [r w'] eqn:Ef. mstep. cbn.
      eexists. split; [reflexivity|]. cbn. auto.
  - eexists. split; [reflexivity|]. cbn. split; [done|]. split; [done|].
    rewrite u32_small by lia. split; [lia|auto].
Qed.

(** A driver that cannot be opened is tried for ever. *)
Lemma open_driver_spins tries (s : lxapid W) :
  (forall w, (DosOpen lxapid_name (0, 0) 0 0 1 64 w).1.2.1 = 0) ->
  open_driver tries s = Err OutOfFuel.
Proof.
  intros Hf. revert s. induction tries as [|t IH]; intros s; [done|]. cbn.
  unfold call. mstep. specialize (Hf (os s)).
  destruct (DosOpen _ _ _ _ _ _ _) as [[rc [h act]] w]. cbn in Hf |- *. rewrite Hf. cbn. apply IH.
Qed.

(** A larger bound on the entries changes nothing once one was enough. *)
Lemma count_entries_mono n h rc fb c d f (s : lxapid W) r :
  count_entries n h rc fb c d f s = Ok r -> count_entries (S n) h rc fb c d f s = Ok r.
Proof.
  revert rc fb c d f s. induction n as [|n IH]; intros rc fb c d f s.
  - cbn. destruct (negb _); [done|]. discriminate.
  - intros E. cbn [count_entries] in E |- *. destruct (negb _); [done|].
    rewrite M_bind_unfold in E |- *. destruct (call _ s) as [[x s1]|e]; [|done]. by apply IH.
Qed.
End DaemonProps.

(** ** The log files *)

Lemma with_last_inj a b l : with_last a l = with_last b l -> a = b.
Proof. unfold with_last. intros E. apply app_inj_2 in E as [_ E]; [by injection E|done]. Qed.

Lemma with_last_ne c l d : last l = Some d -> d <> c -> with_last c l <> l.
Proof.
  intros Hl Hd E. rewrite <- E in Hl. unfold with_last in Hl. rewrite last_snoc in Hl. congruence.
Qed.

Definition log_name (logfile : list Z) (i : nat) : list Z := with_last (48 + i) logfile.

Lemma log_name_inj l i j : log_name l i = log_name l j -> i = j.
Proof. intros E%with_last_inj. lia. Qed.

(** One file copied over another, if it exists. *)
Definition moved (f : gmap (list Z) (list Z)) (a b : list Z) : option (list Z) :=
  match f !! a with Some x => Some x | None => f !! b end.

Lemma rotate_spec i logfile (s : lxapid disk) :
  exists s', rotate i logfile s = Ok (tt, s') /\ logfilename s' = logfilename s /\
    (forall j, (0 < j <= i)%nat ->
       files (os s') !! log_name logfile j =
       moved (files (os s)) (log_name logfile (j - 1)) (log_name logfile j)) /\
    (forall n, (forall j, (0 < j <= i)%nat -> n <> log_name logfile j) ->
       files (os s') !! n = files (os s) !! n).
Proof.
  revert s. induction i as [|i IH]; intros s; cbn [rotate].
  { exists s. split; [done|]. split; [done|]. split; [lia|done]. }
  unfold call. mstep. cbn [DosCopy disk_DosApi].
  change (with_last (48 + i) logfile) with (log_name logfile i).
  change (with_last (48 + S i) logfile) with (log_name logfile (S i)).
  set (fs := match files (os s) !! log_name logfile i with
             | Some x => <[log_name logfile (S i) := x]> (files (os s)) | None => files (os s) end).
  assert (Hfs : forall n, n <> log_name logfile (S i) -> fs !! n = files (os s) !! n).
  { intros n Hn. unfold fs. destruct (files (os s) !! _); [|done]. by apply lookup_insert_ne. }
  assert (Hlast : fs !! log_name logfile (S i) =
      moved (files (os s)) (log_name logfile i) (log_name logfile (S i))).
  { unfold fs, moved. destruct (files (os s) !! log_name logfile i) eqn:E; [|done]. apply lookup_insert_eq. }
  assert (Hr : exists s1, rotate i logfile s1 = match files (os s) !! log_name logfile i with
      | Some x => rotate i logfile (mk_lxapid (set_files (<[log_name logfile (S i) := x]> (files (os s))) (os s))
           (dataLen s) (pData s) (param s) (logfilename s))
      | None => rotate i logfile (mk_lxapid (os s) (dataLen s) (pData s) (param s) (logfilename s))
      end /\ files (os s1) = fs /\ logfilename s1 = logfilename s).
  { unfold fs. destruct (files (os s) !! _); eexists; (split; [reflexivity|done]). }
  destruct Hr as (s1 & Er & Ef & El). destruct (IH s1) as (s' & E & Hlog & Hj & Ho).
  exists s'. split.
  { rewrite <- E, Er. by destruct (files (os s) !! _). }
  split; [congruence|]. rewrite Ef in Hj, Ho. split.
  - intros j Hji. destruct (decide (j = S i)) as [->|Hne].
    + rewrite Ho, Hlast; [by replace (S i - 1)%nat with i by lia|].
      intros k Hk E1%log_name_inj. lia.
    + rewrite Hj by lia. unfold moved. rewrite !Hfs; [done|intros E1%log_name_inj; lia..].
  - intros n Hn. rewrite Ho; [|intros k Hk; apply Hn; lia]. apply Hfs, Hn. lia.
Qed.

(** A new log file moves each of the ten older ones on by one, the last
    log becomes number 0 and its name is free; a missing log in the row leaves
    its successor as it is, and no other file changes. *)
Theorem log_rotation logfile (s : lxapid disk) c :
  last logfile = Some c -> ~ (48 <= c <= 57) -> (length logfile < LX_MAXPATH)%nat ->
  let f := files (os s) in
  exists s', setLogFile logfile s = Ok (0, s') /\ logfilename s' = logfile /\
    let f' := files (os s') in
    (forall j, (0 < j <= 9)%nat ->
       f' !! log_name logfile j = moved f (log_name logfile (j - 1)) (log_name logfile j)) /\
    f' !! log_name logfile 0 = moved f logfile (log_name logfile 0) /\
    f' !! logfile = None /\
    (forall n, n <> logfile -> (forall j, (j <= 9)%nat -> n <> log_name logfile j) -> f' !! n = f !! n).
Proof.
  intros Hc Hd Hl. cbn zeta. unfold setLogFile. unfold LX_MAXPATH in Hl |- *.
  assert (Hne : logfile <> []) by (by intros ->).
  destruct (Nat.leb_spec 300 (length logfile)); [lia|].
  destruct (Nat.eqb_spec (length logfile) 0) as [E0|_]; [by destruct logfile|]. cbn [orb].
  destruct (rotate_spec 9 logfile s) as (s1 & E & Hlog & Hj & Ho).
  assert (Hlf : forall i, (i <= 9)%nat -> logfile <> log_name logfile i).
  { intros i Hi E1. symmetry in E1. revert E1. apply (with_last_ne _ _ c); [done|lia]. }
  assert (Hmax : (260 <=? length logfile)%nat = false) by (apply Nat.leb_gt; lia).
  rewrite Hmax, M_bind_unfold, E. unfold call, set_logname. mstep. cbn [DosCopy DosDelete disk_DosApi].
  change (with_last 48 logfile) with (log_name logfile 0).
  assert (Hf1 : files (os s1) !! logfile = files (os s) !! logfile) by (apply Ho; intros; apply Hlf; lia).
  assert (Hf0 : files (os s1) !! log_name logfile 0 = files (os s) !! log_name logfile 0).
  { apply Ho. intros j Hj0 E1%log_name_inj. lia. }
  rewrite Hf1. destruct (files (os s) !! logfile) as [x|] eqn:Ex; mstep; cbn [os files set_files].
  - rewrite lookup_insert_ne, Hf1 by (apply not_eq_sym, Hlf; lia). rewrite decide_True by eauto. mstep.
    eexists. split; [reflexivity|]. cbn. split; [done|]. split; [|split; [|split]].
    + intros j Hj0. rewrite lookup_delete_ne by (apply Hlf; lia).
      rewrite lookup_insert_ne by (intros E1%log_name_inj; lia). by apply Hj.
    + rewrite lookup_delete_ne by (apply Hlf; lia). rewrite lookup_insert_eq. unfold moved. by rewrite Ex.
    + apply lookup_delete_eq.
    + intros n Hn Hnj. rewrite lookup_delete_ne by done. rewrite lookup_insert_ne by (apply not_eq_sym, Hnj; lia).
      apply Ho. intros. apply Hnj. lia.
  - rewrite Hf1. rewrite decide_False by (intros []; done). mstep.
    eexists. split; [reflexivity|]. cbn. split; [done|]. split; [|split; [|split]].
    + intros j Hj0. by apply Hj.
    + unfold moved. rewrite Ex. done.
    + congruence.
    + intros n Hn Hnj. apply Ho. intros. apply Hnj. lia.
Qed.

(** The attribute helpers on the disk, which has no attributes. *)
#[export] Instance disk_EahApi : EahApi disk := {
  eahReadStringEA := fun _ _ b len d => (254, (b, len), d);
  eahWriteStringEA := fun _ _ _ d => (254, d);
  eaPathDeleteOne := fun _ _ d => (254, d);
  fb_attrFile := fun b => hd 0 b; fb_achName := fun b => tl b;
  fs4_attrFile := fun _ => 0; fs4_cbList := fun _ => 0;
  FILEFINDBUF3_len := 292; FILESTATUS4_len := 28; FILESTATUS3_len := 24; FINDUNION_len := 296;
  FIL_STANDARD := 1; FIL_QUERYEASIZE := 2; find_all := 55; FILE_DIRECTORY := 16;
  HDIR_CREATE := 4294967295; FILE_NORMAL := 0; FILE_END := 2; open_action := 1; log_action := 17;
  open_mode := 66; ERROR_BUFFER_OVERFLOW := 111
}.

(** ** Witnesses *)

Lemma increase_buffer_witness :
  let s := mk_lxapid disk0 4096 65536 (mk_packet 0 4096 0 0 0 0) [] in
  exists s', increaseDataPacketLength s = Ok (0, s') /\
    cbMaxDataLen (param s') = 4096 + 4096 /\ p_rc (param s') = 0 /\
    (dataLen s' = 4096 + 4096 /\ pData s' = 262144 /\ os s' = disk0).
Proof.
  exact (increase_buffer (mk_lxapid disk0 4096 65536 (mk_packet 0 4096 0 0 0 0) [])
    0 262144 (mk_disk ∅ ∅ 1 3) ltac:(cbn; lia) eq_refl).
Defined.

(** "x.log" with two older logs. *)
Definition logs : disk :=
  set_files {[ [120; 46; 108] := [1]; [120; 46; 48] := [2]; [120; 46; 49] := [3] ]} disk0.

Lemma log_rotation_witness :
  let s := mk_lxapid logs 4096 65536 (mk_packet 0 4096 0 0 0 0) [] in
  let f := files logs in
  exists s', setLogFile [120; 46; 108] s = Ok (0, s') /\ logfilename s' = [120; 46; 108] /\
    let f' := files (os s') in
    (forall j, (0 < j <= 9)%nat ->
       f' !! log_name [120; 46; 108] j =
       moved f (log_name [120; 46; 108] (j - 1)) (log_name [120; 46; 108] j)) /\
    f' !! log_name [120; 46; 108] 0 = moved f [120; 46; 108] (log_name [120; 46; 108] 0) /\
    f' !! [120; 46; 108] = None /\
    (forall n, n <> [120; 46; 108] -> (forall j, (j <= 9)%nat -> n <> log_name [120; 46; 108] j) ->
       f' !! n = f !! n).
Proof.
  apply (log_rotation [120; 46; 108] (mk_lxapid logs 4096 65536 (mk_packet 0 4096 0 0 0 0) []) 108).
  - reflexivity.
  - lia.
  - unfold LX_MAXPATH. cbn. lia.
Defined.

Example log_rotation_run :
  (files ∘ os) <$> exec (setLogFile [120; 46; 108])
    (mk_lxapid logs 4096 65536 (mk_packet 0 4096 0 0 0 0) []) =
  Some {[ [120; 46; 48] := [1]; [120; 46; 49] := [2]; [120; 46; 50] := [3] ]}.
Proof. vm_compute. reflexivity. Qed.

(** "LX_LB_12" *)
Example link_attribute_name :
  simple_d_sprintf LXEAN_LINKEDBY 12 = [76; 88; 95; 76; 66; 95; 49; 50].
Proof. reflexivity. Qed.

(** A call the daemon does not support is answered with a system call that was
    interrupted. *)
Example invalid_function_is_EINTR : lxmap_dosapi_error 1 = - EINTR /\ lxmap_dosapi_error 87 = -87.
Proof. split; reflexivity. Qed.
