(* ===== verification/DaemonTurn.v ===== *)
(** * What a command of the daemon leaves alone

    The driver identifies a command by the packet it sent with it, and unpacks
    the answer as the structure it packed.  Whatever a handler does, it keeps
    both; a directory is counted entry by entry. *)

From S2P Require Import Prelude CString DevHlp Memory Heap DaemonQueue DosApi DaemonCmd.

(** The calls write inside the buffer they are given. *)
Class DosApiLaws (W : Type) `{DosApi W} `{EahApi W} : Prop := {
  DosRead_len h b cb a w : cb <= length b -> length (DosRead h b cb a w).1.2.1 = length b;
  DosFindFirst_len n h at_ b cb c l w :
    cb <= length b -> length (DosFindFirst n h at_ b cb c l w).1.2.1.2 = length b;
  DosFindNext_len h b cb c w : cb <= length b -> length (DosFindNext h b cb c w).1.2.1 = length b;
  DosQueryFileInfo_len h l b cb w :
    cb <= length b -> length (DosQueryFileInfo h l b cb w).1.2 = length b;
  DosQueryPathInfo_len n l b cb w :
    cb <= length b -> length (DosQueryPathInfo n l b cb w).1.2 = length b;
  DosQuerySysInfo_len x y b cb w :
    cb <= length b -> length (DosQuerySysInfo x y b cb w).1.2 = length b;
  DosEnumAttribute_len t f e b cb c l w :
    cb <= length b -> length (DosEnumAttribute t f e b cb c l w).1.2.1 = length b;
  DosExecPgm_len b cb fl ar en r n w :
    cb <= length b -> length (DosExecPgm b cb fl ar en r n w).1.2.1 = length b;
  eahReadStringEA_len f ea b cb w :
    cb <= length b -> length (eahReadStringEA f ea b cb w).1.2.1 = length b
}.

(** ** The caller's part of a structure *)

Definition blank (b : list Z) : list Z := replicate (length b) 0.

(** A structure with its results cleared: handles and codes the system
    returns, and the contents of buffers, whose size stays. *)
Definition inputs (p : payload) : payload :=
  match p with
  | P_TEXT d => P_TEXT (blank d)
  | P_OPEN f _ _ cb attr fl mode => P_OPEN f 0 0 cb attr fl mode
  | P_FIND _ cb _ attr spec level b => P_FIND 0 cb 0 attr spec level (blank b)
  | P_DISK _ _ => P_DISK 0 0
  | P_SETFILEPTR h ib m _ => P_SETFILEPTR h ib m 0
  | P_READWRITE h cb _ d => P_READWRITE h cb 0 (blank d)
  | P_SYSINFO a b cb d => P_SYSINFO a b cb (blank d)
  | P_EXECPGM obj cb fl _ name arg env => P_EXECPGM (blank obj) cb fl (0, 0) name arg env
  | P_FILEINFO h level b cb => P_FILEINFO h level (blank b) cb
  | P_PATHINFO f level cb fl b => P_PATHINFO f level cb fl (blank b)
  | P_ENUM ty f e cb _ level b => P_ENUM ty f e cb 0 level (blank b)
  | P_EASTRING f _ ea val => P_EASTRING f 0 ea (blank val)
  | P_GETFILEINFO pf =>
      P_GETFILEINFO (mk_getfileinfo (gf_fileName pf) (blank (gf_linkName pf)) (blank (gf_fs4 pf))
                       0 0 0 0 0 0 0 0)
  | p => p
  end.

(** The announced sizes are those of the buffers. *)
Definition fits `{EahApi W} (p : payload) : Prop :=
  match p with
  | P_FIND _ cb _ _ _ _ b => cb <= length b
  | P_READWRITE _ cb _ d => cb <= length d
  | P_SYSINFO _ _ cb d => cb <= length d
  | P_EXECPGM obj cb _ _ _ _ _ => cb <= length obj
  | P_FILEINFO _ _ b cb => cb <= length b
  | P_PATHINFO _ _ cb _ b => cb <= length b
  | P_ENUM _ _ _ cb _ _ b => cb <= length b
  | P_EASTRING _ len _ val => len <= length val
  | P_GETFILEINFO pf => length (gf_linkName pf) = LX_MAXPATH /\ length (gf_fs4 pf) = FILESTATUS4_len
  | _ => True
  end.

(** What identifies a command to the driver. *)
Definition packet_id {W} (s : lxapid W) : Z * Z * Z * Z :=
  (p_cmd (param s), hcmd (param s), cmdBlockID (param s), cbCmdDataLen (param s)).

Section Turn.
Context {W : Type} `{DosApiLaws W}.
Implicit Types (s : lxapid W).

(** ** The packet *)

Lemma keeps_call {A} (f : W -> A * W) : keeps packet_id (call f).
Proof. intros s a s'. unfold call. destruct (f (os s)). by intros [= _ <-]. Qed.
Lemma keeps_param_rc rc : keeps packet_id (param_rc rc : M (lxapid W) unit).
Proof. by apply keeps_modify. Qed.
Lemma keeps_set_max n : keeps packet_id (set_param (set_max n) : M (lxapid W) unit).
Proof. by apply keeps_modify. Qed.
Lemma keeps_set_buffer p n : keeps packet_id (set_buffer p n : M (lxapid W) unit).
Proof. by apply keeps_modify. Qed.
Lemma keeps_set_logname l : keeps packet_id (set_logname l : M (lxapid W) unit).
Proof. by apply keeps_modify. Qed.
Lemma keeps_get_str l : keeps packet_id (get_str l : M (lxapid W) _).
Proof. intros s a s'. unfold get_str. destruct (array_str l); by intros [= _ <-]. Qed.
#[local] Hint Resolve keeps_call keeps_param_rc keeps_set_max keeps_set_buffer keeps_set_logname
  keeps_get_str : keeps.

Lemma keeps_writeLog t : keeps packet_id (writeLog t : M (lxapid W) Z).
Proof. unfold writeLog. keeps. Qed.
Lemma keeps_rotate i l : keeps packet_id (rotate i l : M (lxapid W) unit).
Proof. induction i as [|i IH]; cbn [rotate]; keeps. Qed.
Lemma keeps_relink n ea v x y : keeps packet_id (relink n ea v x y : M (lxapid W) unit).
Proof. unfold relink, eahWriteStringEA_F. keeps. Qed.
Lemma keeps_read_ea f ea : keeps packet_id (read_ea f ea : M (lxapid W) _).
Proof. unfold read_ea. keeps. Qed.
#[local] Hint Resolve keeps_writeLog keeps_rotate keeps_relink keeps_read_ea : keeps.
Lemma keeps_relink_by i n x y : keeps packet_id (relink_by i n x y : M (lxapid W) unit).
Proof. induction i as [|i IH]; cbn [relink_by]; keeps. Qed.
#[local] Hint Resolve keeps_relink_by : keeps.
Lemma keeps_correct n o x y : keeps packet_id (lxafs_correct_linkinfo n o x y : M (lxapid W) Z).
Proof. unfold lxafs_correct_linkinfo. keeps. Qed.
#[local] Hint Resolve keeps_correct : keeps.
Lemma keeps_fix_entries sub n h fb c x y :
  (forall a b, keeps packet_id (sub a b)) ->
  keeps packet_id (fix_entries sub n h fb c x y : M (lxapid W) unit).
Proof.
  intros Hs. revert fb c. induction n as [|n IH]; intros fb c; cbn [fix_entries]; unfold join; keeps.
Qed.
Lemma keeps_linkinfo walk levels n o :
  keeps packet_id (lxafs_linkinfo_correction walk levels n o : M (lxapid W) Z).
Proof.
  revert n o. induction levels as [|l IH]; intros n o; cbn [lxafs_linkinfo_correction]; keeps.
  by apply keeps_fix_entries.
Qed.
Lemma keeps_count_entries n h rc fb c d f :
  keeps packet_id (count_entries n h rc fb c d f : M (lxapid W) _).
Proof. revert rc fb c d f. induction n as [|n IH]; intros; cbn [count_entries]; keeps. Qed.
#[local] Hint Resolve keeps_linkinfo keeps_count_entries : keeps.
Lemma keeps_count_dir walk f : keeps packet_id (count_dir walk f : M (lxapid W) _).
Proof. unfold count_dir. keeps. Qed.
Lemma keeps_link_info f : keeps packet_id (link_info f : M (lxapid W) _).
Proof. unfold link_info. keeps. Qed.
Lemma keeps_read_number f ea n : keeps packet_id (read_number f ea n : M (lxapid W) _).
Proof. unfold read_number. keeps. Qed.
#[local] Hint Resolve keeps_count_dir keeps_link_info keeps_read_number : keeps.

Lemma keeps_handlers walk :
  Forall (fun x => forall p, keeps packet_id (x.2 p)) (lx_cmds (W := W) walk).
Proof.
  unfold lx_cmds. repeat constructor; cbn [snd]; intros p; unfold CMD_DosDelete, CMD_DosMove,
    CMD_DosDeleteDir, CMD_DosSetFileInfo, CMD_DosSetPathInfo, CMD_DosExecPgm, CMD_DosCopy,
    CMD_DosEnumAttribute, CMD_DosQueryPathInfo, CMD_DosScanEnv, CMD_DosSetFilePtr, CMD_DosClose,
    CMD_DosFindClose, CMD_DosFindFirst, CMD_DosFindNext, CMD_DosCreateDir, CMD_DosSetFileSize,
    CMD_DosOpen, CMD_DosQueryCurrentDisk, CMD_DosQueryFileInfo, CMD_DosRead, CMD_DosWrite,
    CMD_DosBeep, CMD_EAReadString, CMD_EAWriteString, CMD_EADelete, CMD_GetFileInfo,
    CMD_LXAFS_Rename, CMD_DosQuerySysInfo, CMD_IncreaseDataPacketLength, increaseDataPacketLength,
    CMD_WriteLog, CMD_SetLogFile, setLogFile; keeps.
Qed.

Lemma keeps_run_command cmds cmd p :
  Forall (fun x => forall p, keeps packet_id (x.2 p)) cmds ->
  keeps packet_id (run_command (W := W) cmds cmd p).
Proof.
  induction 1 as [|[c fn] cmds Hx _ IH]; cbn [run_command]; keeps.
Qed.

(** ** The structure *)

Lemma call_inv {A} (f : W -> A * W) s r s' : call f s = Ok (r, s') -> r = (f (os s)).1.
Proof. unfold call. destruct (f (os s)) as [a w]. by intros [= <- _]. Qed.

Lemma blank_length a b : length a = length b -> blank a = blank b.
Proof. unfold blank. by intros ->. Qed.
Lemma link_info_length f s r s' : link_info f s = Ok (r, s') -> length r.1.1 = LX_MAXPATH.
Proof.
  unfold link_info. intros E. minv.
  match goal with H : call (eahReadStringEA _ _ _ _) _ = Ok (?x, _) |- _ =>
    assert (Hx : length x.2.1 = LX_MAXPATH) by
      (rewrite (call_inv _ _ _ _ H), eahReadStringEA_len by (rewrite length_replicate; lia);
       apply length_replicate); clear H end.
  case_bool_decide; minv; [done|].
  match goal with H : (if ?b then _ else _) _ = _ |- _ => destruct b; minv end;
    done.
Qed.

(** A handler that returns has changed results only. *)
Definition answers (fn : payload -> M (lxapid W) payload) : Prop :=
  forall p s p' s', fits p -> fn p s = Ok (p', s') -> inputs p' = inputs p.

(** One structure is left; its results come from the calls made. *)
Ltac answers :=
  intros p s p' s' Hf E; destruct p; try discriminate E; minv;
  repeat match goal with
  | H : (if ?b then _ else _) _ = Ok _ |- _ => destruct b eqn:?; minv
  | H : call _ _ = Ok (_, _) |- _ => apply call_inv in H; subst
  end; cbn [inputs fits] in *; try reflexivity; rewrite ?Nat.ltb_lt in *; f_equal; apply blank_length;
  first [ apply DosRead_len | apply DosFindFirst_len | apply DosFindNext_len | apply DosQueryFileInfo_len
        | apply DosQueryPathInfo_len | apply DosQuerySysInfo_len | apply DosEnumAttribute_len
        | apply DosExecPgm_len | apply eahReadStringEA_len
        | rewrite length_app, length_cons, length_drop ]; lia.

Lemma answers_GetFileInfo walk : answers (CMD_GetFileInfo walk).
Proof.
  unfold CMD_GetFileInfo. intros p s p' s' Hf E. destruct p; try discriminate E. cbn [fits] in Hf.
  destruct Hf as [Hl Hs]. minv.
  match goal with H : call (DosQueryPathInfo _ _ _ _) _ = Ok (?x, _) |- _ =>
    assert (Hx : length x.2 = FILESTATUS4_len) by
      (rewrite (call_inv _ _ _ _ H), DosQueryPathInfo_len by lia; done); clear H end.
  match goal with H : (if ?b then _ else _) _ = Ok _ |- _ => destruct b; minv end;
    cbn [inputs gf_fileName gf_linkName gf_fs4]; do 2 f_equal.
  - match goal with H : (if ?b then link_info _ else _) _ = _ |- _ => destruct b; minv end;
      apply blank_length; rewrite Hl; [by eapply link_info_length|done].
  - apply blank_length. congruence.
  - apply blank_length. by rewrite Hl.
  - apply blank_length. congruence.
Qed.

Lemma handlers_answer walk : Forall (fun x => answers x.2) (lx_cmds (W := W) walk).
Proof.
  unfold lx_cmds. repeat apply List.Forall_cons; [..|done]; cbn [snd]; try apply answers_GetFileInfo;
    unfold CMD_DosDelete, CMD_DosMove,
    CMD_DosDeleteDir, CMD_DosSetFileInfo, CMD_DosSetPathInfo, CMD_DosExecPgm, CMD_DosCopy,
    CMD_DosEnumAttribute, CMD_DosQueryPathInfo, CMD_DosScanEnv, CMD_DosSetFilePtr, CMD_DosClose,
    CMD_DosFindClose, CMD_DosFindFirst, CMD_DosFindNext, CMD_DosCreateDir, CMD_DosSetFileSize,
    CMD_DosOpen, CMD_DosQueryCurrentDisk, CMD_DosQueryFileInfo, CMD_DosRead, CMD_DosWrite,
    CMD_DosBeep, CMD_EAReadString, CMD_EAWriteString, CMD_EADelete,
    CMD_LXAFS_Rename, CMD_DosQuerySysInfo, CMD_IncreaseDataPacketLength, CMD_WriteLog, CMD_SetLogFile.
  all: answers.
Qed.

Lemma run_command_answers cmds cmd :
  Forall (fun x => answers x.2) cmds -> answers (run_command cmds cmd).
Proof.
  induction 1 as [|[c fn] cmds Hx _ IH]; intros p s p' s' Hf E; cbn [run_command] in E; [by minv|].
  destruct (cmd =? c); [by eapply Hx|by eapply IH].
Qed.

(** C9: a command that is executed comes back under the number, handle and
    block of the packet it was fetched with, in the structure it was sent in:
    only codes, returned handles and the contents of buffers have changed, and
    no buffer its size. *)
Theorem command_answered walk p s p' s' :
  fits p -> executeNewCommand walk p s = Ok (p', s') ->
  packet_id s' = packet_id s /\ inputs p' = inputs p.
Proof.
  intros Hf E. unfold executeNewCommand in E. minv. split.
  - by eapply keeps_run_command; [apply keeps_handlers|].
  - by eapply run_command_answers; [apply handlers_answer| |].
Qed.

(** ** Counting a directory *)

(** What the system answers from an entry on: the entries it gives before the
    first code or empty answer, and the system afterwards. *)
Inductive listing (h : Z) : Z -> list Z -> Z -> W -> list (list Z) -> W -> Prop :=
  | listing_end rc fb c w : rc <> 0 \/ c <= 0 -> listing h rc fb c w [] w
  | listing_entry fb c w rc' fb' c' w' l w'' :
      0 < c -> DosFindNext h fb FILEFINDBUF3_len c w = (rc', (fb', c'), w') ->
      listing h rc' fb' c' w' l w'' -> listing h 0 fb c w (fb :: l) w''.

(** The same as a function, for systems that can be run. *)
Fixpoint enumerate (n : nat) (h rc : Z) (fb : list Z) (c : Z) (w : W) : option (list (list Z) * W) :=
  if (rc =? 0) && (0 <? c) then
    match n with
    | O => None
    | S n =>
        let r := DosFindNext h fb FILEFINDBUF3_len c w in
        r' ← enumerate n h r.1.1 r.1.2.1 r.1.2.2 r.2; Some (fb :: r'.1, r'.2)
    end
  else Some ([], w).

Lemma enumerate_listing n h rc fb c w l w' :
  enumerate n h rc fb c w = Some (l, w') -> listing h rc fb c w l w'.
Proof.
  revert rc fb c w l. induction n as [|n IH]; intros rc fb c w l; cbn [enumerate];
    destruct ((rc =? 0) && (0 <? c)) eqn:E; try discriminate;
    try (intros [= <- <-]; apply listing_end; lia).
  assert (rc = 0) as -> by lia. destruct (DosFindNext h fb FILEFINDBUF3_len c w) as [[rc' [fb' c']] w1] eqn:Ef.
  cbn [fst snd mbind option_bind]. destruct (enumerate _ _ _ _ _ _) as [[l' w2]|] eqn:El; [|discriminate].
  intros [= <- <-]. eapply listing_entry; [lia|exact Ef|by apply IH].
Qed.

Definition is_dir_entry (fb : list Z) : bool := is_dir (fb_attrFile fb).
Definition dirs_of (l : list (list Z)) : nat := length (filter (fun fb => is_dir_entry fb = true) l).
Definition files_of (l : list (list Z)) : nat := length (filter (fun fb => is_dir_entry fb = false) l).

Definition set_os (w : W) (s : lxapid W) : lxapid W :=
  mk_lxapid w (dataLen s) (pData s) (param s) (logfilename s).

Lemma s32_add a n : s32 (s32 a + n) = s32 (a + n).
Proof. mlia. Qed.

Lemma count_entries_listing n h rc fb c l w w' a b s :
  listing h rc fb c w l w' -> (length l <= n)%nat ->
  count_entries n h rc fb c (s32 a) (s32 b) (set_os w s) =
  Ok ((s32 (a + dirs_of l), s32 (b + files_of l)), set_os w' s).
Proof.
  intros Hl. revert n a b. induction Hl as [rc fb c w Hrc|fb c w rc' fb' c' w' l w'' Hc E Hl IH];
    intros n a b Hn; cbn [length] in Hn.
  - assert (Hb : negb ((rc =? 0) && (0 <? c)) = true) by lia.
    destruct n; cbn [count_entries]; rewrite Hb; unfold mret, M_ret; cbn; by rewrite !Z.add_0_r.
  - destruct n as [|n]; [lia|]. cbn [count_entries]. change (0 =? 0) with true.
    destruct (Z.ltb_spec 0 c); [cbn [andb negb]|lia].
    rewrite M_bind_unfold. unfold call. cbn [os set_os]. rewrite E. cbn [fst snd].
    change (mk_lxapid w' _ _ _ _) with (set_os w' s).
    unfold dirs_of, files_of, is_dir_entry in IH |- *.
    destruct (is_dir (fb_attrFile fb)) eqn:Ed; cbn [fst snd]; rewrite s32_add, IH by lia;
      [rewrite filter_cons_True, filter_cons_False by congruence
      |rewrite filter_cons_False, filter_cons_True by congruence]; cbn [length];
      rewrite Nat2Z.inj_succ; do 3 f_equal; f_equal; lia.
Qed.

(** Counting a directory ends for every listing of at most [walk] entries
    and counts each entry once, by its attribute, in 32-bit counters; the
    search is closed at the end. *)
Theorem directory_counted walk name s rc h fb c w l w' :
  (length name + 2 < LX_MAXPATH)%nat ->
  DosFindFirst (name ++ [47; 42]) HDIR_CREATE find_all (replicate FILEFINDBUF3_len 0)
    FILEFINDBUF3_len 1 FIL_STANDARD (os s) = (rc, (h, fb, c), w) ->
  listing h rc fb c w l w' -> (length l <= walk)%nat ->
  count_dir walk name s =
  Ok ((s32 (dirs_of l), s32 (files_of l)), set_os (DosFindClose h w').2 s).
Proof.
  intros Hn E Hl Hw. unfold count_dir. destruct (Nat.leb_spec LX_MAXPATH (length name + 2)); [lia|].
  rewrite M_bind_unfold. unfold call at 1. rewrite E. cbn [fst snd].
  change (mk_lxapid w _ _ _ _) with (set_os w s). rewrite M_bind_unfold.
  pose proof (count_entries_listing walk h rc fb c l w w' 0 0 s Hl Hw) as Ec.
  change (s32 0) with 0 in Ec. rewrite Ec, !Z.add_0_l.
  rewrite M_bind_unfold. unfold call. cbn [os set_os]. by destruct (DosFindClose h w').
Qed.
End Turn.

(** ** Witnesses *)

#[export] Instance disk_laws : DosApiLaws disk.
Proof.
  split; intros; cbn; repeat case_match; cbn; try done; try apply fill_buffer_length.
  - rewrite length_app, length_drop, length_take. lia.
  - destruct b; cbn in *; [lia|]. by rewrite drop_0.
Qed.

(** A read of three bytes into a buffer of five. *)
Definition reader : lxapid disk :=
  mk_lxapid (mk_disk {[ [97] := [10; 20; 30] ]} {[ 1 := ([97], O) ]} 2 4) 4096 65536
    (mk_packet 0 4096 281 7 3 16) [].

Lemma command_answered_witness :
  exists p' s', executeNewCommand 9 (P_READWRITE 1 5 0 [7; 7; 7; 7; 7]) reader = Ok (p', s') /\
    packet_id s' = (281, 7, 3, 16) /\ inputs p' = P_READWRITE 1 5 0 [0; 0; 0; 0; 0].
Proof.
  eexists _, _. split; [reflexivity|].
  apply (command_answered 9 (P_READWRITE 1 5 0 [7; 7; 7; 7; 7]) reader); [cbn; lia|reflexivity].
Defined.

(** Two files and a subdirectory. *)
Definition folder : lxapid disk :=
  mk_lxapid (mk_disk {[ [97] := [1]; [98; 47] := []; [99] := [] ]} ∅ 5 4) 4096 65536
    (mk_packet 0 4096 10011 7 3 16) [].

Definition folder_first := DosFindFirst [46; 47; 42] HDIR_CREATE find_all
  (replicate FILEFINDBUF3_len 0) FILEFINDBUF3_len 1 FIL_STANDARD (os folder).
Definition folder_listing : list (list Z) * disk :=
  default ([], disk0) (enumerate 9 folder_first.1.2.1.1 folder_first.1.1 folder_first.1.2.1.2
    folder_first.1.2.2 folder_first.2).

Lemma directory_counted_witness :
  count_dir 3 [46] folder =
    Ok ((s32 (dirs_of folder_listing.1), s32 (files_of folder_listing.1)),
        set_os (DosFindClose 5 folder_listing.2).2 folder) /\
  dirs_of folder_listing.1 = 1%nat /\ files_of folder_listing.1 = 2%nat.
Proof.
  split; [|split; vm_compute; reflexivity].
  apply (directory_counted 3 [46] folder folder_first.1.1 5 folder_first.1.2.1.2 folder_first.1.2.2
           folder_first.2).
  - apply Nat.ltb_lt. vm_compute. reflexivity.
  - vm_compute. reflexivity.
  - apply (enumerate_listing 9). vm_compute. reflexivity.
  - apply Nat.leb_le. vm_compute. reflexivity.
Defined.
