(* ===== verification/DosCalls.v ===== *)
(** * OS/2 calls from the driver (Dev32/lxdaemon.c, second part)

    Every wrapper packs its arguments in the command's structure, has the
    daemon run the command and unpacks the answer.  [LX_dmn_call] is the
    command queue as one call, which is what the theorems of DaemonQueue allow:
    the answer is the result of this command on this data.  The code in the
    packet [p] of a wrapper is indeterminate when no command was queued. *)

From S2P Require Import Prelude CString DevHlp Memory Heap DaemonQueue DosApi DaemonCmd.

(** What [LX_dmn_add_command] leaves: nothing, or the packet's code and the
    structure as the caller sees it. *)
Inductive dmn_answer :=
  | NotQueued (ret : Z)
  | Answered (p_rc : Z) (p : payload).

Record driver (W H : Type) := mk_driver {
  daemon : option (lxapid W);
  kheap : H
}.
Arguments mk_driver {W H}. Arguments daemon {W H}. Arguments kheap {W H}.

(** A name in a structure. *)
Definition field (s : list Z) : list Z := strncpy_field LX_MAXPATH s.

Arguments field : simpl never.

(** Run the daemon's table for a known command, and the handler in it. *)
Ltac dispatch :=
  intros [w0 len0 p0 [? ? cmd0 ? ? ?] log0]; cbn [os DaemonCmd.param p_cmd fst snd]; intros -> ->;
  unfold executeNewCommand, lx_cmds; mstep; cbn [p_cmd DaemonCmd.param os run_command];
  repeat match goal with |- context [Z.eqb ?a ?b] =>
    let v := eval vm_compute in (Z.eqb a b) in
    lazymatch v with true => idtac | false => idtac end;
    change (Z.eqb a b) with v end;
  cbn iota.

Lemma get_str_field {S} (n : list Z) (s : S) :
  cstring n -> (length n < LX_MAXPATH)%nat -> get_str (field n) s = Ok (n, s).
Proof. intros Hn Hl. unfold get_str, field. by rewrite array_str_field. Qed.

Ltac handler fn :=
  dispatch; unfold fn, call, param_rc, set_param; mstep;
  repeat (first [rewrite M_bind_unfold, get_str_field by done | rewrite get_str_field by done]; mstep);
  cbn [os DaemonCmd.dataLen DaemonCmd.pData DaemonCmd.param logfilename];
  repeat match goal with
  | E : ?x = _ |- context [?x] =>
      rewrite E; mstep; cbn [os DaemonCmd.dataLen DaemonCmd.pData DaemonCmd.param logfilename]
  | |- context [let '(_, _) := ?x in _] => destruct x eqn:?
  end;
  cbn; eexists; (split; [reflexivity|]); cbn; done.

Section DosCalls.
Context {W : Type} {H : Type} `{DosApi W} `{EahApi W} `{Heap H}.
Context (walk : nat).
Abbreviation Drv := (M (driver W H)).

(** Where the structure is too small for a buffer, C reads or writes outside. *)
Definition copy_n (n : Z) (src dst : list Z) : Drv (list Z) :=
  if (Z.of_nat (length src) <? n) || (Z.of_nat (length dst) <? n) then throw BadAccess
  else mret (take (Z.to_nat n) src ++ drop (Z.to_nat n) dst).

(** The sizes of the structures without a trailing buffer. *)
Definition sizeof (p : payload) : Z :=
  match p with
  | P_ONENAME _ => 260
  | P_TWONAME _ _ => 520
  | P_HANDLE _ => 4
  | P_DOSBEEP _ _ => 8
  | P_TEXT l => Z.of_nat (length l)
  | P_CREATEDIR _ => 272
  | P_OPEN _ _ _ _ _ _ _ => 296
  | P_FIND _ _ _ _ _ _ b => 280 + Z.of_nat (length b)
  | P_DISK _ _ => 8
  | P_SETFILEPTR _ _ _ _ => 16
  | P_READWRITE _ _ _ d => 16 + Z.of_nat (length d)
  | P_SYSINFO _ _ _ d => Z.of_nat (length d)
  | P_EXECPGM _ _ _ _ _ _ _ => 544
  | P_FILESIZE _ _ => 8
  | P_FILEINFO _ _ _ _ => 12 + Z.of_nat FILESTATUS4_len
  | P_PATHINFO _ _ _ _ b => 268 + Z.of_nat (length b)
  | P_ENUM _ _ _ _ _ _ b => 280 + Z.of_nat (length b)
  | P_COPY _ _ _ => 524
  | P_EASTRING _ _ _ v => 524 + Z.of_nat (length v)
  | P_GETFILEINFO _ => 556 + Z.of_nat FILESTATUS4_len
  | P_NONE => 0
  end.

(** The command runs in the daemon; only with [waitflag] is the answer seen. *)
Definition LX_dmn_call (cmd waitflag : Z) (p : payload) : Drv dmn_answer := fun s =>
  match daemon s with
  | None => Ok (NotQueued 0, s)
  | Some d =>
      let pa := mk_packet 0 (cbMaxDataLen (param d)) cmd (hcmd (param d)) waitflag (sizeof p) in
      match executeNewCommand walk p (mk_lxapid (os d) (dataLen d) (DaemonCmd.pData d) pa (logfilename d)) with
      | Ok (p', d') =>
          Ok (if waitflag =? 0 then Answered 0 p else Answered (p_rc (param d')) p',
              mk_driver (Some d') (kheap s))
      | Err e => Err e
      end
  end.

(** [p.rc] of a packet whose code was set to [init] before, if it was. *)
Definition rc_of (init : option Z) (a : dmn_answer) : Drv Z :=
  match a, init with
  | Answered rc _, _ => mret rc
  | NotQueued _, Some rc => mret rc
  | NotQueued _, None => throw UninitRead
  end.
Definition data_of (p : payload) (a : dmn_answer) : payload :=
  match a with Answered _ p' => p' | NotQueued _ => p end.
Definition ret_of (a : dmn_answer) : Z :=
  match a with Answered rc _ => rc | NotQueued ret => ret end.

Definition drv_kmalloc (sz : Z) : Drv Z := fun s =>
  let '(h, p) := kmalloc sz (kheap s) in Ok (p, mk_driver (daemon s) h).
Definition drv_kfree (p : Z) : Drv unit :=
  modify (fun s => mk_driver (daemon s) (kfree p (kheap s))).

(** [sz] bytes for the time of [body]; [fail] when there is no memory.  The
    wrap-around of a size makes the block smaller than the structure in it. *)
Definition with_kmalloc {A} (sz : Z) (fail : A) (body : Drv A) : Drv A :=
  p ← drv_kmalloc (u32 sz);
  if p =? 0 then mret fail
  else if u32 sz <? sz then throw BadAccess
  else r ← body; drv_kfree p ≫= fun _ => mret r.

(** Call, and the code of the packet with the structure. *)
Definition dmn (cmd : Z) (p : payload) : Drv (Z * payload) :=
  a ← LX_dmn_call cmd 1 p; rc ← rc_of None a; mret (rc, data_of p a).

(** ** Log, extended attributes, files of the emulated file system *)

Definition LX_DMN_CHAR_CMD (delayed_log : Z) (pData : list Z) (cmd : Z) : Drv Z :=
  _ ← LX_dmn_call cmd (if delayed_log =? 0 then 1 else 0) (P_TEXT (pData ++ [0])); mret 0.
Definition LX_DMN_LOG (delayed_log : Z) (logData : list Z) : Drv Z :=
  LX_DMN_CHAR_CMD delayed_log logData 10005.
Definition LX_DMN_SETLOGNAME (logFileName : list Z) : Drv Z :=
  a ← LX_dmn_call 10004 1 (P_TEXT (logFileName ++ [0])); mret (ret_of a).

Definition LX_EADELETE (fName eaName : list Z) : Drv Z :=
  _ ← LX_dmn_call 10008 0 (P_TWONAME (field fName) (field eaName)); mret 0.

(** The characters before the first NUL. *)
Fixpoint before_nul (l : list Z) : list Z :=
  match l with [] => [] | c :: l => if c =? 0 then [] else c :: before_nul l end.

(** The trailing buffers are cleared here; C leaves them as [kmalloc] gave them. *)
Definition LX_EAREADSTRING (fName eaName buffer : list Z) (bufLen : Z) : Drv (Z * list Z * Z) :=
  with_kmalloc (524 + bufLen) (- ENOMEM, buffer, bufLen)
    (r ← dmn 10009 (P_EASTRING (field fName) bufLen (field eaName) (replicate (Z.to_nat bufLen) 0));
     if r.1 =? 0 then
       match r.2 with
       | P_EASTRING _ len _ v =>
           if Z.of_nat (length buffer) <? bufLen then throw BadAccess
           else mret (0, strncpy_field (Z.to_nat bufLen) (before_nul v)
                         ++ drop (Z.to_nat bufLen) buffer, len)
       | _ => throw BadAccess
       end
     else mret (r.1, buffer, bufLen)).

Definition LX_EAWRITESTRING (fName eaName value : list Z) (bufLen : Z) : Drv Z :=
  with_kmalloc (524 + bufLen) (- ENOMEM)
    (_ ← LX_dmn_call 10010 1 (P_EASTRING (field fName) bufLen (field eaName)
                               (strncpy_field (Z.to_nat bufLen) value)); mret 0).

Definition set_fileName (n : list Z) (pf : getfileinfo) : getfileinfo :=
  mk_getfileinfo n (gf_linkName pf) (gf_fs4 pf) (num_subdirs pf) (num_files pf) (lc_count pf)
    (link_broken pf) (gf_mode pf) (gf_uid pf) (gf_gid pf) (gf_flags pf).

Definition LX_GETFILEINFO (fileName : list Z) (pfs : getfileinfo) : Drv (Z * getfileinfo) :=
  n ← array_of LX_MAXPATH fileName;
  r ← dmn 10011 (P_GETFILEINFO (set_fileName n pfs));
  match r.2 with P_GETFILEINFO pf => mret (r.1, pf) | _ => throw BadAccess end.

Definition LX_LXAFS_RENAME (oldName newName : list Z) : Drv Z :=
  r ← dmn 10012 (P_TWONAME (field oldName) (field newName)); mret r.1.

(** ** DOS calls *)

Definition LX_DOSBEEP (waitflag frequency duration : Z) : Drv Z :=
  a ← LX_dmn_call 286 waitflag (P_DOSBEEP frequency duration); mret (ret_of a).

(** [value] is the caller's buffer. *)
Definition LX_DOSSCANENV (name value : list Z) : Drv (Z * list Z) :=
  d ← array_of 2000 name;
  r ← dmn 227 (P_TEXT d);
  if r.1 =? 0 then
    match r.2 with
    | P_TEXT d =>
        v ← get_str d;
        v' ← copy_n (Z.of_nat (length v) + 1) (v ++ [0]) value; mret (r.1, v')
    | _ => throw BadAccess
    end
  else mret (r.1, value).

Definition LX_DOSMOVE (oldName newName : list Z) : Drv Z :=
  r ← dmn 67 (P_TWONAME (field oldName) (field newName)); mret r.1.
Definition LX_DOSCREATEDIR (dirName : list Z) : Drv Z :=
  r ← dmn 270 (P_CREATEDIR (field dirName)); mret r.1.

(** The caller's handle and action, kept on failure. *)
Definition LX_DOSOPEN (fileName : list Z) (hf action : Z)
    (cbFile ulAttribute fsOpenFlags fsOpenMode : Z) : Drv (Z * Z * Z) :=
  r ← dmn 273 (P_OPEN (field fileName) 0 0 cbFile ulAttribute fsOpenFlags fsOpenMode);
  match r.2 with
  | P_OPEN _ h act _ _ _ _ => mret (if r.1 =? 0 then (r.1, h, act) else (r.1, hf, action))
  | _ => throw BadAccess
  end.

Definition LX_DOSFINDFIRST (fileSpec : list Z) (hDir flAttribute : Z) (findbuf : list Z)
    (cbBuf cFileNames ulInfoLevel : Z) : Drv (Z * Z * list Z * Z) :=
  with_kmalloc (280 + Z.of_nat FINDUNION_len + cbBuf) (- ENOMEM, hDir, findbuf, cFileNames)
    (b ← copy_n cbBuf findbuf (replicate (FINDUNION_len + Z.to_nat cbBuf) 0);
     r ← dmn 264 (P_FIND hDir cbBuf cFileNames flAttribute (field fileSpec) ulInfoLevel b);
     if r.1 =? 0 then
       match r.2 with
       | P_FIND h _ c _ _ _ b => out ← copy_n cbBuf b findbuf; mret (r.1, h, out, c)
       | _ => throw BadAccess
       end
     else mret (r.1, hDir, findbuf, cFileNames)).

Definition LX_DOSFINDNEXT (hDir : Z) (findbuf : list Z) (cbBuf cFileNames : Z) :
    Drv (Z * list Z * Z) :=
  with_kmalloc (280 + Z.of_nat FINDUNION_len + cbBuf) (- ENOMEM, findbuf, cFileNames)
    (b ← copy_n cbBuf findbuf (replicate (FINDUNION_len + Z.to_nat cbBuf) 0);
     r ← dmn 265 (P_FIND hDir cbBuf cFileNames 0 (replicate LX_MAXPATH 0) 0 b);
     if r.1 =? 0 then
       match r.2 with
       | P_FIND _ _ c _ _ _ b => out ← copy_n cbBuf b findbuf; mret (r.1, out, c)
       | _ => throw BadAccess
       end
     else mret (r.1, findbuf, cFileNames)).

Definition LX_DOSQUERYCURRENTDISK (diskNum driveMap : Z) : Drv (Z * Z * Z) :=
  r ← dmn 275 (P_DISK 0 0);
  match r.2 with
  | P_DISK a b => mret (if r.1 =? 0 then (r.1, a, b) else (r.1, diskNum, driveMap))
  | _ => throw BadAccess
  end.

(** The packet's code is 0 beforehand. *)
Definition LX_DOSFINDCLOSE (hDir : Z) : Drv Z :=
  a ← LX_dmn_call 263 1 (P_HANDLE hDir); rc_of (Some 0) a.
Definition LX_DOSCLOSE (hFile : Z) : Drv Z :=
  a ← LX_dmn_call 257 1 (P_HANDLE hFile); rc_of (Some 0) a.

(** Without [pibActual] the code of the call is dropped. *)
Definition LX_DOSSETFILEPTR (hFile ib method : Z) (pibActual : option Z) : Drv (Z * option Z) :=
  match pibActual with
  | Some old =>
      r ← dmn 256 (P_SETFILEPTR hFile ib method 0);
      match r.2 with
      | P_SETFILEPTR _ _ _ act => mret (r.1, Some (if r.1 =? 0 then act else old))
      | _ => throw BadAccess
      end
  | None => _ ← LX_dmn_call 256 1 (P_SETFILEPTR hFile ib method 0); mret (0, None)
  end.

Definition LX_DOSREAD (hFile : Z) (pBuffer : list Z) (cbRead : Z) (pcbActual : option Z) :
    Drv (Z * list Z * option Z) :=
  with_kmalloc (16 + cbRead) (- ENOMEM, pBuffer, pcbActual)
    (r ← dmn 281 (P_READWRITE hFile cbRead 0 (replicate (4 + Z.to_nat cbRead) 0));
     if r.1 =? 0 then
       match r.2 with
       | P_READWRITE _ _ act data =>
           b ← copy_n act data pBuffer;
           mret (r.1, b, match pcbActual with Some _ => Some act | None => None end)
       | _ => throw BadAccess
       end
     else mret (r.1, pBuffer, pcbActual)).

(** After a failed write the actual length is left as it was. *)
Definition LX_DOSWRITE (hFile : Z) (pBuffer : list Z) (cbWrite : Z) (pcbActual : option Z) :
    Drv (Z * option Z) :=
  with_kmalloc (16 + cbWrite) (- ENOMEM, pcbActual)
    (data ← copy_n cbWrite pBuffer (replicate (4 + Z.to_nat cbWrite) 0);
     r ← dmn 282 (P_READWRITE hFile cbWrite 0 data);
     match r.2 with
     | P_READWRITE _ _ act _ =>
         mret (r.1, if r.1 =? 0 then match pcbActual with Some _ => Some act | None => None end
                    else pcbActual)
     | _ => throw BadAccess
     end).

(** The buffer the answer is copied from starts at the structure. *)
Definition LX_DOSQUERYSYSINFO (iStart iLast : Z) (pBuffer : list Z) (cbBuf : Z) :
    Drv (Z * list Z) :=
  with_kmalloc (12 + cbBuf) (- ENOMEM, pBuffer)
    (let p := P_SYSINFO iStart iLast cbBuf
                (le32 iStart ++ le32 iLast ++ le32 cbBuf ++ replicate (Z.to_nat cbBuf) 0) in
     a ← LX_dmn_call 10006 1 p;
     match data_of p a with
     | P_SYSINFO _ _ _ data =>
         b ← copy_n cbBuf data pBuffer; rc ← rc_of None a; mret (rc, b)
     | _ => throw BadAccess
     end).

Definition block_of (len : Z) (l : list Z) : Drv (option (list Z)) :=
  if len =? 0 then mret None
  else if Z.of_nat (length l) <? len then throw BadAccess
  else mret (Some (take (Z.to_nat len) l)).

Definition LX_DOSEXECPGM (pObjname : option (list Z)) (cbObjname execFlag : Z)
    (pArg : list Z) (arglen : Z) (pEnv : list Z) (envlen : Z) (pRes : Z * Z) (pName : list Z) :
    Drv (Z * option (list Z) * (Z * Z)) :=
  with_kmalloc (544 + arglen + envlen + 2) (- ENOMEM, pObjname, pRes)
    (arg ← block_of arglen pArg;
     env ← block_of envlen pEnv;
     let p := P_EXECPGM (replicate LX_MAXPATH 0) cbObjname execFlag (0, 0) (field pName) arg env in
     a ← LX_dmn_call 144 1 p;
     match data_of p a with
     | P_EXECPGM obj _ _ res _ _ _ =>
         o ← match pObjname with
             | Some old => if cbObjname =? 0 then mret pObjname
                           else o ← copy_n cbObjname obj old; mret (Some o)
             | None => mret None
             end;
         rc ← rc_of None a; mret (rc, o, res)
     | _ => throw BadAccess
     end).

Definition LX_DOSSETFILESIZE (hFile cbSize : Z) : Drv Z :=
  r ← dmn 272 (P_FILESIZE hFile cbSize); mret r.1.

Definition LX_DOSQUERYFILEINFO (hFile ulInfoLevel : Z) (pInfoBuf : list Z) (cbInfoBuf : Z) :
    Drv (Z * list Z) :=
  r ← dmn 279 (P_FILEINFO hFile ulInfoLevel (replicate FILESTATUS4_len 0) cbInfoBuf);
  if r.1 =? 0 then
    match r.2 with
    | P_FILEINFO _ _ b _ => out ← copy_n cbInfoBuf b pInfoBuf; mret (r.1, out)
    | _ => throw BadAccess
    end
  else mret (r.1, pInfoBuf).

Definition LX_DOSSETFILEINFO (hFile ulInfoLevel : Z) (pInfoBuf : list Z) (cbInfoBuf : Z) : Drv Z :=
  b ← copy_n cbInfoBuf pInfoBuf (replicate FILESTATUS4_len 0);
  r ← dmn 83 (P_FILEINFO hFile ulInfoLevel b cbInfoBuf); mret r.1.

Definition LX_DOSQUERYPATHINFO (name : list Z) (ulInfoLevel : Z) (pInfoBuf : list Z) (cbInfoBuf : Z) :
    Drv (Z * list Z) :=
  r ← dmn 223 (P_PATHINFO (field name) ulInfoLevel cbInfoBuf 0 (replicate LX_MAXPATH 0));
  if r.1 =? 0 then
    match r.2 with
    | P_PATHINFO _ _ _ _ b => out ← copy_n cbInfoBuf b pInfoBuf; mret (r.1, out)
    | _ => throw BadAccess
    end
  else mret (r.1, pInfoBuf).

Definition LX_DOSSETPATHINFO (name : list Z) (ulInfoLevel : Z) (pInfoBuf : list Z)
    (cbInfoBuf flOptions : Z) : Drv Z :=
  b ← copy_n cbInfoBuf pInfoBuf (replicate FILESTATUS3_len 0);
  r ← dmn 104 (P_PATHINFO (field name) ulInfoLevel cbInfoBuf flOptions b); mret r.1.

(** [vFile] is a name, or the four bytes of a handle with reference type 0. *)
Definition LX_DOSENUMATTRIBUTE (ulRefType : Z) (vFile : list Z) (ulEntry : Z) (pBuffer : list Z)
    (cbBuf ulCount ulInfoLevel : Z) : Drv (Z * list Z * Z) :=
  with_kmalloc (280 + cbBuf) (- ENOMEM, pBuffer, ulCount)
    (f ← (if ulRefType =? 0 then copy_n 4 vFile (replicate LX_MAXPATH 0)
          else array_of LX_MAXPATH vFile);
     let p := P_ENUM ulRefType f ulEntry cbBuf ulCount ulInfoLevel (replicate (Z.to_nat cbBuf) 0) in
     a ← LX_dmn_call 204 1 p;
     rc ← rc_of (Some (- ENOMEM)) a;
     if rc =? 0 then
       match data_of p a with
       | P_ENUM _ _ _ _ c _ b => out ← copy_n cbBuf b pBuffer; mret (rc, out, c)
       | _ => throw BadAccess
       end
     else mret (rc, pBuffer, ulCount)).

Definition LX_DOSDELETE (name : list Z) : Drv Z :=
  n ← array_of LX_MAXPATH name; r ← dmn 60 (P_ONENAME n); mret r.1.
Definition LX_DOSDELETEDIR (name : list Z) : Drv Z :=
  n ← array_of LX_MAXPATH name; r ← dmn 80 (P_ONENAME n); mret r.1.
Definition LX_DOSCOPY (sourceFile targetFile : list Z) (option : Z) : Drv Z :=
  a ← array_of LX_MAXPATH sourceFile;
  b ← array_of LX_MAXPATH targetFile;
  r ← dmn 201 (P_COPY a b option); mret r.1.

(** ** What the wrappers do *)

(** [m] is one call of the system: its value is [r]'s and the daemon's system
    moves as [r] says; the heap is untouched. *)
Definition runs_as {A} (m : Drv A) (s : driver W H) (r : A * W) : Prop :=
  exists s' d', m s = Ok (r.1, s') /\ daemon s' = Some d' /\ os d' = r.2 /\ kheap s' = kheap s.

(** The daemon's handler for [cmd], whatever else is in the process. *)
Definition handler_does (cmd : Z) (p : payload) (w : W) (r : Z * payload * W) : Prop :=
  forall st : lxapid W, os st = w -> p_cmd (param st) = cmd ->
  exists st', executeNewCommand walk p st = Ok (r.1.2, st') /\ p_rc (param st') = r.1.1 /\
    os st' = r.2.

Lemma delete_handler n w :
  cstring n -> (length n < LX_MAXPATH)%nat ->
  handler_does 60 (P_ONENAME (field n)) w ((DosDelete n w).1, P_ONENAME (field n), (DosDelete n w).2).
Proof. intros Hn Hl. handler @CMD_DosDelete. Qed.

Lemma deletedir_handler n w :
  cstring n -> (length n < LX_MAXPATH)%nat ->
  handler_does 80 (P_ONENAME (field n)) w ((DosDeleteDir n w).1, P_ONENAME (field n), (DosDeleteDir n w).2).
Proof. intros Hn Hl. handler @CMD_DosDeleteDir. Qed.

Lemma createdir_handler n w :
  cstring n -> (length n < LX_MAXPATH)%nat ->
  handler_does 270 (P_CREATEDIR (field n)) w ((DosCreateDir n w).1, P_CREATEDIR (field n), (DosCreateDir n w).2).
Proof. intros Hn Hl. handler @CMD_DosCreateDir. Qed.

Lemma move_handler a b w :
  cstring a -> cstring b -> (length a < LX_MAXPATH)%nat -> (length b < LX_MAXPATH)%nat ->
  handler_does 67 (P_TWONAME (field a) (field b)) w
    ((DosMove a b w).1, P_TWONAME (field a) (field b), (DosMove a b w).2).
Proof. intros Ha Hb La Lb. handler @CMD_DosMove. Qed.

Lemma copy_handler a b o w :
  cstring a -> cstring b -> (length a < LX_MAXPATH)%nat -> (length b < LX_MAXPATH)%nat ->
  handler_does 201 (P_COPY (field a) (field b) o) w
    ((DosCopy a b o w).1, P_COPY (field a) (field b) o, (DosCopy a b o w).2).
Proof. intros Ha Hb La Lb. handler @CMD_DosCopy. Qed.

Lemma open_handler n cb attr fl mode w :
  cstring n -> (length n < LX_MAXPATH)%nat ->
  handler_does 273 (P_OPEN (field n) 0 0 cb attr fl mode) w
    (let '(rc, (h, act), w') := DosOpen n (0, 0) cb attr fl mode w in
     (rc, P_OPEN (field n) h act cb attr fl mode, w')).
Proof. intros Hn Hl. destruct (DosOpen n (0, 0) cb attr fl mode w) as [[rc [h act]] w'] eqn:E. handler @CMD_DosOpen. Qed.

Lemma read_handler h cb act data w :
  handler_does 281 (P_READWRITE h cb act data) w
    (let '(rc, (data', act'), w') := DosRead h data cb act w in
     (rc, P_READWRITE h cb act' data', w')).
Proof. destruct (DosRead h data cb act w) as [[rc [d' act']] w'] eqn:E. handler @CMD_DosRead. Qed.

Lemma write_handler h cb act data w :
  cb <= length data ->
  handler_does 282 (P_READWRITE h cb act data) w
    (let '(rc, act', w') := DosWrite h (take (Z.to_nat cb) data) act w in
     (rc, P_READWRITE h cb act' data, w')).
Proof.
  intros Hc. destruct (DosWrite h (take (Z.to_nat cb) data) act w) as [[rc act'] w'] eqn:E.
  assert (Hlt : (Z.of_nat (length data) <? cb) = false) by lia. handler @CMD_DosWrite.
Qed.

Lemma seek_handler h ib m act w :
  handler_does 256 (P_SETFILEPTR h ib m act) w
    (let '(rc, act', w') := DosSetFilePtr h ib m act w in (rc, P_SETFILEPTR h ib m act', w')).
Proof. destruct (DosSetFilePtr h ib m act w) as [[rc act'] w'] eqn:E. handler @CMD_DosSetFilePtr. Qed.

Lemma close_handler h w :
  handler_does 257 (P_HANDLE h) w ((DosClose h w).1, P_HANDLE h, (DosClose h w).2).
Proof. handler @CMD_DosClose. Qed.

Lemma querypath_handler n level cb b w :
  cstring n -> (length n < LX_MAXPATH)%nat ->
  handler_does 223 (P_PATHINFO (field n) level cb 0 b) w
    (let '(rc, b', w') := DosQueryPathInfo n level b cb w in
     (rc, P_PATHINFO (field n) level cb 0 b', w')).
Proof.
  intros Hn Hl. destruct (DosQueryPathInfo n level b cb w) as [[rc b'] w'] eqn:E.
  handler @CMD_DosQueryPathInfo.
Qed.

Lemma dmn_runs cmd p (s : driver W H) d rc p' w' :
  daemon s = Some d -> handler_does cmd p (os d) (rc, p', w') ->
  exists d', dmn cmd p s = Ok ((rc, p'), mk_driver (Some d') (kheap s)) /\ os d' = w'.
Proof.
  intros Hd Hh. unfold dmn, LX_dmn_call. mstep. rewrite Hd.
  match goal with |- context [executeNewCommand _ _ ?st] =>
    destruct (Hh st eq_refl eq_refl) as (d' & Ed & Hrc & Ho) end.
  cbn in Ed, Hrc, Ho. rewrite Ed. cbn. rewrite Hrc. unfold mret, M_ret. eauto.
Qed.

(** The code of a call as the only result. *)
Lemma code_runs cmd p p' (s : driver W H) d (r : Z * W) :
  daemon s = Some d -> handler_does cmd p (os d) (r.1, p', r.2) ->
  runs_as (r ← dmn cmd p; mret r.1) s r.
Proof.
  intros Hd Hh. destruct (dmn_runs _ _ _ _ _ _ _ Hd Hh) as (d' & E & Ho).
  unfold runs_as. mrun E. unfold mret, M_ret. eauto 8.
Qed.

Lemma array_of_short {S} n (s : S) : (length n < LX_MAXPATH)%nat -> array_of LX_MAXPATH n s = Ok (field n, s).
Proof. intros Hn. unfold array_of. apply Nat.ltb_lt in Hn. by rewrite Hn. Qed.


Lemma long_name_fails (n : list Z) : cstring n -> (LX_MAXPATH <= length n)%nat ->
  forall S (s : S), get_str (field n) s = Err BadAccess.
Proof. intros Hn Hl S s. unfold get_str, field. by rewrite array_str_field_long. Qed.

Ltac fails Hd fn Hlong :=
  unfold dmn, LX_dmn_call; mstep; rewrite Hd; unfold executeNewCommand, lx_cmds; mstep;
  cbn [p_cmd DaemonCmd.param os run_command];
  repeat match goal with |- context [Z.eqb ?a ?b] =>
    let v := eval vm_compute in (Z.eqb a b) in
    lazymatch v with true => idtac | false => idtac end;
    change (Z.eqb a b) with v end;
  cbn iota; unfold fn; rewrite ?M_bind_unfold, Hlong; reflexivity.

(** A name of [LX_MAXPATH] characters or more is copied without its NUL
    and the daemon reads on behind the field; where the driver copies with
    [strcpy] its own stack is overwritten. *)
Theorem long_names_fault (s : driver W H) d a b o hf action cb attr fl mode :
  daemon s = Some d -> cstring a -> (LX_MAXPATH <= length a)%nat ->
  LX_DOSDELETE a s = Err BadAccess /\ LX_DOSDELETEDIR a s = Err BadAccess /\
  LX_DOSCREATEDIR a s = Err BadAccess /\ LX_DOSMOVE a b s = Err BadAccess /\
  LX_DOSCOPY a b o s = Err BadAccess /\ LX_DOSOPEN a hf action cb attr fl mode s = Err BadAccess.
Proof.
  intros Hd Ha La. pose proof (long_name_fails a Ha La) as Hlong.
  assert (Harr : forall S (s : S), array_of LX_MAXPATH a s = Err BadAccess).
  { intros S0 s0. unfold array_of. by destruct (Nat.ltb_spec (length a) LX_MAXPATH); [lia|]. }
  split_and!.
  - unfold LX_DOSDELETE. by rewrite M_bind_unfold, Harr.
  - unfold LX_DOSDELETEDIR. by rewrite M_bind_unfold, Harr.
  - unfold LX_DOSCREATEDIR. fails Hd @CMD_DosCreateDir Hlong.
  - unfold LX_DOSMOVE. fails Hd @CMD_DosMove Hlong.
  - unfold LX_DOSCOPY. by rewrite M_bind_unfold, Harr.
  - unfold LX_DOSOPEN. fails Hd @CMD_DosOpen Hlong.
Qed.

(** Without a daemon nothing is queued. *)
Lemma dmn_offline cmd p (s : driver W H) : daemon s = None -> dmn cmd p s = Err UninitRead.
Proof. intros Hd. unfold dmn, LX_dmn_call. mstep. by rewrite Hd. Qed.

(** Without a daemon closing a file or a search reports success although
    nothing was closed, and so does moving a file pointer without a result;
    the other calls return the indeterminate code of a packet nobody wrote. *)
Theorem no_daemon (s : driver W H) a b h ib m hf action cb attr fl mode :
  daemon s = None ->
  LX_DOSCLOSE h s = Ok (0, s) /\ LX_DOSFINDCLOSE h s = Ok (0, s) /\
  LX_DOSSETFILEPTR h ib m None s = Ok (0, None, s) /\
  LX_DOSMOVE a b s = Err UninitRead /\ LX_DOSCREATEDIR a s = Err UninitRead /\
  LX_DOSOPEN a hf action cb attr fl mode s = Err UninitRead /\
  LX_DOSSETFILESIZE h cb s = Err UninitRead.
Proof.
  intros Hd. unfold LX_DOSCLOSE, LX_DOSFINDCLOSE, LX_DOSSETFILEPTR, LX_DOSMOVE, LX_DOSCREATEDIR,
    LX_DOSOPEN, LX_DOSSETFILESIZE.
  split_and!; rewrite M_bind_unfold; try (unfold LX_dmn_call; by rewrite Hd);
    rewrite dmn_offline by done; reflexivity.
Qed.

Lemma with_kmalloc_runs {A} sz (fail : A) body (s : driver W H) `{!HeapLaws H} :
  heap_ok (kheap s) -> 0 < sz < 2147483648 ->
  (with_kmalloc sz fail body s = Ok (fail, mk_driver (daemon s) (kmalloc sz (kheap s)).1) /\
   used (kmalloc sz (kheap s)).1 = used (kheap s)) \/
  (exists h p, used (kfree p h) = used (kheap s) /\
    forall a s', body (mk_driver (daemon s) h) = Ok (a, s') -> kheap s' = h ->
    with_kmalloc sz fail body s = Ok (a, mk_driver (daemon s') (kfree p h))).
Proof.
  intros Ho Hs. unfold with_kmalloc, drv_kmalloc, drv_kfree. rewrite M_bind_unfold.
  rewrite u32_small by lia. destruct (kmalloc sz (kheap s)) as [h p] eqn:E.
  destruct (kmalloc_laws _ _ _ _ Ho Hs E) as [Ho' Hc]. cbn [fst].
  destruct (p =? 0) eqn:Ep.
  - left. split; [done|]. destruct Hc as [[_ ?]|?]; [done|lia].
  - right. exists h, p. split; [apply (kfree_kmalloc sz (kheap s) h p Ho Hs E); lia|].
    intros a s' Hb <-. rewrite Z.ltb_irrefl, M_bind_unfold, Hb. reflexivity.
Qed.

Lemma copy_n_ok (n : Z) src dst (s : driver W H) :
  n <= length src -> n <= length dst ->
  copy_n n src dst s = Ok (take (Z.to_nat n) src ++ drop (Z.to_nat n) dst, s).
Proof.
  intros Hs Hd. unfold copy_n.
  assert ((Z.of_nat (length src) <? n) || (Z.of_nat (length dst) <? n) = false) as -> by lia. done.
Qed.


(** Writing is [DosWrite] of the first [cb] bytes in the daemon; the actual
    length reaches the caller after success and is left alone otherwise. *)
Theorem write_runs `{!HeapLaws H} (s : driver W H) d h buf cb x rc act w' :
  daemon s = Some d -> heap_ok (kheap s) -> 0 <= cb < 2147483632 -> cb <= length buf ->
  DosWrite h (take (Z.to_nat cb) buf) 0 (os d) = (rc, act, w') ->
  exists r s', LX_DOSWRITE h buf cb (Some x) s = Ok (r, s') /\ used (kheap s') = used (kheap s) /\
    ((r = (- ENOMEM, Some x) /\ daemon s' = daemon s) \/
     (exists d', daemon s' = Some d' /\ os d' = w' /\
        r = if rc =? 0 then (rc, Some act) else (rc, Some x))).
Proof.
  intros Hd Ho Hcb Hbuf E. unfold LX_DOSWRITE.
  match goal with |- context [with_kmalloc ?sz ?fl ?body s] =>
    destruct (with_kmalloc_runs sz fl body s Ho ltac:(lia)) as [[Em Hu]|(h1 & p & Hu & Hb)] end.
  - rewrite Em. eexists _, _. split; [reflexivity|]. auto.
  - set (dt := take (Z.to_nat cb) buf ++ drop (Z.to_nat cb) (replicate (4 + Z.to_nat cb) 0)).
    assert (Hl : length dt = (4 + Z.to_nat cb)%nat).
    { unfold dt. rewrite length_app, length_take, length_drop, length_replicate. lia. }
    assert (Ht : take (Z.to_nat cb) dt = take (Z.to_nat cb) buf).
    { unfold dt. rewrite take_app_le by (rewrite length_take; lia). rewrite take_take. f_equal. lia. }
    pose proof (write_handler h cb 0 dt (os d) ltac:(lia)) as Hh. rewrite Ht, E in Hh.
    destruct (dmn_runs _ _ (mk_driver (daemon s) h1) _ _ _ _ Hd Hh) as (d' & Ed & Hod).
    eexists _, _. split; [eapply Hb|].
    + rewrite M_bind_unfold, copy_n_ok by (rewrite ?length_replicate; lia). fold dt. mrun Ed. reflexivity.
    + done.
    + cbn. split; [exact Hu|]. right. exists d'. split; [done|]. split; [done|]. by destruct (rc =? 0).
Qed.
End DosCalls.

(** ** A file written and read back through the daemon *)

Definition daemon0 : lxapid disk := mk_lxapid disk0 4096 65536 (mk_packet 0 4096 0 0 0 0) [].
Definition driver0 : driver disk arena := mk_driver (Some daemon0) (arena0 9).

Example write_read_back :
  eval (o ← LX_DOSOPEN 9 [97] 0 0 0 0 18 66;
        w ← LX_DOSWRITE 9 o.1.2 [1; 2; 3; 4] 4 (Some 0);
        s ← LX_DOSSETFILEPTR 9 o.1.2 1 0 (Some 0);
        r ← LX_DOSREAD 9 o.1.2 [7; 7; 7; 7; 7] 5 (Some 0);
        c ← LX_DOSCLOSE 9 o.1.2;
        c' ← LX_DOSCLOSE 9 o.1.2;
        mret (w, s, r, c, c')) driver0
  = Some (0, Some 4, (0, Some 1), (0, [2; 3; 4; 7; 7], Some 3), 0, 6).
Proof. vm_compute. reflexivity. Qed.

Lemma cstring_witness n : cstring (replicate n 97).
Proof. by apply Forall_replicate. Qed.

(** A disk with the file "a". *)
Definition disk1 : disk := set_files {[ [97] := [10; 20; 30] ]} disk0.
Definition driver1 : driver disk arena :=
  mk_driver (Some (mk_lxapid disk1 4096 65536 (mk_packet 0 4096 0 0 0 0) [])) (arena0 9).


Lemma long_names_fault_witness :
  LX_DOSDELETE 0 (replicate 260 97) driver1 = Err BadAccess /\
  LX_DOSDELETEDIR 0 (replicate 260 97) driver1 = Err BadAccess /\
  LX_DOSCREATEDIR 0 (replicate 260 97) driver1 = Err BadAccess /\
  LX_DOSMOVE 0 (replicate 260 97) [98] driver1 = Err BadAccess /\
  LX_DOSCOPY 0 (replicate 260 97) [98] 0 driver1 = Err BadAccess /\
  LX_DOSOPEN 0 (replicate 260 97) 5 6 0 0 1 64 driver1 = Err BadAccess.
Proof.
  apply (long_names_fault 0 driver1 (mk_lxapid disk1 4096 65536 (mk_packet 0 4096 0 0 0 0) [])).
  - reflexivity.
  - apply cstring_witness.
  - rewrite length_replicate. unfold LX_MAXPATH. lia.
Defined.

Lemma no_daemon_witness :
  let s := mk_driver None (arena0 3) in
  LX_DOSCLOSE 0 7 s = Ok (0, s) /\ LX_DOSFINDCLOSE 0 7 s = Ok (0, s) /\
  LX_DOSSETFILEPTR 0 7 1 0 None s = Ok (0, None, s) /\
  LX_DOSMOVE 0 [97] [98] s = Err UninitRead /\ LX_DOSCREATEDIR 0 [97] s = Err UninitRead /\
  LX_DOSOPEN 0 [97] 5 6 0 0 1 64 s = Err UninitRead /\
  LX_DOSSETFILESIZE 0 7 0 s = Err UninitRead.
Proof. apply (no_daemon 0 (mk_driver None (arena0 3)) [97] [98] 7 1 0 5 6 0 0 1 64). reflexivity. Defined.

(** "a" open as handle 1, at position 1. *)
Definition disk2 : disk := set_handles {[ 1 := ([97], 1%nat) ]} disk1.
Definition daemon2 : lxapid disk := mk_lxapid disk2 4096 65536 (mk_packet 0 4096 0 0 0 0) [].
Definition driver2 : driver disk arena := mk_driver (Some daemon2) (arena0 9).


Lemma write_runs_witness :
  exists r s', LX_DOSWRITE 0 1 [8; 9] 2 (Some 0) driver2 = Ok (r, s') /\
    used (kheap s') = used (kheap driver2) /\
    ((r = (- ENOMEM, Some 0) /\ daemon s' = daemon driver2) \/
     (exists d', daemon s' = Some d' /\
        os d' = mk_disk {[ [97] := [10; 8; 9] ]} {[ 1 := ([97], 3%nat) ]} 1 4 /\
        r = (0, Some 2))).
Proof.
  apply (write_runs 0 driver2 daemon2 1 [8; 9] 2 0 0 2).
  - reflexivity.
  - exact I.
  - lia.
  - cbn. lia.
  - vm_compute. reflexivity.
Defined.
