(* ===== verification/ResMgr.v ===== *)
(** * The resource manager glue (Dev32/lxrm.c)

    OS/2's resource manager is 16-bit code.  Every call copies its arguments to
    fixed buffers in a 16-bit segment, the router, and a thunk of lxrmcall.asm
    passes those on.  Adjuncts are variable-length blocks; the thunk chains
    them by their lengths.  The resource manager is the interface [Rm]. *)

From S2P Require Import Prelude CString DevHlp DosApi DaemonCmd.

(** An adjunct is its bytes: link (4), length (2), type (2), body. *)

(** What the resource manager is told and answers: code and handle. *)
Class Rm (W : Type) := {
  RMCreateDriver : list Z * list Z * list Z -> list Z -> W -> Z * Z * W;
  RMDestroyDriver : Z -> W -> Z * W;
  (** driver, name, structure, adjuncts, parent, resource list *)
  RMCreateAdapter : Z -> list Z -> list Z -> option (list (list Z)) -> Z -> Z -> W -> Z * Z * W;
  RMDestroyAdapter : Z -> Z -> W -> Z * W;
  RMCreateDevice : Z -> list Z -> list Z -> option (list (list Z)) -> Z -> Z -> W -> Z * Z * W;
  RMDestroyDevice : Z -> Z -> W -> Z * W;
  RMAllocResource : Z -> list Z -> W -> Z * Z * W;
  RMDeallocResource : Z -> Z -> W -> Z * W;
  RMModifyResources : Z -> Z -> Z -> Z -> W -> Z * W
}.

(** The router's buffers; [rm_ResourceList] is the start of [tmpStr2]. *)
Record router := mk_router {
  rm_hDriver : Z; rm_hAdapter : Z; rm_hDevice : Z; rm_hResource : Z; rm_ModifyAction : Z;
  tmpStr1 : list Z; tmpStr2 : list Z; tmpStr3 : list Z;
  rm_DriverStruct : list Z; rm_AdapterStruct : list Z; rm_DeviceStruct : list Z;
  rm_ResourceStruct : list Z; rm_AdjunctBuffer : list Z
}.

Record resmgr (W : Type) := mk_resmgr {
  rmw : W;
  rt : router;
  hDriver : Z; hPCIAdap : Z; hPCIDev : Z; hMEMAdap : Z;
  dolxdevtree : bool;
  dorm : bool
}.
Arguments mk_resmgr {W}. Arguments rmw {W}. Arguments rt {W}. Arguments hDriver {W}.
Arguments hPCIAdap {W}. Arguments hPCIDev {W}. Arguments hMEMAdap {W}.
Arguments dolxdevtree {W}. Arguments dorm {W}.

(** ** Copying to the router *)

Definition RMCopyToStr (src dest : list Z) : option (list Z) := overwrite 0 (src ++ [0]) dest.

Fixpoint copy_adjuncts (c : nat) (adjs : list (list Z)) (p : list Z) : option (list Z) :=
  match adjs with
  | [] => Some p
  | a :: adjs => p ← overwrite c a p; copy_adjuncts (c + length a) adjs p
  end.
Definition RMCopyAdjunctList (pAdjunct : list (list Z)) (p : list Z) : option (list Z) :=
  match pAdjunct with
  | [] => overwrite 0 [0; 0; 0; 0] p
  | _ => copy_adjuncts 0 pAdjunct p
  end.
(** Of a resource list only the first four bytes are copied. *)
Definition RMCopyResourceList (pAHResource : option (list Z)) (p : list Z) : option (list Z) :=
  match pAHResource with
  | Some l => overwrite 0 (take 4 l) p
  | None => overwrite 0 [0; 0; 0; 0] p
  end.

(** [__GetAdjList]: the blocks the resource manager will walk. *)
Fixpoint adj_chain (fuel : nat) (o : nat) (p : list Z) : list (list Z) :=
  match fuel with
  | O => []
  | S fuel =>
      let len := Z.to_nat (word_at (o + 4) p) in
      take len (drop o p) :: (if dword_at o p =? 0 then [] else adj_chain fuel (o + len) p)
  end.
Definition GetAdjList (p : list Z) : option (list (list Z)) :=
  if word_at 4 p =? 0 then None else Some (adj_chain (length p) 0 p).

Section ResMgr.
Context {W : Type} `{Rm W}.
Abbreviation R := (M (resmgr W)).

Definition lift_opt {A} (o : option A) : R A :=
  match o with Some a => mret a | None => throw BadAccess end.
Definition set_rt (r : router) : R unit :=
  modify (fun s => mk_resmgr (rmw s) r (hDriver s) (hPCIAdap s) (hPCIDev s) (hMEMAdap s)
    (dolxdevtree s) (dorm s)).
Definition rm_call {A} (f : W -> A * W) : R A := fun s =>
  let '(a, w) := f (rmw s) in
  Ok (a, mk_resmgr w (rt s) (hDriver s) (hPCIAdap s) (hPCIDev s) (hMEMAdap s)
    (dolxdevtree s) (dorm s)).
Definition set_statics (drv adap dev : Z) : R unit :=
  modify (fun s => mk_resmgr (rmw s) (rt s) drv adap dev (hMEMAdap s) (dolxdevtree s) (dorm s)).

(** The handles of the router for a call. *)
Definition with_handles (drv adap dev res act : Z) (r : router) : router :=
  mk_router drv adap dev res act (tmpStr1 r) (tmpStr2 r) (tmpStr3 r) (rm_DriverStruct r)
    (rm_AdapterStruct r) (rm_DeviceStruct r) (rm_ResourceStruct r) (rm_AdjunctBuffer r).
Definition with_strings (s1 s2 s3 : list Z) (r : router) : router :=
  mk_router (rm_hDriver r) (rm_hAdapter r) (rm_hDevice r) (rm_hResource r) (rm_ModifyAction r)
    s1 s2 s3 (rm_DriverStruct r) (rm_AdapterStruct r) (rm_DeviceStruct r) (rm_ResourceStruct r)
    (rm_AdjunctBuffer r).
Definition with_structs (d a e s adj : list Z) (r : router) : router :=
  mk_router (rm_hDriver r) (rm_hAdapter r) (rm_hDevice r) (rm_hResource r) (rm_ModifyAction r)
    (tmpStr1 r) (tmpStr2 r) (tmpStr3 r) d a e s adj.

(** A structure with its strings apart: name, the bytes, adjuncts. *)
Record rm_struct := mk_rm_struct { st_name : list Z; st_bytes : list Z; st_adj : list (list Z) }.

Definition RM32CreateDriver (name descr vendor bytes : list Z) : R (Z * option Z) :=
  s ← get;
  if dorm s then
    let r := rt s in
    s1 ← lift_opt (RMCopyToStr name (tmpStr1 r));
    s2 ← lift_opt (RMCopyToStr descr (tmpStr2 r));
    s3 ← lift_opt (RMCopyToStr vendor (tmpStr3 r));
    d ← lift_opt (overwrite 12 (take 16 (drop 12 bytes)) (rm_DriverStruct r));
    set_rt (with_structs d (rm_AdapterStruct r) (rm_DeviceStruct r) (rm_ResourceStruct r)
              (rm_AdjunctBuffer r) (with_strings s1 s2 s3 r)) ≫= fun _ =>
    (* RM32CreateDriverASM *)
    a ← rm_call (RMCreateDriver (s1, s2, s3) d);
    r ← gets rt;
    set_rt (with_handles a.2 (rm_hAdapter r) (rm_hDevice r) (rm_hResource r) (rm_ModifyAction r) r) ≫= fun _ =>
    mret (a.1, if a.1 =? 0 then Some a.2 else None)
  else mret (0, None).

Definition RM32DestroyDriver (hDriver : Z) : R Z :=
  s ← get;
  if dorm s then
    let r := rt s in
    set_rt (with_handles hDriver (rm_hAdapter r) (rm_hDevice r) (rm_hResource r) (rm_ModifyAction r) r) ≫= fun _ =>
    rm_call (RMDestroyDriver hDriver)
  else mret 0.

(** The code, and the handle that was stored. *)
Definition RM32CreateAdapter (hDrv : Z) (pAdap : rm_struct) (hDev : Z) (res : option (list Z)) :
    R (Z * option Z) :=
  s ← get;
  if dorm s then
    let r := rt s in
    s1 ← lift_opt (RMCopyToStr (st_name pAdap) (tmpStr1 r));
    a ← lift_opt (overwrite 4 (take 20 (drop 4 (st_bytes pAdap))) (rm_AdapterStruct r));
    s2 ← lift_opt (RMCopyResourceList res (tmpStr2 r));
    adj ← lift_opt (RMCopyAdjunctList (st_adj pAdap) (rm_AdjunctBuffer r));
    set_rt (with_handles hDrv (rm_hAdapter r) hDev (rm_hResource r) (rm_ModifyAction r)
      (with_structs (rm_DriverStruct r) a (rm_DeviceStruct r) (rm_ResourceStruct r) adj
         (with_strings s1 s2 (tmpStr3 r) r))) ≫= fun _ =>
    (* RM32CreateAdapterASM *)
    x ← rm_call (RMCreateAdapter hDrv s1 a (GetAdjList adj) hDev (dword_at 0 s2));
    r ← gets rt;
    set_rt (with_handles (rm_hDriver r) x.2 (rm_hDevice r) (rm_hResource r) (rm_ModifyAction r) r) ≫= fun _ =>
    mret (x.1, if x.1 =? 0 then Some x.2 else None)
  else mret (0, None).

Definition RM32DestroyAdapter (hDrv hAdap : Z) : R Z :=
  s ← get;
  if dorm s then
    let r := rt s in
    set_rt (with_handles hDrv hAdap (rm_hDevice r) (rm_hResource r) (rm_ModifyAction r) r) ≫= fun _ =>
    rm_call (RMDestroyAdapter hDrv hAdap)
  else mret 0.

Definition RM32CreateDevice (hDrv : Z) (pDev : rm_struct) (hAdap : Z) (res : option (list Z)) :
    R (Z * option Z) :=
  s ← get;
  if dorm s then
    let r := rt s in
    s1 ← lift_opt (RMCopyToStr (st_name pDev) (tmpStr1 r));
    e ← lift_opt (overwrite 4 (take 8 (drop 4 (st_bytes pDev))) (rm_DeviceStruct r));
    s2 ← lift_opt (RMCopyResourceList res (tmpStr2 r));
    adj ← lift_opt (RMCopyAdjunctList (st_adj pDev) (rm_AdjunctBuffer r));
    set_rt (with_handles hDrv hAdap (rm_hDevice r) (rm_hResource r) (rm_ModifyAction r)
      (with_structs (rm_DriverStruct r) (rm_AdapterStruct r) e (rm_ResourceStruct r) adj
         (with_strings s1 s2 (tmpStr3 r) r))) ≫= fun _ =>
    (* RM32CreateDeviceASM *)
    x ← rm_call (RMCreateDevice hDrv s1 e (GetAdjList adj) hAdap (dword_at 0 s2));
    r ← gets rt;
    set_rt (with_handles (rm_hDriver r) (rm_hAdapter r) x.2 (rm_hResource r) (rm_ModifyAction r) r) ≫= fun _ =>
    mret (x.1, if x.1 =? 0 then Some x.2 else None)
  else mret (0, None).

Definition RM32DestroyDevice (hDrv hDev : Z) : R Z :=
  s ← get;
  if dorm s then
    let r := rt s in
    set_rt (with_handles hDrv (rm_hAdapter r) hDev (rm_hResource r) (rm_ModifyAction r) r) ≫= fun _ =>
    rm_call (RMDestroyDevice hDrv hDev)
  else mret 0.

Definition RM32AllocResource (hDrv : Z) (pRes : list Z) : R (Z * option Z) :=
  s ← get;
  if dorm s then
    let r := rt s in
    b ← lift_opt (overwrite 0 (take 20 pRes) (rm_ResourceStruct r));
    set_rt (with_handles hDrv (rm_hAdapter r) (rm_hDevice r) (rm_hResource r) (rm_ModifyAction r)
      (with_structs (rm_DriverStruct r) (rm_AdapterStruct r) (rm_DeviceStruct r) b
         (rm_AdjunctBuffer r) r)) ≫= fun _ =>
    x ← rm_call (RMAllocResource hDrv b);
    r ← gets rt;
    set_rt (with_handles (rm_hDriver r) (rm_hAdapter r) (rm_hDevice r) x.2 (rm_ModifyAction r) r) ≫= fun _ =>
    mret (x.1, if x.1 =? 0 then Some x.2 else None)
  else mret (0, None).

Definition RM32DeallocResource (hDrv hRes : Z) : R Z :=
  s ← get;
  if dorm s then
    let r := rt s in
    set_rt (with_handles hDrv (rm_hAdapter r) (rm_hDevice r) hRes (rm_ModifyAction r) r) ≫= fun _ =>
    rm_call (RMDeallocResource hDrv hRes)
  else mret 0.

Definition RM32ModifyResources (hDrv hAdap action hRes : Z) : R Z :=
  s ← get;
  if dorm s then
    let r := rt s in
    set_rt (with_handles hDrv hAdap (rm_hDevice r) hRes (u16 action) r) ≫= fun _ =>
    rm_call (RMModifyResources hDrv hAdap (u16 action) hRes)
  else mret 0.

(** ** The driver's objects *)

(** "LXAPI32.SYS", "Linux driver", "Stefan Milcke", "Linux API support layer",
    "Linux PCI bus", "Linux PCI device tree" *)
Definition LXDRIVER_NAME : list Z := [76; 88; 65; 80; 73; 51; 50; 46; 83; 89; 83].
Definition LXVENDOR_NAME : list Z := [83; 116; 101; 102; 97; 110; 32; 77; 105; 108; 99; 107; 101].
Definition support_layer : list Z :=
  [76; 105; 110; 117; 120; 32; 65; 80; 73; 32; 115; 117; 112; 112; 111; 114; 116; 32; 108; 97; 121; 101; 114].
Definition pci_bus : list Z := [76; 105; 110; 117; 120; 32; 80; 67; 73; 32; 98; 117; 115].
Definition pci_tree : list Z :=
  [76; 105; 110; 117; 120; 32; 80; 67; 73; 32; 100; 101; 118; 105; 99; 101; 32; 116; 114; 101; 101].

(** Version and build date come from a generated header. *)
Context (version : Z * Z) (build : Z * Z * Z).
Context (sizeof_ADJUNCT : nat).

(** Behind the three names: version, date, flags, type, subtype, callback. *)
Definition LX_init_driver_struct (DrvrType DrvrSubType : Z) : list Z :=
  replicate 12 0 ++ [u8 version.1; u8 version.2] ++ le16 build.1.1 ++
  [u8 build.1.2; u8 build.2] ++ le16 0 ++ le16 DrvrType ++ le16 DrvrSubType ++ le32 0.

Definition LX_initResourceManager : R Z :=
  s ← get;
  if dolxdevtree s || negb (dorm s) then
    r ← RM32CreateDriver LXDRIVER_NAME support_layer LXVENDOR_NAME (LX_init_driver_struct 7 2);
    match r.2 with
    | Some h => s ← get; set_statics h (hPCIAdap s) (hPCIDev s) ≫= fun _ => mret r.1
    | None => mret r.1
    end
  else mret 0.

(** Adapter number 0. *)
Definition adap_num : list Z :=
  le32 0 ++ le16 (Z.of_nat sizeof_ADJUNCT) ++ le16 2 ++ replicate (sizeof_ADJUNCT - 8) 0.
Definition pci_adapter : rm_struct :=
  mk_rm_struct pci_bus (le32 0 ++ le16 0 ++ le16 0 ++ le16 128 ++ le16 1 ++
    le16 4 ++ le16 48 ++ le32 0 ++ le32 0) [adap_num].
Definition pci_device : rm_struct :=
  mk_rm_struct pci_tree (le32 0 ++ le16 2 ++ le16 65535 ++ le32 0) [].

Definition LX_create_pci_adapter : R Z :=
  s ← get;
  if negb (dolxdevtree s) || negb (dorm s) then mret 0
  else
    rc ← (if hPCIAdap s =? 0 then
            r ← RM32CreateAdapter (hDriver s) pci_adapter 0 None;
            match r.2 with
            | Some h => s ← get; set_statics (hDriver s) h (hPCIDev s) ≫= fun _ => mret r.1
            | None => mret r.1
            end
          else mret 0);
    s ← get;
    if (rc =? 0) && (hPCIDev s =? 0) then
      r ← RM32CreateDevice (hDriver s) pci_device (hPCIAdap s) None;
      match r.2 with
      | Some h => s ← get; set_statics (hDriver s) (hPCIAdap s) h ≫= fun _ => mret r.1
      | None => mret r.1
      end
    else mret rc.

(** Base class and subclass of a PCI class code. *)
Definition LX_pci_convert_class (class : Z) : Z * Z :=
  let cl := Z.land (Z.shiftr class 16) 15 in
  let scl := Z.land (Z.shiftr class 8) 15 in
  if cl <=? 13 then
    if scl <? 128 then
      let scl := scl + 1 in
      let cv := if (cl =? 1) || (cl =? 8) then 4
                else if (cl =? 2) || (cl =? 6) || (cl =? 9) then 3
                else if (cl =? 3) || (cl =? 4) then 2
                else if (cl =? 5) || (cl =? 12) then 1 else 0 in
      (cl, if cv <? scl then 128 else scl)
    else (cl, scl)
  else (0, 128).

(** ** Memory regions *)

Record lxrm_resource := mk_lxrm_resource {
  r_hDriver : Z; hAdapterOrDevice : Z; hResource : Z; pResource : option (list Z)
}.

Definition mem_resource (start n : Z) : list Z :=
  le32 3 ++ le32 start ++ le32 n ++ le16 1 ++ le16 0 ++ le32 0.

Definition LX_request_region (rm_resource : option lxrm_resource) (start n : Z) :
    R (Z * option lxrm_resource) :=
  s ← get;
  if negb (dolxdevtree s) || negb (dorm s) then mret (0, rm_resource)
  else
    match rm_resource with
    | Some r =>
        if hResource r =? 0 then
          let drv := if r_hDriver r =? 0 then hDriver s else r_hDriver r in
          let ad := if hAdapterOrDevice r =? 0 then hMEMAdap s else hAdapterOrDevice r in
          a ← RM32AllocResource drv (default (mem_resource start n) (pResource r));
          let h := default (hResource r) a.2 in
          rc ← (if a.1 =? 0 then RM32ModifyResources drv ad 0 h else mret a.1);
          mret (rc, Some (mk_lxrm_resource drv ad h (pResource r)))
        else mret (0, rm_resource)
    | None => mret (0, None)
    end.

Definition LX_release_region (rm_resource : option lxrm_resource) : R (Z * option lxrm_resource) :=
  s ← get;
  if negb (dolxdevtree s) || negb (dorm s) then mret (0, rm_resource)
  else
    match rm_resource with
    | Some r =>
        if hResource r =? 0 then mret (0, rm_resource)
        else
          rc ← RM32ModifyResources (r_hDriver r) (hAdapterOrDevice r) 1 (hResource r);
          if rc =? 0 then
            rc ← RM32DeallocResource (r_hDriver r) (hResource r);
            mret (rc, Some (mk_lxrm_resource (r_hDriver r)
                              (if rc =? 0 then 0 else hAdapterOrDevice r) (hResource r) (pResource r)))
          else mret (rc, rm_resource)
    | None => mret (0, None)
    end.
End ResMgr.

(** ** Adjunct lists *)

(** [a] stands at offset [o]. *)
Definition stands_at (o : nat) (a p : list Z) : Prop := forall i, (i < length a)%nat -> p !! (o + i)%nat = a !! i.

Lemma stands_block o a p : stands_at o a p -> take (length a) (drop o p) = a.
Proof.
  intros Hs. apply list_eq. intros i. destruct (decide (i < length a)%nat) as [Hi|Hi].
  - rewrite lookup_take_lt by lia. rewrite lookup_drop. by apply Hs.
  - rewrite (lookup_ge_None_2 a) by lia. apply lookup_ge_None_2. rewrite length_take. lia.
Qed.

Lemma stands_nth o a p k : stands_at o a p -> (k < length a)%nat -> nth (o + k) p 0 = nth k a 0.
Proof. intros Hs Hk. rewrite !nth_lookup. by rewrite Hs. Qed.

Lemma stands_word o a p : stands_at o a p -> (6 <= length a)%nat -> word_at (o + 4) p = word_at 4 a.
Proof. intros Hs Hl. unfold word_at. rewrite <- Nat.add_assoc. by rewrite !(stands_nth _ _ _ _ Hs) by lia. Qed.

(** Blocks of their own length; only the last one has no link. *)
Fixpoint adjuncts_ok (adjs : list (list Z)) : Prop :=
  match adjs with
  | [] => True
  | a :: adjs =>
      (6 <= length a)%nat /\ word_at 4 a = length a /\
      (dword_at 0 a = 0 <-> adjs = []) /\ adjuncts_ok adjs
  end.

Lemma copy_adjuncts_below c adjs p p' i :
  copy_adjuncts c adjs p = Some p' -> (i < c)%nat -> p' !! i = p !! i.
Proof.
  revert c p. induction adjs as [|a adjs IH]; intros c p; cbn; [by intros [= <-]|].
  destruct (overwrite c a p) as [p1|] eqn:E; cbn; [|done]. intros Hc Hi.
  rewrite (IH _ _ Hc) by lia. rewrite (overwrite_nth _ _ _ _ _ E). case_decide; [lia|done].
Qed.

Lemma copy_adjuncts_ok c adjs p :
  (c + length (concat adjs) <= length p)%nat ->
  exists p', copy_adjuncts c adjs p = Some p' /\ length p' = length p.
Proof.
  revert c p. induction adjs as [|a adjs IH]; intros c p Hl; cbn in *; [eauto|].
  rewrite length_app in Hl. destruct (overwrite c a p) as [p1|] eqn:E.
  - pose proof (overwrite_length _ _ _ _ E) as El. destruct (IH (c + length a)%nat p1) as (p' & E' & Hp); [lia|].
    exists p'. ostep. split; [done|lia].
  - exfalso. unfold overwrite in E. destruct (Nat.leb_spec (c + length a) (length p)); [done|lia].
Qed.

Lemma chain_copied fuel c adjs p p' :
  adjs <> [] -> adjuncts_ok adjs -> copy_adjuncts c adjs p = Some p' -> (length adjs <= fuel)%nat ->
  adj_chain fuel c p' = adjs.
Proof.
  revert c p adjs. induction fuel as [|fuel IH]; intros c p adjs Hne Hok E Hf.
  { destruct adjs; [done|cbn in Hf; lia]. }
  destruct adjs as [|a adjs]; [done|]. cbn in Hok, E. destruct Hok as (Hl & Hlen & Hlink & Hok).
  destruct (overwrite c a p) as [p1|] eqn:E1; cbn in E; [|done].
  assert (Hs : stands_at c a p').
  { intros i Hi. rewrite (copy_adjuncts_below _ _ _ _ _ E) by lia.
    rewrite (overwrite_nth _ _ _ _ _ E1). case_decide; [f_equal; lia|lia]. }
  assert (Hw : word_at (c + 4) p' = length a).
  { rewrite <- Hlen. by apply stands_word. }
  assert (Hd : dword_at c p' = dword_at 0 a).
  { unfold dword_at. rewrite <- (Nat.add_0_r c) at 1. by rewrite !(stands_nth _ _ _ _ Hs) by lia. }
  cbn [adj_chain]. rewrite Hw, Hd, Nat2Z.id, (stands_block _ _ _ Hs). f_equal.
  destruct (dword_at 0 a =? 0) eqn:E0.
  - symmetry. apply Hlink. lia.
  - apply (IH _ p1); [|done|done|cbn in Hf; lia]. intros ->. destruct Hlink as [_ Hl0]. rewrite Hl0 in E0; done.
Qed.

(** A chain of adjuncts that fits the router's buffer is copied whole, and
    the resource manager walks exactly the same adjuncts. *)
Theorem adjuncts_roundtrip adjs p :
  adjs <> [] -> adjuncts_ok adjs -> (length (concat adjs) <= length p)%nat ->
  exists p', RMCopyAdjunctList adjs p = Some p' /\ length p' = length p /\ GetAdjList p' = Some adjs.
Proof.
  intros Hne Hok Hl. destruct (copy_adjuncts_ok 0 adjs p Hl) as (p' & E & Hp). exists p'.
  assert (El : (length adjs <= length p')%nat).
  { rewrite Hp. clear E. transitivity (length (concat adjs)); [|done]. clear Hne Hl Hp.
    induction adjs as [|a adjs IH]; cbn; [lia|]. destruct Hok as (Ha & _ & _ & Hok).
    rewrite length_app. specialize (IH Hok). lia. }
  pose proof (chain_copied _ _ _ _ _ Hne Hok E El) as Hc.
  destruct adjs as [|a adjs]; [done|]. split; [exact E|]. split; [done|].
  unfold GetAdjList. destruct Hok as (Ha & Hlen & _). cbn in E.
  destruct (overwrite 0 a p) as [p1|] eqn:E1; cbn in E; [|done].
  assert (Hs : stands_at 0 a p').
  { intros i Hi. rewrite (copy_adjuncts_below _ _ _ _ _ E) by lia.
    rewrite (overwrite_nth _ _ _ _ _ E1). case_decide; [f_equal; lia|lia]. }
  assert (Hw : word_at 4 p' = length a).
  { rewrite <- Hlen. exact (stands_word 0 _ _ Hs Ha). }
  rewrite Hw. destruct (Z.of_nat (length a) =? 0) eqn:E0; [lia|]. by rewrite Hc.
Qed.

(** An empty adjunct list clears only the link of the buffer: the first
    adjunct of the call before is passed on again. *)
Theorem stale_adjunct p :
  (8 <= length p)%nat -> word_at 4 p <> 0 ->
  exists p', RMCopyAdjunctList [] p = Some p' /\
    GetAdjList p' = Some [take (Z.to_nat (word_at 4 p)) ([0; 0; 0; 0] ++ drop 4 p)].
Proof.
  intros Hl Hw. cbn [RMCopyAdjunctList]. unfold overwrite. cbn [length Nat.add].
  assert ((4 <=? length p)%nat = true) as -> by (apply Nat.leb_le; lia).
  rewrite take_0. cbn [app].
  eexists. split; [reflexivity|]. unfold GetAdjList.
  assert (Hw' : word_at 4 (0 :: 0 :: 0 :: 0 :: drop 4 p) = word_at 4 p).
  { destruct p as [|? [|? [|? [|? p]]]]; cbn in Hl; try lia. done. }
  rewrite Hw'. destruct (word_at 4 p =? 0) eqn:E; [lia|]. f_equal.
  cbn [length]. cbn [adj_chain]. rewrite (Hw' : word_at (0 + 4) _ = _). cbn [drop]. reflexivity.
Qed.

(** ** Requesting and releasing regions *)

Section Regions.
Context {W : Type} `{Rm W}.

(** A request that succeeds allocates the region for the owner's driver and
    adds the new handle to its adapter; a resource that has a handle is left
    alone.  Releasing removes and deallocates the handle but keeps it in the
    resource, so that the next request does nothing and the next release
    deallocates it once more. *)
Theorem region_handles (s : resmgr W) (r : lxrm_resource) start n :
  dolxdevtree s = true -> dorm s = true -> length (rm_ResourceStruct (rt s)) = 20%nat ->
  (hResource r = 0 -> pResource r = None -> forall h w1 w2,
     let drv := if r_hDriver r =? 0 then hDriver s else r_hDriver r in
     let ad := if hAdapterOrDevice r =? 0 then hMEMAdap s else hAdapterOrDevice r in
     RMAllocResource drv (mem_resource start n) (rmw s) = (0, h, w1) ->
     RMModifyResources drv ad 0 h w1 = (0, w2) ->
     exists s', LX_request_region (Some r) start n s
         = Ok (0, Some (mk_lxrm_resource drv ad h None), s') /\ rmw s' = w2) /\
  (hResource r <> 0 -> LX_request_region (Some r) start n s = Ok (0, Some r, s)) /\
  (hResource r <> 0 -> forall w1 w2,
     RMModifyResources (r_hDriver r) (hAdapterOrDevice r) 1 (hResource r) (rmw s) = (0, w1) ->
     RMDeallocResource (r_hDriver r) (hResource r) w1 = (0, w2) ->
     exists s', LX_release_region (Some r) s
         = Ok (0, Some (mk_lxrm_resource (r_hDriver r) 0 (hResource r) (pResource r)), s') /\
       rmw s' = w2).
Proof.
  intros Ht Hr Hlen. unfold LX_request_region, LX_release_region. mstep. rewrite Ht, Hr. cbn [negb orb].
  split; [|split].
  - intros Hz Hp h w1 w2. cbn zeta. rewrite Hz, Hp. cbn [Z.eqb]. intros Ea Em.
    unfold RM32AllocResource, RM32ModifyResources, lift_opt, set_rt, rm_call. mstep. rewrite Hr.
    rewrite overwrite_all by (cbn; lia). mstep. cbn [rmw]. cbn [from_option id].
    change (take 20 (mem_resource start n)) with (mem_resource start n).
    rewrite Ea. mstep. cbn [fst snd]. change (0 =? 0) with true. cbn [from_option id]. mstep.
    cbn [dorm]. rewrite Hr. mstep. cbn [rmw]. change (u16 0) with 0. rewrite Em. mstep.
    eexists. split; [reflexivity|]. done.
  - intros Hz. destruct (hResource r =? 0) eqn:E; [lia|]. done.
  - intros Hz w1 w2 Em Ed. destruct (hResource r =? 0) eqn:E; [lia|].
    unfold RM32ModifyResources, RM32DeallocResource, set_rt, rm_call. mstep. rewrite Hr. mstep. cbn [rmw].
    change (u16 1) with 1. rewrite Em. mstep. cbn [dorm]. change (0 =? 0) with true. cbn iota. mstep.
    cbn [dorm]. rewrite Hr. mstep. cbn [rmw]. rewrite Ed. mstep. eexists. split; [reflexivity|]. done.
Qed.
End Regions.

(** ** A resource manager that records what it is told *)

Inductive rm_event :=
  | ev_adapter (adj : option (list (list Z)))
  | ev_device (adj : option (list (list Z)))
  | ev_alloc
  | ev_dealloc (h : Z)
  | ev_modify (action h : Z)
  | ev_other.

#[local] Instance log_Rm : Rm (list rm_event) := {
  RMCreateDriver := fun _ _ w => (0, 3, w ++ [ev_other]);
  RMDestroyDriver := fun _ w => (0, w ++ [ev_other]);
  RMCreateAdapter := fun _ _ _ adj _ _ w => (0, 5, w ++ [ev_adapter adj]);
  RMDestroyAdapter := fun _ _ w => (0, w ++ [ev_other]);
  RMCreateDevice := fun _ _ _ adj _ _ w => (0, 6, w ++ [ev_device adj]);
  RMDestroyDevice := fun _ _ w => (0, w ++ [ev_other]);
  RMAllocResource := fun _ _ w => (0, 7, w ++ [ev_alloc]);
  RMDeallocResource := fun _ h w => (0, w ++ [ev_dealloc h]);
  RMModifyResources := fun _ _ a h w => (0, w ++ [ev_modify a h])
}.

Definition router0 : router :=
  mk_router 0 0 0 0 0 (replicate 255 0) (replicate 255 0) (replicate 255 0) (replicate 28 0)
    (replicate 24 0) (replicate 12 0) (replicate 20 0) (replicate 1024 0).
Definition resmgr0 : resmgr (list rm_event) := mk_resmgr [] router0 3 0 0 4 true true.

(** The PCI device has no adjunct, but the resource manager is given the one
    of the adapter created just before. *)
Example pci_device_gets_adapter_number :
  rmw <$> exec (LX_create_pci_adapter 10) resmgr0 =
  Some [ev_adapter (Some [[0; 0; 0; 0; 10; 0; 2; 0; 0; 0]]);
        ev_device (Some [[0; 0; 0; 0; 10; 0; 2; 0; 0; 0]])].
Proof. vm_compute. reflexivity. Qed.

(** Requested, released, requested again and released again: one allocation,
    two deallocations of the same handle. *)
Example region_released_twice :
  rmw <$> exec (a ← LX_request_region (Some (mk_lxrm_resource 0 0 0 None)) 4096 16;
                b ← LX_release_region a.2;
                c ← LX_request_region b.2 4096 16;
                LX_release_region c.2) resmgr0 =
  Some [ev_alloc; ev_modify 0 7; ev_modify 1 7; ev_dealloc 7; ev_modify 1 7; ev_dealloc 7].
Proof. vm_compute. reflexivity. Qed.

Definition two_adjuncts : list (list Z) :=
  [[8; 0; 0; 0; 8; 0; 2; 0]; [0; 0; 0; 0; 6; 0]].

Lemma adjuncts_roundtrip_witness :
  exists p', RMCopyAdjunctList two_adjuncts (replicate 1024 1) = Some p' /\
    length p' = length (replicate 1024 1) /\ GetAdjList p' = Some two_adjuncts.
Proof.
  apply (adjuncts_roundtrip two_adjuncts (replicate 1024 1)).
  - discriminate.
  - cbn. split; [lia|]. split; [reflexivity|]. split; [by split|].
    split; [lia|]. split; [reflexivity|]. split; [by split|exact I].
  - rewrite length_replicate. cbn. lia.
Defined.

Lemma stale_adjunct_witness :
  exists p', RMCopyAdjunctList [] [1; 0; 0; 0; 6; 0; 9; 9] = Some p' /\
    GetAdjList p' = Some [take (Z.to_nat 6) ([0; 0; 0; 0] ++ [6; 0; 9; 9])].
Proof.
  apply (stale_adjunct [1; 0; 0; 0; 6; 0; 9; 9]).
  - cbn. lia.
  - vm_compute. discriminate.
Defined.

Lemma region_handles_witness :
  (exists s', LX_request_region (Some (mk_lxrm_resource 0 0 0 None)) 4096 16 resmgr0
     = Ok (0, Some (mk_lxrm_resource 3 4 7 None), s') /\ rmw s' = [ev_alloc; ev_modify 0 7]) /\
  (exists s', LX_release_region (Some (mk_lxrm_resource 3 4 7 None)) resmgr0
     = Ok (0, Some (mk_lxrm_resource 3 0 7 None), s') /\ rmw s' = [ev_modify 1 7; ev_dealloc 7]).
Proof.
  split.
  - destruct (region_handles resmgr0 (mk_lxrm_resource 0 0 0 None) 4096 16 eq_refl eq_refl eq_refl)
      as [Hreq _].
    exact (Hreq eq_refl eq_refl 7 [ev_alloc] [ev_alloc; ev_modify 0 7] eq_refl eq_refl).
  - destruct (region_handles resmgr0 (mk_lxrm_resource 3 4 7 None) 4096 16 eq_refl eq_refl eq_refl)
      as (_ & _ & Hrel).
    exact (Hrel ltac:(discriminate) [ev_modify 1 7] [ev_modify 1 7; ev_dealloc 7] eq_refl eq_refl).
Defined.
