(* ===== verification/Param.v ===== *)
(** * The parameters of the DEVICE= line (Dev32/lxparam.c)

    The line is the path of the driver and options separated by blanks.  The
    directory of the driver is kept, the options set three variables.  What is
    written to the console is recorded. *)

From S2P Require Import Prelude CString DevHlp DosApi DaemonCmd.

Definition MAX_PARM_LENGTH : nat := 256.

Record params := mk_params {
  lx_do_verbose : Z;
  lx_verbose_modulelist : Z;
  lx_do_last_startup_check : Z;
  breakpoints : nat;
  lx_drv_homepath : list Z;
  drvparams : list Z;
  console : list (list Z)
}.

Definition set_verbose (modulelist : bool) (s : params) : params :=
  mk_params 1 (if modulelist then 1 else lx_verbose_modulelist s) (lx_do_last_startup_check s)
    (breakpoints s) (lx_drv_homepath s) (drvparams s) (console s).
Definition set_startcheck (s : params) : params :=
  mk_params (lx_do_verbose s) (lx_verbose_modulelist s) 0 (breakpoints s) (lx_drv_homepath s)
    (drvparams s) (console s).
Definition hit_breakpoint (s : params) : params :=
  mk_params (lx_do_verbose s) (lx_verbose_modulelist s) (lx_do_last_startup_check s)
    (S (breakpoints s)) (lx_drv_homepath s) (drvparams s) (console s).
Definition print (l : list Z) (s : params) : params :=
  mk_params (lx_do_verbose s) (lx_verbose_modulelist s) (lx_do_last_startup_check s)
    (breakpoints s) (lx_drv_homepath s) (drvparams s) (console s ++ [l]).
Definition set_paths (home rest : list Z) (s : params) : params :=
  mk_params (lx_do_verbose s) (lx_verbose_modulelist s) (lx_do_last_startup_check s)
    (breakpoints s) home rest (console s).

(** The messages, by number: too long, unknown, no memory. *)
Definition PARM_LENGTH_ERROR : list Z := [1].
Definition PARM_UNKNOWN : list Z := [2].
Definition PARM_MALLOC_ERROR : list Z := [3].

Definition BLANK : Z := 32.
Definition BACKSLASH : Z := 92.

(** "/3", "/VM", "/V", "/NOSTARTCHECK" *)
Definition parmList : list (list Z) := [
  [47; 51]; [47; 86; 77]; [47; 86];
  [47; 78; 79; 83; 84; 65; 82; 84; 67; 72; 69; 67; 75]].

(** [strncmp(arg,parm,strlen(parm))==0] *)
Definition starts_with (parm arg : list Z) : bool := bool_decide (take (length parm) arg = parm).

Fixpoint find_parm (i : nat) (l : list (list Z)) (arg : list Z) : option nat :=
  match l with
  | [] => None
  | p :: l => if starts_with p arg then Some i else find_parm (S i) l arg
  end.

Definition LX_parseArg (arg : list Z) : M params Z :=
  match find_parm 0 parmList arg with
  | Some 0%nat => modify hit_breakpoint ≫= fun _ => mret 0
  | Some 1%nat => modify (set_verbose true) ≫= fun _ => mret 0
  | Some 2%nat => modify (set_verbose false) ≫= fun _ => mret 0
  | Some _ => modify set_startcheck ≫= fun _ => mret 0
  | None => modify (print (PARM_UNKNOWN ++ arg)) ≫= fun _ => mret 1
  end.

Fixpoint skip_blanks (l : list Z) : list Z :=
  match l with
  | c :: l' => if c =? BLANK then skip_blanks l' else l
  | [] => []
  end.

(** At most [n] characters up to a blank, and what is left. *)
Fixpoint scan (n : nat) (l : list Z) : list Z * list Z :=
  match n, l with
  | S n, c :: l' => if c =? BLANK then ([], l) else let '(w, r) := scan n l' in (c :: w, r)
  | _, _ => ([], l)
  end.

Fixpoint parse_words (fuel : nat) (args : list Z) : M params unit :=
  match args with
  | [] => mret tt
  | _ =>
      match fuel with
      | O => throw OutOfFuel
      | S fuel =>
          let '(carg, rest) := scan (MAX_PARM_LENGTH - 1) (skip_blanks args) in
          if (MAX_PARM_LENGTH - 1 <=? length carg)%nat then
            modify (print (PARM_LENGTH_ERROR ++ carg)) ≫= fun _ => parse_words fuel rest
          else
            match carg with
            | [] => parse_words fuel rest
            | _ => rc ← LX_parseArg carg; if rc =? 0 then parse_words fuel rest else mret tt
            end
      end
  end.

(** The index of the last backslash. *)
Fixpoint last_backslash (i : nat) (sl : option nat) (l : list Z) : option nat :=
  match l with
  | [] => sl
  | c :: l => last_backslash (S i) (if c =? BACKSLASH then Some i else sl) l
  end.

(** The path with its file name cut off; without a backslash as it is. *)
Definition home_path (word home : list Z) : option (list Z) :=
  p ← overwrite 0 word home;
  match last_backslash 0 None word with
  | Some i => overwrite (S i) [0] p
  | None => Some p
  end.

(** [carg]: the buffer could be allocated; [args]: the line, if mapped. *)
Definition LX_parseArgs (carg : bool) (args : option (list Z)) : M params unit :=
  if carg then
    match args with
    | Some args =>
        let '(word, rest) := scan (length args) (skip_blanks args) in
        s ← get;
        match home_path word (lx_drv_homepath s) with
        | Some home =>
            modify (set_paths home rest) ≫= fun _ => parse_words (length rest) rest
        | None => throw BadAccess
        end
    | None => mret tt
    end
  else modify (print PARM_MALLOC_ERROR).

(** ** Words *)

Fixpoint words (l : list Z) : list (list Z) :=
  match l with
  | [] => []
  | c :: l' =>
      if c =? BLANK then words l'
      else match l' with
           | d :: _ => if d =? BLANK then [c] :: words l'
                       else match words l' with w :: ws => (c :: w) :: ws | [] => [[c]] end
           | [] => [[c]]
           end
  end.

(** Handle words until one is unknown. *)
Fixpoint handle (ws : list (list Z)) : M params unit :=
  match ws with
  | [] => mret tt
  | w :: ws => rc ← LX_parseArg w; if rc =? 0 then handle ws else mret tt
  end.

Lemma words_skip l : words (skip_blanks l) = words l.
Proof. induction l as [|c l IH]; [done|]. cbn [skip_blanks]. destruct (c =? BLANK) eqn:E; [|done]. cbn [words]. by rewrite E. Qed.

Lemma skip_blanks_length l : (length (skip_blanks l) <= length l)%nat.
Proof. induction l as [|c l IH]; [done|]. cbn. destruct (c =? BLANK); cbn; lia. Qed.

Lemma skip_blanks_head l c r : skip_blanks l = c :: r -> c =? BLANK = false.
Proof.
  induction l as [|d l IH]; [done|]. cbn. destruct (d =? BLANK) eqn:E; [done|]. by intros [= <- _].
Qed.

Lemma scan_length n l w r : scan n l = (w, r) -> (length w <= n)%nat /\ l = w ++ r.
Proof.
  revert l w r. induction n as [|n IH]; intros l w r; cbn; [by intros [= <- <-]|].
  destruct l as [|c l]; [intros [= <- <-]; cbn; split; [lia|done]|].
  destruct (c =? BLANK); [intros [= <- <-]; cbn; split; [lia|done]|].
  destruct (scan n l) as [w' r'] eqn:E. intros [= <- <-]. destruct (IH _ _ _ E) as [Hl ->].
  cbn. split; [lia|done].
Qed.

(** A scan that did not stop for want of room stopped at the end of a word. *)
Lemma words_scan n c l w r :
  c =? BLANK = false -> scan n (c :: l) = (w, r) -> (length w < n)%nat ->
  w <> [] /\ words (c :: l) = w :: words r.
Proof.
  revert c l w r. induction n as [|n IH]; intros c l w r Hc; cbn [scan]; [intros [= <- <-] Hl; cbn in Hl; lia|].
  rewrite Hc. destruct (scan n l) as [w' r'] eqn:E. intros [= <- <-] Hl. cbn in Hl. split; [done|].
  cbn [words]. rewrite Hc. destruct l as [|d l].
  - destruct n; cbn in E; injection E as <- <-; done.
  - destruct (d =? BLANK) eqn:Ed.
    + destruct n as [|n]; cbn in E; [injection E as <- <-; cbn in Hl; lia|].
      rewrite Ed in E. by injection E as <- <-.
    + destruct (IH d l w' r' Ed E) as [_ ->]; [lia|]. done.
Qed.

(** A scan that ran out of room stopped inside the first word. *)
Lemma words_long n c l w r :
  c =? BLANK = false -> scan n (c :: l) = (w, r) -> (n <= length w)%nat ->
  exists x xs, words (c :: l) = x :: xs /\ (n <= length x)%nat.
Proof.
  revert c l w r. induction n as [|n IH]; intros c l w r Hc.
  - intros _ _. cbn [words]. rewrite Hc. destruct l as [|d l]; [eexists _, _; split; [done|lia]|].
    destruct (d =? BLANK); [eexists _, _; split; [done|lia]|].
    destruct (words (d :: l)); eexists _, _; split; [done|lia|done|lia].
  - cbn [scan]. rewrite Hc. destruct (scan n l) as [w' r'] eqn:E. intros [= <- <-] Hl. cbn in Hl.
    cbn [words]. rewrite Hc. destruct l as [|d l].
    { destruct n; cbn in E; injection E as <- <-; [eexists _, _; split; [done|cbn; lia]|cbn in Hl; lia]. }
    destruct (d =? BLANK) eqn:Ed.
    { destruct n; [eexists _, _; split; [done|cbn; lia]|].
      cbn in E. rewrite Ed in E. injection E as <- <-. cbn in Hl. lia. }
    destruct (IH d l w' r' Ed E ltac:(lia)) as (x & xs & -> & Hx). eexists _, _. split; [done|cbn; lia].
Qed.

(** C37: the scanner of the option line handles exactly its blank-separated
    words, in order, up to the first unknown one, and always ends. *)
Theorem options_are_words args s fuel :
  Forall (fun w => (length w < MAX_PARM_LENGTH - 1)%nat) (words args) -> (length args <= fuel)%nat ->
  parse_words fuel args s = handle (words args) s.
Proof.
  revert args s. induction fuel as [|fuel IH]; intros args s Hw Hf.
  { destruct args; [done|cbn in Hf; lia]. }
  destruct args as [|a args]; [done|]. cbn [parse_words].
  destruct (scan _ (skip_blanks (a :: args))) as [w r] eqn:E.
  destruct (scan_length _ _ _ _ E) as [Hl Eq].
  pose proof (skip_blanks_length (a :: args)) as Hs. rewrite <- words_skip in Hw |- *.
  destruct (skip_blanks (a :: args)) as [|c l] eqn:Es.
  - destruct (Nat.leb_spec (MAX_PARM_LENGTH - 1) (length w)).
    { destruct w; [unfold MAX_PARM_LENGTH in *; cbn in *; lia|done]. }
    destruct w, r; try done. rewrite IH; [done|constructor|cbn; lia].
  - pose proof (skip_blanks_head _ _ _ Es) as Hc.
    destruct (Nat.leb_spec (MAX_PARM_LENGTH - 1) (length w)) as [Hle|Hlt].
    { exfalso. destruct (words_long _ _ _ _ _ Hc E Hle) as (x & xs & Ex & Hx).
      rewrite Ex in Hw. apply Forall_cons in Hw as [Hw _]. lia. }
    destruct (words_scan _ _ _ _ _ Hc E Hlt) as [Hne Ew]. rewrite Ew in Hw |- *.
    apply Forall_cons in Hw as [_ Hw]. cbn [handle].
    destruct w as [|x w]; [done|]. rewrite !M_bind_unfold.
    destruct (LX_parseArg (x :: w) s) as [[rc s']|]; [|done]. destruct (rc =? 0); [|done].
    apply IH; [done|]. assert (Hlen : length (c :: l) = length ((x :: w) ++ r)) by congruence.
    rewrite length_app in Hlen. cbn in *. lia.
Qed.

(** ** The directory of the driver *)

Lemma last_backslash_none i sl l :
  Forall (fun c => c <> BACKSLASH) l -> last_backslash i sl l = sl.
Proof.
  intros Hl. revert i. induction Hl as [|c l Hc _ IH]; intros i; [done|]. cbn.
  destruct (c =? BACKSLASH) eqn:E; [lia|apply IH].
Qed.

Lemma last_backslash_app i sl l1 l2 :
  Forall (fun c => c <> BACKSLASH) l2 ->
  last_backslash i sl (l1 ++ BACKSLASH :: l2) = Some (i + length l1)%nat.
Proof.
  intros Hl. revert i sl. induction l1 as [|c l1 IH]; intros i sl; cbn.
  - rewrite last_backslash_none by done. f_equal. lia.
  - rewrite IH. f_equal. lia.
Qed.

(** The path of the driver loses its file name and keeps the backslash. *)
Lemma home_path_directory dir file home :
  cstring dir -> Forall (fun c => c <> BACKSLASH) file -> file <> [] ->
  (length (dir ++ BACKSLASH :: file) <= length home)%nat ->
  exists p, home_path (dir ++ BACKSLASH :: file) home = Some p /\
    length p = length home /\ array_str p = Ok (dir ++ [BACKSLASH]).
Proof.
  intros Hd Hf Hne Hl. unfold home_path. rewrite last_backslash_app by done. cbn [Nat.add].
  destruct (overwrite 0 (dir ++ BACKSLASH :: file) home) as [p|] eqn:E; ostep.
  2: { unfold overwrite in E. destruct (Nat.leb_spec (0 + length (dir ++ BACKSLASH :: file)) (length home)); [done|cbn in *; lia]. }
  pose proof (overwrite_length _ _ _ _ E) as El.
  assert (Hlen : (S (length dir) < length home)%nat).
  { rewrite length_app in Hl. destruct file; [done|]. cbn in Hl. lia. }
  unfold overwrite. cbn [length]. destruct (Nat.leb_spec (S (length dir) + 1) (length p)); [|lia].
  eexists. split; [reflexivity|]. split.
  { rewrite length_app, length_take. cbn [app length]. rewrite length_drop. lia. }
  assert (Ht : take (S (length dir)) p = dir ++ [BACKSLASH]).
  { apply list_eq. intros i. destruct (decide (i < S (length dir))%nat).
    - rewrite lookup_take_lt by lia. rewrite (overwrite_nth _ _ _ _ _ E).
      rewrite length_app. cbn [length]. rewrite decide_True by lia. rewrite Nat.sub_0_r.
      change (BACKSLASH :: file) with ([BACKSLASH] ++ file). rewrite app_assoc.
      apply lookup_app_l. rewrite length_app. cbn. lia.
    - rewrite lookup_take_ge by lia. symmetry. apply lookup_ge_None_2. rewrite length_app. cbn. lia. }
  rewrite Ht. apply array_str_app. apply Forall_app. split; [done|]. by apply Forall_singleton.
Qed.

(** "C:\LX\L.SYS /V /X /NOSTARTCHECK": the last option is not reached. *)
Definition device_line : list Z :=
  [67; 58; 92; 76; 88; 92; 76; 46; 83; 89; 83; 32; 47; 86; 32; 32; 47; 88; 32;
   47; 78; 79; 83; 84; 65; 82; 84; 67; 72; 69; 67; 75].
Definition params0 : params := mk_params 0 0 1 0 (replicate LX_MAXPATH 0) [] [].

Example device_line_parsed :
  match exec (LX_parseArgs true (Some device_line)) params0 with
  | Some s => (lx_do_verbose s, lx_do_last_startup_check s, console s, array_str (lx_drv_homepath s))
              = (1, 1, [[2; 47; 88]], Ok [67; 58; 92; 76; 88; 92])
  | None => False
  end.
Proof. vm_compute. reflexivity. Qed.

(** "/VERBOSE" is taken for "/V": the options are compared as prefixes. *)
Example prefix_of_option :
  lx_do_verbose <$> exec (LX_parseArg [47; 86; 69; 82; 66; 79; 83; 69]) params0 = Some 1.
Proof. reflexivity. Qed.

Lemma options_are_words_witness :
  parse_words 5 [47; 86; 32; 47; 51] params0 = handle (words [47; 86; 32; 47; 51]) params0.
Proof.
  apply (options_are_words [47; 86; 32; 47; 51] params0 5).
  - vm_compute. repeat constructor.
  - cbn. lia.
Defined.
