(* ===== verification/Ioctl.v ===== *)
(** * The ioctls of the driver (Dev32/lxioctl.c, lxuioctl.c, lxustrat.c)

    LXAPI$ and LXUTL$ dispatch ioctls by category and function.  A parameter or
    data packet that the kernel verified is a list of bytes of the caller's
    length; [None] could not be verified.  The memory functions, the daemon
    ioctl, system calls and the scheduler are the interface [IoDev]. *)

From S2P Require Import Prelude DevHlp.

Definition RPDONE : Z := 256.
Definition RPERR_COMMAND : Z := 32771.
Definition RPERR_PARAMETER : Z := 32787.
Definition ERROR_ALREADY_ASSIGNED : Z := 85.

Class IoDev (W : Type) := {
  (** size, high or low, old value: code and address *)
  DevPhysAlloc : Z -> Z -> Z -> W -> Z * Z * W;
  DevPhysFree : Z -> W -> Z * W;
  (** flags, size, physical address, old value *)
  io_VMAlloc : Z -> Z -> Z -> Z -> W -> Z * Z * W;
  io_VMFree : Z -> W -> Z * W;
  DevVMGlobalToProcess : Z -> Z -> Z -> Z -> W -> Z * Z * W;
  DevVMProcessToGlobal : Z -> Z -> Z -> Z -> W -> Z * Z * W;
  (** flags, address, size, lock: the list written and the count *)
  DevVMLock : Z -> Z -> Z -> Z -> W -> Z * (list Z * Z) * W;
  DevVMUnLock : Z -> W -> Z * W;
  vmalloc : Z -> W -> Z * W;
  vfree : Z -> W -> W;
  virt_to_phys : Z -> W -> Z * W;
  LX_map_vm_to_user : Z -> Z -> W -> Z * W;
  DevSegLock : Z -> W -> Z * W;
  DevSegUnlock : Z -> W -> W;
  (** the daemon ioctl on its packets *)
  io_dmn : Z -> option (list Z) -> option (list Z) -> W ->
    Z * (option (list Z) * option (list Z)) * W;
  (** a system call; [None]: it did not return *)
  syscall : Z -> list Z -> W -> option Z * W;
  shrink_all_memory : Z -> W -> Z * W;
  sys_sync : W -> W;
  wait_for_stable_memstat : W -> W;
  print_memstat : Z -> W -> W;
  close_screen : W -> W;
  sleep_until_shutdown : W -> W;
  os2path_to_lx : list Z -> W -> Z * list Z * W;
  set_current_dev : Z -> W -> W;
  enter_utl_current : W -> W;
  leave_utl_current : Z -> W -> W
}.

Record LX_RP := mk_rp {
  Category : Z; Function : Z; FileID : Z; DataLength : Z; DataSelector : Z
}.

Record ioc (W : Type) := mk_ioc {
  iow : W;
  parm : option (list Z);
  dpkt : option (list Z);
  current_fileId : Z;
  held : list Z;              (* segment locks *)
  lx_sysstate : Z;
  init_count : Z              (* the kernel's count of initialisers *)
}.
Arguments mk_ioc {W}. Arguments iow {W}. Arguments parm {W}. Arguments dpkt {W}.
Arguments current_fileId {W}. Arguments held {W}. Arguments lx_sysstate {W}.
Arguments init_count {W}.

Section Ioctl.
Context {W : Type} `{IoDev W}.
Abbreviation I := (M (ioc W)).

Definition io {A} (f : W -> A * W) : I A := fun s =>
  let '(a, w) := f (iow s) in
  Ok (a, mk_ioc w (parm s) (dpkt s) (current_fileId s) (held s) (lx_sysstate s) (init_count s)).
Definition io_ (f : W -> W) : I unit := io (fun w => (tt, f w)).
Definition set_packets (p d : option (list Z)) : I unit :=
  modify (fun s => mk_ioc (iow s) p d (current_fileId s) (held s) (lx_sysstate s) (init_count s)).
Definition set_fileId (id : Z) : I unit :=
  modify (fun s => mk_ioc (iow s) (parm s) (dpkt s) id (held s) (lx_sysstate s) (init_count s)).
Definition set_held (l : list Z) : I unit :=
  modify (fun s => mk_ioc (iow s) (parm s) (dpkt s) (current_fileId s) l (lx_sysstate s) (init_count s)).
Definition set_init_count (n : Z) : I unit :=
  modify (fun s => mk_ioc (iow s) (parm s) (dpkt s) (current_fileId s) (held s) (lx_sysstate s) n).

(** Fields of the packets, by offset. *)
Definition field_of (l : option (list Z)) (o : nat) : I Z :=
  match l with
  | None => throw NullDeref
  | Some p => if (o + 4 <=? length p)%nat then mret (dword_at o p) else throw BadAccess
  end.
Definition pa (o : nat) : I Z := s ← get; field_of (parm s) o.
Definition put_bytes (l : option (list Z)) (o : nat) (bs : list Z) : I (option (list Z)) :=
  match l with
  | None => throw NullDeref
  | Some p => match overwrite o bs p with Some p => mret (Some p) | None => throw BadAccess end
  end.
Definition put_pa (o : nat) (v : Z) : I unit :=
  s ← get; p ← put_bytes (parm s) o (le32 v); set_packets p (dpkt s).
Definition put_dp (o : nat) (v : Z) : I unit :=
  s ← get; d ← put_bytes (dpkt s) o (le32 v); set_packets (parm s) d.

(** [if(pa) ... else rc=RPERR_PARAMETER]; the same with the data packet. *)
Definition if_pa (body : I unit) : I Z :=
  s ← get;
  match parm s with Some _ => body ≫= fun _ => mret 0 | None => mret RPERR_PARAMETER end.
Definition if_dp (body : I unit) : I Z :=
  s ← get;
  match dpkt s with Some _ => body ≫= fun _ => mret 0 | None => mret RPERR_PARAMETER end.
Definition done (m : I Z) : I Z := rc ← m; mret (Z.lor rc RPDONE).

(** ** Device helpers *)

Definition deh_allocphys : I unit :=
  size ← pa 4; high ← pa 8; old ← pa 12;
  r ← io (DevPhysAlloc size (u8 high) old);
  put_pa 12 r.2 ≫= fun _ => put_pa 0 r.1.
Definition deh_freephys : I unit := m ← pa 4; rc ← io (DevPhysFree m); put_pa 0 rc.
Definition deh_vmalloc : I unit :=
  flags ← pa 4; size ← pa 8; ph ← pa 12; old ← pa 16;
  r ← io (io_VMAlloc flags size ph old);
  put_pa 16 r.2 ≫= fun _ => put_pa 0 r.1.
Definition deh_vmfree : I unit := m ← pa 4; rc ← io (io_VMFree m); put_pa 0 rc.
Definition deh_convert (f : Z -> Z -> Z -> Z -> W -> Z * Z * W) : I unit :=
  flags ← pa 4; lin ← pa 8; size ← pa 12; old ← pa 16;
  r ← io (f flags lin size old);
  put_pa 16 r.2 ≫= fun _ => put_pa 0 r.1.

Fixpoint put_list (o : nat) (l : list Z) : I unit :=
  match l with
  | [] => mret tt
  | x :: l => put_pa o x ≫= fun _ => put_list (o + 4) l
  end.
(** The page list is written from the field [pPageList] on. *)
Definition deh_vmlock : I unit :=
  flags ← pa 4; lin ← pa 8; size ← pa 12; lock ← pa 16;
  r ← io (DevVMLock flags lin size lock);
  put_list 24 r.2.1 ≫= fun _ =>
  put_pa 20 r.2.2 ≫= fun _ => put_pa 0 r.1.
Definition deh_vmunlock : I unit := lock ← pa 4; rc ← io (DevVMUnLock lock); put_pa 0 rc.

Definition ioctl_deh (rp : LX_RP) : I Z := done (
  let f := Function rp in
  if f =? 1 then if_pa deh_allocphys
  else if f =? 2 then if_pa deh_freephys
  else if f =? 3 then if_pa deh_vmalloc
  else if f =? 4 then if_pa deh_vmfree
  else if f =? 5 then if_pa (deh_convert DevVMGlobalToProcess)
  else if f =? 6 then if_pa (deh_convert DevVMProcessToGlobal)
  else if f =? 7 then if_pa deh_vmlock
  else if f =? 8 then if_pa deh_vmunlock
  else if (f =? 160) || (f =? 161) then if_pa (mret tt)
  else mret RPERR_COMMAND).

(** ** Driver information *)

Context (LX32_DRV_MAJOR_VERSION LX32_DRV_MINOR_VERSION BUILD_LEVEL : Z).

(** "Stefan Milcke" *)
Definition vendor : list Z := [83; 116; 101; 102; 97; 110; 32; 77; 105; 108; 99; 107; 101].

Definition glo_getdriverinfo : I unit :=
  put_dp 0 LX32_DRV_MAJOR_VERSION ≫= fun _ =>
  put_dp 4 LX32_DRV_MINOR_VERSION ≫= fun _ =>
  put_dp 8 BUILD_LEVEL ≫= fun _ =>
  s ← get; d ← put_bytes (dpkt s) 12 (vendor ++ [0]); set_packets (parm s) d.

Definition ioctl_global (rp : LX_RP) : I Z := done (
  if Function rp =? 1 then if_dp glo_getdriverinfo
  else if Function rp =? 2 then if_dp (put_dp 0 (FileID rp))
  else mret RPERR_COMMAND).

Definition ioctl_mod (rp : LX_RP) : I Z := done (mret 0).
Definition ioctl_pci (rp : LX_RP) : I Z := done (mret RPERR_COMMAND).
Definition ioctl_i2c (rp : LX_RP) : I Z := done (mret RPERR_COMMAND).

(** ** Memory *)

(** The code is written before the packet is tested. *)
Definition mem_vmalloc : I Z :=
  put_pa 0 (- EINVAL) ≫= fun _ =>
  s ← get;
  match dpkt s with
  | Some _ =>
      size ← pa 4;
      k ← io (vmalloc size);
      put_dp 0 k ≫= fun _ =>
      if k =? 0 then mret 0
      else
        ph ← io (virt_to_phys k);
        put_dp 4 ph ≫= fun _ =>
        if ph =? 0 then mret 0
        else
          size ← pa 4;
          v ← io (LX_map_vm_to_user k size);
          put_dp 8 v ≫= fun _ => put_pa 0 0 ≫= fun _ => mret 0
  | None => mret RPERR_PARAMETER
  end.
Definition mem_vfree : I Z := k ← pa 4; io_ (vfree k) ≫= fun _ => put_pa 0 0 ≫= fun _ => mret 0.

Definition mem_allocphys : I Z :=
  s ← get;
  match parm s, dpkt s with
  | Some _, Some _ =>
      size ← pa 4; old ← field_of (dpkt s) 0;
      r ← io (DevPhysAlloc size 0 old);
      put_dp 0 r.2 ≫= fun _ => put_pa 0 r.1 ≫= fun _ =>
      r ← (if r.2 =? 0 then
             size ← pa 4;
             r ← io (DevPhysAlloc size 1 0);
             put_dp 0 r.2 ≫= fun _ => put_pa 0 r.1 ≫= fun _ => mret r
           else mret r);
      (if r.2 =? 0 then mret tt else put_pa 0 0) ≫= fun _ => mret 0
  | _, _ => mret RPERR_PARAMETER
  end.

Definition ioctl_mem (rp : LX_RP) : I Z := done (
  if Function rp =? 1 then mem_vmalloc
  else if Function rp =? 2 then mem_vfree
  else if Function rp =? 5 then mem_allocphys
  else if Function rp =? 6 then if_pa deh_freephys
  else mret RPERR_COMMAND).

(** The video functions are compiled out and do nothing. *)
Definition ioctl_v4l (rp : LX_RP) : I Z :=
  mret (if (1 <=? Function rp) && (Function rp <=? 6) then RPDONE else Z.lor RPDONE RPERR_COMMAND).

Definition ioctl_dmn (rp : LX_RP) : I Z :=
  s ← get;
  r ← io (io_dmn (Function rp) (parm s) (dpkt s));
  set_packets r.2.1 r.2.2 ≫= fun _ => mret r.1.

(** ** The dispatcher *)

Definition dispatch (rp : LX_RP) : I Z :=
  let c := Category rp in
  if c =? 161 then ioctl_global rp
  else if c =? 162 then ioctl_mod rp
  else if c =? 163 then ioctl_pci rp
  else if c =? 164 then ioctl_i2c rp
  else if c =? 165 then ioctl_mem rp
  else if c =? 176 then ioctl_v4l rp
  else if c =? 160 then ioctl_deh rp
  else if c =? 240 then ioctl_dmn rp
  else mret (Z.lor RPERR_COMMAND RPDONE).

(** Around both dispatchers: the current file, and the data segment locked if
    there is one; [exits] tells that the calling thread is gone. *)
Definition with_segment {A} (exits : A -> bool) (rp : LX_RP) (body : I A) : I A :=
  set_fileId (FileID rp) ≫= fun _ => io_ (set_current_dev (FileID rp)) ≫= fun _ =>
  h ← (if DataLength rp =? 0 then mret 0
       else h ← io (DevSegLock (DataSelector rp));
            s ← get; (if h =? 0 then mret tt else set_held (h :: held s)) ≫= fun _ => mret h);
  rc ← body;
  if exits rc then mret rc
  else
    set_fileId 0 ≫= fun _ => io_ (set_current_dev 0) ≫= fun _ =>
    (if negb (h =? 0) && negb (DataLength rp =? 0) then
       io_ (DevSegUnlock h) ≫= fun _ => s ← get; set_held (remove_first (Z.eqb h) (held s))
     else mret tt) ≫= fun _ => mret rc.

Definition LX_StratIOCtl (rp : LX_RP) : I Z := with_segment (fun _ => false) rp (dispatch rp).

(** ** LXUTL$: the system state, start-up and system calls *)

Definition LXSYSSTATE_INIT_STARTED : Z := 4.
Definition LXSYSSTATE_INIT_FINISHED : Z := 8.
Definition LX_SYSCALL_RETFLAG_EXITPROCESS : Z := 1.

Definition LX_set_sysstate (setmask clrmask : Z) : I unit :=
  modify (fun s => mk_ioc (iow s) (parm s) (dpkt s) (current_fileId s) (held s)
    (Z.land (Z.lor (lx_sysstate s) setmask) (Z.lnot clrmask)) (init_count s)).

Fixpoint get_args (n o : nat) : I (list Z) :=
  match n with
  | O => mret []
  | S n => a ← pa o; l ← get_args n (o + 4); mret (a :: l)
  end.

(** [None]: the call did not return, the calling process is gone. *)
Definition LX_utl_syscall : I (option Z) :=
  fl ← pa 8; put_pa 8 (Z.lor fl LX_SYSCALL_RETFLAG_EXITPROCESS) ≫= fun _ =>
  argc ← pa 16;
  if (0 <=? argc) && (argc <=? 5) then
    num ← pa 12;
    args ← get_args (Z.to_nat argc) 20;
    r ← io (syscall num args);
    match r with
    | None => mret None
    | Some r =>
        put_pa 0 r ≫= fun _ =>
        fl ← pa 8; put_pa 8 (Z.land fl (Z.lnot LX_SYSCALL_RETFLAG_EXITPROCESS)) ≫= fun _ =>
        mret (Some (u32 r))
    end
  else mret (Some (u32 (- ENOENT))).

Definition ioctl_sys (rp : LX_RP) : I (option Z) :=
  if Function rp =? 1 then
    s ← get;
    match parm s with
    | Some _ =>
        r ← LX_utl_syscall;
        match r with
        | None => mret None
        | Some r => put_pa 0 r ≫= fun _ => s ← get; put_pa 4 (lx_sysstate s) ≫= fun _ => mret (Some RPDONE)
        end
    | None => mret (Some (Z.lor RPERR_PARAMETER RPDONE))
    end
  else mret (Some RPDONE).

Definition LXFIN_SHOWMEMSTATS : Z := 1.
Definition LXFIN_WAITFORSTABLE : Z := 2.
Definition LXFIN_SHOWDRVSIZES : Z := 32.
Definition LXFIN_SYNC : Z := 64.

(** [while(shrink_all_memory(10000));] *)
Fixpoint shrink (fuel : nat) : I unit :=
  match fuel with
  | O => throw OutOfFuel
  | S fuel => n ← io (shrink_all_memory 10000); if n =? 0 then mret tt else shrink fuel
  end.

Definition when (flags bit : Z) (m : I unit) : I unit :=
  if Z.land flags bit =? 0 then mret tt else m.

Definition init_finished (fuel : nat) : I unit :=
  s ← get;
  if init_count s =? 0 then put_pa 0 ERROR_ALREADY_ASSIGNED
  else
    fl ← pa 4;
    when fl LXFIN_SHOWDRVSIZES (io_ (print_memstat 1)) ≫= fun _ =>
    shrink fuel ≫= fun _ =>
    fl ← pa 4;
    when fl LXFIN_SYNC (io_ sys_sync) ≫= fun _ =>
    when fl LXFIN_WAITFORSTABLE (io_ wait_for_stable_memstat) ≫= fun _ =>
    shrink fuel ≫= fun _ =>
    when fl LXFIN_SHOWMEMSTATS (io_ (print_memstat 0)) ≫= fun _ =>
    io_ close_screen ≫= fun _ => set_init_count 0 ≫= fun _ =>
    LX_set_sysstate LXSYSSTATE_INIT_FINISHED 0 ≫= fun _ =>
    io_ sleep_until_shutdown ≫= fun _ => put_pa 0 0.

Definition os2pathtolx : I unit :=
  s ← get;
  match parm s with
  | Some p =>
      if (length p <? 524)%nat then throw BadAccess else
      r ← io (os2path_to_lx (take 260 (drop 4 p)));
      p ← put_bytes (Some p) 264 r.2;
      set_packets p (dpkt s) ≫= fun _ => put_pa 0 r.1
  | None => throw NullDeref
  end.

Definition ioctl_utl (fuel : nat) (rp : LX_RP) : I Z := done (
  if Function rp =? 1 then
    if_pa (s ← get; put_pa 4 (lx_sysstate s) ≫= fun _ => put_pa 0 0)
  else if Function rp =? 2 then LX_set_sysstate LXSYSSTATE_INIT_STARTED 0 ≫= fun _ => mret 0
  else if Function rp =? 3 then if_pa (init_finished fuel)
  else if Function rp =? 4 then if_pa os2pathtolx
  else mret RPERR_COMMAND).

Definition udispatch (fuel : nat) (rp : LX_RP) : I (option Z) :=
  if Category rp =? 161 then ioctl_sys rp
  else if Category rp =? 160 then rc ← ioctl_utl fuel rp; mret (Some rc)
  else mret (Some (Z.lor RPDONE RPERR_COMMAND)).

Definition exited (r : option Z) : bool := match r with None => true | Some _ => false end.

Definition LX_UStratIOCtl (fuel : nat) (rp : LX_RP) : I (option Z) :=
  with_segment exited rp (udispatch fuel rp).

(** Initialisation, open, close, deinstall, shutdown and init complete succeed. *)
Definition lx_UStratDispatch (fuel : nat) (cmd : Z) (rp : LX_RP) : I (option Z) :=
  if cmd =? 16 then LX_UStratIOCtl fuel rp
  else if bool_decide (cmd ∈ [0; 13; 14; 20; 28; 31]) then mret (Some RPDONE)
  else mret (Some (Z.lor RPERR_COMMAND RPDONE)).

Definition LXLEAVE_UTL_FREEME : Z := 2.

Definition LX_UStrategy (fuel : nat) (cmd : Z) (rp : LX_RP) : I (option Z) :=
  if cmd <? 32 then
    io_ enter_utl_current ≫= fun _ =>
    rc ← lx_UStratDispatch fuel cmd rp;
    if exited rc then mret rc
    else io_ (leave_utl_current (if cmd =? 14 then LXLEAVE_UTL_FREEME else 0)) ≫= fun _ => mret rc
  else mret (Some (Z.lor RPERR_COMMAND RPDONE)).
End Ioctl.

(** ** The dispatchers leave no trace *)

Section Keeps.
Context {W : Type} `{IoDev W} (maj min build : Z).

(** What the handlers do not touch: the current file and the segment locks. *)
Definition traces (s : ioc W) : Z * list Z := (current_fileId s, held s).

Lemma keeps_io {A} (f : W -> A * W) : keeps traces (io f).
Proof. intros s b s'. unfold io. destruct (f (iow s)). by intros [= _ <-]. Qed.
Lemma keeps_packets p d : keeps traces (set_packets p d).
Proof. by intros s b s' [= _ <-]. Qed.
Lemma keeps_sysstate a b : keeps traces (LX_set_sysstate a b).
Proof. by intros s x s' [= _ <-]. Qed.
Lemma keeps_init_count n : keeps traces (set_init_count n).
Proof. by intros s x s' [= _ <-]. Qed.

#[local] Hint Resolve keeps_io keeps_packets keeps_sysstate keeps_init_count : keeps.

Lemma keeps_pa o : keeps traces (pa o).
Proof. unfold pa, field_of. keeps. Qed.
Lemma keeps_put_pa o v : keeps traces (put_pa o v).
Proof. unfold put_pa, put_bytes. keeps. Qed.
Lemma keeps_put_dp o v : keeps traces (put_dp o v).
Proof. unfold put_dp, put_bytes. keeps. Qed.
#[local] Hint Resolve keeps_pa keeps_put_pa keeps_put_dp : keeps.

Lemma keeps_put_list o l : keeps traces (put_list o l).
Proof. revert o. induction l as [|x l IH]; intros o; cbn [put_list]; keeps. Qed.
Lemma keeps_shrink fuel : keeps traces (shrink fuel).
Proof. induction fuel as [|n IH]; cbn [shrink]; keeps. Qed.
Lemma keeps_args n o : keeps traces (get_args n o).
Proof. revert o. induction n as [|n IH]; intros o; cbn [get_args]; keeps. Qed.
#[local] Hint Resolve keeps_put_list keeps_shrink keeps_args : keeps.

Lemma keeps_deh rp : keeps traces (ioctl_deh rp).
Proof.
  unfold ioctl_deh, done, if_pa, deh_allocphys, deh_freephys, deh_vmalloc, deh_vmfree, deh_convert,
    deh_vmlock, deh_vmunlock. keeps.
Qed.

Lemma keeps_mem rp : keeps traces (ioctl_mem rp).
Proof.
  unfold ioctl_mem, done, if_pa, mem_vmalloc, mem_vfree, mem_allocphys, deh_freephys, field_of, io_. keeps.
Qed.

Lemma keeps_global rp : keeps traces (ioctl_global maj min build rp).
Proof. unfold ioctl_global, done, if_dp, glo_getdriverinfo, put_bytes. keeps. Qed.
#[local] Hint Resolve keeps_deh keeps_mem keeps_global : keeps.

Lemma keeps_dispatch rp : keeps traces (dispatch maj min build rp).
Proof.
  unfold dispatch, ioctl_mod, ioctl_pci, ioctl_i2c, ioctl_v4l, ioctl_dmn, done. cbn zeta. keeps.
Qed.

Lemma keeps_udispatch fuel rp : keeps traces (udispatch fuel rp).
Proof.
  unfold udispatch, ioctl_sys, ioctl_utl, done, if_pa, LX_utl_syscall, init_finished, os2pathtolx,
    when, put_bytes, io_. keeps.
Qed.

(** The frame of both dispatchers. *)
Lemma with_segment_balanced {A} (exits : A -> bool) rp (body : M (ioc W) A) s a s' :
  keeps traces body -> with_segment exits rp body s = Ok (a, s') -> exits a = false ->
  current_fileId s' = 0 /\ held s' = held s.
Proof.
  intros Hb E Hx. revert E. unfold with_segment, set_fileId, io_, io, set_held. mstep. cbn [iow].
  destruct (DataLength rp =? 0) eqn:Ed; mstep.
  - match goal with |- context [body ?x] => destruct (body x) as [[b s1]|] eqn:E1 end; [|done].
    pose proof (Hb _ _ _ E1) as Hh; injection Hh as _ Hh; cbn in Hh. destruct (exits b) eqn:Eb; mstep.
    + intros [= -> ->]. congruence.
    + rewrite andb_false_r. mstep. intros [= -> <-]. cbn. auto.
  - cbn [iow]. destruct (DevSegLock (DataSelector rp) _) as [h w]. mstep.
    destruct (h =? 0) eqn:Eh; mstep.
    + match goal with |- context [body ?x] => destruct (body x) as [[b s1]|] eqn:E1 end; [|done].
      pose proof (Hb _ _ _ E1) as Hh; injection Hh as _ Hh; cbn in Hh. destruct (exits b) eqn:Eb; mstep.
      * intros [= -> ->]. congruence.
      * rewrite Eh. cbn [negb andb]. mstep. intros [= -> <-]. cbn. auto.
    + match goal with |- context [body ?x] => destruct (body x) as [[b s1]|] eqn:E1 end; [|done].
      pose proof (Hb _ _ _ E1) as Hh; injection Hh as _ Hh; cbn in Hh. destruct (exits b) eqn:Eb; mstep.
      * intros [= -> ->]. congruence.
      * rewrite Eh. cbn [negb andb]. mstep. intros [= -> <-]. cbn. split; [done|].
        rewrite Hh. cbn. by rewrite Z.eqb_refl.
Qed.

(** Every handler of the driver but the daemon's marks the request done. *)
Definition marks_done (m : M (ioc W) Z) : Prop :=
  forall s rc s', m s = Ok (rc, s') -> Z.land rc RPDONE = RPDONE.

Lemma done_marks m : marks_done (done m).
Proof.
  intros s rc s' E. unfold done in E. apply M_bind_Ok in E as (a & s1 & _ & [= <- _]).
  apply Z.bits_inj'. intros n _. rewrite Z.land_spec, Z.lor_spec.
  by destruct (Z.testbit a n), (Z.testbit RPDONE n).
Qed.

Lemma dispatch_marks rp : Category rp <> 240 -> marks_done (dispatch maj min build rp).
Proof.
  intros Hc. unfold dispatch. cbn zeta.
  repeat match goal with |- marks_done (if ?b then _ else _) => destruct b eqn:? end; try apply done_marks.
  - intros s rc s' [= <- _]. by destruct (_ && _).
  - lia.
  - by intros s rc s' [= <- _].
Qed.

Lemma dispatch_done rp (s : ioc W) rc s' :
  LX_StratIOCtl maj min build rp s = Ok (rc, s') -> Category rp <> 240 -> Z.land rc RPDONE = RPDONE.
Proof.
  intros E Hc. unfold LX_StratIOCtl, with_segment in E. cbn in E. minv.
  eapply dispatch_marks; [exact Hc|eassumption].
Qed.


(** The same for the utilities device, for every request that returns; a
    system call that ends the calling process leaves the segment locked. *)
Lemma uioctl_balanced fuel rp (s : ioc W) r s' :
  LX_UStratIOCtl fuel rp s = Ok (r, s') -> r <> None ->
  current_fileId s' = 0 /\ held s' = held s.
Proof.
  intros E Hr. apply (with_segment_balanced exited rp (udispatch fuel rp) s r s' (keeps_udispatch fuel rp) E).
  by destruct r.
Qed.
End Keeps.

(** ** Packet fields *)

Lemma le32_bytes v i : (i < 4)%nat -> le32 v !! i = Some (v / 256 ^ Z.of_nat i mod 256).
Proof.
  intros Hi. unfold le32, le16. destruct i as [|[|[|[|i]]]]; cbn -[Z.div Z.modulo]; [f_equal; lia..|lia].
Qed.

Lemma overwrite_le32 o v p :
  (o + 4 <= length p)%nat ->
  exists p', overwrite o (le32 v) p = Some p' /\ length p' = length p /\ dword_at o p' = u32 v /\
    forall o', (o' + 4 <= o)%nat \/ (o + 4 <= o')%nat -> dword_at o' p' = dword_at o' p.
Proof.
  intros Ho. destruct (overwrite o (le32 v) p) as [p'|] eqn:E.
  2: { unfold overwrite in E. change (length (le32 v)) with 4%nat in E.
       destruct (Nat.leb_spec (o + 4) (length p)); [done|lia]. }
  exists p'. split; [done|]. split; [by eapply overwrite_length|].
  assert (Hn : forall i, nth i p' 0 = default 0 (if decide (o <= i < o + 4)%nat
             then le32 v !! (i - o)%nat else p !! i)).
  { intros i. rewrite nth_lookup, (overwrite_nth _ _ _ _ _ E). done. }
  split.
  - unfold dword_at. rewrite !Hn, !decide_True, !le32_bytes by lia.
    replace (o - o)%nat with 0%nat by lia. replace (o + 1 - o)%nat with 1%nat by lia.
    replace (o + 2 - o)%nat with 2%nat by lia. replace (o + 3 - o)%nat with 3%nat by lia.
    cbn [from_option id]. change (256 ^ Z.of_nat 0) with 1. change (256 ^ Z.of_nat 1) with 256.
    change (256 ^ Z.of_nat 2) with 65536. change (256 ^ Z.of_nat 3) with 16777216. mlia.
  - intros o' Ho'. unfold dword_at. rewrite !Hn, !decide_False by lia. by rewrite <- !nth_lookup.
Qed.

Section Packets.
Context {W : Type} `{IoDev W}.

Definition with_packets (p d : list Z) (w : W) (s : ioc W) : ioc W :=
  mk_ioc w (Some p) (Some d) (current_fileId s) (held s) (lx_sysstate s) (init_count s).

Lemma put_pa_ok o v p d w s :
  (o + 4 <= length p)%nat ->
  exists p', put_pa o v (with_packets p d w s) = Ok (tt, with_packets p' d w s) /\
    length p' = length p /\ dword_at o p' = u32 v /\
    forall o', (o' + 4 <= o)%nat \/ (o + 4 <= o')%nat -> dword_at o' p' = dword_at o' p.
Proof.
  intros Ho. destruct (overwrite_le32 o v p Ho) as (p' & E & Hp). exists p'. split; [|done].
  unfold put_pa, put_bytes. mstep. cbn [parm with_packets]. rewrite E. reflexivity.
Qed.

Lemma put_dp_ok o v p d w s :
  (o + 4 <= length d)%nat ->
  exists d', put_dp o v (with_packets p d w s) = Ok (tt, with_packets p d' w s) /\
    length d' = length d /\ dword_at o d' = u32 v /\
    forall o', (o' + 4 <= o)%nat \/ (o + 4 <= o')%nat -> dword_at o' d' = dword_at o' d.
Proof.
  intros Ho. destruct (overwrite_le32 o v d Ho) as (d' & E & Hd). exists d'. split; [|done].
  unfold put_dp, put_bytes. mstep. cbn [dpkt with_packets]. rewrite E. reflexivity.
Qed.

Lemma pa_ok o p d w s :
  (o + 4 <= length p)%nat -> pa o (with_packets p d w s) = Ok (dword_at o p, with_packets p d w s).
Proof.
  intros Ho. unfold pa, field_of. mstep. cbn [parm with_packets].
  apply Nat.leb_le in Ho. by rewrite Ho.
Qed.

Lemma io_ok {A} (f : W -> A * W) p d w s :
  io f (with_packets p d w s) = Ok ((f w).1, with_packets p d (f w).2 s).
Proof. unfold io. cbn [iow with_packets]. by destruct (f w). Qed.

(** The ioctl that allocates memory for an application answers with the
    kernel, physical and application addresses.  Without memory, or when the
    address cannot be translated, its code is -EINVAL; in the second case the
    memory stays allocated.  A failed mapping is reported as success. *)
Theorem vmalloc_ioctl rp s p d w :
  Function rp = 1 -> (8 <= length p)%nat -> (12 <= length d)%nat ->
  let size := dword_at 4 p in
  let k := (vmalloc size w).1 in
  let w1 := (vmalloc size w).2 in
  let ph := if k =? 0 then 0 else (virt_to_phys k w1).1 in
  let w2 := if k =? 0 then w1 else (virt_to_phys k w1).2 in
  exists p' d', ioctl_mem rp (with_packets p d w s)
      = Ok (RPDONE, with_packets p' d' (if ph =? 0 then w2 else (LX_map_vm_to_user k size w2).2) s) /\
    dword_at 0 p' = (if ph =? 0 then u32 (- EINVAL) else 0) /\ dword_at 0 d' = u32 k /\
    (k <> 0 -> dword_at 4 d' = u32 ph) /\
    (ph <> 0 -> dword_at 8 d' = u32 (LX_map_vm_to_user k size w2).1).
Proof.
  intros Hf Hp Hd. cbn zeta. unfold ioctl_mem, done, mem_vmalloc. rewrite Hf.
  change (1 =? 1) with true. cbn iota. rewrite !M_bind_unfold.
  destruct (put_pa_ok 0 (- EINVAL) p d w s) as (p1 & -> & Hl1 & Hr1 & Ho1); [lia|].
  mstep. cbn [dpkt with_packets]. change (mk_ioc w _ _ _ _ _ _) with (with_packets p1 d w s).
  fold (with_packets p1 d w s). rewrite !M_bind_unfold, pa_ok by lia. rewrite (Ho1 4%nat) by lia.
  rewrite M_bind_unfold, io_ok, M_bind_unfold.
  set (size := dword_at 4 p). set (k := (vmalloc size w).1). set (w1 := (vmalloc size w).2).
  destruct (put_dp_ok 0 k p1 d w1 s) as (d1 & -> & Hld1 & Hd1 & Hod1); [lia|].
  destruct (k =? 0) eqn:Ek.
  { eexists p1, d1. split; [reflexivity|]. cbn. split; [done|]. split; [done|]. split; [lia|done]. }
  rewrite M_bind_unfold, io_ok, M_bind_unfold.
  set (ph := (virt_to_phys k w1).1). set (w2 := (virt_to_phys k w1).2).
  destruct (put_dp_ok 4 ph p1 d1 w2 s) as (d2 & -> & Hld2 & Hd2 & Hod2); [lia|].
  destruct (ph =? 0) eqn:Eph.
  { eexists p1, d2. split; [reflexivity|]. rewrite (Hod2 0%nat) by lia. split; [done|]. split; [done|].
    split; [done|lia]. }
  rewrite M_bind_unfold, pa_ok, (Ho1 4%nat) by lia. fold size.
  rewrite M_bind_unfold, io_ok, M_bind_unfold.
  destruct (put_dp_ok 8 (LX_map_vm_to_user k size w2).1 p1 d2 (LX_map_vm_to_user k size w2).2 s)
    as (d3 & -> & Hld3 & Hd3 & Hod3); [lia|].
  rewrite M_bind_unfold.
  destruct (put_pa_ok 0 0 p1 d3 (LX_map_vm_to_user k size w2).2 s) as (p4 & -> & _ & Hr4 & _); [lia|].
  eexists p4, d3. split; [reflexivity|]. rewrite (Hod3 0%nat), (Hod3 4%nat), (Hod2 0%nat) by lia.
  split; [done|]. split; [done|]. split; [done|done].
Qed.

Lemma if_pa_none body (s : ioc W) : parm s = None -> if_pa body s = Ok (RPERR_PARAMETER, s).
Proof. intros Hp. unfold if_pa. mstep. by rewrite Hp. Qed.

Ltac step n :=
  match goal with rp : LX_RP, Hp : parm _ = None |- _ =>
    destruct (Function rp =? n) eqn:?; [rewrite if_pa_none by exact Hp; reflexivity|] end.

(** A parameter packet the kernel could not verify is refused by the
    device helper functions and the physical memory functions without any
    effect; allocating and freeing application memory write through it. *)
Theorem unverified_packets rp (s : ioc W) :
  parm s = None ->
  (1 <= Function rp <= 8 -> ioctl_deh rp s = Ok (Z.lor RPERR_PARAMETER RPDONE, s)) /\
  (5 <= Function rp <= 6 -> ioctl_mem rp s = Ok (Z.lor RPERR_PARAMETER RPDONE, s)) /\
  (1 <= Function rp <= 2 -> ioctl_mem rp s = Err NullDeref).
Proof.
  intros Hp. split; [|split]; intros Hf.
  - unfold ioctl_deh, done. cbn zeta. rewrite M_bind_unfold.
    step 1. step 2. step 3. step 4. step 5. step 6. step 7. step 8. lia.
  - unfold ioctl_mem, done. rewrite M_bind_unfold.
    destruct (Function rp =? 1) eqn:?; [lia|]. destruct (Function rp =? 2) eqn:?; [lia|].
    destruct (Function rp =? 5) eqn:?.
    + unfold mem_allocphys. mstep. by rewrite Hp.
    + destruct (Function rp =? 6) eqn:?; [rewrite if_pa_none by done; reflexivity|lia].
  - unfold ioctl_mem, done. rewrite M_bind_unfold.
    destruct (Function rp =? 1) eqn:?.
    + unfold mem_vmalloc, put_pa, put_bytes. mstep. by rewrite Hp.
    + destruct (Function rp =? 2) eqn:?; [|lia]. unfold mem_vfree, pa, field_of. mstep. by rewrite Hp.
Qed.
End Packets.

(** ** A device for concrete requests: memory at 4096, segment lock 9. *)

#[local] Instance toy_IoDev : IoDev Z := {
  DevPhysAlloc := fun _ _ _ w => (0, 8192, w + 1); DevPhysFree := fun _ w => (0, w - 1);
  io_VMAlloc := fun _ _ _ _ w => (0, 4096, w + 1); io_VMFree := fun _ w => (0, w - 1);
  DevVMGlobalToProcess := fun _ l _ _ w => (0, l, w);
  DevVMProcessToGlobal := fun _ l _ _ w => (0, l, w);
  DevVMLock := fun _ l n _ w => (0, ([l; n], 1), w); DevVMUnLock := fun _ w => (0, w);
  vmalloc := fun sz w => (if sz <? 65536 then 4096 else 0, w + 1); vfree := fun _ w => w - 1;
  virt_to_phys := fun a w => (a + 1048576, w); LX_map_vm_to_user := fun _ _ w => (0, w);
  DevSegLock := fun _ w => (9, w); DevSegUnlock := fun _ w => w;
  io_dmn := fun _ p d w => (RPDONE, (p, d), w); syscall := fun n _ w => (if n =? 1 then None else Some n, w);
  shrink_all_memory := fun _ w => (0, w); sys_sync := fun w => w; wait_for_stable_memstat := fun w => w;
  print_memstat := fun _ w => w; close_screen := fun w => w; sleep_until_shutdown := fun w => w;
  os2path_to_lx := fun l w => (0, l, w); set_current_dev := fun _ w => w;
  enter_utl_current := fun w => w; leave_utl_current := fun _ w => w
}.

Definition ioc0 : ioc Z := mk_ioc 0 (Some (replicate 44 0)) (Some (replicate 12 0)) 0 [] 0 0.

(** A lock with its page list overruns the 28 bytes of its packet. *)
Example vmlock_overruns :
  ioctl_deh (mk_rp 160 7 1 12 0) (mk_ioc 0 (Some (replicate 28 0)) None 0 [] 0 0) = Err BadAccess.
Proof. vm_compute. reflexivity. Qed.

(** System call 1 does not return: the segment stays locked. *)
Example exit_keeps_segment :
  held <$> exec (LX_UStratIOCtl 1 (mk_rp 161 1 1 12 0))
    (mk_ioc 0 (Some (replicate 12 0 ++ le32 1 ++ replicate 28 0)) None 0 [] 0 0) = Some [9].
Proof. vm_compute. reflexivity. Qed.


Lemma vmalloc_ioctl_witness :
  exists p' d', ioctl_mem (mk_rp 165 1 1 12 0) (with_packets (le32 0 ++ le32 100) (replicate 12 7) 0 ioc0)
      = Ok (RPDONE, with_packets p' d' 1 ioc0) /\
    dword_at 0 p' = 0 /\ dword_at 0 d' = u32 4096 /\
    (4096 <> 0 -> dword_at 4 d' = u32 1052672) /\ (1052672 <> 0 -> dword_at 8 d' = u32 0).
Proof.
  destruct (vmalloc_ioctl (mk_rp 165 1 1 12 0) ioc0 (le32 0 ++ le32 100) (replicate 12 7) 0
    eq_refl ltac:(cbn; lia) ltac:(cbn; lia)) as (p' & d' & E & H0 & H1 & H2 & H3).
  exists p', d'. split; [exact E|]. split; [exact H0|]. split; [exact H1|]. split; [exact H2|exact H3].
Defined.

Lemma unverified_packets_witness :
  let s := mk_ioc 0 None (Some [1; 2]) 0 [] 0 0 in
  (1 <= 3 <= 8 -> ioctl_deh (mk_rp 160 3 1 0 0) s = Ok (Z.lor RPERR_PARAMETER RPDONE, s)) /\
  (5 <= 3 <= 6 -> ioctl_mem (mk_rp 160 3 1 0 0) s = Ok (Z.lor RPERR_PARAMETER RPDONE, s)) /\
  (1 <= 3 <= 2 -> ioctl_mem (mk_rp 160 3 1 0 0) s = Err NullDeref).
Proof. apply (unverified_packets (mk_rp 160 3 1 0 0) (mk_ioc 0 None (Some [1; 2]) 0 [] 0 0)). reflexivity. Defined.
