(* ===== verification/Mmap.v ===== *)
(** * Mappings of driver memory into processes (Linux/lib/ll_mmap.c)

    Memory of the driver is mapped into a process and the mapping is kept in a
    list, by a handle, the process and the mapped range.  Nodes are kmalloc'ed
    and blocks come from the device helpers, so the memory manager is part of
    the state. *)

From S2P Require Import Prelude DevHlp Memory Heap.

Record vm_mapped_mem := mk_mapped {
  m_handle : Z; m_pid : Z; m_size : Z; m_vAddr : Z; m_pAddr : Z; m_mAddr : Z
}.

Definition sizeof_vm_mapped_mem : Z := 32.

Record mmaps (W : Type) := mk_mmaps {
  mmap_lock : bool;
  mmap_handle : Z;
  vm_mapped_mem_root : list (Z * vm_mapped_mem);
  mem : lxm W
}.
Arguments mk_mmaps {W}. Arguments mmap_lock {W}. Arguments mmap_handle {W}.
Arguments vm_mapped_mem_root {W}. Arguments mem {W}.

Definition set_mhandle (h : Z) (o : vm_mapped_mem) : vm_mapped_mem :=
  mk_mapped h (m_pid o) (m_size o) (m_vAddr o) (m_pAddr o) (m_mAddr o).

Section Mmap.
Context {W : Type} `{DevVM W}.
(** The calling thread and process, and what a new memory object holds. *)
Context (tid pid : Z) (garbage : memobj).
Abbreviation P := (M (mmaps W)).

Definition mm_lock : P unit := fun s =>
  if mmap_lock s then Err Deadlock
  else Ok (tt, mk_mmaps true (mmap_handle s) (vm_mapped_mem_root s) (mem s)).
Definition mm_unlock : P unit :=
  modify (fun s => mk_mmaps false (mmap_handle s) (vm_mapped_mem_root s) (mem s)).
Definition set_root (l : list (Z * vm_mapped_mem)) : P unit :=
  modify (fun s => mk_mmaps (mmap_lock s) (mmap_handle s) l (mem s)).
Definition set_next_handle (h : Z) : P unit :=
  modify (fun s => mk_mmaps (mmap_lock s) h (vm_mapped_mem_root s) (mem s)).
(** A call of the memory manager. *)
Definition on_mem {A} (m : M (lxm W) A) : P A := fun s =>
  match m (mem s) with
  | Ok (a, m') => Ok (a, mk_mmaps (mmap_lock s) (mmap_handle s) (vm_mapped_mem_root s) m')
  | Err e => Err e
  end.
Definition mm_kmalloc (sz : Z) : P Z := on_mem (__LX_malloc_gfp tid pid garbage 0 sz 208).

Definition same_range (v sz : Z) (x : Z * vm_mapped_mem) : bool :=
  (m_vAddr x.2 =? v) && (m_size x.2 =? sz).

(** [from] is the handle, [to] the driver's address. *)
Definition LX_remap_page_range (from to sz : Z) : P Z :=
  mm_lock ≫= fun _ =>
  l ← gets vm_mapped_mem_root;
  match find_first (same_range to sz) l with
  | Some _ =>
      set_root (update_first (same_range to sz) (fun x => (x.1, set_mhandle from x.2)) l) ≫= fun _ =>
      mm_unlock ≫= fun _ => mret 0
  | None =>
      mm_unlock ≫= fun _ =>
      p ← mm_kmalloc sizeof_vm_mapped_mem;
      if p =? 0 then mret (- EINVAL) else
      pa ← on_mem (LX__pa tid pid garbage to);
      r ← on_mem (VMAlloc (Z.lor VMDHA_PHYS VMDHA_PROCESS) sz pa);
      r ← match r with
          | Some a => mret (Some a)
          | None => on_mem (VMAlloc (Z.lor (Z.lor VMDHA_PHYS VMDHA_PROCESS) VMDHA_16M) sz pa)
          end;
      match r with
      | None => on_mem (VMFree p) ≫= fun _ => mret (- EINVAL)
      | Some a =>
          mm_lock ≫= fun _ =>
          l ← gets vm_mapped_mem_root;
          set_root ((p, mk_mapped from (u16 pid) sz to pa a) :: l) ≫= fun _ =>
          mm_unlock ≫= fun _ => mret 0
      end
  end.

(** The walk stops when the handle or the process is the right one. *)
Definition mapped_here (h : Z) (x : Z * vm_mapped_mem) : bool :=
  negb (negb (m_handle x.2 =? h) && negb (m_pid x.2 =? u16 pid)).

Definition LX_get_mapped_mem (h : Z) : P (option (Z * vm_mapped_mem)) :=
  mm_lock ≫= fun _ =>
  l ← gets vm_mapped_mem_root;
  mm_unlock ≫= fun _ => mret (find_first (mapped_here h) l).

(** [p->next=next] in the list [l]. *)
Fixpoint set_next (p : Z) (next l : list (Z * vm_mapped_mem)) : option (list (Z * vm_mapped_mem)) :=
  match l with
  | [] => None
  | x :: l => if x.1 =? p then Some (x :: next) else (x ::.) <$> set_next p next l
  end.

(** [pMap] is the rest of the list; after a removal the walk starts again at
    the root and keeps [pPrev]. *)
Fixpoint free_loop (fuel : nat) (v : Z) (pPrev : option Z) (pMap : list (Z * vm_mapped_mem)) : P unit :=
  match fuel with
  | O => throw OutOfFuel
  | S fuel =>
      match pMap with
      | [] => mret tt
      | (n, o) :: next =>
          if v =? m_vAddr o then
            on_mem (VMFree (m_mAddr o)) ≫= fun _ =>
            (match pPrev with
             | None => mret tt
             | Some q =>
                 l ← gets vm_mapped_mem_root;
                 match set_next q next l with
                 | Some l => set_root l
                 | None => throw UseAfterFree
                 end
             end) ≫= fun _ =>
            l ← gets vm_mapped_mem_root;
            (match l with
             | (m, _) :: _ => if m =? n then set_root next else mret tt
             | [] => mret tt
             end) ≫= fun _ =>
            on_mem (VMFree n) ≫= fun _ =>
            l ← gets vm_mapped_mem_root; free_loop fuel v pPrev l
          else free_loop fuel v (Some n) next
      end
  end.

Definition LX_free_vm_mappings (v : Z) : P Z :=
  mm_lock ≫= fun _ =>
  l ← gets vm_mapped_mem_root;
  free_loop (S (length l) * S (length l)) v None l ≫= fun _ =>
  mm_unlock ≫= fun _ => mret 0.

(** The next handle; [wrap] follows 255. *)
Definition next_handle (wrap : Z) : P Z :=
  mm_lock ≫= fun _ =>
  h ← gets mmap_handle;
  set_next_handle (if 255 <? h + 1 then wrap else h + 1) ≫= fun _ =>
  mm_unlock ≫= fun _ => mret h.

Definition LX_map_vm_to_user (v sz : Z) : P Z :=
  h ← next_handle 1;
  rc ← LX_remap_page_range h v sz;
  if rc =? 0 then
    m ← LX_get_mapped_mem h;
    match m with Some x => mret (m_mAddr x.2) | None => mret 0 end
  else mret 0.

(** [dev]: the opened device, and whether it has an mmap function; the call
    of that function is commented out.  The result goes to [*mmap]. *)
Definition LX_v4lx_mmap (dev : option bool) : P (Z * option Z) :=
  h ← next_handle 0;
  match dev with
  | None => mret (- ENXIO, None)
  | Some false => mret (- ENOSYS, None)
  | Some true =>
      m ← LX_get_mapped_mem h;
      match m with Some x => mret (0, Some (m_mAddr x.2)) | None => mret (- EINVAL, None) end
  end.
End Mmap.

(** ** The list of mappings *)

Lemma set_next_last q o pre rest next :
  NoDup (pre ++ (q, o) :: rest).*1 ->
  set_next q next (pre ++ (q, o) :: rest) = Some (pre ++ (q, o) :: next).
Proof.
  induction pre as [|x pre IH]; cbn; intros Hnd.
  - by rewrite Z.eqb_refl.
  - apply NoDup_cons in Hnd as [Hx Hnd]. destruct (x.1 =? q) eqn:E.
    + exfalso. apply Hx. replace x.1 with q by lia. rewrite fmap_app. cbn. set_solver.
    + by rewrite IH.
Qed.

Lemma deleted_both (n a : Z) (m : gmap Z Z) :
  delete n (delete a m) !! n = None /\ delete n (delete a m) !! a = None.
Proof.
  split; [apply lookup_delete_eq|]. destruct (decide (n = a)) as [->|Hne]; [apply lookup_delete_eq|].
  rewrite lookup_delete_ne by done. apply lookup_delete_eq.
Qed.

Section MmapFacts.
Context {W : Type} `{DevVMLaws W}.
Context (tid pid : Z) (garbage : memobj).
Implicit Types (s : mmaps W) (l : list (Z * vm_mapped_mem)).

Definition other (v : Z) (x : Z * vm_mapped_mem) : Prop := m_vAddr x.2 <> v.
#[local] Instance other_dec v x : Decision (other v x).
Proof. unfold other. apply _. Defined.

(** The blocks of the removed mappings are released, nothing else changes. *)
Record released (v : Z) s s' (l l' : list (Z * vm_mapped_mem)) : Prop := {
  re_lock : mmap_lock s' = mmap_lock s;
  re_root : vm_mapped_mem_root s' = l';
  re_handle : mmap_handle s' = mmap_handle s;
  re_objs : memobjs (mem s') = memobjs (mem s);
  re_free x : x ∈ l -> ~ other v x ->
    live (world (mem s')) !! x.1 = None /\ live (world (mem s')) !! m_mAddr x.2 = None;
  re_keep k : (forall x, x ∈ l -> ~ other v x -> k <> x.1 /\ k <> m_mAddr x.2) ->
    live (world (mem s')) !! k = live (world (mem s)) !! k
}.

(** [pPrev] is the node before [pMap], or a stale one at the root when the
    first node stays. *)
Definition prev_ok (v : Z) (pPrev : option Z) (pre pMap : list (Z * vm_mapped_mem)) : Prop :=
  pPrev = fst <$> last pre \/ (pre = [] /\ exists x t, pMap = x :: t /\ other v x).

Lemma set_next_prev pPrev pre n o next :
  pPrev = fst <$> last pre -> NoDup (pre ++ (n, o) :: next).*1 ->
  match pPrev with
  | None => pre = []
  | Some q => q <> n /\ set_next q next (pre ++ (n, o) :: next) = Some (pre ++ next) /\
      exists y t, pre = y :: t /\ y.1 <> n
  end.
Proof.
  intros -> Hnd. destruct pre as [|[q u] pre _] using rev_ind; [done|].
  rewrite last_snoc. cbn. rewrite <- app_assoc in Hnd |- *. cbn in Hnd |- *.
  rewrite set_next_last, <- app_assoc by done. rewrite fmap_app in Hnd. cbn in Hnd.
  assert (Hq : forall y, y ∈ pre ++ [(q, u)] -> y.1 <> n).
  { intros y Hy E. apply NoDup_app in Hnd as (_ & Hd & Hnd2). apply NoDup_cons in Hnd2 as [Hq _].
    apply elem_of_app in Hy as [Hy | ->%list_elem_of_singleton]; [|cbn in E; set_solver].
    apply (Hd y.1); [by apply list_elem_of_fmap_2|set_solver]. }
  split; [apply (Hq (q, u)); set_solver|]. split; [done|].
  destruct pre as [|y pre]; cbn in *; [exists (q, u), []|exists y, (pre ++ [(q, u)])];
    (split; [done|apply Hq; set_solver]).
Qed.

(** One removal. *)
Lemma free_step fuel v pPrev pre n o next s :
  vm_mapped_mem_root s = pre ++ (n, o) :: next -> NoDup (vm_mapped_mem_root s).*1 ->
  m_vAddr o = v -> pPrev = fst <$> last pre ->
  exists s1, free_loop (S fuel) v pPrev ((n, o) :: next) s = free_loop fuel v pPrev (pre ++ next) s1 /\
    released v s s1 [(n, o)] (pre ++ next).
Proof.
  intros Hr Hnd Hv Hp. rewrite Hr in Hnd. pose proof (set_next_prev pPrev pre n o next Hp Hnd) as Hs.
  cbn [free_loop]. rewrite Hv, Z.eqb_refl. unfold on_mem, VMFree, set_root. mstep. clear Hp.
  destruct pPrev as [q|]; mstep; cbn [vm_mapped_mem_root mem mmap_lock mmap_handle].
  - rewrite Hr. destruct Hs as (Hq & -> & y & t & -> & Hy). cbn [app]. mstep. cbn [vm_mapped_mem_root mem mmap_lock mmap_handle].
    destruct y as [m y]. cbn [fst] in Hy. destruct (m =? n) eqn:E; [lia|]. mstep.
    cbn [vm_mapped_mem_root mem mmap_lock mmap_handle].
    eexists. split; [reflexivity|].
    split; cbn; [done..| |]; rewrite !DevVMFree_live.
    + intros x ->%list_elem_of_singleton _. apply deleted_both.
    + intros k Hk. destruct (Hk (n, o)); [set_solver|by unfold other; cbn; intros []|].
      by rewrite !lookup_delete_ne by done.
  - subst pre. rewrite Hr. cbn [app]. rewrite Z.eqb_refl. mstep. cbn [vm_mapped_mem_root mem mmap_lock mmap_handle].
    eexists. split; [reflexivity|].
    split; cbn; [done..| |]; rewrite !DevVMFree_live.
    + intros x ->%list_elem_of_singleton _. apply deleted_both.
    + intros k Hk. destruct (Hk (n, o)); [set_solver|by unfold other; cbn; intros []|].
      by rewrite !lookup_delete_ne by done.
Qed.

Lemma released_app v s s1 s' x l pre rest :
  ~ other v x -> Forall (other v) pre ->
  released v s s1 [x] (pre ++ l) -> released v s1 s' (pre ++ l) rest ->
  released v s s' (pre ++ x :: l) rest.
Proof.
  intros Hx Hpre [A1 A2 A3 A4 A5 A6] [B1 B2 B3 B4 B5 B6].
  assert (Hin : forall y, y ∈ pre ++ x :: l -> ~ other v y -> y = x \/ y ∈ pre ++ l).
  { intros y Hy _. set_solver. }
  split; [congruence|done|congruence|congruence| |].
  - assert (Hgone : forall k, live (world (mem s1)) !! k = None -> live (world (mem s')) !! k = None).
    { intros k Hk. destruct (decide (Exists (fun y => ~ other v y /\ (k = y.1 \/ k = m_mAddr y.2)) (pre ++ l)))
        as [(y & Hy & Ho & [-> | ->])%Exists_exists|Hn].
      - by apply B5.
      - by apply B5.
      - rewrite B6; [done|]. intros y Hy Ho. rewrite <- Forall_Exists_neg, Forall_forall in Hn.
        specialize (Hn y Hy). cbn in Hn. naive_solver. }
    intros y Hy Ho. destruct (Hin y Hy Ho) as [->|?]; [|by apply B5].
    destruct (A5 x ltac:(set_solver) Hx). auto.
  - intros k Hk. rewrite B6, A6; [done| |].
    + intros y ->%list_elem_of_singleton _. apply Hk; [set_solver|done].
    + intros y Hy Ho. apply Hk; [set_solver|done].
Qed.

Lemma last_snoc_fst (n : Z) (o : vm_mapped_mem) pre : Some n = fst <$> last (pre ++ [(n, o)]).
Proof. by rewrite last_snoc. Qed.

(** The walk ends and removes exactly the mappings of [v]; [c] of them are
    left, and each removal costs at most a walk over the whole list. *)
Lemma free_loop_spec fuel v pPrev pre pMap s :
  vm_mapped_mem_root s = pre ++ pMap -> NoDup (vm_mapped_mem_root s).*1 ->
  Forall (other v) pre -> prev_ok v pPrev pre pMap ->
  (length pMap + length (filter (fun x => ~ other v x) pMap) * (length pre + length pMap) < fuel)%nat ->
  exists s', free_loop fuel v pPrev pMap s = Ok (tt, s') /\
    released v s s' (pre ++ pMap) (filter (other v) (pre ++ pMap)).
Proof.
  revert pPrev pre pMap s. induction fuel as [|fuel IH]; intros pPrev pre pMap s Hr Hnd Hpre Hp Hf; [lia|].
  destruct pMap as [|[n o] next].
  { exists s. split; [done|]. rewrite app_nil_r in Hr |- *.
    assert (Hfl : filter (other v) pre = pre).
    { clear -Hpre. induction Hpre as [|x l Hx _ IH]; [done|]. by rewrite filter_cons_True, IH. }
    split; [done|congruence|done..| |done].
    intros x Hx Ho. rewrite Forall_forall in Hpre. by destruct (Ho (Hpre x Hx)). }
  destruct (decide (other v (n, o))) as [Ho|Ho].
  - cbn [free_loop]. destruct (v =? m_vAddr o) eqn:E; [unfold other in Ho; cbn in Ho; lia|].
    destruct (IH (Some n) (pre ++ [(n, o)]) next s) as (s' & E' & R).
    + by rewrite <- app_assoc.
    + done.
    + apply Forall_app. auto.
    + left. apply last_snoc_fst.
    + rewrite filter_cons_False in Hf by tauto. rewrite length_app. cbn in *. lia.
    + exists s'. split; [done|]. by rewrite <- app_assoc in R.
  - assert (Hv : m_vAddr o = v) by (unfold other in Ho; cbn in Ho; lia).
    destruct Hp as [Hp|(-> & x & t & E & Hx)]; [|simplify_eq; done].
    destruct (free_step fuel v pPrev pre n o next s Hr Hnd Hv Hp) as (s1 & E1 & R1).
    pose proof Hnd as Hnd1. rewrite Hr in Hnd1.
    rewrite filter_cons_True in Hf by done. cbn [length] in Hf.
    assert (HF : filter (fun x => ~ other v x) pre = []).
    { clear -Hpre. induction Hpre as [|x l Hx _ IH]; [done|]. by rewrite filter_cons_False by tauto. }
    destruct (IH pPrev [] (pre ++ next) s1) as (s' & E' & R').
    + by rewrite (re_root _ _ _ _ _ R1).
    + rewrite (re_root _ _ _ _ _ R1). rewrite fmap_app in Hnd1 |- *. cbn in Hnd1.
      apply NoDup_app in Hnd1 as (? & Hd & [? ?]%NoDup_cons). apply NoDup_app. set_solver.
    + done.
    + destruct pre as [|x pre]; [left; by rewrite Hp|right]. split; [done|].
      exists x, (pre ++ next). apply Forall_cons in Hpre as [? _]. done.
    + rewrite filter_app, HF, !length_app. cbn. nia.
    + exists s'. rewrite E1. split; [done|]. cbn [app] in R'.
      assert (Hfl : filter (other v) (pre ++ (n, o) :: next) = filter (other v) (pre ++ next)).
      { rewrite !filter_app, filter_cons_False by done. done. }
      rewrite Hfl. by apply (released_app v s s1 s').
Qed.

(** [LX_free_vm_mappings] ends although it starts over at the root after
    every removal: it removes exactly the mappings of the address, in place,
    and releases their two blocks and no other. *)
Theorem free_vm_mappings_removes v s :
  mmap_lock s = false -> NoDup (vm_mapped_mem_root s).*1 ->
  exists s', LX_free_vm_mappings v s = Ok (0, s') /\
    released v s s' (vm_mapped_mem_root s) (filter (other v) (vm_mapped_mem_root s)).
Proof.
  intros Hl Hnd. unfold LX_free_vm_mappings, mm_lock, mm_unlock. mstep. rewrite Hl. mstep.
  set (t := mk_mmaps true (mmap_handle s) (vm_mapped_mem_root s) (mem s)).
  set (l := vm_mapped_mem_root t). set (fuel := (_ * _)%nat).
  destruct (free_loop_spec fuel v None [] l t) as (s1 & E & [R1 R2 R3 R4 R5 R6]);
    [done..|by left| |].
  { pose proof (length_filter (fun x => ~ other v x) l). cbn [length]. unfold fuel. nia. }
  rewrite E. mstep. eexists. split; [done|]. by split.
Qed.

(** ** Making a mapping *)

Lemma next_handle_run wrap s :
  mmap_lock s = false ->
  next_handle wrap s = Ok (mmap_handle s,
    mk_mmaps false (if 255 <? mmap_handle s + 1 then wrap else mmap_handle s + 1)
      (vm_mapped_mem_root s) (mem s)).
Proof. intros Hl. unfold next_handle, mm_lock, mm_unlock, set_next_handle. mstep. by rewrite Hl. Qed.

Lemma get_mapped_run h s :
  mmap_lock s = false ->
  LX_get_mapped_mem pid h s = Ok (find_first (mapped_here pid h) (vm_mapped_mem_root s), s).
Proof. intros Hl. unfold LX_get_mapped_mem, mm_lock, mm_unlock. mstep. rewrite Hl. mstep. by destruct s; cbn in *; subst. Qed.

Lemma alloc_live f sz ph (w w' : W) a :
  0 < sz -> DevVMAlloc f sz ph w = (w', Some a) -> 0 < a /\ live w' !! a = Some sz.
Proof.
  intros Hsz E. destruct (DevVMAlloc_fresh _ _ _ _ _ _ Hsz E) as (? & _ & _ & _ & Hl).
  by rewrite Hl, lookup_insert_eq.
Qed.

(** The new mapping or the reason why there is none. *)
Lemma remap_new from v sz s :
  mmap_lock s = false -> memlist_lock (mem s) = false -> 0 < sz -> translatable (W:=W) v ->
  find_first (same_range v sz) (vm_mapped_mem_root s) = None ->
  exists rc l m, LX_remap_page_range tid pid garbage from v sz s =
      Ok (rc, mk_mmaps false (mmap_handle s) l m) /\ memlist_lock m = false /\
    (rc = - EINVAL /\ l = vm_mapped_mem_root s \/
     rc = 0 /\ exists n pa r, 0 < r /\ live (world m) !! r = Some sz /\
       l = (n, mk_mapped from (u16 pid) sz v pa r) :: vm_mapped_mem_root s).
Proof.
  intros Hl Hm Hsz Ht Hf. unfold LX_remap_page_range, mm_lock, mm_unlock, mm_kmalloc, on_mem.
  mstep. rewrite Hl. mstep. cbn [vm_mapped_mem_root]. rewrite Hf. mstep. cbn [mem].
  destruct (kmalloc_total tid pid garbage sizeof_vm_mapped_mem (mem s) ltac:(done) Hm) as (p & m1 & -> & Hm1).
  destruct (p =? 0); mstep; [eexists _, _, _; split; [done|]; auto|].
  destruct (pa_total tid pid garbage v m1 Ht Hm1) as (pa & m2 & E2 & Hm2). cbn [mem]. rewrite E2. mstep. cbn [mem].
  unfold VMAlloc.
  destruct (DevVMAlloc (Z.lor VMDHA_PHYS VMDHA_PROCESS) sz pa (world m2)) as [w1 [a|]] eqn:Ea; mstep.
  { eexists _, _, _. split; [done|]. split; [done|]. right. split; [done|].
    exists p, pa, a. cbn. destruct (alloc_live _ _ _ _ _ _ Hsz Ea). auto. }
  cbn [mem set_world world].
  destruct (DevVMAlloc (Z.lor (Z.lor VMDHA_PHYS VMDHA_PROCESS) VMDHA_16M) sz pa w1)
    as [w2 [a|]] eqn:Eb; mstep.
  { eexists _, _, _. split; [done|]. split; [done|]. right. split; [done|].
    exists p, pa, a. cbn. destruct (alloc_live _ _ _ _ _ _ Hsz Eb). auto. }
  eexists _, _, _. split; [done|]. auto.
Qed.

(** Mapping a range that is not mapped yet gives a new block of its size,
    recorded at the head of the list under the next handle and the calling
    process, or 0 with the list as it was; the handles run from 1 to 255. *)
Theorem map_new_range v sz s :
  mmap_lock s = false -> memlist_lock (mem s) = false -> 0 < sz -> translatable (W:=W) v ->
  find_first (same_range v sz) (vm_mapped_mem_root s) = None ->
  exists r s', LX_map_vm_to_user tid pid garbage v sz s = Ok (r, s') /\
    mmap_lock s' = false /\ memlist_lock (mem s') = false /\
    mmap_handle s' = (if 255 <=? mmap_handle s then 1 else mmap_handle s + 1) /\
    (r = 0 /\ vm_mapped_mem_root s' = vm_mapped_mem_root s \/
     0 < r /\ live (world (mem s')) !! r = Some sz /\
     exists n pa, vm_mapped_mem_root s' =
       (n, mk_mapped (mmap_handle s) (u16 pid) sz v pa r) :: vm_mapped_mem_root s).
Proof.
  intros Hl Hm Hsz Ht Hf. unfold LX_map_vm_to_user. rewrite M_bind_unfold, next_handle_run by done.
  set (s1 := mk_mmaps _ _ _ _).
  destruct (remap_new (mmap_handle s) v sz s1) as (rc & l & m & E & Hm' & Hr); [done..|].
  rewrite M_bind_unfold, E.
  assert (Hh : mmap_handle s1 = if 255 <=? mmap_handle s then 1 else mmap_handle s + 1).
  { cbn. destruct (255 <? mmap_handle s + 1) eqn:?, (255 <=? mmap_handle s) eqn:?; lia. }
  destruct Hr as [(-> & ->)|(-> & n & pa & r & Hr & Hlive & ->)].
  - change (- EINVAL =? 0) with false. eexists _, _. split; [done|]. cbn [mmap_lock mmap_handle vm_mapped_mem_root mem].
    auto 6.
  - change (0 =? 0) with true. cbn beta iota. rewrite M_bind_unfold, get_mapped_run by done.
    cbn [vm_mapped_mem_root find_first]. unfold mapped_here. cbn [snd m_handle]. rewrite Z.eqb_refl. cbn.
    eexists _, _. split; [done|]. cbn. eauto 10.
Qed.
End MmapFacts.

(** ** Concrete runs *)

Definition sim0 : lxm sim := mk_lxm false [] 0 0 0 (mk_sim 4096 20 ∅).
Definition mm0 : mmaps sim := mk_mmaps false 255 [] sim0.
Definition map0 (v sz : Z) : M (mmaps sim) Z := LX_map_vm_to_user 1 2 no_memobj v sz.

Definition state {S} (d : S) {A} (r : res (A * S)) : S := match r with Ok (_, s) => s | Err _ => d end.

(** Two ranges, and the first one again: the result is the address of the
    second, because the walk stops at the first mapping of the process. *)
Example mapped_again :
  let s1 := state mm0 (map0 65536 8192 mm0) in
  let s2 := state mm0 (map0 131072 8192 s1) in
  (eval (map0 65536 8192) mm0, eval (map0 131072 8192) s1, eval (map0 65536 8192) s2) =
    (Some 16384, Some 36864, Some 36864).
Proof. vm_compute. reflexivity. Qed.

(** The node is released behind the back of the memory manager: its object
    stays in the list of objects. *)
Example unmapping_leaks_node :
  let s1 := state mm0 (map0 65536 8192 mm0) in
  match LX_free_vm_mappings 65536 s1 with
  | Ok (_, s2) => vm_mapped_mem_root s2 = [] /\ (virtAddr ∘ snd) <$> memobjs (mem s2) = [65536; 8192]
      /\ dom (live (world (mem s2))) = {[4096; 12288]}
  | Err _ => False
  end.
Proof. vm_compute. auto. Qed.

Lemma map_new_range_witness :
  exists r s', map0 65536 8192 mm0 = Ok (r, s') /\ mmap_handle s' = 1.
Proof.
  destruct (map_new_range 1 2 no_memobj 65536 8192 mm0 eq_refl eq_refl) as (r & s' & E & _ & _ & Hh & _).
  - lia.
  - intros w n. exists 65536, []. split; [reflexivity|cbn; lia].
  - reflexivity.
  - exists r, s'. split; [exact E|exact Hh].
Defined.

(** Three mappings, two of one range. *)
Definition mm3 : mmaps sim :=
  mk_mmaps false 4 [(8192, mk_mapped 3 2 10 65536 0 12288); (16384, mk_mapped 2 2 10 131072 0 20480);
                    (24576, mk_mapped 1 2 20 65536 0 28672)] sim0.

Lemma free_vm_mappings_removes_witness :
  exists s', LX_free_vm_mappings 65536 mm3 = Ok (0, s') /\
    vm_mapped_mem_root s' = [(16384, mk_mapped 2 2 10 131072 0 20480)].
Proof.
  destruct (free_vm_mappings_removes 65536 mm3 eq_refl) as (s' & E & R).
  - cbn. repeat constructor; set_solver.
  - exists s'. split; [exact E|]. exact (re_root _ _ _ _ _ R).
Defined.
