(* ===== verification/Segments.v ===== *)
(** * Segments of the driver (Dev32/lxsegments.c)

    A segment is a range of memory with one GDT selector for every 65535
    bytes.  The driver's own code and data segments are given by two tables of
    start and end addresses; they are locked at start-up, and the ones of the
    initialisation are unlocked afterwards.  The memory manager, the GDT and
    the locked ranges are the components of those names. *)

From S2P Require Import Prelude DevHlp Gdt Memory Heap MemLock.

Definition MAX_SEGMENT_SIZE : Z := 65535.
Definition sizeof_lx_segment : Z := 28.

Record lx_segment := mk_segment {
  sg_type : Z; sg_size : Z; pVirtual : Z; pPhysical : Z; pMapped : Z;
  numSels : Z; sels : option (Z * list Z)      (* address and selectors *)
}.

(** The device helpers for selectors: address, size, selector and type; and
    the linear address a selector's start has. *)
Class DevSel (W : Type) := {
  DevPhysToGDTSel : Z -> Z -> Z -> Z -> W -> Z * W;
  DevVirtToLin : Z -> Z -> W -> option Z
}.

Record segs (W : Type) := mk_segs { sg_mem : lxm W; sg_gdt : gdt }.
Arguments mk_segs {W}. Arguments sg_mem {W}. Arguments sg_gdt {W}.

Section Segments.
Context {W : Type} `{DevVM W, DevSel W}.
Context (tid pid : Z) (garbage : memobj) (GDTSelectors_PTR : option (list Z)).
Abbreviation G := (M (segs W)).

Definition on_sgmem {A} (m : M (lxm W) A) : G A := fun s =>
  match m (sg_mem s) with
  | Ok (a, x) => Ok (a, mk_segs x (sg_gdt s))
  | Err e => Err e
  end.
Definition on_gdt {A} (m : M gdt A) : G A := fun s =>
  match m (sg_gdt s) with
  | Ok (a, x) => Ok (a, mk_segs (sg_mem s) x)
  | Err e => Err e
  end.
Definition phys_to_sel (a sz sel ty : Z) : G Z := fun s =>
  let '(rc, w) := DevPhysToGDTSel a sz sel ty (world (sg_mem s)) in
  Ok (rc, mk_segs (set_world w (sg_mem s)) (sg_gdt s)).
Definition seg_kmalloc (sz : Z) : G Z := on_sgmem (__LX_malloc_gfp tid pid garbage 0 sz 208).
Definition seg_kfree (p : Z) : G unit := on_sgmem (__LX_free p).

(** The selectors [i..]: whether all were made, the ones allocated so far and
    the linear address of the first. *)
Fixpoint sel_loop (n : nat) (ty sz last mapped : Z) (acc : list Z) : G (bool * list Z * Z) :=
  match n with
  | O => mret (true, acc, mapped)
  | S n =>
      let k := if MAX_SEGMENT_SIZE <? sz then MAX_SEGMENT_SIZE else sz in
      s ← on_gdt (LX_allocGDTSelector GDTSelectors_PTR);
      if s =? 0 then mret (false, acc, mapped) else
      rc ← phys_to_sel last k s ty;
      if negb (rc =? 0) then mret (false, acc ++ [s], mapped) else
      w ← gets (fun x => world (sg_mem x));
      match (if mapped =? 0 then DevVirtToLin s 0 w else Some mapped) with
      | None => mret (false, acc ++ [s], mapped)
      | Some m => sel_loop n ty (u32 (sz - k)) (u32 (last + k)) m (acc ++ [s])
      end
  end.

Fixpoint free_sels (l : list Z) : G unit :=
  match l with
  | [] => mret tt
  | s :: l =>
      (if s =? 0 then mret tt
       else _ ← on_gdt (LX_freeGDTSelector GDTSelectors_PTR s); mret tt) ≫= fun _ => free_sels l
  end.

(** The record is at [segptr] or a new block; after a failure it is freed,
    what was allocated for it is not. *)
Definition LX_alloc_segment (ty sz virt segptr : Z) : G (option (Z * lx_segment)) :=
  seg ← (if segptr =? 0 then seg_kmalloc sizeof_lx_segment else mret segptr);
  if seg =? 0 then mret None
  else if sz =? 0 then mret (Some (seg, mk_segment ty sz 0 0 0 0 None)) else
  v ← (if virt =? 0 then on_sgmem (__LX_malloc tid pid garbage sz 0) else mret virt);
  if v =? 0 then seg_kfree seg ≫= fun _ => mret None else
  pa ← on_sgmem (LX__pa tid pid garbage v);
  let pa := u32 pa in
  if pa =? 0 then seg_kfree seg ≫= fun _ => mret None else
  let n := sz / MAX_SEGMENT_SIZE + 1 in
  a ← seg_kmalloc (2 * n);
  if a =? 0 then seg_kfree seg ≫= fun _ => mret None else
  r ← sel_loop (Z.to_nat n) ty sz pa 0 [];
  if (r.1.1 : bool) then mret (Some (seg, mk_segment ty sz v pa r.2 n (Some (a, r.1.2))))
  else free_sels r.1.2 ≫= fun _ => seg_kfree seg ≫= fun _ => mret None.

(** The array of the selectors is not freed. *)
Definition LX_free_segment (segment : option (Z * lx_segment)) : G Z :=
  match segment with
  | None => mret 0
  | Some (p, sg) =>
      (if numSels sg =? 0 then mret tt
       else match sels sg with
            | None => throw NullDeref
            | Some (_, l) => free_sels (take (Z.to_nat (numSels sg)) l)
            end) ≫= fun _ =>
      (if pVirtual sg =? 0 then mret tt else seg_kfree (pVirtual sg)) ≫= fun _ =>
      seg_kfree p ≫= fun _ => mret 0
  end.
End Segments.

(** ** The segments of the driver *)

Definition VMDHL_WRITE : Z := 8.
Definition VMDHL_LONG : Z := 16.

Record gcc (H L : Type) := mk_gcc {
  resident_cs : Z; resident_ds : Z; swappable_cs : Z; swappable_ds : Z;
  locks : mlock H L
}.
Arguments mk_gcc {H L}. Arguments resident_cs {H L}. Arguments resident_ds {H L}.
Arguments swappable_cs {H L}. Arguments swappable_ds {H L}. Arguments locks {H L}.

Section Gcc.
Context {H L : Type} `{Heap H, DevLock L}.
(** The tables of the segments' starts and ends, each up to a 0. *)
Context (code_segments data_segments : list Z).
Abbreviation C := (M (gcc H L)).

Definition on_locks {A} (m : M (mlock H L) A) : C A := fun s =>
  match m (locks s) with
  | Ok (a, x) => Ok (a, mk_gcc (resident_cs s) (resident_ds s) (swappable_cs s) (swappable_ds s) x)
  | Err e => Err e
  end.

Definition add_resident (is_data : bool) (n : Z) : C unit := modify (fun s =>
  if is_data
  then mk_gcc (resident_cs s) (u32 (resident_ds s + n)) (swappable_cs s) (swappable_ds s) (locks s)
  else mk_gcc (u32 (resident_cs s + n)) (resident_ds s) (swappable_cs s) (swappable_ds s) (locks s)).
Definition add_swappable (is_data : bool) (n : Z) : C unit := modify (fun s =>
  if is_data
  then mk_gcc (resident_cs s) (resident_ds s) (swappable_cs s) (u32 (swappable_ds s + n)) (locks s)
  else mk_gcc (resident_cs s) (resident_ds s) (u32 (swappable_cs s + n)) (swappable_ds s) (locks s)).

Definition __LX_lock_gcc_segment (start end_ : Z) (is_data : bool) : C Z :=
  if 0 <? u32 (end_ - start) then
    add_resident is_data (u32 (end_ - start)) ≫= fun _ =>
    on_locks (LX_lock_mem start (u32 (end_ - start))
      (if is_data then Z.lor VMDHL_LONG VMDHL_WRITE else VMDHL_LONG))
  else mret 0.

Fixpoint __LX_lock_gcc_segments (p : list Z) (is_data : bool) : C Z :=
  match p with
  | [] => throw BadAccess
  | s :: q =>
      if s =? 0 then mret 0 else
      match q with
      | [] => throw BadAccess
      | e :: p =>
          rc ← __LX_lock_gcc_segment s e is_data;
          if rc =? 0 then __LX_lock_gcc_segments p is_data else mret rc
      end
  end.

Definition LX_lock_gcc_segments : C Z :=
  rc ← __LX_lock_gcc_segments code_segments false;
  if rc =? 0 then __LX_lock_gcc_segments data_segments true else mret rc.

Fixpoint __LX_unlock_segment (start : Z) (p : list Z) (is_data : bool) : C Z :=
  match p with
  | [] => throw BadAccess
  | s :: q =>
      if s =? 0 then mret (- ENOENT) else
      match q with
      | [] => throw BadAccess
      | e :: p =>
          if s =? start then
            let sz := u32 (e - s) in
            if 0 <? sz then
              rc ← on_locks (LX_unlock_mem start);
              add_resident is_data (- sz) ≫= fun _ =>
              add_swappable is_data sz ≫= fun _ => mret rc
            else mret (- ENOENT)
          else __LX_unlock_segment start p is_data
      end
  end.

Definition LX_unlock_segment (start : Z) : C Z :=
  rc ← __LX_unlock_segment start code_segments false;
  (if rc =? 0 then mret 0 else __LX_unlock_segment start data_segments true) ≫= fun _ => mret 0.

(** [starts]: _init_data, _init_setup, the seven _initcall segments and
    _init_text, in this order. *)
Fixpoint LX_unlock_init_segments (starts : list Z) : C Z :=
  match starts with
  | [] => mret 0
  | s :: starts => _ ← LX_unlock_segment s; LX_unlock_init_segments starts
  end.
End Gcc.

(** ** Selectors of a segment *)

(** What a selector maps: the physical start and the length. *)
Class DevSelLaws (W : Type) `{DevSel W} := {
  sel_maps : W -> gmap Z (Z * Z);
  DevPhysToGDTSel_maps a sz s ty w w' :
    DevPhysToGDTSel a sz s ty w = (0, w') -> sel_maps w' = <[s := (a, sz)]> (sel_maps w)
}.

Section SegmentFacts.
Context {W : Type} `{DevVMLaws W, DevSelLaws W}.
Context (tid pid : Z) (garbage : memobj) (t : list Z).
Implicit Types (s : segs W).

Abbreviation used_sel s := (in_use t (sg_gdt s)).

Record seg_ok s : Prop := {
  so_gdt : gdt_ok t (sg_gdt s);
  so_lock : memlist_lock (sg_mem s) = false
}.

(** The selectors [l] were free, and are in use as well now. *)
Record took (l : list Z) s s' : Prop := {
  tk_ok : seg_ok s';
  tk_distinct : NoDup l;
  tk_free : Forall (fun x => x ∈ t /\ x <> 0 /\ ~ used_sel s x) l;
  tk_used x : used_sel s' x <-> x ∈ l \/ used_sel s x
}.

Lemma took_nil s s' :
  seg_ok s' -> (forall x, used_sel s' x <-> used_sel s x) -> took [] s s'.
Proof. split; [done|constructor..|]. set_solver. Qed.

Lemma took_cons x l s s1 s' :
  x ∈ t -> x <> 0 -> ~ used_sel s x -> (forall y, used_sel s1 y <-> y = x \/ used_sel s y) ->
  took l s1 s' -> took (x :: l) s s'.
Proof.
  intros Hx H0' Hu Hs1 [T1 T2 T3 T4]. rewrite Forall_forall in T3. split; [done| |constructor|].
  - apply NoDup_cons. split; [|done]. intros Hin. destruct (T3 x Hin) as (_ & _ & Hn). apply Hn, Hs1. by left.
  - auto.
  - apply Forall_forall. intros y Hy. destruct (T3 y Hy) as (? & ? & Hn). split; [done|]. split; [done|].
    intros Hy'. apply Hn, Hs1. by right.
  - intros y. rewrite T4, Hs1. set_solver.
Qed.

(** The pieces selectors map, from the physical address [a] on. *)
Definition maps_from (m : gmap Z (Z * Z)) (a sz : Z) (l : list Z) : Prop :=
  forall (i : nat) (x : Z), l !! i = Some x ->
    m !! x = Some (u32 (a + MAX_SEGMENT_SIZE * i), Z.min MAX_SEGMENT_SIZE (sz - MAX_SEGMENT_SIZE * i)).

Lemma sel_loop_spec (n : nat) ty sz last mapped acc s :
  seg_ok s -> 0 <= sz < 4294967296 -> 0 <= last < 4294967296 ->
  (n = O \/ MAX_SEGMENT_SIZE * (n - 1) <= sz < MAX_SEGMENT_SIZE * n) ->
  exists ok l m s', sel_loop (Some t) n ty sz last mapped acc s = Ok (ok, acc ++ l, m, s') /\
    took l s s' /\ (forall x, x ∉ l -> sel_maps (world (sg_mem s')) !! x = sel_maps (world (sg_mem s)) !! x \/ ok = false) /\
    (ok = true -> length l = n /\ maps_from (sel_maps (world (sg_mem s'))) last sz l).
Proof.
  unfold MAX_SEGMENT_SIZE. revert sz last mapped acc s.
  induction n as [|n IH]; intros sz last mapped acc s Hok Hsz Hlast Hn.
  { exists true, [], mapped, s. cbn. rewrite app_nil_r. split; [done|].
    split; [by apply took_nil|]. split; [auto|]. intros _. split; [done|]. intros i x Hi. by rewrite lookup_nil in Hi. }
  destruct Hn as [?|Hn]; [done|]. cbn [sel_loop]. unfold MAX_SEGMENT_SIZE.
  set (k := if 65535 <? sz then 65535 else sz).
  assert (Hk : 0 <= k <= 65535 /\ k = Z.min 65535 sz) by (unfold k; destruct (65535 <? sz) eqn:E; lia).
  destruct Hok as [Hg Hl]. destruct (alloc_selector t (sg_gdt s) Hg) as (x & g1 & E & Hg1 & Hx).
  unfold on_gdt. rewrite M_bind_unfold, E.
  destruct Hx as [(-> & Hu & _)|(Hxt & Hx0 & Hxf & Hu)].
  { change (0 =? 0) with true. exists false, [], mapped, (mk_segs (sg_mem s) g1).
    rewrite app_nil_r. split; [done|]. split; [by apply took_nil|]. split; [auto|done]. }
  destruct (Z.eqb_spec x 0) as [|_]; [done|]. unfold phys_to_sel. mstep. cbn [sg_mem sg_gdt].
  destruct (DevPhysToGDTSel last k x ty (world (sg_mem s))) as [rc w1] eqn:Ed.
  set (s1 := mk_segs (set_world w1 (sg_mem s)) g1).
  assert (Hs1 : seg_ok s1) by (by split).
  assert (Hone : took [x] s s1).
  { apply (took_cons x [] s s1); [done..|]. by apply took_nil. }
  destruct (Z.eqb_spec rc 0) as [->|_]; cbn [negb]; mstep.
  2: { exists false, [x], mapped, s1. split; [done|]. split; [done|]. split; [auto|done]. }
  change (world (sg_mem s1)) with w1.
  destruct (if mapped =? 0 then DevVirtToLin x 0 w1 else Some mapped) as [m|]; mstep.
  2: { exists false, [x], mapped, s1. split; [done|]. split; [done|]. split; [auto|done]. }
  rewrite (u32_small (sz - k)) by lia.
  destruct (IH (sz - k) (u32 (last + k)) m (acc ++ [x]) s1) as (ok & l & m' & s' & E' & T & Ho & Hm).
  - done.
  - lia.
  - apply u32_range.
  - destruct n; [by left|right]. lia.
  - exists ok, (x :: l), m', s'. rewrite E', <- app_assoc. split; [done|].
    assert (Tc : took (x :: l) s s') by (by apply (took_cons x l s s1)). split; [done|].
    pose proof (DevPhysToGDTSel_maps _ _ _ _ _ _ Ed) as Hmap.
    assert (Hx1 : sel_maps w1 !! x = Some (last, k)) by (rewrite Hmap; apply lookup_insert_eq).
    split.
    + intros y Hy. destruct (Ho y ltac:(set_solver)) as [->|?]; [left|by right].
      cbn. rewrite Hmap. rewrite lookup_insert_ne; [done|set_solver].
    + intros ->. destruct (Hm eq_refl) as [Hlen Hm']. split; [cbn; lia|].
      intros [|i] y Hy; cbn in Hy.
      * injection Hy as <-. destruct (Ho x) as [->|?]; [|cbn; rewrite Hx1|done].
        { pose proof (tk_distinct _ _ _ Tc) as Hd. by apply NoDup_cons in Hd as [? _]. }
        unfold MAX_SEGMENT_SIZE. rewrite Z.mul_0_r, Z.add_0_r, Z.sub_0_r, u32_small by lia. by destruct Hk as [_ ->].
      * assert (Hi : (i < length l)%nat) by (by eapply lookup_lt_Some).
        rewrite (Hm' i y Hy). unfold MAX_SEGMENT_SIZE. assert (k = 65535) as -> by lia. do 2 f_equal; mlia.
Qed.

Lemma free_sels_spec l s :
  seg_ok s -> Forall (fun x => x ∈ t) l ->
  exists s', free_sels (Some t) l s = Ok (tt, s') /\ seg_ok s' /\ sg_mem s' = sg_mem s /\
    forall x, used_sel s' x <-> (x ∈ l -> x = 0) /\ used_sel s x.
Proof.
  intros Hok Hl. revert s Hok. induction Hl as [|x l Hx _ IH]; intros s Hok; cbn [free_sels].
  { exists s. split; [done|]. split; [done|]. split; [done|]. set_solver. }
  rewrite M_bind_unfold. destruct (Z.eqb_spec x 0) as [->|Hx0].
  - destruct (IH s Hok) as (s' & E & Hs & Hm & Hu). exists s'. split; [done|]. split; [done|]. split; [done|].
    intros y. rewrite Hu. set_solver.
  - destruct Hok as [Hg Hlk]. destruct (free_selector t (sg_gdt s) x Hg Hx) as (g1 & E1 & Hg1 & Hu1).
    unfold on_gdt. mstep. rewrite E1. mstep.
    destruct (IH (mk_segs (sg_mem s) g1)) as (s' & E & Hs & Hm & Hu); [by split|].
    exists s'. split; [done|]. split; [done|]. split; [done|].
    intros y. rewrite Hu. cbn [sg_gdt]. rewrite Hu1. set_solver.
Qed.

Lemma sg_free_total p s :
  seg_ok s -> exists s', seg_kfree p s = Ok (tt, s') /\ seg_ok s' /\ sg_gdt s' = sg_gdt s.
Proof.
  intros [Hg Hl]. destruct (lx_free_total p (sg_mem s) Hl) as (m & E & Hm).
  unfold seg_kfree, on_sgmem. rewrite E. eexists. split; [done|]. by split.
Qed.

Lemma sg_malloc_total sz s :
  0 < sz < 4294963200 -> seg_ok s ->
  exists p s', seg_kmalloc tid pid garbage sz s = Ok (p, s') /\ seg_ok s' /\ sg_gdt s' = sg_gdt s.
Proof.
  intros Hsz [Hg Hl]. destruct (kmalloc_total tid pid garbage sz (sg_mem s) Hsz Hl) as (p & m & E & Hm).
  unfold seg_kmalloc, on_sgmem. rewrite E. eexists _, _. split; [done|]. by split.
Qed.

(** The record: at the caller's address or a new block. *)
Lemma record_total segptr s :
  seg_ok s ->
  exists p s', (if segptr =? 0 then seg_kmalloc tid pid garbage sizeof_lx_segment else mret segptr) s
      = Ok (p, s') /\ seg_ok s' /\ sg_gdt s' = sg_gdt s.
Proof.
  intros Hs. destruct (segptr =? 0); [by apply sg_malloc_total|]. exists segptr, s. by split.
Qed.

(** The memory: the caller's or a new block. *)
Lemma memory_total sz virt s :
  0 < sz < 4294963200 -> seg_ok s ->
  exists p s', (if virt =? 0 then on_sgmem (__LX_malloc tid pid garbage sz 0) else mret virt) s
      = Ok (p, s') /\ seg_ok s' /\ sg_gdt s' = sg_gdt s.
Proof.
  intros Hsz [Hg Hl]. destruct (virt =? 0); [|exists virt, s; by split].
  destruct (lx_malloc_total tid pid garbage sz 0 (sg_mem s) Hsz Hl) as (p & m & E & Hm).
  unfold on_sgmem. rewrite E. eexists _, _. split; [done|]. by split.
Qed.

Lemma free_segment_sels p a l sg s :
  seg_ok s -> sels sg = Some (a, l) -> numSels sg = length l -> l <> [] ->
  Forall (fun x => x ∈ t /\ x <> 0) l ->
  exists s', LX_free_segment (Some t) (Some (p, sg)) s = Ok (0, s') /\ seg_ok s' /\
    forall x, used_sel s' x <-> x ∉ l /\ used_sel s x.
Proof.
  intros Hok Hsel Hn Hne Hl. unfold LX_free_segment. rewrite Hn, Hsel, Nat2Z.id.
  rewrite (take_ge l) by done. destruct (Z.eqb_spec (length l) 0); [destruct l; [done|cbn in *; lia]|].
  destruct (free_sels_spec l s Hok) as (s1 & E1 & H1' & _ & Hu).
  { eapply Forall_impl; [exact Hl|]. by intros x [? _]. }
  rewrite M_bind_unfold, E1.
  assert (H2' : exists s2, (if pVirtual sg =? 0 then mret tt else seg_kfree (pVirtual sg)) s1 = Ok (tt, s2)
    /\ seg_ok s2 /\ sg_gdt s2 = sg_gdt s1).
  { destruct (pVirtual sg =? 0); [by exists s1|by apply sg_free_total]. }
  destruct H2' as (s2 & E2 & Hs2 & Hg2). rewrite M_bind_unfold, E2.
  destruct (sg_free_total p s2 Hs2) as (s3 & E3 & Hs3 & Hg3). rewrite M_bind_unfold, E3.
  exists s3. split; [done|]. split; [done|]. intros x. rewrite Hg3, Hg2, Hu. rewrite Forall_forall in Hl.
  split; intros [Hx ?]; (split; [|done]); [|naive_solver]. intros Hin. destruct (Hl x Hin). naive_solver.
Qed.

(** A failure before the selectors frees the record only. *)
Lemma drop_record seg s s0 :
  seg_ok s0 -> sg_gdt s0 = sg_gdt s ->
  exists s', (seg_kfree seg ≫= fun _ => mret None) s0 = Ok (@None (Z * lx_segment), s') /\ seg_ok s' /\
    forall x, used_sel s' x <-> used_sel s x.
Proof.
  intros Hs0 G0. destruct (sg_free_total seg s0 Hs0) as (s' & E & ? & G'). rewrite M_bind_unfold, E.
  exists s'. split; [done|]. split; [done|]. by rewrite G', G0.
Qed.

(** A segment takes one selector for every 65535 bytes, all of them free
    before, and selector [i] maps the [i]-th piece of its physical range; when
    the segment cannot be made the selectors taken so far are free again, and
    freeing it releases exactly its selectors. *)
Theorem segment_selectors ty sz virt segptr s :
  seg_ok s -> 0 < sz < 4294963200 -> (forall v, translatable (W:=W) v) ->
  exists r s', LX_alloc_segment tid pid garbage (Some t) ty sz virt segptr s = Ok (r, s') /\ seg_ok s' /\
    match r with
    | None => forall x, used_sel s' x <-> used_sel s x
    | Some (p, sg) => exists a l, sels sg = Some (a, l) /\ numSels sg = length l /\
        length l = Z.to_nat (sz / MAX_SEGMENT_SIZE + 1) /\ took l s s' /\
        maps_from (sel_maps (world (sg_mem s'))) (pPhysical sg) sz l /\
        exists s2, LX_free_segment (Some t) (Some (p, sg)) s' = Ok (0, s2) /\
          forall x, used_sel s2 x <-> used_sel s x
    end.
Proof.
  intros Hs Hsz Ht. unfold LX_alloc_segment. pose proof Hsz as Hsz'.
  set (n := sz / MAX_SEGMENT_SIZE + 1).
  assert (Hn : 0 < n <= 65537 /\ MAX_SEGMENT_SIZE * (n - 1) <= sz < MAX_SEGMENT_SIZE * n)
    by (unfold n, MAX_SEGMENT_SIZE; lia).
  destruct (record_total segptr s Hs) as (seg & s1 & E1 & Hs1 & G1). rewrite M_bind_unfold, E1.
  destruct (Z.eqb_spec seg 0). { exists None, s1. split; [done|]. by rewrite G1. }
  destruct (Z.eqb_spec sz 0); [lia|].
  destruct (memory_total sz virt s1 Hsz Hs1) as (v & s2 & E2 & Hs2 & G2). rewrite M_bind_unfold, E2.
  destruct (Z.eqb_spec v 0).
  { destruct (drop_record seg s s2 Hs2 ltac:(congruence)) as (s' & E & ? & ?). by exists None, s'. }
  destruct (pa_total tid pid garbage v (sg_mem s2) (Ht v) (so_lock _ Hs2)) as (pa & m3 & E3 & Hm3).
  unfold on_sgmem at 1. rewrite M_bind_unfold, E3. set (s3 := mk_segs m3 (sg_gdt s2)).
  assert (Hs3 : seg_ok s3) by (destruct Hs2; by split). cbn zeta.
  destruct (Z.eqb_spec (u32 pa) 0).
  { destruct (drop_record seg s s3 Hs3 ltac:(cbn; congruence)) as (s' & E & ? & ?). by exists None, s'. }
  destruct (sg_malloc_total (2 * n) s3 ltac:(lia) Hs3) as (a & s4 & E4 & Hs4 & G4). rewrite M_bind_unfold, E4.
  assert (G04 : sg_gdt s4 = sg_gdt s) by (rewrite G4; cbn; congruence).
  destruct (Z.eqb_spec a 0).
  { destruct (drop_record seg s s4 Hs4 G04) as (s' & E & ? & ?). by exists None, s'. }
  destruct (sel_loop_spec (Z.to_nat n) ty sz (u32 pa) 0 [] s4 Hs4) as (ok & l & m & s5 & E5 & T & _ & Hm).
  { lia. } { apply u32_range. } { right. lia. }
  rewrite M_bind_unfold, E5. cbn [fst snd app]. destruct T as [To Td Tf Tu]. rewrite G04 in Tf, Tu.
  assert (Hin : Forall (fun x => x ∈ t /\ x <> 0) l) by (eapply Forall_impl; [exact Tf|]; naive_solver).
  assert (Hback : forall s', (forall x, used_sel s' x <-> x ∉ l /\ used_sel s5 x) ->
      forall x, used_sel s' x <-> used_sel s x).
  { intros s' Hu x. rewrite Hu, Tu. rewrite Forall_forall in Tf. split; [tauto|]. intros Hx. split; [|by right].
    intros Hx'. by destruct (Tf x Hx') as (_ & _ & []). }
  destruct ok.
  - destruct (Hm eq_refl) as [Hlen Hmap].
    eexists (Some _), s5. split; [done|]. split; [done|]. exists a, l. cbn [sels numSels pPhysical].
    split; [done|]. split; [lia|]. split; [done|]. split; [by split|]. split; [done|].
    destruct (free_segment_sels seg a l (mk_segment ty sz v (u32 pa) m n (Some (a, l))) s5 To eq_refl)
      as (s6 & E6 & _ & Hu6); [cbn; lia|intros ->; cbn in *; lia|done|].
    exists s6. split; [exact E6|]. by apply Hback.
  - destruct (free_sels_spec l s5 To) as (s6 & E6 & Hs6 & _ & Hu6).
    { eapply Forall_impl; [exact Hin|]. naive_solver. }
    rewrite M_bind_unfold, E6. destruct (sg_free_total seg s6 Hs6) as (s7 & E7 & Hs7 & G7).
    rewrite M_bind_unfold, E7. exists None, s7. split; [done|]. split; [done|]. apply Hback.
    intros x. rewrite G7, Hu6. rewrite Forall_forall in Hin. split; intros [Hx ?]; (split; [|done]); [|naive_solver].
    intros Hi. destruct (Hin x Hi). naive_solver.
Qed.
End SegmentFacts.

(** ** Accounting for the driver's segments *)

(** Tables are walked two words at a time. *)
Lemma pairs_ind (P : list Z -> Prop) :
  P [] -> (forall x, P [x]) -> (forall x y l, P l -> P (x :: y :: l)) -> forall l, P l.
Proof.
  intros H0 H1 H2. fix IH 1. intros [|x [|y l]]; [exact H0|exact (H1 x)|]. apply H2, IH.
Qed.

Section GccFacts.
Context {H L : Type} `{Heap H, DevLock L}.
Implicit Types (s : gcc H L).

(** The sizes of the segments of a table. *)
Fixpoint table_size (p : list Z) : Z :=
  match p with
  | s :: e :: p => if s =? 0 then 0 else u32 (e - s) + table_size p
  | _ => 0
  end.

Definition resident (is_data : bool) s : Z := if is_data then resident_ds s else resident_cs s.
Definition swappable (is_data : bool) s : Z := if is_data then swappable_ds s else swappable_cs s.
(** Resident and swappable bytes together. *)
Definition total (is_data : bool) s : Z := u32 (resident is_data s + swappable is_data s).

Lemma on_locks_counts {A} (m : M (mlock H L) A) s a s' b :
  on_locks m s = Ok (a, s') -> resident b s' = resident b s /\ swappable b s' = swappable b s.
Proof.
  unfold on_locks. destruct (m (locks s)) as [[x l]|]; [|done]. intros [= <- <-]. by destruct b.
Qed.

Lemma lock_gcc_segment_counts st e d s rc s' b :
  __LX_lock_gcc_segment st e d s = Ok (rc, s') -> swappable b s' = swappable b s /\
  u32 (resident b s') = u32 (resident b s + (if Bool.eqb d b then u32 (e - st) else 0)).
Proof.
  unfold __LX_lock_gcc_segment. pose proof (u32_range (e - st)).
  destruct (0 <? u32 (e - st)) eqn:E; intros Hr.
  - apply M_bind_Ok in Hr as ([] & s1 & Ha & Hr). unfold add_resident, modify in Ha. injection Ha as <-.
    destruct (on_locks_counts _ _ _ _ b Hr) as [-> ->]. destruct d, b; cbn; (split; [done|]); mlia.
  - injection Hr as <- <-. split; [done|]. destruct (Bool.eqb d b); mlia.
Qed.

Lemma lock_gcc_segments_counts p d s s' b :
  __LX_lock_gcc_segments p d s = Ok (0, s') -> swappable b s' = swappable b s /\
  u32 (resident b s') = u32 (resident b s + (if Bool.eqb d b then table_size p else 0)).
Proof.
  revert s. induction p as [|st|st e p IH] using pairs_ind; intros s;
    cbn [__LX_lock_gcc_segments table_size]; [done|..].
  - destruct (st =? 0); [|done]. intros [= <-]. split; [done|]. by destruct (Bool.eqb d b); rewrite Z.add_0_r.
  - destruct (st =? 0); [intros [= <-]; split; [done|]; by destruct (Bool.eqb d b); rewrite Z.add_0_r|].
    intros (rc & s1 & E1 & E2)%M_bind_Ok. destruct (lock_gcc_segment_counts _ _ _ _ _ _ b E1) as [Hsw Hre].
    destruct (Z.eqb_spec rc 0) as [->|Hne]; [|injection E2 as -> _; lia].
    destruct (IH s1 E2) as [-> Hr]. split; [done|]. rewrite Hr. destruct (Bool.eqb d b); mlia.
Qed.

Lemma unlock_segment_total start p d s rc s' b :
  __LX_unlock_segment start p d s = Ok (rc, s') -> total b s' = total b s.
Proof.
  revert s. induction p as [|st|st e p IH] using pairs_ind; intros s;
    cbn [__LX_unlock_segment]; [done|..].
  - destruct (st =? 0); [|done]. by intros [= <- <-].
  - destruct (st =? 0); [by intros [= <- <-]|]. destruct (st =? start); [|apply IH].
    destruct (0 <? u32 (e - st)); [|by intros [= <- <-]].
    intros (r & s1 & E1 & E2)%M_bind_Ok. destruct (on_locks_counts _ _ _ _ b E1) as [R S].
    unfold add_resident, add_swappable in E2. minv. unfold total.
    rewrite <- R, <- S. destruct d, b; cbn; mlia.
Qed.

Lemma unlock_segment_keeps code data start s rc s' b :
  LX_unlock_segment code data start s = Ok (rc, s') -> total b s' = total b s.
Proof.
  unfold LX_unlock_segment. intros (r & s1 & E1 & E2)%M_bind_Ok.
  rewrite <- (unlock_segment_total _ _ _ _ _ _ b E1). apply M_bind_Ok in E2 as (r2 & s2 & E2 & [= _ <-]).
  destruct (r =? 0); [by injection E2 as _ <-|by eapply unlock_segment_total].
Qed.

(** Locking the driver's segments adds their sizes to the resident bytes,
    code and data apart; unlocking the segments of the initialisation moves
    bytes from the resident to the swappable ones, and their sum stays the
    size of the tables. *)
Theorem gcc_accounting code data starts s s1 s2 rc b :
  LX_lock_gcc_segments code data s = Ok (0, s1) ->
  LX_unlock_init_segments code data starts s1 = Ok (rc, s2) ->
  u32 (resident b s1) = u32 (resident b s + table_size (if b then data else code)) /\
  total b s2 = u32 (total b s + table_size (if b then data else code)).
Proof.
  intros Hl Hu.
  assert (H1' : u32 (resident b s1) = u32 (resident b s + table_size (if b then data else code)) /\
    swappable b s1 = swappable b s).
  { unfold LX_lock_gcc_segments in Hl. apply M_bind_Ok in Hl as (r & s0 & E1 & E2).
    destruct (Z.eqb_spec r 0) as [->|]; [|injection E2; lia].
    destruct (lock_gcc_segments_counts _ _ _ _ b E1) as [W1 R1].
    destruct (lock_gcc_segments_counts _ _ _ _ b E2) as [W2 R2].
    split; [|congruence]. rewrite R2. destruct b; cbn in *; mlia. }
  destruct H1' as [R S]. split; [done|]. trans (total b s1).
  - clear -Hu. revert s1 Hu. induction starts as [|st starts IH]; intros s1; cbn; [by intros [= _ <-]|].
    intros (r & s0 & E1 & E2)%M_bind_Ok. rewrite <- (unlock_segment_keeps _ _ _ _ _ _ b E1). by apply IH.
  - unfold total. rewrite S. destruct b; mlia.
Qed.
End GccFacts.

(** ** Concrete runs *)

(** A world of device helpers that also records what the selectors map. *)
#[local] Instance with_sels_DevVM {W} `{DevVM W} : DevVM (W * gmap Z (Z * Z)) := {
  DevVMAlloc := fun f sz ph w => let r := DevVMAlloc f sz ph w.1 in ((r.1, w.2), r.2);
  DevVMFree := fun a w => (DevVMFree a w.1, w.2);
  DevLinToPageList := fun lin n w => DevLinToPageList lin n w.1;
  live := fun w => live w.1
}.
#[local] Instance with_sels_DevVMLaws {W} `{DevVMLaws W} : DevVMLaws (W * gmap Z (Z * Z)).
Proof.
  split; cbn.
  - intros f sz ph w w' a Hs [= <- Hr]. cbn. apply (DevVMAlloc_fresh f sz ph w.1); [done|].
    by destruct (DevVMAlloc _ _ _ _); cbn in *; subst.
  - intros f sz ph w w' a [= <- Hr]. apply (DevVMAlloc_page f sz ph w.1 (DevVMAlloc f sz ph w.1).1).
    by destruct (DevVMAlloc _ _ _ _); cbn in *; subst.
  - intros f sz ph w w' [= <- Hr]. cbn. apply (DevVMAlloc_fail f sz ph w.1).
    by destruct (DevVMAlloc _ _ _ _); cbn in *; subst.
  - intros a w. apply DevVMFree_live.
Qed.
#[local] Instance with_sels_DevSel {W} : DevSel (W * gmap Z (Z * Z)) := {
  DevPhysToGDTSel := fun a sz s ty w => (0, (w.1, <[s := (a, sz)]> w.2));
  DevVirtToLin := fun s o w => Some (s * 65536 + o)
}.
#[local] Instance with_sels_DevSelLaws {W} : DevSelLaws (W * gmap Z (Z * Z)).
Proof. refine {| sel_maps := snd |}. by intros a sz s ty w w' [= <-]. Defined.

(** Memory whose pages are all mapped to themselves, modulo 2 GB. *)
#[local] Instance flat_DevVM : DevVM sim := {
  DevVMAlloc := DevVMAlloc; DevVMFree := DevVMFree;
  DevLinToPageList := fun lin _ _ => Some [lin mod 2147483648]; live := live
}.
#[local] Instance flat_DevVMLaws : @DevVMLaws sim flat_DevVM.
Proof. destruct sim_DevVMLaws. by split. Qed.

Definition gdt4 : list Z := [8; 16; 24; 32].
Definition segs0 : segs (sim * gmap Z (Z * Z)) :=
  mk_segs (mk_lxm false [] 0 0 0 (mk_sim 4096 20 ∅, ∅)) (mk_gdt [0; 1; 0; 0] None).

Lemma segs0_ok : seg_ok gdt4 segs0.
Proof.
  split; [|done]. split; [done|by left| |repeat constructor; lia].
  unfold gdt4. repeat (apply NoDup_cons; split; [set_solver|]). apply NoDup_nil_2.
Qed.

Lemma segment_selectors_witness :
  exists p sg s', LX_alloc_segment 1 2 no_memobj (Some gdt4) 6 70000 0 0 segs0 = Ok (Some (p, sg), s') /\
    exists a, sels sg = Some (a, [8; 24]) /\
    maps_from (sel_maps (world (sg_mem s'))) (pPhysical sg) 70000 [8; 24].
Proof.
  destruct (segment_selectors 1 2 no_memobj gdt4 6 70000 0 0 segs0 segs0_ok) as (r & s' & E & Ho & Hr).
  - lia.
  - intros v w n. exists (v mod 2147483648), []. split; [reflexivity|cbn; lia].
  - assert (Hc : exists a, (p ← r; sels p.2) = Some (a, [8; 24])).
    { assert (E' : (match LX_alloc_segment 1 2 no_memobj (Some gdt4) 6 70000 0 0 segs0 with
        | Ok (Some p, _) => sels p.2 | _ => None end) = Some (98304, [8; 24])) by (vm_compute; reflexivity).
      rewrite E in E'. destruct r as [p|]; [|done]. exists 98304. exact E'. }
    destruct r as [[p sg]|], Hc as [a Ha]; [|done]. exists p, sg, s'. split; [exact E|]. exists a.
    destruct Hr as (a' & l & Hl & _ & _ & _ & Hm & _). cbn in Ha. rewrite Ha in Hl. injection Hl as <- <-. by split.
Defined.

(** The memory and the array of the selectors are still allocated after the
    segment was freed, or could not be made. *)
Example segment_leaks_array :
  match LX_alloc_segment 1 2 no_memobj (Some gdt4) 6 70000 0 0 segs0 with
  | Ok (seg, s1) =>
      match LX_free_segment (Some gdt4) seg s1 with
      | Ok (_, s2) => used (sg_mem s2)
      | Err _ => ∅
      end
  | Err _ => ∅
  end = {[ 98304 := 4 ]}.
Proof. vm_compute. reflexivity. Qed.

Example segment_without_selectors :
  match LX_alloc_segment 1 2 no_memobj (Some [8; 16]) 6 140000 0 0
      (mk_segs (sg_mem segs0) (mk_gdt [0; 0] None)) with
  | Ok (None, s) => (size ∘ snd) <$> memobjs (sg_mem s)
  | _ => []
  end = [6; 140000].
Proof. vm_compute. reflexivity. Qed.

Definition gcc0 : gcc arena (gmap Z (Z * Z)) := mk_gcc 0 0 0 0 (mk_mlock false [] (arena0 8) ∅).
Definition code0 : list Z := [65536; 69632; 131072; 131072; 0].
Definition data0 : list Z := [196608; 204800; 0].

Definition run_state {S A} (d : S) (r : res (A * S)) : S := match r with Ok (_, s) => s | Err _ => d end.
Definition gcc1 := run_state gcc0 (LX_lock_gcc_segments code0 data0 gcc0).
Definition gcc2 := run_state gcc0 (LX_unlock_init_segments code0 data0 [196608] gcc1).

Lemma gcc_accounting_witness : resident true gcc1 = 8192 /\ total true gcc2 = 8192.
Proof.
  assert (E1 : LX_lock_gcc_segments code0 data0 gcc0 = Ok (0, gcc1)) by (vm_compute; reflexivity).
  assert (E2 : LX_unlock_init_segments code0 data0 [196608] gcc1 = Ok (0, gcc2)) by (vm_compute; reflexivity).
  destruct (gcc_accounting code0 data0 [196608] gcc0 gcc1 gcc2 0 true E1 E2) as [_ T].
  split; [vm_compute; reflexivity|]. rewrite T. reflexivity.
Defined.
