(* ===== verification/FileIO.v ===== *)
(** * File access of the kernel itself (os2/os2/oo_fileio.c)

    Scripts and the log are read and written through the security helpers
    while these can be used, and through the daemon otherwise.  The open files
    are kept in a list with the way each was opened.  Both ways are the
    interface [SioDev], with the flag [true] for the security helpers; the
    wrappers of DosCalls are its other half. *)

From S2P Require Import Prelude CString DevHlp Memory Heap DaemonQueue DosApi DaemonCmd DosCalls.

Definition LXSIOH_IS_SEC : Z := 1.
Definition LXSIOH_IS_DOS : Z := 2.

Class SioDev (W : Type) := {
  sio_open : bool -> list Z -> Z -> Z -> M W (Z * Z);          (* code, handle *)
  sio_close : bool -> Z -> M W Z;
  sio_read : bool -> Z -> list Z -> Z -> M W (Z * list Z * Z);   (* code, buffer, bytes *)
  SecHlpChgFilePtr : Z -> Z -> Z -> M W Z;
  SecHlpWrite : Z -> list Z -> Z -> M W Z;
  dmn_log : list Z -> M W Z
}.

Record lx_sio_handle := mk_sio { sio_handle : Z; sio_type : Z }.

Definition sizeof_lx_sio_handle : Z := 16.

Record sio (W H : Type) := mk_files {
  lx_use_sec_helpers : bool;
  lx_sio_handles : list (Z * lx_sio_handle);
  sio_heap : H;
  sio_world : W
}.
Arguments mk_files {W H}. Arguments lx_use_sec_helpers {W H}. Arguments lx_sio_handles {W H}.
Arguments sio_heap {W H}. Arguments sio_world {W H}.

Section FileIO.
Context {W H : Type} `{SioDev W, Heap H}.
Abbreviation F := (M (sio W H)).

Definition on_dev {A} (m : M W A) : F A := fun s =>
  match m (sio_world s) with
  | Ok (a, w) => Ok (a, mk_files (lx_use_sec_helpers s) (lx_sio_handles s) (sio_heap s) w)
  | Err e => Err e
  end.
Definition fi_kmalloc (sz : Z) : F Z := fun s =>
  let '(h, p) := kmalloc sz (sio_heap s) in
  Ok (p, mk_files (lx_use_sec_helpers s) (lx_sio_handles s) h (sio_world s)).
Definition fi_kfree (p : Z) : F unit := modify (fun s =>
  mk_files (lx_use_sec_helpers s) (lx_sio_handles s) (kfree p (sio_heap s)) (sio_world s)).
Definition set_sio (l : list (Z * lx_sio_handle)) : F unit := modify (fun s =>
  mk_files (lx_use_sec_helpers s) l (sio_heap s) (sio_world s)).

Definition has_sio_handle (h : Z) (x : Z * lx_sio_handle) : bool := sio_handle x.2 =? h.

Definition LX_si_get_handle (handle : Z) : F (option (Z * lx_sio_handle)) :=
  l ← gets lx_sio_handles; mret (find_first (has_sio_handle handle) l).

Definition is_sec (x : Z * lx_sio_handle) : bool := sio_type x.2 =? LXSIOH_IS_SEC.

(** The code and, after success, the handle. *)
Definition LX_si_open (sFileName : list Z) (ulOpenFlag ulOpenMode : Z) : F (Z * option Z) :=
  hp ← fi_kmalloc sizeof_lx_sio_handle;
  if hp =? 0 then mret (- ENOMEM, None) else
  sec ← gets lx_use_sec_helpers;
  r ← on_dev (sio_open sec sFileName ulOpenFlag ulOpenMode);
  if r.1 =? 0 then
    l ← gets lx_sio_handles;
    set_sio ((hp, mk_sio r.2 (if (sec : bool) then LXSIOH_IS_SEC else LXSIOH_IS_DOS)) :: l) ≫= fun _ =>
    mret (r.1, Some r.2)
  else fi_kfree hp ≫= fun _ => mret (r.1, None).

Definition LX_si_close (handle : Z) : F Z :=
  hp ← LX_si_get_handle handle;
  match hp with
  | None => mret (- ENOENT)
  | Some (p, o) =>
      rc ← on_dev (sio_close (is_sec (p, o)) handle);
      l ← gets lx_sio_handles;
      set_sio (remove_first (has_sio_handle handle) l) ≫= fun _ =>
      fi_kfree p ≫= fun _ => mret rc
  end.

Definition LX_si_read (handle : Z) (pBuffer : list Z) (pcbBytes : Z) : F (Z * list Z * Z) :=
  hp ← LX_si_get_handle handle;
  match hp with
  | None => mret (- ENOENT, pBuffer, pcbBytes)
  | Some x => on_dev (sio_read (is_sec x) handle pBuffer pcbBytes)
  end.

Definition store (buf : list Z) (i : Z) (c : Z) : F (list Z) :=
  if (0 <=? i) && (i <? length buf) then mret (<[Z.to_nat i := c]> buf) else throw BadAccess.

(** The loop of [LX_si_linein]: [p] is the place of the next character.  The
    result is the code, [b], [nb] and the buffer. *)
Fixpoint linein_loop (fuel : nat) (handle cap b c p nb : Z) (buf : list Z) : F (Z * Z * Z * list Z) :=
  match fuel with
  | O => throw OutOfFuel
  | S fuel =>
      if negb (nb <? cap) then mret (0, b, nb, buf) else
      r ← LX_si_read handle [c] b;
      let rc := r.1.1 in let b := r.2 in
      if negb (rc =? 0) then mret (rc, b, nb, buf)
      else if b <=? 0 then mret (rc, b, nb, buf) else
      match r.1.2 with
      | c :: _ =>
          if c =? 10 then
            buf ← store buf p 0;
            if 0 <? nb then
              match buf !! Z.to_nat (p - 1) with
              | None => throw BadAccess
              | Some d =>
                  if d =? 13 then buf ← store buf (p - 1) 0; mret (rc, b, nb - 1, buf)
                  else mret (rc, b, nb, buf)
              end
            else mret (rc, b, nb, buf)
          else
            buf ← store buf p c;
            linein_loop fuel handle cap b c (p + 1) (nb + b) buf
      | [] => throw UninitRead
      end
  end.

(** Whether the result is the buffer, its contents, and [*pcbBytes]. *)
Definition LX_si_linein (handle cap : Z) (pBuffer : list Z) : F (bool * list Z * Z) :=
  hp ← LX_si_get_handle handle;
  match hp with
  | None => mret (false, pBuffer, cap)
  | Some _ =>
      if length pBuffer <? cap then throw BadAccess else
      r ← linein_loop (S (Z.to_nat cap)) handle cap 1 0 0 0
            (replicate (Z.to_nat cap) 0 ++ drop (Z.to_nat cap) pBuffer);
      let '(rc, b, nb, buf) := (r : Z * Z * Z * list Z) in
      mret (negb (negb (rc =? 0) || ((b =? 0) && (nb =? 0))), buf, nb)
  end.

(** [name] is the name of the log file; a failed open returns its code. *)
Definition LX_write_log (name logData : list Z) (OPEN_ACTIONS OPEN_MODES SEEK_END : Z) : F Z :=
  sec ← gets lx_use_sec_helpers;
  if (sec : bool) then
    r ← on_dev (sio_open true name OPEN_ACTIONS OPEN_MODES);
    if r.2 =? 0 then mret r.1 else
    rc ← on_dev (SecHlpChgFilePtr r.2 0 SEEK_END);
    if rc =? 0 then
      rc ← on_dev (SecHlpWrite r.2 logData (length logData));
      _ ← on_dev (sio_close true r.2); mret rc
    else mret rc
  else on_dev (dmn_log logData).
End FileIO.

(** ** Lines *)

(** A line of at most [m] characters: the characters, whether a line feed ended
    it, and what is left to read. *)
Fixpoint cut_line (m : nat) (l : list Z) : list Z * bool * list Z :=
  match m, l with
  | O, _ => ([], false, l)
  | S m, [] => ([], false, [])
  | S m, c :: l =>
      if c =? 10 then ([], true, l)
      else let r := cut_line m l in (c :: r.1.1, r.1.2, r.2)
  end.

(** A carriage return before the line feed is dropped. *)
Definition chop (nl : bool) (raw : list Z) : list Z :=
  if nl && bool_decide (last raw = Some 13) then removelast raw else raw.

Lemma cut_line_shorter m l : (0 < m)%nat -> l <> [] -> (length (cut_line m l).2 < length l)%nat.
Proof.
  intros Hm. destruct m as [|m], l as [|c l]; [lia..|done|]. intros _. cbn. destruct (c =? 10); [cbn; lia|].
  cbn. clear Hm. revert l. induction m as [|m IH]; intros [|d l]; cbn; [lia..|]. destruct (d =? 10); [cbn; lia|].
  specialize (IH l). cbn. lia.
Qed.

Lemma cut_line_length m l : (length (cut_line m l).1.1 <= m)%nat.
Proof. revert l. induction m as [|m IH]; intros [|c l]; cbn; [lia..|]. destruct (c =? 10); cbn; [lia|]. specialize (IH l). lia. Qed.

(** Bytes come one at a time from an open file; [unread] is what is left. *)
Class SioLaws (W : Type) `{SioDev W} := {
  unread : bool -> W -> Z -> option (list Z);
  read_byte k h c w l :
    unread k w h = Some l ->
    exists w', sio_read k h [c] 1 w =
        Ok ((0, [match l with d :: _ => d | [] => c end], match l with _ :: _ => 1 | [] => 0 end), w') /\
      unread k w' h = Some (tl l)
}.

Section FileFacts.
Context {W H : Type} `{SioLaws W, Heap H}.
Implicit Types (s : sio W H).

(** The file [h], opened as [x], has [l] to read. *)
Record reading (h : Z) (x : Z * lx_sio_handle) (l : list Z) s : Prop := {
  rd_handle : find_first (has_sio_handle h) (lx_sio_handles s) = Some x;
  rd_unread : unread (is_sec x) (sio_world s) h = Some l
}.

(** The state after reading from the file: only the world has changed. *)
Definition same_files s s' : Prop :=
  lx_use_sec_helpers s' = lx_use_sec_helpers s /\ lx_sio_handles s' = lx_sio_handles s /\
  sio_heap s' = sio_heap s.

Lemma si_read_byte h x c l s :
  reading h x l s ->
  exists s', LX_si_read h [c] 1 s =
      Ok ((0, [match l with d :: _ => d | [] => c end], match l with _ :: _ => 1 | [] => 0 end), s') /\
    reading h x (tl l) s' /\ same_files s s'.
Proof.
  intros [Hh Hu]. destruct (read_byte _ h c _ l Hu) as (w' & E & Hu').
  unfold LX_si_read, LX_si_get_handle, on_dev. mstep. rewrite Hh, E. mstep.
  eexists. split; [done|]. split; [by split|done].
Qed.

Lemma same_files_trans s1 s2 s3 : same_files s1 s2 -> same_files s2 s3 -> same_files s1 s3.
Proof. unfold same_files. intuition congruence. Qed.

Lemma store_ok buf i c s : 0 <= i < length buf -> store buf i c s = Ok (<[Z.to_nat i := c]> buf, s).
Proof. intros Hi. unfold store. destruct (Z.leb_spec 0 i), (Z.ltb_spec i (length buf)); [done|lia..]. Qed.

(** The buffer of a line: its characters, zeros up to [cap], the rest. *)
Definition line_buffer (cap : nat) (line tail : list Z) : list Z :=
  line ++ replicate (cap - length line) 0 ++ tail.

Lemma line_buffer_store pre m c tail :
  <[length pre := c]> (line_buffer (length pre + S m) pre tail) =
  line_buffer (length pre + S m) (pre ++ [c]) tail.
Proof.
  unfold line_buffer. rewrite length_app. cbn. replace (length pre + S m - length pre)%nat with (S m) by lia.
  replace (length pre + S m - (length pre + 1))%nat with m by lia.
  cbn [replicate]. rewrite insert_app_r_alt by lia. rewrite Nat.sub_diag. cbn. by rewrite <- app_assoc.
Qed.

Lemma line_buffer_zero pre m tail :
  <[length pre := 0]> (line_buffer (length pre + S m) pre tail) = line_buffer (length pre + S m) pre tail.
Proof.
  rewrite line_buffer_store. unfold line_buffer. rewrite length_app. cbn.
  replace (length pre + S m - length pre)%nat with (S m) by lia.
  replace (length pre + S m - (length pre + 1))%nat with m by lia. by rewrite <- app_assoc.
Qed.

Lemma line_buffer_length cap pre tail : (length pre <= cap)%nat ->
  length (line_buffer cap pre tail) = (cap + length tail)%nat.
Proof. intros Hp. unfold line_buffer. rewrite !length_app, length_replicate. lia. Qed.

(** Dropping the carriage return before the line feed. *)
Lemma strip_cr pre m tail (b : Z) s :
  (if 0 <? length pre then
     match line_buffer (length pre + S m) pre tail !! Z.to_nat (length pre - 1) with
     | None => throw BadAccess
     | Some d =>
         if d =? 13
         then buf ← store (line_buffer (length pre + S m) pre tail) (length pre - 1) 0;
              mret (0, b, length pre - 1, buf)
         else mret (0, b, Z.of_nat (length pre), line_buffer (length pre + S m) pre tail)
     end
   else mret (0, b, Z.of_nat (length pre), line_buffer (length pre + S m) pre tail)) s =
  Ok ((0, b, Z.of_nat (length (chop true pre)), line_buffer (length pre + S m) (chop true pre) tail), s).
Proof.
  destruct pre as [|d pre _] using rev_ind; [done|].
  unfold chop. rewrite last_snoc. rewrite length_app. cbn [length].
  destruct (Z.ltb_spec 0 (length pre + 1)%nat); [|lia].
  replace (Z.to_nat ((length pre + 1)%nat - 1)) with (length pre) by lia.
  unfold line_buffer at 1. rewrite <- app_assoc, lookup_app_r, Nat.sub_diag by lia. cbn [app lookup list_lookup].
  destruct (Z.eqb_spec d 13) as [->|Hd].
  - cbn [andb]. rewrite bool_decide_true by done. rewrite removelast_last.
    rewrite M_bind_unfold, store_ok.
    2: { rewrite line_buffer_length; [|rewrite length_app; cbn; lia]. lia. }
    replace ((length pre + 1)%nat - 1) with (Z.of_nat (length pre)) by lia. rewrite Nat2Z.id.
    replace (length pre + 1 + S m)%nat with (length pre + S (S m))%nat by lia.
    by rewrite <- (line_buffer_store pre (S m) 13), list_insert_insert_eq, line_buffer_zero.
  - cbn [andb]. rewrite bool_decide_false by congruence. rewrite length_app. done.
Qed.

Lemma linein_loop_spec (fuel : nat) h x pre m tail c l s :
  (m < fuel)%nat -> reading h x l s ->
  let cap := (length pre + m)%nat in
  let r := cut_line m l in
  let out := chop r.1.2 (pre ++ r.1.1) in
  exists s', linein_loop fuel h cap 1 c (length pre) (length pre) (line_buffer cap pre tail) s =
      Ok ((0, (if r.1.2 || bool_decide (length r.1.1 = m) then 1 else 0),
           Z.of_nat (length out), line_buffer cap out tail), s') /\
    reading h x r.2 s' /\ same_files s s'.
Proof.
  cbn zeta. revert pre m c l s. induction fuel as [|fuel IH]; intros pre m c l s Hf Hr; [lia|].
  cbn [linein_loop]. destruct m as [|m].
  { rewrite Nat.add_0_r, Z.ltb_irrefl. cbn. rewrite app_nil_r. exists s. split; [done|]. split; [|done]. by destruct l. }
  destruct (Z.ltb_spec (length pre) (length pre + S m)%nat); [|lia]. cbn [negb].
  destruct (si_read_byte h x c l s Hr) as (s1 & E1 & Hr1 & Hs1). rewrite M_bind_unfold, E1.
  cbn [fst snd]. destruct l as [|d l].
  { exists s1. cbn. rewrite app_nil_r. unfold chop. cbn. split; [done|]. by split. }
  change (negb (0 =? 0)) with false. change (1 <=? 0) with false. cbn beta iota. cbn [tl] in Hr1.
  cbn [cut_line]. destruct (d =? 10).
  - cbn [fst snd orb app]. rewrite app_nil_r. rewrite M_bind_unfold, store_ok.
    2: { rewrite line_buffer_length; lia. }
    rewrite Nat2Z.id, line_buffer_zero. exists s1. split; [apply strip_cr|]. by split.
  - rewrite M_bind_unfold, store_ok.
    2: { rewrite line_buffer_length; lia. }
    rewrite Nat2Z.id, line_buffer_store.
    destruct (IH (pre ++ [d]) m d l s1 ltac:(lia) Hr1) as (s2 & E2 & Hr2 & Hs2).
    rewrite length_app, <- app_assoc in E2. cbn [length app] in E2.
    replace (length pre + 1 + m)%nat with (length pre + S m)%nat in E2 by lia.
    replace (Z.of_nat (length pre + 1)) with (length pre + 1) in E2 by lia.
    exists s2. rewrite E2. cbn [fst snd length]. split.
    + do 5 f_equal. case_bool_decide; case_bool_decide; (done || lia).
    + split; [done|]. by eapply same_files_trans.
Qed.

Lemma linein_runs h x (cap : nat) l buf s :
  (0 < cap <= length buf)%nat -> reading h x l s ->
  let r := cut_line cap l in
  let line := chop r.1.2 r.1.1 in
  exists s', LX_si_linein h cap buf s =
      Ok ((bool_decide (l <> []), line_buffer cap line (drop cap buf), Z.of_nat (length line)), s') /\
    reading h x r.2 s' /\ same_files s s'.
Proof.
  intros Hcap Hr. cbn zeta. unfold LX_si_linein, LX_si_get_handle. mstep. rewrite (rd_handle _ _ _ _ Hr).
  destruct (Z.ltb_spec (length buf) cap); [lia|]. rewrite Nat2Z.id.
  destruct (linein_loop_spec (S cap) h x [] cap (drop cap buf) 0 l s ltac:(lia) Hr) as (s' & E & Hr' & Hs).
  cbn [length app] in E, Hr'. unfold line_buffer at 1 in E. cbn [app length] in E.
  rewrite Nat.sub_0_r in E. rewrite Nat.add_0_l in E. change (Z.of_nat 0) with 0 in E.
  rewrite M_bind_unfold, E. exists s'. split; [|by split]. clear E. unfold mret, M_ret. do 4 f_equal.
  change (0 =? 0) with true. cbn [negb orb].
  destruct cap as [|cap]; [lia|]. destruct l as [|d l]; [by cbn; rewrite !bool_decide_false by (done || lia)|].
  rewrite (bool_decide_true (d :: l <> [])) by done.
  cbn [cut_line]. destruct (d =? 10); [done|]. cbn [fst snd length].
  assert (Hn : Z.of_nat (length (chop (cut_line cap l).1.2 (d :: (cut_line cap l).1.1))) =? 0 = false \/
    (cut_line cap l).1.2 = true).
  { destruct (cut_line cap l).1.2; [by right|left]. unfold chop. cbn. done. }
  destruct Hn as [-> | ->]; [by rewrite andb_false_r|]. by cbn.
Qed.

(** Reading a line: at the end of the file there is none; otherwise the
    buffer holds the characters up to the next line feed, without it and
    without the carriage return before it, or the next [cap] characters when
    the line is longer, then zeros; the file is read exactly that far, and
    the list of files and the heap are as before. *)
Theorem linein_reads_line h x (cap : nat) l buf s :
  (0 < cap <= length buf)%nat -> reading h x l s ->
  let r := cut_line cap l in
  let line := chop r.1.2 r.1.1 in
  exists s', LX_si_linein h cap buf s =
      Ok ((bool_decide (l <> []), line_buffer cap line (drop cap buf), Z.of_nat (length line)), s') /\
    reading h x r.2 s' /\ same_files s s'.
Proof. apply linein_runs. Qed.
End FileFacts.

(** ** Concrete runs *)

(** The daemon's calls on the disk of DosApi. *)
#[export] Instance disk_SioDev : SioDev disk := {
  sio_open := fun _ n fl mode d => let r := DosOpen n (0, 0) 0 0 fl mode d in Ok ((r.1.1, r.1.2.1), r.2);
  sio_close := fun _ h d => Ok (DosClose h d);
  sio_read := fun _ h buf cb d => let r := DosRead h buf cb 0 d in Ok ((r.1.1, r.1.2.1, r.1.2.2), r.2);
  SecHlpChgFilePtr := fun h ib m d => let r := DosSetFilePtr h ib m 0 d in Ok (r.1.1, r.2);
  SecHlpWrite := fun h data n d => let r := DosWrite h data 0 d in Ok (r.1.1, r.2);
  dmn_log := fun _ d => Ok (0, d)
}.

#[export] Instance disk_SioLaws : SioLaws disk.
Proof.
  refine {| unread := fun _ d h => '(n, pos) ← handles_open d !! h; Some (drop pos (default [] (files d !! n))) |}.
  intros k h c w l. cbn. destruct (handles_open w !! h) as [[n pos]|]; [|done]. cbn. intros [= <-].
  change (Z.to_nat 1) with 1%nat. destruct (drop pos (default [] (files w !! n))) as [|d l] eqn:E.
  - eexists. split; [done|]. cbn. rewrite lookup_insert_eq. cbn. by rewrite Nat.add_0_r, E.
  - eexists. split; [done|]. cbn. rewrite lookup_insert_eq. cbn.
    change (length (take 0 l)) with O. by rewrite <- drop_drop, E.
Defined.

(** "ab", CR, LF, LF, "abcd" with a buffer of four. *)
Definition text_disk : disk := set_files {[ [116] := [97; 98; 13; 10; 10; 97; 98; 99; 100] ]} disk0.
Definition sio0 : sio disk arena := mk_files false [] (arena0 4) text_disk.
Definition sio1 : sio disk arena :=
  match LX_si_open [116] 1 64 sio0 with Ok (_, s) => s | Err _ => sio0 end.

Lemma linein_reads_line_witness :
  exists s', LX_si_linein 1 4 [9; 9; 9; 9; 9] sio1 = Ok ((true, [97; 98; 0; 0; 9], 2), s') /\
    reading 1 (4096, mk_sio 1 2) [10; 97; 98; 99; 100] s'.
Proof.
  destruct (linein_reads_line 1 (4096, mk_sio 1 2) 4 [97; 98; 13; 10; 10; 97; 98; 99; 100] [9; 9; 9; 9; 9] sio1)
    as (s' & E & Hr & _).
  - cbn. lia.
  - split; vm_compute; reflexivity.
  - exists s'. split; [exact E|exact Hr].
Defined.

Example three_lines :
  eval (a ← LX_si_linein 1 4 [9; 9; 9; 9]; b ← LX_si_linein 1 4 [9; 9; 9; 9];
        c ← LX_si_linein 1 4 [9; 9; 9; 9]; d ← LX_si_linein 1 4 [9; 9; 9; 9];
        e ← LX_si_close 1; f ← LX_si_close 1; mret [a.2; b.2; c.2; d.2; e; f]) sio1 =
    Some [2; 0; 4; 0; 0; - ENOENT].
Proof. vm_compute. reflexivity. Qed.
