(* ===== verification/Script.v ===== *)
(** * Start scripts (os2/os2/oo_script.c)

    A script is read line by line; a line sets module options, the kernel's
    command line, or starts the kernel.  A line is the buffer it was read into,
    zeros after the text included: the parser of the options walks past the
    end of the text. *)

From S2P Require Import Prelude CString DevHlp Memory Heap DaemonQueue DosApi DaemonCmd DosCalls FileIO.

Definition MODULE_NAME_LEN : nat := 60.
Definition COMMAND_LINE_SIZE : nat := 256.
Definition MAX_SCR_LINE_LEN : Z := 1000.
Definition sizeof_lx_module_option : Z := 232.

Record lx_module_option := mk_option {
  module_name : list Z; option_name : list Z; option_val : list Z
}.

(** What the kernel prints. *)
Inductive message :=
  | Executing (name : list Z)
  | Finished (name : list Z)
  | ErrorInOptions (op : list Z).

Record script (W H : Type) := mk_script {
  lx_options_list : list (Z * lx_module_option);
  saved_command_line : list Z;
  kernel_boot_started : bool;
  kernel_threads : nat;            (* kernel starters created *)
  lx_root_path : list Z;
  printed : list message;          (* the last first *)
  fs : sio W H
}.
Arguments mk_script {W H}. Arguments lx_options_list {W H}. Arguments saved_command_line {W H}.
Arguments kernel_boot_started {W H}. Arguments kernel_threads {W H}. Arguments lx_root_path {W H}.
Arguments printed {W H}. Arguments fs {W H}.

Section Script.
Context {W H : Type} `{SioDev W, Heap H}.
(** The driver's directory and the environment (LX_DOSSCANENV). *)
Context (lx_drv_homepath : list Z) (LXAPIROOT : option (list Z)).
Abbreviation S := (M (script W H)).

Definition set_options (l : list (Z * lx_module_option)) : S unit := modify (fun s =>
  mk_script l (saved_command_line s) (kernel_boot_started s) (kernel_threads s) (lx_root_path s)
    (printed s) (fs s)).
Definition set_cmdline (c : list Z) : S unit := modify (fun s =>
  mk_script (lx_options_list s) c (kernel_boot_started s) (kernel_threads s) (lx_root_path s)
    (printed s) (fs s)).
Definition set_root_path (p : list Z) : S unit := modify (fun s =>
  mk_script (lx_options_list s) (saved_command_line s) (kernel_boot_started s) (kernel_threads s) p
    (printed s) (fs s)).
Definition LXA_CreateThread : S unit := modify (fun s =>
  mk_script (lx_options_list s) (saved_command_line s) (kernel_boot_started s)
    (Datatypes.S (kernel_threads s)) (lx_root_path s) (printed s) (fs s)).
Definition printk (m : message) : S unit := modify (fun s =>
  mk_script (lx_options_list s) (saved_command_line s) (kernel_boot_started s) (kernel_threads s)
    (lx_root_path s) (m :: printed s) (fs s)).
Definition on_fs {A} (m : M (sio W H) A) : S A := fun s =>
  match m (fs s) with
  | Ok (a, f) => Ok (a, mk_script (lx_options_list s) (saved_command_line s) (kernel_boot_started s)
      (kernel_threads s) (lx_root_path s) (printed s) f)
  | Err e => Err e
  end.

(** ** Options of modules *)

Definition same_option (o : lx_module_option) (x : Z * lx_module_option) : bool :=
  bool_decide (module_name o = module_name x.2) && bool_decide (option_name o = option_name x.2).

(** The walk over the list does not end at a match, and a match frees [pop]. *)
Fixpoint replace_loop (pop : Z) (o : lx_module_option) (freed : bool)
    (l : list (Z * lx_module_option)) : S (list (Z * lx_module_option) * bool) :=
  match l with
  | [] => mret ([], freed)
  | x :: l =>
      if freed then throw UseAfterFree
      else if same_option o x then
        on_fs (fi_kfree pop) ≫= fun _ =>
        r ← replace_loop pop o true l;
        mret ((x.1, mk_option (module_name x.2) (option_name x.2) (option_val o)) :: r.1, r.2)
      else r ← replace_loop pop o false l; mret (x :: r.1, r.2)
  end.

Definition LX_add_or_replace_option (pop : Z) (o : lx_module_option) : S unit :=
  l ← gets lx_options_list;
  r ← replace_loop pop o false l;
  set_options r.1 ≫= fun _ =>
  if (r.2 : bool) then throw UseAfterFree else set_options ((pop, o) :: r.1).

(** Characters up to the first that stops; running off the buffer faults. *)
Fixpoint span (stop : Z -> bool) (l : list Z) : option (list Z * list Z) :=
  match l with
  | [] => None
  | c :: l' => if stop c then Some ([], l) else '(w, r) ← span stop l'; Some (c :: w, r)
  end.

(** The word is stored into an array of [n] characters. *)
Definition scan_word (n : nat) (stop : Z -> bool) (l : list Z) : S (list Z * list Z) :=
  match span stop l with
  | Some (w, r) => if (n <=? length w)%nat then throw BadAccess else mret (w, r)
  | None => throw BadAccess
  end.

Definition stop_word (c : Z) : bool := (c =? 0) || (c =? 32).
Definition stop_name (c : Z) : bool := (c =? 0) || (c =? 61) || (c =? 32).

Definition peek (l : list Z) : S Z := match l with c :: _ => mret c | [] => throw BadAccess end.

(** [false]: the line is wrong and [mod_name] was freed. *)
Fixpoint options_loop (fuel : nat) (op mod_name : list Z) (mod_ptr : Z) (pIn : list Z) : S bool :=
  match fuel with
  | O => throw OutOfFuel
  | Datatypes.S fuel =>
      c ← peek pIn;
      if c =? 0 then mret true else
      pop ← on_fs (fi_kmalloc sizeof_lx_module_option);
      if pop =? 0 then mret true else
      r ← scan_word 64 stop_name pIn;
      c ← peek r.2;
      if c =? 0 then
        printk (ErrorInOptions op) ≫= fun _ =>
        on_fs (fi_kfree pop) ≫= fun _ => on_fs (fi_kfree mod_ptr) ≫= fun _ => mret false
      else
        v ← scan_word 100 stop_word (tl r.2);
        LX_add_or_replace_option pop (mk_option mod_name r.1 v.1) ≫= fun _ =>
        options_loop fuel op mod_name mod_ptr (tl v.2)
  end.

(** [None] is a null pointer. *)
Definition LX_set_option_from_string (op : option (list Z)) : S unit :=
  mod_ptr ← on_fs (fi_kmalloc MODULE_NAME_LEN);
  if mod_ptr =? 0 then mret tt else
  match op with
  | None => throw NullDeref
  | Some op =>
      r ← scan_word MODULE_NAME_LEN stop_word op;
      c ← peek r.2;
      ok ← (if c =? 0 then mret true
            else options_loop (Datatypes.S (length op)) op r.1 mod_ptr (tl r.2));
      if (ok : bool) then on_fs (fi_kfree mod_ptr) else mret tt
  end.

Definition LX_vmlinuz (cmd : option (list Z)) : S unit :=
  match cmd with
  | None => throw NullDeref
  | Some c => set_cmdline (strncpy_field COMMAND_LINE_SIZE (before_nul c))
  end.

Definition LX_init (cmd : option (list Z)) : S unit :=
  b ← gets kernel_boot_started; if (b : bool) then mret tt else LXA_CreateThread.

(** "options ", "vmlinuz ", "init ". *)
Definition lx_scr_commands : list (list Z * (option (list Z) -> S unit)) := [
  ([111; 112; 116; 105; 111; 110; 115; 32], LX_set_option_from_string);
  ([118; 109; 108; 105; 110; 117; 122; 32], LX_vmlinuz);
  ([105; 110; 105; 116; 32], LX_init)].

(** ** Lines and scripts *)

Fixpoint run_script_command (cmds : list (list Z * (option (list Z) -> S unit))) (line : list Z) : S unit :=
  match cmds with
  | [] => mret tt
  | (name, fn) :: cmds =>
      let n := (length name - 1)%nat in
      if bool_decide (take n line = take n name) then
        match line !! n with
        | None => throw BadAccess
        | Some c =>
            if c =? 32 then fn (Some (drop (Datatypes.S n) line))
            else if c =? 0 then fn None
            else run_script_command cmds line
        end
      else run_script_command cmds line
  end.

Definition process_line (line : list Z) : S unit :=
  t ← get_str line;
  let tmp := length t in
  let cr := match last t with Some c => (c =? 13) || (c =? 10) | None => false end in
  let tmp := if cr then (tmp - 1)%nat else tmp in
  let line := if cr then <[tmp := 0]> line else line in
  if (tmp =? 0)%nat then mret tt
  else if bool_decide (head line = Some 35) then mret tt
  else run_script_command lx_scr_commands line.

Fixpoint script_lines (fuel : nat) (f : Z) (line : list Z) : S unit :=
  match fuel with
  | O => throw OutOfFuel
  | Datatypes.S fuel =>
      r ← on_fs (LX_si_linein f MAX_SCR_LINE_LEN line);
      let '(more, line, _) := (r : bool * list Z * Z) in
      if more then process_line line ≫= fun _ => script_lines fuel f line else mret tt
  end.

Definition LX_build_full_script_name (scrname : list Z) : S (Z * list Z) :=
  p ← on_fs (fi_kmalloc LX_MAXPATH);
  if p =? 0 then mret (0, []) else
  root ← gets lx_root_path;
  (if (length root =? 0)%nat then
     let root := match LXAPIROOT with Some (c :: v) => c :: v | _ => lx_drv_homepath end in
     match last root with
     | None => throw BadAccess
     | Some c => set_root_path (if c =? 92 then root else root ++ [92])
     end
   else mret tt) ≫= fun _ =>
  root ← gets lx_root_path;
  if (LX_MAXPATH <=? length (root ++ scrname))%nat then throw BadAccess
  else mret (p, root ++ scrname).

(** [fuel] bounds the lines; [garbage] is what the line buffer holds. *)
Definition LX_process_script (fuel : nat) (scrname garbage : list Z) (flag mode : Z) : S unit :=
  n ← LX_build_full_script_name scrname;
  line ← on_fs (fi_kmalloc MAX_SCR_LINE_LEN);
  (if (n.1 =? 0) || (line =? 0) then mret tt else
   r ← on_fs (LX_si_open n.2 flag mode);
   match r.2 with
   | Some f =>
       if r.1 =? 0 then
         printk (Executing n.2) ≫= fun _ =>
         script_lines fuel f garbage ≫= fun _ =>
         _ ← on_fs (LX_si_close f);
         printk (Finished n.2)
       else mret tt
   | None => mret tt
   end) ≫= fun _ =>
  (if line =? 0 then mret tt else on_fs (fi_kfree line)) ≫= fun _ =>
  (if n.1 =? 0 then mret tt else on_fs (fi_kfree n.1)).
End Script.

(** ** A script is its lines *)

(** The lines of the text [l]; every line is at least one byte of it. *)
Fixpoint lines_of (fuel : nat) (l : list Z) : list (list Z) :=
  match fuel, l with
  | O, _ | _, [] => []
  | Datatypes.S fuel, _ =>
      let r := cut_line 1000 l in chop r.1.2 r.1.1 :: lines_of fuel r.2
  end.

Lemma lines_of_more n m t :
  (length t <= n)%nat -> (length t <= m)%nat -> lines_of n t = lines_of m t.
Proof.
  revert m t. induction n as [|n IH]; intros m t Hn Hm.
  { destruct t as [|d t]; [by destruct m|cbn [length] in Hn; lia]. }
  destruct t as [|d t]; [by destruct m|]. destruct m as [|m]; [cbn [length] in Hm; lia|].
  cbn [lines_of]. f_equal. pose proof (cut_line_shorter 1000 (d :: t) ltac:(lia) ltac:(done)) as Hc.
  apply IH; lia.
Qed.

Section ScriptFacts.
Context {W H : Type} `{SioLaws W, Heap H}.
Implicit Types (s : script W H).

(** Everything but the position in the files. *)
Definition same_script s s' : Prop :=
  lx_options_list s' = lx_options_list s /\ saved_command_line s' = saved_command_line s /\
  kernel_boot_started s' = kernel_boot_started s /\ kernel_threads s' = kernel_threads s /\
  lx_root_path s' = lx_root_path s /\ printed s' = printed s /\ same_files (fs s) (fs s').

(** The open files and the system below. *)
Definition open_files (s : script W H) := (sio_world (fs s), lx_sio_handles (fs s)).

Lemma keeps_kmalloc sz : keeps open_files (on_fs (fi_kmalloc sz) : M (script W H) Z).
Proof.
  intros s b s'. unfold on_fs, fi_kmalloc. destruct (kmalloc sz (sio_heap (fs s))). by intros [= _ <-].
Qed.
Lemma keeps_kfree p : keeps open_files (on_fs (fi_kfree p) : M (script W H) unit).
Proof. by intros s b s' [= _ <-]. Qed.
End ScriptFacts.

#[export] Hint Resolve keeps_kmalloc keeps_kfree : keeps.

Section KeepsFiles.
Context {W H : Type} `{SioDev W, Heap H}.

Lemma keeps_peek l : keeps open_files (peek l : M (script W H) Z).
Proof. unfold peek. keeps. Qed.
Lemma keeps_scan_word n stop l : keeps open_files (scan_word n stop l : M (script W H) _).
Proof. unfold scan_word. keeps. Qed.
Lemma keeps_line_str l : keeps open_files (get_str l : M (script W H) _).
Proof. intros s a s'. unfold get_str. destruct (array_str l); by intros [= _ <-]. Qed.
Lemma keeps_replace_loop pop o freed l : keeps open_files (replace_loop pop o freed l : M (script W H) _).
Proof. revert freed. induction l as [|x l IH]; intros freed; cbn [replace_loop]; keeps; apply IH. Qed.
#[local] Hint Resolve keeps_peek keeps_scan_word keeps_line_str keeps_replace_loop : keeps.

Lemma keeps_add_option pop o : keeps open_files (LX_add_or_replace_option pop o : M (script W H) unit).
Proof. unfold LX_add_or_replace_option, set_options. keeps. Qed.
#[local] Hint Resolve keeps_add_option : keeps.

Lemma keeps_options_loop fuel op md p l : keeps open_files (options_loop fuel op md p l : M (script W H) bool).
Proof. revert l. induction fuel as [|fuel IH]; intros l; cbn [options_loop]; unfold printk; keeps; apply IH. Qed.
#[local] Hint Resolve keeps_options_loop : keeps.

Lemma keeps_process_line line : keeps open_files (process_line line : M (script W H) unit).
Proof.
  unfold process_line. keeps. cbn [lx_scr_commands run_script_command].
  unfold LX_set_option_from_string, LX_vmlinuz, LX_init, set_cmdline, LXA_CreateThread. keeps.
Qed.
End KeepsFiles.

Section Scripts.
Context {W H : Type} `{SioLaws W, Heap H}.
Implicit Types (s : script W H).

(** The lines are processed in order, each read just before it. *)
Inductive runs_lines : list (list Z) -> script W H -> script W H -> Prop :=
  | runs_nil s s' : same_script s s' -> runs_lines [] s s'
  | runs_cons line lines s s1 s2 s' :
      same_script s s1 -> process_line (line_buffer 1000 line []) s1 = Ok (tt, s2) ->
      runs_lines lines s2 s' -> runs_lines (line :: lines) s s'.

(** The fault of line number [length lines]. *)
Inductive stops_at : list (list Z) -> fault -> script W H -> Prop :=
  | stops_here line lines e s s1 :
      same_script s s1 -> process_line (line_buffer 1000 line []) s1 = Err e ->
      stops_at (line :: lines) e s
  | stops_later line lines e s s1 s2 :
      same_script s s1 -> process_line (line_buffer 1000 line []) s1 = Ok (tt, s2) ->
      stops_at lines e s2 -> stops_at (line :: lines) e s.

Lemma read_line h x l buf s :
  length buf = 1000%nat -> reading h x l (fs s) ->
  let r := cut_line 1000 l in
  let line := chop r.1.2 r.1.1 in
  exists s', on_fs (LX_si_linein h MAX_SCR_LINE_LEN buf) s =
      Ok ((bool_decide (l <> []), line_buffer 1000 line [], Z.of_nat (length line)), s') /\
    reading h x r.2 (fs s') /\ same_script s s'.
Proof.
  intros Hb Hr. destruct (linein_runs h x 1000 l buf (fs s) ltac:(rewrite Hb; lia) Hr) as (f & E & Hr' & Hs).
  rewrite (drop_ge buf) in E by lia. cbn zeta. unfold on_fs, MAX_SCR_LINE_LEN. change 1000 with (Z.of_nat 1000).
  rewrite E. eexists. split; [done|]. by split.
Qed.

Lemma line_buffer_1000 line : (length line <= 1000)%nat -> length (line_buffer 1000 line []) = 1000%nat.
Proof. intros Hl. rewrite line_buffer_length by done. cbn. lia. Qed.

Lemma chop_length nl raw : (length (chop nl raw) <= length raw)%nat.
Proof.
  unfold chop. destruct (_ && _); [|done]. destruct raw as [|c raw _] using rev_ind; [done|].
  rewrite removelast_last, length_app. lia.
Qed.

(** C34: processing a script ends after at most as many lines as it has bytes:
    every line of the text is run once and in order, up to the end of the file
    or to the first line that faults. *)
Theorem script_runs_lines (fuel : nat) h x l buf s :
  length buf = 1000%nat -> reading h x l (fs s) -> (length l < fuel)%nat ->
  (exists s', script_lines fuel h buf s = Ok (tt, s') /\ reading h x [] (fs s') /\
     runs_lines (lines_of (length l) l) s s') \/
  (exists e, script_lines fuel h buf s = Err e /\ stops_at (lines_of (length l) l) e s).
Proof.
  revert l buf s. induction fuel as [|fuel IH]; intros l buf s Hb Hr Hf; [lia|].
  destruct (read_line h x l buf s Hb Hr) as (s1 & E1 & Hr1 & Hs1).
  cbn [script_lines]. rewrite M_bind_unfold, E1. cbn beta iota zeta.
  destruct (decide (l = [])) as [->|Hne].
  { rewrite bool_decide_false by tauto. left. exists s1. split; [done|]. split; [done|]. by constructor. }
  rewrite bool_decide_true by done.
  pose proof (cut_line_shorter 1000 l ltac:(lia) Hne) as Hlt.
  pose proof (cut_line_length 1000 l) as Hlen.
  set (r := cut_line 1000 l) in *.
  pose proof (chop_length r.1.2 r.1.1) as Hc.
  assert (Hlines : lines_of (length l) l = chop r.1.2 r.1.1 :: lines_of (length r.2) r.2).
  { destruct l as [|c l']; [done|]. cbn [length lines_of]. fold r. f_equal.
    apply lines_of_more; cbn [length] in Hlt; lia. }
  rewrite Hlines, M_bind_unfold. destruct (process_line _ s1) as [[[] s2]|e] eqn:Ep.
  - pose proof (keeps_process_line _ _ _ _ Ep) as Hk. injection Hk as Hw Hh.
    assert (Hr2 : reading h x r.2 (fs s2)) by (destruct Hr1; split; congruence).
    destruct (IH r.2 _ s2 (line_buffer_1000 (chop r.1.2 r.1.1) ltac:(lia)) Hr2 ltac:(lia))
      as [(s' & E' & Hr' & Hrun)|(e & E' & Hst)].
    + left. exists s'. split; [done|]. split; [done|]. by eapply runs_cons.
    + right. exists e. split; [done|]. by eapply stops_later.
  - right. exists e. split; [done|]. by eapply stops_here.
Qed.
End Scripts.

(** ** Options *)

Section Options.
Context {W H : Type} `{SioDev W, Heap H}.
Implicit Types (s : script W H).

(** " name=value" for every option. *)
Fixpoint print_options (os : list (list Z * list Z)) : list Z :=
  match os with
  | [] => []
  | (o, v) :: os => 32 :: o ++ 61 :: v ++ print_options os
  end.

Definition word_ok (n : nat) (stop : Z -> bool) (w : list Z) : Prop :=
  (length w < n)%nat /\ Forall (fun c => stop c = false) w.

Definition option_ok (o : list Z * list Z) : Prop :=
  word_ok 64 stop_name o.1 /\ word_ok 100 stop_word o.2.

Lemma span_word stop w c l :
  Forall (fun c => stop c = false) w -> stop c = true -> span stop (w ++ c :: l) = Some (w, c :: l).
Proof.
  intros Hw Hc. induction Hw as [|d w Hd _ IH]; cbn; [by rewrite Hc|]. by rewrite Hd, IH.
Qed.

Lemma scan_word_runs n stop w c l s :
  word_ok n stop w -> stop c = true -> scan_word n stop (w ++ c :: l) s = Ok ((w, c :: l), s).
Proof.
  intros [Hn Hw] Hc. unfold scan_word. rewrite span_word by done.
  destruct (Nat.leb_spec n (length w)); [lia|done].
Qed.

(** An option that is not in the list yet is put in front. *)
Lemma replace_loop_new pop o l s :
  Forall (fun x => same_option o x = false) l -> replace_loop pop o false l s = Ok ((l, false), s).
Proof.
  induction 1 as [|x l Hx _ IH]; cbn [replace_loop]; [done|]. rewrite Hx. by rewrite M_bind_unfold, IH.
Qed.

Lemma add_new_option pop o s :
  Forall (fun x => same_option o x = false) (lx_options_list s) ->
  exists s', LX_add_or_replace_option pop o s = Ok (tt, s') /\
    lx_options_list s' = (pop, o) :: lx_options_list s /\ fs s' = fs s /\ printed s' = printed s.
Proof.
  intros Hl. unfold LX_add_or_replace_option. mstep. rewrite replace_loop_new by done. mstep.
  eexists. split; [done|]. done.
Qed.

(** An option the list has frees its new node while the walk and the
    insertion go on. *)
Lemma replace_loop_old pop o l s :
  Exists (fun x => same_option o x = true) l ->
  replace_loop pop o false l s = Err UseAfterFree \/
  exists l' s', replace_loop pop o false l s = Ok ((l', true), s').
Proof.
  revert s. induction l as [|x l IH]; intros s He; [by apply Exists_nil in He|]. cbn [replace_loop].
  destruct (same_option o x) eqn:Ex.
  - unfold on_fs, fi_kfree. mstep. destruct l as [|y l]; cbn [replace_loop]; mstep; [right; eauto|by left].
  - apply Exists_cons in He as [?|He]; [congruence|]. destruct (IH s He) as [E|(l' & s' & E)];
      rewrite M_bind_unfold, E; mstep; [by left|right; eauto].
Qed.

(** Setting an option a second time, with any value, uses the node after
    it was freed: the return after the replacement is missing. *)
Theorem option_set_twice_faults pop o s :
  Exists (fun x => same_option o x = true) (lx_options_list s) ->
  LX_add_or_replace_option pop o s = Err UseAfterFree.
Proof.
  intros He. unfold LX_add_or_replace_option. mstep.
  destruct (replace_loop_old pop o (lx_options_list s) s He) as [E|(l' & s' & E)]; rewrite E; by mstep.
Qed.

Definition new_option (md o : list Z) s : Prop :=
  Forall (fun x => same_option (mk_option md o []) x = false) (lx_options_list s).

(** [os] were added, the last first, as far as there was memory. *)
Definition options_added (md : list Z) (os : list (list Z * list Z)) s s' : Prop :=
  exists k, snd <$> lx_options_list s' =
      reverse ((fun o => mk_option md o.1 o.2) <$> take k os) ++ (snd <$> lx_options_list s) /\
    ((k < length os)%nat -> exists sz h, (kmalloc sz h : H * Z).2 = 0).

Lemma kmalloc_run sz s :
  exists p s1, on_fs (fi_kmalloc sz) s = Ok (p, s1) /\
    lx_options_list s1 = lx_options_list s /\ printed s1 = printed s /\
    (p = 0 -> exists h, (kmalloc sz h : H * Z).2 = 0).
Proof.
  unfold on_fs, fi_kmalloc. destruct (kmalloc sz (sio_heap (fs s))) as [h p] eqn:E.
  eexists p, _. split; [done|]. split; [done|]. split; [done|]. intros ->. exists (sio_heap (fs s)). by rewrite E.
Qed.

(** What follows a word of the line. *)
Lemma options_text os rest :
  exists d t, print_options os ++ 0 :: 0 :: rest = d :: t /\ stop_word d = true /\
    t = tl (print_options os ++ [0]) ++ 0 :: rest /\ (d = 0 /\ os = [] \/ d = 32).
Proof.
  destruct os as [|[o v] os]; [exists 0, (0 :: rest); split_and!; auto|].
  exists 32, (o ++ 61 :: v ++ print_options os ++ 0 :: 0 :: rest). cbn [print_options tl app].
  split; [|split; [done|split; [|by right]]]; by rewrite <- !app_assoc; cbn; rewrite <- !app_assoc.
Qed.

Lemma text_shorter o v os :
  (length (tl (print_options os ++ [0%Z])) < length (tl (print_options ((o, v) :: os) ++ [0%Z])))%nat.
Proof.
  cbn [print_options tl app]. rewrite !length_app. cbn [length]. rewrite !length_app.
  destruct (print_options os); cbn; rewrite ?length_app; cbn; lia.
Qed.

Lemma options_loop_adds (fuel : nat) op md ptr os rest s :
  length (tl (print_options os ++ [0])) < fuel ->
  Forall option_ok os -> NoDup os.*1 -> Forall (fun o => new_option md o.1 s) os ->
  exists s', options_loop fuel op md ptr (tl (print_options os ++ [0]) ++ 0 :: rest) s = Ok (true, s') /\
    options_added md os s s' /\ printed s' = printed s.
Proof.
  revert os s. induction fuel as [|fuel IH]; intros os s Hf Hos Hnd Hnew; [lia|].
  destruct os as [|[o v] os]; cbn [options_loop].
  { exists s. split; [done|]. split; [|done]. exists O. split; [done|]. cbn. lia. }
  apply Forall_cons in Hos as [[Ho Hv] Hos]. rewrite fmap_cons in Hnd. apply NoDup_cons in Hnd as [Hni Hnd].
  apply Forall_cons in Hnew as [Hno Hnew]. cbn [fst snd] in Ho, Hv, Hno, Hni.
  assert (Htext : exists t, tl (print_options ((o, v) :: os) ++ [0]) ++ 0 :: rest = o ++ 61 :: v ++ t /\
      t = print_options os ++ 0 :: 0 :: rest).
  { eexists. split; [|reflexivity]. cbn [print_options tl app].
    by rewrite <- !app_assoc; cbn; rewrite <- !app_assoc. }
  destruct Htext as (t & -> & Ht).
  assert (Hpeek : exists c, c <> 0 /\ peek (o ++ 61 :: v ++ t) s = Ok (c, s)).
  { destruct o as [|c o]; [by exists 61|]. exists c. split; [|done]. destruct Ho as [_ [Hc _]%Forall_cons].
    unfold stop_name in Hc. lia. }
  destruct Hpeek as (c & Hc & Ep). rewrite M_bind_unfold, Ep. destruct (Z.eqb_spec c 0); [done|].
  destruct (kmalloc_run sizeof_lx_module_option s) as (pop & s1 & Ek & Hl1 & Hp1 & Hk0).
  rewrite M_bind_unfold, Ek. destruct (Z.eqb_spec pop 0) as [->|Hp].
  { exists s1. split; [done|]. split; [|done]. exists O. rewrite Hl1. split; [done|]. eauto. }
  rewrite M_bind_unfold, (scan_word_runs 64 stop_name o 61) by done. cbn [fst snd].
  change (peek (61 :: v ++ t) s1) with (Ok (A := Z * script W H) (61, s1)).
  rewrite M_bind_unfold. change (peek (61 :: v ++ t) s1) with (Ok (A := Z * script W H) (61, s1)).
  change (61 =? 0) with false. cbn beta iota. cbn [tl].
  destruct (options_text os rest) as (d & t' & Et & Hd & Ht' & _).
  change (61 =? 0) with false. cbn beta iota. rewrite Ht, Et, Ht'. clear Ep Ht Et Ht' t.
  rewrite M_bind_unfold, (scan_word_runs 100 stop_word v d) by done. cbn [fst snd tl].
  destruct (add_new_option pop (mk_option md o v) s1) as (s2 & E2 & Hl2 & Hf2 & Hp2); [by rewrite Hl1|].
  rewrite M_bind_unfold, E2.
  destruct (IH os s2) as (s' & E' & (k & Hk & Hkm) & Hpr).
  - pose proof (text_shorter o v os). lia.
  - done.
  - done.
  - rewrite Forall_forall in Hnew |- *. intros [o' v'] Hin. unfold new_option. rewrite Hl2, Hl1. apply Forall_cons.
    split; [|exact (Hnew _ Hin)]. unfold same_option. cbn. apply andb_false_iff. right.
    apply bool_decide_eq_false. intros ->. apply Hni. by apply (list_elem_of_fmap_2 fst _ (o, v')).
  - exists s'. split; [exact E'|]. split; [|congruence]. exists (Datatypes.S k). split; [|cbn; intros; apply Hkm; lia].
    rewrite Hk, Hl2, Hl1. cbn [take]. rewrite !fmap_cons, reverse_cons, <- app_assoc. done.
Qed.

(** C35: the parser of an options line undoes its printing: the options of
    "module a=x b=y" are put into the list in their order, every one with its
    name and value, as far as there is memory for them. *)
Theorem options_line_parsed md os rest s :
  word_ok MODULE_NAME_LEN stop_word md -> Forall option_ok os -> NoDup os.*1 ->
  Forall (fun o => new_option md o.1 s) os ->
  exists s', LX_set_option_from_string (Some (md ++ print_options os ++ 0 :: 0 :: rest)) s = Ok (tt, s') /\
    options_added md os s s' /\ printed s' = printed s.
Proof.
  intros Hmd Hos Hnd Hnew. unfold LX_set_option_from_string. rewrite M_bind_unfold.
  destruct (kmalloc_run MODULE_NAME_LEN s) as (p & s1 & Ek & Hl1 & Hp1 & Hk0).
  rewrite Ek. destruct (Z.eqb_spec p 0) as [->|Hp].
  { exists s1. split; [done|]. split; [|done]. exists O. rewrite Hl1. split; [done|]. eauto. }
  destruct (options_text os rest) as (d & t & -> & Hd & -> & Hcase).
  set (t := tl _ ++ _).
  set (op := md ++ d :: t) at 2.
  rewrite M_bind_unfold, (scan_word_runs MODULE_NAME_LEN stop_word md d) by done. cbn [fst snd tl].
  rewrite M_bind_unfold. change (peek (d :: t) s1) with (Ok (A := Z * script W H) (d, s1)). cbn beta iota.
  destruct Hcase as [(-> & ->)| ->].
  - change (0 =? 0) with true. cbn beta iota. rewrite M_bind_unfold. unfold mret at 1, M_ret. cbn beta iota.
    eexists. split; [reflexivity|]. split; [|done]. exists O. cbn. rewrite Hl1. split; [done|lia].
  - change (32 =? 0) with false. cbn beta iota. rewrite M_bind_unfold.
    destruct (options_loop_adds (Datatypes.S (length op)) op md p os rest s1) as (s' & E & Hadd & Hpr); [|done|done| |].
    { unfold op, t. rewrite !length_app. cbn [length]. rewrite length_app. lia. }
    { unfold new_option. by rewrite Hl1. }
    unfold op in E |- *. fold t in E. rewrite E. cbn beta iota. eexists. split; [reflexivity|]. split; [|cbn; congruence].
    unfold options_added in *. by rewrite Hl1 in Hadd.
Qed.
End Options.

(** ** Concrete runs *)

(** "options a b=1 c=2", CR, LF, "# x", LF, "init", LF, "vmlinuz q". *)
Definition boot_text : list Z :=
  [111; 112; 116; 105; 111; 110; 115; 32; 97; 32; 98; 61; 49; 32; 99; 61; 50; 13; 10; 35; 32; 120; 10;
   105; 110; 105; 116; 10; 118; 109; 108; 105; 110; 117; 122; 32; 113].
Definition boot_disk : disk := set_files {[ [92; 98] := boot_text ]} disk0.
Definition script0 : script disk arena :=
  mk_script [] [] false 0 [92] [] (mk_files false [] (arena0 9) boot_disk).
Definition script1 : script disk arena :=
  match on_fs (LX_si_open [92; 98] 1 64) script0 with Ok (_, s) => s | Err _ => script0 end.

Example boot_script_runs :
  match LX_process_script [] None 5 [98] (replicate 1000 7) 1 64 script0 with
  | Ok (_, s) => (snd <$> lx_options_list s) = [mk_option [97] [99] [50]; mk_option [97] [98] [49]] /\
      kernel_threads s = 1%nat /\ take 2 (saved_command_line s) = [113; 0] /\
      printed s = [Finished [92; 98]; Executing [92; 98]] /\ dom (used (sio_heap (fs s))) = {[5432; 5664]}
  | Err _ => False
  end.
Proof. vm_compute. split_and!; reflexivity. Qed.

(** An unknown command is not reported: the test for it is inside the loop over
    the commands, where it never holds. *)
Example unknown_command_silent :
  match process_line (120 :: replicate 999 0) script0 with Ok (_, s) => printed s = [] | Err _ => False end.
Proof. vm_compute. reflexivity. Qed.

(** "options" alone passes a null pointer. *)
Example options_without_text :
  process_line ([111; 112; 116; 105; 111; 110; 115] ++ replicate 993 0) script0 = Err NullDeref.
Proof. vm_compute. reflexivity. Qed.

Lemma script_runs_lines_witness :
  (exists s', script_lines 40 1 (replicate 1000 7) script1 = Ok (tt, s') /\
     runs_lines (lines_of 37 boot_text) script1 s') \/
  (exists e, script_lines 40 1 (replicate 1000 7) script1 = Err e).
Proof.
  destruct (script_runs_lines 40 1 (4096, mk_sio 1 2) boot_text (replicate 1000 7) script1)
    as [(s' & E & _ & R)|(e & E & _)].
  - reflexivity.
  - split; vm_compute; reflexivity.
  - cbn. lia.
  - left. exists s'. split; [exact E|exact R].
  - right. exists e. exact E.
Defined.

Lemma option_set_twice_faults_witness :
  LX_add_or_replace_option 9 (mk_option [97] [98] [51])
    (mk_script [(5, mk_option [97] [98] [49])] [] false 0 [] [] (fs script0)) = Err UseAfterFree.
Proof.
  apply (option_set_twice_faults 9 (mk_option [97] [98] [51])). apply Exists_cons. left. reflexivity.
Defined.

Lemma options_line_parsed_witness :
  exists s', LX_set_option_from_string (Some [97; 32; 98; 61; 49; 32; 99; 61; 50; 0; 0]) script0 = Ok (tt, s') /\
    options_added [97] [([98], [49]); ([99], [50])] script0 s'.
Proof.
  destruct (options_line_parsed [97] [([98], [49]); ([99], [50])] [] script0) as (s' & E & Ha & _).
  - split; [unfold MODULE_NAME_LEN; cbn; lia|repeat constructor].
  - repeat constructor; cbn; lia.
  - repeat constructor; set_solver.
  - repeat constructor.
  - exists s'. split; [exact E|exact Ha].
Defined.
