(* ===== verification/WaitOn.v ===== *)
(** * Waiting for an event (Dev32/lxwaiton.c)

    Before the Linux scheduler runs, a thread waits in the OS/2 kernel
    (DevBlock); afterwards it sleeps in a wait queue of its own.  All waiters
    are in one list.  When the scheduler becomes available the old waiters are
    woken once so that they go on waiting in their queues.

    A waiter is its stack record and where its thread is.  The critical
    sections of [lx_wait_list_lock] are atomic, and the threads interleave
    between them: a thread that has entered the list is not asleep yet. *)

From S2P Require Import Prelude.

Inductive wstate := Entered | Asleep | Awake (rc : Z).

#[export] Instance wstate_eq_dec : EqDecision wstate.
Proof. solve_decision. Defined.

Record waiter := mk_waiter {
  w_tid : Z; w_id : Z; w_timeout : Z;
  w_isq : bool; w_continue : bool;      (* LXWF_ISWQ, LXWF_WAITCONTINUE *)
  w_prev : bool;                        (* prev_current_available *)
  w_state : wstate
}.

Record waits := mk_waits {
  lx_current_available : bool;
  lx_wait_list : list waiter;
  wait_done : list (Z * Z)              (* threads that returned, and their codes *)
}.

Definition put_state (st : wstate) (w : waiter) : waiter :=
  mk_waiter (w_tid w) (w_id w) (w_timeout w) (w_isq w) (w_continue w) (w_prev w) st.

(** An event for a thread asleep; nothing for one that is not. *)
Definition wake (w : waiter) : waiter :=
  match w_state w with Asleep => put_state (Awake 0) w | _ => w end.

(** [DevRun]: all threads blocked in the kernel on [id]. *)
Definition DevRun (id : Z) (l : list waiter) : list waiter :=
  (fun w => if (w_id w =? id) && negb (w_isq w) then wake w else w) <$> l.

Definition is_tid (t : Z) (w : waiter) : bool := w_tid w =? t.

(** ** The thread that waits *)

(** Up to the insertion into the list. *)
Definition wait_enter (t id timeout : Z) (s : waits) : waits :=
  mk_waits (lx_current_available s)
    (mk_waiter t id timeout (lx_current_available s) false (lx_current_available s) Entered
       :: lx_wait_list s) (wait_done s).

(** The loop's start: the flag is cleared and the thread sleeps. *)
Definition wait_sleep (t : Z) (s : waits) : waits :=
  mk_waits (lx_current_available s)
    (update_first (is_tid t) (fun w =>
       mk_waiter (w_tid w) (w_id w) (w_timeout w) (w_isq w) false (w_prev w) Asleep)
       (lx_wait_list s)) (wait_done s).

(** The time is over: a queue gives 1, [DevBlock] its own code. *)
Definition WAIT_TIMED_OUT : Z := 32769.
Definition wait_timeout (t : Z) (s : waits) : waits :=
  mk_waits (lx_current_available s)
    (update_first (is_tid t) (fun w => put_state (Awake (if w_isq w then 1 else WAIT_TIMED_OUT)) w)
       (lx_wait_list s)) (wait_done s).

(** After the sleep: a waiter of the kernel moves to its queue when the
    scheduler has become available; then the loop or the end. *)
Definition wait_resume (t : Z) (s : waits) : waits :=
  match find_first (is_tid t) (lx_wait_list s) with
  | Some w =>
      match w_state w with
      | Awake rc =>
          let move := negb (w_isq w) && lx_current_available s && negb (w_prev w) in
          let w' := mk_waiter (w_tid w) (w_id w) (w_timeout w) (w_isq w || move) (w_continue w)
                      (w_prev w || move) Entered in
          if w_continue w
          then mk_waits (lx_current_available s) (update_first (is_tid t) (fun _ => w') (lx_wait_list s))
                 (wait_done s)
          else mk_waits (lx_current_available s) (remove_first (is_tid t) (lx_wait_list s))
                 ((t, rc) :: wait_done s)
      | _ => s
      end
  | None => s
  end.

(** ** Waking *)

(** The list is walked once; every entry of the event is woken its way. *)
Fixpoint run_on_loop (id : Z) (todo : list waiter) (l : list waiter) : list waiter :=
  match todo with
  | [] => l
  | p :: todo =>
      run_on_loop id todo
        (if w_id p =? id then
           if w_isq p then update_first (is_tid (w_tid p)) wake l else DevRun id l
         else l)
  end.

Definition LX_RunOn (id : Z) (s : waits) : waits :=
  mk_waits (lx_current_available s) (run_on_loop id (lx_wait_list s) (lx_wait_list s)) (wait_done s).

Definition set_continue (w : waiter) : waiter :=
  mk_waiter (w_tid w) (w_id w) (w_timeout w) (w_isq w) true (w_prev w) (w_state w).

(** One call without its recursion: the state and [do_resched]. *)
Fixpoint resched_loop (todo l : list waiter) (n : nat) : list waiter * nat :=
  match todo with
  | [] => (l, n)
  | p :: todo =>
      if w_isq p then resched_loop todo l n
      else resched_loop todo (DevRun (w_id p) (update_first (is_tid (w_tid p)) set_continue l)) (S n)
  end.

Definition resched_once (s : waits) : waits * nat :=
  if lx_current_available s then
    let r := resched_loop (lx_wait_list s) (lx_wait_list s) 0 in
    (mk_waits true r.1 (wait_done s), r.2)
  else (s, O).

(** ** Steps of the system *)

Inductive wait_step : waits -> waits -> Prop :=
  | ws_enter t id timeout s :
      find_first (is_tid t) (lx_wait_list s) = None -> wait_step s (wait_enter t id timeout s)
  | ws_sleep t w s :
      find_first (is_tid t) (lx_wait_list s) = Some w -> w_state w = Entered ->
      wait_step s (wait_sleep t s)
  | ws_timeout t w s :
      find_first (is_tid t) (lx_wait_list s) = Some w -> w_state w = Asleep -> 0 <= w_timeout w ->
      wait_step s (wait_timeout t s)
  | ws_resume t w s rc :
      find_first (is_tid t) (lx_wait_list s) = Some w -> w_state w = Awake rc ->
      wait_step s (wait_resume t s)
  | ws_run id s : wait_step s (LX_RunOn id s)
  | ws_resched s : wait_step s (resched_once s).1
  | ws_available s :
      wait_step s (mk_waits true (lx_wait_list s) (wait_done s)).

Definition waits0 : waits := mk_waits false [] [].
Definition reachable (s : waits) : Prop := rtc wait_step waits0 s.

(** ** The list as a whole *)

Definition tids (l : list waiter) : list Z := w_tid <$> l.

(** [f] leaves the identity of a waiter alone. *)
Definition same_thread (f : waiter -> waiter) : Prop :=
  forall w, w_tid (f w) = w_tid w /\ w_id (f w) = w_id w /\ w_isq (f w) = w_isq w.

Lemma same_wake : same_thread wake.
Proof. intros w. unfold wake. by destruct (w_state w). Qed.
Lemma same_put st : same_thread (put_state st).
Proof. done. Qed.
Lemma same_continue : same_thread set_continue.
Proof. done. Qed.
Lemma same_if (b : waiter -> bool) f : same_thread f -> same_thread (fun w => if b w then f w else w).
Proof. intros Hf w. by destruct (b w). Qed.
Lemma same_compose f g : same_thread f -> same_thread g -> same_thread (fun w => f (g w)).
Proof. intros Hf Hg w. destruct (Hf (g w)) as (-> & -> & ->). apply Hg. Qed.
#[export] Hint Resolve same_wake same_put same_continue same_if : lxapi.

Lemma tids_fmap f l : same_thread f -> tids (f <$> l) = tids l.
Proof. intros Hf. unfold tids. rewrite <- list_fmap_compose. apply list_fmap_ext. intros i w _. apply Hf. Qed.

Lemma other_tids t f l : t ∉ tids l -> (fun w => if is_tid t w then f w else w) <$> l = l.
Proof.
  unfold tids. induction l as [|v l IH]; cbn [fmap list_fmap]; [done|]. intros Hv. rewrite IH by set_solver.
  destruct (is_tid t v) eqn:E; [|done]. unfold is_tid in E. exfalso. apply Hv.
  replace t with (w_tid v) by lia. left.
Qed.

(** With distinct threads the entry that is found is the only one. *)
Lemma update_tid t f l :
  NoDup (tids l) -> update_first (is_tid t) f l = (fun w => if is_tid t w then f w else w) <$> l.
Proof.
  unfold tids. induction l as [|w l IH]; cbn [fmap list_fmap]; [done|]. intros [Hw Hnd]%NoDup_cons. cbn.
  destruct (is_tid t w) eqn:E; [|by rewrite IH]. f_equal.
  symmetry. apply other_tids. unfold is_tid in E. by replace t with (w_tid w) by lia.
Qed.

(** Waking is done at most once. *)
Lemma wake_wake w : wake (wake w) = wake w.
Proof. unfold wake. destruct (w_state w) eqn:E; cbn; by rewrite ?E. Qed.

(** The entry [p] wakes the waiter [w]. *)
Definition wakes (id : Z) (w p : waiter) : bool :=
  (w_id p =? id) && (w_id w =? id) && (if w_isq p then w_tid p =? w_tid w else negb (w_isq w)).

Lemma same_wakes id p f w : same_thread f -> wakes id (f w) p = wakes id w p.
Proof. intros Hf. unfold wakes. by destruct (Hf w) as (-> & -> & ->). Qed.

(** One turn of the walk. *)
Lemma run_on_turn id p l :
  NoDup (tids l) -> (exists w, w ∈ l /\ w_tid w = w_tid p /\ w_id w = w_id p) ->
  (if w_id p =? id then if w_isq p then update_first (is_tid (w_tid p)) wake l else DevRun id l else l) =
  (fun w => if wakes id w p then wake w else w) <$> l.
Proof.
  intros Hnd (v & Hv & Hvt & Hvi). unfold wakes. destruct (w_id p =? id) eqn:Ep; cbn [andb]; [|by rewrite list_fmap_id].
  destruct (w_isq p); [|done]. rewrite update_tid by done. apply list_fmap_ext. intros i w Hw.
  unfold is_tid. rewrite (Z.eqb_sym (w_tid p)). destruct (w_tid w =? w_tid p) eqn:Et; [|by rewrite andb_false_r].
  assert (v = w) as ->.
  { apply list_elem_of_lookup in Hv as [j Hj]. assert (j = i) as ->; [|congruence].
    apply (NoDup_lookup (tids l) j i (w_tid w) Hnd); unfold tids; rewrite list_lookup_fmap;
      rewrite ?Hj, ?Hw; cbn; f_equal; lia. }
  assert (w_id w =? id = true) as -> by lia. done.
Qed.

Lemma run_on_loop_spec id todo l :
  NoDup (tids l) ->
  (forall p, p ∈ todo -> exists w, w ∈ l /\ w_tid w = w_tid p /\ w_id w = w_id p) ->
  run_on_loop id todo l = (fun w => if existsb (wakes id w) todo then wake w else w) <$> l.
Proof.
  revert l. induction todo as [|p todo IH]; intros l Hnd Hin; cbn [run_on_loop existsb].
  { by rewrite list_fmap_id. }
  assert (Hg : same_thread (fun w => if wakes id w p then wake w else w)) by (apply same_if, same_wake).
  rewrite run_on_turn by (try done; apply Hin; by left). rewrite IH.
  - rewrite <- list_fmap_compose. apply list_fmap_ext. intros i w _. cbn.
    assert (existsb (wakes id (if wakes id w p then wake w else w)) todo = existsb (wakes id w) todo) as ->.
    { clear. induction todo as [|q todo IH]; cbn; [done|]. rewrite IH. f_equal.
      apply (same_wakes id q (fun w => if wakes id w p then wake w else w)). apply same_if, same_wake. }
    destruct (wakes id w p), (existsb _ _); cbn; by rewrite ?wake_wake.
  - by rewrite tids_fmap.
  - intros q Hq. destruct (Hin q) as (w & Hw & Ht & Hi); [by right|].
    exists (if wakes id w p then wake w else w). destruct (Hg w) as (-> & -> & _). split; [|done].
    by apply (list_elem_of_fmap_2 (fun w => if wakes id w p then wake w else w)).
Qed.

(** ** Invariant *)

Record waits_ok (s : waits) : Prop := {
  wo_tids : NoDup (tids (lx_wait_list s));
  (** a waiter of the kernel came before the scheduler *)
  wo_prev : Forall (fun w => w_isq w = false -> w_prev w = false) (lx_wait_list s)
}.

Lemma find_tid_None t l : find_first (is_tid t) l = None -> t ∉ tids l.
Proof.
  rewrite find_first_None, Forall_forall. intros Hf (w & -> & Hw)%list_elem_of_fmap.
  specialize (Hf w Hw). unfold is_tid in Hf. lia.
Qed.

Lemma prev_fmap (f : waiter -> waiter) l :
  (forall w, w_isq (f w) = w_isq w /\ w_prev (f w) = w_prev w) ->
  Forall (fun w => w_isq w = false -> w_prev w = false) l ->
  Forall (fun w => w_isq w = false -> w_prev w = false) (f <$> l).
Proof.
  intros Hf Hl. apply Forall_fmap. eapply Forall_impl; [exact Hl|]. intros w Hw. cbn.
  destruct (Hf w) as [-> ->]. done.
Qed.

Lemma wake_prev w : w_isq (wake w) = w_isq w /\ w_prev (wake w) = w_prev w.
Proof. unfold wake. by destruct (w_state w). Qed.

(** [LX_RunOn] on the whole list. *)
Lemma run_on_list id s :
  NoDup (tids (lx_wait_list s)) ->
  lx_wait_list (LX_RunOn id s) = (fun w => if w_id w =? id then wake w else w) <$> lx_wait_list s.
Proof.
  intros Hnd. unfold LX_RunOn. cbn. rewrite run_on_loop_spec; [|done|eauto].
  apply list_fmap_ext. intros i w Hw. destruct (w_id w =? id) eqn:E.
  - assert (existsb (wakes id w) (lx_wait_list s) = true) as ->; [|done].
    apply existsb_exists. exists w. split; [apply list_elem_of_In, list_elem_of_lookup; eauto|].
    unfold wakes. rewrite E, Z.eqb_refl. by destruct (w_isq w).
  - assert (existsb (wakes id w) (lx_wait_list s) = false) as ->; [|done].
    apply not_true_iff_false. intros (p & _ & Hp)%existsb_exists. unfold wakes in Hp. rewrite E, andb_false_r in Hp. done.
Qed.

(** ** Moving to the scheduler's queues *)

(** What the walk of [LX_ReschedWaitOn] does to a waiter: [k] it is woken,
    [c] it is told to go on waiting. *)
Definition nudge (k c : bool) (w : waiter) : waiter :=
  let w := if c then set_continue w else w in if k then wake w else w.

Lemma nudge_same k c : same_thread (nudge k c).
Proof. intros w. unfold nudge, wake. destruct c, k; cbn; try destruct (w_state w); done. Qed.

Lemma nudge_nudge k c k' c' w : nudge k' c' (nudge k c w) = nudge (k || k') (c || c') w.
Proof. unfold nudge, wake. destruct w as [t i n q co pr st]. destruct k, c, k', c', st; reflexivity. Qed.

Definition hits_id (w p : waiter) : bool := negb (w_isq p) && (w_id w =? w_id p) && negb (w_isq w).
Definition hits_tid (w p : waiter) : bool := negb (w_isq p) && is_tid (w_tid p) w.

Lemma resched_turn p l :
  NoDup (tids l) -> w_isq p = false ->
  DevRun (w_id p) (update_first (is_tid (w_tid p)) set_continue l) =
  (fun w => nudge (hits_id w p) (hits_tid w p) w) <$> l.
Proof.
  intros Hnd Hq. rewrite update_tid by done. unfold DevRun. rewrite <- list_fmap_compose.
  apply list_fmap_ext. intros i w _. cbn. unfold nudge, hits_id, hits_tid. rewrite Hq. cbn [negb andb].
  by destruct (is_tid (w_tid p) w).
Qed.

Lemma resched_loop_spec todo l n :
  NoDup (tids l) ->
  resched_loop todo l n =
    ((fun w => nudge (existsb (hits_id w) todo) (existsb (hits_tid w) todo) w) <$> l,
     (n + length (filter (fun p => w_isq p = false) todo))%nat).
Proof.
  revert l n. induction todo as [|p todo IH]; intros l n Hnd; cbn [resched_loop existsb].
  { by rewrite list_fmap_id, Nat.add_0_r. }
  destruct (w_isq p) eqn:Ep.
  - rewrite IH, filter_cons_False by (done || congruence). f_equal. apply list_fmap_ext. intros i w _.
    unfold hits_id at 2, hits_tid at 2. by rewrite Ep.
  - assert (Hs : same_thread (fun w => nudge (hits_id w p) (hits_tid w p) w)) by (intros w; apply nudge_same).
    rewrite resched_turn, IH by (done || by rewrite tids_fmap). rewrite filter_cons_True by done. cbn [length]. f_equal; [|lia].
    rewrite <- list_fmap_compose. apply list_fmap_ext. intros i w _. cbn.
    set (b := hits_id w p). set (c := hits_tid w p). rewrite <- nudge_nudge. f_equal.
    + clear. induction todo as [|q todo IH]; cbn; [done|]. rewrite IH. f_equal. unfold hits_id.
      by destruct (nudge_same b c w) as (_ & -> & ->).
    + clear. induction todo as [|q todo IH]; cbn; [done|]. rewrite IH. f_equal. unfold hits_tid, is_tid.
      by destruct (nudge_same b c w) as (-> & _ & _).
Qed.

(** The waiters of the kernel. *)
Definition kernel_waiters (s : waits) : nat := length (filter (fun w => w_isq w = false) (lx_wait_list s)).

Lemma find_unique l v w :
  NoDup (tids l) -> v ∈ l -> w ∈ l -> w_tid v = w_tid w -> v = w.
Proof.
  intros Hnd [j Hj]%list_elem_of_lookup [i Hi]%list_elem_of_lookup Ht. assert (j = i) as ->; [|congruence].
  apply (NoDup_lookup (tids l) j i (w_tid w) Hnd); unfold tids; rewrite list_lookup_fmap, ?Hj, ?Hi; cbn; congruence.
Qed.

Lemma resched_list s :
  NoDup (tids (lx_wait_list s)) -> lx_current_available s = true ->
  lx_wait_list (resched_once s).1 =
    (fun w => if w_isq w then w else wake (set_continue w)) <$> lx_wait_list s /\
  (resched_once s).2 = kernel_waiters s.
Proof.
  intros Hnd Ha. unfold resched_once. rewrite Ha. rewrite resched_loop_spec by done. cbn. split; [|done].
  apply list_fmap_ext. intros i w Hw. assert (Hin : w ∈ lx_wait_list s) by (apply list_elem_of_lookup; eauto).
  destruct (w_isq w) eqn:Eq.
  - assert (existsb (hits_id w) (lx_wait_list s) = false) as ->.
    { apply not_true_iff_false. intros (p & _ & Hp)%existsb_exists. unfold hits_id in Hp. by rewrite Eq, andb_false_r in Hp. }
    assert (existsb (hits_tid w) (lx_wait_list s) = false) as ->; [|done].
    apply not_true_iff_false. intros (p & Hpl & Hp)%existsb_exists. apply list_elem_of_In in Hpl.
    unfold hits_tid, is_tid in Hp. assert (p = w) as -> by (apply (find_unique (lx_wait_list s)); [done..|lia]).
    by rewrite Eq in Hp.
  - assert (existsb (hits_id w) (lx_wait_list s) = true) as ->.
    { apply existsb_exists. exists w. split; [by apply list_elem_of_In|]. unfold hits_id. by rewrite Eq, Z.eqb_refl. }
    assert (existsb (hits_tid w) (lx_wait_list s) = true) as ->; [|done].
    apply existsb_exists. exists w. split; [by apply list_elem_of_In|]. unfold hits_tid, is_tid. by rewrite Eq, Z.eqb_refl.
Qed.

(** ** The invariant is kept *)

Lemma update_ok t f s d :
  waits_ok s ->
  (forall w, w ∈ lx_wait_list s -> is_tid t w = true -> (w_isq w = false -> w_prev w = false) ->
     w_tid (f w) = w_tid w /\ (w_isq (f w) = false -> w_prev (f w) = false)) ->
  waits_ok (mk_waits (lx_current_available s) (update_first (is_tid t) f (lx_wait_list s)) d).
Proof.
  intros [Hnd Hp] Hf. rewrite Forall_forall in Hp. rewrite update_tid by done. split; cbn.
  - unfold tids. rewrite <- list_fmap_compose. erewrite list_fmap_ext; [exact Hnd|].
    intros i w Hw. cbn. destruct (is_tid t w) eqn:E; [|done].
    assert (w ∈ lx_wait_list s) by (apply list_elem_of_lookup; eauto). by apply Hf; auto.
  - apply Forall_fmap, Forall_forall. intros w Hw. cbn. destruct (is_tid t w) eqn:E; [|by apply Hp].
    by apply Hf; auto.
Qed.

Lemma fmap_ok f s d b :
  waits_ok s -> same_thread f -> (forall w, w_prev (f w) = w_prev w) ->
  waits_ok (mk_waits b (f <$> lx_wait_list s) d).
Proof.
  intros [Hnd Hp] Hf Hpr. split; cbn; [by rewrite tids_fmap|].
  apply prev_fmap; [|done]. intros w. by destruct (Hf w) as (_ & _ & ->).
Qed.

Lemma step_ok s s' : wait_step s s' -> waits_ok s -> waits_ok s'.
Proof.
  destruct 1 as [t id timeout s Hf|t w s Hf Hst|t w s Hf Hst Ht|t w s rc Hf Hst|id s|s|s]; intros Hok.
  - destruct Hok as [Hnd Hp]. split; cbn; [apply NoDup_cons; split; [by apply find_tid_None|done]|].
    apply Forall_cons. split; [cbn|done]. done.
  - apply update_ok; [done|]. cbn. auto.
  - apply update_ok; [done|]. cbn. auto.
  - unfold wait_resume. rewrite Hf, Hst. destruct (w_continue w).
    + apply update_ok; [done|]. intros v Hv Ht Hvp. cbn.
      apply find_first_elem in Hf as [Hw Hwt]. unfold is_tid in *. split; [lia|].
      assert (v = w) as -> by (apply (find_unique (lx_wait_list s)); [apply Hok|done..|lia]).
      intros [Hq ?]%orb_false_iff. rewrite (Hvp Hq), Hq in *. cbn in *. rewrite andb_true_r in *. done.
    + destruct Hok as [Hnd Hp]. apply remove_first_perm in Hf. split; cbn.
      * unfold tids in *. rewrite Hf in Hnd. cbn in Hnd. by apply NoDup_cons in Hnd as [_ ?].
      * rewrite Hf in Hp. by apply Forall_cons in Hp as [_ ?].
  - assert (E : LX_RunOn id s = mk_waits (lx_current_available s)
      ((fun w => if w_id w =? id then wake w else w) <$> lx_wait_list s) (wait_done s)).
    { unfold LX_RunOn. f_equal. apply (run_on_list id s). apply Hok. }
    rewrite E. apply fmap_ok; [done|apply same_if, same_wake|].
    intros w. destruct (w_id w =? id); [apply wake_prev|done].
  - destruct (lx_current_available s) eqn:Ea; [|unfold resched_once; by rewrite Ea].
    destruct (resched_list s (wo_tids _ Hok) Ea) as [El _].
    assert (E : (resched_once s).1 = mk_waits true (lx_wait_list (resched_once s).1) (wait_done s))
      by (unfold resched_once; by rewrite Ea).
    rewrite E, El. apply (fmap_ok (fun w => if w_isq w then w else wake (set_continue w))); [done| |].
    + intros w. destruct (w_isq w) eqn:Eq; [done|]. by destruct (same_wake (set_continue w)) as (-> & -> & ->).
    + intros w. destruct (w_isq w); [done|]. by destruct (wake_prev (set_continue w)) as [_ ->].
  - destruct Hok. by split.
Qed.

Lemma reachable_ok s : reachable s -> waits_ok s.
Proof.
  intros Hr. assert (H0 : waits_ok waits0) by (split; constructor).
  induction Hr as [|s s1 s' H1 _ IH]; [done|]. apply IH. by eapply step_ok.
Qed.

(** In every reachable state an event wakes all threads that sleep for it,
    whether in the kernel or in their queues, and no other. *)
Theorem run_on_wakes id s :
  reachable s ->
  lx_wait_list (LX_RunOn id s) = (fun w => if w_id w =? id then wake w else w) <$> lx_wait_list s.
Proof. intros Hr. by apply run_on_list, wo_tids, reachable_ok. Qed.

(** ** Every kernel waiter moves on *)

Lemma kernel_fmap (f : waiter -> waiter) l :
  (forall w, w_isq (f w) = w_isq w) ->
  length (filter (fun w => w_isq w = false) (f <$> l)) = length (filter (fun w => w_isq w = false) l).
Proof.
  intros Hf. induction l as [|w l IH]; [done|]. rewrite fmap_cons. destruct (w_isq w) eqn:E.
  - by rewrite !filter_cons_False by (rewrite ?Hf; congruence).
  - rewrite !filter_cons_True by (rewrite ?Hf; congruence). cbn. by rewrite IH.
Qed.

(** The waiter with number [t] replaced by [g], or taken out. *)
Lemma kernel_split t w s :
  find_first (is_tid t) (lx_wait_list s) = Some w ->
  exists l1 l2, lx_wait_list s = l1 ++ w :: l2 /\
    (forall f, update_first (is_tid t) f (lx_wait_list s) = l1 ++ f w :: l2) /\
    remove_first (is_tid t) (lx_wait_list s) = l1 ++ l2.
Proof.
  intros (l1 & l2 & E & Hw & Hl)%find_first_Some. exists l1, l2. split; [done|]. rewrite E. split.
  - intros f. by apply update_first_app.
  - by apply remove_first_app.
Qed.

Lemma kernel_app l1 (w : waiter) l2 :
  length (filter (fun w => w_isq w = false) (l1 ++ w :: l2)) =
  (length (filter (fun w => w_isq w = false) (l1 ++ l2)) + (if w_isq w then 0 else 1))%nat.
Proof.
  rewrite !filter_app, !length_app. destruct (w_isq w) eqn:E.
  - rewrite filter_cons_False by congruence. lia.
  - rewrite filter_cons_True by done. cbn. lia.
Qed.

Lemma resume_kernel t w rc s :
  find_first (is_tid t) (lx_wait_list s) = Some w -> w_state w = Awake rc -> lx_current_available s = true ->
  w_prev w = false ->
  (kernel_waiters (wait_resume t s) + (if w_isq w then 0 else 1) = kernel_waiters s)%nat.
Proof.
  intros Hf Hst Ha Hp. unfold wait_resume, kernel_waiters. rewrite Hf, Hst, Ha, Hp.
  destruct (kernel_split t w s Hf) as (l1 & l2 & -> & Hu & Hr).
  destruct (w_continue w); cbn [lx_wait_list]; [rewrite Hu|rewrite Hr]; rewrite !kernel_app; cbn [w_isq].
  - destruct (w_isq w); cbn; lia.
  - lia.
Qed.

Lemma resume_kernel_le t w rc s :
  find_first (is_tid t) (lx_wait_list s) = Some w -> w_state w = Awake rc -> lx_current_available s = true ->
  (kernel_waiters (wait_resume t s) <= kernel_waiters s)%nat.
Proof.
  intros Hf Hst Ha. unfold wait_resume, kernel_waiters. rewrite Hf, Hst.
  destruct (kernel_split t w s Hf) as (l1 & l2 & -> & Hu & Hr).
  destruct (w_continue w); cbn [lx_wait_list]; [rewrite Hu|rewrite Hr]; rewrite !kernel_app; cbn [w_isq].
  - destruct (w_isq w); cbn; [lia|]. destruct (_ && _); lia.
  - lia.
Qed.


(** ** Concrete runs *)

(** Two waiters before the scheduler; it becomes available. *)
Definition old_waiters : waits :=
  mk_waits true (lx_wait_list (wait_sleep 2 (wait_enter 2 70 (-1) (wait_sleep 1 (wait_enter 1 70 5 waits0))))) [].

Lemma old_waiters_reachable : reachable old_waiters.
Proof.
  unfold reachable. eapply rtc_l; [apply (ws_enter 1 70 5); reflexivity|].
  eapply rtc_l; [eapply (ws_sleep 1); reflexivity|].
  eapply rtc_l; [apply (ws_enter 2 70 (-1)); reflexivity|].
  eapply rtc_l; [eapply (ws_sleep 2); reflexivity|].
  eapply rtc_l; [apply ws_available|]. apply rtc_refl.
Qed.

Lemma run_on_wakes_witness :
  w_state <$> lx_wait_list (LX_RunOn 70 old_waiters) = [Awake 0; Awake 0].
Proof. rewrite (run_on_wakes 70 old_waiters old_waiters_reachable). reflexivity. Defined.


(** Both go on in their queues; the second call finds none left. *)
Example resched_round :
  let s := wait_resume 2 (wait_resume 1 (resched_once old_waiters).1) in
  w_isq <$> lx_wait_list s = [true; true] /\ (resched_once s).2 = O.
Proof. vm_compute. auto. Qed.

(** An event between the insertion into the list and the sleep is lost. *)
Example event_lost :
  w_state <$> lx_wait_list (wait_sleep 1 (LX_RunOn 70 (wait_enter 1 70 (-1) waits0))) = [Asleep].
Proof. reflexivity. Qed.
