(* ===== verification/ScrIO.v ===== *)
(** * Console output (os2/os2/oo_scrio.c)

    Text goes into the memory of the video adapter, two bytes a character, and
    the hardware cursor is moved with it.  The registers of the adapter and the
    mapping of its memory are the interface [VgaDev].  A position is passed as
    a pointer: to the console's own cursor, to a variable of the caller, or
    none. *)

From S2P Require Import Prelude.

Class VgaDev (W : Type) := {
  outb_p : Z -> Z -> W -> W;            (* value, port *)
  inb_p : Z -> W -> Z * W;
  (** DevVMAlloc of 4096 bytes at a physical address; 0 without success *)
  DevMapPhys : Z -> W -> Z * W;
  DevUnmap : Z -> W -> W
}.

Definition max_cols : Z := 80.
Definition max_rows : Z := 25.
Definition tab_step : Z := 8.
Definition addr_reg : Z := 980.
Definition data_reg : Z := 981.
Definition VGA_REG_PAGEADDRHIGH : Z := 12.
Definition VGA_REG_PAGEADDRLOW : Z := 13.
Definition VGA_REG_CURSORHIGH : Z := 14.
Definition VGA_REG_CURSORLOW : Z := 15.
Definition LX_SCRFLG_SETCHAR : Z := 1.
Definition LX_SCRFLG_SETATTR : Z := 2.
Definition LX_SCRFLG_NOUPDCSR : Z := 4.
(** The attributes never change. *)
Definition std_attr : Z := 7.
Definition cur_attr : Z := 7.

Inductive int_ptr := NULL | CURSOR | CALLER.

Record screen (W : Type) := mk_screen {
  scr_world : W;
  scr_lock : bool;
  virt_scr_addr : Z;
  vram : list Z;                 (* the 4096 bytes mapped there *)
  cur_row : Z; cur_col : Z;
  arg_row : Z; arg_col : Z       (* the caller's variables *)
}.
Arguments mk_screen {W}. Arguments scr_world {W}. Arguments scr_lock {W}. Arguments virt_scr_addr {W}.
Arguments vram {W}. Arguments cur_row {W}. Arguments cur_col {W}. Arguments arg_row {W}. Arguments arg_col {W}.

Section ScrIO.
Context {W : Type} `{VgaDev W}.
Abbreviation V := (M (screen W)).

(** ** Access to the state *)

Definition on_vga {A} (f : W -> A * W) : V A := fun s =>
  let '(a, w) := f (scr_world s) in
  Ok (a, mk_screen w (scr_lock s) (virt_scr_addr s) (vram s) (cur_row s) (cur_col s) (arg_row s) (arg_col s)).
Definition on_vga_ (f : W -> W) : V unit := on_vga (fun w => (tt, f w)).
Definition set_lock (b : bool) : V unit := modify (fun s =>
  mk_screen (scr_world s) b (virt_scr_addr s) (vram s) (cur_row s) (cur_col s) (arg_row s) (arg_col s)).
Definition set_virt (p : Z) : V unit := modify (fun s =>
  mk_screen (scr_world s) (scr_lock s) p (vram s) (cur_row s) (cur_col s) (arg_row s) (arg_col s)).
Definition set_vram (l : list Z) : V unit := modify (fun s =>
  mk_screen (scr_world s) (scr_lock s) (virt_scr_addr s) l (cur_row s) (cur_col s) (arg_row s) (arg_col s)).

(** [spin_lock_irqsave] by the holder hangs. *)
Definition spin_lock_irqsave : V unit :=
  b ← gets scr_lock; if (b : bool) then throw Deadlock else set_lock true.
Definition spin_unlock_irqrestore : V unit := set_lock false.
Definition locked {A} (m : V A) : V A :=
  spin_lock_irqsave ≫= fun _ => rc ← m; spin_unlock_irqrestore ≫= fun _ => mret rc.

Definition load_row (p : int_ptr) : V Z :=
  match p with NULL => throw NullDeref | CURSOR => gets cur_row | CALLER => gets arg_row end.
Definition load_col (p : int_ptr) : V Z :=
  match p with NULL => throw NullDeref | CURSOR => gets cur_col | CALLER => gets arg_col end.
Definition store_row (p : int_ptr) (v : Z) : V unit :=
  match p with
  | NULL => throw NullDeref
  | CURSOR => modify (fun s => mk_screen (scr_world s) (scr_lock s) (virt_scr_addr s) (vram s) v (cur_col s)
                                 (arg_row s) (arg_col s))
  | CALLER => modify (fun s => mk_screen (scr_world s) (scr_lock s) (virt_scr_addr s) (vram s) (cur_row s)
                                 (cur_col s) v (arg_col s))
  end.
Definition store_col (p : int_ptr) (v : Z) : V unit :=
  match p with
  | NULL => throw NullDeref
  | CURSOR => modify (fun s => mk_screen (scr_world s) (scr_lock s) (virt_scr_addr s) (vram s) (cur_row s) v
                                 (arg_row s) (arg_col s))
  | CALLER => modify (fun s => mk_screen (scr_world s) (scr_lock s) (virt_scr_addr s) (vram s) (cur_row s)
                                 (cur_col s) (arg_row s) v)
  end.

(** A byte of the video memory; an index outside it is a fault. *)
Definition poke (i c : Z) : V unit :=
  l ← gets vram;
  if (0 <=? i) && (i <? length l) then set_vram (<[Z.to_nat i := u8 c]> l) else throw BadAccess.

(** ** The cursor *)

Definition LX_GET_VGAREG (reg : Z) : V Z := on_vga_ (outb_p reg addr_reg) ≫= fun _ => on_vga (inb_p data_reg).

(** Row and column. *)
Definition _LX_scr_get_cursor_pos : V (Z * Z) :=
  hi ← LX_GET_VGAREG VGA_REG_CURSORHIGH;
  lo ← LX_GET_VGAREG VGA_REG_CURSORLOW;
  let addr := Z.lor (Z.shiftl hi 8) lo in
  let row := addr / 80 in
  mret (row, addr - row * 80).

Definition LX_scr_get_cursor_pos : V (Z * Z) := locked _LX_scr_get_cursor_pos.

Definition _LX_scr_set_cursor_pos (row col : Z) : V Z :=
  let addr := row * 80 + col in
  on_vga_ (outb_p VGA_REG_CURSORHIGH addr_reg) ≫= fun _ =>
  on_vga_ (outb_p (Z.shiftr (Z.land addr 65280) 8) data_reg) ≫= fun _ =>
  on_vga_ (outb_p VGA_REG_CURSORLOW addr_reg) ≫= fun _ =>
  on_vga_ (outb_p (Z.land addr 255) data_reg) ≫= fun _ => mret 0.

Definition LX_scr_set_cursor_pos (row col : Z) : V Z := locked (_LX_scr_set_cursor_pos row col).

(** ** Rows *)

Fixpoint clear_loop (n : nat) (i addr : Z) : V unit :=
  match n with
  | O => mret tt
  | S n =>
      poke (addr + i * 2) 32 ≫= fun _ => poke (addr + (i * 2 + 1)) std_attr ≫= fun _ =>
      clear_loop n (i + 1) addr
  end.

Definition _LX_scr_clear_row (row : Z) : V Z :=
  v ← gets virt_scr_addr;
  if v =? 0 then mret (- ENXIO)
  else clear_loop (Z.to_nat max_cols) 0 (row * max_cols * 2) ≫= fun _ => mret 0.

Definition LX_scr_clear_row (row : Z) : V Z := locked (_LX_scr_clear_row row).

(** [memcpy] of [n] bytes inside the video memory. *)
Definition vram_copy (dst src n : nat) : V unit :=
  l ← gets vram;
  if (Nat.max dst src + n <=? length l)%nat
  then set_vram (take dst l ++ take n (drop src l) ++ drop (dst + n) l)
  else throw BadAccess.

Fixpoint scroll_loop (n addr sz : nat) : V unit :=
  match n with
  | O => mret tt
  | S n => vram_copy addr (addr + sz) sz ≫= fun _ => scroll_loop n (addr + sz) sz
  end.

Definition _LX_scr_scroll_up : V Z :=
  v ← gets virt_scr_addr;
  if v =? 0 then mret (- ENXIO)
  else
    scroll_loop (Z.to_nat (max_rows - 1)) 0 (Z.to_nat (max_cols * 2)) ≫= fun _ =>
    _LX_scr_clear_row (max_rows - 1) ≫= fun _ => mret 0.

Definition LX_scr_scroll_up : V Z := locked _LX_scr_scroll_up.

(** The row and column after the check. *)
Definition _LX_scr_check_csr_pos (row col : Z) : V (Z * Z) :=
  let p := if max_cols <=? col then (row + 1, 0) else (row, col) in
  if max_rows <=? p.1 then _LX_scr_scroll_up ≫= fun _ => mret (max_rows - 1, p.2)
  else mret p.

(** ** Characters *)

Definition has_flag (flags f : Z) : bool := negb (Z.land flags f =? 0).

(** [(row) ? cur_row : *row]: the cursor for every pointer but NULL. *)
Definition _LX_scr_put_char_at (row col : int_ptr) (c attr flags : Z) : V Z :=
  v ← gets virt_scr_addr;
  if v =? 0 then mret (- ENXIO) else
  r ← match row with NULL => load_row row | _ => gets cur_row end;
  k ← match col with NULL => load_col col | _ => gets cur_col end;
  p ← _LX_scr_check_csr_pos r k;
  p ← (if c =? 13 then mret (p.1, 0)
       else if c =? 10 then mret (p.1 + 1, p.2)
       else if c =? 9 then mret (p.1, Z.quot (p.2 + tab_step) tab_step * tab_step)
       else
         let index := p.1 * max_cols * 2 + p.2 * 2 in
         (if has_flag flags LX_SCRFLG_SETCHAR then poke index c else mret tt) ≫= fun _ =>
         (if has_flag flags LX_SCRFLG_SETATTR then poke (index + 1) attr else mret tt) ≫= fun _ =>
         mret (p.1, p.2 + 1));
  p ← _LX_scr_check_csr_pos p.1 p.2;
  store_row (match row with NULL => CURSOR | _ => row end) p.1 ≫= fun _ =>
  store_col (match col with NULL => CURSOR | _ => col end) p.2 ≫= fun _ =>
  (if has_flag flags LX_SCRFLG_NOUPDCSR then mret tt
   else r ← gets cur_row; k ← gets cur_col; _LX_scr_set_cursor_pos r k ≫= fun _ => mret tt) ≫= fun _ =>
  mret 0.

Definition LX_scr_put_char_at (row col : int_ptr) (c attr flags : Z) : V Z :=
  locked (_LX_scr_put_char_at row col c attr flags).

(** The text after a level "<0>" ... "<7>" of printk, and its attribute. *)
Definition level_attr (d : Z) : Z :=
  if d =? 48 then Z.lor 12 128 else if d =? 49 then Z.lor 4 128 else if d =? 50 then 12
  else if d =? 51 then 4 else if d =? 52 then 14 else if d =? 53 then 11 else if d =? 54 then 10 else 9.

Definition message_of (msg : list Z) : Z * list Z :=
  match msg with
  | 60 :: d :: 62 :: c => if (48 <=? d) && (d <=? 55) then (level_attr d, c) else (cur_attr, msg)
  | _ => (cur_attr, msg)
  end.

Fixpoint put_loop (row col : int_ptr) (attr flags : Z) (c : list Z) : V unit :=
  match c with
  | [] => mret tt
  | x :: c => _LX_scr_put_char_at row col x attr flags ≫= fun _ => put_loop row col attr flags c
  end.

Definition _LX_scr_put_string_at (row col : int_ptr) (msg : list Z) : V Z :=
  v ← gets virt_scr_addr;
  if v =? 0 then mret (- ENXIO) else
  let m := message_of msg in
  put_loop row col m.1 (Z.lor (Z.lor LX_SCRFLG_SETCHAR LX_SCRFLG_SETATTR) LX_SCRFLG_NOUPDCSR) m.2 ≫= fun _ =>
  r ← gets cur_row; k ← gets cur_col;
  _LX_scr_set_cursor_pos r k ≫= fun _ => mret 0.

Definition LX_scr_put_string_at (row col : int_ptr) (msg : list Z) : V Z :=
  locked (_LX_scr_put_string_at row col msg).
Definition LX_scr_put_string (msg : list Z) : V Z := LX_scr_put_string_at CURSOR CURSOR msg.

(** The row of the loop is never advanced. *)
Fixpoint clear_screen_loop (fuel : nat) (r : Z) : V unit :=
  match fuel with
  | O => throw OutOfFuel
  | S fuel => if r <? max_rows then LX_scr_clear_row r ≫= fun _ => clear_screen_loop fuel r else mret tt
  end.
Definition _LX_clear_screen (fuel : nat) : V Z :=
  v ← gets virt_scr_addr;
  if v =? 0 then mret (- ENXIO) else clear_screen_loop fuel 0 ≫= fun _ => mret 0.
Definition LX_clear_screen (fuel : nat) : V Z := locked (_LX_clear_screen fuel).

(** ** Opening and closing

    The animation is commented out; the page address that is read is not
    used.  [_LX_scr_get_cursor_pos] always succeeds. *)

Definition LX_open_screen : V Z :=
  spin_lock_irqsave ≫= fun _ =>
  hi ← LX_GET_VGAREG VGA_REG_PAGEADDRHIGH;
  lo ← LX_GET_VGAREG VGA_REG_PAGEADDRLOW;
  p ← _LX_scr_get_cursor_pos;
  store_row CURSOR p.1 ≫= fun _ => store_col CURSOR p.2 ≫= fun _ =>
  p ← _LX_scr_check_csr_pos p.1 p.2;
  store_row CURSOR p.1 ≫= fun _ => store_col CURSOR p.2 ≫= fun _ =>
  spin_unlock_irqrestore ≫= fun _ =>
  v ← gets virt_scr_addr;
  (if v =? 0 then a ← on_vga (DevMapPhys 753664); set_virt a else mret tt) ≫= fun _ =>
  v ← gets virt_scr_addr;
  mret (if v =? 0 then - ENXIO else 0).

Definition LX_close_screen : V Z :=
  locked (v ← gets virt_scr_addr;
          (if v =? 0 then mret tt else on_vga_ (DevUnmap v) ≫= fun _ => set_virt 0) ≫= fun _ => mret 0).
End ScrIO.

(** ** The terminal the console promises

    25 rows of 80 cells, a character and its attribute each, in one list. *)

Record term := mk_term { t_cells : list (Z * Z); t_row : Z; t_col : Z }.

Definition blank_cell : Z * Z := (32, std_attr).
Definition t_scroll (l : list (Z * Z)) : list (Z * Z) := drop 80 l ++ replicate 80 blank_cell.

(** A column past the end goes to the next row, a row past the end scrolls. *)
Definition t_wrap (l : list (Z * Z)) (row col : Z) : term :=
  let p := if 80 <=? col then (row + 1, 0) else (row, col) in
  if 25 <=? p.1 then mk_term (t_scroll l) 24 p.2 else mk_term l p.1 p.2.

Definition t_put (attr : Z) (t : term) (c : Z) : term :=
  if c =? 13 then mk_term (t_cells t) (t_row t) 0
  else if c =? 10 then t_wrap (t_cells t) (t_row t + 1) (t_col t)
  else if c =? 9 then t_wrap (t_cells t) (t_row t) ((t_col t / 8 + 1) * 8)
  else t_wrap (<[Z.to_nat (t_row t * 80 + t_col t) := (u8 c, u8 attr)]> (t_cells t)) (t_row t) (t_col t + 1).

Definition t_print (msg : list Z) (t : term) : term :=
  foldl (t_put (message_of msg).1) t (message_of msg).2.

Definition term_ok (t : term) : Prop :=
  length (t_cells t) = 2000%nat /\ 0 <= t_row t < 25 /\ 0 <= t_col t < 80.

(** The cells as the adapter stores them. *)
Definition flat (l : list (Z * Z)) : list Z := l ≫= fun p => [p.1; p.2].

Lemma flat_cons p l : flat (p :: l) = p.1 :: p.2 :: flat l.
Proof. done. Qed.
Lemma flat_app l k : flat (l ++ k) = flat l ++ flat k.
Proof. unfold flat. by rewrite bind_app. Qed.
Lemma flat_length l : length (flat l) = (2 * length l)%nat.
Proof. induction l as [|p l IH]; [done|]. rewrite flat_cons. cbn [length]. lia. Qed.
Lemma flat_drop n l : drop (2 * n) (flat l) = flat (drop n l).
Proof.
  revert l. induction n as [|n IH]; intros l; [done|]. destruct l as [|p l]; [by rewrite drop_nil|].
  rewrite flat_cons. replace (2 * S n)%nat with (S (S (2 * n))) by lia. cbn [drop]. apply IH.
Qed.
Lemma flat_insert i a b l :
  (i < length l)%nat -> <[(2 * i)%nat := a]> (<[(2 * i + 1)%nat := b]> (flat l)) = flat (<[i := (a, b)]> l).
Proof.
  revert i. induction l as [|p l IH]; intros i Hi; cbn [length] in Hi; [lia|]. rewrite flat_cons.
  destruct i as [|i]; [done|]. replace (2 * S i)%nat with (S (S (2 * i))) by lia.
  change ((S (S (2 * i)) + 1)%nat) with (S (S (2 * i + 1))). cbn. f_equal. f_equal. apply IH. lia.
Qed.

Section Screen.
Context {W : Type} `{VgaDev W}.
Implicit Types (s : screen W) (t : term).

Definition with_vram (l : list Z) s : screen W :=
  mk_screen (scr_world s) (scr_lock s) (virt_scr_addr s) l (cur_row s) (cur_col s) (arg_row s) (arg_col s).
Definition with_cursor (r k : Z) s : screen W :=
  mk_screen (scr_world s) (scr_lock s) (virt_scr_addr s) (vram s) r k (arg_row s) (arg_col s).
Definition with_world (w : W) s : screen W :=
  mk_screen w (scr_lock s) (virt_scr_addr s) (vram s) (cur_row s) (cur_col s) (arg_row s) (arg_col s).

Lemma with_vram_twice k l s : with_vram k (with_vram l s) = with_vram k s.
Proof. done. Qed.
Lemma with_vram_same s : with_vram (vram s) s = s.
Proof. by destruct s. Qed.

Lemma poke_ok (i : nat) (z c : Z) s :
  z = i -> (i < length (vram s))%nat -> poke z c s = Ok (tt, with_vram (<[i := u8 c]> (vram s)) s).
Proof.
  intros -> Hi. unfold poke. mstep. destruct (Z.leb_spec 0 i); [|lia].
  destruct (Z.ltb_spec i (length (vram s))); [|lia]. cbn [andb]. unfold set_vram. mstep.
  by rewrite Nat2Z.id.
Qed.

(** Clearing writes the blanks into the cells [B]. *)
Lemma clear_loop_spec n (i addr : Z) A B C s :
  0 <= i -> 0 <= addr -> vram s = A ++ B ++ C -> addr + 2 * i = length A -> length B = (2 * n)%nat ->
  clear_loop n i addr s = Ok (tt, with_vram (A ++ flat (replicate n blank_cell) ++ C) s).
Proof.
  intros Hi Ha. revert i A B s Hi. induction n as [|n IH]; intros i A B s Hi Hv HA HB.
  - destruct B; [|done]. change (A ++ flat (replicate 0 blank_cell) ++ C) with (A ++ [] ++ C).
    rewrite <- Hv. by rewrite with_vram_same.
  - destruct B as [|x [|y B]]; cbn [length] in HB; [lia..|]. cbn [clear_loop].
    rewrite M_bind_unfold, (poke_ok (length A)) by (rewrite ?Hv, ?length_app; cbn [length]; lia).
    rewrite M_bind_unfold, (poke_ok (S (length A))) by
      (cbn [vram with_vram]; rewrite ?Hv, ?length_insert, ?length_app; cbn [length]; lia).
    rewrite (IH (i + 1) (A ++ [32; 7]) B); [| lia | | rewrite length_app; cbn [length]; lia | lia].
    + rewrite !with_vram_twice. do 2 f_equal. f_equal. rewrite <- app_assoc. done.
    + cbn [vram with_vram]. rewrite Hv. rewrite insert_app_r_alt by lia.
      rewrite insert_app_r_alt by lia. rewrite Nat.sub_diag. replace (S (length A) - length A)%nat with 1%nat by lia.
      cbn. rewrite <- app_assoc. done.
Qed.

(** Scrolling moves everything up by [sz]. *)
Lemma scroll_loop_spec n a sz L s :
  vram s = take a (drop sz L) ++ drop a L -> (a + (n + 1) * sz <= length L)%nat ->
  scroll_loop n a sz s = Ok (tt, with_vram (take (a + n * sz) (drop sz L) ++ drop (a + n * sz) L) s).
Proof.
  revert a s. induction n as [|n IH]; intros a s Hv HL; cbn [scroll_loop].
  - replace (a + 0 * sz)%nat with a by lia. rewrite <- Hv. by rewrite with_vram_same.
  - assert (Hlen : length (take a (drop sz L)) = a) by (rewrite length_take, length_drop; lia).
    rewrite M_bind_unfold. unfold vram_copy. mstep. rewrite Hv.
    destruct (Nat.leb_spec (Nat.max a (a + sz) + sz) (length (take a (drop sz L) ++ drop a L)));
      [|rewrite length_app, length_drop, Hlen in *; lia].
    unfold set_vram. mstep. change (mk_screen _ _ _ ?l _ _ _ _) with (with_vram l s).
    rewrite (IH (a + sz)%nat); [| |lia].
    + rewrite with_vram_twice. replace (a + sz + n * sz)%nat with (a + S n * sz)%nat by lia. done.
    + cbn [vram with_vram]. rewrite take_app_le, take_take, Nat.min_id by lia.
      rewrite (drop_app_ge _ _ (a + sz)) by lia. rewrite Hlen.
      replace (a + sz - a)%nat with sz by lia. rewrite drop_drop.
      rewrite app_assoc. f_equal. rewrite <- (take_take_drop (drop sz L) a sz), drop_drop.
      by rewrite (Nat.add_comm sz a).
Qed.

(** The cells on the screen, and what else is mapped. *)
Definition shows (l : list (Z * Z)) s : Prop :=
  virt_scr_addr s <> 0 /\ length l = 2000%nat /\ exists rest, vram s = flat l ++ rest.

Definition shows_after (l : list (Z * Z)) s s' : Prop :=
  shows l s' /\ s' = with_vram (vram s') s.

Lemma t_scroll_length l : length l = 2000%nat -> length (t_scroll l) = 2000%nat.
Proof. intros E. unfold t_scroll. rewrite length_app, length_drop, length_replicate. lia. Qed.

Lemma clear_last_row l rest (A : list (Z * Z)) s :
  virt_scr_addr s <> 0 -> length A = 1920%nat -> length l = 80%nat -> vram s = flat A ++ flat l ++ rest ->
  _LX_scr_clear_row (max_rows - 1) s = Ok (0, with_vram (flat A ++ flat (replicate 80 blank_cell) ++ rest) s).
Proof.
  intros Hv HA Hl E. unfold _LX_scr_clear_row. mstep. destruct (Z.eqb_spec (virt_scr_addr s) 0); [done|].
  unfold max_cols, max_rows. change (Z.to_nat 80) with 80%nat.
  rewrite M_bind_unfold, (clear_loop_spec 80 0 ((25 - 1) * 80 * 2) (flat A) (flat l) rest);
    rewrite ?flat_length; [done|lia..|done|lia|lia].
Qed.

Lemma scroll_up_shows l s :
  shows l s -> exists s', _LX_scr_scroll_up s = Ok (0, s') /\ shows_after (t_scroll l) s s'.
Proof.
  intros (Hv & Hl & rest & E). unfold _LX_scr_scroll_up. mstep.
  destruct (Z.eqb_spec (virt_scr_addr s) 0); [done|]. unfold max_cols, max_rows.
  change (Z.to_nat (80 * 2)) with (2 * 80)%nat. change (Z.to_nat (25 - 1)) with 24%nat.
  assert (Hf : length (flat l) = 4000%nat) by (rewrite flat_length; lia).
  rewrite M_bind_unfold, (scroll_loop_spec 24 0 (2 * 80) (flat l ++ rest)); [|exact E|rewrite length_app; lia].
  assert (El : take (0 + 24 * (2 * 80)) (drop (2 * 80) (flat l ++ rest)) ++ drop (0 + 24 * (2 * 80)) (flat l ++ rest)
               = flat (drop 80 l) ++ flat (drop 1920 l) ++ rest).
  { rewrite (drop_app_le _ _ (2 * 80)) by lia. rewrite flat_drop.
    rewrite take_app_length' by (rewrite flat_length, length_drop; lia).
    rewrite drop_app_le by lia. change (0 + 24 * (2 * 80))%nat with (2 * 1920)%nat. by rewrite flat_drop. }
  rewrite El. rewrite M_bind_unfold, (clear_last_row (drop 1920 l) rest (drop 80 l));
    rewrite ?length_drop; [|done|lia|lia|done].
  eexists. split; [reflexivity|]. split; [|done]. split; [done|]. split; [by apply t_scroll_length|].
  exists rest. unfold t_scroll. cbn [vram with_vram]. by rewrite flat_app, app_assoc.
Qed.

Lemma check_csr_pos_wraps l row col s :
  shows l s ->
  let t := t_wrap l row col in
  exists s', _LX_scr_check_csr_pos row col s = Ok ((t_row t, t_col t), s') /\ shows_after (t_cells t) s s'.
Proof.
  intros Hs. unfold _LX_scr_check_csr_pos, t_wrap, max_cols, max_rows.
  set (p := if 80 <=? col then (row + 1, 0) else (row, col)).
  destruct (25 <=? p.1); cbn [t_row t_col t_cells].
  - destruct (scroll_up_shows l s Hs) as (s' & E & H'). rewrite M_bind_unfold, E. by exists s'.
  - exists s. split; [by destruct p|]. split; [done|]. by rewrite with_vram_same.
Qed.

(** The terminal and its cursor are the console's. *)
Definition represents t s : Prop :=
  shows (t_cells t) s /\ term_ok t /\ cur_row s = t_row t /\ cur_col s = t_col t.

Lemma t_wrap_ok l row col :
  length l = 2000%nat -> 0 <= row <= 25 -> 0 <= col <= 80 -> term_ok (t_wrap l row col).
Proof.
  intros Hl Hr Hc. unfold t_wrap, term_ok. pose proof (t_scroll_length l Hl).
  destruct (Z.leb_spec 80 col); cbn [fst snd];
    [destruct (Z.leb_spec 25 (row + 1))|destruct (Z.leb_spec 25 row)]; cbn [t_cells t_row t_col]; lia.
Qed.

Lemma t_wrap_inside l row col : row < 25 -> col < 80 -> t_wrap l row col = mk_term l row col.
Proof.
  intros Hr Hc. unfold t_wrap. destruct (Z.leb_spec 80 col); [lia|]. cbn [fst snd].
  by destruct (Z.leb_spec 25 row); [lia|].
Qed.

Lemma t_put_ok attr t c : term_ok t -> term_ok (t_put attr t c).
Proof.
  intros (Hl & Hr & Hc). unfold t_put. destruct (c =? 13).
  { split; [done|]. cbn [t_row t_col]. lia. }
  destruct (c =? 10); [apply t_wrap_ok; [done|lia..]|].
  destruct (c =? 9); [apply t_wrap_ok; [done|lia..]|].
  apply t_wrap_ok; [by rewrite length_insert|lia..].
Qed.

Lemma poke_cell l (i : nat) a b s (z : Z) :
  shows l s -> (i < length l)%nat -> z = 2 * i ->
  exists s', (poke z a ≫= fun _ => poke (z + 1) b) s = Ok (tt, s') /\
    shows_after (<[i := (u8 a, u8 b)]> l) s s'.
Proof.
  intros (Hv & Hl & rest & E) Hi ->.
  assert (Hf : length (flat l) = 4000%nat) by (rewrite flat_length; lia).
  rewrite M_bind_unfold, (poke_ok (2 * i)) by (rewrite ?E, ?length_app; lia).
  rewrite (poke_ok (2 * i + 1)) by (cbn [vram with_vram]; rewrite ?E, ?length_insert, ?length_app; lia).
  eexists. split; [reflexivity|]. split; [|done]. split; [done|]. split; [by rewrite length_insert|].
  exists rest. cbn [vram with_vram]. rewrite E, !insert_app_l by (rewrite ?length_insert; lia).
  by rewrite list_insert_insert_ne, flat_insert by lia.
Qed.

(** All that printing changes. *)
Definition printed s s' : Prop := s' = with_cursor (cur_row s') (cur_col s') (with_vram (vram s') s).

Lemma put_char_prints t s c attr :
  represents t s ->
  exists s', _LX_scr_put_char_at CURSOR CURSOR c attr 7 s = Ok (0, s') /\
    represents (t_put attr t c) s' /\ printed s s'.
Proof.
  intros (Hs & Ht & Er & Ec). pose proof (t_put_ok attr t c Ht) as Hok. destruct Ht as (Hl & Hr & Hc).
  pose proof Hs as (Hv & _). unfold _LX_scr_put_char_at. mstep.
  destruct (Z.eqb_spec (virt_scr_addr s) 0); [done|]. mstep. rewrite Er, Ec.
  assert (E1 : _LX_scr_check_csr_pos (t_row t) (t_col t) s = Ok ((t_row t, t_col t), s)).
  { unfold _LX_scr_check_csr_pos, max_cols, max_rows. destruct (Z.leb_spec 80 (t_col t)); [lia|]. cbn [fst].
    by destruct (Z.leb_spec 25 (t_row t)); [lia|]. }
  rewrite E1. cbn [fst snd].
  assert (Hend : forall l row col s1, shows_after l s s1 -> t_put attr t c = t_wrap l row col ->
    exists s', (p ← _LX_scr_check_csr_pos row col;
       store_row CURSOR p.1 ≫= fun _ => store_col CURSOR p.2 ≫= fun _ =>
       (if has_flag 7 LX_SCRFLG_NOUPDCSR then mret tt
        else r ← gets cur_row; k ← gets cur_col; _LX_scr_set_cursor_pos r k ≫= fun _ => mret tt) ≫= fun _ =>
       mret 0) s1 = Ok (0, s') /\ represents (t_put attr t c) s' /\ printed s s').
  { intros l row col s1 [Hs1 Es1] Et. destruct (check_csr_pos_wraps l row col s1 Hs1) as (s2 & E2 & Hs2 & Es2).
    rewrite M_bind_unfold, E2. rewrite <- Et in Hs2 |- *. cbn [fst snd store_row store_col].
    change (has_flag 7 LX_SCRFLG_NOUPDCSR) with true. mstep. eexists. split; [reflexivity|].
    split; [by split; [|split]|]. unfold printed. cbn. rewrite Es2, Es1. done. }
  assert (Hsame : shows_after (t_cells t) s s) by (split; [done|]; by rewrite with_vram_same).
  unfold t_put in Hend |- *.
  destruct (c =? 13) eqn:E13; [|destruct (c =? 10) eqn:E10; [|destruct (c =? 9) eqn:E9]].
  - apply (Hend _ _ _ s Hsame). cbn [fst snd]. by rewrite t_wrap_inside by lia.
  - by apply (Hend _ _ _ s Hsame).
  - apply (Hend _ _ _ s Hsame). cbn [fst snd]. unfold tab_step. f_equal. lia.
  - destruct (poke_cell (t_cells t) (Z.to_nat (t_row t * 80 + t_col t)) c attr s
      (t_row t * max_cols * 2 + t_col t * 2) Hs) as (s1 & E2 & Hs1); [lia|unfold max_cols; lia|].
    apply M_bind_Ok in E2 as ([] & s0 & E2 & E3).
    change (has_flag 7 LX_SCRFLG_SETCHAR) with true. change (has_flag 7 LX_SCRFLG_SETATTR) with true.
    cbn [fst snd]. rewrite !M_bind_unfold, E2, M_bind_unfold, E3. by apply (Hend _ _ _ s1 Hs1).
Qed.

Lemma put_loop_prints attr msg t s :
  represents t s ->
  exists s', put_loop CURSOR CURSOR attr 7 msg s = Ok (tt, s') /\
    represents (foldl (t_put attr) t msg) s' /\ printed s s'.
Proof.
  revert t s. induction msg as [|c msg IH]; intros t s Hr; cbn [put_loop foldl].
  - exists s. split; [done|]. split; [done|]. by destruct s.
  - destruct (put_char_prints t s c attr Hr) as (s1 & E1 & Hr1 & P1).
    destruct (IH (t_put attr t c) s1 Hr1) as (s2 & E2 & Hr2 & P2).
    exists s2. split; [by rewrite M_bind_unfold, E1|]. split; [done|].
    unfold printed in *. rewrite P2 at 1. rewrite P1. done.
Qed.
End Screen.

(** What is documented of the adapter: an index port that selects a register,
    and a data port that reads and writes it. *)
Class VgaLaws (W : Type) `{VgaDev W} := {
  vga_reg : Z -> W -> Z;
  vga_index : W -> Z;
  index_selects r w : vga_index (outb_p r addr_reg w) = r;
  index_keeps r k w : vga_reg k (outb_p r addr_reg w) = vga_reg k w;
  data_stores v k w :
    0 <= v < 256 -> vga_reg k (outb_p v data_reg w) = if k =? vga_index w then v else vga_reg k w;
  data_reads w : inb_p data_reg w = (vga_reg (vga_index w) w, w);
  reg_byte k w : 0 <= vga_reg k w < 256
}.

Section Cursor.
Context {W : Type} `{VgaLaws W}.
Implicit Types (s : screen W).

(** The position the two cursor registers hold. *)
Definition cursor_addr s : Z :=
  vga_reg VGA_REG_CURSORHIGH (scr_world s) * 256 + vga_reg VGA_REG_CURSORLOW (scr_world s).

Lemma high_byte a : 0 <= a < 65536 -> Z.shiftr (Z.land a 65280) 8 = a / 256.
Proof.
  intros Ha. rewrite Z.shiftr_land. change (Z.shiftr 65280 8) with (Z.ones 8).
  rewrite Z.land_ones, Z.shiftr_div_pow2 by lia. change (2 ^ 8) with 256. lia.
Qed.
Lemma low_byte a : Z.land a 255 = a mod 256.
Proof. change 255 with (Z.ones 8). by rewrite Z.land_ones by lia. Qed.
Lemma two_bytes h l : 0 <= l < 256 -> Z.lor (Z.shiftl h 8) l = h * 256 + l.
Proof.
  intros Hl. rewrite Z.shiftl_mul_pow2 by lia. change (2 ^ 8) with 256. rewrite <- Z.add_lor_land.
  assert (Z.land (h * 256) l = 0) as ->; [|lia]. apply Z.bits_inj'. intros n Hn.
  rewrite Z.land_spec, Z.bits_0. change 256 with (2 ^ 8). destruct (Z.lt_ge_cases n 8).
  - by rewrite Z.mul_pow2_bits_low by lia.
  - rewrite (Z.bits_above_log2 l n); [apply andb_false_r|lia|].
    destruct (decide (l = 0)) as [->|]; [cbn; lia|]. apply Z.log2_lt_pow2; [lia|].
    apply Z.lt_le_trans with (2 ^ 8); [cbn; lia|]. apply Z.pow_le_mono_r; lia.
Qed.

Lemma set_cursor_runs row col s :
  0 <= row * 80 + col < 65536 ->
  exists w, _LX_scr_set_cursor_pos row col s = Ok (0, with_world w s) /\
    cursor_addr (with_world w s) = row * 80 + col.
Proof.
  intros Ha. unfold _LX_scr_set_cursor_pos, on_vga_, on_vga. mstep. eexists. split; [reflexivity|].
  unfold cursor_addr. cbn [scr_world with_world]. rewrite high_byte, low_byte by done.
  rewrite !data_stores, !index_keeps, !data_stores, !index_keeps, !index_selects by lia. cbn. lia.
Qed.

Lemma get_vgareg_runs r s :
  LX_GET_VGAREG r s = Ok (vga_reg r (scr_world s), with_world (outb_p r addr_reg (scr_world s)) s).
Proof.
  unfold LX_GET_VGAREG, on_vga_, on_vga. mstep. cbn [scr_world].
  rewrite data_reads. by rewrite index_selects, index_keeps.
Qed.

Lemma get_cursor_runs s :
  exists w, _LX_scr_get_cursor_pos s =
    Ok ((cursor_addr s / 80, cursor_addr s - cursor_addr s / 80 * 80), with_world w s) /\
    cursor_addr (with_world w s) = cursor_addr s.
Proof.
  unfold _LX_scr_get_cursor_pos. rewrite M_bind_unfold, get_vgareg_runs, M_bind_unfold, get_vgareg_runs.
  cbn [scr_world with_world]. rewrite index_keeps, two_bytes by apply reg_byte.
  eexists. split; [reflexivity|]. unfold cursor_addr. cbn [scr_world with_world]. by rewrite !index_keeps.
Qed.

(** C29: printing a message on an open console does to the 25 rows and the
    cursor exactly what the terminal promises: characters and attributes go to
    the cells in order, control characters move the cursor, full rows wrap, the
    last row scrolls.  No byte outside the screen is written, whatever the
    message, and the hardware cursor ends where the next character will go. *)
Theorem put_string_prints t msg s :
  represents t s -> scr_lock s = false ->
  exists s', LX_scr_put_string msg s = Ok (0, s') /\ represents (t_print msg t) s' /\
    scr_lock s' = false /\ arg_row s' = arg_row s /\ arg_col s' = arg_col s /\
    cursor_addr s' = cur_row s' * 80 + cur_col s'.
Proof.
  intros Hr Hlk. set (s0 := mk_screen (scr_world s) true (virt_scr_addr s) (vram s) (cur_row s) (cur_col s)
    (arg_row s) (arg_col s)).
  destruct (put_loop_prints (message_of msg).1 (message_of msg).2 t s0 Hr) as (s1 & E1 & Hr1 & P1).
  destruct Hr1 as (Hs1 & Ht1 & Er1 & Ec1). pose proof Ht1 as (_ & Hrow & Hcol).
  destruct (set_cursor_runs (cur_row s1) (cur_col s1) s1 ltac:(lia)) as (w & E2 & Ha).
  exists (mk_screen w false (virt_scr_addr s1) (vram s1) (cur_row s1) (cur_col s1) (arg_row s1) (arg_col s1)).
  split.
  { unfold LX_scr_put_string, LX_scr_put_string_at, locked, spin_lock_irqsave, _LX_scr_put_string_at.
    mstep. rewrite Hlk. unfold set_lock at 1. mstep. fold s0. destruct Hr as [(Hv & _) _].
    destruct (Z.eqb_spec (virt_scr_addr s0) 0); [done|].
    change (Z.lor (Z.lor LX_SCRFLG_SETCHAR LX_SCRFLG_SETATTR) LX_SCRFLG_NOUPDCSR) with 7.
    rewrite M_bind_unfold, E1. mstep. rewrite E2. reflexivity. }
  split; [by split; [|split]|]. split; [done|]. split; [by rewrite P1|]. split; [by rewrite P1|]. exact Ha.
Qed.

(** The position registers hold after printing is the one read back. *)
Lemma cursor_read_back row col s :
  0 <= row -> 0 <= col < 80 -> row * 80 + col < 65536 -> scr_lock s = false ->
  exists s', (LX_scr_set_cursor_pos row col ≫= fun _ => LX_scr_get_cursor_pos) s = Ok ((row, col), s').
Proof.
  intros Hr Hc Ha Hl. unfold LX_scr_set_cursor_pos, LX_scr_get_cursor_pos, locked, spin_lock_irqsave.
  mstep. rewrite Hl. unfold set_lock, spin_unlock_irqrestore, set_lock. mstep.
  match goal with |- context [_LX_scr_set_cursor_pos row col ?x] =>
    destruct (set_cursor_runs row col x ltac:(lia)) as (w & E & Hw) end.
  rewrite E. mstep. cbn [scr_lock with_world]. mstep.
  match goal with |- context [_LX_scr_get_cursor_pos ?x] =>
    destruct (get_cursor_runs x) as (w' & E' & _); assert (Hx : cursor_addr x = row * 80 + col) by exact Hw end.
  rewrite E', Hx. mstep. eexists. do 3 f_equal; lia.
Qed.

Lemma check_position row col s :
  col < 80 -> (virt_scr_addr s <> 0 -> exists l, shows l s) ->
  exists v, _LX_scr_check_csr_pos row col s = Ok ((if 25 <=? row then 24 else row, col), with_vram v s).
Proof.
  intros Hc Hs. destruct (Z.eqb_spec (virt_scr_addr s) 0) as [Hv|Hv].
  - exists (vram s). rewrite with_vram_same. unfold _LX_scr_check_csr_pos, max_cols, max_rows.
    destruct (Z.leb_spec 80 col); [lia|]. cbn [fst snd]. destruct (25 <=? row); [|done].
    unfold _LX_scr_scroll_up. mstep. by rewrite Hv.
  - destruct (Hs Hv) as [l Hl]. destruct (check_csr_pos_wraps l row col s Hl) as (s' & E & _ & Es).
    exists (vram s'). rewrite E, Es. unfold t_wrap. destruct (Z.leb_spec 80 col); [lia|]. cbn [fst snd].
    by destruct (25 <=? row).
Qed.

(** A computation that returns, and what holds then. *)
Definition runs {A} (m : M (screen W) A) s (P : A -> screen W -> Prop) : Prop :=
  exists a s', m s = Ok (a, s') /\ P a s'.

Lemma runs_bind {A B} (m : M (screen W) A) (k : A -> M (screen W) B) s Q P :
  runs m s Q -> (forall a s', Q a s' -> runs (k a) s' P) -> runs (m ≫= k) s P.
Proof.
  intros (a & s1 & E & Ha) Hk. destruct (Hk a s1 Ha) as (b & s2 & E2 & Hb). exists b, s2.
  split; [|done]. by rewrite M_bind_unfold, E.
Qed.

(** The screen and the registers are as before. *)
Definition unmoved s s' : Prop :=
  virt_scr_addr s' = virt_scr_addr s /\ vram s' = vram s /\ cursor_addr s' = cursor_addr s.

Lemma vgareg_unmoved r s0 s : unmoved s0 s -> runs (LX_GET_VGAREG r) s (fun _ => unmoved s0).
Proof.
  intros (Hv & Hm & Hc). eexists _, _. split; [apply get_vgareg_runs|]. split; [done|]. split; [done|].
  rewrite <- Hc. unfold cursor_addr. cbn [scr_world with_world]. by rewrite !index_keeps.
Qed.

Lemma cursor_addr_range s : 0 <= cursor_addr s < 65536.
Proof.
  unfold cursor_addr. pose proof (reg_byte VGA_REG_CURSORHIGH (scr_world s)).
  pose proof (reg_byte VGA_REG_CURSORLOW (scr_world s)). lia.
Qed.

(** The end of [LX_open_screen]. *)
Lemma map_screen_runs s :
  runs (v ← gets virt_scr_addr;
    (if v =? 0 then a ← on_vga (DevMapPhys 753664); set_virt a else mret tt) ≫= fun _ =>
    v ← gets virt_scr_addr;
    mret (if v =? 0 then - ENXIO else 0)) s
   (fun rc s' => scr_lock s' = scr_lock s /\ cur_row s' = cur_row s /\ cur_col s' = cur_col s /\
      (rc = 0 <-> virt_scr_addr s' <> 0)).
Proof.
  unfold runs. mstep. destruct (Z.eqb_spec (virt_scr_addr s) 0) as [Hv|Hv].
  - unfold on_vga, set_virt. mstep. destruct (DevMapPhys 753664 (scr_world s)) as [p w]. mstep.
    eexists _, _. split; [reflexivity|]. cbn. destruct (Z.eqb_spec p 0) as [->|]; by repeat split.
  - mstep. eexists _, _. split; [reflexivity|]. destruct (Z.eqb_spec (virt_scr_addr s) 0); by repeat split.
Qed.

(** Opening the console takes the cursor over from the adapter, whatever
    its registers hold: the position is on the screen, and the result says
    whether the memory of the adapter could be mapped. *)
Theorem open_screen_position s :
  scr_lock s = false -> (virt_scr_addr s <> 0 -> exists l, shows l s) ->
  exists rc s', LX_open_screen s = Ok (rc, s') /\ scr_lock s' = false /\
    0 <= cur_row s' < 25 /\ 0 <= cur_col s' < 80 /\
    (cursor_addr s < 2000 -> cur_row s' * 80 + cur_col s' = cursor_addr s) /\
    (rc = 0 <-> virt_scr_addr s' <> 0).
Proof.
  intros Hl Hs. change (runs LX_open_screen s (fun rc s' => scr_lock s' = false /\
    0 <= cur_row s' < 25 /\ 0 <= cur_col s' < 80 /\
    (cursor_addr s < 2000 -> cur_row s' * 80 + cur_col s' = cursor_addr s) /\
    (rc = 0 <-> virt_scr_addr s' <> 0))).
  unfold LX_open_screen. set (a := cursor_addr s). pose proof (cursor_addr_range s : 0 <= a < 65536) as Ha.
  apply (runs_bind _ _ _ (fun _ => unmoved s)).
  { unfold runs, spin_lock_irqsave. mstep. rewrite Hl. by eexists _, _. }
  intros _ s1 H1. apply (runs_bind _ _ _ (fun _ => unmoved s)); [by apply vgareg_unmoved|].
  intros _ s2 H2. apply (runs_bind _ _ _ (fun _ => unmoved s)); [by apply vgareg_unmoved|].
  intros _ s3 H3. apply (runs_bind _ _ _ (fun p s' => p = (a / 80, a - a / 80 * 80) /\ unmoved s s')).
  { destruct (get_cursor_runs s3) as (w & E & Ew). eexists _, _. split; [exact E|]. destruct H3 as (Hv & Hm & Hc).
    rewrite Hc in *. split; [done|]. split; [done|]. by split. }
  intros p s4 [-> H4]. cbn [fst snd]. apply (runs_bind _ _ _ (fun _ => unmoved s)); [by eexists _, _|].
  intros _ s5 H5. apply (runs_bind _ _ _ (fun _ => unmoved s)); [by eexists _, _|].
  intros _ s6 (Hv & Hm & _).
  apply (runs_bind _ _ _ (fun p _ => p = (if 25 <=? a / 80 then 24 else a / 80, a - a / 80 * 80))).
  { destruct (check_position (a / 80) (a - a / 80 * 80) s6 ltac:(lia)) as (v & E); [|by eexists _, _].
    rewrite Hv. intros Hn. destruct (Hs Hn) as [l Hsl]. exists l. unfold shows in *. by rewrite Hv, Hm. }
  clear Hs Hl Hv Hm. intros p s7 ->. cbn [fst snd]. set (row := if 25 <=? a / 80 then 24 else a / 80).
  assert (Hrow : 0 <= row < 25 /\ (a < 2000 -> row = a / 80)).
  { unfold row. destruct (Z.leb_spec 25 (a / 80)); lia. }
  apply (runs_bind _ _ _ (fun _ s' => cur_row s' = row)); [by eexists _, _|].
  intros _ s8 H8. apply (runs_bind _ _ _ (fun _ s' => cur_row s' = row /\ cur_col s' = a - a / 80 * 80)); [by eexists _, _|].
  intros _ s9 H9.
  apply (runs_bind _ _ _ (fun _ s' => scr_lock s' = false /\ cur_row s' = row /\ cur_col s' = a - a / 80 * 80));
    [by eexists _, _|].
  intros _ s10 (Hl & Hr & Hc). destruct (map_screen_runs s10) as (rc & s' & E & El & Er & Ec & Hrc).
  exists rc, s'. split; [exact E|]. rewrite El, Er, Ec, Hl, Hr, Hc. split; [done|]. split; [lia|]. split; [lia|].
  split; [lia|done].
Qed.

(** Clearing the screen never returns: with the lock of the console it
    takes that lock again and hangs, and the loop below does not advance its
    row. *)
Theorem clear_screen_hangs s fuel :
  virt_scr_addr s <> 0 -> scr_lock s = false -> LX_clear_screen (S fuel) s = Err Deadlock.
Proof.
  intros Hv Hl. unfold LX_clear_screen, locked, spin_lock_irqsave, _LX_clear_screen. mstep. rewrite Hl.
  unfold set_lock. mstep. cbn [virt_scr_addr]. destruct (Z.eqb_spec (virt_scr_addr s) 0); [done|].
  cbn [clear_screen_loop].
  change (0 <? max_rows) with true. unfold LX_scr_clear_row, locked, spin_lock_irqsave. mstep. reflexivity.
Qed.
End Cursor.

(** ** A small adapter *)

Record vga := mk_vga { v_index : Z; v_regs : gmap Z Z; v_free : bool }.

#[export] Instance vga_VgaDev : VgaDev vga := {
  outb_p v p w :=
    if p =? addr_reg then mk_vga v (v_regs w) (v_free w)
    else if p =? data_reg then mk_vga (v_index w) (<[v_index w := v]> (v_regs w)) (v_free w) else w;
  inb_p _ w := (default 0 (v_regs w !! v_index w) mod 256, w);
  DevMapPhys _ w := (if v_free w then 4096 else 0, mk_vga (v_index w) (v_regs w) false);
  DevUnmap _ w := mk_vga (v_index w) (v_regs w) true
}.

#[export] Instance vga_VgaLaws : VgaLaws vga.
Proof.
  refine {| vga_reg k w := default 0 (v_regs w !! k) mod 256; vga_index := v_index |}; try done.
  - intros v k w Hv. cbn. destruct (Z.eqb_spec k (v_index w)) as [->|Hk].
    + rewrite lookup_insert_eq. cbn. lia.
    + by rewrite lookup_insert_ne.
  - intros k w. cbn. lia.
Defined.

(** The cursor registers hold row 99, and nothing is mapped yet. *)
Definition off : screen vga :=
  mk_screen (mk_vga 0 {[ 14 := 30; 15 := 240 ]} true) false 0 [] 24 0 0 0.
Definition empty_term : term := mk_term (replicate 2000 blank_cell) 24 78.
Definition console : screen vga :=
  mk_screen (mk_vga 0 ∅ false) false 4096 (flat (replicate 2000 blank_cell) ++ replicate 96 0) 24 78 5 5.

Lemma console_represents : represents empty_term console.
Proof.
  split; [|split; [|done]].
  - split; [done|]. split; [apply length_replicate|]. by eexists.
  - split; [apply length_replicate|]. cbn [t_row t_col empty_term]. lia.
Qed.

(** "<4>abc" at the end of the last row scrolls once. *)
Lemma put_string_prints_witness :
  exists s', LX_scr_put_string [60; 52; 62; 97; 98; 99] console = Ok (0, s') /\
    represents (t_print [60; 52; 62; 97; 98; 99] empty_term) s' /\
    scr_lock s' = false /\ arg_row s' = 5 /\ arg_col s' = 5 /\
    cursor_addr s' = cur_row s' * 80 + cur_col s'.
Proof. exact (put_string_prints empty_term _ console console_represents eq_refl). Defined.

Example scrolled_print :
  let t := t_print [60; 52; 62; 97; 98; 99] empty_term in
  take 3 (drop 1918 (t_cells t)) = [(97, 14); (98, 14); (99, 14)] /\ (t_row t, t_col t) = (24, 1).
Proof. split; vm_compute; reflexivity. Qed.

Lemma open_screen_position_witness :
  exists rc s', LX_open_screen off = Ok (rc, s') /\ scr_lock s' = false /\
    0 <= cur_row s' < 25 /\ 0 <= cur_col s' < 80 /\
    (cursor_addr off < 2000 -> cur_row s' * 80 + cur_col s' = cursor_addr off) /\
    (rc = 0 <-> virt_scr_addr s' <> 0).
Proof. apply (open_screen_position off); [reflexivity|]. intros []. reflexivity. Defined.

Lemma clear_screen_hangs_witness : LX_clear_screen 9 console = Err Deadlock.
Proof. apply (clear_screen_hangs console 8); [discriminate|reflexivity]. Defined.

(** A position of the caller is not used: the character goes to the cursor,
    and the cursor stays. *)
Example position_ignored :
  (fun s => (nth 3996 (vram s) 0, (arg_row s, arg_col s), (cur_row s, cur_col s))) <$>
    exec (LX_scr_put_char_at CALLER CALLER 120 7 7) console = Some (120, (24, 79), (24, 78)).
Proof. vm_compute. reflexivity. Qed.
Example no_position_faults : LX_scr_put_char_at NULL NULL 120 7 7 console = Err NullDeref.
Proof. reflexivity. Qed.
