(* ===== verification/LxafsDate.v ===== *)
(** * Dates of LXAFS (os2/os2/fs/lxafs/oofl_misc.c)

    OS/2 keeps the date of a file in two packed structures of the toolkit
    (FDATE: day 5, month 4, year 7 bits, from 1980; FTIME: two seconds 5,
    minutes 6, hours 5 bits).  The two conversions are compared with the
    calendar. *)

From S2P Require Import Prelude.

Record FDATE := mk_FDATE { day : Z; month : Z; year : Z }.
Record FTIME := mk_FTIME { twosecs : Z; minutes : Z; hours : Z }.

(** Stores into the bit fields. *)
Definition store_date (d m y : Z) : FDATE := mk_FDATE (d mod 32) (m mod 16) (y mod 128).
Definition store_time (t m h : Z) : FTIME := mk_FTIME (t mod 32) (m mod 64) (h mod 32).

Definition lxafs_day_n : list Z := [0; 31; 59; 90; 120; 151; 181; 212; 243; 273; 304; 334; 0; 0; 0; 0].
Definition day_n (i : Z) : Z := nth (Z.to_nat i) lxafs_day_n 0.

Section Dates.
(** sys_tz.tz_minuteswest *)
Context (tz_minuteswest : Z).

Definition lxafs_date_lx2unix (pDate : FDATE) (pTime : FTIME) : Z :=
  let y := year pDate in
  let m := month pDate in
  let secs := s32 (tz_minuteswest * 60) in
  let secs := s32 (secs + (twosecs pTime + minutes pTime * 60 + hours pTime * 3600)) in
  s32 (secs + s32 (86400 * (day pDate - 1 + day_n m + Z.quot y 4 + y * 365 -
                            (if (Z.land y 3 =? 0) && (m <? 2) then 1 else 0) + 3653))).

(** The first month whose entry is above [nl_day], 12 without one. *)
Fixpoint find_month (n : nat) (i nl_day : Z) : Z :=
  match n with
  | O => i
  | S n => if nl_day <? day_n i then i else find_month n (i + 1) nl_day
  end.

Definition lxafs_date_unix2lx (secs : Z) : FDATE * FTIME :=
  let secs := s32 (secs - s32 (tz_minuteswest * 60)) in
  let secs := if secs <? 315532800 then 315532800 else secs in
  let time := store_time (Z.quot (Z.rem secs 60) 2) (Z.rem (Z.quot secs 60) 60) (Z.rem (Z.quot secs 3600) 24) in
  let d := Z.quot secs 86400 - 3652 in
  let y := Z.quot d 365 in
  let y := if d <? Z.quot (y + 3) 4 + 365 * y then y - 1 else y in
  let d := d - (Z.quot (y + 3) 4 + 365 * y) in
  let r := if (d =? 59) && (Z.land y 3 =? 0) then (d, 2)
           else let nl_day := if negb (Z.land y 3 =? 0) || (d <=? 59) then d else d - 1 in
                (nl_day, find_month 12 0 nl_day) in
  (store_date (r.1 - day_n (r.2 - 1)) r.2 y, time).

(** ** The calendar from 1980 on *)

Definition leap (y : Z) : bool := y mod 4 =? 0.
Arguments leap : simpl never.
Definition month_len (y m : Z) : Z :=
  if m =? 2 then if leap y then 29 else 28
  else if (m =? 4) || (m =? 6) || (m =? 9) || (m =? 11) then 30 else 31.

(** Days before a year and before a month, by adding up. *)
Fixpoint days_before_year (y : nat) : Z :=
  match y with O => 0 | S y => days_before_year y + (if leap y then 366 else 365) end.
Fixpoint days_before_month (y : Z) (m : nat) : Z :=
  match m with O => 0 | S m => days_before_month y m + (if (m =? 0)%nat then 0 else month_len y m) end.

(** Days from 1 January 1970 to a date of the calendar. *)
Definition epoch_days (y m d : Z) : Z :=
  3652 + days_before_year (Z.to_nat y) + days_before_month y (Z.to_nat m) + (d - 1).

Definition valid_date (y m d : Z) : Prop := 0 <= y /\ 1 <= m <= 12 /\ 1 <= d <= month_len y m.

Lemma days_before_year_closed n : days_before_year n = 365 * n + (n + 3) / 4.
Proof.
  induction n as [|n IH]; [done|]. cbn [days_before_year]. rewrite IH. unfold leap.
  destruct (Z.eqb_spec (n mod 4) 0); lia.
Qed.

Lemma land_3 y : 0 <= y -> Z.land y 3 = y mod 4.
Proof. intros Hy. change 3 with (Z.ones 2). by rewrite Z.land_ones by lia. Qed.

(** [Z.to_nat] of literals. *)
Ltac eval_to_nat :=
  repeat match goal with
  | |- context [Z.to_nat ?z] => let r := eval vm_compute in (Z.to_nat z) in progress change (Z.to_nat z) with r
  end.

(** A goal about a month, for each of the twelve. *)
Ltac each_month m Hm :=
  assert (m = 1 \/ m = 2 \/ m = 3 \/ m = 4 \/ m = 5 \/ m = 6 \/ m = 7 \/ m = 8 \/ m = 9 \/ m = 10 \/ m = 11 \/ m = 12)
    as [-> | [-> | [-> | [-> | [-> | [-> | [-> | [-> | [-> | [-> | [-> | ->]]]]]]]]]]] by lia;
  try lia; eval_to_nat.

(** The table is the calendar's of a common year. *)
Lemma day_n_table y m : 1 <= m <= 12 ->
  days_before_month y (Z.to_nat m) = day_n (m - 1) + (if leap y && (2 <? m) then 1 else 0).
Proof.
  intros Hm. unfold day_n. destruct (leap y) eqn:E; each_month m Hm; cbn; unfold month_len; cbn; rewrite ?E; reflexivity.
Qed.

(** The loop stops at the first month that ends after the day. *)
Lemma find_month_from n i nl :
  let m := find_month n i nl in
  i <= m <= i + n /\ (forall k, i <= k < m -> day_n k <= nl) /\ (m < i + n -> nl < day_n m).
Proof.
  revert i. induction n as [|n IH]; intros i; cbn [find_month].
  { cbn zeta. split; [lia|]. split; [intros; lia|lia]. }
  destruct (Z.ltb_spec nl (day_n i)); cbn zeta.
  { split; [lia|]. split; [intros; lia|lia]. }
  destruct (IH (i + 1)) as (Hr & Hb & Ha).
  split; [lia|]. split; [|intros; apply Ha; lia].
  intros k Hk. destruct (decide (k = i)) as [->|]; [done|]. apply Hb. lia.
Qed.

Lemma find_month_spec nl : 0 <= nl < 365 ->
  let m := find_month 12 0 nl in 1 <= m <= 12 /\ day_n (m - 1) <= nl /\ (m <= 11 -> nl < day_n m).
Proof.
  intros Hn. destruct (find_month_from 12 0 nl) as (Hr & Hb & Ha). cbn zeta in *.
  destruct (decide (find_month 12 0 nl = 0)) as [E|E].
  - rewrite E in Ha. change (day_n 0) with 0 in Ha. lia.
  - split; [lia|]. split; [apply Hb; lia|]. intros. apply Ha. lia.
Qed.

(** The days of a month in the table. *)
Lemma day_n_month y m : 1 <= m <= 11 -> day_n m - day_n (m - 1) = month_len y m - (if leap y && (m =? 2) then 1 else 0).
Proof.
  intros Hm. unfold month_len, day_n. destruct (leap y) eqn:E; each_month m Hm; reflexivity.
Qed.

Lemma day_n_late m : 3 <= m <= 12 -> 59 <= day_n (m - 1).
Proof. intros Hm. unfold day_n. each_month m Hm; cbn; lia. Qed.

Lemma month_len_le y m : month_len y m <= 31.
Proof. unfold month_len. destruct (m =? 2), (leap y), ((m =? 4) || (m =? 6) || (m =? 9) || (m =? 11)); lia. Qed.

(** Month and day of month in the code, from the day of the year. *)
Definition split_year (y d : Z) : Z * Z :=
  if (d =? 59) && (y mod 4 =? 0) then (d, 2)
  else let nl_day := if negb (y mod 4 =? 0) || (d <=? 59) then d else d - 1 in
       (nl_day, find_month 12 0 nl_day).

Lemma split_year_spec y d :
  0 <= d < (if leap y then 366 else 365) ->
  let r := split_year y d in
  let k := r.1 - day_n (r.2 - 1) in
  1 <= r.2 <= 12 /\ 0 <= k < month_len y r.2 /\ days_before_month y (Z.to_nat r.2) + k = d.
Proof.
  intros Hd. unfold split_year. change (y mod 4 =? 0) with (leap y). cbn zeta.
  destruct ((d =? 59) && leap y) eqn:E.
  { apply andb_true_iff in E as [E%Z.eqb_eq El]. subst d. cbn [fst snd]. rewrite day_n_table by lia.
    unfold month_len. rewrite El. unfold day_n. eval_to_nat. cbn. lia. }
  cbn [fst snd]. set (nl := if negb (leap y) || (d <=? 59) then d else d - 1).
  assert (Hnl : 0 <= nl < 365 /\ nl = (if leap y && (59 <? d) then d - 1 else d)).
  { unfold nl. destruct (leap y); cbn [negb orb andb]; [|lia].
    destruct (Z.leb_spec d 59), (Z.ltb_spec 59 d); lia. }
  destruct Hnl as [Hnl En]. destruct (find_month_spec nl Hnl) as (Hm & Hlo & Hhi).
  set (m := find_month 12 0 nl) in *. split; [done|]. rewrite day_n_table by done.
  assert (Hlast : day_n 11 = 334) by reflexivity. assert (H1 : day_n 1 = 31) by reflexivity.
  assert (H2 : day_n 2 = 59) by reflexivity.
  assert (Hmono : m <= 2 -> day_n m <= 59).
  { intros. assert (m = 1 \/ m = 2) as [-> | ->] by lia; lia. }
  destruct (decide (m = 12)) as [E12|E12].
  - rewrite E12 in *. change (12 - 1) with 11 in *. rewrite Hlast in *.
    change (2 <? 12) with true. change (month_len y 12) with 31.
    destruct (leap y); cbn [andb] in *; [destruct (Z.ltb_spec 59 d)|]; lia.
  - pose proof (day_n_month y m ltac:(lia)) as Hlen. specialize (Hhi ltac:(lia)).
    assert (Hge : leap y = true -> 3 <= m -> 59 <= nl).
    { intros _ H3. pose proof (day_n_late m ltac:(lia)). lia. }
    destruct (leap y); cbn [andb] in *; [|lia].
    destruct (Z.ltb_spec 2 m), (Z.eqb_spec m 2), (Z.ltb_spec 59 d); lia.
Qed.

(** The year of a day since 1980, as the code finds it. *)
Definition year_of (d : Z) : Z :=
  let y := d / 365 in if d <? (y + 3) / 4 + 365 * y then y - 1 else y.

Lemma year_of_spec d : 0 <= d <= 21203 ->
  let y := year_of d in
  0 <= y <= 58 /\ 0 <= d - ((y + 3) / 4 + 365 * y) < (if leap y then 366 else 365).
Proof.
  intros Hd. unfold year_of, leap. cbn zeta.
  destruct (Z.ltb_spec d ((d / 365 + 3) / 4 + 365 * (d / 365))).
  - destruct (Z.eqb_spec ((d / 365 - 1) mod 4) 0); lia.
  - destruct (Z.eqb_spec (d / 365 mod 4) 0); lia.
Qed.

Lemma unix2lx_steps secs :
  let t := Z.max (secs - tz_minuteswest * 60) 315532800 in
  let d := t / 86400 - 3652 in
  let y := year_of d in
  let r := split_year y (d - ((y + 3) / 4 + 365 * y)) in
  -1440 <= tz_minuteswest <= 1440 -> -2147483648 + 86400 <= secs < 2147483648 - 86400 ->
  lxafs_date_unix2lx secs =
  (store_date (r.1 - day_n (r.2 - 1)) r.2 y, store_time (t mod 60 / 2) (t / 60 mod 60) (t / 3600 mod 24)).
Proof.
  cbn zeta. intros Hz Hs. unfold lxafs_date_unix2lx.
  rewrite (s32_small (tz_minuteswest * 60)), s32_small by lia.
  replace (if _ <? 315532800 then 315532800 else secs - tz_minuteswest * 60)
    with (Z.max (secs - tz_minuteswest * 60) 315532800)
    by (destruct (Z.ltb_spec (secs - tz_minuteswest * 60) 315532800); lia).
  set (t := Z.max _ _). assert (Ht : 315532800 <= t < 2147483648) by lia. clearbody t.
  rewrite !(Z.quot_div_nonneg t), !(Z.rem_mod_nonneg t) by lia.
  rewrite (Z.quot_div_nonneg (t mod 60)), (Z.rem_mod_nonneg (t / 60)), (Z.rem_mod_nonneg (t / 3600)) by lia.
  set (d := t / 86400 - 3652). assert (Hd : 0 <= d <= 21203) by lia. clearbody d.
  rewrite (Z.quot_div_nonneg d) by lia. rewrite (Z.quot_div_nonneg (d / 365 + 3)) by lia.
  fold (year_of d). destruct (year_of_spec d Hd) as [Hy _]. set (y := year_of d) in *. clearbody y.
  rewrite (Z.quot_div_nonneg (y + 3)), land_3 by lia. reflexivity.
Qed.

(** A time of the kernel in the years 1980 to 2037, moved to the local zone
    and not before 1980, becomes the month, the year and the time of day the
    calendar has for it; but the day field is the day of the month less one, so
    the first of a month is stored as day 0. *)
Theorem unix2lx_calendar secs :
  let t := Z.max (secs - tz_minuteswest * 60) 315532800 in
  -1440 <= tz_minuteswest <= 1440 -> -2147483648 + 86400 <= secs < 2147483648 - 86400 ->
  let '(d, tm) := lxafs_date_unix2lx secs in
  valid_date (year d) (month d) (day d + 1) /\
  epoch_days (year d) (month d) (day d + 1) = t / 86400 /\
  hours tm = t mod 86400 / 3600 /\ minutes tm = t mod 3600 / 60 /\ twosecs tm = t mod 60 / 2.
Proof.
  cbn zeta. intros Hz Hs. rewrite unix2lx_steps by done. cbn zeta.
  set (t := Z.max _ _). assert (Ht : 315532800 <= t < 2147483648) by lia. clearbody t.
  set (d := t / 86400 - 3652). assert (Hd : 0 <= d <= 21203) by lia.
  destruct (year_of_spec d Hd) as [Hy Hr]. set (y := year_of d) in *.
  destruct (split_year_spec y _ Hr) as (Hm & Hk & Hsum). set (r := split_year _ _) in *.
  pose proof (month_len_le y r.2).
  unfold store_date, store_time. cbn [year month day hours minutes twosecs].
  rewrite (Z.mod_small y), (Z.mod_small r.2), (Z.mod_small (r.1 - _)) by lia.
  split; [unfold valid_date; lia|]. split; [|lia].
  unfold epoch_days. rewrite days_before_year_closed, Z2Nat.id by lia. lia.
Qed.

(** The other conversion is a month late and takes double seconds for
    seconds: a date gives the time of the same day one month later, and a date
    in December that of January of the same year, a day late in leap years. *)
Theorem lx2unix_late d tm :
  valid_date (year d) (month d) (day d) -> year d <= 57 -> -1440 <= tz_minuteswest <= 1440 ->
  0 <= twosecs tm < 30 -> 0 <= minutes tm < 60 -> 0 <= hours tm < 24 ->
  lxafs_date_lx2unix d tm =
    tz_minuteswest * 60 + twosecs tm + minutes tm * 60 + hours tm * 3600 +
    86400 * (if month d =? 12
             then epoch_days (year d) 1 (day d) + (if leap (year d) then 1 else 0)
             else epoch_days (year d) (month d + 1) (day d)).
Proof.
  intros (Hy & Hm & Hd) Hy' Hz Ht Hmi Hh. unfold lxafs_date_lx2unix.
  pose proof (month_len_le (year d) (month d)).
  rewrite (Z.quot_div_nonneg (year d)), land_3 by lia. change (year d mod 4 =? 0) with (leap (year d)).
  set (days := if month d =? 12 then _ else _).
  assert (Hdays : day d - 1 + day_n (month d) + year d / 4 + year d * 365 -
      (if leap (year d) && (month d <? 2) then 1 else 0) + 3653 = days /\ 0 <= days <= 24838).
  { unfold days, epoch_days. rewrite days_before_year_closed, Z2Nat.id by lia.
    unfold leap. destruct (Z.eqb_spec (month d) 12) as [E|E].
    - rewrite E. change (day_n 12) with 0. change (days_before_month _ (Z.to_nat 1)) with 0.
      change (12 <? 2) with false. destruct (Z.eqb_spec (year d mod 4) 0); cbn [andb]; lia.
    - rewrite day_n_table by lia. replace (month d + 1 - 1) with (month d) by lia. unfold leap.
      assert (Hn : 0 <= day_n (month d) <= 334).
      { clear -Hm. unfold day_n. destruct d as [a m c]. cbn in Hm |- *. each_month m Hm; cbn; lia. }
      destruct (Z.eqb_spec (year d mod 4) 0), (Z.ltb_spec (month d) 2), (Z.ltb_spec 2 (month d + 1)); cbn [andb]; lia. }
  destruct Hdays as [-> Hb]. clearbody days. rewrite (s32_small (tz_minuteswest * 60)) by lia.
  rewrite (s32_small (86400 * days)) by lia.
  rewrite (s32_small (tz_minuteswest * 60 + _)) by lia. rewrite s32_small by lia. lia.
Qed.
End Dates.

(** ** Witnesses *)

(** 10 June 2005, 12:34:56 *)
Lemma unix2lx_calendar_witness :
  let '(d, tm) := lxafs_date_unix2lx 0 1118406896 in
  valid_date (year d) (month d) (day d + 1) /\
  epoch_days (year d) (month d) (day d + 1) = 12944 /\
  hours tm = 12 /\ minutes tm = 34 /\ twosecs tm = 28.
Proof. apply (unix2lx_calendar 0 1118406896); lia. Defined.

Example june_tenth : lxafs_date_unix2lx 0 1118406896 = (mk_FDATE 9 6 25, mk_FTIME 28 34 12).
Proof. reflexivity. Qed.

(** Reading back gives 9 July. *)
Lemma lx2unix_late_witness :
  lxafs_date_lx2unix 0 (mk_FDATE 9 6 25) (mk_FTIME 28 34 12) =
  0 * 60 + 28 + 34 * 60 + 12 * 3600 + 86400 * epoch_days 25 7 9.
Proof.
  apply (lx2unix_late 0 (mk_FDATE 9 6 25) (mk_FTIME 28 34 12)); cbn [year month day twosecs minutes hours];
    [|lia..]. unfold valid_date. change (month_len 25 6) with 30. lia.
Defined.

Example written_and_read_back :
  let '(d, tm) := lxafs_date_unix2lx 0 1118406896 in lxafs_date_lx2unix 0 d tm = 1118406896 + 29 * 86400 - 28.
Proof. reflexivity. Qed.
