(* ===== verification/LxafsName.v ===== *)
(** * Names and paths of LXAFS (os2/os2/fs/lxafs: oofl_name.c, oofl_dentry.c,
    the path functions of oofl_misc.c)

    OS/2 ignores the case of names and blanks and dots at their end.  A name of
    the file system is the bytes it consists of and a length; a path is a string
    without its NUL, and a buffer has LX_MAXPATH bytes. *)

From S2P Require Import Prelude CString DevHlp Memory Heap DaemonQueue DosApi DaemonCmd.

Definition ENAMETOOLONG : Z := 36.

(** ** Names *)

Definition not_allowed_char (c : Z) : bool :=
  (c <? 32) || (c =? 34) || (c =? 42) || (c =? 47) || (c =? 58) || (c =? 60) ||
  (c =? 62) || (c =? 63) || (c =? 92) || (c =? 124).

Definition lxafs_upcase (a : Z) : Z := if (97 <=? a) && (a <=? 122) then u8 (a - 97 + 65) else a.

Definition at_ (name : list Z) (i : nat) : Z := nth i name 0.

Fixpoint adjust_loop (name : list Z) (len : nat) : nat :=
  match len with
  | O => O
  | S n => if (at_ name n =? 46) || (at_ name n =? 32) then adjust_loop name n else len
  end.

(** The length afterwards. *)
Definition lxafs_adjust_length (name : list Z) (len : nat) : nat :=
  if (len =? 0)%nat then len
  else if (len =? 1)%nat && (at_ name 0 =? 46) then len
  else if (len =? 2)%nat && (at_ name 0 =? 46) && (at_ name 1 =? 46) then len
  else adjust_loop name len.

Fixpoint chk_loop (name : list Z) (n i : nat) : bool :=
  match n with
  | O => false
  | S n => if not_allowed_char (at_ name i) then true else chk_loop name n (S i)
  end.

(** The code and the length afterwards. *)
Definition lxafs_chk_name (name : list Z) (len : nat) : Z * nat :=
  if (254 <? len)%nat then (- ENAMETOOLONG, len) else
  let len := lxafs_adjust_length name len in
  if (len =? 0)%nat then (- EINVAL, len)
  else if chk_loop name len 0 then (- EINVAL, len)
  else if (len =? 1)%nat && (at_ name 0 =? 46) then (- EINVAL, len)
  else if (len =? 2)%nat && ((at_ name 0 =? 46) && (at_ name 1 =? 46)) then (- EINVAL, len)
  else (0, len).

Fixpoint compare_loop (n1 n2 : list Z) (n i : nat) : option Z :=
  match n with
  | O => None
  | S n =>
      let c1 := lxafs_upcase (at_ n1 i) in
      let c2 := lxafs_upcase (at_ n2 i) in
      if c1 <? c2 then Some (-1) else if c2 <? c1 then Some 1 else compare_loop n1 n2 n (S i)
  end.

Definition lxafs_compare_names (n1 : list Z) (l1 : nat) (n2 : list Z) (l2 : nat) (last : bool) : Z :=
  if last then -1 else
  match compare_loop n1 n2 (Nat.min l1 l2) 0 with
  | Some r => r
  | None => if (l1 <? l2)%nat then -1 else if (l2 <? l1)%nat then 1 else 0
  end.

(** ** The directory cache *)

(** linux/dcache.h *)
Definition partial_name_hash (c prevhash : Z) : Z := u32 ((prevhash + Z.shiftl c 4 + Z.shiftr c 4) * 11).

Fixpoint hash_loop (name : list Z) (n i : nat) (hash : Z) : Z :=
  match n with
  | O => hash
  | S n => hash_loop name n (S i) (partial_name_hash (lxafs_upcase (at_ name i)) hash)
  end.

Definition lxafs_d_hash (name : list Z) (len : nat) : Z :=
  let l :=
    if (len =? 1)%nat && (at_ name 0 =? 46) then len
    else if (len =? 2)%nat && ((at_ name 0 =? 46) || (at_ name 1 =? 46)) then len
    else lxafs_adjust_length name len in
  hash_loop name l 0 0.

(** 0: the names are the same. *)
Definition lxafs_d_compare (a : list Z) (alen : nat) (b : list Z) (blen : nat) : Z :=
  let al := lxafs_adjust_length a alen in
  let r := lxafs_chk_name b blen in
  if negb (r.1 =? 0) then 1
  else if negb (lxafs_compare_names a al b r.2 false =? 0) then 1 else 0.

(** ** Paths *)

(** What the functions use of an inode: its file system and its link info. *)
Record lxinode := mk_lxinode { is_lxafs : bool; li_name : list Z; li_xoffset : nat }.

Definition LXAFS_BUILDFNAME_S : Z := 1.

(** [strcpy] and [strcat] into a buffer of LX_MAXPATH bytes. *)
Definition fits_path (s : list Z) : res (list Z) :=
  if (length s <? LX_MAXPATH)%nat then Ok s else Err BadAccess.

(** What is written, if anything, and the code: always -ENOENT. *)
Definition lxafs_build_fullname_i (buflen : nat) (inode : lxinode) (flags : Z) : option (list Z) * Z :=
  ((if is_lxafs inode then
      Some (strncpy_field buflen (if negb (Z.land flags LXAFS_BUILDFNAME_S =? 0) then li_name inode
                                  else drop (li_xoffset inode) (li_name inode)))
    else None), - ENOENT).

Definition lxafs_build_fullname_from_parent_i (parent : lxinode) (name : list Z) (flags : Z) : res (list Z) :=
  pname ←
    (if is_lxafs parent then
       array_str (strncpy_field LX_MAXPATH
         (if negb (Z.land flags LXAFS_BUILDFNAME_S =? 0) then li_name parent
          else drop (li_xoffset parent) (li_name parent)))
     else match (lxafs_build_fullname_i LX_MAXPATH parent flags).1 with
          | Some b => array_str b
          | None => Ok []
          end);
  buf ← fits_path pname;
  buf ← (if negb (length pname =? 0)%nat && negb (at_ pname (length pname - 1) =? 47)
         then fits_path (buf ++ [47]) else Ok buf);
  fits_path (buf ++ name).

(** The directory the file system shows: a drive, or the root path of the
    driver (an array of LX_MAXPATH bytes) with its backslashes turned. *)
Definition turned (c : Z) : Z := if c =? 92 then 47 else c.

Definition lxafs_get_root_path_s (drive_no : Z) (lx_root_path : list Z) : res (list Z) :=
  if negb (drive_no =? 0) then Ok [u8 (drive_no - 1 + 65); 58]
  else
    dir ← array_str (turned <$> lx_root_path);
    match last dir with
    | None => Err BadAccess                   (* dir[-1] *)
    | Some c => Ok (if c =? 47 then removelast dir else dir)
    end.

(** [strnicmp] on strings, as a test for 0. *)
Fixpoint strnicmp_eq (len : nat) (a b : list Z) : bool :=
  match len with
  | O => true
  | S len =>
      match a, b with
      | [], [] => true
      | c1 :: a, c2 :: b => ((c1 =? c2) || (tolower c1 =? tolower c2)) && strnicmp_eq len a b
      | _, _ => false
      end
  end.

Record lxafs_super_info := mk_super { rootpath : list Z; xrootpath : list Z }.

Fixpoint search_super (opath : list Z) (l : list lxafs_super_info) : res (option (list Z)) :=
  match l with
  | [] => Ok None
  | sbi :: l =>
      if strnicmp_eq (length (rootpath sbi)) (rootpath sbi) opath
      then if (LX_MAXPATH <=? length (rootpath sbi) + 1)%nat then Err BadAccess
           else lx ← fits_path (xrootpath sbi ++ drop (length (rootpath sbi) + 1) opath); Ok (Some lx)
      else search_super opath l
  end.

(** The code and the path; [None]: nothing is written. *)
Definition LX_os2path_to_lx (os2path : list Z) (lxafs_sblist : list lxafs_super_info) : res (Z * option (list Z)) :=
  opath ← fits_path (turned <$> take LX_MAXPATH os2path);
  r ← search_super opath lxafs_sblist;
  Ok (match r with Some lx => (0, Some lx) | None => (- ENOENT, None) end).

(** For a file of LXAFS; [buflen] bytes of the name array are copied. *)
Definition LX_os2path_from_file (name : list Z) (buflen : nat) : list Z :=
  (fun c => if c =? 47 then 92 else c) <$> take buflen (strncpy_field LX_MAXPATH name).

(** ** Names as OS/2 sees them *)

Definition ignored (c : Z) : bool := (c =? 46) || (c =? 32).

Fixpoint drop_while (P : Z -> bool) (l : list Z) : list Z :=
  match l with [] => [] | c :: l' => if P c then drop_while P l' else l end.

(** Without the dots and blanks at the end. *)
Definition trim (l : list Z) : list Z := reverse (drop_while ignored (reverse l)).

Definition dots (l : list Z) : Prop := l = [46] \/ l = [46; 46].
#[export] Instance dots_dec l : Decision (dots l).
Proof. unfold dots. apply _. Defined.

Definition effective (l : list Z) : list Z := if decide (dots l) then l else trim l.

Lemma trim_snoc l c : trim (l ++ [c]) = if ignored c then trim l else l ++ [c].
Proof.
  unfold trim. rewrite reverse_app. change (reverse [c]) with [c]. cbn [app drop_while].
  destruct (ignored c); [done|]. by rewrite reverse_cons, reverse_involutive.
Qed.

Lemma trim_last l c : last (trim l) = Some c -> ignored c = false.
Proof.
  induction l as [|x l IH] using rev_ind; [done|]. rewrite trim_snoc.
  destruct (ignored x) eqn:E; [done|]. rewrite last_snoc. by intros [= <-].
Qed.

Lemma trim_prefix l : exists k, trim l = take k l /\ (k <= length l)%nat.
Proof.
  induction l as [|x l (k & E & Hk)] using rev_ind; [by exists O|]. rewrite trim_snoc.
  destruct (ignored x).
  - exists k. rewrite take_app_le by done. rewrite length_app. split; [done|lia].
  - exists (length (l ++ [x])). by rewrite take_ge.
Qed.

Lemma trim_take l : trim l = take (length (trim l)) l.
Proof. destruct (trim_prefix l) as (k & E & Hk). rewrite E, length_take. by rewrite Nat.min_l. Qed.

Lemma take_snoc_nth (l : list Z) n : (n < length l)%nat -> take (S n) l = take n l ++ [at_ l n].
Proof.
  intros Hn. unfold at_. rewrite (take_S_r l n (nth n l 0)); [done|].
  destruct (nth_lookup_or_length l n 0); [done|lia].
Qed.

Lemma drop_at (l : list Z) i : (i < length l)%nat -> drop i l = at_ l i :: drop (S i) l.
Proof.
  intros Hi. apply drop_S. unfold at_. destruct (nth_lookup_or_length l i 0); [done|lia].
Qed.

Lemma adjust_loop_trim name len :
  (len <= length name)%nat -> adjust_loop name len = length (trim (take len name)).
Proof.
  induction len as [|n IH]; intros Hl; [done|]. cbn [adjust_loop]. rewrite take_snoc_nth, trim_snoc by lia.
  change ((at_ name n =? 46) || (at_ name n =? 32)) with (ignored (at_ name n)).
  destruct (ignored (at_ name n)); [apply IH; lia|]. rewrite length_app, length_take. cbn [length]. lia.
Qed.

(** A name of one or two bytes. *)
Lemma take_one name : (1 <= length name)%nat -> take 1 name = [at_ name 0].
Proof. destruct name; [cbn; lia|done]. Qed.
Lemma take_two name : (2 <= length name)%nat -> take 2 name = [at_ name 0; at_ name 1].
Proof. destruct name as [|a [|b name]]; [cbn; lia|cbn; lia|done]. Qed.

Lemma adjust_length_spec name len :
  (len <= length name)%nat ->
  lxafs_adjust_length name len = length (effective (take len name)) /\
  take (lxafs_adjust_length name len) name = effective (take len name).
Proof.
  intros Hl. set (l := take len name).
  assert (Hlen : length l = len) by (unfold l; rewrite length_take; lia).
  assert (E : lxafs_adjust_length name len = length (effective l)).
  { unfold lxafs_adjust_length, effective. destruct (decide (dots l)) as [Hd|Hd].
    - rewrite Hlen. destruct Hd as [Hd|Hd]; rewrite Hd in Hlen; cbn [length] in Hlen; subst len; cbn [Nat.eqb andb].
      + unfold l in Hd. rewrite take_one in Hd by done. by injection Hd as ->.
      + unfold l in Hd. rewrite take_two in Hd by done. by injection Hd as -> ->.
    - destruct (Nat.eqb_spec len 0) as [->|]; [done|].
      destruct ((len =? 1)%nat && (at_ name 0 =? 46)) eqn:E1.
      { exfalso. apply Hd. left. apply andb_true_iff in E1 as [->%Nat.eqb_eq E1%Z.eqb_eq].
        unfold l. by rewrite take_one, E1. }
      destruct ((len =? 2)%nat && (at_ name 0 =? 46) && (at_ name 1 =? 46)) eqn:E2.
      { exfalso. apply Hd. right. rewrite !andb_true_iff in E2. destruct E2 as [[->%Nat.eqb_eq E2%Z.eqb_eq] E3%Z.eqb_eq].
        unfold l. by rewrite take_two, E2, E3. }
      by apply adjust_loop_trim. }
  split; [done|]. rewrite E. unfold effective. destruct (decide (dots l)).
  - by rewrite Hlen.
  - assert (Hk : (length (trim l) <= len)%nat).
    { destruct (trim_prefix l) as (k & -> & Hk). rewrite length_take. lia. }
    etransitivity; [|symmetry; apply trim_take]. unfold l in *.
    by rewrite take_take, Nat.min_l.
Qed.

Lemma chk_loop_spec name n i :
  (i + n <= length name)%nat -> chk_loop name n i = existsb not_allowed_char (take n (drop i name)).
Proof.
  revert i. induction n as [|n IH]; intros i Hi; [done|]. cbn [chk_loop].
  rewrite (drop_at name i) by lia. cbn. rewrite IH by lia. by destruct (not_allowed_char _).
Qed.

(** A name is accepted exactly when it has at most 254 bytes, and, without
    the dots and blanks at its end, is not empty, not "." or "..", and free of
    the characters OS/2 reserves; the length that is passed back is the one
    without that end. *)
Theorem chk_name_spec name len :
  (len <= length name)%nat ->
  lxafs_chk_name name len =
    if (254 <? len)%nat then (- ENAMETOOLONG, len) else
    let e := effective (take len name) in
    (if decide (e = [] \/ dots e \/ existsb not_allowed_char e = true) then - EINVAL else 0, length e).
Proof.
  intros Hl. unfold lxafs_chk_name. destruct (254 <? len)%nat; [done|]. cbn zeta.
  destruct (adjust_length_spec name len Hl) as [E Et]. set (e := effective _) in *. rewrite E in Et |- *.
  assert (Hle : (length e <= length name)%nat) by (rewrite <- Et, length_take; lia).
  destruct (Nat.eqb_spec (length e) 0) as [E0|E0].
  { apply nil_length_inv in E0. rewrite decide_True by auto. by rewrite E0. }
  rewrite chk_loop_spec by done. rewrite drop_0, Et.
  destruct (existsb not_allowed_char e) eqn:Ex; [by rewrite decide_True by auto|].
  destruct ((length e =? 1)%nat && (at_ name 0 =? 46)) eqn:E1.
  { rewrite decide_True; [done|]. right. left. left. apply andb_true_iff in E1 as [E1%Nat.eqb_eq E2%Z.eqb_eq].
    rewrite <- Et, E1, take_one by lia. by rewrite E2. }
  destruct ((length e =? 2)%nat && ((at_ name 0 =? 46) && (at_ name 1 =? 46))) eqn:E2.
  { rewrite decide_True; [done|]. right. left. right. rewrite !andb_true_iff in E2.
    destruct E2 as [E2%Nat.eqb_eq [E3%Z.eqb_eq E4%Z.eqb_eq]]. rewrite <- Et, E2, take_two by lia. by rewrite E3, E4. }
  rewrite decide_False; [done|]. intros [-> |[[Hd|Hd]|]]; [done| | |done]; rewrite Hd in Et, Hle, E1, E2; cbn [length] in *.
  - rewrite take_one in Et by done. by injection Et as Et; rewrite Et in E1.
  - rewrite take_two in Et by done. injection Et as Et1 Et2. by rewrite Et1, Et2 in E2.
Qed.

(** ** Comparing *)

Lemma compare_loop_lex n1 n2 n i :
  (i + n <= length n1)%nat -> (i + n <= length n2)%nat ->
  match compare_loop n1 n2 n i with
  | Some r => forall k1 k2, lex (lxafs_upcase <$> take (n + k1) (drop i n1))
                (lxafs_upcase <$> take (n + k2) (drop i n2)) = (r ?= 0) /\ r <> 0
  | None => lxafs_upcase <$> take n (drop i n1) = lxafs_upcase <$> take n (drop i n2)
  end.
Proof.
  revert i. induction n as [|n IH]; intros i H1 H2; [done|]. cbn [compare_loop].
  rewrite (drop_at n1), (drop_at n2) by lia. cbn [take Nat.add fmap list_fmap lex].
  destruct (Z.ltb_spec (lxafs_upcase (at_ n1 i)) (lxafs_upcase (at_ n2 i))) as [Hab|Hab].
  { intros k1 k2. by rewrite (proj2 (Z.compare_lt_iff _ _) Hab). }
  destruct (Z.ltb_spec (lxafs_upcase (at_ n2 i)) (lxafs_upcase (at_ n1 i))) as [Hba|Hba].
  { intros k1 k2. by rewrite (proj2 (Z.compare_gt_iff _ _) Hba). }
  assert (E : lxafs_upcase (at_ n1 i) = lxafs_upcase (at_ n2 i)) by lia.
  specialize (IH (S i) ltac:(lia) ltac:(lia)). rewrite E.
  destruct (compare_loop n1 n2 n (S i)); [|by rewrite IH].
  intros k1 k2. rewrite Z.compare_refl. apply IH.
Qed.

Lemma lex_refl l : lex l l = Eq.
Proof. induction l as [|c l IH]; [done|]. cbn. by rewrite Z.compare_refl. Qed.
Lemma lex_eq l1 l2 : lex l1 l2 = Eq <-> l1 = l2.
Proof.
  split; [|intros ->; apply lex_refl]. revert l2. induction l1 as [|a l1 IH]; intros [|b l2]; try done. cbn.
  destruct (Z.compare_spec a b) as [-> | |]; [|done..]. intros E. f_equal. by apply IH.
Qed.
Lemma lex_prefix l1 l2 : l2 <> [] -> lex l1 (l1 ++ l2) = Lt /\ lex (l1 ++ l2) l1 = Gt.
Proof.
  intros Hl. induction l1 as [|a l1 IH]; cbn; [by destruct l2|]. by rewrite Z.compare_refl.
Qed.

Lemma compare_names_order n1 l1 n2 l2 :
  (l1 <= length n1)%nat -> (l2 <= length n2)%nat ->
  let u1 := lxafs_upcase <$> take l1 n1 in
  let u2 := lxafs_upcase <$> take l2 n2 in
  sign (lxafs_compare_names n1 l1 n2 l2 false) = lex u1 u2 /\
  (lxafs_compare_names n1 l1 n2 l2 false = 0 <-> u1 = u2).
Proof.
  intros H1 H2. cbn zeta. set (r := lxafs_compare_names n1 l1 n2 l2 false).
  assert (E : sign r = lex (lxafs_upcase <$> take l1 n1) (lxafs_upcase <$> take l2 n2)).
  { unfold r, lxafs_compare_names. set (k := Nat.min l1 l2).
    pose proof (compare_loop_lex n1 n2 k 0 ltac:(lia) ltac:(lia)) as Hc. rewrite !drop_0 in Hc.
    destruct (compare_loop n1 n2 k 0) as [z|].
    { destruct (Hc (l1 - k)%nat (l2 - k)%nat) as [Hz _]. replace (k + (l1 - k))%nat with l1 in Hz by lia.
      replace (k + (l2 - k))%nat with l2 in Hz by lia. by rewrite Hz. }
    destruct (Nat.ltb_spec l1 l2); [|destruct (Nat.ltb_spec l2 l1)].
    - replace k with l1 in Hc by lia. rewrite Hc. rewrite <- (take_drop l1 (take l2 n2)), take_take, fmap_app.
      replace (Nat.min l1 l2) with l1 by lia. symmetry. apply lex_prefix.
      intros Ee%(f_equal length). rewrite length_fmap, length_drop, length_take in Ee. cbn in Ee. lia.
    - replace k with l2 in Hc by lia. rewrite <- Hc. rewrite <- (take_drop l2 (take l1 n1)), take_take, fmap_app.
      replace (Nat.min l2 l1) with l2 by lia. symmetry. apply lex_prefix.
      intros Ee%(f_equal length). rewrite length_fmap, length_drop, length_take in Ee. cbn in Ee. lia.
    - replace k with l1 in Hc by lia. replace l2 with l1 by lia. rewrite Hc. symmetry. apply lex_refl. }
  split; [done|]. rewrite <- lex_eq, <- E. unfold sign. rewrite Z.compare_eq_iff. done.
Qed.

(** C30: comparing names is comparing their upper-case bytes in the order of a
    dictionary; in particular the result is 0 exactly for names that differ
    in case only. *)
Theorem compare_names_lex n1 l1 n2 l2 :
  (l1 <= length n1)%nat -> (l2 <= length n2)%nat ->
  let u1 := lxafs_upcase <$> take l1 n1 in
  let u2 := lxafs_upcase <$> take l2 n2 in
  sign (lxafs_compare_names n1 l1 n2 l2 false) = lex u1 u2 /\
  (lxafs_compare_names n1 l1 n2 l2 false = 0 <-> u1 = u2).
Proof. apply compare_names_order. Qed.

(** ** Hashes *)

Definition hash_of (l : list Z) : Z := foldl (fun h c => partial_name_hash c h) 0 (lxafs_upcase <$> l).

Lemma hash_loop_fold name n i h :
  (i + n <= length name)%nat ->
  hash_loop name n i h = foldl (fun h c => partial_name_hash c h) h (lxafs_upcase <$> take n (drop i name)).
Proof.
  revert i h. induction n as [|n IH]; intros i h Hi; [done|]. cbn [hash_loop].
  rewrite (drop_at name i) by lia. cbn [take fmap list_fmap foldl]. by rewrite IH by lia.
Qed.

(** Two bytes with a dot among them are hashed as they are. *)
Definition short_dotted (l : list Z) : bool :=
  match l with [a; b] => (a =? 46) || (b =? 46) | _ => false end.

Lemma d_hash_spec name len :
  (len <= length name)%nat ->
  lxafs_d_hash name len =
    hash_of (if short_dotted (take len name) then take len name else effective (take len name)).
Proof.
  intros Hl. destruct (adjust_length_spec name len Hl) as [E Et]. unfold lxafs_d_hash, hash_of.
  assert (Hle : (lxafs_adjust_length name len <= length name)%nat).
  { rewrite E, <- Et, length_take. lia. }
  destruct ((len =? 1)%nat && (at_ name 0 =? 46)) eqn:E1.
  { apply andb_true_iff in E1 as [->%Nat.eqb_eq E1%Z.eqb_eq]. rewrite hash_loop_fold by lia. rewrite drop_0.
    rewrite take_one, E1 by lia. cbn [short_dotted]. unfold effective. rewrite decide_True; [done|by left]. }
  destruct ((len =? 2)%nat && ((at_ name 0 =? 46) || (at_ name 1 =? 46))) eqn:E2.
  { apply andb_true_iff in E2 as [->%Nat.eqb_eq E2]. rewrite hash_loop_fold by lia. rewrite drop_0.
    rewrite take_two by lia. cbn [short_dotted]. by rewrite E2. }
  rewrite hash_loop_fold by lia. rewrite drop_0, Et.
  replace (short_dotted (take len name)) with false; [done|]. symmetry.
  destruct (decide (len = 2%nat)) as [->|Hn].
  - rewrite take_two by lia. cbn [short_dotted]. done.
  - assert (Hlen : length (take len name) = len) by (rewrite length_take; lia).
    destruct (take len name) as [|a [|b [|c l]]]; done.
Qed.

(** Equal for the directory cache. *)
Lemma d_compare_spec a alen b blen :
  (alen <= length a)%nat -> (blen <= length b)%nat -> lxafs_d_compare a alen b blen = 0 ->
  let ea := effective (take alen a) in
  let eb := effective (take blen b) in
  lxafs_upcase <$> ea = lxafs_upcase <$> eb /\ ~ dots eb.
Proof.
  intros Ha Hb E. cbn zeta. unfold lxafs_d_compare in E. rewrite chk_name_spec in E by done.
  destruct (254 <? blen)%nat; [done|]. cbn [fst snd] in E.
  destruct (decide _) as [|Hok]; [done|]. change (negb (0 =? 0)) with false in E. cbn iota in E.
  destruct (adjust_length_spec a alen Ha) as [Ea Eta]. destruct (adjust_length_spec b blen Hb) as [Eb Etb].
  rewrite <- Eb in E.
  destruct (compare_names_order a (lxafs_adjust_length a alen) b (lxafs_adjust_length b blen)) as [_ Hc].
  { rewrite Ea, <- Eta, length_take. lia. }
  { rewrite Eb, <- Etb, length_take. lia. }
  rewrite Eta, Etb in Hc. destruct (Z.eqb_spec (lxafs_compare_names a (lxafs_adjust_length a alen) b
    (lxafs_adjust_length b blen) false) 0) as [E0|]; [|done].
  split; [by apply Hc|]. naive_solver.
Qed.

(** C31: names that the directory cache takes for the same have the same hash,
    so that a cached name is found under every spelling; except names of two
    bytes with a dot among them. *)
Theorem same_name_same_hash a alen b blen :
  (alen <= length a)%nat -> (blen <= length b)%nat ->
  short_dotted (take alen a) = false -> short_dotted (take blen b) = false ->
  lxafs_d_compare a alen b blen = 0 -> lxafs_d_hash a alen = lxafs_d_hash b blen.
Proof.
  intros Ha Hb Sa Sb E. rewrite !d_hash_spec, Sa, Sb by done.
  unfold hash_of. by destruct (d_compare_spec a alen b blen Ha Hb E) as [-> _].
Qed.

(** ** Paths there and back *)

Lemma turned_back l : Forall (fun c => c <> 92) l ->
  turned <$> ((fun c => if c =? 47 then 92 else c) <$> l) = l.
Proof.
  induction 1 as [|c l Hc _ IH]; [done|]. cbn [fmap list_fmap]. unfold turned at 1.
  destruct (Z.eqb_spec c 47) as [->|]; [cbn|destruct (Z.eqb_spec c 92); [done|]]; by rewrite IH.
Qed.

Lemma strnicmp_self l k : strnicmp_eq (length l) l (l ++ k) = true.
Proof. induction l as [|c l IH]; [done|]. cbn. by rewrite Z.eqb_refl, IH. Qed.

(** The other file systems of LXAFS do not lie above the path. *)
Definition elsewhere (path : list Z) (sb : lxafs_super_info) : Prop :=
  strnicmp_eq (length (rootpath sb)) (rootpath sb) path = false.

Lemma search_super_first path pre sb post :
  Forall (elsewhere path) pre -> search_super path (pre ++ sb :: post) = search_super path (sb :: post).
Proof. induction 1 as [|x pre Hx _ IH]; [done|]. cbn [app search_super]. by rewrite Hx. Qed.


(** ** Witnesses and corner cases *)

(** "Readme.Txt. " *)
Lemma chk_name_spec_witness :
  lxafs_chk_name [82; 101; 97; 100; 46; 84; 46; 32] 8 = (0, 6%nat).
Proof. rewrite (chk_name_spec [82; 101; 97; 100; 46; 84; 46; 32] 8) by (cbn; lia). vm_compute. reflexivity. Defined.

Lemma compare_names_lex_witness :
  lxafs_compare_names [65; 98; 67] 3 [97; 66; 99] 3 false = 0.
Proof. apply (compare_names_lex [65; 98; 67] 3 [97; 66; 99] 3); [cbn; lia|cbn; lia|reflexivity]. Defined.

Lemma same_name_same_hash_witness :
  lxafs_d_hash [97; 98; 99; 46] 4 = lxafs_d_hash [65; 66; 67] 3.
Proof.
  apply (same_name_same_hash [97; 98; 99; 46] 4 [65; 66; 67] 3); [cbn; lia|cbn; lia|reflexivity..].
Defined.

(** "a." is the name "A" for the cache but has another hash. *)
Example hash_differs :
  lxafs_d_compare [97; 46] 2 [65] 1 = 0 /\ lxafs_d_hash [97; 46] 2 <> lxafs_d_hash [65] 1.
Proof. split; [reflexivity|]. vm_compute. discriminate. Qed.


(** Mounted at "/m" the separator is lost: "C:\b" becomes "/mb"; and a root
    that is only the beginning of a name matches: "C:\lxold\b" is taken for a
    file below "C:/lx". *)
Example mount_without_separator :
  LX_os2path_to_lx [67; 58; 92; 98] [mk_super [67; 58] [47; 109]] = Ok (0, Some [47; 109; 98]).
Proof. reflexivity. Qed.
Example root_is_prefix :
  LX_os2path_to_lx [67; 58; 92; 108; 120; 111; 108; 100; 92; 98] [mk_super [67; 58; 47; 108; 120] [47]] =
  Ok (0, Some [47; 108; 100; 47; 98]).
Proof. reflexivity. Qed.

(** Building the name of an inode reports -ENOENT although it is written; a
    name in a directory is joined with a slash. *)
Example fullname_reports_ENOENT :
  (lxafs_build_fullname_i 3 (mk_lxinode true [67; 58] 0) 1) = (Some [67; 58; 0], - ENOENT) /\
  lxafs_build_fullname_from_parent_i (mk_lxinode true [67; 58] 0) [98] 1 = Ok [67; 58; 47; 98].
Proof. split; reflexivity. Qed.
Example empty_root_path_faults : lxafs_get_root_path_s 0 (replicate 260 0) = Err BadAccess.
Proof. reflexivity. Qed.
