(* ===== verification/VSprintf.v ===== *)
(** * Printing and parsing of numbers (Linux/lib/ll_vsprintf.c)

    [sprintf] and its variants write characters at increasing addresses, up to
    the last one the caller allows; the length they report is that of the whole
    text.  Arguments are the 32-bit words on the stack.  The parsers work on the
    characters of a string; the position they leave is the rest of it. *)

From S2P Require Import Prelude CString.

(** ** Character classes (Linux/lib/ll_ctype.c, Include/Linux/ctype.h) *)

Definition isdigit (c : Z) : bool := (48 <=? c) && (c <=? 57).
Definition isxdigit (c : Z) : bool :=
  isdigit c || (65 <=? c) && (c <=? 70) || (97 <=? c) && (c <=? 102).
Definition islower (c : Z) : bool :=
  (97 <=? c) && (c <=? 122) || (223 <=? c) && (c <=? 255) && negb (c =? 247).
Definition toupper (c : Z) : Z := if islower c then u8 (c - (97 - 65)) else c.

(** ** Numbers from text *)

Definition u64 (z : Z) : Z := z mod 18446744073709551616.
Definition s64 (z : Z) : Z := u64 (z + 9223372036854775808) - 9223372036854775808.

(** The value of a digit; the letters count from 10. *)
Definition digit_value (c : Z) : Z := if isdigit c then c - 48 else toupper c - 65 + 10.

Section Parse.
(** The width of the result. *)
Context (wrap : Z -> Z).

Fixpoint strto_loop (base result : Z) (cp : list Z) : Z * list Z :=
  match cp with
  | c :: rest =>
      if isxdigit c && (digit_value c <? base)
      then strto_loop base (wrap (result * base + digit_value c)) rest
      else (result, cp)
  | [] => (result, cp)
  end.

(** The base and what is left after its prefix. *)
Definition strto_base (base : Z) (cp : list Z) : Z * list Z :=
  if base =? 0 then
    match cp with
    | 48 :: cp1 =>
        match cp1 with
        | 120 :: ((c :: _) as cp2) => if isxdigit c then (16, cp2) else (8, cp1)
        | _ => (8, cp1)
        end
    | _ => (10, cp)
    end
  else (base, cp).

Definition strto (cp : list Z) (base : Z) : Z * list Z :=
  let b := strto_base base cp in strto_loop b.1 0 b.2.
End Parse.

Definition simple_strtoul (cp : list Z) (base : Z) : Z * list Z := strto u32 cp base.
Definition simple_strtoull (cp : list Z) (base : Z) : Z * list Z := strto u64 cp base.

Definition simple_strtol (cp : list Z) (base : Z) : Z * list Z :=
  match cp with
  | 45 :: cp => let r := simple_strtoul cp base in (s32 (- r.1), r.2)
  | _ => let r := simple_strtoul cp base in (s32 r.1, r.2)
  end.
Definition simple_strtoll (cp : list Z) (base : Z) : Z * list Z :=
  match cp with
  | 45 :: cp => let r := simple_strtoull cp base in (s64 (- r.1), r.2)
  | _ => let r := simple_strtoull cp base in (s64 r.1, r.2)
  end.

Fixpoint skip_atoi_loop (i : Z) (s : list Z) : Z * list Z :=
  match s with
  | c :: rest => if isdigit c then skip_atoi_loop (s32 (i * 10 + c - 48)) rest else (i, s)
  | [] => (i, s)
  end.
Definition skip_atoi (s : list Z) : Z * list Z := skip_atoi_loop 0 s.

(** ** Division of 64 by 32 bits (Include/asm/div64.h)

    [divl] faults when the quotient does not fit. *)

Definition divl (upper low base : Z) : option (Z * Z) :=
  if (base =? 0) || (base <=? upper) then None
  else Some ((upper * 4294967296 + low) / base, (upper * 4294967296 + low) mod base).

(** The quotient and the remainder. *)
Definition do_div (n base : Z) : option (Z * Z) :=
  let low := n mod 4294967296 in
  let high := n / 4294967296 in
  if negb (high =? 0) && (base =? 0) then None else
  let upper := if high =? 0 then high else high mod base in
  let high := if high =? 0 then high else high / base in
  r ← divl upper low base; Some (high * 4294967296 + r.1, r.2).

Lemma do_div_spec n base :
  0 <= n < 18446744073709551616 -> 0 < base < 4294967296 -> do_div n base = Some (n / base, n mod base).
Proof.
  intros Hn Hb. unfold do_div, divl.
  assert (Hh : 0 <= n / 4294967296 < 4294967296) by lia.
  assert (E : n = n / 4294967296 * 4294967296 + n mod 4294967296) by lia.
  set (h := n / 4294967296) in *. set (l := n mod 4294967296) in *.
  assert (Hl : 0 <= l < 4294967296) by lia. clearbody h l. subst n.
  destruct (Z.eqb_spec base 0); [lia|]. rewrite andb_false_r.
  destruct (Z.eqb_spec h 0) as [->|Hh0]; cbn [orb].
  - destruct (Z.leb_spec base 0); [lia|]. ostep. cbn [fst snd]. done.
  - destruct (Z.leb_spec base (h mod base)); [lia|]. ostep. cbn [fst snd].
    assert (Eh : h = base * (h / base) + h mod base) by (apply Z.div_mod; lia).
    set (q := h / base) in *. set (r := h mod base) in *. clearbody q r.
    replace (h * 4294967296 + l) with (r * 4294967296 + l + q * 4294967296 * base) by (subst h; ring).
    rewrite Z.div_add, Z.mod_add by lia. do 2 f_equal. ring.
Qed.

(** ** Output *)

Definition ZEROPAD : Z := 1.
Definition SIGN : Z := 2.
Definition PLUS : Z := 4.
Definition SPACE : Z := 8.
Definition LEFT : Z := 16.
Definition SPECIAL : Z := 32.
Definition LARGE : Z := 64.

(** Memory and the address of the next character. *)
Record printer := mk_printer { p_mem : mem; p_str : Z }.

Definition small_digits : list Z :=
  [48; 49; 50; 51; 52; 53; 54; 55; 56; 57; 97; 98; 99; 100; 101; 102; 103; 104; 105; 106; 107; 108; 109;
   110; 111; 112; 113; 114; 115; 116; 117; 118; 119; 120; 121; 122].
Definition large_digits : list Z :=
  [48; 49; 50; 51; 52; 53; 54; 55; 56; 57; 65; 66; 67; 68; 69; 70; 71; 72; 73; 74; 75; 76; 77;
   78; 79; 80; 81; 82; 83; 84; 85; 86; 87; 88; 89; 90].

Definition flag (type f : Z) : bool := negb (Z.land type f =? 0).

(** The digits in [tmp], the last one first; 64 are enough for 64 bits. *)
Fixpoint digit_loop (fuel : nat) (digits : list Z) (num base : Z) : res (list Z) :=
  if num =? 0 then Ok [] else
  match fuel with
  | O => Err OutOfFuel
  | S fuel =>
      match do_div num base with
      | Some (q, r) => tmp ← digit_loop fuel digits q base; Ok (nth (Z.to_nat r) digits 0 :: tmp)
      | None => Err BadAccess
      end
  end.

Section Print.
(** The last address that may be written. *)
Context (end_ : Z).
Abbreviation P := (M printer).

Definition put (c : Z) : P unit := fun s =>
  if p_str s <=? end_ then
    match st (p_mem s) (p_str s) c with
    | Some m => Ok (tt, mk_printer m (p_str s + 1))
    | None => Err BadAccess
    end
  else Ok (tt, mk_printer (p_mem s) (p_str s + 1)).

Fixpoint puts (l : list Z) : P unit :=
  match l with [] => mret tt | c :: l => put c ≫= fun _ => puts l end.

(** [while (size-- > 0)]: the count afterwards is negative. *)
Fixpoint pad_loop (n : nat) (c : Z) : P unit :=
  match n with O => mret tt | S n => put c ≫= fun _ => pad_loop n c end.
Definition pad (size c : Z) : P Z :=
  pad_loop (Z.to_nat size) c ≫= fun _ => mret (Z.min size 0 - 1).

Definition number (num base size precision type : Z) : P unit :=
  let digits := if flag type LARGE then large_digits else small_digits in
  let type := if flag type LEFT then Z.land type (Z.lnot ZEROPAD) else type in
  if (base <? 2) || (36 <? base) then modify (fun s => mk_printer (p_mem s) 0) else
  let c := if flag type ZEROPAD then 48 else 32 in
  let '(sign, num, size) :=
    if flag type SIGN then
      if s64 num <? 0 then (45, u64 (- s64 num), size - 1)
      else if flag type PLUS then (43, num, size - 1)
      else if flag type SPACE then (32, num, size - 1)
      else (0, num, size)
    else (0, num, size) in
  let size := if flag type SPECIAL then if base =? 16 then size - 2 else if base =? 8 then size - 1 else size
              else size in
  tmp ← (fun s => match (if num =? 0 then Ok [48] else digit_loop 64 digits num base) with
                  | Ok t => Ok (t, s) | Err e => Err e end);
  let i := Z.of_nat (length tmp) in
  let precision := if precision <? i then i else precision in
  let size := size - precision in
  size ← (if Z.land type (ZEROPAD + LEFT) =? 0 then pad size 32 else mret size);
  (if negb (sign =? 0) then put sign else mret tt) ≫= fun _ =>
  (if flag type SPECIAL then
     if base =? 8 then put 48
     else if base =? 16 then put 48 ≫= fun _ => put (nth 33 digits 0) else mret tt
   else mret tt) ≫= fun _ =>
  size ← (if negb (flag type LEFT) then pad size c else mret size);
  _ ← pad (precision - i) 48;
  puts (reverse tmp) ≫= fun _ =>
  _ ← pad size 32; mret tt.
End Print.

(** ** Formats *)

(** The flags after a percent sign. *)
Fixpoint fmt_flags (fmt : list Z) (flags : Z) : list Z * Z :=
  match fmt with
  | c :: rest =>
      if c =? 45 then fmt_flags rest (Z.lor flags LEFT)
      else if c =? 43 then fmt_flags rest (Z.lor flags PLUS)
      else if c =? 32 then fmt_flags rest (Z.lor flags SPACE)
      else if c =? 35 then fmt_flags rest (Z.lor flags SPECIAL)
      else if c =? 48 then fmt_flags rest (Z.lor flags ZEROPAD)
      else (fmt, flags)
  | [] => (fmt, flags)
  end.

(** Width and flags; [None]: no argument is left for a star. *)
Definition fmt_width (fmt args : list Z) (flags : Z) : option (list Z * list Z * Z * Z) :=
  match fmt with
  | c :: rest =>
      if isdigit c then let r := skip_atoi fmt in Some (r.2, args, r.1, flags)
      else if c =? 42 then
        match args with
        | a :: args => if s32 a <? 0 then Some (rest, args, s32 (- s32 a), Z.lor flags LEFT)
                       else Some (rest, args, s32 a, flags)
        | [] => None
        end
      else Some (fmt, args, -1, flags)
  | [] => Some (fmt, args, -1, flags)
  end.

Definition fmt_precision (fmt args : list Z) : option (list Z * list Z * Z) :=
  match fmt with
  | 46 :: fmt =>
      match fmt with
      | c :: rest =>
          if isdigit c then let r := skip_atoi fmt in Some (r.2, args, Z.max r.1 0)
          else if c =? 42 then
            match args with a :: args => Some (rest, args, Z.max (s32 a) 0) | [] => None end
          else Some (fmt, args, 0)
      | [] => Some (fmt, args, 0)
      end
  | _ => Some (fmt, args, -1)
  end.

(** The qualifier, "ll" as 'L'; 0 for none. *)
Definition fmt_qualifier (fmt : list Z) : list Z * Z :=
  match fmt with
  | c :: rest =>
      if (c =? 104) || (c =? 108) || (c =? 76) || (c =? 90) || (c =? 122) then
        match rest with
        | 108 :: rest' => if c =? 108 then (rest', 76) else (rest, c)
        | _ => (rest, c)
        end
      else (fmt, 0)
  | [] => (fmt, 0)
  end.

(** The parsed conversion. *)
Record spec := mk_spec { sp_flags : Z; sp_width : Z; sp_precision : Z; sp_qualifier : Z }.

Definition fmt_spec (fmt args : list Z) : option (spec * list Z * list Z) :=
  let f := fmt_flags fmt 0 in
  w ← fmt_width f.1 args f.2;
  p ← fmt_precision w.1.1.1 w.1.1.2;
  let q := fmt_qualifier p.1.1 in
  Some (mk_spec w.2 w.1.2 p.2 q.2, q.1, p.1.2).

(** A number of the arguments as 64 bits. *)
Definition take_number (qualifier flags : Z) (args : list Z) : option (Z * list Z) :=
  if qualifier =? 76 then
    match args with lo :: hi :: args => Some (u32 lo + 4294967296 * u32 hi, args) | _ => None end
  else
    match args with
    | a :: args =>
        Some (if qualifier =? 108 then if flag flags SIGN then u64 (s32 a) else u32 a
              else if (qualifier =? 90) || (qualifier =? 122) then u32 a
              else if qualifier =? 104 then if flag flags SIGN then u64 (s16 a) else u16 a
              else if flag flags SIGN then u64 (s32 a) else u32 a, args)
    | [] => None
    end.

(** Base and flags of an integer conversion. *)
Definition int_conversion (c flags : Z) : option (Z * Z) :=
  if c =? 111 then Some (8, flags)
  else if c =? 88 then Some (16, Z.lor flags LARGE)
  else if c =? 120 then Some (16, flags)
  else if (c =? 100) || (c =? 105) then Some (10, Z.lor flags SIGN)
  else if c =? 117 then Some (10, flags) else None.

(** "<NULL>" *)
Definition null_text : list Z := [60; 78; 85; 76; 76; 62].

Section Vsnprintf.
Context (end_ : Z).
Abbreviation P := (M printer).

(** [strnlen] with the unsigned limit [count]. *)
Fixpoint strnlen_z (fuel : nat) (count : Z) (m : mem) (sc : Z) : res Z :=
  if count =? 0 then Ok 0 else
  match fuel with
  | O => Err OutOfFuel
  | S fuel =>
      match ld m sc with
      | None => Err BadAccess
      | Some c => if c =? 0 then Ok 0 else r ← strnlen_z fuel (count - 1) m (sc + 1); Ok (r + 1)
      end
  end.

(** Characters read one by one from the memory that is being written. *)
Fixpoint puts_from (n : nat) (s : Z) : P unit :=
  match n with
  | O => mret tt
  | S n =>
      p ← get;
      match ld (p_mem p) s with
      | Some c => put end_ c ≫= fun _ => puts_from n (s + 1)
      | None => throw BadAccess
      end
  end.

Definition conv_char (sp : spec) (a : Z) : P unit :=
  w ← (if negb (flag (sp_flags sp) LEFT)
       then pad end_ (sp_width sp - 1) 32 ≫= fun _ => mret (Z.min (sp_width sp - 1) 0)
       else mret (sp_width sp));
  put end_ (u8 a) ≫= fun _ => _ ← pad end_ (w - 1) 32; mret tt.

Definition conv_string (fuel : nat) (sp : spec) (s : Z) : P unit :=
  p ← get;
  len ← (fun st => match (if s <? 4096 then Ok (Z.min 6 (u32 (sp_precision sp)))
                          else strnlen_z fuel (u32 (sp_precision sp)) (p_mem p) s) with
                   | Ok n => Ok (n, st) | Err e => Err e end);
  w ← (if negb (flag (sp_flags sp) LEFT)
       then pad end_ (sp_width sp - len) 32 ≫= fun _ => mret (Z.min (sp_width sp) len - 1)
       else mret (sp_width sp));
  (if s <? 4096 then puts end_ (take (Z.to_nat len) null_text) else puts_from (Z.to_nat len) s) ≫= fun _ =>
  _ ← pad end_ (w - len) 32; mret tt.

(** %n: the number of characters so far, as four bytes. *)
Definition conv_count (buf ip : Z) : P unit :=
  p ← get;
  let n := u32 (p_str p - buf) in
  match (m ← st (p_mem p) ip n; m ← st m (ip + 1) (n / 256); m ← st m (ip + 2) (n / 65536);
         st m (ip + 3) (n / 16777216)) with
  | Some m => modify (fun p => mk_printer m (p_str p))
  | None => throw BadAccess
  end.
End Vsnprintf.

(** The loop over the format; every turn takes at least one character of it.
    [sfuel] bounds the strings that are measured. *)
Fixpoint vsn_loop (fuel sfuel : nat) (end_ buf : Z) (fmt args : list Z) : M printer unit :=
  match fuel with
  | O => throw OutOfFuel
  | S fuel =>
      match fmt with
      | [] => mret tt
      | c :: fmt =>
          if negb (c =? 37) then put end_ c ≫= fun _ => vsn_loop fuel sfuel end_ buf fmt args else
          match fmt_spec fmt args with
          | None => throw UninitRead
          | Some (sp, fmt, args) =>
              match fmt with
              | [] => put end_ 37 ≫= fun _ => vsn_loop fuel sfuel end_ buf [] args
              | c :: fmt =>
                  if c =? 99 then
                    match args with
                    | a :: args => conv_char end_ sp a ≫= fun _ => vsn_loop fuel sfuel end_ buf fmt args
                    | [] => throw UninitRead
                    end
                  else if c =? 115 then
                    match args with
                    | a :: args => conv_string end_ sfuel sp (u32 a) ≫= fun _ => vsn_loop fuel sfuel end_ buf fmt args
                    | [] => throw UninitRead
                    end
                  else if c =? 112 then
                    match args with
                    | a :: args =>
                        (if sp_width sp =? -1
                         then number end_ (u32 a) 16 8 (sp_precision sp) (Z.lor (sp_flags sp) ZEROPAD)
                         else number end_ (u32 a) 16 (sp_width sp) (sp_precision sp) (sp_flags sp)) ≫= fun _ =>
                        vsn_loop fuel sfuel end_ buf fmt args
                    | [] => throw UninitRead
                    end
                  else if c =? 110 then
                    match args with
                    | a :: args => conv_count buf (u32 a) ≫= fun _ => vsn_loop fuel sfuel end_ buf fmt args
                    | [] => throw UninitRead
                    end
                  else if c =? 37 then put end_ 37 ≫= fun _ => vsn_loop fuel sfuel end_ buf fmt args
                  else
                    match int_conversion c (sp_flags sp) with
                    | Some (base, flags) =>
                        match take_number (sp_qualifier sp) flags args with
                        | Some (num, args) =>
                            number end_ num base (sp_width sp) (sp_precision sp) flags ≫= fun _ =>
                            vsn_loop fuel sfuel end_ buf fmt args
                        | None => throw UninitRead
                        end
                    | None =>
                        put end_ 37 ≫= fun _ => put end_ c ≫= fun _ => vsn_loop fuel sfuel end_ buf fmt args
                    end
              end
          end
      end
  end.

(** The memory and the result. *)
Definition vsnprintf (sfuel : nat) (m : mem) (buf size : Z) (fmt args : list Z) : res (mem * Z) :=
  if s32 size <? 0 then Ok (m, 0) else
  let end_ := u32 (buf + size - 1) in
  let wraps := end_ <? u32 (buf - 1) in
  let size := if wraps then u32 (4294967295 - buf + 1) else size in
  let end_ := if wraps then 4294967295 else end_ in
  r ← vsn_loop (S (length fmt)) sfuel end_ buf fmt args (mk_printer m buf);
  let s := r.2 in
  m ← (if p_str s <=? end_ then
         match st (p_mem s) (p_str s) 0 with Some m => Ok m | None => Err BadAccess end
       else if 0 <? size then
         match st (p_mem s) end_ 0 with Some m => Ok m | None => Err BadAccess end
       else Ok (p_mem s));
  Ok (m, s32 (p_str s - buf)).

(** [i >= size] compares as unsigned. *)
Definition vscnprintf (sfuel : nat) (m : mem) (buf size : Z) (fmt args : list Z) : res (mem * Z) :=
  r ← vsnprintf sfuel m buf size fmt args;
  Ok (r.1, if size <=? u32 r.2 then s32 (size - 1) else r.2).
Definition snprintf := vsnprintf.
Definition scnprintf := vscnprintf.
Definition vsprintf (sfuel : nat) (m : mem) (buf : Z) (fmt args : list Z) : res (mem * Z) :=
  vsnprintf sfuel m buf 2147483647 fmt args.
Definition sprintf := vsprintf.

(** ** What is printed *)

Section Text.
Context (digits : list Z) (base : Z).

(** The digits of a number, the first one first. *)
Fixpoint digits_text (fuel : nat) (num : Z) : list Z :=
  match fuel with
  | O => []
  | S fuel => if num <? base then [nth (Z.to_nat num) digits 0]
              else digits_text fuel (num / base) ++ [nth (Z.to_nat (num mod base)) digits 0]
  end.
End Text.

Definition negative (num type : Z) : bool := flag type SIGN && (s64 num <? 0).
Definition sign_text (num type : Z) : list Z :=
  if negative num type then [45]
  else if flag type SIGN then if flag type PLUS then [43] else if flag type SPACE then [32] else [] else [].
Definition prefix_text (digits : list Z) (base type : Z) : list Z :=
  if flag type SPECIAL then if base =? 8 then [48] else if base =? 16 then [48; nth 33 digits 0] else [] else [].

Definition spaces (n : Z) : list Z := replicate (Z.to_nat n) 32.
Definition zeros (n : Z) : list Z := replicate (Z.to_nat n) 48.

(** Sign, prefix and digits, filled up to the width on one side. *)
Definition number_text (num base width precision type : Z) : list Z :=
  let digits := if flag type LARGE then large_digits else small_digits in
  let mag := if negative num type then u64 (- s64 num) else num in
  let ds := digits_text digits base 64 mag in
  let body := zeros (precision - Z.of_nat (length ds)) ++ ds in
  let head := sign_text num type ++ prefix_text digits base type in
  let fill := width - Z.of_nat (length head) - Z.of_nat (length body) in
  if flag type LEFT then head ++ body ++ spaces fill
  else if flag type ZEROPAD then head ++ zeros fill ++ body
  else spaces fill ++ head ++ body.

(** Filled up with blanks to the width. *)
Definition field (sp : spec) (l : list Z) : list Z :=
  let fill := spaces (sp_width sp - Z.of_nat (length l)) in
  if flag (sp_flags sp) LEFT then l ++ fill else fill ++ l.

(** A negative precision stands for none. *)
Definition clipped (precision : Z) (l : list Z) : list Z :=
  if precision <? 0 then l else take (Z.to_nat precision) l.

Section Formatted.
(** The strings that may be printed. *)
Context (strs : Z -> option (list Z)).

(** The text of one conversion and the arguments left; %n prints nothing and
    writes elsewhere, so it has none. *)
Definition conversion (sp : spec) (c : Z) (args : list Z) : option (list Z * list Z) :=
  if c =? 99 then
    match args with a :: args => Some (field sp [u8 a], args) | [] => None end
  else if c =? 115 then
    match args with
    | a :: args =>
        l ← (if u32 a <? 4096 then Some null_text else strs (u32 a));
        Some (field sp (clipped (sp_precision sp) l), args)
    | [] => None
    end
  else if c =? 112 then
    match args with
    | a :: args =>
        Some (if sp_width sp =? -1
              then number_text (u32 a) 16 8 (sp_precision sp) (Z.lor (sp_flags sp) ZEROPAD)
              else number_text (u32 a) 16 (sp_width sp) (sp_precision sp) (sp_flags sp), args)
    | [] => None
    end
  else if c =? 110 then None
  else if c =? 37 then Some ([37], args)
  else
    match int_conversion c (sp_flags sp) with
    | Some (base, flags) =>
        r ← take_number (sp_qualifier sp) flags args;
        Some (number_text r.1 base (sp_width sp) (sp_precision sp) flags, r.2)
    | None => Some ([37; c], args)
    end.

(** [formatted fmt args t]: the format and its arguments make the text [t]. *)
Inductive formatted : list Z -> list Z -> list Z -> Prop :=
  | formatted_end args : formatted [] args []
  | formatted_char c fmt args t : c <> 37 -> formatted fmt args t -> formatted (c :: fmt) args (c :: t)
  | formatted_percent fmt args sp args' :
      fmt_spec fmt args = Some (sp, [], args') -> formatted (37 :: fmt) args [37]
  | formatted_conversion fmt args sp c fmt' args1 t1 args2 t :
      fmt_spec fmt args = Some (sp, c :: fmt', args1) -> conversion sp c args1 = Some (t1, args2) ->
      formatted fmt' args2 t -> formatted (37 :: fmt) args (t1 ++ t).
End Formatted.

(** ** Digits *)

Definition byte_list (l : list Z) : Prop := Forall (fun c => 0 <= c < 256) l.

Lemma digits_bytes type : byte_list (if flag type LARGE then large_digits else small_digits).
Proof. unfold byte_list. destruct (flag type LARGE); repeat constructor; lia. Qed.

Lemma nth_byte l i : byte_list l -> 0 <= nth i l 0 < 256.
Proof.
  intros Hl. rewrite nth_lookup. destruct (l !! i) eqn:E; cbn; [|lia].
  unfold byte_list in Hl. rewrite Forall_lookup in Hl. by eapply Hl.
Qed.

Lemma digits_text_bytes digits base n num : byte_list digits -> byte_list (digits_text digits base n num).
Proof.
  intros Hd. revert num. induction n as [|n IH]; intros num; cbn [digits_text]; [constructor|].
  destruct (num <? base).
  - repeat constructor; by apply nth_byte.
  - apply Forall_app. split; [apply IH|]. repeat constructor; by apply nth_byte.
Qed.

Lemma digit_loop_spec digits base n num :
  2 <= base < 4294967296 -> 0 < num < 2 ^ Z.of_nat n -> (n <= 64)%nat ->
  digit_loop n digits num base = Ok (reverse (digits_text digits base n num)).
Proof.
  intros Hb. revert num. induction n as [|n IH]; intros num Hn H64; [cbn in Hn; lia|].
  cbn [digit_loop digits_text]. destruct (Z.eqb_spec num 0); [lia|].
  assert (Hp : 2 ^ Z.of_nat (S n) = 2 * 2 ^ Z.of_nat n) by (rewrite Nat2Z.inj_succ; apply Z.pow_succ_r; lia).
  assert (H2 : 2 ^ Z.of_nat (S n) <= 2 ^ 64) by (apply Z.pow_le_mono_r; lia).
  rewrite do_div_spec by (try lia; change (2 ^ 64) with 18446744073709551616 in H2; lia).
  destruct (Z.ltb_spec num base) as [Hlt|Hge].
  - rewrite Z.div_small, Z.mod_small by lia. by destruct n.
  - assert (Hq : 0 < num / base < 2 ^ Z.of_nat n).
    { split; [apply Z.div_str_pos; lia|]. apply Z.div_lt_upper_bound; [lia|]. nia. }
    rewrite IH by (try done; lia). cbn [mbind res_bind]. by rewrite reverse_app.
Qed.

(** ** Parsing the format *)

Lemma fmt_flags_suffix fmt f : suffix (fmt_flags fmt f).1 fmt.
Proof.
  revert f. induction fmt as [|c fmt IH]; intros f; cbn; [done|].
  repeat case_match; try (apply suffix_cons_r, IH); done.
Qed.

Lemma skip_atoi_loop_suffix i s : suffix (skip_atoi_loop i s).2 s.
Proof.
  revert i. induction s as [|c s IH]; intros i; cbn; [done|].
  destruct (isdigit c); [apply suffix_cons_r, IH|done].
Qed.

Lemma fmt_width_suffix fmt args f r : fmt_width fmt args f = Some r -> suffix r.1.1.1 fmt.
Proof.
  destruct fmt as [|c fmt]; [by intros [= <-]|]. cbn [fmt_width].
  destruct (isdigit c); [intros [= <-]; apply (skip_atoi_loop_suffix 0 (c :: fmt))|].
  destruct (c =? 42); [|by intros [= <-]]. destruct args; [done|].
  destruct (_ <? 0); intros [= <-]; cbn; by apply suffix_cons_r.
Qed.

(** No precision, or one of 31 bits. *)
Definition precision_ok (p : Z) : Prop := p = -1 \/ 0 <= p < 2147483648.

Lemma skip_atoi_loop_range i s : -2147483648 <= i < 2147483648 -> -2147483648 <= (skip_atoi_loop i s).1 < 2147483648.
Proof.
  revert i. induction s as [|c s IH]; intros i Hi; cbn; [done|].
  destruct (isdigit c); [apply IH, s32_range|done].
Qed.

Lemma fmt_precision_spec fmt args r :
  fmt_precision fmt args = Some r -> suffix r.1.1 fmt /\ precision_ok r.2.
Proof.
  unfold precision_ok. destruct fmt as [|c0 fmt]; [intros [= <-]; cbn; split; [done|by left]|].
  destruct (decide (c0 = 46)) as [->|Hc0].
  2:{ intros H. replace (fmt_precision (c0 :: fmt) args) with (Some (c0 :: fmt, args, -1)) in H.
      { injection H as <-. cbn. split; [done|by left]. }
      unfold fmt_precision. by repeat case_match; subst. }
  destruct fmt as [|c fmt]; [intros [= <-]; cbn; split; [by apply suffix_cons_r|lia]|].
  cbn [fmt_precision]. destruct (isdigit c); [|destruct (c =? 42)].
  - intros [= <-]. cbn [fst snd]. split; [apply suffix_cons_r, (skip_atoi_loop_suffix 0 (c :: fmt))|].
    pose proof (skip_atoi_loop_range 0 (c :: fmt)). unfold skip_atoi. lia.
  - destruct args as [|a args]; [done|]. intros [= <-]. cbn.
    split; [by do 2 apply suffix_cons_r|]. pose proof (s32_range a). lia.
  - intros [= <-]. cbn. split; [by apply suffix_cons_r|lia].
Qed.

Lemma fmt_qualifier_suffix fmt : suffix (fmt_qualifier fmt).1 fmt.
Proof.
  destruct fmt as [|c fmt]; cbn; [done|]. destruct (_ || _); [|done].
  repeat case_match; cbn; repeat first [reflexivity | apply suffix_cons_r].
Qed.

Lemma fmt_spec_spec fmt args sp fmt' args' :
  fmt_spec fmt args = Some (sp, fmt', args') -> suffix fmt' fmt /\ precision_ok (sp_precision sp).
Proof.
  unfold fmt_spec. intros H.
  apply bind_Some in H as (w & Ew & (p & Ep & H)%bind_Some). injection H as <- <- <-. cbn.
  apply fmt_width_suffix in Ew. apply fmt_precision_spec in Ep as [Ep Hp]. split; [|done].
  etrans; [apply fmt_qualifier_suffix|]. etrans; [exact Ep|]. etrans; [exact Ew|]. apply fmt_flags_suffix.
Qed.

(** The digits read as a number of the base are the number. *)
Fixpoint positional (value : Z -> Z) (base acc : Z) (l : list Z) : Z :=
  match l with [] => acc | c :: l => positional value base (acc * base + value c) l end.

Lemma positional_app value base acc l k :
  positional value base acc (l ++ k) = positional value base (positional value base acc l) k.
Proof. revert acc. induction l as [|c l IH]; intros acc; cbn; [done|apply IH]. Qed.

Lemma digits_text_value digits base n num value :
  2 <= base -> 0 <= num < 2 ^ Z.of_nat n -> (forall d, 0 <= d < base -> value (nth (Z.to_nat d) digits 0) = d) ->
  positional value base 0 (digits_text digits base n num) = num.
Proof.
  intros Hb Hn Hv. revert num Hn. induction n as [|n IH]; intros num Hn; [cbn in *; lia|].
  assert (Hp : 2 ^ Z.of_nat (S n) = 2 * 2 ^ Z.of_nat n) by (rewrite Nat2Z.inj_succ; apply Z.pow_succ_r; lia).
  cbn [digits_text]. destruct (Z.ltb_spec num base) as [Hlt|Hge].
  - cbn. rewrite Hv by lia. lia.
  - rewrite positional_app, IH.
    + cbn. rewrite Hv by (apply Z.mod_pos_bound; lia). rewrite (Z.div_mod num base) at 3 by lia. lia.
    + split; [apply Z.div_pos; lia|]. apply Z.div_lt_upper_bound; [lia|]. nia.
Qed.

Section Emit.
Context (m0 : mem) (buf end_ : Z).
(** Room for this many characters is mapped, up to [end_]. *)
Context (limit : nat).
Hypothesis Hw : forall q, buf <= q <= end_ -> q < buf + limit -> is_Some (m0 !! q).

(** The state after the text [t]: as much of it as fits is in memory. *)
Definition room : nat := Z.to_nat (end_ - buf + 1).
Definition shown (t : list Z) : printer := mk_printer (write m0 buf (take room t)) (buf + length t).

(** [c] prints [t]. *)
Definition emits {A} (c : M printer A) (a : A) (t : list Z) : Prop :=
  forall t0, (length (t0 ++ t) <= limit)%nat -> c (shown t0) = Ok (a, shown (t0 ++ t)).

Lemma write_snoc m p l c : write m p (l ++ [c]) = <[p + length l := c]> (write m p l).
Proof. by rewrite write_app. Qed.

Lemma emits_put c : 0 <= c < 256 -> emits (put end_ c) tt [c].
Proof.
  intros Hc t Hlim. rewrite length_app in Hlim. cbn [length] in Hlim.
  unfold put, shown. cbn [p_str p_mem]. rewrite length_app. cbn [length].
  replace (buf + (length t + 1)%nat) with (buf + length t + 1) by lia.
  destruct (Z.leb_spec (buf + length t) end_) as [Hl|Hl].
  - assert (Hr : (length t < room)%nat) by (unfold room; lia).
    rewrite take_ge by lia. rewrite take_ge by (rewrite length_app; cbn; lia).
    unfold st. rewrite lookup_write_out by lia. destruct (Hw (buf + length t)) as [x ->]; [lia|lia|].
    rewrite u8_small by lia. by rewrite write_snoc.
  - assert (Hr : (room <= length t)%nat) by (unfold room; lia). by rewrite take_app_le.
Qed.

Lemma emits_ret {A} (a : A) : emits (mret a) a [].
Proof. intros t _. by rewrite app_nil_r. Qed.

Lemma emits_bind {A B} (c : M printer A) (k : A -> M printer B) a b t1 t2 :
  emits c a t1 -> emits (k a) b t2 -> emits (c ≫= k) b (t1 ++ t2).
Proof.
  intros Hc Hk t Hl. rewrite app_assoc in Hl |- *. rewrite M_bind_unfold, Hc; [by apply Hk|].
  rewrite length_app in Hl. lia.
Qed.

(** The text of a computation that prints nothing itself. *)
Lemma emits_eq {A} (c : M printer A) a t t' : emits c a t -> t = t' -> emits c a t'.
Proof. by intros ? <-. Qed.

Lemma emits_puts l : Forall (fun c => 0 <= c < 256) l -> emits (puts end_ l) tt l.
Proof.
  induction 1 as [|c l Hc _ IH]; cbn [puts]; [apply emits_ret|].
  apply (emits_bind _ _ tt tt [c] l); [by apply emits_put|done].
Qed.

Lemma emits_pad size c : 0 <= c < 256 -> emits (pad end_ size c) (Z.min size 0 - 1) (replicate (Z.to_nat size) c).
Proof.
  intros Hc. unfold pad. eapply emits_eq; [eapply emits_bind; [|apply emits_ret]|apply app_nil_r].
  induction (Z.to_nat size) as [|n IH]; cbn [pad_loop replicate]; [apply emits_ret|].
  by apply (emits_bind _ _ tt tt [c]); [apply emits_put|].
Qed.

Lemma emits_pad_to size c v t :
  0 <= c < 256 -> v = Z.min size 0 - 1 -> t = replicate (Z.to_nat size) c -> emits (pad end_ size c) v t.
Proof. intros Hc -> ->. by apply emits_pad. Qed.

(** Leaving the flag ZEROPAD out changes no other flag. *)
Lemma flag_clear type f : Z.land (Z.lnot ZEROPAD) f = f -> flag (Z.land type (Z.lnot ZEROPAD)) f = flag type f.
Proof. intros E. unfold flag. by rewrite <- Z.land_assoc, E. Qed.

Lemma fill_flags type :
  (Z.land type (ZEROPAD + LEFT) =? 0) = negb (flag type ZEROPAD) && negb (flag type LEFT).
Proof.
  unfold flag. change (ZEROPAD + LEFT) with (Z.lor 1 16). rewrite Z.land_lor_distr_r, !negb_involutive.
  change ZEROPAD with 1. change LEFT with 16.
  destruct (Z.eqb_spec (Z.land type 1) 0) as [E1|E1], (Z.eqb_spec (Z.land type 16) 0) as [E2|E2]; cbn [andb];
    apply Z.eqb_eq || apply Z.eqb_neq; rewrite Z.lor_eq_0_iff; tauto.
Qed.

(** [number] with the fill character and the side decided. *)
Lemma number_tail size precision c sign prep pre ds left first :
  byte_list ds -> emits prep tt pre -> 0 <= sign < 256 -> 0 <= c < 256 ->
  (first = true -> left = false) ->
  let fill := size - Z.max precision (length ds) in
  emits (
    (size ← (if first then pad end_ (size - Z.max precision (length ds)) 32 else mret (size - Z.max precision (length ds)));
     (if negb (sign =? 0) then put end_ sign else mret tt) ≫= fun _ =>
     prep ≫= fun _ =>
     size ← (if negb left then pad end_ size c else mret size);
     _ ← pad end_ (Z.max precision (length ds) - length ds) 48;
     puts end_ ds ≫= fun _ =>
     _ ← pad end_ size 32; mret tt)) tt
   ((if first then spaces fill else []) ++ (if sign =? 0 then [] else [sign]) ++ pre ++
    (if left || first then [] else replicate (Z.to_nat fill) c) ++ zeros (precision - length ds) ++ ds ++
    (if left then spaces fill else [])).
Proof.
  intros Hds Hpre Hs Hc Hfl. cbn zeta. set (fill := size - _).
  assert (Hz : Z.max precision (length ds) - length ds = Z.max (precision - length ds) 0) by lia.
  eapply emits_bind with (a := if first then Z.min fill 0 - 1 else fill).
  { destruct first; [by apply emits_pad|apply emits_ret]. }
  eapply emits_bind with (a := tt).
  { destruct (sign =? 0); [apply emits_ret|by apply emits_put]. }
  eapply emits_bind; [exact Hpre|].
  eapply emits_bind with (a := if left then fill else Z.min fill 0 - 1 - (if first then 1 else 0)).
  { destruct left; cbn [negb orb].
    - destruct first; [by discriminate Hfl|]. apply emits_ret.
    - destruct first; cbn [orb].
      + apply emits_pad_to; [done|lia|]. by replace (Z.to_nat _) with O by lia.
      + apply emits_pad_to; [done|lia|done]. }
  eapply emits_bind.
  { eapply emits_eq; [apply emits_pad; lia|]. rewrite Hz. unfold zeros. f_equal. lia. }
  eapply emits_bind; [by apply emits_puts|].
  eapply emits_eq; [eapply emits_bind; [apply emits_pad; lia|apply emits_ret]|]. rewrite app_nil_r.
  destruct left; [done|]. by replace (Z.to_nat _) with O by (destruct first; lia).
Qed.

Definition printed_base (base : Z) : Prop := base = 8 \/ base = 10 \/ base = 16.

Lemma digits_text_pos digits base n num : (0 < n)%nat -> (0 < length (digits_text digits base n num))%nat.
Proof.
  destruct n; [lia|]. intros _. cbn [digits_text]. destruct (num <? base); [cbn; lia|].
  rewrite length_app. cbn. lia.
Qed.

Lemma digits_text_zero digits base n : 0 < base -> digits_text digits base (S n) 0 = [nth 0 digits 0].
Proof. intros Hb. cbn [digits_text]. by destruct (Z.ltb_spec 0 base); [|lia]. Qed.

(** The digits [number] collects. *)
Lemma tmp_digits type base num :
  printed_base base -> 0 <= num < 18446744073709551616 ->
  let digits := if flag type LARGE then large_digits else small_digits in
  (if num =? 0 then Ok [48] else digit_loop 64 digits num base) = Ok (reverse (digits_text digits base 64 num)).
Proof.
  intros Hb Hn. cbn zeta. set (digits := if flag type LARGE then _ else _).
  destruct (Z.eqb_spec num 0) as [->|Hn0].
  - rewrite digits_text_zero by (destruct Hb as [->|[->| ->]]; lia). unfold digits. by destruct (flag type LARGE).
  - apply digit_loop_spec; [destruct Hb as [->|[->| ->]]; lia| |lia].
    change (2 ^ Z.of_nat 64) with 18446744073709551616. lia.
Qed.

Lemma emits_val {A B} (c : M printer A) (k : A -> M printer B) a b t :
  (forall s, c s = Ok (a, s)) -> emits (k a) b t -> emits (c ≫= k) b t.
Proof. intros Hc Hk t0 Hl. rewrite M_bind_unfold, Hc. by apply Hk. Qed.

(** The sign character, the magnitude and the width left. *)
Lemma sign_split num width type :
  exists sg, sign_text num type = (if sg =? 0 then [] else [sg]) /\
    (if flag type SIGN then
       if s64 num <? 0 then (45, u64 (- s64 num), width - 1)
       else if flag type PLUS then (43, num, width - 1)
       else if flag type SPACE then (32, num, width - 1) else (0, num, width)
     else (0, num, width)) =
    (sg, (if negative num type then u64 (- s64 num) else num), width - length (sign_text num type)) /\
    0 <= sg < 256.
Proof.
  unfold sign_text, negative. destruct (flag type SIGN); cbn [andb].
  2:{ exists 0. cbn. rewrite Z.sub_0_r. split; [done|]. split; [done|lia]. }
  destruct (s64 num <? 0); [exists 45; cbn; split; [done|]; split; [done|lia]|].
  destruct (flag type PLUS); [exists 43; cbn; split; [done|]; split; [done|lia]|].
  destruct (flag type SPACE); [exists 32; cbn; split; [done|]; split; [done|lia]|].
  exists 0. cbn. rewrite Z.sub_0_r. split; [done|]. split; [done|lia].
Qed.

Lemma prefix_emits digits base type :
  byte_list digits ->
  emits (if flag type SPECIAL then
           if base =? 8 then put end_ 48
           else if base =? 16 then put end_ 48 ≫= fun _ => put end_ (nth 33 digits 0) else mret tt
         else mret tt) tt (prefix_text digits base type).
Proof.
  intros Hd. unfold prefix_text. destruct (flag type SPECIAL); [|apply emits_ret].
  destruct (base =? 8); [apply emits_put; lia|]. destruct (base =? 16); [|apply emits_ret].
  apply (emits_bind _ _ tt tt [48] [nth 33 digits 0]); apply emits_put; [lia|by apply nth_byte].
Qed.

(** [number] prints the text of the number. *)
Lemma number_emits num base width precision type :
  printed_base base -> 0 <= num < 18446744073709551616 ->
  emits (number end_ num base width precision type) tt (number_text num base width precision type).
Proof.
  intros Hb Hn. unfold number, number_text. set (digits := if flag type LARGE then _ else _).
  set (ty := if flag type LEFT then _ else type).
  assert (Hty : forall f, Z.land (Z.lnot ZEROPAD) f = f -> flag ty f = flag type f).
  { intros f Ef. unfold ty. destruct (flag type LEFT); [by apply flag_clear|done]. }
  assert (Hzero : flag ty ZEROPAD = flag type ZEROPAD && negb (flag type LEFT)).
  { unfold ty. destruct (flag type LEFT); cbn [negb]; rewrite ?andb_false_r, ?andb_true_r; [|done].
    unfold flag. rewrite <- Z.land_assoc. change (Z.land (Z.lnot ZEROPAD) ZEROPAD) with 0. by rewrite Z.land_0_r. }
  rewrite fill_flags, Hzero. rewrite !Hty by reflexivity.
  destruct ((base <? 2) || (36 <? base)) eqn:Eb; [destruct Hb as [->|[->| ->]]; done|]. clear Eb.
  destruct (sign_split num width type) as (sg & Esg & -> & Hsg).
  set (mag := if negative num type then _ else num).
  assert (Hm : 0 <= mag < 18446744073709551616).
  { unfold mag. destruct (negative num type); [unfold u64; apply Z.mod_pos_bound; lia|done]. }
  apply (emits_val _ _ (reverse (digits_text digits base 64 mag))).
  { intros s. pose proof (tmp_digits type base mag Hb Hm) as Et. cbn zeta in Et. fold digits in Et. by rewrite Et. }
  set (ds := digits_text digits base 64 mag). rewrite length_reverse, reverse_involutive.
  replace (if precision <? length ds then Z.of_nat (length ds) else precision) with (Z.max precision (length ds))
    by (destruct (Z.ltb_spec precision (length ds)); lia).
  replace (if flag type SPECIAL then _ else width - length (sign_text num type))
    with (width - length (sign_text num type ++ prefix_text digits base type)); [|].
  2:{ rewrite length_app. unfold prefix_text.
      destruct (flag type SPECIAL), Hb as [->|[->| ->]]; cbn [Z.eqb length]; change (8 =? 16) with false;
        change (16 =? 8) with false; change (10 =? 8) with false; cbn; lia. }
  eapply emits_eq.
  - apply (number_tail _ _ (if flag type ZEROPAD && negb (flag type LEFT) then 48 else 32) sg _
      (prefix_text digits base type) ds (flag type LEFT)
      (negb (flag type ZEROPAD && negb (flag type LEFT)) && negb (flag type LEFT))).
    + apply digits_text_bytes, digits_bytes.
    + apply prefix_emits, digits_bytes.
    + done.
    + destruct (_ && _); lia.
    + by destruct (flag type LEFT); rewrite ?andb_false_r.
  - rewrite Esg. destruct (flag type LEFT), (flag type ZEROPAD); cbn [negb andb orb]; rewrite ?app_nil_r, <- ?app_assoc;
      rewrite ?length_app; cbn [app]; unfold zeros, spaces; rewrite ?length_replicate.
    all: replace (Z.max precision (length ds)) with (Z.of_nat (Z.to_nat (precision - length ds) + length ds)) by lia.
    all: done.
Qed.

(** A string outside the characters that are written. *)
Definition apart (s n : Z) : Prop := s + n < buf \/ buf + limit <= s \/ end_ < s.

Lemma shown_lookup t q :
  (length t <= limit)%nat -> q < buf \/ buf + limit <= q \/ end_ < q -> p_mem (shown t) !! q = m0 !! q.
Proof.
  intros Ht Hq. unfold shown. cbn [p_mem]. apply lookup_write_out. rewrite length_take. unfold room. lia.
Qed.

Lemma emits_puts_from l s :
  cstr m0 s l -> apart s (length l) -> forall n, (n <= length l)%nat -> emits (puts_from end_ n s) tt (take n l).
Proof.
  intros Hc Ha n Hn. revert s l Hc Ha Hn. induction n as [|n IH]; intros s l Hc Ha Hn; [apply emits_ret|].
  destruct l as [|c l]; [cbn in Hn; lia|]. apply cstr_cons in Hc as (Hl & Hr & Hc). cbn [length] in Ha, Hn.
  cbn [puts_from take]. intros t Ht. rewrite M_bind_unfold. cbn [get]. unfold get. unfold ld.
  rewrite shown_lookup, Hl by (rewrite ?length_app in Ht; unfold apart in Ha; lia).
  refine (emits_bind _ _ tt tt [c] (take n l) _ _ t Ht); [apply emits_put; lia|].
  apply IH; [done|unfold apart in *; lia|lia].
Qed.

(** The length the code measures, up to the precision. *)
Lemma strnlen_spec sfuel n t l s :
  cstr m0 s l -> apart s (length l) -> (length t <= limit)%nat -> (length l < sfuel)%nat -> 0 <= n ->
  strnlen_z sfuel n (p_mem (shown t)) s = Ok (Z.min n (length l)).
Proof.
  intros Hc Ha Ht. revert n s l Hc Ha. induction sfuel as [|sfuel IH]; intros n s l Hc Ha Hf Hn; [lia|].
  cbn [strnlen_z]. destruct (Z.eqb_spec n 0) as [->|Hn0]; [by rewrite Z.min_l by lia|]. unfold ld.
  rewrite shown_lookup by (unfold apart in Ha; lia). destruct l as [|c l].
  - apply cstr_nil in Hc. rewrite Hc. cbn. by rewrite Z.min_r by lia.
  - apply cstr_cons in Hc as (-> & Hr & Hc). destruct (Z.eqb_spec c 0); [lia|].
    rewrite (IH _ _ l); [|done|cbn [length] in *; unfold apart in *; lia|cbn [length] in *; lia|lia].
    cbn [mbind res_bind length]. f_equal. lia.
Qed.

Lemma clipped_take p l :
  precision_ok p -> Z.of_nat (length l) < 4294967296 ->
  clipped p l = take (Z.to_nat (Z.min (u32 p) (length l))) l.
Proof.
  intros Hp Hl. unfold clipped. destruct Hp as [->|Hp].
  - rewrite (Z.min_r (u32 (-1))) by (change (u32 (-1)) with 4294967295; lia). rewrite Nat2Z.id.
    by rewrite (take_ge _ (length l)) by done.
  - destruct (Z.ltb_spec p 0); [lia|]. rewrite u32_small by lia.
    destruct (Z.le_ge_cases p (length l)); [by rewrite Z.min_l|].
    rewrite Z.min_r by lia. rewrite !take_ge by lia. done.
Qed.

(** The string [s] of an argument and the text shown for it. *)
Definition printed_string (sfuel : nat) (s : Z) (l : list Z) : Prop :=
  if s <? 4096 then l = null_text
  else cstr m0 s l /\ apart s (length l) /\ (length l < sfuel)%nat /\ Z.of_nat (length l) < 4294967296.

Lemma string_emits sfuel sp s l :
  printed_string sfuel s l -> precision_ok (sp_precision sp) ->
  emits (conv_string end_ sfuel sp s) tt (field sp (clipped (sp_precision sp) l)).
Proof.
  unfold printed_string. intros Hs Hp t Ht.
  assert (Hlim : (length t <= limit)%nat) by (rewrite length_app in Ht; lia).
  assert (Hlen : Z.of_nat (length l) < 4294967296) by (destruct (s <? 4096); [by subst l|tauto]).
  set (n := Z.min (u32 (sp_precision sp)) (length l)).
  assert (Hn : 0 <= n <= length l) by (unfold n; pose proof (u32_range (sp_precision sp)); lia).
  unfold conv_string. rewrite M_bind_unfold. unfold get at 1. rewrite M_bind_unfold.
  replace (if s <? 4096 then _ else _) with (Ok n); revgoals.
  { destruct (s <? 4096); [subst l n; by rewrite Z.min_comm|]. destruct Hs as (Hc & Ha & Hf & _).
    rewrite (strnlen_spec _ _ _ l); try done. apply u32_range. }
  revert t Ht Hlim. intros t Ht _. revert t Ht. rewrite clipped_take by done. fold n.
  change (emits ((if negb (flag (sp_flags sp) LEFT)
     then pad end_ (sp_width sp - n) 32 ≫= fun _ => mret (Z.min (sp_width sp) n - 1)
     else mret (sp_width sp)) ≫= fun w =>
    (if s <? 4096 then puts end_ (take (Z.to_nat n) null_text) else puts_from end_ (Z.to_nat n) s) ≫= fun _ =>
    pad end_ (w - n) 32 ≫= fun _ => mret tt) tt (field sp (take (Z.to_nat n) l))).
  assert (Htk : Z.of_nat (length (take (Z.to_nat n) l)) = n) by (rewrite length_take; lia).
  assert (Htext : emits (if s <? 4096 then puts end_ (take (Z.to_nat n) null_text)
                         else puts_from end_ (Z.to_nat n) s) tt (take (Z.to_nat n) l)).
  { destruct (s <? 4096); [subst l; apply emits_puts, Forall_take; unfold null_text; repeat constructor; lia|].
    apply emits_puts_from; [tauto|tauto|lia]. }
  unfold field. rewrite Htk. destruct (flag (sp_flags sp) LEFT); cbn [negb].
  - apply (emits_val _ _ (sp_width sp)); [done|].
    eapply emits_bind; [exact Htext|]. eapply emits_eq; [eapply emits_bind; [by apply emits_pad|apply emits_ret]|].
    apply app_nil_r.
  - eapply emits_bind.
    { eapply emits_eq; [eapply emits_bind; [by apply emits_pad|apply emits_ret]|apply app_nil_r]. }
    eapply emits_eq; [eapply emits_bind; [exact Htext|eapply emits_bind; [by apply emits_pad|apply emits_ret]]|].
    replace (Z.to_nat (_ - n)) with O by lia. by rewrite !app_nil_r.
Qed.

Lemma char_emits sp a : emits (conv_char end_ sp a) tt (field sp [u8 a]).
Proof.
  unfold conv_char, field. cbn [length]. destruct (flag (sp_flags sp) LEFT); cbn [negb].
  - apply (emits_val _ _ (sp_width sp)); [done|].
    eapply emits_bind; [apply emits_put, u8_range|].
    eapply emits_eq; [eapply emits_bind; [by apply emits_pad|apply emits_ret]|apply app_nil_r].
  - eapply emits_bind.
    { eapply emits_eq; [eapply emits_bind; [by apply emits_pad|apply emits_ret]|apply app_nil_r]. }
    eapply emits_eq; [eapply emits_bind; [apply emits_put, u8_range|]|].
    + eapply emits_bind; [by apply emits_pad|apply emits_ret].
    + by replace (Z.to_nat _) with O by lia.
Qed.

Lemma take_number_range q f args r : take_number q f args = Some r -> 0 <= r.1 < 18446744073709551616.
Proof.
  unfold take_number. intros H. repeat case_match; simplify_eq/=; unfold u64; mlia.
Qed.

Lemma int_conversion_base c f r : int_conversion c f = Some r -> printed_base r.1.
Proof. unfold int_conversion, printed_base. intros H. repeat case_match; simplify_eq/=; auto. Qed.

(** The strings of the arguments are as [printed_string] asks. *)
Context (strs : Z -> option (list Z)) (sfuel : nat).
Hypothesis Hstrs : forall s l, strs s = Some l -> printed_string sfuel s l.

(** The loop prints what the format and its arguments make; its fuel is the
    length of the format. *)
Lemma vsn_loop_emits fmt args t :
  formatted strs fmt args t -> byte_list fmt -> forall fuel, (length fmt < fuel)%nat ->
  emits (vsn_loop fuel sfuel end_ buf fmt args) tt t.
Proof.
  induction 1 as [args|c fmt args t Hc _ IH|fmt args sp args' Es|fmt args sp c fmt' args1 t1 args2 t Es Ec _ IH];
    intros Hb [|fuel] Hf; cbn [length] in Hf; try lia; cbn [vsn_loop].
  - apply emits_ret.
  - apply Forall_cons in Hb as [Hcb Hb]. destruct (Z.eqb_spec c 37); [done|]. cbn [negb].
    apply (emits_bind _ _ tt tt [c] t); [by apply emits_put|]. apply IH; [done|lia].
  - rewrite Es. cbn [Z.eqb negb]. change (37 =? 37) with true. cbn [negb].
    apply (emits_bind _ _ tt tt [37] []); [by apply emits_put|].
    destruct fuel; [lia|]. apply emits_ret.
  - rewrite Es. change (37 =? 37) with true. cbn [negb].
    destruct (fmt_spec_spec _ _ _ _ _ Es) as [[l0 ->] Hp].
    apply Forall_cons in Hb as [_ [_ Hb]%Forall_app]. apply Forall_cons in Hb as [Hcb Hb].
    assert (Hlen : (length fmt' < fuel)%nat) by (rewrite length_app in Hf; cbn [length] in Hf; lia).
    specialize (IH Hb fuel Hlen). clear Es Hf. unfold conversion in Ec.
    destruct (c =? 99).
    { destruct args1 as [|a args1]; [done|]. injection Ec as <- <-.
      eapply emits_bind; [apply char_emits|exact IH]. }
    destruct (c =? 115).
    { destruct args1 as [|a args1]; [done|]. apply bind_Some in Ec as (l & El & [= <- <-]).
      eapply emits_bind; [|exact IH]. apply string_emits; [|done]. unfold printed_string.
      destruct (u32 a <? 4096) eqn:Ea; [by injection El|]. specialize (Hstrs _ _ El).
      unfold printed_string in Hstrs. by rewrite Ea in Hstrs. }
    destruct (c =? 112).
    { destruct args1 as [|a args1]; [done|]. injection Ec as <- <-.
      assert (Ha : 0 <= u32 a < 18446744073709551616) by (pose proof (u32_range a); lia).
      eapply emits_bind; [|exact IH].
      destruct (sp_width sp =? -1); apply number_emits; unfold printed_base; auto. }
    destruct (c =? 110); [done|]. destruct (c =? 37).
    { injection Ec as <- <-. apply (emits_bind _ _ tt tt [37] t); [by apply emits_put|exact IH]. }
    destruct (int_conversion c (sp_flags sp)) as [[base flags]|] eqn:Ei.
    + apply bind_Some in Ec as ([num args3] & Et & [= <- <-]). rewrite Et.
      eapply emits_bind; [|exact IH]. apply number_emits; [apply (int_conversion_base _ _ _ Ei)|].
      apply (take_number_range _ _ _ _ Et).
    + injection Ec as <- <-. apply (emits_bind _ _ tt tt [37] ([c] ++ t)); [by apply emits_put|].
      apply (emits_bind _ _ tt tt [c] t); [by apply emits_put|exact IH].
Qed.
End Emit.

(** ** What vsnprintf does *)

(** The size up to the end of the address space. *)
Definition usable (buf size : Z) : Z := Z.min size (4294967296 - buf).

(** What is in the buffer afterwards: as much of the text as fits before a NUL. *)
Definition stored (n : Z) (t : list Z) : list Z := if n =? 0 then [] else take (Z.to_nat (n - 1)) t ++ [0].

Lemma stored_end m p (n : nat) t :
  (n < length t)%nat -> <[p + n := 0]> (write m p (take (S n) t)) = write m p (take n t ++ [0]).
Proof.
  intros Hn. destruct (lookup_lt_is_Some_2 t n Hn) as [x Hx]. rewrite (take_S_r _ _ _ Hx).
  assert (Ep : p + n = p + length (take n t)) by (rewrite length_take; lia).
  rewrite !write_snoc, <- Ep, insert_insert. by rewrite decide_True.
Qed.

Lemma is_Some_write (m : mem) p l q : is_Some (m !! q) -> is_Some (write m p l !! q).
Proof.
  revert m p. induction l as [|b l IH]; intros m p Hq; cbn; [done|]. by apply IH, is_Some_insert.
Qed.

Section Printed.
Context (strs : Z -> option (list Z)) (sfuel : nat) (m : mem) (buf size : Z) (fmt args t : list Z).
Hypothesis Hbuf : 0 < buf < 4294967296.
Hypothesis Hsize : 0 <= size < 2147483648.
Hypothesis Hfmt : byte_list fmt.
Hypothesis Ht : formatted strs fmt args t.
Hypothesis Hlen : Z.of_nat (length t) < 2147483648.
(** The buffer, as far as the text and its NUL need it. *)
Let n := Z.min (usable buf size) (length t + 1).
Hypothesis Hw : writable m buf n.
Hypothesis Hstrs : forall s l, strs s = Some l ->
  4096 <= s /\ cstr m s l /\ (s + length l < buf \/ buf + n <= s) /\ (length l < sfuel)%nat /\
  Z.of_nat (length l) < 4294967296.

Lemma vsnprintf_stored :
  vsnprintf sfuel m buf size fmt args = Ok (write m buf (stored (usable buf size) t), Z.of_nat (length t)).
Proof.
  unfold vsnprintf. rewrite s32_small by lia. destruct (Z.ltb_spec size 0); [lia|]. cbn zeta.
  assert (Eu : usable buf size = size /\ buf + size <= 4294967296 \/
               usable buf size = 4294967296 - buf /\ 4294967296 < buf + size) by (unfold usable; lia).
  set (size' := usable buf size) in *.
  assert (Ew : (u32 (buf + size - 1) <? u32 (buf - 1)) = (4294967296 <? buf + size)).
  { rewrite (u32_small (buf - 1)) by lia.
    destruct (Z.ltb_spec 4294967296 (buf + size)).
    - apply Z.ltb_lt. mlia.
    - apply Z.ltb_ge. rewrite u32_small by lia. lia. }
  rewrite Ew.
  replace (if 4294967296 <? buf + size then 4294967295 else u32 (buf + size - 1)) with (buf + size' - 1)
    by (destruct (Z.ltb_spec 4294967296 (buf + size)); [lia|rewrite u32_small by lia; lia]).
  replace (if 4294967296 <? buf + size then u32 (4294967295 - buf + 1) else size) with size'
    by (destruct (Z.ltb_spec 4294967296 (buf + size)); [rewrite u32_small by lia; lia|lia]).
  clear Ew. set (limit := S (length t)).
  assert (Hrun : vsn_loop (S (length fmt)) sfuel (buf + size' - 1) buf fmt args (mk_printer m buf) =
                 Ok (tt, shown m buf (buf + size' - 1) t)).
  { replace (mk_printer m buf) with (shown m buf (buf + size' - 1) [])
      by (unfold shown; rewrite take_nil; cbn; by rewrite Z.add_0_r).
    refine (vsn_loop_emits m buf (buf + size' - 1) limit _ strs sfuel _ fmt args t Ht Hfmt _ _ [] _); try (cbn; lia).
    - intros q Hq Hl. apply Hw. unfold n. cbn in Hl. lia.
    - intros s l El. destruct (Hstrs _ _ El) as (H1 & H2 & H3 & H4 & H5). unfold printed_string, apart.
      destruct (Z.ltb_spec s 4096); [lia|]. unfold n, limit in *. split_and!; try done. clear - H3. lia. }
  rewrite Hrun. cbn [mbind res_bind snd]. unfold shown. cbn [p_str p_mem].
  unfold room. replace (buf + size' - 1 - buf + 1) with size' by lia.
  assert (E32 : s32 (buf + length t - buf) = length t) by (rewrite s32_small; lia). rewrite E32.
  unfold stored. destruct (Z.leb_spec (buf + length t) (buf + size' - 1)) as [Hfit|Hcut].
  - rewrite take_ge by lia. unfold st. rewrite lookup_write_out by lia.
    destruct (Hw (buf + length t)) as [x ->]; [unfold n; lia|]. change (u8 0) with 0. cbn [mbind res_bind].
    destruct (Z.eqb_spec size' 0); [lia|]. rewrite take_ge by lia. by rewrite write_snoc.
  - destruct (Z.eqb_spec size' 0) as [->|Hs0]; [by rewrite take_0|].
    destruct (Z.ltb_spec 0 size'); [|lia]. unfold st.
    replace (Z.to_nat size') with (S (Z.to_nat (size' - 1))) by lia.
    rewrite <- stored_end by lia. replace (buf + Z.to_nat (size' - 1)) with (buf + size' - 1) by lia.
    assert (Hin : is_Some (write m buf (take (S (Z.to_nat (size' - 1))) t) !! (buf + size' - 1))).
    { apply is_Some_write. apply Hw. unfold n. lia. }
    destruct Hin as [x ->]. done.
Qed.
End Printed.


(** ** Printed numbers read back *)

(** The character is not a digit of the base. *)
Definition stops (base : Z) (rest : list Z) : Prop :=
  match rest with [] => True | c :: _ => isxdigit c && (digit_value c <? base) = false end.

Lemma digit_char type d :
  0 <= d < 16 ->
  let c := nth (Z.to_nat d) (if flag type LARGE then large_digits else small_digits) 0 in
  isxdigit c = true /\ digit_value c = d.
Proof.
  intros Hd. cbn zeta.
  assert (E : exists i : nat, (i < 16)%nat /\ d = i) by (exists (Z.to_nat d); lia).
  destruct E as (i & Hi & ->). rewrite Nat2Z.id.
  do 16 (destruct i as [|i]; [by destruct (flag type LARGE)|]). lia.
Qed.

Definition digit_of (base c : Z) : Prop := isxdigit c = true /\ 0 <= digit_value c < base.

Lemma digits_text_digits type base n num :
  2 <= base <= 16 -> 0 <= num ->
  Forall (digit_of base) (digits_text (if flag type LARGE then large_digits else small_digits) base n num).
Proof.
  intros Hb. set (digits := if flag type LARGE then _ else _).
  assert (Hd : forall d, 0 <= d < base -> digit_of base (nth (Z.to_nat d) digits 0)).
  { intros d Hd. destruct (digit_char type d) as [H1 H2]; [lia|]. fold digits in H1, H2.
    split; [done|]. rewrite H2. lia. }
  revert num. induction n as [|n IH]; intros num Hn; cbn [digits_text]; [constructor|].
  destruct (Z.ltb_spec num base).
  - constructor; [apply Hd; lia|constructor].
  - apply Forall_app. split; [apply IH, Z.div_pos; lia|]. constructor; [|constructor].
    apply Hd, Z.mod_pos_bound. lia.
Qed.

Lemma zeros_digits base n : 2 <= base -> Forall (digit_of base) (zeros n).
Proof. intros Hb. apply Forall_replicate. split; [done|]. change (digit_value 48) with 0. lia. Qed.

Lemma positional_zeros value base n : value 48 = 0 -> positional value base 0 (zeros n) = 0.
Proof. intros Hv. unfold zeros. induction (Z.to_nat n) as [|k IH]; cbn; [done|]. by rewrite Hv. Qed.

Lemma positional_ge base acc l :
  1 <= base -> 0 <= acc -> Forall (digit_of base) l -> acc <= positional digit_value base acc l.
Proof.
  intros Hb Ha Hl. revert acc Ha. induction Hl as [|c l [_ Hc] _ IH]; intros acc Ha; cbn; [lia|].
  etrans; [|apply IH]; nia.
Qed.

Section ReadBack.
Context (wrap : Z -> Z) (W : Z).
Hypothesis Hwrap : forall v, 0 <= v < W -> wrap v = v.

Lemma strto_loop_read base acc l rest :
  1 <= base -> 0 <= acc -> Forall (digit_of base) l -> stops base rest ->
  positional digit_value base acc l < W ->
  strto_loop wrap base acc (l ++ rest) = (positional digit_value base acc l, rest).
Proof.
  intros Hb Ha Hl Hr. revert acc Ha. induction Hl as [|c l [Hx Hc] Hl IH]; intros acc Ha Hv.
  - cbn. destruct rest as [|c rest]; [done|]. cbn in Hr |- *. by rewrite Hr.
  - cbn [strto_loop app positional] in *. rewrite Hx. destruct (Z.ltb_spec (digit_value c) base); [|lia]. cbn [andb].
    pose proof (positional_ge base (acc * base + digit_value c) l). rewrite Hwrap by nia. apply IH; [nia|done].
Qed.

(** The digits of a number, with leading zeros. *)
Lemma strto_loop_digits type base n p rest :
  printed_base base -> 0 <= n < W -> W <= 18446744073709551616 -> stops base rest ->
  strto_loop wrap base 0
    ((zeros p ++ digits_text (if flag type LARGE then large_digits else small_digits) base 64 n) ++ rest) = (n, rest).
Proof.
  intros Hb Hn HW Hr. assert (Hb' : 2 <= base <= 16) by (destruct Hb as [->|[->| ->]]; lia).
  assert (E : positional digit_value base 0
    (zeros p ++ digits_text (if flag type LARGE then large_digits else small_digits) base 64 n) = n).
  { rewrite positional_app, positional_zeros by done. apply digits_text_value; [lia| |].
    - change (2 ^ Z.of_nat 64) with 18446744073709551616. lia.
    - intros d Hd. apply digit_char. lia. }
  rewrite strto_loop_read; rewrite ?E; try done; try lia.
  apply Forall_app. split; [apply zeros_digits; lia|apply digits_text_digits; lia].
Qed.
End ReadBack.

Lemma number_text_plain num base p type :
  let digits := if flag type LARGE then large_digits else small_digits in
  number_text num base (-1) p type =
  sign_text num type ++ prefix_text digits base type ++
  (zeros (p - length (digits_text digits base 64 (if negative num type then u64 (- s64 num) else num))) ++
   digits_text digits base 64 (if negative num type then u64 (- s64 num) else num)).
Proof.
  cbn zeta. unfold number_text. set (ds := digits_text _ _ _ _).
  assert (E0 : forall (a b : nat) (c : Z), replicate (Z.to_nat (-1 - a - b)) c = []).
  { intros a b c. by replace (Z.to_nat (-1 - a - b)) with O by lia. }
  unfold spaces. rewrite E0. unfold zeros at 2. rewrite E0.
  destruct (flag type LEFT), (flag type ZEROPAD); rewrite ?app_nil_r; cbn [app]; by rewrite <- app_assoc.
Qed.

Lemma flag_lor a b f : flag (Z.lor a b) f = flag a f || flag b f.
Proof.
  unfold flag. rewrite Z.land_lor_distr_l.
  destruct (Z.eqb_spec (Z.land a f) 0) as [->|Ha], (Z.eqb_spec (Z.land b f) 0) as [->|Hb]; cbn [negb orb]; try done;
    apply negb_true_iff, Z.eqb_neq; rewrite Z.lor_eq_0_iff; tauto.
Qed.

Lemma strtol_positive c cp base :
  isxdigit c = true -> simple_strtol (c :: cp) base = (s32 (simple_strtoul (c :: cp) base).1, (simple_strtoul (c :: cp) base).2).
Proof.
  intros Hc. assert (H45 : c <> 45) by (by intros ->). unfold simple_strtol. by repeat case_match; subst.
Qed.

Lemma unsigned_digits base n p type :
  flag type SIGN = false ->
  number_text n base (-1) p type =
  prefix_text (if flag type LARGE then large_digits else small_digits) base type ++
  zeros (p - length (digits_text (if flag type LARGE then large_digits else small_digits) base 64 n)) ++
  digits_text (if flag type LARGE then large_digits else small_digits) base 64 n.
Proof. intros Hs. rewrite number_text_plain. unfold sign_text, negative. by rewrite Hs. Qed.

Lemma read_unsigned type base n p rest :
  printed_base base -> 0 <= n < 4294967296 -> stops base rest -> flag type SIGN = false -> flag type SPECIAL = false ->
  simple_strtoul (number_text n base (-1) p type ++ rest) base = (n, rest).
Proof.
  intros Hb Hn Hr Hs Hp. rewrite unsigned_digits by done. unfold prefix_text. rewrite Hp. cbn [app].
  unfold simple_strtoul, strto, strto_base. destruct (Z.eqb_spec base 0) as [->|_]; [by destruct Hb as [|[|]]|].
  cbn [fst snd]. by rewrite (strto_loop_digits _ 4294967296 u32_small).
Qed.

Lemma read_signed type z p rest :
  -2147483648 <= z < 2147483648 -> stops 10 rest -> flag type SPECIAL = false ->
  flag type PLUS = false -> flag type SPACE = false ->
  simple_strtol (number_text (u64 z) 10 (-1) p (Z.lor type SIGN) ++ rest) 10 = (z, rest).
Proof.
  intros Hz Hr Hp Hplus Hspace. rewrite number_text_plain. unfold sign_text, negative, prefix_text.
  rewrite !flag_lor, Hp, Hplus, Hspace. change (flag SIGN SIGN) with true.
  change (flag SIGN SPECIAL) with false. change (flag SIGN PLUS) with false. change (flag SIGN SPACE) with false.
  rewrite orb_true_r. cbn [orb andb app].
  assert (E64 : s64 (u64 z) = z) by (unfold s64, u64; lia). rewrite E64.
  set (digits := if _ || _ then large_digits else small_digits).
  assert (Hread : forall v, 0 <= v < 4294967296 ->
    strto_loop u32 10 0 ((zeros (p - length (digits_text digits 10 64 v)) ++ digits_text digits 10 64 v) ++ rest) = (v, rest)).
  { intros v Hv. unfold digits. rewrite <- flag_lor.
    apply (strto_loop_digits _ 4294967296 u32_small); unfold printed_base; auto; lia. }
  destruct (Z.ltb_spec z 0) as [Hneg|Hpos]; cbn [app].
  - assert (Eu : u64 (- z) = - z) by (unfold u64; rewrite Z.mod_small; lia). rewrite Eu.
    unfold simple_strtol, simple_strtoul, strto, strto_base. change (10 =? 0) with false. cbn [fst snd].
    rewrite Hread by lia. cbn [fst snd]. f_equal. by rewrite Z.opp_involutive, s32_small by lia.
  - assert (Eu : u64 z = z) by (unfold u64; rewrite Z.mod_small; lia). rewrite Eu.
    destruct ((zeros (p - length (digits_text digits 10 64 z)) ++ digits_text digits 10 64 z) ++ rest) as [|c l] eqn:El.
    { specialize (Hread z ltac:(lia)). rewrite El in Hread. cbn in Hread. injection Hread as <- <-. done. }
    rewrite strtol_positive.
    + unfold simple_strtoul, strto, strto_base. change (10 =? 0) with false. cbn [fst snd].
      rewrite <- El, Hread by lia. cbn [fst snd]. by rewrite s32_small by lia.
    + assert (Hd : Forall (digit_of 10)
        (zeros (p - length (digits_text digits 10 64 z)) ++ digits_text digits 10 64 z)).
      { apply Forall_app. split; [by apply zeros_digits|]. unfold digits. rewrite <- flag_lor.
        by apply digits_text_digits. }
      destruct (zeros _ ++ digits_text digits 10 64 z) as [|c' l'] eqn:El'.
      * exfalso. pose proof (digits_text_pos digits 10 64 z ltac:(lia)) as Hpos'.
        apply app_eq_nil in El' as [_ El']. rewrite El' in Hpos'. cbn in Hpos'. lia.
      * injection El as -> _. apply Forall_cons in Hd as [[Hx _] _]. done.
Qed.

Lemma read_prefixed type n p rest :
  0 <= n < 4294967296 -> stops 16 rest -> flag type SIGN = false -> flag type LARGE = false ->
  simple_strtoul (number_text n 16 (-1) p (Z.lor type SPECIAL) ++ rest) 0 = (n, rest).
Proof.
  intros Hn Hr Hs Hl.
  rewrite unsigned_digits by (by rewrite flag_lor, Hs). unfold prefix_text. rewrite !flag_lor, Hl.
  change (flag SPECIAL SPECIAL) with true. change (flag SPECIAL LARGE) with false. rewrite orb_true_r. cbn [orb].
  change (16 =? 8) with false. change (16 =? 16) with true. change (nth 33 small_digits 0) with 120. cbn [app].
  assert (Hd : Forall (digit_of 16) (zeros (p - length (digits_text small_digits 16 64 n)) ++ digits_text small_digits 16 64 n)).
  { apply Forall_app. split; [by apply zeros_digits|]. apply (digits_text_digits 0 16 64 n); lia. }
  pose proof (strto_loop_digits _ 4294967296 u32_small 0 16 n (p - length (digits_text small_digits 16 64 n)) rest
    ltac:(unfold printed_base; auto) Hn ltac:(lia) Hr) as Hread.
  change (if flag 0 LARGE then large_digits else small_digits) with small_digits in Hread.
  destruct (zeros _ ++ digits_text small_digits 16 64 n) as [|c l] eqn:El.
  { exfalso. pose proof (digits_text_pos small_digits 16 64 n ltac:(lia)) as Hpos'.
    apply app_eq_nil in El as [_ El]. rewrite El in Hpos'. cbn in Hpos'. lia. }
  apply Forall_cons in Hd as [[Hx _] _]. unfold simple_strtoul, strto, strto_base.
  change (0 =? 0) with true. cbn [app] in Hread |- *. rewrite Hx. exact Hread.
Qed.

(** A number printed by %o, %d, %u, %x or %X, with any precision, and
    followed by something that is no digit, is read back by simple_strtoul
    (simple_strtol if it is signed) in the same base, up to its last digit; so
    is the output of %#x by the base that the prefix tells. *)
Theorem printed_numbers_read type base n z p rest :
  printed_base base -> 0 <= n < 4294967296 -> -2147483648 <= z < 2147483648 -> stops base rest ->
  flag type SIGN = false -> flag type SPECIAL = false -> flag type PLUS = false -> flag type SPACE = false ->
  simple_strtoul (number_text n base (-1) p type ++ rest) base = (n, rest) /\
  (base = 10 -> simple_strtol (number_text (u64 z) base (-1) p (Z.lor type SIGN) ++ rest) base = (z, rest)) /\
  (base = 16 -> flag type LARGE = false ->
   simple_strtoul (number_text n base (-1) p (Z.lor type SPECIAL) ++ rest) 0 = (n, rest)).
Proof.
  intros Hb Hn Hz Hr Hsg Hsp Hplus Hspace. split_and!.
  - by apply read_unsigned.
  - intros ->. by apply read_signed.
  - intros -> Hl. by apply read_prefixed.
Qed.

(** "%d%%, %5s|%-4x" *)
Example printed_text :
  let m := write (list_to_map ((fun i : nat => (1000 + Z.of_nat i, 7)) <$> seq 0 40)) 5000 [97; 98; 0] in
  (fun r : mem * Z => (r.2, (fun i : nat => default 0 (r.1 !! (1000 + Z.of_nat i))) <$> seq 0 20)) <$>
    (match vsnprintf 10 m 1000 30 [37; 100; 37; 37; 44; 37; 53; 115; 124; 37; 45; 52; 120; 46]
       [4294967254; 5000; 255] with Ok r => Some r | Err _ => None end)
  = Some (16, [45; 52; 50; 37; 44; 32; 32; 32; 97; 98; 124; 102; 102; 32; 32; 46; 0; 7; 7; 7]).
Proof. vm_compute. reflexivity. Qed.

(** A buffer of 40 bytes at 1000 and the string "ab" at 5000. *)
Definition demo_mem : mem :=
  write (list_to_map ((fun i : nat => (1000 + Z.of_nat i, 7)) <$> seq 0 40)) 5000 [97; 98; 0].
Definition demo_strs (s : Z) : option (list Z) := if s =? 5000 then Some [97; 98] else None.

Lemma demo_mem_writable n : 0 <= n <= 40 -> writable demo_mem 1000 n.
Proof.
  intros Hn q Hq. replace q with (1000 + Z.of_nat (Z.to_nat (q - 1000))) by lia.
  assert (Hi : (Z.to_nat (q - 1000) < 40)%nat) by lia. revert Hi. generalize (Z.to_nat (q - 1000)). intros i Hi.
  do 40 (destruct i as [|i]; [vm_compute; eauto|]). lia.
Qed.


Lemma printed_numbers_read_witness :
  simple_strtoul (number_text 255 16 (-1) 4 0 ++ [44; 49]) 16 = (255, [44; 49]) /\
  (16 = 10 -> simple_strtol (number_text (u64 (-20)) 16 (-1) 4 (Z.lor 0 SIGN) ++ [44; 49]) 16 = (-20, [44; 49])) /\
  (16 = 16 -> flag 0 LARGE = false ->
   simple_strtoul (number_text 255 16 (-1) 4 (Z.lor 0 SPECIAL) ++ [44; 49]) 0 = (255, [44; 49])).
Proof. apply (printed_numbers_read 0 16 255 (-20) 4 [44; 49]); try done; try lia. unfold printed_base. auto. Defined.

(** "-20" and "0x00ff" *)
Example number_texts :
  (number_text (u64 (-20)) 10 (-1) (-1) SIGN, number_text 255 16 (-1) 4 SPECIAL) =
  ([45; 50; 48], [48; 120; 48; 48; 102; 102]).
Proof. vm_compute. reflexivity. Qed.

(** The prefix of %#X is no prefix for the parser. *)
Example large_prefix_not_read : simple_strtoul (number_text 255 16 (-1) (-1) (Z.lor LARGE SPECIAL)) 0 = (0, [88; 70; 70]).
Proof. vm_compute. reflexivity. Qed.

(** A buffer of size 0 makes vscnprintf report -1. *)
Example scnprintf_of_nothing : scnprintf 0 demo_mem 1000 0 [97] [] = Ok (demo_mem, -1).
Proof. vm_compute. reflexivity. Qed.
