(* ===== verification/TextParse.v ===== *)
(** * Scanning of texts (vsscanf of Linux/lib/ll_vsprintf.c, ll_cmdline.c, ll_parser.c)

    The routines read NUL-terminated strings, here lists of characters without
    the NUL; a pointer into a string is what is left of it, or an offset.  What
    vsscanf stores through its pointer arguments is the list of the addresses
    and bytes, in order. *)

From S2P Require Import Prelude CString VSprintf Heap DevHlp Memory.

(** Linux/lib/ll_ctype.c *)
Definition isspace (c : Z) : bool := (9 <=? c) && (c <=? 13) || (c =? 32) || (c =? 160).

Fixpoint skip_while (P : Z -> bool) (l : list Z) : list Z :=
  match l with c :: rest => if P c then skip_while P rest else l | [] => [] end.
Fixpoint word (l : list Z) : list Z :=
  match l with c :: l => if isspace c then [] else c :: word l | [] => [] end.

(** The character a pointer stands at. *)
Definition here (l : list Z) : Z := match l with c :: _ => c | [] => 0 end.

(** ** vsscanf *)

Definition le64 (n : Z) : list Z := le32 (n mod 4294967296) ++ le32 (n / 4294967296).

(** Base and signedness of an integer conversion. *)
Definition scan_conversion (c : Z) : option (Z * bool) :=
  if c =? 111 then Some (8, false)
  else if (c =? 120) || (c =? 88) then Some (16, false)
  else if c =? 105 then Some (0, true)
  else if c =? 100 then Some (10, true)
  else if c =? 117 then Some (10, false) else None.

(** The text at [str] can not start a number. *)
Definition no_number (base : Z) (is_sign : bool) (str : list Z) : bool :=
  let digit := if is_sign && (here str =? 45) then here (tail str) else here str in
  (digit =? 0) || (base =? 16) && negb (isxdigit digit) || (base =? 10) && negb (isdigit digit)
  || (base =? 8) && (negb (isdigit digit) || (55 <? digit)) || (base =? 0) && negb (isdigit digit).

(** The bytes of the number, at the width the qualifier tells, and the rest. *)
Definition scan_number (qualifier base : Z) (is_sign : bool) (str : list Z) : list Z * list Z :=
  if qualifier =? 104 then
    let r := if is_sign then simple_strtol str base else simple_strtoul str base in (le16 (u16 r.1), r.2)
  else if qualifier =? 76 then
    let r := if is_sign then simple_strtoll str base else simple_strtoull str base in (le64 (u64 r.1), r.2)
  else if (qualifier =? 90) || (qualifier =? 122) then
    let r := simple_strtoul str base in (le32 (u32 r.1), r.2)
  else let r := if is_sign then simple_strtol str base else simple_strtoul str base in (le32 (u32 r.1), r.2).

(** What a turn of the loop does. *)
Inductive turn :=
  | Stop (counted : Z)
  | Continue (fmt str args : list Z) (counted : Z) (stores : list (Z * list Z)).

(** One conversion, behind its percent sign; [buflen] is the length of the
    whole buffer. *)
Definition scan_conv (buflen : nat) (fmt str args : list Z) : res turn :=
  match fmt with
  | 42 :: _ =>
      Ok (Continue (skip_while (fun c => negb (isspace c)) fmt) (skip_while (fun c => negb (isspace c)) str) args 0 [])
  | _ =>
      let '(field_width, fmt) := if isdigit (here fmt) then skip_atoi fmt else (-1, fmt) in
      let c := here fmt in
      let '(qualifier, fmt) :=
        if (c =? 104) || (c =? 108) || (c =? 76) || (c =? 90) || (c =? 122) then (c, tail fmt) else (-1, fmt) in
      match fmt, str with
      | [], _ | _, [] => Ok (Stop 0)
      | c :: fmt, _ =>
          if c =? 99 then
            match args with
            | s :: args =>
                let n := if field_width =? -1 then 1 else Z.max 1 field_width in
                Ok (Continue fmt (drop (Z.to_nat n) str) args 1 [(s, take (Z.to_nat n) str)])
            | [] => Err UninitRead
            end
          else if c =? 115 then
            match args with
            | s :: args =>
                let str := skip_while isspace str in
                let n := if field_width <? 0 then length (word str)
                         else Nat.min (length (word str)) (Z.to_nat field_width) in
                Ok (Continue fmt (drop n str) args 1 [(s, take n str ++ [0])])
            | [] => Err UninitRead
            end
          else if c =? 110 then
            match args with
            | i :: args => Ok (Continue fmt str args 0 [(i, le32 (buflen - length str))])
            | [] => Err UninitRead
            end
          else
            match scan_conversion c with
            | Some (base, is_sign) =>
                let str := skip_while isspace str in
                if no_number base is_sign str then Ok (Stop 0) else
                match args with
                | p :: args =>
                    let r := scan_number qualifier base is_sign str in
                    Ok (Continue fmt r.2 args 1 [(p, r.1)])
                | [] => Err UninitRead
                end
            | None =>
                if (c =? 37) && (here str =? 37) then Ok (Continue fmt (tail str) args 0 []) else Ok (Stop 0)
            end
      end
  end.

(** Every turn takes at least one character of the format. *)
Fixpoint scan_loop (fuel buflen : nat) (fmt str args : list Z) : res (Z * list (Z * list Z)) :=
  match fuel with
  | O => Err OutOfFuel
  | S fuel =>
      match fmt, str with
      | [], _ | _, [] => Ok (0, [])
      | _, _ =>
          let '(fmt, str) :=
            if isspace (here fmt) then (skip_while isspace fmt, skip_while isspace str) else (fmt, str) in
          t ← match fmt with
              | [] => Ok (Stop 0)
              | c :: fmt =>
                  if negb (c =? 37) then
                    if here str =? c then Ok (Continue fmt (tail str) args 0 []) else Ok (Stop 0)
                  else scan_conv buflen fmt str args
              end;
          match t with
          | Stop n => Ok (n, [])
          | Continue fmt str args n stores =>
              r ← scan_loop fuel buflen fmt str args; Ok (n + r.1, stores ++ r.2)
          end
      end
  end.

Definition vsscanf (buf fmt args : list Z) : res (Z * list (Z * list Z)) :=
  scan_loop (S (length fmt)) (length buf) fmt buf args.
Definition sscanf := vsscanf.

(** ** ll_cmdline.c *)

(** The result, the number if one is stored, the string afterwards. *)
Definition get_option (str : list Z) : Z * option Z * list Z :=
  match str with
  | [] => (0, None, str)
  | _ =>
      let r := simple_strtol str 0 in
      if (length r.2 =? length str)%nat then (0, Some r.1, str)
      else match r.2 with
           | 44 :: rest => (2, Some r.1, rest)
           | rest => (1, Some r.1, rest)
           end
  end.

(** The integers stored from index 1 on, how many of them count, and the string;
    [n] is the room that is left.  What is no number stores a 0 that does not
    count. *)
Fixpoint get_options_loop (n : nat) (str : list Z) : list Z * nat * list Z :=
  match n with
  | O => ([], O, str)
  | S n =>
      let '(res, v, rest) := get_option str in
      let stored := match v with Some v => [v] | None => [] end in
      if res =? 0 then (stored, O, rest) else
      if res =? 1 then (stored, 1%nat, rest) else
      let r := get_options_loop n rest in (stored ++ r.1.1, S r.1.2, r.2)
  end.

(** [ints], its count first, and where the parse ended. *)
Definition get_options (str : list Z) (nints : nat) : list Z * list Z :=
  let r := get_options_loop (nints - 1) str in (Z.of_nat r.1.2 :: r.1.1, r.2).

Definition memparse (ptr : list Z) : Z * list Z :=
  let r := simple_strtoull ptr 0 in
  match r.2 with
  | c :: rest =>
      if (c =? 71) || (c =? 103) then (u64 (r.1 * 1073741824), rest)
      else if (c =? 77) || (c =? 109) then (u64 (r.1 * 1048576), rest)
      else if (c =? 75) || (c =? 107) then (u64 (r.1 * 1024), rest)
      else r
  | [] => r
  end.

(** ** ll_parser.c *)

(** A substring: the offsets of its ends. *)
Definition substring_t : Type := nat * nat.
Definition MAX_OPT_ARGS : nat := 3.

(** The text up to the first percent sign and what follows it. *)
Fixpoint to_meta (p : list Z) : option (list Z * list Z) :=
  match p with
  | c :: p => if c =? 37 then Some ([], p) else r ← to_meta p; Some (c :: r.1, r.2)
  | [] => None
  end.

(** One argument of the string: where it ends. *)
Definition match_arg (c len : Z) (s : list Z) : option (list Z) :=
  if c =? 115 then
    match s with
    | [] => None
    | _ => Some (if (len =? -1) || (Z.of_nat (length s) <? u32 len) then [] else drop (Z.to_nat (u32 len)) s)
    end
  else
    r ← (if c =? 100 then Some (simple_strtol s 0).2
         else if c =? 117 then Some (simple_strtoul s 0).2
         else if c =? 111 then Some (simple_strtoul s 8).2
         else if c =? 120 then Some (simple_strtoul s 16).2 else None);
    if (length r =? length s)%nat then None else Some r.

(** The arguments found, if the string matches; [slen] is the length of the
    whole string, [argc] the number of arguments so far.  Behind a doubled
    percent sign the pattern goes on with the second one. *)
Fixpoint match_loop (fuel slen : nat) (argc : nat) (s p : list Z) : res (option (list substring_t)) :=
  match fuel with
  | O => Err OutOfFuel
  | S fuel =>
      match to_meta p with
      | None => Ok (if decide (p = s) then Some [] else None)
      | Some (lit, p) =>
          if negb (bool_decide (lit = take (length lit) s)) then Ok None else
          let s := drop (length lit) s in
          let '(len, p, more) :=
            if isdigit (here p) then let r := simple_strtoul p 10 in (s32 r.1, r.2, true)
            else (-1, p, negb (here p =? 37)) in
          if negb more then
            if here s =? 37 then match_loop fuel slen argc (tail s) p else Ok None
          else if (MAX_OPT_ARGS <=? argc)%nat then Ok None
          else
            match match_arg (here p) len s with
            | None => Ok None
            | Some rest =>
                r ← match_loop fuel slen (S argc) rest (tail p);
                Ok (l ← r; Some ((slen - length s, slen - length rest)%nat :: l))
            end
      end
  end.

(** [None]: the end of the table. *)
Definition match_one (s : list Z) (p : option (list Z)) : res (option (list substring_t)) :=
  match p with
  | None => Ok (Some [])
  | Some p => match_loop (S (length p)) (length s) O s p
  end.

Record match_entry := mk_entry { token : Z; pattern : option (list Z) }.

Fixpoint match_token (s : list Z) (table : list match_entry) : res (Z * list substring_t) :=
  match table with
  | [] => Err BadAccess
  | p :: table =>
      r ← match_one s (pattern p);
      match r with Some args => Ok (token p, args) | None => match_token s table end
  end.

Definition substring (s : list Z) (a : substring_t) : list Z := drop a.1 (take a.2 s).

Section Heaps.
Context {H : Type} `{Heap H}.

(** The code and the integer, if one is stored. *)
Definition match_number (s : list Z) (a : substring_t) (base : Z) (h : H) : H * (Z * option Z) :=
  let '(h, buf) := kmalloc (a.2 - a.1 + 1) h in
  if buf =? 0 then (h, (- ENOMEM, None)) else
  let text := substring s a in
  let r := simple_strtol text base in
  (kfree buf h, (if (length r.2 =? length text)%nat then - EINVAL else 0, Some r.1)).
Definition match_int (s : list Z) (a : substring_t) : H -> H * (Z * option Z) := match_number s a 0.
Definition match_octal (s : list Z) (a : substring_t) : H -> H * (Z * option Z) := match_number s a 8.
Definition match_hex (s : list Z) (a : substring_t) : H -> H * (Z * option Z) := match_number s a 16.

(** The bytes written at the target. *)
Definition match_strcpy (s : list Z) (a : substring_t) : list Z := substring s a ++ [0].
(** The copy and its bytes. *)
Definition match_strdup (s : list Z) (a : substring_t) (h : H) : H * option (Z * list Z) :=
  let '(h, p) := kmalloc (a.2 - a.1 + 1) h in
  (h, if p =? 0 then None else Some (p, match_strcpy s a)).
End Heaps.

(** ** Decimal texts *)

(** Behind the number no digit follows, nor an x that could make it a prefix. *)
Definition clean (rest : list Z) : Prop :=
  match rest with [] => True | c :: _ => isxdigit c = false /\ c <> 120 end.

Lemma clean_stops base rest : clean rest -> stops base rest.
Proof. destruct rest as [|c rest]; cbn; [done|]. by intros [-> _]. Qed.

Lemma digits_head digits base n num :
  2 <= base -> 0 < num < 2 ^ Z.of_nat n ->
  exists d l, digits_text digits base n num = nth (Z.to_nat d) digits 0 :: l /\ 0 < d < base.
Proof.
  intros Hb. revert num. induction n as [|n IH]; intros num Hn; [cbn in Hn; lia|].
  assert (Hp : 2 ^ Z.of_nat (S n) = 2 * 2 ^ Z.of_nat n) by (rewrite Nat2Z.inj_succ; apply Z.pow_succ_r; lia).
  cbn [digits_text]. destruct (Z.ltb_spec num base); [exists num, []; split; [done|lia]|].
  destruct (IH (num / base)) as (d & l & -> & Hd).
  - split; [apply Z.div_str_pos; lia|]. apply Z.div_lt_upper_bound; [lia|]. nia.
  - by eexists _, _.
Qed.

Definition udec (n : Z) : list Z := digits_text small_digits 10 64 n.
Definition dec (z : Z) : list Z := number_text (u64 z) 10 (-1) (-1) SIGN.

Lemma dec_split z :
  -2147483648 <= z < 2147483648 -> dec z = if z <? 0 then 45 :: udec (- z) else udec z.
Proof.
  intros Hz. unfold dec. rewrite number_text_plain. unfold sign_text, negative, prefix_text.
  change (flag SIGN SIGN) with true. change (flag SIGN SPECIAL) with false. change (flag SIGN PLUS) with false.
  change (flag SIGN SPACE) with false. change (flag SIGN LARGE) with false. cbn [andb app].
  assert (E64 : s64 (u64 z) = z) by (unfold s64, u64; lia). rewrite E64.
  assert (Ez : forall l : list Z, zeros (-1 - length l) = []).
  { intros l. unfold zeros. by replace (Z.to_nat (-1 - length l)) with O by lia. }
  rewrite Ez. destruct (Z.ltb_spec z 0); cbn [app].
  - assert (Eu : u64 (- z) = - z) by (unfold u64; rewrite Z.mod_small; lia). by rewrite Eu.
  - assert (Eu : u64 z = z) by (unfold u64; rewrite Z.mod_small; lia). by rewrite Eu.
Qed.

Lemma udec_zero : udec 0 = [48].
Proof. unfold udec. by rewrite digits_text_zero. Qed.

Lemma udec_nonzero n : 0 < n < 18446744073709551616 -> exists c l, udec n = c :: l /\ 49 <= c <= 57.
Proof.
  intros Hn. destruct (digits_head small_digits 10 64 n) as (d & l & E & Hd); [lia| |].
  - change (2 ^ Z.of_nat 64) with 18446744073709551616. lia.
  - unfold udec. rewrite E. eexists _, _. split; [done|].
    assert (Ei : exists i : nat, (i < 9)%nat /\ d = S i) by (exists (Z.to_nat (d - 1)); lia).
    destruct Ei as (i & Hi & ->). rewrite Nat2Z.id. do 9 (destruct i as [|i]; [cbn; lia|]). lia.
Qed.

Lemma strto_read wrap W n rest :
  (forall v, 0 <= v < W -> wrap v = v) -> 0 <= n < W -> W <= 18446744073709551616 -> clean rest ->
  strto wrap (udec n ++ rest) 0 = (n, rest).
Proof.
  intros Hwrap Hn HW Hr. destruct (decide (n = 0)) as [->|Hn0].
  - rewrite udec_zero. cbn [app]. unfold strto, strto_base. change (0 =? 0) with true.
    destruct rest as [|c rest]; [done|]. destruct Hr as [Hx Hc].
    replace (match c :: rest with 120 :: ((c0 :: _) as cp2) => if isxdigit c0 then (16, cp2) else (8, c :: rest)
             | _ => (8, c :: rest) end) with (8, c :: rest) by (by repeat case_match; simplify_eq/=).
    cbn [fst snd strto_loop]. by rewrite Hx.
  - destruct (udec_nonzero n) as (c & l & E & Hc); [lia|].
    assert (Eb : strto_base 0 (udec n ++ rest) = (10, udec n ++ rest)).
    { rewrite E. cbn [app]. unfold strto_base. change (0 =? 0) with true. cbn match.
      destruct (decide (c = 48)); [lia|]. by repeat case_match; subst. }
    unfold strto. rewrite Eb. cbn [fst snd].
    pose proof (strto_loop_digits wrap W Hwrap 0 10 n (-1) rest ltac:(unfold printed_base; auto) Hn HW
      (clean_stops _ _ Hr)) as Hread.
    unfold zeros in Hread. cbn [Z.to_nat replicate app] in Hread. exact Hread.
Qed.

Lemma simple_strtol_dec z rest :
  -2147483648 <= z < 2147483648 -> clean rest -> simple_strtol (dec z ++ rest) 0 = (z, rest).
Proof.
  intros Hz Hr. rewrite dec_split by done.
  assert (Hread : forall v, 0 <= v < 4294967296 -> simple_strtoul (udec v ++ rest) 0 = (v, rest)).
  { intros v Hv. by apply (strto_read _ 4294967296); [apply u32_small| |lia|]. }
  destruct (Z.ltb_spec z 0).
  - cbn [app]. unfold simple_strtol. rewrite Hread by lia. cbn [fst snd]. by rewrite s32_small, Z.opp_involutive by lia.
  - assert (Eh : exists c l, udec z = c :: l /\ isxdigit c = true).
    { destruct (decide (z = 0)) as [->|]; [by rewrite udec_zero; eexists _, _|].
      destruct (udec_nonzero z) as (c & l & E & Hc); [lia|]. exists c, l. split; [done|].
      unfold isxdigit, isdigit. destruct (Z.leb_spec 48 c), (Z.leb_spec c 57); lia. }
    destruct Eh as (c & l & E & Hc). specialize (Hread z ltac:(lia)). rewrite E in *. cbn [app] in *.
    rewrite strtol_positive by done. rewrite Hread. cbn [fst snd]. by rewrite s32_small by lia.
Qed.

Lemma udec_not_nil n : udec n <> [].
Proof.
  intros E. pose proof (digits_text_pos small_digits 10 64 n ltac:(lia)) as H. unfold udec in E.
  rewrite E in H. cbn in H. lia.
Qed.

Lemma dec_not_nil z : -2147483648 <= z < 2147483648 -> dec z <> [].
Proof. intros Hz. rewrite dec_split by done. destruct (z <? 0); [done|apply udec_not_nil]. Qed.

Lemma digits_text_length digits base n num : (length (digits_text digits base n num) <= n)%nat.
Proof.
  revert num. induction n as [|n IH]; intros num; cbn [digits_text]; [done|].
  destruct (num <? base); [cbn; lia|]. rewrite length_app. cbn. specialize (IH (num / base)). lia.
Qed.

Lemma dec_length z : -2147483648 <= z < 2147483648 -> (length (dec z) <= 65)%nat.
Proof.
  intros Hz. rewrite dec_split by done. unfold udec.
  pose proof (digits_text_length small_digits 10 64 z). pose proof (digits_text_length small_digits 10 64 (- z)).
  destruct (z <? 0); cbn [length]; lia.
Qed.

(** ** Option lists *)

Fixpoint joined (zs : list Z) : list Z :=
  match zs with [] => [] | [z] => dec z | z :: zs => dec z ++ 44 :: joined zs end.
Definition int_range (z : Z) : Prop := -2147483648 <= z < 2147483648.

Lemma get_option_dec z rest :
  int_range z -> clean rest ->
  get_option (dec z ++ rest) =
  match rest with 44 :: rest' => (2, Some z, rest') | _ => (1, Some z, rest) end.
Proof.
  intros Hz Hr. unfold get_option. rewrite simple_strtol_dec by done. cbn [fst snd].
  pose proof (dec_not_nil z Hz) as Hd. destruct (dec z) as [|c l] eqn:E; [done|]. cbn [app length].
  destruct (Nat.eqb_spec (length rest) (S (length (l ++ rest)))) as [Hl|_]; [rewrite length_app in Hl; lia|].
  by repeat case_match; subst.
Qed.

(** Get_options takes the integers of a comma-separated list, as many as
    there is room for, counts them, and stops behind the last one it took. *)
Theorem get_options_list zs n :
  Forall int_range zs ->
  get_options (joined zs) (S n) = (Z.of_nat (Nat.min n (length zs)) :: take n zs, joined (drop n zs)).
Proof.
  intros Hz. unfold get_options. replace (S n - 1)%nat with n by lia.
  assert (E : get_options_loop n (joined zs) = (take n zs, Nat.min n (length zs), joined (drop n zs))).
  { revert n. induction Hz as [|z zs Hz Hzs IH]; intros [|n]; try done.
    destruct zs as [|z' zs]; cbn [joined get_options_loop take drop length].
    - replace (dec z) with (dec z ++ []) by apply app_nil_r. rewrite get_option_dec by done. cbn.
      by rewrite take_nil, drop_nil, Nat.min_0_r.
    - change (joined (z :: z' :: zs)) with (dec z ++ 44 :: joined (z' :: zs)).
      rewrite get_option_dec by done. change (2 =? 0) with false. change (2 =? 1) with false. cbn match.
      rewrite IH. done. }
  by rewrite E.
Qed.

(** The suffix and the power of two it stands for. *)
Definition mem_suffix (c : Z) : option Z :=
  if (c =? 71) || (c =? 103) then Some 1073741824
  else if (c =? 77) || (c =? 109) then Some 1048576
  else if (c =? 75) || (c =? 107) then Some 1024 else None.

(** [memparse] reads a number and scales it by the suffix, modulo 2^64. *)
Theorem memparse_scaled n c rest :
  0 <= n < 18446744073709551616 -> isxdigit c = false -> c <> 120 ->
  memparse (udec n ++ c :: rest) =
  match mem_suffix c with Some k => (u64 (n * k), rest) | None => (n, c :: rest) end.
Proof.
  intros Hn Hc Hx. unfold memparse, simple_strtoull, mem_suffix.
  rewrite (strto_read _ 18446744073709551616); try done.
  - cbn [fst snd]. by repeat case_match.
  - intros v Hv. unfold u64. by rewrite Z.mod_small.
Qed.

(** ** Options of the form name=number *)

Lemma to_meta_app name p : 37 ∉ name -> to_meta (name ++ 37 :: p) = Some (name, p).
Proof.
  induction name as [|c name IH]; intros Hn; cbn; [done|].
  apply not_elem_of_cons in Hn as [Hc Hn]. destruct (Z.eqb_spec c 37); [congruence|]. by rewrite IH.
Qed.

Lemma match_one_int name z :
  37 ∉ name -> int_range z ->
  match_one (name ++ dec z) (Some (name ++ [37; 100])) =
  Ok (Some [(length name, (length name + length (dec z))%nat)]).
Proof.
  intros Hn Hz. unfold match_one. rewrite length_app. cbn [length]. rewrite Nat.add_comm. cbn [Nat.add match_loop].
  rewrite to_meta_app by done. rewrite take_app_length, bool_decide_eq_true_2 by done. cbn [negb].
  rewrite drop_app_length. cbn [here]. change (isdigit 100) with false. change (100 =? 37) with false.
  cbn [negb Nat.leb MAX_OPT_ARGS tail]. unfold match_arg. change (100 =? 115) with false. change (100 =? 100) with true.
  cbn match. replace (simple_strtol (dec z) 0) with (z, @nil Z)
    by (rewrite <- (simple_strtol_dec z [] Hz); [by rewrite app_nil_r|done]).
  cbn [mbind option_bind snd]. pose proof (dec_not_nil z Hz). destruct (dec z) as [|c l] eqn:E; [done|].
  cbn [length Nat.eqb]. cbn. rewrite !length_app. cbn [length].
  rewrite decide_True by done. cbn [mbind option_bind].
  match goal with |- Ok (Some [(?a, ?b)]) = Ok (Some [(?c, ?d)]) =>
    replace a with c by lia; replace b with d by lia end. done.
Qed.

Definition unmatched (s : list Z) (e : match_entry) : Prop := match_one s (pattern e) = Ok None.

Section Matched.
Context {H : Type} `{HeapLaws H}.

(** An option name=number is found as the first entry of the table that
    fits, and match_int of its argument is the number; the buffer it needs is
    freed again, and the only other result is that there was no memory. *)
Theorem int_option_parsed name z tok pre post h :
  37 ∉ name -> int_range z -> heap_ok h ->
  Forall (unmatched (name ++ dec z)) pre ->
  let s := name ++ dec z in
  exists a, match_token s (pre ++ mk_entry tok (Some (name ++ [37; 100])) :: post) = Ok (tok, [a]) /\
    exists h' r, match_int s a h = (h', r) /\ heap_ok h' /\ used h' = used h /\
      (r = (0, Some z) \/ r = (- ENOMEM, None)).
Proof.
  intros Hn Hz Hh Hpre. cbn zeta. exists (length name, (length name + length (dec z))%nat). split.
  { induction Hpre as [|e pre He _ IH]; cbn [app match_token].
    - cbn [pattern]. by rewrite match_one_int.
    - rewrite He. exact IH. }
  unfold match_int, match_number. cbn [fst snd].
  assert (Hlen : 0 < length (dec z) <= 66).
  { pose proof (dec_not_nil z Hz) as Hd. pose proof (dec_length z Hz). destruct (dec z); cbn in *; [done|lia]. }
  replace ((length name + length (dec z))%nat - length name + 1) with (length (dec z) + 1) by lia.
  destruct (kmalloc _ h) as [h1 buf] eqn:Ek.
  destruct (Z.eqb_spec buf 0) as [->|Hb].
  - destruct (kmalloc_laws (length (dec z) + 1) _ _ _ Hh ltac:(lia) Ek) as [Ho [[_ Hu]|[Hp _]]]; [|lia].
    eexists _, _. split; [done|]. auto.
  - destruct (kfree_kmalloc (length (dec z) + 1) _ _ _ Hh ltac:(lia) Ek Hb) as [Ho Hu].
    eexists _, _. split; [done|]. split; [done|]. split; [done|]. left. unfold substring. cbn [fst snd].
    rewrite take_ge by (rewrite length_app; lia). rewrite drop_app_length.
    replace (simple_strtol (dec z) 0) with (z, @nil Z)
      by (rewrite <- (simple_strtol_dec z [] Hz); [by rewrite app_nil_r|done]).
    cbn [fst snd]. destruct (dec z); [cbn in Hlen; lia|done].
Qed.
End Matched.

(** ** What is printed is scanned back *)

(** The conversions %d, %u, %o, %x and %X of words, and their texts. *)
Definition plain (c : Z) : Prop := c ∈ [100; 117; 111; 120; 88].
Definition item (c v : Z) : list Z :=
  if c =? 100 then number_text (u64 (s32 v)) 10 (-1) (-1) SIGN
  else if c =? 117 then number_text (u32 v) 10 (-1) (-1) 0
  else if c =? 111 then number_text (u32 v) 8 (-1) (-1) 0
  else if c =? 120 then number_text (u32 v) 16 (-1) (-1) 0
  else number_text (u32 v) 16 (-1) (-1) LARGE.

Fixpoint scan_fmt (cs : list Z) : list Z :=
  match cs with [] => [] | [c] => [37; c] | c :: cs => 37 :: c :: 32 :: scan_fmt cs end.

Lemma formatted_item strs c fmt v vs t :
  plain c -> formatted strs (37 :: c :: fmt) (v :: vs) t -> exists t', t = item c v ++ t' /\ formatted strs fmt vs t'.
Proof.
  unfold plain. intros Hc Hf.
  assert (Es : forall r, fmt_spec (c :: fmt) (v :: vs) = r -> Some (mk_spec 0 (-1) (-1) 0, c :: fmt, v :: vs) = r).
  { intros r <-. set_unfold in Hc. destruct_or! Hc; subst; done. }
  inversion Hf as [|c' fmt' args' t0 Hne| |fmt0 args0 sp c0 fmt1 args1 t1 args2 t2 Esp Ecv Hrest]; subst;
    [done|by apply Es in H|]. apply Es in Esp. injection Esp as <- <- <- <-.
  assert (Ec : conversion strs (mk_spec 0 (-1) (-1) 0) c (v :: vs) = Some (item c v, vs)).
  { set_unfold in Hc. destruct_or! Hc; subst; done. }
  rewrite Ec in Ecv. injection Ecv as <- <-. by exists t2.
Qed.

Lemma formatted_space strs fmt vs t :
  formatted strs (32 :: fmt) vs t -> exists t', t = 32 :: t' /\ formatted strs fmt vs t'.
Proof. intros Hf. inversion Hf; subst. by eexists. Qed.

(** A digit of the base starts a number. *)
Lemma isxdigit_cases c : isxdigit c = true -> 48 <= c <= 57 \/ 65 <= c <= 70 \/ 97 <= c <= 102.
Proof. unfold isxdigit, isdigit. lia. Qed.

Lemma digit_of_range base c :
  digit_of base c -> 2 <= base <= 16 -> (48 <= c <= 57 /\ c - 48 < base) \/ (10 < base /\ (65 <= c <= 70 \/ 97 <= c <= 102)).
Proof.
  intros [Hx [_ Hv]] Hb. apply isxdigit_cases in Hx as [Hc|Hc].
  - left. split; [done|]. unfold digit_value in Hv. replace (isdigit c) with true in Hv by (unfold isdigit; lia). lia.
  - right. split; [|done]. unfold digit_value in Hv. replace (isdigit c) with false in Hv by (unfold isdigit; lia).
    unfold toupper in Hv. destruct (islower c) eqn:El; [|lia]. rewrite u8_small in Hv by lia.
    unfold islower in El. lia.
Qed.

Lemma no_number_digit base is_sign c l :
  printed_base base -> digit_of base c -> no_number base is_sign (c :: l) = false /\ isspace c = false.
Proof.
  intros Hb Hd. pose proof Hd as [Hx _]. apply digit_of_range in Hd; [|destruct Hb as [->|[->| ->]]; lia].
  unfold no_number. cbn [here tail]. destruct (Z.eqb_spec c 45); [lia|]. rewrite andb_false_r.
  rewrite Hx. unfold isspace, isdigit. destruct Hb as [->|[->| ->]]; lia.
Qed.

(** A conversion of a word, at a text that starts with no space. *)
Lemma scan_conv_word buflen c base is_sign fmt str p args :
  scan_conversion c = Some (base, is_sign) -> plain c -> str <> [] -> isspace (here str) = false ->
  no_number base is_sign str = false ->
  let r := if is_sign then simple_strtol str base else simple_strtoul str base in
  scan_conv buflen (c :: fmt) str (p :: args) = Ok (Continue fmt r.2 args 1 [(p, le32 (u32 r.1))]).
Proof.
  intros Hc Hp Hs Hsp Hn. cbn zeta. destruct str as [|x str]; [done|]. cbn [here] in Hsp.
  assert (Esk : skip_while isspace (x :: str) = x :: str) by (cbn; by rewrite Hsp).
  unfold plain in Hp. set_unfold in Hp.
  destruct_or! Hp; subst; cbn in Hc; injection Hc as <- <-;
    cbn -[skip_while no_number simple_strtol simple_strtoul le32]; rewrite Esk, Hn; done.
Qed.

Lemma unsigned_text base n type :
  printed_base base -> 0 <= n -> flag type SIGN = false -> flag type SPECIAL = false ->
  exists x l, number_text n base (-1) (-1) type = x :: l /\ digit_of base x.
Proof.
  intros Hb Hn Hs Hp. rewrite unsigned_digits by done. unfold prefix_text. rewrite Hp. cbn [app].
  set (digits := if flag type LARGE then _ else _).
  assert (Hd : Forall (digit_of base) (digits_text digits base 64 n)).
  { apply digits_text_digits; [destruct Hb as [->|[->| ->]]; lia|done]. }
  pose proof (digits_text_pos digits base 64 n ltac:(lia)) as Hl.
  unfold zeros. replace (Z.to_nat (-1 - _)) with O by lia. cbn [replicate app].
  destruct (digits_text digits base 64 n) as [|x l] eqn:E; [cbn in Hl; lia|].
  apply Forall_cons in Hd as [Hx _]. by exists x, l.
Qed.

(** What scanning needs to know of the text of a word. *)
Definition scannable (c v : Z) (rest : list Z) : Prop :=
  exists base is_sign x l, scan_conversion c = Some (base, is_sign) /\ item c v = x :: l /\ isspace x = false /\
    no_number base is_sign (item c v ++ rest) = false /\
    let r := if is_sign then simple_strtol (item c v ++ rest) base else simple_strtoul (item c v ++ rest) base in
    r.2 = rest /\ u32 r.1 = u32 v.

Lemma unsigned_scannable c v rest base type :
  printed_base base -> flag type SIGN = false -> flag type SPECIAL = false -> clean rest ->
  scan_conversion c = Some (base, false) -> item c v = number_text (u32 v) base (-1) (-1) type ->
  scannable c v rest.
Proof.
  intros Hb Hs Hp Hr Hc Hi. pose proof (u32_range v) as Hv.
  destruct (unsigned_text base (u32 v) type) as (x & l & E & Hx); [done|lia|done|done|].
  exists base, false, x, l. split; [done|]. rewrite Hi. split; [done|].
  destruct (no_number_digit base false x (l ++ rest) Hb Hx) as [Hn Hsp]. split; [done|].
  split; [by rewrite E|]. cbn zeta. rewrite read_unsigned; try done.
  { cbn [fst snd]. by rewrite (u32_small (u32 v)). }
  by apply clean_stops.
Qed.

Lemma udec_digits n : 0 <= n -> exists x l, udec n = x :: l /\ digit_of 10 x.
Proof.
  intros Hn. pose proof (udec_not_nil n). pose proof (digits_text_digits 0 10 64 n ltac:(lia) Hn) as Hd.
  change (if flag 0 LARGE then large_digits else small_digits) with small_digits in Hd.
  unfold udec in *. destruct (digits_text small_digits 10 64 n) as [|x l]; [done|].
  apply Forall_cons in Hd as [Hx _]. by exists x, l.
Qed.

Lemma signed_scannable v rest : clean rest -> scannable 100 v rest.
Proof.
  intros Hr. pose proof (s32_range v) as Hv. set (z := s32 v) in *.
  assert (Hu : u32 z = u32 v) by (unfold z; mlia).
  assert (Hi : item 100 v = dec z) by done.
  assert (Hread : simple_strtol (dec z ++ rest) 10 = (z, rest)).
  { apply (read_signed 0); try done. by apply clean_stops. }
  assert (Hhead : exists x l, dec z = x :: l /\ isspace x = false /\ no_number 10 true ((x :: l) ++ rest) = false).
  { rewrite dec_split by done. destruct (Z.ltb_spec z 0).
    - destruct (udec_digits (- z)) as (x & l & E & Hx); [lia|]. exists 45, (x :: l). rewrite E. split; [done|].
      split; [done|]. destruct (no_number_digit 10 true x (l ++ rest)) as [Hn _]; [unfold printed_base; auto|done|].
      unfold no_number in *. cbn [app here tail andb] in *. change (45 =? 45) with true. cbn match.
      destruct (x =? 45) eqn:E45; [|exact Hn].
      apply digit_of_range in Hx; [|lia]. lia.
    - destruct (udec_digits z) as (x & l & E & Hx); [lia|]. exists x, l.
      destruct (no_number_digit 10 true x (l ++ rest)) as [Hn Hsp]; [unfold printed_base; auto|done|]. auto. }
  destruct Hhead as (x & l & E & Hsp & Hn). exists 10, true, x, l. rewrite Hi. split; [done|].
  split; [done|]. split; [done|]. split; [by rewrite E|]. cbn zeta. by rewrite Hread.
Qed.

Lemma item_scannable c v rest : plain c -> clean rest -> scannable c v rest.
Proof.
  intros Hc Hr. unfold plain in Hc. set_unfold in Hc. destruct_or! Hc; subst; try done.
  - by apply signed_scannable.
  - apply (unsigned_scannable _ _ _ 10 0); unfold printed_base; auto.
  - apply (unsigned_scannable _ _ _ 8 0); unfold printed_base; auto.
  - apply (unsigned_scannable _ _ _ 16 0); unfold printed_base; auto.
  - apply (unsigned_scannable _ _ _ 16 LARGE); unfold printed_base; auto.
Qed.

Definition word_store (p v : Z) : Z * list Z := (p, le32 (u32 v)).

Lemma skip_none P x l : P x = false -> skip_while P (x :: l) = x :: l.
Proof. intros E. cbn. by rewrite E. Qed.

Lemma skip_blank l : isspace (here l) = false -> skip_while isspace (32 :: l) = l.
Proof. intros E. cbn. destruct l as [|x l]; [done|]. by apply skip_none. Qed.

(** One turn over a conversion, behind an optional blank. *)
Lemma scan_turn fuel buflen lead c fmt v rest p ptrs :
  plain c -> clean rest -> lead = [] \/ lead = [32] ->
  scan_loop (S fuel) buflen (lead ++ 37 :: c :: fmt) (lead ++ item c v ++ rest) (p :: ptrs) =
  (r ← scan_loop fuel buflen fmt rest ptrs; Ok (1 + r.1, word_store p v :: r.2)).
Proof.
  intros Hp Hr Hlead. destruct (item_scannable c v rest Hp Hr) as (base & sg & x & l & Hc & Hi & Hsp & Hn & Hrd).
  cbn zeta in Hrd.
  assert (Econv : scan_conv buflen (c :: fmt) (item c v ++ rest) (p :: ptrs) = Ok (Continue fmt rest ptrs 1 [word_store p v])).
  { rewrite (scan_conv_word buflen c base sg); try done; rewrite ?Hi; try done. cbn zeta. rewrite <- Hi.
    destruct Hrd as [-> ->]. unfold word_store. done. }
  rewrite Hi in Econv |- *. cbn [app] in Econv |- *.
  cbn [scan_loop]. destruct Hlead as [-> | ->]; cbn [app here].
  - change (isspace 37) with false. cbn match. change (37 =? 37) with true. cbn [negb]. rewrite Econv. done.
  - change (isspace 32) with true. cbn match.
    rewrite (skip_blank (37 :: c :: fmt)), (skip_blank (x :: l ++ rest)) by done.
    cbn [here tail]. change (37 =? 37) with true. cbn [negb]. rewrite Econv. done.
Qed.

Lemma scan_printed strs cs vs t lead fuel buflen ptrs :
  formatted strs (scan_fmt cs) vs t -> Forall plain cs -> length vs = length cs -> length ptrs = length cs ->
  lead = [] \/ lead = [32] -> (length (scan_fmt cs) < fuel)%nat ->
  scan_loop fuel buflen (lead ++ scan_fmt cs) (lead ++ t) ptrs = Ok (Z.of_nat (length cs), zip_with word_store ptrs vs).
Proof.
  intros Hf Hcs. revert vs t lead fuel ptrs Hf.
  induction Hcs as [|c cs Hc Hcs IH]; intros vs t lead fuel ptrs Hf Hvs Hps Hlead Hfuel.
  { inversion Hf; subst. destruct vs, ptrs; try done. rewrite app_nil_r. cbn in Hfuel. destruct fuel as [|fuel]; [lia|].
    by destruct Hlead as [-> | ->]. }
  destruct vs as [|v vs]; [done|]. destruct ptrs as [|p ptrs]; [done|]. destruct fuel as [|fuel]; [lia|].
  injection Hvs as Hvs. injection Hps as Hps. destruct cs as [|c' cs].
  - cbn [scan_fmt] in Hf |- *. destruct (formatted_item _ _ _ _ _ _ Hc Hf) as (t' & -> & Hf').
    inversion Hf'; subst. destruct vs, ptrs; try done. rewrite scan_turn by done.
    destruct fuel; [cbn in Hfuel; lia|]. done.
  - change (scan_fmt (c :: c' :: cs)) with (37 :: c :: 32 :: scan_fmt (c' :: cs)) in *.
    destruct (formatted_item _ _ _ _ _ _ Hc Hf) as (t' & -> & Hf').
    destruct (formatted_space _ _ _ _ Hf') as (t'' & -> & Hf''). rewrite scan_turn by done.
    specialize (IH vs t'' [32] fuel ptrs Hf'' Hvs Hps (or_intror eq_refl)). cbn [app] in IH.
    rewrite IH by (cbn [length] in *; lia). cbn [mbind res_bind fst snd zip_with length]. do 2 f_equal. lia.
Qed.

(** C28: What printf prints with conversions of words between blanks, scanf reads
    back with the same format: the same number of conversions, and each word
    at its pointer. *)
Theorem printed_scanned strs cs vs t ptrs :
  Forall plain cs -> length vs = length cs -> length ptrs = length cs ->
  formatted strs (scan_fmt cs) vs t ->
  sscanf t (scan_fmt cs) ptrs = Ok (Z.of_nat (length cs), zip_with word_store ptrs vs).
Proof.
  intros Hc Hv Hp Hf. unfold sscanf, vsscanf.
  apply (scan_printed strs cs vs t [] _ _ ptrs); try done; [by left|lia].
Qed.

Lemma printed_scanned_witness :
  sscanf [45; 53; 32; 102; 102] [37; 100; 32; 37; 120] [100; 200] =
  Ok (2, [(100, [251; 255; 255; 255]); (200, [255; 0; 0; 0])]).
Proof.
  apply (printed_scanned (fun _ => None) [100; 120] [-5; 255] [45; 53; 32; 102; 102] [100; 200]); try done.
  - repeat constructor; unfold plain; set_solver.
  - refine (formatted_conversion _ _ _ (mk_spec 0 (-1) (-1) 0) 100 [32; 37; 120] [-5; 255] [45; 53] [255] _ _ _ _);
      [vm_compute; reflexivity|vm_compute; reflexivity|].
    refine (formatted_char _ _ _ _ _ _ _); [done|].
    refine (formatted_conversion _ _ _ (mk_spec 0 (-1) (-1) 0) 120 [] [255] [102; 102] [] [] _ _ _);
      [vm_compute; reflexivity|vm_compute; reflexivity|constructor].
Defined.

Lemma int_option_parsed_witness :
  exists a, match_token [117; 105; 100; 61; 45; 55] [mk_entry 1 (Some [103; 105; 100; 61; 37; 100]);
     mk_entry 2 (Some [117; 105; 100; 61; 37; 100]); mk_entry 3 None] = Ok (2, [a]) /\
    exists h' r, match_int [117; 105; 100; 61; 45; 55] a (arena0 3) = (h', r) /\ heap_ok h' /\
      used h' = used (arena0 3) /\ (r = (0, Some (-7)) \/ r = (- ENOMEM, None)).
Proof.
  apply (int_option_parsed [117; 105; 100; 61] (-7) 2 [mk_entry 1 (Some [103; 105; 100; 61; 37; 100])] [mk_entry 3 None]
           (arena0 3)).
  - set_solver.
  - unfold int_range. lia.
  - exact I.
  - repeat constructor.
Defined.

Lemma get_options_list_witness : get_options (joined [7; -3; 9]) 3 = (2 :: [7; -3], joined [9]).
Proof. apply (get_options_list [7; -3; 9] 2). unfold int_range. repeat constructor; lia. Defined.

Lemma memparse_scaled_witness : memparse (udec 64 ++ 77 :: [44]) = (67108864, [44]).
Proof. apply (memparse_scaled 64 77 [44]); [lia|done|done]. Defined.

(** "%%" in a pattern is followed by its second percent sign once more. *)
Example doubled_percent :
  match_one [49; 37; 120] (Some [49; 37; 37; 120]) = Ok None /\
  match_one [49; 37; 49] (Some [49; 37; 37; 120]) = Ok (Some [(2, 3)]%nat).
Proof. split; vm_compute; reflexivity. Qed.

(** A lone sign counts as a number. *)
Example lone_sign : get_option [45; 120] = (1, Some 0, [120]).
Proof. vm_compute. reflexivity. Qed.

(** "12 -5 7f" with "%u %d %x" *)
Example scanned :
  sscanf [49; 50; 32; 45; 53; 32; 55; 102] [37; 117; 32; 37; 100; 32; 37; 120] [100; 200; 300] =
  Ok (3, [(100, [12; 0; 0; 0]); (200, [251; 255; 255; 255]); (300, [127; 0; 0; 0])]).
Proof. vm_compute. reflexivity. Qed.
