(* ===== verification/EaStore.v ===== *)
(** * Extended attributes through the daemon

    The attributes of a file are a map from names to values.  [EahLaws] states
    what the system and the helpers of the daemon promise about it; [ea_disk]
    is a disk with attributes that keeps the promises.  The wrappers of
    DosCalls then read, write and delete entries of the map, and leave the
    driver's heap as it was. *)

From S2P Require Import Prelude CString DevHlp Memory Heap VSprintf TextParse.
From S2P Require Import DaemonQueue DosApi DaemonCmd DosCalls.

Abbreviation eas := (gmap (list Z) (list Z)).

(** [ea_file w f]: [f] is a file, no directory, that can be opened.
    [ea_handle w h f]: the handle [h] is open for [f]. *)
Class EahLaws (W : Type) `{DosApi W} `{EahApi W} := {
  ea_of : W -> list Z -> eas;
  ea_file : W -> list Z -> Prop;
  ea_handle : W -> Z -> list Z -> Prop;
  ea_read_some w f a v buf :
    ea_of w f !! a = Some v -> (length v < length buf)%nat ->
    eahReadStringEA f a buf (length buf) w =
      (0, (v ++ replicate (length buf - length v) 0, length v + 1), w);
  ea_read_none w f a buf :
    ea_of w f !! a = None ->
    exists rc n, eahReadStringEA f a buf (length buf) w = (rc, (replicate (length buf) 0, n), w);
  ea_open w f fl mode :
    ea_file w f -> exists h act w', DosOpen f (0, 0) 0 FILE_NORMAL fl mode w = (0, (h, act), w') /\
      h <> 0 /\ ea_handle w' h f /\ ea_file w' f /\ ea_of w' f = ea_of w f;
  ea_write w h f a v :
    ea_handle w h f -> a <> [] -> v <> [] -> ea_file w f ->
    exists w', eahWriteStringEA h a v w = (0, w') /\ ea_handle w' h f /\ ea_file w' f /\
      ea_of w' f = <[a := v]> (ea_of w f);
  ea_close w h f :
    ea_handle w h f -> ea_file w f ->
    exists rc w', DosClose h w = (rc, w') /\ ea_file w' f /\ ea_of w' f = ea_of w f;
  ea_delete w f a :
    ea_file w f ->
    exists rc w', eaPathDeleteOne f a w = (rc, w') /\ ea_file w' f /\ ea_of w' f = delete a (ea_of w f);
  ea_query w f buf :
    ea_file w f -> length buf = FILESTATUS4_len ->
    exists b, DosQueryPathInfo f FIL_QUERYEASIZE buf FILESTATUS4_len w = (0, b, w) /\
      is_dir (fs4_attrFile b) = false /\ (ea_of w f <> ∅ -> 4 < fs4_cbList b);
  query_pure w n l b cb : (DosQueryPathInfo n l b cb w).2 = w
}.

(** A value that can be kept in a buffer of LX_MAXPATH bytes. *)
Definition short (v : list Z) : Prop := cstring v /\ (length v < LX_MAXPATH)%nat.

Section Store.
Context {W : Type} {H : Type} `{EahLaws W} `{HeapLaws H} `{!HeapRoom H}.
Context (walk : nat).
Abbreviation Drv := (M (driver W H)).

(** The driver with a daemon: the file [f] has the attributes [E], the heap
    holds the objects [U] and has room for [n] more. *)
Definition store (n : nat) (U : gmap Z Z) (f : list Z) (E : eas) (s : driver W H) : Prop :=
  heap_ok (kheap s) /\ rooms n (kheap s) /\ used (kheap s) = U /\
  exists d, daemon s = Some d /\ ea_file (os d) f /\ ea_of (os d) f = E.

(** [m] runs and ends in a state and with a value of [P]. *)
Definition yields {A} (m : Drv A) (s : driver W H) (P : A -> driver W H -> Prop) : Prop :=
  exists a s', m s = Ok (a, s') /\ P a s'.

Lemma yields_bind {A B} (m : Drv A) (k : A -> Drv B) s Q P :
  yields m s Q -> (forall a s', Q a s' -> yields (k a) s' P) -> yields (m ≫= k) s P.
Proof.
  intros (a & s' & E & HQ) Hk. destruct (Hk a s' HQ) as (b & s2 & E2 & HP).
  exists b, s2. split; [|done]. by rewrite M_bind_unfold, E.
Qed.

Lemma yields_bind2 {A B C} (m : Drv A) (k : A -> Drv B) (k' : B -> Drv C) s Q P :
  yields (m ≫= k) s Q -> (forall b s', Q b s' -> yields (k' b) s' P) ->
  yields (m ≫= fun a => k a ≫= k') s P.
Proof.
  intros (b & s' & E & HQ) Hk. destruct (Hk b s' HQ) as (c & s2 & E2 & HP). exists c, s2. split; [|done].
  apply M_bind_Ok in E as (a & s1 & E & E1). by rewrite M_bind_unfold, E, M_bind_unfold, E1.
Qed.

Lemma yields_ret {A} (a : A) s (P : A -> driver W H -> Prop) : P a s -> yields (mret a) s P.
Proof. intros HP. by exists a, s. Qed.

Lemma yields_weaken {A} (m : Drv A) s (Q P : A -> driver W H -> Prop) :
  yields m s Q -> (forall a s', Q a s' -> P a s') -> yields m s P.
Proof. intros (a & s' & E & HQ) HP. exists a, s'. auto. Qed.

Lemma store_le m n U f E s : (m <= n)%nat -> store n U f E s -> store m U f E s.
Proof. intros Hm (? & Hr & ?). split; [done|]. split; [by eapply rooms_le|done]. Qed.

Lemma kmalloc_yields sz n U f E s :
  0 < sz < 2147483648 -> store (S n) U f E s ->
  yields (drv_kmalloc sz) s (fun p s' => p <> 0 /\ U !! p = None /\ store n (<[p := sz]> U) f E s').
Proof.
  intros Hs (Ho & Hr & <- & d & Hd & Hf). unfold yields, drv_kmalloc.
  destruct (kmalloc sz (kheap s)) as [h p] eqn:Ek.
  destruct (rooms_kmalloc n sz _ _ _ Hr Hs Ek) as [Hp Hr'].
  destruct (kmalloc_laws sz _ _ _ Ho Hs Ek) as [Ho' [[? _]|(_ & Hn & _ & Hu)]]; [done|].
  eexists _, _. split; [done|]. split; [done|]. split; [done|]. split; [done|]. cbn. eauto.
Qed.

Lemma kfree_yields p sz n U f E s :
  U !! p = Some sz -> store n U f E s ->
  yields (drv_kfree p) s (fun _ s' => store n (delete p U) f E s').
Proof.
  intros Hp (Ho & Hr & <- & d & Hd & Hf). unfold yields, drv_kfree, modify.
  destruct (kfree_laws p (kheap s) Ho ltac:(eauto)) as [Ho' Hu].
  eexists _, _. split; [done|]. split; [done|]. split; [by apply rooms_kfree|]. cbn. eauto.
Qed.

(** A temporary block: the body may change the daemon, not the heap. *)
Lemma with_kmalloc_yields {A} (sz : Z) (fail : A) (body : Drv A) (n : nat) (U : gmap Z Z) (f : list Z) (E : eas) (s : driver W H) (P : A -> eas -> Prop) :
  0 < sz < 2147483648 -> store (S n) U f E s ->
  (forall s1 d1, daemon s1 = Some d1 -> ea_file (os d1) f -> ea_of (os d1) f = E ->
     exists a d2 E2, body s1 = Ok (a, mk_driver (Some d2) (kheap s1)) /\
       ea_file (os d2) f /\ ea_of (os d2) f = E2 /\ P a E2) ->
  yields (with_kmalloc sz fail body) s (fun a s' => exists E2, P a E2 /\ store n U f E2 s').
Proof.
  intros Hs Hst Hb. unfold with_kmalloc. rewrite u32_small by lia.
  eapply yields_bind; [by apply kmalloc_yields|]. intros p s1 (Hp & Hn & Hst1).
  destruct (Z.eqb_spec p 0); [done|]. rewrite Z.ltb_irrefl.
  pose proof Hst1 as (Ho & Hr & Hu & d & Hd & Hf & HE).
  destruct (Hb s1 d Hd Hf HE) as (a & d2 & E2 & Ea & Hf2 & HE2 & HP).
  eapply (yields_bind _ _ _ (fun b s2 => b = a /\ store n (<[p := sz]> U) f E2 s2)).
  - eexists _, _. split; [exact Ea|]. split; [done|]. split; [done|]. split; [done|]. cbn. eauto.
  - intros b s2 [-> Hst2]. eapply yields_bind.
    + eapply kfree_yields; [apply lookup_insert_eq|done].
    + intros [] s3 Hst3. rewrite delete_insert_id in Hst3 by done. apply yields_ret. eauto.
Qed.

(** ** The wrappers *)

Lemma get_str_padded {S} (v l : list Z) (s : S) : cstring v -> get_str (v ++ 0 :: l) s = Ok (v, s).
Proof. intros Hv. unfold get_str. by rewrite array_str_app. Qed.

Lemma before_nul_app v l : cstring v -> before_nul (v ++ 0 :: l) = v.
Proof.
  induction 1 as [|c v Hc _ IH]; [done|]. cbn. destruct (Z.eqb_spec c 0); [done|]. by rewrite IH.
Qed.

Lemma before_nul_padded n v : cstring v -> (length v < n)%nat -> before_nul (v ++ replicate (n - length v) 0) = v.
Proof. intros Hv Hn. destruct (n - length v)%nat as [|k] eqn:E; [lia|]. by apply before_nul_app. Qed.

Lemma field_padded v : (length v < LX_MAXPATH)%nat ->
  exists k, strncpy_field LX_MAXPATH v = v ++ 0 :: replicate k 0.
Proof.
  intros Hv. unfold strncpy_field. rewrite take_ge by lia.
  destruct (LX_MAXPATH - length v)%nat as [|k] eqn:E; [lia|]. by exists k.
Qed.

Lemma field_length v : length (strncpy_field LX_MAXPATH v) = LX_MAXPATH.
Proof. unfold strncpy_field. rewrite length_app, length_take, length_replicate. lia. Qed.

Lemma read_ea_handler_some (f a v : list Z) (n : nat) (w : W) :
  short f -> short a -> ea_of w f !! a = Some v -> (length v < n)%nat ->
  handler_does walk 10009 (P_EASTRING (field f) n (field a) (replicate n 0)) w
    (0, P_EASTRING (field f) (length v + 1) (field a) (v ++ replicate (n - length v) 0), w).
Proof.
  intros [Hf Lf] [Ha La] Hv Hl.
  pose proof (ea_read_some w f a v (replicate n 0) Hv) as E. rewrite length_replicate in E. specialize (E Hl).
  handler @CMD_EAReadString.
Qed.

Lemma read_ea_handler_none (f a : list Z) (n : nat) (w : W) :
  short f -> short a -> ea_of w f !! a = None ->
  exists rc len, handler_does walk 10009 (P_EASTRING (field f) n (field a) (replicate n 0)) w
    (rc, P_EASTRING (field f) len (field a) (replicate n 0), w).
Proof.
  intros [Hf Lf] [Ha La] Hv. destruct (ea_read_none w f a (replicate n 0) Hv) as (rc & len & E).
  rewrite length_replicate in E. exists rc, len. handler @CMD_EAReadString.
Qed.

Lemma write_ea_handler (f a v : list Z) (w : W) :
  short f -> short a -> cstring v -> a <> [] -> v <> [] -> ea_file w f ->
  exists rc w', handler_does walk 10010
    (P_EASTRING (field f) (length v + 1) (field a) (strncpy_field (length v + 1) v)) w
    (rc, P_EASTRING (field f) (length v + 1) (field a) (strncpy_field (length v + 1) v), w') /\
    ea_file w' f /\ ea_of w' f = <[a := v]> (ea_of w f).
Proof.
  intros [Hf Lf] [Ha La] Hv Na Nv Hw.
  destruct (ea_open w f open_action open_mode Hw) as (h & act & w1 & E1 & Hh & Hh1 & Hw1 & Ee1).
  destruct (ea_write w1 h f a v Hh1 Na Nv Hw1) as (w2 & E2 & Hh2 & Hw2 & Ee2).
  destruct (ea_close w2 h f Hh2 Hw2) as (rc & w3 & E3 & Hw3 & Ee3).
  exists 0, w3. split; [|split; [done|]]; [|by rewrite Ee3, Ee2, Ee1].
  assert (Hs : forall S (s : S), get_str (strncpy_field (length v + 1) v) s = Ok (v, s)).
  { intros S s. unfold get_str. rewrite array_str_field; [done|done|lia]. }
  dispatch. unfold CMD_EAWriteString, call, param_rc, set_param. mstep.
  rewrite get_str_field by done. mstep. cbn [os]. rewrite E1. mstep. cbn [fst snd].
  change (0 =? 0) with true. destruct (Z.eqb_spec h 0); [done|]. cbn [andb negb]. mstep.
  rewrite get_str_field by done. mstep. rewrite Hs. mstep. cbn [os]. rewrite E2. mstep. cbn [os].
  rewrite E3. eexists. split; [reflexivity|]. by cbn.
Qed.

Lemma delete_ea_handler (f a : list Z) (w : W) :
  short f -> short a -> ea_file w f ->
  exists rc w', handler_does walk 10008 (P_TWONAME (field f) (field a)) w
    (rc, P_TWONAME (field f) (field a), w') /\
    ea_file w' f /\ ea_of w' f = delete a (ea_of w f).
Proof.
  intros [Hf Lf] [Ha La] Hw. destruct (ea_delete w f a Hw) as (rc & w' & E & Hw' & Ee).
  exists rc, w'. split; [|done]. handler @CMD_EADelete.
Qed.

Lemma call_runs cmd wait p (rc : Z) p' (w' : W) (s : driver W H) d :
  daemon s = Some d -> handler_does walk cmd p (os d) (rc, p', w') ->
  exists a d', LX_dmn_call walk cmd wait p s = Ok (a, mk_driver (Some d') (kheap s)) /\ os d' = w'.
Proof.
  intros Hd Hh. unfold LX_dmn_call. rewrite Hd.
  match goal with |- context [executeNewCommand _ _ ?st] =>
    destruct (Hh st eq_refl eq_refl) as (d' & Ed & _ & Ho) end.
  cbn in Ed, Ho. rewrite Ed. eauto.
Qed.

Lemma ea_write_yields n U (f a v : list Z) E s :
  short f -> short a -> cstring v -> a <> [] -> v <> [] -> length v < 2147483000 ->
  store (S n) U f E s ->
  yields (LX_EAWRITESTRING walk f a v (length v + 1)) s (fun _ s' => store n U f (<[a := v]> E) s').
Proof.
  intros Hf Ha Hv Na Nv Lv Hst. unfold LX_EAWRITESTRING.
  eapply yields_weaken;
    [eapply (with_kmalloc_yields _ _ _ _ _ _ _ _ (fun _ E2 => E2 = <[a := v]> E)); [lia|done|]|].
  - intros s1 d1 Hd Hw <-. destruct (write_ea_handler f a v (os d1) Hf Ha Hv Na Nv Hw) as (rc & w' & Hh & Hw' & Ee).
    destruct (call_runs 10010 1 _ _ _ _ _ _ Hd Hh) as (x & d' & Ex & <-).
    exists 0, d', (<[a := v]> (ea_of (os d1) f)). split; [|auto].
    replace (Z.to_nat (length v + 1)) with (length v + 1)%nat by lia.
    replace (Z.of_nat (length v + 1)) with (length v + 1) in Ex by lia. mrun Ex. reflexivity.
  - intros x s' (E2 & -> & Hst'). done.
Qed.

Lemma ea_delete_yields n U (f a : list Z) E s :
  short f -> short a -> store n U f E s ->
  yields (LX_EADELETE walk f a) s (fun _ s' => store n U f (delete a E) s').
Proof.
  intros Hf Ha (Ho & Hr & Hu & d & Hd & Hw & <-).
  destruct (delete_ea_handler f a (os d) Hf Ha Hw) as (rc & w' & Hh & Hw' & Ee).
  destruct (call_runs 10008 0 _ _ _ _ _ _ Hd Hh) as (x & d' & Ex & <-).
  unfold LX_EADELETE, yields. rewrite M_bind_unfold, Ex. eexists _, _. split; [done|].
  split; [done|]. split; [done|]. split; [done|]. exists d'. done.
Qed.

(** Reading into a buffer of LX_MAXPATH bytes. *)
Lemma ea_read_yields n U (f a v buf : list Z) E s :
  short f -> short a -> short v -> E !! a = Some v -> length buf = LX_MAXPATH -> store (S n) U f E s ->
  yields (LX_EAREADSTRING walk f a buf LX_MAXPATH) s
    (fun r s' => r.1.2 = strncpy_field LX_MAXPATH v /\ store n U f E s').
Proof.
  intros Hf Ha [Cv Lv] Hv Lb Hst. unfold LX_EAREADSTRING.
  eapply yields_weaken; [eapply (with_kmalloc_yields _ _ _ _ _ _ _ _
    (fun r E2 => r.1.2 = strncpy_field LX_MAXPATH v /\ E2 = E)); [unfold LX_MAXPATH; lia|done|]|].
  - intros s1 d1 Hd Hw HE. rewrite <- HE in Hv.
    pose proof (read_ea_handler_some f a v LX_MAXPATH (os d1) Hf Ha Hv Lv) as Hh.
    destruct (dmn_runs walk _ _ _ _ _ _ _ Hd Hh) as (d' & Ed & Ho).
    rewrite Nat2Z.id. eexists _, d', E. split; [|rewrite Ho; split_and!; [done|done| |done]].
    + mrun Ed. rewrite Lb, Z.ltb_irrefl, (drop_ge buf), app_nil_r by (rewrite Lb; reflexivity). reflexivity.
    + unfold LX_MAXPATH in Lv. cbn. by rewrite before_nul_padded.
  - intros x s' (E2 & (? & ->) & Hst'). done.
Qed.

Lemma ea_missing_yields n U (f a buf : list Z) E s :
  short f -> short a -> E !! a = None -> length buf = LX_MAXPATH -> store (S n) U f E s ->
  yields (LX_EAREADSTRING walk f a buf LX_MAXPATH) s
    (fun r s' => (r.1.2 = strncpy_field LX_MAXPATH [] \/ r.1.2 = buf) /\ store n U f E s').
Proof.
  intros Hf Ha Hv Lb Hst. unfold LX_EAREADSTRING.
  eapply yields_weaken; [eapply (with_kmalloc_yields _ _ _ _ _ _ _ _
    (fun r E2 => (r.1.2 = strncpy_field LX_MAXPATH [] \/ r.1.2 = buf) /\ E2 = E));
    [unfold LX_MAXPATH; lia|done|]|].
  - intros s1 d1 Hd Hw HE. rewrite <- HE in Hv.
    destruct (read_ea_handler_none f a LX_MAXPATH (os d1) Hf Ha Hv) as (rc & len & Hh).
    destruct (dmn_runs walk _ _ _ _ _ _ _ Hd Hh) as (d' & Ed & Ho).
    rewrite Nat2Z.id. destruct (rc =? 0) eqn:Erc; eexists _, d', E;
      (split; [mrun Ed; rewrite Erc|rewrite Ho; split_and!; [done|done| |done]]).
    + rewrite Lb, Z.ltb_irrefl, (drop_ge buf) by (rewrite Lb; reflexivity). reflexivity.
    + by left.
    + reflexivity.
    + by right.
  - intros x s' (E2 & (? & ->) & Hst'). done.
Qed.

(** ** The information the daemon collects *)

Definition short_eas (E : eas) : Prop := map_Forall (fun _ v => short v) E.

(** The number in an attribute, 0 if it is missing. *)
Definition ea_number (E : eas) (a : list Z) : Z := match E !! a with Some v => atoi v | None => 0 end.

Lemma call_pure {A} (g : W -> A * W) a (st : lxapid W) : g (os st) = (a, os st) -> call g st = Ok (a, st).
Proof. intros E. unfold call. rewrite E. by destruct st. Qed.

Lemma get_str_zeros {S} n (s : S) : get_str (replicate (Datatypes.S n) 0) s = Ok ([], s).
Proof. done. Qed.

Lemma get_str_value {S} n v (s : S) :
  cstring v -> (length v < n)%nat -> get_str (v ++ replicate (n - length v) 0) s = Ok (v, s).
Proof. intros Hv Hn. destruct (n - length v)%nat as [|k] eqn:E; [lia|]. by apply get_str_padded. Qed.

Lemma read_raw (st : lxapid W) f a buf :
  short_eas (ea_of (os st) f) -> length buf = LX_MAXPATH ->
  exists r, call (eahReadStringEA f a buf LX_MAXPATH) st = Ok (r, st) /\
    match ea_of (os st) f !! a with
    | Some v => r.1 = 0 /\ short v /\ r.2.1 = v ++ replicate (LX_MAXPATH - length v) 0
    | None => r.2.1 = replicate LX_MAXPATH 0
    end.
Proof.
  intros Hs Hl. destruct (ea_of (os st) f !! a) as [v|] eqn:Ev.
  - pose proof (Hs a v Ev) as Hv. pose proof (ea_read_some (os st) f a v buf Ev) as E. rewrite Hl in E.
    specialize (E (proj2 Hv)). eexists. split; [apply call_pure; exact E|]. done.
  - destruct (ea_read_none (os st) f a buf Ev) as (rc & n & E). rewrite Hl in E.
    eexists. split; [apply call_pure; exact E|]. done.
Qed.

Lemma read_ea_spec (st : lxapid W) f a :
  short_eas (ea_of (os st) f) ->
  exists o, read_ea f a st = Ok (o, st) /\
    match ea_of (os st) f !! a with Some v => o = Some v | None => o = None \/ o = Some [] end.
Proof.
  intros Hs. destruct (read_raw st f a (replicate LX_MAXPATH 0) Hs (length_replicate _ _)) as (r & E & Hr).
  unfold read_ea. rewrite M_bind_unfold, E. destruct (ea_of (os st) f !! a) as [v|].
  - destruct Hr as (Hr0 & [Hc Hl] & Hr1). rewrite Hr0. change (0 =? 0) with true. cbn match.
    rewrite M_bind_unfold, Hr1, get_str_value by done.
    eexists. by split.
  - rewrite Hr. destruct (r.1 =? 0); eexists; (split; [reflexivity|auto]).
Qed.

Lemma read_number_spec (st : lxapid W) f a flag :
  short_eas (ea_of (os st) f) ->
  exists r, read_number f a flag st = Ok (r, st) /\ r.1 = ea_number (ea_of (os st) f) a /\
    (r.2 = flag \/ r.2 = 0) /\ (is_Some (ea_of (os st) f !! a) -> r.2 = flag).
Proof.
  intros Hs. destruct (read_ea_spec st f a Hs) as (o & E & Ho). unfold read_number, ea_number.
  rewrite M_bind_unfold, E. destruct (ea_of (os st) f !! a) as [v|].
  - subst o. eexists. split; [reflexivity|]. cbn. auto.
  - destruct Ho as [-> | ->]; eexists; (split; [reflexivity|]); cbn; (split; [done|]);
      (split; [auto|]); by intros [].
Qed.

Lemma link_info_spec (st : lxapid W) f :
  short_eas (ea_of (os st) f) ->
  exists name broken, link_info f st =
    Ok ((name, ea_number (ea_of (os st) f) LXEAN_LINKBYCOUNT, broken), st).
Proof.
  intros Hs. unfold link_info.
  destruct (read_raw st f LXEAN_LINKEDTO (replicate LX_MAXPATH 0) Hs (length_replicate _ _)) as (r & E & Hr).
  rewrite M_bind_unfold, E.
  destruct (read_raw st f LXEAN_LINKBYCOUNT (48 :: replicate (LX_MAXPATH - 1) 0) Hs) as (r1 & E1 & Hr1).
  { cbn [length]. rewrite length_replicate. unfold LX_MAXPATH. lia. }
  rewrite M_bind_unfold, E1. unfold ea_number.
  assert (Ht : exists t, get_str r.2.1 st = Ok (t, st)).
  { destruct (ea_of (os st) f !! LXEAN_LINKEDTO) as [v|]; [|by rewrite Hr; eexists].
    destruct Hr as (_ & [Hc Hl] & Hr). rewrite Hr, get_str_value by done. eauto. }
  destruct Ht as (t & Ht).
  assert (Hq : exists q, call (DosQueryPathInfo t FIL_QUERYEASIZE (replicate FILESTATUS4_len 0) FILESTATUS4_len) st
      = Ok (q, st)).
  { pose proof (query_pure (os st) t FIL_QUERYEASIZE (replicate FILESTATUS4_len 0) FILESTATUS4_len) as Hp.
    destruct (DosQueryPathInfo t _ _ _ _) as [q w] eqn:Eq. cbn in Hp. subst w.
    exists q. by apply call_pure. }
  destruct Hq as (q & Hq).
  assert (Hv : exists v, get_str r1.2.1 st = Ok (v, st) /\
    atoi v = match ea_of (os st) f !! LXEAN_LINKBYCOUNT with Some v => atoi v | None => 0 end).
  { destruct (ea_of (os st) f !! LXEAN_LINKBYCOUNT) as [v|]; [|by rewrite Hr1; eexists].
    destruct Hr1 as (_ & [Hc Hl] & Hr1). rewrite Hr1, get_str_value by done. eauto. }
  destruct Hv as (v & Hv & <-). rewrite M_bind_unfold, Hv, M_bind_unfold, Ht.
  case_bool_decide; [by eexists _, _|]. rewrite M_bind_unfold, Hq. destruct (q.1 =? 0); by eexists _, _.
Qed.

(** What the driver gets to know of a file with the attributes [E]. *)
Record info_of (E : eas) (pf : getfileinfo) : Prop := {
  io_count : lc_count pf = ea_number E LXEAN_LINKBYCOUNT;
  io_mode : gf_mode pf = ea_number E LXEAN_MODE;
  io_uid : gf_uid pf = ea_number E LXEAN_UID;
  io_gid : gf_gid pf = ea_number E LXEAN_GID;
  io_flags : exists m u g, gf_flags pf = m + u + g /\ (m = 1 \/ m = 0) /\ (u = 2 \/ u = 0) /\ (g = 4 \/ g = 0) /\
    (is_Some (E !! LXEAN_MODE) -> m = 1) /\ (is_Some (E !! LXEAN_UID) -> u = 2) /\
    (is_Some (E !! LXEAN_GID) -> g = 4);
  io_file : is_dir (fs4_attrFile (gf_fs4 pf)) = false
}.

Lemma getfileinfo_runs (f : list Z) (pf : getfileinfo) (st : lxapid W) :
  short f -> short_eas (ea_of (os st) f) -> ea_file (os st) f -> length (gf_fs4 pf) = FILESTATUS4_len ->
  exists pf', info_of (ea_of (os st) f) pf' /\
    CMD_GetFileInfo walk (P_GETFILEINFO (set_fileName (field f) pf)) st =
      Ok (P_GETFILEINFO pf', mk_lxapid (os st) (dataLen st) (DaemonCmd.pData st) (set_rc 0 (DaemonCmd.param st))
            (logfilename st)).
Proof.
  intros [Hf Lf] Hs Hw Lb. destruct (ea_query (os st) f (gf_fs4 pf) Hw Lb) as (b & Eq & Hdir & Hcb).
  assert (Hl : exists l, (if 4 <? fs4_cbList b then link_info f else mret (replicate LX_MAXPATH 0, 0, 0)) st
      = Ok (l, st) /\ l.1.2 = ea_number (ea_of (os st) f) LXEAN_LINKBYCOUNT).
  { destruct (Z.ltb_spec 4 (fs4_cbList b)).
    - destruct (link_info_spec st f Hs) as (name & broken & ->). by eexists.
    - eexists. split; [reflexivity|]. destruct (decide (ea_of (os st) f = ∅)) as [->|Hne]; [done|].
      specialize (Hcb Hne). lia. }
  destruct Hl as (l & El & Hcount).
  destruct (read_number_spec st f LXEAN_MODE 1 Hs) as (m & Em & Hm & Hmf & Hm1).
  destruct (read_number_spec st f LXEAN_UID 2 Hs) as (u & Eu & Hu & Huf & Hu1).
  destruct (read_number_spec st f LXEAN_GID 4 Hs) as (g & Eg & Hg & Hgf & Hg1).
  eexists (mk_getfileinfo (field f) l.1.1 b 0 0 l.1.2 l.2 m.1 u.1 g.1 (m.2 + u.2 + g.2)). split.
  - split; cbn; [done|done|done|done| |done]. exists m.2, u.2, g.2. auto 10.
  - unfold CMD_GetFileInfo. cbn [gf_fileName set_fileName gf_fs4]. rewrite M_bind_unfold, get_str_field by done.
    rewrite M_bind_unfold, (call_pure _ (0, b)) by exact Eq. cbn [fst snd]. change (0 =? 0) with true. cbn match.
    rewrite Hdir, M_bind_unfold. cbn [mret M_ret fst snd].
    rewrite M_bind_unfold. unfold mret, M_ret at 1 in El. unfold mret, M_ret. rewrite El.
    rewrite M_bind_unfold, Em, M_bind_unfold, Eu, M_bind_unfold, Eg. reflexivity.
Qed.

Lemma getfileinfo_yields n U (f : list Z) E pf s :
  short f -> short_eas E -> length (gf_fs4 pf) = FILESTATUS4_len -> store n U f E s ->
  yields (LX_GETFILEINFO walk f pf) s (fun r s' => r.1 = 0 /\ info_of E r.2 /\ store n U f E s').
Proof.
  intros Hf Hs Lb (Ho & Hr & Hu & d & Hd & Hw & HE). subst E.
  unfold yields, LX_GETFILEINFO. rewrite M_bind_unfold, array_of_short by apply Hf.
  unfold dmn, LX_dmn_call. rewrite !M_bind_unfold, Hd.
  match goal with |- context [executeNewCommand _ ?p ?st] =>
    destruct (getfileinfo_runs f pf st Hf Hs Hw Lb) as (pf' & Hi & Ee);
    assert (Ex : executeNewCommand walk p st = CMD_GetFileInfo walk p st)
  end.
  { unfold executeNewCommand, lx_cmds. mstep. cbn [p_cmd DaemonCmd.param run_command].
    repeat match goal with |- context [Z.eqb ?a ?b] =>
      let v := eval vm_compute in (Z.eqb a b) in change (Z.eqb a b) with v end. done. }
  rewrite Ex, Ee. cbn. eexists _, _. split; [reflexivity|]. cbn. split; [done|]. split; [done|].
  split; [done|]. split; [done|]. split; [done|]. eexists. split; [reflexivity|]. done.
Qed.
End Store.

(** ** A disk with attributes *)

Record ea_disk := mk_ea_disk { base : disk; attrs : gmap (list Z) eas }.

Definition lift {A} (g : disk -> A * disk) (d : ea_disk) : A * ea_disk :=
  let '(a, b) := g (base d) in (a, mk_ea_disk b (attrs d)).
Definition attrs_of (d : ea_disk) (f : list Z) : eas := default ∅ (attrs d !! f).
Definition set_attrs (f : list Z) (E : eas) (d : ea_disk) : ea_disk :=
  mk_ea_disk (base d) (<[f := E]> (attrs d)).

(** Size of the file and of its attributes. *)
Definition query_sizes (n : list Z) (b : list Z) (d : ea_disk) : Z * list Z * ea_disk :=
  match files (base d) !! n with
  | Some l => (0, Z.of_nat (length l) :: 4 + Z.of_nat (base.size (attrs_of d n)) :: drop 2 b, d)
  | None => (ERROR_FILE_NOT_FOUND, b, d)
  end.

#[export] Instance ea_disk_DosApi : DosApi ea_disk := {
  DosDelete := fun n => lift (DosDelete n);
  DosDeleteDir := fun n => lift (DosDeleteDir n);
  DosCreateDir := fun n => lift (DosCreateDir n);
  DosMove := fun a b => lift (DosMove a b);
  DosCopy := fun a b o => lift (DosCopy a b o);
  DosOpen := fun n ha cb at_ fl mode => lift (DosOpen n ha cb at_ fl mode);
  DosClose := fun h => lift (DosClose h);
  DosRead := fun h b cb act => lift (DosRead h b cb act);
  DosWrite := fun h b act => lift (DosWrite h b act);
  DosSetFilePtr := fun h ib m act => lift (DosSetFilePtr h ib m act);
  DosSetFileSize := fun h cb => lift (DosSetFileSize h cb);
  DosQueryFileInfo := fun h level b cb d => (0, b, d);
  DosSetFileInfo := fun h level b cb d => (0, d);
  DosQueryPathInfo := fun n _ b _ d => query_sizes n b d;
  DosSetPathInfo := fun n level b cb fl => lift (DosSetPathInfo n level b cb fl);
  DosFindFirst := fun n h at_ b cb c level => lift (DosFindFirst n h at_ b cb c level);
  DosFindNext := fun h b cb c => lift (DosFindNext h b cb c);
  DosFindClose := fun h => lift (DosFindClose h);
  DosQueryCurrentDisk := fun p => lift (DosQueryCurrentDisk p);
  DosEnumAttribute := fun ty f e b cb c level => lift (DosEnumAttribute ty f e b cb c level);
  DosScanEnv := fun n => lift (DosScanEnv n);
  DosBeep := fun f t => lift (DosBeep f t);
  DosQuerySysInfo := fun a b d cb => lift (DosQuerySysInfo a b d cb);
  DosExecPgm := fun b cb fl ar en r n => lift (DosExecPgm b cb fl ar en r n);
  DosAllocMem := fun n => lift (DosAllocMem n);
  DosFreeMem := fun p => lift (DosFreeMem p)
}.

Definition ERROR_INVALID_EA_NAME : Z := 254.

#[export] Instance ea_disk_EahApi : EahApi ea_disk := {
  eahReadStringEA := fun f a b len d =>
    match attrs_of d f !! a with
    | Some v =>
        if (length v <? length b)%nat
        then (0, (v ++ replicate (length b - length v) 0, length v + 1), d)
        else (111, (replicate (length b) 0, length v + 1), d)
    | None => (ERROR_INVALID_EA_NAME, (replicate (length b) 0, len), d)
    end;
  eahWriteStringEA := fun h a v d =>
    match handles_open (base d) !! h with
    | Some (f, _) => (0, set_attrs f (<[a := v]> (attrs_of d f)) d)
    | None => (ERROR_INVALID_HANDLE, d)
    end;
  eaPathDeleteOne := fun f a d => (0, set_attrs f (delete a (attrs_of d f)) d);
  fb_attrFile := fun b => hd 0 b; fb_achName := fun b => tl b;
  fs4_attrFile := fun _ => 0; fs4_cbList := fun b => nth 1 b 0;
  FILEFINDBUF3_len := 292; FILESTATUS4_len := 28; FILESTATUS3_len := 24; FINDUNION_len := 296;
  FIL_STANDARD := 1; FIL_QUERYEASIZE := 2; find_all := 55; FILE_DIRECTORY := 16;
  HDIR_CREATE := 4294967295; FILE_NORMAL := 0; FILE_END := 2; open_action := 1; log_action := 17;
  open_mode := 66; ERROR_BUFFER_OVERFLOW := 111
}.

Lemma attrs_of_set f E d : attrs_of (set_attrs f E d) f = E.
Proof. unfold attrs_of, set_attrs. cbn [attrs]. by rewrite lookup_insert_eq. Qed.

#[export] Program Instance ea_disk_EahLaws : EahLaws ea_disk := {
  ea_of := attrs_of;
  ea_file := fun d f => 0 < next_hf (base d) /\ is_Some (files (base d) !! f);
  ea_handle := fun d h f => exists pos, handles_open (base d) !! h = Some (f, pos)
}.
Next Obligation.
  intros d f a v buf E Hl. cbn -[Nat.ltb]. rewrite E. apply Nat.ltb_lt in Hl. by rewrite Hl.
Qed.
Next Obligation. intros d f a buf E. cbn. rewrite E. eauto. Qed.
Next Obligation.
  intros d f fl mode [Hn [x Hx]]. eexists _, _, _. cbn. split; [reflexivity|]. cbn.
  split_and!; [lia| |lia| |done].
  - exists O. by rewrite lookup_insert_eq.
  - rewrite lookup_insert_eq. eauto.
Qed.
Next Obligation.
  intros d h f a v [pos Hp] _ _ Hf. cbn. rewrite Hp. eexists. split; [reflexivity|]. cbn.
  split; [eauto|]. split; [done|]. apply attrs_of_set.
Qed.
Next Obligation.
  intros d h f [pos Hp] Hf. cbn. unfold lift. cbn. rewrite decide_True by eauto.
  eexists _, _. by split.
Qed.
Next Obligation.
  intros d f a Hf. eexists _, _. cbn. split; [reflexivity|]. split; [done|]. apply attrs_of_set.
Qed.
Next Obligation.
  intros d f buf [_ [x Hx]] _. cbn. unfold query_sizes. rewrite Hx. eexists. split; [reflexivity|].
  split; [done|]. intros Hne. cbn. assert (base.size (attrs_of d f) <> O); [|lia]. by rewrite map_size_empty_iff.
Qed.
Next Obligation. intros d n l b cb. cbn. unfold query_sizes. by destruct (files (base d) !! n). Qed.
