(* ===== verification/LxafsLinks.v ===== *)
(** * Hard links and attributes of LXAFS (os2/os2/fs/lxafs: oofl_io.c, oofl_misc.c,
    oofl_inode.c)

    OS/2 has no hard links.  LXAFS keeps the links of a file in its extended
    attributes: their number, the name of each one, and, at a link, the name of
    the file.  An inode holds the list while it is in use; it is read and
    written through the daemon with the wrappers of DosCalls.  Files that stand
    for links are written with the security helpers, the interface [SecFile].
    A path lookup of the VFS is a parameter. *)

From Stdlib Require Strings.String Strings.Ascii.
Import (notations) Strings.String.
From S2P Require Import Prelude CString DevHlp Memory Heap VSprintf TextParse.
From S2P Require Import DaemonQueue DosApi DaemonCmd DosCalls EaStore LxafsDate.

Definition EPERM : Z := 1.
Definition EBUSY : Z := 16.

Definition text (s : Strings.String.string) : list Z :=
  (fun c => Z.of_N (Strings.Ascii.N_of_ascii c)) <$> Strings.String.list_ascii_of_string s.

(** The security helpers: code and handle of an open, code of the others; the
    bytes of a write are the first ones of the buffer. *)
Class SecFile (D : Type) := {
  SecHlpOpen : list Z -> Z -> Z -> M D (Z * Z);
  SecHlpClose : Z -> M D Z;
  (** handle, bytes, offset: code and number of bytes *)
  SecHlpWriteAt : Z -> list Z -> Z -> M D (Z * Z);
  (** handle, buffer, number of bytes, offset: code, buffer, number read *)
  SecHlpReadAt : Z -> list Z -> Z -> Z -> M D (Z * list Z * Z);
  (** code and size *)
  SecHlpQFileSize : Z -> M D (Z * Z)
}.

(** Codes of the toolkit's headers, and its FILESTATUS4 with dates of creation
    (0), last access (1) and last write (2). *)
Class Toolkit := {
  OPEN_CREATE_NEW : Z;            (* create if new, fail if existing *)
  OPEN_REPLACE : Z;               (* fail if new, replace if existing *)
  OPEN_OR_CREATE : Z;
  MODE_WRITE : Z;
  MODE_MAINTENANCE : Z;
  FILEFINDBUF4_len : nat;
  fs4_date : nat -> list Z -> FDATE * FTIME;
  fs4_set_date : nat -> FDATE * FTIME -> list Z -> list Z;
  fs4_cbFile : list Z -> Z;
  ffb4_status : list Z -> list Z; (* FILEFINDBUF4 from its date of creation on *)
  find_any : Z                    (* the attribute mask of the searches *)
}.

Definition LXAFS_DIRTY_LINKLIST : Z := 1.
Definition LXAFS_DIRTY_LINKCHILDS : Z := 2.

(** A node of a list of links and its name, an array of LX_MAXPATH bytes. *)
Record lxafs_linkinfo := mk_link { l_node : Z; l_name : list Z }.

(** The result of lxafs_get_fullfileinfo. *)
Record lxafs_fileinfo := mk_fileinfo {
  fi_node : Z;
  fi_name : list Z;
  fi_info : getfileinfo;
  fi_links : list lxafs_linkinfo
}.

(** The operations an inode has. *)
Inductive lxafs_ops := NoOps | DirOps | FileOps.

(** The fields of the VFS inode that LXAFS sets; times are in seconds. *)
Record vfs_inode := mk_vfs {
  i_mode : Z; i_nlink : Z; i_uid : Z; i_gid : Z;
  i_ctime : Z; i_mtime : Z; i_atime : Z;
  i_size : Z; i_blksize : Z; i_blocks : Z;
  i_op : lxafs_ops
}.

(** An inode with its link info; [in_lxafs]: its device has the name lxd.... *)
Record lxafs_inode_info := mk_inode {
  in_lxafs : bool;
  in_name : list Z;
  in_rootlen : nat;
  in_links : list lxafs_linkinfo;
  dirty_flag : Z;
  ia_valid : Z;
  vfs : vfs_inode;
  i_state_dirty : bool
}.

Definition set_links (l : list lxafs_linkinfo) (i : lxafs_inode_info) : lxafs_inode_info :=
  mk_inode (in_lxafs i) (in_name i) (in_rootlen i) l (dirty_flag i) (ia_valid i) (vfs i) (i_state_dirty i).
Definition set_dirty (f : Z) (b : bool) (i : lxafs_inode_info) : lxafs_inode_info :=
  mk_inode (in_lxafs i) (in_name i) (in_rootlen i) (in_links i) f (ia_valid i) (vfs i) b.
Definition set_valid (v : Z) (i : lxafs_inode_info) : lxafs_inode_info :=
  mk_inode (in_lxafs i) (in_name i) (in_rootlen i) (in_links i) (dirty_flag i) v (vfs i) (i_state_dirty i).
Definition set_vfs (v : vfs_inode) (i : lxafs_inode_info) : lxafs_inode_info :=
  mk_inode (in_lxafs i) (in_name i) (in_rootlen i) (in_links i) (dirty_flag i) (ia_valid i) v (i_state_dirty i).

(** [strncmp] of two names over LX_MAXPATH bytes. *)
Definition same_name (a b : list Z) : bool :=
  bool_decide (before_nul (take LX_MAXPATH a) = before_nul (take LX_MAXPATH b)).

(** The attribute of the link number [i]. *)
Definition linkedby (i : Z) : list Z := [76; 88; 95; 76; 66; 95] ++ dec i.

Definition lxafs_mark_inode_dirty (flags : Z) (i : lxafs_inode_info) : lxafs_inode_info :=
  set_dirty (if in_lxafs i then Z.lor (dirty_flag i) flags else dirty_flag i) true i.

(** The inode and the code. *)
Definition lxafs_add_linkinfo (linkinfo : lxafs_linkinfo) (tail : bool) (i : lxafs_inode_info) :
    lxafs_inode_info * Z :=
  if existsb (fun l => same_name (l_name l) (l_name linkinfo)) (in_links i) then (i, - EBUSY)
  else (set_links (if tail then in_links i ++ [linkinfo] else linkinfo :: in_links i) i, 0).

Section Links.
Context {W : Type} {H : Type} `{DosApi W} `{EahApi W} `{Heap H} `{SecFile (driver W H)} `{Toolkit}.
Context (walk : nat).
(** What a block holds when it is handed out, and what a stack variable does. *)
Context (garbage : Z -> list Z) (stack : getfileinfo).
Abbreviation Drv := (M (driver W H)).

(** sizeof(struct lxafs_linkinfo), sizeof(struct lxafs_fileinfo) *)
Definition sizeof_linkinfo : Z := 272.
Definition sizeof_fileinfo : Z := FILESTATUS4_len + 28 + 272.

Definition lxafs_alloc_linkinfo : Drv (option lxafs_linkinfo) :=
  p ← drv_kmalloc sizeof_linkinfo; mret (if p =? 0 then None else Some (mk_link p (garbage p))).
Definition lxafs_free_linkinfo (l : lxafs_linkinfo) : Drv unit := drv_kfree (l_node l).

(** The node alone; its fields are cleared. *)
Definition lxafs_alloc_fileinfo : Drv Z := drv_kmalloc sizeof_fileinfo.

Fixpoint free_links (l : list lxafs_linkinfo) : Drv unit :=
  match l with [] => mret tt | x :: l => lxafs_free_linkinfo x ≫= fun _ => free_links l end.

Definition lxafs_free_fileinfo (node : Z) (links : list lxafs_linkinfo) : Drv unit :=
  if node =? 0 then mret tt else free_links links ≫= fun _ => drv_kfree node.

(** The links number [lc] down to 1, each put in front; [false]: no memory. *)
Fixpoint read_links (lc : nat) (name : list Z) (acc : list lxafs_linkinfo) : Drv (list lxafs_linkinfo * bool) :=
  match lc with
  | O => mret (acc, true)
  | S lc' =>
      l ← lxafs_alloc_linkinfo;
      match l with
      | None => mret (acc, false)
      | Some l =>
          r ← LX_EAREADSTRING walk name (linkedby lc) (l_name l) LX_MAXPATH;
          n ← get_str r.1.2;
          match n with
          | [] => lxafs_free_linkinfo l ≫= fun _ => read_links lc' name acc
          | _ => read_links lc' name (mk_link (l_node l) r.1.2 :: acc)
          end
      end
  end.

(** A negative count runs into signed overflow. *)
Definition lxafs_get_fullfileinfo (name : list Z) : Drv (option lxafs_fileinfo) :=
  fi ← lxafs_alloc_fileinfo;
  if fi =? 0 then mret None else
  r ← LX_GETFILEINFO walk name stack;
  if negb (r.1 =? 0) then lxafs_free_fileinfo fi [] ≫= fun _ => mret None else
  let fs := r.2 in
  if lc_count fs <? 0 then throw BadAccess else
  l ← read_links (Z.to_nat (lc_count fs)) name [];
  if l.2 : bool then mret (Some (mk_fileinfo fi (strncpy_field LX_MAXPATH (before_nul (gf_linkName fs))) fs l.1))
  else lxafs_free_fileinfo fi l.1 ≫= fun _ => mret None.

Definition lxafs_create_file (filename : list Z) : Drv Z :=
  r ← SecHlpOpen filename OPEN_CREATE_NEW MODE_WRITE;
  (if (r.1 =? 0) && negb (r.2 =? 0) then _ ← SecHlpClose r.2; mret tt else mret tt) ≫= fun _ => mret r.1.

Definition dummy_text (linkmaster : list Z) : list Z :=
  text ("# This is a dummy file representing a link. Do not edit contents or EAs!
# S:")%string ++ linkmaster ++ [10].

Definition lxafs_write_linkchild_info (fname linkmaster : list Z) : Drv Z :=
  r ← SecHlpOpen fname OPEN_REPLACE MODE_WRITE;
  if r.1 =? 0 then
    tmp ← drv_kmalloc (LX_MAXPATH * 2 + 78 + 2);
    (if tmp =? 0 then mret tt
     else _ ← SecHlpWriteAt r.2 (dummy_text linkmaster) 0; drv_kfree tmp) ≫= fun _ =>
    _ ← SecHlpClose r.2;
    _ ← LX_EAWRITESTRING walk fname LXEAN_LINKEDTO linkmaster (length linkmaster + 1);
    mret 0
  else mret 1.

(** The attributes of the links [i] down to 1. *)
Fixpoint delete_links (i : nat) (name : list Z) : Drv unit :=
  match i with
  | O => mret tt
  | S j => _ ← LX_EADELETE walk name (linkedby i); delete_links j name
  end.

Fixpoint write_links (i : Z) (links : list lxafs_linkinfo) (name : list Z) (childs : bool) : Drv Z :=
  match links with
  | [] => mret i
  | l :: links =>
      let i := i + 1 in
      val ← get_str (l_name l);
      _ ← LX_EAWRITESTRING walk name (linkedby i) val (length val + 1);
      (if childs then _ ← lxafs_write_linkchild_info val name; mret tt else mret tt) ≫= fun _ =>
      write_links i links name childs
  end.

Definition lxafs_rewrite_linklist (inode : lxafs_inode_info) : Drv Z :=
  if negb (in_lxafs inode) then mret 0 else
  o ← LX_alloc_objects (fun sz _ => drv_kmalloc sz) 2 LX_MAXPATH 0;
  match o.2 with
  | [name; val] =>
      r ← LX_EAREADSTRING walk (in_name inode) LXEAN_LINKBYCOUNT (0 :: tl (garbage val)) LX_MAXPATH;
      c ← get_str r.1.2;
      let i := s32 (simple_strtoul c 0).1 in
      _ ← LX_EADELETE walk (in_name inode) LXEAN_LINKBYCOUNT;
      if i <? 0 then throw BadAccess else
      delete_links (Z.to_nat i) (in_name inode) ≫= fun _ =>
      n ← write_links 0 (in_links inode) (in_name inode)
            (negb (Z.land (dirty_flag inode) LXAFS_DIRTY_LINKCHILDS =? 0));
      (if n =? 0 then mret tt
       else _ ← LX_EAWRITESTRING walk (in_name inode) LXEAN_LINKBYCOUNT (dec n) (length (dec n) + 1); mret tt)
      ≫= fun _ => drv_kfree name ≫= fun _ => mret 0
  | _ => mret o.1
  end.
End Links.

(** ** Links of an inode in use

    The inodes in memory, and the path lookups that were not released. *)

Record lxafs (W H : Type) := mk_lxafs {
  drv : driver W H;
  inodes : gmap Z lxafs_inode_info;
  path_refs : Z
}.
Arguments mk_lxafs {W H}. Arguments drv {W H}. Arguments inodes {W H}. Arguments path_refs {W H}.

Section Attach.
Context {W : Type} {H : Type} `{DosApi W} `{EahApi W} `{Heap H}.
Context (garbage : Z -> list Z).
(** The VFS: the code of a lookup and the inode it finds. *)
Context (path_lookup : list Z -> Z * option Z).
Abbreviation Fs := (M (lxafs W H)).

Definition on_drv {A} (m : M (driver W H) A) : Fs A := fun s =>
  match m (drv s) with Ok (a, d) => Ok (a, mk_lxafs d (inodes s) (path_refs s)) | Err e => Err e end.
Definition set_inode (ino : Z) (i : lxafs_inode_info) : Fs unit :=
  modify (fun s => mk_lxafs (drv s) (<[ino := i]> (inodes s)) (path_refs s)).
Definition get_inode (ino : Z) : Fs lxafs_inode_info := fun s =>
  match inodes s !! ino with Some i => Ok (i, s) | None => Err NullDeref end.
Definition path_ref (n : Z) : Fs unit :=
  modify (fun s => mk_lxafs (drv s) (inodes s) (path_refs s + n)).

(** [xname] is the master's name below the mount point, [link] the array with
    the name of the link. *)
Definition lxafs_attach_linked_file (xname link : list Z) : Fs Z :=
  let r := path_lookup xname in
  if negb (r.1 =? 0) then mret r.1 else
  path_ref 1 ≫= fun _ =>
  (match r.2 with
   | None => mret tt
   | Some ino =>
       inode ← get_inode ino;
       lifo ← on_drv (lxafs_alloc_linkinfo garbage);
       match lifo with
       | None => mret tt
       | Some lifo =>
           let lifo := mk_link (l_node lifo) (strncpy_field LX_MAXPATH (before_nul (take LX_MAXPATH link))) in
           let r := lxafs_add_linkinfo lifo false inode in
           if negb (r.2 =? 0) then on_drv (drv_kfree (l_node lifo))
           else set_inode ino (lxafs_mark_inode_dirty LXAFS_DIRTY_LINKLIST r.1)
       end
   end) ≫= fun _ => path_ref (-1) ≫= fun _ => mret 0.

(** The path is not released. *)
Definition lxafs_detach_linked_file (xname link : list Z) : Fs Z :=
  let r := path_lookup xname in
  if negb (r.1 =? 0) then mret r.1 else
  path_ref 1 ≫= fun _ =>
  match r.2 with
  | None => mret (- ENOENT)
  | Some ino =>
      inode ← get_inode ino;
      match find_first (fun l => same_name (l_name l) link) (in_links inode) with
      | Some l =>
          on_drv (lxafs_free_linkinfo l) ≫= fun _ =>
          set_inode ino (lxafs_mark_inode_dirty LXAFS_DIRTY_LINKLIST
            (set_links (remove_first (fun l => same_name (l_name l) link) (in_links inode)) inode)) ≫= fun _ =>
          mret 0
      | None => mret (- ENOENT)
      end
  end.
End Attach.

(** ** Numbers in attributes *)

Definition dec_digit (c : Z) : Prop := 48 <= c <= 57.

Lemma small_digit d : 0 <= d < 10 -> nth (Z.to_nat d) small_digits 0 = 48 + d.
Proof.
  intros Hd. assert (Ei : exists i : nat, (i < 10)%nat /\ d = i) by (exists (Z.to_nat d); lia).
  destruct Ei as (i & Hi & ->). rewrite Nat2Z.id. do 10 (destruct i as [|i]; [done|]). lia.
Qed.

Lemma atoi_digits_app l : forall acc c,
  Forall dec_digit l -> dec_digit c -> atoi_digits acc (l ++ [c]) = s32 (atoi_digits acc l * 10 + (c - 48)).
Proof.
  unfold dec_digit. induction l as [|x l IH]; intros acc c Hl Hc.
  - cbn. by replace ((48 <=? c) && (c <=? 57)) with true by lia.
  - apply Forall_cons in Hl as [Hx Hl]. cbn [atoi_digits app].
    replace ((48 <=? x) && (x <=? 57)) with true by lia. by apply IH.
Qed.

Lemma digits_text_dec fuel n :
  0 <= n -> Forall dec_digit (digits_text small_digits 10 fuel n).
Proof.
  revert n. induction fuel as [|fuel IH]; intros n Hn; cbn [digits_text]; [constructor|].
  unfold dec_digit. destruct (Z.ltb_spec n 10).
  - rewrite small_digit by lia. repeat constructor; lia.
  - rewrite small_digit by lia. apply Forall_app. split; [apply IH; lia|]. repeat constructor; lia.
Qed.

Lemma atoi_digits_text fuel n :
  0 <= n < 2147483648 -> n < 2 ^ Z.of_nat fuel -> atoi_digits 0 (digits_text small_digits 10 fuel n) = n.
Proof.
  revert n. induction fuel as [|fuel IH]; intros n Hn Hf; [cbn in *; lia|].
  assert (Hp : 2 ^ Z.of_nat (S fuel) = 2 * 2 ^ Z.of_nat fuel) by (rewrite Nat2Z.inj_succ; apply Z.pow_succ_r; lia).
  cbn [digits_text]. destruct (Z.ltb_spec n 10).
  - rewrite small_digit by lia. cbn [atoi_digits]. replace ((48 <=? 48 + n) && (48 + n <=? 57)) with true by lia.
    rewrite s32_small; lia.
  - rewrite small_digit by lia. rewrite atoi_digits_app; [|apply digits_text_dec; lia|unfold dec_digit; lia].
    rewrite IH by lia. rewrite s32_small; lia.
Qed.

Lemma udec_dec n : 0 <= n -> Forall dec_digit (udec n).
Proof. apply digits_text_dec. Qed.

Lemma atoi_dec_digit c l : dec_digit c -> atoi (c :: l) = atoi_digits 0 (c :: l).
Proof.
  unfold dec_digit. intros Hc. assert (Ei : exists i : nat, (i < 10)%nat /\ c = 48 + i) by (exists (Z.to_nat (c - 48)); lia).
  destruct Ei as (i & Hi & ->). do 10 (destruct i as [|i]; [done|]). lia.
Qed.

(** What the kernel prints with %d the daemon reads with atoi. *)
Lemma atoi_dec z : -2147483648 <= z < 2147483648 -> atoi (dec z) = z.
Proof.
  intros Hz. rewrite dec_split by done.
  assert (Hu : forall n, 0 <= n <= 2147483648 -> atoi_digits 0 (udec n) = s32 n).
  { intros n Hn. destruct (decide (n = 2147483648)) as [->|]; [by vm_compute|].
    unfold udec. rewrite s32_small by lia. apply atoi_digits_text; [lia|].
    change (2 ^ Z.of_nat 64) with 18446744073709551616. lia. }
  destruct (Z.ltb_spec z 0).
  - cbn [atoi]. rewrite Hu by lia. unfold s32. lia.
  - pose proof (udec_dec z ltac:(lia)) as Hd. pose proof (Hu z ltac:(lia)) as E.
    destruct (udec z) as [|c l] eqn:El; [by destruct (udec_not_nil z)|].
    apply Forall_cons in Hd as [Hc _]. rewrite atoi_dec_digit, E by done. by rewrite s32_small by lia.
Qed.

Lemma dec_inj a b :
  -2147483648 <= a < 2147483648 -> -2147483648 <= b < 2147483648 -> dec a = dec b -> a = b.
Proof. intros Ha Hb E. rewrite <- (atoi_dec a), <- (atoi_dec b) by done. by rewrite E. Qed.

Lemma dec_short z : -2147483648 <= z < 2147483648 -> cstring (dec z) /\ (length (dec z) <= 65)%nat.
Proof.
  intros Hz. rewrite dec_split by done. unfold cstring.
  assert (Hu : forall n, 0 <= n -> Forall (fun c => c <> 0) (udec n) /\ (length (udec n) <= 64)%nat).
  { intros n Hn. split; [|apply digits_text_length].
    eapply Forall_impl; [apply (udec_dec n Hn)|]. unfold dec_digit. cbn. lia. }
  destruct (Z.ltb_spec z 0).
  - destruct (Hu (- z)) as [H1 H2]; [lia|]. split; [by constructor|cbn [length]; lia].
  - destruct (Hu z) as [H1 H2]; [lia|]. split; [done|lia].
Qed.

Lemma linkedby_short z : -2147483648 <= z < 2147483648 -> short (linkedby z).
Proof.
  intros Hz. destruct (dec_short z Hz) as [H1 H2]. unfold short, linkedby, LX_MAXPATH. split.
  - unfold cstring. apply Forall_app. split; [repeat constructor; lia|done].
  - rewrite length_app. cbn [length]. lia.
Qed.

Lemma linkedby_inj a b :
  -2147483648 <= a < 2147483648 -> -2147483648 <= b < 2147483648 -> linkedby a = linkedby b -> a = b.
Proof. intros Ha Hb E. apply app_inv_head in E. by apply dec_inj. Qed.

Lemma linkedby_not_count z : linkedby z <> LXEAN_LINKBYCOUNT.
Proof. done. Qed.

(** ** Links written and read *)

(** An attribute that is none of the links of a file. *)
Definition foreign (a : list Z) : Prop := a <> LXEAN_LINKBYCOUNT /\ forall i, a <> linkedby i.

(** The attributes of a file list the names [names]. *)
Record lists (E : eas) (names : list (list Z)) : Prop := {
  lists_count : E !! LXEAN_LINKBYCOUNT = match names with [] => None | _ => Some (dec (length names)) end;
  lists_names (i : nat) n : names !! i = Some n -> E !! linkedby (i + 1) = Some n
}.

(** The nodes of [ls] allocated in turn on top of the objects [U]. *)
Fixpoint owns (ls : list lxafs_linkinfo) (U U' : gmap Z Z) : Prop :=
  match ls with
  | [] => U' = U
  | l :: ls => exists U1, owns ls U U1 /\ U1 !! l_node l = None /\ U' = <[l_node l := sizeof_linkinfo]> U1
  end.

Definition fields (names : list (list Z)) : list (list Z) := strncpy_field LX_MAXPATH <$> names.

Section Roundtrip.
Context {W : Type} {H : Type} `{EahLaws W} `{HeapLaws H} `{!HeapRoom H} `{!SecFile (driver W H)} `{!Toolkit}.
Context (walk : nat) (garbage : Z -> list Z) (stack : getfileinfo).
Context (garbage_len : forall p, length (garbage p) = LX_MAXPATH).
Context (stack_len : length (gf_fs4 stack) = FILESTATUS4_len).
Context (fs4_small : (FILESTATUS4_len < 1000)%nat).

Lemma delete_links_yields (i : nat) n U f E (s : driver W H) :
  Z.of_nat i < 2147483648 -> short f -> store n U f E s ->
  yields (delete_links walk i f) s (fun _ s' => exists E', store n U f E' s' /\ E' ⊆ E /\
    forall a, foreign a -> E' !! a = E !! a).
Proof.
  intros Hi Hf. revert E s. induction i as [|i IH]; intros E s Hst; cbn [delete_links].
  - apply yields_ret. exists E. done.
  - eapply yields_bind; [apply (ea_delete_yields walk n U f (linkedby (S i)) E s Hf); [apply linkedby_short; lia|done]|].
    intros ? s1 Hst1. eapply yields_weaken; [apply (IH ltac:(lia) _ _ Hst1)|].
    intros ? s2 (E' & Hst2 & Hsub & Hfor). exists E'. split; [done|]. split.
    + etrans; [done|]. apply delete_subseteq.
    + intros b Hb. rewrite Hfor by done. apply lookup_delete_ne. intros <-. by destruct Hb as [_ Hb]; destruct (Hb (S i)).
Qed.

Lemma write_links_yields names : forall links i n U f E (s : driver W H),
  short f -> 0 <= i -> i + length names < 2147483648 ->
  Forall (fun m => short m /\ m <> []) names -> l_name <$> links = fields names ->
  store (length names + n) U f E s ->
  yields (write_links walk i links f false) s (fun r s' => r = i + length names /\
    exists E', store n U f E' s' /\
      (forall (k : nat) m, names !! k = Some m -> E' !! linkedby (i + k + 1) = Some m) /\
      (forall a, (forall k, i < k -> k <= i + length names -> a <> linkedby k) -> E' !! a = E !! a) /\
      (short_eas E -> short_eas E')).
Proof.
  induction names as [|m names IH]; intros [|l links] i n U f E s Hf Hi Hb Hn Hl Hst; try done.
  - cbn [write_links]. apply yields_ret. cbn [length]. split; [lia|]. exists E. split; [done|]. split; [by intros []|]. by split.
  - apply Forall_cons in Hn as [[Hm Nm] Hn]. injection Hl as Hl1 Hl2. cbn [length] in Hb, Hst |- *.
    cbn [write_links]. rewrite Hl1.
    eapply (yields_bind _ _ _ (fun v s' => v = m /\ s' = s)).
    { eexists _, _. split; [|done]. unfold get_str. rewrite array_str_field by apply Hm. done. }
    intros v s0 [-> ->].
    eapply yields_bind; [apply (ea_write_yields walk (length names + n) U f (linkedby (i + 1)) m E s Hf);
      [apply linkedby_short; lia|apply Hm|done|done|destruct Hm; unfold LX_MAXPATH in *; lia|done]|].
    intros ? s1 Hst1. eapply (yields_bind _ _ _ (fun _ s' => s' = s1)); [by eexists _, _|]. intros _ s2 ->.
    eapply yields_weaken; [apply (IH links (i + 1) n U f _ s1 Hf ltac:(lia) ltac:(lia) Hn Hl2 Hst1)|].
    intros r s2 (-> & E' & Hst2 & Hk & Ho & Hsh). split; [lia|]. exists E'. split; [done|]. split; [|split].
    + intros [|k] x Hx.
      * injection Hx as <-. rewrite Nat2Z.inj_0, Z.add_0_r. rewrite Ho; [apply lookup_insert_eq|].
        intros k ? ? Heq%linkedby_inj; lia.
      * rewrite <- (Hk k x Hx). f_equal. f_equal. lia.
    + intros b Hx. rewrite Ho by (intros k ? ?; apply Hx; lia). apply lookup_insert_ne.
      intros <-. apply (Hx (i + 1)); [lia|lia|done].
    + intros Hse. apply Hsh. by apply map_Forall_insert_2.
Qed.

Lemma free_links_yields ls n U U' (f : list Z) E : forall (s : driver W H),
  owns ls U U' -> store n U' f E s -> yields (free_links ls) s (fun _ s' => store n U f E s').
Proof.
  revert U'. induction ls as [|l ls IH]; intros U' s; cbn [owns free_links].
  - intros -> Hst. by apply yields_ret.
  - intros (U1 & Ho & Hn & ->) Hst. eapply yields_bind.
    + eapply kfree_yields; [apply lookup_insert_eq|done].
    + intros ? s1 Hst1. cbn beta in Hst1. rewrite delete_insert_id in Hst1 by done. by eapply IH.
Qed.

(** The old count of links, if there is one, is no negative number. *)
Definition count_ok (E : eas) : Prop :=
  forall v, E !! LXEAN_LINKBYCOUNT = Some v -> 0 <= s32 (simple_strtoul v 0).1.

Lemma count_short : short LXEAN_LINKBYCOUNT.
Proof. split; [repeat constructor; lia|unfold LX_MAXPATH; cbn; lia]. Qed.

Lemma old_count_yields n U (f buf : list Z) E (s : driver W H) :
  short f -> short_eas E -> length buf = LX_MAXPATH -> (exists l, buf = 0 :: l) -> store (S n) U f E s ->
  yields (r ← LX_EAREADSTRING walk f LXEAN_LINKBYCOUNT buf LX_MAXPATH; get_str r.1.2) s
    (fun c s' => store n U f E s' /\ match E !! LXEAN_LINKBYCOUNT with Some v => c = v | None => c = [] end).
Proof.
  intros Hf Hs Lb [l Hb] Hst. destruct (E !! LXEAN_LINKBYCOUNT) as [v|] eqn:Ev.
  - pose proof (Hs _ _ Ev) as Hv. eapply yields_bind; [by apply (ea_read_yields walk n U f _ v buf E s Hf count_short)|].
    intros r s1 [-> Hst1]. eexists _, _. split; [|done]. unfold get_str. by rewrite array_str_field by apply Hv.
  - eapply yields_bind; [by apply (ea_missing_yields walk n U f _ buf E s Hf count_short)|].
    intros r s1 [[-> | ->] Hst1]; eexists _, _; (split; [|done]); [done|]. rewrite Hb. done.
Qed.

Lemma write_count_yields (names : list (list Z)) (n : nat) (U : gmap Z Z) (f : list Z) (E E' : eas) (s : driver W H) :
  length names < 2147483647 -> short f -> E' !! LXEAN_LINKBYCOUNT = None ->
  (forall (k : nat) m, names !! k = Some m -> E' !! linkedby (k + 1) = Some m) ->
  (forall a, foreign a -> E' !! a = E !! a) -> short_eas E' -> store (S n) U f E' s ->
  yields (if Z.of_nat (length names) =? 0 then mret tt
          else _ ← LX_EAWRITESTRING walk f LXEAN_LINKBYCOUNT (dec (length names)) (length (dec (length names)) + 1);
               mret tt) s
    (fun _ s' => exists E2, store n U f E2 s' /\ lists E2 names /\ short_eas E2 /\
      forall a, foreign a -> E2 !! a = E !! a).
Proof.
  intros Hb Hf Hn Hk Hfor Hse Hst. destruct names as [|m names].
  - cbn [length]. change (0%nat =? 0) with true. apply yields_ret. exists E'.
    split; [by eapply (store_le n (S n)); [lia|]|]. split; [|done]. by split.
  - destruct (Z.eqb_spec (length (m :: names)) 0) as [E0|_]; [cbn [length] in E0; lia|].
    set (k := Z.of_nat (length (m :: names))) in *.
    assert (Hk0 : -2147483648 <= k < 2147483648) by (unfold k; lia).
    destruct (dec_short k Hk0) as [Hd1 Hd2].
    eapply yields_bind.
    { refine (ea_write_yields walk n _ f LXEAN_LINKBYCOUNT (dec k) E' s Hf count_short Hd1 _ _ _ Hst);
        [done|by apply dec_not_nil|lia]. }
    intros ? s6 Hst6. apply yields_ret. eexists. split; [exact Hst6|]. split; [|split].
    + split; [by rewrite lookup_insert_eq|]. intros j x Hx.
      rewrite lookup_insert_ne by (apply not_eq_sym, linkedby_not_count). by apply Hk.
    + apply map_Forall_insert_2; [|done]. split; [done|unfold LX_MAXPATH; lia].
    + intros b Hx. rewrite lookup_insert_ne by (intros <-; by destruct Hx). by apply Hfor.
Qed.

Lemma rewrite_linklist_yields names i n U (f : list Z) E (s : driver W H) :
  in_lxafs i = true -> in_name i = f -> Z.land (dirty_flag i) LXAFS_DIRTY_LINKCHILDS = 0 ->
  l_name <$> in_links i = fields names -> Forall (fun m => short m /\ m <> []) names ->
  length names < 2147483647 -> short f -> short_eas E -> count_ok E ->
  store (S (S (length names + S n))) U f E s ->
  yields (lxafs_rewrite_linklist walk garbage i) s (fun r s' => r = 0 /\
    exists E', store n U f E' s' /\ lists E' names /\ short_eas E' /\ forall a, foreign a -> E' !! a = E !! a).
Proof.
  intros Hi Hname Hd Hl Hn Hb Hf Hs Hc Hst. unfold lxafs_rewrite_linklist. rewrite Hi, Hname, Hd. cbn [negb].
  change (negb (0 =? 0)) with false.
  set (sz := u32 (2%nat * LX_MAXPATH)). assert (Hsz : 0 < sz < 2147483648) by (vm_compute; done).
  eapply (yields_bind _ _ _ (fun o s' => exists p, o = (0, carve 2 p LX_MAXPATH) /\ U !! p = None /\
    store (S (length names + S n)) (<[p := sz]> U) f E s')).
  { unfold LX_alloc_objects. eapply yields_bind; [by apply kmalloc_yields|]. intros p s1 (Hp & Hn1 & Hst1).
    destruct (Z.eqb_spec p 0); [done|]. apply yields_ret. eauto. }
  intros o s1 (p & -> & Hp & Hst1). cbn [snd carve].
  eapply yields_bind2.
  { eapply (old_count_yields (length names + S n) _ f _ E s1 Hf Hs); [|by eexists|done].
    pose proof (garbage_len (u32 (p + LX_MAXPATH))) as Hg. cbn [length].
    destruct (garbage (u32 (p + LX_MAXPATH))) as [|x l]; [done|]. exact Hg. }
  intros c s2 [Hst2 Hcv]. cbn beta in *.
  assert (Hold : 0 <= s32 (simple_strtoul c 0).1).
  { destruct (E !! LXEAN_LINKBYCOUNT) as [v|] eqn:Ev; subst c; [by apply Hc|]. by vm_compute. }
  set (old := s32 (simple_strtoul c 0).1) in *.
  assert (Hold2 : old < 2147483648) by (unfold old; pose proof (s32_range (simple_strtoul c 0).1); lia).
  eapply yields_bind; [exact (ea_delete_yields walk _ _ f _ E s2 Hf count_short Hst2)|]. intros ? s3 Hst3.
  cbn beta in Hst3. destruct (Z.ltb_spec old 0); [lia|].
  eapply yields_bind; [refine (delete_links_yields (Z.to_nat old) _ _ f _ s3 _ Hf Hst3); lia|].
  intros ? s4 (E4 & Hst4 & Hsub & Hfor).
  eapply yields_bind; [refine (write_links_yields names _ 0 (S n) _ f E4 s4 Hf _ _ Hn Hl Hst4); lia|].
  intros r s5 (-> & E5 & Hst5 & Hk & Ho & Hse). rewrite Z.add_0_l.
  assert (Hn4 : E4 !! LXEAN_LINKBYCOUNT = None).
  { destruct (E4 !! LXEAN_LINKBYCOUNT) as [v|] eqn:Ev; [|done]. pose proof (lookup_weaken _ _ _ _ Ev Hsub) as Hx.
    by rewrite lookup_delete_eq in Hx. }
  assert (Hn5 : E5 !! LXEAN_LINKBYCOUNT = None) by (rewrite Ho; [done|intros k _ _; by apply not_eq_sym, linkedby_not_count]).
  assert (Hfor5 : forall a, foreign a -> E5 !! a = E !! a).
  { intros b [Ha1 Ha2]. rewrite Ho by (intros k _ _; apply Ha2). rewrite Hfor by done. by apply lookup_delete_ne. }
  eapply yields_bind.
  { refine (write_count_yields names n _ f E E5 s5 Hb Hf Hn5 _ Hfor5 (Hse _) Hst5).
    - intros k x Hx. by rewrite <- (Hk k x Hx).
    - intros b v Hv. pose proof (lookup_weaken _ _ _ _ Hv Hsub) as [_ Hx]%lookup_delete_Some. by apply (Hs b). }
  intros ? s6 (E6 & Hst6 & Hli & Hs6 & Hf6). eapply yields_bind.
  - eapply kfree_yields; [apply lookup_insert_eq|done].
  - intros ? s7 Hst7. cbn beta in Hst7. rewrite delete_insert_id in Hst7 by done. apply yields_ret.
    split; [done|]. exists E6. auto.
Qed.

Lemma read_links_yields (names : list (list Z)) (f : list Z) (E : eas) (U : gmap Z Z) n :
  lists E names -> Forall (fun m => short m /\ m <> []) names -> short f -> length names < 2147483647 ->
  forall (lc : nat) acc U' (s : driver W H), (lc <= length names)%nat ->
  owns acc U U' -> store (2 * lc + n) U' f E s ->
  yields (read_links walk garbage lc f acc) s (fun r s' => exists U2, r.2 = true /\
    l_name <$> r.1 = fields (take lc names) ++ (l_name <$> acc) /\ owns r.1 U U2 /\ store n U2 f E s').
Proof.
  intros Hli Hn Hf Hb lc. induction lc as [|lc IH]; intros acc U' s Hlc Ho Hst; cbn [read_links].
  - apply yields_ret. exists U'. done.
  - destruct (lookup_lt_is_Some_2 names lc) as [m Hm]; [lia|].
    pose proof (lists_names _ _ Hli lc m Hm) as Hv. replace (lc + 1) with (Z.of_nat (S lc)) in Hv by lia.
    pose proof (Forall_lookup_1 _ _ _ _ Hn Hm) as [Hms Hmn].
    eapply (yields_bind _ _ _ (fun o s' => exists p, o = Some (mk_link p (garbage p)) /\ U' !! p = None /\
      store (S (2 * lc + n)) (<[p := sizeof_linkinfo]> U') f E s')).
    { unfold lxafs_alloc_linkinfo. eapply yields_bind.
      { apply (kmalloc_yields sizeof_linkinfo (S (2 * lc + n)) U' f E s); [unfold sizeof_linkinfo; lia|].
        by replace (S (S (2 * lc + n))) with (2 * S lc + n)%nat by lia. }
      intros p s1 (Hp & Hn1 & Hst1). destruct (Z.eqb_spec p 0); [done|]. apply yields_ret. eauto. }
    intros o s1 (p & -> & Hp & Hst1). cbn [l_name l_node].
    eapply yields_bind.
    { refine (ea_read_yields walk _ _ f _ m (garbage p) E s1 Hf _ Hms Hv (garbage_len p) Hst1).
      apply linkedby_short. lia. }
    intros r s2 [Hr Hst2]. rewrite Hr.
    eapply (yields_bind _ _ _ (fun v s' => v = m /\ s' = s2)).
    { eexists _, _. split; [|done]. unfold get_str. by rewrite array_str_field by apply Hms. }
    intros v s3 [-> ->]. destruct m as [|c m]; [done|].
    eapply yields_weaken; [eapply (IH _ _ s2 ltac:(lia)); [|exact Hst2]|].
    + cbn [owns l_node]. exists U'. done.
    + intros r' s4 (U2 & Ht & Hnm & Ho2 & Hst4). exists U2. split; [done|]. split; [|done].
      rewrite Hnm. rewrite (take_S_r _ _ _ Hm). unfold fields. rewrite fmap_app, <- app_assoc. done.
Qed.

Lemma get_fullfileinfo_yields (names : list (list Z)) (f : list Z) (E : eas) (U : gmap Z Z) n (s : driver W H) :
  lists E names -> Forall (fun m => short m /\ m <> []) names -> short f -> short_eas E ->
  length names < 2147483647 -> store (S (2 * length names + n)) U f E s ->
  yields (lxafs_get_fullfileinfo walk garbage stack f) s (fun r s' => exists fi U2, r = Some fi /\
    fi_node fi <> 0 /\ U !! fi_node fi = None /\ l_name <$> fi_links fi = fields names /\
    owns (fi_links fi) (<[fi_node fi := sizeof_fileinfo]> U) U2 /\ info_of E (fi_info fi) /\ store n U2 f E s').
Proof.
  intros Hli Hn Hf Hs Hb Hst. unfold lxafs_get_fullfileinfo, lxafs_alloc_fileinfo.
  eapply yields_bind.
  { apply (kmalloc_yields sizeof_fileinfo (2 * length names + n) U f E s); [unfold sizeof_fileinfo; lia|done]. }
  intros p s1 (Hp & Hpn & Hst1). destruct (Z.eqb_spec p 0); [done|].
  eapply yields_bind; [exact (getfileinfo_yields walk _ _ f E stack s1 Hf Hs stack_len Hst1)|].
  intros r s2 (Hr & Hi & Hst2). rewrite Hr. change (negb (0 =? 0)) with false. cbn match.
  assert (Hc : lc_count r.2 = length names).
  { rewrite (io_count _ _ Hi). unfold ea_number. rewrite (lists_count _ _ Hli). destruct names; [done|].
    apply atoi_dec. lia. }
  rewrite Hc. destruct (Z.ltb_spec (length names) 0); [lia|]. rewrite Nat2Z.id.
  eapply yields_bind.
  { by apply (read_links_yields names f E (<[p := sizeof_fileinfo]> U) n Hli Hn Hf Hb (length names) []
      (<[p := sizeof_fileinfo]> U) s2). }
  intros l s3 (U2 & -> & Hnm & Ho & Hst3). apply yields_ret. eexists _, U2. split; [reflexivity|].
  cbn [fi_node fi_links fi_info]. rewrite firstn_all, app_nil_r in Hnm. auto 10.
Qed.

Lemma free_fileinfo_yields (node : Z) (ls : list lxafs_linkinfo) (n : nat) (U U' : gmap Z Z) (f : list Z) (E : eas) (s : driver W H) :
  node <> 0 -> U !! node = None -> owns ls (<[node := sizeof_fileinfo]> U) U' -> store n U' f E s ->
  yields (lxafs_free_fileinfo node ls) s (fun _ s' => store n U f E s').
Proof.
  intros Hp Hn Ho Hst. unfold lxafs_free_fileinfo. destruct (Z.eqb_spec node 0); [done|].
  eapply yields_bind; [by eapply free_links_yields|]. intros ? s1 Hst1. cbn beta in Hst1.
  eapply yields_weaken; [eapply kfree_yields; [apply lookup_insert_eq|exact Hst1]|].
  intros ? s2 Hst2. cbn beta in Hst2. by rewrite delete_insert_id in Hst2.
Qed.

(** C10: The links of a file survive: after lxafs_rewrite_linklist has stored
    the list of an inode in the attributes of its file,
    lxafs_get_fullfileinfo finds the same names in the same order, whatever
    links were stored before; the other attributes are as they were, and when
    the information is freed again no block of the driver is left over. *)
Theorem links_roundtrip (names : list (list Z)) (i : lxafs_inode_info) (E : eas) (U : gmap Z Z) (n : nat)
    (s : driver W H) :
  in_lxafs i = true -> Z.land (dirty_flag i) LXAFS_DIRTY_LINKCHILDS = 0 -> short (in_name i) ->
  l_name <$> in_links i = fields names -> Forall (fun m => short m /\ m <> []) names ->
  length names < 2147483647 -> short_eas E -> count_ok E ->
  store (3 * length names + 4 + n) U (in_name i) E s ->
  exists s1 fi s2 s3 E',
    lxafs_rewrite_linklist walk garbage i s = Ok (0, s1) /\
    lxafs_get_fullfileinfo walk garbage stack (in_name i) s1 = Ok (Some fi, s2) /\
    l_name <$> fi_links fi = fields names /\
    lxafs_free_fileinfo (fi_node fi) (fi_links fi) s2 = Ok (tt, s3) /\
    store n U (in_name i) E' s3 /\ forall a, foreign a -> E' !! a = E !! a.
Proof.
  intros Hi Hd Hf Hl Hn Hb Hs Hc Hst.
  destruct (rewrite_linklist_yields names i (S (2 * length names + n)) U (in_name i) E s)
    as (r & s1 & E1 & -> & E' & Hst1 & Hli & Hs' & Hfor); try done.
  { by replace (S (S (length names + S (S (2 * length names + n)))))%nat with (3 * length names + 4 + n)%nat by lia. }
  destruct (get_fullfileinfo_yields names (in_name i) E' U n s1 Hli Hn Hf Hs' ltac:(lia) Hst1)
    as (o & s2 & E2 & fi & U2 & -> & Hp & Hpn & Hnm & Ho & _ & Hst2).
  destruct (free_fileinfo_yields (fi_node fi) (fi_links fi) n U U2 (in_name i) E' s2 Hp Hpn Ho Hst2)
    as ([] & s3 & E3 & Hst3).
  exists s1, fi, s2, s3, E'. done.
Qed.
End Roundtrip.

(** ** Nothing is left over *)

Section Balance.
Context {W : Type} {H : Type} `{DosApi W} `{EahApi W} `{HeapLaws H}.
Context (walk : nat) (garbage : Z -> list Z) (stack : getfileinfo).
Context (fs4_small : (FILESTATUS4_len < 1000)%nat).
Abbreviation Drv := (M (driver W H)).

(** From a heap with the objects [U] to one with [U']. *)
Definition heap_is (U : gmap Z Z) (s : driver W H) : Prop := heap_ok (kheap s) /\ used (kheap s) = U.

Lemma keeps_call_daemon cmd wait p : keeps kheap (LX_dmn_call walk cmd wait p : Drv _).
Proof.
  intros s a s'. unfold LX_dmn_call. destruct (daemon s); [|by intros [= _ <-]].
  destruct (executeNewCommand _ _ _) as [[p' d']|]; [|done]. by intros [= _ <-].
Qed.

Lemma keeps_dmn cmd p : keeps kheap (dmn walk cmd p : Drv _).
Proof.
  unfold dmn. apply keeps_bind; [apply keeps_call_daemon|]. intros a. apply keeps_bind; [|intros ?; apply keeps_ret].
  destruct a; cbn; [apply keeps_throw|apply keeps_ret].
Qed.

Lemma keeps_heap_get_str {S T} (R : S -> T) l : keeps R (get_str l).
Proof. intros s a s'. unfold get_str. destruct (array_str l); [|done]. by intros [= _ <-]. Qed.

Lemma kmalloc_heap sz U (s s' : driver W H) p :
  0 < sz < 2147483648 -> heap_is U s -> drv_kmalloc sz s = Ok (p, s') ->
  p = 0 /\ heap_is U s' \/ p <> 0 /\ U !! p = None /\ heap_is (<[p := sz]> U) s'.
Proof.
  clear garbage fs4_small. intros Hs [Ho <-]. unfold drv_kmalloc. destruct (kmalloc sz (kheap s)) as [h q] eqn:E. intros [= <- <-].
  destruct (kmalloc_laws sz _ _ _ Ho Hs E) as [Ho' [[-> Hu]|(Hp & Hn & _ & Hu)]].
  - left. by split.
  - right. split; [lia|]. split; [done|]. by split.
Qed.

Lemma kfree_heap p sz (U : gmap Z Z) (s s' : driver W H) u :
  U !! p = None -> heap_is (<[p := sz]> U) s -> drv_kfree p s = Ok (u, s') -> heap_is U s'.
Proof.
  intros Hp [Ho Hu] [= _ <-]. destruct (kfree_laws p (kheap s) Ho) as [Ho' Hu'].
  - rewrite Hu, lookup_insert_eq. eauto.
  - split; [done|]. cbn. by rewrite Hu', Hu, delete_insert_id.
Qed.

Lemma with_kmalloc_heap {A} (sz : Z) (fail : A) (body : Drv A) (U : gmap Z Z) (s s' : driver W H) a :
  0 < sz < 2147483648 -> keeps kheap body -> heap_is U s -> with_kmalloc sz fail body s = Ok (a, s') -> heap_is U s'.
Proof.
  clear garbage fs4_small. intros Hs Hk Hu. unfold with_kmalloc. rewrite u32_small by lia.
  intros (p & s1 & E1 & E)%M_bind_Ok. destruct (kmalloc_heap sz U s s1 p Hs Hu E1) as [[-> Hu1]|(Hp & Hn & Hu1)].
  - by injection E as _ <-.
  - destruct (Z.eqb_spec p 0); [done|]. rewrite Z.ltb_irrefl in E.
    apply M_bind_Ok in E as (r & s2 & E2 & E). apply M_bind_Ok in E as (u & s3 & E3 & E).
    injection E as _ <-. eapply kfree_heap; [exact Hn| |exact E3].
    unfold heap_is in *. by rewrite (Hk _ _ _ E2).
Qed.

Lemma earead_heap f a buf U (s s' : driver W H) r :
  heap_is U s -> LX_EAREADSTRING walk f a buf LX_MAXPATH s = Ok (r, s') -> heap_is U s'.
Proof.
  clear garbage fs4_small. apply with_kmalloc_heap; [unfold LX_MAXPATH; lia|].
  apply keeps_bind; [apply keeps_dmn|]. intros r0. keeps.
Qed.

Lemma getfileinfo_heap f pf U (s s' : driver W H) r :
  heap_is U s -> LX_GETFILEINFO walk f pf s = Ok (r, s') -> heap_is U s'.
Proof.
  clear garbage fs4_small. intros Hu E. assert (Hk : keeps kheap (LX_GETFILEINFO walk f pf : Drv _)).
  { apply keeps_bind; [unfold array_of; by keeps|]. intros n. apply keeps_bind; [apply keeps_dmn|]. intros r0. keeps. }
  unfold heap_is in *. by rewrite (Hk _ _ _ E).
Qed.

Lemma read_links_heap lc f (U U' : gmap Z Z) : forall acc (s s' : driver W H) r,
  owns acc U U' -> heap_is U' s -> read_links walk garbage lc f acc s = Ok (r, s') ->
  exists U2, owns r.1 U U2 /\ heap_is U2 s'.
Proof.
  revert U'. induction lc as [|lc IH]; intros U' acc s s' r Ho Hu E; cbn [read_links] in E.
  - injection E as <- <-. by exists U'.
  - apply M_bind_Ok in E as (o & s1 & E1 & E). unfold lxafs_alloc_linkinfo in E1.
    apply M_bind_Ok in E1 as (p & s2 & E2 & E1). injection E1 as <- <-.
    destruct (kmalloc_heap sizeof_linkinfo U' s s2 p ltac:(unfold sizeof_linkinfo; lia) Hu E2)
      as [[-> Hu1]|(Hp & Hn & Hu1)].
    { injection E as <- <-. by exists U'. }
    destruct (Z.eqb_spec p 0); [done|]. cbn [l_node l_name] in E.
    apply M_bind_Ok in E as (x & s3 & E3 & E). apply M_bind_Ok in E as (v & s4 & E4 & E).
    apply (earead_heap _ _ _ _ _ _ _ Hu1) in E3.
    assert (Hu4 : heap_is (<[p := sizeof_linkinfo]> U') s4).
    { unfold heap_is in *. by rewrite (keeps_heap_get_str kheap _ _ _ _ E4). }
    destruct v as [|c v].
    + apply M_bind_Ok in E as (u & s5 & E5 & E). eapply (IH U' acc); [exact Ho| |exact E].
      eapply kfree_heap; [exact Hn|exact Hu4|exact E5].
    + eapply (IH _ (mk_link p x.1.2 :: acc)); [|exact Hu4|exact E]. exists U'. done.
Qed.

Lemma free_links_heap ls (U U' : gmap Z Z) : forall (s s' : driver W H) u,
  owns ls U U' -> heap_is U' s -> free_links ls s = Ok (u, s') -> heap_is U s'.
Proof.
  revert U'. induction ls as [|l ls IH]; intros U' s s' u Ho Hu E; cbn [owns free_links] in *.
  - subst U'. by injection E as _ <-.
  - destruct Ho as (U1 & Ho & Hn & ->). apply M_bind_Ok in E as (v & s1 & E1 & E).
    eapply IH; [exact Ho| |exact E]. by eapply kfree_heap.
Qed.

Lemma free_fileinfo_heap node ls (U U' : gmap Z Z) (s s' : driver W H) u :
  node <> 0 -> U !! node = None -> owns ls (<[node := sizeof_fileinfo]> U) U' -> heap_is U' s ->
  lxafs_free_fileinfo node ls s = Ok (u, s') -> heap_is U s'.
Proof.
  intros Hp Hn Ho Hu. unfold lxafs_free_fileinfo. destruct (Z.eqb_spec node 0); [done|].
  intros (v & s1 & E1 & E)%M_bind_Ok. eapply kfree_heap; [exact Hn| |exact E].
  eapply free_links_heap; [exact Ho|exact Hu|exact E1].
Qed.

(** C33: lxafs_get_fullfileinfo leaks nothing, whatever fails: when it returns
    NULL the driver's blocks are those from before, and otherwise
    lxafs_free_fileinfo of the result brings them back. *)
Theorem fileinfo_balanced (name : list Z) (s s' : driver W H) (r : option lxafs_fileinfo) :
  heap_ok (kheap s) -> lxafs_get_fullfileinfo walk garbage stack name s = Ok (r, s') ->
  match r with
  | None => used (kheap s') = used (kheap s)
  | Some fi => forall u s2, lxafs_free_fileinfo (fi_node fi) (fi_links fi) s' = Ok (u, s2) ->
                 used (kheap s2) = used (kheap s)
  end.
Proof.
  intros Ho E. assert (Hu : heap_is (used (kheap s)) s) by done.
  set (U := used (kheap s)) in *. clearbody U. unfold lxafs_get_fullfileinfo, lxafs_alloc_fileinfo in E.
  apply M_bind_Ok in E as (p & s1 & E1 & E).
  assert (Hsz : 0 < sizeof_fileinfo (W := W) < 2147483648) by (unfold sizeof_fileinfo; lia).
  destruct (kmalloc_heap sizeof_fileinfo U s s1 p Hsz Hu E1) as [[-> Hu1]|(Hp & Hn & Hu1)].
  { injection E as <- <-. apply Hu1. }
  destruct (Z.eqb_spec p 0); [done|]. apply M_bind_Ok in E as (x & s2 & E2 & E).
  apply (getfileinfo_heap _ _ _ _ _ _ Hu1) in E2.
  destruct (negb (x.1 =? 0)).
  { apply M_bind_Ok in E as (u & s3 & E3 & E). injection E as <- <-.
    eapply (free_fileinfo_heap p [] U); [exact Hp|exact Hn| |exact E2|exact E3]. done. }
  destruct (lc_count x.2 <? 0); [done|]. apply M_bind_Ok in E as (l & s3 & E3 & E).
  set (U1 := <[p := sizeof_fileinfo (W := W)]> U) in *. assert (Ho1 : owns [] U1 U1) by done.
  apply (read_links_heap _ _ U1 U1 [] _ _ _ Ho1 E2) in E3 as (U2 & Ho2 & Hu3).
  destruct l as [l []]; cbn [fst snd] in *.
  - injection E as <- <-. cbn [fi_node fi_links]. intros u s4 E4.
    by apply (free_fileinfo_heap p l U U2 _ _ _ Hp Hn Ho2 Hu3) in E4 as [_ ?].
  - apply M_bind_Ok in E as (u & s4 & E4 & E). injection E as <- <-.
    by apply (free_fileinfo_heap p l U U2 _ _ _ Hp Hn Ho2 Hu3) in E4 as [_ ?].
Qed.
End Balance.

(** ** Attaching and detaching *)

Lemma before_nul_cstring l : cstring (before_nul l) /\ (length (before_nul l) <= length l)%nat.
Proof.
  induction l as [|c l [IH1 IH2]]; cbn; [by split; [constructor|]|]. destruct (Z.eqb_spec c 0); cbn.
  - split; [constructor|lia].
  - split; [by constructor|lia].
Qed.

Lemma before_nul_id l : cstring l -> before_nul l = l.
Proof. induction 1 as [|c l Hc _ IH]; [done|]. cbn. destruct (Z.eqb_spec c 0); [done|]. by rewrite IH. Qed.

Definition copied_name (link : list Z) : list Z := strncpy_field LX_MAXPATH (before_nul (take LX_MAXPATH link)).

Lemma same_name_copy x link : same_name x (copied_name link) = same_name x link.
Proof.
  unfold same_name, copied_name. apply bool_decide_ext.
  assert (E : before_nul (take LX_MAXPATH (strncpy_field LX_MAXPATH (before_nul (take LX_MAXPATH link))))
    = before_nul (take LX_MAXPATH link)); [|by rewrite E].
  set (v := before_nul (take LX_MAXPATH link)).
  assert (Hv : cstring v /\ (length v <= LX_MAXPATH)%nat).
  { destruct (before_nul_cstring (take LX_MAXPATH link)) as [H1 H2]. fold v in H1, H2.
    rewrite length_take in H2. split; [done|lia]. }
  destruct Hv as [Hc Hl]. rewrite take_ge by (by rewrite length_strncpy_field). unfold strncpy_field.
  rewrite take_ge by done. destruct (decide (length v = LX_MAXPATH)) as [->|].
  - rewrite Nat.sub_diag. cbn [replicate]. rewrite app_nil_r. by apply before_nul_id.
  - apply before_nul_padded; [done|lia].
Qed.

Lemma same_name_refl x : same_name x x = true.
Proof. by apply bool_decide_true. Qed.

Section AttachDetach.
Context {W : Type} {H : Type} `{DosApi W} `{EahApi W} `{HeapLaws H}.
Context (garbage : Z -> list Z) (path_lookup : list Z -> Z * option Z).
Implicit Types (s : lxafs W H).

Definition fs_heap (s : lxafs W H) : H := kheap (drv s).

Lemma on_drv_bind {A B} (m : M (driver W H) A) (k : A -> M (lxafs W H) B) s a d :
  m (drv s) = Ok (a, d) -> (on_drv m ≫= k) s = k a (mk_lxafs d (inodes s) (path_refs s)).
Proof. intros E. rewrite M_bind_unfold. unfold on_drv. by rewrite E. Qed.

Lemma path_ref_bind {B} n (k : unit -> M (lxafs W H) B) s :
  (path_ref n ≫= k) s = k tt (mk_lxafs (drv s) (inodes s) (path_refs s + n)).
Proof. done. Qed.

Lemma get_inode_bind {B} ino i (k : lxafs_inode_info -> M (lxafs W H) B) s :
  inodes s !! ino = Some i -> (get_inode ino ≫= k) s = k i s.
Proof. intros E. rewrite M_bind_unfold. unfold get_inode. by rewrite E. Qed.

Lemma attach_new (xname link : list Z) ino i s h p :
  path_lookup xname = (0, Some ino) -> inodes s !! ino = Some i -> in_lxafs i = true ->
  Forall (fun l => same_name (l_name l) link = false) (in_links i) ->
  kmalloc sizeof_linkinfo (fs_heap s) = (h, p) -> p <> 0 ->
  lxafs_attach_linked_file garbage path_lookup xname link s =
    Ok (0, mk_lxafs (mk_driver (daemon (drv s)) h)
             (<[ino := lxafs_mark_inode_dirty LXAFS_DIRTY_LINKLIST
                  (set_links (mk_link p (copied_name link) :: in_links i) i)]> (inodes s))
             (path_refs s)).
Proof.
  intros Hl Hi Hin Hn Hk Hp. unfold lxafs_attach_linked_file. rewrite Hl. cbn [fst snd].
  change (negb (0 =? 0)) with false. cbn match.
  rewrite path_ref_bind, M_bind_unfold, (get_inode_bind ino i) by done.
  assert (Ea : lxafs_alloc_linkinfo garbage (drv s)
    = Ok (Some (mk_link p (garbage p)), mk_driver (daemon (drv s)) h)).
  { unfold lxafs_alloc_linkinfo, drv_kmalloc. rewrite M_bind_unfold. unfold fs_heap in Hk. rewrite Hk.
    by destruct (Z.eqb_spec p 0). }
  erewrite on_drv_bind by exact Ea. cbn [l_node]. fold (copied_name link).
  assert (Hadd : lxafs_add_linkinfo (mk_link p (copied_name link)) false i
    = (set_links (mk_link p (copied_name link) :: in_links i) i, 0)).
  { unfold lxafs_add_linkinfo. cbn [l_name].
    assert (existsb (fun l => same_name (l_name l) (copied_name link)) (in_links i) = false) as ->; [|done].
    induction Hn as [|x l Hx _ IH]; [done|]. cbn [existsb]. by rewrite same_name_copy, Hx. }
  rewrite Hadd. cbn [fst snd]. change (negb (0 =? 0)) with false. cbn match.
  unfold set_inode, modify. cbn beta match. rewrite path_ref_bind. cbn [drv inodes path_refs].
  by replace (path_refs s + 1 + -1) with (path_refs s) by lia.
Qed.

(** Attaching a link to a file in use and detaching it again gives the
    list of links from before and frees the node; the inode is dirty, so the
    list will be written, and one path lookup stays unreleased, since
    detaching does not release it. *)
Theorem attach_detach (xname link : list Z) (ino : Z) (i : lxafs_inode_info) s :
  path_lookup xname = (0, Some ino) -> inodes s !! ino = Some i -> in_lxafs i = true ->
  Forall (fun l => same_name (l_name l) link = false) (in_links i) ->
  heap_ok (fs_heap s) -> (kmalloc sizeof_linkinfo (fs_heap s)).2 <> 0 ->
  exists s1 s2 i1,
    lxafs_attach_linked_file garbage path_lookup xname link s = Ok (0, s1) /\
    inodes s1 !! ino = Some i1 /\ (l_name <$> in_links i1) = copied_name link :: (l_name <$> in_links i) /\
    path_refs s1 = path_refs s /\
    lxafs_detach_linked_file path_lookup xname link s1 = Ok (0, s2) /\
    inodes s2 = <[ino := lxafs_mark_inode_dirty LXAFS_DIRTY_LINKLIST i]> (inodes s) /\
    used (fs_heap s2) = used (fs_heap s) /\ path_refs s2 = path_refs s + 1.
Proof.
  intros Hl Hi Hin Hn Ho Hp. destruct (kmalloc sizeof_linkinfo (fs_heap s)) as [h p] eqn:Hk. cbn [snd] in Hp.
  destruct (kfree_kmalloc sizeof_linkinfo (fs_heap s) h p Ho ltac:(unfold sizeof_linkinfo; lia) Hk Hp) as [_ Hu].
  eexists _, _, _. split; [by apply attach_new|]. cbn [inodes path_refs]. split; [by rewrite lookup_insert_eq|].
  split; [unfold lxafs_mark_inode_dirty; by cbn|]. split; [done|].
  unfold lxafs_detach_linked_file. rewrite Hl. cbn [fst snd]. change (negb (0 =? 0)) with false. cbn match.
  assert (Hs : same_name (copied_name link) link = true) by (rewrite <- (same_name_copy _ link); apply same_name_refl).
  split.
  { rewrite path_ref_bind. erewrite get_inode_bind by apply lookup_insert_eq.
    match goal with |- context [find_first _ (in_links ?x)] =>
      assert (El : in_links x = mk_link p (copied_name link) :: in_links i)
        by (unfold lxafs_mark_inode_dirty; done); rewrite El end.
    cbn [find_first remove_first l_name]. rewrite Hs. reflexivity. }
  cbn. split; [|split; [exact Hu|done]]. rewrite insert_insert_eq. f_equal.
  unfold lxafs_mark_inode_dirty, set_dirty, set_links. cbn. rewrite Hin.
  by rewrite <- Z.lor_assoc, Z.lor_diag.
Qed.

(** A link that is attached already is not attached again: the new node is
    freed, and the list, the inode and the lookups are as before. *)
Theorem attach_twice (xname link : list Z) (ino : Z) (i : lxafs_inode_info) s :
  path_lookup xname = (0, Some ino) -> inodes s !! ino = Some i ->
  Exists (fun l => same_name (l_name l) link = true) (in_links i) -> heap_ok (fs_heap s) ->
  exists s1, lxafs_attach_linked_file garbage path_lookup xname link s = Ok (0, s1) /\
    inodes s1 = inodes s /\ used (fs_heap s1) = used (fs_heap s) /\ path_refs s1 = path_refs s.
Proof.
  intros Hl Hi Hex Ho. unfold lxafs_attach_linked_file. rewrite Hl. cbn [fst snd].
  change (negb (0 =? 0)) with false. cbn match.
  rewrite path_ref_bind, M_bind_unfold, (get_inode_bind ino i) by done.
  destruct (kmalloc sizeof_linkinfo (fs_heap s)) as [h p] eqn:Hk.
  pose proof (kmalloc_laws sizeof_linkinfo (fs_heap s) h p Ho ltac:(unfold sizeof_linkinfo; lia) Hk) as [_ Hc].
  assert (Ea : lxafs_alloc_linkinfo garbage (drv s)
    = Ok (if p =? 0 then None else Some (mk_link p (garbage p)), mk_driver (daemon (drv s)) h)).
  { unfold lxafs_alloc_linkinfo, drv_kmalloc. rewrite M_bind_unfold. unfold fs_heap in Hk. by rewrite Hk. }
  erewrite on_drv_bind by exact Ea.
  destruct (Z.eqb_spec p 0) as [->|Hp].
  - destruct Hc as [[_ Hu]|[? _]]; [|lia]. cbn. eexists. split; [reflexivity|]. cbn.
    split_and!; [done|exact Hu|lia].
  - destruct (kfree_kmalloc sizeof_linkinfo (fs_heap s) h p Ho ltac:(unfold sizeof_linkinfo; lia) Hk Hp) as [_ Hu].
    cbn [l_node]. fold (copied_name link). unfold lxafs_add_linkinfo. cbn [l_name].
    assert (existsb (fun l => same_name (l_name l) (copied_name link)) (in_links i) = true) as ->.
    { apply existsb_exists. apply Exists_exists in Hex as (x & Hx & Hs). exists x.
      split; [by apply list_elem_of_In|]. by rewrite same_name_copy. }
    cbn. eexists. split; [reflexivity|]. cbn. split_and!; [done|exact Hu|lia].
Qed.
End AttachDetach.

(** ** The daemon's name of an attribute *)

Lemma itoa_digits fuel n : forall k, 0 <= n < 10 ^ Z.of_nat fuel -> (0 < fuel <= k)%nat ->
  digits fuel n = digits_text small_digits 10 k n.
Proof.
  revert n. induction fuel as [|fuel IH]; intros n [|k] Hn Hk; try lia.
  rewrite Nat2Z.inj_succ, Z.pow_succ_r in Hn by lia.
  cbn [digits digits_text].
  destruct (Z.ltb_spec n 10); [by rewrite small_digit by lia|]. destruct fuel; [cbn in Hn; lia|].
  by rewrite (IH (n / 10) k), small_digit by lia.
Qed.

(** The kernel names the attribute of a link with sprintf, the daemon with a
    function of its own; both print the same name. *)
Theorem attribute_names_agree strs z :
  0 <= z < 2147483648 ->
  simple_d_sprintf LXEAN_LINKEDBY z = linkedby z /\ formatted strs LXEAN_LINKEDBY [z] (linkedby z).
Proof.
  intros Hz. split.
  - unfold linkedby, simple_d_sprintf, LXEAN_LINKEDBY, itoa10. rewrite dec_split by lia.
    destruct (Z.ltb_spec z 0); [lia|]. cbn [simple_d_sprintf_loop app].
    unfold udec. rewrite app_nil_r. by rewrite (itoa_digits 11 z 64) by (try lia; cbn; lia).
  - unfold linkedby, LXEAN_LINKEDBY. cbn [app].
    do 6 (apply formatted_char; [done|]). rewrite <- (app_nil_r (dec z)).
    eapply (formatted_conversion _ _ _ _ 100 []); [by vm_compute| |constructor].
    unfold conversion. cbn -[number_text]. change (flag (Z.lor 0 SIGN) SIGN) with true.
    cbn match. by rewrite s32_small by lia.
Qed.

(** ** A file with two links *)

#[export] Instance ea_disk_Toolkit : Toolkit := {
  OPEN_CREATE_NEW := 16; OPEN_REPLACE := 2; OPEN_OR_CREATE := 17; MODE_WRITE := 33; MODE_MAINTENANCE := 18;
  FILEFINDBUF4_len := 300; fs4_date := fun _ _ => (mk_FDATE 1 1 0, mk_FTIME 0 0 0);
  fs4_set_date := fun _ _ b => b; fs4_cbFile := fun b => hd 0 b; ffb4_status := fun b => b; find_any := 22
}.

(** A call of the daemon's system; 2 without a daemon. *)
Definition on_os {W H A} (fail : A) (g : W -> A * W) : M (driver W H) A := fun s =>
  match daemon s with
  | None => Ok (fail, s)
  | Some d =>
      let '(a, w) := g (os d) in
      Ok (a, mk_driver (Some (mk_lxapid w (dataLen d) (DaemonCmd.pData d) (DaemonCmd.param d) (logfilename d))) (kheap s))
  end.

(** The security helpers on the same disk. *)
#[export] Instance ea_disk_SecFile {H} : SecFile (driver ea_disk H) := {
  SecHlpOpen := fun n action mode => on_os (ERROR_FILE_NOT_FOUND, 0) (fun w =>
    if (if decide (is_Some (files (base w) !! n)) then action =? 16 else action =? 2)
    then ((110, 0), w)
    else let r := DosOpen n (0, 0) 0 0 action mode w in ((r.1.1, r.1.2.1), r.2));
  SecHlpClose := fun h => on_os ERROR_FILE_NOT_FOUND (DosClose h);
  SecHlpWriteAt := fun h data off => on_os (ERROR_FILE_NOT_FOUND, 0) (fun w =>
    match handles_open (base w) !! h with
    | Some (n, _) =>
        let l := default [] (files (base w) !! n) in
        ((0, Z.of_nat (length data)),
         mk_ea_disk (set_files (<[n := splice (Z.to_nat off) data l]> (files (base w))) (base w)) (attrs w))
    | None => ((ERROR_INVALID_HANDLE, 0), w)
    end);
  SecHlpReadAt := fun h buf cb off => on_os (ERROR_FILE_NOT_FOUND, buf, 0) (fun w =>
    match handles_open (base w) !! h with
    | Some (n, _) =>
        let got := take (Z.to_nat cb) (drop (Z.to_nat off) (default [] (files (base w) !! n))) in
        ((0, got ++ drop (length got) buf, Z.of_nat (length got)), w)
    | None => ((ERROR_INVALID_HANDLE, buf, 0), w)
    end);
  SecHlpQFileSize := fun h => on_os (ERROR_FILE_NOT_FOUND, 0) (fun w =>
    match handles_open (base w) !! h with
    | Some (n, _) => ((0, Z.of_nat (length (default [] (files (base w) !! n)))), w)
    | None => ((ERROR_INVALID_HANDLE, 0), w)
    end)
}.

(** The file "m", with the attribute "A". *)
Definition master : ea_disk :=
  mk_ea_disk (set_files {[ [109] := [1; 2; 3] ]} disk0) {[ [109] := {[ [65] := [66] ]} ]}.
Definition master_driver : driver ea_disk arena :=
  mk_driver (Some (mk_lxapid master 4096 65536 (mk_packet 0 4096 0 0 0 0) [])) (arena0 20).
Definition junk (p : Z) : list Z := [120; 0] ++ replicate 258 7.
Definition stack0 : getfileinfo :=
  mk_getfileinfo (replicate LX_MAXPATH 7) (replicate LX_MAXPATH 7) (replicate 28 7) 7 7 7 7 7 7 7 7.
(** Its inode, with the links "p" and "qq". *)
Definition master_inode : lxafs_inode_info :=
  mk_inode true [109] 0 [mk_link 16 (strncpy_field LX_MAXPATH [112]); mk_link 32 (strncpy_field LX_MAXPATH [113; 113])]
    LXAFS_DIRTY_LINKLIST 0 (mk_vfs 33279 1 0 0 0 0 0 3 512 (-1) FileOps) true.

Lemma master_store : store 15 ∅ [109] {[ [65] := [66] ]} master_driver.
Proof.
  split; [done|]. split; [|split; [done|]].
  - cbn. split; [lia|]. split; [lia|]. apply map_Forall_empty.
  - eexists. split; [reflexivity|]. cbn. split; [|done]. split; [lia|]. eexists. apply lookup_singleton_eq.
Qed.

Lemma short_witness v : forallb (fun c => negb (c =? 0)) v && (length v <? LX_MAXPATH)%nat = true -> short v.
Proof.
  intros [H1 H2]%andb_true_iff. split; [|by apply Nat.ltb_lt].
  apply Forall_forall. rewrite forallb_forall in H1. intros c Hc E. apply list_elem_of_In in Hc.
  specialize (H1 c Hc). subst c. done.
Qed.

Lemma links_roundtrip_witness :
  exists s1 fi s2 s3 E',
    lxafs_rewrite_linklist 9 junk master_inode master_driver = Ok (0, s1) /\
    lxafs_get_fullfileinfo 9 junk stack0 [109] s1 = Ok (Some fi, s2) /\
    l_name <$> fi_links fi = fields [[112]; [113; 113]] /\
    lxafs_free_fileinfo (fi_node fi) (fi_links fi) s2 = Ok (tt, s3) /\
    store 5 ∅ [109] E' s3 /\ forall a, foreign a -> E' !! a = ({[ [65] := [66] ]} : eas) !! a.
Proof.
  refine (links_roundtrip 9 junk stack0 _ _ _ [[112]; [113; 113]] master_inode {[ [65] := [66] ]} ∅ 5
    master_driver _ _ _ _ _ _ _ _ _).
  - intros p. reflexivity.
  - reflexivity.
  - cbn. lia.
  - reflexivity.
  - reflexivity.
  - by apply short_witness.
  - reflexivity.
  - repeat constructor; try done; by apply short_witness.
  - cbn [length]. lia.
  - apply map_Forall_singleton. by apply short_witness.
  - intros v. rewrite lookup_singleton_ne by done. done.
  - exact master_store.
Defined.

Lemma fileinfo_balanced_witness :
  let r := lxafs_get_fullfileinfo 9 junk stack0 [109] master_driver in
  match r with
  | Ok (Some fi, s') => forall u s2, lxafs_free_fileinfo (fi_node fi) (fi_links fi) s' = Ok (u, s2) ->
                          used (kheap s2) = used (kheap master_driver)
  | _ => False
  end.
Proof.
  cbn zeta. destruct (lxafs_get_fullfileinfo 9 junk stack0 [109] master_driver) as [[[fi|] s']|e] eqn:E.
  - refine (fileinfo_balanced 9 junk stack0 _ [109] master_driver s' (Some fi) I E). cbn. lia.
  - exfalso. vm_compute in E. discriminate E.
  - exfalso. vm_compute in E. discriminate E.
Defined.

(** The inode is found as number 7. *)
Definition demo_lookup (n : list Z) : Z * option Z := (0, Some 7).
Definition demo_fs : lxafs ea_disk arena := mk_lxafs master_driver {[ 7 := master_inode ]} 0.

Lemma attach_detach_witness :
  exists s1 s2 i1,
    lxafs_attach_linked_file junk demo_lookup [109] [114; 0] demo_fs = Ok (0, s1) /\
    inodes s1 !! 7 = Some i1 /\ (l_name <$> in_links i1) = copied_name [114; 0] :: (l_name <$> in_links master_inode) /\
    path_refs s1 = 0 /\
    lxafs_detach_linked_file demo_lookup [109] [114; 0] s1 = Ok (0, s2) /\
    inodes s2 = <[7 := lxafs_mark_inode_dirty LXAFS_DIRTY_LINKLIST master_inode]> {[ 7 := master_inode ]} /\
    used (fs_heap s2) = used (fs_heap demo_fs) /\ path_refs s2 = 0 + 1.
Proof.
  apply (attach_detach junk demo_lookup [109] [114; 0] 7 master_inode demo_fs).
  - reflexivity.
  - apply lookup_singleton_eq.
  - reflexivity.
  - repeat constructor; reflexivity.
  - exact I.
  - vm_compute. discriminate.
Defined.

(** A count of one without the attribute of the link: the name of the link is
    what the new node held before. *)
Example missing_link_is_garbage :
  (fun fi => before_nul ∘ l_name <$> fi_links fi) <$>
    (o ← eval (lxafs_get_fullfileinfo 9 junk stack0 [109])
       (mk_driver (Some (mk_lxapid (set_attrs [109] {[ LXEAN_LINKBYCOUNT := [49] ]} master) 4096 65536
                           (mk_packet 0 4096 0 0 0 0) [])) (arena0 20)); o)
  = Some [[120]].
Proof. vm_compute. reflexivity. Qed.

(** When the memory is used up, the attributes are not written and the links
    are lost, but the code is 0. *)
Example links_lost_without_memory :
  match lxafs_rewrite_linklist 9 junk master_inode
          (mk_driver (daemon master_driver) (arena0 1)) with
  | Ok (rc, s) => Some (rc, (fun d => map_to_list (attrs_of (os d) [109])) <$> daemon s)
  | Err _ => None
  end = Some (0, Some [([65], [66])]).
Proof. vm_compute. reflexivity. Qed.

(** The file of a link tells where its master is. *)
Example link_file_written :
  match lxafs_write_linkchild_info 9 [109] [47; 97] master_driver with
  | Ok (rc, s) => Some (rc, (fun d => (take 9 <$> files (base (os d)) !! [109], attrs_of (os d) [109] !! LXEAN_LINKEDTO))
                               <$> daemon s)
  | Err _ => None
  end = Some (0, Some (Some [35; 32; 84; 104; 105; 115; 32; 105; 115], Some [47; 97])).
Proof. vm_compute. reflexivity. Qed.
