(* ===== verification/LxafsInode.v ===== *)
(** * Inodes of LXAFS (os2/os2/fs/lxafs: oofl_io.c, oofl_inode.c, iof_truncate of
    oofl_file.c, lxafs_add_link_childs of oofl_dir.c)

    An inode is filled from the information the daemon has of its file and is
    written back to it: size and dates with the calls for an open file, mode,
    owner and group as attributes, and the list of links. *)

From S2P Require Import Prelude CString DevHlp Memory Heap VSprintf TextParse.
From S2P Require Import DaemonQueue DosApi DaemonCmd DosCalls EaStore LxafsDate LxafsLinks.

Definition ATTR_MODE : Z := 1.
Definition ATTR_UID : Z := 2.
Definition ATTR_GID : Z := 4.
Definition ATTR_SIZE : Z := 8.
Definition ATTR_ATIME : Z := 16.
Definition ATTR_MTIME : Z := 32.
Definition ATTR_CTIME : Z := 64.
Definition ATTR_ATIME_SET : Z := 128.
Definition ATTR_MTIME_SET : Z := 256.
Definition ATTR_TIMES : Z := 496.

Definition S_IRWXUGO : Z := 511.
Definition S_IXUGO : Z := 73.
Definition S_IFDIR : Z := 16384.
Definition S_IFREG : Z := 32768.
Definition S_IFMT : Z := 61440.
Definition S_ISDIR (m : Z) : bool := Z.land m S_IFMT =? S_IFDIR.
Definition S_ISREG (m : Z) : bool := Z.land m S_IFMT =? S_IFREG.

Definition has (flags mask : Z) : bool := negb (Z.land flags mask =? 0).

Section Init.
Context {W : Type} `{EahApi W} `{Toolkit}.
Context (tz_minuteswest : Z).

Definition file_time (n : nat) (fi : getfileinfo) : Z :=
  let d := fs4_date n (gf_fs4 fi) in lxafs_date_lx2unix tz_minuteswest d.1 d.2.

Definition lxafs_init_inode_type (fi : getfileinfo) (v : vfs_inode) : vfs_inode :=
  let dir := is_dir (fs4_attrFile (gf_fs4 fi)) in
  let mode := Z.lor S_IRWXUGO (if dir then S_IFDIR else S_IFREG) in
  let nlink := if dir then u32 (num_subdirs fi) else 1 in
  let mode := if has (gf_flags fi) 1 then u16 (gf_mode fi) else Z.lor mode S_IXUGO in
  let uid := if has (gf_flags fi) 2 then u32 (gf_uid fi) else i_uid v in
  let gid := if has (gf_flags fi) 4 then u32 (gf_gid fi) else i_gid v in
  mk_vfs mode nlink uid gid (file_time 0 fi) (file_time 2 fi) (file_time 1 fi)
    (fs4_cbFile (gf_fs4 fi)) (i_blksize v) (i_blocks v) (i_op v).

Definition lxafs_init_inode (v : vfs_inode) (fi : option getfileinfo) : vfs_inode * Z :=
  let v := mk_vfs (i_mode v) (i_nlink v) (i_uid v) (i_gid v) 0 0 0 (-1) 512 (-1) (i_op v) in
  match fi with
  | None => (v, - ENOENT)
  | Some fi =>
      let v := lxafs_init_inode_type fi v in
      (if S_ISDIR (i_mode v)
       then mk_vfs (i_mode v) (i_nlink v) (i_uid v) (i_gid v) (i_ctime v) (i_mtime v) (i_atime v) (i_size v)
              (i_blksize v) (i_blocks v) DirOps
       else mk_vfs (i_mode v) 1 (i_uid v) (i_gid v) (i_ctime v) (i_mtime v) (i_atime v) (i_size v)
              (i_blksize v) (i_blocks v) FileOps, 0)
  end.
End Init.

Section Inode.
Context {W : Type} {H : Type} `{DosApi W} `{EahApi W} `{Heap H} `{SecFile (driver W H)} `{Toolkit}.
Context (walk : nat) (garbage : Z -> list Z) (tz_minuteswest : Z).
(** What variables on the stack hold before they are set. *)
Context (stack : getfileinfo) (stack_bytes : nat -> list Z).
Abbreviation Drv := (M (driver W H)).

(** The code is never set. *)
Definition lxafs_do_read_inode (i : lxafs_inode_info) (fullname : list Z) : Drv lxafs_inode_info :=
  fi ← lxafs_get_fullfileinfo walk garbage stack fullname;
  match fi with
  | Some fi =>
      lxafs_free_fileinfo (fi_node fi) (fi_links fi) ≫= fun _ =>
      mret (set_vfs (lxafs_init_inode tz_minuteswest (vfs i) (Some (fi_info fi))).1 i)
  | None => mret i
  end.

(** Code and handle; the handle is not set after a failure. *)
Definition lxafs_open_inode_for_maintenance (i : lxafs_inode_info) (hf : Z) : Drv (Z * Z) :=
  if in_lxafs i then
    r ← LX_DOSOPEN walk (in_name i) hf 0 (u32 (i_size (vfs i))) FILE_NORMAL OPEN_OR_CREATE MODE_MAINTENANCE;
    mret (if r.1.1 =? 0 then 0 else - EPERM, r.1.2)
  else mret (- ENOENT, hf).

(** Code and buffer. *)
Definition lxafs_get_fileinfo (name buf : list Z) (ulInfoLevel : Z) : Drv (Z * list Z) :=
  r ← LX_DOSQUERYPATHINFO walk name ulInfoLevel buf FILESTATUS4_len;
  if (r.1 =? 2) || (r.1 =? 3) then mret (- ENOENT, r.2)
  else if r.1 =? 0 then mret (0, r.2)
  else
    f ← LX_DOSFINDFIRST walk name HDIR_CREATE find_any (stack_bytes FILEFINDBUF4_len) FILEFINDBUF4_len 1 ulInfoLevel;
    let '(rc, hDir, fb, cFileNames) := f in
    if rc =? 0 then
      _ ← LX_DOSFINDCLOSE walk hDir;
      if cFileNames =? 0 then mret (- ENOENT, r.2)
      else mret (0, take FILESTATUS4_len (ffb4_status fb) ++ drop FILESTATUS4_len r.2)
    else mret (- ENOENT, r.2).

Definition lxafs_file_exists (fname : list Z) : Drv bool :=
  r ← lxafs_get_fileinfo fname (stack_bytes FILESTATUS4_len) FIL_QUERYEASIZE; mret (r.1 =? 0).

(** The links of [fi] that still exist are moved to the inode. *)
Fixpoint add_childs (links : list lxafs_linkinfo) (i : lxafs_inode_info) : Drv lxafs_inode_info :=
  match links with
  | [] => mret i
  | l :: links =>
      n ← get_str (l_name l);
      e ← lxafs_file_exists n;
      let r := if e : bool then lxafs_add_linkinfo l true i else (i, - EBUSY) in
      (if r.2 =? 0 then mret tt else drv_kfree (l_node l)) ≫= fun _ => add_childs links r.1
  end.

Definition lxafs_add_link_childs (links : list lxafs_linkinfo) (i : lxafs_inode_info) : Drv lxafs_inode_info :=
  i ← add_childs links i; mret (lxafs_mark_inode_dirty LXAFS_DIRTY_LINKLIST i).

Definition lxafs_write_ea (eaname : list Z) (value : Z) (i : lxafs_inode_info) : Drv unit :=
  let val := dec (s32 value) in
  _ ← LX_EAWRITESTRING walk (in_name i) eaname val (length val + 1); mret tt.

Definition write_attr (flag : Z) (eaname : list Z) (value : Z) (i : lxafs_inode_info) : Drv lxafs_inode_info :=
  if has (ia_valid i) flag then
    lxafs_write_ea eaname value i ≫= fun _ => mret (set_valid (Z.land (ia_valid i) (Z.lnot flag)) i)
  else mret i.

(** The dates of the file that are to be set. *)
Definition new_dates (i : lxafs_inode_info) (fs : list Z) : list Z :=
  let v := vfs i in
  let fs := if has (ia_valid i) (ATTR_ATIME + ATTR_ATIME_SET)
            then fs4_set_date 1 (lxafs_date_unix2lx tz_minuteswest (i_atime v)) fs else fs in
  let fs := if has (ia_valid i) (ATTR_MTIME + ATTR_MTIME_SET)
            then fs4_set_date 2 (lxafs_date_unix2lx tz_minuteswest (i_mtime v)) fs else fs in
  if has (ia_valid i) ATTR_CTIME
  then fs4_set_date 0 (lxafs_date_unix2lx tz_minuteswest (i_ctime v)) fs else fs.

Definition write_size (hFile : Z) (i : lxafs_inode_info) : Drv lxafs_inode_info :=
  if has (ia_valid i) ATTR_SIZE then
    rc ← LX_DOSSETFILESIZE walk hFile (u32 (i_size (vfs i)));
    mret (if rc =? 0 then set_valid (Z.land (ia_valid i) (Z.lnot ATTR_SIZE)) i else i)
  else mret i.

Definition write_dates (hFile : Z) (i : lxafs_inode_info) : Drv lxafs_inode_info :=
  if has (ia_valid i) ATTR_TIMES then
    r ← LX_DOSQUERYFILEINFO walk hFile FIL_STANDARD (stack_bytes FILESTATUS4_len) FILESTATUS3_len;
    rc ← (if r.1 =? 0 then LX_DOSSETFILEINFO walk hFile FIL_STANDARD (new_dates i r.2) FILESTATUS3_len
          else mret r.1);
    mret (if rc =? 0 then set_valid (Z.land (ia_valid i) (Z.lnot ATTR_TIMES)) i else i)
  else mret i.

(** The code of the open is unsigned and never negative, so the handle is
    used even when the open failed and did not set it. *)
Definition lxafs_write_inode (i : lxafs_inode_info) : Drv lxafs_inode_info :=
  if negb (S_ISREG (i_mode (vfs i))) then mret i else
  i ← (if has (dirty_flag i) (LXAFS_DIRTY_LINKLIST + LXAFS_DIRTY_LINKCHILDS) then
         _ ← lxafs_rewrite_linklist walk garbage i;
         mret (set_dirty (Z.land (dirty_flag i) (Z.lnot (LXAFS_DIRTY_LINKLIST + LXAFS_DIRTY_LINKCHILDS)))
                 (i_state_dirty i) i)
       else mret i);
  if has (ia_valid i) (ATTR_SIZE + ATTR_TIMES) then
    r ← lxafs_open_inode_for_maintenance i 0;
    if negb (r.1 =? 0) then throw UninitRead else
    let hFile := r.2 in
    i ← write_size hFile i;
    i ← write_dates hFile i;
    _ ← LX_DOSCLOSE walk hFile;
    i ← write_attr ATTR_MODE LXEAN_MODE (i_mode (vfs i)) i;
    i ← write_attr ATTR_UID LXEAN_UID (i_uid (vfs i)) i;
    write_attr ATTR_GID LXEAN_GID (i_gid (vfs i)) i
  else mret i.

(** Here the handle is 0 after a failed open. *)
Definition iof_truncate (i : lxafs_inode_info) : Drv lxafs_inode_info :=
  r ← lxafs_open_inode_for_maintenance i 0;
  rc ← LX_DOSSETFILESIZE walk r.2 (u32 (i_size (vfs i)));
  _ ← LX_DOSCLOSE walk r.2;
  mret (if rc =? 0 then set_valid (Z.land (ia_valid i) (Z.lnot ATTR_SIZE)) i
        else set_dirty (dirty_flag i) true i).
End Inode.

(** ** What the calls for an open file promise *)

Class InodeLaws (W : Type) `{EahLaws W} `{Toolkit} := {
  maint_open w f cb :
    ea_file w f -> exists h act w', DosOpen f (0, 0) cb FILE_NORMAL OPEN_OR_CREATE MODE_MAINTENANCE w = (0, (h, act), w') /\
      ea_handle w' h f /\ ea_file w' f /\ ea_of w' f = ea_of w f;
  size_keeps w h f cb :
    ea_handle w h f -> ea_file w f -> let w' := (DosSetFileSize h cb w).2 in
    ea_handle w' h f /\ ea_file w' f /\ ea_of w' f = ea_of w f;
  query_keeps w h f b cb :
    ea_handle w h f -> ea_file w f -> let r := DosQueryFileInfo h FIL_STANDARD b cb w in
    length r.1.2 = length b /\ ea_handle r.2 h f /\ ea_file r.2 f /\ ea_of r.2 f = ea_of w f;
  info_keeps w h f b cb :
    ea_handle w h f -> ea_file w f -> let w' := (DosSetFileInfo h FIL_STANDARD b cb w).2 in
    ea_handle w' h f /\ ea_file w' f /\ ea_of w' f = ea_of w f;
  set_date_length n d b : length (fs4_set_date n d b) = length b;
  status_sizes : (FILESTATUS3_len <= FILESTATUS4_len)%nat
}.

Section WriteInode.
Context {W : Type} {H : Type} `{InodeLaws W} `{HeapLaws H} `{!HeapRoom H} `{!SecFile (driver W H)}.
Context (walk : nat) (garbage : Z -> list Z) (tz : Z) (stack : getfileinfo) (stack_bytes : nat -> list Z).
Context (garbage_len : forall p, length (garbage p) = LX_MAXPATH).
Context (stack_len : length (gf_fs4 stack) = FILESTATUS4_len).
Context (bytes_len : forall n, length (stack_bytes n) = n).
Context (fs4_small : (FILESTATUS4_len < 1000)%nat).

(** The file is open as [h]. *)
Definition opened (n : nat) (U : gmap Z Z) (f : list Z) (E : eas) (h : Z) (s : driver W H) : Prop :=
  heap_ok (kheap s) /\ rooms n (kheap s) /\ used (kheap s) = U /\
  exists d, daemon s = Some d /\ ea_file (os d) f /\ ea_of (os d) f = E /\ ea_handle (os d) h f.

(** A call for the open file that keeps its attributes. *)
Lemma opened_dmn n U f E h cmd p (r : W -> Z * payload) g (s : driver W H) :
  (forall w, handler_does walk cmd p w ((r w).1, (r w).2, g w)) ->
  (forall w, ea_handle w h f -> ea_file w f -> ea_handle (g w) h f /\ ea_file (g w) f /\ ea_of (g w) f = ea_of w f) ->
  opened n U f E h s ->
  yields (dmn walk cmd p) s (fun x s' => opened n U f E h s' /\ exists w, ea_handle w h f /\ ea_file w f /\ x = r w).
Proof.
  intros Hh Hk (Ho & Hr & Hu & d & Hd & Hf & HE & He).
  destruct (dmn_runs walk _ _ _ _ _ _ _ Hd (Hh (os d))) as (d' & Ed & Hod).
  eexists _, _. split; [exact Ed|]. destruct (Hk (os d) He Hf) as (K1 & K2 & K3). split.
  - split; [done|]. split; [done|]. split; [done|]. exists d'. rewrite Hod, K3. done.
  - exists (os d). split; [done|]. split; [done|]. by destruct (r (os d)).
Qed.

Lemma maintenance_yields n U (i : lxafs_inode_info) E (s : driver W H) :
  in_lxafs i = true -> short (in_name i) -> store n U (in_name i) E s ->
  yields (lxafs_open_inode_for_maintenance walk i 0) s (fun r s' => r.1 = 0 /\ opened n U (in_name i) E r.2 s').
Proof.
  intros Hi [Hc Hl] (Ho & Hr & Hu & d & Hd & Hf & HE). unfold lxafs_open_inode_for_maintenance. rewrite Hi.
  destruct (maint_open (os d) (in_name i) (u32 (i_size (vfs i))) Hf) as (h & act & w' & Eo & He & Hf' & HE').
  pose proof (open_handler walk (in_name i) (u32 (i_size (vfs i))) FILE_NORMAL OPEN_OR_CREATE MODE_MAINTENANCE
    (os d) Hc Hl) as Hh. rewrite Eo in Hh.
  destruct (dmn_runs walk _ _ _ _ _ _ _ Hd Hh) as (d' & Ed & Hod).
  eapply yields_bind.
  - unfold LX_DOSOPEN. eexists _, _. split; [mrun Ed; reflexivity|]. instantiate (1 := fun r s' => r.1.1 = 0 /\
      opened n U (in_name i) E r.1.2 s'). cbn. split; [done|]. split; [done|]. split; [done|]. split; [done|].
    exists d'. rewrite Hod, HE'. done.
  - intros [[rc h'] act'] s1 [Hrc Hop]. cbn in Hrc, Hop. subst rc. by apply yields_ret.
Qed.

Lemma setfilesize_handler h cb (w : W) :
  handler_does walk 272 (P_FILESIZE h cb) w ((DosSetFileSize h cb w).1, P_FILESIZE h cb, (DosSetFileSize h cb w).2).
Proof. handler @CMD_DosSetFileSize. Qed.

Lemma queryinfo_handler h level b cb (w : W) :
  handler_does walk 279 (P_FILEINFO h level b cb) w
    ((DosQueryFileInfo h level b cb w).1.1, P_FILEINFO h level (DosQueryFileInfo h level b cb w).1.2 cb,
     (DosQueryFileInfo h level b cb w).2).
Proof. destruct (DosQueryFileInfo h level b cb w) as [[rc b'] w'] eqn:E. handler @CMD_DosQueryFileInfo. Qed.

Lemma setinfo_handler h level b cb (w : W) :
  handler_does walk 83 (P_FILEINFO h level b cb) w
    ((DosSetFileInfo h level b cb w).1, P_FILEINFO h level b cb, (DosSetFileInfo h level b cb w).2).
Proof. handler @CMD_DosSetFileInfo. Qed.

(** A computation that keeps the file open and its attributes, and of the
    inode everything but some flags of [ia_valid]. *)
Definition flags_only (mask : Z) (i i' : lxafs_inode_info) : Prop :=
  exists v, i' = set_valid v i /\ forall k, Z.testbit mask k = false -> Z.testbit v k = Z.testbit (ia_valid i) k.

Lemma clear_flags mask i : flags_only mask i (set_valid (Z.land (ia_valid i) (Z.lnot mask)) i).
Proof.
  eexists. split; [done|]. intros k Hk. destruct (Z.ltb_spec k 0); [by rewrite !Z.testbit_neg_r|].
  by rewrite Z.land_spec, Z.lnot_spec, Hk, andb_true_r by done.
Qed.

Lemma keep_flags mask i : flags_only mask i i.
Proof. exists (ia_valid i). split; [by destruct i|done]. Qed.

Lemma setfilesize_yields n U f E h cb (s : driver W H) :
  opened n U f E h s -> yields (LX_DOSSETFILESIZE walk h cb) s (fun _ s' => opened n U f E h s').
Proof.
  intros Hop. unfold LX_DOSSETFILESIZE. eapply yields_bind.
  - refine (opened_dmn n U f E h 272 _ _ _ s (fun w => setfilesize_handler h _ w) _ Hop).
    intros w Hh Hf. exact (size_keeps w h f _ Hh Hf).
  - intros r s1 [Hop1 _]. by apply yields_ret.
Qed.

Lemma copied n (src dst : list Z) (s : driver W H) :
  (n <= length src)%nat -> (n <= length dst)%nat ->
  exists l, copy_n n src dst s = Ok (l, s) /\ length l = length dst.
Proof.
  intros Hs Hd. rewrite copy_n_ok by lia. eexists. split; [done|]. rewrite Nat2Z.id.
  rewrite length_app, length_take, length_drop. lia.
Qed.

Lemma queryfileinfo_yields n U f E h buf (s : driver W H) :
  length buf = FILESTATUS4_len -> opened n U f E h s ->
  yields (LX_DOSQUERYFILEINFO walk h FIL_STANDARD buf FILESTATUS3_len) s
    (fun r s' => length r.2 = FILESTATUS4_len /\ opened n U f E h s').
Proof.
  intros Lb Hop. unfold LX_DOSQUERYFILEINFO. pose proof status_sizes as Hsz. eapply yields_bind.
  - refine (opened_dmn n U f E h 279 _ (fun w => (_, _)) _ s (fun w => queryinfo_handler h _ _ _ w) _ Hop).
    intros w Hh Hf. exact (proj2 (query_keeps w h f _ _ Hh Hf)).
  - intros r s1 [Hop1 (w & Hh & Hf & ->)]. cbn [fst snd].
    pose proof (proj1 (query_keeps w h f (replicate FILESTATUS4_len 0) FILESTATUS3_len Hh Hf)) as Hl.
    rewrite length_replicate in Hl.
    destruct (_ =? 0); [|by apply yields_ret].
    destruct (copied FILESTATUS3_len (DosQueryFileInfo h FIL_STANDARD (replicate FILESTATUS4_len 0) FILESTATUS3_len w).1.2
      buf s1) as (l & El & Hl2); [lia|lia|].
    eexists _, _. split; [mrun El; reflexivity|]. cbn. split; [lia|done].
Qed.

Lemma setfileinfo_yields n U f E h buf (s : driver W H) :
  length buf = FILESTATUS4_len -> opened n U f E h s ->
  yields (LX_DOSSETFILEINFO walk h FIL_STANDARD buf FILESTATUS3_len) s (fun _ s' => opened n U f E h s').
Proof.
  intros Lb Hop. unfold LX_DOSSETFILEINFO. pose proof status_sizes as Hsz.
  destruct (copied FILESTATUS3_len buf (replicate FILESTATUS4_len 0) s) as (l & El & _);
    [lia|rewrite length_replicate; lia|].
  eapply (yields_bind _ _ _ (fun _ s' => s' = s)); [by eexists _, _|]. intros l' s0 ->. eapply yields_bind.
  - refine (opened_dmn n U f E h 83 _ (fun w => (_, _)) _ s (fun w => setinfo_handler h _ _ _ w) _ Hop).
    intros w Hh Hf. exact (info_keeps w h f _ _ Hh Hf).
  - intros r s1 [Hop1 _]. by apply yields_ret.
Qed.

Lemma write_size_yields n U f E h i (s : driver W H) :
  opened n U f E h s ->
  yields (write_size walk h i) s (fun i' s' => flags_only ATTR_SIZE i i' /\ opened n U f E h s').
Proof.
  intros Hop. unfold write_size. destruct (has (ia_valid i) ATTR_SIZE); [|apply yields_ret; auto using keep_flags].
  eapply yields_bind; [by apply setfilesize_yields|]. intros rc s1 Hop1. apply yields_ret. split; [|done].
  destruct (rc =? 0); auto using keep_flags, clear_flags.
Qed.

Lemma new_dates_length i fs : length (new_dates tz i fs) = length fs.
Proof. unfold new_dates. repeat case_match; by rewrite ?set_date_length. Qed.

Lemma write_dates_yields n U f E h i (s : driver W H) :
  opened n U f E h s ->
  yields (write_dates walk tz stack_bytes h i) s (fun i' s' => flags_only ATTR_TIMES i i' /\ opened n U f E h s').
Proof.
  intros Hop. unfold write_dates. destruct (has (ia_valid i) ATTR_TIMES); [|apply yields_ret; auto using keep_flags].
  eapply yields_bind; [by apply queryfileinfo_yields|]. intros r s1 [Hl Hop1].
  eapply (yields_bind _ _ _ (fun _ s' => opened n U f E h s')).
  - destruct (r.1 =? 0); [|by apply yields_ret]. apply setfileinfo_yields; [|done]. by rewrite new_dates_length.
  - intros rc s2 Hop2. apply yields_ret. split; [|done]. destruct (rc =? 0); auto using keep_flags, clear_flags.
Qed.

Lemma close_yields n U f E h (s : driver W H) :
  opened n U f E h s -> yields (LX_DOSCLOSE walk h) s (fun _ s' => store n U f E s').
Proof.
  intros (Ho & Hr & Hu & d & Hd & Hf & HE & He). destruct (ea_close (os d) h f He Hf) as (rc & w' & Ec & Hf' & HE').
  pose proof (close_handler walk h (os d)) as Hh. rewrite Ec in Hh.
  destruct (call_runs walk 257 1 _ _ _ _ _ _ Hd Hh) as (a & d' & Ea & Hod).
  unfold LX_DOSCLOSE. assert (Hx : exists v, rc_of (Some 0) a (mk_driver (Some d') (kheap s)) = Ok (v, mk_driver (Some d') (kheap s))).
  { destruct a; by eexists. }
  destruct Hx as (v & Hv). eexists _, _. split; [rewrite M_bind_unfold, Ea; exact Hv|].
  split; [done|]. split; [done|]. split; [done|]. exists d'. split; [done|].
  cbn [snd] in Hod. rewrite Hod. split; [done|]. by rewrite HE'.
Qed.

Lemma has_flag k v : 0 <= k -> has v (2 ^ k) = Z.testbit v k.
Proof.
  intros Hk. unfold has. destruct (Z.testbit v k) eqn:E.
  - destruct (Z.eqb_spec (Z.land v (2 ^ k)) 0) as [E0|]; [|done].
    assert (Ht : Z.testbit (Z.land v (2 ^ k)) k = true) by (by rewrite Z.land_spec, E, Z.pow2_bits_true).
    by rewrite E0, Z.bits_0 in Ht.
  - assert (Z.land v (2 ^ k) = 0) as ->; [|done]. apply Z.bits_inj'. intros j Hj.
    rewrite Z.land_spec, Z.bits_0. destruct (decide (j = k)) as [->|]; [by rewrite E|].
    rewrite Z.pow2_bits_false by done. apply andb_false_r.
Qed.

Lemma write_attr_yields n U E k ea v i (s : driver W H) :
  short ea -> ea <> [] -> short (in_name i) -> 0 <= k -> Z.testbit (ia_valid i) k = true ->
  store (S n) U (in_name i) E s ->
  yields (write_attr walk (2 ^ k) ea v i) s (fun i' s' =>
    i' = set_valid (Z.land (ia_valid i) (Z.lnot (2 ^ k))) i /\ store n U (in_name i) (<[ea := dec (s32 v)]> E) s').
Proof.
  intros Ha Na Hf Hk Hb Hst. unfold write_attr. rewrite has_flag, Hb by done. unfold lxafs_write_ea.
  destruct (dec_short (s32 v) (s32_range v)) as [Hc Hl].
  eapply (yields_bind _ _ _ (fun _ s' => store n U (in_name i) (<[ea := dec (s32 v)]> E) s')).
  - eapply yields_bind.
    + refine (ea_write_yields walk n U (in_name i) ea (dec (s32 v)) E s Hf Ha Hc Na _ _ Hst);
        [apply dec_not_nil, s32_range|lia].
    + intros ? s1 Hst1. by apply yields_ret.
  - intros ? s1 Hst1. by apply yields_ret.
Qed.

Lemma attr_names_short : short LXEAN_MODE /\ short LXEAN_UID /\ short LXEAN_GID.
Proof. split_and!; (split; [repeat constructor; lia|unfold LX_MAXPATH; cbn; lia]). Qed.

(** The attributes after an inode was written. *)
Definition written (i : lxafs_inode_info) (E : eas) : eas :=
  <[LXEAN_GID := dec (s32 (i_gid (vfs i)))]> (<[LXEAN_UID := dec (s32 (i_uid (vfs i)))]>
    (<[LXEAN_MODE := dec (s32 (i_mode (vfs i)))]> E)).

Lemma write_inode_yields n U i E (s : driver W H) :
  in_lxafs i = true -> S_ISREG (i_mode (vfs i)) = true ->
  has (dirty_flag i) (LXAFS_DIRTY_LINKLIST + LXAFS_DIRTY_LINKCHILDS) = false ->
  has (ia_valid i) (ATTR_SIZE + ATTR_TIMES) = true ->
  has (ia_valid i) ATTR_MODE = true -> has (ia_valid i) ATTR_UID = true -> has (ia_valid i) ATTR_GID = true ->
  short (in_name i) -> store (3 + n) U (in_name i) E s ->
  yields (lxafs_write_inode walk garbage tz stack_bytes i) s (fun i' s' =>
    store n U (in_name i) (written i E) s' /\ exists v, i' = set_valid v i /\
      has v ATTR_MODE = false /\ has v ATTR_UID = false /\ has v ATTR_GID = false).
Proof.
  intros Hin Hreg Hd Hv Hm Hu Hg Hf Hst. unfold lxafs_write_inode. rewrite Hreg, Hd. cbn [negb].
  change ATTR_MODE with (2 ^ 0) in *. change ATTR_UID with (2 ^ 1) in *. change ATTR_GID with (2 ^ 2) in *.
  rewrite has_flag in Hm, Hu, Hg by done. destruct attr_names_short as (Sm & Su & Sg).
  eapply (yields_bind _ _ _ (fun i' s' => i' = i /\ s' = s)); [by apply yields_ret|]. intros i0 s0 [-> ->].
  rewrite Hv. eapply yields_bind; [by apply maintenance_yields|]. intros r s1 [Hr Hop]. rewrite Hr.
  change (negb (0 =? 0)) with false. cbn match.
  eapply yields_bind; [by apply write_size_yields|]. intros i2 s2 [(v2 & -> & Hv2) Hop2].
  eapply yields_bind; [by apply write_dates_yields|]. intros i3 s3 [(v3 & -> & Hv3) Hop3].
  cbn [set_valid ia_valid vfs in_name] in *.
  assert (Hbits : forall k, 0 <= k <= 2 -> Z.testbit v3 k = Z.testbit (ia_valid i) k).
  { intros k Hk. assert (Hc : k = 0 \/ k = 1 \/ k = 2) by lia. rewrite Hv3, Hv2; [done| |];
      by destruct Hc as [-> |[-> | ->]]. }
  eapply yields_bind; [by apply close_yields|]. intros ? s4 Hst4. cbn beta in Hst4.
  set (v4 := Z.land v3 (Z.lnot (2 ^ 0))). set (v5 := Z.land v4 (Z.lnot (2 ^ 1))).
  assert (B0 : Z.testbit v3 0 = true) by (by rewrite Hbits).
  assert (B1 : Z.testbit v4 1 = true) by (unfold v4; by rewrite Z.land_spec, Hbits, Hu by lia).
  assert (B2 : Z.testbit v5 2 = true) by (unfold v5, v4; by rewrite !Z.land_spec, Hbits, Hg by lia).
  eapply yields_bind.
  { refine (write_attr_yields (2 + n) U E 0 _ _ (set_valid v3 i) s4 Sm _ Hf _ B0 Hst4); done. }
  intros i5 s5 [-> Hst5]. eapply yields_bind.
  { refine (write_attr_yields (1 + n) U _ 1 _ _ (set_valid v4 i) s5 Su _ Hf _ B1 Hst5); done. }
  intros i6 s6 [-> Hst6]. eapply yields_weaken.
  { refine (write_attr_yields n U _ 2 _ _ (set_valid v5 i) s6 Sg _ Hf _ B2 Hst6); done. }
  intros i7 s7 [-> Hst7]. split; [exact Hst7|]. eexists. split; [reflexivity|].
  rewrite !has_flag by done. cbn [ia_valid set_valid]. unfold v5, v4. rewrite !Z.land_spec.
  change (Z.testbit (Z.lnot (2 ^ 0)) 0) with false. change (Z.testbit (Z.lnot (2 ^ 1)) 1) with false.
  change (Z.testbit (Z.lnot (2 ^ 2)) 2) with false. by rewrite ?andb_false_r.
Qed.

Lemma written_lists (i : lxafs_inode_info) (E : eas) (names : list (list Z)) : lists E names -> lists (written i E) names.
Proof.
  intros [Hc Hn]. unfold written. split; [by rewrite !lookup_insert_ne by done|].
  intros j m Hm. rewrite !lookup_insert_ne by done. by apply Hn.
Qed.

Lemma written_short (i : lxafs_inode_info) (E : eas) : short_eas E -> short_eas (written i E).
Proof.
  intros Hs. assert (Hd : forall z, short (dec (s32 z))).
  { intros z. destruct (dec_short (s32 z) (s32_range z)). split; [done|unfold LX_MAXPATH; lia]. }
  unfold written. repeat (apply map_Forall_insert_2; [done|]). done.
Qed.

Lemma init_written (i : lxafs_inode_info) (E : eas) v fi :
  0 <= i_mode (vfs i) < 65536 -> 0 <= i_uid (vfs i) < 4294967296 -> 0 <= i_gid (vfs i) < 4294967296 ->
  S_ISREG (i_mode (vfs i)) = true -> info_of (written i E) fi ->
  let v' := (lxafs_init_inode tz v (Some fi)).1 in
  i_mode v' = i_mode (vfs i) /\ i_uid v' = i_uid (vfs i) /\ i_gid v' = i_gid (vfs i) /\ i_nlink v' = 1 /\ i_op v' = FileOps.
Proof.
  intros Hm Hu Hg Hreg Hi. destruct Hi as [_ Im Iu Ig (m & u & g & Hf & _ & _ & _ & Fm & Fu & Fg) _].
  assert (Hn : forall a z, written i E !! a = Some (dec (s32 z)) -> ea_number (written i E) a = s32 z).
  { intros a z Ha. unfold ea_number. rewrite Ha. apply atoi_dec, s32_range. }
  assert (Lm : written i E !! LXEAN_MODE = Some (dec (s32 (i_mode (vfs i))))) by (unfold written; by rewrite !lookup_insert_ne, lookup_insert_eq by done).
  assert (Lu : written i E !! LXEAN_UID = Some (dec (s32 (i_uid (vfs i))))) by (unfold written; by rewrite !lookup_insert_ne, lookup_insert_eq by done).
  assert (Lg : written i E !! LXEAN_GID = Some (dec (s32 (i_gid (vfs i))))) by (unfold written; by rewrite lookup_insert_eq).
  rewrite (Hn _ _ Lm) in Im. rewrite (Hn _ _ Lu) in Iu. rewrite (Hn _ _ Lg) in Ig.
  rewrite (Fm ltac:(eauto)), (Fu ltac:(eauto)), (Fg ltac:(eauto)) in Hf.
  unfold lxafs_init_inode, lxafs_init_inode_type. rewrite Hf, Im, Iu, Ig.
  change (has (1 + 2 + 4) 1) with true. change (has (1 + 2 + 4) 2) with true. change (has (1 + 2 + 4) 4) with true.
  cbn [i_mode]. assert (Em : u16 (s32 (i_mode (vfs i))) = i_mode (vfs i)) by (unfold u16, s32; lia). rewrite Em.
  assert (Hd : S_ISDIR (i_mode (vfs i)) = false).
  { unfold S_ISREG, S_ISDIR in *. apply Z.eqb_eq in Hreg. by rewrite Hreg. }
  rewrite Hd. cbn. split; [done|]. split; [unfold u32, s32; lia|]. split; [unfold u32, s32; lia|done].
Qed.

(** C11: Mode, owner and group survive: after lxafs_write_inode has written
    them to the file's attributes, lxafs_do_read_inode of any inode for the
    file gives it the same ones, up to the highest user number, and makes it a
    regular file; the flags of the written fields are cleared and no memory is
    left over. *)
Theorem inode_attributes_roundtrip (names : list (list Z)) (i j : lxafs_inode_info) (E : eas) (U : gmap Z Z) (n : nat) (s : driver W H) :
  in_lxafs i = true -> S_ISREG (i_mode (vfs i)) = true ->
  has (dirty_flag i) (LXAFS_DIRTY_LINKLIST + LXAFS_DIRTY_LINKCHILDS) = false ->
  has (ia_valid i) (ATTR_SIZE + ATTR_TIMES) = true ->
  has (ia_valid i) ATTR_MODE = true -> has (ia_valid i) ATTR_UID = true -> has (ia_valid i) ATTR_GID = true ->
  0 <= i_mode (vfs i) < 65536 -> 0 <= i_uid (vfs i) < 4294967296 -> 0 <= i_gid (vfs i) < 4294967296 ->
  short (in_name i) -> short_eas E -> lists E names -> Forall (fun m => short m /\ m <> []) names ->
  length names < 2147483647 -> store (4 + (2 * length names + n)) U (in_name i) E s ->
  exists i1 s1 j1 s2, lxafs_write_inode walk garbage tz stack_bytes i s = Ok (i1, s1) /\
    lxafs_do_read_inode walk garbage tz stack j (in_name i) s1 = Ok (j1, s2) /\
    vfs i1 = vfs i /\ has (ia_valid i1) ATTR_MODE = false /\ has (ia_valid i1) ATTR_UID = false /\
    has (ia_valid i1) ATTR_GID = false /\
    i_mode (vfs j1) = i_mode (vfs i) /\ i_uid (vfs j1) = i_uid (vfs i) /\ i_gid (vfs j1) = i_gid (vfs i) /\
    i_nlink (vfs j1) = 1 /\ i_op (vfs j1) = FileOps /\ store n U (in_name i) (written i E) s2.
Proof.
  intros Hin Hreg Hd Hv Hvm Hvu Hvg Hm Hu Hg Hf Hs Hl Hn Hb Hst.
  destruct (write_inode_yields (S (2 * length names + n)) U i E s Hin Hreg Hd Hv Hvm Hvu Hvg Hf Hst)
    as (i1 & s1 & E1 & Hst1 & v & -> & Hv1 & Hv2 & Hv3).
  destruct (get_fullfileinfo_yields walk garbage stack garbage_len stack_len fs4_small names (in_name i) (written i E) U n
    s1 (written_lists i E names Hl) Hn Hf (written_short i E Hs) Hb Hst1)
    as (o & s2 & E2 & fi & U2 & -> & Hp & Hpn & _ & Ho & Hi & Hst2).
  destruct (free_fileinfo_yields (fi_node fi) (fi_links fi) n U U2 (in_name i) (written i E) s2 Hp Hpn Ho Hst2)
    as ([] & s3 & E3 & Hst3).
  destruct (init_written i E (vfs j) (fi_info fi) Hm Hu Hg Hreg Hi) as (R1 & R2 & R3 & R4 & R5).
  eexists _, s1, _, s3. split; [exact E1|]. split.
  { unfold lxafs_do_read_inode. rewrite M_bind_unfold, E2, M_bind_unfold, E3. reflexivity. }
  cbn [vfs set_valid set_vfs ia_valid]. auto 12.
Qed.
End WriteInode.

Section FailedOpen.
Context {W : Type} {H : Type} `{DosApi W} `{EahApi W} `{Heap H} `{!SecFile (driver W H)} `{Toolkit}.
Context (walk : nat) (garbage : Z -> list Z) (tz : Z) (stack_bytes : nat -> list Z).

(** When the file can not be opened its handle is used all the same, although
    it was never set. *)
Theorem failed_open_goes_on (i : lxafs_inode_info) (s : driver W H) (d : lxapid W) (rc : Z) x w' :
  in_lxafs i = true -> S_ISREG (i_mode (vfs i)) = true ->
  has (dirty_flag i) (LXAFS_DIRTY_LINKLIST + LXAFS_DIRTY_LINKCHILDS) = false ->
  has (ia_valid i) (ATTR_SIZE + ATTR_TIMES) = true -> short (in_name i) ->
  daemon s = Some d -> rc <> 0 ->
  DosOpen (in_name i) (0, 0) (u32 (i_size (vfs i))) FILE_NORMAL OPEN_OR_CREATE MODE_MAINTENANCE (os d) = (rc, x, w') ->
  lxafs_write_inode walk garbage tz stack_bytes i s = Err UninitRead.
Proof.
  intros Hin Hreg Hd Hv [Hc Hl] Hs Hrc E. unfold lxafs_write_inode. rewrite Hreg, Hd. cbn [negb].
  rewrite M_bind_unfold. unfold mret at 1, M_ret at 1. rewrite Hv.
  unfold lxafs_open_inode_for_maintenance. rewrite Hin.
  pose proof (open_handler walk (in_name i) (u32 (i_size (vfs i))) FILE_NORMAL OPEN_OR_CREATE MODE_MAINTENANCE
    (os d) Hc Hl) as Hh. rewrite E in Hh. destruct x as [h act].
  destruct (dmn_runs walk _ _ _ _ _ _ _ Hs Hh) as (d' & Ed & _).
  assert (El : LX_DOSOPEN walk (in_name i) 0 0 (u32 (i_size (vfs i))) FILE_NORMAL OPEN_OR_CREATE MODE_MAINTENANCE s
    = Ok ((rc, 0, 0), mk_driver (Some d') (kheap s))).
  { unfold LX_DOSOPEN. mrun Ed. by destruct (Z.eqb_spec rc 0). }
  rewrite M_bind_unfold, M_bind_unfold, El. cbn. by destruct (Z.eqb_spec rc 0).
Qed.
End FailedOpen.

(** ** A file with attributes *)

#[export] Program Instance ea_disk_InodeLaws : InodeLaws ea_disk.
Next Obligation.
  intros d f cb [Hn [x Hx]]. eexists _, _, _. cbn. split; [reflexivity|]. cbn. split_and!; [|lia| |done].
  - exists O. by rewrite lookup_insert_eq.
  - rewrite lookup_insert_eq. eauto.
Qed.
Next Obligation.
  intros d h f cb [pos Hp] [Hn Hf]. cbn. unfold lift. cbn. rewrite Hp. cbn. split; [eauto|]. split; [|done].
  split; [done|]. rewrite lookup_insert_eq. eauto.
Qed.
Next Obligation. intros d h f b cb Hh Hf. cbn. done. Qed.
Next Obligation. intros d h f b cb Hh Hf. cbn. done. Qed.
Next Obligation. done. Qed.
Next Obligation. cbn. lia. Qed.

(** "m" of user 1000 and group 4000000000, rw-r-----. *)
Definition changed_inode : lxafs_inode_info :=
  mk_inode true [109] 0 [] 0 (ATTR_MODE + ATTR_UID + ATTR_GID + ATTR_CTIME)
    (mk_vfs 33184 1 1000 4000000000 1000000000 0 0 3 512 (-1) FileOps) true.
Definition fresh_inode : lxafs_inode_info :=
  mk_inode true [109] 0 [] 0 0 (mk_vfs 0 0 0 0 0 0 0 0 0 0 NoOps) false.

Lemma inode_attributes_roundtrip_witness :
  exists i1 s1 j1 s2, lxafs_write_inode 9 junk 0 (fun n => replicate n 7) changed_inode master_driver = Ok (i1, s1) /\
    lxafs_do_read_inode 9 junk 0 stack0 fresh_inode [109] s1 = Ok (j1, s2) /\
    vfs i1 = vfs changed_inode /\ has (ia_valid i1) ATTR_MODE = false /\ has (ia_valid i1) ATTR_UID = false /\
    has (ia_valid i1) ATTR_GID = false /\
    i_mode (vfs j1) = 33184 /\ i_uid (vfs j1) = 1000 /\ i_gid (vfs j1) = 4000000000 /\
    i_nlink (vfs j1) = 1 /\ i_op (vfs j1) = FileOps /\
    store 11 ∅ [109] (written changed_inode {[ [65] := [66] ]}) s2.
Proof.
  refine (inode_attributes_roundtrip 9 junk 0 stack0 (fun n => replicate n 7) _ _ _ _ [] changed_inode fresh_inode
    {[ [65] := [66] ]} ∅ 11 master_driver _ _ _ _ _ _ _ _ _ _ _ _ _ _ _ _); try reflexivity.
  - intros n. apply length_replicate.
  - cbn. lia.
  - cbn. lia.
  - cbn. lia.
  - cbn. lia.
  - by apply short_witness.
  - apply map_Forall_singleton. by apply short_witness.
  - split; [by rewrite lookup_singleton_ne|]. intros i n Hi. by rewrite lookup_nil in Hi.
  - constructor.
  - exact master_store.
Defined.

(** Without a new size or date the mode is not written. *)
Example mode_alone_not_written :
  match lxafs_write_inode 9 junk 0 (fun n => replicate n 7)
          (set_valid ATTR_MODE changed_inode) master_driver with
  | Ok (i, s) => Some (ia_valid i, (fun d => map_to_list (attrs_of (os d) [109])) <$> daemon s)
  | Err _ => None
  end = Some (ATTR_MODE, Some [([65], [66])]).
Proof. vm_compute. reflexivity. Qed.

(** A truncation whose open failed sets the size of the file with handle 0. *)
Example truncate_unopened :
  (fun i => ia_valid i) <$>
    eval (iof_truncate 9 (mk_inode false [109] 0 [] 0 ATTR_SIZE (vfs changed_inode) false))
      (mk_driver (Some (mk_lxapid (mk_ea_disk (set_handles {[ 0 := ([109], O) ]} (base master)) (attrs master))
                          4096 65536 (mk_packet 0 4096 0 0 0 0) [])) (arena0 9))
  = Some 0.
Proof. vm_compute. reflexivity. Qed.

(** A link that is gone is left out when the links of a file are taken over. *)
Example dead_links_dropped :
  (fun i => before_nul ∘ l_name <$> in_links i) <$>
    eval (lxafs_add_link_childs 9 (fun n => replicate n 7)
            [mk_link 16 (strncpy_field LX_MAXPATH [109]); mk_link 32 (strncpy_field LX_MAXPATH [110])] fresh_inode)
      (mk_driver (Some (mk_lxapid (mk_ea_disk (set_files {[ [109] := []]} disk0) ∅) 4096 65536
                          (mk_packet 0 4096 0 0 0 0) [])) (arena0 9))
  = Some [[109]].
Proof. vm_compute. reflexivity. Qed.
