(* ===== verification/LxafsFile.v ===== *)
(** * Open files of LXAFS (os2/os2/fs/lxafs/oofl_file.c)

    A file is opened with the security helpers; the handle and how it was
    opened are kept in a node at the VFS's file.  Reading and writing go to the
    position the VFS passes. *)

From S2P Require Import Prelude CString DevHlp Memory Heap VSprintf TextParse.
From S2P Require Import DaemonQueue DosApi DaemonCmd DosCalls EaStore LxafsDate LxafsLinks LxafsInode.

Definition EFAULT : Z := 14.

Definition O_ACCMODE : Z := 3.
Definition O_CREAT : Z := 64.
Definition O_EXCL : Z := 128.

(** Flags of the toolkit's DosOpen. *)
Class OpenFlags := {
  OPEN_ACTION_FAIL_IF_NEW : Z;
  OPEN_ACTION_CREATE_IF_NEW : Z;
  OPEN_ACTION_OPEN_IF_EXISTS : Z;
  OPEN_ACCESS_READONLY : Z;
  OPEN_ACCESS_WRITEONLY : Z;
  OPEN_ACCESS_READWRITE : Z;
  OPEN_SHARE_DENYNONE : Z;
  OPEN_FLAGS_FAIL_ON_ERROR : Z
}.

(** The private data of an open file with its address. *)
Record lxafs_filep_priv_f := mk_priv_f { pf_node : Z; ulHandle : Z; ulOpenFlags : Z; ulOpenMode : Z }.

(** The fields of the VFS's file that LXAFS uses. *)
Record vfs_file := mk_vfs_file { f_flags : Z; f_pos : Z; private_data : option lxafs_filep_priv_f }.

Definition set_private (p : option lxafs_filep_priv_f) (f : vfs_file) : vfs_file :=
  mk_vfs_file (f_flags f) (f_pos f) p.

Section File.
Context {W : Type} {H : Type} `{Heap H} `{SecFile (driver W H)} `{OpenFlags}.
Abbreviation Drv := (M (driver W H)).

Definition open_mode_of (flags : Z) : Z :=
  let acc := Z.land flags O_ACCMODE in
  Z.lor (if acc =? 0 then Z.lor OPEN_ACCESS_READONLY OPEN_SHARE_DENYNONE
         else if acc =? 1 then Z.lor OPEN_ACCESS_WRITEONLY OPEN_SHARE_DENYNONE
         else if acc =? 2 then Z.lor OPEN_ACCESS_READWRITE OPEN_SHARE_DENYNONE
         else OPEN_FLAGS_FAIL_ON_ERROR) OPEN_FLAGS_FAIL_ON_ERROR.

(** Both branches of O_EXCL are the same. *)
Definition open_action_of (flags : Z) : Z :=
  if has flags O_CREAT then Z.lor OPEN_ACTION_CREATE_IF_NEW OPEN_ACTION_OPEN_IF_EXISTS
  else Z.lor OPEN_ACTION_FAIL_IF_NEW OPEN_ACTION_OPEN_IF_EXISTS.

Definition set_size (sz : Z) (i : lxafs_inode_info) : lxafs_inode_info :=
  let v := vfs i in
  set_vfs (mk_vfs (i_mode v) (i_nlink v) (i_uid v) (i_gid v) (i_ctime v) (i_mtime v) (i_atime v) sz
             (i_blksize v) (i_blocks v) (i_op v)) i.

(** Code, file and inode. *)
Definition fof_open (i : lxafs_inode_info) (filp : vfs_file) : Drv (Z * vfs_file * lxafs_inode_info) :=
  p ← drv_kmalloc 12;
  if p =? 0 then mret (- ENOMEM, filp, i) else
  let mode := open_mode_of (f_flags filp) in
  let action := open_action_of (f_flags filp) in
  r ← SecHlpOpen (in_name i) action mode;
  if negb (r.1 =? 0) || (r.2 =? 0) then
    drv_kfree p ≫= fun _ => mret (- EPERM, set_private None filp, i)
  else
    q ← SecHlpQFileSize r.2;
    mret (0, set_private (Some (mk_priv_f p r.2 action mode)) filp, if q.1 =? 0 then set_size q.2 i else i).

(** Result, buffer and position; NULL is [None]. *)
Definition fof_read (filp : vfs_file) (buf : option (list Z)) (count : Z) (ppos : option Z) :
    Drv (Z * option (list Z) * option Z) :=
  match buf with
  | None => mret (- EFAULT, buf, ppos)
  | Some b =>
      match private_data filp with
      | None => mret (- ENOENT, buf, ppos)
      | Some pf =>
          if ulHandle pf =? 0 then mret (- EBADF, buf, ppos) else
          r ← SecHlpReadAt (ulHandle pf) b count (u32 (default (f_pos filp) ppos));
          let '(rc, b, cb) := r in
          if rc =? 0 then mret (s32 cb, Some b, (fun p => p + cb) <$> ppos) else mret (- EBADF, Some b, ppos)
      end
  end.

Definition fof_write (filp : vfs_file) (buf : option (list Z)) (count : Z) (ppos : option Z) : Drv (Z * option Z) :=
  match buf with
  | None => mret (- EFAULT, ppos)
  | Some b =>
      match private_data filp with
      | None => mret (- ENOENT, ppos)
      | Some pf =>
          if ulHandle pf =? 0 then mret (- EBADF, ppos) else
          if Z.of_nat (length b) <? count then throw BadAccess else
          r ← SecHlpWriteAt (ulHandle pf) (take (Z.to_nat count) b) (u32 (default (f_pos filp) ppos));
          if r.1 =? 0 then mret (s32 r.2, (fun p => p + r.2) <$> ppos) else mret (- EBADF, ppos)
      end
  end.

Definition fof_release (filp : vfs_file) : Drv (Z * vfs_file) :=
  match private_data filp with
  | None => mret (- ENOENT, filp)
  | Some pf =>
      if ulHandle pf =? 0 then mret (- EBADF, filp) else
      _ ← SecHlpClose (ulHandle pf);
      drv_kfree (pf_node pf) ≫= fun _ => mret (0, set_private None filp)
  end.
End File.

(** ** Reading and writing *)

(** What the security helpers promise: [sec_file s h] is the contents of the
    file open as [h]. *)
Class SecLaws (W H : Type) `{SecFile (driver W H)} := {
  sec_file : driver W H -> Z -> option (list Z);
  sec_read s h l b cb off :
    sec_file s h = Some l -> 0 <= off -> 0 <= cb <= length b ->
    let got := take (Z.to_nat cb) (drop (Z.to_nat off) l) in
    SecHlpReadAt h b cb off s = Ok ((0, got ++ drop (length got) b, Z.of_nat (length got)), s);
  sec_write s h l data off :
    sec_file s h = Some l -> 0 <= off <= length l ->
    exists s', SecHlpWriteAt h data off s = Ok ((0, Z.of_nat (length data)), s') /\
      sec_file s' h = Some (splice (Z.to_nat off) data l) /\ kheap s' = kheap s;
  sec_size s h l :
    sec_file s h = Some l -> SecHlpQFileSize h s = Ok ((0, Z.of_nat (length l)), s);
  sec_heap d k k' h : sec_file (mk_driver d k) h = sec_file (mk_driver d k') h;
  sec_close s h l :
    sec_file s h = Some l ->
    exists rc s', SecHlpClose h s = Ok (rc, s') /\ sec_file s' h = None /\ kheap s' = kheap s
}.

Section Rounds.
Context {W : Type} {H : Type} `{HeapLaws H} `{SecLaws W H} `{!OpenFlags}.

(** Calls of fof_read one after the other, at the position the last one left:
    what they delivered. *)
Fixpoint read_pieces (filp : vfs_file) (counts : list nat) (pos : Z) : M (driver W H) (list Z * Z) :=
  match counts with
  | [] => mret ([], pos)
  | c :: counts =>
      r ← fof_read filp (Some (replicate c 0)) c (Some pos);
      match r with
      | (n, Some b, Some pos) =>
          rest ← read_pieces filp counts pos; mret (take (Z.to_nat n) b ++ rest.1, rest.2)
      | _ => throw BadAccess
      end
  end.

Lemma read_call filp pf (s : driver W H) l b cb pos :
  private_data filp = Some pf -> ulHandle pf <> 0 -> sec_file s (ulHandle pf) = Some l ->
  0 <= pos < 4294967296 -> 0 <= cb <= length b -> cb < 2147483648 ->
  let got := take (Z.to_nat cb) (drop (Z.to_nat pos) l) in
  fof_read filp (Some b) cb (Some pos) s =
    Ok ((Z.of_nat (length got), Some (got ++ drop (length got) b), Some (pos + length got)), s).
Proof.
  intros Hp Hh Hl Hpos Hcb Hcb2 got. unfold fof_read. rewrite Hp. destruct (Z.eqb_spec (ulHandle pf) 0); [done|].
  change (default (f_pos filp) (Some pos)) with pos. rewrite u32_small by lia.
  rewrite M_bind_unfold, (sec_read s (ulHandle pf) l b cb pos Hl ltac:(lia) Hcb). fold got.
  change (0 =? 0) with true. cbn.
  rewrite s32_small; [done|]. assert (length got <= Z.to_nat cb)%nat by (unfold got; rewrite length_take; lia). lia.
Qed.

Lemma take_pieces {A} (c n : nat) (x : list A) :
  take c x ++ take n (drop (length (take c x)) x) = take (c + n) x.
Proof.
  destruct (Nat.le_gt_cases c (length x)).
  - rewrite length_take_le by done. apply take_take_drop.
  - rewrite (take_ge x c), (take_ge x (c + n)), drop_all by lia. by rewrite take_nil, app_nil_r.
Qed.

(** However the reading of an open file is cut into calls, what they
    deliver together is the contents of the file from the position on, as far
    as it was asked for, and the position moves by as much. *)
Theorem pieces_are_the_file (filp : vfs_file) pf (s : driver W H) (l : list Z) (counts : list nat) (pos : Z) :
  private_data filp = Some pf -> ulHandle pf <> 0 -> sec_file s (ulHandle pf) = Some l ->
  0 <= pos < 2147483648 -> length l < 2147483648 -> Forall (fun c => Z.of_nat c < 2147483648) counts ->
  let got := take (sum_list counts) (drop (Z.to_nat pos) l) in
  read_pieces filp counts pos s = Ok ((got, pos + length got), s).
Proof.
  intros Hp Hh Hl Hpos Hb Hc. revert pos Hpos.
  induction Hc as [|c counts Hc _ IH]; intros pos Hpos; cbn [read_pieces sum_list].
  - cbn. by rewrite Z.add_0_r.
  - rewrite M_bind_unfold, (read_call filp pf s l (replicate c 0) c pos Hp Hh Hl) by (rewrite ?length_replicate; lia).
    rewrite (Nat2Z.id c). change (id c) with c. set (got := take c (drop (Z.to_nat pos) l)).
    assert (Hg : (length got <= length l - Z.to_nat pos)%nat) by (unfold got; rewrite length_take, length_drop; lia).
    destruct (Z.le_gt_cases (length l) pos) as [Hend|Hend].
    + rewrite M_bind_unfold, IH by lia. cbn [fst snd]. rewrite Nat2Z.id, take_app_length.
      assert (got = []) as Hn by (apply nil_length_inv; lia). rewrite Hn. cbn [length app].
      rewrite Z.add_0_r, !drop_ge, !take_nil by lia. done.
    + rewrite M_bind_unfold, IH by lia. cbn [fst snd]. rewrite Nat2Z.id, take_app_length.
      replace (Z.to_nat (pos + length got)) with (Z.to_nat pos + length got)%nat by lia.
      rewrite <- drop_drop. unfold got. rewrite <- take_pieces.
      unfold mret, M_ret. f_equal. f_equal. f_equal. rewrite length_app. lia.
Qed.

(** C13: A file that can be opened is opened and closed without leaving a block
    or a handle behind, and what is written into it is read back: writing
    changes the bytes from the position on and moves the position behind
    them, reading the same range delivers them. *)
Theorem file_roundtrip (i : lxafs_inode_info) (filp : vfs_file) (data l : list Z) (pos : Z) (s s0 s1 : driver W H) p h :
  heap_ok (kheap s) -> drv_kmalloc 12 s = Ok (p, s0) -> p <> 0 ->
  SecHlpOpen (in_name i) (open_action_of (f_flags filp)) (open_mode_of (f_flags filp)) s0 = Ok ((0, h), s1) ->
  h <> 0 -> sec_file s1 h = Some l -> kheap s1 = kheap s0 ->
  0 <= pos <= length l -> pos < 2147483648 -> length data < 2147483648 ->
  exists f1 i1 s2 f3 s3,
    fof_open i filp s = Ok ((0, f1, i1), s1) /\ i_size (vfs i1) = length l /\
    fof_write f1 (Some data) (length data) (Some pos) s1 = Ok ((Z.of_nat (length data), Some (pos + length data)), s2) /\
    sec_file s2 h = Some (splice (Z.to_nat pos) data l) /\
    (forall buf, (length data <= length buf)%nat ->
       fof_read f1 (Some buf) (length data) (Some pos) s2 =
         Ok ((Z.of_nat (length data), Some (data ++ drop (length data) buf), Some (pos + length data)), s2)) /\
    fof_release f1 s2 = Ok ((0, f3), s3) /\ private_data f3 = None /\ sec_file s3 h = None /\
    used (kheap s3) = used (kheap s).
Proof.
  intros Ho Em Hp Eo Hh Hl Hk Hpos Hpos2 Hd.
  set (pf := mk_priv_f p h (open_action_of (f_flags filp)) (open_mode_of (f_flags filp))).
  set (f1 := set_private (Some pf) filp).
  destruct (sec_write s1 h l data pos Hl Hpos) as (s2 & Ew & Hl2 & Hk2).
  destruct (sec_close s2 h _ Hl2) as (rc & s3 & Ec & Hl3 & Hk3).
  exists f1, (set_size (length l) i), s2, (set_private None f1).
  exists (mk_driver (daemon s3) (kfree p (kheap s3))). split_and!; try done.
  - unfold fof_open. rewrite M_bind_unfold, Em. destruct (Z.eqb_spec p 0); [done|].
    rewrite M_bind_unfold, Eo. cbn [fst snd]. destruct (Z.eqb_spec h 0); [done|]. cbn [negb orb].
    change (negb (0 =? 0)) with false. cbn [orb]. by rewrite M_bind_unfold, (sec_size s1 h l Hl).
  - unfold fof_write. cbn [f1 private_data set_private pf ulHandle]. destruct (Z.eqb_spec h 0); [done|].
    rewrite Z.ltb_irrefl, Nat2Z.id, firstn_all. change (default (f_pos f1) (Some pos)) with pos.
    rewrite u32_small by lia. rewrite M_bind_unfold, Ew. cbn. by rewrite s32_small by lia.
  - intros buf Hbuf. rewrite (read_call f1 pf s2 (splice (Z.to_nat pos) data l) buf (length data) pos) by (done || lia).
    assert (Hg : take (Z.to_nat (length data)) (drop (Z.to_nat pos) (splice (Z.to_nat pos) data l)) = data).
    { unfold splice. rewrite Nat2Z.id, drop_app_length' by (rewrite length_take; lia). by apply take_app_length. }
    by rewrite Hg.
  - unfold fof_release. cbn [f1 private_data set_private pf ulHandle]. destruct (Z.eqb_spec h 0); [done|].
    rewrite M_bind_unfold, Ec. reflexivity.
  - rewrite (sec_heap _ _ (kheap s3)). by destruct s3.
  - cbn. rewrite Hk3, Hk2, Hk. unfold drv_kmalloc in Em. destruct (kmalloc 12 (kheap s)) as [hp q] eqn:Ek.
    injection Em as <- <-. cbn. exact (proj2 (kfree_kmalloc 12 (kheap s) hp q Ho ltac:(lia) Ek Hp)).
Qed.
End Rounds.

(** ** On the disk with attributes *)

#[export] Instance ea_disk_OpenFlags : OpenFlags := {
  OPEN_ACTION_FAIL_IF_NEW := 0; OPEN_ACTION_CREATE_IF_NEW := 16; OPEN_ACTION_OPEN_IF_EXISTS := 1;
  OPEN_ACCESS_READONLY := 0; OPEN_ACCESS_WRITEONLY := 1; OPEN_ACCESS_READWRITE := 2;
  OPEN_SHARE_DENYNONE := 64; OPEN_FLAGS_FAIL_ON_ERROR := 8192
}.

#[export] Program Instance ea_disk_SecLaws {H} : SecLaws ea_disk H := {
  sec_file := fun s h =>
    d ← daemon s; x ← handles_open (base (os d)) !! h; Some (default [] (files (base (os d)) !! x.1))
}.
Next Obligation.
  intros H [[d|] k] h l b cb off Hl Ho Hcb; [|done]. cbn in Hl. unfold SecHlpReadAt. cbn.
  destruct (handles_open (base (os d)) !! h) as [[n pos]|]; [|done]. injection Hl as <-. by destruct d.
Qed.
Next Obligation.
  intros H [[d|] k] h l data off Hl Ho; [|done]. cbn in Hl. unfold SecHlpWriteAt. cbn.
  destruct (handles_open (base (os d)) !! h) as [[n pos]|] eqn:E; [|done]. injection Hl as <-.
  eexists. split; [reflexivity|]. cbn. rewrite E. cbn. by rewrite lookup_insert_eq.
Qed.
Next Obligation.
  intros H [[d|] k] h l Hl; [|done]. cbn in Hl. unfold SecHlpQFileSize. cbn.
  destruct (handles_open (base (os d)) !! h) as [[n pos]|]; [|done]. injection Hl as <-. by destruct d.
Qed.
Next Obligation. done. Qed.
Next Obligation.
  intros H [[d|] k] h l Hl; [|done]. cbn in Hl. unfold SecHlpClose. cbn. unfold lift. cbn.
  destruct (handles_open (base (os d)) !! h) as [[n pos]|] eqn:E; [|done].
  rewrite decide_True by eauto. eexists _, _. split; [reflexivity|]. cbn. by rewrite lookup_delete_eq.
Qed.

(** "m" opened for reading and writing. *)
Definition rw_file : vfs_file := mk_vfs_file 2 0 None.
Definition open_state : driver ea_disk arena :=
  mk_driver (Some (mk_lxapid (mk_ea_disk (set_handles {[ 1 := ([109], O) ]} (base master)) (attrs master)) 4096 65536
                     (mk_packet 0 4096 0 0 0 0) [])) (arena0 20).

Lemma pieces_are_the_file_witness :
  read_pieces (set_private (Some (mk_priv_f 4096 1 1 8258)) rw_file) [1%nat; 5%nat] 1 open_state
    = Ok (([2; 3], 1 + 2%nat), open_state).
Proof.
  apply (pieces_are_the_file (set_private (Some (mk_priv_f 4096 1 1 8258)) rw_file) (mk_priv_f 4096 1 1 8258)
    open_state [1; 2; 3] [1%nat; 5%nat] 1).
  - reflexivity.
  - done.
  - reflexivity.
  - lia.
  - cbn. lia.
  - repeat constructor; lia.
Defined.

Lemma file_roundtrip_witness :
  exists p h s0 s1 l f1 i1 s2 f3 s3,
    drv_kmalloc 12 master_driver = Ok (p, s0) /\
    fof_open master_inode rw_file master_driver = Ok ((0, f1, i1), s1) /\ i_size (vfs i1) = length l /\
    fof_write f1 (Some [8; 9]) 2%nat (Some 1) s1 = Ok ((Z.of_nat 2, Some (1 + 2%nat)), s2) /\
    sec_file s2 h = Some (splice (Z.to_nat 1) [8; 9] l) /\
    (forall buf, (2 <= length buf)%nat ->
       fof_read f1 (Some buf) 2%nat (Some 1) s2 =
         Ok ((Z.of_nat 2, Some ([8; 9] ++ drop 2 buf), Some (1 + 2%nat)), s2)) /\
    fof_release f1 s2 = Ok ((0, f3), s3) /\ private_data f3 = None /\ sec_file s3 h = None /\
    used (kheap s3) = used (kheap master_driver).
Proof.
  eexists _, 1, _, _, [1; 2; 3].
  edestruct (file_roundtrip master_inode rw_file [8; 9] [1; 2; 3] 1 master_driver) as (f1 & i1 & s2 & f3 & s3 & R);
    cycle 10.
  { exists f1, i1, s2, f3, s3. split; [|exact R]. reflexivity. }
  - exact I.
  - reflexivity.
  - done.
  - vm_compute. reflexivity.
  - done.
  - reflexivity.
  - reflexivity.
  - cbn. lia.
  - lia.
  - cbn. lia.
Defined.

(** O_EXCL does not keep an existing file from being opened. *)
Example exclusive_opens_existing :
  (fun r : Z * vfs_file * lxafs_inode_info => r.1.1) <$>
    eval (fof_open master_inode (mk_vfs_file (O_CREAT + O_EXCL) 0 None)) master_driver = Some 0.
Proof. vm_compute. reflexivity. Qed.
