(* ===== verification/LxafsDir.v ===== *)
(** * Open directories of LXAFS (os2/os2/fs/lxafs/oofl_dir.c)

    Opening a directory reads all its entries through the daemon into an array
    at the VFS's file; readdir hands them to the caller's function one by one,
    as far as that takes them, and looks up inode numbers on the way. *)

From S2P Require Import Prelude CString DevHlp Memory Heap VSprintf TextParse.
From S2P Require Import DaemonQueue DosApi DaemonCmd DosCalls EaStore LxafsDate LxafsLinks LxafsInode LxafsFile.

Definition LXAFS_MAX_DENTS : Z := 65536.
Definition LXAFS_INO_UNDEFINED : Z := 4294967295.
Definition LXAFS_INO_UNKNOWN : Z := 0.
Definition DT_DIR : Z := 4.
Definition DT_REG : Z := 8.

(** An entry; [de_xname] and [de_name] are pointers into the full name, here
    the strings there. *)
Record lxafs_dirent := mk_dirent {
  de_ino : Z; de_type : Z; de_fullname : list Z; de_xname : list Z; de_name : list Z
}.

Definition set_ino (n : Z) (d : lxafs_dirent) : lxafs_dirent :=
  mk_dirent n (de_type d) (de_fullname d) (de_xname d) (de_name d).

(** The private data of an open directory; the entries that were never filled
    are missing at the end of the array. *)
Record lxafs_filep_priv_d := mk_priv_d {
  pd_node : Z; num_ents : Z; dirinfo : Z; dirents : Z; entries : list lxafs_dirent
}.

Section Open.
Context {W : Type} {H : Type} `{DosApi W} `{EahApi W} `{Heap H} `{Toolkit}.
Context (walk : nat) (garbage : Z -> list Z) (stack : getfileinfo).
(** Name and attribute in a find buffer of level 4. *)
Context (fb4_name : list Z -> list Z) (fb4_attr : list Z -> Z).
Abbreviation Drv := (M (driver W H)).

Definition sizeof_dirent : Z := 276.

(** The name in a find buffer appended to the directory in [fspec]. *)
Definition fill_dirent (dir : list Z) (rootlen : nat) (fb : list Z) : Drv lxafs_dirent :=
  let name := fb4_name fb in
  let full := dir ++ 47 :: name in
  if (LX_MAXPATH <=? length full)%nat then throw BadAccess
  else mret (mk_dirent LXAFS_INO_UNDEFINED (if is_dir (fb4_attr fb) then DT_DIR else DT_REG)
               (strncpy_field LX_MAXPATH full) (drop rootlen full) name).

(** At most [n] entries; the first one is in the buffer. *)
Fixpoint read_dirents (n : nat) (hDir : Z) (fb : list Z) (c : Z) (dir : list Z) (rootlen : nat) :
    Drv (list lxafs_dirent) :=
  match n with
  | O => mret []
  | S n =>
      if c =? 0 then mret [] else
      e ← fill_dirent dir rootlen fb;
      r ← LX_DOSFINDNEXT walk hDir fb FILEFINDBUF4_len c;
      let '(rc, fb, c) := r in
      rest ← (if rc =? 0 then read_dirents n hDir fb c dir rootlen else mret []);
      mret (e :: rest)
  end.

(** [strncmp] of an entry's name with itself. *)
Definition compare_entry (l : list lxafs_dirent) (i : nat) : Drv Z :=
  match l !! i with
  | Some e => mret (if bool_decide (de_xname e = de_xname e) then 0 else 1)
  | None => throw UninitRead
  end.

(** The sort: entry [i] is compared with itself, not with entry [j]; a swap
    would start over. *)
Fixpoint sort_dirents (fuel : nat) (num i j : nat) (l : list lxafs_dirent) : Drv (list lxafs_dirent) :=
  match fuel with
  | O => throw OutOfFuel
  | S fuel =>
      if (S i <? num)%nat then
        if (j <? num)%nat then
          c ← compare_entry l i;
          if 0 <? c then
            match l !! i, l !! j with
            | Some a, Some b => sort_dirents fuel num 0 1 (<[i := b]> (<[j := a]> l))
            | _, _ => throw UninitRead
            end
          else sort_dirents fuel num i (S j) l
        else sort_dirents fuel num (S i) (S (S i)) l
      else mret l
  end.

Definition free_if (p : Z) : Drv unit := if p =? 0 then mret tt else drv_kfree p.

(** Everything after the entries were allocated: code and the entries. *)
Definition read_directory (fuel : nat) (i : lxafs_inode_info) (num : Z) (pfb : list Z) :
    Drv (Z * list lxafs_dirent) :=
  if (LX_MAXPATH <=? length (in_name i) + 2)%nat then throw BadAccess else
  f ← LX_DOSFINDFIRST walk (in_name i ++ [47; 42]) HDIR_CREATE find_any pfb FILEFINDBUF4_len 1 FIL_QUERYEASIZE;
  let '(rc, hDir, fb, c) := f in
  if negb (rc =? 0) then mret (- ENOENT, []) else
  l ← read_dirents (Z.to_nat num) hDir fb c (in_name i) (in_rootlen i);
  _ ← LX_DOSFINDCLOSE walk hDir;
  l ← sort_dirents fuel (Z.to_nat num) 0 1 l;
  mret (0, l).

(** Code, position and private data; [num_ents] is set even when it fails. *)
Definition lxafs_reopen_dir (fuel : nat) (i : lxafs_inode_info) (pos : Z) (pf : lxafs_filep_priv_d) :
    Drv (Z * Z * lxafs_filep_priv_d) :=
  fi ← lxafs_get_fullfileinfo walk garbage stack (in_name i);
  match fi with
  | None => mret (- ENOMEM, pos, pf)
  | Some fi =>
      let num := u32 (num_files (fi_info fi) + num_subdirs (fi_info fi)) in
      let pf := mk_priv_d (pd_node pf) num (dirinfo pf) (dirents pf) (entries pf) in
      di ← drv_kmalloc sizeof_dirent;
      de ← drv_kmalloc (u32 (sizeof_dirent * num));
      fb ← drv_kmalloc FILEFINDBUF4_len;
      o ← (if (di =? 0) || (de =? 0) || (fb =? 0) then mret (- ENOMEM, [])
           else LX_alloc_objects (fun sz _ => drv_kmalloc sz) 2 LX_MAXPATH 0);
      match o.2 with
      | [name; fspec] =>
          r ← read_directory fuel i num (take FILEFINDBUF4_len (garbage fb));
          if r.1 =? 0 then
            free_if (dirinfo pf) ≫= fun _ => free_if (dirents pf) ≫= fun _ =>
            lxafs_free_fileinfo (fi_node fi) (fi_links fi) ≫= fun _ => drv_kfree fb ≫= fun _ => drv_kfree name ≫= fun _ =>
            mret (0, 0, mk_priv_d (pd_node pf) num di de r.2)
          else
            lxafs_free_fileinfo (fi_node fi) (fi_links fi) ≫= fun _ =>
            drv_kfree di ≫= fun _ => drv_kfree de ≫= fun _ => drv_kfree fb ≫= fun _ => drv_kfree name ≫= fun _ =>
            mret (r.1, pos, pf)
      | _ =>
          lxafs_free_fileinfo (fi_node fi) (fi_links fi) ≫= fun _ =>
          free_if di ≫= fun _ => free_if de ≫= fun _ => free_if fb ≫= fun _ => mret (- ENOMEM, pos, pf)
      end
  end.

(** Code, position and private data; the node stays at the file when the
    directory can not be read. *)
Definition fod_open (fuel : nat) (i : lxafs_inode_info) (pos : Z) (old : option lxafs_filep_priv_d) :
    Drv (Z * Z * option lxafs_filep_priv_d) :=
  p ← drv_kmalloc 20;
  if p =? 0 then mret (- ENOMEM, pos, old) else
  r ← lxafs_reopen_dir fuel i pos (mk_priv_d p 0 0 0 []);
  mret (r.1.1, r.1.2, Some r.2).

Definition fod_fsync (fuel : nat) (i : lxafs_inode_info) (pos : Z) (pf : option lxafs_filep_priv_d) :
    Drv (Z * Z * option lxafs_filep_priv_d) :=
  match pf with
  | Some pf => r ← lxafs_reopen_dir fuel i pos pf; mret (r.1.1, r.1.2, Some r.2)
  | None => mret (- ENOMEM, pos, None)
  end.

Definition fod_release (pf : option lxafs_filep_priv_d) : Drv (Z * option lxafs_filep_priv_d) :=
  match pf with
  | Some pf =>
      free_if (dirents pf) ≫= fun _ => free_if (dirinfo pf) ≫= fun _ => drv_kfree (pd_node pf) ≫= fun _ =>
      mret (0, None)
  | None => mret (0, None)
  end.
End Open.

(** ** Listing *)

Section Readdir.
(** The caller's function with its state: name, length, position, inode
    number and type; a negative result refuses the entry. *)
Context {S : Type} (filldir : list Z -> Z -> Z -> Z -> Z -> S -> Z * S).
(** The VFS's lookup of a path: a code and the number of the inode found. *)
Context (path_lookup : list Z -> Z * option Z).

(** What a call works on: the caller's state, the position, the entries and
    the count of the directory's semaphore. *)
Record listing := mk_listing { ls_state : S; ls_pos : Z; ls_entries : list lxafs_dirent; ls_sem : Z }.

Definition up_sem (n : Z) : Z := n + 1.
Definition down_sem {T} (n : Z) : M T Z := if n <=? 0 then throw Deadlock else mret (n - 1).

(** The number of an entry's inode: code, number and semaphore count. *)
Definition entry_ino (ino parent : Z) (d : lxafs_dirent) (sem : Z) : res (Z * Z * Z) :=
  if negb (de_ino d =? LXAFS_INO_UNDEFINED) then Ok (0, de_ino d, sem) else
  let own := match de_name d with [46] => ino | [46; 46] => parent | _ => LXAFS_INO_UNDEFINED end in
  if negb (own =? LXAFS_INO_UNDEFINED) then Ok (0, own, sem) else
  let sem_state := sem in
  let sem := if sem_state =? 0 then up_sem sem else sem in
  let r := path_lookup (de_xname d) in
  match (if (sem_state =? 0) && negb (sem_state =? sem) then down_sem (T := unit) sem tt else Ok (sem, tt)) with
  | Ok (sem, _) =>
      if negb (r.1 =? 0) then Ok (r.1, LXAFS_INO_UNDEFINED, sem)
      else Ok (0, default LXAFS_INO_UNKNOWN r.2, sem)
  | Err e => Err e
  end.

(** At most [n] entries. *)
Fixpoint readdir_loop (n : nat) (ino parent num : Z) (x : listing) : res (Z * listing) :=
  match n with
  | O => Ok (0, x)
  | Datatypes.S n =>
      match ls_entries x !! Z.to_nat (ls_pos x) with
      | None => Err UninitRead
      | Some d =>
          match entry_ino ino parent d (ls_sem x) with
          | Err e => Err e
          | Ok (rc, k, sem) =>
              if negb (rc =? 0) then Ok (rc, mk_listing (ls_state x) (ls_pos x) (ls_entries x) sem) else
              let ents := <[Z.to_nat (ls_pos x) := set_ino k d]> (ls_entries x) in
              let r := filldir (de_name d) (Z.of_nat (length (de_name d))) (ls_pos x) k (de_type d) (ls_state x) in
              if r.1 <? 0 then Ok (0, mk_listing r.2 (ls_pos x) ents sem) else
              let pos := ls_pos x + 1 in
              let x := mk_listing r.2 pos ents sem in
              if (LXAFS_MAX_DENTS <? pos) || (num <=? pos) then Ok (0, x)
              else readdir_loop n ino parent num x
          end
      end
  end.

Definition fod_readdir (ino parent : Z) (pf : option lxafs_filep_priv_d) (st : S) (pos sem : Z) :
    res (Z * S * Z * option lxafs_filep_priv_d * Z) :=
  if LXAFS_MAX_DENTS <? pos then Ok (0, st, pos, pf, sem) else
  match pf with
  | None => Ok (0, st, pos, pf, sem)
  | Some p =>
      if num_ents p <=? pos then Ok (0, st, pos, pf, sem) else
      match readdir_loop (Z.to_nat (num_ents p - pos)) ino parent (num_ents p) (mk_listing st pos (entries p) sem) with
      | Ok (rc, x) =>
          Ok (rc, ls_state x, ls_pos x,
              Some (mk_priv_d (pd_node p) (num_ents p) (dirinfo p) (dirents p) (ls_entries x)), ls_sem x)
      | Err e => Err e
      end
  end.
End Readdir.
Arguments mk_listing {S}. Arguments ls_state {S}. Arguments ls_pos {S}. Arguments ls_entries {S}. Arguments ls_sem {S}.

(** ** What is listed *)

Section Listed.
Context (path_lookup : list Z -> Z * option Z) (ino parent : Z).

(** The inode number an entry is listed with. *)
Definition resolved (d : lxafs_dirent) : Z :=
  if negb (de_ino d =? LXAFS_INO_UNDEFINED) then de_ino d else
  let own := match de_name d with [46] => ino | [46; 46] => parent | _ => LXAFS_INO_UNDEFINED end in
  if negb (own =? LXAFS_INO_UNDEFINED) then own else default LXAFS_INO_UNKNOWN (path_lookup (de_xname d)).2.

Definition out (d : lxafs_dirent) : list Z * Z * Z := (de_name d, resolved d, de_type d).

(** A caller that takes as many entries as there is room for. *)
Definition collect (name : list Z) (len pos k type : Z) (st : list (list Z * Z * Z) * nat) :
    Z * (list (list Z * Z * Z) * nat) :=
  match st.2 with
  | O => (-1, st)
  | S r => (0, (st.1 ++ [(name, k, type)], r))
  end.

(** Calls with room for so many entries each: everything they delivered. *)
Fixpoint list_calls (rooms : list nat) (pf : option lxafs_filep_priv_d) (pos sem : Z) :
    res (list (list Z * Z * Z) * option lxafs_filep_priv_d * Z * Z) :=
  match rooms with
  | [] => Ok ([], pf, pos, sem)
  | r :: rooms =>
      match fod_readdir collect path_lookup ino parent pf ([], r) pos sem with
      | Ok (rc, st, pos, pf, sem) =>
          match list_calls rooms pf pos sem with
          | Ok (l, pf, pos, sem) => Ok (st.1 ++ l, pf, pos, sem)
          | Err e => Err e
          end
      | Err e => Err e
      end
  end.

Lemma resolved_set d : resolved (set_ino (resolved d) d) = resolved d.
Proof.
  destruct (Z.eqb_spec (resolved d) LXAFS_INO_UNDEFINED) as [E|E].
  - rewrite E. destruct (Z.eqb_spec (de_ino d) LXAFS_INO_UNDEFINED) as [E1|E1].
    + assert (set_ino LXAFS_INO_UNDEFINED d = d) as -> by (rewrite <- E1; by destruct d). done.
    + unfold resolved in E. by destruct (Z.eqb_spec (de_ino d) LXAFS_INO_UNDEFINED).
  - unfold resolved at 1. cbn [set_ino de_ino]. by destruct (Z.eqb_spec (resolved d) LXAFS_INO_UNDEFINED).
Qed.

Lemma out_set d : out (set_ino (resolved d) d) = out d.
Proof. unfold out. by rewrite resolved_set. Qed.

Lemma entry_resolved d sem :
  (path_lookup (de_xname d)).1 = 0 -> 0 <= sem ->
  entry_ino path_lookup ino parent d sem = Ok (0, resolved d, sem).
Proof.
  intros Hl Hs. unfold entry_ino, resolved. destruct (de_ino d =? LXAFS_INO_UNDEFINED); cbn [negb]; [|done].
  destruct (_ =? LXAFS_INO_UNDEFINED); cbn [negb]; [|done]. rewrite Hl. change (negb (0 =? 0)) with false.
  destruct (Z.eqb_spec sem 0) as [->|].
  - reflexivity.
  - by rewrite Z.eqb_refl.
Qed.

Lemma loop_lists : forall n (ents : list lxafs_dirent) acc (r : nat) (pos num sem : Z),
  num = length ents -> 0 <= pos < num -> n = Z.to_nat (num - pos) -> num <= LXAFS_MAX_DENTS -> 0 <= sem ->
  Forall (fun d => (path_lookup (de_xname d)).1 = 0) ents ->
  exists ents', out <$> ents' = out <$> ents /\ de_xname <$> ents' = de_xname <$> ents /\
    readdir_loop collect path_lookup n ino parent num (mk_listing (acc, r) pos ents sem) =
    Ok (0, mk_listing (acc ++ take r (drop (Z.to_nat pos) (out <$> ents)), (r - n)%nat)
             (pos + Z.of_nat (r `min` n)) ents' sem).
Proof.
  induction n as [|n IH]; intros ents acc r pos num sem Hnum Hpos Hn Hmax Hs Hl; [lia|].
  cbn [readdir_loop ls_entries ls_pos ls_sem ls_state].
  destruct (lookup_lt_is_Some_2 ents (Z.to_nat pos)) as [d Hd]; [lia|]. rewrite Hd.
  rewrite entry_resolved by (done || by apply (Forall_lookup_1 _ _ _ _ Hl Hd)).
  change (negb (0 =? 0)) with false. cbn match.
  set (ents' := <[Z.to_nat pos := set_ino (resolved d) d]> ents).
  assert (Ho : out <$> ents' = out <$> ents).
  { unfold ents'. rewrite list_fmap_insert, out_set. apply list_insert_id. by rewrite list_lookup_fmap, Hd. }
  assert (Hx : de_xname <$> ents' = de_xname <$> ents).
  { unfold ents'. rewrite list_fmap_insert. apply list_insert_id. by rewrite list_lookup_fmap, Hd. }
  destruct r as [|r].
  - change (collect _ _ _ _ _ (acc, O)) with (-1, (acc, O)). cbn [fst snd]. change (-1 <? 0) with true.
    cbn match. exists ents'. split; [done|]. split; [done|].
    cbn [take]. rewrite app_nil_r. by rewrite Nat.min_0_l, Z.add_0_r.
  - change (collect _ _ _ _ _ (acc, S r)) with (0, (acc ++ [out d], r)). cbn [fst snd].
    change (0 <? 0) with false. cbn match.
    assert (Hdrop : drop (Z.to_nat pos) (out <$> ents) = out d :: drop (S (Z.to_nat pos)) (out <$> ents)).
    { apply drop_S. by rewrite list_lookup_fmap, Hd. }
    rewrite Hdrop. cbn [take].
    assert (Hm : (LXAFS_MAX_DENTS <? pos + 1) = false) by (apply Z.ltb_ge; lia). rewrite Hm. cbn [orb].
    destruct (Z.leb_spec num (pos + 1)).
    + exists ents'. split; [done|]. split; [done|]. assert (n = O) as -> by lia.
      rewrite drop_ge by (rewrite length_fmap; lia). rewrite take_nil.
      f_equal. f_equal. f_equal; [|lia]. f_equal. lia.
    + destruct (IH ents' (acc ++ [out d]) r (pos + 1) num sem) as (ents2 & Ho2 & Hx2 & E2).
      * unfold ents'. by rewrite length_insert.
      * lia.
      * lia.
      * done.
      * done.
      * unfold ents'. apply Forall_insert; [done|]. exact (Forall_lookup_1 _ _ _ _ Hl Hd).
      * exists ents2. split; [by rewrite Ho2|]. split; [by rewrite Hx2|].
        rewrite E2. rewrite Ho, <- app_assoc. cbn [app].
        replace (Z.to_nat (pos + 1)) with (S (Z.to_nat pos)) by lia.
        f_equal. f_equal. f_equal. lia.
Qed.

(** C12: A directory is listed completely, each entry once and in the order of
    the array, however many calls the caller needs and however much room it
    has in each: a call that runs out of room resumes with the entry that was
    refused.  Inode numbers found on the way do not change what is listed, and
    the directory's semaphore is held as before. *)
Theorem directory_listed_once (rooms : list nat) (pf : lxafs_filep_priv_d) (pos sem : Z) :
  num_ents pf = length (entries pf) -> num_ents pf <= LXAFS_MAX_DENTS -> 0 <= pos <= num_ents pf -> 0 <= sem ->
  Forall (fun d => (path_lookup (de_xname d)).1 = 0) (entries pf) ->
  exists pf', list_calls rooms (Some pf) pos sem =
    Ok (take (sum_list rooms) (drop (Z.to_nat pos) (out <$> entries pf)), Some pf',
        Z.min (pos + Z.of_nat (sum_list rooms)) (num_ents pf), sem).
Proof.
  revert pf pos. induction rooms as [|r rooms IH]; intros pf pos Hn Hmax Hpos Hs Hl; cbn [list_calls sum_list].
  - exists pf. cbn [take]. by rewrite Z.add_0_r, Z.min_l by lia.
  - unfold fod_readdir. destruct (Z.ltb_spec LXAFS_MAX_DENTS pos); [lia|].
    destruct (Z.leb_spec (num_ents pf) pos) as [Hend|Hend].
    + destruct (IH pf pos Hn Hmax Hpos Hs Hl) as (pf' & ->). exists pf'. cbn [fst app].
      rewrite !drop_ge, !take_nil by (rewrite length_fmap; lia). by rewrite !Z.min_r by lia.
    + destruct (loop_lists (Z.to_nat (num_ents pf - pos)) (entries pf) [] r pos (num_ents pf) sem)
        as (ents' & Ho & Hx & E); [done|lia|done|done|done|done|].
      rewrite E. cbn [ls_state ls_pos ls_entries ls_sem fst app].
      set (k := (r `min` Z.to_nat (num_ents pf - pos))%nat).
      assert (Hlen : length ents' = length (entries pf)) by (by rewrite <- (length_fmap out ents'), Ho, length_fmap).
      destruct (IH (mk_priv_d (pd_node pf) (num_ents pf) (dirinfo pf) (dirents pf) ents') (pos + Z.of_nat k)) as (pf' & E').
      * cbn [num_ents entries]. by rewrite Hlen.
      * done.
      * cbn [num_ents]. lia.
      * done.
      * cbn [entries]. apply Forall_forall. intros d Hd. rewrite Forall_forall in Hl.
        assert (Hd' : de_xname d ∈ de_xname <$> entries pf) by (rewrite <- Hx; by apply list_elem_of_fmap_2).
        apply list_elem_of_fmap in Hd' as (d' & -> & Hd'). by apply Hl.
      * rewrite E'. exists pf'. cbn [num_ents entries]. rewrite Ho. change (id r) with r.
        assert (El : take r (drop (Z.to_nat pos) (out <$> entries pf)) ++
          take (sum_list rooms) (drop (Z.to_nat (pos + Z.of_nat k)) (out <$> entries pf)) =
          take (r + sum_list rooms) (drop (Z.to_nat pos) (out <$> entries pf))).
        { replace (Z.to_nat (pos + Z.of_nat k)) with (Z.to_nat pos + k)%nat by lia.
          rewrite <- drop_drop. set (x := drop (Z.to_nat pos) (out <$> entries pf)).
          assert (Hk : k = length (take r x)) by (unfold x; rewrite length_take, length_drop, length_fmap; lia).
          rewrite Hk. apply take_pieces. }
        rewrite El. by replace (Z.min (pos + Z.of_nat k + Z.of_nat (sum_list rooms)) (num_ents pf))
          with (Z.min (pos + Z.of_nat (r + sum_list rooms)) (num_ents pf)) by lia.
Qed.
End Listed.

(** ** The order of a directory *)

(** The sort of a directory that was read completely ends and changes
    nothing: an entry is compared with itself, so the entries stay in the
    order in which the system found them. *)
Theorem sort_does_nothing {W H} (l : list lxafs_dirent) (s : driver W H) : forall fuel i j : nat,
  (i <= j)%nat -> ((length l - i) * (length l + 2) + (length l - j) < fuel)%nat ->
  sort_dirents fuel (length l) i j l s = Ok (l, s).
Proof.
  induction fuel as [|fuel IH]; intros i j Hij Hf; [by apply Nat.nlt_0_r in Hf|].
  cbn [sort_dirents].
  destruct (Nat.ltb_spec (S i) (length l)); [|done]. destruct (Nat.ltb_spec j (length l)).
  - rewrite M_bind_unfold. unfold compare_entry. destruct (lookup_lt_is_Some_2 l i) as [e ->]; [lia|].
    rewrite bool_decide_true by done. cbn. apply IH; lia.
  - apply IH; [lia|]. assert (length l - i = S (length l - S i))%nat as Hm by lia. rewrite Hm in Hf. lia.
Qed.

(** ** A directory with three entries *)

Definition demo_entries : list lxafs_dirent :=
  [mk_dirent LXAFS_INO_UNDEFINED DT_DIR (strncpy_field LX_MAXPATH [100; 47; 46]) [47; 46] [46];
   mk_dirent LXAFS_INO_UNDEFINED DT_REG (strncpy_field LX_MAXPATH [100; 47; 98]) [47; 98] [98];
   mk_dirent 12 DT_REG (strncpy_field LX_MAXPATH [100; 47; 97]) [47; 97] [97]].
Definition demo_dir : lxafs_filep_priv_d := mk_priv_d 4096 3 8192 12288 demo_entries.

Lemma directory_listed_once_witness :
  exists pf', list_calls demo_lookup 5 2 [1%nat; 0%nat; 9%nat] (Some demo_dir) 0 0 =
    Ok ([([46], 5, DT_DIR); ([98], 7, DT_REG); ([97], 12, DT_REG)], Some pf', 3, 0).
Proof.
  apply (directory_listed_once demo_lookup 5 2 [1%nat; 0%nat; 9%nat] demo_dir 0 0).
  - reflexivity.
  - unfold LXAFS_MAX_DENTS. cbn. lia.
  - cbn. lia.
  - lia.
  - repeat constructor; reflexivity.
Defined.

Lemma sort_does_nothing_witness :
  sort_dirents (W := ea_disk) (H := arena) 30 3 0 1 demo_entries master_driver = Ok (demo_entries, master_driver).
Proof. apply (sort_does_nothing demo_entries master_driver 30 0 1); cbn; lia. Defined.

(** With fewer entries than were announced the sort looks at one that was
    never filled. *)
Example missing_entry_compared :
  sort_dirents (W := ea_disk) (H := arena) 30 4 0 1 (take 1 demo_entries) master_driver = Err UninitRead.
Proof. vm_compute. reflexivity. Qed.

(** The directory "d" read through the daemon. *)
Example directory_read :
  (fun r : Z * list lxafs_dirent => (r.1, de_name <$> r.2, de_xname <$> r.2)) <$>
    eval (read_directory 9 (before_nul ∘ tl) (hd 0) 30
            (mk_inode true [100] 1 [] 0 0 (vfs master_inode) false) 2 (replicate 300 0))
      (mk_driver (Some (mk_lxapid (mk_ea_disk (set_files {[ [98] := []; [97] := [1] ]} disk0) ∅) 4096 65536
                          (mk_packet 0 4096 0 0 0 0) [])) (arena0 9))
  = Some (0, [[98]; [97]], [[47; 98]; [47; 97]]).
Proof. vm_compute. reflexivity. Qed.

(** When the directory can not be read its node is not freed. *)
Example failed_open_keeps_node :
  match fod_open 9 junk stack0 (before_nul ∘ tl) (hd 0) 30 (mk_inode true [122] 0 [] 0 0 (vfs master_inode) false) 0 None
          master_driver with
  | Ok (rc, _, pf, s) => Some (rc, pd_node <$> pf, map_to_list (used (kheap s)))
  | Err _ => None
  end = Some (- ENOMEM, Some 4096, [(4096, 20)]).
Proof. vm_compute. reflexivity. Qed.
