(* ===== verification/LxafsVfs.v ===== *)
(** * Directory operations and the super block of LXAFS (os2/os2/fs/lxafs:
    oofl_dir.c, oofl_inode.c)

    What the VFS calls to create, look up, link, remove and rename entries of a
    directory, and to make and drop inodes.  The state is that of one mounted
    file system: the driver below it, its inodes with their numbers, the list
    of inodes at the super block, the entries of the directory cache, and the
    counts of the locks.  Of the VFS's own functions only what they do to this
    state is here; the resolution of a path is a parameter. *)

From S2P Require Import Prelude CString DevHlp Memory Heap VSprintf TextParse.
From S2P Require Import DaemonQueue DosApi DaemonCmd DosCalls EaStore LxafsDate LxafsName LxafsLinks LxafsInode.

Definition EEXIST : Z := 17.
Definition ENODEV : Z := 19.
Definition ENOSPC : Z := 28.
Definition EMLINK : Z := 31.
Definition ENOTEMPTY : Z := 39.
Definition EOVERFLOW : Z := 75.

Definition LX_MAX_LINKS : Z := 16.
Definition ROOT_I : Z := 2.

Definition LOOKUP_OPEN : Z := 256.
Definition LOOKUP_CREATE : Z := 512.
Definition O_TRUNC : Z := 512.
(** DCPY_FAILEAS | DCPY_EXISTING *)
Definition DCPY_FLAGS : Z := 5.

(** An entry of the directory cache.  Names of DNAME_INLINE_LEN characters and
    more are not in [d_iname]. *)
Record dentry := mk_dentry {
  d_name : list Z; d_iname : list Z; d_inode : option Z; d_hashed : bool; d_op : bool; d_count : Z
}.

(** What the VFS keeps at an inode: its number, references, and I_NEW. *)
Record inode_core := mk_core { i_ino : Z; i_count : Z; i_new : bool }.

Record mount (W H : Type) := mk_mount {
  fs : lxafs W H;
  cores : gmap Z inode_core;
  inode_list : list Z;             (* the list at the super block *)
  inode_hash : list (Z * Z);       (* inode numbers and inodes *)
  dents : gmap Z dentry;
  inode_cache : list Z;            (* free objects of lxafs_inode_cachep *)
  g_ino : Z;
  last_ino : Z;
  kernel_lock : Z;
  i_sem : Z                        (* of the directory *)
}.
Arguments mk_mount {W H}. Arguments fs {W H}. Arguments cores {W H}. Arguments inode_list {W H}.
Arguments inode_hash {W H}. Arguments dents {W H}. Arguments inode_cache {W H}. Arguments g_ino {W H}.
Arguments last_ino {W H}. Arguments kernel_lock {W H}. Arguments i_sem {W H}.

Definition lx_of (i : lxafs_inode_info) : lxinode := mk_lxinode (in_lxafs i) (in_name i) (in_rootlen i).

Definition set_name (n : list Z) (rootlen : nat) (i : lxafs_inode_info) : lxafs_inode_info :=
  mk_inode (in_lxafs i) n rootlen (in_links i) (dirty_flag i) (ia_valid i) (vfs i) (i_state_dirty i).
Definition set_mode (m : Z) (i : lxafs_inode_info) : lxafs_inode_info :=
  let v := vfs i in
  set_vfs (mk_vfs m (i_nlink v) (i_uid v) (i_gid v) (i_ctime v) (i_mtime v) (i_atime v) (i_size v)
             (i_blksize v) (i_blocks v) (i_op v)) i.
Definition set_nlink (n : Z) (i : lxafs_inode_info) : lxafs_inode_info :=
  let v := vfs i in
  set_vfs (mk_vfs (i_mode v) n (i_uid v) (i_gid v) (i_ctime v) (i_mtime v) (i_atime v) (i_size v)
             (i_blksize v) (i_blocks v) (i_op v)) i.
Definition set_times (c m : Z) (i : lxafs_inode_info) : lxafs_inode_info :=
  let v := vfs i in
  set_vfs (mk_vfs (i_mode v) (i_nlink v) (i_uid v) (i_gid v) c m (i_atime v) (i_size v)
             (i_blksize v) (i_blocks v) (i_op v)) i.

Section Vfs.
Context {W : Type} {H : Type} `{DosApi W} `{EahApi W} `{Heap H} `{SecFile (driver W H)} `{Toolkit}.
Context (walk : nat) (garbage : Z -> list Z) (tz_minuteswest : Z) (stack : getfileinfo) (stack_bytes : nat -> list Z).
(** What an object of the inode cache holds when it is handed out. *)
Context (stale : Z -> lxafs_inode_info).
(** The directory the super block shows, and where it is mounted. *)
Context (rootpath xrootpath : list Z).
(** CURRENT_TIME, the entry a path leads to, and the VFS's test for an empty directory. *)
Context (now : Z) (path_walk : list Z -> Z * option Z) (simple_empty : Z -> bool).
Abbreviation Mt := (M (mount W H)).

(** ** The state *)

Definition set_fs (f : lxafs W H) (s : mount W H) : mount W H :=
  mk_mount f (cores s) (inode_list s) (inode_hash s) (dents s) (inode_cache s) (g_ino s) (last_ino s)
    (kernel_lock s) (i_sem s).
Definition set_cores (c : gmap Z inode_core) (s : mount W H) : mount W H :=
  mk_mount (fs s) c (inode_list s) (inode_hash s) (dents s) (inode_cache s) (g_ino s) (last_ino s)
    (kernel_lock s) (i_sem s).
Definition set_hash (l : list (Z * Z)) (s : mount W H) : mount W H :=
  mk_mount (fs s) (cores s) (inode_list s) l (dents s) (inode_cache s) (g_ino s) (last_ino s)
    (kernel_lock s) (i_sem s).
Definition set_dents (d : gmap Z dentry) (s : mount W H) : mount W H :=
  mk_mount (fs s) (cores s) (inode_list s) (inode_hash s) d (inode_cache s) (g_ino s) (last_ino s)
    (kernel_lock s) (i_sem s).
Definition set_cache (l : list Z) (c : list Z) (s : mount W H) : mount W H :=
  mk_mount (fs s) (cores s) l (inode_hash s) (dents s) c (g_ino s) (last_ino s) (kernel_lock s) (i_sem s).
Definition set_numbers (g l : Z) (s : mount W H) : mount W H :=
  mk_mount (fs s) (cores s) (inode_list s) (inode_hash s) (dents s) (inode_cache s) g l (kernel_lock s) (i_sem s).
Definition set_locks (k i : Z) (s : mount W H) : mount W H :=
  mk_mount (fs s) (cores s) (inode_list s) (inode_hash s) (dents s) (inode_cache s) (g_ino s) (last_ino s) k i.

Definition on_fs {A} (m : M (lxafs W H) A) : Mt A := fun s =>
  match m (fs s) with Ok (a, f) => Ok (a, set_fs f s) | Err e => Err e end.
Definition on_d {A} (m : M (driver W H) A) : Mt A := on_fs (on_drv m).
Definition of_res {A} (r : res A) : Mt A := match r with Ok a => mret a | Err e => throw e end.

Definition inode_at (p : Z) : Mt lxafs_inode_info := on_fs (get_inode p).
Definition put_inode (p : Z) (i : lxafs_inode_info) : Mt unit := on_fs (set_inode p i).
Definition update_inode (p : Z) (f : lxafs_inode_info -> lxafs_inode_info) : Mt unit :=
  i ← inode_at p; put_inode p (f i).
Definition core_at (p : Z) : Mt inode_core := fun s =>
  match cores s !! p with Some c => Ok (c, s) | None => Err NullDeref end.
Definition put_core (p : Z) (c : inode_core) : Mt unit := modify (fun s => set_cores (<[p := c]> (cores s)) s).
Definition dentry_at (d : Z) : Mt dentry := fun s =>
  match dents s !! d with Some e => Ok (e, s) | None => Err NullDeref end.
Definition put_dentry (d : Z) (e : dentry) : Mt unit := modify (fun s => set_dents (<[d := e]> (dents s)) s).
(** The inode of an entry that must have one. *)
Definition inode_of (d : Z) : Mt Z :=
  e ← dentry_at d; match d_inode e with Some p => mret p | None => throw NullDeref end.

Definition lock_kernel : Mt unit := modify (fun s => set_locks (kernel_lock s + 1) (i_sem s) s).
Definition unlock_kernel : Mt unit := modify (fun s => set_locks (kernel_lock s - 1) (i_sem s) s).
Definition up_dir : Mt unit := modify (fun s => set_locks (kernel_lock s) (i_sem s + 1) s).
Definition down_dir : Mt unit := fun s =>
  if i_sem s <=? 0 then Err Deadlock else Ok (tt, set_locks (kernel_lock s) (i_sem s - 1) s).

(** ** Inodes *)

Definition get_new_ino : Mt Z := fun s =>
  let ino := g_ino s in
  let g := u32 (g_ino s + 1) in
  Ok (ino, set_numbers (if g =? 0 then 3 else g) (last_ino s) s).

Definition lxafs_alloc_inode : Mt (option Z) :=
  c ← gets inode_cache;
  match c with
  | [] => mret None
  | p :: c =>
      let o := stale p in
      let i := mk_inode true [] 0 [] (dirty_flag o) 0 (vfs o) (i_state_dirty o) in
      modify (fun s => set_cache (p :: inode_list s) c s) ≫= fun _ =>
      put_inode p i ≫= fun _ => mret (Some p)
  end.

Definition lxafs_destroy_inode (p : Z) : Mt unit :=
  i ← inode_at p;
  on_d (free_links (in_links i)) ≫= fun _ =>
  on_fs (modify (fun f => mk_lxafs (drv f) (delete p (inodes f)) (path_refs f))) ≫= fun _ =>
  modify (fun s => set_cache (remove_first (Z.eqb p) (inode_list s)) (p :: inode_cache s) s).

(** The VFS's part: references, operations and sizes. *)
Definition alloc_inode : Mt (option Z) :=
  r ← lxafs_alloc_inode;
  match r with
  | None => mret None
  | Some p =>
      put_core p (mk_core 0 1 false) ≫= fun _ =>
      update_inode p (fun i =>
        let v := vfs i in
        set_vfs (mk_vfs (i_mode v) 1 (i_uid v) (i_gid v) (i_ctime v) (i_mtime v) (i_atime v) 0
                   (i_blksize v) 0 NoOps) i) ≫= fun _ =>
      mret (Some p)
  end.

Definition new_inode : Mt (option Z) :=
  r ← alloc_inode;
  match r with
  | None => mret None
  | Some p =>
      n ← gets (fun s => u32 (last_ino s + 1));
      modify (fun s => set_numbers (g_ino s) n s) ≫= fun _ =>
      put_core p (mk_core n 1 false) ≫= fun _ => mret (Some p)
  end.

Definition insert_inode_hash (p : Z) : Mt unit :=
  c ← core_at p; modify (fun s => set_hash ((i_ino c, p) :: inode_hash s) s).

(** An inode with the number, with one reference more, or a new one. *)
Definition iget_locked (ino : Z) : Mt (option Z) :=
  h ← gets inode_hash;
  match find_first (fun x => x.1 =? ino) h with
  | Some (_, p) =>
      c ← core_at p; put_core p (mk_core (i_ino c) (i_count c + 1) (i_new c)) ≫= fun _ => mret (Some p)
  | None =>
      r ← alloc_inode;
      match r with
      | None => mret None
      | Some p =>
          put_core p (mk_core ino 1 true) ≫= fun _ => insert_inode_hash p ≫= fun _ => mret (Some p)
      end
  end.

Definition unlock_new_inode (p : Z) : Mt unit :=
  c ← core_at p; put_core p (mk_core (i_ino c) (i_count c) false).

(** An inode that is in no hash goes with its last reference. *)
Definition iput (p : Z) : Mt unit :=
  c ← core_at p;
  put_core p (mk_core (i_ino c) (i_count c - 1) (i_new c)) ≫= fun _ =>
  s ← get;
  if (i_count c =? 1) && negb (existsb (fun x => x.2 =? p) (inode_hash s)) then lxafs_destroy_inode p
  else mret tt.

(** ** Entries *)

Definition lxafs_set_dentry_operations (d : Z) : Mt unit :=
  e ← dentry_at d; put_dentry d (mk_dentry (d_name e) (d_iname e) (d_inode e) (d_hashed e) true (d_count e)).

Definition d_instantiate (d : Z) (p : option Z) : Mt unit :=
  e ← dentry_at d;
  match d_inode e with
  | Some _ => throw BugOn
  | None => put_dentry d (mk_dentry (d_name e) (d_iname e) p (d_hashed e) (d_op e) (d_count e))
  end.

Definition d_rehash (d : Z) : Mt unit :=
  e ← dentry_at d; put_dentry d (mk_dentry (d_name e) (d_iname e) (d_inode e) true (d_op e) (d_count e)).
Definition d_add (d : Z) (p : option Z) : Mt unit := d_instantiate d p ≫= fun _ => d_rehash d.

Definition dget (d n : Z) : Mt unit :=
  e ← dentry_at d; put_dentry d (mk_dentry (d_name e) (d_iname e) (d_inode e) (d_hashed e) (d_op e) (d_count e + n)).

(** Linux/fs/lf_libfs.c *)
Definition simple_link (old_dentry dir d : Z) : Mt unit :=
  p ← inode_of old_dentry;
  update_inode dir (set_times now now) ≫= fun _ =>
  update_inode p (fun i => set_nlink (u32 (i_nlink (vfs i) + 1)) (set_times now (i_mtime (vfs i)) i)) ≫= fun _ =>
  c ← core_at p;
  put_core p (mk_core (i_ino c) (i_count c + 1) (i_new c)) ≫= fun _ =>
  dget d 1 ≫= fun _ => d_instantiate d (Some p).

Definition simple_unlink (dir d : Z) : Mt unit :=
  p ← inode_of d;
  update_inode dir (set_times now now) ≫= fun _ =>
  update_inode p (fun i => set_nlink (u32 (i_nlink (vfs i) - 1)) (set_times now (i_mtime (vfs i)) i)) ≫= fun _ =>
  dget d (-1).

Definition simple_rename (old_dir old_dentry new_dir new_dentry : Z) : Mt Z :=
  p ← inode_of old_dentry;
  i ← inode_at p;
  let they_are_dirs := S_ISDIR (i_mode (vfs i)) in
  if negb (simple_empty new_dentry) then mret (- ENOTEMPTY) else
  e ← dentry_at new_dentry;
  (match d_inode e with
   | Some _ =>
       simple_unlink new_dir new_dentry ≫= fun _ =>
       if they_are_dirs then update_inode old_dir (fun i => set_nlink (u32 (i_nlink (vfs i) - 1)) i) else mret tt
   | None =>
       if they_are_dirs then
         update_inode old_dir (fun i => set_nlink (u32 (i_nlink (vfs i) - 1)) i) ≫= fun _ =>
         update_inode new_dir (fun i => set_nlink (u32 (i_nlink (vfs i) + 1)) i)
       else mret tt
   end) ≫= fun _ =>
  update_inode old_dir (set_times now now) ≫= fun _ =>
  update_inode new_dir (set_times now now) ≫= fun _ =>
  update_inode p (fun i => set_times now (i_mtime (vfs i)) i) ≫= fun _ => mret 0.

(** ** Directories *)

(** A block of LX_MAXPATH bytes. *)
Definition name_block : Mt Z := on_d (drv_kmalloc LX_MAXPATH).

(** The full name of [name] in the directory. *)
Definition fullname_in (dir : Z) (name : list Z) : Mt (list Z) :=
  i ← inode_at dir; of_res (lxafs_build_fullname_from_parent_i (lx_of i) name LXAFS_BUILDFNAME_S).

Definition full_info (fullname : list Z) : Mt (option lxafs_fileinfo) :=
  on_d (lxafs_get_fullfileinfo walk garbage stack fullname).
Definition free_info (fi : lxafs_fileinfo) (links : list lxafs_linkinfo) : Mt unit :=
  on_d (lxafs_free_fileinfo (fi_node fi) links).

Definition init_inode (p : Z) (fi : option lxafs_fileinfo) : Mt unit :=
  update_inode p (fun i => set_vfs (lxafs_init_inode tz_minuteswest (vfs i) (fi_info <$> fi)).1 i).

(** [err] is 0 when the inode can not be allocated. *)
Definition iod_create (dir d : Z) : Mt Z :=
  e ← dentry_at d;
  fullname ← name_block;
  if fullname =? 0 then mret (- ENOMEM) else
  full ← fullname_in dir (d_name e);
  let err := (lxafs_chk_name (d_name e) (length (d_name e))).1 in
  if negb (err =? 0) then
    on_d (drv_kfree fullname) ≫= fun _ => mret (if err =? - ENOENT then - EINVAL else err)
  else
    lock_kernel ≫= fun _ =>
    result ← new_inode;
    match result with
    | None => unlock_kernel ≫= fun _ => on_d (drv_kfree fullname) ≫= fun _ => mret err
    | Some p =>
        update_inode p (set_name full (length rootpath)) ≫= fun _ =>
        ino ← get_new_ino;
        c ← core_at p;
        put_core p (mk_core ino (i_count c) (i_new c)) ≫= fun _ =>
        err ← on_d (lxafs_create_file full);
        if negb (err =? 0) then
          iput p ≫= fun _ => unlock_kernel ≫= fun _ => on_d (drv_kfree fullname) ≫= fun _ => mret err
        else
          fileinfo ← full_info full;
          (match fileinfo with
           | Some fi => init_inode p fileinfo ≫= fun _ => free_info fi (fi_links fi)
           | None => mret tt
           end) ≫= fun _ =>
          update_inode p (fun i => set_mode (Z.land (i_mode (vfs i)) (Z.lnot S_IXUGO)) i) ≫= fun _ =>
          insert_inode_hash p ≫= fun _ =>
          lxafs_set_dentry_operations d ≫= fun _ =>
          d_instantiate d (Some p) ≫= fun _ =>
          unlock_kernel ≫= fun _ => on_d (drv_kfree fullname) ≫= fun _ => mret 0
    end.

(** The entry of the master, if it is found. *)
Definition lxafs_linkmaster_lookup (fi : lxafs_fileinfo) : Mt (option Z) :=
  let name := before_nul (fi_name fi) in
  x ← on_d (lxafs_file_exists walk stack_bytes name);
  if x : bool then
    xname ← of_res (fits_path (xrootpath ++ drop (length rootpath) name));
    lock_kernel ≫= fun _ => up_dir ≫= fun _ =>
    let r := path_walk xname in
    result ← (if negb (r.1 =? 0) then mret None else
              match r.2 with
              | None => mret None
              | Some d => e ← dentry_at d; mret (match d_inode e with Some _ => Some d | None => None end)
              end);
    down_dir ≫= fun _ => unlock_kernel ≫= fun _ => mret result
  else mret None.

(** The rest of iod_lookup from its label do_it: the entry of a file. *)
Definition lookup_found (dir d fullname : Z) (full : list Z) (fi : lxafs_fileinfo) : Mt Z :=
  let free (links : list lxafs_linkinfo) := free_info fi links ≫= fun _ => on_d (drv_kfree fullname) in
  if negb (bool_decide (before_nul (fi_name fi) = [])) then
    unlock_kernel ≫= fun _ =>
    m ← lxafs_linkmaster_lookup fi;
    lock_kernel ≫= fun _ =>
    (match m with
     | None => mret tt
     | Some m => simple_link m dir d ≫= fun _ => lxafs_set_dentry_operations d ≫= fun _ => d_rehash d
     end) ≫= fun _ => unlock_kernel ≫= fun _ => free (fi_links fi) ≫= fun _ => mret 0
  else
    ino ← get_new_ino;
    result ← iget_locked ino;
    match result with
    | None => unlock_kernel ≫= fun _ => free (fi_links fi) ≫= fun _ => mret (- ENOENT)
    | Some p =>
        update_inode p (set_name full (length rootpath)) ≫= fun _ =>
        c ← core_at p;
        (if i_new c then
           init_inode p (Some fi) ≫= fun _ =>
           update_inode p (fun i =>
             if i_mode (vfs i) =? 0
             then set_nlink 1 (set_mode (Z.land S_IFREG (Z.lnot S_IXUGO)) i) else i) ≫= fun _ =>
           unlock_new_inode p
         else mret tt) ≫= fun _ =>
        lxafs_set_dentry_operations d ≫= fun _ =>
        unlock_kernel ≫= fun _ =>
        d_add d (Some p) ≫= fun _ =>
        (match fi_links fi with
         | [] => free []
         | l =>
             i ← inode_at p;
             i ← on_d (lxafs_add_link_childs walk stack_bytes l i);
             put_inode p i ≫= fun _ => free []
         end) ≫= fun _ => mret 0
    end.

(** [nd]: the flags of the lookup and of the open it is for. *)
Definition iod_lookup (dir d : Z) (nd : option (Z * Z)) : Mt Z :=
  e ← dentry_at d;
  fullname ← name_block;
  if fullname =? 0 then mret (- ENOMEM) else
  full ← fullname_in dir (d_name e);
  lock_kernel ≫= fun _ =>
  let err := (lxafs_chk_name (d_name e) (length (d_name e))).1 in
  if err =? - ENAMETOOLONG then
    unlock_kernel ≫= fun _ => on_d (drv_kfree fullname) ≫= fun _ => mret (- ENAMETOOLONG)
  else if negb (err =? 0) then
    lxafs_set_dentry_operations d ≫= fun _ => unlock_kernel ≫= fun _ =>
    d_add d None ≫= fun _ => on_d (drv_kfree fullname) ≫= fun _ => mret 0
  else
    fileinfo ← full_info full;
    let absent (rc : Z) := unlock_kernel ≫= fun _ => on_d (drv_kfree fullname) ≫= fun _ => mret rc in
    match nd, fileinfo with
    | None, Some fi => lookup_found dir d fullname full fi
    | None, None => absent 0
    | Some (flags, open_flags), Some fi =>
        if has flags LOOKUP_CREATE && negb (has open_flags O_TRUNC) then
          (* the file information is not freed *)
          unlock_kernel ≫= fun _ => on_d (drv_kfree fullname) ≫= fun _ => mret (- EEXIST)
        else lookup_found dir d fullname full fi
    | Some (flags, open_flags), None => absent (if has flags LOOKUP_CREATE then 0 else - ENOENT)
    end.

(** The blocks of two link infos, and their release. *)
Definition two_links : Mt (option lxafs_linkinfo * option lxafs_linkinfo) :=
  a ← on_d (lxafs_alloc_linkinfo garbage); b ← on_d (lxafs_alloc_linkinfo garbage); mret (a, b).
Definition free_link (l : option lxafs_linkinfo) : Mt unit :=
  match l with Some l => on_d (lxafs_free_linkinfo l) | None => mret tt end.

(** What the lookup of a path finds is the inode of its entry. *)
Definition path_inode (s : mount W H) (n : list Z) : Z * option Z :=
  let r := path_walk n in (r.1, r.2 ≫= fun d => dents s !! d ≫= d_inode).

Definition iod_link (old_dentry dir d : Z) : Mt Z :=
  p ← inode_of old_dentry;
  old ← inode_at p;
  if LX_MAX_LINKS - 1 <? i_nlink (vfs old) then mret (- EMLINK) else
  l ← two_links;
  ret ← match l with
        | (Some linkmaster, Some link) =>
            e ← dentry_at d;
            link ← fullname_in dir (d_iname e);
            c ← on_d (lxafs_create_file link);
            if c =? 0 then
              simple_link old_dentry dir d ≫= fun _ =>
              lxafs_set_dentry_operations d ≫= fun _ =>
              d_rehash d ≫= fun _ =>
              old ← inode_at p;
              let master := in_name old in
              rc ← on_d (lxafs_write_linkchild_info walk link master);
              (if rc =? 0 then
                 s ← get;
                 _ ← on_fs (lxafs_attach_linked_file garbage (path_inode s) (drop (length rootpath) master) (link ++ [0]));
                 mret tt
               else mret tt) ≫= fun _ => mret 0
            else mret (- EPERM)
        | _ => mret (- EPERM)
        end;
  free_link l.1 ≫= fun _ => free_link l.2 ≫= fun _ => mret ret.

(** OS/2's deletion of a file or a directory. *)
Definition delete_name (i : lxafs_inode_info) (name : list Z) : Mt Z :=
  on_d (if S_ISDIR (i_mode (vfs i)) then LX_DOSDELETEDIR walk (name ++ [0]) else LX_DOSDELETE walk (name ++ [0])).

(** All links that are left get the new master's name. *)
Fixpoint relink_childs (links : list lxafs_linkinfo) (master : list Z) : M (driver W H) unit :=
  match links with
  | [] => mret tt
  | l :: links =>
      n ← get_str (l_name l); _ ← lxafs_write_linkchild_info walk n master; relink_childs links master
  end.

(** The master of links is removed: its contents move to the last link.  The
    result is the code and the link info that is to be freed. *)
Definition unlink_master (p : Z) (link : list Z) (linkmaster lfo : lxafs_linkinfo) : Mt (Z * lxafs_linkinfo) :=
  i ← inode_at p;
  to ← of_res (array_str (l_name lfo));
  _ ← on_d (LX_DOSCOPY walk (link ++ [0]) (to ++ [0]) DCPY_FLAGS);
  rc ← delete_name i link;
  if rc =? 0 then
    _ ← on_d (LX_EADELETE walk to LXEAN_LINKEDTO);
    on_d (lxafs_free_linkinfo linkmaster) ≫= fun _ =>
    let rest := remove_first (fun l => l_node l =? l_node lfo) (in_links i) in
    update_inode p (fun i => set_links rest (set_name to (in_rootlen i) i)) ≫= fun _ =>
    on_d (relink_childs rest to) ≫= fun _ =>
    update_inode p (lxafs_mark_inode_dirty LXAFS_DIRTY_LINKLIST) ≫= fun _ =>
    mret (rc, lfo)
  else mret (rc, linkmaster).

Definition iod_unlink (dir d : Z) : Mt Z :=
  p ← inode_of d;
  l ← two_links;
  match l with
  | (Some linkmaster, Some linkblock) =>
      e ← dentry_at d;
      link ← fullname_in dir (d_iname e);
      i ← inode_at p;
      let master := in_name i in
      r ← (if same_name (link ++ [0]) (master ++ [0]) then
             match last (in_links i) with
             | Some lfo => unlink_master p link linkmaster lfo
             | None => rc ← delete_name i link; mret (rc, linkmaster)
             end
           else
             s ← get;
             _ ← on_fs (lxafs_detach_linked_file (path_inode s) (drop (length rootpath) master) (link ++ [0]));
             i ← inode_at p;
             rc ← delete_name i link;
             simple_unlink dir d ≫= fun _ => mret (rc, linkmaster));
      on_d (lxafs_free_linkinfo r.2) ≫= fun _ => on_d (lxafs_free_linkinfo linkblock) ≫= fun _ =>
      mret (if r.1 =? 0 then 0 else - EACCES)
  | _ => free_link l.1 ≫= fun _ => free_link l.2 ≫= fun _ => mret (- ENOENT)
  end.

(** A name that is refused keeps the block. *)
Definition iod_mkdir (dir d : Z) : Mt Z :=
  e ← dentry_at d;
  fullname ← name_block;
  if fullname =? 0 then mret (- ENOMEM) else
  let err := (lxafs_chk_name (d_name e) (length (d_name e))).1 in
  if negb (err =? 0) then mret (if err =? - ENOENT then - EINVAL else err) else
  full ← fullname_in dir (d_name e);
  lock_kernel ≫= fun _ =>
  rc ← on_d (LX_DOSCREATEDIR walk full);
  err ← (if negb (rc =? 0) then mret (- ENOENT) else
         result ← new_inode;
         match result with
         | None => mret (- ENOENT)
         | Some p =>
             update_inode p (fun i =>
               let v := vfs i in
               set_vfs (mk_vfs (Z.lor (i_mode v) S_IFDIR) 2 (i_uid v) (i_gid v) (i_ctime v) (i_mtime v) (i_atime v)
                          2048 (i_blksize v) (i_blocks v) DirOps) i) ≫= fun _ =>
             update_inode dir (fun i => set_nlink (u32 (i_nlink (vfs i) + 1)) i) ≫= fun _ =>
             update_inode p (set_name full (length rootpath)) ≫= fun _ =>
             insert_inode_hash p ≫= fun _ =>
             d_instantiate d (Some p) ≫= fun _ =>
             d_rehash d ≫= fun _ => mret 0
         end);
  unlock_kernel ≫= fun _ => on_d (drv_kfree fullname) ≫= fun _ => mret err.

Definition iod_rmdir (dir d : Z) : Mt Z :=
  e ← dentry_at d;
  fullname ← name_block;
  if fullname =? 0 then mret (- ENOMEM) else
  full ← fullname_in dir (d_name e);
  err ← on_d (LX_DOSDELETEDIR walk (full ++ [0]));
  on_d (drv_kfree fullname) ≫= fun _ =>
  mret (if err =? 0 then err else - EACCES).

(** The new name of an inode below a directory that was renamed; names have
    LX_MAXPATH bytes, and a longer one would be cut. *)
Definition renamed (oldname newname name : list Z) : option (list Z) :=
  if bool_decide (take (length oldname) name = oldname)
  then Some (newname ++ drop (length oldname) name) else None.

Definition write_dirty (p : Z) : Mt unit :=
  i ← inode_at p;
  i ← on_d (lxafs_write_inode walk garbage tz_minuteswest stack_bytes
              (lxafs_mark_inode_dirty (LXAFS_DIRTY_LINKLIST + LXAFS_DIRTY_LINKCHILDS) i));
  put_inode p i.

Fixpoint rename_known (ps : list Z) (oldname newname : list Z) : Mt unit :=
  match ps with
  | [] => mret tt
  | p :: ps =>
      i ← inode_at p;
      (match renamed oldname newname (in_name i) with
       | Some n =>
           n ← of_res (fits_path n);
           put_inode p (set_name n (in_rootlen i) i) ≫= fun _ => write_dirty p
       | None => mret tt
       end) ≫= fun _ => rename_known ps oldname newname
  end.

Definition lxafs_rename (old_dir old_dentry new_dir new_dentry : Z) : Mt Z :=
  p ← inode_of old_dentry;
  o ← on_d (LX_alloc_objects (fun sz _ => drv_kmalloc sz) 3 LX_MAXPATH 0);
  match o.2 with
  | block :: _ =>
      oe ← dentry_at old_dentry;
      oldname ← fullname_in old_dir (d_name oe);
      ne ← dentry_at new_dentry;
      newname ← fullname_in new_dir (d_name ne);
      err ← on_d (LX_LXAFS_RENAME walk oldname newname);
      (if err =? 0 then
         update_inode p (fun i => set_name newname (in_rootlen i) i) ≫= fun _ =>
         write_dirty p ≫= fun _ =>
         i ← inode_at p;
         if S_ISDIR (i_mode (vfs i)) then s ← get; rename_known (inode_list s) oldname newname else mret tt
       else mret tt) ≫= fun _ =>
      on_d (drv_kfree block) ≫= fun _ => mret err
  | [] => mret o.1
  end.

(** mark_inode_dirty *)
Definition mark_dirty (p : Z) : Mt unit := update_inode p (fun i => set_dirty (dirty_flag i) true i).

Definition iod_rename (old_dir old_dentry new_dir new_dentry : Z) : Mt Z :=
  err ← lxafs_rename old_dir old_dentry new_dir new_dentry;
  if err =? 0 then
    p ← inode_of old_dentry;
    err ← simple_rename old_dir old_dentry new_dir new_dentry;
    mark_dirty old_dir ≫= fun _ => mark_dirty p ≫= fun _ => mark_dirty new_dir ≫= fun _ =>
    d_rehash old_dentry ≫= fun _ => d_rehash new_dentry ≫= fun _ => mret err
  else mret (- EBUSY).

(** ** Attributes *)

(** linux/fs.h's iattr. *)
Record iattr := mk_iattr {
  ia_flags : Z; ia_mode : Z; ia_uid : Z; ia_gid : Z; ia_size : Z; ia_atime : Z; ia_mtime : Z; ia_ctime : Z
}.

Definition S_ISGID : Z := 1024.
Definition EFBIG : Z := 27.
(** sb->s_maxbytes, as lxafs_fill_super sets it. *)
Definition s_maxbytes : Z := 4096.

(** The limit of the process on file sizes; [None]: there is none. *)
Context (rlim_fsize : option Z).
(** What the permission check of the VFS says, and whether the process may
    keep the set-group-id bit of a file. *)
Context (inode_change_ok : lxafs_inode_info -> iattr -> Z) (keep_sgid : Z -> bool).

Definition set_isize (n : Z) (i : lxafs_inode_info) : lxafs_inode_info :=
  let v := vfs i in
  set_vfs (mk_vfs (i_mode v) (i_nlink v) (i_uid v) (i_gid v) (i_ctime v) (i_mtime v) (i_atime v) n
             (i_blksize v) (i_blocks v) (i_op v)) i.

(** The pages of the file are left out; only files have a truncate. *)
Definition vmtruncate (i : lxafs_inode_info) (offset : Z) : M (driver W H) (Z * lxafs_inode_info) :=
  if (i_size (vfs i) <? offset)
     && (match rlim_fsize with Some l => l <? offset | None => false end || (s_maxbytes <? offset))
  then mret (- EFBIG, i)
  else
    i ← (match i_op (vfs i) with FileOps => iof_truncate walk (set_isize offset i) | _ => mret (set_isize offset i) end);
    mret (0, i).

Definition set_attributes (valid : Z) (a : iattr) (i : lxafs_inode_info) : lxafs_inode_info :=
  let v := vfs i in
  let gid := if has valid ATTR_GID then ia_gid a else i_gid v in
  let v := mk_vfs
    (if has valid ATTR_MODE then (if keep_sgid gid then ia_mode a else Z.land (ia_mode a) (Z.lnot S_ISGID)) else i_mode v)
    (i_nlink v) (if has valid ATTR_UID then ia_uid a else i_uid v) gid
    (if has valid ATTR_CTIME then ia_ctime a else i_ctime v)
    (if has valid ATTR_MTIME then ia_mtime a else i_mtime v)
    (if has valid ATTR_ATIME then ia_atime a else i_atime v)
    (i_size v) (i_blksize v) (i_blocks v) (i_op v) in
  set_dirty (dirty_flag i) true (set_vfs v i).

(** Linux/fs/lf_attr.c *)
Definition inode_setattr (i : lxafs_inode_info) (a : iattr) : M (driver W H) (Z * lxafs_inode_info) :=
  let valid := ia_flags a in
  if has valid ATTR_SIZE then
    if negb (ia_size a =? i_size (vfs i)) then
      r ← vmtruncate i (ia_size a);
      if negb (r.1 =? 0) || (valid =? ATTR_SIZE) then mret r else mret (0, set_attributes valid a r.2)
    else mret (0, set_attributes (Z.lor valid (ATTR_MTIME + ATTR_CTIME)) a i)
  else mret (0, set_attributes valid a i).

Definition iof_setattr (d : Z) (a : iattr) : Mt Z :=
  p ← inode_of d;
  i ← inode_at p;
  let i := set_valid (Z.lor (ia_valid i) (ia_flags a)) i in
  lock_kernel ≫= fun _ =>
  r ← (let e := inode_change_ok i a in if e =? 0 then on_d (inode_setattr i a) else mret (e, i));
  unlock_kernel ≫= fun _ =>
  i ← (if r.1 =? 0 then on_d (lxafs_write_inode walk garbage tz_minuteswest stack_bytes r.2) else mret r.2);
  put_inode p i ≫= fun _ => mret r.1.

(** ** The super block *)

(** The drive in the name of the device, lxda1 ...; 0: the root path. *)
Definition lxafs_drive_no_from_super (s_id : list Z) : Z :=
  if negb (at_ s_id 5 =? 0) then (at_ s_id 4 - 49) * 10 + at_ s_id 5 - 49 else at_ s_id 4 - 49.

Definition lxafs_is_lxafs_inode (s_id : list Z) : bool :=
  (at_ s_id 0 =? 108) && (at_ s_id 1 =? 120) && (at_ s_id 2 =? 100).

Context (s_id lx_root_path : list Z).

(** An inode that is not the root stops in the debugger, and is read under the
    name it has. *)
Definition lxafs_read_inode (p : Z) : Mt unit :=
  if negb (lxafs_is_lxafs_inode s_id) then mret tt else
  c ← core_at p;
  (if i_ino c =? ROOT_I then
     n ← of_res (lxafs_get_root_path_s (lxafs_drive_no_from_super s_id) lx_root_path);
     update_inode p (set_name n (length rootpath))
   else mret tt) ≫= fun _ =>
  i ← inode_at p;
  i ← on_d (lxafs_do_read_inode walk garbage tz_minuteswest stack i (in_name i));
  put_inode p i.

Definition iget (ino : Z) : Mt (option Z) :=
  r ← iget_locked ino;
  match r with
  | None => mret None
  | Some p =>
      c ← core_at p;
      (if i_new c then lxafs_read_inode p ≫= fun _ => unlock_new_inode p else mret tt) ≫= fun _ => mret (Some p)
  end.

Definition sizeof_super_info : Z := 544.

(** Code, the node of the super block's data with the directory it shows, and
    the root inode; [dev]: the device number is valid, [d_alloc_root]: the
    entry made for the root, if there is memory. *)
Definition lxafs_fill_super (dev : bool) (d_alloc_root : Z -> option Z) : Mt (Z * option (Z * list Z) * option Z) :=
  if negb (bool_decide (before_nul (take 4 s_id) = [108; 120; 100; 97])) then mret (- ENODEV, None, None)
  else if negb dev then mret (- EOVERFLOW, None, None)
  else
    sbi ← on_d (drv_kmalloc sizeof_super_info);
    if sbi =? 0 then mret (- ENOSPC, None, None) else
    modify (fun s => set_cache [] (inode_cache s) s) ≫= fun _ =>
    path ← of_res (lxafs_get_root_path_s (lxafs_drive_no_from_super s_id) lx_root_path);
    root ← iget ROOT_I;
    match root with
    | Some p =>
        match d_alloc_root p with
        | Some d => lxafs_set_dentry_operations d ≫= fun _ => mret (0, Some (sbi, path), Some p)
        | None => iput p ≫= fun _ => mret (0, Some (sbi, path), None)
        end
    | None => mret (0, Some (sbi, path), None)
    end.

Definition lxafs_put_super (sbi : Z) : Mt unit := on_d (drv_kfree sbi).
End Vfs.
