(* ===== verification/LxafsAccount.v ===== *)
(** * The memory and the locks of the directory operations of LXAFS

    Every operation of LxafsVfs accounts for its memory: the blocks of the
    driver are those of the other components and the nodes of the lists of
    links of the inodes, and on every path out of an operation the locks are
    as they were.  The proofs are in a small logic of partial correctness whose
    assertion [held] lists the blocks an operation has in its hands. *)

From S2P Require Import Prelude CString DevHlp Memory Heap VSprintf TextParse.
From S2P Require Import DaemonQueue DosApi DaemonCmd DosCalls EaStore LxafsDate LxafsName LxafsLinks LxafsInode LxafsVfs.

(** ** Lists of nodes *)

Lemma owns_perm ls ls' (U V : gmap Z Z) : ls ≡ₚ ls' -> owns ls U V -> owns ls' U V.
Proof.
  intros Hp. revert V. induction Hp as [|x l l' _ IH|x y l|l1 l2 l3 _ IH1 _ IH2]; intros V; cbn [owns].
  - done.
  - intros (V1 & Ho & Hn & ->). exists V1. auto.
  - intros (V1 & (V2 & Ho & Hn2 & ->) & Hn1 & ->).
    apply lookup_insert_None in Hn1 as [Hn1 Hne].
    exists (<[l_node y := sizeof_linkinfo]> V2). split_and!.
    + exists V2. done.
    + by rewrite lookup_insert_ne.
    + by rewrite insert_insert_ne.
  - auto.
Qed.

#[export] Instance owns_Proper : Proper ((≡ₚ) ==> (=) ==> (=) ==> iff) owns.
Proof. intros l l' Hl U ? <- V ? <-. split; by apply owns_perm. Qed.

Lemma owns_fresh ls (U V : gmap Z Z) p : owns ls U V -> V !! p = None -> U !! p = None.
Proof.
  revert V. induction ls as [|l ls IH]; intros V; cbn [owns]; [by intros ->|].
  intros (V1 & Ho & Hn & ->) [Hp _]%lookup_insert_None. eauto.
Qed.

Lemma owns_NoDup ls (U V : gmap Z Z) : owns ls U V -> NoDup (l_node <$> ls).
Proof.
  revert V. induction ls as [|l ls IH]; intros V; [constructor|]. intros (V1 & Ho & Hn & ->). cbn.
  apply NoDup_cons. split; [|eauto]. clear IH. revert V1 Ho Hn. induction ls as [|x ls IH]; intros V1; cbn [owns fmap list_fmap].
  - intros _ _ Hx. by apply not_elem_of_nil in Hx.
  - intros (V2 & Ho & Hn2 & ->) [Hn Hne]%lookup_insert_None [Hx|Hx]%elem_of_cons; [congruence|by eapply IH].
Qed.

Lemma owns_subseteq ls (U V : gmap Z Z) : owns ls U V -> U ⊆ V.
Proof.
  revert V. induction ls as [|l ls IH]; intros V; cbn [owns]; [by intros ->|].
  intros (V1 & Ho & Hn & ->). transitivity V1; [auto|]. by apply insert_subseteq.
Qed.

(** A block more below the nodes. *)
Lemma owns_add ls (U V : gmap Z Z) p sz :
  owns ls U V -> V !! p = None -> owns ls (<[p := sz]> U) (<[p := sz]> V).
Proof.
  revert V. induction ls as [|l ls IH]; intros V; cbn [owns]; [by intros ->|].
  intros (V1 & Ho & Hn & ->) [Hp Hne]%lookup_insert_None. exists (<[p := sz]> V1). split_and!; [auto| |].
  - by rewrite lookup_insert_ne.
  - by rewrite insert_insert_ne.
Qed.

Lemma owns_remove ls (U V : gmap Z Z) p sz :
  U !! p = None -> owns ls (<[p := sz]> U) V -> exists V', V = <[p := sz]> V' /\ V' !! p = None /\ owns ls U V'.
Proof.
  intros Hp. revert V. induction ls as [|l ls IH]; intros V; cbn [owns]; [intros ->; eauto|].
  intros (V1 & Ho & Hn & ->). destruct (IH V1 Ho) as (V' & -> & Hn' & Ho').
  apply lookup_insert_None in Hn as [Hn Hne].
  exists (<[l_node l := sizeof_linkinfo]> V'). split_and!.
  - by rewrite insert_insert_ne.
  - by rewrite lookup_insert_ne.
  - exists V'. auto.
Qed.

(** All links of the inodes. *)
Definition all_links (I : gmap Z lxafs_inode_info) : list lxafs_linkinfo :=
  map_to_list I ≫= fun x => in_links x.2.

Lemma all_links_insert I p i : I !! p = None -> all_links (<[p := i]> I) ≡ₚ in_links i ++ all_links I.
Proof. intros Hp. unfold all_links. by rewrite map_to_list_insert. Qed.

Lemma all_links_delete I p i : I !! p = Some i -> all_links I ≡ₚ in_links i ++ all_links (delete p I).
Proof.
  intros Hp. rewrite <- (insert_delete_id I p i Hp) at 1. apply all_links_insert, lookup_delete_eq.
Qed.

Lemma all_links_change I p i j :
  I !! p = Some i -> all_links (<[p := j]> I) ≡ₚ in_links j ++ all_links (delete p I).
Proof. intros Hp. rewrite <- insert_delete_eq. apply all_links_insert, lookup_delete_eq. Qed.

Lemma all_links_same I p i j :
  I !! p = Some i -> in_links j = in_links i -> all_links (<[p := j]> I) ≡ₚ all_links I.
Proof. intros Hp Hl. by rewrite (all_links_change I p i j Hp), Hl, <- (all_links_delete I p i Hp). Qed.

(** ** Partial correctness *)

Definition triple {S A} (P : S -> Prop) (m : M S A) (Q : A -> S -> Prop) : Prop :=
  forall s a s', P s -> m s = Ok (a, s') -> Q a s'.

Section Triple.
Context {S : Type}.
Implicit Types (P : S -> Prop).

Lemma triple_ret {A} (a : A) P : triple P (mret a) (fun b s => b = a /\ P s).
Proof. by intros s b s' HP [= <- <-]. Qed.
Lemma triple_throw {A} e P (Q : A -> S -> Prop) : triple P (throw e) Q.
Proof. done. Qed.
Lemma triple_bind {A B} (m : M S A) (k : A -> M S B) P Q R :
  triple P m Q -> (forall a, triple (Q a) (k a) R) -> triple P (m ≫= k) R.
Proof. intros Hm Hk s b s' HP (a & s1 & E1 & E2)%M_bind_Ok. eapply Hk; [|exact E2]. by eapply Hm. Qed.
Lemma triple_weaken {A} (m : M S A) P P' (Q Q' : A -> S -> Prop) :
  triple P' m Q' -> (forall s, P s -> P' s) -> (forall a s, Q' a s -> Q a s) -> triple P m Q.
Proof. intros Hm HP HQ s a s' Hs E. eapply HQ, Hm; [|exact E]. auto. Qed.
Lemma triple_assoc {A B C} (m : M S A) (k : A -> M S B) (g : B -> M S C) P Q R :
  triple P (m ≫= k) Q -> (forall b, triple (Q b) (g b) R) -> triple P (m ≫= fun a => k a ≫= g) R.
Proof.
  intros Hm Hg s c s' HP (a & s1 & E1 & (b & s2 & E2 & E3)%M_bind_Ok)%M_bind_Ok.
  eapply Hg; [|exact E3]. eapply Hm; [exact HP|]. by rewrite M_bind_unfold, E1.
Qed.
Lemma triple_assoc3 {A B C D} (m : M S A) (k : A -> M S B) (g : A -> B -> M S C) (h : C -> M S D) P Q R :
  triple P (m ≫= fun a => k a ≫= g a) Q -> (forall c, triple (Q c) (h c) R) ->
  triple P (m ≫= fun a => k a ≫= fun b => g a b ≫= h) R.
Proof.
  intros Hm Hh s d s' HP (a & s1 & E1 & (b & s2 & E2 & (c & s3 & E3 & E4)%M_bind_Ok)%M_bind_Ok)%M_bind_Ok.
  eapply Hh; [|exact E4]. eapply Hm; [exact HP|]. by rewrite M_bind_unfold, E1, M_bind_unfold, E2.
Qed.
Lemma triple_weaken' {A} (m : M S A) P P' (Q : A -> S -> Prop) :
  (forall s, P s -> P' s) -> triple P' m Q -> triple P m Q.
Proof. intros HP Hm. by eapply triple_weaken. Qed.
Lemma triple_pure {A} (m : M S A) (X : Prop) P Q : (X -> triple P m Q) -> triple (fun s => X /\ P s) m Q.
Proof. intros Hm s a s' [HX HP] E. by eapply Hm. Qed.
Lemma triple_exists {A B} (m : M S A) (P : B -> S -> Prop) Q :
  (forall b, triple (P b) m Q) -> triple (fun s => exists b, P b s) m Q.
Proof. intros Hm s a s' [b HP] E. by eapply Hm. Qed.
Lemma triple_or {A} (m : M S A) P P' Q : triple P m Q -> triple P' m Q -> triple (fun s => P s \/ P' s) m Q.
Proof. intros H1 H2 s a s' [HP|HP] E; [by eapply H1|by eapply H2]. Qed.
Lemma triple_keeps {A T} (R : S -> T) (X : T -> Prop) (m : M S A) :
  keeps R m -> triple (fun s => X (R s)) m (fun _ s => X (R s)).
Proof. intros Hk s a s' HP E. by rewrite (Hk _ _ _ E). Qed.
End Triple.

(** ** Texts *)

Lemma dec_bound z : (length (dec z) <= 65)%nat.
Proof.
  unfold dec. rewrite number_text_plain. unfold sign_text, prefix_text.
  change (flag SIGN SPECIAL) with false. change (flag SIGN PLUS) with false. change (flag SIGN SPACE) with false.
  change (flag SIGN LARGE) with false. change (flag SIGN SIGN) with true. cbn match.
  match goal with |- context [digits_text ?d ?b ?k ?n] => pose proof (digits_text_length d b k n) as Hd; set (ds := digits_text d b k n) in * end.
  assert (Ez : zeros (-1 - length ds) = []) by (unfold zeros; by replace (Z.to_nat (-1 - length ds)) with O by lia).
  rewrite Ez. destruct (negative _ _); rewrite ?length_app; cbn [length app]; lia.
Qed.

(** The security helpers work outside the driver's heap. *)
Class SecKeeps (W H : Type) `{SecFile (driver W H)} := {
  sec_open_keeps n a m : keeps (@kheap W H) (SecHlpOpen n a m);
  sec_close_keeps h : keeps (@kheap W H) (SecHlpClose h);
  sec_write_keeps h b o : keeps (@kheap W H) (SecHlpWriteAt h b o)
}.

(** ** Calls of the driver *)

Section Driver.
Context {W : Type} {H : Type} `{DosApi W} `{EahApi W} `{HeapLaws H} `{SecKeeps W H} `{Toolkit}.
Context (walk : nat) (garbage : Z -> list Z) (tz_minuteswest : Z) (stack : getfileinfo) (stack_bytes : nat -> list Z).
Context (buffers_small : (FILESTATUS4_len < 1000 /\ FILEFINDBUF4_len < 1000 /\ FINDUNION_len < 1000)%nat).
Abbreviation Drv := (M (driver W H)).

(** [m] gives back what it allocates. *)
Definition balanced {A} (m : Drv A) : Prop := forall U, triple (heap_is U) m (fun _ => heap_is U).

Lemma balanced_keeps {A} (m : Drv A) : keeps kheap m -> balanced m.
Proof. intros Hk U s a s' HU E. unfold heap_is in *. by rewrite (Hk _ _ _ E). Qed.
Lemma balanced_bind {A B} (m : Drv A) (k : A -> Drv B) : balanced m -> (forall a, balanced (k a)) -> balanced (m ≫= k).
Proof. intros Hm Hk U. eapply triple_bind; [apply Hm|]. intros a. apply Hk. Qed.
Lemma triple_balanced {A B} (m : Drv A) (k : A -> Drv B) U Q :
  balanced m -> (forall a, triple (heap_is U) (k a) Q) -> triple (heap_is U) (m ≫= k) Q.
Proof. intros Hm Hk. eapply triple_bind; [apply Hm|done]. Qed.
Lemma balanced_ret {A} (a : A) : balanced (mret a).
Proof. apply balanced_keeps, keeps_ret. Qed.
Lemma balanced_with {A} (sz : Z) (fail : A) (body : Drv A) :
  0 < sz < 2147483648 -> keeps kheap body -> balanced (with_kmalloc sz fail body).
Proof. intros Hs Hk U s a s' HU E. by eapply with_kmalloc_heap. Qed.

(** A block for the time of [k]; [k] does not free it. *)
Lemma balanced_block {A} (sz : Z) (k : Z -> Drv A) :
  0 < sz < 2147483648 ->
  balanced (k 0) ->
  (forall p U, p <> 0 -> U !! p = None -> triple (heap_is (<[p := sz]> U)) (k p) (fun _ => heap_is U)) ->
  balanced (drv_kmalloc sz ≫= k).
Proof.
  intros Hs Hz Hk U s a s' HU (p & s1 & E1 & E2)%M_bind_Ok.
  destruct (kmalloc_heap sz U s s1 p Hs HU E1) as [[-> HU1]|(Hp & Hn & HU1)].
  - by eapply Hz.
  - by eapply Hk.
Qed.

Lemma free_block p sz (U : gmap Z Z) :
  U !! p = None -> triple (heap_is (<[p := sz]> U)) (drv_kfree p : Drv unit) (fun _ => heap_is U).
Proof. intros Hn s u s' HU E. by eapply kfree_heap. Qed.

Lemma keeps_copy_n n src dst : keeps kheap (copy_n n src dst : Drv _).
Proof. unfold copy_n. keeps. Qed.
Lemma keeps_array_of n l : keeps kheap (array_of n l : Drv _).
Proof. unfold array_of. keeps. Qed.
Lemma keeps_open n a m : keeps kheap (SecHlpOpen n a m : Drv _).
Proof. apply sec_open_keeps. Qed.
Lemma keeps_close h : keeps kheap (SecHlpClose h : Drv _).
Proof. apply sec_close_keeps. Qed.
Lemma keeps_write h b o : keeps kheap (SecHlpWriteAt h b o : Drv _).
Proof. apply sec_write_keeps. Qed.
#[local] Hint Resolve keeps_dmn keeps_call_daemon keeps_copy_n keeps_array_of keeps_heap_get_str
  keeps_open keeps_close keeps_write : keeps.

Lemma keeps_rc_of i a : keeps kheap (rc_of i a : Drv _).
Proof. unfold rc_of. keeps. Qed.
#[local] Hint Resolve keeps_rc_of : keeps.

(** The leaves of a computation that keep the heap, and its binds. *)
Ltac balanced_step :=
  first [ apply balanced_ret
        | apply balanced_keeps; solve [keeps]
        | apply balanced_bind; [|intros ?]
        | match goal with |- balanced (match ?x with _ => _ end) => destruct x end ].

Lemma balanced_name2 cmd f g : balanced (r ← dmn walk cmd (P_TWONAME f g); mret r.1 : Drv _).
Proof. repeat balanced_step. Qed.

Lemma balanced_eawrite f a v n : 0 <= n < 2147480000 -> balanced (LX_EAWRITESTRING walk f a v n).
Proof. intros Hn. apply balanced_with; [lia|]. keeps. Qed.

Lemma balanced_earead f a v n : 0 <= n < 2147480000 -> balanced (LX_EAREADSTRING walk f a v n).
Proof. intros Hn. apply balanced_with; [lia|]. keeps. Qed.

Lemma balanced_create n : balanced (lxafs_create_file n : Drv Z).
Proof. apply balanced_keeps. unfold lxafs_create_file. keeps. Qed.

Lemma balanced_linkchild f m : (length m <= LX_MAXPATH)%nat -> balanced (lxafs_write_linkchild_info walk f m).
Proof.
  intros Hm. apply balanced_bind; [apply balanced_keeps; keeps|]. intros r. destruct (r.1 =? 0); [|apply balanced_ret].
  set (k := fun _ : unit => _ ← SecHlpClose r.2; _ ← LX_EAWRITESTRING walk f LXEAN_LINKEDTO m (length m + 1); mret 0).
  assert (Hk : forall u, balanced (k u)).
  { intros u. unfold k. apply balanced_bind; [apply balanced_keeps; keeps|]. intros _.
    apply balanced_bind; [|intros _; apply balanced_ret]. apply balanced_eawrite. unfold LX_MAXPATH in Hm. lia. }
  change (balanced (drv_kmalloc (LX_MAXPATH * 2 + 78 + 2) ≫= fun tmp =>
    (if tmp =? 0 then mret tt else _ ← SecHlpWriteAt r.2 (dummy_text m) 0; drv_kfree tmp) ≫= k)).
  apply balanced_block; [unfold LX_MAXPATH; lia| |].
  - change (0 =? 0) with true. cbn match. apply balanced_bind; [apply balanced_ret|done].
  - intros p U Hp Hn. destruct (Z.eqb_spec p 0); [done|]. eapply triple_bind; [|intros u; apply Hk].
    eapply triple_bind; [apply balanced_keeps; keeps|]. intros ?. by apply free_block.
Qed.


Lemma balanced_relink ls m :
  (length m <= LX_MAXPATH)%nat -> balanced (relink_childs walk ls m).
Proof.
  intros Hm. induction ls as [|l ls IH]; [apply balanced_ret|]. cbn [relink_childs].
  apply balanced_bind; [apply balanced_keeps; keeps|]. intros n.
  apply balanced_bind; [by apply balanced_linkchild|]. done.
Qed.

(** A name in an array of LX_MAXPATH bytes. *)
Lemma array_str_length l n : array_str l = Ok n -> (length n < length l)%nat.
Proof.
  revert n. induction l as [|c l IH]; intros n; cbn; [done|]. destruct (c =? 0).
  - intros [= <-]. cbn. lia.
  - destruct (array_str l) as [m|]; cbn; [|done]. intros [= <-]. cbn. specialize (IH m eq_refl). lia.
Qed.

Lemma str_length l : (length l <= LX_MAXPATH)%nat ->
  forall (s s' : driver W H) n, get_str l s = Ok (n, s') -> (length n <= LX_MAXPATH)%nat.
Proof.
  intros Hl s s' n. unfold get_str. destruct (array_str l) as [m|] eqn:E; [|done]. intros [= <- <-].
  apply array_str_length in E. lia.
Qed.

Lemma balanced_str {A} l (k : list Z -> Drv A) :
  (forall n, (length n < length l)%nat -> balanced (k n)) -> balanced (get_str l ≫= k).
Proof.
  intros Hk U s a s' HU (n & s1 & E1 & E2)%M_bind_Ok. unfold get_str in E1.
  destruct (array_str l) as [m|] eqn:E; [|done]. injection E1 as <- <-.
  eapply Hk; [|exact HU|exact E2]. by eapply array_str_length.
Qed.

Definition arrays (ls : list lxafs_linkinfo) : Prop := Forall (fun l => length (l_name l) = LX_MAXPATH) ls.

Lemma balanced_delete i n : balanced (delete_links walk i n).
Proof.
  induction i as [|i IH]; [apply balanced_ret|]. cbn [delete_links].
  apply balanced_bind; [apply balanced_keeps; unfold LX_EADELETE; keeps|]. done.
Qed.

Lemma balanced_write_links i ls n b :
  arrays ls -> (length n <= LX_MAXPATH)%nat -> balanced (write_links walk i ls n b).
Proof.
  intros Ha Hn. revert i. induction Ha as [|l ls Hl _ IH]; intros i; [apply balanced_ret|]. cbn [write_links].
  apply balanced_str. intros v Hv. apply balanced_bind.
  - apply balanced_eawrite. unfold LX_MAXPATH in *. lia.
  - intros _. apply balanced_bind; [|done]. destruct b; [|apply balanced_ret].
    apply balanced_bind; [by apply balanced_linkchild|]. intros _. apply balanced_ret.
Qed.

Lemma balanced_rewrite i :
  arrays (in_links i) -> (length (in_name i) <= LX_MAXPATH)%nat -> balanced (lxafs_rewrite_linklist walk garbage i).
Proof.
  intros Ha Hn. unfold lxafs_rewrite_linklist. destruct (in_lxafs i); [|apply balanced_ret].
  change (negb true) with false. cbn match. unfold LX_alloc_objects.
  intros U s a s' HU (o & s1 & E1 & E2)%M_bind_Ok. apply M_bind_Ok in E1 as (p & s2 & E1 & E3).
  destruct (kmalloc_heap (u32 (2%nat * LX_MAXPATH)) U s s2 p ltac:(unfold LX_MAXPATH; mlia) HU E1)
    as [[-> HU1]|(Hp & Hf & HU1)].
  - injection E3 as <- <-. by injection E2 as <- <-.
  - destruct (Z.eqb_spec p 0); [done|]. injection E3 as <- <-. cbn [snd carve] in E2.
    revert HU1 E2. generalize s2 as t. intros t HU1 E2.
    refine ((_ : triple (heap_is (<[p := u32 (2%nat * LX_MAXPATH)]> U)) _ (fun _ => heap_is U)) _ _ _ HU1 E2).
    apply triple_balanced; [apply balanced_earead; unfold LX_MAXPATH; lia|]. intros r.
    apply triple_balanced; [apply balanced_keeps; keeps|]. intros c.
    apply triple_balanced; [apply balanced_keeps; unfold LX_EADELETE; keeps|]. intros _.
    destruct (_ <? 0); [apply triple_throw|].
    apply triple_balanced; [apply balanced_delete|]. intros _.
    apply triple_balanced; [by apply balanced_write_links|]. intros k.
    apply triple_balanced.
    + destruct (k =? 0); [apply balanced_ret|]. apply balanced_bind; [|intros ?; apply balanced_ret].
      apply balanced_eawrite. pose proof (dec_bound k). lia.
    + intros ?. eapply triple_bind; [by apply free_block|]. intros ?. apply balanced_ret.
Qed.

Lemma balanced_getinfo n b l : balanced (lxafs_get_fileinfo walk stack_bytes n b l).
Proof.
  unfold lxafs_get_fileinfo. apply balanced_bind; [apply balanced_keeps; unfold LX_DOSQUERYPATHINFO; keeps|]. intros r.
  destruct (_ || _); [apply balanced_ret|]. destruct (r.1 =? 0); [apply balanced_ret|].
  apply balanced_bind.
  - apply balanced_with; [lia|]. keeps.
  - intros [[[rc h] fb] c]. apply balanced_keeps. unfold LX_DOSFINDCLOSE. keeps.
Qed.

Lemma balanced_exists n : balanced (lxafs_file_exists walk stack_bytes n).
Proof. apply balanced_bind; [apply balanced_getinfo|]. intros r. apply balanced_ret. Qed.

Lemma balanced_write_attr f n v i : balanced (write_attr walk f n v i).
Proof.
  unfold write_attr. destruct (has _ _); [|apply balanced_ret]. apply balanced_bind; [|intros ?; apply balanced_ret].
  apply balanced_bind; [|intros ?; apply balanced_ret].
  apply balanced_eawrite. pose proof (dec_bound (s32 v)). lia.
Qed.

Lemma balanced_write_size h i : balanced (write_size walk h i).
Proof. apply balanced_keeps. unfold write_size, LX_DOSSETFILESIZE. keeps. Qed.
Lemma balanced_write_dates h i : balanced (write_dates walk tz_minuteswest stack_bytes h i).
Proof. apply balanced_keeps. unfold write_dates, LX_DOSQUERYFILEINFO, LX_DOSSETFILEINFO. keeps. Qed.
Lemma balanced_maintenance i h : balanced (lxafs_open_inode_for_maintenance walk i h).
Proof. apply balanced_keeps. unfold lxafs_open_inode_for_maintenance, LX_DOSOPEN. keeps. Qed.

Lemma balanced_write_inode i :
  arrays (in_links i) -> (length (in_name i) <= LX_MAXPATH)%nat ->
  balanced (lxafs_write_inode walk garbage tz_minuteswest stack_bytes i).
Proof.
  intros Ha Hn. unfold lxafs_write_inode. destruct (S_ISREG _); [|apply balanced_ret].
  change (negb true) with false. cbn match. apply balanced_bind.
  - destruct (has _ _); [|apply balanced_ret].
    apply balanced_bind; [by apply balanced_rewrite|]. intros ?. apply balanced_ret.
  - intros j. destruct (has _ _); [|apply balanced_ret].
    apply balanced_bind; [apply balanced_maintenance|]. intros r. destruct (negb _); [by apply balanced_keeps, keeps_throw|].
    apply balanced_bind; [apply balanced_write_size|]. intros ?.
    apply balanced_bind; [apply balanced_write_dates|]. intros ?.
    apply balanced_bind; [apply balanced_keeps; unfold LX_DOSCLOSE; keeps|]. intros ?.
    do 2 (apply balanced_bind; [apply balanced_write_attr|]; intros ?). apply balanced_write_attr.
Qed.

(** Writing an inode changes neither its name nor its links. *)
Definition same_links (i j : lxafs_inode_info) : Prop := in_links j = in_links i /\ in_name j = in_name i.

Definition keeps_links (m : Drv lxafs_inode_info) (i : lxafs_inode_info) : Prop :=
  forall s j s', m s = Ok (j, s') -> same_links i j.

Lemma keeps_links_ret i j : same_links i j -> keeps_links (mret j) i.
Proof. by intros Hs s k s' [= <- <-]. Qed.
Lemma keeps_links_bind (m : Drv lxafs_inode_info) k i :
  keeps_links m i -> (forall j, same_links i j -> keeps_links (k j) j) -> keeps_links (m ≫= k) i.
Proof.
  intros Hm Hk s j s' (j1 & s1 & E1 & E2)%M_bind_Ok. destruct (Hm _ _ _ E1) as [H1a H1b].
  destruct (Hk j1 (conj H1a H1b) _ _ _ E2) as [H2a H2b]. split; congruence.
Qed.
Lemma keeps_links_after {A} (m : Drv A) k i :
  (forall a, keeps_links (k a) i) -> keeps_links (m ≫= k) i.
Proof. intros Hk s j s' (a & s1 & E1 & E2)%M_bind_Ok. by eapply Hk. Qed.

Lemma write_attr_links f n v i : keeps_links (write_attr walk f n v i) i.
Proof.
  unfold write_attr. destruct (has _ _); [|by apply keeps_links_ret].
  apply keeps_links_after. intros ?. by apply keeps_links_ret.
Qed.

Lemma write_inode_links i : keeps_links (lxafs_write_inode walk garbage tz_minuteswest stack_bytes i) i.
Proof.
  unfold lxafs_write_inode. destruct (S_ISREG _); [|by apply keeps_links_ret].
  change (negb true) with false. cbn match. apply keeps_links_bind.
  - destruct (has _ _); [|by apply keeps_links_ret]. apply keeps_links_after. intros ?. by apply keeps_links_ret.
  - intros j _. destruct (has _ _); [|by apply keeps_links_ret].
    apply keeps_links_after. intros r. destruct (negb _); [by intros s k s' E|].
    apply keeps_links_bind.
    { unfold write_size. destruct (has _ _); [|by apply keeps_links_ret]. apply keeps_links_after. intros rc.
      apply keeps_links_ret. by destruct (rc =? 0). }
    intros j1 _. apply keeps_links_bind.
    { unfold write_dates. destruct (has _ _); [|by apply keeps_links_ret]. do 2 (apply keeps_links_after; intros ?).
      apply keeps_links_ret. by destruct (_ =? 0). }
    intros j2 _. apply keeps_links_after. intros ?.
    apply keeps_links_bind; [apply write_attr_links|]. intros j3 _.
    apply keeps_links_bind; [apply write_attr_links|]. intros j4 _. apply write_attr_links.
Qed.

Lemma res_bind_Ok {A B} (m : res A) (k : A -> res B) r : m ≫= k = Ok r -> exists a, m = Ok a /\ k a = Ok r.
Proof. destruct m as [a|]; [|done]. cbn. eauto. Qed.

(** ** The assertion *)

(** What of the state the assertion is about. *)
Definition foot (s : mount W H) := (kheap (drv (fs s)), inodes (fs s), inode_cache s, kernel_lock s, i_sem s).

(** The heap holds the blocks [T], the nodes [ls] that are in hand, and the
    nodes in the lists of the inodes; names and free inodes are in order; the
    locks have the counts [lk]; [F] says more about the inodes. *)
Record held (F : gmap Z lxafs_inode_info -> Prop) (T : gmap Z Z) (ls : list lxafs_linkinfo) (lk : Z * Z)
    (s : mount W H) : Prop := {
  held_inodes : F (inodes (fs s));
  held_ok : heap_ok (kheap (drv (fs s)));
  held_owns : owns (ls ++ all_links (inodes (fs s))) T (used (kheap (drv (fs s))));
  held_arrays : arrays (ls ++ all_links (inodes (fs s)));
  held_names : map_Forall (fun _ i => (length (in_name i) <= LX_MAXPATH)%nat) (inodes (fs s));
  held_cache : NoDup (inode_cache s) /\ Forall (fun p => inodes (fs s) !! p = None) (inode_cache s);
  held_locks : (kernel_lock s, i_sem s) = lk
}.

Definition any (I : gmap Z lxafs_inode_info) : Prop := True.
Definition at_inode (p : Z) (i : lxafs_inode_info) (I : gmap Z lxafs_inode_info) : Prop := I !! p = Some i.

Implicit Types (F : gmap Z lxafs_inode_info -> Prop) (T : gmap Z Z) (lk : Z * Z).

Lemma held_any F T ls lk s : held F T ls lk s -> held any T ls lk s.
Proof. intros [? ? ? ? ? ? ?]. by split. Qed.

Lemma held_foot F T ls lk s s' : foot s' = foot s -> held F T ls lk s -> held F T ls lk s'.
Proof.
  intros Hf [H1' H2' H3' H4' H5' H6' H7']. unfold foot in Hf. injection Hf as E1 E2 E3 E4 E5.
  split; rewrite ?E1, ?E2, ?E3, ?E4, ?E5; done.
Qed.

Lemma held_keeps {A} (m : M (mount W H) A) F T ls lk :
  keeps foot m -> triple (held F T ls lk) m (fun _ => held F T ls lk).
Proof. intros Hk s a s' Hs E. eapply held_foot; [by apply (Hk _ _ _ E)|done]. Qed.

Lemma on_d_Ok {A} (m : Drv A) (s s' : mount W H) a :
  on_d m s = Ok (a, s') -> exists d, m (drv (fs s)) = Ok (a, d) /\
    s' = set_fs (mk_lxafs d (inodes (fs s)) (path_refs (fs s))) s.
Proof.
  unfold on_d, LxafsVfs.on_fs, on_drv. destruct (m (drv (fs s))) as [[b d]|]; [|done].
  intros [= <- <-]. eauto.
Qed.

(** The same after the heap changed from one content to another. *)
Lemma held_heap F T T' ls ls' lk (s : mount W H) d :
  held F T ls lk s -> heap_ok (kheap d) ->
  owns (ls' ++ all_links (inodes (fs s))) T' (used (kheap d)) -> arrays ls' ->
  held F T' ls' lk (set_fs (mk_lxafs d (inodes (fs s)) (path_refs (fs s))) s).
Proof.
  intros [H1' H2' H3' H4' H5' H6' H7'] Ho Hw Ha. split; try done.
  apply Forall_app in H4' as [_ H4']. by apply Forall_app.
Qed.

Lemma held_ls F T ls lk s : held F T ls lk s -> arrays ls.
Proof. intros Hs. by apply held_arrays, Forall_app in Hs as [? _]. Qed.

Lemma held_balanced {A} (m : Drv A) F T ls lk :
  balanced m -> triple (held F T ls lk) (on_d m) (fun _ => held F T ls lk).
Proof.
  intros Hm s a s' Hs (d & E & ->)%on_d_Ok.
  destruct (Hm (used (kheap (drv (fs s)))) _ _ _ (conj (held_ok _ _ _ _ _ Hs) eq_refl) E) as [Ho Hu].
  eapply held_heap; [exact Hs|exact Ho| |by eapply held_ls]. rewrite Hu. apply Hs.
Qed.

Lemma alloc_block sz F T ls lk :
  0 < sz < 2147483648 ->
  triple (held F T ls lk) (on_d (drv_kmalloc sz)) (fun p s =>
    p = 0 /\ held F T ls lk s \/ p <> 0 /\ T !! p = None /\ held F (<[p := sz]> T) ls lk s).
Proof.
  intros Hsz s p s' Hs (d & E & ->)%on_d_Ok.
  destruct (kmalloc_heap sz _ _ _ _ Hsz (conj (held_ok _ _ _ _ _ Hs) eq_refl) E) as [[-> [Ho Hu]]|(Hp & Hn & [Ho Hu])].
  - left. split; [done|]. eapply held_heap; [exact Hs|exact Ho| |by eapply held_ls]. rewrite Hu. apply Hs.
  - right. split; [done|]. split; [eapply owns_fresh; [apply Hs|done]|].
    eapply held_heap; [exact Hs|exact Ho| |by eapply held_ls]. rewrite Hu. by apply owns_add; [apply Hs|].
Qed.

Lemma release_block p sz F T ls lk :
  T !! p = None -> triple (held F (<[p := sz]> T) ls lk) (on_d (drv_kfree p)) (fun _ => held F T ls lk).
Proof.
  intros Hp s a s' Hs (d & E & ->)%on_d_Ok.
  destruct (owns_remove _ _ _ _ _ Hp (held_owns _ _ _ _ _ Hs)) as (V & Hu & Hn & Hw).
  destruct (kfree_heap p sz V _ _ _ Hn (conj (held_ok _ _ _ _ _ Hs) Hu) E) as [Ho Hu'].
  eapply held_heap; [exact Hs|exact Ho| |by eapply held_ls]. by rewrite Hu'.
Qed.

Context (garbage_length : forall p, length (garbage p) = LX_MAXPATH).

Lemma alloc_link F T ls lk :
  triple (held F T ls lk) (on_d (lxafs_alloc_linkinfo garbage)) (fun r s =>
    match r with Some l => held F T (l :: ls) lk s | None => held F T ls lk s end).
Proof.
  intros s r s' Hs (d & E & ->)%on_d_Ok. apply M_bind_Ok in E as (p & s1 & E1 & E). injection E as <- <-.
  destruct (kmalloc_heap sizeof_linkinfo _ _ _ _ ltac:(unfold sizeof_linkinfo; lia)
    (conj (held_ok _ _ _ _ _ Hs) eq_refl) E1) as [[-> [Ho Hu]]|(Hp & Hn & [Ho Hu])].
  - eapply held_heap; [exact Hs|exact Ho| |by eapply held_ls]. rewrite Hu. apply Hs.
  - destruct (Z.eqb_spec p 0); [done|]. eapply held_heap; [exact Hs|exact Ho| |].
    + cbn [app owns l_node]. eexists. split; [apply Hs|]. done.
    + constructor; [apply garbage_length|by eapply held_ls].
Qed.

Lemma release_link l F T ls lk :
  triple (held F T (l :: ls) lk) (on_d (lxafs_free_linkinfo l)) (fun _ => held F T ls lk).
Proof.
  intros s a s' Hs (d & E & ->)%on_d_Ok. destruct (held_owns _ _ _ _ _ Hs) as (V & Hw & Hn & Hu).
  destruct (kfree_heap (l_node l) _ V _ _ _ Hn (conj (held_ok _ _ _ _ _ Hs) Hu) E) as [Ho Hu'].
  eapply held_heap; [exact Hs|exact Ho| |]; [by rewrite Hu'|].
  apply held_ls in Hs. by apply Forall_cons in Hs as [_ ?].
Qed.

Lemma owns_app ls1 ls2 (U V : gmap Z Z) :
  owns (ls1 ++ ls2) U V <-> exists V1, owns ls2 U V1 /\ owns ls1 V1 V.
Proof.
  revert V. induction ls1 as [|l ls1 IH]; intros V; cbn [app owns].
  - split; [eauto|]. by intros (V1 & ? & ->).
  - split.
    + intros (V2 & (V1 & H1' & H2')%IH & ? & ->). eauto 8.
    + intros (V1 & ? & (V2 & ? & ? & ->)). exists V2. split; [|done]. apply IH. eauto.
Qed.

(** The buffer an attribute is read into keeps its length. *)
Lemma earead_length f a buf (s s' : driver W H) r :
  length buf = LX_MAXPATH -> LX_EAREADSTRING walk f a buf LX_MAXPATH s = Ok (r, s') -> length r.1.2 = LX_MAXPATH.
Proof.
  intros Hb (p & s1 & _ & E)%M_bind_Ok. destruct (p =? 0); [by injection E as <- _|]. destruct (_ <? _); [done|].
  apply M_bind_Ok in E as (x & s2 & E & E2). apply M_bind_Ok in E2 as (u & s3 & _ & E2). injection E2 as <- _.
  apply M_bind_Ok in E as (y & s4 & _ & E). destruct (y.1 =? 0); [|by injection E as <- _].
  destruct y.2; try done. destruct (_ <? _); [done|]. injection E as <- _. cbn.
  rewrite length_app, length_drop, length_strncpy_field, Nat2Z.id. lia.
Qed.

Lemma read_links_arrays lc f : forall acc (s s' : driver W H) r,
  arrays acc -> read_links walk garbage lc f acc s = Ok (r, s') -> arrays r.1.
Proof.
  induction lc as [|lc IH]; intros acc s s' r Ha E; cbn [read_links] in E; [by injection E as <- _|].
  apply M_bind_Ok in E as (o & s1 & E1 & E). apply M_bind_Ok in E1 as (p & s2 & _ & E1). injection E1 as <- <-.
  destruct (p =? 0); [by injection E as <- _|]. cbn [l_name l_node] in E.
  apply M_bind_Ok in E as (x & s3 & E3 & E). apply earead_length in E3; [|apply garbage_length].
  apply M_bind_Ok in E as (v & s4 & _ & E). destruct v.
  - apply M_bind_Ok in E as (u & s5 & _ & E). by eapply IH.
  - eapply IH; [|exact E]. by constructor.
Qed.

Lemma full_info_heap f (U : gmap Z Z) (s s' : driver W H) r :
  heap_is U s -> lxafs_get_fullfileinfo walk garbage stack f s = Ok (r, s') ->
  match r with
  | None => heap_is U s'
  | Some fi => fi_node fi <> 0 /\ U !! fi_node fi = None /\ arrays (fi_links fi) /\
      exists V, owns (fi_links fi) (<[fi_node fi := sizeof_fileinfo (W := W)]> U) V /\ heap_is V s'
  end.
Proof.
  intros HU E. apply M_bind_Ok in E as (p & s1 & E1 & E).
  destruct (kmalloc_heap (sizeof_fileinfo (W := W)) U s s1 p ltac:(unfold sizeof_fileinfo; destruct buffers_small; lia) HU E1)
    as [[-> HU1]|(Hp & Hn & HU1)]; [by injection E as <- <-|].
  destruct (Z.eqb_spec p 0); [done|]. apply M_bind_Ok in E as (x & s2 & E2 & E).
  eapply getfileinfo_heap in E2; [|done]. set (U1 := <[p := sizeof_fileinfo (W := W)]> U) in *.
  destruct (negb (x.1 =? 0)).
  { apply M_bind_Ok in E as (u & s3 & E3 & E). injection E as <- <-.
    eapply (free_fileinfo_heap p [] U); [exact Hp|exact Hn| |exact E2|exact E3]. done. }
  cbn zeta in E. destruct (lc_count x.2 <? 0); [done|]. apply M_bind_Ok in E as (l & s3 & E3 & E).
  pose proof (read_links_arrays _ _ [] _ _ _ (Forall_nil_2 _) E3) as Ha.
  eapply (read_links_heap walk garbage (proj1 buffers_small) _ _ U1 U1 []) in E3 as (U2 & Ho2 & HU3); [|done|exact E2].
  destruct l as [l []]; cbn [fst snd] in *.
  - injection E as <- <-. cbn [fi_node fi_links]. split_and!; try done. by exists U2.
  - apply M_bind_Ok in E as (u & s4 & E4 & E). injection E as <- <-.
    eapply (free_fileinfo_heap p l U U2); [exact Hp|exact Hn|exact Ho2|exact HU3|exact E4].
Qed.

Lemma held_full_info f F T ls lk :
  triple (held F T ls lk) (full_info walk garbage stack f) (fun r s =>
    match r with
    | None => held F T ls lk s
    | Some fi => T !! fi_node fi = None /\ fi_node fi <> 0 /\
        held F (<[fi_node fi := sizeof_fileinfo (W := W)]> T) (fi_links fi ++ ls) lk s
    end).
Proof.
  intros s r s' Hs (d & E & ->)%on_d_Ok.
  pose proof (full_info_heap _ _ _ _ _ (conj (held_ok _ _ _ _ _ Hs) eq_refl) E) as Hr. destruct r as [fi|].
  - destruct Hr as (Hp & Hn & Ha & V & Hw & Ho & Hu).
    split; [eapply owns_fresh; [apply Hs|done]|]. split; [done|].
    eapply held_heap; [exact Hs|exact Ho| |apply Forall_app; split; [done|by eapply held_ls]].
    rewrite Hu, <- app_assoc. apply owns_app. eexists. split; [|exact Hw]. by apply owns_add; [apply Hs|].
  - destruct Hr as [Ho Hu]. eapply held_heap; [exact Hs|exact Ho| |by eapply held_ls]. rewrite Hu. apply Hs.
Qed.

Lemma held_free_info fi links F T ls lk :
  T !! fi_node fi = None -> fi_node fi <> 0 ->
  triple (held F (<[fi_node fi := sizeof_fileinfo (W := W)]> T) (links ++ ls) lk) (free_info fi links)
    (fun _ => held F T ls lk).
Proof.
  intros Hn Hp s a s' Hs (d & E & ->)%on_d_Ok.
  pose proof (held_owns _ _ _ _ _ Hs) as Hw. rewrite <- app_assoc in Hw.
  apply owns_app in Hw as (V1 & Hw1 & Hw2). destruct (owns_remove _ _ _ _ _ Hn Hw1) as (V & -> & Hf & Hw).
  destruct (free_fileinfo_heap (fi_node fi) links V _ _ _ _ Hp Hf Hw2 (conj (held_ok _ _ _ _ _ Hs) eq_refl) E)
    as [Ho Hu].
  eapply held_heap; [exact Hs|exact Ho|by rewrite Hu|].
  apply held_ls, Forall_app in Hs as [_ ?]. done.
Qed.

(** ** Inodes *)

Lemma inode_at_Ok p (s s' : mount W H) i :
  inode_at p s = Ok (i, s') -> inodes (fs s) !! p = Some i /\ s' = s.
Proof.
  unfold inode_at, LxafsVfs.on_fs, get_inode. destruct (inodes (fs s) !! p); [|done].
  intros [= <- <-]. split; [done|]. by destruct s as [[]].
Qed.

Lemma held_inode_at p F T ls lk :
  triple (held F T ls lk) (inode_at p) (fun i => held (at_inode p i) T ls lk).
Proof.
  intros s i s' Hs [Hi ->]%inode_at_Ok. destruct Hs. by split.
Qed.

Lemma held_inode_again p i T ls lk :
  triple (held (at_inode p i) T ls lk) (inode_at p) (fun j s => j = i /\ held (at_inode p i) T ls lk s).
Proof.
  intros s j s' Hs [Hj ->]%inode_at_Ok. pose proof (held_inodes _ _ _ _ _ Hs) as Hi. red in Hi.
  rewrite Hi in Hj. by injection Hj as <-.
Qed.

(** An inode is changed; nodes move between its list and the hands. *)
Lemma held_put p i j T ls ls' lk :
  ls ++ in_links i ≡ₚ ls' ++ in_links j -> (length (in_name i) <= LX_MAXPATH -> length (in_name j) <= LX_MAXPATH)%nat ->
  triple (held (at_inode p i) T ls lk) (put_inode p j) (fun _ => held any T ls' lk).
Proof.
  intros Hp Hn s a s' [Hi Ho Hw Ha Hm [Hc1 Hc2] Hl] E. injection E as _ <-. red in Hi.
  assert (Hperm : ls ++ all_links (inodes (fs s)) ≡ₚ ls' ++ all_links (<[p := j]> (inodes (fs s)))).
  { rewrite (all_links_change _ p i j Hi), (all_links_delete _ p i Hi), !app_assoc, Hp. done. }
  split; cbn; try done.
  - by rewrite <- Hperm.
  - red. by rewrite <- Hperm.
  - apply map_Forall_insert_2; [|done]. by apply Hn, (Hm p).
  - split; [done|]. eapply Forall_impl; [exact Hc2|]. intros q Hq. apply lookup_insert_None. split; [done|].
    intros ->. cbn beta in Hq. by rewrite Hi in Hq.
Qed.

Lemma held_update p f F T ls lk :
  (forall i, in_links (f i) = in_links i /\ (length (in_name i) <= LX_MAXPATH -> length (in_name (f i)) <= LX_MAXPATH)%nat) ->
  triple (held F T ls lk) (update_inode p f) (fun _ => held any T ls lk).
Proof.
  intros Hf. eapply triple_bind; [apply held_inode_at|]. intros i. destruct (Hf i) as [Hl Hn].
  apply held_put; [by rewrite Hl|done].
Qed.

Lemma keeps_core_at p : keeps foot (core_at p : M (mount W H) _).
Proof. intros s c s'. unfold core_at. destruct (cores s !! p); [|done]. by intros [= _ <-]. Qed.
Lemma keeps_put_core p c : keeps foot (put_core p c : M (mount W H) _).
Proof. by apply keeps_modify. Qed.
Lemma keeps_dentry_at d : keeps foot (dentry_at d : M (mount W H) _).
Proof. intros s c s'. unfold dentry_at. destruct (dents s !! d); [|done]. by intros [= _ <-]. Qed.
Lemma keeps_put_dentry d e : keeps foot (put_dentry d e : M (mount W H) _).
Proof. by apply keeps_modify. Qed.
Lemma keeps_of_res {A} (r : res A) : keeps foot (of_res r : M (mount W H) _).
Proof. destruct r; cbn; [apply keeps_ret|apply keeps_throw]. Qed.
Lemma keeps_new_ino : keeps foot (get_new_ino : M (mount W H) _).
Proof. by intros s n s' [= _ <-]. Qed.
Lemma keeps_inode_at p : keeps foot (inode_at p : M (mount W H) _).
Proof. by intros s i s' [_ ->]%inode_at_Ok. Qed.
#[local] Hint Resolve keeps_core_at keeps_put_core keeps_dentry_at keeps_put_dentry keeps_of_res keeps_new_ino keeps_inode_at : keeps.

Lemma keeps_inode_of d : keeps foot (inode_of d : M (mount W H) _).
Proof. unfold inode_of. keeps. Qed.
Lemma keeps_insert_hash p : keeps foot (insert_inode_hash p : M (mount W H) _).
Proof. unfold insert_inode_hash. keeps. Qed.
Lemma keeps_unlock_new p : keeps foot (unlock_new_inode p : M (mount W H) _).
Proof. unfold unlock_new_inode. keeps. Qed.
Lemma keeps_dentry_ops d : keeps foot (lxafs_set_dentry_operations d : M (mount W H) _).
Proof. unfold lxafs_set_dentry_operations. keeps. Qed.
Lemma keeps_instantiate d p : keeps foot (d_instantiate d p : M (mount W H) _).
Proof. unfold d_instantiate. keeps. Qed.
Lemma keeps_rehash d : keeps foot (d_rehash d : M (mount W H) _).
Proof. unfold d_rehash. keeps. Qed.
Lemma keeps_dget d n : keeps foot (dget d n : M (mount W H) _).
Proof. unfold dget. keeps. Qed.
Lemma keeps_fullname dir n : keeps foot (fullname_in dir n : M (mount W H) _).
Proof. unfold fullname_in. keeps. Qed.
#[local] Hint Resolve keeps_inode_of keeps_insert_hash keeps_unlock_new keeps_dentry_ops keeps_instantiate
  keeps_rehash keeps_dget keeps_fullname : keeps.

Lemma held_alloc_inode stale T ls lk :
  triple (held any T ls lk) (alloc_inode stale) (fun _ => held any T ls lk).
Proof.
  eapply (triple_bind _ _ _ (fun _ => held any T ls lk)).
  - intros s r s' Hs E. unfold lxafs_alloc_inode in E. apply M_bind_Ok in E as (c & s1 & E1 & E).
    unfold gets in E1. injection E1 as <- <-. destruct (inode_cache s) as [|p c] eqn:Ec; [by injection E as _ <-|].
    destruct Hs as [_ Ho Hw Ha Hm [Hc1 Hc2] Hl]. rewrite Ec in Hc1, Hc2.
    apply NoDup_cons in Hc1 as [Hp Hc1]. apply Forall_cons in Hc2 as [Hpi Hc2].
    injection E as _ <-. split; cbn; try done.
    + rewrite all_links_insert by done. done.
    + red. rewrite all_links_insert by done. done.
    + apply map_Forall_insert_2; [cbn; unfold LX_MAXPATH; lia|done].
    + split; [done|]. rewrite Forall_forall in Hc2 |- *. intros q Hq. rewrite lookup_insert_ne; [auto|]. by intros ->.
  - intros [p|].
    + eapply triple_bind; [apply held_keeps; keeps|]. intros ?.
      eapply triple_bind; [by apply held_update|]. intros ?. apply held_keeps, keeps_ret.
    + apply held_keeps, keeps_ret.
Qed.

Lemma held_new_inode stale T ls lk :
  triple (held any T ls lk) (new_inode stale) (fun _ => held any T ls lk).
Proof.
  eapply triple_bind; [apply held_alloc_inode|]. intros [p|]; apply held_keeps; keeps.
Qed.

Lemma held_iget_locked stale n T ls lk :
  triple (held any T ls lk) (iget_locked stale n) (fun _ => held any T ls lk).
Proof.
  eapply triple_bind; [apply held_keeps; keeps|]. intros h. destruct (find_first _ h) as [[m p]|].
  - apply held_keeps. keeps.
  - eapply triple_bind; [apply held_alloc_inode|]. intros [p|]; apply held_keeps; keeps.
Qed.

Lemma held_free_links l F T ls lk :
  triple (held F T (l ++ ls) lk) (on_d (free_links l)) (fun _ => held F T ls lk).
Proof.
  intros s a s' Hs (d & E & ->)%on_d_Ok. pose proof (held_owns _ _ _ _ _ Hs) as Hw.
  rewrite <- app_assoc in Hw. apply owns_app in Hw as (V & Hw1 & Hw2).
  destruct (free_links_heap l V _ _ _ _ Hw2 (conj (held_ok _ _ _ _ _ Hs) eq_refl) E) as [Ho Hu].
  eapply held_heap; [exact Hs|exact Ho|by rewrite Hu|]. apply held_ls, Forall_app in Hs as [_ ?]. done.
Qed.

Lemma held_destroy_inode p T ls lk :
  triple (held any T ls lk) (lxafs_destroy_inode p) (fun _ => held any T ls lk).
Proof.
  intros s a s' Hs (i & s1 & [Hi ->]%inode_at_Ok & E)%M_bind_Ok. apply M_bind_Ok in E as (u & s2 & E1 & E).
  pose proof E1 as (d & Ed & ->)%on_d_Ok. injection E as _ <-.
  destruct Hs as [_ Ho Hw Ha Hm [Hc1 Hc2] Hl].
  rewrite (all_links_delete _ p i Hi), (Permutation_app_swap_app ls (in_links i)) in Hw.
  apply owns_app in Hw as (V & Hw1 & Hw2).
  destruct (free_links_heap _ V _ _ _ _ Hw2 (conj Ho eq_refl) Ed) as [Ho' Hu].
  split; cbn; try done.
  - by rewrite Hu.
  - red in Ha |- *. rewrite (all_links_delete _ p i Hi), !Forall_app in Ha. rewrite Forall_app. tauto.
  - by apply map_Forall_delete.
  - split.
    + apply NoDup_cons. split; [|done]. intros Hp. rewrite Forall_forall in Hc2. specialize (Hc2 p Hp).
      cbn beta in Hc2. by rewrite Hi in Hc2.
    + apply Forall_cons. split; [apply lookup_delete_eq|]. eapply Forall_impl; [exact Hc2|].
      intros q Hq. cbn beta in *. rewrite lookup_delete_None. by right.
Qed.

Lemma held_iput p T ls lk : triple (held any T ls lk) (iput p) (fun _ => held any T ls lk).
Proof.
  eapply triple_bind; [apply held_keeps; keeps|]. intros c.
  eapply triple_bind; [apply held_keeps; keeps|]. intros ?.
  eapply triple_bind; [apply held_keeps; keeps|]. intros s.
  destruct (_ && _); [apply held_destroy_inode|apply held_keeps, keeps_ret].
Qed.

(** ** Locks *)

Lemma held_lock F T ls k n :
  triple (held F T ls (k, n)) lock_kernel (fun _ => held F T ls (k + 1, n)).
Proof. intros s a s' [? ? ? ? ? ? Hl] [= _ <-]. injection Hl as Hk Hi. split; cbn; try done. by rewrite Hk, Hi. Qed.
Lemma held_unlock F T ls k n :
  triple (held F T ls (k + 1, n)) unlock_kernel (fun _ => held F T ls (k, n)).
Proof.
  intros s a s' [? ? ? ? ? ? Hl] [= _ <-]. injection Hl as Hk Hi. split; cbn; try done. rewrite Hk, Hi. f_equal. lia.
Qed.
Lemma held_up F T ls k n :
  triple (held F T ls (k, n)) up_dir (fun _ => held F T ls (k, n + 1)).
Proof. intros s a s' [? ? ? ? ? ? Hl] [= _ <-]. injection Hl as Hk Hi. split; cbn; try done. by rewrite Hk, Hi. Qed.
Lemma held_down F T ls k n :
  triple (held F T ls (k, n + 1)) down_dir (fun _ => held F T ls (k, n)).
Proof.
  intros s a s' [? ? ? ? ? ? Hl] E. unfold down_dir in E. destruct (_ <=? _); [done|]. injection E as _ <-.
  injection Hl as Hk Hi. split; cbn; try done. rewrite Hk, Hi. f_equal. lia.
Qed.

(** ** Steps of an operation *)

Lemma held_block {A} sz (k : Z -> M (mount W H) A) T ls lk Q :
  0 < sz < 2147483648 -> triple (held any T ls lk) (k 0) Q ->
  (forall p, p <> 0 -> T !! p = None -> triple (held any (<[p := sz]> T) ls lk) (k p) Q) ->
  triple (held any T ls lk) (on_d (drv_kmalloc sz) ≫= k) Q.
Proof.
  intros Hs Hz Hk. eapply triple_bind; [by apply alloc_block|]. intros p. apply triple_or.
  - apply triple_pure. by intros ->.
  - apply triple_pure. intros Hp. apply triple_pure. auto.
Qed.

Lemma held_info {A} f (k : option lxafs_fileinfo -> M (mount W H) A) T ls lk Q :
  triple (held any T ls lk) (k None) Q ->
  (forall fi, fi_node fi <> 0 -> T !! fi_node fi = None ->
     triple (held any (<[fi_node fi := sizeof_fileinfo (W := W)]> T) (fi_links fi ++ ls) lk) (k (Some fi)) Q) ->
  triple (held any T ls lk) (full_info walk garbage stack f ≫= k) Q.
Proof.
  intros Hn Hk. eapply triple_bind; [apply held_full_info|]. intros [fi|]; [|done].
  apply triple_pure. intros Hf. apply triple_pure. auto.
Qed.

Lemma held_ret {A} (a : A) F T ls lk : triple (held F T ls lk) (mret a) (fun _ => held F T ls lk).
Proof. apply held_keeps, keeps_ret. Qed.

Lemma triple_after {A B} (m : M (mount W H) A) (k : A -> M (mount W H) B) P Q R :
  triple P m (fun _ => Q) -> (forall a, triple Q (k a) R) -> triple P (m ≫= k) R.
Proof. intros Hm Hk. eapply triple_bind; [exact Hm|done]. Qed.

(** One step whose assertion stays, or a change of a lock. *)
Ltac held_leaf :=
  first [ apply held_lock | apply held_unlock | apply held_up | apply held_down
        | apply held_new_inode | apply held_iget_locked | apply held_iput
        | apply held_update; intros ?; split; [reflexivity|done]
        | apply held_keeps; solve [keeps] ].
Ltac held_step := eapply triple_after; [held_leaf|intros ?].
Ltac held_all := repeat first [solve [apply held_ret | held_leaf] | held_step].

Lemma held_simple_link now old dir d T ls lk :
  triple (held any T ls lk) (simple_link now old dir d) (fun _ => held any T ls lk).
Proof. unfold simple_link. held_all. Qed.
Lemma held_simple_unlink now dir d T ls lk :
  triple (held any T ls lk) (simple_unlink now dir d) (fun _ => held any T ls lk).
Proof. unfold simple_unlink. held_all. Qed.

Lemma held_simple_rename now empty od d nd nd' T ls lk :
  triple (held any T ls lk) (simple_rename now empty od d nd nd') (fun _ => held any T ls lk).
Proof.
  unfold simple_rename. do 2 held_step. destruct (negb _); [apply held_ret|]. held_step.
  eapply triple_after.
  - destruct (d_inode _); [eapply triple_after; [apply held_simple_unlink|intros ?]|];
      destruct (S_ISDIR _); held_all.
  - intros ?. held_all.
Qed.

(** ** The operations *)

Context (stale : Z -> lxafs_inode_info) (rootpath xrootpath : list Z).
Context (now : Z) (path_walk : list Z -> Z * option Z) (simple_empty : Z -> bool).

(** The full name is in a buffer of LX_MAXPATH bytes. *)
Lemma fullname_length dir n F T ls lk :
  triple (held F T ls lk) (fullname_in dir n) (fun f s => (length f <= LX_MAXPATH)%nat /\ held F T ls lk s).
Proof.
  intros s f s' Hs E. split.
  - apply M_bind_Ok in E as (i & s1 & _ & E). unfold of_res in E.
    destruct (lxafs_build_fullname_from_parent_i _ _ _) as [g|] eqn:Eb; [|done]. injection E as <- _.
    unfold lxafs_build_fullname_from_parent_i in Eb.
    apply res_bind_Ok in Eb as (x0 & _ & Eb). apply res_bind_Ok in Eb as (x1 & _ & Eb).
    apply res_bind_Ok in Eb as (x2 & _ & Eb). unfold fits_path in Eb.
    destruct (Nat.ltb_spec (length (x2 ++ n)) LX_MAXPATH); [|done]. injection Eb as <-. lia.
  - eapply held_keeps; [|exact Hs|exact E]. keeps.
Qed.

Lemma held_fullname {A} dir n (k : list Z -> M (mount W H) A) F T ls lk Q :
  (forall f, (length f <= LX_MAXPATH)%nat -> triple (held F T ls lk) (k f) Q) ->
  triple (held F T ls lk) (fullname_in dir n ≫= k) Q.
Proof.
  intros Hk. eapply triple_bind; [apply fullname_length|]. intros f. apply triple_pure. auto.
Qed.

Lemma held_name {A} p n r (k : unit -> M (mount W H) A) T ls lk Q :
  (length n <= LX_MAXPATH)%nat -> (forall u, triple (held any T ls lk) (k u) Q) ->
  triple (held any T ls lk) (update_inode p (set_name n r) ≫= k) Q.
Proof. intros Hn Hk. eapply triple_after; [|exact Hk]. apply held_update. intros i. by split. Qed.

Lemma held_call {A B} (m : Drv A) (k : A -> M (mount W H) B) T ls lk Q :
  balanced m -> (forall a, triple (held any T ls lk) (k a) Q) -> triple (held any T ls lk) (on_d m ≫= k) Q.
Proof. intros Hm Hk. eapply triple_after; [by apply held_balanced|done]. Qed.

Lemma held_done {A} p sz (a : A) T ls lk :
  T !! p = None -> triple (held any (<[p := sz]> T) ls lk) (on_d (drv_kfree p) ≫= fun _ => mret a)
    (fun _ => held any T ls lk).
Proof. intros Hp. eapply triple_after; [by apply release_block|]. intros ?. apply held_ret. Qed.

Lemma create_held dir d T lk :
  triple (held any T [] lk) (iod_create walk garbage tz_minuteswest stack stale rootpath dir d)
    (fun _ => held any T [] lk).
Proof.
  destruct lk as [k n]. unfold iod_create. held_step.
  apply held_block; [unfold LX_MAXPATH; lia|change (0 =? 0) with true; apply held_ret|].
  intros p Hp Hf. destruct (Z.eqb_spec p 0); [done|].
  apply held_fullname. intros full Hl. destruct (negb (_ =? 0)); [by apply held_done|].
  do 2 held_step. destruct a1 as [q|]; [|held_step; by apply held_done].
  apply held_name; [done|]. intros ?. do 3 held_step.
  apply held_call; [apply balanced_create|]. intros err. destruct (negb _).
  { do 2 held_step. by apply held_done. }
  apply held_info.
  - held_step. held_step. do 3 held_step. held_step. by apply held_done.
  - intros fi Hfi Hfn.
    eapply triple_after; [|intros ?; do 5 held_step; by apply held_done].
    held_step. by apply (held_free_info fi (fi_links fi) any _ []).
Qed.

Lemma rmdir_held dir d T lk :
  triple (held any T [] lk) (iod_rmdir walk dir d) (fun _ => held any T [] lk).
Proof.
  unfold iod_rmdir. held_step.
  apply held_block; [unfold LX_MAXPATH; lia|change (0 =? 0) with true; apply held_ret|].
  intros p Hp Hf. destruct (Z.eqb_spec p 0); [done|].
  apply held_fullname. intros full Hl. apply held_call; [apply balanced_keeps; unfold LX_DOSDELETEDIR; keeps|].
  intros err. by apply held_done.
Qed.

(** A refused name keeps the block of the full name. *)
Lemma mkdir_held dir d T lk :
  triple (held any T [] lk) (iod_mkdir walk stale rootpath dir d) (fun rc s =>
    held any T [] lk s \/ rc <> 0 /\ exists p, T !! p = None /\ held any (<[p := Z.of_nat LX_MAXPATH]> T) [] lk s).
Proof.
  destruct lk as [k n]. unfold iod_mkdir. held_step.
  apply held_block; [unfold LX_MAXPATH; lia| |].
  { change (0 =? 0) with true. eapply triple_weaken; [apply held_ret|done|]. by left. }
  intros p Hp Hf. destruct (Z.eqb_spec p 0); [done|].
  destruct (negb _) eqn:En.
  { intros s rc s' Hs [= <- <-]. right. split; [|by exists p]. apply negb_true_iff, Z.eqb_neq in En.
    by destruct (_ =? - ENOENT). }
  apply held_fullname. intros full Hl. held_step. apply held_call; [apply balanced_keeps; unfold LX_DOSCREATEDIR; keeps|].
  intros rc. eapply (triple_after _ _ _ (held any (<[p := Z.of_nat LX_MAXPATH]> T) [] (k + 1, n))).
  { destruct (negb (rc =? 0)); [apply (held_ret (- ENOENT))|].
    held_step. destruct a1 as [q|]; [|apply held_ret]. do 2 held_step. apply held_name; [done|]. intros ?. held_all. }
  intros err. held_step. eapply triple_weaken; [by apply held_done|done|]. by left.
Qed.

Lemma on_fs_bind {A B} (m : M (lxafs W H) A) (k : A -> M (lxafs W H) B) P Q :
  triple P (LxafsVfs.on_fs m ≫= fun a => LxafsVfs.on_fs (k a)) Q -> triple P (LxafsVfs.on_fs (m ≫= k)) Q.
Proof.
  intros Ht s b s' HP E. eapply Ht; [exact HP|]. rewrite M_bind_unfold. unfold LxafsVfs.on_fs in *.
  rewrite M_bind_unfold in E. destruct (m (fs s)) as [[a f]|]; [|done]. cbn. by destruct (k a f) as [[c g]|].
Qed.

Lemma on_fs_bind2 {A B C} (m : M (lxafs W H) A) (k : A -> M (lxafs W H) B) (g : B -> M (lxafs W H) C) P Q :
  triple P (LxafsVfs.on_fs m ≫= fun a => LxafsVfs.on_fs (k a) ≫= fun b => LxafsVfs.on_fs (g b)) Q ->
  triple P (LxafsVfs.on_fs (m ≫= fun a => k a ≫= g)) Q.
Proof.
  intros Ht s b s' HP E. eapply Ht; [exact HP|]. rewrite M_bind_unfold. unfold LxafsVfs.on_fs in *.
  rewrite M_bind_unfold in E. destruct (m (fs s)) as [[a f]|]; [|done]. rewrite M_bind_unfold.
  rewrite M_bind_unfold in E. cbn. destruct (k a f) as [[c g']|]; [|done]. cbn. by destruct (g c g') as [[e h]|].
Qed.

Lemma on_d_bind {A B} (m : Drv A) (k : A -> Drv B) P Q :
  triple P (on_d m ≫= fun a => on_d (k a)) Q -> triple P (on_d (m ≫= k)) Q.
Proof.
  intros Ht s b s' HP E. eapply Ht; [exact HP|]. rewrite M_bind_unfold.
  unfold on_d, LxafsVfs.on_fs, on_drv in *. rewrite M_bind_unfold in E.
  destruct (m (drv (fs s))) as [[a f]|]; [|done]. cbn. by destruct (k a f) as [[c g]|].
Qed.

Lemma on_fs_ret {A} (a : A) F T ls lk :
  triple (held F T ls lk) (LxafsVfs.on_fs (mret a)) (fun _ => held F T ls lk).
Proof. apply held_keeps. intros s b s' [= _ <-]. by destruct s as [[]]. Qed.

Lemma held_path_ref n F T ls lk :
  triple (held F T ls lk) (LxafsVfs.on_fs (path_ref n)) (fun _ => held F T ls lk).
Proof. apply held_keeps. by intros s b s' [= _ <-]. Qed.

Lemma held_swap F T ls ls' lk s : ls ≡ₚ ls' -> held F T ls lk s -> held F T ls' lk s.
Proof.
  intros Hp [? ? Hw Ha ? ? ?]. split; try done; [by rewrite <- Hp|]. red. by rewrite <- Hp.
Qed.

Lemma triple_facts {A} (m : M (mount W H) A) P (X : Prop) Q :
  (forall s, P s -> X) -> (X -> triple P m Q) -> triple P m Q.
Proof. intros HX Hm s a s' HP E. by eapply (Hm (HX s HP)). Qed.

Lemma held_perm {A} (m : M (mount W H) A) F T ls ls' lk Q :
  ls ≡ₚ ls' -> triple (held F T ls' lk) m Q -> triple (held F T ls lk) m Q.
Proof.
  intros Hp. apply triple_weaken'. intros s. by apply held_swap.
Qed.

(** The name of a node in hand is written. *)
Lemma held_relabel {A} (m : M (mount W H) A) l n F T ls lk Q :
  length n = LX_MAXPATH -> triple (held F T (mk_link (l_node l) n :: ls) lk) m Q -> triple (held F T (l :: ls) lk) m Q.
Proof.
  intros Hn. apply triple_weaken'. intros s [? ? Hw Ha ? ? ?]. split; try done.
  apply Forall_cons in Ha as [_ Ha]. by constructor.
Qed.

Lemma held_facts p i T ls lk s :
  held (at_inode p i) T ls lk s ->
  arrays (in_links i) /\ (length (in_name i) <= LX_MAXPATH)%nat /\ NoDup (l_node <$> in_links i).
Proof.
  intros Hs. pose proof (held_inodes _ _ _ _ _ Hs) as Hi. red in Hi.
  pose proof (held_arrays _ _ _ _ _ Hs) as Ha. pose proof (held_owns _ _ _ _ _ Hs) as Hw.
  split_and!.
  - red in Ha. rewrite (all_links_delete _ p i Hi), !Forall_app in Ha. tauto.
  - by apply (held_names _ _ _ _ _ Hs p).
  - rewrite (all_links_delete _ p i Hi) in Hw. apply owns_app in Hw as (V & Hw & _).
    apply owns_app in Hw as (V1 & _ & Hw). by eapply owns_NoDup.
Qed.

(** A node of an inode's list is freed before it leaves the list. *)
Lemma held_free_put l p i j T ls lk :
  in_links i ≡ₚ l :: in_links j -> in_name j = in_name i ->
  triple (held (at_inode p i) T ls lk) (on_d (lxafs_free_linkinfo l) ≫= fun _ => put_inode p j)
    (fun _ => held any T ls lk).
Proof.
  intros Hp Hn s a s' Hs (u & s1 & (d & E & ->)%on_d_Ok & E2)%M_bind_Ok.
  pose proof (held_inodes _ _ _ _ _ Hs) as Hi. red in Hi.
  pose proof (held_owns _ _ _ _ _ Hs) as Hw.
  assert (Hq : ls ++ all_links (inodes (fs s)) ≡ₚ l :: ls ++ all_links (<[p := j]> (inodes (fs s)))).
  { rewrite (all_links_change _ p i j Hi), (all_links_delete _ p i Hi), Hp. cbn [app].
    symmetry. apply Permutation_middle. }
  rewrite Hq in Hw. destruct Hw as (V & Hw & Hf & Hu).
  destruct (kfree_heap (l_node l) _ V _ _ _ Hf (conj (held_ok _ _ _ _ _ Hs) Hu) E) as [Ho Hu'].
  injection E2 as _ <-. destruct Hs as [_ _ _ Ha Hm [Hc1 Hc2] Hl]. split; cbn; try done.
  - by rewrite Hu'.
  - red in Ha |- *. rewrite Hq in Ha. by apply Forall_cons in Ha as [_ ?].
  - apply map_Forall_insert_2; [|done]. rewrite Hn. by apply (Hm p).
  - split; [done|]. eapply Forall_impl; [exact Hc2|]. intros q Hq'. cbn beta in *.
    apply lookup_insert_None. split; [done|]. intros ->. by rewrite Hi in Hq'.
Qed.

Lemma find_first_perm {A} (P : A -> bool) l x : find_first P l = Some x -> l ≡ₚ x :: remove_first P l.
Proof.
  intros (l1 & l2 & -> & Hx & Hl)%find_first_Some. rewrite remove_first_app by done.
  symmetry. apply Permutation_middle.
Qed.

Lemma attach_held path x link T lk :
  forall ls, triple (held any T ls lk) (LxafsVfs.on_fs (lxafs_attach_linked_file garbage path x link)) (fun _ => held any T ls lk).
Proof.
  intros ls. unfold lxafs_attach_linked_file. destruct (negb _); [apply on_fs_ret|].
  apply on_fs_bind. eapply triple_after; [apply held_path_ref|]. intros ?.
  apply on_fs_bind. eapply triple_after; [|intros ?; apply on_fs_bind; eapply triple_after; [apply held_path_ref|intros ?; apply on_fs_ret]].
  destruct (path x).2 as [p|]; [|apply on_fs_ret].
  apply on_fs_bind. eapply triple_bind; [apply held_inode_at|]. intros i.
  apply on_fs_bind. eapply triple_bind; [apply alloc_link|]. intros [l|].
  2:{ eapply triple_weaken'; [apply held_any|apply on_fs_ret]. }
  set (n := strncpy_field _ _). assert (Hn : length n = LX_MAXPATH) by apply length_strncpy_field.
  unfold lxafs_add_linkinfo. destruct (existsb _ _); cbn [fst snd].
  - eapply triple_weaken'; [apply held_any|]. apply release_link.
  - apply (held_relabel _ _ n); [done|].
    apply (held_put p i); [|done]. unfold lxafs_mark_inode_dirty. cbn [in_links set_dirty set_links app].
    apply Permutation_middle.
Qed.

Lemma detach_held path x link T ls lk :
  triple (held any T ls lk) (LxafsVfs.on_fs (lxafs_detach_linked_file path x link)) (fun _ => held any T ls lk).
Proof.
  unfold lxafs_detach_linked_file. destruct (negb _); [apply on_fs_ret|].
  apply on_fs_bind. eapply triple_after; [apply held_path_ref|]. intros ?.
  destruct (path x).2 as [p|]; [|apply on_fs_ret].
  apply on_fs_bind. eapply triple_bind; [apply held_inode_at|]. intros i.
  destruct (find_first _ _) as [l|] eqn:El; [|eapply triple_weaken'; [apply held_any|apply on_fs_ret]].
  apply find_first_perm in El.
  apply on_fs_bind2.
  eapply (triple_assoc _ (fun _ => put_inode p _)); [apply held_free_put; [exact El|done]|].
  intros ?. apply on_fs_ret.
Qed.

Lemma held_free_link l F T ls lk :
  triple (held F T (match l with Some l => [l] | None => [] end ++ ls) lk) (free_link l) (fun _ => held F T ls lk).
Proof. destruct l as [l|]; [apply release_link|apply held_ret]. Qed.

Lemma held_two_links F T lk :
  triple (held F T [] lk) (two_links garbage) (fun r =>
    held F T (match r.1 with Some l => [l] | None => [] end ++ match r.2 with Some l => [l] | None => [] end) lk).
Proof.
  eapply triple_bind; [apply alloc_link|]. intros [a|]; (eapply triple_bind; [apply alloc_link|]);
    intros [b|]; (eapply triple_weaken; [apply triple_ret|done|]); intros r s [-> Hs]; cbn [fst snd app]; try done.
  eapply held_swap; [|exact Hs]. constructor.
Qed.

Lemma link_held old dir d T lk :
  triple (held any T [] lk) (iod_link walk garbage rootpath now path_walk old dir d) (fun _ => held any T [] lk).
Proof.
  unfold iod_link. do 2 held_step. destruct (_ <? _); [apply held_ret|].
  eapply triple_bind; [apply held_two_links|]. intros [l m]. cbn [fst snd].
  eapply (triple_after _ _ _ (held any T (match l with Some l => [l] | None => [] end ++ match m with Some l => [l] | None => [] end) lk)).
  - destruct l as [l|], m as [m|]; try apply held_ret.
    held_step. apply held_fullname. intros f Hf. apply held_call; [apply balanced_create|]. intros c.
    destruct (c =? 0); [|apply held_ret].
    eapply triple_after; [apply held_simple_link|intros ?]. do 2 held_step.
    eapply triple_bind; [apply held_inode_at|]. intros i.
    eapply triple_facts; [apply held_facts|]. intros (_ & Hi & _). eapply triple_weaken'; [apply held_any|].
    apply held_call; [by apply balanced_linkchild|]. intros rc.
    eapply triple_after; [|intros ?; apply held_ret]. destruct (rc =? 0); [|apply held_ret].
    held_step. eapply triple_after; [apply attach_held|]. intros ?. apply held_ret.
  - intros ret. eapply triple_after; [apply held_free_link|]. intros ?.
    eapply triple_after; [|intros ?; apply held_ret]. rewrite <- (app_nil_r (match m with Some l => [l] | None => [] end)).
    apply held_free_link.
Qed.

Lemma balanced_delete_name {A} i n (k : Z -> M (mount W H) A) T ls lk Q :
  (forall rc, triple (held any T ls lk) (k rc) Q) ->
  triple (held any T ls lk) (delete_name walk i n ≫= k) Q.
Proof.
  intros Hk. apply held_call; [|done].
  apply balanced_keeps. unfold LX_DOSDELETEDIR, LX_DOSDELETE. destruct (S_ISDIR _); keeps.
Qed.

Lemma remove_last l x :
  NoDup (l_node <$> l) -> last l = Some x ->
  l ≡ₚ x :: remove_first (fun y => l_node y =? l_node x) l.
Proof.
  intros Hnd (l0 & ->)%last_Some. rewrite fmap_app in Hnd. apply NoDup_app in Hnd as (_ & Hnd & _).
  rewrite remove_first_app; [|apply Forall_forall|by rewrite Z.eqb_refl].
  - rewrite app_nil_r. symmetry. apply Permutation_cons_append.
  - intros y Hy. apply Z.eqb_neq. intros E. apply (Hnd (l_node y)); [by apply list_elem_of_fmap_2|].
    rewrite E. apply list_elem_of_singleton. done.
Qed.

Lemma held_update_at p i f T ls ls' lk :
  ls ++ in_links i ≡ₚ ls' ++ in_links (f i) -> (length (in_name (f i)) <= LX_MAXPATH)%nat ->
  triple (held (at_inode p i) T ls lk) (update_inode p f) (fun _ => held any T ls' lk).
Proof.
  intros Hp Hn s a s' Hs (j & s1 & [Hj ->]%inode_at_Ok & E)%M_bind_Ok.
  pose proof (held_inodes _ _ _ _ _ Hs) as Hi. red in Hi. rewrite Hi in Hj. injection Hj as <-.
  eapply held_put; [exact Hp|done|exact Hs|exact E].
Qed.

Lemma of_res_name l (k : list Z -> M (mount W H) (Z * lxafs_linkinfo)) F T ls lk Q :
  (forall n, (length n < length l)%nat -> triple (held F T ls lk) (k n) Q) ->
  triple (held F T ls lk) (of_res (array_str l) ≫= k) Q.
Proof.
  intros Hk s a s' Hs (n & s1 & E1 & E2)%M_bind_Ok. unfold of_res in E1.
  destruct (array_str l) as [m|] eqn:E; [|done]. injection E1 as <- <-.
  eapply Hk; [|exact Hs|exact E2]. by eapply array_str_length.
Qed.

Lemma unlink_master_held p link linkmaster lfo linkblock i T lk :
  last (in_links i) = Some lfo ->
  triple (held (at_inode p i) T [linkmaster; linkblock] lk) (unlink_master walk p link linkmaster lfo)
    (fun r => held any T [r.2; linkblock] lk).
Proof.
  intros Hl. unfold unlink_master. eapply triple_facts; [apply held_facts|]. intros (Ha & Hn & Hnd).
  assert (Hlfo : length (l_name lfo) = LX_MAXPATH).
  { red in Ha. rewrite Forall_forall in Ha. apply Ha. apply last_Some in Hl as (l0 & ->). apply elem_of_app. right.
    by apply list_elem_of_singleton. }
  eapply triple_bind; [apply held_inode_again|]. intros j. apply triple_pure. intros ->.
  apply of_res_name. intros to Hto. rewrite Hlfo in Hto.
  eapply triple_after; [apply held_balanced, balanced_keeps; unfold LX_DOSCOPY; keeps|]. intros ?.
  eapply triple_after.
  { apply held_balanced, balanced_keeps. unfold LX_DOSDELETEDIR, LX_DOSDELETE. destruct (S_ISDIR _); keeps. }
  intros rc. destruct (rc =? 0).
  - eapply triple_after; [apply held_balanced, balanced_keeps; unfold LX_EADELETE; keeps|]. intros ?.
    eapply triple_after; [apply release_link|]. intros ?.
    set (rest := remove_first _ _).
    eapply triple_after; [apply (held_update_at _ _ _ _ _ [lfo; linkblock])|].
    { cbn [in_links set_links app]. rewrite (remove_last _ _ Hnd Hl). fold rest. constructor. }
    { cbn. lia. }
    intros ?. eapply triple_after; [apply held_balanced, balanced_relink; lia|]. intros ?.
    held_step. eapply triple_weaken; [apply triple_ret|done|]. by intros r s [-> Hs].
  - eapply triple_weaken; [apply triple_ret|done|]. intros r s [-> Hs]. by eapply held_any.
Qed.

Lemma unlink_held dir d T lk :
  triple (held any T [] lk) (iod_unlink walk garbage rootpath now path_walk dir d) (fun _ => held any T [] lk).
Proof.
  unfold iod_unlink. held_step. eapply triple_bind; [apply held_two_links|]. intros [l m]. cbn [fst snd].
  assert (Hfail : triple (held any T (match l with Some l => [l] | None => [] end ++ match m with Some l => [l] | None => [] end) lk)
    (free_link l ≫= fun _ => free_link m ≫= fun _ => mret (- ENOENT)) (fun _ => held any T [] lk)).
  { eapply triple_after; [apply held_free_link|]. intros ?.
    eapply triple_after; [|intros ?; apply held_ret]. rewrite <- (app_nil_r (match m with Some l => [l] | None => [] end)).
    apply held_free_link. }
  destruct l as [l|], m as [m|]; try exact Hfail. clear Hfail. cbn [app].
  held_step. apply held_fullname. intros link Hlink. eapply triple_bind; [apply held_inode_at|]. intros i.
  eapply (triple_bind _ _ _ (fun r => held any T [r.2; m] lk)).
  - destruct (same_name _ _).
    + destruct (last (in_links i)) as [lfo|] eqn:El; [by apply (unlink_master_held a link l lfo m i)|].
      eapply triple_weaken'; [apply held_any|]. apply balanced_delete_name. intros rc.
      eapply triple_weaken; [apply triple_ret|done|]. by intros r s [-> Hs].
    + eapply triple_weaken'; [apply held_any|]. held_step.
      eapply triple_after; [apply detach_held|]. intros ?. held_step. apply balanced_delete_name. intros rc.
      eapply triple_after; [apply held_simple_unlink|]. intros ?.
      eapply triple_weaken; [apply triple_ret|done|]. by intros r s [-> Hs].
  - intros r. eapply triple_after; [apply release_link|]. intros ?.
    eapply triple_after; [apply release_link|]. intros ?. apply held_ret.
Qed.

Lemma linkmaster_held fi T ls lk :
  triple (held any T ls lk) (lxafs_linkmaster_lookup walk stack_bytes rootpath xrootpath path_walk fi)
    (fun _ => held any T ls lk).
Proof.
  destruct lk as [k n]. unfold lxafs_linkmaster_lookup. apply held_call; [apply balanced_exists|]. intros x.
  destruct x; [|apply held_ret]. do 3 held_step.
  eapply (triple_after _ _ _ (held any T ls (k + 1, n + 1))).
  - apply held_keeps. keeps.
  - intros r. do 2 held_step. apply held_ret.
Qed.

(** Nodes move from the hand to the end of an inode's list. *)
Lemma add_childs_held p i0 T l : forall ls0 j ls lk,
  ls0 ++ in_links i0 ≡ₚ in_links j ->
  triple (held (at_inode p i0) T (l ++ ls0 ++ ls) lk) (on_d (add_childs walk stack_bytes l j)) (fun j' s =>
    exists ls1, ls1 ++ in_links i0 ≡ₚ in_links j' /\ in_name j' = in_name j /\ held (at_inode p i0) T (ls1 ++ ls) lk s).
Proof.
  induction l as [|x l IH]; intros ls0 j ls lk Hp; cbn [add_childs].
  - intros s j' s' Hs (d & E & ->)%on_d_Ok. injection E as <- <-. exists ls0. split_and!; try done.
    by destruct s as [[]].
  - apply on_d_bind. eapply triple_after; [apply held_balanced, balanced_keeps; keeps|]. intros n.
    apply on_d_bind. eapply triple_after; [apply held_balanced, balanced_exists|]. intros e.
    apply on_d_bind.
    set (r := if e then lxafs_add_linkinfo x true j else (j, - EBUSY)).
    assert (Hr : r = (j, - EBUSY) \/ r = (set_links (in_links j ++ [x]) j, 0)).
    { unfold r, lxafs_add_linkinfo. destruct e; [|auto]. destruct (existsb _ _); auto. }
    destruct Hr as [-> | ->]; cbn [fst snd].
    + eapply triple_after; [apply release_link|]. intros ?. by apply (IH ls0).
    + eapply triple_after; [apply held_balanced, balanced_ret|]. intros ?.
      eapply (triple_weaken _ _ (held (at_inode p i0) T (l ++ (x :: ls0) ++ ls) lk)); [apply (IH (x :: ls0))| |].
      * cbn [in_links set_links app]. rewrite Hp. apply Permutation_cons_append.
      * intros s Hs. eapply held_swap; [|exact Hs]. cbn [app]. apply Permutation_middle.
      * intros j' s (ls1 & H1' & H2' & H3'). by exists ls1.
Qed.

Lemma link_childs_held p l T ls lk :
  triple (held any T (l ++ ls) lk)
    (i ← inode_at p; i ← on_d (lxafs_add_link_childs walk stack_bytes l i); put_inode p i)
    (fun _ => held any T ls lk).
Proof.
  eapply triple_bind; [apply held_inode_at|]. intros i.
  eapply triple_facts; [apply held_facts|]. intros (_ & Hn & _).
  eapply (triple_bind _ _ _ (fun j s => exists ls1, (ls1 ++ in_links i ≡ₚ in_links j /\ in_name j = in_name i) /\
    held (at_inode p i) T (ls1 ++ ls) lk s)).
  - apply on_d_bind. eapply triple_bind; [by apply (add_childs_held p i T l [] i)|]. intros j.
    intros s j' s' (ls1 & Hp & Hnm & Hs) (d & E & ->)%on_d_Ok. injection E as <- <-. exists ls1.
    split; [done|]. by destruct s as [[]].
  - intros j. apply triple_exists. intros ls1. apply triple_pure. intros [Hp Hnm].
    apply (held_put p i); [|by rewrite Hnm]. rewrite <- Hp. solve_Permutation.
Qed.

Lemma lookup_found_held dir d p full fi T lk :
  p <> 0 -> T !! p = None -> fi_node fi <> 0 ->
  (<[p := Z.of_nat LX_MAXPATH]> T : gmap Z Z) !! fi_node fi = None -> (length full <= LX_MAXPATH)%nat ->
  triple (held any (<[fi_node fi := sizeof_fileinfo (W := W)]> (<[p := Z.of_nat LX_MAXPATH]> T)) (fi_links fi) (lk.1 + 1, lk.2))
    (lookup_found walk tz_minuteswest stack_bytes stale rootpath xrootpath now path_walk dir d p full fi)
    (fun _ => held any T [] lk).
Proof.
  destruct lk as [k n]. cbn [fst snd]. intros Hp Hf Hfi Hfn Hl. unfold lookup_found.
  set (T2 := <[fi_node fi := sizeof_fileinfo (W := W)]> (<[p := Z.of_nat LX_MAXPATH]> T) : gmap Z Z).
  assert (Hfree : forall links, triple (held any T2 links (k, n))
    (free_info fi links ≫= fun _ => on_d (drv_kfree p)) (fun _ => held any T [] (k, n))).
  { intros links. pose proof (held_free_info fi links any _ [] (k, n) Hfn Hfi) as Hx. rewrite app_nil_r in Hx.
    eapply triple_after; [exact Hx|]. intros ?. by apply release_block. }
  assert (Hret : forall (a : Z) links, triple (held any T2 links (k, n))
    ((free_info fi links ≫= fun _ => on_d (drv_kfree p)) ≫= fun _ => mret a) (fun _ => held any T [] (k, n))).
  { intros a links. eapply triple_after; [apply Hfree|]. intros ?. apply held_ret. }
  destruct (negb _).
  - held_step. eapply triple_after; [apply linkmaster_held|]. intros m. held_step.
    eapply (triple_after _ _ _ (held any T2 (fi_links fi) (k + 1, n))).
    + destruct m as [m|]; [|apply held_ret]. eapply triple_after; [apply held_simple_link|]. intros ?. held_all.
    + intros ?. held_step. apply Hret.
  - do 2 held_step. destruct a0 as [q|]; [|held_step; apply Hret].
    apply held_name; [done|]. intros ?. held_step.
    eapply (triple_after _ _ _ (held any T2 (fi_links fi) (k + 1, n))).
    { destruct (i_new _); [|apply held_ret]. held_step.
      eapply triple_after; [apply held_update|intros ?; held_all].
      intros i. destruct (i_mode (vfs i) =? 0); by split. }
    intros ?. do 2 held_step. eapply (triple_after _ _ _ (held any T2 (fi_links fi) (k, n))).
    { unfold d_add. held_all. }
    intros ?. destruct (fi_links fi) as [|l links] eqn:El; [apply Hret|].
    eapply triple_after; [|intros ?; apply held_ret].
    eapply (triple_assoc3 _ _ _ _ _ (fun _ => held any T2 [] (k, n))); [|intros ?; apply Hfree].
    pose proof (link_childs_held q (l :: links) T2 [] (k, n)) as Hx. rewrite app_nil_r in Hx. exact Hx.
Qed.

Lemma lookup_held dir d nd T lk :
  triple (held any T [] lk)
    (iod_lookup walk garbage tz_minuteswest stack stack_bytes stale rootpath xrootpath now path_walk dir d nd) (fun rc s =>
    held any T [] lk s \/
    rc = - EEXIST /\ exists q sz ls, T !! q = None /\ held any (<[q := sz]> T) ls lk s).
Proof.
  destruct lk as [k n]. unfold iod_lookup. held_step.
  assert (Hok : forall (m : M (mount W H) Z) P, triple P m (fun _ => held any T [] (k, n)) ->
    triple P m (fun rc s => held any T [] (k, n) s \/
      rc = - EEXIST /\ exists q sz ls, T !! q = None /\ held any (<[q := sz]> T) ls (k, n) s)).
  { intros m P Hm. eapply triple_weaken; [exact Hm|done|]. by left. }
  apply held_block; [unfold LX_MAXPATH; lia|change (0 =? 0) with true; apply Hok, held_ret|].
  intros p Hp Hf. destruct (Z.eqb_spec p 0); [done|].
  apply held_fullname. intros full Hl. held_step.
  destruct (_ =? - ENAMETOOLONG); [apply Hok; held_step; by apply held_done|].
  destruct (negb _).
  { apply Hok. do 2 held_step. eapply triple_after; [|intros ?; by apply held_done]. unfold d_add. held_all. }
  apply held_info.
  - destruct nd as [[fl ofl]|]; apply Hok; held_step; by apply held_done.
  - intros fi Hfi Hfn. rewrite (app_nil_r (fi_links fi)).
    assert (Hfound : triple (held any (<[fi_node fi := sizeof_fileinfo (W := W)]> (<[p := Z.of_nat LX_MAXPATH]> T)) (fi_links fi) (k + 1, n))
      (lookup_found walk tz_minuteswest stack_bytes stale rootpath xrootpath now path_walk dir d p full fi)
      (fun _ => held any T [] (k, n))) by by apply (lookup_found_held dir d p full fi T (k, n)).
    destruct nd as [[fl ofl]|]; [|by apply Hok]. destruct (_ && _); [|by apply Hok].
    held_step. apply lookup_insert_None in Hfn as [Hfn Hne].
    assert (Hc : (<[fi_node fi := sizeof_fileinfo (W := W)]> (<[p := Z.of_nat LX_MAXPATH]> T) : gmap Z Z)
      = <[p := Z.of_nat LX_MAXPATH]> (<[fi_node fi := sizeof_fileinfo (W := W)]> T)) by by apply insert_insert_ne.
    rewrite Hc. eapply triple_after.
    { apply (release_block p). by rewrite lookup_insert_ne. }
    intros ?. eapply triple_weaken; [apply triple_ret|done|]. intros rc s [-> Hs]. right. split; [done|].
    by exists (fi_node fi), (sizeof_fileinfo (W := W)), (fi_links fi).
Qed.

Lemma held_fits n F T ls lk :
  triple (held F T ls lk) (of_res (fits_path n)) (fun f s => (length f <= LX_MAXPATH)%nat /\ held F T ls lk s).
Proof.
  intros s f s' Hs E. unfold of_res, fits_path in E. destruct (Nat.ltb_spec (length n) LX_MAXPATH); [|done].
  injection E as <- <-. split; [lia|done].
Qed.

Lemma held_name_only {A} p n (k : unit -> M (mount W H) A) T ls lk Q :
  (length n <= LX_MAXPATH)%nat -> (forall u, triple (held any T ls lk) (k u) Q) ->
  triple (held any T ls lk) (update_inode p (fun i => set_name n (in_rootlen i) i) ≫= k) Q.
Proof. intros Hn Hk. eapply triple_after; [|exact Hk]. apply held_update. intros i. by split. Qed.

(** The three buffers of a renaming are one block. *)
Lemma held_objects {A} (k : Z * list Z -> M (mount W H) A) T ls lk Q :
  triple (held any T ls lk) (k (- ENOMEM, [])) Q ->
  (forall p, p <> 0 -> T !! p = None ->
     triple (held any (<[p := u32 (3%nat * LX_MAXPATH)]> T) ls lk) (k (0, carve 3 p LX_MAXPATH)) Q) ->
  triple (held any T ls lk) (on_d (p ← drv_kmalloc (u32 (3%nat * LX_MAXPATH));
    if p =? 0 then mret (- ENOMEM, []) else mret (0, carve 3 p LX_MAXPATH)) ≫= k) Q.
Proof.
  intros Hz Hk. eapply triple_bind; [apply on_d_bind, held_block; [unfold LX_MAXPATH; mlia| |]|].
  - change (0 =? 0) with true. instantiate (1 := fun r s => r = (- ENOMEM, []) /\ held any T ls lk s \/
      exists p, (p <> 0 /\ T !! p = None /\ r = (0, carve 3 p LX_MAXPATH)) /\
        held any (<[p := u32 (3%nat * LX_MAXPATH)]> T) ls lk s).
    intros s r s' Hs (d & E & ->)%on_d_Ok. injection E as <- <-. left. split; [done|]. by destruct s as [[]].
  - intros p Hp Hf s r s' Hs (d & E & ->)%on_d_Ok. destruct (Z.eqb_spec p 0); [done|]. injection E as <- <-.
    right. exists p. split; [done|]. by destruct s as [[]].
  - intros r. apply triple_or; [apply triple_pure; by intros ->|]. apply triple_exists. intros p.
    apply triple_pure. intros (Hp & Hf & ->). auto.
Qed.

(** An inode's links and name are those it has while it is written. *)
Lemma held_written p i0 (m : Drv lxafs_inode_info) i T ls lk :
  same_links i0 i -> balanced m -> keeps_links m i ->
  triple (held (at_inode p i0) T ls lk) (on_d m ≫= put_inode p) (fun _ => held any T ls lk).
Proof.
  intros [Hl Hn] Hb Hk s a s' Hs (j & s1 & E1 & E2)%M_bind_Ok.
  pose proof E1 as (d & Ed & _)%on_d_Ok. destruct (Hk _ _ _ Ed) as [Hjl Hjn].
  eapply (held_put p i0 j); [by rewrite Hjl, Hl|by rewrite Hjn, Hn| |exact E2].
  by eapply (held_balanced _ _ _ _ _ Hb).
Qed.

Lemma write_dirty_held p T ls lk :
  triple (held any T ls lk) (write_dirty walk garbage tz_minuteswest stack_bytes p) (fun _ => held any T ls lk).
Proof.
  eapply triple_bind; [apply held_inode_at|]. intros i.
  eapply triple_facts; [apply held_facts|]. intros (Ha & Hn & _).
  apply (held_written p i _ (lxafs_mark_inode_dirty (LXAFS_DIRTY_LINKLIST + LXAFS_DIRTY_LINKCHILDS) i)).
  - done.
  - by apply balanced_write_inode.
  - apply write_inode_links.
Qed.

Lemma rename_known_held ps old new T ls lk :
  triple (held any T ls lk) (rename_known walk garbage tz_minuteswest stack_bytes ps old new) (fun _ => held any T ls lk).
Proof.
  induction ps as [|p ps IH]; cbn [rename_known]; [apply held_ret|].
  eapply triple_bind; [apply held_inode_at|]. intros i.
  eapply triple_after; [|intros ?; apply IH].
  destruct (renamed _ _ _) as [n|]; [|eapply triple_weaken'; [apply held_any|apply held_ret]].
  eapply triple_bind; [apply held_fits|]. intros f. apply triple_pure. intros Hf.
  eapply triple_after; [apply (held_put p i); [done|by intros _; cbn]|]. intros ?. apply write_dirty_held.
Qed.

Lemma rename_held od d nd nd' T lk :
  triple (held any T [] lk) (lxafs_rename walk garbage tz_minuteswest stack_bytes od d nd nd') (fun _ => held any T [] lk).
Proof.
  unfold lxafs_rename, LX_alloc_objects. held_step.
  apply held_objects; [apply held_ret|]. intros p Hp Hf. cbn [snd carve].
  held_step. apply held_fullname. intros old _. held_step. apply held_fullname. intros new Hnew.
  apply held_call; [apply balanced_name2|]. intros err.
  eapply triple_after; [|intros ?; by apply held_done]. destruct (err =? 0); [|apply held_ret].
  apply held_name_only; [done|]. intros ?. eapply triple_after; [apply write_dirty_held|]. intros ?. held_step.
  destruct (S_ISDIR _); [|apply held_ret]. held_step. apply rename_known_held.
Qed.

Lemma iod_rename_held od d nd nd' T lk :
  triple (held any T [] lk) (iod_rename walk garbage tz_minuteswest stack_bytes now simple_empty od d nd nd')
    (fun _ => held any T [] lk).
Proof.
  eapply triple_after; [apply rename_held|]. intros err. destruct (err =? 0); [|apply held_ret].
  held_step. eapply triple_after; [apply held_simple_rename|]. intros ?. unfold mark_dirty. held_all.
Qed.

Context (rlim_fsize : option Z) (inode_change_ok : lxafs_inode_info -> iattr -> Z) (keep_sgid : Z -> bool).

Lemma truncate_balanced i : balanced (iof_truncate walk i).
Proof.
  apply balanced_bind; [apply balanced_maintenance|]. intros r. apply balanced_keeps.
  unfold LX_DOSSETFILESIZE, LX_DOSCLOSE. keeps.
Qed.

Lemma truncate_links i j : same_links i j -> keeps_links (iof_truncate walk j) i.
Proof.
  intros Hs. do 3 (apply keeps_links_after; intros ?). apply keeps_links_ret.
  destruct Hs. by destruct (_ =? 0).
Qed.

Lemma setattr_balanced i a : balanced (inode_setattr walk rlim_fsize keep_sgid i a).
Proof.
  unfold inode_setattr. destruct (has _ _); [|apply balanced_ret]. destruct (negb _); [|apply balanced_ret].
  apply balanced_bind; [|intros ?; destruct (_ || _); apply balanced_ret].
  unfold vmtruncate. destruct (_ && _); [apply balanced_ret|].
  apply balanced_bind; [|intros ?; apply balanced_ret]. destruct (i_op _); [apply balanced_ret..|apply truncate_balanced].
Qed.

Lemma setattr_links i a (s s' : driver W H) r :
  inode_setattr walk rlim_fsize keep_sgid i a s = Ok (r, s') -> same_links i r.2.
Proof.
  unfold inode_setattr. destruct (has _ _); [|by intros [= <- _]]. destruct (negb _); [|by intros [= <- _]].
  intros (x & s1 & E1 & E)%M_bind_Ok.
  assert (Hx : same_links i x.2).
  { unfold vmtruncate in E1. destruct (_ && _); [by injection E1 as <- _|].
    apply M_bind_Ok in E1 as (j & s2 & E1 & E2). injection E2 as <- _. cbn.
    destruct (i_op _); [by injection E1 as <- _..|]. by eapply (truncate_links i (set_isize _ i)). }
  destruct (_ || _); by injection E as <- _.
Qed.

Lemma held_or_ret {A} (b : bool) (m : Drv A) a (X : A -> Prop) F T ls lk :
  balanced m -> (forall s r s', m s = Ok (r, s') -> X r) -> X a ->
  triple (held F T ls lk) (if b then on_d m else mret a) (fun r s => X r /\ held F T ls lk s).
Proof.
  intros Hb Hm Ha. destruct b.
  - intros s r s' Hs E. split; [|by eapply (held_balanced _ _ _ _ _ Hb)].
    apply on_d_Ok in E as (d & E & _). by eapply Hm.
  - eapply triple_weaken; [apply triple_ret|done|]. by intros r s [-> Hs].
Qed.

Lemma iof_setattr_held d a T lk :
  triple (held any T [] lk)
    (iof_setattr walk garbage tz_minuteswest stack_bytes rlim_fsize inode_change_ok keep_sgid d a)
    (fun _ => held any T [] lk).
Proof.
  destruct lk as [k n]. unfold iof_setattr. held_step. eapply triple_bind; [apply held_inode_at|]. intros i.
  eapply triple_facts; [apply held_facts|]. intros (Ha & Hn & _). cbn zeta.
  set (j := set_valid _ i). assert (Hij : same_links i j) by done.
  eapply triple_after; [apply held_lock|]. intros ?.
  eapply triple_bind.
  { apply (held_or_ret _ _ _ (fun r => same_links i r.2)); [apply setattr_balanced| |done].
    intros s r s' E. exact (setattr_links _ _ _ _ _ E). }
  intros r. apply triple_pure. intros [Hrl Hrn].
  eapply triple_after; [apply held_unlock|]. intros ?.
  eapply triple_bind.
  { apply (held_or_ret _ _ _ (same_links i)); [|intros s x s' E|done].
    - apply balanced_write_inode; [by rewrite Hrl|by rewrite Hrn].
    - destruct (write_inode_links r.2 _ _ _ E) as [H1' H2']. split; congruence. }
  intros x. apply triple_pure. intros [Hxl Hxn].
  eapply triple_after; [apply (held_put a0 i x); [by rewrite Hxl|by rewrite Hxn]|]. intros ?. apply held_ret.
Qed.

(** ** The operations the VFS calls *)

Inductive vfs_call :=
  | VCreate (dir d : Z)
  | VLookup (dir d : Z) (nd : option (Z * Z))
  | VLink (old dir d : Z)
  | VUnlink (dir d : Z)
  | VMkdir (dir d : Z)
  | VRmdir (dir d : Z)
  | VRename (old_dir old new_dir new : Z)
  | VSetattr (d : Z) (a : iattr).

Definition run_call (c : vfs_call) : M (mount W H) Z :=
  match c with
  | VCreate dir d => iod_create walk garbage tz_minuteswest stack stale rootpath dir d
  | VLookup dir d nd =>
      iod_lookup walk garbage tz_minuteswest stack stack_bytes stale rootpath xrootpath now path_walk dir d nd
  | VLink old dir d => iod_link walk garbage rootpath now path_walk old dir d
  | VUnlink dir d => iod_unlink walk garbage rootpath now path_walk dir d
  | VMkdir dir d => iod_mkdir walk stale rootpath dir d
  | VRmdir dir d => iod_rmdir walk dir d
  | VRename od o nd n => iod_rename walk garbage tz_minuteswest stack_bytes now simple_empty od o nd n
  | VSetattr d a => iof_setattr walk garbage tz_minuteswest stack_bytes rlim_fsize inode_change_ok keep_sgid d a
  end.

(** The two ways out of an operation that keep a block: mkdir when it fails,
    and a lookup for a creation that finds the file. *)
Definition may_leak (c : vfs_call) (rc : Z) : Prop :=
  match c with VMkdir _ _ => rc <> 0 | VLookup _ _ _ => rc = - EEXIST | _ => False end.

Lemma call_held c T lk :
  triple (held any T [] lk) (run_call c) (fun rc s =>
    held any T [] lk s \/ may_leak c rc /\ exists q sz ls, T !! q = None /\ held any (<[q := sz]> T) ls lk s).
Proof.
  assert (Hok : forall m, triple (held any T [] lk) m (fun _ => held any T [] lk) ->
    triple (held any T [] lk) m (fun rc s => held any T [] lk s \/
      may_leak c rc /\ exists q sz ls, T !! q = None /\ held any (<[q := sz]> T) ls lk s)).
  { intros m Hm. eapply triple_weaken; [exact Hm|done|]. by left. }
  destruct c; cbn [run_call may_leak].
  - apply Hok, create_held.
  - apply lookup_held.
  - apply Hok, link_held.
  - apply Hok, unlink_held.
  - eapply triple_weaken; [apply mkdir_held|done|]. intros rc s [Hs|(Hrc & p & Hp & Hs)]; [by left|].
    right. split; [done|]. by exists p, (Z.of_nat LX_MAXPATH), [].
  - apply Hok, rmdir_held.
  - apply Hok, iod_rename_held.
  - apply Hok, iof_setattr_held.
Qed.

(** What is left in hand counts as blocks of others from then on. *)
Lemma held_absorb F T ls lk s : held F T ls lk s -> exists T', T ⊆ T' /\ held F T' [] lk s.
Proof.
  intros [H1' H2' Hw Ha ? ? ?]. rewrite (Permutation_app_comm ls) in Hw. apply owns_app in Hw as (T' & Hl & Hw).
  exists T'. split; [by eapply owns_subseteq|]. split; try done. by apply Forall_app in Ha as [_ ?].
Qed.

Fixpoint run_calls (cs : list vfs_call) : M (mount W H) (list Z) :=
  match cs with
  | [] => mret []
  | c :: cs => rc ← run_call c; rcs ← run_calls cs; mret (rc :: rcs)
  end.

(** C14: Whatever sequence of directory operations runs, on whatever paths, at
    its end the driver's blocks are those from before and exactly the nodes in
    the lists of links of the inodes, every name fits its array, no free
    object of the inode cache is in use, and the big kernel lock and the
    directory's semaphore have the counts from before; only a failed mkdir and
    a lookup that finds the file it is to create keep blocks besides. *)
Theorem directory_calls_account (cs : list vfs_call) (T : gmap Z Z) (lk : Z * Z) (s s' : mount W H) (rcs : list Z) :
  held any T [] lk s -> run_calls cs s = Ok (rcs, s') ->
  exists T', T ⊆ T' /\ held any T' [] lk s' /\ (Forall2 (fun c rc => ~ may_leak c rc) cs rcs -> T' = T).
Proof.
  revert T s s' rcs. induction cs as [|c cs IH]; intros T s s' rcs Hs E; cbn [run_calls] in E.
  - injection E as <- <-. by exists T.
  - apply M_bind_Ok in E as (rc & s1 & E1 & E). apply M_bind_Ok in E as (rcs' & s2 & E2 & E). injection E as <- <-.
    destruct (call_held c T lk _ _ _ Hs E1) as [Hs1|(Hleak & q & sz & ls & Hq & Hs1)].
    + destruct (IH T s1 s2 rcs' Hs1 E2) as (T' & Hsub & Hs2 & Hall). exists T'. split_and!; [done|done|].
      intros [_ Hf]%Forall2_cons. auto.
    + destruct (held_absorb _ _ _ _ _ Hs1) as (T1 & Hsub1 & Hs1').
      destruct (IH T1 s1 s2 rcs' Hs1' E2) as (T' & Hsub & Hs2 & Hall). exists T'. split_and!; [|done|].
      * transitivity T1; [|done]. transitivity (<[q := sz]> T : gmap Z Z); [by apply insert_subseteq|done].
      * intros [Hno _]%Forall2_cons. contradiction.
Qed.
End Driver.

(** ** Names of the inodes a renamed directory has below it *)

Section Rename.
Context {W : Type} {H : Type} `{DosApi W} `{EahApi W} `{HeapLaws H} `{SecFile (driver W H)} `{Toolkit}.
Context (walk : nat) (garbage : Z -> list Z) (tz_minuteswest : Z) (stack_bytes : nat -> list Z).

Definition inode_names (s : mount W H) : gmap Z (list Z) := in_name <$> inodes (fs s).

Lemma on_d_names {A} (m : M (driver W H) A) : keeps inode_names (on_d m).
Proof. intros s a s' (d & _ & ->)%on_d_Ok. done. Qed.

Lemma put_names p j (s s' : mount W H) u :
  put_inode p j s = Ok (u, s') -> inode_names s' = <[p := in_name j]> (inode_names s) /\ inode_list s' = inode_list s.
Proof. intros [= _ <-]. split; [|done]. unfold inode_names. cbn. apply fmap_insert. Qed.

Lemma write_dirty_names p (s s' : mount W H) u :
  write_dirty walk garbage tz_minuteswest stack_bytes p s = Ok (u, s') -> inode_names s' = inode_names s.
Proof.
  intros (i & s1 & [Hi ->]%inode_at_Ok & E)%M_bind_Ok. apply M_bind_Ok in E as (j & s2 & E1 & E2).
  pose proof E1 as (d & Ed & _)%on_d_Ok. destruct (write_inode_links _ _ _ _ _ _ _ _ Ed) as [_ Hn].
  apply put_names in E2 as [-> _]. rewrite (on_d_names _ _ _ _ E1).
  apply insert_id. unfold inode_names. rewrite lookup_fmap, Hi. cbn. by rewrite Hn.
Qed.

(** The name of an inode of the list afterwards. *)
Definition moved (old new : list Z) (ps : list Z) (q : Z) (n : list Z) : list Z :=
  if bool_decide (q ∈ ps) then default n (renamed old new n) else n.

Lemma rename_known_names ps old new : forall (s s' : mount W H) u,
  NoDup ps -> rename_known walk garbage tz_minuteswest stack_bytes ps old new s = Ok (u, s') ->
  forall q, inode_names s' !! q = moved old new ps q <$> inode_names s !! q.
Proof.
  induction ps as [|p ps IH]; intros s s' u Hnd E q; cbn [rename_known] in E.
  - injection E as _ <-. unfold moved. rewrite bool_decide_eq_false_2 by apply not_elem_of_nil.
    by destruct (inode_names s !! q).
  - apply NoDup_cons in Hnd as [Hp Hnd].
    apply M_bind_Ok in E as (i & s1 & [Hi ->]%inode_at_Ok & E). apply M_bind_Ok in E as (v & s2 & E1 & E2).
    rewrite (IH _ _ _ Hnd E2 q). clear IH E2.
    assert (Hs2 : inode_names s2 = <[p := default (in_name i) (renamed old new (in_name i))]> (inode_names s)).
    { destruct (renamed old new (in_name i)) as [n|].
      - apply M_bind_Ok in E1 as (f & s3 & E3 & E1). apply M_bind_Ok in E1 as (w & s4 & E4 & E1).
        rewrite (write_dirty_names _ _ _ _ E1). apply put_names in E4 as [-> _]. cbn.
        unfold of_res, fits_path in E3. destruct (_ <? _)%nat; [|done]. by injection E3 as <- <-.
      - injection E1 as _ <-. cbn. symmetry. apply insert_id. unfold inode_names. by rewrite lookup_fmap, Hi. }
    rewrite Hs2. destruct (decide (q = p)) as [->|Hq].
    + rewrite lookup_insert_eq. unfold inode_names. rewrite lookup_fmap, Hi. cbn.
      unfold moved. rewrite bool_decide_eq_false_2 by done. rewrite bool_decide_eq_true_2 by apply list_elem_of_here.
      done.
    + rewrite lookup_insert_ne by done. unfold moved.
      rewrite (bool_decide_ext (q ∈ p :: ps) (q ∈ ps)); [done|]. rewrite elem_of_cons. intuition congruence.
Qed.
Lemma write_dirty_dir p (s s' : mount W H) u i :
  inodes (fs s) !! p = Some i -> S_ISDIR (i_mode (vfs i)) = true ->
  write_dirty walk garbage tz_minuteswest stack_bytes p s = Ok (u, s') ->
  exists j, inodes (fs s') !! p = Some j /\ vfs j = vfs i /\ inode_list s' = inode_list s.
Proof.
  intros Hi Hd E. unfold write_dirty in E. apply M_bind_Ok in E as (i' & s1 & [Hi' ->]%inode_at_Ok & E).
  assert (i' = i) as -> by congruence. apply M_bind_Ok in E as (j & s2 & (d & Ed & ->)%on_d_Ok & E2).
  unfold lxafs_write_inode in Ed.
  assert (Hr : S_ISREG (i_mode (vfs (lxafs_mark_inode_dirty (LXAFS_DIRTY_LINKLIST + LXAFS_DIRTY_LINKCHILDS) i))) = false).
  { cbn. unfold S_ISREG, S_ISDIR in *. apply Z.eqb_eq in Hd. rewrite Hd. done. }
  rewrite Hr in Ed. injection Ed as <- <-. injection E2 as _ <-. eexists. split; [apply lookup_insert_eq|]. done.
Qed.

Lemma dentry_at_Ok d (s s' : mount W H) e : dentry_at d s = Ok (e, s') -> dents s !! d = Some e /\ s' = s.
Proof. unfold dentry_at. destruct (dents s !! d); [|done]. by intros [= <- <-]. Qed.

Lemma inode_of_Ok d (s s' : mount W H) p :
  inode_of d s = Ok (p, s') -> s' = s /\ exists e, dents s !! d = Some e /\ d_inode e = Some p.
Proof.
  intros (e & s1 & [He ->]%dentry_at_Ok & E)%M_bind_Ok. destruct (d_inode e) as [q|] eqn:Eq; [|done].
  injection E as <- <-. eauto.
Qed.

Lemma fullname_in_Ok dir n (s s' : mount W H) full :
  fullname_in dir n s = Ok (full, s') -> s' = s /\ exists i, inodes (fs s) !! dir = Some i /\
    lxafs_build_fullname_from_parent_i (lx_of i) n LXAFS_BUILDFNAME_S = Ok full.
Proof.
  intros (i & s1 & [Hi ->]%inode_at_Ok & E)%M_bind_Ok. unfold of_res in E.
  destruct (lxafs_build_fullname_from_parent_i _ _ _) as [f|] eqn:Ef; [|done]. injection E as <- <-. eauto.
Qed.

(** What happens to the names between the call of the daemon and the release
    of the buffers. *)
Lemma rename_dir_names p old new (s s' : mount W H) u i :
  inodes (fs s) !! p = Some i -> S_ISDIR (i_mode (vfs i)) = true -> NoDup (inode_list s) ->
  (update_inode p (fun i => set_name new (in_rootlen i) i) ≫= fun _ =>
   write_dirty walk garbage tz_minuteswest stack_bytes p ≫= fun _ =>
   i ← inode_at p;
   if S_ISDIR (i_mode (vfs i))
   then s ← get; rename_known walk garbage tz_minuteswest stack_bytes (inode_list s) old new else mret tt) s = Ok (u, s') ->
  forall q, inode_names s' !! q = moved old new (inode_list s) q <$> <[p := new]> (inode_names s) !! q.
Proof.
  intros Hi Hd Hnd E q. apply M_bind_Ok in E as (x & s1 & E1 & E).
  apply M_bind_Ok in E1 as (i' & s0 & [Hi' ->]%inode_at_Ok & E1). assert (i' = i) as -> by congruence.
  destruct (put_names _ _ _ _ _ E1) as [Hn1 Hl1].
  assert (Hi1 : inodes (fs s1) !! p = Some (set_name new (in_rootlen i) i)).
  { injection E1 as _ <-. apply lookup_insert_eq. }
  apply M_bind_Ok in E as (y & s2 & E2 & E).
  destruct (write_dirty_dir _ _ _ _ _ Hi1 Hd E2) as (j & Hj & Hv & Hl2).
  pose proof (write_dirty_names _ _ _ _ E2) as Hn2.
  apply M_bind_Ok in E as (j' & s3 & [Hj' ->]%inode_at_Ok & E). assert (j' = j) as -> by congruence.
  rewrite Hv in E. cbn [set_name vfs] in E. rewrite Hd in E. cbn match in E.
  apply M_bind_Ok in E as (s4 & s5 & [= -> ->] & E). rewrite Hl2, Hl1 in E.
  rewrite (rename_known_names _ _ _ _ _ _ Hnd E q), Hn2, Hn1. done.
Qed.

(** The name in the tree below [old] moved to [new]. *)
Definition moved_below (old new n : list Z) : list Z :=
  if bool_decide (take (length old + 1) n = old ++ [47]) then new ++ drop (length old) n else n.

(** C15: After a directory was renamed, its inode has the new name, and every
    inode at the super block whose name begins with the old name has it
    replaced; when all names that begin with the old name are names below the
    directory, and the new name is not such a name, these are exactly the
    names in the moved tree and all other inodes keep theirs. *)
Theorem rename_directory_names (old_dir old_dentry new_dir new_dentry p : Z) (s s' : mount W H)
    (oi ni i : lxafs_inode_info) (oe ne : dentry) (old new : list Z) :
  inodes (fs s) !! old_dir = Some oi -> inodes (fs s) !! new_dir = Some ni -> inodes (fs s) !! p = Some i ->
  dents s !! old_dentry = Some oe -> dents s !! new_dentry = Some ne -> d_inode oe = Some p ->
  lxafs_build_fullname_from_parent_i (lx_of oi) (d_name oe) LXAFS_BUILDFNAME_S = Ok old ->
  lxafs_build_fullname_from_parent_i (lx_of ni) (d_name ne) LXAFS_BUILDFNAME_S = Ok new ->
  S_ISDIR (i_mode (vfs i)) = true -> NoDup (inode_list s) -> in_name i = old -> p ∈ inode_list s ->
  lxafs_rename walk garbage tz_minuteswest stack_bytes old_dir old_dentry new_dir new_dentry s = Ok (0, s') ->
  (forall q, inode_names s' !! q = moved old new (inode_list s) q <$> <[p := new]> (inode_names s) !! q) /\
  (take (length old) new <> old ->
   (forall q n, q <> p -> inode_names s !! q = Some n -> take (length old) n = old ->
      q ∈ inode_list s /\ take (length old + 1) n = old ++ [47]) ->
   forall q, inode_names s' !! q = (if decide (q = p) then fun _ => new else moved_below old new) <$> inode_names s !! q).
Proof.
  intros Hoi Hni Hi Hoe Hne Hp Hold Hnew Hd Hnd Hin Hpl E.
  assert (Ha : forall q, inode_names s' !! q = moved old new (inode_list s) q <$> <[p := new]> (inode_names s) !! q).
  { apply M_bind_Ok in E as (p' & s1 & (-> & e & He & Hp')%inode_of_Ok & E).
    assert (p' = p) as -> by congruence.
    apply M_bind_Ok in E as (o & s1 & (d1 & Eo & ->)%on_d_Ok & E).
    destruct o as [rc [|block bl]]; cbn [fst snd] in E.
    { injection E as -> _. unfold LX_alloc_objects in Eo. apply M_bind_Ok in Eo as (b & d2 & _ & Eo).
      destruct (b =? 0); [done|]. cbn in Eo. done. }
    apply M_bind_Ok in E as (oe' & s2 & [Hoe' ->]%dentry_at_Ok & E). assert (oe' = oe) as -> by (cbn in Hoe'; congruence).
    apply M_bind_Ok in E as (f & s2 & (-> & oi' & Hoi' & Hf)%fullname_in_Ok & E).
    assert (oi' = oi) as -> by (cbn in Hoi'; congruence). assert (f = old) as -> by congruence.
    apply M_bind_Ok in E as (ne' & s2 & [Hne' ->]%dentry_at_Ok & E). assert (ne' = ne) as -> by (cbn in Hne'; congruence).
    apply M_bind_Ok in E as (f & s2 & (-> & ni' & Hni' & Hf')%fullname_in_Ok & E).
    assert (ni' = ni) as -> by (cbn in Hni'; congruence). assert (f = new) as -> by congruence.
    apply M_bind_Ok in E as (err & s2 & (d2 & _ & ->)%on_d_Ok & E).
    apply M_bind_Ok in E as (u & s3 & E3 & E). apply M_bind_Ok in E as (v & s4 & E4 & E). injection E as Erc <-. subst err.
    rewrite (on_d_names _ _ _ _ E4). intros q.
    match type of E3 with _ ?x = _ => exact (rename_dir_names p old new x _ _ i Hi Hd Hnd E3 q) end. }
  split; [exact Ha|]. intros Hpre Hbelow q. rewrite Ha. unfold moved, moved_below.
  destruct (decide (q = p)) as [->|Hq].
  - rewrite lookup_insert_eq. unfold inode_names. rewrite lookup_fmap, Hi. cbn.
    rewrite bool_decide_eq_true_2 by done. unfold renamed. by rewrite bool_decide_eq_false_2.
  - rewrite lookup_insert_ne by done. destruct (inode_names s !! q) as [n|] eqn:En; [|done]. cbn. f_equal.
    unfold renamed. destruct (bool_decide_reflect (take (length old) n = old)) as [Ht|Ht].
    + destruct (Hbelow q n Hq En Ht) as [Hl Hc]. by rewrite !bool_decide_eq_true_2.
    + rewrite (bool_decide_eq_false_2 (take (length old + 1) n = _)); [by destruct (bool_decide _)|].
      intros Hc. apply Ht. apply (f_equal (take (length old))) in Hc. rewrite take_take, take_app_length in Hc.
      by rewrite Nat.min_l in Hc by lia.
Qed.
End Rename.

(** ** A mounted disk: a directory "a" with its file "x" beside it as "ax",
    and a file "m" that no inode shows yet *)

#[export] Instance ea_disk_SecKeeps {H} : SecKeeps ea_disk H.
Proof.
  split; intros; intros s r s' E; cbn in E; unfold on_os in E;
    (destruct (daemon s) as [d|]; [|by injection E as _ <-]);
    by destruct (_ : _ * ea_disk) as [? ?]; injection E as _ <-.
Qed.

Definition demo_entry (n : list Z) (p : option Z) : dentry := mk_dentry n n p false false 1.
Definition demo_inode (n : list Z) (mode : Z) : lxafs_inode_info :=
  mk_inode true n 2 [] 0 0 (mk_vfs mode 1 0 0 0 0 0 3 512 (-1) DirOps) false.

(** "c:/m" and "c:/a" are on the disk. *)
Definition demo_disk : ea_disk :=
  mk_ea_disk (set_files {[ [99;58;47;109] := [1; 2; 3]; [99;58;47;97] := [] ]} disk0) ∅.
Definition demo_mount : mount ea_disk arena :=
  mk_mount
    (mk_lxafs (mk_driver (Some (mk_lxapid demo_disk 4096 65536 (mk_packet 0 4096 0 0 0 0) [])) (arena0 40))
       {[ 1 := demo_inode [99;58] 16895; 2 := demo_inode [99;58;47;97] 16895;
          3 := demo_inode [99;58;47;97;120] 33279; 4 := demo_inode [99;58;47;97;47;120] 33279 ]} 0)
    {[ 1 := mk_core 2 1 false; 2 := mk_core 5 1 false; 3 := mk_core 6 1 false; 4 := mk_core 7 1 false ]}
    [4; 3; 2; 1] [(7, 4); (5, 2); (6, 3); (2, 1)]
    {[ 10 := demo_entry [97] (Some 2); 11 := demo_entry [98] None; 12 := demo_entry [110] None;
       13 := demo_entry [109] None; 14 := demo_entry [63] None; 15 := demo_entry [97;98] None ]}
    [20; 21] 8 7 0 1.
Definition demo_stack_bytes (n : nat) : list Z := replicate n 7.
Definition demo_stale (p : Z) : lxafs_inode_info := demo_inode [] 0.

Definition demo_calls (cs : list vfs_call) : res (list Z * mount ea_disk arena) :=
  run_calls 9 junk 0 stack0 demo_stack_bytes demo_stale [99;58] [47] 0 (fun _ => (0, None)) (fun _ => true) None
    (fun _ _ => 0) (fun _ => true) cs demo_mount.

Definition demo_sequence : list vfs_call :=
  [VCreate 1 12; VMkdir 1 14; VLookup 1 13 None; VUnlink 1 12; VRename 1 10 1 11; VRmdir 1 11].

(** The name "?" is refused. *)
Example demo_codes :
  match demo_calls demo_sequence with Ok (l, _) => l | Err _ => [] end = [0; -22; 0; 0; 0; -13].
Proof. vm_compute. reflexivity. Qed.

Lemma demo_held : held any ∅ [] (0, 1) demo_mount.
Proof.
  split; try done.
  - repeat constructor.
  - cbn. repeat (apply map_Forall_insert_2; [cbn; unfold LX_MAXPATH; lia|]). apply map_Forall_empty.
  - split; [refine (@bool_decide_unpack (NoDup [20; 21]) _ _); exact I|repeat constructor].
Qed.

Lemma directory_calls_account_witness :
  match demo_calls demo_sequence with
  | Ok (rcs, s') => exists T', ∅ ⊆ T' /\ held any T' [] (0, 1) s' /\
      (Forall2 (fun c rc => ~ may_leak c rc) demo_sequence rcs -> T' = ∅)
  | Err _ => False
  end.
Proof.
  destruct (demo_calls demo_sequence) as [[rcs s']|e] eqn:E.
  - refine (directory_calls_account 9 junk 0 stack0 demo_stack_bytes _ _ demo_stale [99;58] [47] 0 _ _ None _ _
      demo_sequence ∅ (0, 1) demo_mount s' rcs demo_held E).
    + cbn. lia.
    + done.
  - exfalso. vm_compute in E. discriminate E.
Defined.

Lemma demo_list : NoDup (inode_list demo_mount) /\ 2 ∈ inode_list demo_mount.
Proof.
  split; [refine (@bool_decide_unpack (NoDup [4; 3; 2; 1]) _ _)|refine (@bool_decide_unpack (2 ∈ [4; 3; 2; 1]) _ _)]; exact I.
Qed.

Lemma rename_directory_names_witness :
  match lxafs_rename 9 junk 0 demo_stack_bytes 1 10 1 11 demo_mount with
  | Ok (0, s') => forall q, inode_names s' !! q =
      moved [99;58;47;97] [99;58;47;98] [4; 3; 2; 1] q <$> <[2 := [99;58;47;98]]> (inode_names demo_mount) !! q
  | _ => False
  end.
Proof.
  destruct (lxafs_rename 9 junk 0 demo_stack_bytes 1 10 1 11 demo_mount) as [[rc s']|e] eqn:E;
    [|exfalso; vm_compute in E; discriminate E].
  assert (rc = 0) as -> by (clear -E; vm_compute in E; congruence).
  refine (proj1 (rename_directory_names 9 junk 0 demo_stack_bytes 1 10 1 11 2 demo_mount s'
    (demo_inode [99;58] 16895) (demo_inode [99;58] 16895) (demo_inode [99;58;47;97] 16895)
    (demo_entry [97] (Some 2)) (demo_entry [98] None) _ _ _ _ _ _ _ _ _ _ _ _ _ _ E));
    try reflexivity.
  - apply demo_list.
  - apply demo_list.
Defined.

(** ** Corner cases *)

Definition names_after (r : res (Z * mount ea_disk arena)) : list (Z * list Z) :=
  match r with Ok (_, s) => map_to_list (inode_names s) | Err _ => [] end.

(** "a" is renamed to "ab": its inode is called "abb", and the file "ax"
    beside it is called "abx" from then on; the file "x" in it is right. *)
Example renamed_twice :
  match lxafs_rename 9 junk 0 demo_stack_bytes 1 10 1 15 demo_mount with
  | Ok (rc, s) => (rc, inode_names s !! 2, inode_names s !! 3, inode_names s !! 4)
  | Err _ => (-1, None, None, None)
  end = (0, Some [99;58;47;97;98;98], Some [99;58;47;97;98;120], Some [99;58;47;97;98;47;120]).
Proof. vm_compute. reflexivity. Qed.

(** The sizes of the blocks that are left after one call. *)
Definition blocks_after (c : vfs_call) : option (list Z * list Z) :=
  match demo_calls [c] with
  | Ok (rcs, s) => Some (rcs, (map_to_list (used (kheap (drv (fs s))))).*2)
  | Err _ => None
  end.

Example refused_mkdir_keeps_block : blocks_after (VMkdir 1 14) = Some ([-22], [260]).
Proof. vm_compute. reflexivity. Qed.

(** A lookup with LOOKUP_CREATE that finds the file. *)
Example lookup_keeps_info : blocks_after (VLookup 1 13 (Some (LOOKUP_CREATE, 0))) = Some ([-17], [328]).
Proof. vm_compute. reflexivity. Qed.

(** Without a free inode create returns 0 and the entry has no inode. *)
Example create_without_inode :
  match iod_create 9 junk 0 stack0 demo_stale [99;58] 1 12 (set_cache (inode_list demo_mount) [] demo_mount) with
  | Ok (rc, s) => Some (rc, d_inode <$> dents s !! 12)
  | Err _ => None
  end = Some (0, Some None).
Proof. vm_compute. reflexivity. Qed.

(** A new inode, as mkdir makes it, has the number 8 from the VFS's counter; the
    next number of LXAFS is 8 as well, so the lookup of "m" finds that inode,
    and gives it the name "c:/m". *)
Example number_taken_twice :
  match (p ← new_inode demo_stale;
         match p with
         | Some p =>
             insert_inode_hash p ≫= fun _ => put_inode p (demo_inode [99;58;47;110] S_IFDIR) ≫= fun _ =>
             iod_lookup 9 junk 0 stack0 demo_stack_bytes demo_stale [99;58] [47] 0 (fun _ => (0, None)) 1 13 None ≫= fun rc =>
             mret (p, rc)
         | None => throw NullDeref
         end) demo_mount with
  | Ok (p, rc, s) => Some (p, rc, d_inode <$> dents s !! 13,
      (fun i => (in_name i, S_ISDIR (i_mode (vfs i)))) <$> inodes (fs s) !! p)
  | Err _ => None
  end = Some (20, 0, Some (Some 20), Some ([99;58;47;109], true)).
Proof. vm_compute. reflexivity. Qed.

(** lxda1 is the first drive; lxda10 and lxda11 are not the tenth and eleventh. *)
Example drive_numbers :
  map (fun n => lxafs_drive_no_from_super ([108; 120; 100; 97] ++ n ++ [0; 0]))
    [[49]; [57]; [49; 48]; [49; 49]] = [0; 8; -1; 0].
Proof. reflexivity. Qed.
