(* ===== verification/Total.v ===== *)
(** * Computations that return

    [total P m Q]: from every state with [P] the computation [m] returns, with
    [Q] of its result and the state then.  Faults and loops that run out of
    fuel are excluded, so the rules are those of total correctness. *)

From S2P Require Import Prelude.

Definition total {S A} (P : S -> Prop) (m : M S A) (Q : A -> S -> Prop) : Prop :=
  forall s, P s -> exists a s', m s = Ok (a, s') /\ Q a s'.

Section Total.
Context {S : Type}.
Implicit Types P : S -> Prop.
Lemma total_ret {A} (a : A) P (Q : A -> S -> Prop) : (forall s, P s -> Q a s) -> total P (mret a) Q.
Proof. intros HQ s HP. exists a, s. auto. Qed.
Lemma total_bind {A B} (m : M S A) (k : A -> M S B) P Q R :
  total P m Q -> (forall a, total (Q a) (k a) R) -> total P (m ≫= k) R.
Proof.
  intros Hm Hk s HP. destruct (Hm s HP) as (a & s1 & E & HQ). destruct (Hk a s1 HQ) as (b & s2 & E2 & HR).
  exists b, s2. split; [|done]. by rewrite (M_bind_val _ _ _ _ _ E).
Qed.
Lemma total_weaken {A} (m : M S A) P P' (Q Q' : A -> S -> Prop) :
  total P' m Q' -> (forall s, P s -> P' s) -> (forall a s, Q' a s -> Q a s) -> total P m Q.
Proof. intros Hm HP HQ s Hs. destruct (Hm s (HP s Hs)) as (a & s' & E & H). eauto. Qed.
Lemma total_pre {A} (m : M S A) P P' (Q : A -> S -> Prop) : (forall s, P s -> P' s) -> total P' m Q -> total P m Q.
Proof. intros HP Hm. by eapply total_weaken. Qed.
Lemma total_modify (f : S -> S) P (Q : unit -> S -> Prop) : (forall s, P s -> Q tt (f s)) -> total P (modify f) Q.
Proof. intros HQ s HP. exists tt, (f s). auto. Qed.
(** What the state is known to satisfy. *)
Lemma total_known {A} (m : M S A) P (Q : A -> S -> Prop) (X : Prop) :
  (forall s, P s -> X) -> (X -> total P m Q) -> total P m Q.
Proof. intros HX Hm s HP. exact (Hm (HX s HP) s HP). Qed.
Lemma total_gets {A B} (f : S -> A) (k : A -> M S B) P R :
  (forall a, total (fun s => P s /\ f s = a) (k a) R) -> total P (gets f ≫= k) R.
Proof. intros Hk. eapply total_bind; [|exact Hk]. intros s HP. exists (f s), s. auto. Qed.
Lemma total_get {A} (k : S -> M S A) P Q : (forall s, total P (k s) Q) -> total P (get ≫= k) Q.
Proof. intros Hk s HP. exact (Hk s s HP). Qed.
Lemma total_exists {A B} (m : M S A) (P : B -> S -> Prop) Q :
  (forall b, total (P b) m Q) -> total (fun s => exists b, P b s) m Q.
Proof. intros Hm s [b HP]. by eapply Hm. Qed.
Lemma total_pure {A} (m : M S A) (X : Prop) P Q : (X -> total P m Q) -> total (fun s => P s /\ X) m Q.
Proof. intros Hm s [HP HX]. exact (Hm HX s HP). Qed.
End Total.
