(* ===== verification/PageAlloc.v ===== *)
(** * Pages (os2/mm/om_page_alloc.c)

    There is no buddy allocator: a block of pages is an object of the memory
    manager, with an entry in lx_pages that holds a struct page for every page.
    A page goes back when all pages of its block are unused. *)

From S2P Require Import Prelude DevHlp Memory Heap.

Definition GFP_HIGHMEM : Z := 2.
Definition sizeof_lx_pg_entry : Z := 24.
Definition sizeof_page : Z := 36.

(** The fields of struct page this file sets; the others stay 0. *)
Record lx_page := mk_page { pg_count : Z; pg_virtual : Z }.

(** The array [pages] follows the entry in the same object. *)
Record lx_pg_entry := mk_lpe { num_pages : Z; lpe_gfp_mask : Z; start : Z; pages : list lx_page }.

#[export] Instance lx_page_eq_dec : EqDecision lx_page.
Proof. solve_decision. Defined.
#[export] Instance lx_pg_entry_eq_dec : EqDecision lx_pg_entry.
Proof. solve_decision. Defined.

Record pgs (H : Type) := mk_pgs { pg_heap : H; lx_pages : list (Z * lx_pg_entry); lx_pages_lock : bool }.
Arguments mk_pgs {H}. Arguments pg_heap {H}. Arguments lx_pages {H}. Arguments lx_pages_lock {H}.

(** Address of pages[i] of the entry at [n]. *)
Definition page_ptr (n i : Z) : Z := n + sizeof_lx_pg_entry + sizeof_page * i.

(** The first [i] of i, ..., i + n - 1 that passes. *)
Fixpoint find_index (f : Z -> bool) (i : Z) (n : nat) : option Z :=
  match n with O => None | S n => if f i then Some i else find_index f (i + 1) n end.

Definition at_page (pg n i : Z) : bool := page_ptr n i =? pg.
Definition at_addr (addr : Z) (e : lx_pg_entry) (i : Z) : bool :=
  (u32 (start e + u32 (i * PAGE_SIZE)) <=? addr) && (addr <? u32 (start e + u32 ((i + 1) * PAGE_SIZE))).

Fixpoint walk (f : Z * lx_pg_entry -> Z -> bool) (l : list (Z * lx_pg_entry)) : option (Z * lx_pg_entry * Z) :=
  match l with
  | [] => None
  | x :: l =>
      match find_index (f x) 0 (Z.to_nat (num_pages x.2)) with Some i => Some (x, i) | None => walk f l end
  end.

Definition LX_get_lpe_from_page (pg : Z) : list (Z * lx_pg_entry) -> option (Z * lx_pg_entry * Z) :=
  walk (fun x => at_page pg x.1).
Definition LX_get_lpe_from_addr (addr : Z) : list (Z * lx_pg_entry) -> option (Z * lx_pg_entry * Z) :=
  walk (fun x => at_addr addr x.2).

(** The loop that sets count and address of every page. *)
Definition init_pages (start n : Z) : list lx_page :=
  map (fun i : nat => mk_page 1 (u32 (start + u32 (i * PAGE_SIZE)))) (seq 0 (Z.to_nat n)).

Fixpoint update_page (k : nat) (f : lx_page -> lx_page) (l : list lx_page) : option (list lx_page) :=
  match l, k with
  | [], _ => None
  | p :: l, O => Some (f p :: l)
  | p :: l, S k => l' ← update_page k f l; Some (p :: l')
  end.
Definition add_count (d : Z) (p : lx_page) : lx_page := mk_page (s32 (pg_count p + d)) (pg_virtual p).

(** The loop of __free_pages; pages behind the array are not the block's. *)
Fixpoint dec_counts (n : nat) (index : Z) (l : list lx_page) : option (list lx_page) :=
  match n with
  | O => Some l
  | S n => l' ← update_page (Z.to_nat index) (add_count (-1)) l; dec_counts n (index + 1) l'
  end.

Definition all_unused (l : list lx_page) : bool := forallb (fun p => pg_count p =? 0) l.

Section Pages.
Context {H : Type} `{Heap H}.
Abbreviation P := (M (pgs H)).

Definition LX_malloc (sz : Z) : P Z := fun s =>
  let r := kmalloc sz (pg_heap s) in Ok (r.2, mk_pgs r.1 (lx_pages s) (lx_pages_lock s)).
Definition LX_free (p : Z) : P unit := modify (fun s => mk_pgs (kfree p (pg_heap s)) (lx_pages s) (lx_pages_lock s)).
Definition lock_pages : P unit := fun s =>
  if lx_pages_lock s then Err Deadlock else Ok (tt, mk_pgs (pg_heap s) (lx_pages s) true).
Definition unlock_pages : P unit := modify (fun s => mk_pgs (pg_heap s) (lx_pages s) false).
Definition set_list (l : list (Z * lx_pg_entry)) : P unit := modify (fun s => mk_pgs (pg_heap s) l (lx_pages_lock s)).
Definition is_node (n : Z) (x : Z * lx_pg_entry) : bool := x.1 =? n.
Definition put_entry (n : Z) (e : lx_pg_entry) : P unit :=
  l ← gets lx_pages; set_list (update_first (is_node n) (fun x => (n, e)) l).

(** An array that does not fit its object is written outside of it. *)
Definition LX_alloc_num_pages (gfp_mask n : Z) : P Z :=
  let sz := u32 (sizeof_lx_pg_entry + u32 (sizeof_page * n)) in
  lpe ← LX_malloc sz;
  if lpe =? 0 then mret 0 else
  a ← LX_malloc (u32 (PAGE_SIZE * n));
  if negb (a =? 0) then
    if sz <? sizeof_lx_pg_entry + sizeof_page * n then throw BadAccess else
    lock_pages ≫= fun _ =>
    l ← gets lx_pages;
    set_list ((lpe, mk_lpe n gfp_mask a (init_pages a n)) :: l) ≫= fun _ =>
    unlock_pages ≫= fun _ => mret (page_ptr lpe 0)
  else LX_free lpe ≫= fun _ => mret 0.

Definition __alloc_pages (gfp_mask order : Z) : P Z := LX_alloc_num_pages gfp_mask (u32 (Z.shiftl 1 order)).

Definition lookup_page (pg : Z) : P (option (Z * lx_pg_entry * Z)) :=
  lock_pages ≫= fun _ => l ← gets lx_pages; unlock_pages ≫= fun _ => mret (LX_get_lpe_from_page pg l).

Definition __get_free_pages (gfp_mask order : Z) : P Z :=
  pg ← __alloc_pages gfp_mask order;
  if pg =? 0 then mret 0 else
  r ← lookup_page pg;
  match r with Some (_, e, i) => mret (u32 (start e + u32 (PAGE_SIZE * i))) | None => mret 0 end.

(** The block goes back after the lock is released. *)
Definition __free_pages (page order : Z) : P unit :=
  lock_pages ≫= fun _ =>
  l ← gets lx_pages;
  match LX_get_lpe_from_page page l with
  | None => unlock_pages
  | Some (n, e, index) =>
      match dec_counts (Z.to_nat (u32 (Z.shiftl 1 order))) index (pages e) with
      | None => throw BadAccess
      | Some ps =>
          put_entry n (mk_lpe (num_pages e) (lpe_gfp_mask e) (start e) ps) ≫= fun _ =>
          if all_unused ps then
            l ← gets lx_pages;
            set_list (remove_first (is_node n) l) ≫= fun _ => unlock_pages ≫= fun _ =>
            LX_free (start e) ≫= fun _ => LX_free n
          else unlock_pages
      end
  end.

Definition LX_virt_to_page (kaddr : Z) : P Z :=
  lock_pages ≫= fun _ =>
  l ← gets lx_pages; unlock_pages ≫= fun _ =>
  match LX_get_lpe_from_addr kaddr l with Some (n, _, i) => mret (page_ptr n i) | None => mret 0 end.

Definition LX_virt_addr_valid (kaddr : Z) : P Z :=
  page ← LX_virt_to_page kaddr; mret (if page =? 0 then 0 else 1).

Definition free_pages (addr order : Z) : P unit :=
  if addr =? 0 then mret tt else
  v ← LX_virt_addr_valid addr;
  if v =? 0 then throw BugOn else page ← LX_virt_to_page addr; __free_pages page order.

(** What a page holds is not part of the state, so clearing it is not seen. *)
Definition get_zeroed_page (gfp_mask : Z) : P Z :=
  if negb (Z.land gfp_mask GFP_HIGHMEM =? 0) then throw BugOn else __get_free_pages gfp_mask 0.

(** ** References to a page (Include/Linux/mm.h) *)

(** A page that is accessed through its address. *)
Definition page_at (pg : Z) : P (Z * lx_pg_entry * Z * lx_page) := fun s =>
  match LX_get_lpe_from_page pg (lx_pages s) with
  | Some (x, i) => match pages x.2 !! Z.to_nat i with Some p => Ok ((x, i, p), s) | None => Err BadAccess end
  | None => Err BadAccess
  end.
Definition change_count (d pg : Z) : P unit :=
  r ← page_at pg;
  let '((n, e), i, _) := r in
  match update_page (Z.to_nat i) (add_count d) (pages e) with
  | Some ps => put_entry n (mk_lpe (num_pages e) (lpe_gfp_mask e) (start e) ps)
  | None => throw BadAccess
  end.

Definition get_page (pg : Z) : P unit := change_count 1 pg.

(** No page is reserved.  A page that is not used any more goes to
    free_hot_page, which is not implemented: nothing happens to it. *)
Definition put_page (pg : Z) : P unit :=
  r ← page_at pg;
  if pg_count r.2 =? 0 then throw BugOn else change_count (-1) pg.

Definition page_address (pg : Z) : P Z := r ← page_at pg; mret (pg_virtual r.2).
End Pages.

(** ** Looking a page up *)

Lemma find_index_Some f i n k :
  find_index f i n = Some k -> i <= k < i + n /\ f k = true.
Proof.
  revert i. induction n as [|n IH]; cbn; intros i; [done|]. destruct (f i) eqn:E.
  - intros [= <-]. split; [lia|done].
  - intros Hk. destruct (IH _ Hk). split; [lia|done].
Qed.
Lemma find_index_None f i n k : find_index f i n = None -> i <= k < i + n -> f k = false.
Proof.
  revert i. induction n as [|n IH]; cbn; intros i; [lia|]. destruct (f i) eqn:E; [done|].
  intros Hn Hk. destruct (decide (k = i)) as [->|]; [done|]. apply (IH (i + 1)); [done|lia].
Qed.

Lemma walk_sound f l x i : walk f l = Some (x, i) -> x ∈ l /\ 0 <= i < num_pages x.2 /\ f x i = true.
Proof.
  induction l as [|y l IH]; cbn; [done|]. destruct (find_index (f y) 0 _) as [k|] eqn:E.
  - intros [= -> ->]. apply find_index_Some in E as [Hi Hf]. split; [by left|]. split; [lia|done].
  - intros Hw. destruct (IH Hw) as (? & ? & ?). split; [by right|done].
Qed.
Lemma walk_complete f l x i : x ∈ l -> 0 <= i < num_pages x.2 -> f x i = true -> is_Some (walk f l).
Proof.
  intros Hx Hi Hf. induction l as [|y l IH]; cbn; [by apply elem_of_nil in Hx|].
  destruct (find_index (f y) 0 _) as [k|] eqn:E; [by eexists|].
  apply elem_of_cons in Hx as [->|Hx]; [|by apply IH].
  rewrite (find_index_None _ _ _ i E) in Hf; [done|lia].
Qed.

(** Only page [i] of [x] passes. *)
Lemma walk_finds f l x i : x ∈ l -> 0 <= i < num_pages x.2 -> f x i = true ->
  (forall y j, y ∈ l -> 0 <= j < num_pages y.2 -> f y j = true -> y = x /\ j = i) -> walk f l = Some (x, i).
Proof.
  intros Hx Hi Hf Hu. destruct (walk_complete f l x i Hx Hi Hf) as [[y j] E]. rewrite E.
  destruct (walk_sound _ _ _ _ E) as (Hy & Hj & Hg). destruct (Hu y j Hy Hj Hg) as [-> ->]. done.
Qed.
Lemma walk_nothing f l : (forall y j, y ∈ l -> 0 <= j < num_pages y.2 -> f y j = false) -> walk f l = None.
Proof.
  intros Hn. destruct (walk f l) as [[y j]|] eqn:E; [|done].
  destruct (walk_sound _ _ _ _ E) as (Hy & Hj & Hf). rewrite Hn in Hf; done.
Qed.

(** ** Counts *)

Lemma update_page_alter k f l : (k < length l)%nat -> update_page k f l = Some (alter f k l).
Proof.
  revert k. induction l as [|p l IH]; cbn; intros k Hk; [lia|]. destruct k as [|k]; [done|].
  cbn. rewrite IH by lia. done.
Qed.

(** The pages i, ..., i + n - 1 change. *)
Definition in_run (i n k : nat) : bool := (i <=? k)%nat && (k <? i + n)%nat.
Lemma in_run_spec i n k : in_run i n k = true <-> (i <= k < i + n)%nat.
Proof. unfold in_run. destruct (Nat.leb_spec i k), (Nat.ltb_spec k (i + n)); cbn; split; (done || lia). Qed.
Definition on_run {A} (i n : nat) (f : A -> A) (l : list A) : list A := imap (fun k x => if in_run i n k then f x else x) l.

Lemma on_run_lookup {A} i n (f : A -> A) l k :
  on_run i n f l !! k = (if in_run i n k then f <$> l !! k else l !! k).
Proof. unfold on_run. rewrite list_lookup_imap. destruct (l !! k); cbn; by destruct (in_run i n k). Qed.
Lemma on_run_length {A} i n (f : A -> A) l : length (on_run i n f l) = length l.
Proof. apply length_imap. Qed.
Lemma on_run_fmap {A B} i n (f : A -> A) (g : B -> B) (h : A -> B) l :
  (forall k x, l !! k = Some x -> in_run i n k = true -> h (f x) = g (h x)) -> h <$> on_run i n f l = on_run i n g (h <$> l).
Proof.
  intros Hh. apply list_eq. intros k. rewrite list_lookup_fmap, !on_run_lookup, list_lookup_fmap.
  destruct (l !! k) as [x|] eqn:E; cbn; [|by destruct (in_run i n k)].
  destruct (in_run i n k) eqn:Ei; cbn; [|done]. by rewrite (Hh k x).
Qed.

Lemma dec_counts_run : forall n i l, (i + n <= length l)%nat -> dec_counts n i l = Some (on_run i n (add_count (-1)) l).
Proof.
  induction n as [|n IH]; cbn; intros i l Hl.
  - f_equal. apply list_eq. intros k. rewrite on_run_lookup. unfold in_run.
    destruct (Nat.leb_spec i k), (Nat.ltb_spec k (i + 0)); cbn; (done || lia).
  - rewrite Nat2Z.id, update_page_alter by lia. cbn. replace (i + 1) with (Z.of_nat (S i)) by lia.
    rewrite IH by (rewrite length_alter; lia). f_equal. apply list_eq. intros k. rewrite !on_run_lookup. unfold in_run.
    destruct (decide (k = i)) as [->|Hk].
    + rewrite list_lookup_alter_eq. rewrite (leb_correct i i), (leb_correct_conv i (S i)) by lia.
      destruct (Nat.ltb_spec i (i + S n)); [done|lia].
    + rewrite list_lookup_alter_ne by done.
      destruct (Nat.leb_spec i k), (Nat.leb_spec (S i) k), (Nat.ltb_spec k (i + S n)), (Nat.ltb_spec k (S i + n)); cbn; (done || lia).
Qed.

(** ** Memory of the blocks *)

Definition cells (x : Z * lx_pg_entry) : list (Z * Z) :=
  [(x.1, sizeof_lx_pg_entry + sizeof_page * num_pages x.2); (start x.2, PAGE_SIZE * num_pages x.2)].
Definition all_cells (l : list (Z * lx_pg_entry)) : list (Z * Z) := l ≫= cells.

Definition apart (c d : Z * Z) : Prop := c.1 + c.2 <= d.1 \/ d.1 + d.2 <= c.1.
Fixpoint sep (cs : list (Z * Z)) : Prop :=
  match cs with [] => True | c :: cs => Forall (apart c) cs /\ sep cs end.

Lemma apart_sym c d : apart c d -> apart d c.
Proof. unfold apart. tauto. Qed.
Lemma sep_perm cs ds : cs ≡ₚ ds -> sep cs -> sep ds.
Proof.
  induction 1 as [|c cs ds Hp IH|c d cs|cs ds es _ IH1 _ IH2]; cbn; [done|..].
  - intros [Hc Hs]. split; [by rewrite <- Hp|auto].
  - intros [[Hcd Hc]%Forall_cons [Hd Hs]]. split; [|by split]. constructor; [by apply apart_sym|done].
  - auto.
Qed.
#[export] Instance sep_proper : Proper ((≡ₚ) ==> iff) sep.
Proof. intros cs ds Hp. split; by apply sep_perm. Qed.

Lemma sep_keys cs : Forall (fun c => 0 < c.2) cs -> sep cs -> NoDup cs.*1.
Proof.
  induction cs as [|c cs IH]; cbn; [constructor|]. intros [Hc Hcs]%Forall_cons [Ha Hs]. constructor; [|auto].
  intros (d & Hd & Hi)%list_elem_of_fmap. rewrite Forall_forall in Ha, Hcs. specialize (Ha d Hi). specialize (Hcs d Hi).
  unfold apart in Ha. lia.
Qed.

Record entry_ok (x : Z * lx_pg_entry) : Prop := {
  eo_num : 0 < num_pages x.2 < 524288;
  eo_pages : Z.of_nat (length (pages x.2)) = num_pages x.2;
  eo_node : 0 < x.1;
  eo_start : 0 < start x.2 /\ start x.2 mod 4096 = 0 /\ start x.2 + 4096 * num_pages x.2 <= 4294901760;
  eo_page : forall (i : nat) p, pages x.2 !! i = Some p -> 0 <= pg_count p < 2147483648 /\ pg_virtual p = start x.2 + 4096 * i
}.

(** [counts]: what the clients see of a block. *)
Definition counts (e : lx_pg_entry) : list Z := pg_count <$> pages e.
Definition block (x : Z * lx_pg_entry) : Z * list Z := (start x.2, counts x.2).

Section Rel.
Context {H : Type} `{HeapLaws H} `{!HeapPages H}.
Abbreviation P := (M (pgs H)).
Implicit Types (s : pgs H) (A : gmap Z (list Z)) (U : gmap Z Z).

(** [A] holds the blocks by their address, [U] what else the heap holds. *)
Record holds s A U : Prop := {
  ho_lock : lx_pages_lock s = false;
  ho_heap : heap_ok (pg_heap s);
  ho_entries : Forall entry_ok (lx_pages s);
  ho_sep : sep (all_cells (lx_pages s));
  ho_other : list_to_map (all_cells (lx_pages s)) ##ₘ U;
  ho_used : used (pg_heap s) = list_to_map (all_cells (lx_pages s)) ∪ U;
  ho_blocks : A = list_to_map (block <$> lx_pages s)
}.

Lemma cells_positive l : Forall entry_ok l -> Forall (fun c => 0 < c.2) (all_cells l).
Proof.
  intros Hl. unfold all_cells. apply Forall_forall. intros c (x & Hc & Hx)%list_elem_of_bind.
  rewrite Forall_forall in Hl. destruct (eo_num _ (Hl x Hx)).
  unfold cells in Hc. unfold PAGE_SIZE, sizeof_page, sizeof_lx_pg_entry in Hc. set_unfold in Hc. destruct Hc as [->|[->|[]]]; cbn; lia.
Qed.

(** Two entries that have a byte in common are the same. *)
Lemma cells_same l x y c d a : sep (all_cells l) -> x ∈ l -> y ∈ l -> c ∈ cells x -> d ∈ cells y ->
  c.1 <= a < c.1 + c.2 -> d.1 <= a < d.1 + d.2 -> x = y.
Proof.
  intros Hs Hx Hy Hc Hd Ha Hb. apply list_elem_of_split in Hx as (l1 & l2 & ->).
  assert (all_cells (l1 ++ x :: l2) ≡ₚ cells x ++ all_cells (l1 ++ l2)) as Hp.
  { unfold all_cells. rewrite !bind_app. cbn. solve_Permutation. }
  rewrite Hp in Hs. destruct (decide (x = y)) as [|Hne]; [done|].
  assert (d ∈ all_cells (l1 ++ l2)) as Hi.
  { unfold all_cells. apply list_elem_of_bind. exists y. split; [done|].
    rewrite elem_of_app, elem_of_cons in Hy. rewrite elem_of_app. destruct Hy as [?|[->|?]]; [by left|done|by right]. }
  assert (apart c d) as Hap; [|unfold apart in Hap; lia].
  unfold cells in Hs. cbn in Hs. destruct Hs as [[_ Hs1]%Forall_cons [Hs2 _]]. rewrite Forall_forall in Hs1, Hs2.
  unfold cells in Hc. set_unfold in Hc. destruct Hc as [->|[->|[]]]; auto.
Qed.

Lemma page_finds s A U n e i : holds s A U -> (n, e) ∈ lx_pages s -> 0 <= i < num_pages e ->
  LX_get_lpe_from_page (page_ptr n i) (lx_pages s) = Some ((n, e), i).
Proof.
  intros Hh Hx Hi. apply walk_finds; [done|done|apply Z.eqb_refl|].
  intros y j Hy Hj Hf. unfold at_page, page_ptr, sizeof_page, sizeof_lx_pg_entry in Hf.
  assert ((n, e) = y) as <-; [|cbn in *; split; [done|lia]].
  apply (cells_same (lx_pages s) (n, e) y (n, sizeof_lx_pg_entry + sizeof_page * num_pages e)
    (y.1, sizeof_lx_pg_entry + sizeof_page * num_pages y.2) (page_ptr n i)); [by eapply ho_sep|done|done|by left|by left|..];
    cbn; unfold page_ptr, sizeof_page, sizeof_lx_pg_entry; cbn in *; lia.
Qed.

Lemma at_addr_spec e addr i : 0 <= start e -> start e + 4096 * num_pages e <= 4294901760 -> 0 <= i < num_pages e ->
  at_addr addr e i = true <-> start e + 4096 * i <= addr < start e + 4096 * (i + 1).
Proof. intros Hs Ht Hi. unfold at_addr, PAGE_SIZE. rewrite !u32_small by mlia. lia. Qed.

Lemma addr_finds s A U n e i addr : holds s A U -> (n, e) ∈ lx_pages s -> 0 <= i < num_pages e ->
  start e + 4096 * i <= addr < start e + 4096 * (i + 1) ->
  LX_get_lpe_from_addr addr (lx_pages s) = Some ((n, e), i).
Proof.
  intros Hh Hx Hi Ha. pose proof (ho_entries _ _ _ Hh) as Ho. rewrite Forall_forall in Ho.
  apply walk_finds; [done|done|cbn|].
  - destruct (eo_start _ (Ho _ Hx)) as (? & ? & ?). apply at_addr_spec; (done || cbn in *; lia).
  - intros y j Hy Hj Hf. destruct (eo_start _ (Ho _ Hy)) as (? & ? & ?). apply at_addr_spec in Hf; [|lia..].
    assert ((n, e) = y) as <-; [|cbn in *; split; [done|lia]].
    apply (cells_same (lx_pages s) (n, e) y (start e, PAGE_SIZE * num_pages e) (start y.2, PAGE_SIZE * num_pages y.2) addr);
      [by eapply ho_sep|done|done|right; by left|right; by left|..]; cbn; unfold PAGE_SIZE; lia.
Qed.
Lemma block_of s A U x : holds s A U -> x ∈ lx_pages s -> A !! start x.2 = Some (counts x.2).
Proof.
  intros Hh Hx. rewrite (ho_blocks _ _ _ Hh). pose proof (ho_entries _ _ _ Hh) as Ho. rewrite Forall_forall in Ho.
  apply elem_of_list_to_map_1'.
  - intros c (y & [= Hs ->] & Hy)%list_elem_of_fmap. assert (x = y) as <-; [|done].
    pose proof (eo_num _ (Ho _ Hx)). pose proof (eo_num _ (Ho _ Hy)).
    apply (cells_same (lx_pages s) x y (start x.2, PAGE_SIZE * num_pages x.2) (start y.2, PAGE_SIZE * num_pages y.2) (start x.2));
      [by eapply ho_sep|done|done|right; by left|right; by left|..]; cbn; unfold PAGE_SIZE; lia.
  - apply list_elem_of_fmap. by exists x.
Qed.
Lemma block_entry s A U b c : holds s A U -> A !! b = Some c ->
  exists n e, (n, e) ∈ lx_pages s /\ b = start e /\ c = counts e /\ Z.of_nat (length c) = num_pages e.
Proof.
  intros Hh. rewrite (ho_blocks _ _ _ Hh). intros ([n e] & [= -> ->] & Hx)%elem_of_list_to_map_2%list_elem_of_fmap.
  exists n, e. split_and!; [done..|]. pose proof (ho_entries _ _ _ Hh) as Ho. rewrite Forall_forall in Ho.
  unfold counts. rewrite length_fmap. exact (eo_pages _ (Ho _ Hx)).
Qed.

(** Page [i] of block [b] holds the address. *)
Definition owns A (b : Z) (i : nat) (addr : Z) : Prop :=
  exists c, A !! b = Some c /\ (i < length c)%nat /\ b + 4096 * i <= addr < b + 4096 * (i + 1).

Lemma addr_nothing s A U addr : holds s A U -> (forall b i, ~ owns A b i addr) ->
  LX_get_lpe_from_addr addr (lx_pages s) = None.
Proof.
  intros Hh Hn. apply walk_nothing. intros y j Hy Hj. destruct (at_addr addr y.2 j) eqn:E; [|done].
  pose proof (ho_entries _ _ _ Hh) as Ho. rewrite Forall_forall in Ho. specialize (Ho _ Hy).
  destruct (eo_start _ Ho) as (? & ? & ?). apply at_addr_spec in E; [|lia..].
  destruct (Hn (start y.2) (Z.to_nat j)). exists (counts y.2). split; [by eapply block_of|].
  unfold counts. rewrite length_fmap. pose proof (eo_pages _ Ho). split; lia.
Qed.

(** ** Allocation *)

Lemma init_pages_lookup a n i : 0 <= n < 524288 -> 0 <= a -> a + 4096 * n <= 4294901760 ->
  init_pages a n !! i = (if (i <? Z.to_nat n)%nat then Some (mk_page 1 (a + 4096 * i)) else None).
Proof.
  intros Hn Ha He. unfold init_pages. rewrite list_lookup_fmap. destruct (Nat.ltb_spec i (Z.to_nat n)).
  - rewrite lookup_seq_lt by done. cbn. f_equal. f_equal. unfold PAGE_SIZE. mlia.
  - by rewrite lookup_seq_ge.
Qed.
Lemma init_pages_length a n : length (init_pages a n) = Z.to_nat n.
Proof. unfold init_pages. by rewrite length_map, length_seq. Qed.
Lemma init_counts a n : pg_count <$> init_pages a n = replicate (Z.to_nat n) 1.
Proof.
  apply list_eq. intros i. unfold init_pages. rewrite !list_lookup_fmap.
  destruct (decide (i < Z.to_nat n)%nat).
  - rewrite lookup_seq_lt, lookup_replicate_2 by done. done.
  - rewrite lookup_seq_ge by lia. symmetry. apply lookup_replicate_None. lia.
Qed.

(** The bytes of a new block of [n] pages belong to no other. *)
Definition fresh (a n : Z) A : Prop := map_Forall (fun b c => a + 4096 * n <= b \/ b + 4096 * length c <= a) A.

Lemma used_apart s A U p sz c : holds s A U -> disjoint_from p sz (used (pg_heap s)) -> c ∈ all_cells (lx_pages s) ->
  apart (p, sz) c.
Proof.
  intros Hh Hd Hc. apply (Hd c.1 c.2). rewrite (ho_used _ _ _ Hh). apply lookup_union_Some_l.
  apply elem_of_list_to_map_1; [|by destruct c].
  apply sep_keys; [apply cells_positive|]; by eapply ho_entries || eapply ho_sep.
Qed.

Definition new_entry (n gfp a : Z) : lx_pg_entry := mk_lpe n gfp a (init_pages a n).

Lemma new_entry_ok q n gfp a : 0 < n < 524288 -> 0 < q -> 0 < a -> a mod 4096 = 0 -> a + 4096 * n <= 4294901760 ->
  entry_ok (q, new_entry n gfp a).
Proof.
  intros Hr Hq Ha Hm Hb. split; cbn; try done.
  - rewrite init_pages_length. lia.
  - intros i p. rewrite init_pages_lookup by lia. destruct (_ <? _)%nat; [by intros [= <-]|done].
Qed.

Lemma holds_cons s A U h q n gfp a : holds s A U -> heap_ok h -> entry_ok (q, new_entry n gfp a) ->
  disjoint_from q (24 + 36 * n) (used (pg_heap s)) -> used (pg_heap s) !! q = None ->
  disjoint_from a (4096 * n) (<[q := 24 + 36 * n]> (used (pg_heap s))) -> <[q := 24 + 36 * n]> (used (pg_heap s)) !! a = None ->
  used h = <[a := 4096 * n]> (<[q := 24 + 36 * n]> (used (pg_heap s))) ->
  holds (mk_pgs h ((q, new_entry n gfp a) :: lx_pages s) false) (<[a := replicate (Z.to_nat n) 1]> A) U.
Proof.
  intros Hh Ho He Hd1 Hu1 Hd2 [Hu2 Hne]%lookup_insert_None Hu.
  assert (list_to_map (cells (q, new_entry n gfp a)) = <[q := 24 + 36 * n]> (<[a := 4096 * n]> (∅ : gmap Z Z))) as Em by done.
  split; cbn [pg_heap lx_pages lx_pages_lock].
  - done.
  - done.
  - constructor; [done|by eapply ho_entries].
  - unfold all_cells. cbn [mbind list_bind cells app sep fst snd]. split; [constructor|split; [|by eapply ho_sep]].
    + apply apart_sym. apply (Hd2 q (24 + 36 * n)). apply lookup_insert_eq.
    + apply Forall_forall. intros c Hc. by eapply used_apart.
    + apply Forall_forall. intros c Hc. eapply (used_apart s); [done| |done].
      intros b k Hk. apply (Hd2 b k). rewrite lookup_insert_ne; [done|]. intros <-. congruence.
  - unfold all_cells. cbn [mbind list_bind]. rewrite list_to_map_app, Em. pose proof (ho_other _ _ _ Hh) as Ht.
    assert (forall p, used (pg_heap s) !! p = None -> U !! p = None) as HU.
    { intros p. rewrite (ho_used _ _ _ Hh). intros [_ ?]%lookup_union_None. done. }
    apply map_disjoint_union_l_2; [|done]. apply map_disjoint_insert_l_2; [by apply HU|].
    apply map_disjoint_insert_l_2; [by apply HU|apply map_disjoint_empty_l].
  - rewrite Hu, (ho_used _ _ _ Hh). unfold all_cells. cbn [mbind list_bind]. rewrite list_to_map_app, Em.
    rewrite <- (assoc_L (∪)), <- !insert_union_l, (left_id_L ∅ (∪)). by rewrite insert_insert_ne.
  - rewrite (ho_blocks _ _ _ Hh). cbn. f_equal. unfold counts. cbn. by rewrite init_counts.
Qed.

Lemma LX_malloc_eq sz s h p : kmalloc sz (pg_heap s) = (h, p) ->
  LX_malloc sz s = Ok (p, mk_pgs h (lx_pages s) (lx_pages_lock s)).
Proof. intros E. unfold LX_malloc. by rewrite E. Qed.

Lemma holds_heap s A U h : holds s A U -> heap_ok h -> used h = used (pg_heap s) ->
  holds (mk_pgs h (lx_pages s) (lx_pages_lock s)) A U.
Proof. intros [H1' H2' H3' H4' H5' H6' H7'] Ho Hu. split; cbn; try done. by rewrite Hu. Qed.

(** A block of pages, or nothing. *)
Lemma alloc_num_pages gfp n s A U : holds s A U -> 0 < n < 524288 ->
  (exists s', LX_alloc_num_pages gfp n s = Ok (0, s') /\ holds s' A U) \/
  exists q a s', LX_alloc_num_pages gfp n s = Ok (page_ptr q 0, s') /\ entry_ok (q, new_entry n gfp a) /\
    (q, new_entry n gfp a) ∈ lx_pages s' /\ fresh a n A /\ holds s' (<[a := replicate (Z.to_nat n) 1]> A) U.
Proof.
  intros Hh Hn. unfold LX_alloc_num_pages, sizeof_lx_pg_entry, sizeof_page, PAGE_SIZE.
  assert (u32 (24 + u32 (36 * n)) = 24 + 36 * n) as -> by mlia. assert (u32 (4096 * n) = 4096 * n) as -> by mlia.
  destruct (kmalloc (24 + 36 * n) (pg_heap s)) as [h1 q] eqn:E1. rewrite (M_bind_val _ _ _ _ _ (LX_malloc_eq _ _ _ _ E1)).
  destruct (kmalloc_laws (24 + 36 * n) _ _ _ (ho_heap _ _ _ Hh) ltac:(lia) E1) as [Ho1 [[-> Hu1]|(Hq & Hf1 & Hd1 & Hu1)]].
  { left. eexists. split; [done|]. by apply holds_heap. }
  destruct (Z.eqb_spec q 0) as [|_]; [lia|].
  destruct (kmalloc (4096 * n) h1) as [h2 a] eqn:E2.
  rewrite (M_bind_val _ _ _ a (mk_pgs h2 (lx_pages s) (lx_pages_lock s))) by (unfold LX_malloc; cbn; by rewrite E2).
  destruct (kmalloc_laws (4096 * n) _ _ _ Ho1 ltac:(lia) E2) as [Ho2 [[-> Hu2]|(Ha & Hf2 & Hd2 & Hu2)]].
  - left. eexists. split; [done|]. destruct (kfree_laws q h2 Ho2) as [Ho3 Hu3]; [rewrite Hu2, Hu1, lookup_insert_eq; by eexists|].
    cbn. apply holds_heap; [done|done|]. rewrite Hu3, Hu2, Hu1. by rewrite delete_insert_id.
  - right. destruct (Z.eqb_spec a 0) as [|_]; [lia|]. cbn [negb].
    destruct (Z.ltb_spec (24 + 36 * n) (24 + 36 * n)) as [|_]; [lia|].
    unfold lock_pages. rewrite M_bind_unfold. cbn [lx_pages_lock]. rewrite (ho_lock _ _ _ Hh).
    rewrite Hu1 in Hf2, Hd2, Hu2.
    assert (entry_ok (q, new_entry n gfp a)) as He.
    { apply new_entry_ok; try done.
      - eapply kmalloc_page; [exact Ho1| |exact E2]. lia.
      - eapply kmalloc_below; [exact Ho1| |exact E2]. lia. }
    eexists q, a, _. split; [reflexivity|]. split; [done|]. cbn [lx_pages pg_heap]. split; [left|]. split.
    + intros b c Hb. destruct (block_entry _ _ _ _ _ Hh Hb) as (m & e & Hx & -> & -> & Hl). rewrite Hl.
      assert (apart (a, 4096 * n) (start e, PAGE_SIZE * num_pages e)) as Hap; [|exact Hap].
      eapply (used_apart s); [done| |].
      * intros k z Hk. apply (Hd2 k z). rewrite lookup_insert_ne; [done|]. intros <-. congruence.
      * unfold all_cells. apply list_elem_of_bind. exists (m, e). split; [right; left|done].
    + by apply holds_cons.
Qed.

(** ** Changing and freeing a block *)

Lemma same_start s A U x y : holds s A U -> x ∈ lx_pages s -> y ∈ lx_pages s -> start x.2 = start y.2 -> x = y.
Proof.
  intros Hh Hx Hy He. pose proof (ho_entries _ _ _ Hh) as Ho. rewrite Forall_forall in Ho.
  pose proof (eo_num _ (Ho _ Hx)). pose proof (eo_num _ (Ho _ Hy)).
  apply (cells_same (lx_pages s) x y (start x.2, PAGE_SIZE * num_pages x.2) (start y.2, PAGE_SIZE * num_pages y.2) (start x.2));
    [by eapply ho_sep|done|done|right; by left|right; by left|..]; cbn; unfold PAGE_SIZE; lia.
Qed.
Lemma same_node s A U x y : holds s A U -> x ∈ lx_pages s -> y ∈ lx_pages s -> x.1 = y.1 -> x = y.
Proof.
  intros Hh Hx Hy He. pose proof (ho_entries _ _ _ Hh) as Ho. rewrite Forall_forall in Ho.
  pose proof (eo_num _ (Ho _ Hx)). pose proof (eo_num _ (Ho _ Hy)).
  apply (cells_same (lx_pages s) x y (x.1, sizeof_lx_pg_entry + sizeof_page * num_pages x.2)
    (y.1, sizeof_lx_pg_entry + sizeof_page * num_pages y.2) x.1);
    [by eapply ho_sep|done|done|by left|by left|..]; cbn; unfold sizeof_lx_pg_entry, sizeof_page; lia.
Qed.

(** An entry in its place: those before have other nodes and other blocks, those behind too. *)
Record placed_at s n e l1 l2 : Prop := {
  pa_list : lx_pages s = l1 ++ (n, e) :: l2;
  pa_nodes : Forall (fun y => is_node n y = false) l1;
  pa_starts : list_to_map (M := gmap Z (list Z)) (block <$> l1) !! start e = None /\
              list_to_map (M := gmap Z (list Z)) (block <$> l2) !! start e = None
}.
Lemma entry_place s A U n e : holds s A U -> (n, e) ∈ lx_pages s -> exists l1 l2, placed_at s n e l1 l2.
Proof.
  intros Hh Hx. pose proof Hx as (l1 & l2 & Hl & Hn)%list_elem_of_split_l. exists l1, l2.
  assert ((n, e) ∉ l2) as Hn2.
  { intros (k1 & k2 & ->)%list_elem_of_split. pose proof (ho_sep _ _ _ Hh) as Hs. rewrite Hl in Hs.
    assert (l1 ++ (n, e) :: k1 ++ (n, e) :: k2 ≡ₚ (n, e) :: (n, e) :: l1 ++ k1 ++ k2) as Hp by solve_Permutation.
    unfold all_cells in Hs. rewrite Hp in Hs. cbn in Hs. destruct Hs as [[_ [Hs _]%Forall_cons]%Forall_cons _].
    pose proof (ho_entries _ _ _ Hh) as Ho. rewrite Forall_forall in Ho. pose proof (eo_num _ (Ho _ Hx)).
    unfold apart, sizeof_lx_pg_entry, sizeof_page in Hs. cbn in *. lia. }
  split; [done|..].
  - apply Forall_forall. intros y Hy. unfold is_node. apply Z.eqb_neq. intros Hq. apply Hn.
    rewrite (same_node s A U (n, e) y); [done|done|done| |done]. rewrite Hl. set_solver.
  - split; apply not_elem_of_list_to_map_1; intros ([b c] & Hb & (y & [= -> ->] & Hy)%list_elem_of_fmap)%list_elem_of_fmap; cbn in Hb.
    + apply Hn. rewrite (same_start s A U (n, e) y); [done|done|done| |done]. rewrite Hl. set_solver.
    + apply Hn2. rewrite (same_start s A U (n, e) y); [done|done|done| |done]. rewrite Hl. set_solver.
Qed.

Definition set_pages (ps : list lx_page) (e : lx_pg_entry) : lx_pg_entry :=
  mk_lpe (num_pages e) (lpe_gfp_mask e) (start e) ps.

Lemma put_entry_at s n e l1 l2 ps b : placed_at s n e l1 l2 ->
  put_entry n (set_pages ps e) (mk_pgs (pg_heap s) (lx_pages s) b) =
  Ok (tt, mk_pgs (pg_heap s) (l1 ++ (n, set_pages ps e) :: l2) b).
Proof.
  intros [Hl Hn _]. unfold put_entry, set_list. mstep. cbn. rewrite Hl.
  rewrite update_first_app; [done|done|]. unfold is_node. apply Z.eqb_refl.
Qed.

Lemma holds_update s A U n e l1 l2 ps : holds s A U -> placed_at s n e l1 l2 -> length ps = length (pages e) ->
  (forall (i : nat) p, ps !! i = Some p -> 0 <= pg_count p < 2147483648 /\ pg_virtual p = start e + 4096 * i) ->
  holds (mk_pgs (pg_heap s) (l1 ++ (n, set_pages ps e) :: l2) false) (<[start e := pg_count <$> ps]> A) U.
Proof.
  intros [Hk Ho He Hs Ht Hu Hb] [Hl _ [Hn1 Hn2]] Hps Hv.
  assert (all_cells (l1 ++ (n, set_pages ps e) :: l2) = all_cells (lx_pages s)) as Ec.
  { rewrite Hl. unfold all_cells. by rewrite !bind_app. }
  split; cbn [pg_heap lx_pages lx_pages_lock]; try rewrite Ec; try done.
  - rewrite Hl in He. apply Forall_app in He as [He1 [[H1' H2' H3' H4' H5'] He2]%Forall_cons].
    apply Forall_app. split; [done|]. constructor; [|done]. split; cbn in *; (done || congruence).
  - rewrite Hb, Hl, !fmap_app, !list_to_map_app. cbn.
    change (counts (set_pages ps e)) with (pg_count <$> ps).
    rewrite insert_union_r by done. by rewrite insert_insert_eq.
Qed.

Lemma holds_remove s A U n e l1 l2 h : holds s A U -> placed_at s n e l1 l2 -> heap_ok h ->
  used h = delete n (delete (start e) (used (pg_heap s))) ->
  holds (mk_pgs h (l1 ++ l2) false) (delete (start e) A) U.
Proof.
  intros [Hk Ho He Hs Ht Hu Hb] [Hl _ [Hn1 Hn2]] Hh Hd.
  assert (all_cells (lx_pages s) ≡ₚ cells (n, e) ++ all_cells (l1 ++ l2)) as Ec.
  { rewrite Hl. unfold all_cells. rewrite !bind_app. cbn. solve_Permutation. }
  pose proof (sep_keys _ (cells_positive _ He) Hs) as Hnd.
  pose proof (list_to_map_proper (M := gmap Z) _ _ Hnd Ec) as Em. rewrite Ec in Hnd. rewrite Em in Hu, Ht. rewrite Ec in Hs.
  unfold cells in Hnd, Hu, Ht, Hs. cbn in Hnd, Hu, Ht, Hs.
  apply NoDup_cons in Hnd as [Hd1 [Hd2 Hd3]%NoDup_cons]. rewrite elem_of_cons in Hd1.
  assert (list_to_map (M := gmap Z Z) (all_cells (l1 ++ l2)) !! n = None) as N1 by (apply not_elem_of_list_to_map_1; tauto).
  assert (list_to_map (M := gmap Z Z) (all_cells (l1 ++ l2)) !! start e = None) as N2 by (by apply not_elem_of_list_to_map_1).
  apply map_disjoint_insert_l in Ht as [T1 [T2 T3]%map_disjoint_insert_l].
  split; cbn [pg_heap lx_pages lx_pages_lock]; try done.
  - rewrite Hl in He. apply Forall_app in He as [He1 [_ He2]%Forall_cons]. by apply Forall_app.
  - by destruct Hs as [_ [_ ?]].
  - rewrite Hd, Hu, <- !insert_union_l. rewrite (insert_insert_ne _ n (start e)) by tauto.
    rewrite delete_insert_id by (rewrite lookup_insert_None, lookup_union_None; tauto).
    by rewrite delete_insert_id by (by rewrite lookup_union_None).
  - rewrite Hb, Hl, !fmap_app, !list_to_map_app. cbn. rewrite <- insert_union_r by done.
    by rewrite delete_insert_id by (by rewrite lookup_union_None).
Qed.

(** ** The calls *)

(** What a client may do with pages; addresses are those of pages. *)
Inductive page_op :=
  | GetPages (gfp_mask order : Z)
  | FreePages (addr order : Z)
  | GetPage (addr : Z)
  | PutPage (addr : Z)
  | Translate (addr : Z).

Definition run_op (o : page_op) : P Z :=
  match o with
  | GetPages gfp_mask order => __get_free_pages gfp_mask order
  | FreePages addr order => free_pages addr order ≫= fun _ => mret 0
  | GetPage addr => pg ← LX_virt_to_page addr; get_page pg ≫= fun _ => mret 0
  | PutPage addr => pg ← LX_virt_to_page addr; put_page pg ≫= fun _ => mret 0
  | Translate addr => pg ← LX_virt_to_page addr; if pg =? 0 then mret 0 else page_address pg
  end.

(** [n] pages of [b] from [i] on, their counts satisfying [ok]. *)
Definition pages_of A (b : Z) (i n : nat) (addr : Z) (ok : Z -> Prop) (c : list Z) : Prop :=
  A !! b = Some c /\ (i + n <= length c)%nat /\ b + 4096 * i <= addr < b + 4096 * (i + 1) /\
  forall k z, c !! k = Some z -> in_run i n k = true -> ok z.

Definition unused_block (c : list Z) : bool := forallb (fun z => z =? 0) c.

(** What a call does to the blocks: [op_spec o A r A'] for the result [r]. *)
Definition op_spec (o : page_op) A (r : Z) A' : Prop :=
  match o with
  | GetPages _ order =>
      r = 0 /\ A' = A \/
      r > 0 /\ r mod 4096 = 0 /\ fresh r (2 ^ order) A /\ A' = <[r := replicate (Z.to_nat (2 ^ order)) 1]> A
  | FreePages addr order => forall b i c, pages_of A b i (Z.to_nat (2 ^ order)) addr (fun _ => True) c ->
      let c' := on_run i (Z.to_nat (2 ^ order)) (fun z => z - 1) c in
      A' = if unused_block c' then delete b A else <[b := c']> A
  | GetPage addr => forall b i c, pages_of A b i 1 addr (fun _ => True) c -> A' = <[b := on_run i 1 (fun z => z + 1) c]> A
  | PutPage addr => forall b i c, pages_of A b i 1 addr (fun _ => True) c -> A' = <[b := on_run i 1 (fun z => z - 1) c]> A
  | Translate addr => A' = A /\ ((forall b i, ~ owns A b i addr) /\ r = 0 \/ exists b i, owns A b i addr /\ r = b + 4096 * i)
  end.

(** What the caller must see to. *)
Definition op_pre (o : page_op) A : Prop :=
  match o with
  | GetPages _ order => 0 <= order < 19
  | FreePages addr order =>
      0 <= order < 19 /\ exists b i c, pages_of A b i (Z.to_nat (2 ^ order)) addr (fun z => 0 < z) c
  | GetPage addr => exists b i c, pages_of A b i 1 addr (fun z => z < 2147483647) c
  | PutPage addr => exists b i c, pages_of A b i 1 addr (fun z => 0 < z) c
  | Translate _ => True
  end.

Lemma locked_read {B} (k : list (Z * lx_pg_entry) -> P B) s : lx_pages_lock s = false ->
  (lock_pages ≫= fun _ => l ← gets lx_pages; unlock_pages ≫= fun _ => k l) s = k (lx_pages s) s.
Proof. intros Hk. unfold lock_pages. rewrite M_bind_unfold, Hk. mstep. cbn. destruct s; cbn in *. by rewrite Hk. Qed.

Lemma virt_to_page_at s A U b i addr : holds s A U -> owns A b i addr ->
  exists n e, (n, e) ∈ lx_pages s /\ b = start e /\ 0 <= i < num_pages e /\ A !! b = Some (counts e) /\
    LX_virt_to_page addr s = Ok (page_ptr n i, s) /\ page_ptr n i <> 0.
Proof.
  intros Hh (c & Hb & Hi & Ha). destruct (block_entry _ _ _ _ _ Hh Hb) as (n & e & Hx & -> & -> & Hl).
  exists n, e. split_and!; try done; [lia..| |].
  - unfold LX_virt_to_page. rewrite locked_read by by eapply ho_lock.
    by rewrite (addr_finds s A U n e i addr) by (done || lia).
  - pose proof (ho_entries _ _ _ Hh) as Ho. rewrite Forall_forall in Ho. pose proof (eo_node _ (Ho _ Hx)).
    unfold page_ptr, sizeof_page, sizeof_lx_pg_entry. cbn in *. lia.
Qed.

(** The block and the page of an address are unique. *)
Lemma pages_of_unique s A U b b' i i' n n' addr ok ok' c c' : holds s A U ->
  pages_of A b i (S n) addr ok c -> pages_of A b' i' (S n') addr ok' c' -> b = b' /\ i = i' /\ c = c'.
Proof.
  intros Hh (Hb & Hi & Ha & _) (Hb' & Hi' & Ha' & _).
  destruct (block_entry _ _ _ _ _ Hh Hb) as (m & e & Hx & -> & -> & Hl).
  destruct (block_entry _ _ _ _ _ Hh Hb') as (m' & e' & Hx' & -> & -> & Hl').
  pose proof (addr_finds s A U m e i addr Hh Hx ltac:(lia) Ha) as E.
  rewrite (addr_finds s A U m' e' i' addr Hh Hx' ltac:(lia) Ha') in E. injection E as -> -> E. by apply Nat2Z.inj in E as ->.
Qed.

Lemma on_run_one {A : Type} i (f : A -> A) l : on_run i 1 f l = alter f i l.
Proof.
  apply list_eq. intros k. rewrite on_run_lookup. unfold in_run. destruct (decide (k = i)) as [->|Hk].
  - rewrite list_lookup_alter_eq. destruct (Nat.leb_spec i i), (Nat.ltb_spec i (i + 1)); cbn; (done || lia).
  - rewrite list_lookup_alter_ne by done. destruct (Nat.leb_spec i k), (Nat.ltb_spec k (i + 1)); cbn; (done || lia).
Qed.

(** Counts that change stay counts. *)
Lemma run_pages (ps : list lx_page) (a d : Z) (i n : nat) :
  (forall (k : nat) p, ps !! k = Some p -> 0 <= pg_count p < 2147483648 /\ pg_virtual p = a + 4096 * k) ->
  (forall k z, (pg_count <$> ps) !! k = Some z -> in_run i n k = true -> 0 <= z + d < 2147483648) ->
  (forall (k : nat) p, on_run i n (add_count d) ps !! k = Some p -> 0 <= pg_count p < 2147483648 /\ pg_virtual p = a + 4096 * k) /\
  pg_count <$> on_run i n (add_count d) ps = on_run i n (fun z => z + d) (pg_count <$> ps).
Proof.
  intros Hp Hd. split.
  - intros k p. rewrite on_run_lookup. destruct (ps !! k) as [q|] eqn:E; [|by destruct (in_run i n k)].
    destruct (Hp k q E) as [Hc Hv]. destruct (in_run i n k) eqn:Ei; cbn; intros [= <-]; [|done].
    specialize (Hd k (pg_count q)). rewrite list_lookup_fmap, E in Hd. specialize (Hd eq_refl Ei).
    split; [|exact Hv]. cbn. rewrite s32_small; lia.
  - apply on_run_fmap. intros k p E Ei. cbn. apply s32_small. specialize (Hd k (pg_count p)).
    rewrite list_lookup_fmap, E in Hd. specialize (Hd eq_refl Ei). lia.
Qed.

Lemma page_at_runs s A U n e (i : nat) : holds s A U -> (n, e) ∈ lx_pages s -> i < num_pages e ->
  exists p, pages e !! i = Some p /\ page_at (page_ptr n i) s = Ok ((n, e, Z.of_nat i, p), s).
Proof.
  intros Hh Hx Hi. pose proof (ho_entries _ _ _ Hh) as Ho. rewrite Forall_forall in Ho.
  destruct (lookup_lt_is_Some_2 (pages e) i) as [p Hp]; [pose proof (eo_pages _ (Ho _ Hx)); cbn in *; lia|].
  exists p. split; [done|]. unfold page_at. rewrite (page_finds s A U n e i) by (done || lia). cbn. by rewrite Nat2Z.id, Hp.
Qed.

Lemma change_count_runs d s A U n e (i : nat) : holds s A U -> (n, e) ∈ lx_pages s -> i < num_pages e ->
  (forall z, counts e !! i = Some z -> 0 <= z + d < 2147483648) ->
  exists s', change_count d (page_ptr n i) s = Ok (tt, s') /\
    holds s' (<[start e := on_run i 1 (fun z => z + d) (counts e)]> A) U.
Proof.
  intros Hh Hx Hi Hd. destruct (page_at_runs s A U n e i Hh Hx Hi) as (p & Hp & Ep).
  destruct (entry_place s A U n e Hh Hx) as (l1 & l2 & Hl). pose proof (ho_entries _ _ _ Hh) as Ho. rewrite Forall_forall in Ho.
  destruct (run_pages (pages e) (start e) d i 1 (eo_page _ (Ho _ Hx))) as [Hv Hc].
  { intros k z Hk Hr%in_run_spec. replace k with i in Hk by lia. by apply Hd. }
  exists (mk_pgs (pg_heap s) (l1 ++ (n, set_pages (on_run i 1 (add_count d) (pages e)) e) :: l2) false). split.
  - unfold change_count. rewrite (M_bind_val _ _ _ _ _ Ep). rewrite Nat2Z.id, update_page_alter by (by eapply lookup_lt_Some).
    rewrite <- on_run_one. change (mk_lpe _ _ _ _) with (set_pages (on_run i 1 (add_count d) (pages e)) e).
    pose proof (put_entry_at s n e l1 l2 (on_run i 1 (add_count d) (pages e)) false Hl) as E.
    pose proof (ho_lock _ _ _ Hh) as Hk. destruct s as [h l b]. cbn in Hk, E |- *. subst b. exact E.
  - unfold counts. rewrite <- Hc. apply holds_update; [done|done|apply on_run_length|done].
Qed.

Lemma order_pages order : 0 <= order < 19 -> u32 (Z.shiftl 1 order) = 2 ^ order /\ 0 < 2 ^ order < 524288.
Proof.
  intros Ho. rewrite Z.shiftl_1_l. assert (2 ^ order <= 2 ^ 18) by (apply Z.pow_le_mono_r; lia).
  change (2 ^ 18) with 262144 in *. pose proof (Z.pow_pos_nonneg 2 order ltac:(lia) ltac:(lia)). split; [apply u32_small|]; lia.
Qed.

Lemma all_unused_block ps : all_unused ps = unused_block (pg_count <$> ps).
Proof. induction ps as [|p ps IH]; [done|]. exact (f_equal (andb _) IH). Qed.

(** The pages [i], ... of the entry are freed. *)
Lemma __free_pages_runs s A U n e (i : nat) order : holds s A U -> (n, e) ∈ lx_pages s -> 0 <= order < 19 ->
  (i + Z.to_nat (2 ^ order) <= length (counts e))%nat ->
  (forall k z, counts e !! k = Some z -> in_run i (Z.to_nat (2 ^ order)) k = true -> 0 < z) ->
  let c := on_run i (Z.to_nat (2 ^ order)) (fun z => z - 1) (counts e) in
  exists s', __free_pages (page_ptr n i) order s = Ok (tt, s') /\
    holds s' (if unused_block c then delete (start e) A else <[start e := c]> A) U.
Proof.
  intros Hh Hx Ho Hl Hp c. destruct (order_pages order Ho) as [E1 Hr].
  destruct (entry_place s A U n e Hh Hx) as (l1 & l2 & Hpl). pose proof (ho_entries _ _ _ Hh) as Hok. rewrite Forall_forall in Hok.
  specialize (Hok _ Hx). unfold counts in Hl. rewrite length_fmap in Hl. set (m := Z.to_nat (2 ^ order)) in *.
  destruct (run_pages (pages e) (start e) (-1) i m (eo_page _ Hok)) as [Hv Hc].
  { intros k z Hk Hi. specialize (Hp k z Hk Hi). rewrite list_lookup_fmap in Hk.
    destruct (pages e !! k) as [p|] eqn:E; cbn in Hk; [|done]. injection Hk as <-. pose proof (eo_page _ Hok k p E). lia. }
  set (ps := on_run i m (add_count (-1)) (pages e)) in *.
  pose proof (holds_update s A U n e l1 l2 ps Hh Hpl (on_run_length _ _ _ _) Hv) as Hu.
  assert (pg_count <$> ps = c) as Ec by exact Hc. rewrite Ec in Hu.
  assert (__free_pages (page_ptr n i) order s =
    if all_unused ps
    then (LX_free (start e) ≫= fun _ => LX_free n) (mk_pgs (pg_heap s) (l1 ++ l2) false)
    else Ok (tt, mk_pgs (pg_heap s) (l1 ++ (n, set_pages ps e) :: l2) false)) as ->.
  { unfold __free_pages, lock_pages. rewrite M_bind_unfold, (ho_lock _ _ _ Hh).
    rewrite (M_bind_val _ _ _ (lx_pages s) (mk_pgs (pg_heap s) (lx_pages s) true)) by done.
    rewrite (page_finds s A U n e i) by (done || pose proof (eo_pages _ Hok); cbn in *; lia).
    rewrite E1. fold m. rewrite dec_counts_run by done. fold ps.
    change (mk_lpe _ _ _ _) with (set_pages ps e).
    rewrite (M_bind_val _ _ _ _ _ (put_entry_at s n e l1 l2 ps true Hpl)).
    destruct (all_unused ps); [|done]. unfold set_list. mstep. cbn.
    rewrite remove_first_app; [done|by eapply pa_nodes|]. unfold is_node. apply Z.eqb_refl. }
  rewrite all_unused_block, Ec. destruct (unused_block c); [|by eexists].
  eexists. split; [reflexivity|]. cbn.
  assert (used (pg_heap s) !! start e = Some (4096 * num_pages e) /\
          used (pg_heap s) !! n = Some (24 + 36 * num_pages e) /\ start e <> n) as (L1 & L2 & Hne).
  { rewrite (ho_used _ _ _ Hh). pose proof (sep_keys _ (cells_positive _ (ho_entries _ _ _ Hh)) (ho_sep _ _ _ Hh)) as Hnd.
    split_and!.
    - apply lookup_union_Some_l, elem_of_list_to_map_1; [done|]. apply list_elem_of_bind. exists (n, e). split; [right; left|done].
    - apply lookup_union_Some_l, elem_of_list_to_map_1; [done|]. apply list_elem_of_bind. exists (n, e). split; [left|done].
    - intros Hq. pose proof (ho_sep _ _ _ Hh) as Hs. rewrite (pa_list _ _ _ _ _ Hpl) in Hs. unfold all_cells in Hs.
      rewrite <- Permutation_middle in Hs. cbn in Hs. destruct Hs as [[Ha _]%Forall_cons _]. unfold apart in Ha.
      unfold sizeof_lx_pg_entry, sizeof_page, PAGE_SIZE in Ha. pose proof (eo_num _ Hok). cbn in *. lia. }
  destruct (kfree_laws (start e) (pg_heap s) (ho_heap _ _ _ Hh)) as [O1 U1]; [by eexists|].
  destruct (kfree_laws n (kfree (start e) (pg_heap s)) O1) as [O2 U2]; [rewrite U1, lookup_delete_ne by done; by eexists|].
  eapply holds_remove; [done|done|done|]. by rewrite U2, U1.
Qed.

Lemma free_pages_runs s A U b (i : nat) c addr order : holds s A U -> 0 <= order < 19 ->
  pages_of A b i (Z.to_nat (2 ^ order)) addr (fun z => 0 < z) c ->
  let c' := on_run i (Z.to_nat (2 ^ order)) (fun z => z - 1) c in
  exists s', free_pages addr order s = Ok (tt, s') /\ holds s' (if unused_block c' then delete b A else <[b := c']> A) U.
Proof.
  intros Hh Ho (Hb & Hl & Ha & Hp) c'. destruct (order_pages order Ho) as [_ Hr].
  destruct (virt_to_page_at s A U b i addr Hh) as (n & e & Hx & -> & Hi & Hc & Ev & Hne).
  { exists c. split; [done|]. split; [lia|done]. }
  rewrite Hc in Hb. injection Hb as <-. pose proof (ho_entries _ _ _ Hh) as Hok. rewrite Forall_forall in Hok.
  pose proof (eo_start _ (Hok _ Hx)). cbn in *.
  unfold free_pages. destruct (Z.eqb_spec addr 0) as [|_]; [lia|]. unfold LX_virt_addr_valid.
  rewrite (M_bind_val _ _ s 1 s); [|rewrite (M_bind_val _ _ _ _ _ Ev); by destruct (Z.eqb_spec (page_ptr n i) 0)].
  cbn [Z.eqb]. rewrite (M_bind_val _ _ _ _ _ Ev). by apply __free_pages_runs.
Qed.

Lemma get_free_pages_runs gfp order s A U : holds s A U -> 0 <= order < 19 ->
  exists r s' A', __get_free_pages gfp order s = Ok (r, s') /\ op_spec (GetPages gfp order) A r A' /\ holds s' A' U.
Proof.
  intros Hh Ho. destruct (order_pages order Ho) as [E1 Hr]. unfold __get_free_pages, __alloc_pages. rewrite E1.
  destruct (alloc_num_pages gfp (2 ^ order) s A U Hh Hr) as [(s' & E & Hh')|(q & a & s' & E & He & Hx & Hf & Hh')].
  { exists 0, s', A. rewrite (M_bind_val _ _ _ _ _ E). cbn. auto. }
  exists a, s', (<[a := replicate (Z.to_nat (2 ^ order)) 1]> A). rewrite (M_bind_val _ _ _ _ _ E).
  pose proof (eo_node _ He) as Hq. pose proof (eo_start _ He) as (Ha & Hm & Hb). cbn in Hq, Ha, Hm, Hb.
  destruct (Z.eqb_spec (page_ptr q 0) 0) as [Hz|_]; [unfold page_ptr, sizeof_lx_pg_entry, sizeof_page in Hz; lia|].
  unfold lookup_page. rewrite M_bind_unfold, locked_read by by eapply ho_lock. cbn.
  rewrite (page_finds s' _ U q (new_entry (2 ^ order) gfp a) 0) by (done || cbn; lia).
  split; [|split; [right; split_and!; try done; lia|done]].
  change (u32 (PAGE_SIZE * 0)) with 0. cbn. rewrite Z.add_0_r, u32_small by lia. done.
Qed.

(** The page of an address, with its count. *)
Lemma page_of_addr s A U b (i : nat) addr ok c : holds s A U -> pages_of A b i 1 addr ok c ->
  exists n e p, (n, e) ∈ lx_pages s /\ b = start e /\ c = counts e /\ i < num_pages e /\
    LX_virt_to_page addr s = Ok (page_ptr n i, s) /\ page_at (page_ptr n i) s = Ok ((n, e, Z.of_nat i, p), s) /\
    counts e !! i = Some (pg_count p) /\ ok (pg_count p) /\ 0 <= pg_count p < 2147483648.
Proof.
  intros Hh (Hb & Hl & Ha & Hz).
  destruct (virt_to_page_at s A U b i addr Hh) as (n & e & Hx & -> & Hi & Hc & Ev & Hne); [by exists c; split; [|split; [lia|]]|].
  rewrite Hc in Hb. injection Hb as <-. pose proof (ho_entries _ _ _ Hh) as Hok. rewrite Forall_forall in Hok.
  destruct (page_at_runs s A U n e i Hh Hx ltac:(lia)) as (p & Ep & Et). exists n, e, p.
  assert (counts e !! i = Some (pg_count p)) as Ec by (unfold counts; by rewrite list_lookup_fmap, Ep).
  split_and!; try done; [lia| |apply (eo_page _ (Hok _ Hx) i p Ep)..]. apply (Hz i); [done|]. apply in_run_spec. lia.
Qed.

Lemma get_page_runs addr s A U : holds s A U -> op_pre (GetPage addr) A ->
  exists r s' A', run_op (GetPage addr) s = Ok (r, s') /\ op_spec (GetPage addr) A r A' /\ holds s' A' U.
Proof.
  intros Hh (b & i & c & Hp).
  destruct (page_of_addr s A U b i addr _ c Hh Hp) as (n & e & p & Hx & -> & -> & Hi & Ev & _ & Ec & Hz & Hr).
  destruct (change_count_runs 1 s A U n e i Hh Hx Hi) as (s' & E & Hh').
  { rewrite Ec. intros z [= <-]. cbn in Hz. lia. }
  eexists 0, s', _. cbn. rewrite (M_bind_val _ _ _ _ _ Ev). unfold get_page. rewrite (M_bind_val _ _ _ _ _ E).
  split; [done|]. split; [|exact Hh']. intros b' i' c' Hp'.
  by destruct (pages_of_unique s A U _ _ _ _ _ _ _ _ _ _ _ Hh Hp Hp') as (<- & -> & <-).
Qed.

Lemma put_page_runs addr s A U : holds s A U -> op_pre (PutPage addr) A ->
  exists r s' A', run_op (PutPage addr) s = Ok (r, s') /\ op_spec (PutPage addr) A r A' /\ holds s' A' U.
Proof.
  intros Hh (b & i & c & Hp).
  destruct (page_of_addr s A U b i addr _ c Hh Hp) as (n & e & p & Hx & -> & -> & Hi & Ev & Et & Ec & Hz & Hr).
  destruct (change_count_runs (-1) s A U n e i Hh Hx Hi) as (s' & E & Hh').
  { rewrite Ec. intros z [= <-]. cbn in Hz. lia. }
  eexists 0, s', _. cbn. rewrite (M_bind_val _ _ _ _ _ Ev). unfold put_page.
  rewrite (M_bind_val _ _ _ tt s'); [|rewrite (M_bind_val _ _ _ _ _ Et); cbn [snd]; destruct (Z.eqb_spec (pg_count p) 0); [cbn in Hz; lia|exact E]].
  split; [done|]. split; [|exact Hh']. intros b' i' c' Hp'.
  by destruct (pages_of_unique s A U _ _ _ _ _ _ _ _ _ _ _ Hh Hp Hp') as (<- & -> & <-).
Qed.

Lemma translate_runs addr s A U : holds s A U ->
  exists r, run_op (Translate addr) s = Ok (r, s) /\ op_spec (Translate addr) A r A.
Proof.
  intros Hh. cbn [run_op op_spec]. destruct (LX_get_lpe_from_addr addr (lx_pages s)) as [[[n e] i]|] eqn:E.
  - destruct (walk_sound _ _ _ _ E) as (Hx & Hi & Ha). cbn in Hi, Ha.
    pose proof (ho_entries _ _ _ Hh) as Hok. rewrite Forall_forall in Hok. specialize (Hok _ Hx).
    pose proof (eo_start _ Hok) as (? & _ & ?). cbn in *. apply at_addr_spec in Ha; [|lia..].
    assert (owns A (start e) (Z.to_nat i) addr) as Ho.
    { exists (counts e). split; [by apply (block_of s A U (n, e))|]. pose proof (eo_pages _ Hok).
      unfold counts. rewrite length_fmap. cbn in *. split; lia. }
    destruct (virt_to_page_at s A U _ _ _ Hh Ho) as (m & e' & Hx' & Hs & Hi' & _ & Ev & Hne).
    assert ((n, e) = (m, e')) as [= <- <-] by (by apply (same_start s A U)).
    destruct (page_at_runs s A U n e (Z.to_nat i) Hh Hx ltac:(lia)) as (p & Ep & Et).
    exists (pg_virtual p). rewrite (M_bind_val _ _ _ _ _ Ev).
    destruct (Z.eqb_spec (page_ptr n (Z.to_nat i)) 0); [done|]. unfold page_address. rewrite (M_bind_val _ _ _ _ _ Et).
    split; [done|]. split; [done|]. right. exists (start e), (Z.to_nat i). split; [done|]. apply (eo_page _ Hok _ p Ep).
  - exists 0. split.
    + unfold LX_virt_to_page. rewrite M_bind_unfold, locked_read by by eapply ho_lock. by rewrite E.
    + split; [done|]. left. split; [|done]. intros b i Ho.
      destruct (virt_to_page_at s A U b i addr Hh Ho) as (n & e & _ & _ & _ & _ & Ev & Hne).
      unfold LX_virt_to_page in Ev. rewrite locked_read in Ev by (by eapply ho_lock). rewrite E in Ev. by injection Ev.
Qed.

(** C21: Pages obey their specification.  Whatever a client does with pages it
    owns - allocating blocks, giving back any part of them in any pieces, taking
    and dropping references - each call returns and does to the blocks what its
    specification says: a new block is page aligned and apart from all others, a
    block disappears when the last count of its pages does, an address is
    translated to its own page.  The memory manager holds the objects of the
    blocks that are left, and what else it held before. *)
Theorem page_calls_refine (o : page_op) s A U : holds s A U -> op_pre o A ->
  exists r s' A', run_op o s = Ok (r, s') /\ op_spec o A r A' /\ holds s' A' U.
Proof.
  intros Hh. destruct o as [gfp order|addr order|addr|addr|addr]; intros Hp.
  - by apply get_free_pages_runs.
  - destruct Hp as (Ho & b & i & c & Hp). destruct (free_pages_runs s A U b i c addr order Hh Ho Hp) as (s' & E & Hh').
    eexists 0, s', _. cbn. rewrite (M_bind_val _ _ _ _ _ E). split; [done|]. split; [|exact Hh'].
    intros b' i' c' Hp'. destruct (order_pages order Ho) as [_ Hr].
    destruct (Z.to_nat (2 ^ order)) as [|m] eqn:Em; [lia|].
    by destruct (pages_of_unique s A U _ _ _ _ _ _ _ _ _ _ _ Hh Hp Hp') as (-> & -> & ->).
  - by apply get_page_runs.
  - by apply put_page_runs.
  - destruct (translate_runs addr s A U Hh) as (r & E & Hs). by exists r, s, A.
Qed.
End Rel.

(** ** Two pages over the memory manager *)

Definition demo0 : pgs (lxm sim) := mk_pgs lxm1 [] false.
Definition after_op (o : page_op) (s : pgs (lxm sim)) : pgs (lxm sim) := default s (exec (run_op o) s).
Definition demo1 : pgs (lxm sim) := after_op (GetPages 208 1) demo0.

Lemma demo0_holds : holds demo0 ∅ (used lxm1).
Proof.
  split; try done.
  - apply lxm1_wf.
  - apply map_disjoint_empty_l.
Qed.

Example demo1_pages : run_op (GetPages 208 1) demo0 = Ok (24576, demo1).
Proof. vm_compute. reflexivity. Qed.
Lemma same_result {A S} (a b : A) (s t : S) : Ok (a, s) = Ok (b, t) -> a = b /\ s = t.
Proof. by intros [= -> ->]. Qed.
Lemma demo1_holds : holds demo1 {[ 24576 := [1; 1] ]} (used lxm1).
Proof.
  destruct (get_free_pages_runs 208 1 demo0 ∅ (used lxm1) demo0_holds ltac:(lia)) as (r & s' & A' & E & Hs & Hh).
  destruct (same_result _ _ _ _ (eq_trans (eq_sym E) demo1_pages)) as [-> ->].
  assert (A' = {[ 24576 := [1; 1] ]}) as <-; [|exact Hh]. clear Hh E.
  destruct Hs as [[Hz _]|(_ & _ & _ & HA)]; [lia|exact HA].
Qed.

Lemma page_calls_refine_witness :
  exists s2, run_op (FreePages 28672 0) demo1 = Ok (0, s2) /\ holds s2 {[ 24576 := [1; 0] ]} (used lxm1).
Proof.
  assert (pages_of {[ 24576 := [1; 1] ]} 24576 1 1 28672 (fun z => 0 < z) [1; 1]) as Hp.
  { split; [reflexivity|]. split; [cbn; lia|]. split; [lia|]. intros [|[|k]] z; cbn; [by intros [= <-]..|done]. }
  destruct (page_calls_refine (FreePages 28672 0) demo1 {[ 24576 := [1; 1] ]} (used lxm1) demo1_holds)
    as (r & s2 & A2 & E & Hs & Hh); [split; [lia|]; exists 24576, 1%nat, [1; 1]; exact Hp|].
  assert (r = 0) as ->.
  { cbn in E. apply M_bind_Ok in E as (? & ? & _ & E). by injection E. }
  exists s2. split; [exact E|]. specialize (Hs 24576 1%nat [1; 1]). cbn in Hs. rewrite Hs in Hh.
  - unfold unused_block in Hh. cbn in Hh. rewrite insert_singleton_eq in Hh. exact Hh.
  - destruct Hp as (? & ? & ? & _). split_and!; done.
Defined.

(** Both pages are freed one by one: the memory manager has what it had. *)
Example pages_return : used (pg_heap (after_op (FreePages 24576 0) (after_op (FreePages 28672 0) demo1))) = used lxm1.
Proof. vm_compute. reflexivity. Qed.

(** A page whose last user drops it with put_page stays allocated; so does a
    block of which a page is freed twice. *)
Example put_page_keeps : length (lx_pages (after_op (PutPage 28672) (after_op (PutPage 24576) demo1))) = 1%nat.
Proof. vm_compute. reflexivity. Qed.
Example freed_twice_keeps :
  length (lx_pages (after_op (FreePages 24576 0) (after_op (FreePages 28672 0) (after_op (FreePages 28672 0) demo1)))) = 1%nat.
Proof. vm_compute. reflexivity. Qed.
