(* ===== verification/Thread.v ===== *)
(** * Starting kernel threads (os2/os2/oo_thread.c)

    A caller of LX_StartNewTask queues what the thread shall run with and, if
    it wants to, waits for the thread's id.  The service thread takes one
    request at a time out of the queue into lx_started_task and creates an OS/2
    thread, whose stub (Dev32/lxthreads.asm) takes the three values out again,
    one after the other, and calls the routine.  The service thread also runs
    the softirqs.  Callers, service thread and stubs interleave. *)

From S2P Require Import Prelude DevHlp Memory Heap.

Definition STARTTASK_WAIT : Z := 1.
Definition STARTTASK_STARTED : Z := 2.
Definition ENOMEM : Z := 12.
Definition sizeof_new_task : Z := 28.

Record lx_new_task_struct := mk_new { n_esp : Z; n_eip : Z; n_prev : Z; n_flags : Z; n_tid : Z }.

(** Where LX_ServiceThread is.  Its test of lx_started_task reads three fields;
    what it does under the lock, to a request of its own, or at its end is one
    step. *)
Inductive service :=
  | SvcWakes | SvcClear | SvcSoftirq | SvcEip | SvcEsp | SvcPrev | SvcEmpty | SvcPop
  | SvcCreate (p : Z) | SvcFlags (p : Z).

(** Where the stub of a thread is, with what it has taken. *)
Inductive stub :=
  | Created | HasEsp (esp : Z) | HasEip (esp eip : Z) | Runs (esp eip prev : Z).

(** A call of LX_StartNewTask: it waits on its request, or has returned. *)
Inductive caller := Waits (p : Z) | Returned (rc : Z).

(** Threads are in the order of their creation.  [requests] is the history of
    calls that queued a request: who, whether it waits, and the three values;
    [raised] and [handled] count wake-ups, and those before the last
    do_softirq. *)
Record threads (H : Type) := mk_threads {
  th_heap : H;
  nodes : gmap Z lx_new_task_struct;
  lx_task_to_start_list : list Z;
  lx_started_task : Z * Z * Z;
  lx_softirq_wakes : Z;
  service_thread_block_time : Z;
  service_at : service;
  stubs : list (Z * stub);
  callers : gmap Z caller;
  requests : list (Z * bool * (Z * Z * Z));
  raised : nat;
  handled : nat
}.
Arguments mk_threads {H}. Arguments th_heap {H}. Arguments nodes {H}. Arguments lx_task_to_start_list {H}.
Arguments lx_started_task {H}. Arguments lx_softirq_wakes {H}. Arguments service_thread_block_time {H}.
Arguments service_at {H}. Arguments stubs {H}. Arguments callers {H}. Arguments requests {H}.
Arguments raised {H}. Arguments handled {H}.

(** Who moves.  Start: the call [c], with its arguments, whether it is made in
    an interrupt, and what its memory held; Service: the id of the thread, if one is
    created at this step and creating it works; Stub: the [k]-th thread. *)
Inductive label :=
  | Start (c esp eip prev flags : Z) (in_interrupt : bool) (stale : Z)
  | Poll (c : Z)
  | Service (tid : option Z)
  | Stub (k : nat)
  | Wake.

Section Threads.
Context {H : Type} `{Heap H}.
Implicit Types s : threads H.

Definition set_mem (h : H) (ns : gmap Z lx_new_task_struct) s : threads H :=
  mk_threads h ns (lx_task_to_start_list s) (lx_started_task s) (lx_softirq_wakes s) (service_thread_block_time s)
    (service_at s) (stubs s) (callers s) (requests s) (raised s) (handled s).
Definition set_queue (l : list Z) s : threads H :=
  mk_threads (th_heap s) (nodes s) l (lx_started_task s) (lx_softirq_wakes s) (service_thread_block_time s)
    (service_at s) (stubs s) (callers s) (requests s) (raised s) (handled s).
Definition set_started (t : Z * Z * Z) s : threads H :=
  mk_threads (th_heap s) (nodes s) (lx_task_to_start_list s) t (lx_softirq_wakes s) (service_thread_block_time s)
    (service_at s) (stubs s) (callers s) (requests s) (raised s) (handled s).
Definition set_wakes (w : Z) (r h : nat) s : threads H :=
  mk_threads (th_heap s) (nodes s) (lx_task_to_start_list s) (lx_started_task s) w (service_thread_block_time s)
    (service_at s) (stubs s) (callers s) (requests s) r h.
Definition goto (a : service) s : threads H :=
  mk_threads (th_heap s) (nodes s) (lx_task_to_start_list s) (lx_started_task s) (lx_softirq_wakes s)
    (service_thread_block_time s) a (stubs s) (callers s) (requests s) (raised s) (handled s).
(** LX_ServiceThread returns; it is called again after so many milliseconds or a DevRun. *)
Definition done_in (ms : Z) s : threads H :=
  mk_threads (th_heap s) (nodes s) (lx_task_to_start_list s) (lx_started_task s) (lx_softirq_wakes s)
    ms SvcWakes (stubs s) (callers s) (requests s) (raised s) (handled s).
Definition set_stubs (l : list (Z * stub)) s : threads H :=
  mk_threads (th_heap s) (nodes s) (lx_task_to_start_list s) (lx_started_task s) (lx_softirq_wakes s)
    (service_thread_block_time s) (service_at s) l (callers s) (requests s) (raised s) (handled s).
Definition set_caller (c : Z) (x : caller) s : threads H :=
  mk_threads (th_heap s) (nodes s) (lx_task_to_start_list s) (lx_started_task s) (lx_softirq_wakes s)
    (service_thread_block_time s) (service_at s) (stubs s) (<[c := x]> (callers s)) (requests s) (raised s) (handled s).
Definition log_request (r : Z * bool * (Z * Z * Z)) s : threads H :=
  mk_threads (th_heap s) (nodes s) (lx_task_to_start_list s) (lx_started_task s) (lx_softirq_wakes s)
    (service_thread_block_time s) (service_at s) (stubs s) (callers s) (requests s ++ [r]) (raised s) (handled s).

Definition free_node (p : Z) s : threads H := set_mem (kfree p (th_heap s)) (delete p (nodes s)) s.
Definition put_node (p : Z) (n : lx_new_task_struct) s : threads H := set_mem (th_heap s) (<[p := n]> (nodes s)) s.
Definition has (flags bit : Z) : bool := negb (Z.land flags bit =? 0).

(** LX_StartNewTask up to its wait. *)
Definition LX_StartNewTask (c esp eip prev flags : Z) (in_interrupt : bool) (stale : Z) s : threads H :=
  let r := kmalloc sizeof_new_task (th_heap s) in
  let p := r.2 in
  if p =? 0 then set_mem r.1 (nodes s) (set_caller c (Returned (- ENOMEM)) s) else
  let flags := if in_interrupt then Z.land flags (Z.lnot STARTTASK_WAIT) else flags in
  let wait := has flags STARTTASK_WAIT in
  log_request (c, wait, (esp, eip, prev))
    (set_caller c (if wait then Waits p else Returned 0)
      (set_queue (lx_task_to_start_list s ++ [p])
        (set_mem r.1 (<[p := mk_new esp eip prev flags stale]> (nodes s)) s))).

(** A turn of its wait. *)
Definition wait_started (c p : Z) s : res (threads H) :=
  match nodes s !! p with
  | None => Err UseAfterFree
  | Some n =>
      if has (n_flags n) STARTTASK_STARTED then Ok (set_caller c (Returned (n_tid n)) (free_node p s)) else Ok s
  end.

Definition LX_wakeup_softirq s : threads H :=
  set_wakes (s32 (lx_softirq_wakes s + 1)) (S (raised s)) (handled s) s.

(** A step of the service thread. *)
Definition LX_ServiceThread (tid : option Z) s : res (threads H) :=
  let '(esp, eip, prev) := lx_started_task s in
  match service_at s with
  | SvcWakes => Ok (goto (if lx_softirq_wakes s =? 0 then SvcEip else SvcClear) s)
  | SvcClear => Ok (goto SvcSoftirq (set_wakes 0 (raised s) (handled s) s))
  | SvcSoftirq => Ok (goto SvcEip (set_wakes (lx_softirq_wakes s) (raised s) (raised s) s))
  | SvcEip => Ok (if eip =? 0 then goto SvcEsp s else done_in 10 s)
  | SvcEsp => Ok (if esp =? 0 then goto SvcPrev s else done_in 10 s)
  | SvcPrev => Ok (if prev =? 0 then goto SvcEmpty s else done_in 10 s)
  | SvcEmpty => Ok (match lx_task_to_start_list s with [] => done_in 10000 s | _ => goto SvcPop s end)
  | SvcPop =>
      match lx_task_to_start_list s with
      | [] => Ok (done_in 10 s)
      | p :: l =>
          match nodes s !! p with
          | None => Err UseAfterFree
          | Some n => Ok (goto (SvcCreate p) (set_started (n_esp n, n_eip n, n_prev n) (set_queue l s)))
          end
      end
  | SvcCreate p =>
      match tid with
      | None => Ok (goto (SvcFlags p) s)
      | Some t =>
          match nodes s !! p with
          | None => Err UseAfterFree
          | Some n => Ok (goto (SvcFlags p) (set_stubs (stubs s ++ [(t, Created)])
                            (put_node p (mk_new (n_esp n) (n_eip n) (n_prev n) (n_flags n) t) s)))
          end
      end
  | SvcFlags p =>
      match nodes s !! p with
      | None => Err UseAfterFree
      | Some n =>
          Ok (done_in 10
                (if has (n_flags n) STARTTASK_WAIT
                 then put_node p (mk_new (n_esp n) (n_eip n) (n_prev n) STARTTASK_STARTED (n_tid n)) s
                 else free_node p s))
      end
  end.

(** LXA_TaskStub32: LXA_TaskStackAlloc takes the stack, then it takes the
    routine and the previous task. *)
Definition LXA_TaskStub32 (k : nat) s : threads H :=
  let '(esp, eip, prev) := lx_started_task s in
  let put (t : Z) (x : stub) (slot : Z * Z * Z) := set_started slot (set_stubs (<[k := (t, x)]> (stubs s)) s) in
  match stubs s !! k with
  | Some (t, Created) => put t (HasEsp esp) (0, eip, prev)
  | Some (t, HasEsp e) => put t (HasEip e eip) (esp, 0, prev)
  | Some (t, HasEip e i) => put t (Runs e i prev) (esp, eip, 0)
  | _ => s
  end.

Definition thr_step (l : label) s : res (threads H) :=
  match l with
  | Start c esp eip prev flags irq stale =>
      Ok (match callers s !! c with None => LX_StartNewTask c esp eip prev flags irq stale s | Some _ => s end)
  | Poll c => match callers s !! c with Some (Waits p) => wait_started c p s | _ => Ok s end
  | Service tid => LX_ServiceThread tid s
  | Stub k => Ok (LXA_TaskStub32 k s)
  | Wake => Ok (LX_wakeup_softirq s)
  end.

Fixpoint thr_run (ls : list label) s : res (threads H) :=
  match ls with [] => Ok s | l :: ls => s ← thr_step l s; thr_run ls s end.

(** LXA_start_service_thread clears lx_started_task. *)
Definition threads0 (h : H) : threads H :=
  mk_threads h ∅ [] (0, 0, 0) 0 10 SvcWakes [] ∅ [] 0 0.
End Threads.

(** ** What holds between the steps *)

Section Inv.
Context {H : Type} `{HeapLaws H}.
Implicit Types (s : threads H) (tr : Z * Z * Z).

(** lx_started_task when the thread that was created for [tr] is at [st]. *)
Definition slot_for (st : stub) tr : Z * Z * Z :=
  match st with Created => tr | HasEsp _ => (0, tr.1.2, tr.2) | HasEip _ _ => (0, 0, tr.2) | Runs _ _ _ => (0, 0, 0) end.
Definition stub_ok tr (st : stub) : Prop :=
  match st with
  | Created => True
  | HasEsp e => e = tr.1.1
  | HasEip e i => e = tr.1.1 /\ i = tr.1.2
  | Runs e i p => (e, i, p) = tr
  end.
Definition running (st : stub) : Prop := match st with Runs _ _ _ => True | _ => False end.

(** The request whose thread is about to be created. *)
Definition hand (a : service) : list Z := match a with SvcCreate p => [p] | _ => [] end.
Definition held (a : service) : list Z := match a with SvcCreate p | SvcFlags p => [p] | _ => [] end.
Definition pending s : list Z := lx_task_to_start_list s ++ held (service_at s).
Definition asked s (k : nat) tr : Prop := exists c w, requests s !! k = Some (c, w, tr).

(** Threads take the requests in order: all but the last have taken theirs
    completely, and lx_started_task holds what the last has not taken yet, or the next request. *)
Record slots_inv s : Prop := {
  sl_len : length (requests s) = (length (stubs s) + length (hand (service_at s)) + length (lx_task_to_start_list s))%nat;
  sl_stub : forall k t st, stubs s !! k = Some (t, st) -> exists tr, asked s k tr /\ stub_ok tr st;
  sl_done : forall k t st, stubs s !! k = Some (t, st) ->
    (S k < length (stubs s))%nat \/ hand (service_at s) <> [] -> running st;
  sl_hand : hand (service_at s) <> [] -> asked s (length (stubs s)) (lx_started_task s);
  sl_slot : hand (service_at s) = [] ->
    match stubs s !! pred (length (stubs s)) with
    | None => lx_started_task s = (0, 0, 0)
    | Some (_, st) => exists tr, asked s (pred (length (stubs s))) tr /\ lx_started_task s = slot_for st tr
    end;
  sl_empty : service_at s = SvcEmpty \/ service_at s = SvcPop -> (lx_started_task s).2 = 0;
  sl_prev : forall k tr, asked s k tr -> tr.2 <> 0
}.

Implicit Types born : gmap Z nat.

(** [born]: the request a node was made for. *)
Definition node_fresh s born (p : Z) : Prop :=
  exists j n c w, born !! p = Some j /\ nodes s !! p = Some n /\
    requests s !! j = Some (c, w, (n_esp n, n_eip n, n_prev n)) /\
    has (n_flags n) STARTTASK_WAIT = w /\ has (n_flags n) STARTTASK_STARTED = false /\
    (w = true -> callers s !! c = Some (Waits p)).
Definition node_started s born (p : Z) (n : lx_new_task_struct) : Prop :=
  exists j c tr st, born !! p = Some j /\ requests s !! j = Some (c, true, tr) /\ n_flags n = STARTTASK_STARTED /\
    callers s !! c = Some (Waits p) /\ stubs s !! j = Some (n_tid n, st).

Record nodes_inv s born : Prop := {
  nd_queue : forall i p, lx_task_to_start_list s !! i = Some p ->
    born !! p = Some (length (stubs s) + length (hand (service_at s)) + i)%nat;
  nd_hand : forall p, service_at s = SvcCreate p -> born !! p = Some (length (stubs s));
  nd_flags : forall p, service_at s = SvcFlags p -> exists k n st,
    length (stubs s) = S k /\ born !! p = Some k /\ nodes s !! p = Some n /\ stubs s !! k = Some (n_tid n, st);
  nd_fresh : forall p, p ∈ pending s -> node_fresh s born p;
  nd_all : forall p n, nodes s !! p = Some n -> p ∈ pending s \/ node_started s born p n;
  nd_wait : forall c p, callers s !! c = Some (Waits p) ->
    exists j tr, born !! p = Some j /\ requests s !! j = Some (c, true, tr) /\ is_Some (nodes s !! p);
  nd_request : forall j c (w : bool) tr, requests s !! j = Some (c, w, tr) ->
    if w then (exists p, callers s !! c = Some (Waits p) /\ born !! p = Some j) \/
              (exists t st, callers s !! c = Some (Returned t) /\ stubs s !! j = Some (t, st))
    else callers s !! c = Some (Returned 0);
  nd_unique : forall j j' c w w' tr tr', requests s !! j = Some (c, w, tr) -> requests s !! j' = Some (c, w', tr') -> j = j'
}.

(** The heap holds the nodes and [U]. *)
Record heap_inv (U : gmap Z Z) s : Prop := {
  hp_ok : heap_ok (th_heap s);
  hp_other : (const sizeof_new_task <$> nodes s) ##ₘ U;
  hp_used : used (th_heap s) = (const sizeof_new_task <$> nodes s) ∪ U
}.

(** Wake-ups that no do_softirq has followed are counted. *)
Definition wakes_inv s : Prop := exists n : nat,
  lx_softirq_wakes s = s32 n /\ (n <= raised s)%nat /\
  (service_at s <> SvcSoftirq -> (raised s <= handled s + n)%nat) /\ (handled s <= raised s)%nat.

Lemma asked_unique s k tr tr' : asked s k tr -> asked s k tr' -> tr = tr'.
Proof. intros (c & w & E) (c' & w' & E'). congruence. Qed.
Lemma asked_log s r k tr : asked s k tr -> asked (log_request r s) k tr.
Proof. intros (c & w & E). exists c, w. cbn. by apply lookup_app_l_Some. Qed.

(** ** Threads and lx_started_task *)

Lemma slots_start c esp eip prev flags irq stale s : slots_inv s -> prev <> 0 ->
  slots_inv (LX_StartNewTask c esp eip prev flags irq stale s).
Proof.
  intros [H1' H2' H3' H4' H5' H6' H7'] Hp. unfold LX_StartNewTask. destruct (_ =? 0); [by split|].
  set (r := (c, _, (esp, eip, prev))). set (s' := log_request r _).
  assert (forall k tr, asked s k tr -> asked s' k tr) as Ha.
  { intros k tr (c0 & w0 & E). exists c0, w0. cbn. by apply lookup_app_l_Some. }
  split; cbn [service_at stubs lx_started_task lx_task_to_start_list requests log_request set_caller set_queue set_mem s'].
  - rewrite !length_app. cbn. lia.
  - intros k t st E. destruct (H2' k t st E) as (tr & ? & ?). eauto.
  - exact H3'.
  - auto.
  - intros E. specialize (H5' E). destruct (stubs s !! _) as [[t st]|]; [|done]. destruct H5' as (tr & ? & ?). eauto.
  - exact H6'.
  - intros k tr (c0 & w0 & E). cbn in E. apply lookup_app_Some in E as [E|[_ E]].
    + apply (H7' k). by exists c0, w0.
    + apply list_lookup_singleton_Some in E as [_ [= <- <- <-]]. done.
Qed.

(** A step that keeps what the slots depend on. *)
Lemma slots_same s s' : slots_inv s -> requests s' = requests s -> stubs s' = stubs s -> lx_started_task s' = lx_started_task s ->
  lx_task_to_start_list s' = lx_task_to_start_list s -> hand (service_at s') = hand (service_at s) ->
  (service_at s' = SvcEmpty \/ service_at s' = SvcPop -> (lx_started_task s).2 = 0) -> slots_inv s'.
Proof.
  intros [H1' H2' H3' H4' H5' H6' H7'] Er Es El Eq Eh He.
  assert (forall k tr, asked s k tr <-> asked s' k tr) as Ha by (intros k tr; unfold asked; by rewrite Er).
  split; rewrite ?Er, ?Es, ?El, ?Eq, ?Eh; try done.
  - intros k t st E. destruct (H2' k t st E) as (tr & ? & ?). exists tr. by rewrite <- Ha.
  - intros Hne. rewrite <- Ha. auto.
  - intros E. specialize (H5' E). destruct (stubs s !! _) as [[t st]|]; [|done]. destruct H5' as (tr & ? & ?). exists tr. by rewrite <- Ha.
  - intros k tr. rewrite <- Ha. apply H7'.
Qed.

(** When the queue is looked at, every thread has what it was created for. *)
Lemma slot_empty s : slots_inv s -> service_at s = SvcEmpty \/ service_at s = SvcPop ->
  forall k t st, stubs s !! k = Some (t, st) -> running st.
Proof.
  intros [H1' H2' H3' H4' H5' H6' H7'] Ha k t st E. specialize (H6' Ha).
  assert (hand (service_at s) = []) as Eh by (by destruct Ha as [->| ->]). specialize (H5' Eh).
  pose proof (lookup_lt_Some _ _ _ E) as Hk. destruct (decide (S k < length (stubs s))%nat) as [|Hl]; [by eapply H3'; eauto|].
  replace (pred (length (stubs s))) with k in H5' by lia. rewrite E in H5'. destruct H5' as (tr & Hr & El).
  rewrite El in H6'. specialize (H7' k tr Hr). destruct st; cbn in *; done.
Qed.

Lemma slots_pop p l n s : slots_inv s -> service_at s = SvcPop -> lx_task_to_start_list s = p :: l ->
  asked s (length (stubs s)) (n_esp n, n_eip n, n_prev n) ->
  slots_inv (goto (SvcCreate p) (set_started (n_esp n, n_eip n, n_prev n) (set_queue l s))).
Proof.
  intros Hs Ea Eq Hn. pose proof (slot_empty s Hs (or_intror Ea)) as Hd. destruct Hs as [H1' H2' H3' H4' H5' H6' H7'].
  split; cbn; try done.
  - rewrite H1', Ea, Eq. cbn. lia.
  - intros k t st E _. eauto.
  - by intros [?|?].
Qed.

Lemma slots_create p t n s : slots_inv s -> service_at s = SvcCreate p ->
  slots_inv (goto (SvcFlags p) (set_stubs (stubs s ++ [(t, Created)]) (put_node p n s))).
Proof.
  intros [H1' H2' H3' H4' H5' H6' H7'] Ea. rewrite Ea in *. cbn in *. specialize (H4' ltac:(done)).
  split; cbn.
  - rewrite length_app. cbn. lia.
  - intros k t' st E. apply lookup_app_Some in E as [E|[Hk E]]; [by eauto|].
    apply list_lookup_singleton_Some in E as [Hk' [= <- <-]]. exists (lx_started_task s). split; [|done].
    by replace k with (length (stubs s)) by lia.
  - intros k t' st E [Hk|Hk]; [|done]. rewrite length_app in Hk. cbn in Hk.
    rewrite lookup_app_l in E by lia. eapply H3'; [exact E|]. right. done.
  - done.
  - intros _. rewrite length_app. cbn. rewrite Nat.add_1_r. cbn. rewrite list_lookup_middle by done. by exists (lx_started_task s).
  - by intros [?|?].
  - exact H7'.
Qed.

(** The thread that still takes values is the last, and nothing is in hand. *)
Lemma stub_last k t st s : slots_inv s -> stubs s !! k = Some (t, st) -> ~ running st ->
  k = pred (length (stubs s)) /\ hand (service_at s) = [] /\
  exists tr, asked s k tr /\ stub_ok tr st /\ lx_started_task s = slot_for st tr.
Proof.
  intros [H1' H2' H3' H4' H5' H6' H7'] E Hr. pose proof (lookup_lt_Some _ _ _ E) as Hk.
  assert (k = pred (length (stubs s))) as Ek.
  { destruct (decide (S k < length (stubs s))%nat); [|lia]. destruct Hr. eapply H3'; eauto. }
  assert (hand (service_at s) = []) as Eh.
  { destruct (decide (hand (service_at s) = [])) as [|Hne]; [done|]. destruct Hr. eapply H3'; [exact E|]. by right. }
  split; [done|]. split; [done|]. specialize (H5' Eh). rewrite <- Ek, E in H5'. destruct H5' as (tr & Ha & El).
  destruct (H2' k t st E) as (tr' & Ha' & Ho). rewrite (asked_unique s k tr' tr Ha' Ha) in Ho. eauto.
Qed.

Lemma slots_move k t st st' tr s : slots_inv s -> stubs s !! k = Some (t, st) -> ~ running st -> asked s k tr -> stub_ok tr st' ->
  slots_inv (set_started (slot_for st' tr) (set_stubs (<[k := (t, st')]> (stubs s)) s)).
Proof.
  intros Hs E Hr Ha Ho. destruct (stub_last k t st s Hs E Hr) as (Ek & Eh & _).
  pose proof (lookup_lt_Some _ _ _ E) as Hk. pose proof (slot_empty s Hs) as Hd. destruct Hs as [H1' H2' H3' H4' H5' H6' H7'].
  split; cbn; rewrite ?length_insert; try done.
  - intros j t' x Ej. destruct (decide (j = k)) as [->|Hj].
    + rewrite list_lookup_insert_eq in Ej by done. injection Ej as <- <-. exists tr. by split.
    + rewrite list_lookup_insert_ne in Ej by done. by eapply H2'.
  - intros j t' x Ej [Hl|Hl]; [|done]. rewrite list_lookup_insert_ne in Ej by lia. eapply H3'; [exact Ej|]. by left.
  - intros _. rewrite <- Ek, list_lookup_insert_eq by done. by exists tr.
  - intros Hc. destruct (Hr (Hd Hc k t st E)).
Qed.

Lemma slots_stub k s : slots_inv s -> slots_inv (LXA_TaskStub32 k s).
Proof.
  intros Hs. unfold LXA_TaskStub32. destruct (lx_started_task s) as [[esp eip] prev] eqn:El.
  destruct (stubs s !! k) as [[t st]|] eqn:E; [|done].
  destruct st as [|e|e i|e i p]; [..|done];
    destruct (stub_last k t _ s Hs E ltac:(intros [])) as (_ & _ & [[te ti] tp] & Ha & Ho & Es); rewrite El in Es;
    cbn in Es, Ho; injection Es as -> -> ->.
  - exact (slots_move k t Created (HasEsp te) (te, ti, tp) s Hs E ltac:(intros []) Ha eq_refl).
  - subst e. exact (slots_move k t (HasEsp te) (HasEip te ti) (te, ti, tp) s Hs E ltac:(intros []) Ha (conj eq_refl eq_refl)).
  - destruct Ho as [-> ->]. exact (slots_move k t (HasEip te ti) (Runs te ti tp) (te, ti, tp) s Hs E ltac:(intros []) Ha eq_refl).
Qed.

(** ** Requests and their memory *)

(** A step that keeps what the nodes depend on. *)
Lemma nodes_same s s' born : nodes_inv s born -> nodes s' = nodes s -> requests s' = requests s -> callers s' = callers s ->
  lx_task_to_start_list s' = lx_task_to_start_list s -> hand (service_at s') = hand (service_at s) ->
  held (service_at s') = held (service_at s) -> length (stubs s') = length (stubs s) ->
  (forall k t st, stubs s !! k = Some (t, st) -> exists st', stubs s' !! k = Some (t, st')) -> nodes_inv s' born.
Proof.
  intros [N1 N2 N3 N4 N5 N6 N7 N8] En Er Ec Eq Eh Ed El Es.
  assert (forall p, service_at s' = SvcCreate p <-> service_at s = SvcCreate p) as Hc.
  { intros p. destruct (service_at s'), (service_at s); cbn in *; split; intros; simplify_eq; done. }
  assert (forall p, service_at s' = SvcFlags p <-> service_at s = SvcFlags p) as Hf.
  { intros p. destruct (service_at s'), (service_at s); cbn in *; split; intros; simplify_eq; done. }
  assert (pending s' = pending s) as Ep by (unfold pending; by rewrite Eq, Ed).
  split; unfold node_fresh, node_started in *; rewrite ?En, ?Er, ?Ec, ?Eq, ?Eh, ?El, ?Ep; try done.
  - intros p. rewrite Hc. auto.
  - intros p E. apply Hf in E. destruct (N3 p E) as (k & n & st & ? & ? & ? & Est). destruct (Es _ _ _ Est) as [st' ?]. eauto 10.
  - intros p n E. destruct (N5 p n E) as [?|(j & c & tr & st & ? & ? & ? & ? & Est)]; [by left|right].
    destruct (Es _ _ _ Est) as [st' ?]. eauto 10.
  - intros j c w tr E. specialize (N7 j c w tr E). destruct w; [|done]. destruct N7 as [?|(t & st & ? & Est)]; [by left|right].
    destruct (Es _ _ _ Est) as [st' ?]. eauto.
Qed.

Lemma request_caller s born j c w tr : nodes_inv s born -> requests s !! j = Some (c, w, tr) -> is_Some (callers s !! c).
Proof.
  intros Hn E. pose proof (nd_request _ _ Hn j c w tr E) as Hr. destruct w; [|by rewrite Hr].
  by destruct Hr as [(p & -> & _)|(t & st & -> & _)].
Qed.
Lemma pending_node s born p : nodes_inv s born -> p ∈ pending s -> is_Some (nodes s !! p).
Proof. intros Hn Hp. destruct (nd_fresh _ _ Hn p Hp) as (j & n & c & w & _ & -> & _). done. Qed.

(** A request enters the queue. *)
Lemma nodes_log c p (w : bool) n h s born : slots_inv s -> nodes_inv s born -> callers s !! c = None -> nodes s !! p = None ->
  has (n_flags n) STARTTASK_WAIT = w -> has (n_flags n) STARTTASK_STARTED = false ->
  nodes_inv (log_request (c, w, (n_esp n, n_eip n, n_prev n))
    (set_caller c (if w then Waits p else Returned 0)
      (set_queue (lx_task_to_start_list s ++ [p]) (set_mem h (<[p := n]> (nodes s)) s)))) (<[p := length (requests s)]> born).
Proof.
  intros Hs Hn Hc Hp Hw Hf. pose proof (sl_len _ Hs) as Hl. set (r := (c, w, (n_esp n, n_eip n, n_prev n))).
  pose proof (request_caller s born) as Hrc. pose proof (pending_node s born) as Hpn.
  assert (forall q, is_Some (nodes s !! q) -> p <> q) as Hpq by (intros q [x ?] <-; congruence).
  assert (forall c', is_Some (callers s !! c') -> c <> c') as Hcc by (intros c' [x ?] <-; congruence).
  assert (forall q, q ∈ lx_task_to_start_list s -> q ∈ pending s) as Hqp by (intros q Hq; unfold pending; set_solver).
  assert (forall q, q ∈ held (service_at s) -> q ∈ pending s) as Hhp by (intros q Hq; unfold pending; set_solver).
  split; cbn [nodes requests callers lx_task_to_start_list service_at stubs log_request set_caller set_queue set_mem].
  - intros i q E. apply lookup_app_Some in E as [E|[Hi E]].
    + rewrite lookup_insert_ne by eauto using list_elem_of_lookup_2. by apply Hn.
    + apply list_lookup_singleton_Some in E as [Hi' <-]. rewrite lookup_insert_eq. f_equal. lia.
  - intros q E. rewrite lookup_insert_ne; [by apply Hn|]. apply Hpq, Hpn, Hhp; [done|]. rewrite E. by left.
  - intros q E. destruct (nd_flags _ _ Hn q E) as (k & m & st & ? & ? & ? & ?). exists k, m, st.
    rewrite !lookup_insert_ne by eauto. done.
  - intros q Hq. unfold pending in Hq. cbn in Hq. rewrite !elem_of_app, list_elem_of_singleton in Hq.
    assert (q ∈ pending s \/ q = p) as [Hold| ->] by (unfold pending; rewrite elem_of_app; tauto).
    + destruct (nd_fresh _ _ Hn q Hold) as (j & m & c' & w' & B & N & R & W & F & C). exists j, m, c', w'. cbn.
      rewrite !lookup_insert_ne by eauto. split_and!; [done|done|by apply lookup_app_l_Some|done|done|].
      exact C.
    + exists (length (requests s)), n, c, w. cbn. rewrite !lookup_insert_eq, list_lookup_middle by done.
      split_and!; try done. by intros ->.
  - intros q m E. unfold pending. cbn. rewrite !elem_of_app, list_elem_of_singleton. destruct (decide (p = q)) as [<-|Hne]; [tauto|].
    rewrite lookup_insert_ne in E by done. destruct (nd_all _ _ Hn q m E) as [Hq|(j & c' & tr & st & B & R & F & C & T)].
    + left. unfold pending in Hq. rewrite elem_of_app in Hq. tauto.
    + right. exists j, c', tr, st. cbn. rewrite !lookup_insert_ne by (done || apply Hcc; by rewrite C).
      split_and!; try done. by apply lookup_app_l_Some.
  - intros c' q E. destruct (decide (c = c')) as [<-|Hne].
    + rewrite lookup_insert_eq in E. destruct w; [|done]. injection E as <-.
      exists (length (requests s)), (n_esp n, n_eip n, n_prev n). rewrite !lookup_insert_eq, list_lookup_middle by done. eauto.
    + rewrite lookup_insert_ne in E by done. destruct (nd_wait _ _ Hn c' q E) as (j & tr & B & R & N).
      exists j, tr. rewrite !lookup_insert_ne by eauto. split_and!; [done|by apply lookup_app_l_Some|done].
  - intros j c' w' tr E. apply lookup_app_Some in E as [E|[Lj E]].
    + pose proof (nd_request _ _ Hn j c' w' tr E) as Hr. rewrite lookup_insert_ne by eauto. destruct w'; [|done].
      destruct Hr as [(q & C & B)|Hr]; [left|by right]. exists q. split; [done|].
      destruct (nd_wait _ _ Hn c' q C) as (? & ? & _ & _ & N). by rewrite lookup_insert_ne by eauto.
    + apply list_lookup_singleton_Some in E as [Hj [= <- <- <-]]. rewrite lookup_insert_eq. destruct w; [|done].
      left. exists p. rewrite lookup_insert_eq. split; [done|]. f_equal. lia.
  - intros j j' c' w1 w2 t1 t2 E1 E2. apply lookup_app_Some in E1 as [E1|[L1 E1]], E2 as [E2|[L2 E2]].
    + by eapply (nd_unique _ _ Hn).
    + apply list_lookup_singleton_Some in E2 as [? [= <- <- <-]]. destruct (Hrc j c w1 t1 Hn E1). congruence.
    + apply list_lookup_singleton_Some in E1 as [? [= <- <- <-]]. destruct (Hrc j' c w2 t2 Hn E2). congruence.
    + apply list_lookup_singleton_Some in E1 as [? _]. apply list_lookup_singleton_Some in E2 as [? _]. lia.
Qed.

(** A caller takes the id of its thread. *)
Lemma nodes_return c p n h s born : nodes_inv s born -> callers s !! c = Some (Waits p) -> nodes s !! p = Some n ->
  has (n_flags n) STARTTASK_STARTED = true ->
  nodes_inv (set_caller c (Returned (n_tid n)) (set_mem h (delete p (nodes s)) s)) born.
Proof.
  intros Hn Hc Hp Hf. destruct (nd_wait _ _ Hn c p Hc) as (j & tr & B & R & _).
  assert (p ∉ pending s) as Hnp.
  { intros Hin. destruct (nd_fresh _ _ Hn p Hin) as (j' & n' & c' & w' & _ & N & _ & _ & F & _). congruence. }
  destruct (nd_all _ _ Hn p n Hp) as [|(j' & c' & tr' & st & B' & R' & _ & _ & T)]; [done|].
  assert (j' = j) as -> by congruence. clear B' R' c' tr'.
  assert (forall c' q, callers s !! c' = Some (Waits q) -> q <> p -> c <> c') as Hcc by (intros c' q E Hq ->; congruence).
  assert (forall q, q ∈ pending s -> p <> q) as Hpq by (intros q Hq ->; done).
  split; cbn [nodes requests callers lx_task_to_start_list service_at stubs set_caller set_mem].
  - apply Hn.
  - apply Hn.
  - intros q E. destruct (nd_flags _ _ Hn q E) as (k & m & st' & ? & ? & ? & ?). exists k, m, st'.
    rewrite lookup_delete_ne; [done|]. apply Hpq. unfold pending. rewrite E. set_solver.
  - intros q Hq. destruct (nd_fresh _ _ Hn q Hq) as (j' & m & c' & w & B' & N & R' & W & F & C).
    exists j', m, c', w. cbn. specialize (Hpq q Hq). rewrite lookup_delete_ne by done. split_and!; try done.
    intros Hw. rewrite lookup_insert_ne; [auto|]. by eapply Hcc; [apply C|].
  - intros q m E. apply lookup_delete_Some in E as [Hq E].
    destruct (nd_all _ _ Hn q m E) as [?|(j' & c' & tr' & st' & B' & R' & F & C & T')]; [by left|right].
    exists j', c', tr', st'. cbn. rewrite lookup_insert_ne by (by eapply Hcc). done.
  - intros c' q E. apply lookup_insert_Some in E as [[_ ?]|[Hne E]]; [done|].
    destruct (nd_wait _ _ Hn c' q E) as (j' & tr' & B' & R' & N). exists j', tr'. split_and!; [done|done|].
    rewrite lookup_delete_ne; [done|]. intros <-. congruence.
  - intros j' c' w tr' E. destruct (decide (c = c')) as [<-|Hne].
    + rewrite lookup_insert_eq. assert (j' = j) as -> by by eapply (nd_unique _ _ Hn).
      assert (w = true) as -> by congruence. right. eauto.
    + rewrite lookup_insert_ne by done. exact (nd_request _ _ Hn j' c' w tr' E).
  - apply Hn.
Qed.

Lemma nodes_pop p l tr s born : nodes_inv s born -> service_at s = SvcPop -> lx_task_to_start_list s = p :: l ->
  nodes_inv (goto (SvcCreate p) (set_started tr (set_queue l s))) born.
Proof.
  intros [N1 N2 N3 N4 N5 N6 N7 N8] Ea Eq.
  assert (forall q, q ∈ l ++ [p] <-> q ∈ pending s) as Hp.
  { intros q. unfold pending. rewrite Eq, Ea. cbn. set_solver. }
  split; cbn; try done.
  - intros i q E. rewrite Ea in N1. cbn in N1. specialize (N1 (S i) q). rewrite Eq in N1. rewrite (N1 E). f_equal. lia.
  - intros q [= <-]. rewrite Ea in N1. cbn in N1. specialize (N1 0%nat p). rewrite Eq in N1. rewrite (N1 eq_refl). f_equal. lia.
  - intros q Hq. apply N4, Hp. exact Hq.
  - intros q n E. destruct (N5 q n E) as [Hq|?]; [left|by right]. by apply Hp.
Qed.

Lemma nodes_create p t n s born : nodes_inv s born -> service_at s = SvcCreate p -> nodes s !! p = Some n ->
  nodes_inv (goto (SvcFlags p) (set_stubs (stubs s ++ [(t, Created)])
    (put_node p (mk_new (n_esp n) (n_eip n) (n_prev n) (n_flags n) t) s))) born.
Proof.
  intros [N1 N2 N3 N4 N5 N6 N7 N8] Ea En. pose proof (N2 p Ea) as Bp.
  assert (p ∈ pending s) as Hpp by (unfold pending; rewrite Ea; set_solver).
  assert (forall k x, stubs s !! k = Some x -> (stubs s ++ [(t, Created)]) !! k = Some x) as Hst by (intros; by apply lookup_app_l_Some).
  split; cbn; try done.
  - intros i q E. rewrite (N1 i q E), Ea, length_app. cbn. f_equal. lia.
  - intros q [= <-]. exists (length (stubs s)), (mk_new (n_esp n) (n_eip n) (n_prev n) (n_flags n) t), Created.
    rewrite length_app, lookup_insert_eq, list_lookup_middle by done. cbn. split_and!; [lia|done..].
  - intros q Hq. assert (q ∈ pending s) as Hq' by (revert Hq; unfold pending; by rewrite Ea).
    destruct (N4 q Hq') as (j & m & c & w & B & N & R & W & F & C). destruct (decide (p = q)) as [<-|Hne].
    + assert (m = n) as -> by congruence. exists j, (mk_new (n_esp n) (n_eip n) (n_prev n) (n_flags n) t), c, w. cbn.
      by rewrite lookup_insert_eq.
    + exists j, m, c, w. cbn. by rewrite lookup_insert_ne.
  - intros q m E. apply lookup_insert_Some in E as [[<- _]|[Hne E]]; [left; unfold pending; cbn; set_solver|].
    destruct (N5 q m E) as [Hq|(j & c & tr & st & B & R & F & C & T)]; [left; revert Hq; unfold pending; by rewrite Ea|right].
    exists j, c, tr, st. cbn. auto 10.
  - intros c q E. destruct (N6 c q E) as (j & tr & B & R & N). exists j, tr. split_and!; [done|done|].
    destruct (decide (p = q)) as [<-|Hne]; [by rewrite lookup_insert_eq|by rewrite lookup_insert_ne].
  - intros j c w tr E. specialize (N7 j c w tr E). destruct w; [|done]. destruct N7 as [?|(u & st & ? & ?)]; [by left|right]. eauto.
Qed.

(** The request of the service thread leaves its hands. *)
Lemma nodes_flags_wait p n s born : nodes_inv s born -> service_at s = SvcFlags p -> nodes s !! p = Some n ->
  has (n_flags n) STARTTASK_WAIT = true -> p ∉ lx_task_to_start_list s ->
  nodes_inv (done_in 10 (put_node p (mk_new (n_esp n) (n_eip n) (n_prev n) STARTTASK_STARTED (n_tid n)) s)) born.
Proof.
  intros [N1 N2 N3 N4 N5 N6 N7 N8] Ea En Hw Hq.
  destruct (N3 p Ea) as (k & m & st & Hk & Bp & Em & T). assert (m = n) as -> by congruence.
  destruct (N4 p) as (j & m & c & w & B & N & R & W & F & C); [unfold pending; rewrite Ea; set_solver|].
  assert (m = n) as -> by congruence. assert (j = k) as -> by congruence. assert (w = true) as -> by congruence. specialize (C eq_refl).
  assert (forall q, q ∈ pending s -> q ∈ lx_task_to_start_list s \/ q = p) as Hpd by (intros q; unfold pending; rewrite Ea; set_solver).
  split; cbn; try done.
  - intros i q E. rewrite (N1 i q E), Ea. done.
  - intros q Hin. assert (q ∈ lx_task_to_start_list s) as Hl by (revert Hin; unfold pending; cbn; by rewrite app_nil_r).
    destruct (N4 q) as (j & m & c' & w & B' & N' & R' & W' & F' & C'); [unfold pending; set_solver|].
    exists j, m, c', w. cbn. rewrite lookup_insert_ne by (intros <-; done). done.
  - intros q m E. apply lookup_insert_Some in E as [[<- <-]|[Hne E]].
    + right. exists k, c, (n_esp n, n_eip n, n_prev n), st. done.
    + destruct (N5 q m E) as [Hin|?]; [|by right]. left. unfold pending. cbn. rewrite app_nil_r. by destruct (Hpd q Hin) as [?| ->].
  - intros c' q E. destruct (N6 c' q E) as (j & tr & B' & R' & N'). exists j, tr. split_and!; [done|done|].
    destruct (decide (p = q)) as [<-|Hne]; [by rewrite lookup_insert_eq|by rewrite lookup_insert_ne].
Qed.

Lemma nodes_flags_free p n s born h : nodes_inv s born -> service_at s = SvcFlags p -> nodes s !! p = Some n ->
  has (n_flags n) STARTTASK_WAIT = false -> p ∉ lx_task_to_start_list s ->
  nodes_inv (done_in 10 (set_mem h (delete p (nodes s)) s)) born.
Proof.
  intros [N1 N2 N3 N4 N5 N6 N7 N8] Ea En Hw Hq.
  destruct (N4 p) as (j & m & c & w & B & N & R & W & F & C); [unfold pending; rewrite Ea; set_solver|].
  assert (m = n) as -> by congruence. assert (w = false) as -> by congruence. clear C.
  assert (forall c' q, callers s !! c' = Some (Waits q) -> p <> q) as Hnw.
  { intros c' q E <-. destruct (N6 c' p E) as (j' & tr & B' & R' & _). congruence. }
  assert (forall q, q ∈ pending s -> q ∈ lx_task_to_start_list s \/ q = p) as Hpd by (intros q; unfold pending; rewrite Ea; set_solver).
  split; cbn; try done.
  - intros i q E. rewrite (N1 i q E), Ea. done.
  - intros q Hin. assert (q ∈ lx_task_to_start_list s) as Hl by (revert Hin; unfold pending; cbn; by rewrite app_nil_r).
    destruct (N4 q) as (j' & m & c' & w & B' & N' & R' & W' & F' & C'); [unfold pending; set_solver|].
    exists j', m, c', w. cbn. rewrite lookup_delete_ne by (intros <-; done). done.
  - intros q m E. apply lookup_delete_Some in E as [Hne E].
    destruct (N5 q m E) as [Hin|?]; [|by right]. left. unfold pending. cbn. rewrite app_nil_r. by destruct (Hpd q Hin) as [?| ->].
  - intros c' q E. destruct (N6 c' q E) as (j' & tr & B' & R' & N'). exists j', tr. split_and!; [done|done|].
    rewrite lookup_delete_ne; [done|]. by eapply Hnw.
Qed.

Lemma held_not_queued p s born : nodes_inv s born -> service_at s = SvcFlags p -> p ∉ lx_task_to_start_list s.
Proof.
  intros Hn Ea Hin. apply list_elem_of_lookup_1 in Hin as [i E]. pose proof (nd_queue _ _ Hn i p E) as B.
  destruct (nd_flags _ _ Hn p Ea) as (k & n & st & Hk & B' & _). rewrite Ea in B. cbn in B. rewrite B in B'. injection B' as B'. lia.
Qed.

(** ** The heap *)

Lemma heap_same s s' U : heap_inv U s -> th_heap s' = th_heap s ->
  const sizeof_new_task <$> nodes s' = (const sizeof_new_task <$> nodes s : gmap Z Z) -> heap_inv U s'.
Proof. intros [P1 P2 P3] Eh En. split; by rewrite ?Eh, ?En. Qed.
Lemma heap_put p n s U : heap_inv U s -> is_Some (nodes s !! p) -> heap_inv U (put_node p n s).
Proof.
  intros Hh [m Hm]. apply (heap_same s); [done|done|]. cbn. rewrite fmap_insert. cbn. apply insert_id.
  rewrite lookup_fmap, Hm. done.
Qed.
Lemma heap_free p s U : heap_inv U s -> is_Some (nodes s !! p) -> heap_inv U (free_node p s).
Proof.
  intros [P1 P2 P3] [m Hm]. destruct (kfree_laws p (th_heap s) P1) as [Ho Hu].
  { rewrite P3. exists sizeof_new_task. apply lookup_union_Some_l. by rewrite lookup_fmap, Hm. }
  assert (U !! p = None) as HU.
  { apply map_disjoint_Some_l with (1 := P2) (x := sizeof_new_task). by rewrite lookup_fmap, Hm. }
  split; cbn; [done|..].
  - rewrite fmap_delete. by apply map_disjoint_delete_l.
  - by rewrite Hu, P3, fmap_delete, delete_union, (delete_id U).
Qed.
Lemma heap_malloc p n h s U : heap_inv U s -> kmalloc sizeof_new_task (th_heap s) = (h, p) -> p <> 0 ->
  nodes s !! p = None /\ heap_inv U (set_mem h (<[p := n]> (nodes s)) s).
Proof.
  intros [P1 P2 P3] E Hp. destruct (kmalloc_laws sizeof_new_task (th_heap s) h p P1 ltac:(unfold sizeof_new_task; lia) E)
    as [Ho [[? _]|(_ & Hf & _ & Hu)]]; [done|].
  rewrite P3 in Hf. apply lookup_union_None in Hf as [Hf HU]. rewrite lookup_fmap in Hf.
  split; [by destruct (nodes s !! p)|]. split; cbn; [done|..].
  - rewrite fmap_insert. by apply map_disjoint_insert_l_2.
  - by rewrite Hu, P3, fmap_insert, insert_union_l.
Qed.

(** ** Every step keeps it *)

Record thr_inv (U : gmap Z Z) s : Prop := {
  ti_slots : slots_inv s;
  ti_nodes : exists born, nodes_inv s born;
  ti_heap : heap_inv U s;
  ti_wakes : wakes_inv s
}.

(** Requests name a previous task, and threads can be created. *)
Definition label_ok (l : label) : Prop :=
  match l with
  | Start _ _ _ prev flags _ _ => prev <> 0 /\ has flags STARTTASK_STARTED = false
  | Service tid => is_Some tid
  | _ => True
  end.

Lemma has_irq flags : has (Z.land flags (Z.lnot STARTTASK_WAIT)) STARTTASK_STARTED = has flags STARTTASK_STARTED.
Proof. unfold has. by rewrite <- Z.land_assoc. Qed.

Lemma inv_start U c esp eip prev flags irq stale s : thr_inv U s -> prev <> 0 -> has flags STARTTASK_STARTED = false ->
  callers s !! c = None -> thr_inv U (LX_StartNewTask c esp eip prev flags irq stale s).
Proof.
  intros [Hs [born Hn] Hh Hw] Hp Hf Hc. pose proof (slots_start c esp eip prev flags irq stale s Hs Hp) as Hs'. revert Hs'.
  unfold LX_StartNewTask. destruct (kmalloc sizeof_new_task (th_heap s)) as [h p] eqn:E. cbn [fst snd].
  set (fl := if irq then _ else flags). assert (has fl STARTTASK_STARTED = false) as Hfl.
  { subst fl. destruct irq; [by rewrite has_irq|done]. }
  destruct (Z.eqb_spec p 0) as [->|Hne]; intros Hs'.
  - destruct (kmalloc_laws sizeof_new_task (th_heap s) h 0 (hp_ok _ _ Hh) ltac:(unfold sizeof_new_task; lia) E)
      as [Ho [[_ Hu]|(? & _)]]; [|lia].
    split; [done| |..].
    + exists born. destruct Hn as [N1 N2 N3 N4 N5 N6 N7 N8].
      assert (forall c' x, callers s !! c' = Some x -> <[c := Returned (- ENOMEM)]> (callers s) !! c' = Some x) as Hcc.
      { intros c' x E'. rewrite lookup_insert_ne; [done|]. intros <-. congruence. }
      split; cbn; try done.
      * intros q Hq. destruct (N4 q Hq) as (j & m & c' & w & ? & ? & ? & ? & ? & ?). exists j, m, c', w. cbn. auto 10.
      * intros q m E'. destruct (N5 q m E') as [?|(j & c' & tr & st & ? & ? & ? & ? & ?)]; [by left|right].
        exists j, c', tr, st. cbn. auto 10.
      * intros c' q E'. apply lookup_insert_Some in E' as [[_ ?]|[_ E']]; [done|auto].
      * intros j c' w tr E'. specialize (N7 j c' w tr E'). destruct w; [|auto]. destruct N7 as [(q & ? & ?)|(t & st & ? & ?)]; eauto 10.
    + destruct Hh as [P1 P2 P3]. split; cbn; [done|done|by rewrite Hu].
    + exact Hw.
  - destruct (heap_malloc p (mk_new esp eip prev fl stale) h s U Hh E Hne) as [Hfr Hh'].
    split; [exact Hs'| | |exact Hw].
    + eexists. exact (nodes_log c p _ (mk_new esp eip prev fl stale) h s born Hs Hn Hc Hfr eq_refl Hfl).
    + apply (heap_same _ _ U Hh'); done.
Qed.

Lemma inv_poll U c p s : thr_inv U s -> callers s !! c = Some (Waits p) -> exists s', wait_started c p s = Ok s' /\ thr_inv U s'.
Proof.
  intros [Hs [born Hn] Hh Hw] Hc. destruct (nd_wait _ _ Hn c p Hc) as (_ & _ & _ & _ & [n En]).
  unfold wait_started. rewrite En. destruct (has (n_flags n) STARTTASK_STARTED) eqn:Ef.
  - eexists. split; [done|]. split; [by apply (slots_same s); try done; apply Hs| | |exact Hw].
    + exists born. by apply nodes_return with (p := p).
    + eapply heap_same; [apply (heap_free p s U Hh); by rewrite En|done|done].
  - exists s. split; [done|]. split; eauto.
Qed.

Lemma stub_effect k s : LXA_TaskStub32 k s = s \/
  exists t st st' slot, stubs s !! k = Some (t, st) /\
    LXA_TaskStub32 k s = set_started slot (set_stubs (<[k := (t, st')]> (stubs s)) s).
Proof.
  unfold LXA_TaskStub32. destruct (lx_started_task s) as [[esp eip] prev], (stubs s !! k) as [[t []]|]; eauto 10.
Qed.

Lemma inv_stub U k s : thr_inv U s -> thr_inv U (LXA_TaskStub32 k s).
Proof.
  intros [Hs [born Hn] Hh Hw]. pose proof (slots_stub k s Hs) as Hs'.
  destruct (stub_effect k s) as [E|(t & st & st' & slot & E & Ef)]; [by rewrite E; split; eauto|]. rewrite Ef in *.
  split; [done| |by apply (heap_same s)|exact Hw].
  exists born. apply (nodes_same s); try done; cbn; [apply length_insert|].
  intros j t' x Ej. destruct (decide (j = k)) as [->|].
  - rewrite E in Ej. injection Ej as <- <-. rewrite list_lookup_insert_eq by (by eapply lookup_lt_Some). eauto.
  - rewrite list_lookup_insert_ne by done. eauto.
Qed.

(** A step of the service thread that only moves on. *)
Lemma inv_goto U a ms s : thr_inv U s -> hand a = hand (service_at s) -> held a = held (service_at s) ->
  (a = SvcEmpty \/ a = SvcPop -> (lx_started_task s).2 = 0) -> a <> SvcSoftirq -> service_at s <> SvcSoftirq ->
  thr_inv U (mk_threads (th_heap s) (nodes s) (lx_task_to_start_list s) (lx_started_task s) (lx_softirq_wakes s)
    ms a (stubs s) (callers s) (requests s) (raised s) (handled s)).
Proof.
  intros [Hs [born Hn] Hh (n & W1 & W2 & W3 & W4)] Eh Ed He Ha Hb. split.
  - by apply (slots_same s).
  - exists born. apply (nodes_same s); try done. eauto.
  - by apply (heap_same s).
  - exists n. cbn. auto.
Qed.

Ltac moves Hi Ea := eapply inv_goto; [exact Hi|rewrite ?Ea; try done..]; try (by intros [?|?]).

Lemma inv_service U tid s : thr_inv U s -> is_Some tid -> exists s', LX_ServiceThread tid s = Ok s' /\ thr_inv U s'.
Proof.
  intros Hi [t ->]. unfold LX_ServiceThread. destruct (lx_started_task s) as [[esp eip] prev] eqn:El.
  pose proof Hi as [Hs [born Hn] Hh (n & W1 & W2 & W3 & W4)].
  destruct (service_at s) as [| | | | | | | |p|p] eqn:Ea.
  - eexists. split; [done|]. destruct (_ =? 0); moves Hi Ea.
  - eexists. split; [done|]. split; [by apply (slots_same s); rewrite ?Ea; try done; intros [?|?]| |by apply (heap_same s)|].
    + exists born. apply (nodes_same s); rewrite ?Ea; try done. eauto.
    + exists 0%nat. cbn. split_and!; [done|lia|done|done].
  - eexists. split; [done|]. split; [by apply (slots_same s); rewrite ?Ea; try done; intros [?|?]| |by apply (heap_same s)|].
    + exists born. apply (nodes_same s); rewrite ?Ea; try done. eauto.
    + exists n. cbn. split_and!; [done|done|lia|lia].
  - eexists. split; [done|]. destruct (eip =? 0); moves Hi Ea.
  - eexists. split; [done|]. destruct (esp =? 0); moves Hi Ea.
  - eexists. split; [done|]. destruct (Z.eqb_spec prev 0); moves Hi Ea. by rewrite El.
  - pose proof (sl_empty _ Hs ltac:(left; exact Ea)) as He.
    eexists. split; [done|]. destruct (lx_task_to_start_list s) as [|p l] eqn:Eq; moves Hi Ea.
  - destruct (lx_task_to_start_list s) as [|p l] eqn:Eq.
    + eexists. split; [done|]. moves Hi Ea.
    + destruct (nd_fresh _ _ Hn p) as (j & m & c & w & B & N & R & _); [unfold pending; rewrite Eq; left|].
      rewrite N. eexists. split; [done|].
      pose proof (nd_queue _ _ Hn 0 p ltac:(by rewrite Eq)) as B'. rewrite Ea in B'. cbn in B'. rewrite B in B'. injection B' as ->.
      split; [|exists born; by apply (nodes_pop p l)|by apply (heap_same s)|].
      * apply slots_pop with (p := p); try done. exists c, w. rewrite <- R. f_equal. lia.
      * exists n. cbn. auto.
  - destruct (nd_fresh _ _ Hn p) as (j & m & c & w & B & N & _); [unfold pending; rewrite Ea; set_solver|]. rewrite N.
    eexists. split; [done|]. split.
    + by apply slots_create.
    + exists born. by apply nodes_create.
    + eapply heap_same; [apply (heap_put p); [exact Hh|by rewrite N]|done|done].
    + exists n. cbn. auto.
  - destruct (nd_fresh _ _ Hn p) as (j & m & c & w & B & N & _); [unfold pending; rewrite Ea; set_solver|]. rewrite N.
    pose proof (held_not_queued p s born Hn Ea) as Hq. eexists. split; [done|]. destruct (has (n_flags m) STARTTASK_WAIT) eqn:Ew.
    + split; [by apply (slots_same s); rewrite ?Ea; try done; intros [?|?]|exists born; by apply nodes_flags_wait| |exists n; cbn; auto].
      eapply heap_same; [apply (heap_put p); [exact Hh|by rewrite N]|done|done].
    + split; [by apply (slots_same s); rewrite ?Ea; try done; intros [?|?]|exists born; by eapply nodes_flags_free| |exists n; cbn; auto].
      eapply heap_same; [apply (heap_free p s U Hh); by rewrite N|done|done].
Qed.

Lemma thr_inv_step U l s : thr_inv U s -> label_ok l -> exists s', thr_step l s = Ok s' /\ thr_inv U s'.
Proof.
  intros Hi Hl. destruct l as [c esp eip prev flags irq stale|c|tid|k|]; cbn in *.
  - eexists. split; [done|]. destruct (callers s !! c) eqn:E; [done|]. destruct Hl. by apply inv_start.
  - destruct (callers s !! c) as [[p|rc]|] eqn:E; [by apply inv_poll|eauto..].
  - by apply inv_service.
  - eexists. split; [done|]. by apply inv_stub.
  - eexists. split; [done|]. destruct Hi as [Hs [born Hn] Hh (n & W1 & W2 & W3 & W4)].
    split; [by apply (slots_same s); try done; apply Hs| |by apply (heap_same s)|].
    + exists born. apply (nodes_same s); try done. eauto.
    + exists (S n). cbn. split_and!; [rewrite W1; mlia|lia|intros Ha; specialize (W3 Ha); lia|lia].
Qed.
Lemma thr_inv_run U ls s : thr_inv U s -> Forall label_ok ls -> exists s', thr_run ls s = Ok s' /\ thr_inv U s'.
Proof.
  intros Hi Hl. revert s Hi. induction Hl as [|l ls Hl _ IH]; intros s Hi; cbn; [eauto|].
  destruct (thr_inv_step U l s Hi Hl) as (s1 & -> & Hi1). by apply IH.
Qed.

Lemma thr_inv_init (h : H) : heap_ok h -> thr_inv (used h) (threads0 h).
Proof.
  intros Ho. split.
  - split; cbn; try done. intros k tr (c & w & E). by destruct k.
  - exists ∅. split; try done. intros p Hp. by apply elem_of_nil in Hp.
  - split; cbn; [done|rewrite fmap_empty; apply map_disjoint_empty_l|by rewrite fmap_empty, (left_id_L ∅ (∪))].
  - by exists 0%nat.
Qed.

(** Nobody has a request left. *)
Definition at_rest s : Prop := pending s = [] /\ forall c p, callers s !! c <> Some (Waits p).


(** ** When a thread can not be created *)

Record stuck s : Prop := {
  sk_slot : (lx_started_task s).2 <> 0;
  sk_stubs : forall k t st, stubs s !! k = Some (t, st) -> running st;
  sk_service : match service_at s with SvcEmpty | SvcPop | SvcCreate _ => False | _ => True end
}.

Lemma stuck_step l s s' : stuck s -> thr_step l s = Ok s' -> stuck s' /\ stubs s' = stubs s.
Proof.
  intros [K1 K2 K3] E. destruct l as [c esp eip prev flags irq stale|c|tid|k|]; cbn in E.
  - injection E as <-. destruct (callers s !! c); [done|]. unfold LX_StartNewTask. by destruct (_ =? 0).
  - destruct (callers s !! c) as [[p|rc]|]; [|by injection E as <-..]. unfold wait_started in E.
    destruct (nodes s !! p) as [n|]; [|done]. by destruct (has (n_flags n) STARTTASK_STARTED); injection E as <-.
  - unfold LX_ServiceThread in E. destruct (lx_started_task s) as [[esp eip] prev] eqn:El. cbn in K1.
    destruct (service_at s) as [| | | | | | | |p|p] eqn:Ea; try done; try (injection E as <-).
    + split; [|done]. split; cbn; [by rewrite El|done|by destruct (_ =? 0)].
    + split; [|done]. split; cbn; [by rewrite El|done|done].
    + split; [|done]. split; cbn; [by rewrite El|done|done].
    + destruct (eip =? 0); (split; [|done]; split; cbn; [by rewrite El|done|done]).
    + destruct (esp =? 0); (split; [|done]; split; cbn; [by rewrite El|done|done]).
    + destruct (Z.eqb_spec prev 0); [done|]. split; [|done]. split; cbn; [by rewrite El|done|done].
    + destruct (nodes s !! p) as [n|]; [|done]. injection E as <-.
      destruct (has (n_flags n) STARTTASK_WAIT); (split; [|done]; split; cbn; [by rewrite El|done|done]).
  - injection E as <-. unfold LXA_TaskStub32. destruct (lx_started_task s) as [[esp eip] prev] eqn:El.
    destruct (stubs s !! k) as [[t st]|] eqn:Ek; [|by split; [split; rewrite ?El|]].
    specialize (K2 k t st Ek) as Hr. destruct st; try done. split; [|done]. by split; rewrite ?El.
  - by injection E as <-.
Qed.

(** Creating a thread fails once: no thread is ever started again, and its request
    is reported as started. *)
Theorem failed_creation_stops_starting U s p ls s1 s2 : thr_inv U s -> service_at s = SvcCreate p ->
  thr_step (Service None) s = Ok s1 -> thr_run ls s1 = Ok s2 -> stubs s2 = stubs s.
Proof.
  intros [Hs _ _ _] Ea E. cbn in E. unfold LX_ServiceThread in E. destruct (lx_started_task s) as [[esp eip] prev] eqn:El.
  rewrite Ea in E. injection E as <-.
  assert (stuck (goto (SvcFlags p) s)) as Hk.
  { assert (hand (service_at s) <> []) as Hh by by rewrite Ea. split; cbn; [|intros k t st E; by eapply (sl_done _ Hs); eauto|done].
    eapply (sl_prev _ Hs), (sl_hand _ Hs Hh). }
  assert (forall s1, stuck s1 -> stubs s1 = stubs s -> thr_run ls s1 = Ok s2 -> stubs s2 = stubs s) as Hr; [|by apply Hr].
  clear Hk. induction ls as [|l ls IH]; intros s1 Hk Hq E; cbn in E; [by injection E as <-|].
  destruct (thr_step l s1) as [s3|] eqn:E1; [|done]. destruct (stuck_step l s1 s3 Hk E1) as [Hk3 Hq3].
  apply (IH s3); [done|congruence|done].
Qed.

(** ** Requests get started *)

(** A step of the service thread and one of the last thread. *)
Definition round (t : Z) s : res (threads H) :=
  s1 ← LX_ServiceThread (Some t) s; Ok (LXA_TaskStub32 (pred (length (stubs s1))) s1).
Fixpoint rounds (n : nat) (t : Z) s : res (threads H) :=
  match n with O => Ok s | S n => s1 ← round t s; rounds n t s1 end.

(** The values the last thread has still to take, and the steps to the queue. *)
Definition to_take (st : stub) : nat := match st with Created => 3 | HasEsp _ => 2 | HasEip _ _ => 1 | Runs _ _ _ => 0 end.
Definition last_left s : nat := match stubs s !! pred (length (stubs s)) with Some (_, st) => to_take st | None => 0%nat end.
Definition phase (a : service) : nat :=
  match a with
  | SvcWakes => 7 | SvcClear => 6 | SvcSoftirq => 5 | SvcEip => 4 | SvcEsp => 3 | SvcPrev => 2 | SvcEmpty => 1 | SvcPop => 0
  | SvcCreate _ => 60 | SvcFlags _ => 20
  end.
Definition work_left s : nat := (100 * length (lx_task_to_start_list s) + 12 * last_left s + phase (service_at s))%nat.

Lemma last_stub_step s : let s' := LXA_TaskStub32 (pred (length (stubs s))) s in
  last_left s' = pred (last_left s) /\ lx_task_to_start_list s' = lx_task_to_start_list s /\
  service_at s' = service_at s /\ requests s' = requests s.
Proof.
  unfold LXA_TaskStub32, last_left. destruct (lx_started_task s) as [[esp eip] prev], (stubs s !! _) as [[t st]|] eqn:E;
    [|by rewrite E].
  pose proof (lookup_lt_Some _ _ _ E). destruct st; cbn; rewrite ?length_insert, ?list_lookup_insert_eq by done; rewrite ?E; done.
Qed.

(** A field of lx_started_task that is not clear is for the last thread to take. *)
Lemma slot_left s : slots_inv s -> hand (service_at s) = [] -> lx_started_task s <> (0, 0, 0) -> (0 < last_left s)%nat.
Proof.
  intros Hs Hh Hn. pose proof (sl_slot _ Hs Hh) as Hl. unfold last_left. destruct (stubs s !! _) as [[t st]|]; [|done].
  destruct Hl as (tr & _ & E). destruct st; cbn in *; lia || done.
Qed.
Lemma none_left s : slots_inv s -> service_at s = SvcEmpty \/ service_at s = SvcPop -> last_left s = 0%nat.
Proof.
  intros Hs Ha. unfold last_left. destruct (stubs s !! _) as [[t st]|] eqn:E; [|done].
  pose proof (slot_empty s Hs Ha _ _ _ E). by destruct st.
Qed.

Definition settled s : Prop := pending s = [] /\ last_left s = 0%nat.

Lemma service_progress U t s s' : thr_inv U s -> ~ settled s -> LX_ServiceThread (Some t) s = Ok s' ->
  (work_left s' < work_left s \/ work_left s' < work_left s + 12 /\ 0 < last_left s')%nat /\ requests s' = requests s.
Proof.
  intros Hi Hset E. pose proof Hi as [Hs [born Hn] _ _]. unfold LX_ServiceThread in E.
  destruct (lx_started_task s) as [[esp eip] prev] eqn:El.
  assert (hand (service_at s) = [] -> (esp, eip, prev) <> (0, 0, 0) -> (0 < last_left s)%nat) as Hsl.
  { intros Hh Hz. apply slot_left; [done..|]. by rewrite El. }
  unfold work_left, last_left in *.
  destruct (service_at s) as [| | | | | | | |p|p] eqn:Ea; cbn in Hsl; try (injection E as <-).
  - cbn. destruct (_ =? 0); cbn; split; (done || lia).
  - cbn. split; (done || lia).
  - cbn. split; (done || lia).
  - destruct (Z.eqb_spec eip 0) as [|Hz]; cbn; split; try done; [lia|]. right.
    assert ((esp, eip, prev) <> (0, 0, 0)) as Hne by congruence. specialize (Hsl eq_refl Hne). lia.
  - destruct (Z.eqb_spec esp 0) as [|Hz]; cbn; split; try done; [lia|]. right.
    assert ((esp, eip, prev) <> (0, 0, 0)) as Hne by congruence. specialize (Hsl eq_refl Hne). lia.
  - destruct (Z.eqb_spec prev 0) as [|Hz]; cbn; split; try done; [lia|]. right.
    assert ((esp, eip, prev) <> (0, 0, 0)) as Hne by congruence. specialize (Hsl eq_refl Hne). lia.
  - destruct (lx_task_to_start_list s) as [|p l] eqn:Eq; cbn.
    + destruct Hset. split; [by unfold pending; rewrite Eq, Ea|]. apply none_left; [done|by left].
    + rewrite Eq. cbn. split; (done || lia).
  - destruct (lx_task_to_start_list s) as [|p l] eqn:Eq; cbn.
    + destruct Hset. split; [by unfold pending; rewrite Eq, Ea|]. apply none_left; [done|by right].
    + destruct (nodes s !! p) as [n|]; [|done]. injection E as <-. cbn. split; (done || lia).
  - destruct (nodes s !! p) as [n|]; [|done]. injection E as <-. cbn. rewrite length_app. cbn.
    rewrite Nat.add_1_r. cbn. rewrite list_lookup_middle by done. cbn. split; (done || lia).
  - destruct (nodes s !! p) as [n|]; [|done]. injection E as <-. destruct (has (n_flags n) STARTTASK_WAIT); cbn; split; (done || lia).
Qed.

Lemma round_progress U t s : thr_inv U s -> ~ settled s ->
  exists s', round t s = Ok s' /\ thr_inv U s' /\ (work_left s' < work_left s)%nat /\ requests s' = requests s.
Proof.
  intros Hi Hn. destruct (inv_service U (Some t) s Hi ltac:(by eexists)) as (s1 & E & Hi1). unfold round. rewrite E. cbn.
  destruct (service_progress U t s s1 Hi Hn E) as [Hw Hr]. destruct (last_stub_step s1) as (L & Q & A & R).
  eexists. split; [done|]. split; [by apply inv_stub|]. rewrite R. split; [|done].
  unfold work_left in *. rewrite L, Q, A. destruct Hw as [Hw|[Hw Hl]]; lia.
Qed.

Lemma rounds_settle U t : forall (m : nat) s, thr_inv U s -> (work_left s <= m)%nat ->
  exists n s', (n <= m)%nat /\ rounds n t s = Ok s' /\ thr_inv U s' /\ settled s' /\ requests s' = requests s.
Proof.
  induction m as [|m IH]; intros s Hi Hm.
  all: destruct (decide (pending s = [] /\ last_left s = 0%nat)) as [Hs|Hs]; [exists 0%nat, s; split_and!; (done || lia)|].
  all: destruct (round_progress U t s Hi Hs) as (s1 & E & Hi1 & Hw & Hr).
  { lia. }
  destruct (IH s1 Hi1 ltac:(lia)) as (n & s' & Hn & E' & Hi' & Hs' & Hr').
  exists (S n), s'. cbn. rewrite E. cbn. split_and!; [lia|done..|congruence].
Qed.

End Inv.

(** ** Two callers *)

Definition demo_labels : list label :=
  [Start 1 100 200 300 1 false 0; Start 2 101 201 301 0 false 0; Service (Some 7); Service (Some 7); Wake; Service (Some 7);
   Service (Some 7); Service (Some 7); Service (Some 7); Service (Some 7); Stub 0; Service (Some 7); Poll 1; Stub 0].
Definition demo_state : threads arena := default (threads0 (arena0 4)) (match thr_run demo_labels (threads0 (arena0 4)) with Ok s => Some s | Err _ => None end).

Lemma demo_ok : Forall label_ok demo_labels.
Proof. unfold demo_labels. repeat (apply Forall_cons_2; [by (split; done) || exact I || by eexists|]). apply Forall_nil_2. Qed.



(** Without a previous task the place looks empty before the last value is
    taken: the first thread runs with the previous task of the second request. *)
Example prev_of_another :
  match thr_run ([Start 1 100 200 0 0 false 0; Start 2 101 201 301 0 false 0] ++ replicate 7 (Service (Some 7)) ++
                 [Stub 0; Stub 0] ++ replicate 7 (Service (Some 8)) ++ [Stub 0]) (threads0 (arena0 4))
  with Ok s => stubs s | Err _ => [] end = [(7, Runs 100 200 301)].
Proof. vm_compute. reflexivity. Qed.

(** The first thread can not be created: its caller is told that it was, and
    the second request waits for ever. *)
Example creation_failed :
  match thr_run ([Start 1 100 200 300 1 false 55; Start 2 101 201 301 1 false 0] ++ replicate 5 (Service None) ++
                 replicate 40 (Service None) ++ [Poll 1; Poll 2]) (threads0 (arena0 4))
  with Ok s => (callers s !! 1, callers s !! 2, length (stubs s)) | Err _ => (None, None, 9%nat) end =
  (Some (Returned 55), Some (Waits 4124), 0%nat).
Proof. vm_compute. reflexivity. Qed.
