(* ===== verification/Process.v ===== *)
(** * Linux tasks on OS/2 threads (os2/os2/oo_process.c)

    Every OS/2 thread that enters the driver gets a task: an entry in
    lx_current_list names the thread's thread_info and its task.  A second list
    holds the stacks of threads whose programs OS/2 started.  Besides them there are
    the task that runs, and the tasks that have ended and whose memory is still
    to be freed.  What the Linux scheduler does with its own state is the class
    [Sched]; memory comes from the heap interface. *)

From S2P Require Import Prelude DevHlp Memory Heap.

Definition LXC_FLAG_INITIALIZED : Z := 1.
Definition LXC_FLAG_TSK_MALLOCED : Z := 2.
Definition LXC_FLAG_TSK_REGULAR_EXIT : Z := 4.
Definition UTLSTACK_FLAG_USED : Z := 1.
Definition UTLSTACK_FLAG_CAPTURED : Z := 4.
Definition UTLSTACK_FLAG_CAPTUREACK : Z := 8.
Definition UTLSTACK_FLAG_FREEME : Z := 16.
Definition LXLEAVE_UTL_FREEME : Z := 2.
Definition LX_STARTTASK_WAIT : Z := 1.
Definition EBUSY : Z := 16.
Definition KERNEL_DS : Z := 4294967295.
Definition NR_CPUS : Z := 1.
(** 1 << TIF_NEED_RESCHED *)
Definition NEED_RESCHED : Z := 8.
Definition SIGCHLD : Z := 17.
Definition TASK_ZOMBIE : Z := 8.
Definition TASK_DEAD : Z := 16.

(** The low level data of a thread, at the base of its stack. *)
Record thread_info := mk_ti {
  ti_task : Z; exec_domain : Z; ti_flags : Z; ti_status : Z; cpu : Z; preempt_count : Z; addr_limit : Z;
  restart_fn : Z; previous_esp : Z
}.

(** The fields of a task that are used here; [t_rest] is all others. *)
Record task_struct := mk_task {
  t_thread_info : Z; t_state : Z; t_pid : Z; exit_signal : Z; t_esp : Z; t_eip : Z; t_rest : Z
}.

Record lx_current := mk_cur {
  os2_pid : Z; os2_tid : Z; current_flags : Z; c_thread_info : Z; c_task : Z
}.

Record UTLStack := mk_utl { u_base : Z; u_flags : Z; u_pid : Z; u_tid : Z }.

Definition sizeof_lx_current : Z := 24.
Definition sizeof_UTLStack : Z := 16.

(** Nodes are with their addresses. *)
Record currents := mk_currents {
  lx_current_list : list (Z * lx_current);
  lx_exit_list : list (Z * lx_current);
  lx_current_lock : bool;
  lx_current_task : Z;
  lx_current_thread_info : Z
}.
Record utlstacks := mk_utls { lx_UtlStackRoot : list (Z * UTLStack); lx_utlstack_lock : bool }.

Record proc (H K : Type) := mk_proc {
  cur : currents;
  utl : utlstacks;
  kheap : H;
  tis : gmap Z thread_info;
  tasks : gmap Z task_struct;
  lx_init_task : Z;
  lx_idle_task : Z;
  lx_current_available : Z;
  total_forks : Z;
  kern : K
}.
Arguments mk_proc {H K}. Arguments cur {H K}. Arguments utl {H K}. Arguments kheap {H K}. Arguments tis {H K}.
Arguments tasks {H K}. Arguments lx_init_task {H K}. Arguments lx_idle_task {H K}.
Arguments lx_current_available {H K}. Arguments total_forks {H K}. Arguments kern {H K}.

(** The Linux kernel below: its part of making a task, its run queue, the
    thread starter of oo_thread.c, and the blocking of OS/2. *)
Class Sched (K : Type) := {
  (** from, task and clone flags: an error code or the new pid *)
  copy_process : Z -> Z -> Z -> K -> (Z + Z) * K;
  activate_task : Z -> K -> K;
  schedule_tail : Z -> K -> K;
  StartNewTask : Z -> Z -> Z -> Z -> K -> K;
  DevRun : Z -> K -> K;
  DevBlock : Z -> K -> K;
  (** a wait of 100 ms, and the flags others have set in the node meanwhile *)
  wait_flags : Z -> K -> Z * K;
  in_ISR : K -> bool;
  DoTaskExit : K -> K;
  (** the wait for the program's thread: whether it was captured *)
  wait_capture : Z -> K -> bool * K;
  set_continue_startup : K -> K
}.

Definition is_ti (ti : Z) (x : Z * lx_current) : bool := c_thread_info x.2 =? ti.
Definition is_task (tsk : Z) (x : Z * lx_current) : bool := c_task x.2 =? tsk.
Definition is_node {A} (p : Z) (x : Z * A) : bool := x.1 =? p.

Section Process.
Context {H K : Type} `{Heap H} `{Sched K}.
(** The thread that runs: its thread_info, process and thread. *)
Context (cti lx_current_pid lx_current_tid : Z).
Context (sizeof_task default_exec_domain do_no_restart_syscall : Z).
(** What memory from kmalloc holds. *)
Context (stale_task : Z -> task_struct).
(** init_task and its thread_info, and what LX_exit_current_exit, with a turn of
    the scheduler, does to the tables. *)
Context (init_task init_thread_info : Z) (exit_current_exit : Z -> M (proc H K) unit).
Abbreviation P := (M (proc H K)).

(** ** The state *)

Definition set_cur (c : currents) (s : proc H K) : proc H K :=
  mk_proc c (utl s) (kheap s) (tis s) (tasks s) (lx_init_task s) (lx_idle_task s) (lx_current_available s)
    (total_forks s) (kern s).
Definition set_utl (u : utlstacks) (s : proc H K) : proc H K :=
  mk_proc (cur s) u (kheap s) (tis s) (tasks s) (lx_init_task s) (lx_idle_task s) (lx_current_available s)
    (total_forks s) (kern s).
Definition set_mem (h : H) (i : gmap Z thread_info) (t : gmap Z task_struct) (s : proc H K) : proc H K :=
  mk_proc (cur s) (utl s) h i t (lx_init_task s) (lx_idle_task s) (lx_current_available s) (total_forks s) (kern s).
Definition set_globals (init avail forks : Z) (s : proc H K) : proc H K :=
  mk_proc (cur s) (utl s) (kheap s) (tis s) (tasks s) init (lx_idle_task s) avail forks (kern s).
Definition set_kern (k : K) (s : proc H K) : proc H K :=
  mk_proc (cur s) (utl s) (kheap s) (tis s) (tasks s) (lx_init_task s) (lx_idle_task s) (lx_current_available s)
    (total_forks s) k.

Definition on_kern (f : K -> K) : P unit := modify (fun s => set_kern (f (kern s)) s).

Definition cur_lock : P unit := fun s =>
  let c := cur s in
  if lx_current_lock c then Err Deadlock
  else Ok (tt, set_cur (mk_currents (lx_current_list c) (lx_exit_list c) true (lx_current_task c) (lx_current_thread_info c)) s).
Definition cur_unlock : P unit := modify (fun s =>
  let c := cur s in
  set_cur (mk_currents (lx_current_list c) (lx_exit_list c) false (lx_current_task c) (lx_current_thread_info c)) s).
Definition set_list (l : list (Z * lx_current)) : P unit := modify (fun s =>
  let c := cur s in
  set_cur (mk_currents l (lx_exit_list c) (lx_current_lock c) (lx_current_task c) (lx_current_thread_info c)) s).
Definition set_exits (l : list (Z * lx_current)) : P unit := modify (fun s =>
  let c := cur s in
  set_cur (mk_currents (lx_current_list c) l (lx_current_lock c) (lx_current_task c) (lx_current_thread_info c)) s).
Definition set_running (tsk ti : Z) : P unit := modify (fun s =>
  let c := cur s in
  set_cur (mk_currents (lx_current_list c) (lx_exit_list c) (lx_current_lock c) tsk ti) s).
Definition cur_list : P (list (Z * lx_current)) := gets (fun s => lx_current_list (cur s)).

Definition utl_lock : P unit := fun s =>
  let u := utl s in
  if lx_utlstack_lock u then Err Deadlock else Ok (tt, set_utl (mk_utls (lx_UtlStackRoot u) true) s).
Definition utl_unlock : P unit := modify (fun s => set_utl (mk_utls (lx_UtlStackRoot (utl s)) false) s).
Definition set_root (l : list (Z * UTLStack)) : P unit :=
  modify (fun s => set_utl (mk_utls l (lx_utlstack_lock (utl s))) s).
Definition utl_list : P (list (Z * UTLStack)) := gets (fun s => lx_UtlStackRoot (utl s)).

Definition ti_at (p : Z) : P thread_info := fun s =>
  match tis s !! p with Some i => Ok (i, s) | None => Err NullDeref end.
Definition put_ti (p : Z) (i : thread_info) : P unit :=
  modify (fun s => set_mem (kheap s) (<[p := i]> (tis s)) (tasks s) s).
Definition task_at (p : Z) : P task_struct := fun s =>
  match tasks s !! p with Some t => Ok (t, s) | None => Err NullDeref end.
Definition put_task (p : Z) (t : task_struct) : P unit :=
  modify (fun s => set_mem (kheap s) (tis s) (<[p := t]> (tasks s)) s).

Definition set_ti_task (t : Z) (i : thread_info) : thread_info :=
  mk_ti t (exec_domain i) (ti_flags i) (ti_status i) (cpu i) (preempt_count i) (addr_limit i) (restart_fn i) (previous_esp i).
Definition set_t_ti (ti : Z) (t : task_struct) : task_struct :=
  mk_task ti (t_state t) (t_pid t) (exit_signal t) (t_esp t) (t_eip t) (t_rest t).
Definition set_exit_signal (z : Z) (t : task_struct) : task_struct :=
  mk_task (t_thread_info t) (t_state t) (t_pid t) z (t_esp t) (t_eip t) (t_rest t).
(** A task that copy_process made. *)
Definition forked (pid : Z) (t : task_struct) : task_struct :=
  mk_task (t_thread_info t) 0 pid SIGCHLD (t_esp t) (t_eip t) (t_rest t).
Definition set_flags (f : Z) (c : lx_current) : lx_current :=
  mk_cur (os2_pid c) (os2_tid c) f (c_thread_info c) (c_task c).

(** kmalloc; the result is used without a test, so 0 is a fault at its use. *)
Definition alloc (sz : Z) : P Z := fun s =>
  let '(h, p) := kmalloc sz (kheap s) in Ok (p, set_mem h (tis s) (tasks s) s).
Definition alloc_used (sz : Z) : P Z := p ← alloc sz; if p =? 0 then throw NullDeref else mret p.
(** kfree of a node, a task and a stack; kfree of 0 does nothing. *)
Definition free (p : Z) : P unit :=
  modify (fun s => if p =? 0 then s else set_mem (Heap.kfree p (kheap s)) (delete p (tis s)) (delete p (tasks s)) s).

(** current *)
Definition current : P Z := i ← ti_at cti; mret (ti_task i).

(** ** Tasks *)

(** What of LX_copy_process shows here. *)
Definition LX_copy_process (from p flags : Z) : P bool :=
  k ← gets kern;
  let '(r, k) := copy_process from p flags k in
  on_kern (fun _ => k) ≫= fun _ =>
  match r with
  | inl _ => mret true                    (* ERR_PTR of the code *)
  | inr pid =>
      t ← task_at p; put_task p (forked pid t) ≫= fun _ =>
      s ← get;
      modify (set_globals (if pid =? 1 then p else lx_init_task s) (lx_current_available s) (total_forks s)) ≫= fun _ =>
      mret true
  end.

Definition LX_get_lxcurrent_from_ti (ti : Z) : P (option (Z * lx_current)) :=
  l ← cur_list; mret (find_first (is_ti ti) l).
Definition LX_get_lxcurrent_from_tsk (tsk : Z) : P (option (Z * lx_current)) :=
  l ← cur_list; mret (find_first (is_task tsk) l).

Definition LX_get_lxcurrent_from_pidtid (pid tid : Z) : P (option (Z * lx_current)) :=
  l ← cur_list; mret (find_first (fun x => (os2_pid x.2 =? u16 pid) && (os2_tid x.2 =? u16 tid)) l).

Definition LX_find_utlstack_pidtid (pid tid : Z) : P (option (Z * UTLStack)) :=
  l ← utl_list; mret (find_first (fun x => (u_pid x.2 =? pid) && (u_tid x.2 =? tid)) l).
Definition LX_find_utlstack_ti (ti : Z) : P (option (Z * UTLStack)) :=
  l ← utl_list; mret (find_first (fun x => u_base x.2 =? ti) l).

Definition LX_is_utl_current (ti : Z) : P bool :=
  u ← LX_find_utlstack_ti ti; mret (match u with Some _ => true | None => false end).

Definition LX_is_new_task (prev p : Z) : P bool :=
  c ← current;
  if (p =? prev) || (p =? c) || (p =? init_task) then mret false else
  x ← LX_get_lxcurrent_from_tsk p;
  match x with
  | Some _ => mret false
  | None => t ← task_at p; u ← LX_is_utl_current (t_thread_info t); mret (negb u)
  end.

Definition LX_wake_up_forked_process (p : Z) : P unit :=
  c ← current;
  n ← LX_is_new_task c p;
  if n : bool then t ← task_at p; on_kern (StartNewTask (t_esp t) (t_eip t) c LX_STARTTASK_WAIT) else mret tt.

(** The end of wake_up_forked_process in ok_sched.c. *)
Definition wake_up_forked_process (p : Z) : P unit :=
  on_kern (activate_task p) ≫= fun _ => LX_wake_up_forked_process p.

Definition set_need_resched : P unit :=
  i ← ti_at cti;
  put_ti cti (mk_ti (ti_task i) (exec_domain i) (Z.lor (ti_flags i) NEED_RESCHED) (ti_status i) (cpu i)
                (preempt_count i) (addr_limit i) (restart_fn i) (previous_esp i)).

(** CLONE_VM | CLONE_UNTRACED | CLONE_FS | CLONE_SIGHAND | CLONE_KERNEL |
    CLONE_FILES | SIGCHLD *)
Definition init_clone_flags : Z := 8392465.

(** The registers at the top of the stack are saved and restored. *)
Definition LX_init_task (tsk_from tsk ti_from ti : Z) : P unit :=
  (if negb (tsk_from =? tsk) then t ← task_at tsk_from; put_task tsk t else mret tt) ≫= fun _ =>
  (if negb (ti_from =? ti) then i ← ti_at ti_from; put_ti ti i else mret tt) ≫= fun _ =>
  t ← task_at tsk; put_task tsk (set_t_ti ti t) ≫= fun _ =>
  i ← ti_at ti; put_ti ti (set_ti_task tsk i) ≫= fun _ =>
  ok ← LX_copy_process tsk_from tsk init_clone_flags;
  if ok : bool then
    t ← task_at tsk; put_task tsk (set_exit_signal (-1) t) ≫= fun _ =>
    wake_up_forked_process tsk ≫= fun _ =>
    modify (fun s => set_globals (lx_init_task s) (lx_current_available s) (u32 (total_forks s + 1)) s) ≫= fun _ =>
    set_need_resched ≫= fun _ => on_kern (schedule_tail tsk_from)
  else mret tt.
(** ** Entering and leaving *)

(** A thread_info that is not in use, or whose thread has no entry. *)
Definition init_ti (i : thread_info) : thread_info :=
  mk_ti (ti_task i) default_exec_domain 0 (ti_status i) 0 0 KERNEL_DS do_no_restart_syscall (previous_esp i).
Definition zero_ti : thread_info := mk_ti 0 0 0 0 0 0 0 0 0.

Definition has_flag (f b : Z) : bool := negb (Z.land f b =? 0).
Definition without_flag (f b : Z) : Z := Z.land f (Z.lnot b).

(** The flags of an entry of the list. *)
Definition update_flags (n : Z) (f : Z -> Z) : P unit :=
  l ← cur_list; set_list (update_first (is_node n) (fun x => (x.1, set_flags (f (current_flags x.2)) x.2)) l).

Definition link_task (tsk : Z) : P unit :=
  i ← ti_at cti; put_ti cti (set_ti_task tsk i) ≫= fun _ =>
  t ← task_at tsk; put_task tsk (set_t_ti cti t).

Definition LX_enter_current : P unit :=
  cur_lock ≫= fun _ =>
  p ← LX_get_lxcurrent_from_ti cti;
  cur_unlock ≫= fun _ =>
  i ← ti_at cti;
  (match p with
   | Some _ => if ti_task i =? 0 then put_ti cti (init_ti i) else mret tt
   | None => put_ti cti (init_ti i)
   end) ≫= fun _ =>
  match p with
  | None =>
      n ← alloc_used sizeof_lx_current;
      tsk ← alloc_used sizeof_task;
      i ← ti_at cti; put_ti cti (set_ti_task tsk i) ≫= fun _ =>
      put_task tsk (set_t_ti cti (stale_task tsk)) ≫= fun _ =>
      init ← gets lx_init_task;
      f ← (if negb (init =? 0)
           then LX_init_task init tsk cti cti ≫= fun _ => mret (Z.lor LXC_FLAG_TSK_MALLOCED LXC_FLAG_INITIALIZED)
           else link_task tsk ≫= fun _ => mret LXC_FLAG_TSK_MALLOCED);
      cur_lock ≫= fun _ =>
      l ← cur_list;
      set_list ((n, mk_cur (u16 lx_current_pid) (u16 lx_current_tid) f cti tsk) :: l) ≫= fun _ =>
      cur_unlock
  | Some (n, c) =>
      if c_task c =? 0 then mret tt else
      init ← gets lx_init_task;
      if negb (init =? 0) && negb (has_flag (current_flags c) LXC_FLAG_INITIALIZED)
      then LX_init_task init (c_task c) cti cti ≫= fun _ => update_flags n (fun f => Z.lor f LXC_FLAG_INITIALIZED)
      else link_task (c_task c)
  end.

Definition LX_add_this_current : P unit :=
  i ← ti_at cti;
  (if ti_task i =? 0 then
     init ← gets lx_init_task;
     let from := if init =? 0 then init_task else init in
     t ← task_at from; j ← ti_at (t_thread_info t); put_ti cti (set_ti_task from j)
   else mret tt) ≫= fun _ =>
  cur_lock ≫= fun _ =>
  p ← LX_get_lxcurrent_from_ti cti;
  cur_unlock ≫= fun _ =>
  match p with
  | Some _ => mret tt
  | None =>
      n ← alloc_used sizeof_lx_current;
      i ← ti_at cti;
      t ← task_at (ti_task i); put_task (ti_task i) (set_t_ti cti t) ≫= fun _ =>
      cur_lock ≫= fun _ =>
      l ← cur_list;
      set_list ((n, mk_cur (u16 lx_current_pid) (u16 lx_current_tid) LXC_FLAG_INITIALIZED cti (ti_task i)) :: l) ≫= fun _ =>
      cur_unlock ≫= fun _ =>
      if t_pid t =? 1 then modify (fun s => set_globals (lx_init_task s) 1 (total_forks s) s) else mret tt
  end.

Definition LX_enter_init_current : P unit :=
  u ← LX_is_utl_current cti;
  if u : bool then mret tt else
  cur_lock ≫= fun _ =>
  p ← LX_get_lxcurrent_from_ti cti;
  (match p with Some (n, _) => update_flags n (fun f => without_flag f LXC_FLAG_INITIALIZED) | None => mret tt end) ≫= fun _ =>
  cur_unlock ≫= fun _ => LX_enter_current.

(** The task that runs is forgotten if it is this one. *)
Definition forget_running (tsk : Z) : P unit :=
  s ← get;
  if tsk =? lx_current_task (cur s) then cur_lock ≫= fun _ => set_running 0 0 ≫= fun _ => cur_unlock else mret tt.

Definition LX_exit_task (tsk : Z) : P unit := exit_current_exit tsk.

Definition LX_leave_current : P unit :=
  u ← LX_is_utl_current cti;
  if u : bool then mret tt else
  cur_lock ≫= fun _ =>
  p ← LX_get_lxcurrent_from_ti cti;
  match p with
  | None => cur_unlock
  | Some (n, c) =>
      if c_task c =? 0 then cur_unlock else
      l ← cur_list;
      set_list (remove_first (is_node n) l) ≫= fun _ =>
      cur_unlock ≫= fun _ =>
      avail ← gets lx_current_available;
      (if negb (avail =? 0) && has_flag (current_flags c) LXC_FLAG_INITIALIZED
       then forget_running (c_task c) ≫= fun _ => LX_exit_task (c_task c) else mret tt) ≫= fun _ =>
      (if has_flag (current_flags c) LXC_FLAG_TSK_MALLOCED
       then free (c_task c) ≫= fun _ => i ← ti_at cti; put_ti cti (set_ti_task 0 i) else mret tt) ≫= fun _ =>
      free n ≫= fun _ => put_ti cti zero_ti
  end.

(** ** Interrupts *)

(** The thread_info an interrupt borrows. *)
Definition irq_ti : P Z :=
  c ← gets cur;
  let ti := if lx_current_thread_info c =? 0 then init_thread_info else lx_current_thread_info c in
  i ← ti_at ti;
  (if NR_CPUS <? cpu i
   then put_ti ti (mk_ti (ti_task i) (exec_domain i) (ti_flags i) (ti_status i) 0 (preempt_count i) (addr_limit i)
                     (restart_fn i) (previous_esp i))
   else mret tt) ≫= fun _ => mret ti.

Definition LX_enter_irq_current : P unit :=
  ti ← irq_ti;
  if cti =? ti then mret tt else
  i ← ti_at ti; put_ti cti i ≫= fun _ =>
  t ← task_at (ti_task i); put_task (ti_task i) (set_t_ti cti t).

Definition LX_leave_irq_current : P unit :=
  ti ← irq_ti;
  if cti =? ti then mret tt else
  i ← ti_at cti; put_ti ti i ≫= fun _ =>
  if ti =? init_thread_info then
    t ← task_at init_task; put_task init_task (set_t_ti init_thread_info t) ≫= fun _ =>
    i ← ti_at init_thread_info; put_ti init_thread_info (set_ti_task init_task i)
  else
    c ← gets cur;
    i ← ti_at (lx_current_thread_info c);
    put_ti (lx_current_thread_info c) (set_ti_task (lx_current_task c) i) ≫= fun _ =>
    t ← task_at (lx_current_task c); put_task (lx_current_task c) (set_t_ti (lx_current_thread_info c) t).
(** ** Stacks of programs *)

Definition freeme (u : UTLStack) : bool :=
  has_flag (u_flags u) UTLSTACK_FLAG_FREEME && negb (has_flag (u_flags u) UTLSTACK_FLAG_USED).

(** [p] is the rest of the list; after an entry was freed the walk starts
    again at the root. *)
Fixpoint freeme_loop (fuel : nat) (p : list (Z * UTLStack)) : P unit :=
  match fuel with
  | O => throw OutOfFuel
  | S fuel =>
      match p with
      | [] => mret tt
      | (n, u) :: next =>
          if freeme u then
            l ← utl_list; set_root (remove_first (is_node n) l) ≫= fun _ =>
            utl_unlock ≫= fun _ =>
            free (u_base u) ≫= fun _ => free n ≫= fun _ =>
            utl_lock ≫= fun _ =>
            l ← utl_list; freeme_loop fuel l
          else freeme_loop fuel next
      end
  end.

Definition LX_check_utl_freeme : P unit :=
  utl_lock ≫= fun _ =>
  l ← utl_list;
  freeme_loop (S (length l) * S (length l)) l ≫= fun _ => utl_unlock.

(** The first entry of the old list is not in the new one. *)
Definition LX_set_ti_for_pidtid (ti pid tid : Z) : P Z :=
  pp ← alloc sizeof_UTLStack;
  if pp =? 0 then mret (- ENOMEM) else
  utl_lock ≫= fun _ =>
  p ← LX_find_utlstack_pidtid (u16 pid) (u16 tid);
  match p with
  | Some _ => utl_unlock ≫= fun _ => free pp ≫= fun _ => mret (- EBUSY)
  | None =>
      l ← utl_list;
      set_root ((pp, mk_utl ti 0 (u16 pid) (u16 tid)) :: drop 1 l) ≫= fun _ =>
      utl_unlock ≫= fun _ => mret 0
  end.

(** The entry and what follows it. *)
Fixpoint from_first {A} (f : A -> bool) (l : list A) : option (A * list A) :=
  match l with
  | [] => None
  | x :: l => if f x then Some (x, l) else from_first f l
  end.

(** The list starts behind the entry afterwards. *)
Definition LX_unset_ti_for_pidtid (pid tid : Z) : P Z :=
  let tid := u16 tid in
  let tid := if tid =? 0 then tid else tid - 1 in
  utl_lock ≫= fun _ =>
  l ← utl_list;
  (match from_first (fun x => (u_pid x.2 =? u16 pid) && (u_tid x.2 =? tid)) l with
   | Some (x, next) => set_root next ≫= fun _ => free x.1
   | None => mret tt
   end) ≫= fun _ => utl_unlock ≫= fun _ => mret 0.

Definition or_utl_flags (n f : Z) : P unit :=
  l ← utl_list;
  set_root (update_first (is_node n) (fun x => (x.1, mk_utl (u_base x.2) (Z.lor (u_flags x.2) f) (u_pid x.2) (u_tid x.2))) l).
Definition utl_flags (n : Z) : P Z :=
  l ← utl_list; match find_first (is_node n) l with Some x => mret (u_flags x.2) | None => throw UseAfterFree end.

Definition LX_process_start_error : P unit :=
  LX_enter_current ≫= fun _ => on_kern set_continue_startup ≫= fun _ => LX_leave_current.

(** LXA_UtilStackWaitForCaptureAndExit; the thread ends after it. *)
Definition capture_and_exit (n : Z) : P unit :=
  k ← gets kern;
  let '(captured, k) := wait_capture n k in
  on_kern (fun _ => k) ≫= fun _ =>
  if captured : bool then or_utl_flags n UTLSTACK_FLAG_CAPTUREACK
  else or_utl_flags n UTLSTACK_FLAG_FREEME ≫= fun _ => LX_process_start_error.

Definition LX_UtilStackWaitForCaptureAndExit (pid tid : Z) : P unit :=
  p ← LX_find_utlstack_pidtid (u16 pid) (u16 tid);
  match p with Some (n, _) => capture_and_exit n | None => mret tt end.

(** [c] waits of 100 ms, until the other side has acknowledged. *)
Fixpoint ack_loop (c : nat) (n : Z) : P unit :=
  f ← utl_flags n;
  if has_flag f UTLSTACK_FLAG_CAPTUREACK then mret tt else
  match c with
  | O => mret tt
  | S c =>
      k ← gets kern;
      let '(f, k) := wait_flags n k in
      on_kern (fun _ => k) ≫= fun _ => or_utl_flags n f ≫= fun _ => ack_loop c n
  end.

Definition LX_enter_utl_current : P unit :=
  p ← LX_find_utlstack_ti cti;
  match p with
  | None => LX_enter_current
  | Some (n, u) =>
      if has_flag (u_flags u) UTLSTACK_FLAG_CAPTURED then mret tt
      else or_utl_flags n UTLSTACK_FLAG_CAPTURED ≫= fun _ => ack_loop 100 n
  end.

Definition LX_leave_utl_current (flags : Z) : P unit :=
  p ← LX_find_utlstack_ti cti;
  match p with
  | None => LX_leave_current
  | Some (n, _) => if has_flag flags LXLEAVE_UTL_FREEME then or_utl_flags n UTLSTACK_FLAG_FREEME else mret tt
  end.

(** ** The scheduler's side *)

(** The thread_info of a task, 0 for no task. *)
Definition ti_of_task (tsk : Z) : P Z := if tsk =? 0 then mret 0 else t ← task_at tsk; mret (t_thread_info t).

Definition LX_set_current_task (tsk : Z) : P unit :=
  cur_lock ≫= fun _ =>
  ti ← ti_of_task tsk;
  (if negb (tsk =? 0) && negb (ti =? 0) then set_running tsk ti
   else idle ← gets lx_idle_task; ti ← ti_of_task idle; set_running idle ti) ≫= fun _ => cur_unlock.

Definition LX_set_task_regular_exit (tsk : Z) : P unit :=
  cur_lock ≫= fun _ =>
  p ← LX_get_lxcurrent_from_tsk tsk;
  (match p with Some (n, _) => update_flags n (fun f => Z.lor f LXC_FLAG_TSK_REGULAR_EXIT) | None => mret tt end) ≫= fun _ =>
  cur_unlock.

(** One task that has ended, with its stack and its entry. *)
Definition LX_free_unused_task_structs : P unit :=
  l ← gets (fun s => lx_exit_list (cur s));
  match l with
  | [] => mret tt
  | (n, c) :: l =>
      cur_lock ≫= fun _ => set_exits l ≫= fun _ => cur_unlock ≫= fun _ =>
      free (c_thread_info c) ≫= fun _ => free (c_task c) ≫= fun _ => free n
  end.

Definition LX_DoTaskExit : P unit :=
  cur_lock ≫= fun _ =>
  c ← current;
  p ← LX_get_lxcurrent_from_tsk c;
  (match p with
   | Some x =>
       l ← cur_list; set_list (remove_first (is_node x.1) l) ≫= fun _ =>
       e ← gets (fun s => lx_exit_list (cur s)); set_exits (x :: e)
   | None => mret tt
   end) ≫= fun _ => cur_unlock ≫= fun _ => on_kern DoTaskExit.

(** The task that runs after one has ended. *)
Definition next_running (prev next : Z) : P Z :=
  if prev =? next then s ← get; mret (if lx_init_task s =? 0 then lx_idle_task s else lx_init_task s)
  else mret next.

Definition LX_switch_to (prev next : Z) : P Z :=
  pc ← current;
  t ← task_at pc;
  let ex := (t_state t =? TASK_DEAD) || (t_state t =? TASK_ZOMBIE) in
  LX_set_current_task pc ≫= fun _ =>
  (if prev =? next then mret tt else
     on_kern (DevRun next) ≫= fun _ =>
     k ← gets kern;
     if negb (in_ISR k) && negb ex then on_kern (DevBlock prev) else mret tt) ≫= fun _ =>
  LX_free_unused_task_structs ≫= fun _ =>
  cur_lock ≫= fun _ =>
  do_exit_me ← (if negb ex then ti ← ti_of_task pc; set_running pc ti ≫= fun _ => mret false
                else
                  tsk ← next_running prev next; ti ← ti_of_task tsk; set_running tsk ti ≫= fun _ =>
                  p ← LX_get_lxcurrent_from_tsk pc;
                  mret (match p with Some x => has_flag (current_flags x.2) LXC_FLAG_TSK_REGULAR_EXIT | None => false end));
  cur_unlock ≫= fun _ =>
  (if do_exit_me : bool then LX_DoTaskExit else mret tt) ≫= fun _ => mret prev.
End Process.
