(* ===== verification/ProcessTable.v ===== *)
(** * What the tables of tasks keep (Process)

    Threads that enter and leave the driver, the release of program stacks,
    interrupts that run as the task they interrupted, and the end of tasks.
    The proofs about entering and leaving are in a logic of total correctness
    whose assertion [held] says what memory the entries own and how threads
    and tasks are linked. *)

From S2P Require Import Prelude Total DevHlp Memory Heap Process.

(** ** What the table of threads owns *)

Section Tables.
Context {H K : Type} `{HeapLaws H} `{!HeapRoom H} `{Sched K}.
Context (sizeof_task : Z) (task_size : 0 < sizeof_task < 2147483648).
(** The stacks of the threads that enter and leave, and the first task. *)
Context (stacks : list Z) (init : Z).
Implicit Types (L : list (Z * lx_current)) (U T : gmap Z Z) (s : proc H K).

(** The node of an entry and the task that was made for it. *)
Definition entry_blocks (x : Z * lx_current) : list (Z * Z) :=
  (x.1, sizeof_lx_current) ::
  (if has_flag (current_flags x.2) LXC_FLAG_TSK_MALLOCED then [(c_task x.2, sizeof_task)] else []).
Definition blocks L : list (Z * Z) := L ≫= entry_blocks.

Definition tis_of L : list Z := map (fun x => c_thread_info x.2) L.
Definition tasks_of L : list Z := map (fun x => c_task x.2) L.

(** Entries have memory of their own, outside [T], and one thread each. *)
Record wf L T : Prop := {
  wf_blocks : NoDup (blocks L).*1;
  wf_fresh : Forall (fun p => T !! p = None) (blocks L).*1;
  wf_tis : NoDup (tis_of L);
  wf_tasks : NoDup (tasks_of L);
  wf_in : Forall (fun x => c_thread_info x.2 ∈ stacks) L;
  wf_entries : Forall (fun x => c_task x.2 <> 0 /\ x.1 <> 0 /\
    (has_flag (current_flags x.2) LXC_FLAG_TSK_MALLOCED = false -> is_Some (T !! c_task x.2))) L;
  wf_stacks : Forall (fun ti => is_Some (T !! ti)) stacks;
  wf_init : init = 0 \/ is_Some (T !! init)
}.

(** A thread's current is the task of its entry, and that task's thread_info
    is the thread's. *)
Definition linked (s : proc H K) (ti tsk : Z) : Prop :=
  exists i t, tis s !! ti = Some i /\ ti_task i = tsk /\ tasks s !! tsk = Some t /\ t_thread_info t = ti.

Record held (n : nat) U L (me : option Z) (b : bool) s : Prop := {
  held_ok : heap_ok (kheap s);
  held_rooms : rooms n (kheap s);
  held_used : used (kheap s) = U;
  held_list : lx_current_list (cur s) = L;
  held_lock : lx_current_lock (cur s) = b;
  held_tis : Forall (fun ti => is_Some (tis s !! ti)) stacks;
  held_linked : Forall (fun x => Some (c_thread_info x.2) <> me -> linked s (c_thread_info x.2) (c_task x.2)) L;
  held_init : lx_init_task s = init /\ (init = 0 \/ is_Some (tasks s !! init));
  held_utl : Forall (fun u => u_base u.2 ∉ stacks) (lx_UtlStackRoot (utl s))
}.

Definition all_blocks L T : gmap Z Z := list_to_map (blocks L) ∪ T.

(** Entries that are left out of [held]'s links keep their place otherwise. *)
Lemma held_me n U L me b s : held n U L None b s -> held n U L (Some me) b s.
Proof. intros []. split; try done. eapply Forall_impl; [eassumption|]. intros x Hx _. by apply Hx. Qed.

(** Steps that change nothing [held] speaks of. *)
Lemma held_seen n U L me b s s' :
  lx_current_list (cur s') = lx_current_list (cur s) -> lx_current_lock (cur s') = lx_current_lock (cur s) ->
  utl s' = utl s -> kheap s' = kheap s -> tis s' = tis s -> tasks s' = tasks s -> lx_init_task s' = lx_init_task s ->
  held n U L me b s -> held n U L me b s'.
Proof.
  intros E1 E2 E3 E4 E5 E6 E7 []. unfold linked in *.
  split; unfold linked; rewrite ?E1, ?E2, ?E3, ?E4, ?E5, ?E6, ?E7; done.
Qed.

Lemma held_cur_lock n U L me : total (held n U L me false) cur_lock (fun _ => held n U L me true).
Proof.
  intros s Hs. unfold cur_lock. rewrite (held_lock _ _ _ _ _ _ Hs). eexists _, _. split; [done|].
  destruct Hs. by split.
Qed.

Lemma held_cur_unlock n U L me b : total (held n U L me b) cur_unlock (fun _ => held n U L me false).
Proof. apply total_modify. intros s []. by split. Qed.

Lemma held_on_kern n U L me b f : total (held n U L me b) (on_kern f) (fun _ => held n U L me b).
Proof. apply total_modify. intros s. by apply held_seen. Qed.

Lemma held_find ti n U L me b :
  total (held n U L me b) (LX_get_lxcurrent_from_ti ti) (fun x s => held n U L me b s /\ x = find_first (is_ti ti) L).
Proof. intros s Hs. eexists _, s. split; [reflexivity|]. cbn. by rewrite (held_list _ _ _ _ _ _ Hs). Qed.

Lemma held_cur_list {A} (k : list (Z * lx_current) -> M (proc H K) A) n U L me b Q :
  total (held n U L me b) (k L) Q -> total (held n U L me b) (cur_list ≫= k) Q.
Proof.
  intros Hk s Hs. destruct (Hk s Hs) as (a & s' & E & HQ). exists a, s'. split; [|done].
  rewrite M_bind_unfold. cbn. by rewrite (held_list _ _ _ _ _ _ Hs).
Qed.

Lemma held_ti_at {A} ti (k : thread_info -> M (proc H K) A) n U L me b P Q :
  ti ∈ stacks -> (forall s, P s -> held n U L me b s) ->
  (forall i, total (fun s => P s /\ tis s !! ti = Some i) (k i) Q) -> total P (ti_at ti ≫= k) Q.
Proof.
  intros Hti HP Hk s Hs. pose proof (HP s Hs) as Hh. pose proof (held_tis _ _ _ _ _ _ Hh) as Ht.
  rewrite Forall_forall in Ht. destruct (Ht ti Hti) as [i Hi].
  destruct (Hk i s (conj Hs Hi)) as (a & s' & E & HQ). exists a, s'. split; [|done].
  rewrite M_bind_unfold. unfold ti_at. by rewrite Hi.
Qed.

Lemma held_put_ti ti i n U L b s : held n U L (Some ti) b s -> held n U L (Some ti) b (set_mem (kheap s) (<[ti := i]> (tis s)) (tasks s) s).
Proof.
  intros []. split; try done; cbn.
  - eapply Forall_impl; [eassumption|]. intros t Ht. cbn. destruct (decide (ti = t)) as [->|]; [by rewrite lookup_insert_eq|].
    by rewrite lookup_insert_ne.
  - eapply Forall_impl; [eassumption|]. intros x Hx Hne. destruct (Hx Hne) as (j & t & H1' & H2' & H3' & H4').
    exists j, t. cbn. rewrite lookup_insert_ne by congruence. done.
Qed.

(** The task is not that of another entry. *)
Definition own_task (ti tsk : Z) L : Prop := Forall (fun x => c_thread_info x.2 <> ti -> c_task x.2 <> tsk) L.

Lemma held_put_task ti tsk t n U L b s : own_task ti tsk L ->
  held n U L (Some ti) b s -> held n U L (Some ti) b (set_mem (kheap s) (tis s) (<[tsk := t]> (tasks s)) s).
Proof.
  intros Ho []. split; try done; cbn.
  - unfold own_task in Ho. rewrite Forall_forall in *. intros x Hx Hne.
    destruct (held_linked0 x Hx Hne) as (j & t' & H1' & H2' & H3' & H4').
    exists j, t'. cbn. rewrite lookup_insert_ne; [done|]. intros ->. apply (Ho x Hx); congruence.
  - destruct held_init0 as [? [?|Hi]]; split; [done|by left|done|]. right.
    destruct (decide (tsk = init)) as [->|]; [by rewrite lookup_insert_eq|by rewrite lookup_insert_ne].
Qed.

Lemma held_alloc sz n U L me b : 0 < sz < 2147483648 ->
  total (held (S n) U L me b) (alloc_used sz) (fun p s => held n (<[p := sz]> U) L me b s /\ (p <> 0 /\ U !! p = None)).
Proof.
  intros Hsz s Hs. unfold alloc_used, alloc. rewrite M_bind_unfold.
  destruct (kmalloc sz (kheap s)) as [h p] eqn:E.
  destruct (rooms_kmalloc _ _ _ _ _ (held_rooms _ _ _ _ _ _ Hs) Hsz E) as [Hp Hr].
  destruct (kmalloc_laws _ _ _ _ (held_ok _ _ _ _ _ _ Hs) Hsz E) as [Ho [[-> _]|(_ & Hf & _ & Hu)]]; [done|].
  rewrite (held_used _ _ _ _ _ _ Hs) in Hf, Hu.
  destruct (Z.eqb_spec p 0); [done|]. eexists p, _. split; [reflexivity|]. split; [|done]. destruct Hs. by split.
Qed.

Definition not_task p L : Prop := Forall (fun x => c_task x.2 <> p) L.

Definition on_stacks L : Prop := Forall (fun x => c_thread_info x.2 ∈ stacks) L.

Lemma held_free p n U L me b : on_stacks L -> p <> 0 -> is_Some (U !! p) -> p ∉ stacks -> not_task p L -> p <> init ->
  total (held n U L me b) (free p) (fun _ => held n (delete p U) L me b).
Proof.
  intros Hon Hp Hu Hst Ht Hi. apply total_modify. intros s Hs. destruct (Z.eqb_spec p 0); [done|].
  destruct (kfree_laws p (kheap s) (held_ok _ _ _ _ _ _ Hs)) as [Ho Hu'].
  { by rewrite (held_used _ _ _ _ _ _ Hs). }
  destruct Hs. split; try done; cbn.
  - by apply rooms_kfree.
  - congruence.
  - rewrite Forall_forall in *. intros t Ht'. rewrite lookup_delete_ne; [auto|]. by intros ->.
  - unfold not_task, on_stacks in *. rewrite Forall_forall in *. intros x Hx Hne.
    destruct (held_linked0 x Hx Hne) as (j & t & H1' & H2' & H3' & H4'). exists j, t. cbn.
    rewrite !lookup_delete_ne; [done| |]; [by apply not_eq_sym, Ht|]. intros ->. by apply Hst, Hon.
  - destruct held_init0 as [? [?|?]]; split; [done|by left|done|]. right. by rewrite lookup_delete_ne.
Qed.

(** ** A task is made for a thread *)

Section Thread.
Context (cti pid tid default_exec_domain do_no_restart_syscall : Z) (stale_task : Z -> task_struct).
Context (init_task : Z) (exit_current_exit : Z -> M (proc H K) unit).
Context (cti_stack : cti ∈ stacks).

Definition linked_to (tsk : Z) n U L (s : proc H K) : Prop := held n U L (Some cti) false s /\ linked s cti tsk.

Lemma linked_task_at {A} tsk (k : task_struct -> M (proc H K) A) n U L Q :
  (forall t, t_thread_info t = cti -> total (linked_to tsk n U L) (k t) Q) -> total (linked_to tsk n U L) (task_at tsk ≫= k) Q.
Proof.
  intros Hk s Hs. pose proof Hs as [_ (i & t & _ & _ & Ht & Hti)]. destruct (Hk t Hti s Hs) as (a & s' & E & HQ).
  exists a, s'. split; [|done]. rewrite M_bind_unfold. unfold task_at. by rewrite Ht.
Qed.

Lemma linked_ti_at {A} tsk (k : thread_info -> M (proc H K) A) n U L Q :
  (forall i, ti_task i = tsk -> total (linked_to tsk n U L) (k i) Q) -> total (linked_to tsk n U L) (ti_at cti ≫= k) Q.
Proof.
  intros Hk s Hs. pose proof Hs as [_ (i & t & Hi & Ht & _)]. destruct (Hk i Ht s Hs) as (a & s' & E & HQ).
  exists a, s'. split; [|done]. rewrite M_bind_unfold. unfold ti_at. by rewrite Hi.
Qed.

Lemma linked_put_task tsk t n U L : own_task cti tsk L -> t_thread_info t = cti ->
  total (linked_to tsk n U L) (put_task tsk t) (fun _ => linked_to tsk n U L).
Proof.
  intros Ho Ht. apply total_modify. intros s [Hh (i & t' & Hi & Hit & _)]. split; [by apply held_put_task|].
  exists i, t. cbn. by rewrite lookup_insert_eq.
Qed.

Lemma linked_put_ti tsk i n U L : ti_task i = tsk ->
  total (linked_to tsk n U L) (put_ti cti i) (fun _ => linked_to tsk n U L).
Proof.
  intros Hi. apply total_modify. intros s [Hh (j & t & _ & _ & Ht & Hti)]. split; [by apply held_put_ti|].
  exists i, t. cbn. by rewrite lookup_insert_eq.
Qed.

Lemma linked_on_kern tsk f n U L : total (linked_to tsk n U L) (on_kern f) (fun _ => linked_to tsk n U L).
Proof. apply total_modify. intros s [Hh Hl]. split; [eapply held_seen; [..|exact Hh]; done|done]. Qed.

Lemma linked_globals tsk (f : proc H K -> Z * Z) n U L :
  total (linked_to tsk n U L) (modify (fun s => set_globals (lx_init_task s) (f s).1 (f s).2 s)) (fun _ => linked_to tsk n U L).
Proof. apply total_modify. intros s [Hh Hl]. split; [eapply held_seen; [..|exact Hh]; done|done]. Qed.

Lemma linked_current {A} tsk (k : Z -> M (proc H K) A) n U L Q :
  total (linked_to tsk n U L) (k tsk) Q -> total (linked_to tsk n U L) (current cti ≫= k) Q.
Proof.
  intros Hk s Hs. pose proof Hs as [_ (i & t & Hi & <- & _)]. destruct (Hk s Hs) as (a & s' & E & HQ).
  exists a, s'. split; [|done]. rewrite M_bind_unfold. unfold current. rewrite M_bind_unfold. unfold ti_at. by rewrite Hi.
Qed.

Context (pid_not_1 : forall from p flags k pid k', copy_process from p flags k = (inr pid, k') -> pid <> 1).

Lemma linked_copy_process from tsk flags n U L : own_task cti tsk L ->
  total (linked_to tsk n U L) (LX_copy_process from tsk flags) (fun r s => r = true /\ linked_to tsk n U L s).
Proof.
  intros Ho. unfold LX_copy_process. apply total_gets. intros k. destruct (copy_process from tsk flags k) as [r k'] eqn:E.
  eapply total_bind; [eapply total_pre; [|apply linked_on_kern]; by intros s [? _]|]. intros ?. destruct r as [e|q].
  - apply total_ret. done.
  - apply linked_task_at. intros t Ht. eapply total_bind; [by apply linked_put_task|]. intros ?.
    intros s Hs. rewrite M_bind_unfold. cbn. rewrite M_bind_unfold. cbn.
    destruct (Z.eqb_spec q 1) as [->|]; [by apply pid_not_1 in E|].
    eexists _, _. split; [reflexivity|]. split; [done|]. destruct Hs as [Hh Hl].
    split; [eapply held_seen; [..|exact Hh]; done|done].
Qed.

Lemma linked_wake_up tsk n U L :
  total (linked_to tsk n U L) (wake_up_forked_process cti init_task tsk) (fun _ => linked_to tsk n U L).
Proof.
  eapply total_bind; [apply linked_on_kern|]. intros ?. apply linked_current.
  unfold LX_is_new_task. intros s Hs. rewrite M_bind_unfold.
  destruct (linked_current tsk (fun c => mret ((tsk =? tsk) || (tsk =? c) || (tsk =? init_task) : bool)) n U L
    (fun r s => r = true /\ linked_to tsk n U L s)) with (s := s) as (r & s' & E & -> & Hs'); [|done|].
  { apply total_ret. intros s' Hs'. by rewrite Z.eqb_refl. }
  rewrite M_bind_unfold in E |- *. destruct (current cti s) as [[c s1]|]; [|done]. injection E as E <-. rewrite E.
  cbn. eauto.
Qed.

Lemma linked_need_resched tsk n U L : total (linked_to tsk n U L) (set_need_resched cti) (fun _ => linked_to tsk n U L).
Proof. apply linked_ti_at. intros i Hi. by apply linked_put_ti. Qed.

(** A task that is there becomes the thread's. *)
Definition there (tsk : Z) n U L (s : proc H K) : Prop := held n U L (Some cti) false s /\ is_Some (tasks s !! tsk).

Lemma there_ti (s : proc H K) tsk n U L : there tsk n U L s -> is_Some (tis s !! cti).
Proof.
  intros [Hs _]. pose proof (held_tis _ _ _ _ _ _ Hs) as Ht. rewrite Forall_forall in Ht. auto.
Qed.

Lemma there_link {A} tsk (k : M (proc H K) A) n U L Q : own_task cti tsk L -> total (linked_to tsk n U L) k Q ->
  total (there tsk n U L) (t ← task_at tsk; put_task tsk (set_t_ti cti t) ≫= fun _ =>
    i ← ti_at cti; put_ti cti (set_ti_task tsk i) ≫= fun _ => k) Q.
Proof.
  intros Ho Hk s Hs. destruct (there_ti _ _ _ _ _ Hs) as [i Hi]. destruct Hs as [Hs [t Ht]].
  rewrite M_bind_unfold. unfold task_at. rewrite Ht. rewrite M_bind_unfold. cbn [put_task modify].
  rewrite M_bind_unfold. unfold ti_at. cbn [tis set_mem]. rewrite Hi. rewrite M_bind_unfold. cbn [put_ti modify].
  apply Hk. split; [by apply held_put_ti, held_put_task|]. exists (set_ti_task tsk i), (set_t_ti cti t). cbn.
  by rewrite !lookup_insert_eq.
Qed.

Lemma there_link_task tsk n U L : own_task cti tsk L ->
  total (there tsk n U L) (link_task cti tsk) (fun _ => linked_to tsk n U L).
Proof.
  intros Ho s Hs. destruct (there_ti _ _ _ _ _ Hs) as [i Hi]. destruct Hs as [Hs [t Ht]].
  unfold link_task. rewrite M_bind_unfold. unfold ti_at. rewrite Hi. rewrite M_bind_unfold. cbn [put_ti modify].
  rewrite M_bind_unfold. unfold task_at. cbn [tasks set_mem]. rewrite Ht. eexists _, _. split; [reflexivity|].
  split; [by apply held_put_task, held_put_ti|]. exists (set_ti_task tsk i), (set_t_ti cti t). cbn.
  by rewrite !lookup_insert_eq.
Qed.

(** The thread's task becomes a copy of the first one, linked to the thread. *)
Lemma init_task_links tsk n U L : init <> 0 -> own_task cti tsk L ->
  total (there tsk n U L) (LX_init_task cti init_task init tsk cti cti) (fun _ => linked_to tsk n U L).
Proof.
  intros Hi0 Ho. unfold LX_init_task. rewrite Z.eqb_refl. cbn [negb].
  eapply total_bind.
  { instantiate (1 := fun _ => there tsk n U L). destruct (negb _); [|by apply total_ret]. intros s [Hs _].
    rewrite M_bind_unfold. unfold task_at.
    destruct (held_init _ _ _ _ _ _ Hs) as [_ [?|[t Ht]]]; [done|]. rewrite Ht. eexists _, _. split; [reflexivity|].
    split; [by apply held_put_task|]. cbn. by rewrite lookup_insert_eq. }
  intros ?. eapply total_bind; [by eapply (total_ret _ _ (fun _ => there tsk n U L))|]. intros ?.
  apply there_link; [done|]. eapply total_bind; [by apply linked_copy_process|]. intros ok.
  intros s [-> Hs]. revert s Hs. change (total (linked_to tsk n U L) (t ← task_at tsk; put_task tsk (set_exit_signal (-1) t) ≫= fun _ =>
    wake_up_forked_process cti init_task tsk ≫= fun _ =>
    modify (fun s => set_globals (lx_init_task s) (lx_current_available s) (u32 (total_forks s + 1)) s) ≫= fun _ =>
    set_need_resched cti ≫= fun _ => on_kern (schedule_tail init)) (fun _ => linked_to tsk n U L)).
  apply linked_task_at. intros t Ht. eapply total_bind; [by apply linked_put_task|]. intros ?.
  eapply total_bind; [apply linked_wake_up|]. intros ?.
  eapply total_bind; [apply (linked_globals tsk (fun s => (lx_current_available s, u32 (total_forks s + 1))))|]. intros ?.
  eapply total_bind; [apply linked_need_resched|]. intros ?. apply linked_on_kern.
Qed.

(** ** Entering *)

Lemma wf_on L T : wf L T -> on_stacks L.
Proof. by intros []. Qed.

(** Every block of an entry and every task is in use. *)
Lemma all_blocks_fresh L T p : wf L T -> all_blocks L T !! p = None ->
  T !! p = None /\ p ∉ (blocks L).*1 /\ p ∉ tasks_of L.
Proof.
  intros Hw [Hb Ht]%lookup_union_None. apply not_elem_of_list_to_map in Hb. split_and!; [done|done|].
  intros (x & Hx & Hin)%list_elem_of_fmap. destruct Hw. rewrite Forall_forall in wf_entries0.
  destruct (wf_entries0 x Hin) as (_ & _ & He). cbn in Hx. subst p.
  destruct (has_flag (current_flags x.2) LXC_FLAG_TSK_MALLOCED) eqn:Ef.
  - apply Hb. apply list_elem_of_fmap. exists (c_task x.2, sizeof_task). split; [done|].
    apply list_elem_of_bind. exists x. split; [|done]. unfold entry_blocks. rewrite Ef. apply list_elem_of_further, list_elem_of_here.
  - destruct (He eq_refl) as [? ?]. congruence.
Qed.

Lemma own_fresh tsk L : tsk ∉ tasks_of L -> own_task cti tsk L.
Proof. intros Hn. apply Forall_forall. intros x Hx _ <-. apply Hn. apply list_elem_of_fmap. eauto. Qed.

Lemma own_entry n c L : NoDup (tasks_of L) -> (n, c) ∈ L -> c_thread_info c = cti -> own_task cti (c_task c) L.
Proof.
  intros Hnd Hin Hc. apply Forall_forall. intros x Hx Hne Ht.
  apply list_elem_of_lookup in Hin as [i Hi], Hx as [j Hj].
  assert (Hij : i = j).
  { eapply (NoDup_lookup _ _ _ (c_task c) Hnd); unfold tasks_of; rewrite list_lookup_fmap; [by rewrite Hi|]. rewrite Hj. cbn. by rewrite Ht. }
  subst j. rewrite Hi in Hj. injection Hj as <-. done.
Qed.

(** The thread's own link completes the others. *)
Lemma held_relink tsk n U L b s :
  Forall (fun x => c_thread_info x.2 = cti -> c_task x.2 = tsk) L ->
  held n U L (Some cti) b s -> linked s cti tsk -> held n U L None b s.
Proof.
  intros Hl [] Hc. split; try done. rewrite Forall_forall in *. intros x Hx _.
  destruct (decide (c_thread_info x.2 = cti)) as [E|E]; [|apply held_linked0; congruence].
  by rewrite E, (Hl x Hx E).
Qed.

Lemma same_entry n c L : NoDup (tis_of L) -> (n, c) ∈ L -> c_thread_info c = cti ->
  Forall (fun x => c_thread_info x.2 = cti -> c_task x.2 = c_task c) L.
Proof.
  intros Hnd Hin Hc. apply Forall_forall. intros x Hx Ht.
  apply list_elem_of_lookup in Hin as [i Hi], Hx as [j Hj].
  assert (Hij : i = j).
  { eapply (NoDup_lookup _ _ _ cti Hnd); unfold tis_of; rewrite list_lookup_fmap; [by rewrite Hi; cbn; rewrite Hc|].
    rewrite Hj. cbn. by rewrite Ht. }
  subst j. rewrite Hi in Hj. by injection Hj as <-.
Qed.

Lemma held_set_list L' n U L b s : held n U L None b s ->
  Forall (fun x => linked s (c_thread_info x.2) (c_task x.2)) L' ->
  held n U L' None b (set_cur (mk_currents L' (lx_exit_list (cur s)) (lx_current_lock (cur s)) (lx_current_task (cur s))
    (lx_current_thread_info (cur s))) s).
Proof. intros [] Hl. split; try done. eapply Forall_impl; [exact Hl|]. by intros x Hx _. Qed.

(** Entries that differ in other flags only. *)
Definition same (x y : Z * lx_current) : Prop :=
  y.1 = x.1 /\ c_thread_info y.2 = c_thread_info x.2 /\ c_task y.2 = c_task x.2 /\
  has_flag (current_flags y.2) LXC_FLAG_TSK_MALLOCED = has_flag (current_flags x.2) LXC_FLAG_TSK_MALLOCED.

Lemma same_lists L L' : Forall2 same L L' ->
  blocks L' = blocks L /\ tis_of L' = tis_of L /\ tasks_of L' = tasks_of L.
Proof.
  induction 1 as [|x y L L' (H1' & H2' & H3' & H4') _ (IH1 & IH2 & IH3)]; [done|]. split_and!.
  - change (entry_blocks y ++ blocks L' = entry_blocks x ++ blocks L). rewrite IH1. f_equal.
    unfold entry_blocks. by rewrite H1', H3', H4'.
  - unfold tis_of in *. cbn. by rewrite H2', IH2.
  - unfold tasks_of in *. cbn. by rewrite H3', IH3.
Qed.

Lemma same_wf L L' T : Forall2 same L L' -> wf L T -> wf L' T.
Proof.
  intros Hs []. destruct (same_lists _ _ Hs) as (E1 & E2 & E3).
  split; rewrite ?E1, ?E2, ?E3; try done.
  - eapply Forall2_Forall_r; [exact Hs|]. eapply Forall_impl; [exact wf_in0|]. by intros x Hx y (_ & -> & _).
  - eapply Forall2_Forall_r; [exact Hs|]. eapply Forall_impl; [exact wf_entries0|]. by intros x Hx y (-> & _ & -> & ->).
Qed.

Lemma same_refl L : Forall2 same L L.
Proof. apply Forall_Forall2_diag, Forall_forall. intros x _. by split_and!. Qed.

Lemma update_same f P L : (forall x, P x = true -> same x (f x)) -> Forall2 same L (update_first P f L).
Proof.
  intros Hf. induction L as [|x L IH]; cbn; [constructor|]. destruct (P x) eqn:E.
  - constructor; [auto|apply same_refl].
  - constructor; [by split_and!|done].
Qed.

Lemma same_all_blocks L L' T : Forall2 same L L' -> all_blocks L' T = all_blocks L T.
Proof. intros Hs. unfold all_blocks. by destruct (same_lists _ _ Hs) as (-> & _). Qed.

Lemma held_same L L' n U b s : Forall2 same L L' -> held n U L None b s ->
  held n U L' None b (set_cur (mk_currents L' (lx_exit_list (cur s)) (lx_current_lock (cur s)) (lx_current_task (cur s))
    (lx_current_thread_info (cur s))) s).
Proof.
  intros Hs Hh. apply (held_set_list _ _ _ L); [done|]. pose proof (held_linked _ _ _ _ _ _ Hh) as Hl.
  eapply Forall2_Forall_r; [exact Hs|]. eapply Forall_impl; [exact Hl|]. intros x Hx y (_ & -> & -> & _). by apply Hx.
Qed.

Lemma held_le m n U L me b s : (m <= n)%nat -> held n U L me b s -> held m U L me b s.
Proof. intros Hmn []. split; try done. by eapply rooms_le. Qed.

(** Flags other than the one for memory. *)
Lemma update_flags_held n f m T L :
  (forall z, has_flag (f z) LXC_FLAG_TSK_MALLOCED = has_flag z LXC_FLAG_TSK_MALLOCED) -> wf L T ->
  forall b, total (held m (all_blocks L T) L None b) (update_flags n f)
    (fun _ s => exists L', Forall2 same L L' /\ wf L' T /\ held m (all_blocks L' T) L' None b s).
Proof.
  intros Hf Hw b. apply held_cur_list. apply total_modify. intros s Hs.
  assert (Hsame : Forall2 same L (update_first (is_node n) (fun x => (x.1, set_flags (f (current_flags x.2)) x.2)) L)).
  { apply update_same. intros x _. repeat split. apply Hf. }
  eexists.
  split_and!; [exact Hsame|by eapply same_wf|]. rewrite (same_all_blocks _ _ _ Hsame). exact (held_same L _ _ _ _ _ Hsame Hs).
Qed.

Abbreviation enter := (LX_enter_current cti pid tid sizeof_task default_exec_domain do_no_restart_syscall stale_task init_task).

Lemma all_blocks_cons x L T : all_blocks (x :: L) T = list_to_map (entry_blocks x) ∪ all_blocks L T.
Proof. unfold all_blocks. change (blocks (x :: L)) with (entry_blocks x ++ blocks L). by rewrite list_to_map_app, map_union_assoc. Qed.

(** A new entry takes over the two blocks that were allocated for it. *)
Lemma wf_cons n tsk p t f L T : wf L T -> cti ∉ tis_of L -> n <> 0 -> tsk <> 0 ->
  all_blocks L T !! n = None -> (<[n := sizeof_lx_current]> (all_blocks L T) : gmap Z Z) !! tsk = None ->
  has_flag f LXC_FLAG_TSK_MALLOCED = true ->
  let L' := (n, mk_cur p t f cti tsk) :: L in
  wf L' T /\ all_blocks L' T = <[tsk := sizeof_task]> (<[n := sizeof_lx_current]> (all_blocks L T)).
Proof.
  intros Hw Hc Hn0 Ht0 Hn [Ht Hnt]%lookup_insert_None Hf. cbn zeta.
  destruct (all_blocks_fresh _ _ _ Hw Hn) as (Hn1 & Hn2 & Hn3).
  destruct (all_blocks_fresh _ _ _ Hw Ht) as (Ht1 & Ht2 & Ht3).
  assert (Hb : entry_blocks (n, mk_cur p t f cti tsk) = [(n, sizeof_lx_current); (tsk, sizeof_task)]).
  { unfold entry_blocks. cbn [snd current_flags]. by rewrite Hf. }
  split.
  - destruct Hw. split; try done.
    + change (blocks (_ :: L)) with (entry_blocks (n, mk_cur p t f cti tsk) ++ blocks L). rewrite Hb. cbn.
      apply NoDup_cons. split; [|apply NoDup_cons; done]. intros [->|?]%elem_of_cons; done.
    + change (blocks (_ :: L)) with (entry_blocks (n, mk_cur p t f cti tsk) ++ blocks L). rewrite Hb. cbn.
      by repeat constructor.
    + apply NoDup_cons. done.
    + apply NoDup_cons. done.
    + by constructor.
    + constructor; [|done]. cbn. rewrite Hf. by split_and!.
  - rewrite all_blocks_cons, Hb. cbn [list_to_map foldr fst snd uncurry]. rewrite <- !insert_union_l, map_empty_union.
    by apply insert_insert_ne.
Qed.

Lemma enter_new n L T : wf L T -> cti ∉ tis_of L ->
  total (held (2 + n) (all_blocks L T) L None false) enter
    (fun _ s => exists L', wf L' T /\ held n (all_blocks L' T) L' None false s /\ tis_of L' = cti :: tis_of L).
Proof.
  intros Hw Hc. unfold LX_enter_current.
  eapply total_bind; [apply held_cur_lock|]. intros ?. eapply total_bind; [apply held_find|]. intros x.
  apply total_pure. intros ->.
  assert (Hnone : find_first (is_ti cti) L = None).
  { apply find_first_None, Forall_forall. intros x Hx. apply Z.eqb_neq. intros E. apply Hc. rewrite <- E.
    apply list_elem_of_fmap. eauto. }
  rewrite Hnone. eapply total_bind; [apply held_cur_unlock|]. intros ?.
  eapply held_ti_at; [exact cti_stack|intros s Hs; exact Hs|]. intros i.
  eapply total_bind.
  { apply total_modify. intros s [Hs _]. instantiate (1 := fun _ => held (2 + n) (all_blocks L T) L (Some cti) false).
    by apply held_put_ti, held_me. }
  intros ?. eapply total_bind; [apply held_alloc; done|]. intros p. apply total_pure. intros [Hp Hpf].
  eapply total_bind; [by apply held_alloc|]. intros tsk. apply total_pure. intros [Ht Htf].
  eapply held_ti_at; [exact cti_stack|intros s Hs; exact Hs|]. clear i. intros i.
  set (U := <[tsk := sizeof_task]> (<[p := sizeof_lx_current]> (all_blocks L T))).
  assert (Ho : own_task cti tsk L).
  { apply own_fresh. apply lookup_insert_None in Htf as [Htf _]. by apply (all_blocks_fresh _ _ _ Hw Htf). }
  eapply total_bind; [|intros ?].
  { apply total_modify. intros s [Hs _]. instantiate (1 := fun _ => held n U L (Some cti) false). by apply held_put_ti. }
  eapply total_bind; [|intros ?].
  { apply total_modify. intros s Hs. instantiate (1 := fun _ => there tsk n U L). split; [by apply held_put_task|].
    cbn. by rewrite lookup_insert_eq. }
  apply total_gets. intros init'.
  eapply total_bind.
  { instantiate (1 := fun f s => linked_to tsk n U L s /\ has_flag f LXC_FLAG_TSK_MALLOCED = true).
    intros s [Hs Hi]. destruct (held_init _ _ _ _ _ _ (proj1 Hs)) as [Hi' _]. rewrite Hi' in Hi. subst init'.
    revert s Hs Hi'. intros s Hs _. revert s Hs. destruct (Z.eqb_spec init 0) as [|Hi0]; cbn [negb].
    - eapply total_bind; [by apply there_link_task|]. intros ?. by apply total_ret.
    - eapply total_bind; [by apply init_task_links|]. intros ?. by apply total_ret. }
  intros f. apply total_pure. intros Hf.
  destruct (wf_cons p tsk (u16 pid) (u16 tid) f L T Hw Hc Hp Ht Hpf Htf Hf) as [Hw' HU]. fold U in HU.
  intros s [Hs Hl]. rewrite M_bind_unfold. unfold cur_lock. rewrite (held_lock _ _ _ _ _ _ Hs).
  eexists _, _. split; [reflexivity|]. eexists. split_and!; [exact Hw'| |reflexivity].
  rewrite HU. cbn. rewrite (held_list _ _ _ _ _ _ Hs).
  assert (Hr : held n U L None false s).
  { apply (held_relink tsk); [|done|done]. apply Forall_forall. intros x Hx E. exfalso. apply Hc. rewrite <- E.
    apply list_elem_of_fmap. eauto. }
  destruct Hr. split; try done. constructor; [done|]. done.
Qed.

Lemma has_lor_other f b c : Z.land b c = 0 -> has_flag (Z.lor f b) c = has_flag f c.
Proof. intros Hb. unfold has_flag. by rewrite Z.land_lor_distr_l, Hb, Z.lor_0_r. Qed.

Lemma has_without_other f b c : Z.land b c = 0 -> has_flag (without_flag f b) c = has_flag f c.
Proof.
  intros Hb. unfold has_flag, without_flag. f_equal. f_equal. apply Z.bits_inj'. intros i Hi.
  rewrite !Z.land_spec, Z.lnot_spec by done. assert (E : Z.testbit (Z.land b c) i = false) by by rewrite Hb, Z.bits_0.
  rewrite Z.land_spec in E. destruct (Z.testbit f i), (Z.testbit b i), (Z.testbit c i); done.
Qed.

Lemma find_entry L x : find_first (is_ti cti) L = Some x -> x ∈ L /\ c_thread_info x.2 = cti.
Proof. intros [? Hx]%find_first_elem. split; [done|]. by apply Z.eqb_eq in Hx. Qed.

Lemma enter_again n L T x : wf L T -> find_first (is_ti cti) L = Some x ->
  total (held n (all_blocks L T) L None false) enter
    (fun _ s => exists L', Forall2 same L L' /\ wf L' T /\ held n (all_blocks L' T) L' None false s).
Proof.
  intros Hw Hx. destruct (find_entry _ _ Hx) as [Hin Hti]. destruct x as [nd c]. cbn in Hti.
  pose proof (wf_entries _ _ Hw) as He. rewrite Forall_forall in He. destruct (He _ Hin) as (Ht0 & _ & _). cbn in Ht0.
  pose proof (own_entry nd c L (wf_tasks _ _ Hw) Hin Hti) as Ho.
  pose proof (same_entry nd c L (wf_tis _ _ Hw) Hin Hti) as Hsame.
  unfold LX_enter_current.
  eapply total_bind; [apply held_cur_lock|]. intros ?. eapply total_bind; [apply held_find|]. intros y.
  apply total_pure. intros ->. rewrite Hx. eapply total_bind; [apply held_cur_unlock|]. intros ?.
  eapply held_ti_at; [exact cti_stack|intros s Hs; exact Hs|]. intros i.
  eapply total_bind.
  { instantiate (1 := fun _ => there (c_task c) n (all_blocks L T) L). intros s [Hs Hi].
    pose proof (held_linked _ _ _ _ _ _ Hs) as Hl. rewrite Forall_forall in Hl.
    destruct (Hl _ Hin) as (j & t & Hj & _ & Ht & _); [done|]. cbn in Ht.
    destruct (ti_task i =? 0).
    - eexists _, _. split; [reflexivity|]. split; [by apply held_put_ti, held_me|]. cbn. by rewrite Ht.
    - eexists _, _. split; [reflexivity|]. split; [by apply held_me|]. by rewrite Ht. }
  intros ?. destruct (Z.eqb_spec (c_task c) 0); [done|]. apply total_gets. intros init'.
  assert (Hre : forall s, linked_to (c_task c) n (all_blocks L T) L s -> held n (all_blocks L T) L None false s).
  { intros s [Hs Hl]. by apply (held_relink (c_task c)). }
  intros s [Hs Hi]. destruct (held_init _ _ _ _ _ _ (proj1 Hs)) as [Hi' _]. rewrite Hi' in Hi. subst init'.
  revert s Hs Hi'. intros s Hs _. revert s Hs.
  destruct (Z.eqb_spec init 0) as [|Hi0]; cbn [negb andb]; [|destruct (has_flag _ _); cbn [negb]].
  1-2: eapply total_weaken; [by apply there_link_task|done|]; intros ? s Hs; exists L;
    (split_and!; [apply same_refl|done|by apply Hre]).
  eapply total_bind; [by apply init_task_links|]. intros ?. eapply total_pre; [exact Hre|].
  apply update_flags_held; [|done]. intros z. by apply has_lor_other.
Qed.

(** A thread enters, whether it was inside or not. *)
Lemma enter_total n L T : wf L T ->
  total (held (2 + n) (all_blocks L T) L None false) enter (fun _ s => exists L', wf L' T /\
    held n (all_blocks L' T) L' None false s /\ (list_to_set (tis_of L') : gset Z) = {[ cti ]} ∪ list_to_set (tis_of L)).
Proof.
  intros Hw. destruct (find_first (is_ti cti) L) as [x|] eqn:Ef.
  - eapply total_weaken; [by apply (enter_again n L T x)|by intros s; apply held_le; lia|].
    intros ? s (L' & Hs & Hw' & Hh). exists L'. split_and!; [done|done|].
    destruct (same_lists _ _ Hs) as (_ & -> & _). apply find_entry in Ef as [Hin Hx].
    assert (cti ∈ tis_of L) by (rewrite <- Hx; apply list_elem_of_fmap; eauto). set_solver.
  - eapply total_weaken; [apply (enter_new n L T Hw)|done|].
    + intros (x & -> & Hin)%list_elem_of_fmap. apply find_first_None in Ef. rewrite Forall_forall in Ef.
      specialize (Ef x Hin). unfold is_ti in Ef. cbn in Ef. by rewrite Z.eqb_refl in Ef.
    + intros ? s (L' & Hw' & Hh & E). exists L'. split_and!; [done|done|]. rewrite E. set_solver.
Qed.

Lemma not_utl {A} (k : bool -> M (proc H K) A) n U L me b Q :
  total (held n U L me b) (k false) Q -> total (held n U L me b) (LX_is_utl_current cti ≫= k) Q.
Proof.
  intros Hk s Hs. destruct (Hk s Hs) as (a & s' & E & HQ). exists a, s'. split; [|done].
  pose proof (held_utl _ _ _ _ _ _ Hs) as Hu.
  assert (En : find_first (fun x => u_base x.2 =? cti) (lx_UtlStackRoot (utl s)) = None).
  { apply find_first_None. eapply Forall_impl; [exact Hu|]. intros x Hx. cbn in Hx |- *. apply Z.eqb_neq. intros Ex. apply Hx. by rewrite Ex. }
  assert (Eu : LX_is_utl_current cti s = Ok (false, s)).
  { unfold LX_is_utl_current, LX_find_utlstack_ti, utl_list. mstep. by rewrite En. }
  by rewrite M_bind_unfold, Eu.
Qed.

Lemma enter_init_total n L T : wf L T ->
  total (held (2 + n) (all_blocks L T) L None false)
    (LX_enter_init_current cti pid tid sizeof_task default_exec_domain do_no_restart_syscall stale_task init_task)
    (fun _ s => exists L', wf L' T /\
      held n (all_blocks L' T) L' None false s /\ (list_to_set (tis_of L') : gset Z) = {[ cti ]} ∪ list_to_set (tis_of L)).
Proof.
  intros Hw. apply not_utl. eapply total_bind; [apply held_cur_lock|]. intros ?.
  eapply total_bind; [apply held_find|]. intros x. apply total_pure. intros _.
  eapply (total_bind _ _ _ (fun _ s => exists L1, (Forall2 same L L1 /\ wf L1 T) /\ held (2 + n) (all_blocks L1 T) L1 None true s)).
  { destruct x as [[nd c]|].
    - eapply total_weaken; [apply (update_flags_held nd _ (2 + n) T L)|done|]; [|done|].
      + intros z. by apply has_without_other.
      + intros ? s (L1 & H1' & H2' & H3'). eauto.
    - apply total_ret. intros s Hs. exists L. split; [|done]. split; [apply same_refl|done]. }
  intros ?. apply total_exists. intros L1. intros s [[Hs Hw1] Hh]. revert s Hh.
  change (total (held (2 + n) (all_blocks L1 T) L1 None true) (cur_unlock ≫= fun _ => enter)
    (fun _ s => exists L', wf L' T /\ held n (all_blocks L' T) L' None false s /\
      (list_to_set (tis_of L') : gset Z) = {[ cti ]} ∪ list_to_set (tis_of L))).
  destruct (same_lists _ _ Hs) as (_ & <- & _).
  eapply total_bind; [apply held_cur_unlock|]. intros ?. by apply enter_total.
Qed.

(** ** Leaving *)

Lemma wf_perm L L' T : L ≡ₚ L' -> wf L T -> wf L' T /\ all_blocks L' T = all_blocks L T.
Proof.
  intros Hp []. assert (Hb : blocks L ≡ₚ blocks L') by (unfold blocks; by rewrite Hp).
  split; [|unfold all_blocks; f_equal; symmetry; by apply list_to_map_proper].
  assert (Ht : tis_of L ≡ₚ tis_of L') by by apply Permutation_map.
  assert (Hk : tasks_of L ≡ₚ tasks_of L') by by apply Permutation_map.
  split; rewrite <- ?Hb, <- ?Ht, <- ?Hk; try done; by rewrite <- Hp.
Qed.

(** What an entry owns is not used by the others. *)
Lemma wf_uncons x L T : wf (x :: L) T -> wf L T /\
  Forall (fun b => b.1 <> 0 /\ all_blocks L T !! b.1 = None /\ b.1 ∉ stacks /\ b.1 <> init /\ not_task b.1 L) (entry_blocks x) /\
  NoDup (entry_blocks x).*1.
Proof.
  intros Hw.
  assert (Hw' : wf L T).
  { destruct Hw. change (blocks (x :: L)) with (entry_blocks x ++ blocks L) in *. rewrite fmap_app in *.
    apply NoDup_app in wf_blocks0 as (_ & _ & ?). apply Forall_app in wf_fresh0 as [_ ?].
    apply NoDup_cons in wf_tis0 as [_ ?], wf_tasks0 as [_ ?]. apply Forall_cons in wf_in0 as [_ ?], wf_entries0 as [_ ?].
    by split. }
  split; [done|]. destruct Hw. change (blocks (x :: L)) with (entry_blocks x ++ blocks L) in *. rewrite fmap_app in *.
  apply NoDup_app in wf_blocks0 as (Hnd & Hdis & _). apply Forall_app in wf_fresh0 as [Hf _].
  split; [|done]. apply Forall_forall. intros b Hb.
  assert (Hb1 : b.1 ∈ (entry_blocks x).*1) by (apply list_elem_of_fmap; eauto).
  rewrite Forall_forall in Hf. pose proof (Hf _ Hb1) as HT.
  assert (Hall : all_blocks L T !! b.1 = None).
  { apply lookup_union_None. split; [|done]. apply not_elem_of_list_to_map. by apply Hdis. }
  rewrite Forall_forall in wf_stacks0. apply Forall_cons in wf_entries0 as [(? & ? & _) _].
  assert (H0b : b.1 <> 0).
  { unfold entry_blocks in Hb.
    destruct (has_flag _ _); [apply elem_of_cons in Hb as [->|Hb]; [done|]|];
      by apply list_elem_of_singleton in Hb as ->. }
  split_and!; [done|done| | |].
  - intros Hs. destruct (wf_stacks0 _ Hs). congruence.
  - intros E. rewrite E in HT, H0b. destruct wf_init0 as [?|[? ?]]; congruence.
  - destruct (all_blocks_fresh L T b.1 Hw' Hall) as (_ & _ & Ht). apply Forall_forall. intros y Hy E. apply Ht.
    apply list_elem_of_fmap. eauto.
Qed.

(** The end of a task in the Linux kernel: it runs the scheduler, and meanwhile
    no other thread enters or leaves. *)
Record exits_alone (tsk : Z) (s s' : proc H K) : Prop := {
  exit_list : lx_current_list (cur s') = lx_current_list (cur s);
  exit_lock : lx_current_lock (cur s') = lx_current_lock (cur s);
  exit_utl : utl s' = utl s;
  exit_kheap : kheap s' = kheap s;
  exit_tis : tis s' = tis s;
  exit_init : lx_init_task s' = lx_init_task s;
  exit_tasks : exists t, tasks s' = <[tsk := t]> (tasks s)
}.
Context (exits : forall tsk s, lx_current_lock (cur s) = false ->
  exists s', exit_current_exit tsk s = Ok (tt, s') /\ exits_alone tsk s s').

Lemma held_exit tsk n U L me : not_task tsk L ->
  total (held n U L me false) (LX_exit_task exit_current_exit tsk) (fun _ => held n U L me false).
Proof.
  intros Ht s Hs. destruct (exits tsk s (held_lock _ _ _ _ _ _ Hs)) as (s' & E & [E1 E2 E3 E4 E5 E6 [t E7]]).
  exists tt, s'. split; [done|]. destruct Hs. split; rewrite ?E1, ?E2, ?E3, ?E4, ?E5, ?E6; try done.
  - unfold not_task in Ht. rewrite Forall_forall in *. intros x Hx Hne.
    destruct (held_linked0 x Hx Hne) as (i & t' & H1' & H2' & H3' & H4'). exists i, t'.
    rewrite E5, E7, lookup_insert_ne; [done|]. by apply not_eq_sym, Ht.
  - destruct held_init0 as [? [?|?]]; split; [done|by left|done|]. right. rewrite E7.
    destruct (decide (tsk = init)) as [->|]; [by rewrite lookup_insert_eq|by rewrite lookup_insert_ne].
Qed.

Lemma held_forget tsk n U L me :
  total (held n U L me false) (forget_running tsk) (fun _ => held n U L me false).
Proof.
  apply total_get. intros s0. destruct (_ =? _); [|by apply total_ret].
  eapply total_bind; [apply held_cur_lock|]. intros ?.
  eapply total_bind; [|intros ?; apply held_cur_unlock].
  apply total_modify. intros s Hs. eapply (held_seen _ _ _ _ _ s); done.
Qed.

Lemma free_owned p sz n U L me : on_stacks L ->
  p <> 0 -> p ∉ stacks -> p <> init -> not_task p L -> U !! p = None ->
  total (held n (<[p := sz]> U) L me false) (free p) (fun _ => held n U L me false).
Proof.
  intros Hon Hp Hs Hi Ht Hu. eapply total_weaken; [apply (held_free p n (<[p := sz]> U)); try done|done|].
  - by rewrite lookup_insert_eq.
  - intros ? s Hh. by rewrite delete_insert_id in Hh.
Qed.

(** A thread that is not in the list. *)
Lemma held_absent n U L b s : cti ∉ tis_of L -> held n U L (Some cti) b s -> held n U L None b s.
Proof.
  intros Hc []. split; try done. rewrite Forall_forall in *. intros x Hx _. apply held_linked0; [done|].
  intros [= E]. apply Hc. rewrite <- E. apply list_elem_of_fmap. eauto.
Qed.

(** The thread_info of a thread that is not in the list. *)
Lemma put_own_ti i n U L : cti ∉ tis_of L ->
  total (held n U L None false) (put_ti cti i) (fun _ s => held n U L None false s /\ tis s !! cti = Some i).
Proof.
  intros Hc. apply total_modify. intros s Hs. split; [by apply held_absent, held_put_ti, held_me|].
  cbn. by rewrite lookup_insert_eq.
Qed.

(** Nodes are distinct, so an entry is the first with its node. *)
Lemma find_node L T nd c : wf L T -> (nd, c) ∈ L -> find_first (is_node nd) L = Some (nd, c).
Proof.
  intros Hw Hin. pose proof (wf_blocks _ _ Hw) as Hnd. clear Hw. induction L as [|y L IH]; [by apply not_elem_of_nil in Hin|].
  change (blocks (y :: L)) with (entry_blocks y ++ blocks L) in Hnd. rewrite fmap_app in Hnd.
  apply NoDup_app in Hnd as (_ & Hdis & Hnd). cbn [find_first]. unfold is_node at 1. apply elem_of_cons in Hin as [<-|Hin].
  - cbn [fst]. by rewrite Z.eqb_refl.
  - destruct (Z.eqb_spec y.1 nd) as [E|]; [|auto]. exfalso. apply (Hdis y.1).
    + unfold entry_blocks. cbn. apply list_elem_of_here.
    + apply list_elem_of_fmap. exists (nd, sizeof_lx_current). split; [done|]. apply list_elem_of_bind. exists (nd, c).
      split; [|done]. apply list_elem_of_here.
Qed.

Lemma find_absent L : find_first (is_ti cti) L = None -> cti ∉ tis_of L.
Proof.
  intros Ef (x & Hx & Hin)%list_elem_of_fmap. apply find_first_None in Ef. rewrite Forall_forall in Ef.
  specialize (Ef x Hin). unfold is_ti in Ef. cbn in Ef, Hx. by rewrite <- Hx, Z.eqb_refl in Ef.
Qed.

(** The blocks of an entry are given back. *)
Lemma free_entry x n L T : wf (x :: L) T -> c_thread_info x.2 = cti ->
  total (held n (all_blocks (x :: L) T) L None false)
    ((if has_flag (current_flags x.2) LXC_FLAG_TSK_MALLOCED
      then free (c_task x.2) ≫= fun _ => i ← ti_at cti; put_ti cti (set_ti_task 0 i) else mret tt) ≫= fun _ =>
     free x.1 ≫= fun _ => put_ti cti zero_ti)
    (fun _ s => held n (all_blocks L T) L None false s /\ tis s !! cti = Some zero_ti).
Proof.
  intros Hw Hx. pose proof (wf_tis _ _ Hw) as Ht. apply NoDup_cons in Ht as [Hc _]. rewrite Hx in Hc.
  fold (tis_of L) in Hc. destruct (wf_uncons _ _ _ Hw) as (Hw' & Hb & Hnd).
  assert (Hend : total (held n (<[x.1 := sizeof_lx_current]> (all_blocks L T)) L None false)
    (free x.1 ≫= fun _ => put_ti cti zero_ti)
    (fun _ s => held n (all_blocks L T) L None false s /\ tis s !! cti = Some zero_ti)).
  { unfold entry_blocks in Hb. apply Forall_cons in Hb as [(H1' & H2' & H3' & H4' & H5') _]. cbn in *.
    eapply total_bind; [apply free_owned; try done; by eapply wf_on|]. intros ?.
    by apply put_own_ti. }
  rewrite all_blocks_cons. unfold entry_blocks in *. destruct (has_flag _ _) eqn:Ef.
  - apply Forall_cons in Hb as [_ Hb]. apply Forall_cons in Hb as [(H1' & H2' & H3' & H4' & H5') _]. cbn in H1', H2', H3', H4', H5'.
    cbn [list_to_map foldr fst snd uncurry]. rewrite <- !insert_union_l, map_empty_union.
    assert (Hne : c_task x.2 <> x.1).
    { cbn in Hnd. apply NoDup_cons in Hnd as [Hn _]. intros E. apply Hn. rewrite E. apply list_elem_of_here. }
    rewrite (insert_insert_ne _ x.1) by done.
    apply (total_bind _ _ _ (fun _ => held n (<[x.1 := sizeof_lx_current]> (all_blocks L T)) L None false)); [|intros ?; exact Hend].
    eapply total_bind; [apply free_owned; try done; [by eapply wf_on|by rewrite lookup_insert_ne]|]. intros ?.
    eapply held_ti_at; [exact cti_stack|intros s Hs; exact Hs|]. intros i.
    eapply total_weaken; [by apply (put_own_ti _ n (<[x.1 := sizeof_lx_current]> (all_blocks L T)) L)|by intros s [Hs _]|]. by intros ? s [Hs _].
  - cbn [list_to_map foldr fst snd uncurry]. rewrite <- !insert_union_l, map_empty_union.
    exact Hend.
Qed.

Abbreviation leave := (LX_leave_current cti exit_current_exit).

(** A thread that is inside leaves: its entry and its memory go, and its
    thread_info is cleared. *)
Lemma leave_total n L T : wf L T ->
  total (held n (all_blocks L T) L None false) leave (fun _ s => exists L', wf L' T /\
    held n (all_blocks L' T) L' None false s /\ (list_to_set (tis_of L') : gset Z) = list_to_set (tis_of L) ∖ {[ cti ]} /\
    (cti ∈ tis_of L -> tis s !! cti = Some zero_ti)).
Proof.
  intros Hw. apply not_utl. eapply total_bind; [apply held_cur_lock|]. intros ?.
  eapply total_bind; [apply held_find|]. intros y. apply total_pure. intros ->.
  destruct (find_first (is_ti cti) L) as [[nd c]|] eqn:Ef.
  - destruct (find_entry _ _ Ef) as [Hin Hti]. cbn in Hti.
    pose proof (wf_entries _ _ Hw) as He. rewrite Forall_forall in He. destruct (He _ Hin) as (Ht0 & _ & _). cbn in Ht0.
    destruct (Z.eqb_spec (c_task c) 0); [done|]. apply held_cur_list.
    assert (Hrm : L ≡ₚ (nd, c) :: remove_first (is_node nd) L).
    { apply remove_first_perm. by apply (find_node L T). }
    set (L' := remove_first (is_node nd) L) in *.
    destruct (wf_perm _ _ T Hrm Hw) as [Hw1 HU]. rewrite <- HU.
    destruct (wf_uncons _ _ _ Hw1) as (Hw' & _ & _).
    assert (Hnt : not_task (c_task c) L').
    { pose proof (wf_tasks _ _ Hw1) as Hk. apply NoDup_cons in Hk as [Hk _]. apply Forall_forall. intros x Hx E.
      apply Hk. cbn. rewrite <- E. apply list_elem_of_fmap. eauto. }
    eapply (total_bind _ _ _ (fun _ => held n (all_blocks ((nd, c) :: L') T) L' None true)).
    { apply total_modify. intros s Hs. pose proof (held_linked _ _ _ _ _ _ Hs) as Hl.
      apply (held_set_list L' _ _ L); [done|]. rewrite Hrm in Hl. apply Forall_cons in Hl as [_ Hl].
      eapply Forall_impl; [exact Hl|]. intros x Hx. by apply Hx. }
    intros ?. eapply total_bind; [apply held_cur_unlock|]. intros ?. apply total_gets. intros av.
    eapply (total_bind _ _ _ (fun _ => held n (all_blocks ((nd, c) :: L') T) L' None false)).
    { eapply total_pre; [by intros s [Hs _]|]. destruct (_ && _); [|by apply total_ret].
      eapply total_bind; [apply held_forget|]. intros ?. by apply held_exit. }
    intros ?. eapply total_weaken; [exact (free_entry (nd, c) n L' T Hw1 Hti)|done|].
    intros ? s [Hs Hz]. exists L'. split_and!; [done|done| |done].
    assert (Hp : tis_of L ≡ₚ tis_of ((nd, c) :: L')) by by apply Permutation_map.
    rewrite Hp.
    pose proof (wf_tis _ _ Hw1) as Ht. apply NoDup_cons in Ht as [Ht _]. cbn in *. rewrite Hti in *. fold (tis_of L') in *.
    set_solver.
  - eapply total_weaken; [apply held_cur_unlock|done|]. intros ? s Hs. exists L. split_and!; [done|done| |].
    + by apply find_absent in Ef; set_solver.
    + intros Hin. by apply find_absent in Ef.
Qed.
End Thread.

(** ** Many threads *)

(** The state between operations: the threads inside are [ins]; memory holds
    [T] and what the entries own; [n] allocations more are possible. *)
Definition tables (n : nat) T (ins : gset Z) (s : proc H K) : Prop :=
  exists L, wf L T /\ held n (all_blocks L T) L None false s /\ list_to_set (tis_of L) = ins.

Inductive thread_op := Enter | EnterInit | Leave.

Record thread_call := mk_call { by_ti : Z; by_pid : Z; by_tid : Z; the_op : thread_op }.

Context (default_exec_domain do_no_restart_syscall init_task : Z) (stale_task : Z -> task_struct).
Context (exit_current_exit : Z -> M (proc H K) unit).

Definition run_thread (c : thread_call) : M (proc H K) unit :=
  match the_op c with
  | Enter => LX_enter_current (by_ti c) (by_pid c) (by_tid c) sizeof_task default_exec_domain do_no_restart_syscall stale_task init_task
  | EnterInit => LX_enter_init_current (by_ti c) (by_pid c) (by_tid c) sizeof_task default_exec_domain do_no_restart_syscall stale_task init_task
  | Leave => LX_leave_current (by_ti c) exit_current_exit
  end.

Fixpoint run_threads (cs : list thread_call) : M (proc H K) unit :=
  match cs with [] => mret tt | c :: cs => run_thread c ≫= fun _ => run_threads cs end.

Definition inside_after (c : thread_call) (ins : gset Z) : gset Z :=
  match the_op c with Leave => ins ∖ {[ by_ti c ]} | _ => {[ by_ti c ]} ∪ ins end.

Context (pid_not_1 : forall from p flags (k : K) pid k', copy_process from p flags k = (inr pid, k') -> pid <> 1).
Context (exits : forall tsk (s : proc H K), lx_current_lock (cur s) = false ->
  exists s', exit_current_exit tsk s = Ok (tt, s') /\ exits_alone tsk s s').

Lemma run_thread_tables c n T ins : by_ti c ∈ stacks ->
  total (tables (2 + n) T ins) (run_thread c) (fun _ => tables n T (inside_after c ins)).
Proof.
  intros Hc. apply total_exists. intros L. intros s (Hw & Hs & <-). revert s Hs.
  unfold run_thread, inside_after. destruct (the_op c).
  - eapply total_weaken; [by apply (enter_total (by_ti c))|done|]. intros ? s (L' & Hw' & Hh & HL). by exists L'.
  - eapply total_weaken; [by apply (enter_init_total (by_ti c))|done|]. intros ? s (L' & Hw' & Hh & HL). by exists L'.
  - apply (total_pre _ _ (held n (all_blocks L T) L None false)); [intros s; apply held_le; lia|].
    eapply total_weaken; [by apply (leave_total (by_ti c))|done|].
    intros ? s (L' & Hw' & Hh & HL & _). by exists L'.
Qed.

Lemma run_threads_tables cs : forall n T ins, Forall (fun c => by_ti c ∈ stacks) cs ->
  total (tables (2 * length cs + n) T ins) (run_threads cs) (fun _ => tables n T (fold_left (fun i c => inside_after c i) cs ins)).
Proof.
  induction cs as [|c cs IH]; intros n T ins Hcs; cbn [run_threads fold_left]; [by apply total_ret|].
  apply Forall_cons in Hcs as [Hc Hcs].
  eapply total_bind; [|intros ?; by apply IH].
  eapply total_pre; [|by apply run_thread_tables]. intros s Hs. by replace (2 + _)%nat with (2 * length (c :: cs) + n)%nat by (cbn; lia).
Qed.

End Tables.

(** ** Stacks that are to be freed *)

Section Utl.
Context {H K : Type} `{HeapLaws H} `{Sched K}.
Implicit Types (l : list (Z * UTLStack)) (s : proc H K).

Definition victims l : list (Z * UTLStack) := base.filter (fun x => freeme x.2 = true) l.
(** The stack and the node of an entry. *)
Definition utl_blocks l : list Z := l ≫= fun x => [u_base x.2; x.1].

(** The entries that stay in [l], and the memory without the blocks of the others. *)
Record freed l (U : gmap Z Z) s : Prop := {
  freed_list : lx_UtlStackRoot (utl s) = base.filter (fun x => freeme x.2 = false) l;
  freed_lock : lx_utlstack_lock (utl s) = true;
  freed_ok : heap_ok (kheap s);
  freed_used : forall p, used (kheap s) !! p = if decide (p ∈ utl_blocks (victims l)) then None else U !! p
}.

(** What the walk needs: nodes are distinct, and the blocks are in use. *)
Record utl_wf l (U : gmap Z Z) : Prop := {
  utl_nodes : NoDup l.*1;
  utl_distinct : NoDup (utl_blocks (victims l));
  utl_used : Forall (fun p => p <> 0 /\ is_Some (U !! p)) (utl_blocks (victims l))
}.

Lemma free_used p s : heap_ok (kheap s) -> p <> 0 -> is_Some (used (kheap s) !! p) ->
  exists s', free p s = Ok (tt, s') /\ heap_ok (kheap s') /\ used (kheap s') = delete p (used (kheap s)) /\ utl s' = utl s.
Proof.
  intros Ho Hp Hu. destruct (kfree_laws p (kheap s) Ho Hu) as [Ho' Hu']. eexists. split; [reflexivity|].
  destruct (Z.eqb_spec p 0); [done|]. done.
Qed.

Lemma victims_app l1 l2 : Forall (fun x => freeme x.2 = false) l1 -> victims (l1 ++ l2) = victims l2.
Proof.
  intros Hl. unfold victims. rewrite filter_app. replace (base.filter _ l1) with (@nil (Z * UTLStack)); [done|].
  induction Hl as [|x l1 Hx _ IH]; [done|]. rewrite filter_cons_False; [done|]. cbn. by rewrite Hx.
Qed.

Lemma keepers_app l1 l2 : Forall (fun x => freeme x.2 = false) l1 ->
  base.filter (fun x : Z * UTLStack => freeme x.2 = false) (l1 ++ l2) = l1 ++ base.filter (fun x => freeme x.2 = false) l2.
Proof.
  intros Hl. rewrite filter_app. f_equal. induction Hl as [|x l1 Hx _ IH]; [done|]. by rewrite filter_cons_True, IH.
Qed.

Lemma victims_cons n u l : freeme u = true -> victims ((n, u) :: l) = (n, u) :: victims l.
Proof. intros E. unfold victims. by rewrite filter_cons_True. Qed.

(** The list and the memory after one entry is gone. *)
Lemma utl_wf_remove pre n u next (U : gmap Z Z) :
  utl_wf (pre ++ (n, u) :: next) U -> Forall (fun x => freeme x.2 = false) pre -> freeme u = true ->
  remove_first (is_node n) (pre ++ (n, u) :: next) = pre ++ next /\
  (u_base u <> 0 /\ is_Some (U !! u_base u)) /\ (n <> 0 /\ is_Some (delete (u_base u) U !! n)) /\
  utl_wf (pre ++ next) (delete n (delete (u_base u) U)).
Proof.
  intros [Hn Hd Hu] Hpre Ev. rewrite victims_app, victims_cons in Hd, Hu by done.
  change (utl_blocks ((n, u) :: victims next)) with (u_base u :: n :: utl_blocks (victims next)) in *.
  apply NoDup_cons in Hd as [Hd1 Hd]. apply NoDup_cons in Hd as [Hd2 Hd].
  apply Forall_cons in Hu as [[Hb0 Hb] Hu]. apply Forall_cons in Hu as [[Hn0 Hnu] Hu].
  rewrite fmap_app in Hn. cbn in Hn. apply NoDup_app in Hn as (Hn1 & Hn2 & Hn3). apply NoDup_cons in Hn3 as [Hn3 Hn4].
  split_and!; try done.
  - apply remove_first_app; [|unfold is_node; cbn; by rewrite Z.eqb_refl]. apply Forall_forall. intros x Hx.
    apply Z.eqb_neq. intros E. apply (Hn2 n); [|apply list_elem_of_here]. rewrite <- E. apply list_elem_of_fmap. eauto.
  - rewrite lookup_delete_ne; [done|]. intros E. apply Hd1. rewrite E. apply list_elem_of_here.
  - split.
    + rewrite fmap_app. apply NoDup_app. split_and!; [done| |done]. intros x Hx Hy. apply (Hn2 x Hx). by apply list_elem_of_further.
    + by rewrite victims_app.
    + rewrite victims_app by done. rewrite Forall_forall in *. intros q Hq. destruct (Hu q Hq) as [? ?]. split; [done|].
      rewrite !lookup_delete_ne; [done| |].
      * intros E. apply Hd1. rewrite E. by apply list_elem_of_further.
      * intros E. by rewrite E in Hd2.
Qed.

Lemma freeme_loop_frees fuel : forall pre p (U : gmap Z Z) s,
  utl_wf (pre ++ p) U -> Forall (fun x => freeme x.2 = false) pre ->
  (length (victims p) * S (length (pre ++ p)) + length p < fuel)%nat ->
  lx_UtlStackRoot (utl s) = pre ++ p -> lx_utlstack_lock (utl s) = true -> heap_ok (kheap s) -> used (kheap s) = U ->
  exists s', freeme_loop fuel p s = Ok (tt, s') /\ freed (pre ++ p) U s'.
Proof.
  induction fuel as [|fuel IH]; intros pre p U s Hw Hpre Hf Hroot Hlock Ho Hu; [lia|].
  destruct p as [|[n u] next]; cbn [freeme_loop].
  - exists s. split; [done|]. assert (Hv : victims (pre ++ []) = []) by by rewrite victims_app.
    split; [|done|done|].
    + rewrite Hroot, keepers_app by done. done.
    + intros q. rewrite Hv, Hu. cbn. done.
  - destruct (freeme u) eqn:Ev.
    + destruct (utl_wf_remove pre n u next U Hw Hpre Ev) as (Hrm & [Hb0 Hb] & [Hn0 Hnu] & Hw').
      rewrite victims_cons in Hf by done. rewrite !length_app in Hf. cbn [length] in Hf.
      rewrite M_bind_unfold. cbn. rewrite Hroot, Hrm. do 2 (rewrite M_bind_unfold; cbn).
      match goal with |- context [(free (u_base u) ≫= _) ?x] => destruct (free_used (u_base u) x) as (s1 & E1 & Ho1 & Hu1 & Hl1) end;
        [done|done|by cbn; rewrite Hu|].
      rewrite M_bind_unfold, E1.
      destruct (free_used n s1) as (s2 & E2 & Ho2 & Hu2 & Hl2); [done|done|by rewrite Hu1; cbn; rewrite Hu|].
      rewrite M_bind_unfold, E2, M_bind_unfold. unfold utl_lock. rewrite Hl2, Hl1. cbn.
      rewrite M_bind_unfold. cbn.
      match goal with |- context [freeme_loop fuel _ ?x] => destruct (IH [] (pre ++ next) (delete n (delete (u_base u) U)) x)
        as (s' & E' & [F1 F2 F3 F4]) end; try done.
      * rewrite victims_app by done. cbn [app]. rewrite length_app. nia.
      * cbn. by rewrite Hu2, Hu1, <- Hu.
      * exists s'. split; [done|]. cbn [app] in *. rewrite victims_app in F4 by done. split; [|done|done|].
        -- rewrite F1, !keepers_app by done. f_equal. rewrite filter_cons_False; [done|]. cbn. by rewrite Ev.
        -- intros q. rewrite F4, victims_app, victims_cons by done.
           change (utl_blocks ((n, u) :: victims next)) with (u_base u :: n :: utl_blocks (victims next)).
           destruct (decide (q ∈ utl_blocks (victims next))).
           { rewrite decide_True; [done|]. by do 2 apply list_elem_of_further. }
           destruct (decide (q = n)) as [->|Hqn].
           { rewrite lookup_delete_eq, decide_True; [done|]. apply list_elem_of_further, list_elem_of_here. }
           rewrite lookup_delete_ne by done. destruct (decide (q = u_base u)) as [->|Hqb].
           { rewrite lookup_delete_eq, decide_True; [done|]. apply list_elem_of_here. }
           rewrite lookup_delete_ne, decide_False; [done| |done]. by intros [?|[?|?]%elem_of_cons]%elem_of_cons.
    + assert (Hass : pre ++ (n, u) :: next = (pre ++ [(n, u)]) ++ next) by by rewrite <- app_assoc.
      rewrite Hass in *. apply IH; try done.
      * apply Forall_app. split; [done|]. by constructor.
      * unfold victims in Hf at 1. rewrite filter_cons_False in Hf by (cbn; by rewrite Ev). cbn [length] in Hf.
        fold (victims next) in Hf. lia.
Qed.

(** C18: Freeing the stacks of programs that have ended terminates, although
    the walk starts again after every entry: exactly the entries that are to
    be freed and not in use leave the list, the others keep their order, and
    the stack and the node of each are freed, and nothing else. *)
Theorem check_utl_freeme_frees (s : proc H K) :
  let l := lx_UtlStackRoot (utl s) in
  utl_wf l (used (kheap s)) -> lx_utlstack_lock (utl s) = false -> heap_ok (kheap s) ->
  exists s', LX_check_utl_freeme s = Ok (tt, s') /\
    lx_UtlStackRoot (utl s') = base.filter (fun x => freeme x.2 = false) l /\
    lx_utlstack_lock (utl s') = false /\ heap_ok (kheap s') /\
    forall p, used (kheap s') !! p = if decide (p ∈ utl_blocks (victims l)) then None else used (kheap s) !! p.
Proof.
  cbn zeta. intros Hw Hl Ho. set (l := lx_UtlStackRoot (utl s)) in *. set (s0 := set_utl (mk_utls l true) s).
  destruct (freeme_loop_frees (S (length l) * S (length l)) [] l (used (kheap s)) s0) as (s' & E & [F1 F2 F3 F4]); try done.
  { cbn [app]. assert (length (victims l) <= length l)%nat by apply length_filter. nia. }
  unfold LX_check_utl_freeme. rewrite (M_bind_val utl_lock _ s tt s0) by (unfold utl_lock; by rewrite Hl).
  rewrite (M_bind_val utl_list _ s0 l s0) by done. rewrite (M_bind_val _ _ _ _ _ E). eexists. split; [reflexivity|]. done.
Qed.
End Utl.

(** ** Interrupts and the running task *)

Section Running.
Context {H K : Type} `{Heap H} `{Sched K}.
Context (cti init_task init_thread_info : Z).
Implicit Types s : proc H K.

Lemma ti_at_Some p i s : tis s !! p = Some i -> ti_at p s = Ok (i, s).
Proof. intros E. unfold ti_at. by rewrite E. Qed.
Lemma task_at_Some p t s : tasks s !! p = Some t -> task_at p s = Ok (t, s).
Proof. intros E. unfold task_at. by rewrite E. Qed.

(** The thread_info an interrupt of a running task borrows. *)
Lemma irq_ti_running ti i s : lx_current_thread_info (cur s) = ti -> ti <> 0 -> tis s !! ti = Some i -> cpu i <= NR_CPUS ->
  irq_ti init_thread_info s = Ok (ti, s).
Proof.
  intros Hti H0' Hi Hcpu. unfold irq_ti. rewrite M_bind_unfold. cbn. rewrite Hti. destruct (Z.eqb_spec ti 0); [done|].
  rewrite (M_bind_val _ _ _ _ _ (ti_at_Some _ _ _ Hi)). by destruct (Z.ltb_spec NR_CPUS (cpu i)); [lia|].
Qed.

(** What happens on the stack of an interrupt to the thread_info that stands
    for the task's own. *)
Definition in_interrupt (f : thread_info -> thread_info) : M (proc H K) unit :=
  LX_enter_irq_current cti init_thread_info ≫= fun _ =>
  i ← ti_at cti; put_ti cti (f i) ≫= fun _ => LX_leave_irq_current cti init_task init_thread_info.

(** An interrupt runs as the task it interrupted: what it does to the
    thread_info on its own stack is in the task's own afterwards, and the
    two are linked again. *)
Theorem interrupt_borrows_task (f : thread_info -> thread_info) (ti tsk : Z) (i : thread_info) (t : task_struct) (s : proc H K) :
  lx_current_thread_info (cur s) = ti -> lx_current_task (cur s) = tsk -> ti <> 0 -> cti <> ti -> ti <> init_thread_info ->
  tis s !! ti = Some i -> ti_task i = tsk -> cpu i <= NR_CPUS -> tasks s !! tsk = Some t ->
  exists s', in_interrupt f s = Ok (tt, s') /\ cur s' = cur s /\
    tis s' = <[ti := set_ti_task tsk (f i)]> (<[cti := f i]> (tis s)) /\
    tasks s' = <[tsk := set_t_ti ti t]> (tasks s).
Proof.
  intros Hti Htsk H0' Hne Hinit Hi Hit Hcpu Ht. unfold in_interrupt, LX_enter_irq_current.
  rewrite M_bind_unfold, (M_bind_val _ _ _ _ _ (irq_ti_running ti i s Hti H0' Hi Hcpu)).
  destruct (Z.eqb_spec cti ti); [done|]. rewrite (M_bind_val _ _ _ _ _ (ti_at_Some _ _ _ Hi)).
  set (s1 := set_mem (kheap s) (<[cti := i]> (tis s)) (tasks s) s).
  rewrite (M_bind_val (put_ti cti i) _ s tt s1) by done.
  rewrite Hit. rewrite (M_bind_val _ _ s1 t s1) by by apply task_at_Some.
  set (s2 := set_mem (kheap s) (<[cti := i]> (tis s)) (<[tsk := set_t_ti cti t]> (tasks s)) s).
  change (put_task tsk (set_t_ti cti t) s1) with (@Ok (unit * proc H K) (tt, s2)).
  cbn match. rewrite (M_bind_val _ _ s2 i s2) by (apply ti_at_Some; cbn; by rewrite lookup_insert_eq).
  set (s3 := set_mem (kheap s) (<[cti := f i]> (<[cti := i]> (tis s))) (<[tsk := set_t_ti cti t]> (tasks s)) s).
  rewrite (M_bind_val _ _ s2 tt s3) by done. unfold LX_leave_irq_current.
  assert (Hi3 : tis s3 !! ti = Some i) by (cbn; by rewrite !lookup_insert_ne).
  rewrite (M_bind_val _ _ _ _ _ (irq_ti_running ti i s3 Hti H0' Hi3 Hcpu)). destruct (Z.eqb_spec cti ti); [done|].
  rewrite (M_bind_val _ _ s3 (f i) s3) by (apply ti_at_Some; cbn; by rewrite lookup_insert_eq).
  set (s4 := set_mem (kheap s) (<[ti := f i]> (<[cti := f i]> (<[cti := i]> (tis s)))) (<[tsk := set_t_ti cti t]> (tasks s)) s).
  rewrite (M_bind_val _ _ s3 tt s4) by done. destruct (Z.eqb_spec ti init_thread_info); [done|].
  rewrite (M_bind_val (gets cur) _ s4 (cur s) s4) by done. rewrite Hti, Htsk.
  rewrite (M_bind_val _ _ s4 (f i) s4) by (apply ti_at_Some; cbn; by rewrite lookup_insert_eq).
  rewrite M_bind_unfold. cbn.
  rewrite M_bind_unfold. unfold task_at. cbn. rewrite lookup_insert_eq. cbn. eexists. split; [reflexivity|]. cbn.
  rewrite !insert_insert_eq. done.
Qed.

(** ** Switching tasks *)

Definition with_cur L E tsk ti s : proc H K := set_cur (mk_currents L E false tsk ti) s.
Notation list_of s := (lx_current_list (cur s)).
Notation exits_of s := (lx_exit_list (cur s)).

Lemma current_of i s : tis s !! cti = Some i -> current cti s = Ok (ti_task i, s).
Proof. intros E. unfold current. by rewrite (M_bind_val _ _ _ _ _ (ti_at_Some _ _ _ E)). Qed.

Lemma set_current_ok tsk t s :
  lx_current_lock (cur s) = false -> tasks s !! tsk = Some t -> tsk <> 0 -> t_thread_info t <> 0 ->
  LX_set_current_task tsk s = Ok (tt, with_cur (list_of s) (exits_of s) tsk (t_thread_info t) s).
Proof.
  intros Hl Ht H0' Hti. unfold LX_set_current_task. rewrite M_bind_unfold. unfold cur_lock. rewrite Hl. cbn match.
  unfold ti_of_task. destruct (Z.eqb_spec tsk 0); [done|].
  set (s1 := set_cur _ s). assert (Ht1 : tasks s1 !! tsk = Some t) by done.
  rewrite (M_bind_val _ _ s1 (t_thread_info t) s1) by by rewrite (M_bind_val _ _ _ _ _ (task_at_Some _ _ _ Ht1)).
  destruct (Z.eqb_spec (t_thread_info t) 0); [done|]. reflexivity.
Qed.

(** The part of a switch that comes after the other task was started. *)
Definition after_run (pc prev next : Z) (ex : bool) : M (proc H K) Z :=
  LX_free_unused_task_structs ≫= fun _ =>
  cur_lock ≫= fun _ =>
  do_exit_me ← (if negb ex then ti ← ti_of_task pc; set_running pc ti ≫= fun _ => mret false
                else
                  tsk ← next_running prev next; ti ← ti_of_task tsk; set_running tsk ti ≫= fun _ =>
                  p ← LX_get_lxcurrent_from_tsk pc;
                  mret (match p with Some x => has_flag (current_flags x.2) LXC_FLAG_TSK_REGULAR_EXIT | None => false end));
  cur_unlock ≫= fun _ =>
  (if do_exit_me : bool then LX_DoTaskExit cti else mret tt) ≫= fun _ => mret prev.

Lemma switch_to_after i t prev next s :
  tis s !! cti = Some i -> tasks s !! ti_task i = Some t -> ti_task i <> 0 -> t_thread_info t <> 0 ->
  lx_current_lock (cur s) = false ->
  let ex := (t_state t =? TASK_DEAD) || (t_state t =? TASK_ZOMBIE) in
  exists k, LX_switch_to cti prev next s =
    after_run (ti_task i) prev next ex (set_kern k (with_cur (list_of s) (exits_of s) (ti_task i) (t_thread_info t) s)).
Proof.
  intros Hi Ht H0' Hti Hl ex. unfold LX_switch_to.
  rewrite (M_bind_val _ _ _ _ _ (current_of _ _ Hi)), (M_bind_val _ _ _ _ _ (task_at_Some _ _ _ Ht)).
  fold ex. rewrite (M_bind_val _ _ _ _ _ (set_current_ok _ _ _ Hl Ht H0' Hti)).
  set (s1 := with_cur _ _ _ _ s).
  assert (Hk : exists k, (if prev =? next then mret tt else on_kern (DevRun next) ≫= fun _ => k ← gets kern;
    if negb (in_ISR k) && negb ex then on_kern (DevBlock prev) else mret tt) s1 = Ok (tt, set_kern k s1)).
  { destruct (prev =? next); [by exists (kern s)|]. rewrite M_bind_unfold. cbn. rewrite M_bind_unfold. cbn.
    destruct (negb _ && negb _); eexists; reflexivity. }
  destruct Hk as [k Hk]. exists k. by rewrite (M_bind_val _ _ _ _ _ Hk).
Qed.

(** A task that has ended by itself switches to another: that one is the
    running task, and the entry of the ended one waits to be freed. *)
Lemma switch_ended i t n c u prev next s :
  tis s !! cti = Some i -> tasks s !! ti_task i = Some t -> ti_task i <> 0 -> t_thread_info t <> 0 ->
  lx_current_lock (cur s) = false -> (t_state t =? TASK_DEAD) || (t_state t =? TASK_ZOMBIE) = true ->
  find_first (is_task (ti_task i)) (list_of s) = Some (n, c) ->
  has_flag (current_flags c) LXC_FLAG_TSK_REGULAR_EXIT = true ->
  prev <> next -> next <> 0 -> tasks s !! next = Some u -> exits_of s = [] ->
  exists k, LX_switch_to cti prev next s =
    Ok (prev, set_kern k (with_cur (remove_first (is_node n) (list_of s)) [(n, c)] next (t_thread_info u) s)).
Proof.
  intros Hi Ht H0' Hti Hl Hex Hf Hr Hpn Hn0 Hu He.
  destruct (switch_to_after i t prev next s Hi Ht H0' Hti Hl) as [k ->]. rewrite Hex. set (s1 := set_kern k _).
  unfold after_run. rewrite (M_bind_val _ _ s1 tt s1).
  2: { unfold LX_free_unused_task_structs. rewrite M_bind_unfold. cbn. by rewrite He. }
  set (L := list_of s) in *.
  set (s2 := set_kern k (set_cur (mk_currents L (exits_of s) true (ti_task i) (t_thread_info t)) s)).
  rewrite (M_bind_val cur_lock _ s1 tt s2) by done. cbn [negb].
  set (s3 := set_kern k (set_cur (mk_currents L (exits_of s) true next (t_thread_info u)) s)).
  rewrite (M_bind_val _ _ s2 true s3).
  2: { rewrite (M_bind_val (next_running prev next) _ s2 next s2) by (unfold next_running; by destruct (Z.eqb_spec prev next)).
       rewrite (M_bind_val (ti_of_task next) _ s2 (t_thread_info u) s2).
       2: { unfold ti_of_task. destruct (Z.eqb_spec next 0); [done|].
            by rewrite (M_bind_val _ _ s2 u s2) by by apply task_at_Some. }
       rewrite (M_bind_val (set_running next (t_thread_info u)) _ s2 tt s3) by done.
       rewrite (M_bind_val (LX_get_lxcurrent_from_tsk (ti_task i)) _ s3 (Some (n, c)) s3).
       - cbn [snd]. by rewrite Hr.
       - unfold LX_get_lxcurrent_from_tsk. rewrite (M_bind_val cur_list _ s3 L s3) by done. by rewrite Hf. }
  set (s4 := set_kern k (with_cur L (exits_of s) next (t_thread_info u) s)).
  rewrite (M_bind_val cur_unlock _ s3 tt s4) by done. cbn match.
  exists (DoTaskExit k). rewrite (M_bind_val _ _ s4 tt (set_kern (DoTaskExit k) (with_cur (remove_first (is_node n) L) [(n, c)] next (t_thread_info u) s))).
  { done. }
  unfold LX_DoTaskExit. rewrite (M_bind_val cur_lock _ s4 tt s3) by done.
  rewrite (M_bind_val (current cti) _ s3 (ti_task i) s3) by by apply current_of.
  rewrite (M_bind_val (LX_get_lxcurrent_from_tsk (ti_task i)) _ s3 (Some (n, c)) s3).
  - unfold cur_list, set_list, set_exits. mstep. unfold L, with_cur. cbn. by rewrite He.
  - unfold LX_get_lxcurrent_from_tsk. rewrite (M_bind_val cur_list _ s3 L s3) by done. by rewrite Hf.
Qed.

Definition gone (p : Z) s : proc H K := set_mem (Heap.kfree p (kheap s)) (delete p (tis s)) (delete p (tasks s)) s.
Lemma free_gone p s : p <> 0 -> free p s = Ok (tt, gone p s).
Proof. intros Hp. unfold free, modify. by destruct (Z.eqb_spec p 0). Qed.

(** A task that goes on frees one that has ended before. *)
Lemma switch_frees i t n c rest prev next s :
  tis s !! cti = Some i -> tasks s !! ti_task i = Some t -> ti_task i <> 0 -> t_thread_info t <> 0 ->
  lx_current_lock (cur s) = false -> (t_state t =? TASK_DEAD) || (t_state t =? TASK_ZOMBIE) = false ->
  exits_of s = (n, c) :: rest -> Forall (fun p => p <> 0) [c_thread_info c; c_task c; n] ->
  ti_task i ∉ [c_thread_info c; c_task c; n] ->
  exists k, LX_switch_to cti prev next s =
    Ok (prev, set_kern k (with_cur (list_of s) rest (ti_task i) (t_thread_info t)
      (gone n (gone (c_task c) (gone (c_thread_info c) s))))).
Proof.
  intros Hi Ht H0' Hti Hl Hex He Hne Hni.
  destruct (switch_to_after i t prev next s Hi Ht H0' Hti Hl) as [k ->]. rewrite Hex. exists k. set (s1 := set_kern k _).
  apply Forall_cons in Hne as [H1' Hne]. apply Forall_cons in Hne as [H2' Hne]. apply Forall_cons in Hne as [H3' _].
  assert (Ht' : tasks (gone n (gone (c_task c) (gone (c_thread_info c) s))) !! ti_task i = Some t).
  { cbn. rewrite !lookup_delete_ne; [done| | |]; intros E; apply Hni; rewrite <- E; set_solver. }
  set (s2 := set_kern k (with_cur (list_of s) rest (ti_task i) (t_thread_info t) s)).
  unfold after_run. rewrite (M_bind_val _ _ s1 tt (gone n (gone (c_task c) (gone (c_thread_info c) s2)))).
  2: { unfold LX_free_unused_task_structs. rewrite (M_bind_val _ _ s1 ((n, c) :: rest) s1) by (unfold gets; change (exits_of s1) with (exits_of s); by rewrite He).
       rewrite (M_bind_val cur_lock _ s1 tt (set_kern k (set_cur (mk_currents (list_of s) (exits_of s) true (ti_task i) (t_thread_info t)) s))) by done.
       rewrite M_bind_unfold. cbn. rewrite M_bind_unfold. cbn.
       rewrite M_bind_unfold, (free_gone (c_thread_info c)) by done. rewrite M_bind_unfold, (free_gone (c_task c)) by done.
       by rewrite (free_gone n) by done. }
  set (s3 := gone n (gone (c_task c) (gone (c_thread_info c) s2))).
  rewrite (M_bind_val cur_lock _ s3 tt (set_cur (mk_currents (list_of s) rest true (ti_task i) (t_thread_info t)) s3)) by done.
  set (s4 := set_cur _ s3). cbn [negb]. rewrite (M_bind_val _ _ s4 false s4).
  2: { rewrite (M_bind_val (ti_of_task (ti_task i)) _ s4 (t_thread_info t) s4).
       2: { unfold ti_of_task. destruct (Z.eqb_spec (ti_task i) 0); [done|]. by rewrite (M_bind_val _ _ s4 t s4) by by apply task_at_Some. }
       done. }
  rewrite M_bind_unfold. cbn. done.
Qed.
End Running.

(** C17: A task that ends by itself switches to the next one and leaves its
    entry in the list of ended tasks; the next switch of any task that goes on
    frees its stack, its task and its entry, each once, and nothing else. *)
Theorem ended_task_is_freed {H K : Type} `{HeapLaws H} `{Sched K} (me other : Z) (s : proc H K)
    (i i2 : thread_info) (t t2 u : task_struct) (n : Z) (c : lx_current) (prev next prev2 next2 : Z) :
  tis s !! me = Some i -> tasks s !! ti_task i = Some t -> ti_task i <> 0 -> t_thread_info t <> 0 ->
  lx_current_lock (cur s) = false -> (t_state t =? TASK_DEAD) || (t_state t =? TASK_ZOMBIE) = true ->
  find_first (is_task (ti_task i)) (lx_current_list (cur s)) = Some (n, c) ->
  has_flag (current_flags c) LXC_FLAG_TSK_REGULAR_EXIT = true ->
  prev <> next -> next <> 0 -> tasks s !! next = Some u -> lx_exit_list (cur s) = [] ->
  tis s !! other = Some i2 -> tasks s !! ti_task i2 = Some t2 -> ti_task i2 <> 0 -> t_thread_info t2 <> 0 ->
  (t_state t2 =? TASK_DEAD) || (t_state t2 =? TASK_ZOMBIE) = false ->
  ti_task i2 ∉ [c_thread_info c; c_task c; n] -> NoDup [c_thread_info c; c_task c; n] ->
  Forall (fun p => p <> 0 /\ is_Some (used (kheap s) !! p)) [c_thread_info c; c_task c; n] -> heap_ok (kheap s) ->
  exists s1 s2,
    LX_switch_to me prev next s = Ok (prev, s1) /\
    lx_current_task (cur s1) = next /\ lx_current_thread_info (cur s1) = t_thread_info u /\
    LX_switch_to other prev2 next2 s1 = Ok (prev2, s2) /\
    lx_current_list (cur s2) = remove_first (is_node n) (lx_current_list (cur s)) /\ lx_exit_list (cur s2) = [] /\
    lx_current_task (cur s2) = ti_task i2 /\ lx_current_lock (cur s2) = false /\ heap_ok (kheap s2) /\
    used (kheap s2) = delete n (delete (c_task c) (delete (c_thread_info c) (used (kheap s)))).
Proof.
  intros Hi Ht H0' Hti Hl Hex Hf Hr Hpn Hn0 Hu He Hi2 Ht2 H02 Hti2 Hex2 Hni Hnd Hus Ho.
  destruct (switch_ended me i t n c u prev next s) as [k E1]; try done. eexists. rewrite E1.
  set (s1 := set_kern k _).
  destruct (switch_frees other i2 t2 n c [] prev2 next2 s1) as [k2 E2]; try done.
  { eapply Forall_impl; [exact Hus|]. by intros p [? _]. }
  eexists. split; [reflexivity|].
  apply Forall_cons in Hus as [[_ U1] Hus]. apply Forall_cons in Hus as [[_ U2] Hus]. apply Forall_cons in Hus as [[_ U3] _].
  apply NoDup_cons in Hnd as [N1 Hnd]. apply NoDup_cons in Hnd as [N2 _].
  destruct (kfree_laws (c_thread_info c) (kheap s) Ho U1) as [O1 V1].
  destruct (kfree_laws (c_task c) _ O1) as [O2 V2].
  { rewrite V1, lookup_delete_ne; [done|]. intros E. apply N1. rewrite E. apply list_elem_of_here. }
  destruct (kfree_laws n _ O2) as [O3 V3].
  { rewrite V2, V1, !lookup_delete_ne; [done| |]; intros E.
    - apply N1. rewrite E. apply list_elem_of_further, list_elem_of_here.
    - apply N2. rewrite E. apply list_elem_of_here. }
  split_and!; try done; try exact E2. cbn. by rewrite V3, V2, V1.
Qed.

(** ** A concrete kernel *)

Definition tick : Type := nat.
#[export] Instance tick_Sched : Sched tick := {
  copy_process := fun from p flags k => (inr (Z.of_nat k + 2), S k);
  activate_task := fun _ k => k;
  schedule_tail := fun _ k => k;
  StartNewTask := fun _ _ _ _ k => S k;
  DevRun := fun _ k => k;
  DevBlock := fun _ k => k;
  wait_flags := fun _ k => (if (k =? 3)%nat then UTLSTACK_FLAG_CAPTUREACK else 0, S k);
  in_ISR := fun _ => false;
  DoTaskExit := fun k => k;
  wait_capture := fun _ k => ((k =? 0)%nat, k);
  set_continue_startup := fun k => k
}.

Definition demo_ti (tsk : Z) : thread_info := mk_ti tsk 0 0 0 0 0 KERNEL_DS 0 0.
Definition demo_task (ti pid state : Z) : task_struct := mk_task ti state pid 0 0 0 0.

(** The first task at 1000 with the stack 2000, and the stacks of two threads. *)
Definition demo_proc : proc arena tick :=
  mk_proc (mk_currents [] [] false 0 0) (mk_utls [] false)
    (mk_arena 5000 10 {[ 1000 := 64; 2000 := 100; 3000 := 100; 4000 := 100 ]})
    {[ 2000 := demo_ti 1000; 3000 := demo_ti 0; 4000 := demo_ti 0 ]}
    {[ 1000 := demo_task 2000 1 0 ]} 1000 0 1 0 0%nat.

Definition demo_exit (tsk : Z) : M (proc arena tick) unit := put_task tsk (demo_task 0 0 TASK_DEAD).
Definition demo_stale (p : Z) : task_struct := demo_task 7 7 7.

(** Two threads enter; one starts anew and both leave. *)
Definition demo_calls : list thread_call :=
  [mk_call 3000 20 1 Enter; mk_call 4000 21 1 Enter; mk_call 3000 20 1 EnterInit; mk_call 3000 20 1 Leave;
   mk_call 4000 21 1 Leave].

Definition demo_run (cs : list thread_call) : res (unit * proc arena tick) :=
  run_threads 64 9 8 1000 demo_stale demo_exit cs demo_proc.

Lemma demo_tables : tables 64 [3000; 4000] 1000 10 (used (kheap demo_proc)) ∅ demo_proc.
Proof.
  exists []. split; [|split; [|done]].
  - split; try by constructor.
    repeat (constructor; [by eexists|]). constructor.
  - split; try done.
    + cbn. split; [done|]. split; [done|]. apply map_Forall_to_list. cbn. repeat constructor; cbn; lia.
    + repeat (constructor; [by eexists|]). constructor.
    + split; [done|]. right. by eexists.
Qed.


(** Three entries of the stack list: the second is free to go, the third is in use. *)
Definition demo_utls : proc arena tick :=
  set_mem (mk_arena 5000 10 {[ 3000 := 100; 4000 := 100; 500 := 16; 504 := 16; 508 := 16 ]}) ∅ ∅
    (set_utl (mk_utls [(500, mk_utl 2000 0 20 1); (504, mk_utl 3000 UTLSTACK_FLAG_FREEME 21 1);
                       (508, mk_utl 4000 (UTLSTACK_FLAG_FREEME + UTLSTACK_FLAG_USED) 22 1)] false) demo_proc).

Lemma demo_utls_wf : utl_wf (lx_UtlStackRoot (utl demo_utls)) (used (kheap demo_utls)).
Proof.
  split.
  - apply (bool_decide_unpack (NoDup [500; 504; 508])). exact I.
  - apply (bool_decide_unpack (NoDup [3000; 504])). exact I.
  - repeat (constructor; [split; [done|by eexists]|]). constructor.
Qed.

Lemma check_utl_freeme_frees_witness :
  exists s', LX_check_utl_freeme demo_utls = Ok (tt, s') /\
    (lx_UtlStackRoot (utl s')).*1 = [500; 508] /\ used (kheap s') !! 3000 = None /\ used (kheap s') !! 4000 = Some 100.
Proof.
  destruct (check_utl_freeme_frees demo_utls demo_utls_wf eq_refl I) as (s' & E & Hl & _ & _ & Hu).
  exists s'. split; [exact E|]. rewrite Hl, !Hu. split_and!; reflexivity.
Defined.

Lemma interrupt_borrows_task_witness :
  exists s', in_interrupt 3000 1000 9999 (fun i => mk_ti (ti_task i) 0 NEED_RESCHED 0 0 0 0 0 0)
      (set_cur (mk_currents [] [] false 1000 2000) demo_proc) = Ok (tt, s') /\
    ti_flags <$> tis s' !! 2000 = Some NEED_RESCHED.
Proof.
  destruct (interrupt_borrows_task 3000 1000 9999 (fun i => mk_ti (ti_task i) 0 NEED_RESCHED 0 0 0 0 0 0) 2000 1000
    (demo_ti 1000) (demo_task 2000 1 0) (set_cur (mk_currents [] [] false 1000 2000) demo_proc)) as (s' & E & _ & Ht & _);
    try reflexivity; try discriminate; try (cbn; lia).
  exists s'. split; [exact E|]. rewrite Ht. reflexivity.
Defined.

(** The thread with the stack 3000 has ended; the first task goes on. *)
Definition demo_ended : proc arena tick :=
  set_mem (mk_arena 9000 10 {[ 3000 := 100; 5024 := 64; 5000 := 24 ]})
    {[ 2000 := demo_ti 1000; 3000 := demo_ti 5024 ]} {[ 1000 := demo_task 2000 1 0; 5024 := demo_task 3000 2 TASK_DEAD ]}
    (set_cur (mk_currents [(5000, mk_cur 20 1 (LXC_FLAG_INITIALIZED + LXC_FLAG_TSK_REGULAR_EXIT) 3000 5024)] [] false 0 0) demo_proc).

Lemma ended_task_is_freed_witness :
  exists s1 s2, LX_switch_to 3000 5024 1000 demo_ended = Ok (5024, s1) /\ lx_current_task (cur s1) = 1000 /\
    LX_switch_to 2000 1000 1000 s1 = Ok (1000, s2) /\ used (kheap s2) = ∅.
Proof.
  destruct (ended_task_is_freed 3000 2000 demo_ended (demo_ti 5024) (demo_ti 1000) (demo_task 3000 2 TASK_DEAD)
    (demo_task 2000 1 0) (demo_task 2000 1 0) 5000 (mk_cur 20 1 (LXC_FLAG_INITIALIZED + LXC_FLAG_TSK_REGULAR_EXIT) 3000 5024)
    5024 1000 1000 1000) as (s1 & s2 & E1 & Ec & _ & E2 & _ & _ & _ & _ & _ & Hu); try reflexivity; try discriminate.
  - apply (bool_decide_unpack (1000 ∉ [3000; 5024; 5000])). exact I.
  - apply (bool_decide_unpack (NoDup [3000; 5024; 5000])). exact I.
  - repeat (constructor; [split; [done|by eexists]|]). constructor.
  - exists s1, s2. split_and!; [exact E1|exact Ec|exact E2|]. rewrite Hu. reflexivity.
Defined.

(** ** Corner cases *)

Definition utl_ids (r : res (Z * proc arena tick)) : option (Z * list (Z * Z) * list Z) :=
  match r with
  | Ok (rc, s) => Some (rc, map (fun x => (u_pid x.2, u_tid x.2)) (lx_UtlStackRoot (utl s)), (map_to_list (used (kheap s))).*1)
  | Err _ => None
  end.

(** A new entry takes the place of the first one, whose node stays in memory;
    the thread of process 20 has no entry any more. *)
Example set_ti_drops_first :
  utl_ids (LX_set_ti_for_pidtid 6000 30 1 demo_utls)
  = Some (0, [(30, 1); (21, 1); (22, 1)], [508; 500; 504; 3000; 5000; 4000]).
Proof. vm_compute. reflexivity. Qed.

(** Removing the entry of process 22 removes those before it. *)
Example unset_ti_drops_all_before :
  utl_ids (LX_unset_ti_for_pidtid 22 2 demo_utls) = Some (0, [], [500; 504; 3000; 4000]).
Proof. vm_compute. reflexivity. Qed.

(** Without memory for its entry a thread that enters faults. *)
Example enter_without_memory :
  match run_thread 64 9 8 1000 demo_stale demo_exit (mk_call 3000 20 1 Enter)
          (set_mem (mk_arena 5000 0 ∅) (tis demo_proc) (tasks demo_proc) demo_proc) with
  | Err e => Some e | Ok _ => None
  end = Some NullDeref.
Proof. vm_compute. reflexivity. Qed.

(** A kernel that can make no tasks. *)
Definition full : Type := unit.
#[local] Instance full_Sched : Sched full := {
  copy_process := fun from p flags k => (inl (-11), k);
  activate_task := fun _ k => k;
  schedule_tail := fun _ k => k;
  StartNewTask := fun _ _ _ _ k => k;
  DevRun := fun _ k => k;
  DevBlock := fun _ k => k;
  wait_flags := fun _ k => (0, k);
  in_ISR := fun _ => false;
  DoTaskExit := fun k => k;
  wait_capture := fun _ k => (false, k);
  set_continue_startup := fun k => k
}.

(** The code of a failed copy is taken for a task: the thread's task is then a
    copy of the first one, with its number. *)
Example failed_copy_goes_on :
  match LX_enter_current 3000 20 1 64 9 8 demo_stale 1000
          (mk_proc (cur demo_proc) (utl demo_proc) (kheap demo_proc) (tis demo_proc) (tasks demo_proc) 1000 0 1 0 tt) with
  | Ok (_, s) => Some (map (fun x => (current_flags x.2, t_pid <$> tasks s !! c_task x.2)) (lx_current_list (cur s)), total_forks s)
  | Err _ => None
  end = Some ([(LXC_FLAG_INITIALIZED + LXC_FLAG_TSK_MALLOCED, Some 1)], 1).
Proof. vm_compute. reflexivity. Qed.
