(* ===== verification/Timer.v ===== *)
(** * Kernel timers (os2/kernel/ok_timer.c, Include/Linux/timer.h)

    A pending timer is on one of 512 lists: those of the next 256 ticks, and
    four vectors of 64 lists for the times beyond, each list as long as a turn
    of the vector below.  There is one processor (CONFIG_NR_CPUS is 1), so there
    is one base. *)

From S2P Require Import Prelude.

Definition TVN_BITS : Z := 6.
Definition TVR_BITS : Z := 8.
Definition TVN_SIZE : Z := 64.
Definition TVR_SIZE : Z := 256.
Definition TVN_MASK : Z := 63.
Definition TVR_MASK : Z := 255.
Definition TIMER_MAGIC : Z := 1267182958.

(** [t_base]: the timer is on a list of the base. *)
Record timer_list := mk_timer {
  t_expires : Z; t_magic : Z; t_function : Z; t_data : Z; t_base : bool
}.

(** The vectors tv1 to tv5 one after the other; [work_list] is the list of
    __run_timers, and [calls] are the callbacks made, with their ticks, the
    last one first. *)
Record tvec_base := mk_base {
  base_lock : bool;
  timer_jiffies : Z;
  running_timer : Z;
  vecs : list (list Z);
  work_list : list Z;
  timers : gmap Z timer_list;
  jiffies : Z;
  whine_count : Z;
  calls : list (Z * Z)
}.

Definition tv2 : Z := 256.
Definition tv3 : Z := 320.
Definition tv4 : Z := 384.
Definition tv5 : Z := 448.

Definition set_vecs (v : list (list Z)) (w : list Z) (s : tvec_base) : tvec_base :=
  mk_base (base_lock s) (timer_jiffies s) (running_timer s) v w (timers s) (jiffies s) (whine_count s) (calls s).
Definition set_timers (m : gmap Z timer_list) (s : tvec_base) : tvec_base :=
  mk_base (base_lock s) (timer_jiffies s) (running_timer s) (vecs s) (work_list s) m (jiffies s) (whine_count s) (calls s).
Definition set_lock (b : bool) (s : tvec_base) : tvec_base :=
  mk_base b (timer_jiffies s) (running_timer s) (vecs s) (work_list s) (timers s) (jiffies s) (whine_count s) (calls s).
Definition set_tick (t : Z) (s : tvec_base) : tvec_base :=
  mk_base (base_lock s) t (running_timer s) (vecs s) (work_list s) (timers s) (jiffies s) (whine_count s) (calls s).
Definition set_running (r : Z) (s : tvec_base) : tvec_base :=
  mk_base (base_lock s) (timer_jiffies s) r (vecs s) (work_list s) (timers s) (jiffies s) (whine_count s) (calls s).
Definition add_call (c : Z * Z) (s : tvec_base) : tvec_base :=
  mk_base (base_lock s) (timer_jiffies s) (running_timer s) (vecs s) (work_list s) (timers s) (jiffies s) (whine_count s)
    (c :: calls s).
Definition whine (s : tvec_base) : tvec_base :=
  mk_base (base_lock s) (timer_jiffies s) (running_timer s) (vecs s) (work_list s) (timers s) (jiffies s)
    (if whine_count s <? 16 then whine_count s + 1 else whine_count s) (calls s).

Abbreviation P := (M tvec_base).

Definition timer_at (p : Z) : P timer_list := fun s =>
  match timers s !! p with Some t => Ok (t, s) | None => Err NullDeref end.
Definition put_timer (p : Z) (t : timer_list) : P unit := modify (fun s => set_timers (<[p := t]> (timers s)) s).
Definition set_expires (e : Z) (t : timer_list) : timer_list :=
  mk_timer e (t_magic t) (t_function t) (t_data t) (t_base t).
Definition set_base (b : bool) (t : timer_list) : timer_list :=
  mk_timer (t_expires t) (t_magic t) (t_function t) (t_data t) b.

Definition lock_base : P unit := fun s => if base_lock s then Err Deadlock else Ok (tt, set_lock true s).
Definition unlock_base : P unit := modify (set_lock false).

(** list_del of a timer: it is on one list. *)
Definition list_del (p : Z) : P unit := modify (fun s =>
  set_vecs (map (base.filter (fun q => q <> p)) (vecs s)) (base.filter (fun q => q <> p) (work_list s)) s).
Definition list_add_tail (p k : Z) : P unit := modify (fun s =>
  set_vecs (alter (fun l => l ++ [p]) (Z.to_nat k) (vecs s)) (work_list s) s).

(** The list for a time.  The test for idx above 0xffffffff is for longer words. *)
Definition wheel_slot (timer_jiffies expires : Z) : Z :=
  let idx := u32 (expires - timer_jiffies) in
  if idx <? TVR_SIZE then Z.land expires TVR_MASK
  else if idx <? Z.shiftl 1 (TVR_BITS + TVN_BITS) then
    tv2 + Z.land (Z.shiftr expires TVR_BITS) TVN_MASK
  else if idx <? Z.shiftl 1 (TVR_BITS + 2 * TVN_BITS) then
    tv3 + Z.land (Z.shiftr expires (TVR_BITS + TVN_BITS)) TVN_MASK
  else if idx <? Z.shiftl 1 (TVR_BITS + 3 * TVN_BITS) then
    tv4 + Z.land (Z.shiftr expires (TVR_BITS + 2 * TVN_BITS)) TVN_MASK
  else if s32 idx <? 0 then Z.land timer_jiffies TVR_MASK
  else tv5 + Z.land (Z.shiftr expires (TVR_BITS + 3 * TVN_BITS)) TVN_MASK.

Definition internal_add_timer (p : Z) : P unit :=
  t ← timer_at p;
  T ← gets timer_jiffies;
  list_add_tail p (wheel_slot T (t_expires t)).

(** ** Arming and disarming *)

(** The warning of check_timer_failed is counted. *)
Definition check_timer (p : Z) : P unit :=
  t ← timer_at p;
  if t_magic t =? TIMER_MAGIC then mret tt
  else modify whine ≫= fun _ =>
       put_timer p (mk_timer (t_expires t) TIMER_MAGIC (t_function t) (t_data t) (t_base t)).

Definition init_timer (p : Z) (t : timer_list) : P unit :=
  put_timer p (mk_timer (t_expires t) TIMER_MAGIC (t_function t) (t_data t) false).

Definition timer_pending (p : Z) : P bool := t ← timer_at p; mret (t_base t).

(** The timer's own lock is held by nobody else; the two bases are the same. *)
Definition __mod_timer (p expires : Z) : P Z :=
  t ← timer_at p;
  if t_function t =? 0 then throw BugOn else
  check_timer p ≫= fun _ =>
  lock_base ≫= fun _ =>
  t ← timer_at p;
  (if t_base t then list_del p else mret tt) ≫= fun _ =>
  put_timer p (set_expires expires t) ≫= fun _ =>
  internal_add_timer p ≫= fun _ =>
  t' ← timer_at p; put_timer p (set_base true t') ≫= fun _ =>
  unlock_base ≫= fun _ => mret (Z.b2z (t_base t)).

Definition add_timer (p : Z) : P Z := t ← timer_at p; __mod_timer p (t_expires t).

Definition add_timer_on (p : Z) : P unit :=
  t ← timer_at p;
  if t_base t || (t_function t =? 0) then throw BugOn else
  check_timer p ≫= fun _ =>
  lock_base ≫= fun _ =>
  internal_add_timer p ≫= fun _ =>
  t ← timer_at p; put_timer p (set_base true t) ≫= fun _ => unlock_base.

Definition mod_timer (p expires : Z) : P Z :=
  t ← timer_at p;
  if t_function t =? 0 then throw BugOn else
  check_timer p ≫= fun _ =>
  if (t_expires t =? expires) && t_base t then mret 1 else __mod_timer p expires.

Definition del_timer (p : Z) : P Z :=
  check_timer p ≫= fun _ =>
  t ← timer_at p;
  if negb (t_base t) then mret 0 else
  lock_base ≫= fun _ =>
  list_del p ≫= fun _ =>
  t ← timer_at p; put_timer p (set_base false t) ≫= fun _ =>
  unlock_base ≫= fun _ => mret 1.

(** With one processor a timer that runs is run by the caller, who then waits
    for itself. *)
Definition del_timer_sync (p : Z) : P Z :=
  ret ← del_timer p;
  r ← gets running_timer;
  if r =? p then throw Deadlock else mret ret.

(** ** Running *)

(** The timers of a list are put where they belong now.  The list itself is
    cleared at the end; none of them goes back to it. *)
Fixpoint cascade_loop (l : list Z) : P unit :=
  match l with
  | [] => mret tt
  | p :: l =>
      t ← timer_at p;
      if negb (t_base t) then throw BugOn else internal_add_timer p ≫= fun _ => cascade_loop l
  end.

Definition cascade (tv index : Z) : P Z :=
  v ← gets vecs;
  cascade_loop (default [] (v !! Z.to_nat (tv + index))) ≫= fun _ =>
  modify (fun s => set_vecs (<[Z.to_nat (tv + index) := []]> (vecs s)) (work_list s) s) ≫= fun _ =>
  mret index.

(** INDEX(N) *)
Definition INDEX (T n : Z) : Z := Z.land (Z.shiftr T (TVR_BITS + n * TVN_BITS)) TVN_MASK.

Definition cascades (T : Z) : P unit :=
  if negb (Z.land T TVR_MASK =? 0) then mret tt else
  i ← cascade tv2 (INDEX T 0);
  if negb (i =? 0) then mret tt else
  i ← cascade tv3 (INDEX T 1);
  if negb (i =? 0) then mret tt else
  i ← cascade tv4 (INDEX T 2);
  if negb (i =? 0) then mret tt else
  cascade tv5 (INDEX T 3) ≫= fun _ => mret tt.

Section Run.
(** What a function does with its data. *)
Context (fn : Z -> Z -> P unit).

Fixpoint run_work (fuel : nat) : P unit :=
  w ← gets work_list;
  match w, fuel with
  | [], _ => mret tt
  | _, O => throw OutOfFuel
  | p :: _, S fuel =>
      t ← timer_at p;
      list_del p ≫= fun _ =>
      modify (set_running p) ≫= fun _ =>
      put_timer p (set_base false t) ≫= fun _ =>
      T ← gets timer_jiffies;
      modify (add_call (u32 (T - 1), p)) ≫= fun _ =>
      unlock_base ≫= fun _ =>
      fn (t_function t) (t_data t) ≫= fun _ =>
      lock_base ≫= fun _ => run_work fuel
  end.

(** One tick: cascades, and the list of the tick becomes the work list. *)
Definition start_tick : P unit :=
  T ← gets timer_jiffies;
  cascades T ≫= fun _ =>
  modify (set_tick (u32 (T + 1))) ≫= fun _ =>
  modify (fun s => let k := Z.to_nat (Z.land T TVR_MASK) in
    set_vecs (<[k := []]> (vecs s)) (default [] (vecs s !! k)) s).

Definition time_after_eq (a b : Z) : bool := 0 <=? s32 (a - b).

Fixpoint ticks (fuel : nat) : P unit :=
  s ← get;
  if negb (time_after_eq (jiffies s) (timer_jiffies s)) then mret tt else
  match fuel with
  | O => throw OutOfFuel
  | S fuel =>
      start_tick ≫= fun _ =>
      w ← gets work_list; run_work (length w) ≫= fun _ => ticks fuel
  end.

(** The number of ticks that are due. *)
Definition __run_timers : P unit :=
  lock_base ≫= fun _ =>
  s ← get;
  ticks (S (Z.to_nat (u32 (jiffies s - timer_jiffies s)))) ≫= fun _ =>
  modify (set_running 0) ≫= fun _ => unlock_base.

Definition run_timer_softirq : P unit :=
  s ← get;
  if time_after_eq (jiffies s) (timer_jiffies s) then __run_timers else mret tt.
End Run.

Definition init_timers_cpu : P unit := modify (fun s =>
  mk_base false (jiffies s) (running_timer s) (replicate 512 []) (work_list s) (timers s) (jiffies s) (whine_count s) (calls s)).
