(* ===== verification/TimerWheel.v ===== *)
(** * When kernel timers run (Timer)

    The lists against a map from pending timers to the number of ticks until
    they are due: arming and disarming change one entry, cascades change none,
    and a tick runs exactly the timers with none left. *)

From S2P Require Import Prelude Timer.

(** ** Where a timer with [d] ticks left is *)

(** The bits below vector [n], counted from tv2 on. *)
Definition vec_shift (n : Z) : Z := 8 + 6 * (n - 1).
Definition vec_start (n : Z) : Z := 256 + 64 * (n - 1).

(** The turns of the vector below that begin up to the due time, counted from
    the last tick. *)
Definition turns (T d n : Z) : Z := ((T - 1) mod 2 ^ vec_shift n + d + 1) / 2 ^ vec_shift n.

Definition placed (T e d : Z) (k : nat) : Prop :=
  (0 <= d < 256 /\ Z.of_nat k = (T + d) mod 256) \/
  exists n, 1 <= n <= 4 /\ Z.of_nat k = vec_start n + (e / 2 ^ vec_shift n) mod 64 /\
    d = u32 (e - T) /\ d < 2147483648 /\ 1 <= turns T d n <= 64.

(** The ticks left of a timer that is armed at [T]: one in the past is due at once. *)
Definition left_of (T e : Z) : Z := let d := u32 (e - T) in if d <? 2147483648 then d else 0.

Definition word (z : Z) : Prop := 0 <= z < 4294967296.

Lemma land_63 z : Z.land z 63 = z mod 64.
Proof. exact (Z.land_ones z 6 ltac:(done)). Qed.
Lemma land_255 z : Z.land z 255 = z mod 256.
Proof. exact (Z.land_ones z 8 ltac:(done)). Qed.

Lemma wheel_slot_eq T e : wheel_slot T e =
  (let idx := u32 (e - T) in
   if idx <? 256 then e mod 256
   else if idx <? 16384 then 256 + (e / 2 ^ 8) mod 64
   else if idx <? 1048576 then 320 + (e / 2 ^ 14) mod 64
   else if idx <? 67108864 then 384 + (e / 2 ^ 20) mod 64
   else if s32 idx <? 0 then T mod 256
   else 448 + (e / 2 ^ 26) mod 64).
Proof.
  unfold wheel_slot, TVR_SIZE, TVR_MASK, TVN_MASK, TVR_BITS, TVN_BITS, tv2, tv3, tv4, tv5.
  rewrite !land_63, !land_255. rewrite !Z.shiftr_div_pow2 by done. done.
Qed.

Ltac consts := change (2 ^ vec_shift 1) with 256 in *; change (2 ^ vec_shift 2) with 16384 in *;
  change (2 ^ vec_shift 3) with 1048576 in *; change (2 ^ vec_shift 4) with 67108864 in *.

Lemma placed_vec n T e d k : 1 <= n <= 4 -> Z.of_nat k = vec_start n + (e / 2 ^ vec_shift n) mod 64 ->
  d = u32 (e - T) -> d < 2147483648 -> 1 <= turns T d n <= 64 -> placed T e d k.
Proof. intros. right. exists n. auto. Qed.

Lemma u32_split T e : exists q, e = T + u32 (e - T) + 4294967296 * q.
Proof. exists ((e - T) / 4294967296). unfold u32. pose proof (Z.div_mod (e - T) 4294967296 ltac:(done)). lia. Qed.

Lemma turns_new T d n : 1 <= n <= 4 -> 2 ^ vec_shift n <= d + 1 -> d < 64 * 2 ^ vec_shift n -> 1 <= turns T d n <= 64.
Proof.
  intros Hn H1 H2. unfold turns. set (S := 2 ^ vec_shift n) in *.
  assert (0 < S) by (apply Z.pow_pos_nonneg; unfold vec_shift; lia).
  pose proof (Z.mod_pos_bound (T - 1) S). split.
  - apply Z.div_le_lower_bound; lia.
  - apply Z.lt_succ_r, Z.div_lt_upper_bound; lia.
Qed.

Lemma wheel_slot_placed T e : word T -> word e -> placed T e (left_of T e) (Z.to_nat (wheel_slot T e)).
Proof.
  intros HT He. rewrite wheel_slot_eq. unfold left_of. cbn zeta. pose proof (u32_range (e - T)) as Hd.
  destruct (u32_split T e) as [q Eq]. set (d := u32 (e - T)) in *.
  assert (forall c z, 0 <= c -> Z.of_nat (Z.to_nat (c + z mod 64)) = c + z mod 64) as H64.
  { intros c z Hc. apply Z2Nat.id. pose proof (Z.mod_pos_bound z 64). lia. }
  destruct (Z.ltb_spec d 256).
  { left. destruct (Z.ltb_spec d 2147483648); [|lia]. split; [lia|]. rewrite Z2Nat.id by (apply Z.mod_pos_bound; lia). rewrite Eq.
    replace (T + d + 4294967296 * q) with (T + d + (16777216 * q) * 256) by lia. by rewrite Z.mod_add. }
  destruct (Z.ltb_spec d 16384); [|destruct (Z.ltb_spec d 1048576); [|destruct (Z.ltb_spec d 67108864);
    [|destruct (Z.ltb_spec (s32 d) 0) as [Hs|Hs]]]].
  4: { assert (2147483648 <= d) by mlia. destruct (Z.ltb_spec d 2147483648); [lia|]. left. rewrite Z.add_0_r.
       rewrite Z2Nat.id by (apply Z.mod_pos_bound; lia). lia. }
  4: assert (d < 2147483648) by mlia.
  all: destruct (Z.ltb_spec d 2147483648); [|lia].
  - apply (placed_vec 1); try done; [by apply H64|apply turns_new; consts; lia].
  - apply (placed_vec 2); try done; [by apply H64|apply turns_new; consts; lia].
  - apply (placed_vec 3); try done; [by apply H64|apply turns_new; consts; lia].
  - apply (placed_vec 4); try done; [by apply H64|apply turns_new; consts; lia].
Qed.

Lemma vec_pow_pos n : 1 <= n -> 0 < 2 ^ vec_shift n.
Proof. intros. apply Z.pow_pos_nonneg; unfold vec_shift; lia. Qed.
Lemma vec_pow_word n : 1 <= n <= 4 -> exists r, 4294967296 = 64 * 2 ^ vec_shift n * r.
Proof.
  intros Hn. assert (n = 1 \/ n = 2 \/ n = 3 \/ n = 4) as [-> |[-> |[-> | ->]]] by lia; consts;
    [exists 262144|exists 4096|exists 64|exists 1]; lia.
Qed.

(** The list a time belongs to, when the vector's turn begins. *)
Lemma slot_shift T e d n q : 1 <= n <= 4 -> T mod 2 ^ vec_shift n = 0 -> e = T + d + 4294967296 * q ->
  (e / 2 ^ vec_shift n) mod 64 = (T / 2 ^ vec_shift n + d / 2 ^ vec_shift n) mod 64.
Proof.
  intros Hn HT ->. destruct (vec_pow_word n Hn) as [r ->]. pose proof (vec_pow_pos n ltac:(lia)) as HS.
  set (S := 2 ^ vec_shift n) in *. pose proof (Z.div_mod T S ltac:(lia)) as ET. rewrite HT in ET. rewrite ET at 1.
  replace (S * (T / S) + 0 + d + 64 * S * r * q) with (d + (T / S + 64 * r * q) * S) by ring.
  rewrite Z.div_add by lia. replace (d / S + (T / S + 64 * r * q)) with (T / S + d / S + (r * q) * 64) by ring.
  by rewrite Z.mod_add.
Qed.

Lemma turns_begin T d n : 1 <= n -> T mod 2 ^ vec_shift n = 0 -> turns T d n = 1 + d / 2 ^ vec_shift n.
Proof.
  intros Hn HT. pose proof (vec_pow_pos n Hn) as HS. unfold turns. set (S := 2 ^ vec_shift n) in *.
  assert ((T - 1) mod S = S - 1) as ->.
  { pose proof (Z.div_mod T S ltac:(lia)) as ET. symmetry. apply (Z.mod_unique _ _ (T / S - 1)); [lia|]. rewrite HT in ET. lia. }
  replace (S - 1 + d + 1) with (d + 1 * S) by ring. rewrite Z.div_add by lia. ring.
Qed.
Lemma turns_middle T d n : 1 <= n -> T mod 2 ^ vec_shift n <> 0 ->
  turns T d n = (T mod 2 ^ vec_shift n + d) / 2 ^ vec_shift n.
Proof.
  intros Hn HT. pose proof (vec_pow_pos n Hn) as HS. unfold turns. set (S := 2 ^ vec_shift n) in *.
  assert ((T - 1) mod S = T mod S - 1) as ->; [|f_equal; ring].
  pose proof (Z.div_mod T S ltac:(lia)) as ET. pose proof (Z.mod_pos_bound T S HS).
  symmetry. apply (Z.mod_unique _ _ (T / S)); lia.
Qed.

(** The list of vector [n] that is cascaded at the tick [T], if any. *)
Definition cascaded (T n : Z) (k : nat) : Prop :=
  1 <= n <= 4 /\ T mod 2 ^ vec_shift n = 0 /\ Z.of_nat k = vec_start n + (T / 2 ^ vec_shift n) mod 64.

Lemma same_vector n m a b : vec_start n + a mod 64 = vec_start m + b mod 64 -> n = m /\ a mod 64 = b mod 64.
Proof. unfold vec_start. pose proof (Z.mod_pos_bound a 64). pose proof (Z.mod_pos_bound b 64). lia. Qed.

Lemma placed_cascaded T e d k n : placed T e d k -> cascaded T n k -> d = u32 (e - T) /\ d < 2 ^ vec_shift n.
Proof.
  intros Hp (Hn & HT & Ek). destruct Hp as [[_ E]|(m & Hm & E & Ed & _ & Ht)].
  { pose proof (Z.mod_pos_bound (T + d) 256). pose proof (Z.mod_pos_bound (T / 2 ^ vec_shift n) 64).
    unfold vec_start in Ek. lia. }
  rewrite E in Ek. apply same_vector in Ek as [-> Eq]. split; [done|].
  rewrite turns_begin in Ht by lia. destruct (u32_split T e) as [q Es]. rewrite <- Ed in Es.
  rewrite (slot_shift T e d n q) in Eq by done. pose proof (vec_pow_pos n ltac:(lia)) as HS.
  set (S := 2 ^ vec_shift n) in *. assert (d / S = 0) as H0.
  { set (a := T / S) in *. set (b := d / S) in *. clearbody a b. clear -Ht Eq. mlia. }
  apply Z.div_small_iff in H0; [|lia]. pose proof (u32_range (e - T)). lia.
Qed.

Lemma u32_tick T e : word T -> word e -> 1 <= u32 (e - T) -> u32 (e - u32 (T + 1)) = u32 (e - T) - 1.
Proof. unfold word. mlia. Qed.
Lemma tick_mod T S r : 4294967296 = S * r -> 0 < S -> (u32 (T + 1) - 1) mod S = T mod S.
Proof.
  intros E HS. unfold u32. rewrite E. pose proof (Z.div_mod (T + 1) (S * r)) as Ed.
  replace ((T + 1) mod (S * r) - 1) with (T + (- (r * ((T + 1) / (S * r)))) * S).
  - by rewrite Z.mod_add by lia.
  - assert (S * r <> 0) as Hne by lia. specialize (Ed Hne). nia.
Qed.

(** A tick goes by for the timers of the other lists. *)
Lemma placed_tick T e d k : word T -> word e -> placed T e d k -> Z.of_nat k <> T mod 256 ->
  (forall n, ~ cascaded T n k) -> 1 <= d /\ placed (u32 (T + 1)) e (d - 1) k.
Proof.
  intros HT He [[Hd E]|(n & Hn & E & Ed & Hlt & Ht)] Hk Hc.
  - assert (d <> 0) as Hd0 by (intros ->; rewrite Z.add_0_r in E; lia). split; [lia|]. left. split; [lia|].
    rewrite E. clear -HT. unfold word in HT. mlia.
  - pose proof (vec_pow_pos n ltac:(lia)) as HS. destruct (vec_pow_word n Hn) as [r Er].
    assert (1 <= d /\ 1 <= (T mod 2 ^ vec_shift n + d) / 2 ^ vec_shift n <= 64) as [H1 H2].
    { destruct (decide (T mod 2 ^ vec_shift n = 0)) as [H0|H0].
      - rewrite turns_begin in Ht by lia. rewrite H0, Z.add_0_l. split; [|split; [|lia]].
        + pose proof (u32_range (e - T)). assert (d <> 0) as Hd0; [|lia]. intros Hd0. apply (Hc n). split; [done|]. split; [done|].
          rewrite E. f_equal. destruct (u32_split T e) as [q Es]. rewrite <- Ed, Hd0 in Es.
          rewrite (slot_shift T e 0 n q) by done. by rewrite Z.div_0_l, Z.add_0_r by lia.
        + assert (d / 2 ^ vec_shift n <> 0) as Hd0; [|lia]. intros Hd0. apply (Hc n). split; [done|]. split; [done|].
          rewrite E. f_equal. destruct (u32_split T e) as [q Es]. rewrite <- Ed in Es.
          rewrite (slot_shift T e d n q) by done. by rewrite Hd0, Z.add_0_r.
      - rewrite turns_middle in Ht by (done || lia). split; [|done].
        pose proof (Z.mod_pos_bound T (2 ^ vec_shift n) HS). destruct (decide (1 <= d)); [done|].
        assert ((T mod 2 ^ vec_shift n + d) / 2 ^ vec_shift n = 0); [|lia]. apply Z.div_small. pose proof (u32_range (e - T)). lia. }
    split; [done|]. apply (placed_vec n); [done|done|rewrite u32_tick; subst d; done || lia|lia|].
    unfold turns. rewrite (tick_mod T _ (64 * r)) by lia. by replace (_ + (d - 1) + 1) with (T mod 2 ^ vec_shift n + d) by ring.
Qed.

(** A timer that is cascaded goes to a vector below, and not to a list whose
    cascade has been. *)
Lemma readd_slot T e n : word T -> word e -> 1 <= n <= 4 -> u32 (e - T) < 2 ^ vec_shift n ->
  wheel_slot T e < vec_start n /\ 0 <= wheel_slot T e /\ left_of T e = u32 (e - T) /\
  (forall m, ~ cascaded T m (Z.to_nat (wheel_slot T e))).
Proof.
  intros HT He Hn Hd. pose proof (wheel_slot_placed T e HT He) as Hp.
  assert (left_of T e = u32 (e - T)) as El.
  { unfold left_of. assert (2 ^ vec_shift n <= 67108864).
    { assert (n = 1 \/ n = 2 \/ n = 3 \/ n = 4) as [-> |[-> |[-> | ->]]] by lia; consts; lia. }
    destruct (Z.ltb_spec (u32 (e - T)) 2147483648); [done|lia]. }
  rewrite El in Hp. assert (wheel_slot T e < vec_start n /\ 0 <= wheel_slot T e /\
    (forall m, 1 <= m <= 4 -> vec_start m <= wheel_slot T e < vec_start m + 64 -> 2 ^ vec_shift m <= u32 (e - T)))
    as (H1 & H2 & H3).
  { rewrite wheel_slot_eq. cbn zeta. set (d := u32 (e - T)) in *.
    assert (forall z, 0 <= z mod 64 < 64) as H64 by (intros z; by apply Z.mod_pos_bound).
    pose proof (Z.mod_pos_bound e 256 ltac:(done)).
    pose proof (H64 (e / 2 ^ 8)). pose proof (H64 (e / 2 ^ 14)). pose proof (H64 (e / 2 ^ 20)).
    assert (n = 1 \/ n = 2 \/ n = 3 \/ n = 4) as Hn4 by lia. clear Hp El.
    assert (d < 67108864) by (destruct Hn4 as [-> |[-> |[-> | ->]]]; consts; lia).
    destruct (Z.ltb_spec d 256); [|destruct (Z.ltb_spec d 16384); [|destruct (Z.ltb_spec d 1048576);
      [|destruct (Z.ltb_spec d 67108864); [|lia]]]].
    all: split; [destruct Hn4 as [-> |[-> |[-> | ->]]]; unfold vec_start in *; consts; lia|split; [lia|]].
    all: intros m Hm Hr; assert (m = 1 \/ m = 2 \/ m = 3 \/ m = 4) as [-> |[-> |[-> | ->]]] by lia;
      unfold vec_start in Hr; consts; lia. }
  split_and!; [done..|]. intros m Hc. pose proof (placed_cascaded _ _ _ _ _ Hp Hc) as [_ Hlt].
  destruct Hc as (Hm & _ & Ek). rewrite Z2Nat.id in Ek by done. pose proof (Z.mod_pos_bound (T / 2 ^ vec_shift m) 64).
  specialize (H3 m Hm). lia.
Qed.

(** ** The lists and the map of pending timers *)

Record wheel (T : Z) (m : gmap Z timer_list) (v : list (list Z)) (W : list Z) (A : gmap Z Z) : Prop := {
  wh_word : word T;
  wh_len : length v = 512%nat;
  wh_nodup : NoDup (concat v ++ W);
  wh_in : forall k l p, v !! k = Some l -> p ∈ l -> exists t d, m !! p = Some t /\ t_base t = true /\
    word (t_expires t) /\ A !! p = Some d /\ placed T (t_expires t) d k;
  wh_dom : forall p d, A !! p = Some d -> p ∈ concat v;
  wh_work : forall p, p ∈ W -> exists t, m !! p = Some t /\ t_base t = true
}.

Lemma concat_insert {X} (v : list (list X)) k l l' : v !! k = Some l -> concat (<[k := l']> v) ++ l ≡ₚ concat v ++ l'.
Proof.
  revert k. induction v as [|x v IH]; intros [|k]; cbn; intros E; simplify_eq.
  - solve_Permutation.
  - rewrite <- !app_assoc. by rewrite (IH k E).
Qed.
Lemma alter_insert {X} (f : X -> X) (v : list X) (k : nat) x : v !! k = Some x -> alter f k v = <[k := f x]> v.
Proof. revert k. induction v as [|y v IH]; intros [|k]; cbn; intros E; simplify_eq; [done|]. f_equal. by apply IH. Qed.
Lemma alter_commute {X} (f g : X -> X) (v : list X) (i j : nat) : j <> i -> alter f i (alter g j v) = alter g j (alter f i v).
Proof. revert i j. induction v as [|x v IH]; intros [|i] [|j] Hne; cbn; try done. f_equal. apply IH. lia. Qed.
Lemma elem_of_concat {X} (v : list (list X)) p : p ∈ concat v <-> exists k l, v !! k = Some l /\ p ∈ l.
Proof.
  rewrite list_elem_of_In, in_concat. split.
  - intros (l & Hl & Hp). apply list_elem_of_In, list_elem_of_lookup in Hl as [k Hk]. exists k, l. by rewrite list_elem_of_In.
  - intros (k & l & Hk & Hp). exists l. split; [|by apply list_elem_of_In]. apply list_elem_of_In. by eapply list_elem_of_lookup_2.
Qed.
Lemma concat_map_filter (Q : Z -> Prop) `{forall x, Decision (Q x)} (v : list (list Z)) :
  concat (map (base.filter Q) v) = base.filter Q (concat v).
Proof. induction v as [|l v IH]; cbn; [done|]. by rewrite filter_app, IH. Qed.

Section Wheel.
Implicit Types (T : Z) (m : gmap Z timer_list) (v : list (list Z)) (W : list Z) (A : gmap Z Z).

Lemma wheel_dom T m v W A p : wheel T m v W A -> p ∈ concat v <-> is_Some (A !! p).
Proof.
  intros Hw. split.
  - intros (k & l & Hk & Hp)%elem_of_concat. destruct (wh_in _ _ _ _ _ Hw k l p Hk Hp) as (t & d & _ & _ & _ & Hd & _). by exists d.
  - intros [d Hd]. by eapply wh_dom.
Qed.

(** A timer is on the list of its slot. *)
Lemma wheel_at T m v W A p d : wheel T m v W A -> A !! p = Some d ->
  exists k l t, v !! k = Some l /\ p ∈ l /\ m !! p = Some t /\ t_base t = true /\ word (t_expires t) /\
    placed T (t_expires t) d k.
Proof.
  intros Hw Hd. destruct (proj1 (elem_of_concat v p) (wh_dom _ _ _ _ _ Hw p d Hd)) as (k & l & Hk & Hp).
  destruct (wh_in _ _ _ _ _ Hw k l p Hk Hp) as (t & d' & H1 & H2 & H3 & H4 & H5).
  rewrite Hd in H4. injection H4 as <-. eauto 10.
Qed.

Lemma wheel_del T m v W A p : wheel T m v W A ->
  wheel T m (map (base.filter (fun q => q <> p)) v) (base.filter (fun q => q <> p) W) (delete p A).
Proof.
  intros [H1 H2 H3 H4 H5 H6]. split; [done|by rewrite length_map| | | |].
  - rewrite concat_map_filter, <- filter_app. by apply NoDup_filter.
  - intros k l q Hk Hq. rewrite list_lookup_fmap in Hk. destruct (v !! k) as [l'|] eqn:E; [|done]. injection Hk as <-.
    apply list_elem_of_filter in Hq as [Hne Hq]. rewrite lookup_delete_ne by done. by eapply H4.
  - intros q d Hd. rewrite concat_map_filter. apply lookup_delete_Some in Hd as [Hne Hd]. apply list_elem_of_filter.
    split; [done|]. by eapply H5.
  - intros q [_ Hq]%list_elem_of_filter. by apply H6.
Qed.

Lemma wheel_timer T m v W A p t : wheel T m v W A -> A !! p = None -> p ∉ W -> wheel T (<[p := t]> m) v W A.
Proof.
  intros [H1 H2 H3 H4 H5 H6] HA HW. split; try done.
  - intros k l q Hk Hq. destruct (H4 k l q Hk Hq) as (t' & d & Ht & H). exists t', d. split; [|done].
    rewrite lookup_insert_ne; [done|]. intros <-. destruct H as (_ & _ & Hd & _). congruence.
  - intros q Hq. rewrite lookup_insert_ne by (intros ->; done). by apply H6.
Qed.

Lemma wheel_put T m v W A p t d k : wheel T m v W A -> A !! p = None -> p ∉ W -> m !! p = Some t ->
  t_base t = true -> word (t_expires t) -> placed T (t_expires t) d k -> (k < 512)%nat ->
  wheel T m (alter (fun l => l ++ [p]) k v) W (<[p := d]> A).
Proof.
  intros Hw HA HW Ht Hb He Hp Hk. pose proof Hw as [H1 H2 H3 H4 H5 H6].
  destruct (lookup_lt_is_Some_2 v k) as [l Hl]; [by rewrite H2|].
  rewrite (alter_insert _ _ _ _ Hl).
  assert (concat (<[k := l ++ [p]]> v) ≡ₚ p :: concat v) as Ec.
  { apply (Permutation_app_inv_r l). rewrite (concat_insert v k l (l ++ [p]) Hl). cbn. solve_Permutation. }
  assert (p ∉ concat v) as Hnp by (rewrite (wheel_dom _ _ _ _ _ p Hw), HA; by intros [? ?]).
  split; [done|by rewrite length_insert| | | |].
  - rewrite Ec. cbn. apply NoDup_cons. split; [|done]. set_solver.
  - intros j l' q Hj Hq. apply list_lookup_insert_Some in Hj as [(<- & <- & _)|[Hne Hj]].
    + apply elem_of_app in Hq as [Hq|Hq%list_elem_of_singleton].
      * destruct (H4 k l q Hl Hq) as (t' & d' & Ht' & Hb' & He' & Hd' & Hp'). exists t', d'. split_and!; try done.
        rewrite lookup_insert_ne; [done|]. intros <-. congruence.
      * subst q. exists t, d. split_and!; try done. apply lookup_insert_eq.
    + destruct (H4 j l' q Hj Hq) as (t' & d' & Ht' & Hb' & He' & Hd' & Hp'). exists t', d'. split_and!; try done.
      rewrite lookup_insert_ne; [done|]. intros <-. congruence.
  - intros q d' Hd'. rewrite Ec. apply lookup_insert_Some in Hd' as [[<- _]|[_ Hd']]; [left|right; by eapply H5].
  - done.
Qed.

(** ** Cascades *)

(** A list is taken out of the wheel. *)
Lemma wheel_take T m v W A k l : wheel T m v W A -> v !! k = Some l ->
  wheel T m (<[k := []]> v) W (base.filter (fun x => x.1 ∉ l) A).
Proof.
  intros [H1 H2 H3 H4 H5 H6] Hk. pose proof (concat_insert v k l [] Hk) as Ec. rewrite app_nil_r in Ec.
  assert (NoDup (concat (<[k := []]> v) ++ W) /\ forall p, p ∈ l -> p ∉ concat (<[k := []]> v)) as [Hn Hl].
  { rewrite <- Ec in H3. rewrite <- app_assoc in H3. apply NoDup_app in H3 as (Ha & Hb & Hc). split.
    - apply NoDup_app. split; [done|]. split; [set_solver|]. by apply NoDup_app in Hc as (_ & _ & ?).
    - intros p Hp Hp'. apply (Hb p Hp'). set_solver. }
  split; [done|by rewrite length_insert|done| | |done].
  - intros j l' q Hj Hq. apply list_lookup_insert_Some in Hj as [(<- & <- & _)|[Hne Hj]]; [set_solver|].
    destruct (H4 j l' q Hj Hq) as (t & d & Ht & Hb & He & Hd & Hp). exists t, d. split_and!; try done.
    apply map_lookup_filter_Some. split; [done|]. cbn. intros Hql. apply (Hl q Hql). apply elem_of_concat.
    exists j, l'. split; [|done]. by rewrite list_lookup_insert_ne.
  - intros q d [Hd Hq]%map_lookup_filter_Some. cbn in Hq. specialize (H5 q d Hd). rewrite <- Ec in H5. set_solver.
Qed.

Lemma wheel_list T m v W A k l : wheel T m v W A -> v !! k = Some l -> NoDup l /\ forall p, p ∈ l -> p ∉ W.
Proof.
  intros Hw Hk. pose proof (concat_insert v k l [] Hk) as Ec. rewrite app_nil_r in Ec.
  pose proof (wh_nodup _ _ _ _ _ Hw) as Hn. rewrite <- Ec, <- app_assoc in Hn.
  apply NoDup_app in Hn as (_ & _ & (Hl & Hd & _)%NoDup_app). done.
Qed.

(** The timers of a list put where they belong at [T]. *)
Definition place1 T m v (p : Z) : list (list Z) :=
  match m !! p with
  | Some t => alter (fun l => l ++ [p]) (Z.to_nat (wheel_slot T (t_expires t))) v
  | None => v
  end.

Lemma place_all T m W A : forall l v A0, wheel T m v W A0 -> NoDup l ->
  (forall p, p ∈ l -> A0 !! p = None /\ p ∉ W /\ exists t, m !! p = Some t /\ t_base t = true /\ word (t_expires t) /\
     A !! p = Some (left_of T (t_expires t)) /\ 0 <= wheel_slot T (t_expires t) < 512) ->
  (forall p, p ∉ l -> A0 !! p = A !! p) ->
  wheel T m (foldl (place1 T m) v l) W A.
Proof.
  induction l as [|p l IH]; intros v A0 Hw Hn Hl HA.
  - replace A with A0; [done|]. apply map_eq. intros p. apply HA. set_solver.
  - apply NoDup_cons in Hn as [Hp Hn]. destruct (Hl p ltac:(left)) as (HA0 & HW & t & Ht & Hb & He & Hd & Hs).
    cbn. apply (IH _ (<[p := left_of T (t_expires t)]> A0)).
    + unfold place1. rewrite Ht. apply (wheel_put _ _ _ _ _ _ t); try done; [|lia].
      apply wheel_slot_placed; [apply Hw|done].
    + done.
    + intros q Hq. destruct (Hl q ltac:(by right)) as (HAq & H). split; [|done].
      rewrite lookup_insert_ne; [done|]. by intros <-.
    + intros q Hq. destruct (decide (q = p)) as [->|Hne]; [by rewrite lookup_insert_eq|].
      rewrite lookup_insert_ne by done. apply HA. set_solver.
Qed.

Lemma place1_insert T m v p k : (forall t, m !! p = Some t -> Z.to_nat (wheel_slot T (t_expires t)) <> k) ->
  <[k := []]> (place1 T m v p) = place1 T m (<[k := []]> v) p.
Proof.
  intros Hk. unfold place1. destruct (m !! p) as [t|] eqn:E; [|done]. rewrite !list_insert_alter.
  apply alter_commute. intros E'. by eapply Hk.
Qed.
Lemma place_all_insert T m k : forall l v,
  (forall p t, p ∈ l -> m !! p = Some t -> Z.to_nat (wheel_slot T (t_expires t)) <> k) ->
  <[k := []]> (foldl (place1 T m) v l) = foldl (place1 T m) (<[k := []]> v) l.
Proof.
  induction l as [|p l IH]; intros v Hk; cbn; [done|]. rewrite IH; [|intros; eapply Hk; [by right|done]].
  f_equal. apply place1_insert. intros t Ht. eapply Hk; [left|done].
Qed.
Lemma place_all_other T m k : forall l v,
  (forall p t, p ∈ l -> m !! p = Some t -> Z.to_nat (wheel_slot T (t_expires t)) <> k) ->
  foldl (place1 T m) v l !! k = v !! k.
Proof.
  induction l as [|p l IH]; intros v Hk; cbn; [done|]. rewrite IH; [|intros; eapply Hk; [by right|done]].
  unfold place1. destruct (m !! p) as [t|] eqn:E; [|done]. apply list_lookup_alter_ne. eapply Hk; [left|done].
Qed.

Lemma length_place_all T m : forall l v, length (foldl (place1 T m) v l) = length v.
Proof.
  induction l as [|p l IH]; intros v; cbn; [done|]. rewrite IH. unfold place1. destruct (m !! p); [|done]. apply length_alter.
Qed.

Lemma cascade_loop_eq l : forall s, (forall p, p ∈ l -> exists t, timers s !! p = Some t /\ t_base t = true) ->
  cascade_loop l s = Ok (tt, set_vecs (foldl (place1 (timer_jiffies s) (timers s)) (vecs s) l) (work_list s) s).
Proof.
  induction l as [|p l IH]; intros s Hl; cbn; [by destruct s|].
  destruct (Hl p ltac:(left)) as (t & Ht & Hb).
  assert (timer_at p s = Ok (t, s)) as E by (unfold timer_at; by rewrite Ht).
  rewrite (M_bind_val _ _ _ _ _ E). rewrite Hb. cbn [negb].
  rewrite (M_bind_val _ _ s tt (set_vecs (place1 (timer_jiffies s) (timers s) (vecs s) p) (work_list s) s)).
  - rewrite IH; [done|]. intros q Hq. cbn. apply Hl. by right.
  - unfold internal_add_timer. rewrite (M_bind_val _ _ _ _ _ E). unfold place1. by rewrite Ht.
Qed.
End Wheel.

Definition wheel_ok (s : tvec_base) (A : gmap Z Z) : Prop :=
  wheel (timer_jiffies s) (timers s) (vecs s) (work_list s) A.

Lemma INDEX_eq T n : 1 <= n -> INDEX T (n - 1) = (T / 2 ^ vec_shift n) mod 64.
Proof.
  intros Hn. unfold INDEX, TVN_MASK, TVR_BITS, TVN_BITS, vec_shift. rewrite land_63, Z.shiftr_div_pow2 by lia.
  by replace (8 + (n - 1) * 6) with (8 + 6 * (n - 1)) by lia.
Qed.

Lemma turn_next T n : 1 <= n -> T mod 2 ^ vec_shift n = 0 ->
  (T / 2 ^ vec_shift n) mod 64 = 0 <-> T mod 2 ^ vec_shift (n + 1) = 0.
Proof.
  intros Hn HT. pose proof (vec_pow_pos n Hn) as HS.
  assert (2 ^ vec_shift (n + 1) = 2 ^ vec_shift n * 64) as ->.
  { unfold vec_shift. replace (8 + 6 * (n + 1 - 1)) with (8 + 6 * (n - 1) + 6) by lia. by rewrite Z.pow_add_r by lia. }
  rewrite Z.rem_mul_r by lia. rewrite HT. split; [intros ->; lia|]. intros E. nia.
Qed.
Lemma turn_prev T n : 1 <= n -> T mod 2 ^ vec_shift (n + 1) = 0 -> T mod 2 ^ vec_shift n = 0.
Proof.
  intros Hn. pose proof (vec_pow_pos n Hn) as HS.
  assert (2 ^ vec_shift (n + 1) = 2 ^ vec_shift n * 64) as ->.
  { unfold vec_shift. replace (8 + 6 * (n + 1 - 1)) with (8 + 6 * (n - 1) + 6) by lia. by rewrite Z.pow_add_r by lia. }
  rewrite Z.rem_mul_r by lia. pose proof (Z.mod_pos_bound T (2 ^ vec_shift n) HS).
  pose proof (Z.mod_pos_bound (T / 2 ^ vec_shift n) 64). nia.
Qed.

Lemma cascade_wheel s A n : wheel_ok s A -> 1 <= n <= 4 -> timer_jiffies s mod 2 ^ vec_shift n = 0 ->
  exists v', cascade (vec_start n) (INDEX (timer_jiffies s) (n - 1)) s
      = Ok (INDEX (timer_jiffies s) (n - 1), set_vecs v' (work_list s) s) /\
    wheel_ok (set_vecs v' (work_list s) s) A /\
    (forall k, cascaded (timer_jiffies s) n k -> v' !! k = Some []) /\
    (forall m k, cascaded (timer_jiffies s) m k -> vecs s !! k = Some [] -> v' !! k = Some []).
Proof.
  intros Hw Hn HT. set (T := timer_jiffies s) in *. rewrite INDEX_eq by lia. set (i := (T / 2 ^ vec_shift n) mod 64).
  pose proof (Z.mod_pos_bound (T / 2 ^ vec_shift n) 64 ltac:(done)) as Hi. fold i in Hi.
  set (k := Z.to_nat (vec_start n + i)).
  assert (Z.of_nat k = vec_start n + i) as Ek by (unfold k, vec_start in *; lia).
  assert (cascaded T n k) as Hc by done.
  destruct (lookup_lt_is_Some_2 (vecs s) k) as [l Hl]; [rewrite (wh_len _ _ _ _ _ Hw); unfold vec_start in Ek; lia|].
  assert (forall p, p ∈ l -> exists t d, timers s !! p = Some t /\ t_base t = true /\ word (t_expires t) /\
    A !! p = Some d /\ d = left_of T (t_expires t) /\ 0 <= wheel_slot T (t_expires t) < vec_start n /\
    (forall m, ~ cascaded T m (Z.to_nat (wheel_slot T (t_expires t))))) as Hin.
  { intros p Hp. destruct (wh_in _ _ _ _ _ Hw k l p Hl Hp) as (t & d & Ht & Hb & He & Hd & Hpl).
    destruct (placed_cascaded _ _ _ _ _ Hpl Hc) as [Ed Hlt]. rewrite Ed in Hlt.
    destruct (readd_slot T (t_expires t) n (wh_word _ _ _ _ _ Hw) He Hn Hlt) as (H1 & H2 & H3 & H4).
    exists t, d. split_and!; try done. by rewrite H3. }
  exists (<[k := []]> (foldl (place1 T (timers s)) (vecs s) l)). split_and!.
  - unfold cascade. rewrite (M_bind_val _ _ s (vecs s) s) by done. fold k. rewrite Hl. cbn [default].
    rewrite (M_bind_val _ _ _ _ _ (cascade_loop_eq l s ltac:(intros p Hp; destruct (Hin p Hp) as (t & ? & ? & ? & _); eauto))).
    done.
  - rewrite place_all_insert.
    + unfold wheel_ok. cbn. fold T. apply (place_all T (timers s) (work_list s) A l _ (base.filter (fun x => x.1 ∉ l) A)).
      * by apply wheel_take.
      * by apply (wheel_list _ _ _ _ _ _ _ Hw Hl).
      * intros p Hp. destruct (Hin p Hp) as (t & d & Ht & Hb & He & Hd & Ed & Hs & _). split_and!.
        -- apply map_lookup_filter_None. right. intros ? ? Hf. cbn in Hf. done.
        -- by apply (wheel_list _ _ _ _ _ _ _ Hw Hl).
        -- exists t. split_and!; try done; [by rewrite Hd, Ed|lia|unfold vec_start in Hs; lia].
      * intros p Hp. destruct (A !! p) as [d|] eqn:E.
        -- by apply map_lookup_filter_Some.
        -- apply map_lookup_filter_None. by left.
    + intros p t Hp Ht. destruct (Hin p Hp) as (t' & d & Ht' & _ & _ & _ & _ & Hs & _). simplify_eq. lia.
  - intros k' (_ & _ & Ek'). assert (k' = k) as -> by lia. apply list_lookup_insert_eq.
    rewrite length_place_all. by eapply lookup_lt_Some.
  - intros m k' Hm Hk'. destruct (decide (k' = k)) as [->|Hne].
    + apply list_lookup_insert_eq. rewrite length_place_all. by eapply lookup_lt_Some.
    + rewrite list_lookup_insert_ne by done. rewrite place_all_other; [done|]. intros p t Hp Ht.
      destruct (Hin p Hp) as (t' & d & Ht' & _ & _ & _ & _ & _ & Hs). simplify_eq. intros <-. by apply (Hs m).
Qed.

(** The cascades of a tick leave no timer that is to be cascaded. *)
Definition no_cascaded (T : Z) (v : list (list Z)) : Prop := forall n k, cascaded T n k -> v !! k = Some [].

Lemma cascades_done T v n : 0 <= n -> T mod 2 ^ vec_shift (n + 1) <> 0 ->
  (forall m k, m <= n -> cascaded T m k -> v !! k = Some []) -> no_cascaded T v.
Proof.
  intros Hn HT Hv m k Hc. destruct (decide (m <= n)) as [Hm|Hm]; [by eapply Hv|]. exfalso.
  destruct Hc as (Hm4 & Hc & _). assert (forall j : nat, n + 1 <= m - j -> T mod 2 ^ vec_shift (m - j) = 0) as Hj.
  { intros j. induction j as [|j IH]; intros Hle; [by rewrite Z.sub_0_r|]. apply turn_prev; [lia|].
    replace (m - S j + 1) with (m - j) by lia. apply IH. lia. }
  apply HT. specialize (Hj (Z.to_nat (m - (n + 1)))). replace (m - Z.to_nat (m - (n + 1))) with (n + 1) in Hj by lia. apply Hj. lia.
Qed.

(** One more vector, if its turn begins. *)
Lemma cascade_more s A n (rest : Z -> P unit) (Q : list (list Z) -> Prop) :
  wheel_ok s A -> 1 <= n <= 4 -> timer_jiffies s mod 2 ^ vec_shift n = 0 ->
  (forall m k, m < n -> cascaded (timer_jiffies s) m k -> vecs s !! k = Some []) ->
  (forall v', wheel_ok (set_vecs v' (work_list s) s) A ->
     (forall m k, m <= n -> cascaded (timer_jiffies s) m k -> v' !! k = Some []) ->
     exists v'', rest (INDEX (timer_jiffies s) (n - 1)) (set_vecs v' (work_list s) s)
       = Ok (tt, set_vecs v'' (work_list s) s) /\ Q v'') ->
  exists v'', (i ← cascade (vec_start n) (INDEX (timer_jiffies s) (n - 1)); rest i) s
    = Ok (tt, set_vecs v'' (work_list s) s) /\ Q v''.
Proof.
  intros Hw Hn HT Hv Hk. destruct (cascade_wheel s A n Hw Hn HT) as (v' & E & Hw' & H1 & H2).
  destruct (Hk v' Hw') as (v'' & E' & HQ).
  { intros m k Hm Hc. destruct (decide (m = n)) as [->|Hne]; [by apply H1|]. apply (H2 m k Hc). apply (Hv m k); [lia|done]. }
  exists v''. split; [|done]. by rewrite (M_bind_val _ _ _ _ _ E).
Qed.

Lemma cascades_wheel s A : wheel_ok s A ->
  exists v', cascades (timer_jiffies s) s = Ok (tt, set_vecs v' (work_list s) s) /\
    (wheel_ok (set_vecs v' (work_list s) s) A /\ no_cascaded (timer_jiffies s) v').
Proof.
  intros Hw. unfold cascades. set (T := timer_jiffies s). unfold TVR_MASK. rewrite land_255.
  destruct (Z.eqb_spec (T mod 256) 0) as [H0|H0]; cbn [negb].
  2: { exists (vecs s). replace (set_vecs (vecs s) (work_list s) s) with s by (by destruct s). split_and!; [done|done|].
       apply (cascades_done T _ 0); [lia|done|]. intros m k Hm [Hm' _]. lia. }
  assert (forall n v', 1 <= n <= 4 -> T mod 2 ^ vec_shift n = 0 -> wheel_ok (set_vecs v' (work_list s) s) A ->
    (forall m k, m <= n -> cascaded T m k -> v' !! k = Some []) -> INDEX T (n - 1) <> 0 \/ n = 4 ->
    wheel_ok (set_vecs v' (work_list s) s) A /\ no_cascaded T v') as Hend.
  { intros n v' Hn HT Hw' Hv Hi. split; [done|]. destruct Hi as [Hi| ->].
    - apply (cascades_done T v' n); [lia| |done]. rewrite <- turn_next by (done || lia). by rewrite <- INDEX_eq by lia.
    - intros m k Hc. apply (Hv m k); [|done]. destruct Hc. lia. }
  assert (forall n, 1 <= n <= 4 -> T mod 2 ^ vec_shift n = 0 -> INDEX T (n - 1) = 0 -> T mod 2 ^ vec_shift (n + 1) = 0) as Hnext.
  { intros n Hn HT Hi. apply turn_next; [lia|done|]. by rewrite <- INDEX_eq by lia. }
  apply (cascade_more s A 1); [done|lia|done|intros m k Hm [? _]; lia|]. intros v1 Hw1 Hv1.
  fold T. destruct (Z.eqb_spec (INDEX T (1 - 1)) 0) as [H1|H1]; cbn [negb]; [|exists v1; split; [done|]; by apply (Hend 1); [lia|..|left]].
  apply Hnext in H1 as HT2; [|lia|done].
  apply (cascade_more (set_vecs v1 (work_list s) s) A 2); [done|lia|done|intros m k Hm; apply Hv1; lia|]. intros v2 Hw2 Hv2.
  cbn [timer_jiffies set_vecs]. fold T.
  destruct (Z.eqb_spec (INDEX T (2 - 1)) 0) as [H2|H2]; cbn [negb]; [|exists v2; split; [done|]; by apply (Hend 2); [lia|..|left]].
  apply Hnext in H2 as HT3; [|lia|done].
  apply (cascade_more (set_vecs v2 (work_list s) s) A 3); [done|lia|done|intros m k Hm; apply Hv2; lia|]. intros v3 Hw3 Hv3.
  cbn [timer_jiffies set_vecs]. fold T.
  destruct (Z.eqb_spec (INDEX T (3 - 1)) 0) as [H3|H3]; cbn [negb]; [|exists v3; split; [done|]; by apply (Hend 3); [lia|..|left]].
  apply Hnext in H3 as HT4; [|lia|done].
  apply (cascade_more (set_vecs v3 (work_list s) s) A 4); [done|lia|done|intros m k Hm; apply Hv3; lia|]. intros v4 Hw4 Hv4.
  exists v4. split; [done|]. by apply (Hend 4); [lia|..|right].
Qed.

(** ** A tick *)

Definition next_tick (A : gmap Z Z) : gmap Z Z := omap (fun d => if d =? 0 then None else Some (d - 1)) A.

Lemma next_tick_Some A p d : next_tick A !! p = Some d <-> A !! p = Some (d + 1) /\ d + 1 <> 0.
Proof.
  unfold next_tick. rewrite lookup_omap. destruct (A !! p) as [d'|]; cbn; [|split; [done|intros [? _]; done]].
  destruct (Z.eqb_spec d' 0); split.
  - done.
  - intros [[= ->] ?]. lia.
  - intros [= <-]. split; [f_equal; lia|lia].
  - intros [[= ->] ?]. f_equal. lia.
Qed.

Lemma placed_now T e d k : placed T e d k -> Z.of_nat k = T mod 256 -> d = 0.
Proof.
  intros [[Hd E]|(n & Hn & E & _)] Hk; [|unfold vec_start in E; pose proof (Z.mod_pos_bound (e / 2 ^ vec_shift n) 64);
    pose proof (Z.mod_pos_bound T 256); lia].
  rewrite E in Hk. clear E. mlia.
Qed.

Lemma start_tick_wheel s A : wheel_ok s A -> work_list s = [] ->
  exists v w, start_tick s = Ok (tt, set_vecs v w (set_tick (u32 (timer_jiffies s + 1)) s)) /\
    wheel (u32 (timer_jiffies s + 1)) (timers s) v w (next_tick A) /\ forall p, p ∈ w <-> A !! p = Some 0.
Proof.
  intros Hw HW. destruct (cascades_wheel s A Hw) as (v & E & Hw1 & Hnc). set (T := timer_jiffies s) in *.
  unfold wheel_ok in Hw1. cbn in Hw1. fold T in Hw1. rewrite HW in Hw1.
  pose proof (Z.mod_pos_bound T 256 ltac:(done)) as HT. set (k := Z.to_nat (T mod 256)).
  assert (Z.of_nat k = T mod 256) as Ek by (unfold k; lia).
  destruct (lookup_lt_is_Some_2 v k) as [l Hl]; [rewrite (wh_len _ _ _ _ _ Hw1); lia|].
  assert (forall p d, A !! p = Some d -> exists j l' t, v !! j = Some l' /\ p ∈ l' /\ timers s !! p = Some t /\
    t_base t = true /\ word (t_expires t) /\ placed T (t_expires t) d j /\
    (j <> k -> 1 <= d /\ placed (u32 (T + 1)) (t_expires t) (d - 1) j)) as Hat.
  { intros p d Hd. destruct (wheel_at _ _ _ _ _ p d Hw1 Hd) as (j & l' & t & Hj & Hp & Ht & Hb & He & Hpl).
    exists j, l', t. split_and!; try done. intros Hne. apply placed_tick; [apply Hw1|done|done|lia|].
    intros n Hc. specialize (Hnc n j Hc). rewrite Hj in Hnc. injection Hnc as ->. set_solver. }
  assert (forall p, p ∈ l <-> A !! p = Some 0) as Hl0.
  { intros p. split.
    - intros Hp. destruct (wh_in _ _ _ _ _ Hw1 k l p Hl Hp) as (t & d & _ & _ & _ & Hd & Hpl).
      by rewrite Hd, (placed_now _ _ _ _ Hpl Ek).
    - intros Hp. destruct (Hat p 0 Hp) as (j & l' & t & Hj & Hpl & _ & _ & _ & _ & Hne).
      destruct (decide (j = k)) as [->|Hjk]; [congruence|]. specialize (Hne Hjk). lia. }
  exists (<[k := []]> v), l. split_and!; [| |done].
  { unfold start_tick. rewrite (M_bind_val _ _ s T s) by done. rewrite (M_bind_val _ _ _ _ _ E). unfold TVR_MASK.
    mstep. cbn. rewrite land_255. fold k. by rewrite Hl. }
  pose proof (concat_insert v k l [] Hl) as Ec. rewrite app_nil_r in Ec. pose proof (wh_nodup _ _ _ _ _ Hw1) as Hn.
  rewrite app_nil_r, <- Ec in Hn. split; [apply u32_range|by rewrite length_insert, (wh_len _ _ _ _ _ Hw1)|done| | |].
  - intros j l' q Hj Hq. apply list_lookup_insert_Some in Hj as [(<- & <- & _)|[Hne Hj]]; [set_solver|].
    destruct (wh_in _ _ _ _ _ Hw1 j l' q Hj Hq) as (t & d & Ht & Hb & He & Hd & Hpl).
    destruct (Hat q d Hd) as (j' & l'' & t' & Hj' & Hq' & Ht' & _ & _ & _ & Hnext).
    assert (1 <= d /\ placed (u32 (T + 1)) (t_expires t) (d - 1) j) as [H1 H2].
    { apply placed_tick; [apply Hw1|done|done|lia|]. intros n Hc. specialize (Hnc n j Hc). rewrite Hj in Hnc.
      injection Hnc as ->. set_solver. }
    exists t, (d - 1). split_and!; try done. apply next_tick_Some. split; [by replace (d - 1 + 1) with d by lia|lia].
  - intros p d [Hd Hd0]%next_tick_Some. pose proof (wh_dom _ _ _ _ _ Hw1 p _ Hd) as Hp. rewrite <- Ec in Hp.
    apply elem_of_app in Hp as [Hp|Hp]; [done|]. apply Hl0 in Hp. rewrite Hd in Hp. injection Hp as ?. lia.
  - intros p Hp. destruct (wh_in _ _ _ _ _ Hw1 k l p Hl Hp) as (t & d & Ht & Hb & _). by exists t.
Qed.

(** ** Arming and disarming *)

(** A call that is about the timer [p]: the other timers keep their times. *)
Record effect (p : Z) (s s' : tvec_base) (A A' : gmap Z Z) : Prop := {
  eff_wheel : wheel_ok s' A';
  eff_lock : base_lock s' = base_lock s;
  eff_tick : timer_jiffies s' = timer_jiffies s;
  eff_jiffies : jiffies s' = jiffies s;
  eff_calls : calls s' = calls s;
  eff_timers : forall q t, timers s !! q = Some t ->
    exists t', timers s' !! q = Some t' /\ t_function t' = t_function t /\ t_data t' = t_data t;
  eff_other : forall q, q <> p -> A' !! q = A !! q;
  eff_work : forall q, q <> p -> q ∈ work_list s' <-> q ∈ work_list s;
  eff_length : (length (work_list s') <= length (work_list s))%nat
}.

Lemma effect_refl p s A : wheel_ok s A -> effect p s s A A.
Proof. intros Hw. split; try done. eauto. Qed.
Lemma effect_trans p s1 s2 s3 A1 A2 A3 : effect p s1 s2 A1 A2 -> effect p s2 s3 A2 A3 -> effect p s1 s3 A1 A3.
Proof.
  intros [] []. split; try congruence; try lia; try done.
  - intros q t Ht. destruct (eff_timers0 q t Ht) as (t' & Ht' & ? & ?).
    destruct (eff_timers1 q t' Ht') as (t'' & Ht'' & ? & ?). exists t''. split_and!; congruence.
  - intros q Hq. rewrite eff_other1, eff_other0; done.
  - intros q Hq. rewrite eff_work1, eff_work0; done.
Qed.

(** A timer record in which only what the lists do not show has changed. *)
Lemma wheel_ext T m m' v W A : wheel T m v W A ->
  (forall q t, m !! q = Some t -> exists t', m' !! q = Some t' /\ t_base t' = t_base t /\ t_expires t' = t_expires t) ->
  wheel T m' v W A.
Proof.
  intros [H1 H2 H3 H4 H5 H6] Hm. split; try done.
  - intros k l p Hk Hp. destruct (H4 k l p Hk Hp) as (t & d & Ht & Hb & He & Hd & Hpl).
    destruct (Hm p t Ht) as (t' & Ht' & Eb & Ee). exists t', d. rewrite Eb, Ee. auto.
  - intros p Hp. destruct (H6 p Hp) as (t & Ht & Hb). destruct (Hm p t Ht) as (t' & Ht' & Eb & _). exists t'. by rewrite Eb.
Qed.

Lemma wheel_slot_range T e : 0 <= wheel_slot T e < 512.
Proof.
  rewrite wheel_slot_eq. cbn zeta.
  pose proof (Z.mod_pos_bound e 256 ltac:(done)). pose proof (Z.mod_pos_bound T 256 ltac:(done)).
  assert (forall z, 0 <= z mod 64 < 64) as H64 by (intros z; by apply Z.mod_pos_bound).
  pose proof (H64 (e / 2 ^ 8)). pose proof (H64 (e / 2 ^ 14)). pose proof (H64 (e / 2 ^ 20)). pose proof (H64 (e / 2 ^ 26)).
  repeat case_match; lia.
Qed.

Lemma timer_at_Some p t s : timers s !! p = Some t -> timer_at p s = Ok (t, s).
Proof. intros E. unfold timer_at. by rewrite E. Qed.

Lemma check_timer_ok p t s A : wheel_ok s A -> timers s !! p = Some t ->
  exists s' t', check_timer p s = Ok (tt, s') /\ effect p s s' A A /\ timers s' !! p = Some t' /\
    vecs s' = vecs s /\ work_list s' = work_list s /\ running_timer s' = running_timer s /\
    t_expires t' = t_expires t /\ t_base t' = t_base t /\ t_function t' = t_function t.
Proof.
  intros Hw Ht. unfold check_timer. rewrite (M_bind_val _ _ _ _ _ (timer_at_Some _ _ _ Ht)).
  destruct (Z.eqb_spec (t_magic t) TIMER_MAGIC).
  { exists s, t. split_and!; try done. by apply effect_refl. }
  set (t' := mk_timer (t_expires t) TIMER_MAGIC (t_function t) (t_data t) (t_base t)).
  exists (set_timers (<[p := t']> (timers s)) (whine s)), t'. split_and!; try done; [|cbn; apply lookup_insert_eq].
  assert (forall q u, timers s !! q = Some u -> exists u', <[p := t']> (timers s) !! q = Some u' /\
    t_function u' = t_function u /\ t_data u' = t_data u /\ t_base u' = t_base u /\ t_expires u' = t_expires u) as Hsame.
  { intros q u Hu. destruct (decide (q = p)) as [->|Hne].
    - simplify_eq. exists t'. by rewrite lookup_insert_eq.
    - exists u. by rewrite lookup_insert_ne. }
  split; try done.
  - apply (wheel_ext _ (timers s)); [done|]. intros q u Hu. destruct (Hsame q u Hu) as (u' & ? & ? & ? & ? & ?). by exists u'.
  - intros q u Hu. destruct (Hsame q u Hu) as (u' & ? & ? & ? & ? & ?). by exists u'.
Qed.

(** A timer that is not pending is on no list. *)
Lemma idle_out T m v W A p t : wheel T m v W A -> m !! p = Some t -> t_base t = false -> A !! p = None /\ p ∉ W.
Proof.
  intros Hw Ht Hb. split.
  - destruct (A !! p) as [d|] eqn:E; [|done]. destruct (wheel_at _ _ _ _ _ p d Hw E) as (k & l & t' & _ & _ & Ht' & Hb' & _).
    congruence.
  - intros Hp. destruct (wh_work _ _ _ _ _ Hw p Hp) as (t' & Ht' & Hb'). congruence.
Qed.

(** The lists without a timer, if it is on one. *)
Definition unlisted (b : bool) (p : Z) (s : tvec_base) : tvec_base :=
  if b then set_vecs (map (base.filter (fun q => q <> p)) (vecs s)) (base.filter (fun q => q <> p) (work_list s)) s else s.

Lemma unlisted_effect s A p t : wheel_ok s A -> timers s !! p = Some t ->
  effect p s (unlisted (t_base t) p s) A (delete p A) /\ p ∉ work_list (unlisted (t_base t) p s).
Proof.
  intros Hw Ht. unfold unlisted. destruct (t_base t) eqn:Hb.
  - split; [|cbn; rewrite list_elem_of_filter; tauto]. split; try done; cbn.
    + by apply wheel_del.
    + eauto.
    + intros q Hq. by rewrite lookup_delete_ne.
    + intros q Hq. rewrite list_elem_of_filter. tauto.
    + apply length_filter.
  - destruct (idle_out _ _ _ _ _ p t Hw Ht Hb) as [HA HW]. rewrite delete_id by done. split; [by apply effect_refl|done].
Qed.

(** The timer gets a new record while it is on no list, and is then listed. *)
Lemma relisted_effect s A p t : wheel_ok s A -> A !! p = None -> p ∉ work_list s -> word (t_expires t) -> t_base t = true ->
  (forall u, timers s !! p = Some u -> t_function t = t_function u /\ t_data t = t_data u) ->
  let k := Z.to_nat (wheel_slot (timer_jiffies s) (t_expires t)) in
  effect p s (set_vecs (alter (fun l => l ++ [p]) k (vecs s)) (work_list s) (set_timers (<[p := t]> (timers s)) s))
    A (<[p := left_of (timer_jiffies s) (t_expires t)]> A).
Proof.
  intros Hw HA HW He Hb Hu k. pose proof (wheel_slot_range (timer_jiffies s) (t_expires t)).
  split; try done; cbn.
  - apply (wheel_put _ _ _ _ _ _ t); try done; [by apply wheel_timer|apply lookup_insert_eq| |unfold k; lia].
    apply wheel_slot_placed; [apply Hw|done].
  - intros q u Hq. destruct (decide (q = p)) as [->|Hne].
    + exists t. rewrite lookup_insert_eq. split; [done|]. by apply Hu.
    + exists u. by rewrite lookup_insert_ne.
  - intros q Hq. by rewrite lookup_insert_ne.
Qed.

Lemma effect_locked p s s' A A' : base_lock s = false -> effect p (set_lock true s) s' A A' -> effect p s (set_lock false s') A A'.
Proof. intros Hl []. by split. Qed.

Lemma lock_base_ok s : base_lock s = false -> lock_base s = Ok (tt, set_lock true s).
Proof. intros Hl. unfold lock_base. by rewrite Hl. Qed.

Lemma internal_add_ok p t s : timers s !! p = Some t -> internal_add_timer p s =
  Ok (tt, set_vecs (alter (fun l => l ++ [p]) (Z.to_nat (wheel_slot (timer_jiffies s) (t_expires t))) (vecs s)) (work_list s) s).
Proof. intros Ht. unfold internal_add_timer. by rewrite (M_bind_val _ _ _ _ _ (timer_at_Some _ _ _ Ht)). Qed.

Lemma __mod_timer_ok p e t s A : wheel_ok s A -> base_lock s = false -> timers s !! p = Some t -> t_function t <> 0 -> word e ->
  exists s', __mod_timer p e s = Ok (Z.b2z (t_base t), s') /\ effect p s s' A (<[p := left_of (timer_jiffies s) e]> A) /\
    p ∉ work_list s'.
Proof.
  intros Hw Hl Ht Hf He. unfold __mod_timer. rewrite (M_bind_val _ _ _ _ _ (timer_at_Some _ _ _ Ht)).
  destruct (Z.eqb_spec (t_function t) 0); [done|].
  destruct (check_timer_ok p t s A Hw Ht) as (s1 & t1 & E1 & Ef1 & Ht1 & _ & _ & _ & _ & Hb1 & Hf1).
  rewrite (M_bind_val _ _ _ _ _ E1). rewrite <- Hb1. assert (base_lock s1 = false) as Hl1 by (by rewrite (eff_lock _ _ _ _ _ Ef1)).
  rewrite (M_bind_val _ _ _ _ _ (lock_base_ok s1 Hl1)).
  rewrite (M_bind_val _ _ (set_lock true s1) t1 (set_lock true s1)) by (by apply timer_at_Some).
  destruct (unlisted_effect (set_lock true s1) A p t1) as [Ef2 HW2]; [exact (eff_wheel _ _ _ _ _ Ef1)|done|].
  set (s2 := unlisted (t_base t1) p (set_lock true s1)) in *.
  rewrite (M_bind_val _ _ _ tt s2) by (unfold s2, unlisted; by destruct (t_base t1)).
  set (t2 := set_base true (set_expires e t1)).
  destruct (eff_timers _ _ _ _ _ Ef2 p t1 Ht1) as (u & Hu & Eu1 & Eu2).
  pose proof (relisted_effect s2 (delete p A) p t2) as Ef3. cbn zeta in Ef3.
  set (s3 := set_vecs _ _ _) in Ef3.
  exists (set_lock false s3). split_and!.
  - set (s2' := set_timers (<[p := set_expires e t1]> (timers s2)) s2).
    rewrite (M_bind_val _ _ s2 tt s2') by done.
    rewrite (M_bind_val _ _ _ _ _ (internal_add_ok p _ s2' (lookup_insert_eq _ _ _))).
    rewrite (M_bind_val _ _ _ (set_expires e t1) (set_vecs (alter (fun l => l ++ [p])
      (Z.to_nat (wheel_slot (timer_jiffies s2) e)) (vecs s2)) (work_list s2) s2'))
      by (apply timer_at_Some, lookup_insert_eq).
    mstep. cbn. by rewrite insert_insert_eq.
  - eapply effect_trans; [exact Ef1|]. apply effect_locked; [done|]. eapply effect_trans; [exact Ef2|].
    replace (<[p := left_of (timer_jiffies s) e]> A) with (<[p := left_of (timer_jiffies s2) e]> (delete p A)).
    + apply Ef3; [exact (eff_wheel _ _ _ _ _ Ef2)|apply lookup_delete_eq|done|done|done|]. intros u' Hu'. simplify_eq. done.
    + rewrite (eff_tick _ _ _ _ _ Ef2). cbn. rewrite (eff_tick _ _ _ _ _ Ef1). apply insert_delete_eq.
  - done.
Qed.

Lemma mod_timer_ok p e t s A : wheel_ok s A -> base_lock s = false -> timers s !! p = Some t -> t_function t <> 0 -> word e ->
  exists s' A', mod_timer p e s = Ok (Z.b2z (t_base t), s') /\ effect p s s' A A' /\
    (A' = <[p := left_of (timer_jiffies s) e]> A /\ p ∉ work_list s' \/
     (t_expires t = e /\ t_base t = true /\ A' = A /\ work_list s' = work_list s)).
Proof.
  intros Hw Hl Ht Hf He. unfold mod_timer. rewrite (M_bind_val _ _ _ _ _ (timer_at_Some _ _ _ Ht)).
  destruct (Z.eqb_spec (t_function t) 0); [done|].
  destruct (check_timer_ok p t s A Hw Ht) as (s1 & t1 & E1 & Ef1 & Ht1 & _ & HW1 & _ & He1 & Hb1 & Hf1).
  rewrite (M_bind_val _ _ _ _ _ E1). destruct (Z.eqb_spec (t_expires t) e) as [E|E]; cbn [andb].
  2: destruct (__mod_timer_ok p e t1 s1 A) as (s' & E2 & Ef2 & HW2);
       [apply Ef1|by rewrite (eff_lock _ _ _ _ _ Ef1)|done|congruence|done|].
  2: { exists s', (<[p := left_of (timer_jiffies s1) e]> A). rewrite E2, Hb1. split; [done|].
       split; [by eapply effect_trans|]. left. by rewrite (eff_tick _ _ _ _ _ Ef1). }
  destruct (t_base t) eqn:Hb.
  - exists s1, A. split; [done|]. split; [done|]. by right.
  - destruct (__mod_timer_ok p e t1 s1 A) as (s' & E2 & Ef2 & HW2);
       [apply Ef1|by rewrite (eff_lock _ _ _ _ _ Ef1)|done|congruence|done|].
    exists s', (<[p := left_of (timer_jiffies s1) e]> A). rewrite E2, Hb1. split; [done|].
    split; [by eapply effect_trans|]. left. by rewrite (eff_tick _ _ _ _ _ Ef1).
Qed.

Lemma del_timer_ok p t s A : wheel_ok s A -> base_lock s = false -> timers s !! p = Some t ->
  exists s', del_timer p s = Ok (Z.b2z (t_base t), s') /\ effect p s s' A (delete p A) /\ p ∉ work_list s'.
Proof.
  intros Hw Hl Ht. unfold del_timer.
  destruct (check_timer_ok p t s A Hw Ht) as (s1 & t1 & E1 & Ef1 & Ht1 & _ & HW1 & _ & He1 & Hb1 & Hf1).
  rewrite (M_bind_val _ _ _ _ _ E1). rewrite (M_bind_val _ _ _ _ _ (timer_at_Some _ _ _ Ht1)). rewrite <- Hb1.
  pose proof (unlisted_effect s1 A p t1 (eff_wheel _ _ _ _ _ Ef1) Ht1) as [Ef2 HW2].
  assert (base_lock s1 = false) as Hl1 by (by rewrite (eff_lock _ _ _ _ _ Ef1)).
  destruct (t_base t1) eqn:Hb; cbn [negb].
  2: { exists s1. split; [done|]. split; [|done]. by eapply effect_trans. }
  rewrite (M_bind_val _ _ _ _ _ (lock_base_ok s1 Hl1)).
  set (s2 := unlisted true p (set_lock true s1)).
  rewrite (M_bind_val _ _ (set_lock true s1) tt s2) by done.
  rewrite (M_bind_val _ _ s2 t1 s2) by (by apply timer_at_Some).
  exists (set_lock false (set_timers (<[p := set_base false t1]> (timers s2)) s2)). split; [done|]. split; [|done].
  eapply effect_trans; [exact Ef1|]. destruct Ef2. split; try done; cbn in *.
  - apply wheel_timer; [done|apply lookup_delete_eq|done].
  - intros q u Hq. destruct (decide (q = p)) as [->|Hne].
    + exists (set_base false t1). rewrite lookup_insert_eq. by simplify_eq.
    + exists u. by rewrite lookup_insert_ne.
Qed.

(** Arming a timer that is not already set for that time: it was pending
    exactly when the result says so, it is due when its time comes and at the
    next tick when that is over, every other timer keeps its time, and
    del_timer makes it idle again. *)
Theorem mod_timer_arms p e t s A :
  wheel_ok s A -> base_lock s = false -> timers s !! p = Some t -> t_function t <> 0 -> word e ->
  (t_base t = true -> t_expires t <> e) ->
  exists s1 s2, mod_timer p e s = Ok (Z.b2z (t_base t), s1) /\
    wheel_ok s1 (<[p := left_of (timer_jiffies s) e]> A) /\
    del_timer p s1 = Ok (1, s2) /\ wheel_ok s2 (delete p A).
Proof.
  intros Hw Hl Ht Hf He Hne. destruct (mod_timer_ok p e t s A Hw Hl Ht Hf He) as (s1 & A1 & E1 & Ef1 & Hc).
  destruct Hc as [[-> HW]|(E & Hb & _)]; [|by apply Hne in Hb]. pose proof (eff_wheel _ _ _ _ _ Ef1) as Hw1.
  destruct (eff_timers _ _ _ _ _ Ef1 p t Ht) as (t1 & Ht1 & _).
  assert (t_base t1 = true) as Hb1.
  { destruct (t_base t1) eqn:Hb1; [done|]. destruct (idle_out _ _ _ _ _ p t1 Hw1 Ht1 Hb1) as [HA _].
    by rewrite lookup_insert_eq in HA. }
  destruct (del_timer_ok p t1 s1 _ Hw1 ltac:(by rewrite (eff_lock _ _ _ _ _ Ef1)) Ht1) as (s2 & E2 & Ef2 & _).
  exists s1, s2. rewrite Hb1 in E2. split_and!; try done. pose proof (eff_wheel _ _ _ _ _ Ef2) as Hw2.
  by rewrite delete_insert_eq in Hw2.
Qed.

(** ** Running *)

(** What the functions of timers do to timers, given their data and the time. *)
Inductive timer_call := CallMod (p e : Z) | CallDel (p : Z).
Definition target (c : timer_call) : Z := match c with CallMod p _ => p | CallDel p => p end.
Definition run_call (c : timer_call) : P Z := match c with CallMod p e => mod_timer p e | CallDel p => del_timer p end.
Fixpoint run_calls (cs : list timer_call) : P unit :=
  match cs with [] => mret tt | c :: cs => run_call c ≫= fun _ => run_calls cs end.

(** The ticks at which a timer was run, the last one first. *)
Definition times (p : Z) (cs : list (Z * Z)) : list Z := (base.filter (fun c => c.2 = p) cs).*1.

#[local] Arguments times : simpl never.
Lemma times_cons q t p cs : times q ((t, p) :: cs) = (if decide (p = q) then [t] else []) ++ times q cs.
Proof. unfold times. rewrite filter_cons. cbn. by destruct (decide (p = q)). Qed.

Lemma filter_absent (p : Z) (l : list Z) : p ∉ l -> base.filter (fun q => q <> p) l = l.
Proof.
  induction l as [|q l IH]; intros Hp; [done|]. rewrite filter_cons_True; [f_equal; apply IH; set_solver|].
  intros ->. apply Hp. left.
Qed.

Section Handlers.
Context (h : Z -> Z -> Z -> list timer_call).
Definition fn (f d : Z) : P unit := j ← gets jiffies; run_calls (h f d j).

(** Timers the functions know have a function, and times are words. *)
Definition call_ok (s : tvec_base) (c : timer_call) : Prop :=
  (exists t, timers s !! target c = Some t /\ t_function t <> 0) /\
  match c with CallMod _ e => word e | CallDel _ => True end.
Definition calls_ok (s : tvec_base) : Prop := forall f d j c, c ∈ h f d j -> call_ok s c.
Definition untouched (p : Z) : Prop := forall f d j c, c ∈ h f d j -> target c <> p.

(** Whatever is done about timers the functions know, the others keep their times. *)
Record handled (s s' : tvec_base) (A A' : gmap Z Z) : Prop := {
  hd_wheel : wheel_ok s' A';
  hd_lock : base_lock s' = base_lock s;
  hd_tick : timer_jiffies s' = timer_jiffies s;
  hd_jiffies : jiffies s' = jiffies s;
  hd_calls : calls s' = calls s;
  hd_ok : calls_ok s -> calls_ok s';
  hd_other : forall q, untouched q -> A' !! q = A !! q;
  hd_work : forall q, untouched q -> q ∈ work_list s' <-> q ∈ work_list s;
  hd_length : (length (work_list s') <= length (work_list s))%nat
}.

Lemma calls_ok_timers s s' : calls_ok s ->
  (forall q t, timers s !! q = Some t -> exists t', timers s' !! q = Some t' /\ t_function t' = t_function t) -> calls_ok s'.
Proof.
  intros Ho Ht f d j c Hc. destruct (Ho f d j c Hc) as [(t & E & Hf) He]. split; [|done].
  destruct (Ht _ t E) as (t' & E' & Ef). exists t'. by rewrite Ef.
Qed.

Lemma effect_handled p s s' A A' f d j c : c ∈ h f d j -> target c = p -> effect p s s' A A' -> handled s s' A A'.
Proof.
  intros Hc Hp []. assert (forall q, untouched q -> q <> p) as Hq by (intros q Hu ->; by apply (Hu f d j c)).
  split; try done.
  - intros Ho. eapply calls_ok_timers; [done|]. intros q t Ht. destruct (eff_timers0 q t Ht) as (t' & ? & ? & _). by exists t'.
  - intros q Hu. by apply eff_other0, Hq.
  - intros q Hu. by apply eff_work0, Hq.
Qed.
Lemma handled_trans s1 s2 s3 A1 A2 A3 : handled s1 s2 A1 A2 -> handled s2 s3 A2 A3 -> handled s1 s3 A1 A3.
Proof.
  intros [] []. split; try congruence; try lia; try tauto.
  - intros q Hq. rewrite hd_other1, hd_other0; done.
  - intros q Hq. rewrite hd_work1, hd_work0; done.
Qed.

Lemma run_calls_handled f d j : forall cs s A, wheel_ok s A -> base_lock s = false -> calls_ok s ->
  (forall c, c ∈ cs -> c ∈ h f d j) -> exists s' A', run_calls cs s = Ok (tt, s') /\ handled s s' A A'.
Proof.
  induction cs as [|c cs IH]; intros s A Hw Hl Ho Hc.
  { exists s, A. split; [done|]. by split. }
  assert (c ∈ h f d j) as Hcj by (apply Hc; left). destruct (Ho f d j c Hcj) as [(t & Ht & Hf) He].
  assert (exists r s1 A1, run_call c s = Ok (r, s1) /\ effect (target c) s s1 A A1) as (r & s1 & A1 & E1 & Ef1).
  { destruct c as [p e|p]; cbn [run_call target] in *.
    - destruct (mod_timer_ok p e t s A Hw Hl Ht Hf He) as (s1 & A1 & E & Ef & _). eauto.
    - destruct (del_timer_ok p t s A Hw Hl Ht) as (s1 & E & Ef & _). eauto. }
  pose proof (effect_handled _ _ _ _ _ f d j c Hcj eq_refl Ef1) as Hh.
  destruct (IH s1 A1) as (s' & A' & E' & Hh'); [apply Hh|by rewrite (hd_lock _ _ _ _ Hh)|by apply Hh|intros; apply Hc; by right|].
  exists s', A'. split; [|by eapply handled_trans]. cbn. by rewrite (M_bind_val _ _ _ _ _ E1).
Qed.

(** The work list: each of its timers that nobody touches runs once. *)
Lemma run_work_runs : forall fuel s A, (length (work_list s) <= fuel)%nat -> wheel_ok s A -> base_lock s = true -> calls_ok s ->
  exists s' A', run_work fn fuel s = Ok (tt, s') /\ wheel_ok s' A' /\ work_list s' = [] /\ base_lock s' = true /\
    timer_jiffies s' = timer_jiffies s /\ jiffies s' = jiffies s /\ calls_ok s' /\
    forall q, untouched q -> A' !! q = A !! q /\
      times q (calls s') = (if decide (q ∈ work_list s) then [u32 (timer_jiffies s - 1)] else []) ++ times q (calls s).
Proof.
  induction fuel as [|fuel IH]; intros s A Hf Hw Hl Ho.
  { assert (work_list s = []) as HW by (destruct (work_list s); [done|cbn in Hf; lia]).
    exists s, A. cbn. rewrite (M_bind_val _ _ s [] s) by (unfold gets; by rewrite HW). rewrite HW. by split_and!. }
  cbn [run_work]. rewrite (M_bind_val _ _ s (work_list s) s) by done. destruct (work_list s) as [|p W] eqn:HW.
  { exists s, A. by split_and!. }
  destruct (wh_work _ _ _ _ _ Hw p) as (t & Ht & Hb); [rewrite HW; left|].
  rewrite (M_bind_val _ _ _ _ _ (timer_at_Some _ _ _ Ht)).
  assert (p ∉ W /\ A !! p = None) as [HpW HpA].
  { pose proof (wh_nodup _ _ _ _ _ Hw) as Hn. rewrite HW in Hn. apply NoDup_app in Hn as (_ & Hd & [Hn _]%NoDup_cons).
    split; [done|]. destruct (A !! p) eqn:E; [|done]. exfalso. apply (Hd p (wh_dom _ _ _ _ _ Hw p _ E)). left. }
  set (s1 := set_vecs (map (base.filter (fun q => q <> p)) (vecs s)) (base.filter (fun q => q <> p) (work_list s)) s).
  assert (work_list s1 = W) as HW1.
  { cbn. rewrite HW, filter_cons_False by (intros []; done). by apply filter_absent. }
  rewrite (M_bind_val _ _ s tt s1) by done. rewrite (M_bind_val _ _ s1 tt (set_running p s1)) by done.
  set (s2 := set_timers (<[p := set_base false t]> (timers s)) (set_running p s1)).
  rewrite (M_bind_val _ _ _ tt s2) by done. rewrite (M_bind_val _ _ s2 (timer_jiffies s) s2) by done.
  set (s3 := add_call (u32 (timer_jiffies s - 1), p) s2). rewrite (M_bind_val _ _ _ tt s3) by done.
  rewrite (M_bind_val _ _ _ tt (set_lock false s3)) by done.
  assert (wheel_ok (set_lock false s3) A) as Hw3.
  { unfold wheel_ok. cbn. change (base.filter _ (work_list s)) with (work_list s1). rewrite HW1.
    apply wheel_timer; [|done|done]. rewrite <- HW1. rewrite <- (delete_id A p HpA). by apply wheel_del. }
  assert (calls_ok (set_lock false s3)) as Ho3.
  { eapply calls_ok_timers; [exact Ho|]. intros q u Hu. cbn. destruct (decide (q = p)) as [->|Hne].
    - exists (set_base false t). rewrite lookup_insert_eq. by simplify_eq.
    - exists u. by rewrite lookup_insert_ne. }
  destruct (run_calls_handled (t_function t) (t_data t) (jiffies s) (h (t_function t) (t_data t) (jiffies s))
    (set_lock false s3) A Hw3 eq_refl Ho3 ltac:(done)) as (s4 & A4 & E4 & Hh).
  rewrite (M_bind_val _ _ (set_lock false s3) tt s4) by exact E4.
  rewrite (M_bind_val _ _ s4 tt (set_lock true s4)) by (apply lock_base_ok; by rewrite (hd_lock _ _ _ _ Hh)).
  assert (forall q, untouched q -> q ∈ work_list s4 <-> q ∈ W) as HW4.
  { intros q Hq. rewrite (hd_work _ _ _ _ Hh q Hq). change (work_list (set_lock false s3)) with (work_list s1). by rewrite HW1. }
  pose proof (hd_length _ _ _ _ Hh) as Hlen. change (work_list (set_lock false s3)) with (work_list s1) in Hlen. rewrite HW1 in Hlen.
  cbn in Hf. destruct (IH (set_lock true s4) A4) as (s' & A' & E' & R1 & R2 & R3 & R4 & R5 & R6 & R7);
    [cbn; lia|apply Hh|done|by apply Hh|].
  exists s', A'. rewrite E'. split_and!; try done; cbn in *.
  { by rewrite R4, (hd_tick _ _ _ _ Hh). }
  { by rewrite R5, (hd_jiffies _ _ _ _ Hh). }
  intros q Hq. destruct (R7 q Hq) as [RA RC]. split; [by rewrite RA, (hd_other _ _ _ _ Hh q Hq)|].
  rewrite RC, (hd_calls _ _ _ _ Hh), (hd_tick _ _ _ _ Hh).
  change (calls (set_lock false s3)) with ((u32 (timer_jiffies s - 1), p) :: calls s).
  change (timer_jiffies (set_lock false s3)) with (timer_jiffies s).
  rewrite times_cons. destruct (decide (p = q)) as [<-|Hne].
  - rewrite decide_False by (by rewrite HW4). by rewrite decide_True by left.
  - destruct (decide (q ∈ work_list s4)) as [Hin|Hin]; rewrite (HW4 q Hq) in Hin.
    + by rewrite decide_True by (by right).
    + rewrite decide_False; [done|]. intros [->|]%elem_of_cons; done.
Qed.

(** After [n] ticks: what was due has run at its tick, the rest has [n] ticks less. *)
Definition after_ticks (T n : Z) (A A' : gmap Z Z) (cs cs' : list (Z * Z)) : Prop :=
  forall q, untouched q ->
    match A !! q with
    | Some d => if d <? n then A' !! q = None /\ times q cs' = u32 (T + d) :: times q cs
                else A' !! q = Some (d - n) /\ times q cs' = times q cs
    | None => A' !! q = None /\ times q cs' = times q cs
    end.

Lemma one_tick s A : wheel_ok s A -> work_list s = [] -> base_lock s = true -> calls_ok s ->
  exists s1 s2 A2, start_tick s = Ok (tt, s1) /\ run_work fn (length (work_list s1)) s1 = Ok (tt, s2) /\
    wheel_ok s2 A2 /\ work_list s2 = [] /\ base_lock s2 = true /\ timer_jiffies s2 = u32 (timer_jiffies s + 1) /\
    jiffies s2 = jiffies s /\ calls_ok s2 /\ after_ticks (timer_jiffies s) 1 A A2 (calls s) (calls s2).
Proof.
  intros Hw HW Hl Ho. destruct (start_tick_wheel s A Hw HW) as (v & w & E1 & Hw1 & Hw0).
  set (s1 := set_vecs v w (set_tick (u32 (timer_jiffies s + 1)) s)) in *.
  destruct (run_work_runs (length (work_list s1)) s1 (next_tick A)) as (s2 & A2 & E2 & R1 & R2 & R3 & R4 & R5 & R6 & R7);
    [lia|done|done|by eapply calls_ok_timers; [exact Ho|eauto]|].
  exists s1, s2, A2. split_and!; try done. intros q Hq. destruct (R7 q Hq) as [RA RC].
  change (calls s1) with (calls s) in RC. change (work_list s1) with w in RC.
  change (timer_jiffies s1) with (u32 (timer_jiffies s + 1)) in RC.
  pose proof (wh_word _ _ _ _ _ Hw) as HT. unfold word in HT.
  assert (u32 (u32 (timer_jiffies s + 1) - 1) = timer_jiffies s) as ET by mlia. rewrite ET in RC.
  destruct (A !! q) as [d|] eqn:Hd.
  - destruct (wheel_at _ _ _ _ _ q d Hw Hd) as (k & l & t & _ & _ & _ & _ & _ & Hpl).
    assert (0 <= d) as Hd0 by (destruct Hpl as [[? _]|(n & _ & _ & -> & _)]; [lia|apply u32_range]).
    destruct (Z.ltb_spec d 1) as [Hlt|Hge].
    + assert (d = 0) as -> by lia. rewrite decide_True in RC by (by apply Hw0). rewrite Z.add_0_r, u32_small by done.
      split; [|done]. rewrite RA. destruct (next_tick A !! q) as [d'|] eqn:E; [|done].
      apply next_tick_Some in E as [E ?]. rewrite Hd in E. injection E as ?. lia.
    + rewrite decide_False in RC by (rewrite Hw0, Hd; intros [= ->]; lia). split; [|done]. rewrite RA. apply next_tick_Some.
      split; [by replace (d - 1 + 1) with d by lia|lia].
  - rewrite decide_False in RC by (by rewrite Hw0, Hd). split; [|done]. rewrite RA.
    destruct (next_tick A !! q) as [d'|] eqn:E; [|done]. apply next_tick_Some in E as [E ?]. congruence.
Qed.

Lemma ticks_run : forall (n fuel : nat) s A, u32 (jiffies s - timer_jiffies s) = n -> n < 2147483648 -> (n < fuel)%nat ->
  word (jiffies s) -> wheel_ok s A -> work_list s = [] -> base_lock s = true -> calls_ok s ->
  exists s' A', ticks fn fuel s = Ok (tt, s') /\ wheel_ok s' A' /\ work_list s' = [] /\ base_lock s' = true /\
    timer_jiffies s' = u32 (jiffies s + 1) /\ jiffies s' = jiffies s /\
    after_ticks (timer_jiffies s) (n + 1) A A' (calls s) (calls s').
Proof.
  induction n as [|n IH]; intros fuel s A En Hn Hf HJ Hw HW Hl Ho; (destruct fuel as [|fuel]; [lia|]).
  all: destruct (one_tick s A Hw HW Hl Ho) as (s1 & s2 & A2 & E1 & E2 & R1 & R2 & R3 & R4 & R5 & R6 & R7).
  all: pose proof (wh_word _ _ _ _ _ Hw) as HT; unfold word in HT, HJ.
  all: cbn [ticks]; rewrite (M_bind_val _ _ s s s) by done.
  all: assert (time_after_eq (jiffies s) (timer_jiffies s) = true) as -> by (unfold time_after_eq; mlia); cbn [negb].
  all: rewrite (M_bind_val _ _ _ _ _ E1), (M_bind_val _ _ s1 (work_list s1) s1) by done; rewrite (M_bind_val _ _ _ _ _ E2).
  - exists s2, A2. assert (timer_jiffies s2 = u32 (jiffies s + 1)) as ET by (rewrite R4; mlia).
    split_and!; try done. destruct fuel; cbn [ticks]; rewrite (M_bind_val _ _ s2 s2 s2) by done;
      (assert (time_after_eq (jiffies s2) (timer_jiffies s2) = false) as -> by (unfold time_after_eq; rewrite R5, ET; mlia)); done.
  - destruct (IH fuel s2 A2) as (s' & A' & E' & Q1 & Q2 & Q3 & Q4 & Q5 & Q6);
      [rewrite R4, R5; mlia|lia|lia|by rewrite R5|done|done|done|done|].
    exists s', A'. rewrite R5 in Q4, Q5. split_and!; try done. intros q Hq. specialize (Q6 q Hq). specialize (R7 q Hq).
    destruct (A !! q) as [d|].
    + destruct (Z.ltb_spec d 1) as [Hd1|Hd1].
      * destruct R7 as [EA RC]. rewrite EA in Q6. destruct Q6 as [-> QC]. destruct (Z.ltb_spec d (S n + 1)); [|lia]. split; [done|]. by rewrite QC.
      * destruct R7 as [EA RC]. rewrite EA, R4 in Q6. destruct (Z.ltb_spec (d - 1) (n + 1)), (Z.ltb_spec d (S n + 1)); try lia.
        -- destruct Q6 as [-> QC]. split; [done|]. rewrite QC, RC. f_equal. mlia.
        -- destruct Q6 as [-> QC]. split; [f_equal; lia|]. by rewrite QC.
    + destruct R7 as [EA RC]. rewrite EA in Q6. destruct Q6 as [-> QC]. split; [done|]. by rewrite QC.
Qed.

(** C24: Timers run on time.  Let the clock have moved on by any number of ticks.
    Running the timers ends, whatever the functions of timers do about timers;
    a timer they do not touch has then run exactly once and at the tick it was
    due, if that tick has been, and otherwise it is still pending with that
    many ticks less; one that was idle has not run. *)
Theorem timers_run_on_time s A :
  wheel_ok s A -> work_list s = [] -> base_lock s = false -> calls_ok s -> word (jiffies s) ->
  let n := u32 (jiffies s - timer_jiffies s) + 1 in n <= 2147483648 ->
  exists s' A', run_timer_softirq fn s = Ok (tt, s') /\ wheel_ok s' A' /\ work_list s' = [] /\ base_lock s' = false /\
    timer_jiffies s' = u32 (jiffies s + 1) /\ after_ticks (timer_jiffies s) n A A' (calls s) (calls s').
Proof.
  intros Hw HW Hl Ho HJ n Hn. unfold run_timer_softirq. rewrite (M_bind_val _ _ s s s) by done.
  pose proof (wh_word _ _ _ _ _ Hw) as HT. unfold word in HT, HJ.
  assert (time_after_eq (jiffies s) (timer_jiffies s) = true) as -> by (subst n; unfold time_after_eq; mlia).
  unfold __run_timers. rewrite (M_bind_val _ _ _ _ _ (lock_base_ok s Hl)).
  set (s1 := set_lock true s). rewrite (M_bind_val _ _ s1 s1 s1) by done.
  pose proof (u32_range (jiffies s - timer_jiffies s)) as Hr.
  destruct (ticks_run (Z.to_nat (u32 (jiffies s - timer_jiffies s))) (S (Z.to_nat (u32 (jiffies s - timer_jiffies s)))) s1 A)
    as (s2 & A2 & E & R1 & R2 & R3 & R4 & R5 & R6);
    [cbn; lia|subst n; lia|lia|done|done|done|done|by eapply calls_ok_timers; [exact Ho|eauto]|].
  cbn [s1 set_lock jiffies timer_jiffies]. rewrite (M_bind_val _ _ _ _ _ E).
  exists (set_lock false (set_running 0 s2)), A2. split_and!; try done.
  intros q Hq. specialize (R6 q Hq). rewrite Z2Nat.id in R6 by lia. exact R6.
Qed.
End Handlers.

(** ** A base with timers *)

Lemma init_wheel T m : word T -> wheel T m (replicate 512 []) [] ∅.
Proof.
  intros HT. split; [done|by rewrite length_replicate|..]; try done.
  - apply (bool_decide_unpack (NoDup _)). vm_compute. exact I.
  - intros k l p [-> _]%lookup_replicate Hp. set_solver.
  - intros p Hp. set_solver.
Qed.

(** Function 7 arms timer 200 again, 50 ticks later. *)
Definition demo_handlers (f d j : Z) : list timer_call := if f =? 7 then [CallMod 200 (u32 (j + 50))] else [].
Definition demo_timers : gmap Z timer_list :=
  {[ 100 := mk_timer 1000 TIMER_MAGIC 7 0 true; 200 := mk_timer 0 TIMER_MAGIC 8 0 false ]}.
Definition demo_base (j : Z) : tvec_base :=
  mk_base false 0 0 (alter (fun l => l ++ [100]) 259%nat (replicate 512 [])) [] demo_timers j 0 [].
Definition demo_left : gmap Z Z := {[ 100 := 1000 ]}.

Lemma demo_wheel j : wheel_ok (demo_base j) demo_left.
Proof.
  apply (wheel_put 0 demo_timers (replicate 512 []) [] ∅ 100 (mk_timer 1000 TIMER_MAGIC 7 0 true)); try done.
  - by apply init_wheel.
  - set_solver.
  - exact (wheel_slot_placed 0 1000 ltac:(done) ltac:(done)).
  - lia.
Qed.
Lemma demo_calls j : calls_ok demo_handlers (demo_base j).
Proof.
  intros f d i c Hc. unfold demo_handlers in Hc. destruct (f =? 7); [|set_solver].
  apply list_elem_of_singleton in Hc as ->. split; [|apply u32_range]. by exists (mk_timer 0 TIMER_MAGIC 8 0 false).
Qed.

Lemma timers_run_on_time_witness :
  exists s' A', run_timer_softirq (fn demo_handlers) (demo_base 2000) = Ok (tt, s') /\ wheel_ok s' A' /\
    timer_jiffies s' = 2001 /\ times 100 (calls s') = [1000] /\ A' !! 100 = None.
Proof.
  assert (calls_ok demo_handlers (demo_base 2000)) as Hc by apply demo_calls.
  assert (untouched demo_handlers 100) as Hu.
  { intros f d j c. unfold demo_handlers. destruct (f =? 7); [|by intros ?%elem_of_nil].
    intros ->%list_elem_of_singleton. discriminate. }
  assert (u32 (jiffies (demo_base 2000) - timer_jiffies (demo_base 2000)) + 1 = 2001) as En by (vm_compute; reflexivity).
  destruct (timers_run_on_time demo_handlers (demo_base 2000) demo_left (demo_wheel 2000) eq_refl eq_refl Hc)
    as (s' & A' & E & H1 & _ & _ & H2 & H3).
  - split; [discriminate|reflexivity].
  - rewrite En. discriminate.
  - specialize (H3 100 Hu). rewrite En in H3. change (demo_left !! 100) with (Some 1000) in H3. destruct H3 as [H3 H4].
    exists s', A'. split; [exact E|]. split; [exact H1|]. split; [exact H2|]. split; [exact H4|exact H3].
Defined.

Lemma mod_timer_arms_witness :
  exists s1 s2, mod_timer 100 70000 (demo_base 0) = Ok (1, s1) /\ wheel_ok s1 (<[100 := 70000]> demo_left) /\
    del_timer 100 s1 = Ok (1, s2) /\ wheel_ok s2 (delete 100 demo_left).
Proof.
  apply (mod_timer_arms 100 70000 (mk_timer 1000 TIMER_MAGIC 7 0 true) (demo_base 0) demo_left); try done. apply demo_wheel.
Defined.

(** Two timers for the same tick: the one armed first, while the tick was far,
    runs last. *)
Example not_fifo :
  match (mod_timer 100 300 ≫= fun _ => modify (fun s => mk_base (base_lock s) 100 0 (vecs s) [] (timers s) 300 0 []) ≫= fun _ =>
         mod_timer 200 300 ≫= fun _ => run_timer_softirq (fun _ _ => mret tt))
          (mk_base false 0 0 (replicate 512 []) [] {[ 100 := mk_timer 0 TIMER_MAGIC 7 0 false; 200 := mk_timer 0 TIMER_MAGIC 8 0 false ]} 0 0 [])
  with Ok (_, s) => Some (calls s) | Err _ => None end = Some [(300, 100); (300, 200)].
Proof. vm_compute. reflexivity. Qed.
