(* ===== verification/RbTree.v ===== *)
(** * Red-black trees (Linux/lib/ll_rbtree.c, Include/Linux/rbtree.h)

    Nodes are in memory and point to their parent and children.  The two halves
    of each case distinction of the source, for a left and for a right child,
    are one definition with the side as an argument. *)

From S2P Require Import Prelude.

Definition RB_RED : Z := 0.
Definition RB_BLACK : Z := 1.

Record rb_node := mk_rb { rb_parent : Z; rb_color : Z; rb_right : Z; rb_left : Z }.

(** The nodes in memory, and the root. *)
Record rb_mem := mk_rbm { rb_nodes : gmap Z rb_node; rb_root : Z }.

Inductive side := Left | Right.
#[export] Instance side_eq_dec : EqDecision side.
Proof. solve_decision. Defined.
Definition opp (d : side) : side := match d with Left => Right | Right => Left end.

Definition child (d : side) (n : rb_node) : Z := match d with Left => rb_left n | Right => rb_right n end.
Definition set_child (d : side) (v : Z) (n : rb_node) : rb_node :=
  match d with
  | Left => mk_rb (rb_parent n) (rb_color n) (rb_right n) v
  | Right => mk_rb (rb_parent n) (rb_color n) v (rb_left n)
  end.
Definition set_parent (v : Z) (n : rb_node) : rb_node := mk_rb v (rb_color n) (rb_right n) (rb_left n).
Definition set_color (c : Z) (n : rb_node) : rb_node := mk_rb (rb_parent n) c (rb_right n) (rb_left n).

Abbreviation P := (M rb_mem).

Definition node_at (p : Z) : P rb_node := fun s =>
  match rb_nodes s !! p with Some n => Ok (n, s) | None => Err NullDeref end.
Definition put_node (p : Z) (n : rb_node) : P unit :=
  modify (fun s => mk_rbm (<[p := n]> (rb_nodes s)) (rb_root s)).
Definition upd (p : Z) (f : rb_node -> rb_node) : P unit := n ← node_at p; put_node p (f n).
Definition get_child (d : side) (p : Z) : P Z := n ← node_at p; mret (child d n).
Definition get_parent (p : Z) : P Z := n ← node_at p; mret (rb_parent n).
Definition get_color (p : Z) : P Z := n ← node_at p; mret (rb_color n).
Definition get_root : P Z := gets rb_root.
Definition set_root (p : Z) : P unit := modify (fun s => mk_rbm (rb_nodes s) p).

(** !p || p->rb_color==RB_BLACK *)
Definition is_black (p : Z) : P bool := if p =? 0 then mret true else c ← get_color p; mret (c =? RB_BLACK).
(** p && p->rb_color==RB_RED *)
Definition is_red (p : Z) : P bool := if p =? 0 then mret false else c ← get_color p; mret (c =? RB_RED).
(** if(p) p->rb_parent=v *)
Definition link_parent (p v : Z) : P unit := if p =? 0 then mret tt else upd p (set_parent v).
(** if(p) p->rb_color=RB_BLACK *)
Definition blacken (p : Z) : P unit := if p =? 0 then mret tt else upd p (set_color RB_BLACK).

(** node==parent->rb_left *)
Definition side_of (node parent : Z) : P side :=
  l ← get_child Left parent; mret (if l =? node then Left else Right).

(** [new] takes the place of [old] below [parent] or at the root; the side [d]
    is looked at first. *)
Definition relink (d : side) (parent old new : Z) : P unit :=
  if parent =? 0 then set_root new else
  c ← get_child d parent;
  upd parent (set_child (if old =? c then d else opp d) new).

(** ** Rotations *)

Definition __rb_rotate (d : side) (node : Z) : P unit :=
  right ← get_child (opp d) node;
  x ← get_child d right;
  upd node (set_child (opp d) x) ≫= fun _ =>
  link_parent x node ≫= fun _ =>
  upd right (set_child d node) ≫= fun _ =>
  p ← get_parent node;
  upd right (set_parent p) ≫= fun _ =>
  relink d p node right ≫= fun _ =>
  upd node (set_parent right).

Definition __rb_rotate_left : Z -> P unit := __rb_rotate Left.
Definition __rb_rotate_right : Z -> P unit := __rb_rotate Right.

(** ** Insertion *)

(** Where a new node goes: rb_link points to the root or into a node. *)
Inductive rb_link := LinkRoot | LinkChild (d : side) (p : Z).

Definition rb_link_node (node parent : Z) (link : rb_link) : P unit :=
  put_node node (mk_rb parent RB_RED 0 0) ≫= fun _ =>
  match link with LinkRoot => set_root node | LinkChild d p => upd p (set_child d node) end.

(** A node on the inner side is rotated to the outer one: the node and its
    parent afterwards. *)
Definition outer (d : side) (parent node : Z) : P (Z * Z) :=
  c ← get_child (opp d) parent;
  if c =? node then __rb_rotate d parent ≫= fun _ => mret (parent, node) else mret (node, parent).

Fixpoint insert_loop (fuel : nat) (node : Z) : P unit :=
  match fuel with
  | O => throw OutOfFuel
  | S fuel =>
      parent ← get_parent node;
      if parent =? 0 then mret tt else
      pred ← is_red parent;
      if negb pred then mret tt else
      gparent ← get_parent parent;
      d ← side_of parent gparent;
      uncle ← get_child (opp d) gparent;
      ured ← is_red uncle;
      if ured : bool then
        upd uncle (set_color RB_BLACK) ≫= fun _ =>
        upd parent (set_color RB_BLACK) ≫= fun _ =>
        upd gparent (set_color RB_RED) ≫= fun _ => insert_loop fuel gparent
      else
        np ← outer d parent node;
        upd np.2 (set_color RB_BLACK) ≫= fun _ =>
        upd gparent (set_color RB_RED) ≫= fun _ =>
        __rb_rotate (opp d) gparent ≫= fun _ => insert_loop fuel np.1
  end.

(** A path has no more nodes than there are. *)
Definition depth_fuel : P nat := gets (fun s => S (size (rb_nodes s))).

Definition rb_insert_color (node : Z) : P unit :=
  n ← depth_fuel;
  insert_loop n node ≫= fun _ => root ← get_root; upd root (set_color RB_BLACK).

(** ** Removal *)

(** The sibling of [node], black: a red one is rotated up. *)
Definition black_sibling (d : side) (parent : Z) : P Z :=
  other ← get_child (opp d) parent;
  c ← get_color other;
  if c =? RB_RED then
    upd other (set_color RB_BLACK) ≫= fun _ =>
    upd parent (set_color RB_RED) ≫= fun _ =>
    __rb_rotate d parent ≫= fun _ => get_child (opp d) parent
  else mret other.

(** The sibling, with a red child on the outer side: the other one is rotated up. *)
Definition outer_far (d : side) (parent other : Z) : P Z :=
  far ← get_child (opp d) other;
  b ← is_black far;
  if b : bool then
    near ← get_child d other;
    blacken near ≫= fun _ =>
    upd other (set_color RB_RED) ≫= fun _ =>
    __rb_rotate (opp d) other ≫= fun _ => get_child (opp d) parent
  else mret other.

(** The last rotation, after which the loop ends at the root. *)
Definition erase_rotate (d : side) (parent other : Z) : P Z :=
  other ← outer_far d parent other;
  c ← get_color parent;
  upd other (set_color c) ≫= fun _ =>
  upd parent (set_color RB_BLACK) ≫= fun _ =>
  far ← get_child (opp d) other;
  blacken far ≫= fun _ =>
  __rb_rotate d parent ≫= fun _ => get_root.

Fixpoint erase_loop (fuel : nat) (node parent : Z) : P Z :=
  match fuel with
  | O => throw OutOfFuel
  | S fuel =>
      b ← is_black node;
      root ← get_root;
      if negb (b && negb (node =? root)) then mret node else
      d ← side_of node parent;
      other ← black_sibling d parent;
      ol ← get_child Left other; bl ← is_black ol;
      or ← get_child Right other; br ← is_black or;
      if bl && br then
        upd other (set_color RB_RED) ≫= fun _ =>
        p ← get_parent parent; erase_loop fuel parent p
      else erase_rotate d parent other
  end.

Definition __rb_erase_color (node parent : Z) : P unit :=
  n ← depth_fuel;
  node ← erase_loop n node parent;
  blacken node.

(** The last node on a path that only goes to side [d]. *)
Fixpoint down (d : side) (fuel : nat) (n : Z) : P Z :=
  match fuel with
  | O => throw OutOfFuel
  | S fuel => c ← get_child d n; if c =? 0 then mret n else down d fuel c
  end.

(** [node], which has at most the child [c], is taken out; with it the parent
    and the color of the place it left. *)
Definition unlink_node (node c : Z) : P (Z * Z * Z) :=
  parent ← get_parent node;
  color ← get_color node;
  link_parent c parent ≫= fun _ =>
  relink Left parent node c ≫= fun _ =>
  mret (c, parent, color).

(** [node] takes the links and the color of [old]. *)
Definition take_place (old node : Z) : P unit :=
  o ← node_at old;
  upd node (fun _ => o) ≫= fun _ =>
  relink Left (rb_parent o) old node ≫= fun _ =>
  left ← get_child Left old;
  upd left (set_parent node) ≫= fun _ =>
  right ← get_child Right old;
  link_parent right node.

(** The next node takes the place of [old]. *)
Definition unlink_successor (old : Z) : P (Z * Z * Z) :=
  right ← get_child Right old;
  fuel ← depth_fuel;
  node ← down Left fuel right;
  c ← get_child Right node;
  r ← unlink_node node c;
  p ← get_parent node;
  let parent := if p =? old then node else r.1.2 in
  take_place old node ≫= fun _ =>
  mret (r.1.1, parent, r.2).

Definition rb_erase (node : Z) : P unit :=
  left ← get_child Left node;
  right ← get_child Right node;
  r ← (if left =? 0 then unlink_node node right
       else if right =? 0 then unlink_node node left
       else unlink_successor node);
  if r.2 =? RB_BLACK then __rb_erase_color r.1.1 r.1.2 else mret tt.

(** ** Walking *)

Definition rb_first : P Z :=
  n ← get_root;
  if n =? 0 then mret 0 else fuel ← depth_fuel; down Left fuel n.

(** The first ancestor whose child on the way up is not on side [d]. *)
Fixpoint up (d : side) (fuel : nat) (node : Z) : P Z :=
  match fuel with
  | O => throw OutOfFuel
  | S fuel =>
      p ← get_parent node;
      if p =? 0 then mret 0 else c ← get_child d p; if node =? c then up d fuel p else mret p
  end.

(** The neighbour of a node in the order of the tree. *)
Definition step_from (d : side) (node : Z) : P Z :=
  fuel ← depth_fuel;
  c ← get_child d node;
  if c =? 0 then up d fuel node else down (opp d) fuel c.
Definition rb_next : Z -> P Z := step_from Right.
Definition rb_prev : Z -> P Z := step_from Left.

Definition rb_replace_node (victim new : Z) : P unit :=
  parent ← get_parent victim;
  relink Left parent victim new ≫= fun _ =>
  left ← get_child Left victim;
  link_parent left new ≫= fun _ =>
  right ← get_child Right victim;
  link_parent right new ≫= fun _ =>
  v ← node_at victim;
  put_node new v.
