(* ===== verification/RbTreeSpec.v ===== *)
(** * Red-black trees: the pointer operations against trees (RbTree)

    A tree of node addresses, a place in it (a list of frames, innermost first),
    and the cells that memory holds for them.  The operations are proved in the
    logic of total correctness; a rotation, an insertion and a removal are steps
    on trees. *)

From S2P Require Import Prelude Total RbTree.

(** ** Memory as a list of cells *)

Definition cell : Type := Z * rb_node.
Implicit Types (K : list cell) (F : gmap Z rb_node) (s : rb_mem).

(** The cells [K] are in memory under distinct addresses other than 0, with the
    root [r]; the rest of memory is [F]. *)
Record holds F (r : Z) K s : Prop := {
  holds_nodup : NoDup (0 :: K.*1);
  holds_cells : forall p n, (p, n) ∈ K -> rb_nodes s !! p = Some n;
  holds_frame : forall p, p ∉ K.*1 -> rb_nodes s !! p = F !! p;
  holds_root : rb_root s = r
}.

Lemma holds_perm F r K K' s : K ≡ₚ K' -> holds F r K s -> holds F r K' s.
Proof.
  intros E [H1 H2 H3 H4]. split; [by rewrite <- E| | |done].
  - intros p n. rewrite <- E. apply H2.
  - intros p. rewrite <- E. apply H3.
Qed.

Lemma total_perm {A} F r K K' (m : P A) Q : K ≡ₚ K' -> total (holds F r K') m Q -> total (holds F r K) m Q.
Proof. intros E Hm. eapply total_pre; [|exact Hm]. intros s. by apply holds_perm. Qed.

Lemma total_holds {A} F r K (m : P A) Q : (NoDup (0 :: K.*1) -> total (holds F r K) m Q) -> total (holds F r K) m Q.
Proof. intros Hm s Hs. by apply Hm; [apply Hs|]. Qed.

Lemma node_at_rule {A} F r K p n (k : rb_node -> P A) Q :
  (p, n) ∈ K -> total (holds F r K) (k n) Q -> total (holds F r K) (node_at p ≫= k) Q.
Proof.
  intros Hp Hk s Hs. destruct (Hk s Hs) as (a & s' & E & HQ). exists a, s'. split; [|done].
  rewrite (M_bind_val _ _ s n s); [done|]. unfold node_at. by rewrite (holds_cells _ _ _ _ Hs p n Hp).
Qed.

Lemma total_assoc {A B C} P' (m : P A) (f : A -> P B) (g : B -> P C) Q :
  total P' (m ≫= fun a => f a ≫= g) Q -> total P' ((m ≫= f) ≫= g) Q.
Proof.
  intros Hm s Hs. destruct (Hm s Hs) as (a & s' & E & HQ). exists a, s'. split; [|done].
  rewrite <- E. rewrite !M_bind_unfold. by destruct (m s) as [[? ?]|].
Qed.

Lemma get_child_rule {A} F r K p n d (k : Z -> P A) Q :
  (p, n) ∈ K -> total (holds F r K) (k (child d n)) Q -> total (holds F r K) (get_child d p ≫= k) Q.
Proof. intros Hp Hk. apply total_assoc. by eapply node_at_rule. Qed.
Lemma get_parent_rule {A} F r K p n (k : Z -> P A) Q :
  (p, n) ∈ K -> total (holds F r K) (k (rb_parent n)) Q -> total (holds F r K) (get_parent p ≫= k) Q.
Proof. intros Hp Hk. apply total_assoc. by eapply node_at_rule. Qed.
Lemma get_color_rule {A} F r K p n (k : Z -> P A) Q :
  (p, n) ∈ K -> total (holds F r K) (k (rb_color n)) Q -> total (holds F r K) (get_color p ≫= k) Q.
Proof. intros Hp Hk. apply total_assoc. by eapply node_at_rule. Qed.
Lemma get_root_rule {A} F r K (k : Z -> P A) Q :
  total (holds F r K) (k r) Q -> total (holds F r K) (get_root ≫= k) Q.
Proof.
  intros Hk s Hs. destruct (Hk s Hs) as (a & s' & E & HQ). exists a, s'. split; [|done].
  rewrite (M_bind_val _ _ s r s); [done|]. unfold get_root, gets. by rewrite (holds_root _ _ _ _ Hs).
Qed.

Lemma put_known p n n' F r K s : holds F r ((p, n) :: K) s ->
  holds F r ((p, n') :: K) (mk_rbm (<[p := n']> (rb_nodes s)) (rb_root s)).
Proof.
  intros [H1 H2 H3 H4]. split; [done| | |done]; cbn in *.
  - intros q m [[= -> ->]|Hq]%elem_of_cons; [apply lookup_insert_eq|].
    rewrite lookup_insert_ne; [apply H2; set_solver|]. intros <-.
    apply NoDup_cons in H1 as [_ [H1 _]%NoDup_cons]. apply H1. apply list_elem_of_fmap. by exists (p, m).
  - intros q Hq. rewrite lookup_insert_ne by set_solver. by apply H3.
Qed.

Lemma upd_last p f n F r K : total (holds F r ((p, n) :: K)) (upd p f) (fun _ => holds F r ((p, f n) :: K)).
Proof.
  eapply node_at_rule; [left|]. intros s Hs. eexists tt, _. split; [reflexivity|]. by eapply put_known.
Qed.

Lemma upd_rule {A} p f n F r K K' (k : unit -> P A) Q :
  K ≡ₚ (p, n) :: K' -> total (holds F r ((p, f n) :: K')) (k tt) Q -> total (holds F r K) (upd p f ≫= k) Q.
Proof.
  intros E Hk. eapply total_perm; [exact E|]. eapply total_bind; [apply upd_last|]. by intros [].
Qed.

Lemma total_tail {A} P' (m : P A) Q : total P' (m ≫= mret) Q -> total P' m Q.
Proof.
  intros Hm s Hs. destruct (Hm s Hs) as (a & s' & E & HQ). exists a, s'. split; [|done].
  rewrite M_bind_unfold in E. by destruct (m s) as [[? ?]|].
Qed.

(** A computation with a known outcome, and what comes after it. *)
Lemma call_rule {A B} (m : P A) P' (Q' : A -> rb_mem -> Prop) (k : A -> P B) Q :
  total P' m Q' -> (forall a, total (Q' a) (k a) Q) -> total P' (m ≫= k) Q.
Proof. intros Hm Hk. by eapply total_bind. Qed.

Lemma ret_rule {A} P' (a : A) (Q : A -> rb_mem -> Prop) : (forall s, P' s -> Q a s) -> total P' (mret a) Q.
Proof. apply total_ret. Qed.

Lemma skip_rule {A B} P' (a : A) (k : A -> P B) Q : total P' (k a) Q -> total P' (mret a ≫= k) Q.
Proof. intros Hk s Hs. destruct (Hk s Hs) as (b & s' & E & HQ). by exists b, s'. Qed.

(** ** Trees and places in them *)

Inductive tree := Tip | Bin (c : Z) (l : tree) (x : Z) (r : tree).
#[export] Instance tree_eq_dec : EqDecision tree.
Proof. solve_decision. Defined.
Definition addr (t : tree) : Z := match t with Tip => 0 | Bin _ _ x _ => x end.

(** A node with its child of side [d] first. *)
Definition bin (d : side) (c : Z) (a : tree) (x : Z) (b : tree) : tree :=
  match d with Left => Bin c a x b | Right => Bin c b x a end.
Definition rb (d : side) (par c a b : Z) : rb_node :=
  match d with Left => mk_rb par c b a | Right => mk_rb par c a b end.

Fixpoint cells (par : Z) (t : tree) : list cell :=
  match t with
  | Tip => []
  | Bin c l x r => (x, mk_rb par c (addr r) (addr l)) :: cells x l ++ cells x r
  end.

(** The hole is on side [f_side] of the node [f_at], whose other child is [f_tree]. *)
Record frame := mk_frame { f_side : side; f_color : Z; f_at : Z; f_tree : tree }.
Definition place : Type := list frame.
Definition above (k : place) : Z := match k with [] => 0 | f :: _ => f_at f end.
Definition fill (f : frame) (t : tree) : tree := bin (f_side f) (f_color f) t (f_at f) (f_tree f).
Definition plug (k : place) (t : tree) : tree := fold_left (fun t f => fill f t) k t.

(** The cells around a hole with a tree at [p] in it. *)
Fixpoint place_cells (p : Z) (k : place) : list cell :=
  match k with
  | [] => []
  | f :: k => (f_at f, rb (f_side f) (above k) (f_color f) p (addr (f_tree f))) ::
              cells (f_at f) (f_tree f) ++ place_cells (f_at f) k
  end.
Fixpoint top (p : Z) (k : place) : Z := match k with [] => p | f :: k => top (f_at f) k end.

Fixpoint inorder (t : tree) : list Z := match t with Tip => [] | Bin _ l x r => inorder l ++ x :: inorder r end.

(** A node of [t] with subtree and place. *)
Definition at_place F k t s : Prop := holds F (top (addr t) k) (cells (above k) t ++ place_cells (addr t) k) s.

Lemma addr_bin d c a x b : addr (bin d c a x b) = x.
Proof. by destruct d. Qed.
Lemma cells_bin d par c a x b :
  cells par (bin d c a x b) ≡ₚ (x, rb d par c (addr a) (addr b)) :: cells x a ++ cells x b.
Proof. destruct d; cbn; [done|]. by rewrite (Permutation_app_comm (cells x b)). Qed.
Lemma child_rb d par c a b : child d (rb d par c a b) = a.
Proof. by destruct d. Qed.
Lemma child_opp_rb d par c a b : child (opp d) (rb d par c a b) = b.
Proof. by destruct d. Qed.
Lemma parent_rb d par c a b : rb_parent (rb d par c a b) = par.
Proof. by destruct d. Qed.
Lemma color_rb d par c a b : rb_color (rb d par c a b) = c.
Proof. by destruct d. Qed.
Lemma set_child_rb d par c a b v : set_child d v (rb d par c a b) = rb d par c v b.
Proof. by destruct d. Qed.
Lemma set_child_opp_rb d par c a b v : set_child (opp d) v (rb d par c a b) = rb d par c a v.
Proof. by destruct d. Qed.
Lemma set_parent_rb d par c a b v : set_parent v (rb d par c a b) = rb d v c a b.
Proof. by destruct d. Qed.
Lemma set_color_rb d par c a b v : set_color v (rb d par c a b) = rb d par v a b.
Proof. by destruct d. Qed.
Lemma rb_opp d par c a b : rb (opp d) par c a b = rb d par c b a.
Proof. by destruct d. Qed.
Lemma bin_opp d c a x b : bin (opp d) c a x b = bin d c b x a.
Proof. by destruct d. Qed.
Lemma opp_opp d : opp (opp d) = d.
Proof. by destruct d. Qed.

Create Rewrite HintDb rbtree.
#[export] Hint Rewrite addr_bin child_rb child_opp_rb parent_rb color_rb set_child_rb set_child_opp_rb set_parent_rb
  set_color_rb rb_opp bin_opp opp_opp : rbtree.

(** A place and its tree are the tree around it. *)
Lemma place_fill f t k : cells (above k) (fill f t) ++ place_cells (addr (fill f t)) k
  ≡ₚ cells (f_at f) t ++ place_cells (addr t) (f :: k).
Proof.
  unfold fill. rewrite addr_bin, cells_bin. cbn. solve_Permutation.
Qed.
Lemma at_place_fill F f k t s : at_place F k (fill f t) s <-> at_place F (f :: k) t s.
Proof.
  unfold at_place. cbn [above top]. unfold fill at 1. rewrite addr_bin.
  split; apply holds_perm; by rewrite place_fill.
Qed.
Lemma at_place_plug F k t s : at_place F k t s <-> at_place F [] (plug k t) s.
Proof. revert t. induction k as [|f k IH]; intros t; [done|]. cbn. by rewrite <- IH, at_place_fill. Qed.

(** ** The helpers of the operations *)

Lemma addr_in par t : t <> Tip -> addr t ∈ (cells par t).*1.
Proof. destruct t; [done|]. intros _. cbn. left. Qed.

Lemma holds_addr F r K s p : holds F r K s -> p ∈ K.*1 -> p <> 0.
Proof. intros [[H0 _]%NoDup_cons _ _ _] Hp ->. done. Qed.

Lemma nonnull_rule {A} F r K K' p n (m : P A) Q :
  K ≡ₚ (p, n) :: K' -> (p <> 0 -> total (holds F r K) m Q) -> total (holds F r K) m Q.
Proof.
  intros E Hm s Hs. apply Hm; [|done]. apply (holds_addr _ _ _ _ p Hs). rewrite E. left.
Qed.

(** Binds to the right. *)
Ltac assoc := lazymatch goal with |- total _ ((_ ≫= _) ≫= _) _ => apply total_assoc; assoc | _ => idtac end; cbn beta.
(** The node at [p] is none of NULL. *)
Ltac nonnull E :=
  eapply nonnull_rule; [rewrite E; reflexivity|];
  match goal with |- ?x <> 0 -> _ => let H := fresh in intros H; destruct (Z.eqb_spec x 0) as [?|_]; [done|]; clear H end.

Lemma link_parent_rule {A} F r K K' t par v (k : unit -> P A) Q :
  K ≡ₚ cells par t ++ K' -> total (holds F r (cells v t ++ K')) (k tt) Q ->
  total (holds F r K) (link_parent (addr t) v ≫= k) Q.
Proof.
  intros E Hk. unfold link_parent. destruct t as [|c l x rt]; cbn [addr].
  - cbn. eapply total_perm; [exact E|exact Hk].
  - cbn in E. nonnull E. eapply upd_rule; [rewrite E; reflexivity|exact Hk].
Qed.

Lemma blacken_rule {A} F r K K' c l x rt par (k : unit -> P A) Q :
  K ≡ₚ cells par (Bin c l x rt) ++ K' -> total (holds F r (cells par (Bin RB_BLACK l x rt) ++ K')) (k tt) Q ->
  total (holds F r K) (blacken x ≫= k) Q.
Proof.
  intros E Hk. unfold blacken. cbn in E. nonnull E. eapply upd_rule; [rewrite E; reflexivity|exact Hk].
Qed.

Definition rooted (c : Z) (t : tree) : bool := match t with Tip => c =? RB_BLACK | Bin c' _ _ _ => c' =? c end.

Lemma is_black_rule {A} F r K K' t par (k : bool -> P A) Q :
  K ≡ₚ cells par t ++ K' -> total (holds F r K) (k (rooted RB_BLACK t)) Q ->
  total (holds F r K) (is_black (addr t) ≫= k) Q.
Proof.
  intros E Hk. unfold is_black. destruct t as [|c l x rt]; cbn [addr]; [by apply skip_rule|].
  cbn in E. nonnull E. assoc. eapply get_color_rule; [rewrite E; left|]. by apply skip_rule.
Qed.
Lemma is_red_rule {A} F r K K' t par (k : bool -> P A) Q :
  K ≡ₚ cells par t ++ K' -> total (holds F r K) (k (rooted RB_RED t)) Q ->
  total (holds F r K) (is_red (addr t) ≫= k) Q.
Proof.
  intros E Hk. unfold is_red. destruct t as [|c l x rt]; cbn [addr]; [by apply skip_rule|].
  cbn in E. nonnull E. assoc. eapply get_color_rule; [rewrite E; left|]. by apply skip_rule.
Qed.

(** A node that is elsewhere is not the sibling. *)
Lemma not_sibling old f k p K' :
  NoDup (0 :: (place_cells p (f :: k) ++ K').*1) -> old ∈ K'.*1 -> addr (f_tree f) <> old.
Proof.
  intros Hn Hold E. cbn in Hn. destruct (f_tree f) as [|c l x rt] eqn:Ef; cbn in E; subst.
  - apply NoDup_cons in Hn as [Hn _]. rewrite !fmap_app in Hn. set_solver.
  - apply NoDup_cons in Hn as [_ [_ Hn]%NoDup_cons]. rewrite fmap_app in Hn. apply NoDup_app in Hn as (_ & Hn & _).
    apply (Hn old); [cbn; set_solver|done].
Qed.

Lemma set_root_holds F r r' K s : holds F r K s -> holds F r' K (mk_rbm (rb_nodes s) r').
Proof. intros [H1 H2 H3 H4]. by split. Qed.

Lemma relink_rule {A} d F k K K' old new (kk : unit -> P A) Q :
  K ≡ₚ place_cells old k ++ K' -> old ∈ K'.*1 ->
  total (holds F (top new k) (place_cells new k ++ K')) (kk tt) Q ->
  total (holds F (top old k) K) (relink d (above k) old new ≫= kk) Q.
Proof.
  intros E Hold Hk. unfold relink. destruct k as [|f k]; cbn [above].
  - rewrite Z.eqb_refl. eapply total_perm; [exact E|]. intros s Hs. cbn in *.
    destruct (Hk _ (set_root_holds F old new K' s Hs)) as (a & s' & E' & HQ). by exists a, s'.
  - cbn [above top]. apply total_holds. intros Hn. rewrite E in Hn.
    pose proof (not_sibling old f k old K' Hn Hold) as Hs. cbn in E, Hk. nonnull E.
    assoc. eapply get_child_rule; [rewrite E; left|].
    assert (forall d', d' = f_side f -> set_child d' new (rb (f_side f) (above k) (f_color f) old (addr (f_tree f)))
      = rb (f_side f) (above k) (f_color f) new (addr (f_tree f))) as Hset by (intros ? ->; apply set_child_rb).
    eapply upd_rule; [rewrite E; reflexivity|]. rewrite Hset; [exact Hk|].
    destruct d, (f_side f); cbn; try (by rewrite Z.eqb_refl); by destruct (Z.eqb_spec old (addr (f_tree f))).
Qed.

(** ** Rotations *)

Ltac rbs := autorewrite with rbtree.
Ltac here := rbs; first [left | right; left | right; right; left | set_solver].

Lemma rotate_rule {A} d F k c c' a b e x y (kk : unit -> P A) Q :
  total (at_place F k (bin d c' (bin d c a x b) y e)) (kk tt) Q ->
  total (at_place F k (bin d c a x (bin d c' b y e))) (__rb_rotate d x ≫= kk) Q.
Proof.
  intros Hk. unfold at_place in *. rewrite !addr_bin in *. unfold __rb_rotate.
  eapply (total_perm _ _ _ ((x, rb d (above k) c (addr a) y) :: (y, rb d x c' (addr b) (addr e)) ::
    cells x a ++ cells y b ++ cells y e ++ place_cells x k)); [rewrite !cells_bin; rbs; solve_Permutation|]. assoc.
  eapply get_child_rule; [here|]. rbs. assoc. eapply get_child_rule; [here|]. rbs. assoc.
  eapply upd_rule; [reflexivity|]. rbs. assoc.
  eapply (link_parent_rule _ _ _ ((x, _) :: (y, _) :: cells x a ++ cells y e ++ place_cells x k) b y x);
    [solve_Permutation|]. assoc.
  eapply (upd_rule y _ _ _ _ _ ((x, _) :: cells x b ++ cells x a ++ cells y e ++ place_cells x k));
    [solve_Permutation|]. rbs. assoc.
  eapply get_parent_rule; [here|]. rbs. assoc. eapply upd_rule; [reflexivity|]. rbs. assoc.
  eapply (relink_rule _ _ k _ ((x, _) :: (y, _) :: cells x b ++ cells x a ++ cells y e));
    [solve_Permutation|left|].
  eapply (upd_rule x _ _ _ _ _ ((y, _) :: cells x b ++ cells x a ++ cells y e ++ place_cells y k));
    [solve_Permutation|]. rbs.
  eapply total_perm; [|exact Hk]. rewrite cells_bin, cells_bin. rbs. solve_Permutation.
Qed.

(** ** Steps at a place *)

Section Place.
Context {A : Type}.
Implicit Types (k : place) (t a b : tree) (Q : A -> rb_mem -> Prop).

Lemma up_rule F k d c t x b (m : P A) Q :
  total (at_place F k (bin d c t x b)) m Q -> total (at_place F (mk_frame d c x b :: k) t) m Q.
Proof. intros Hm. eapply total_pre; [|exact Hm]. intros s. apply (at_place_fill F (mk_frame d c x b)). Qed.
Lemma down_rule F k d c a x b (m : P A) Q :
  total (at_place F (mk_frame d c x b :: k) a) m Q -> total (at_place F k (bin d c a x b)) m Q.
Proof. intros Hm. eapply total_pre; [|exact Hm]. intros s. apply (at_place_fill F (mk_frame d c x b)). Qed.
Lemma down_opp_rule F k d c a x b (m : P A) Q :
  total (at_place F (mk_frame (opp d) c x a :: k) b) m Q -> total (at_place F k (bin d c a x b)) m Q.
Proof. rewrite <- (bin_opp d). apply down_rule. Qed.

Lemma at_child F k d c a x b (kk : Z -> P A) Q :
  total (at_place F k (bin d c a x b)) (kk (addr a)) Q ->
  total (at_place F k (bin d c a x b)) (get_child d x ≫= kk) Q.
Proof. intros Hk. eapply get_child_rule; [rewrite cells_bin; left|]. rewrite child_rb. exact Hk. Qed.
Lemma at_child_opp F k d c a x b (kk : Z -> P A) Q :
  total (at_place F k (bin d c a x b)) (kk (addr b)) Q ->
  total (at_place F k (bin d c a x b)) (get_child (opp d) x ≫= kk) Q.
Proof. rewrite <- (bin_opp d). apply at_child. Qed.
Lemma at_parent F k d c a x b (kk : Z -> P A) Q :
  total (at_place F k (bin d c a x b)) (kk (above k)) Q ->
  total (at_place F k (bin d c a x b)) (get_parent x ≫= kk) Q.
Proof. intros Hk. eapply get_parent_rule; [rewrite cells_bin; left|]. rewrite parent_rb. exact Hk. Qed.
Lemma at_parent_tree F k t (kk : Z -> P A) Q : t <> Tip ->
  total (at_place F k t) (kk (above k)) Q -> total (at_place F k t) (get_parent (addr t) ≫= kk) Q.
Proof. destruct t as [|c l x r]; [done|]. intros _. apply (at_parent F k Left). Qed.
Lemma at_color F k d c a x b (kk : Z -> P A) Q :
  total (at_place F k (bin d c a x b)) (kk c) Q ->
  total (at_place F k (bin d c a x b)) (get_color x ≫= kk) Q.
Proof. intros Hk. eapply get_color_rule; [rewrite cells_bin; left|]. rewrite color_rb. exact Hk. Qed.
Lemma at_recolor F k d c v a x b (kk : unit -> P A) Q :
  total (at_place F k (bin d v a x b)) (kk tt) Q ->
  total (at_place F k (bin d c a x b)) (upd x (set_color v) ≫= kk) Q.
Proof.
  intros Hk. unfold at_place in *. rewrite addr_bin in *.
  eapply (upd_rule _ _ (rb d (above k) c (addr a) (addr b)) _ _ _ ((cells x a ++ cells x b) ++ place_cells x k)); [by rewrite cells_bin|].
  rewrite set_color_rb. eapply total_perm; [|exact Hk]. by rewrite cells_bin.
Qed.
Lemma at_black F k t (kk : bool -> P A) Q :
  total (at_place F k t) (kk (rooted RB_BLACK t)) Q -> total (at_place F k t) (is_black (addr t) ≫= kk) Q.
Proof. intros Hk. by eapply is_black_rule. Qed.
Lemma at_red F k t (kk : bool -> P A) Q :
  total (at_place F k t) (kk (rooted RB_RED t)) Q -> total (at_place F k t) (is_red (addr t) ≫= kk) Q.
Proof. intros Hk. by eapply is_red_rule. Qed.
Lemma at_red_bin F k d c a x b (kk : bool -> P A) Q :
  total (at_place F k (bin d c a x b)) (kk (c =? RB_RED)) Q ->
  total (at_place F k (bin d c a x b)) (is_red x ≫= kk) Q.
Proof. intros Hk. rewrite <- (addr_bin d c a x b) at 2. apply at_red. by destruct d. Qed.
Lemma at_root F k t (kk : Z -> P A) Q :
  total (at_place F k t) (kk (top (addr t) k)) Q -> total (at_place F k t) (get_root ≫= kk) Q.
Proof. apply get_root_rule. Qed.

Lemma at_distinct F k d c a x b (m : P A) Q :
  a <> Tip \/ b <> Tip -> (addr b <> addr a -> total (at_place F k (bin d c a x b)) m Q) ->
  total (at_place F k (bin d c a x b)) m Q.
Proof.
  intros Hab Hm. apply total_holds. intros Hn. apply Hm.
  rewrite cells_bin in Hn. cbn in Hn. rewrite !fmap_app, <- app_assoc in Hn. intros E.
  apply NoDup_cons in Hn as [Hz [_ Hn]%NoDup_cons]. apply NoDup_app in Hn as (_ & Hn & _).
  destruct (decide (a = Tip)) as [->|Ha], (decide (b = Tip)) as [->|Hb].
  - by destruct Hab.
  - pose proof (addr_in x b Hb) as Hin. rewrite E in Hin. cbn in Hin. set_solver.
  - pose proof (addr_in x a Ha) as Hin. rewrite <- E in Hin. cbn in Hin. set_solver.
  - pose proof (addr_in x a Ha) as Hin. apply (Hn _ Hin). rewrite <- E. apply elem_of_app. left. by apply addr_in.
Qed.

(** The side a child is on. *)
Lemma at_side F k d c a x b (kk : side -> P A) Q :
  a <> Tip \/ b <> Tip ->
  total (at_place F k (bin d c a x b)) (kk d) Q ->
  total (at_place F k (bin d c a x b)) (side_of (addr a) x ≫= kk) Q.
Proof.
  intros Hab Hk. apply at_distinct; [done|]. intros Hne. unfold side_of. assoc.
  destruct d; [apply at_child|apply (at_child_opp F k Right)]; apply skip_rule; cbn.
  - by rewrite Z.eqb_refl.
  - by destruct (Z.eqb_spec (addr b) (addr a)).
Qed.

Lemma at_above F f k t (m : P A) Q :
  (f_at f <> 0 -> total (at_place F (f :: k) t) m Q) -> total (at_place F (f :: k) t) m Q.
Proof. intros Hm s Hs. apply Hm; [|done]. apply (holds_addr _ _ _ _ _ Hs). rewrite fmap_app. cbn. set_solver. Qed.
Lemma at_nonnull F k d c a x b (m : P A) Q :
  (x <> 0 -> total (at_place F k (bin d c a x b)) m Q) -> total (at_place F k (bin d c a x b)) m Q.
Proof.
  intros Hm s Hs. apply Hm; [|done]. apply (holds_addr _ _ _ _ _ Hs). rewrite cells_bin. cbn. set_solver.
Qed.
End Place.

(** ** Balance *)

Definition black (t : tree) : Prop := rooted RB_BLACK t = true.

(** Every path has [n] black nodes, and no red node has a red child. *)
Fixpoint bal (n : nat) (t : tree) : Prop :=
  match t with
  | Tip => n = O
  | Bin c l _ r =>
      (c = RB_RED /\ black l /\ black r /\ bal n l /\ bal n r) \/
      (c = RB_BLACK /\ match n with O => False | S m => bal m l /\ bal m r end)
  end.
Definition red_black (t : tree) : Prop := black t /\ exists n, bal n t.

Definition black_above (k : place) : Prop := match k with [] => False | f :: _ => f_color f = RB_BLACK end.
(** A tree with [n] black nodes on its paths fits into the place. *)
Fixpoint fits (n : nat) (k : place) : Prop :=
  match k with
  | [] => True
  | f :: k =>
      bal n (f_tree f) /\
      ((f_color f = RB_RED /\ black (f_tree f) /\ black_above k /\ fits n k) \/
       (f_color f = RB_BLACK /\ fits (S n) k))
  end.

Lemma black_bin d c a x b : black (bin d c a x b) <-> c = RB_BLACK.
Proof. unfold black. destruct d; cbn; by rewrite Z.eqb_eq. Qed.
Lemma bal_red n d a x b :
  bal n (bin d RB_RED a x b) <-> black a /\ black b /\ bal n a /\ bal n b.
Proof. destruct d; cbn; unfold RB_RED, RB_BLACK; intuition lia. Qed.
Lemma bal_black n d a x b :
  bal n (bin d RB_BLACK a x b) <-> exists m, n = S m /\ bal m a /\ bal m b.
Proof. destruct d, n; cbn; unfold RB_RED, RB_BLACK; naive_solver. Qed.
Lemma bal_color n d c a x b : bal n (bin d c a x b) -> c = RB_RED \/ c = RB_BLACK.
Proof. destruct d; cbn; tauto. Qed.
Lemma black_not_red t : rooted RB_RED t = true -> ~ black t.
Proof. unfold black. destruct t; cbn; [done|]. unfold RB_RED, RB_BLACK. lia. Qed.

Lemma bal_not_red n t : bal n t -> rooted RB_RED t = false -> black t.
Proof.
  unfold black. destruct t as [|c l x r]; [done|]. cbn. intros [(-> & _)|(-> & _)]; [done|]. by rewrite Z.eqb_refl.
Qed.

Lemma plug_bal k : forall n t, fits n k -> bal n t -> black t \/ black_above k -> red_black (plug k t).
Proof.
  induction k as [|[d c x b] k IH]; cbn; intros n t Hk Ht Hb.
  - destruct Hb as [Hb|[]]. split; [done|by exists n].
  - destruct Hk as [Hs [(-> & Hbs & Ha & Hk)|[-> Hk]]]; unfold fill; cbn in *.
    + destruct Hb as [Hb|Hb]; [|done]. apply (IH n); [done| |by right]. by apply bal_red.
    + apply (IH (S n)); [done| |left; by apply black_bin]. apply bal_black. eauto.
Qed.

(** The nodes in order, around a place. *)
Fixpoint before (k : place) : list Z :=
  match k with
  | [] => []
  | f :: k => before k ++ match f_side f with Left => [] | Right => inorder (f_tree f) ++ [f_at f] end
  end.
Fixpoint after (k : place) : list Z :=
  match k with
  | [] => []
  | f :: k => match f_side f with Left => f_at f :: inorder (f_tree f) | Right => [] end ++ after k
  end.
Lemma inorder_plug k : forall t, inorder (plug k t) = before k ++ inorder t ++ after k.
Proof.
  induction k as [|[[] c x b] k IH]; intros t; cbn; [by rewrite app_nil_r| |]; rewrite IH; cbn;
    by rewrite <- ?app_assoc.
Qed.

(** Two subtrees with the same nodes in order in the same place. *)
Lemma inorder_plug_same k t t' : inorder t = inorder t' -> inorder (plug k t) = inorder (plug k t').
Proof. intros E. by rewrite !inorder_plug, E. Qed.
Lemma inorder_bin d c c' a a' x b b' : inorder a = inorder a' -> inorder b = inorder b' ->
  inorder (bin d c a x b) = inorder (bin d c' a' x b').
Proof. intros Ea Eb. destruct d; cbn; by rewrite Ea, Eb. Qed.
Lemma inorder_rotate d c c' c1 c1' a b e x y :
  inorder (bin d c' (bin d c a x b) y e) = inorder (bin d c1 a x (bin d c1' b y e)).
Proof. destruct d; cbn; by rewrite <- ?app_assoc. Qed.

(** ** Insertion *)

Definition tree_done F (l : list Z) (_ : unit) s : Prop :=
  exists t, at_place F [] t s /\ t <> Tip /\ (exists n, bal n t) /\ inorder t = l.

Lemma red_view d t : rooted RB_RED t = true -> exists a x b, t = bin d RB_RED a x b.
Proof. destruct t as [|c l x r]; [done|]. cbn. intros ->%Z.eqb_eq. destruct d; cbn; eauto. Qed.

Lemma done_at F k t n : t <> Tip -> fits n k -> bal n t -> k = [] \/ black_above k \/ black t ->
  total (at_place F k t) (mret tt) (tree_done F (inorder (plug k t))).
Proof.
  intros Ht Hk Hb Hc. apply ret_rule. intros s Hs. exists (plug k t). split; [by apply (proj1 (at_place_plug F k t s))|].
  destruct Hc as [->|Hc]; [by eauto|].
  destruct (plug_bal k n t Hk Hb) as [Hr Hn]; [tauto|]. split; [|done].
  destruct k as [|f k]; [done|]. clear. revert f t. induction k as [|g k IH]; intros f t; cbn; [|apply IH].
  unfold fill. by destruct (f_side f).
Qed.

(** A loop that stops: at the root, or below a black node. *)
Lemma insert_stops fuel F k t n : rooted RB_RED t = true -> fits n k -> bal n t -> k = [] \/ black_above k ->
  total (at_place F k t) (insert_loop (S fuel) (addr t)) (tree_done F (inorder (plug k t))).
Proof.
  intros Hr Hk Hb Hc. assert (t <> Tip) as Ht by (by intros ->).
  assert (exists c l x r, t = bin Left c l x r) as (c & l & x & r & ->) by (destruct t; [done|eauto 6]).
  cbn [insert_loop]. rewrite addr_bin. apply at_parent. destruct k as [|[d c' y b] k]; cbn [above].
  { cbn. eapply done_at; eauto. }
  apply at_above. cbn [f_at]. intros Hy. destruct (Z.eqb_spec y 0); [done|]. apply up_rule.
  apply at_red_bin. destruct Hc as [|Hc]; [done|]. cbn in Hc. subst c'. cbn [negb Z.eqb RB_BLACK RB_RED].
  apply down_rule. eapply done_at; eauto. right. by left.
Qed.

Lemma outer_rule {B} F k d e p t b n (kk : Z * Z -> P B) Q :
  rooted RB_RED t = true -> bal n t -> bal n b -> black b ->
  (forall t' q b', rooted RB_RED t' = true -> bal n t' -> bal n b' -> black b' ->
     inorder (bin d RB_RED t' q b') = inorder (bin e RB_RED t p b) ->
     total (at_place F k (bin d RB_RED t' q b')) (kk (addr t', q)) Q) ->
  total (at_place F k (bin e RB_RED t p b)) (np ← outer d p (addr t); kk np) Q.
Proof.
  intros Hr Ht Hb Hbb Hk. unfold outer. assoc. assert (t <> Tip) as Hn by (by intros ->).
  destruct (decide (d = e)) as [->|Hde].
  - apply at_distinct; [by left|]. intros Hne. apply at_child_opp.
    destruct (Z.eqb_spec (addr b) (addr t)); [done|]. apply skip_rule. by apply Hk.
  - assert (e = opp d) as -> by (by destruct d, e). rewrite bin_opp. apply at_child_opp. rewrite Z.eqb_refl.
    destruct (red_view d t Hr) as (l & x & r & ->). apply bal_red in Ht as (? & ? & ? & ?). assoc.
    apply rotate_rule. apply skip_rule. rewrite addr_bin.
    rewrite <- (addr_bin d RB_RED b p l) at 2. apply Hk; [by destruct d|by apply bal_red|done..|].
    rewrite bin_opp. apply inorder_rotate.
Qed.

Lemma tree_done_same F P' (m : P unit) l l' : l = l' -> total P' m (tree_done F l) -> total P' m (tree_done F l').
Proof. by intros ->. Qed.

Lemma insert_loop_rule F : forall fuel k t n, (length k < fuel)%nat -> rooted RB_RED t = true -> fits n k -> bal n t ->
  total (at_place F k t) (insert_loop fuel (addr t)) (tree_done F (inorder (plug k t))).
Proof.
  induction fuel as [|fuel IH]; [lia|]. intros k t n Hf Hr Hk Hb.
  destruct k as [|[e c p b] k]; [by eapply insert_stops; eauto|].
  destruct Hk as [Hbb Hk]. cbn in Hbb, Hk. destruct Hk as [(-> & Hblb & Ha & Hk)|[-> Hk]].
  2: { eapply insert_stops; [done| |done|by right]. cbn. by eauto. }
  destruct k as [|[d c g u] k]; [done|]. cbn in Ha. subst c. cbn in Hk. destruct Hk as [Hbu [[? _]|[_ Hk]]]; [done|].
  assert (t <> Tip) as Ht by (by intros ->). cbn [insert_loop]. apply at_parent_tree; [done|]. cbn [above f_at].
  apply at_above. cbn [f_at]. intros Hp. destruct (Z.eqb_spec p 0); [done|]. apply up_rule.
  apply at_red_bin. cbn [negb Z.eqb RB_RED]. apply at_parent. cbn [above f_at]. apply up_rule.
  rewrite <- (addr_bin e RB_RED t p b) at 2. apply at_side; [left; by destruct e|]. apply at_child_opp.
  apply down_opp_rule. apply at_red. destruct (rooted RB_RED u) eqn:Hu.
  - destruct (red_view Left u Hu) as (ul & x & ur & ->). rewrite !addr_bin.
    apply at_recolor. apply up_rule. rewrite bin_opp. apply down_rule. apply at_recolor. apply up_rule.
    apply at_recolor.
    rewrite <- (addr_bin d RB_RED (bin e RB_BLACK t p b) g (bin Left RB_BLACK ul x ur)) at 2.
    eapply tree_done_same; [|apply (IH _ _ (S n))]; [|cbn in Hf; lia|by destruct d|done|].
    + cbn. apply inorder_plug_same. unfold fill. cbn. apply inorder_bin; [by apply inorder_bin|done].
    + apply bal_red. rewrite !black_bin, !bal_black. apply bal_red in Hbu as (_ & _ & ? & ?). eauto 10.
  - apply up_rule. rewrite bin_opp. apply down_rule.
    eapply outer_rule; [done..|]. intros t' q b' Hr' Hb' Hbb' Hblb' Ho. cbn [fst snd].
    apply at_recolor. apply up_rule. apply at_recolor.
    rewrite <- (bin_opp d RB_RED), <- (bin_opp d RB_BLACK). apply rotate_rule. rewrite !bin_opp. apply down_rule.
    destruct fuel as [|fuel]; [cbn in Hf; lia|].
    eapply tree_done_same; [|eapply insert_stops; [done| |done|by right]].
    + apply (inorder_plug_same k). unfold fill. cbn.
      rewrite <- (inorder_rotate d RB_RED RB_BLACK). by apply inorder_bin.
    + cbn. split; [|by right]. apply bal_red. split_and!; try done. by eapply bal_not_red.
Qed.

(** A place in a red-black tree. *)
Lemma plug_fits k : forall t, red_black (plug k t) -> exists n, bal n t /\ fits n k /\ (black t \/ black_above k).
Proof.
  induction k as [|[d c x b] k IH]; cbn; intros t Hr.
  - destruct Hr as [Hb [n Hn]]. eauto.
  - destruct (IH _ Hr) as (n & Hn & Hk & Hb). unfold fill in *. cbn in *.
    destruct (bal_color _ _ _ _ _ _ Hn) as [-> | ->].
    + apply bal_red in Hn as (? & ? & ? & ?). exists n. split_and!; [done|done| |by left]. left. split_and!; try done.
      destruct Hb as [Hb|Hb]; [|done]. by apply black_bin in Hb.
    + apply bal_black in Hn as (m & -> & ? & ?). exists m. split_and!; [done|done|by right|by right].
Qed.

Lemma inorder_cells par t : inorder t ≡ₚ (cells par t).*1.
Proof.
  revert par. induction t as [|c l IHl x r IHr]; intros par; cbn; [done|].
  rewrite fmap_app, <- (IHl x), <- (IHr x). by rewrite <- Permutation_middle.
Qed.
Lemma inorder_place_cells p k : before k ++ after k ≡ₚ (place_cells p k).*1.
Proof.
  revert p. induction k as [|[d c x b] k IH]; intros p; cbn; [done|].
  rewrite fmap_app, <- (IH x), <- (inorder_cells x b). destruct d; cbn; solve_Permutation.
Qed.

Lemma put_fresh F r K s p n : holds F r K s -> p <> 0 -> p ∉ K.*1 ->
  holds F r ((p, n) :: K) (mk_rbm (<[p := n]> (rb_nodes s)) (rb_root s)).
Proof.
  intros [[H0 H1]%NoDup_cons H2 H3 H4] Hp Hf. split; cbn; [| | |done].
  - apply NoDup_cons. split; [set_solver|]. by apply NoDup_cons.
  - intros q m [[= -> ->]|Hq]%elem_of_cons; [apply lookup_insert_eq|].
    rewrite lookup_insert_ne; [by apply H2|]. intros <-. apply Hf. apply list_elem_of_fmap. by exists (p, m).
  - intros q Hq. rewrite lookup_insert_ne by set_solver. apply H3. set_solver.
Qed.

Lemma holds_fuel F r K s : holds F r K s -> (length K <= size (rb_nodes s))%nat.
Proof.
  intros [[_ H1]%NoDup_cons H2 _ _]. rewrite <- (length_fmap (fst : cell -> Z) K).
  rewrite <- size_dom, <- (size_list_to_set (C := gset Z)) by done. apply subseteq_size.
  intros p [[q m] [-> Hq]]%elem_of_list_to_set%list_elem_of_fmap. apply elem_of_dom. eauto.
Qed.

(** The fuel is more than the length of any path. *)
Lemma depth_fuel_rule {A} F k t (kk : nat -> P A) Q :
  (forall n, (length (cells (above k) t) + length k < n)%nat -> total (at_place F k t) (kk n) Q) ->
  total (at_place F k t) (depth_fuel ≫= kk) Q.
Proof.
  intros Hk s Hs. apply Hk; [|done]. pose proof (holds_fuel _ _ _ _ Hs) as Hl. rewrite length_app in Hl.
  assert (length k <= length (place_cells (addr t) k))%nat; [|lia].
  clear. generalize (addr t) as p. induction k as [|f k IH]; intros p; cbn; [done|].
  rewrite length_app. specialize (IH (f_at f)). lia.
Qed.

Definition link_of (k : place) : rb_link :=
  match k with [] => LinkRoot | f :: _ => LinkChild (f_side f) (f_at f) end.

Lemma link_node_rule F k node : node <> 0 -> node ∉ inorder (plug k Tip) ->
  total (at_place F k Tip) (rb_link_node node (above k) (link_of k))
    (fun _ => at_place F k (Bin RB_RED Tip node Tip)).
Proof.
  intros Hn Hf. rewrite inorder_plug in Hf. cbn in Hf. rewrite (inorder_place_cells 0) in Hf.
  unfold rb_link_node.
  eapply (total_bind _ _ _ (fun _ => holds F (top 0 k) ((node, mk_rb (above k) RB_RED 0 0) :: place_cells 0 k))).
  { intros s Hs. eexists tt, _. split; [reflexivity|]. exact (put_fresh _ _ _ _ _ (mk_rb (above k) RB_RED 0 0) Hs Hn Hf). }
  intros []. destruct k as [|f k]; cbn [link_of].
  - intros s Hs. eexists tt, _. split; [reflexivity|]. by apply (set_root_holds _ 0).
  - apply total_tail. cbn [place_cells above]. eapply upd_rule; [apply Permutation_swap|]. apply ret_rule. intros s Hs.
    unfold at_place. cbn [cells addr place_cells app top above]. rewrite set_child_rb in Hs.
    eapply holds_perm; [|exact Hs]. solve_Permutation.
Qed.

Lemma insert_color_rule F k t n : rooted RB_RED t = true -> fits n k -> bal n t ->
  total (at_place F k t) (rb_insert_color (addr t))
    (fun _ s => exists t', at_place F [] t' s /\ red_black t' /\ inorder t' = inorder (plug k t)).
Proof.
  intros Hr Hk Hb. unfold rb_insert_color. apply depth_fuel_rule. intros fuel Hf.
  eapply total_bind; [apply (insert_loop_rule F fuel k t n); [lia|done..]|]. intros [].
  apply total_exists. intros t'. intros s (Hs & Ht & [m Hm] & Hi).
  destruct t' as [|c l x r]; [done|]. revert s Hs. change (total (at_place F [] (bin Left c l x r))
    (root ← get_root; upd root (set_color RB_BLACK))
    (fun _ s => exists t', at_place F [] t' s /\ red_black t' /\ inorder t' = inorder (plug k t))).
  apply at_root. apply total_tail. apply at_recolor. apply ret_rule. intros s Hs. eexists. split; [exact Hs|].
  rewrite <- Hi. split; [|done]. split; [done|].
  destruct (bal_color m Left c l x r Hm) as [-> | ->]; [|by exists m].
  exists (S m). apply (bal_red m Left) in Hm as (_ & _ & ? & ?). apply (bal_black (S m) Left). eauto.
Qed.

(** C22: Inserting a node: linked at any free place of a red-black tree and
    recolored, the node is in the tree with the order of all nodes kept, the
    tree is red-black again, and memory outside it is unchanged. *)
Theorem rb_insert_balances F k node s :
  at_place F k Tip s -> red_black (plug k Tip) -> node <> 0 -> node ∉ inorder (plug k Tip) ->
  exists s' t,
    (rb_link_node node (above k) (link_of k) ≫= fun _ => rb_insert_color node) s = Ok (tt, s') /\
    at_place F [] t s' /\ red_black t /\ inorder t = before k ++ node :: after k.
Proof.
  intros Hs Hr Hn Hf. destruct (plug_fits k Tip Hr) as (n & Hb & Hk & _). cbn in Hb. subst n.
  assert (total (at_place F k Tip) (rb_link_node node (above k) (link_of k) ≫= fun _ => rb_insert_color node)
    (fun _ s => exists t', at_place F [] t' s /\ red_black t' /\
       inorder t' = inorder (plug k (Bin RB_RED Tip node Tip)))) as Ht.
  { eapply total_bind; [by apply link_node_rule|]. intros []. apply (insert_color_rule F k (Bin RB_RED Tip node Tip) O); [done..|].
    by apply (bal_red O Left). }
  destruct (Ht s Hs) as ([] & s' & E & t & H1 & H2 & H3). exists s', t. split_and!; try done.
  by rewrite H3, inorder_plug.
Qed.
