(* ===== verification/RbTreeErase.v ===== *)
(** * Red-black trees: removal and walking (RbTree)

    The loop after a removal lifts a subtree that lacks one black node; it ends
    at the root, at a red node, or after a rotation at a sibling.  The walks
    visit the nodes in order. *)

From S2P Require Import Prelude Total RbTree RbTreeSpec.
Implicit Types (K : list cell) (F : gmap Z rb_node) (s : rb_mem).

(** ** The loop *)

Definition blackened (t : tree) : tree := match t with Tip => Tip | Bin _ l x r => Bin RB_BLACK l x r end.
Lemma addr_blackened t : addr (blackened t) = addr t.
Proof. by destruct t. Qed.
Lemma black_blackened t : black (blackened t).
Proof. by destruct t. Qed.
Lemma inorder_blackened t : inorder (blackened t) = inorder t.
Proof. by destruct t. Qed.
Lemma blackened_bin d c a x b : blackened (bin d c a x b) = bin d RB_BLACK a x b.
Proof. by destruct d. Qed.
Lemma bal_blackened n t : rooted RB_RED t = true -> bal n t -> bal (S n) (blackened t).
Proof.
  intros Hr Hb. destruct (red_view Left t Hr) as (a & x & b & ->). rewrite blackened_bin.
  apply bal_red in Hb as (_ & _ & ? & ?). apply bal_black. eauto.
Qed.

Lemma blackened_black t : black t -> blackened t = t.
Proof. destruct t as [|c l x r]; [done|]. by intros ->%Z.eqb_eq. Qed.
Lemma addr_plug k : forall t, addr (plug k t) = top (addr t) k.
Proof. induction k as [|f k IH]; intros t; cbn; [done|]. rewrite IH. unfold fill. by rewrite addr_bin. Qed.

(** The node at [p] is to be black; then the tree is red-black. *)
Definition erase_done F (l : list Z) (p : Z) s : Prop :=
  exists k t, p = addr t /\ at_place F k t s /\ red_black (plug k (blackened t)) /\ inorder (plug k t) = l.

Lemma erase_done_same F P' (m : P Z) l l' : l = l' -> total P' m (erase_done F l) -> total P' m (erase_done F l').
Proof. by intros ->. Qed.

Lemma erase_stops_red fuel F k t n p : rooted RB_RED t = true -> bal (S n) (blackened t) -> fits (S n) k ->
  total (at_place F k t) (erase_loop (S fuel) (addr t) p) (erase_done F (inorder (plug k t))).
Proof.
  intros Hr Hb Hk. cbn [erase_loop]. apply at_black. apply at_root.
  replace (rooted RB_BLACK t) with false by (destruct t as [|c ? ? ?]; [done|]; cbn in *; unfold RB_RED, RB_BLACK in *; lia).
  cbn [andb negb]. apply ret_rule. intros s Hs. exists k, t. split_and!; try done.
  apply (plug_bal _ (S n)); [done..|left; apply black_blackened].
Qed.

Lemma erase_stops_root fuel F t n p : bal n t ->
  total (at_place F [] t) (erase_loop (S fuel) (addr t) p) (erase_done F (inorder t)).
Proof.
  intros Hb. cbn [erase_loop]. apply at_black. apply at_root. cbn [top]. rewrite Z.eqb_refl, andb_false_r.
  cbn [negb]. apply ret_rule. intros s Hs. exists [], t. split_and!; try done. cbn. split; [apply black_blackened|].
  destruct t as [|c l x r]; [by exists n|]. destruct (bal_color n Left c l x r Hb) as [-> | ->]; [|by exists n].
  exists (S n). by apply bal_blackened.
Qed.

(** The sibling, made black. *)
Lemma black_sibling_rule {A} d F k c t x b n (kk : Z -> P A) Q :
  t <> Tip \/ b <> Tip -> fits (S n) (mk_frame d c x b :: k) ->
  (forall c' b' k', fits (S n) (mk_frame d c' x b' :: k') -> black b' ->
     (c' = RB_RED \/ (c' = c /\ k' = k)) -> 
     inorder (plug k' (bin d c' t x b')) = inorder (plug k (bin d c t x b)) ->
     total (at_place F k' (bin d c' t x b')) (kk (addr b')) Q) ->
  total (at_place F k (bin d c t x b)) (black_sibling d x ≫= kk) Q.
Proof.
  intros Hne Hf Hk. unfold black_sibling. assoc. apply at_child_opp. destruct (rooted RB_RED b) eqn:Hr.
  - destruct Hf as [Hb [(_ & Hbl & _)|[Hc Hf]]]; [by apply black_not_red in Hr|]. cbn in Hb, Hc, Hf. subst c.
    destruct (red_view d b Hr) as (b1 & y & b2 & ->). rewrite addr_bin. apply down_opp_rule. assoc. apply at_color.
    rewrite Z.eqb_refl. apply bal_red in Hb as (? & ? & ? & ?).
    assoc. apply at_recolor. assoc. apply up_rule. rewrite bin_opp. apply at_recolor.
    assoc. apply rotate_rule. apply down_rule. apply at_child_opp. apply Hk; [|done|by left|].
    + cbn. split; [done|]. left. split_and!; try done. by right.
    + cbn. apply inorder_plug_same. unfold fill. cbn. apply inorder_rotate.
  - destruct b as [|cb l y r]; [destruct Hf as [Hf _]; done|]. cbn in Hr. apply down_opp_rule. assoc.
    apply (at_color _ _ Left). rewrite Hr. apply up_rule. rewrite bin_opp. apply skip_rule.
    apply (Hk c (Bin cb l y r) k); [done| |by right|done]. by destruct Hf as [Hb%bal_not_red _].
Qed.

Lemma at_blacken {A} F k t (kk : unit -> P A) Q :
  total (at_place F k (blackened t)) (kk tt) Q -> total (at_place F k t) (blacken (addr t) ≫= kk) Q.
Proof.
  intros Hk. destruct t as [|c l x r]; [by apply skip_rule|]. unfold at_place in *.
  eapply (blacken_rule _ _ _ (place_cells x k) c l x r); [done|exact Hk].
Qed.

Lemma outer_far_rule {A} d F k c t x near y far n (kk : Z -> P A) Q :
  bal n near -> bal n far -> ~ (black near /\ black far) ->
  (forall near' y' far', bal n near' -> rooted RB_RED far' = true -> bal n far' ->
     inorder (bin d RB_BLACK near' y' far') = inorder (bin d RB_BLACK near y far) ->
     total (at_place F k (bin d c t x (bin d RB_BLACK near' y' far'))) (kk y') Q) ->
  total (at_place F k (bin d c t x (bin d RB_BLACK near y far))) (outer_far d x y ≫= kk) Q.
Proof.
  intros Hn Hf Hb Hk. unfold outer_far. assoc. apply down_opp_rule. apply at_child_opp. assoc.
  apply down_opp_rule. apply at_black. apply up_rule. rewrite bin_opp.
  destruct (rooted RB_BLACK far) eqn:Hr.
  - assert (rooted RB_RED near = true) as Hrn.
    { destruct (rooted RB_RED near) eqn:E; [done|]. exfalso. apply Hb. split; [|done]. by eapply bal_not_red. }
    destruct (red_view d near Hrn) as (n1 & z & n2 & ->). apply bal_red in Hn as (? & ? & ? & ?).
    assoc. apply at_child. assoc. apply down_rule. apply at_blacken. rewrite blackened_bin. apply up_rule.
    assoc. apply at_recolor. assoc. rewrite <- (bin_opp d RB_RED), <- (bin_opp d RB_BLACK n2). apply rotate_rule.
    apply up_rule. rewrite !bin_opp. apply at_child_opp. rewrite addr_bin.
    apply Hk; [done|by destruct d|by apply bal_red|]. symmetry. apply inorder_rotate.
  - apply skip_rule. apply up_rule. rewrite bin_opp. apply Hk; [done| |done|done].
    destruct (rooted RB_RED far) eqn:E; [done|]. apply (bal_not_red n) in E; [|done]. unfold black in E. congruence.
Qed.

Lemma erase_rotate_rule d F k c t x b n :
  black b -> black t -> bal n t -> fits (S n) (mk_frame d c x b :: k) ->
  (forall near y far, b = bin d RB_BLACK near y far -> ~ (black near /\ black far)) ->
  total (at_place F k (bin d c t x b)) (erase_rotate d x (addr b)) (erase_done F (inorder (plug k (bin d c t x b)))).
Proof.
  intros Hbb Hbt Ht [Hb Hk] Hnf. cbn in Hb, Hk.
  assert (exists near y far, b = bin d RB_BLACK near y far) as (near & y & far & ->).
  { destruct b as [|c' l y r]; [done|]. apply Z.eqb_eq in Hbb as ->. destruct d; cbn; eauto. }
  apply bal_black in Hb as (m & [= <-] & Hn & Hf). rewrite addr_bin.
  unfold erase_rotate. eapply outer_far_rule; [done|done|by eapply Hnf|]. intros near' y' far' Hn' Hr' Hf' Hi.
  apply at_color. apply down_opp_rule. apply at_recolor. apply up_rule. rewrite bin_opp. apply at_recolor.
  apply down_opp_rule. apply at_child_opp. apply down_opp_rule. apply at_blacken. do 2 (apply up_rule; rewrite bin_opp).
  apply rotate_rule. apply total_tail. apply at_root. apply ret_rule. intros s Hs.
  set (t' := bin d c (bin d RB_BLACK t x near') y' (blackened far')) in *.
  assert (red_black (plug k t')) as Hp.
  { subst t'. assert (bal (S n) (bin d RB_BLACK t x near')) by (apply bal_black; eauto).
    pose proof (bal_blackened n far' Hr' Hf'). destruct Hk as [(-> & _ & Ha & Hk)|[-> Hk]].
    - apply (plug_bal _ (S n)); [done| |by right]. apply bal_red. split_and!; try done; [by apply black_bin|apply black_blackened].
    - apply (plug_bal _ (S (S n))); [done| |left; by apply black_bin]. apply bal_black. eauto. }
  exists [], (plug k t'). split_and!.
  - by rewrite addr_plug.
  - by apply (proj1 (at_place_plug F k t' s)).
  - cbn. destruct Hp as [Hp1 Hp2]. by rewrite (blackened_black _ Hp1).
  - cbn. apply inorder_plug_same. subst t'. rewrite (inorder_rotate d _ _ c RB_BLACK).
    apply inorder_bin; [done|]. rewrite <- Hi. apply inorder_bin; [done|apply inorder_blackened].
Qed.

Lemma top_in f k p : top (f_at f) k ∈ (place_cells p (f :: k)).*1.
Proof.
  revert f p. induction k as [|g k IH]; intros f p; cbn; [left|]. right. rewrite fmap_app. apply elem_of_app. right.
  exact (IH g (f_at f)).
Qed.
Lemma not_top F f k t s : at_place F (f :: k) t s -> addr t <> top (f_at f) k.
Proof.
  intros [H0 _ _ _] E. rewrite fmap_app in H0. pose proof (top_in f k (addr t)) as Hin. rewrite <- E in Hin.
  apply NoDup_cons in H0 as [Hz H0]. destruct (decide (t = Tip)) as [->|Ht].
  - apply Hz. apply elem_of_app. by right.
  - apply NoDup_app in H0 as (_ & H0 & _). apply (H0 (addr t)); [by apply addr_in|done].
Qed.

Lemma erase_loop_rule F : forall fuel k t n, (length k < fuel)%nat -> bal n t -> black t -> fits (S n) k ->
  total (at_place F k t) (erase_loop fuel (addr t) (above k)) (erase_done F (inorder (plug k t))).
Proof.
  induction fuel as [|fuel IH]; [lia|]. intros k t n Hl Ht Hbt Hk.
  destruct k as [|[d c x b] k]; [by apply (erase_stops_root _ _ _ n)|].
  assert (b <> Tip) as Hb by (intros ->; by destruct Hk as [Hk _]).
  cbn [erase_loop above f_at]. apply at_black. apply at_root. rewrite Hbt.
  eapply (total_known _ _ _ (addr t <> top x k)).
  { intros s Hs. by apply (not_top F _ _ _ _ Hs). }
  intros Hne. cbn [top f_at]. destruct (Z.eqb_spec (addr t) (top x k)); [done|]. cbn [andb negb].
  apply up_rule. apply at_side; [by right|]. eapply black_sibling_rule; [by right|done|].
  intros c' b' k' Hk' Hb' Hc Hi.
  assert (exists ol y or, b' = bin Left RB_BLACK ol y or) as (ol & y & or & ->).
  { destruct b' as [|cb l y r]; [by destruct Hk' as [? _]|]. apply Z.eqb_eq in Hb' as ->. eauto. }
  rewrite addr_bin. apply down_opp_rule. apply at_child. apply down_rule. apply at_black. apply up_rule.
  apply (at_child_opp _ _ Left). apply (down_opp_rule _ _ Left). apply at_black. apply (up_rule _ _ Right).
  change (bin Right RB_BLACK or y ol) with (bin Left RB_BLACK ol y or).
  destruct (rooted RB_BLACK ol && rooted RB_BLACK or) eqn:Hboth.
  - apply andb_true_iff in Hboth as [Hol Hor]. apply at_recolor. apply up_rule. rewrite (bin_opp d). apply at_parent.
    assert (bal n (bin Left RB_RED ol y or)) as Hred.
    { destruct Hk' as [Hbb _]. apply (bal_black _ Left) in Hbb as (m & [= <-] & ? & ?). by apply (bal_red n Left). }
    eapply erase_done_same; [etransitivity; [|exact Hi]; apply (inorder_plug_same k' (bin d c' t x (bin Left RB_RED ol y or)))|].
    { by apply inorder_bin. }
    rewrite <- (addr_bin d c' t x (bin Left RB_RED ol y or)) at 2. destruct Hk' as [_ Hk']; cbn in Hk'.
    assert (bal (S n) (bin d RB_BLACK t x (bin Left RB_RED ol y or))) as Hbal by (apply bal_black; eauto).
    destruct Hk' as [(-> & _ & Ha & Hk')|[-> Hk']].
    + destruct fuel as [|fuel]; [cbn in Hl; lia|].
      apply (erase_stops_red _ _ _ _ n); [by destruct d|by rewrite blackened_bin|done].
    + destruct Hc as [|[<- ->]]; [done|]. apply (IH _ _ (S n)); [cbn in Hl; lia|done|by apply black_bin|done].
  - apply up_rule. rewrite (bin_opp d).
    eapply erase_done_same; [exact Hi|]. rewrite <- (addr_bin Left RB_BLACK ol y or) at 2.
    apply (erase_rotate_rule _ _ _ _ _ _ _ n); try done.
    intros near y' far E [H1 H2]. unfold black in H1, H2. destruct d; cbn in E; injection E as -> -> ->; by rewrite H1, H2 in Hboth.
Qed.

(** A red-black tree with the nodes [l]. *)
Definition tree_of F (l : list Z) (_ : unit) s : Prop :=
  exists t, at_place F [] t s /\ red_black t /\ inorder t = l.

Lemma erase_color_rule F k t n : bal n t -> fits (S n) k ->
  total (at_place F k t) (__rb_erase_color (addr t) (above k)) (tree_of F (inorder (plug k t))).
Proof.
  intros Ht Hk. unfold __rb_erase_color. apply depth_fuel_rule. intros fuel Hf.
  eapply (total_bind _ _ _ (erase_done F (inorder (plug k t)))).
  { destruct (rooted RB_RED t) eqn:E.
    - destruct fuel as [|fuel]; [lia|]. apply (erase_stops_red _ _ _ _ n); [done|by apply bal_blackened|done].
    - apply (erase_loop_rule _ _ _ _ n); [lia|done|by eapply bal_not_red|done]. }
  intros p s (k' & t' & -> & Hs & Hr & Hi). revert s Hs. change (total (at_place F k' t') (blacken (addr t'))
    (tree_of F (inorder (plug k t)))).
  apply total_tail. apply at_blacken. apply ret_rule. intros s Hs. exists (plug k' (blackened t')).
  split; [by apply (proj1 (at_place_plug F k' _ s))|]. split; [done|]. rewrite <- Hi. apply inorder_plug_same, inorder_blackened.
Qed.

(** ** Taking a node out *)

(** A node [x] outside the tree, whose memory is still known. *)
Definition with_node F k t (x : Z) (n : rb_node) s : Prop :=
  holds F (top (addr t) k) ((x, n) :: cells (above k) t ++ place_cells (addr t) k) s.

Lemma holds_drop F r p n K s : holds F r ((p, n) :: K) s -> holds (<[p := n]> F) r K s.
Proof.
  intros [[H0 H1]%NoDup_cons H2 H3 H4]. cbn in H0, H1. apply NoDup_cons in H1 as [H1 H1'].
  split; [apply NoDup_cons; set_solver| | |done].
  - intros q m Hq. apply H2. by right.
  - intros q Hq. destruct (decide (q = p)) as [->|Hne].
    + rewrite lookup_insert_eq. apply H2. left.
    + rewrite lookup_insert_ne by done. apply H3. cbn. set_solver.
Qed.

(** The only child of a node, or no child. *)
Definition only_child (c : Z) (x : Z) (t0 t : tree) : Prop :=
  t0 = Bin c Tip x t \/ t0 = Bin c t x Tip.

Lemma unlink_node_rule {A} F k c x t0 t (kk : Z * Z * Z -> P A) Q :
  only_child c x t0 t ->
  (forall n, rb_parent n = above k -> total (with_node F k t x n) (kk (addr t, above k, c)) Q) ->
  total (at_place F k t0) (unlink_node x (addr t) ≫= kk) Q.
Proof.
  intros H0 Hk. assert (exists n, rb_parent n = above k /\ rb_color n = c /\
    forall s, at_place F k t0 s -> holds F (top x k) ((x, n) :: cells x t ++ place_cells x k) s) as (n & Hn & <- & H1).
  { destruct H0 as [-> | ->]; (eexists; split; [|split]; [| |intros s Hs; eapply holds_perm; [|exact Hs]; cbn; by rewrite ?app_nil_r]);
      done. }
  eapply total_pre; [exact H1|]. unfold unlink_node. assoc. eapply get_parent_rule; [left|]. assoc.
  eapply get_color_rule; [left|]. assoc. rewrite Hn.
  eapply (link_parent_rule _ _ _ ((x, n) :: place_cells x k) t x); [solve_Permutation|]. assoc.
  eapply (relink_rule _ _ k _ ((x, n) :: cells (above k) t)); [solve_Permutation|left|]. apply skip_rule.
  eapply total_pre; [|by apply (Hk n)]. intros s. apply holds_perm. solve_Permutation.
Qed.

Lemma bin_view d t : t <> Tip -> exists c a x b, t = bin d c a x b.
Proof. destruct t as [|c l x r]; [done|]. intros _. destruct d; cbn; eauto. Qed.
Lemma at_nonnull_tree {A} F k t (m : P A) Q :
  t <> Tip -> (addr t <> 0 -> total (at_place F k t) m Q) -> total (at_place F k t) m Q.
Proof. destruct t as [|c l x r]; [done|]. intros _. apply (at_nonnull F k Left). Qed.
Lemma length_cells par t : length (cells par t) = length (inorder t).
Proof. rewrite (inorder_cells par t). by rewrite length_fmap. Qed.

(** The lowest node on side [d] of a tree. *)
Lemma down_rule' {A} d F (kk : Z -> P A) Q : forall fuel t k, t <> Tip -> (length (inorder t) < fuel)%nat ->
  (forall ks c x b, plug ks (bin d c Tip x b) = t -> Forall (fun f => f_side f = d) ks ->
     total (at_place F (ks ++ k) (bin d c Tip x b)) (kk x) Q) ->
  total (at_place F k t) (down d fuel (addr t) ≫= kk) Q.
Proof.
  induction fuel as [|fuel IH]; [lia|]. intros t k Ht Hf Hk. destruct (bin_view d t Ht) as (c & a & x & b & ->).
  cbn [down]. rewrite addr_bin. assoc. apply at_child. destruct (decide (a = Tip)) as [->|Ha].
  - apply skip_rule. by apply (Hk []).
  - assert (length (inorder a) < fuel)%nat.
    { destruct d; cbn in Hf; rewrite length_app in Hf; cbn in Hf; lia. }
    apply down_rule. apply at_nonnull_tree; [done|]. intros Hx. destruct (Z.eqb_spec (addr a) 0); [done|].
    apply IH; [done|done|]. intros ks c0 x0 b0 Ep Hs.
    specialize (Hk (ks ++ [mk_frame d c x b]) c0 x0 b0). rewrite <- app_assoc in Hk. apply Hk.
    + unfold plug in *. rewrite fold_left_app, Ep. done.
    + apply Forall_app. by split; [|apply Forall_singleton].
Qed.

(** The part of a place below a node is part of its tree. *)
Lemma cells_plug ks k : forall t, cells (above (ks ++ k)) t ++ place_cells (addr t) (ks ++ k)
  ≡ₚ cells (above k) (plug ks t) ++ place_cells (addr (plug ks t)) k.
Proof.
  induction ks as [|f ks IH]; intros t; [done|]. cbn [plug fold_left]. rewrite <- IH. cbn [app]. by rewrite place_fill.
Qed.
Lemma top_plug ks k : forall t, top (addr t) (ks ++ k) = top (addr (plug ks t)) k.
Proof. induction ks as [|f ks IH]; intros t; [done|]. cbn. rewrite <- IH. unfold fill. by rewrite addr_bin. Qed.
Lemma with_node_plug F ks k t x n s : with_node F (ks ++ k) t x n s <-> with_node F k (plug ks t) x n s.
Proof. unfold with_node. rewrite top_plug. split; apply holds_perm; by rewrite cells_plug. Qed.

Lemma place_in ks f k : forall p, f_at f ∈ (place_cells p (ks ++ f :: k)).*1.
Proof.
  induction ks as [|g ks IH]; intros p; cbn; [left|]. right. rewrite fmap_app. apply elem_of_app. right. apply IH.
Qed.

(** The parent of the place the successor leaves, when the successor is at [y]. *)
Lemma successor_parent F ks c old l k t x n y s : with_node F (ks ++ mk_frame Right c old l :: k) t x n s ->
  (if above (ks ++ mk_frame Right c old l :: k) =? old then y else above (ks ++ mk_frame Right c old l :: k))
  = above (ks ++ mk_frame Right c y l :: k).
Proof.
  intros [H0 _ _ _]. destruct ks as [|f ks]; cbn in *; [by rewrite Z.eqb_refl|].
  destruct (Z.eqb_spec (f_at f) old) as [E|]; [|done]. exfalso. subst old.
  pose proof (place_in ks (mk_frame Right c (f_at f) l) k (f_at f)) as Hin. cbn in Hin.
  rewrite !fmap_app in H0. cbn in H0. apply NoDup_cons in H0 as [_ [_ H0]%NoDup_cons].
  apply NoDup_app in H0 as (_ & _ & H0). rewrite fmap_app in H0. apply NoDup_cons in H0 as [H0 _]. apply H0.
  apply elem_of_app. by right.
Qed.

Lemma take_place_rule {A} F k co l old r y n (kk : unit -> P A) Q : l <> Tip ->
  total (with_node F k (Bin co l y r) old (mk_rb (above k) co (addr r) (addr l))) (kk tt) Q ->
  total (with_node F k (Bin co l old r) y n) (take_place old y ≫= kk) Q.
Proof.
  intros Hl Hk. unfold with_node in *. cbn [addr cells app] in *. set (o := mk_rb (above k) co (addr r) (addr l)) in *.
  unfold take_place. assoc. eapply node_at_rule; [right; left|]. assoc. eapply upd_rule; [reflexivity|]. cbn [rb_parent]. assoc.
  eapply (relink_rule _ _ k _ ((y, o) :: (old, o) :: cells old l ++ cells old r)); [solve_Permutation|right; left|]. assoc.
  eapply (get_child_rule _ _ _ old o); [set_solver|]. assoc. destruct l as [|cl ll xl rl]; [done|]. cbn [child o rb_left addr cells].
  eapply (upd_rule xl _ _ _ _ _ ((y, o) :: (old, o) :: cells xl ll ++ cells xl rl ++ cells old r ++ place_cells y k));
    [solve_Permutation|]. assoc.
  eapply (get_child_rule _ _ _ old o); [set_solver|]. cbn [child o rb_right].
  eapply (link_parent_rule _ _ _ ((xl, _) :: (y, o) :: (old, o) :: cells xl ll ++ cells xl rl ++ place_cells y k) r old y);
    [solve_Permutation|].
  eapply total_perm; [|exact Hk]. cbn [cells]. solve_Permutation.
Qed.

Lemma unlink_successor_rule {A} F k co l old r (kk : Z * Z * Z -> P A) Q : l <> Tip -> r <> Tip ->
  (forall ks cy y ry n, plug ks (Bin cy Tip y ry) = r -> Forall (fun f => f_side f = Left) ks ->
     total (with_node F (ks ++ mk_frame Right co y l :: k) ry old n)
       (kk (addr ry, above (ks ++ mk_frame Right co y l :: k), cy)) Q) ->
  total (at_place F k (Bin co l old r)) (unlink_successor old ≫= kk) Q.
Proof.
  intros Hl Hr Hk. unfold unlink_successor. assoc. apply (at_child_opp _ _ Left). assoc.
  apply depth_fuel_rule. intros fuel Hf. apply (down_opp_rule _ _ Left). assoc.
  apply down_rule'; [done| |].
  { rewrite length_cells in Hf. cbn in Hf. rewrite length_app in Hf. cbn in Hf. lia. }
  intros ks cy y ry Ep Hs. assoc. apply (at_child_opp _ _ Left). assoc.
  eapply unlink_node_rule; [by left|]. intros n Hn. assoc. eapply get_parent_rule; [left|].
  rewrite Hn. cbn [opp fst snd]. set (fr := mk_frame Right co old l) in *. set (fr' := mk_frame Right co y l).
  apply (total_known _ _ _ ((if above (ks ++ fr :: k) =? old then y else above (ks ++ fr :: k)) = above (ks ++ fr' :: k))).
  { intros s Hw. by eapply (successor_parent F ks co old l k ry y n y). }
  intros Epar. rewrite Epar.
  eapply total_pre; [intros s; apply (proj1 (with_node_plug F ks (fr :: k) ry y n s))|].
  eapply total_pre; [intros s; apply (proj1 (with_node_plug F [fr] k (plug ks ry) y n s))|].
  assoc. apply take_place_rule; [done|]. apply skip_rule.
  eapply total_pre; [intros s; apply (proj2 (with_node_plug F [fr'] k (plug ks ry) old _ s))|].
  eapply total_pre; [intros s; apply (proj2 (with_node_plug F ks (fr' :: k) ry old _ s))|].
  by apply Hk.
Qed.

(** What is left where a node of color [c] was: [t] fits, or lacks one black node. *)
Definition removed (c : Z) (k : place) (t : tree) : Prop :=
  exists n, bal n t /\ ((c = RB_RED /\ black t /\ fits n k) \/ (c = RB_BLACK /\ fits (S n) k)).

Lemma removed_only c x t0 t k m : only_child c x t0 t -> bal m t0 -> fits m k -> removed c k t.
Proof.
  assert (forall d, bal m (bin d c Tip x t) -> fits m k -> removed c k t) as H.
  { intros d Hb Hk. destruct (bal_color _ _ _ _ _ _ Hb) as [-> | ->].
    - apply bal_red in Hb as (_ & ? & _ & ?). exists m. split; [done|]. by left.
    - apply bal_black in Hb as (n & -> & _ & ?). exists n. split; [done|]. by right. }
  intros [-> | ->]; [apply (H Left)|apply (H Right)].
Qed.

(** The place of a node is not the node. *)
Lemma fits_moved c x y l k ks : forall n,
  fits n (ks ++ mk_frame Right c x l :: k) -> fits n (ks ++ mk_frame Right c y l :: k).
Proof.
  induction ks as [|f ks IH]; intros n; cbn; [done|]. intros [Hb [(? & ? & Ha & Hk)|[? Hk]]].
  - split; [done|]. left. split_and!; try done; [|by apply IH]. by destruct ks.
  - split; [done|]. right. split; [done|]. by apply IH.
Qed.

Lemma plug_app ks k t : plug (ks ++ k) t = plug k (plug ks t).
Proof. unfold plug. by rewrite fold_left_app. Qed.

Lemma inorder_leftmost ks y ry cy : Forall (fun f => f_side f = Left) ks ->
  inorder (plug ks (Bin cy Tip y ry)) = y :: inorder (plug ks ry).
Proof.
  intros Hs. rewrite !inorder_plug. cbn. replace (before ks) with (@nil Z); [done|].
  induction Hs as [|[d c x b] ks E Hs IH]; cbn in *; [done|]. by rewrite <- IH, E.
Qed.

Lemma erase_finish F k t c x n l : removed c k t -> inorder (plug k t) = l ->
  total (with_node F k t x n) (if c =? RB_BLACK then __rb_erase_color (addr t) (above k) else mret tt)
    (tree_of (<[x := n]> F) l).
Proof.
  intros (m & Hb & Hc) <-. eapply total_pre; [intros s; apply holds_drop|].
  change (total (at_place (<[x := n]> F) k t) (if c =? RB_BLACK then __rb_erase_color (addr t) (above k) else mret tt)
    (tree_of (<[x := n]> F) (inorder (plug k t)))).
  destruct Hc as [(-> & Ht & Hk)|[-> Hk]]; cbn.
  - apply ret_rule. intros s Hs. exists (plug k t). split_and!; [by apply (proj1 (at_place_plug _ k t s))| |done].
    apply (plug_bal _ m); [done..|by left].
  - by apply (erase_color_rule _ _ _ m).
Qed.

Lemma erase_rule F k c l x r : red_black (plug k (Bin c l x r)) ->
  total (at_place F k (Bin c l x r)) (rb_erase x)
    (fun _ s => exists n, tree_of (<[x := n]> F) (before k ++ inorder l ++ inorder r ++ after k) tt s).
Proof.
  intros Hr. unfold rb_erase. apply (at_child _ _ Left). apply (at_child_opp _ _ Left).
  assert (forall F' k' t' n col, removed col k' t' -> inorder (plug k' t') = before k ++ inorder l ++ inorder r ++ after k ->
    total (with_node F' k' t' x n)
      (if (addr t', above k', col).2 =? RB_BLACK
       then __rb_erase_color (addr t', above k', col).1.1 (addr t', above k', col).1.2 else mret tt)
      (fun _ s => exists n', tree_of (<[x := n']> F') (before k ++ inorder l ++ inorder r ++ after k) tt s)) as Hfin.
  { intros F' k' t' n col Hrem Hi. eapply total_weaken; [by apply (erase_finish F' k' t' col x n _ Hrem Hi)|done|].
    intros [] s Hs. by exists n. }
  destruct (plug_fits k _ Hr) as (m & Hb & Hk & _).
  destruct (decide (l = Tip)) as [->|Hl]; [|destruct (decide (r = Tip)) as [->|Hrt]].
  - cbn [addr]. rewrite Z.eqb_refl. eapply unlink_node_rule; [by left|]. intros n _. apply Hfin.
    + eapply removed_only; [by left|done|done].
    + by rewrite inorder_plug.
  - apply (down_rule _ _ Left). apply at_nonnull_tree; [done|]. intros Hl0. apply up_rule. cbn [addr].
    destruct (Z.eqb_spec (addr l) 0); [done|]. rewrite Z.eqb_refl.
    eapply unlink_node_rule; [by right|]. intros n0 _. apply Hfin.
    + eapply removed_only; [by right|done|done].
    + by rewrite inorder_plug.
  - apply (down_rule _ _ Left). apply at_nonnull_tree; [done|]. intros Hl0. apply up_rule.
    apply (down_opp_rule _ _ Left). apply at_nonnull_tree; [done|]. intros Hr0. apply (up_rule _ _ Right).
    destruct (Z.eqb_spec (addr l) 0), (Z.eqb_spec (addr r) 0); try done.
    apply unlink_successor_rule; [done|done|]. intros ks cy y ry n1 Ep Hs. apply Hfin.
    + rewrite <- Ep in Hr. change (Bin c l x (plug ks (Bin cy Tip y ry))) with
        (plug [mk_frame Right c x l] (plug ks (Bin cy Tip y ry))) in Hr.
      rewrite <- !plug_app in Hr. apply plug_fits in Hr as (j & Hbj & Hkj & _).
      eapply removed_only; [by left|exact Hbj|]. by apply (fits_moved _ x).
    + rewrite plug_app, inorder_plug. cbn. rewrite <- Ep, inorder_leftmost by done.
      by rewrite <- !app_assoc.
Qed.

(** C23: Removing a node: the other nodes stay in their order, the tree is
    red-black again, and memory outside the tree is unchanged but for the
    removed node itself. *)
Theorem rb_erase_balances F k c l x r s :
  at_place F k (Bin c l x r) s -> red_black (plug k (Bin c l x r)) ->
  exists s' F' t, rb_erase x s = Ok (tt, s') /\ at_place F' [] t s' /\ red_black t /\
    inorder t = before k ++ inorder l ++ inorder r ++ after k /\
    forall p, p <> x -> F' !! p = F !! p.
Proof.
  intros Hs Hr. destruct (erase_rule F k c l x r Hr s Hs) as ([] & s' & E & n & t & H1 & H2 & H3).
  exists s', (<[x := n]> F), t. split_and!; try done. intros p Hp. by rewrite lookup_insert_ne.
Qed.

(** ** Walking *)

#[local] Arguments reverse : simpl never.

(** The nodes of a tree from side [d] on, and those beyond a place on side [d]. *)
Definition from (d : side) (t : tree) : list Z :=
  match d with Left => inorder t | Right => reverse (inorder t) end.
Definition beyond (d : side) (k : place) : list Z :=
  match d with Right => after k | Left => reverse (before k) end.

Lemma from_bin d c a x b : from d (bin d c a x b) = from d a ++ x :: from d b.
Proof. destruct d; cbn; [done|]. by rewrite reverse_app, reverse_cons, <- app_assoc. Qed.
Lemma beyond_cons d c e x b k :
  beyond d (mk_frame e c x b :: k) = (if decide (e = d) then [] else x :: from (opp d) b) ++ beyond d k.
Proof.
  destruct d, e; cbn; try done; rewrite ?app_nil_r; [done|]. rewrite !reverse_app. by cbn.
Qed.
Lemma from_lowest d ks c x b : Forall (fun f => f_side f = d) ks ->
  from d (plug ks (bin d c Tip x b)) = x :: tl (from d (plug ks (bin d c Tip x b))).
Proof.
  intros Hs. assert (exists l, from d (plug ks (bin d c Tip x b)) = x :: l) as [l ->]; [|done].
  assert (exists l, from d (bin d c Tip x b) = x :: l) as Hl by (rewrite from_bin; by destruct d; eexists).
  revert Hl. generalize (bin d c Tip x b). induction Hs as [|[e c' y t'] ks E Hs IH]; intros t [l Hl]; cbn; [by exists l|].
  apply IH. unfold fill. cbn in *. subst e. rewrite from_bin, Hl. by eexists.
Qed.

Lemma up_walk {A} F (kk : Z -> P A) Q d : forall fuel k t, t <> Tip -> (length k < fuel)%nat ->
  total (at_place F k t) (kk (hd 0 (beyond d k))) Q ->
  total (at_place F k t) (up d fuel (addr t) ≫= kk) Q.
Proof.
  induction fuel as [|fuel IH]; [lia|]. intros k t Ht Hf Hk.
  cbn [up]. assoc. apply at_parent_tree; [done|]. destruct k as [|[e c x b] k]; cbn [above f_at].
  { destruct d; apply skip_rule; exact Hk. }
  apply at_above. cbn [f_at]. intros Hx. destruct (Z.eqb_spec x 0); [done|]. apply up_rule.
  rewrite beyond_cons in Hk. destruct (decide (e = d)) as [->|Hed].
  - assoc. apply at_child. rewrite Z.eqb_refl. rewrite <- (addr_bin d c t x b) at 2.
    apply IH; [by destruct d|cbn in Hf; lia|]. eapply total_pre; [|exact Hk]. intros s Hs.
    by apply (at_place_fill F (mk_frame d c x b)).
  - assert (d = opp e) as -> by (by destruct d, e). assoc. apply at_distinct; [by left|]. intros Hne. apply at_child_opp.
    destruct (Z.eqb_spec (addr t) (addr b)); [congruence|]. apply skip_rule. cbn in Hk. by apply down_rule.
Qed.

Lemma step_from_rule F k c l x r d (a b : tree) Q : Bin c l x r = bin d c a x b ->
  (forall s, at_place F k (Bin c l x r) s -> Q (hd 0 (from (opp d) a ++ beyond d k)) s) ->
  total (at_place F k (Bin c l x r)) (step_from d x) Q.
Proof.
  intros E HQ. unfold step_from. apply depth_fuel_rule. intros fuel Hf. rewrite E in *. apply at_child.
  destruct (decide (a = Tip)) as [->|Ha].
  - cbn [addr]. rewrite Z.eqb_refl. rewrite <- (addr_bin d c Tip x b) at 2. apply total_tail.
    apply up_walk; [by destruct d|lia|]. apply ret_rule. intros s Hs. specialize (HQ s Hs). by destruct d.
  - apply down_rule. apply at_nonnull_tree; [done|]. intros Ha0. destruct (Z.eqb_spec (addr a) 0); [done|].
    apply total_tail. apply down_rule'; [done| |].
    { rewrite length_cells in Hf. assert (length (inorder a) <= length (inorder (bin d c a x b)))%nat; [|lia].
      destruct d; cbn; rewrite length_app; cbn; lia. }
    intros ks c' p b' Ep Hs. apply ret_rule. intros s Hs'.
    pose proof (from_lowest (opp d) ks c' p b' Hs) as Hl. rewrite Ep in Hl. rewrite Hl in HQ. apply HQ.
    apply (proj2 (at_place_fill F (mk_frame d c x b) k a s)).
    apply at_place_plug in Hs'. rewrite plug_app in Hs'. rewrite Ep in Hs'. by apply at_place_plug.
Qed.

Lemma keeps_node_at p : keeps id (node_at p).
Proof. intros s a s'. unfold node_at. by destruct (rb_nodes s !! p); intros [= _ <-]. Qed.
#[local] Hint Resolve keeps_node_at : keeps.
Lemma keeps_down d fuel : forall p, keeps id (down d fuel p).
Proof. induction fuel as [|fuel IH]; intros p; cbn; unfold get_child; keeps. Qed.
Lemma keeps_up d fuel : forall p, keeps id (up d fuel p).
Proof. induction fuel as [|fuel IH]; intros p; cbn; unfold get_child, get_parent; keeps. Qed.
#[local] Hint Resolve keeps_down keeps_up : keeps.
Lemma keeps_step_from d p : keeps id (step_from d p).
Proof. unfold step_from, get_child, depth_fuel. keeps. Qed.

(** The neighbours of a node; the tree stays as it is. *)
Lemma step_from_order F k c l x r d s : at_place F k (Bin c l x r) s ->
  step_from d x s = Ok (hd 0 (match d with Right => inorder r ++ after k | Left => reverse (before k ++ inorder l) end), s).
Proof.
  intros Hs. assert (exists a b, Bin c l x r = bin d c a x b /\ from (opp d) a ++ beyond d k =
    match d with Right => inorder r ++ after k | Left => reverse (before k ++ inorder l) end) as (a & b & E & Ev).
  { destruct d; [exists l, r|exists r, l]; split; try done. cbn. by rewrite reverse_app. }
  destruct (step_from_rule F k c l x r d a b (fun p _ => p = hd 0 (from (opp d) a ++ beyond d k)) E (fun _ _ => eq_refl) s Hs)
    as (p & s' & Er & ->).
  rewrite Er, Ev. by rewrite (keeps_step_from d x s _ s' Er : s' = s).
Qed.

Lemma rb_first_order F t s : at_place F [] t s -> rb_first s = Ok (hd 0 (inorder t), s).
Proof.
  intros Hs. assert (total (at_place F [] t) rb_first (fun p _ => p = hd 0 (inorder t))) as Ht.
  { unfold rb_first. apply at_root. cbn [top]. destruct (decide (t = Tip)) as [->|Hne]; [by apply ret_rule|].
    apply at_nonnull_tree; [done|]. intros H0. destruct (Z.eqb_spec (addr t) 0); [done|]. apply depth_fuel_rule.
    intros fuel Hf. rewrite length_cells in Hf. apply total_tail. apply down_rule'; [done|lia|].
    intros ks c x b Ep Hks. apply ret_rule. intros _ _. pose proof (from_lowest Left ks c x b Hks) as Hl. rewrite Ep in Hl.
    cbn in Hl. by rewrite Hl. }
  destruct (Ht s Hs) as (p & s' & E & ->). rewrite E. f_equal. f_equal.
  assert (keeps id rb_first) as Hk by (unfold rb_first, get_root, depth_fuel; keeps). exact (Hk s _ s' E).
Qed.

(** The loop over a tree: from the first node on by rb_next. *)
Fixpoint walk (n : nat) (p : Z) : P (list Z) :=
  match n with
  | O => throw OutOfFuel
  | S n => if p =? 0 then mret [] else q ← rb_next p; l ← walk n q; mret (p :: l)
  end.

Lemma before_app k k' : before (k ++ k') = before k' ++ before k.
Proof. induction k as [|f k IH]; cbn; [by rewrite app_nil_r|]. by rewrite IH, <- app_assoc. Qed.
Lemma after_app k k' : after (k ++ k') = after k ++ after k'.
Proof. induction k as [|f k IH]; cbn; [done|]. by rewrite IH, <- app_assoc. Qed.

(** The place of a node in the order. *)
Lemma find_place x l1 l2 : forall t, inorder t = l1 ++ x :: l2 ->
  exists k c l r, plug k (Bin c l x r) = t /\ before k ++ inorder l = l1 /\ inorder r ++ after k = l2.
Proof.
  intros t. revert l1 l2. induction t as [|c l IHl y r IHr]; cbn; intros l1 l2 E; [by destruct l1|].
  assert ((exists m, l1 = inorder l ++ y :: m /\ inorder r = m ++ x :: l2) \/ (l1 = inorder l /\ y = x /\ inorder r = l2) \/
    (exists m, inorder l = l1 ++ x :: m /\ l2 = m ++ y :: inorder r)) as [(m & -> & E')|[(-> & -> & <-)|(m & E' & ->)]].
  { apply app_eq_inv in E as [(m & E1 & E2)|(m & E1 & E2)].
    - destruct m as [|z m]; injection E2 as -> E2; [right; left; rewrite app_nil_r in E1; by rewrite E1|].
      right; right. exists m. by rewrite E1, E2.
    - destruct m as [|z m]; injection E2 as -> E2; [right; left; rewrite app_nil_r in E1; by rewrite E1|].
      left. exists m. by rewrite E1, E2. }
  - destruct (IHr _ _ E') as (k & c0 & l0 & r0 & Ep & <- & <-). exists (k ++ [mk_frame Right c y l]), c0, l0, r0.
    rewrite plug_app, Ep, before_app, after_app. split; [done|]. cbn. by rewrite app_nil_r, <- !app_assoc.
  - exists [], c, l, r. cbn. by rewrite app_nil_r.
  - destruct (IHl _ _ E') as (k & c0 & l0 & r0 & Ep & <- & <-). exists (k ++ [mk_frame Left c y r]), c0, l0, r0.
    rewrite plug_app, Ep, before_app, after_app. split; [done|]. cbn. by rewrite app_nil_r, <- !app_assoc.
Qed.

Lemma walk_from F t s : at_place F [] t s -> forall l2 l1, inorder t = l1 ++ l2 ->
  walk (S (length l2)) (hd 0 l2) s = Ok (l2, s).
Proof.
  intros Hs. induction l2 as [|x l2 IH]; intros l1 E; [done|].
  destruct (find_place x l1 l2 t E) as (k & c & l & r & Ep & _ & Ea). rewrite <- Ep in Hs. apply at_place_plug in Hs.
  cbn [hd walk length].
  assert (x <> 0) as Hx by (apply (holds_addr _ _ _ _ x Hs); rewrite fmap_app; cbn; set_solver).
  destruct (Z.eqb_spec x 0); [done|]. unfold rb_next.
  rewrite (M_bind_val _ _ _ _ _ (step_from_order F k c l x r Right s Hs)). rewrite Ea.
  rewrite (M_bind_val _ _ s l2 s); [done|]. apply (IH (l1 ++ [x])). by rewrite <- app_assoc.
Qed.


(** ** Replacing a node *)

Lemma replace_rule F k c l x r new : new <> 0 -> new ∉ inorder (plug k (Bin c l x r)) ->
  total (at_place F k (Bin c l x r)) (rb_replace_node x new)
    (fun _ => with_node F k (Bin c l new r) x (mk_rb (above k) c (addr r) (addr l))).
Proof.
  intros H0 Hn. unfold rb_replace_node, at_place. cbn [addr cells app]. set (v := mk_rb (above k) c (addr r) (addr l)).
  eapply get_parent_rule; [left|]. cbn [rb_parent v].
  eapply (relink_rule _ _ k _ ((x, v) :: cells x l ++ cells x r)); [solve_Permutation|left|].
  eapply (get_child_rule _ _ _ x v); [set_solver|].
  eapply (link_parent_rule _ _ _ ((x, v) :: cells x r ++ place_cells new k) l x); [solve_Permutation|].
  eapply (get_child_rule _ _ _ x v); [set_solver|].
  eapply (link_parent_rule _ _ _ ((x, v) :: cells new l ++ place_cells new k) r x); [solve_Permutation|].
  eapply (node_at_rule _ _ _ x v); [set_solver|]. intros s Hs. eexists tt, _. split; [reflexivity|].
  unfold with_node. cbn [addr cells app].
  eapply holds_perm; [|apply (put_fresh _ _ _ _ new v Hs H0)]; [solve_Permutation|].
  intros Hin. apply Hn. rewrite inorder_plug. cbn.
  rewrite (inorder_cells new l), (inorder_cells new r).
  rewrite !fmap_app in Hin. cbn in Hin. rewrite !fmap_app, <- (inorder_place_cells new k) in Hin. set_solver.
Qed.

(** A replaced node is where the old one was, in the same tree. *)
Lemma rb_replace_node_at F k c l x r new s : at_place F k (Bin c l x r) s -> new <> 0 ->
  new ∉ inorder (plug k (Bin c l x r)) ->
  exists s' F', rb_replace_node x new s = Ok (tt, s') /\ at_place F' k (Bin c l new r) s' /\
    forall p, p <> x -> F' !! p = F !! p.
Proof.
  intros Hs H0 Hn. destruct (replace_rule F k c l x r new H0 Hn s Hs) as ([] & s' & E & Hs').
  eexists s', _. split_and!; [done|by apply holds_drop|]. intros p Hp. by rewrite lookup_insert_ne.
Qed.

(** ** A tree in memory *)

Definition mem_of (t : tree) : rb_mem := mk_rbm (list_to_map (cells 0 t)) (addr t).

Lemma mem_of_place k t : NoDup (0 :: inorder (plug k t)) -> at_place ∅ k t (mem_of (plug k t)).
Proof.
  intros Hn. apply at_place_plug. unfold at_place, mem_of. cbn [top above place_cells]. rewrite app_nil_r.
  rewrite (inorder_cells 0) in Hn. pose proof Hn as [_ Hn']%NoDup_cons. split; cbn; [done| | |done].
  - intros p n Hp. by apply elem_of_list_to_map.
  - intros p Hp. by apply not_elem_of_list_to_map_1.
Qed.

Definition demo_place : place := [mk_frame Right RB_RED 30 Tip; mk_frame Right RB_BLACK 20 (Bin RB_RED Tip 10 Tip)].
Definition demo_tree : tree :=
  Bin RB_BLACK (Bin RB_BLACK Tip 10 Tip) 20 (Bin RB_RED (Bin RB_BLACK Tip 25 Tip) 30 (Bin RB_BLACK Tip 35 (Bin RB_RED Tip 40 Tip))).
Definition demo_erased : place := [mk_frame Left RB_BLACK 20 (Bin RB_RED (Bin RB_BLACK Tip 25 Tip) 30 (Bin RB_BLACK Tip 35 (Bin RB_RED Tip 40 Tip)))].

Lemma demo_red_black : red_black (plug demo_place Tip) /\ red_black demo_tree.
Proof. split; (split; [reflexivity|]); [exists 1%nat|exists 2%nat]; vm_compute; intuition. Qed.

Lemma rb_insert_balances_witness :
  exists s' t,
    (rb_link_node 40 30 (LinkChild Right 30) ≫= fun _ => rb_insert_color 40) (mem_of (plug demo_place Tip)) = Ok (tt, s') /\
    at_place ∅ [] t s' /\ red_black t /\ inorder t = [10; 20; 30; 40].
Proof.
  apply (rb_insert_balances ∅ demo_place 40 (mem_of (plug demo_place Tip))).
  - apply mem_of_place. apply (bool_decide_unpack (NoDup _)). exact I.
  - apply demo_red_black.
  - done.
  - apply (bool_decide_unpack (40 ∉ _)). exact I.
Defined.

Lemma rb_erase_balances_witness :
  exists s' F' t, rb_erase 10 (mem_of demo_tree) = Ok (tt, s') /\ at_place F' [] t s' /\ red_black t /\
    inorder t = [20; 25; 30; 35; 40] /\ forall p, p <> 10 -> F' !! p = (∅ : gmap Z rb_node) !! p.
Proof.
  apply (rb_erase_balances ∅ demo_erased RB_BLACK Tip 10 Tip (mem_of demo_tree)).
  - apply (mem_of_place demo_erased). apply (bool_decide_unpack (NoDup _)). exact I.
  - apply demo_red_black.
Defined.

